(* ===== verification/_CoqProject ===== *)
-Q . S2P
Prelude.v
Mktime.v
Vsprintf.v
TaskStruct.v
Sched.v
Exit.v
Fork.v
Ptree.v
Signal.v
Sys.v
Memory.v
Paging.v
Buffer.v
Cache.v
Bread.v
Blk.v
Elevator.v
Queue.v
Console.v
Screen.v
Tty.v
TtyOk.v
TtyDev.v
ConInit.v
TtyIoctl.v
Fs.v
Minix.v
Store.v
MinixOk.v
Bmap.v
Truncate.v
Inode.v
Super.v
Pipe.v
InodeOk.v
Bitmap.v
Dir.v
Namei.v
DirOk.v
AddOk.v
NameiOk.v
Files.v
ReadWrite.v
FileOk.v
FdOk.v
Hd.v
HdOk.v
Partition.v
PartOk.v
Exec.v
ExecOk.v
Select.v
SelectOk.v
Ptrace.v
PtraceOk.v
Str.v
StrOk.v
Entry.v
EntryOk.v
Gates.v
GatesOk.v
Init.v
InitOk.v
Serial.v
SerialOk.v
Keyboard.v
Segment.v
Report.v
