(* ===== verification/Prelude.v ===== *)
(** * A verification library for the copy0.12 kernel (Linux 0.12 in C)

    The program is a small Unix kernel for the i386: a scheduler with timers and
    signals, processes with a tree of parents and children, paged memory with
    copy on write and swapping, a buffer cache over a layer of block requests
    and a hard disk, terminals on consoles, serial lines and pseudo terminals, and
    a MINIX file system with path names, open files and programs.  This
    library translates the C code into executable definitions, function by
    function under the names of the source, and proves what makes the parts
    correct.

    ** How C becomes Rocq

    - Integers are [Z]; [int] and [long] have 32 bits, and wrap-around is written
      out with [u8], [u16], [u32] and [s32].  A [long] used as a set of bits is
      kept as its unsigned pattern.
    - A function that changes state is a value of the monad [M S A]: it runs on
      a state and gives [Ok a s], or [Halt h s] when the kernel does not go on.
      The reasons [h] are those of the C code: [Panic msg], [Exit code] (the
      running task does not go on), [Fault] (a null or wild pointer, an index
      outside its array), and [Hang], when a loop has used up its fuel.
    - A loop without an obvious bound is [iter n body]; [n] is the fuel.  Where a
      theorem says that the code returns, the fuel it needs is a hypothesis
      ([length typed < patience], and the like) or is shown to be enough for every
      state ([schedule_terminates], [vsprintf_terminates], [swap_out_terminates],
      [find_empty_process_fresh]).  Loops that can only run as often as an array
      or a ring is long have that length as fuel.
    - Structures are records, arrays are lists with [aget] and [aset] (outside
      the array the access faults), pointers to structures are indices or keys
      of a heap, with [None] for [NULL].
    - A call into a part of the kernel that is not in the state at hand (closing
      a file, a write to user memory, a message of [printk]) is recorded as an
      event of [trace], with its arguments, in order.
    - While a task sleeps, other tasks and interrupts change the state.  What
      they do is an argument: the interfaces [BlockLayer] (Buffer), [Drivers]
      (Blk), [TtyEnv] (Tty) and [FsEnv] (Fs), with the rules they keep as laws in
      [BlockLayerOk] and [DriversOk].  Devices and parts of the kernel that a file
      only calls are interfaces as well: [HdPorts], [SerialPorts] with the laws
      [Uart], [CharDevices], [ReadAhead], [SelectDevices] with [SelectStable],
      [UserPages] and [PageAlloc] with [ArgPages], and [Syscalls] for the first
      program.  Each set of laws has an instance in the file that uses it.  Two of them
      are other parts of the kernel: the request layer is shown to be an instance of the
      interface the buffer cache is verified against, and the page allocator and the
      page tables of [Memory] one of [ArgPages].
    - Hardware that can refuse is an argument too: whether a transfer to the swap device
      succeeds ([swap_env]), what the disk and the serial chip answer.  Loading a
      selector into a segment register is checked as the processor checks it.
    - The file system reaches the disk through the interface [BufferCache] with
      the laws [BufferCacheOk] of [Store], which a cache that keeps every block
      satisfies.  A loop that starts over when it has waited for others is run
      [patience] times; its theorems are about states where nobody holds the lock,
      and one round is enough.

    Some lines of the source do not compile (a missing semicolon or comma, a
    misspelt name, a missing argument).  They are read as their indentation or
    the other uses of the name show; the manifest lists each such place.

    ** The files

    - [Prelude]: machine integers, bits, arrays, the monad with its rules for
      symbolic execution, tactics and the hint database [kern].
    - [Mktime]: [kernel/mktime.c].  [Vsprintf]: [kernel/vsprintf.c].
    - [TaskStruct]: the data of [include/linux/sched.h] and [include/signal.h];
      the state [kst] of the process side (the heap of tasks, the process table,
      the running task, the clock, wait queues, timers).
    - [Sched]: [kernel/sched.c].  [Exit]: [kernel/exit.c].  [Fork]:
      [kernel/fork.c].  [Ptree]: the process tree as an invariant, and that
      [sys_fork], [release] and [sys_waitpid] respect it.  [Signal]:
      [kernel/signal.c] and [include/asm/segment.h].  [Sys]: [kernel/sys.c].
    - [Memory]: [mm/memory.c], [mm/swap.c] and the first page tables of [boot/head.S];
      [Paging]: theorems about them.
    - [Buffer]: [fs/buffer.c]; [Cache] and [Bread]: the invariant of the cache
      and theorems.  [Blk]: [kernel/blk_drv/ll_rw_blk.c] and [blk.h];
      [Elevator]: theorems, and the request layer as a [BlockLayer].
    - [Queue]: the queue macros of [include/linux/tty.h].  [Console]: the
      interpreter of [kernel/chr_drv/console.c]; [Screen]: its invariant.
      [Tty]: [tty_io.c], [pty.c] and the terminal side of [console.c]; [TtyOk]:
      theorems.  [TtyDev]: setting up and switching terminals; [ConInit]:
      theorems.  [TtyIoctl]: [tty_ioctl.c].
    - [Fs]: the tables of [include/linux/fs.h] and the locks of [fs/super.c].
      [Minix]: [fs/minix/bitmap.c], [inode.c] and [truncate.c]; [Store]: what the
      buffer cache promises; [MinixOk], [Bmap] and [Truncate]: theorems about
      zones and files.  [Inode]: [fs/inode.c]; [InodeOk]: theorems.  [Super]: the
      rest of [fs/super.c] and [minix_read_super].  [Pipe]: [fs/pipe.c] with its
      theorems.  [Bitmap]: [fs/bitmap.c] and [fs/truncate.c], older versions of
      MINIX functions that [open_namei] still calls.
    - [Dir]: [fs/minix/namei.c]; [DirOk] and [AddOk]: theorems about directories.
      [Namei]: [fs/namei.c]; [NameiOk]: theorems.
    - [Files]: [fs/open.c], [fcntl.c], [stat.c] and [ioctl.c]; [FdOk]: theorems
      about descriptors.  [ReadWrite]: [fs/read_write.c], [file_dev.c],
      [block_dev.c] and [char_dev.c]; [FileOk]: theorems about reading and writing.
      [Select] and [SelectOk]: [fs/select.c].  [Exec] and [ExecOk]: [fs/exec.c].
    - [Hd] and [HdOk]: the driver in [kernel/blk_drv/hd.c]; [Partition] and
      [PartOk]: the partition tables it reads.
    - [Ptrace] and [PtraceOk]: [kernel/ptrace.c].  [Str] and [StrOk]:
      [include/string.h], as the loops of its assembly.  [Segment]:
      the copies of [include/asm/segment.h].
    - [Entry] and [EntryOk]: [kernel/sys_call.S], [kernel/asm.S] and the system call
      table.  [Gates] and [GatesOk]: [kernel/traps.c], the gates of
      [include/asm/system.h] and those [boot/head.S] starts with.  [Init] and [InitOk]: [init/main.c].
    - [Serial] and [SerialOk]: [kernel/chr_drv/serial.c] and [rs_io.S].
      [Keyboard]: [kernel/chr_drv/keyboard.S].
      [Report]: [show_mem], [show_state], [do_get_ps_info] and [sched_init].

    ** What the theorems show

    - Numbers and text: [kernel_mktime] is the Gregorian calendar; the text
      [number] prints reads back as the number; [vsprintf] ends, and returns exactly
      when the arguments its format reads were passed.
    - Scheduling: [schedule] picks the runnable task with the largest time slice
      and ends when priorities are positive; [sys_nice] can break that; [wake_up]
      wakes a whole queue; ticks call exactly the timers that are due;
      [add_timer] delays later timers.
    - Processes: the tree stays well formed under [sys_fork] and [release];
      [sys_waitpid] on every branch; process numbers are fresh; failures of
      [sys_fork] change nothing; a pending continue excludes a pending stop;
      signals respect users; SIGKILL is never caught; the frame a handler gets;
      no sequence of the calls of [sys.c] gains a privilege; limits only go down.
    - Memory: copy on write is invisible to address spaces; a page survives
      being swapped out and in unless the device gives an error, which is not noticed; pages are handed out once and empty; the scan of
      the swapper ends.
    - Blocks: whatever other tasks and drivers do within the rules of the cache,
      [bread] returns the one up-to-date buffer of the block and keeps ring, hash
      queues and reference counts in order; a driver's queue is an
      elevator that keeps the order of the waiting requests; the request layer keeps the rules the cache relies on.
    - Terminals: every sequence of characters leaves the console in order and
      within its memory; text that is written is on the screen; hardware and software
      scrolling show the same; the line discipline, with its echo on the screen, is a
      line editor on lists; consoles do not overlap; modes
      are read back as they were set.
    - Files: a file is a map from block numbers to blocks.  [minix_create_block]
      fills a hole with a block of zeros, [minix_bmap] looks a block up,
      [minix_truncate] gives back exactly the zones of the file; neither touches
      another file; a zone taken and given back leaves the zone map as it was; an
      inode survives its way to the disk; a pipe is a queue of bytes.
    - Names: [minix_find_entry] finds the first entry of a name; a name that was
      added is found, and no other entry changes; following links ends after six;
      permissions are those of the owner, the group or the others.
    - Open files: what is written is read back, over block borders and holes; a
      descriptor that was duplicated can be closed; [do_select] says exactly what
      is ready and leaves the wait queues as they were.
    - Programs: the arguments and the environment arrive at the new program, whole
      and in order, in its address space, with the tables that point to them; a traced task's memory
      reads as it was written.
    - Devices: a read of the hard disk gives the buffer what the disk sends; the
      partition tables are read to their end whatever they hold; every character
      of a serial line is sent once and in order; the keyboard writes behind its
      queue.
    - Strings: [strtok] gives the words between separators, [memmove] copies
      overlapping areas, [strstr] finds the first place; the copies between
      segments copy every byte.
    - Entry and start: a system call gives the registers back; an unknown one
      ends the program; all 256 vectors have the gates they should; memory is given to the allocator
      from the buffers to its end; the clock is read as one date; the first shell
      has the terminal; [show_mem] ends
      unless a page directory entry points above the memory.

    Properties of kind [error] state what the code does where it goes wrong; the
    hypotheses are the states in which it does.

    ** What is not modelled

    - The boot loader and the set-up code run before the kernel and are
      access to the BIOS and the processor, as is [head.S] but for the tables it
      builds; [page.S] only saves registers and calls
      [do_no_page] or [do_wp_page].
    - [printk] and [panic] are [vsprintf] and [console_print], which are modelled;
      their callers record the message as an event.
    - [ramdisk.c], [floppy.c], [math_emulate.c] and most of [lib/] have no code that
      runs; the system calls of [lib/] are instances of the macros of [unistd.h],
      whose result is [syscall_result].
    - Ports whose only effect is on hardware (the interrupt controller's mask, the
      beeper, resetting the machine through the keyboard).
    - Functions that nothing calls: [empty_dir] of [fs/namei.c] and [check_char_dev]
      of [fs/open.c], older copies of functions of [fs/minix/], and [math_state_restore]
      of [kernel/sched.c], whose gate is commented out; the state of the coprocessor is
      not kept.  [match] of
      [fs/namei.c] is the text of [minix_match], which stands for it. *)

From Stdlib Require Export ZArith Lia.
From stdpp Require Export base gmap list strings numbers.
Export stdpp.list_basics.list.
Export stdpp.list_relations.list.

#[global] Open Scope Z_scope.

(** ** Machine integers

    The kernel is compiled with [-m32]: [int] and [long] have 32 bits,
    [short] 16 and [char] 8.  A value is a [Z]; the wrap-around of an
    operation is written out with these functions. *)

Definition u8 (z : Z) : Z := z mod 2 ^ 8.
Definition u16 (z : Z) : Z := z mod 2 ^ 16.
Definition u32 (z : Z) : Z := z mod 2 ^ 32.
Definition s32 (z : Z) : Z := (z + 2 ^ 31) mod 2 ^ 32 - 2 ^ 31.

Definition in_u8 (z : Z) : Prop := 0 <= z < 256.
Definition in_u16 (z : Z) : Prop := 0 <= z < 65536.
Definition in_u32 (z : Z) : Prop := 0 <= z < 4294967296.
Definition in_s32 (z : Z) : Prop := -2147483648 <= z < 2147483648.

Create HintDb kern discriminated.

Lemma u8_range z : 0 <= u8 z < 256.
Proof. unfold u8. apply Z.mod_pos_bound. lia. Qed.

Lemma u16_range z : 0 <= u16 z < 65536.
Proof. unfold u16. apply Z.mod_pos_bound. lia. Qed.

Lemma u32_range z : 0 <= u32 z < 4294967296.
Proof. unfold u32. apply Z.mod_pos_bound. lia. Qed.

Lemma s32_range z : -2147483648 <= s32 z < 2147483648.
Proof.
  unfold s32. pose proof (Z.mod_pos_bound (z + 2 ^ 31) (2 ^ 32) ltac:(lia)). lia.
Qed.

Lemma u8_small z : in_u8 z -> u8 z = z.
Proof. unfold u8, in_u8. intros. apply Z.mod_small. lia. Qed.

Lemma u16_small z : in_u16 z -> u16 z = z.
Proof. unfold u16, in_u16. intros. apply Z.mod_small. lia. Qed.

Lemma u32_small z : in_u32 z -> u32 z = z.
Proof. unfold u32, in_u32. intros. apply Z.mod_small. lia. Qed.

Lemma s32_small z : in_s32 z -> s32 z = z.
Proof. unfold s32, in_s32. intros. rewrite Z.mod_small; lia. Qed.

Lemma u32_u32 z : u32 (u32 z) = u32 z.
Proof. apply u32_small, u32_range. Qed.

(** [int] to [unsigned] and back keeps the bits. *)
Lemma u32_s32 z : u32 (s32 z) = u32 z.
Proof.
  unfold u32, s32. rewrite Zminus_mod_idemp_l.
  f_equal. lia.
Qed.

Lemma s32_u32 z : s32 (u32 z) = s32 z.
Proof.
  unfold u32, s32. rewrite Zplus_mod_idemp_l. reflexivity.
Qed.

#[export] Hint Resolve u8_range u16_range u32_range s32_range : kern.

(** C truth: a value is true when it is not zero. *)
Definition truth (z : Z) : bool := negb (z =? 0).
Definition b2z (b : bool) : Z := if b then 1 else 0.

Lemma truth_b2z b : truth (b2z b) = b.
Proof. by destruct b. Qed.

(** [word_bit n]: the value with only bit [n] set. *)
Definition word_bit (n : Z) : Z := Z.shiftl 1 n.

Lemma testbit_word_bit n i : 0 <= n -> Z.testbit (word_bit n) i = (i =? n).
Proof.
  intros Hn. unfold word_bit. rewrite Z.shiftl_1_l.
  destruct (Z.eqb_spec i n) as [->|Hne].
  - by apply Z.pow2_bits_true.
  - apply Z.pow2_bits_false. congruence.
Qed.

(** Evaluates the bits of shifts, masks and combinations at an index whose
    position [lia] can tell. *)
Ltac bit_simpl :=
  repeat match goal with
  | |- context [Z.testbit (Z.lor ?a ?b) ?i] => rewrite (Z.lor_spec a b i)
  | |- context [Z.testbit (Z.land ?a ?b) ?i] => rewrite (Z.land_spec a b i)
  | |- context [Z.testbit (Z.ldiff ?a ?b) ?i] => rewrite (Z.ldiff_spec a b i)
  | |- context [Z.testbit (Z.shiftr ?a ?n) ?i] => rewrite (Z.shiftr_spec a n i) by lia
  | |- context [Z.testbit (Z.shiftl ?a ?n) ?i] =>
      first [rewrite (Z.shiftl_spec_low a n i) by lia | rewrite (Z.shiftl_spec_high a n i) by lia]
  | |- context [Z.testbit (Z.ones ?n) ?i] => rewrite (Z.testbit_ones_nonneg n i) by lia
  | |- context [?x <? ?y] => first [rewrite (proj2 (Z.ltb_lt x y)) by lia | rewrite (proj2 (Z.ltb_ge x y)) by lia]
  end;
  rewrite ?andb_true_r, ?andb_false_r, ?orb_false_r, ?orb_false_l.

Lemma land_ones_small z n : 0 <= n -> 0 <= z < 2 ^ n -> Z.land z (Z.ones n) = z.
Proof. intros. rewrite Z.land_ones, Z.mod_small; lia. Qed.

Lemma testbit_above z n i : 0 <= z < 2 ^ n -> 0 <= n -> n <= i -> Z.testbit z i = false.
Proof.
  intros Hz Hn Hi. destruct (Z.eq_dec z 0) as [->|]; [apply Z.bits_0|].
  apply Z.bits_above_log2; [lia|]. apply Z.log2_lt_pow2; [lia|].
  eapply Z.lt_le_trans; [apply Hz|]. apply Z.pow_le_mono_r; lia.
Qed.

(** The offset in a page and the address of a page. *)
Lemma land_page_off z : Z.land z 0xfff = z mod 4096.
Proof. exact (Z.land_ones z 12 ltac:(lia)). Qed.

Lemma ldiff_ones z n : 0 <= n -> Z.ldiff z (Z.ones n) = 2 ^ n * (z / 2 ^ n).
Proof. intros. rewrite Z.ldiff_ones_r, Z.shiftr_div_pow2, Z.shiftl_mul_pow2 by lia. lia. Qed.

Lemma land_page_mask z : in_u32 z -> Z.land z 0xfffff000 = 4096 * (z / 4096).
Proof.
  intros Hz. change 4096 with (2 ^ 12). rewrite <-(ldiff_ones z 12) by lia. change 0xfffff000 with (Z.ldiff (Z.ones 32) (Z.ones 12)).
  apply Z.bits_inj'. intros i Hi. rewrite Z.land_spec, !Z.ldiff_spec, !Z.testbit_ones_nonneg by lia.
  destruct (Z.ltb_spec i 32); [done|]. by rewrite (testbit_above z 32 i Hz) by lia.
Qed.

(** ** Arrays

    A C array is a [list]; an access out of range is undefined behaviour and
    gives [None], which the monad below turns into [Fault]. *)

Definition aget {A} (l : list A) (i : Z) : option A :=
  if i <? 0 then None else l !! Z.to_nat i.

Definition aset {A} (l : list A) (i : Z) (x : A) : option (list A) :=
  if (i <? 0) || (Z.of_nat (length l) <=? i) then None
  else Some (<[Z.to_nat i := x]> l).

Lemma aget_Some_range {A} (l : list A) i x :
  aget l i = Some x -> 0 <= i < Z.of_nat (length l).
Proof.
  unfold aget. destruct (Z.ltb_spec i 0); [done|].
  intros H1%lookup_lt_Some. lia.
Qed.

Lemma aget_in_range {A} (l : list A) i :
  0 <= i < Z.of_nat (length l) -> exists x, aget l i = Some x.
Proof.
  intros Hi. unfold aget. destruct (Z.ltb_spec i 0); [lia|].
  apply lookup_lt_is_Some_2. lia.
Qed.

Lemma aset_in_range {A} (l : list A) i x :
  0 <= i < Z.of_nat (length l) -> aset l i x = Some (<[Z.to_nat i := x]> l).
Proof.
  intros Hi. unfold aset.
  destruct (Z.ltb_spec i 0); [lia|]. destruct (Z.leb_spec (Z.of_nat (length l)) i); [lia|]. done.
Qed.

Lemma aset_Some {A} (l l' : list A) i x :
  aset l i x = Some l' -> 0 <= i < Z.of_nat (length l) /\ l' = <[Z.to_nat i := x]> l.
Proof.
  unfold aset. destruct (Z.ltb_spec i 0); [done|].
  destruct (Z.leb_spec (Z.of_nat (length l)) i); [done|]. simpl. intros [= <-]. split; [lia|done].
Qed.

Lemma aset_length {A} (l l' : list A) i x : aset l i x = Some l' -> length l' = length l.
Proof. intros [_ ->]%aset_Some. apply length_insert. Qed.

Lemma aget_aset_eq {A} (l l' : list A) i x : aset l i x = Some l' -> aget l' i = Some x.
Proof.
  intros [Hi ->]%aset_Some. unfold aget. destruct (Z.ltb_spec i 0); [lia|].
  apply list_lookup_insert_eq. lia.
Qed.

Lemma aget_aset_ne {A} (l l' : list A) i j x :
  i <> j -> aset l i x = Some l' -> aget l' j = aget l j.
Proof.
  intros Hne [Hi ->]%aset_Some. unfold aget. destruct (Z.ltb_spec j 0); [done|].
  apply list_lookup_insert_ne. lia.
Qed.

Lemma aget_insert_ne {A} (l : list A) (i j : Z) x :
  0 <= i -> i <> j -> aget (<[Z.to_nat i := x]> l) j = aget l j.
Proof.
  intros ??. unfold aget. destruct (Z.ltb_spec j 0); [done|].
  apply list_lookup_insert_ne. lia.
Qed.

Lemma aget_insert_eq {A} (l : list A) (i : Z) x :
  0 <= i < Z.of_nat (length l) -> aget (<[Z.to_nat i := x]> l) i = Some x.
Proof.
  intros ?. unfold aget. destruct (Z.ltb_spec i 0); [lia|].
  apply list_lookup_insert_eq. lia.
Qed.

Lemma drop_insert_0 {A} (l : list A) n x : (n < length l)%nat -> <[0%nat := x]> (drop n l) = x :: drop (S n) l.
Proof.
  intros Hn. destruct (drop n l) as [|y r] eqn:E.
  - apply (f_equal length) in E. rewrite length_drop in E. cbn in E. lia.
  - cbn. f_equal. replace (S n) with (n + 1)%nat by lia. by rewrite <-drop_drop, E.
Qed.

(** ** Kernel computations

    [M S A] is a computation over the state [S].  It returns, or halts:
    [Panic] is the kernel's [panic()], which never returns; [Exit] is
    [do_exit()] called for the running task, which never returns to it;
    [Fault] is undefined behaviour of the C program (an access out of an
    array or through a null pointer); [Hang] is a loop that used up the
    iterations the model gives it. *)

Inductive halt := Panic (msg : string) | Exit (code : Z) | Fault | Hang.

Inductive res (S A : Type) := Ok (a : A) (s : S) | Halt (h : halt) (s : S).
Arguments Ok {_ _} _ _.
Arguments Halt {_ _} _ _.

Definition M (S A : Type) : Type := S -> res S A.

#[global] Instance M_ret {S} : MRet (M S) := fun A a s => Ok a s.
#[global] Instance M_bind {S} : MBind (M S) := fun A B f m s =>
  match m s with Ok a s' => f a s' | Halt h s' => Halt h s' end.

Definition halts {S A} (h : halt) : M S A := fun s => Halt h s.
Definition getS {S} : M S S := fun s => Ok s s.
Definition gets {S A} (f : S -> A) : M S A := fun s => Ok (f s) s.
Definition modify {S} (f : S -> S) : M S unit := fun s => Ok tt (f s).
Definition ofOpt {S A} (o : option A) : M S A := fun s =>
  match o with Some a => Ok a s | None => Halt Fault s end.
Definition when {S} (b : bool) (m : M S unit) : M S unit :=
  if b then m else mret tt.

(** The monad laws, pointwise. *)
Lemma bind_ret {S A B} (a : A) (f : A -> M S B) s : (mret a ≫= f) s = f a s.
Proof. done. Qed.

Lemma bind_assoc {S A B C} (m : M S A) (f : A -> M S B) (g : B -> M S C) s :
  ((m ≫= f) ≫= g) s = (m ≫= fun a => f a ≫= g) s.
Proof. unfold mbind, M_bind. by destruct (m s). Qed.

(** ** Specifications

    [wp m s Q E]: from [s], [m] returns in a state satisfying [Q], or halts
    in one satisfying [E].  With [E] false this is total correctness. *)

Definition wp {S A} (m : M S A) (s : S) (Q : A -> S -> Prop) (E : halt -> S -> Prop) : Prop :=
  match m s with Ok a s' => Q a s' | Halt h s' => E h s' end.

Definition no_halt {S} : halt -> S -> Prop := fun _ _ => False.

Lemma wp_ret {S A} (a : A) (s : S) (Q : A -> S -> Prop) E : Q a s -> wp (mret a) s Q E.
Proof. done. Qed.

Lemma wp_bind {S A B} (m : M S A) (f : A -> M S B) s Q E :
  wp m s (fun a s' => wp (f a) s' Q E) E -> wp (m ≫= f) s Q E.
Proof. unfold wp, mbind, M_bind. intros H. by destruct (m s). Qed.

Lemma wp_mono {S A} (m : M S A) s (Q Q' : A -> S -> Prop) (E E' : halt -> S -> Prop) :
  wp m s Q E -> (forall a s', Q a s' -> Q' a s') -> (forall h s', E h s' -> E' h s') ->
  wp m s Q' E'.
Proof. unfold wp. destruct (m s); auto. Qed.

Lemma wp_modify {S} (f : S -> S) s (Q : unit -> S -> Prop) E : Q tt (f s) -> wp (modify f) s Q E.
Proof. done. Qed.

Lemma wp_gets {S A} (f : S -> A) s (Q : A -> S -> Prop) E : Q (f s) s -> wp (gets f) s Q E.
Proof. done. Qed.

Lemma wp_ofOpt {S A} (o : option A) (a : A) (s : S) Q E : o = Some a -> Q a s -> wp (ofOpt o) s Q E.
Proof. by intros ->. Qed.

Lemma wp_Ok {S A} (m : M S A) s a s' (Q : A -> S -> Prop) E : wp m s Q E -> m s = Ok a s' -> Q a s'.
Proof. unfold wp. intros H Hm. by rewrite Hm in H. Qed.

Lemma wp_total {S A} (m : M S A) s (Q : A -> S -> Prop) :
  wp m s Q no_halt -> exists a s', m s = Ok a s' /\ Q a s'.
Proof. unfold wp, no_halt. destruct (m s); [eauto|done]. Qed.

Lemma bind_Ok {S A B} (m : M S A) (f : A -> M S B) s b s2 :
  (m ≫= f) s = Ok b s2 -> exists a s1, m s = Ok a s1 /\ f a s1 = Ok b s2.
Proof. unfold mbind, M_bind. destruct (m s); [eauto|done]. Qed.

Lemma run_bind {S A B} (m : M S A) (f : A -> M S B) s a s1 : m s = Ok a s1 -> (m ≫= f) s = f a s1.
Proof. unfold mbind, M_bind. by intros ->. Qed.

(** Symbolic execution of one monadic step. *)
Ltac wp_step :=
  match goal with
  | |- wp (mret _) _ _ _ => apply wp_ret
  | |- wp (_ ≫= _) _ _ _ => apply wp_bind
  | |- wp (modify _) _ _ _ => apply wp_modify
  | |- wp (gets _) _ _ _ => apply wp_gets
  | |- wp getS _ _ _ => unfold wp, getS
  end.

Ltac wp_run := repeat (wp_step; cbn beta).

(** Inversion of a run [m s = Ok a s'] of a computation. *)
Ltac inv_ok :=
  repeat match goal with
  | H : (_ ≫= _) _ = Ok _ _ |- _ =>
      let a := fresh "a" in let s := fresh "s" in let H1 := fresh "Hr" in
      apply bind_Ok in H as (a & s & H1 & H)
  | H : mret _ _ = Ok _ _ |- _ => injection H as ? ?; subst
  | H : modify _ _ = Ok _ _ |- _ => injection H as ? ?; subst
  | H : gets _ _ = Ok _ _ |- _ => injection H as ? ?; subst
  | H : getS _ = Ok _ _ |- _ => injection H as ? ?; subst
  | H : halts _ _ = Ok _ _ |- _ => discriminate H
  | H : Ok _ _ = Ok _ _ |- _ => injection H as ? ?; subst
  | H : Halt _ _ = Ok _ _ |- _ => discriminate H
  end.

(** Closed arithmetic facts, by evaluation. *)
Ltac closed_arith := repeat split; vm_compute; first [reflexivity | discriminate].

(** ** Loops

    [for_each l f] runs [f] on the elements of [l] in order. *)

Fixpoint for_each {S A} (l : list A) (f : A -> M S unit) : M S unit :=
  match l with [] => mret tt | x :: l' => f x;; for_each l' f end.

Lemma wp_for_each {S A} (f : A -> M S unit) (I : list A -> S -> Prop) E :
  (forall x l s, I (x :: l) s -> wp (f x) s (fun _ s' => I l s') E) ->
  forall l s, I l s -> wp (for_each l f) s (fun _ s' => I [] s') E.
Proof.
  intros Hf l. induction l as [|x l IH]; intros s HI; [done|]. cbn [for_each].
  apply wp_bind. eapply wp_mono; [apply Hf, HI| |done]. cbv beta. intros _ s'. apply IH.
Qed.

Lemma for_each_app {S A} (f : A -> M S unit) l1 l2 s :
  for_each (l1 ++ l2) f s = (for_each l1 f;; for_each l2 f) s.
Proof.
  revert s. induction l1 as [|x l1 IH]; intros s; [done|]. cbn. unfold mbind, M_bind in *.
  destruct (f x s); [apply IH|done].
Qed.

(** Counted indices, upwards and downwards. *)
Definition range (lo : Z) (n : nat) : list Z := (fun i => lo + Z.of_nat i) <$> seq 0 n.

Lemma elem_of_range lo n i : i ∈ range lo n <-> lo <= i < lo + Z.of_nat n.
Proof.
  unfold range. rewrite list_elem_of_fmap. split.
  - intros (j & -> & Hj). apply elem_of_seq in Hj. lia.
  - intros Hi. exists (Z.to_nat (i - lo)). split; [lia|]. apply elem_of_seq. lia.
Qed.

Lemma range_S lo n : range lo (S n) = range lo n ++ [lo + Z.of_nat n].
Proof. unfold range. by rewrite seq_S, fmap_app. Qed.

Lemma NoDup_range lo n : NoDup (range lo n).
Proof. unfold range. apply NoDup_fmap_2_strong; [|apply NoDup_seq]. intros ????. lia. Qed.

Lemma length_range lo n : length (range lo n) = n.
Proof. unfold range. by rewrite length_fmap, length_seq. Qed.

(** Loops with an exit condition:
    [iter n body x] runs [body] at most [n] times: [inl] is the next value of
    the loop variable, [inr] the result of the loop. *)

Fixpoint iter {S A B} (n : nat) (body : A -> M S (A + B)) (x : A) : M S B :=
  match n with
  | O => halts Hang
  | S n' => r ← body x; match r with inl x' => iter n' body x' | inr b => mret b end
  end.

(** A loop with a variant reaches its result within the fuel. *)
Lemma wp_iter {S A B} (body : A -> M S (A + B)) (I : A -> S -> Prop) (v : A -> S -> nat)
    (Q : B -> S -> Prop) E :
  (forall x s, I x s ->
     wp (body x) s
       (fun r s' => match r with
                    | inl x' => I x' s' /\ (v x' s' < v x s)%nat
                    | inr b => Q b s' end) E) ->
  forall n x s, I x s -> (v x s < n)%nat -> wp (iter n body x) s Q E.
Proof.
  intros Hb n. induction n as [|n IH]; intros x s HI Hv; [lia|]. simpl.
  apply wp_bind. eapply wp_mono; [apply Hb, HI| |done].
  intros [x'|b] s'; [intros [HI' Hlt]; apply IH; [done|lia]|by intros ?].
Qed.

(** Partial correctness of a loop: an invariant suffices. *)
Lemma iter_inv {S A B} (body : A -> M S (A + B)) (I : A -> S -> Prop) (Q : B -> S -> Prop) :
  (forall x s r s', I x s -> body x s = Ok r s' ->
     match r with inl x' => I x' s' | inr b => Q b s' end) ->
  forall n x s b s', I x s -> iter n body x s = Ok b s' -> Q b s'.
Proof.
  intros Hb n. induction n as [|n IH]; intros x s b s' HI Hr; [done|]. simpl in Hr. inv_ok.
  apply Hb in Hr0; [|done]. destruct a as [x'|b']; [by eapply IH|]. inv_ok. done.
Qed.

(** ** Invariants of computations

    [preserves I m]: whenever [m] returns, it has kept [I]. *)

Definition preserves {S A} (I : S -> Prop) (m : M S A) : Prop :=
  forall s a s', I s -> m s = Ok a s' -> I s'.

Create HintDb pres discriminated.

Section Preserves.
Context {S : Type} (I : S -> Prop).

Lemma preserves_ret {A} (a : A) : preserves I (mret a).
Proof. intros s b s' HI [= _ <-]. done. Qed.

Lemma preserves_bind {A B} (m : M S A) (f : A -> M S B) :
  preserves I m -> (forall a, preserves I (f a)) -> preserves I (m ≫= f).
Proof. intros Hm Hf s b s' HI (a & s1 & H1 & H2)%bind_Ok. eapply Hf; [|done]. by eapply Hm. Qed.

Lemma preserves_halts {A} h : preserves I (halts (A := A) h).
Proof. done. Qed.

Lemma preserves_gets {A} (f : S -> A) : preserves I (gets f).
Proof. intros s a s' HI [= _ <-]. done. Qed.

Lemma preserves_getS : preserves I getS.
Proof. intros s a s' HI [= _ <-]. done. Qed.

Lemma preserves_ofOpt {A} (o : option A) : preserves I (ofOpt o).
Proof. intros s a s' HI H. unfold ofOpt in H. destruct o; [by injection H as _ <-|done]. Qed.

Lemma preserves_modify f : (forall s, I s -> I (f s)) -> preserves I (modify f).
Proof. intros Hf s a s' HI [= _ <-]. auto. Qed.

Lemma preserves_when b m : preserves I m -> preserves I (when b m).
Proof. destruct b; [done|]. intros _. apply preserves_ret. Qed.

Lemma preserves_for_each {A} (l : list A) f : (forall x, preserves I (f x)) -> preserves I (for_each l f).
Proof. intros Hf. induction l; cbn; [apply preserves_ret|]. by apply preserves_bind. Qed.

Lemma preserves_iter {A B} (body : A -> M S (A + B)) n x :
  (forall x, preserves I (body x)) -> preserves I (iter n body x).
Proof.
  intros Hb. revert x. induction n as [|n IH]; intros x; cbn; [done|].
  apply preserves_bind; [done|]. intros [?|?]; [done|apply preserves_ret].
Qed.

End Preserves.

#[export] Hint Resolve preserves_ret preserves_halts preserves_gets preserves_getS preserves_ofOpt : pres.

(** Goes through the structure of a computation; what is left are the updates. *)
Ltac pres :=
  repeat first
    [ progress eauto with pres
    | match goal with
      | |- preserves _ (_ ≫= _) => apply preserves_bind; [|intros ?]
      | |- preserves _ (when _ _) => apply preserves_when
      | |- preserves _ (for_each _ _) => apply preserves_for_each; intros ?
      | |- preserves _ (iter _ _ _) => apply preserves_iter; intros ?
      | |- preserves _ (match ?x with _ => _ end) => destruct x
      end ].
