(* ===== verification/Mktime.v ===== *)
(** * Calendar time: [kernel/mktime.c]

    [kernel_mktime] turns the broken-down time that the boot code reads from
    the CMOS clock into seconds since 1970-01-01.  The reference definition
    counts days with the Gregorian leap-year rule, one year and one month at a
    time; the routine is shown equal to it, and strictly monotone, on every
    date a 32-bit [long] can hold (1970 to 2037). *)

From S2P Require Import Prelude.

Definition MINUTE : Z := 60.
Definition HOUR : Z := 60 * MINUTE.
Definition DAY : Z := 24 * HOUR.
Definition YEAR : Z := 365 * DAY.

(** The start of each month of a leap year, in seconds. *)
Definition month : list Z :=
  [ 0;
    DAY*(31);
    DAY*(31+29);
    DAY*(31+29+31);
    DAY*(31+29+31+30);
    DAY*(31+29+31+30+31);
    DAY*(31+29+31+30+31+30);
    DAY*(31+29+31+30+31+30+31);
    DAY*(31+29+31+30+31+30+31+31);
    DAY*(31+29+31+30+31+30+31+31+30);
    DAY*(31+29+31+30+31+30+31+31+30+31);
    DAY*(31+29+31+30+31+30+31+31+30+31+30) ].

(** [struct tm] of [include/time.h]: the fields the routine uses. *)
Record tm := Tm {
  tm_sec : Z; tm_min : Z; tm_hour : Z; tm_mday : Z; tm_mon : Z; tm_year : Z
}.

(** [long kernel_mktime(struct tm * tm)]: the caller's [tm_year] is corrected
    in place, so the new [tm] is part of the result; [None] is the access of
    [month] out of range. *)
Definition kernel_mktime (t : tm) : option (Z * tm) :=
  let tm_year' := if tm_year t <? 70 then s32 (tm_year t + 100) else tm_year t in
  let year := s32 (tm_year' - 70) in
  let res := s32 (YEAR * year + DAY * Z.quot (year + 1) 4) in
  m ← aget month (tm_mon t);
  let res := s32 (res + m) in
  let res := if (1 <? tm_mon t) && truth (Z.rem (year + 2) 4)
             then s32 (res - DAY) else res in
  let res := s32 (res + DAY * (tm_mday t - 1)) in
  let res := s32 (res + HOUR * tm_hour t) in
  let res := s32 (res + MINUTE * tm_min t) in
  let res := s32 (res + tm_sec t) in
  Some (res, Tm (tm_sec t) (tm_min t) (tm_hour t) (tm_mday t) (tm_mon t) tm_year').

(** ** The reference calendar *)

Definition leap (y : Z) : bool :=
  ((y mod 4 =? 0) && negb (y mod 100 =? 0)) || (y mod 400 =? 0).

Definition days_in_month (y m : Z) : Z :=
  match m with
  | 1 => if leap y then 29 else 28
  | 3 | 5 | 8 | 10 => 30
  | _ => 31
  end.

(** Days before the first of the month [k], counted from January 1970. *)
Fixpoint month_start (k : nat) : Z :=
  match k with
  | O => 0
  | S k' => month_start k' +
            days_in_month (1970 + Z.of_nat k' / 12) (Z.of_nat k' mod 12)
  end.

(** The year a [tm_year] stands for: two-digit years below 70 are after 2000. *)
Definition full_year (t : tm) : Z :=
  1900 + (if tm_year t <? 70 then tm_year t + 100 else tm_year t).

Definition month_index (t : tm) : Z := 12 * (full_year t - 1970) + tm_mon t.

Definition epoch_seconds (t : tm) : Z :=
  86400 * (month_start (Z.to_nat (month_index t)) + tm_mday t - 1)
  + 3600 * tm_hour t + 60 * tm_min t + tm_sec t.

Definition valid_tm (t : tm) : Prop :=
  0 <= tm_year t /\ 1970 <= full_year t <= 2037 /\ 0 <= tm_mon t <= 11 /\
  1 <= tm_mday t <= days_in_month (full_year t) (tm_mon t) /\
  0 <= tm_hour t <= 23 /\ 0 <= tm_min t <= 59 /\ 0 <= tm_sec t <= 59.

(** Lexicographic order of broken-down times. *)
Definition tm_before (t u : tm) : Prop :=
  month_index t < month_index u \/
  (month_index t = month_index u /\
   86400 * tm_mday t + 3600 * tm_hour t + 60 * tm_min t + tm_sec t
   < 86400 * tm_mday u + 3600 * tm_hour u + 60 * tm_min u + tm_sec u).

(** ** Correctness *)

(** The part of the computation that depends on year and month only. *)
Definition month_offset (year mon : Z) : Z :=
  YEAR * year + DAY * Z.quot (year + 1) 4 + default 0 (aget month mon)
  - (if (1 <? mon) && truth (Z.rem (year + 2) 4) then DAY else 0).

Definition month_check (k : nat) : bool :=
  let y := Z.of_nat k / 12 in let m := Z.of_nat k mod 12 in
  (month_offset y m =? 86400 * month_start k)
  && (1 <=? days_in_month (1970 + y) m) && (days_in_month (1970 + y) m <=? 31).

(** The same check for [n] months from [k] on, with the day count carried along. *)
Fixpoint month_check_from (n k : nat) (days : Z) : bool :=
  match n with
  | O => true
  | S n' =>
      let y := Z.of_nat k / 12 in let m := Z.of_nat k mod 12 in
      let d := days_in_month (1970 + y) m in
      (month_offset y m =? 86400 * days) && (1 <=? d) && (d <=? 31)
      && month_check_from n' (S k) (days + d)
  end.

Lemma month_check_from_spec n k j :
  month_check_from n k (month_start k) = true -> (k <= j < k + n)%nat -> month_check j = true.
Proof.
  revert k. induction n as [|n IH]; intros k Hc Hj; [lia|]. cbn [month_check_from] in Hc.
  apply andb_prop in Hc as [Hk Hn].
  destruct (decide (j = k)) as [->|]; [exact Hk|]. apply (IH (S k)); [exact Hn|lia].
Qed.

Lemma month_checked k : (k < 817)%nat -> month_check k = true.
Proof.
  intros Hk. apply (month_check_from_spec 817 0); [|lia]. vm_compute. reflexivity.
Qed.

Lemma month_start_bound k : (k <= 817)%nat -> 0 <= month_start k <= 31 * Z.of_nat k.
Proof.
  induction k as [|k IH]; [simpl; lia|]. intros Hk.
  pose proof (month_checked k ltac:(lia)) as Hc. unfold month_check in Hc.
  cbn [month_start].
  apply andb_prop in Hc as [[_ H1%Z.leb_le]%andb_prop H2%Z.leb_le]. lia.
Qed.

(** Nothing in the range exceeds the last second of 2037. *)
Lemma month_start_mono j k : (j <= k <= 817)%nat -> month_start j <= month_start k.
Proof.
  intros [Hjk Hk]. induction k as [|k IH]; [by replace j with 0%nat by lia|].
  destruct (decide (j = S k)) as [->|]; [lia|].
  pose proof (month_checked k ltac:(lia)) as Hc. unfold month_check in Hc.
  cbn [month_start].
  apply andb_prop in Hc as [[_ H1%Z.leb_le]%andb_prop H2%Z.leb_le]. specialize (IH ltac:(lia) ltac:(lia)). lia.
Qed.

Lemma month_index_split t :
  0 <= tm_mon t <= 11 ->
  month_index t / 12 = full_year t - 1970 /\ month_index t mod 12 = tm_mon t.
Proof.
  intros Hm. unfold month_index. split; Z.div_mod_to_equations; lia.
Qed.

Lemma month_index_range t : valid_tm t -> 0 <= month_index t < 816.
Proof. unfold valid_tm, month_index. lia. Qed.

(** A valid day lies before the start of the next month. *)
Lemma mday_in_month t :
  valid_tm t ->
  month_start (Z.to_nat (month_index t)) + tm_mday t
  <= month_start (S (Z.to_nat (month_index t))).
Proof.
  intros Hv. pose proof (month_index_range t Hv). destruct Hv as (_ & Hy & Hm & Hd & _).
  destruct (month_index_split t Hm) as [E1 E2]. cbn [month_start].
  rewrite Z2Nat.id, E1, E2 by lia. replace (1970 + (full_year t - 1970)) with (full_year t) by lia.
  lia.
Qed.

Lemma epoch_seconds_range t : valid_tm t -> 0 <= epoch_seconds t < 2145916800.
Proof.
  intros Hv. pose proof (mday_in_month t Hv) as Hd.
  pose proof (month_index_range t Hv) as Hi.
  pose proof (month_start_bound (Z.to_nat (month_index t)) ltac:(lia)).
  pose proof (month_start_mono (S (Z.to_nat (month_index t))) 816 ltac:(lia)) as Hle.
  assert (E : month_start 816 = 24837).
  { pose proof (month_checked 816 ltac:(lia)) as Hc. unfold month_check in Hc.
    apply andb_prop in Hc as [[Hc%Z.eqb_eq _]%andb_prop _].
    change (month_offset (Z.of_nat 816 / 12) (Z.of_nat 816 mod 12)) with 2145916800 in Hc. lia. }
  rewrite E in Hle.
  destruct Hv as (_ & _ & _ & Hmd & ?). unfold epoch_seconds. lia.
Qed.

Lemma month_offset_spec t :
  valid_tm t ->
  month_offset (full_year t - 1970) (tm_mon t) = 86400 * month_start (Z.to_nat (month_index t)).
Proof.
  intros Hv. pose proof (month_index_range t Hv) as Hi.
  destruct (month_index_split t ltac:(apply Hv)) as [E1 E2].
  pose proof (month_checked (Z.to_nat (month_index t)) ltac:(lia)) as Hc.
  unfold month_check in Hc. rewrite Z2Nat.id, E1, E2 in Hc by lia.
  apply andb_prop in Hc as [[Hc%Z.eqb_eq _]%andb_prop _]. exact Hc.
Qed.

(** Wrap-around at every step and once at the end agree. *)
Lemma s32_add_l a b : s32 (s32 a + b) = s32 (a + b).
Proof.
  rewrite <- (s32_u32 (s32 a + b)), <- (s32_u32 (a + b)). f_equal.
  unfold u32. rewrite <- (Zplus_mod_idemp_l (s32 a)). fold (u32 (s32 a)). rewrite u32_s32.
  unfold u32. by rewrite Zplus_mod_idemp_l.
Qed.

Lemma s32_sub_l a b : s32 (s32 a - b) = s32 (a - b).
Proof. rewrite <- !Z.add_opp_r. apply s32_add_l. Qed.

(** Remove the inner wrap-arounds of a sum, innermost first. *)
Ltac collect_s32 :=
  repeat match goal with
  | |- context [s32 (s32 ?a + ?b)] =>
      lazymatch a with context [s32 _] => fail | _ => rewrite (s32_add_l a b) end
  | |- context [s32 (s32 ?a - ?b)] =>
      lazymatch a with context [s32 _] => fail | _ => rewrite (s32_sub_l a b) end
  end.

Lemma kernel_mktime_unfold t :
  0 <= tm_year t -> 1970 <= full_year t <= 2037 -> 0 <= tm_mon t <= 11 ->
  kernel_mktime t =
  Some (s32 (month_offset (full_year t - 1970) (tm_mon t) + DAY * (tm_mday t - 1)
             + HOUR * tm_hour t + MINUTE * tm_min t + tm_sec t),
        Tm (tm_sec t) (tm_min t) (tm_hour t) (tm_mday t) (tm_mon t) (full_year t - 1900)).
Proof.
  intros Hy Hf Hm. unfold kernel_mktime.
  assert (Ey : (if tm_year t <? 70 then s32 (tm_year t + 100) else tm_year t) = full_year t - 1900).
  { revert Hf. unfold full_year. destruct (Z.ltb_spec (tm_year t) 70); intros.
    - rewrite s32_small by (unfold in_s32; lia). lia.
    - lia. }
  rewrite Ey.
  destruct (aget_in_range month (tm_mon t)) as [m Em]; [change (Z.of_nat (length month)) with 12; lia|].
  unfold month_offset. rewrite Em. cbn [mbind option_bind default].
  rewrite (s32_small (full_year t - 1900 - 70)) by (unfold in_s32; lia).
  replace (full_year t - 1900 - 70) with (full_year t - 1970) by lia.
  unfold id. apply (f_equal (fun z => Some (z, _))).
  destruct ((1 <? tm_mon t) && truth (Z.rem (full_year t - 1970 + 2) 4));
    collect_s32; f_equal; lia.
Qed.

Lemma kernel_mktime_run (t : tm) :
  valid_tm t ->
  exists t', kernel_mktime t = Some (epoch_seconds t, t') /\ tm_year t' = full_year t - 1900.
Proof.
  intros Hv. rewrite kernel_mktime_unfold by apply Hv.
  exists (Tm (tm_sec t) (tm_min t) (tm_hour t) (tm_mday t) (tm_mon t) (full_year t - 1900)).
  split; [|done]. rewrite month_offset_spec by done.
  apply (f_equal (fun z => Some (z, _))).
  pose proof (epoch_seconds_range t Hv) as Hr. revert Hr. unfold epoch_seconds, DAY, HOUR, MINUTE.
  intros Hr. rewrite s32_small; unfold in_s32; lia.
Qed.

(** C23: [kernel_mktime] returns the number of seconds from 1970-01-01 to the
    given date, counted day by day in the Gregorian calendar, for every valid
    date of the years 1970 to 2037, two-digit years included; no operation
    overflows and [tm_year] is normalised in place. *)
Theorem kernel_mktime_correct (t : tm) :
  valid_tm t ->
  exists t', kernel_mktime t = Some (epoch_seconds t, t') /\ tm_year t' = full_year t - 1900.
Proof. apply kernel_mktime_run. Qed.

Lemma kernel_mktime_correct_witness :
  kernel_mktime (Tm 7 14 3 19 0 38) <> None /\
  exists t', kernel_mktime (Tm 30 45 12 29 1 4) = Some (1078058730, t') /\ tm_year t' = 104.
Proof.
  split; [vm_compute; discriminate|].
  apply (kernel_mktime_correct (Tm 30 45 12 29 1 4)).
  closed_arith.
Defined.

Lemma epoch_seconds_mono t u :
  valid_tm t -> valid_tm u -> tm_before t u -> epoch_seconds t < epoch_seconds u.
Proof.
  intros Ht Hu Hb. pose proof (mday_in_month t Ht) as Hd.
  pose proof (month_index_range t Ht). pose proof (month_index_range u Hu).
  destruct Hb as [Hlt|[He Hs]].
  - pose proof (month_start_mono (S (Z.to_nat (month_index t))) (Z.to_nat (month_index u)) ltac:(lia)).
    destruct Ht as (_&_&_&_&?&?&?), Hu as (_&_&_&?&?&?&?). unfold epoch_seconds. lia.
  - unfold epoch_seconds. rewrite He. lia.
Qed.

(** [kernel_mktime] is strictly monotone: a later valid date gets a larger
    number of seconds, so different dates never collide. *)
Theorem kernel_mktime_monotone (t u : tm) :
  valid_tm t -> valid_tm u -> tm_before t u ->
  exists r r' t' u', kernel_mktime t = Some (r, t') /\ kernel_mktime u = Some (r', u') /\ r < r'.
Proof.
  intros Ht Hu Hb. pose proof (epoch_seconds_mono t u Ht Hu Hb) as Hlt.
  rewrite (kernel_mktime_unfold t), (kernel_mktime_unfold u) by first [apply Ht|apply Hu].
  rewrite !month_offset_spec by done.
  pose proof (epoch_seconds_range t Ht). pose proof (epoch_seconds_range u Hu).
  repeat eexists. revert Hlt H H0. unfold epoch_seconds, DAY, HOUR, MINUTE. intros.
  rewrite !s32_small; unfold in_s32; lia.
Qed.

Lemma kernel_mktime_monotone_witness :
  exists r r' t' u', kernel_mktime (Tm 59 59 23 28 1 100) = Some (r, t') /\
    kernel_mktime (Tm 0 0 0 29 1 0) = Some (r', u') /\ r < r'.
Proof.
  apply (kernel_mktime_monotone (Tm 59 59 23 28 1 100) (Tm 0 0 0 29 1 0));
    [closed_arith|closed_arith|right; closed_arith].
Defined.
