(* ===== verification/Vsprintf.v ===== *)
(** * Formatted output: [kernel/vsprintf.c]

    [number] prints one integer, [vsprintf] interprets a format string.  A C
    string is the list of its characters without the final NUL; the output
    buffer is the list of the characters written so far. *)

From S2P Require Import Prelude.
From Stdlib Require Import Ascii.

Abbreviation chars := (list ascii).

Definition ch (z : Z) : ascii := ascii_of_N (Z.to_N (u8 z)).
Definition ord (c : ascii) : Z := Z.of_N (N_of_ascii c).

Definition is_digit (c : ascii) : bool := (48 <=? ord c) && (ord c <=? 57).

(** [static int skip_atoi(const char **s)]: the number and the rest of the string. *)
Fixpoint skip_atoi_from (i : Z) (s : chars) : Z * chars :=
  match s with
  | c :: s' => if is_digit c then skip_atoi_from (s32 (i * 10 + ord c - 48)) s' else (i, s)
  | [] => (i, [])
  end.
Definition skip_atoi (s : chars) : Z * chars := skip_atoi_from 0 s.

Definition ZEROPAD : Z := 1.
Definition SIGN : Z := 2.
Definition PLUS : Z := 4.
Definition SPACE : Z := 8.
Definition LEFT : Z := 16.
Definition SPECIAL : Z := 32.
Definition SMALL : Z := 64.

(** [type & FLAG] as a truth value. *)
Definition flag (type f : Z) : bool := truth (Z.land type f).

Definition upper_digits : chars := String.list_ascii_of_string "0123456789ABCDEFGHIJKLMNOPQRSTUVWXYZ".
Definition lower_digits : chars := String.list_ascii_of_string "0123456789abcdefghijklmnopqrstuvwxyz".

(** The digits of the unsigned value [num], least significant first: the
    contents of [tmp[36]] after the loop around [do_div].  [None] stands for
    a write past the end of [tmp]. *)
Fixpoint tmp_digits (room : nat) (digits : chars) (base num : Z) : option chars :=
  if num =? 0 then Some []
  else match room with
       | O => None
       | S room' =>
           d ← aget digits (num mod base);
           ds ← tmp_digits room' digits base (num / base);
           Some (d :: ds)
       end.

(** [char tmp[36]] *)
Definition TMP_SIZE : nat := 36.

(** [while (size-- > 0) *str++ = c;]: the characters written and the final [size]. *)
Definition fill (c : ascii) (size : Z) : chars * Z :=
  (replicate (Z.to_nat size) c, Z.min size 0 - 1).

(** [static char * number(char *str, int num, int base, int size, int precision, int type)]:
    the characters appended at [str]; [inl tt] is the null pointer returned for
    a bad base, [inr None] an access outside [tmp] or [digits]. *)
Definition number (num base size precision type : Z) : unit + option chars :=
  let digits := if flag type SMALL then lower_digits else upper_digits in
  let type := if flag type LEFT then Z.ldiff type ZEROPAD else type in
  if (base <? 2) || (36 <? base) then inl tt else
  let c := if flag type ZEROPAD then "0"%char else " "%char in
  let negative := flag type SIGN && (num <? 0) in
  let num := if negative then s32 (- num) else num in
  let sign := if negative then ["-"%char]
              else if flag type PLUS then ["+"%char]
              else if flag type SPACE then [" "%char] else [] in
  let size := match sign with [] => size | _ => size - 1 end in
  let size := if flag type SPECIAL
              then if base =? 16 then size - 2 else if base =? 8 then size - 1 else size
              else size in
  inr (
    tmp ← (if num =? 0 then Some ["0"%char] else tmp_digits TMP_SIZE digits base (u32 num));
    let i := Z.of_nat (length tmp) in
    let precision := if precision <? i then i else precision in
    let size := size - precision in
    let '(lead, size) := if flag type (ZEROPAD + LEFT) then ([], size) else fill " "%char size in
    prefix ← (if flag type SPECIAL
              then if base =? 8 then Some ["0"%char]
                   else if base =? 16 then x ← aget digits 33; Some ["0"%char; x]
                   else Some []
              else Some []);
    let '(mid, size) := if flag type LEFT then ([], size) else fill c size in
    let zeros := replicate (Z.to_nat (precision - i)) "0"%char in
    let '(trail, _) := fill " "%char size in
    Some (lead ++ sign ++ prefix ++ mid ++ zeros ++ rev tmp ++ trail)).

(** ** The format interpreter *)

(** A variadic argument; [%n] takes a pointer to an [int]. *)
Inductive arg := AInt (z : Z) | AStr (s : chars) | APtr (p : positive).

(** The state of [vsprintf]: characters written, arguments left, stores done by [%n]. *)
Record vst := Vst { out : chars; args : list arg; stores : list (positive * Z) }.

Definition emit (cs : chars) : M vst unit :=
  modify (fun s => Vst (out s ++ cs) (args s) (stores s)).

(** [va_arg]: taking an argument that is not there, or of another kind, is undefined. *)
Definition next_arg : M vst arg := fun s =>
  match args s with
  | a :: l => Ok a (Vst (out s) l (stores s))
  | [] => Halt Fault s
  end.
Definition va_int : M vst Z := a ← next_arg; match a with AInt z => mret z | _ => halts Fault end.
Definition va_str : M vst chars := a ← next_arg; match a with AStr z => mret z | _ => halts Fault end.
Definition va_ptr : M vst positive := a ← next_arg; match a with APtr z => mret z | _ => halts Fault end.

(** The flag characters after the percent sign. *)
Fixpoint parse_flags (flags : Z) (fmt : chars) : Z * chars :=
  match fmt with
  | "-"%char :: f => parse_flags (Z.lor flags LEFT) f
  | "+"%char :: f => parse_flags (Z.lor flags PLUS) f
  | " "%char :: f => parse_flags (Z.lor flags SPACE) f
  | "#"%char :: f => parse_flags (Z.lor flags SPECIAL) f
  | "0"%char :: f => parse_flags (Z.lor flags ZEROPAD) f
  | _ => (flags, fmt)
  end.

(** The field width: digits, or the next argument for a star.  As in the
    source, the star itself is not skipped. *)
Definition parse_width (flags : Z) (fmt : chars) : M vst (Z * Z * chars) :=
  match fmt with
  | c :: f =>
      if is_digit c then let '(w, f') := skip_atoi fmt in mret (flags, w, f')
      else if Ascii.eqb c "*"%char then
        w ← va_int;
        if w <? 0 then mret (Z.lor flags LEFT, s32 (- w), fmt) else mret (flags, w, fmt)
      else mret (flags, -1, fmt)
  | [] => mret (flags, -1, fmt)
  end.

Definition parse_precision (fmt : chars) : M vst (Z * chars) :=
  match fmt with
  | "."%char :: f =>
      '(p, f') ← match f with
                 | c :: _ => if is_digit c then mret (skip_atoi f)
                             else if Ascii.eqb c "*"%char then p ← va_int; mret (p, f)
                             else mret (-1, f)
                 | [] => mret (-1, f)
                 end;
      mret (if p <? 0 then 0 else p, f')
  | _ => mret (-1, fmt)
  end.

Definition skip_qualifier (fmt : chars) : chars :=
  match fmt with
  | "h"%char :: f | "l"%char :: f | "L"%char :: f => f
  | _ => fmt
  end.

(** [str = number(...)]: a null result would be used as the new [str]. *)
Definition put_number (num base size precision type : Z) : M vst unit :=
  match number num base size precision type with
  | inr (Some cs) => emit cs
  | _ => halts Fault
  end.

(** One conversion, [fmt] at the conversion character; the rest of the format
    is the result. *)
Definition conversion (flags field_width precision : Z) (fmt : chars) : M vst chars :=
  match fmt with
  | [] => emit ["%"%char];; mret []
  | c :: f =>
      let isc x := Ascii.eqb c x in
      if isc "c"%char then
        let '(lead, fw) := if flag flags LEFT then ([], field_width) else fill " "%char (field_width - 1) in
        let fw := if flag flags LEFT then fw else fw + 1 in
        emit lead;; v ← va_int; emit [ch v];; emit (fill " "%char (fw - 1)).1;; mret f
      else if isc "s"%char then
        s ← va_str;
        let len := Z.of_nat (length s) in
        let len := if precision <? 0 then len else if precision <? len then precision else len in
        let '(lead, fw) := if flag flags LEFT then ([], field_width)
                           else let '(l, r) := fill " "%char (field_width - len) in (l, r + len) in
        emit lead;; emit (take (Z.to_nat len) s);; emit (fill " "%char (fw - len)).1;; mret f
      else if isc "o"%char then
        n ← va_int; put_number n 8 field_width precision flags;; mret f
      else if isc "p"%char then
        let fw := if field_width =? -1 then 8 else field_width in
        let fl := if field_width =? -1 then Z.lor flags ZEROPAD else flags in
        n ← va_int; put_number n 16 fw precision fl;; mret f
      else if isc "x"%char || isc "X"%char then
        let fl := if isc "x"%char then Z.lor flags SMALL else flags in
        n ← va_int; put_number n 16 field_width precision fl;; mret f
      else if isc "d"%char || isc "i"%char || isc "u"%char then
        let fl := if isc "u"%char then flags else Z.lor flags SIGN in
        n ← va_int; put_number n 10 field_width precision fl;; mret f
      else if isc "n"%char then
        p ← va_ptr;
        modify (fun s => Vst (out s) (args s) (stores s ++ [(p, Z.of_nat (length (out s)))]));;
        mret f
      else
        emit (if isc "%"%char then [] else ["%"%char]);; emit [c];; mret f
  end.

(** What follows a percent sign. *)
Definition directive (fmt : chars) : M vst chars :=
  let '(flags, f) := parse_flags 0 fmt in
  '(flags, width, f) ← parse_width flags f;
  '(precision, f) ← parse_precision f;
  conversion flags width precision (skip_qualifier f).

(** [int vsprintf(char *buf, const char *fmt, va_list args)]: the loop over
    the format, then the length of the output. *)
Definition vsprintf_step (fmt : chars) : M vst (chars + Z) :=
  match fmt with
  | [] => n ← gets (fun s => Z.of_nat (length (out s))); mret (inr n)
  | c :: f => if Ascii.eqb c "%"%char then f' ← directive f; mret (inl f')
              else emit [c];; mret (inl f)
  end.

Definition vsprintf (fmt : chars) (al : list arg) : res vst Z :=
  iter (S (length fmt)) vsprintf_step fmt (Vst [] al []).

Definition sprintf (fmt : string) (al : list arg) : option string :=
  match vsprintf (String.list_ascii_of_string fmt) al with
  | Ok _ s => Some (String.string_of_list_ascii (out s))
  | Halt _ _ => None
  end.

Example sprintf_1 : sprintf "dev %04x, block %d%%" [AInt 768; AInt (-12)] = Some "dev 0300, block -12%"%string.
Proof. reflexivity. Qed.
Example sprintf_2 : sprintf "[%-6s|%6.2s|%+5d|%#x]"
  [AStr (String.list_ascii_of_string "abc"); AStr (String.list_ascii_of_string "xyz"); AInt 42; AInt 255]
  = Some "[abc   |    xy|  +42|0xff]"%string.
Proof. reflexivity. Qed.

(** ** Digits *)

(** The value of a digit character, in either case. *)
Definition digit_val (c : ascii) : Z :=
  if is_digit c then ord c - 48
  else if (65 <=? ord c) && (ord c <=? 90) then ord c - 55
  else if (97 <=? ord c) && (ord c <=? 122) then ord c - 87 else 99.

(** The value of a digit string, most significant digit first. *)
Definition num_value (base : Z) (ds : chars) : Z :=
  fold_left (fun acc c => acc * base + digit_val c) ds 0.

Definition digit_table (ds : chars) : Prop := ds = upper_digits \/ ds = lower_digits.

Definition table_ok (t : chars) : bool :=
  forallb (fun d => match aget t (Z.of_nat d) with
                    | Some c => (digit_val c =? Z.of_nat d) && negb (Ascii.eqb c " "%char)
                    | None => false end) (seq 0 36).

Lemma digit_table_get t d :
  digit_table t -> 0 <= d < 36 -> exists c, aget t d = Some c /\ digit_val c = d.
Proof.
  intros Ht Hd. assert (Hok : table_ok t = true) by (destruct Ht as [-> | ->]; reflexivity).
  unfold table_ok in Hok. rewrite forallb_forall in Hok.
  specialize (Hok (Z.to_nat d) ltac:(apply in_seq; lia)). rewrite Z2Nat.id in Hok by lia.
  destruct (aget t d) as [c|]; [|done].
  apply andb_prop in Hok as [Hv%Z.eqb_eq _]. eauto.
Qed.

(** The loop around [do_div] writes the digits of its argument, and no more
    than there are bits. *)
Lemma tmp_digits_spec t base room num :
  digit_table t -> 2 <= base <= 36 -> 0 <= num < 2 ^ Z.of_nat room ->
  exists ds, tmp_digits room t base num = Some ds
    /\ fold_right (fun c acc => acc * base + digit_val c) 0 ds = num
    /\ (length ds <= room)%nat /\ Forall (fun c => 0 <= digit_val c < base) ds.
Proof.
  intros Ht Hb. revert num. induction room as [|room IH]; intros num Hn.
  { simpl in Hn. assert (num = 0) as -> by lia. by exists []. }
  cbn [tmp_digits]. destruct (Z.eqb_spec num 0) as [->|Hnz]; [exists []; split_and!; [done..|simpl; lia|done]|].
  rewrite Nat2Z.inj_succ, Z.pow_succ_r in Hn by lia.
  pose proof (Z.mod_pos_bound num base ltac:(lia)) as Hm.
  destruct (digit_table_get t (num mod base) Ht ltac:(lia)) as (c & -> & Hc). cbn [mbind option_bind].
  destruct (IH (num / base)) as (ds & -> & Hv & Hl & Hf).
  { split; [apply Z.div_pos; lia|]. apply Z.div_lt_upper_bound; [lia|]. nia. }
  exists (c :: ds). cbn [fold_right length]. rewrite Hv, Hc.
  split_and!; [done|by rewrite Z.mul_comm, <- Z.div_mod by lia|lia|constructor; [by rewrite Hc|done]].
Qed.

Lemma num_value_rev base ds :
  num_value base (rev ds) = fold_right (fun c acc => acc * base + digit_val c) 0 ds.
Proof.
  unfold num_value. rewrite <- fold_left_rev_right, rev_involutive. done.
Qed.

Lemma num_value_app base a b :
  num_value base (a ++ b) = fold_left (fun acc c => acc * base + digit_val c) b (num_value base a).
Proof. unfold num_value. by rewrite fold_left_app. Qed.

Lemma num_value_zeros base n ds : num_value base (replicate n "0"%char ++ ds) = num_value base ds.
Proof.
  induction n as [|n IH]; [done|]. rewrite <- IH. unfold num_value. cbn [replicate app fold_left].
  change (digit_val "0"%char) with 0. by rewrite Z.mul_0_l.
Qed.

(** ** The layout of [number] *)

Definition sign_chars (num type : Z) : chars :=
  if flag type SIGN && (num <? 0) then ["-"%char]
  else if flag type PLUS then ["+"%char]
  else if flag type SPACE then [" "%char] else [].

Definition prefix_chars (base type : Z) : chars :=
  if flag type SPECIAL
  then if base =? 8 then ["0"%char]
       else if base =? 16 then ["0"%char; if flag type SMALL then "x"%char else "X"%char]
       else []
  else [].

(** The unsigned value whose digits are printed. *)
Definition magnitude (num type : Z) : Z :=
  if flag type SIGN && (num <? 0) then - num else u32 num.

Lemma flag_ldiff_zeropad type f :
  Z.land ZEROPAD f = 0 -> flag (Z.ldiff type ZEROPAD) f = flag type f.
Proof.
  intros H. unfold flag. f_equal. apply Z.bits_inj'. intros i _. rewrite !Z.land_spec, Z.ldiff_spec.
  assert (Hi := f_equal (fun z => Z.testbit z i) H). simpl in Hi.
  rewrite Z.land_spec, Z.bits_0 in Hi. destruct (Z.testbit type i), (Z.testbit ZEROPAD i), (Z.testbit f i); done.
Qed.

Lemma flag_lor type f g : flag type (Z.lor f g) = flag type f || flag type g.
Proof.
  unfold flag, truth. rewrite Z.land_lor_distr_r.
  destruct (Z.eqb_spec (Z.lor (Z.land type f) (Z.land type g)) 0) as [E|E].
  - apply Z.lor_eq_0_iff in E as [-> ->]. done.
  - destruct (Z.eqb_spec (Z.land type f) 0), (Z.eqb_spec (Z.land type g) 0); try done.
    destruct E. by apply Z.lor_eq_0_iff.
Qed.

(** The digit buffer of [number], for a signed argument. *)
Definition number_tmp (digits : chars) (num base type : Z) : option chars :=
  let num := if flag type SIGN && (num <? 0) then s32 (- num) else num in
  if num =? 0 then Some ["0"%char] else tmp_digits TMP_SIZE digits base (u32 num).

Lemma number_tmp_spec digits num base type :
  digit_table digits -> 2 <= base <= 36 -> in_s32 num ->
  exists ds, number_tmp digits num base type = Some ds
    /\ num_value base (rev ds) = magnitude num type
    /\ Forall (fun c => 0 <= digit_val c < base) ds /\ (0 < length ds <= 36)%nat.
Proof.
  intros Ht Hb Hn. unfold number_tmp.
  remember (if flag type SIGN && (num <? 0) then s32 (- num) else num) as n eqn:En.
  assert (Hu : u32 n = magnitude num type).
  { rewrite En. unfold magnitude. destruct (flag type SIGN && (num <? 0)) eqn:E; [|done].
    apply andb_prop in E as [_ E%Z.ltb_lt]. rewrite u32_s32. apply u32_small.
    unfold in_u32, in_s32 in *. lia. }
  destruct (Z.eqb_spec n 0) as [Hz|Hnz].
  - exists ["0"%char]. rewrite <- Hu, Hz. split_and!; [done..| |simpl; lia|simpl; lia].
    constructor; [|done]. change (digit_val "0"%char) with 0. lia.
  - destruct (tmp_digits_spec digits base TMP_SIZE (u32 n) Ht Hb) as (ds & Hds & Hv & Hl & Hf).
    { pose proof (u32_range n). unfold TMP_SIZE. change (2 ^ Z.of_nat 36) with 68719476736. lia. }
    exists ds. rewrite num_value_rev, Hv.
    split; [exact Hds|split; [exact Hu|split; [exact Hf|split; [|exact Hl]]]].
    clear Hds. destruct ds; [|apply Nat.lt_0_succ]. cbn [fold_right] in Hv. exfalso. apply Hnz.
    assert (Hs : s32 (u32 n) = s32 0) by (by rewrite <- Hv). change (s32 0) with 0 in Hs.
    rewrite s32_u32, s32_small in Hs; [done|]. rewrite En.
    destruct (flag type SIGN && (num <? 0)); [apply s32_range|done].
Qed.

Lemma number_prefix digits base type :
  digits = (if flag type SMALL then lower_digits else upper_digits) ->
  (if flag type SPECIAL
   then if base =? 8 then Some ["0"%char]
        else if base =? 16 then x ← aget digits 33; Some ["0"%char; x] else Some []
   else Some []) = Some (prefix_chars base type).
Proof.
  intros ->. unfold prefix_chars. destruct (flag type SPECIAL); [|done].
  destruct (base =? 8); [done|]. destruct (base =? 16); [|done]. by destruct (flag type SMALL).
Qed.

(** How [size] shrinks before the padding is written. *)
Lemma number_size num base size type :
  (let size := match sign_chars num type with [] => size | _ => size - 1 end in
   if flag type SPECIAL
   then if base =? 16 then size - 2 else if base =? 8 then size - 1 else size
   else size)
  = size - Z.of_nat (length (sign_chars num type) + length (prefix_chars base type)).
Proof.
  unfold prefix_chars, sign_chars.
  destruct (flag type SPECIAL); [destruct (Z.eqb_spec base 16) as [->|]; [|destruct (base =? 8)]|];
    repeat case_match; simplify_eq/=; lia.
Qed.

(** Where the padding goes: before everything, after the prefix, or at the end. *)
Lemma number_padding (zp left : bool) (pad : Z) :
  let '(lead, s1) := if zp || left then ([], pad) else fill " "%char pad in
  let '(mid, s2) := if left then ([], s1) else fill (if zp then "0"%char else " "%char) s1 in
  exists a z t, lead = replicate a " "%char /\ mid = replicate z "0"%char
    /\ (fill " "%char s2).1 = replicate t " "%char /\ Z.of_nat (a + z + t) = Z.max pad 0.
Proof.
  destruct zp, left; cbn [orb fill fst].
  - exists 0%nat, 0%nat, (Z.to_nat pad). split_and!; [done..|lia].
  - exists 0%nat, (Z.to_nat pad), 0%nat. split_and!; [done..| |lia].
    by replace (Z.to_nat (Z.min pad 0 - 1)) with 0%nat by lia.
  - exists 0%nat, 0%nat, (Z.to_nat pad). split_and!; [done..|lia].
  - exists (Z.to_nat pad), 0%nat, 0%nat.
    replace (Z.to_nat (Z.min pad 0 - 1)) with 0%nat by lia.
    replace (Z.to_nat (Z.min (Z.min pad 0 - 1) 0 - 1)) with 0%nat by lia.
    split_and!; [done..|lia].
Qed.

(** Every result of [number] is leading blanks, sign, prefix, zeros, digits and
    trailing blanks; the whole fills the field, and exceeds it only when the
    sign, prefix and digits do. *)
Lemma number_shape num base size precision type :
  2 <= base <= 36 -> in_s32 num ->
  exists a z t ds,
    number num base size precision type =
      inr (Some (replicate a " "%char ++ sign_chars num type ++ prefix_chars base type
                 ++ replicate z "0"%char ++ rev ds ++ replicate t " "%char))
    /\ num_value base (rev ds) = magnitude num type
    /\ Forall (fun c => 0 <= digit_val c < base) ds /\ (0 < length ds <= 36)%nat
    /\ precision <= Z.of_nat (z + length ds)
    /\ Z.of_nat (a + z + t + length ds + length (sign_chars num type) + length (prefix_chars base type))
       = Z.max size (Z.max precision (Z.of_nat (length ds))
                     + Z.of_nat (length (sign_chars num type) + length (prefix_chars base type))).
Proof.
  intros Hb Hn. unfold number.
  set (digits := if flag type SMALL then lower_digits else upper_digits).
  assert (Ht : digit_table digits) by (unfold digits, digit_table; destruct (flag type SMALL); auto).
  set (ty := if flag type LEFT then Z.ldiff type ZEROPAD else type).
  assert (Hty : forall f, Z.land ZEROPAD f = 0 -> flag ty f = flag type f).
  { intros f Hf. unfold ty. destruct (flag type LEFT); [by apply flag_ldiff_zeropad|done]. }
  rewrite !(Hty SIGN), !(Hty PLUS), !(Hty SPACE), !(Hty SPECIAL), !(Hty LEFT) by done.
  fold (sign_chars num type). rewrite (number_prefix digits base type eq_refl).
  pose proof (number_size num base size type) as Hsz. cbv zeta in Hsz. rewrite Hsz. clear Hsz.
  destruct (Z.ltb_spec base 2); [lia|]. destruct (Z.ltb_spec 36 base); [lia|]. cbn [orb].
  fold (number_tmp digits num base type).
  destruct (number_tmp_spec digits num base type Ht Hb Hn) as (ds & -> & Hv & Hf & Hl).
  cbn [mbind option_bind].
  set (prec := if precision <? Z.of_nat (length ds) then Z.of_nat (length ds) else precision).
  assert (Hprec : prec = Z.max precision (Z.of_nat (length ds)))
    by (unfold prec; destruct (Z.ltb_spec precision (Z.of_nat (length ds))); lia).
  set (pad := _ - _ - prec). 
  assert (Hz : flag ty (ZEROPAD + LEFT) = flag ty ZEROPAD || flag type LEFT)
    by (rewrite <- (Hty LEFT) by done; apply (flag_lor ty ZEROPAD LEFT)).
  rewrite Hz. pose proof (number_padding (flag ty ZEROPAD) (flag type LEFT) pad) as Hp.
  destruct (if flag ty ZEROPAD || flag type LEFT then ([], pad) else _) as [lead s1].
  destruct (if flag type LEFT then ([], s1) else _) as [mid s2].
  destruct (fill " "%char s2) as [trail s3].
  destruct Hp as (a & z & t & -> & -> & Et & Hsum). cbn [fst] in Et. subst trail.
  exists a, (z + Z.to_nat (prec - Z.of_nat (length ds)))%nat, t, ds.
  rewrite replicate_add, <- !app_assoc.
  split; [reflexivity|split; [exact Hv|split; [exact Hf|split; [exact Hl|split]]]]; unfold pad in Hsum; lia.
Qed.

(** ** Reading back what was printed *)

Fixpoint drop_blanks (cs : chars) : chars :=
  match cs with
  | c :: r => if Ascii.eqb c " "%char then drop_blanks r else cs
  | [] => []
  end.

Definition read_sign (cs : chars) : bool * chars :=
  match cs with
  | c :: r => if Ascii.eqb c "-"%char then (true, r)
              else if Ascii.eqb c "+"%char then (false, r) else (false, cs)
  | [] => (false, [])
  end.

Definition strip_prefix (base : Z) (cs : chars) : chars :=
  match cs with
  | c1 :: c2 :: r =>
      if (base =? 16) && Ascii.eqb c1 "0"%char && (Ascii.eqb c2 "x"%char || Ascii.eqb c2 "X"%char)
      then r else cs
  | _ => cs
  end.

Fixpoint take_digits (base : Z) (cs : chars) : chars :=
  match cs with
  | c :: r => if digit_val c <? base then c :: take_digits base r else []
  | [] => []
  end.

(** The reference reader: blanks, a sign, an optional radix prefix, digits. *)
Definition read_number (base : Z) (cs : chars) : Z :=
  let '(neg, cs) := read_sign (drop_blanks cs) in
  let v := num_value base (take_digits base (strip_prefix base cs)) in
  if neg then - v else v.

Lemma drop_blanks_app a cs : drop_blanks (replicate a " "%char ++ cs) = drop_blanks cs.
Proof. by induction a. Qed.

Lemma digit_val_ne c c' base : digit_val c < base <= 36 -> 36 <= digit_val c' -> Ascii.eqb c c' = false.
Proof. intros ??. apply Ascii.eqb_neq. intros ->. lia. Qed.

Section body.
Context (base : Z) (Hb : 2 <= base <= 36).

(** A digit string followed by blanks. *)
Context (ds : chars) (t : nat) (Hds : Forall (fun c => 0 <= digit_val c < base) ds) (Hne : ds <> []).

Lemma take_digits_body : take_digits base (ds ++ replicate t " "%char) = ds.
Proof.
  clear Hne. induction Hds as [|c l Hc Hl IH]; cbn [app take_digits].
  - destruct t; [done|]. cbn [replicate take_digits]. change (digit_val " "%char) with 99.
    by destruct (Z.ltb_spec 99 base); [lia|].
  - rewrite IH by done. by destruct (Z.ltb_spec (digit_val c) base); [|lia].
Qed.

Lemma strip_prefix_body : strip_prefix base (ds ++ replicate t " "%char) = ds ++ replicate t " "%char.
Proof.
  destruct (Z.eqb_spec base 16) as [E|E]; [|by destruct ds as [|c1 [|c2 l]], t as [|[|t']]; try done;
    cbn; rewrite (proj2 (Z.eqb_neq _ _) E)].
  assert (Hx : forall c, digit_val c < base -> Ascii.eqb c "x"%char || Ascii.eqb c "X"%char = false).
  { intros c Hc. apply orb_false_iff. split; apply Ascii.eqb_neq; intros ->;
      (change (digit_val _) with 33 in Hc; lia). }
  destruct ds as [|c1 [|c2 l]]; [done| |].
  - destruct t as [|t']; [done|]. cbn. by rewrite !andb_false_r.
  - cbn [app strip_prefix]. rewrite Hx, andb_false_r; [done|].
    rewrite !Forall_cons_iff in Hds. apply Hds.
Qed.

Lemma read_sign_body : read_sign (ds ++ replicate t " "%char) = (false, ds ++ replicate t " "%char).
Proof.
  destruct Hds as [|c l Hc Hl]; [done|]. cbn [app read_sign].
  by rewrite (digit_val_ne c "-"%char base), (digit_val_ne c "+"%char base)
    by first [lia | by vm_compute].
Qed.

Lemma drop_blanks_body : drop_blanks (ds ++ replicate t " "%char) = ds ++ replicate t " "%char.
Proof.
  destruct Hds as [|c l Hc Hl]; [done|]. cbn [app drop_blanks].
  by rewrite (digit_val_ne c " "%char base) by first [lia | by vm_compute].
Qed.
End body.

(** What the reader does with everything after the sign. *)
Lemma read_unsigned base type z ds t :
  2 <= base <= 36 -> Forall (fun c => 0 <= digit_val c < base) ds -> ds <> [] ->
  let P := prefix_chars base type ++ replicate z "0"%char ++ ds ++ replicate t " "%char in
  drop_blanks P = P /\ read_sign P = (false, P)
  /\ num_value base (take_digits base (strip_prefix base P)) = num_value base ds.
Proof.
  intros Hb Hf Hne.
  assert (Hz : forall n, Forall (fun c => 0 <= digit_val c < base) (replicate n "0"%char ++ ds)
                         /\ replicate n "0"%char ++ ds <> []).
  { intros n. split; [|by destruct n, ds]. apply Forall_app. split; [|done].
    apply Forall_replicate. change (digit_val "0"%char) with 0. lia. }
  assert (Hbody : forall n, let B := (replicate n "0"%char ++ ds) ++ replicate t " "%char in
    drop_blanks B = B /\ read_sign B = (false, B)
    /\ num_value base (take_digits base (strip_prefix base B)) = num_value base ds).
  { intros n B. unfold B. destruct (Hz n) as [H1 H2].
    rewrite (drop_blanks_body base), (read_sign_body base), strip_prefix_body, take_digits_body by done.
    by rewrite num_value_zeros. }
  unfold prefix_chars. destruct (flag type SPECIAL); [|rewrite app_nil_l, app_assoc; apply Hbody].
  destruct (Z.eqb_spec base 8); [rewrite (app_assoc (replicate z _)); apply (Hbody (S z))|].
  destruct (Z.eqb_spec base 16) as [->|]; [|rewrite app_nil_l, app_assoc; apply Hbody].
  destruct (Hz z) as [H1 H2].
  rewrite (app_assoc (replicate z _)). set (B := _ ++ replicate t _).
  split; [done|]. split; [done|].
  assert (E : strip_prefix 16 (["0"%char; if flag type SMALL then "x"%char else "X"%char] ++ B) = B)
    by (by destruct (flag type SMALL)).
  rewrite E. unfold B. rewrite take_digits_body by done. apply num_value_zeros.
Qed.

(** C40: [number] loses nothing: whatever the base, the field width, the
    precision and the flags, reading the text back gives the number that was
    printed (the signed one with [SIGN], otherwise the value taken as
    unsigned), INT_MIN included; the digit buffer [tmp[36]] never overflows. *)
Theorem number_roundtrip (num base size precision type : Z) :
  2 <= base <= 36 -> in_s32 num ->
  exists cs, number num base size precision type = inr (Some cs) /\
    read_number base cs = (if flag type SIGN then num else u32 num).
Proof.
  intros Hb Hn.
  destruct (number_shape num base size precision type Hb Hn)
    as (a & z & t & ds & -> & Hv & Hf & [Hl _] & _). eexists. split; [reflexivity|].
  assert (Hr : Forall (fun c => 0 <= digit_val c < base) (rev ds)) by (by apply Forall_rev).
  assert (Hne : rev ds <> []) by (intros E; apply (f_equal length) in E; rewrite length_rev in E; simpl in E; lia).
  destruct (read_unsigned base type z (rev ds) t Hb Hr Hne) as (Hd & Hs & Hval).
  set (P := prefix_chars base type ++ _) in *. unfold read_number. rewrite drop_blanks_app.
  rewrite Hv in Hval. unfold magnitude in Hval. unfold sign_chars.
  assert (Hpos : flag type SIGN = true -> (num <? 0) = false -> u32 num = num).
  { intros _ E%Z.ltb_ge. apply u32_small. unfold in_u32, in_s32 in *. lia. }
  destruct (flag type SIGN) eqn:Es, (num <? 0) eqn:En; cbn [andb] in *;
    [change (read_sign (drop_blanks (["-"%char] ++ P))) with (true, P); cbv beta iota;
     rewrite Hval; lia|..];
    (destruct (flag type PLUS); [|destruct (flag type SPACE)]);
    first [progress change (read_sign (drop_blanks (["+"%char] ++ P))) with (false, P) |
           progress change (drop_blanks ([" "%char] ++ P)) with (drop_blanks P); rewrite Hd, Hs |
           progress change (drop_blanks ([] ++ P)) with (drop_blanks P); rewrite Hd, Hs ];
    cbv beta iota; rewrite Hval; auto.
Qed.

Lemma number_roundtrip_witness :
  exists cs, number (-2147483648) 10 20 0 (SIGN + ZEROPAD) = inr (Some cs) /\
    read_number 10 cs = -2147483648.
Proof. apply (number_roundtrip (-2147483648) 10 20 0 (SIGN + ZEROPAD)); closed_arith. Defined.

(** the field width is respected: the text is exactly as long as the field,
    unless sign, radix prefix and digits (at least [precision] of them) need
    more room, and then it is exactly as long as they are. *)
Theorem number_width (num base size precision type : Z) :
  2 <= base <= 36 -> in_s32 num ->
  exists cs n, number num base size precision type = inr (Some cs) /\
    (1 <= n <= 36) /\
    Z.of_nat (length cs) =
      Z.max size (Z.max precision n
                  + Z.of_nat (length (sign_chars num type) + length (prefix_chars base type))).
Proof.
  intros Hb Hn.
  destruct (number_shape num base size precision type Hb Hn)
    as (a & z & t & ds & -> & _ & _ & Hl & _ & Hlen). eexists _, (Z.of_nat (length ds)).
  split; [reflexivity|]. split; [lia|]. rewrite <- Hlen.
  rewrite !length_app, !length_replicate, length_rev. lia.
Qed.

Lemma number_width_witness :
  exists cs n, number 255 16 10 4 (SPECIAL + SMALL) = inr (Some cs) /\ (1 <= n <= 36) /\
    Z.of_nat (length cs) = Z.max 10 (Z.max 4 n + 2).
Proof. apply (number_width 255 16 10 4 (SPECIAL + SMALL)); closed_arith. Defined.

(** ** The interpreter *)

(** a format without a percent sign is copied as it is: no argument is
    consumed and the result is its length. *)
Theorem vsprintf_literal (fmt : chars) (al : list arg) :
  "%"%char ∉ fmt -> vsprintf fmt al = Ok (Z.of_nat (length fmt)) (Vst fmt al []).
Proof.
  intros Hno. unfold vsprintf.
  enough (H : forall f o n, "%"%char ∉ f -> (length f < n)%nat ->
    iter n vsprintf_step f (Vst o al []) = Ok (Z.of_nat (length (o ++ f))) (Vst (o ++ f) al [])).
  { apply (H fmt []); [done|lia]. }
  clear. induction f as [|c f IH]; intros o n Hno Hn; (destruct n as [|n]; [simpl in Hn; lia|]).
  - cbn. by rewrite app_nil_r.
  - apply not_elem_of_cons in Hno as [Hc Hf].
    cbn [iter vsprintf_step mbind M_bind]. rewrite (proj2 (Ascii.eqb_neq c "%"%char)) by done.
    change (iter n vsprintf_step f (Vst (o ++ [c]) al []) = Ok (Z.of_nat (length (o ++ c :: f))) (Vst (o ++ c :: f) al [])).
    rewrite IH by (simpl in *; first [done|lia]). by rewrite <- app_assoc.
Qed.

Lemma vsprintf_literal_witness :
  vsprintf (String.list_ascii_of_string "Out of swap-memory") [AInt 3]
  = Ok 18 (Vst (String.list_ascii_of_string "Out of swap-memory") [AInt 3] []).
Proof.
  apply (vsprintf_literal (String.list_ascii_of_string "Out of swap-memory") [AInt 3]).
  apply (bool_decide_unpack _). vm_compute. exact I.
Defined.

(** ** Which arguments a format reads

    Read off the format alone: after a percent sign the flags, a width, a precision, a
    qualifier and the conversion character.  A star reads an [int] and stays in the
    format, as in the source. *)

Inductive kind := KInt | KStr | KPtr.

Definition is_kind (k : kind) (a : arg) : bool :=
  match k, a with KInt, AInt _ | KStr, AStr _ | KPtr, APtr _ => true | _, _ => false end.

(** The first arguments of [al] are of the kinds [ks]. *)
Fixpoint supplied (ks : list kind) (al : list arg) : bool :=
  match ks, al with
  | [], _ => true
  | k :: ks', a :: al' => is_kind k a && supplied ks' al'
  | _ :: _, [] => false
  end.

(** The rest of a string after the characters of [cs] it starts with. *)
Fixpoint skip_over (cs f : chars) : chars :=
  match f with c :: f' => if bool_decide (c ∈ cs) then skip_over cs f' else f | [] => [] end.

Definition in_string (s : string) (c : ascii) : bool := bool_decide (c ∈ String.list_ascii_of_string s).

(** A width or a precision. *)
Definition field_kinds (f : chars) : list kind * chars :=
  match f with
  | "*"%char :: _ => ([KInt], f)
  | _ => ([], skip_over (String.list_ascii_of_string "0123456789") f)
  end.

Definition conversion_kinds (c : ascii) : list kind :=
  if in_string "copxXdiu" c then [KInt]
  else if Ascii.eqb c "s"%char then [KStr]
  else if Ascii.eqb c "n"%char then [KPtr] else [].

Definition directive_kinds (f : chars) : list kind * chars :=
  let '(kw, f) := field_kinds (skip_over (String.list_ascii_of_string "-+ #0") f) in
  let '(kp, f) := match f with "."%char :: f' => field_kinds f' | _ => ([], f) end in
  match skip_qualifier f with
  | c :: f' => (kw ++ kp ++ conversion_kinds c, f')
  | [] => (kw ++ kp, [])
  end.

Fixpoint kinds_within (n : nat) (f : chars) : list kind :=
  match n, f with
  | S n', "%"%char :: f' => let '(ks, f'') := directive_kinds f' in ks ++ kinds_within n' f''
  | S n', _ :: f' => kinds_within n' f'
  | _, _ => []
  end.
Definition arg_kinds (f : chars) : list kind := kinds_within (length f) f.

Example arg_kinds_1 : arg_kinds (String.list_ascii_of_string "%-6s|%#04lx|%.3d%%%n%*d%") = [KStr; KInt; KInt; KPtr; KInt].
Proof. vm_compute. reflexivity. Qed.

Lemma supplied_app ks1 ks2 : forall al, supplied (ks1 ++ ks2) al = supplied ks1 al && supplied ks2 (drop (length ks1) al).
Proof. induction ks1 as [|k ks1 IH]; intros [|a al]; try done. cbn. by rewrite IH, andb_assoc. Qed.

Lemma skip_over_length cs f : (length (skip_over cs f) <= length f)%nat.
Proof. induction f as [|c f IH]; cbn [skip_over length]; [done|]. case_bool_decide; cbn [length]; lia. Qed.
Lemma skip_qualifier_length fmt : (length (skip_qualifier fmt) <= length fmt)%nat.
Proof. unfold skip_qualifier. repeat case_match; simpl; lia. Qed.
Lemma field_kinds_length f : (length (field_kinds f).2 <= length f)%nat.
Proof. unfold field_kinds. repeat case_match; cbn [snd]; try apply skip_over_length; done. Qed.
Lemma directive_kinds_length f : (length (directive_kinds f).2 <= length f)%nat.
Proof.
  unfold directive_kinds. pose proof (skip_over_length (String.list_ascii_of_string "-+ #0") f) as H0.
  pose proof (field_kinds_length (skip_over (String.list_ascii_of_string "-+ #0") f)) as H1. destruct (field_kinds _) as [kw f1]. cbn [snd] in H1.
  assert (H2 : (length (match f1 with "."%char :: f' => field_kinds f' | _ => ([], f1) end).2 <= length f1)%nat).
  { destruct f1 as [|c f1]; [done|]. pose proof (field_kinds_length f1). destruct c as [[] [] [] [] [] [] [] []]; cbn [snd length] in *; lia. }
  destruct (match f1 with "."%char :: f' => field_kinds f' | _ => ([], f1) end) as [kp f2]. cbn [snd] in H2.
  pose proof (skip_qualifier_length f2). destruct (skip_qualifier f2); cbn [snd length] in *; lia.
Qed.

(** [m] reads arguments of the kinds [ks] and no others: it succeeds if they were
    passed, and reads past what was passed otherwise. *)
Definition takes {A} (ks : list kind) (P : A -> Prop) (m : M vst A) : Prop := forall s,
  if supplied ks (args s) then exists r s', m s = Ok r s' /\ P r /\ args s' = drop (length ks) (args s)
  else exists s', m s = Halt Fault s'.

Lemma takes_ret {A} (r : A) (P : A -> Prop) : P r -> takes [] P (mret r).
Proof. intros H s. by exists r, s. Qed.
Lemma takes_bind {A B} ks1 ks2 (P : A -> Prop) (Q : B -> Prop) m (f : A -> M vst B) :
  takes ks1 P m -> (forall r, P r -> takes ks2 Q (f r)) -> takes (ks1 ++ ks2) Q (m ≫= f).
Proof.
  intros Hm Hf s. rewrite supplied_app. specialize (Hm s). destruct (supplied ks1 (args s)); cbn [andb].
  - destruct Hm as (r & s1 & E & Hr & Ha). specialize (Hf r Hr s1). rewrite Ha in Hf. destruct (supplied ks2 _).
    + destruct Hf as (r' & s2 & E2 & Hr' & Ha'). exists r', s2. rewrite (run_bind _ _ _ _ _ E). split_and!; [done..|]. by rewrite Ha', drop_drop, length_app.
    + destruct Hf as [s2 E2]. exists s2. by rewrite (run_bind _ _ _ _ _ E).
  - destruct Hm as [s1 E]. exists s1. unfold mbind, M_bind. by rewrite E.
Qed.
(** The same when only one of the two reads arguments. *)
Lemma takes_then {A B} ks (P : A -> Prop) (Q : B -> Prop) m (f : A -> M vst B) :
  takes [] P m -> (forall r, P r -> takes ks Q (f r)) -> takes ks Q (m ≫= f).
Proof. apply (takes_bind [] ks). Qed.
Lemma takes_last {A B} ks (P : A -> Prop) (Q : B -> Prop) m (f : A -> M vst B) :
  takes ks P m -> (forall r, P r -> takes [] Q (f r)) -> takes ks Q (m ≫= f).
Proof. intros Hm Hf. rewrite <-(app_nil_r ks). by eapply takes_bind. Qed.
Lemma takes_emit cs : takes [] (fun _ => True) (emit cs).
Proof. intros s. by eexists _, _. Qed.

Ltac takes_one := intros [o [|[] al] st]; cbn; eauto.
Lemma takes_int : takes [KInt] (fun _ => True) va_int.
Proof. takes_one. Qed.
Lemma takes_str : takes [KStr] (fun _ => True) va_str.
Proof. takes_one. Qed.
Lemma takes_ptr : takes [KPtr] (fun _ => True) va_ptr.
Proof. takes_one. Qed.

(** [number] never leaves [tmp] and never refuses a base of the three it is called with. *)
Lemma takes_number n b sz p ty : 2 <= b <= 36 -> takes [] (fun _ => True) (put_number n b sz p ty).
Proof.
  intros Hb s. unfold put_number. assert (H : exists cs, number n b sz p ty = inr (Some cs)); [|destruct H as [cs ->]; by eexists _, _].
  unfold number. destruct (Z.ltb_spec b 2); [lia|]. destruct (Z.ltb_spec 36 b); [lia|]. cbn [orb]. set (digits := if flag ty SMALL then lower_digits else upper_digits). set (ty' := if flag ty LEFT then _ else _). set (n' := if flag ty' SIGN && (n <? 0) then s32 (- n) else n).
  assert (Hd : digit_table digits) by (unfold digits, digit_table; destruct (flag ty SMALL); auto).
  assert (Ht : exists ds, (if n' =? 0 then Some ["0"%char] else tmp_digits TMP_SIZE digits b (u32 n')) = Some ds).
  { destruct (n' =? 0); [by eexists|]. destruct (tmp_digits_spec digits b TMP_SIZE (u32 n') Hd Hb) as (ds & E & _); [|by exists ds]. pose proof (u32_range n'). unfold TMP_SIZE. change (2 ^ Z.of_nat 36) with 68719476736. lia. }
  destruct Ht as [ds ->]. cbn [mbind option_bind]. destruct (digit_table_get digits 33 Hd ltac:(lia)) as (x & -> & _). cbn [mbind option_bind].
  destruct (if flag ty' (ZEROPAD + LEFT) then _ else _) as [lead s1]. destruct (if flag ty' LEFT then _ else _) as [mid s2]. destruct (fill _ s2) as [trail s3].
  destruct (flag ty' SPECIAL), (b =? 8), (b =? 16); cbn [mbind option_bind]; by eexists.
Qed.

Lemma parse_flags_skip f : forall fl, (parse_flags fl f).2 = skip_over (String.list_ascii_of_string "-+ #0") f.
Proof. induction f as [|c f IH]; intros fl; [done|]. destruct c as [[] [] [] [] [] [] [] []]; cbn [parse_flags skip_over]; first [apply IH|reflexivity]. Qed.
Lemma is_digit_in c : is_digit c = bool_decide (c ∈ String.list_ascii_of_string "0123456789").
Proof. destruct c as [[] [] [] [] [] [] [] []]; reflexivity. Qed.
Lemma skip_atoi_skip f : forall i, (skip_atoi_from i f).2 = skip_over (String.list_ascii_of_string "0123456789") f.
Proof. induction f as [|c f IH]; intros i; cbn [skip_atoi_from skip_over]; [done|]. rewrite is_digit_in. by case_bool_decide. Qed.

(** Where a width or a precision starts. *)
Lemma field_cases c f : {is_digit c = true /\ Ascii.eqb c "*"%char = false} + {Ascii.eqb c "*"%char = true /\ is_digit c = false /\ field_kinds (c :: f) = ([KInt], c :: f)} + {is_digit c = false /\ Ascii.eqb c "*"%char = false /\ field_kinds (c :: f) = ([], c :: f)}.
Proof. destruct c as [[] [] [] [] [] [] [] []]; first [by left; left|by left; right|by right]. Qed.
Lemma field_digits c f : is_digit c = true -> field_kinds (c :: f) = ([], skip_over (String.list_ascii_of_string "0123456789") (c :: f)).
Proof. destruct c as [[] [] [] [] [] [] [] []]; done. Qed.

Lemma width_takes fl f : takes (field_kinds f).1 (fun r => r.2 = (field_kinds f).2) (parse_width fl f).
Proof.
  destruct f as [|c f]; [by apply takes_ret|]. unfold parse_width. destruct (field_cases c f) as [[[Hd _]|(Hs & Hd & Ek)]|(Hd & Hs & Ek)]; rewrite ?Hd, ?Hs, ?Ek.
  - rewrite (field_digits c f Hd). pose proof (skip_atoi_skip (c :: f) 0) as E. unfold skip_atoi. destruct (skip_atoi_from 0 (c :: f)). by apply takes_ret.
  - eapply takes_last; [apply takes_int|]. intros w _. by destruct (w <? 0); apply takes_ret.
  - by apply takes_ret.
Qed.

Lemma precision_takes f : let r := match f with "."%char :: f' => field_kinds f' | _ => ([], f) end in takes r.1 (fun x => x.2 = r.2) (parse_precision f).
Proof.
  destruct f as [|c f]; [by apply takes_ret|].
  assert (Hp : takes (field_kinds f).1 (fun x => x.2 = (field_kinds f).2)
    ('(p, f') ← match f with
                | c :: _ => if is_digit c then mret (skip_atoi f) else if Ascii.eqb c "*"%char then p ← va_int; mret (p, f) else mret (-1, f)
                | [] => mret (-1, f)
                end; mret (if p <? 0 then 0 else p, f'))).
  { eapply takes_last with (P := fun x => x.2 = (field_kinds f).2); [|intros [p f'] E; by apply takes_ret]. destruct f as [|c' f]; [by apply takes_ret|].
    destruct (field_cases c' f) as [[[Hd _]|(Hs & Hd & Ek)]|(Hd & Hs & Ek)]; rewrite ?Hd, ?Hs, ?Ek.
    - rewrite (field_digits c' f Hd). apply takes_ret. apply skip_atoi_skip.
    - eapply takes_last; [apply takes_int|]. intros w _. by apply takes_ret.
    - by apply takes_ret. }
  destruct c as [[] [] [] [] [] [] [] []]; cbv zeta; try (by apply takes_ret). exact Hp.
Qed.

(** One step through [conversion]. *)
Ltac take_step :=
  lazymatch goal with
  | |- takes _ _ (match ?p with (_, _) => _ end) => destruct p
  | |- takes _ _ (va_int ≫= _) => eapply takes_last; [apply takes_int|intros ? _]
  | |- takes _ _ (va_str ≫= _) => eapply takes_last; [apply takes_str|intros ? _]
  | |- takes _ _ (va_ptr ≫= _) => eapply takes_last; [apply takes_ptr|intros ? _]
  | |- takes _ _ (put_number _ _ _ _ _ ≫= _) => eapply takes_then; [apply takes_number; lia|intros ? _]
  | |- takes _ _ (emit _ ≫= _) => eapply takes_then; [apply takes_emit|intros ? _]
  | |- takes _ _ (modify _ ≫= _) => eapply (takes_then _ (fun _ => True)); [by intros ?; eexists _, _|intros ? _]
  | |- takes _ _ (mret _) => by apply takes_ret
  end.

Lemma conversion_takes fl w p c f : takes (conversion_kinds c) (fun r => r = f) (conversion fl w p (c :: f)).
Proof.
  unfold conversion, conversion_kinds, in_string. cbv zeta.
  destruct (Ascii.eqb_spec c "c"%char) as [->|?]; [cbn -[va_int emit mbind]; repeat take_step|].
  destruct (Ascii.eqb_spec c "s"%char) as [->|?]; [cbn -[va_str emit mbind]; repeat take_step|].
  destruct (Ascii.eqb_spec c "o"%char) as [->|?]; [cbn -[va_int put_number mbind]; repeat take_step|].
  destruct (Ascii.eqb_spec c "p"%char) as [->|?]; [cbn -[va_int put_number mbind]; repeat take_step|].
  destruct (Ascii.eqb_spec c "x"%char) as [->|?]; [cbn -[va_int put_number mbind]; repeat take_step|].
  destruct (Ascii.eqb_spec c "X"%char) as [->|?]; [cbn -[va_int put_number mbind]; repeat take_step|].
  destruct (Ascii.eqb_spec c "d"%char) as [->|?]; [cbn -[va_int put_number mbind]; repeat take_step|].
  destruct (Ascii.eqb_spec c "i"%char) as [->|?]; [cbn -[va_int put_number mbind]; repeat take_step|].
  destruct (Ascii.eqb_spec c "u"%char) as [->|?]; [cbn -[va_int put_number mbind]; repeat take_step|].
  destruct (Ascii.eqb_spec c "n"%char) as [->|?]; [cbn -[va_ptr modify mbind]; repeat take_step|].
  rewrite bool_decide_eq_false_2 by (cbn; rewrite !elem_of_cons, elem_of_nil; naive_solver). cbn [orb]. repeat take_step.
Qed.

Lemma directive_takes f : takes (directive_kinds f).1 (fun r => r = (directive_kinds f).2) (directive f).
Proof.
  unfold directive, directive_kinds. pose proof (parse_flags_skip f 0) as Ef. destruct (parse_flags 0 f) as [fl f0]. cbn [snd] in Ef. rewrite <-Ef.
  pose proof (width_takes fl f0) as Hw. destruct (field_kinds f0) as [kw f1]. cbn [fst snd] in Hw.
  pose proof (precision_takes f1) as Hp. cbv zeta in Hp. destruct (match f1 with "."%char :: f' => field_kinds f' | _ => ([], f1) end) as [kp f2]. cbn [fst snd] in Hp.
  assert (Hc : forall fl' w p, takes (match skip_qualifier f2 with c :: _ => conversion_kinds c | [] => [] end) (fun r => r = match skip_qualifier f2 with _ :: f' => f' | [] => [] end) (conversion fl' w p (skip_qualifier f2))).
  { intros fl' w p. destruct (skip_qualifier f2) as [|c f3]; [cbn [conversion]; repeat take_step|apply conversion_takes]. }
  replace (match skip_qualifier f2 with c :: f' => (kw ++ kp ++ conversion_kinds c, f') | [] => (kw ++ kp, []) end) with (kw ++ kp ++ (match skip_qualifier f2 with c :: _ => conversion_kinds c | [] => [] end), match skip_qualifier f2 with _ :: f' => f' | [] => [] end) by (destruct (skip_qualifier f2); by rewrite ?app_nil_r).
  cbn [fst snd]. eapply takes_bind; [exact Hw|]. intros [[fl' w] f1'] E. cbn [snd] in E. subst f1'. eapply takes_bind; [exact Hp|]. intros [p f2'] E. cbn [snd] in E. subst f2'. apply Hc.
Qed.

Lemma kinds_within_cons n c f : kinds_within (S n) (c :: f) = if Ascii.eqb c "%"%char then (directive_kinds f).1 ++ kinds_within n (directive_kinds f).2 else kinds_within n f.
Proof. destruct c as [[] [] [] [] [] [] [] []]; try reflexivity. cbn. by destruct (directive_kinds f). Qed.

Lemma loop_takes n : forall m f, (length f < n)%nat -> (length f <= m)%nat -> takes (kinds_within m f) (fun _ => True) (iter n vsprintf_step f).
Proof.
  induction n as [|n IH]; intros m f Hn Hm; [lia|]. cbn [iter]. destruct f as [|c f].
  - destruct m; intros s; by eexists _, _.
  - destruct m as [|m]; [cbn in Hm; lia|]. cbn [length] in Hn, Hm. rewrite kinds_within_cons. unfold vsprintf_step. destruct (Ascii.eqb c "%"%char).
    + pose proof (directive_kinds_length f). eapply takes_bind with (P := fun r => r = inl (directive_kinds f).2); [|intros ? ->; apply IH; lia].
      eapply takes_last; [apply directive_takes|]. intros ? ->. by apply takes_ret.
    + eapply takes_then with (P := fun r => r = inl f); [|intros ? ->; apply IH; lia]. repeat take_step.
Qed.

(** C39: [vsprintf] terminates on every format and argument list.  It returns exactly when
    the arguments the format reads were passed, each of the kind it reads ([arg_kinds]),
    has then used up those and no others and gives the length written; otherwise it reads past the arguments.
    Nothing else goes wrong: its loop never runs away, [number] never leaves its buffer. *)
Theorem vsprintf_terminates (fmt : chars) (al : list arg) :
  if supplied (arg_kinds fmt) al
  then exists n s, vsprintf fmt al = Ok n s /\ args s = drop (length (arg_kinds fmt)) al /\ n = Z.of_nat (length (out s))
  else exists s, vsprintf fmt al = Halt Fault s.
Proof.
  pose proof (loop_takes (S (length fmt)) (length fmt) fmt ltac:(lia) ltac:(lia) (Vst [] al [])) as H. fold (arg_kinds fmt) in H. cbn [args] in H. unfold vsprintf.
  destruct (supplied (arg_kinds fmt) al); [|done]. destruct H as (n & s & E & _ & Ha). exists n, s. split_and!; [done..|].
  apply (iter_inv vsprintf_step (fun _ _ => True) (fun n s => n = Z.of_nat (length (out s)))) in E; [done| |done]. clear. intros f s r s' _ E. unfold vsprintf_step in E.
  destruct f as [|c f]; [cbn in E; by inversion E; subst|]. destruct (Ascii.eqb c "%"%char); inv_ok; done.
Qed.

(** ** Decimal round trip with [skip_atoi] *)

Lemma digit_val_is_digit c : digit_val c < 10 -> is_digit c = true /\ ord c = digit_val c + 48.
Proof.
  unfold digit_val. destruct (is_digit c); [intros; split; [done|lia]|].
  destruct ((65 <=? ord c) && (ord c <=? 90)) eqn:E1;
    [apply andb_prop in E1 as [?%Z.leb_le ?%Z.leb_le]; lia|].
  destruct ((97 <=? ord c) && (ord c <=? 122)) eqn:E2;
    [apply andb_prop in E2 as [?%Z.leb_le ?%Z.leb_le]|]; lia.
Qed.

Lemma fold_digits_mono ds : forall v,
  Forall (fun c => 0 <= digit_val c < 10) ds -> 0 <= v ->
  v <= fold_left (fun acc c => acc * 10 + digit_val c) ds v.
Proof.
  induction ds as [|c ds IH]; intros v Hf Hv; cbn [fold_left]; [lia|].
  apply Forall_cons_iff in Hf as [Hc Hf]. specialize (IH (v * 10 + digit_val c) Hf ltac:(lia)). lia.
Qed.

Lemma skip_atoi_digits ds : forall v,
  Forall (fun c => 0 <= digit_val c < 10) ds -> 0 <= v ->
  fold_left (fun acc c => acc * 10 + digit_val c) ds v < 2147483648 ->
  skip_atoi_from v ds = (fold_left (fun acc c => acc * 10 + digit_val c) ds v, []).
Proof.
  induction ds as [|c ds IH]; intros v Hf Hv Hb; [done|]. cbn [fold_left skip_atoi_from] in *.
  apply Forall_cons_iff in Hf as [Hc Hf].
  destruct (digit_val_is_digit c ltac:(lia)) as [-> Ho].
  pose proof (fold_digits_mono ds (v * 10 + digit_val c) Hf ltac:(lia)).
  replace (v * 10 + ord c - 48) with (v * 10 + digit_val c) by lia.
  rewrite s32_small by (unfold in_s32; lia). apply IH; [done|lia|done].
Qed.

(** The loop at a percent sign. *)
Lemma iter_directive n f s :
  iter (S n) vsprintf_step ("%"%char :: f) s
  = match directive f s with Ok f' s' => iter n vsprintf_step f' s' | Halt h s' => Halt h s' end.
Proof.
  change (iter (S n) vsprintf_step ("%"%char :: f) s)
    with (((directive f ≫= fun f' => mret (inl f'))
           ≫= fun r => match r with inl x => iter n vsprintf_step x | inr b => mret b end) s).
  unfold mbind, M_bind. by destruct (directive f s).
Qed.

(** What the interpreter does with a plain ["%u"]. *)
Lemma directive_u o n al st f :
  directive ("u"%char :: f) (Vst o (AInt n :: al) st)
  = match number n 10 (-1) (-1) 0 with
    | inr (Some cs) => Ok f (Vst (o ++ cs) al st)
    | _ => Halt Fault (Vst o al st)
    end.
Proof.
  change (directive ("u"%char :: f) (Vst o (AInt n :: al) st))
    with ((put_number n 10 (-1) (-1) 0;; mret f) (Vst o al st)).
  unfold put_number. by destruct (number n 10 (-1) (-1) 0) as [|[]].
Qed.

(** decimal output and [skip_atoi] are inverse: printing a non-negative
    [int] with ["%u"] and scanning the text with [skip_atoi] gives it back
    and uses up the whole text. *)
Theorem vsprintf_skip_atoi (n : Z) :
  0 <= n < 2147483648 ->
  exists cs, vsprintf (String.list_ascii_of_string "%u") [AInt n]
    = Ok (Z.of_nat (length cs)) (Vst cs [] []) /\ skip_atoi cs = (n, []).
Proof.
  intros Hn. destruct (number_shape n 10 (-1) (-1) 0) as (a & z & t & ds & Hnum & Hv & Hf & Hl & Hp & Hlen);
    [lia|unfold in_s32; lia|].
  change (sign_chars n 0) with (@nil ascii) in *. change (prefix_chars 10 0) with (@nil ascii) in *.
  simpl in Hlen. assert (a = 0 /\ z = 0 /\ t = 0)%nat as (-> & -> & ->) by lia.
  exists (rev ds). cbn [replicate app] in Hnum. rewrite app_nil_r in Hnum. split.
  - unfold vsprintf. change (String.list_ascii_of_string "%u") with ["%"%char; "u"%char].
    by rewrite iter_directive, directive_u, Hnum.
  - assert (Hm : magnitude n 0 = n) by (apply (u32_small n); unfold in_u32; lia).
    rewrite Hm in Hv. unfold skip_atoi, num_value in *. rewrite skip_atoi_digits; rewrite ?Hv; try done; [|lia].
    by apply Forall_rev.
Qed.

Lemma vsprintf_skip_atoi_witness :
  exists cs, vsprintf (String.list_ascii_of_string "%u") [AInt 2147483647]
    = Ok (Z.of_nat (length cs)) (Vst cs [] []) /\ skip_atoi cs = (2147483647, []).
Proof. apply (vsprintf_skip_atoi 2147483647). lia. Defined.

(** the star of a field width is not skipped (the comment in the source
    says the width is the next argument): ["%*d"] takes the width from the
    arguments and then prints a percent sign, the star and the [d], without
    ever printing the number. *)
Theorem vsprintf_star_width (w n : Z) (al : list arg) :
  vsprintf (String.list_ascii_of_string "%*d") (AInt w :: AInt n :: al)
  = Ok 3 (Vst (String.list_ascii_of_string "%*d") (AInt n :: al) []).
Proof.
  set (al' := AInt n :: al).
  assert (H : directive ["*"%char; "d"%char] (Vst [] (AInt w :: al') [])
              = Ok ["d"%char] (Vst ["%"%char; "*"%char] al' [])).
  { change (directive ["*"%char; "d"%char] (Vst [] (AInt w :: al') []))
      with (('(flags, width, f) ← (if w <? 0 then mret (LEFT, s32 (- w), ["*"%char; "d"%char])
                                   else mret (0, w, ["*"%char; "d"%char]));
             '(precision, f) ← parse_precision f;
             conversion flags width precision (skip_qualifier f)) (Vst [] al' [])).
    generalize (s32 (- w)). intros z. by destruct (w <? 0). }
  unfold vsprintf. change (String.list_ascii_of_string "%*d") with ["%"%char; "*"%char; "d"%char].
  by rewrite iter_directive, H.
Qed.
