(* ===== verification/TaskStruct.v ===== *)
(** * Tasks: [struct task_struct] and the process table

    The data of [include/linux/sched.h] and [include/signal.h] that the
    process side of the kernel shares: the task structure, the table
    [task[NR_TASKS]], the running task, the clock.  A task structure lives on
    a page of its own, so a [struct task_struct *] is the key of a heap of task
    structures and may be null or dangling; wait queues are heads of lists
    through [next_wait].  Calls into other parts of the kernel that leave no
    trace in this state are recorded as events. *)

From S2P Require Import Prelude.

Definition NR_TASKS : Z := 64.
Definition HZ : Z := 100.
Definition NR_OPEN : Z := 20.
Definition TASK_SIZE : Z := 0x04000000.

Definition TASK_RUNNING : Z := 0.
Definition TASK_INTERRUPTIBLE : Z := 1.
Definition TASK_UNINTERRUPTIBLE : Z := 2.
Definition TASK_ZOMBIE : Z := 3.
Definition TASK_STOPPED : Z := 4.

Definition SIGHUP : Z := 1.
Definition SIGQUIT : Z := 3.
Definition SIGILL : Z := 4.
Definition SIGTRAP : Z := 5.
Definition SIGIOT : Z := 6.
Definition SIGFPE : Z := 8.
Definition SIGKILL : Z := 9.
Definition SIGSEGV : Z := 11.
Definition SIGALRM : Z := 14.
Definition SIGCHLD : Z := 17.
Definition SIGCONT : Z := 18.
Definition SIGSTOP : Z := 19.
Definition SIGTSTP : Z := 20.
Definition SIGTTIN : Z := 21.
Definition SIGTTOU : Z := 22.

Definition SA_NOCLDSTOP : Z := 1.
Definition SA_INTERRUPT : Z := 0x20000000.
Definition SA_NOMASK : Z := 0x40000000.
Definition SA_ONESHOT : Z := 0x80000000.
Definition SIG_IGN : Z := 1.
Definition PF_PTRACED : Z := 0x10.

Definition EPERM : Z := 1.
Definition ENOENT : Z := 2.
Definition ESRCH : Z := 3.
Definition EINTR : Z := 4.
Definition EIO : Z := 5.
Definition EBADF : Z := 9.
Definition ECHILD : Z := 10.
Definition EAGAIN : Z := 11.
Definition ENOMEM : Z := 12.
Definition EACCES : Z := 13.
Definition ENOTBLK : Z := 15.
Definition EBUSY : Z := 16.
Definition EEXIST : Z := 17.
Definition EXDEV : Z := 18.
Definition ENODEV : Z := 19.
Definition ENOTDIR : Z := 20.
Definition EISDIR : Z := 21.
Definition EINVAL : Z := 22.
Definition ENFILE : Z := 23.
Definition EMFILE : Z := 24.
Definition ENOTTY : Z := 25.
Definition ENOSPC : Z := 28.
Definition ESPIPE : Z := 29.
Definition EMLINK : Z := 31.
Definition ENOSYS : Z := 38.
Definition ENOTEMPTY : Z := 39.
Definition ERESTARTSYS : Z := 512.
Definition ERESTARTNOINTR : Z := 513.
Definition ERROR : Z := 99.

(** [struct sigaction]: a handler is an address, 0 for the default and 1 for
    ignore. *)
Record sigaction := SigAction {
  sa_handler : Z; sa_mask : Z; sa_flags : Z; sa_restorer : Z
}.

(** [struct task_struct *] *)
Abbreviation tptr := positive.

(** [struct tss_struct], less the state of the coprocessor. *)
Record tss_struct := Tss {
  back_link : Z; esp0 : Z; ss0 : Z; esp1 : Z; ss1 : Z; esp2 : Z; ss2 : Z; cr3 : Z;
  tss_eip : Z; tss_eflags : Z; tss_eax : Z; tss_ecx : Z; tss_edx : Z; tss_ebx : Z;
  tss_esp : Z; tss_ebp : Z; tss_esi : Z; tss_edi : Z;
  tss_es : Z; tss_cs : Z; tss_ss : Z; tss_ds : Z; tss_fs : Z; tss_gs : Z;
  tss_ldt : Z; trace_bitmap : Z
}.

Record task_struct := Task {
  state : Z; counter : Z; priority : Z; signal : Z; sigactions : list sigaction; blocked : Z;
  exit_code : Z; start_code : Z; end_code : Z; end_data : Z; brk : Z; start_stack : Z; pid : Z;
  pgrp : Z; session : Z; leader : Z; groups : list Z; p_pptr : option tptr; p_cptr : option tptr;
  p_ysptr : option tptr; p_osptr : option tptr; next_wait : option tptr; uid : Z; euid : Z;
  suid : Z; gid : Z; egid : Z; sgid : Z; timeout : Z; alarm : Z; utime : Z; stime : Z;
  cutime : Z; cstime : Z; start_time : Z; min_flt : Z; maj_flt : Z; cmin_flt : Z; cmaj_flt : Z;
  rlim : list (Z * Z); tflags : Z; used_math : Z; rss : Z; link_count : Z; tty : Z; umask : Z;
  pwd : option positive; root : option positive; executable : option positive;
  library : option positive; close_on_exec : Z; filp : list (option positive);
  ldt : list (Z * Z); tss : tss_struct
}.

Definition set_state (v : Z) (t : task_struct) : task_struct :=
  match t with Task _ x1 x2 x3 x4 x5 x6 x7 x8 x9 x10 x11 x12 x13 x14 x15 x16 x17 x18 x19 x20 x21
  x22 x23 x24 x25 x26 x27 x28 x29 x30 x31 x32 x33 x34 x35 x36 x37 x38 x39 x40 x41 x42 x43 x44 x45
  x46 x47 x48 x49 x50 x51 x52 x53 =>
    Task v x1 x2 x3 x4 x5 x6 x7 x8 x9 x10 x11 x12 x13 x14 x15 x16 x17 x18 x19 x20 x21 x22 x23 x24
    x25 x26 x27 x28 x29 x30 x31 x32 x33 x34 x35 x36 x37 x38 x39 x40 x41 x42 x43 x44 x45 x46 x47
    x48 x49 x50 x51 x52 x53 end.
Definition set_counter (v : Z) (t : task_struct) : task_struct :=
  match t with Task x0 _ x2 x3 x4 x5 x6 x7 x8 x9 x10 x11 x12 x13 x14 x15 x16 x17 x18 x19 x20 x21
  x22 x23 x24 x25 x26 x27 x28 x29 x30 x31 x32 x33 x34 x35 x36 x37 x38 x39 x40 x41 x42 x43 x44 x45
  x46 x47 x48 x49 x50 x51 x52 x53 =>
    Task x0 v x2 x3 x4 x5 x6 x7 x8 x9 x10 x11 x12 x13 x14 x15 x16 x17 x18 x19 x20 x21 x22 x23 x24
    x25 x26 x27 x28 x29 x30 x31 x32 x33 x34 x35 x36 x37 x38 x39 x40 x41 x42 x43 x44 x45 x46 x47
    x48 x49 x50 x51 x52 x53 end.
Definition set_priority (v : Z) (t : task_struct) : task_struct :=
  match t with Task x0 x1 _ x3 x4 x5 x6 x7 x8 x9 x10 x11 x12 x13 x14 x15 x16 x17 x18 x19 x20 x21
  x22 x23 x24 x25 x26 x27 x28 x29 x30 x31 x32 x33 x34 x35 x36 x37 x38 x39 x40 x41 x42 x43 x44 x45
  x46 x47 x48 x49 x50 x51 x52 x53 =>
    Task x0 x1 v x3 x4 x5 x6 x7 x8 x9 x10 x11 x12 x13 x14 x15 x16 x17 x18 x19 x20 x21 x22 x23 x24
    x25 x26 x27 x28 x29 x30 x31 x32 x33 x34 x35 x36 x37 x38 x39 x40 x41 x42 x43 x44 x45 x46 x47
    x48 x49 x50 x51 x52 x53 end.
Definition set_signal (v : Z) (t : task_struct) : task_struct :=
  match t with Task x0 x1 x2 _ x4 x5 x6 x7 x8 x9 x10 x11 x12 x13 x14 x15 x16 x17 x18 x19 x20 x21
  x22 x23 x24 x25 x26 x27 x28 x29 x30 x31 x32 x33 x34 x35 x36 x37 x38 x39 x40 x41 x42 x43 x44 x45
  x46 x47 x48 x49 x50 x51 x52 x53 =>
    Task x0 x1 x2 v x4 x5 x6 x7 x8 x9 x10 x11 x12 x13 x14 x15 x16 x17 x18 x19 x20 x21 x22 x23 x24
    x25 x26 x27 x28 x29 x30 x31 x32 x33 x34 x35 x36 x37 x38 x39 x40 x41 x42 x43 x44 x45 x46 x47
    x48 x49 x50 x51 x52 x53 end.
Definition set_sigactions (v : list sigaction) (t : task_struct) : task_struct :=
  match t with Task x0 x1 x2 x3 _ x5 x6 x7 x8 x9 x10 x11 x12 x13 x14 x15 x16 x17 x18 x19 x20 x21
  x22 x23 x24 x25 x26 x27 x28 x29 x30 x31 x32 x33 x34 x35 x36 x37 x38 x39 x40 x41 x42 x43 x44 x45
  x46 x47 x48 x49 x50 x51 x52 x53 =>
    Task x0 x1 x2 x3 v x5 x6 x7 x8 x9 x10 x11 x12 x13 x14 x15 x16 x17 x18 x19 x20 x21 x22 x23 x24
    x25 x26 x27 x28 x29 x30 x31 x32 x33 x34 x35 x36 x37 x38 x39 x40 x41 x42 x43 x44 x45 x46 x47
    x48 x49 x50 x51 x52 x53 end.
Definition set_blocked (v : Z) (t : task_struct) : task_struct :=
  match t with Task x0 x1 x2 x3 x4 _ x6 x7 x8 x9 x10 x11 x12 x13 x14 x15 x16 x17 x18 x19 x20 x21
  x22 x23 x24 x25 x26 x27 x28 x29 x30 x31 x32 x33 x34 x35 x36 x37 x38 x39 x40 x41 x42 x43 x44 x45
  x46 x47 x48 x49 x50 x51 x52 x53 =>
    Task x0 x1 x2 x3 x4 v x6 x7 x8 x9 x10 x11 x12 x13 x14 x15 x16 x17 x18 x19 x20 x21 x22 x23 x24
    x25 x26 x27 x28 x29 x30 x31 x32 x33 x34 x35 x36 x37 x38 x39 x40 x41 x42 x43 x44 x45 x46 x47
    x48 x49 x50 x51 x52 x53 end.
Definition set_exit_code (v : Z) (t : task_struct) : task_struct :=
  match t with Task x0 x1 x2 x3 x4 x5 _ x7 x8 x9 x10 x11 x12 x13 x14 x15 x16 x17 x18 x19 x20 x21
  x22 x23 x24 x25 x26 x27 x28 x29 x30 x31 x32 x33 x34 x35 x36 x37 x38 x39 x40 x41 x42 x43 x44 x45
  x46 x47 x48 x49 x50 x51 x52 x53 =>
    Task x0 x1 x2 x3 x4 x5 v x7 x8 x9 x10 x11 x12 x13 x14 x15 x16 x17 x18 x19 x20 x21 x22 x23 x24
    x25 x26 x27 x28 x29 x30 x31 x32 x33 x34 x35 x36 x37 x38 x39 x40 x41 x42 x43 x44 x45 x46 x47
    x48 x49 x50 x51 x52 x53 end.
Definition set_start_code (v : Z) (t : task_struct) : task_struct :=
  match t with Task x0 x1 x2 x3 x4 x5 x6 _ x8 x9 x10 x11 x12 x13 x14 x15 x16 x17 x18 x19 x20 x21
  x22 x23 x24 x25 x26 x27 x28 x29 x30 x31 x32 x33 x34 x35 x36 x37 x38 x39 x40 x41 x42 x43 x44 x45
  x46 x47 x48 x49 x50 x51 x52 x53 =>
    Task x0 x1 x2 x3 x4 x5 x6 v x8 x9 x10 x11 x12 x13 x14 x15 x16 x17 x18 x19 x20 x21 x22 x23 x24
    x25 x26 x27 x28 x29 x30 x31 x32 x33 x34 x35 x36 x37 x38 x39 x40 x41 x42 x43 x44 x45 x46 x47
    x48 x49 x50 x51 x52 x53 end.
Definition set_end_code (v : Z) (t : task_struct) : task_struct :=
  match t with Task x0 x1 x2 x3 x4 x5 x6 x7 _ x9 x10 x11 x12 x13 x14 x15 x16 x17 x18 x19 x20 x21
  x22 x23 x24 x25 x26 x27 x28 x29 x30 x31 x32 x33 x34 x35 x36 x37 x38 x39 x40 x41 x42 x43 x44 x45
  x46 x47 x48 x49 x50 x51 x52 x53 =>
    Task x0 x1 x2 x3 x4 x5 x6 x7 v x9 x10 x11 x12 x13 x14 x15 x16 x17 x18 x19 x20 x21 x22 x23 x24
    x25 x26 x27 x28 x29 x30 x31 x32 x33 x34 x35 x36 x37 x38 x39 x40 x41 x42 x43 x44 x45 x46 x47
    x48 x49 x50 x51 x52 x53 end.
Definition set_end_data (v : Z) (t : task_struct) : task_struct :=
  match t with Task x0 x1 x2 x3 x4 x5 x6 x7 x8 _ x10 x11 x12 x13 x14 x15 x16 x17 x18 x19 x20 x21
  x22 x23 x24 x25 x26 x27 x28 x29 x30 x31 x32 x33 x34 x35 x36 x37 x38 x39 x40 x41 x42 x43 x44 x45
  x46 x47 x48 x49 x50 x51 x52 x53 =>
    Task x0 x1 x2 x3 x4 x5 x6 x7 x8 v x10 x11 x12 x13 x14 x15 x16 x17 x18 x19 x20 x21 x22 x23 x24
    x25 x26 x27 x28 x29 x30 x31 x32 x33 x34 x35 x36 x37 x38 x39 x40 x41 x42 x43 x44 x45 x46 x47
    x48 x49 x50 x51 x52 x53 end.
Definition set_brk (v : Z) (t : task_struct) : task_struct :=
  match t with Task x0 x1 x2 x3 x4 x5 x6 x7 x8 x9 _ x11 x12 x13 x14 x15 x16 x17 x18 x19 x20 x21
  x22 x23 x24 x25 x26 x27 x28 x29 x30 x31 x32 x33 x34 x35 x36 x37 x38 x39 x40 x41 x42 x43 x44 x45
  x46 x47 x48 x49 x50 x51 x52 x53 =>
    Task x0 x1 x2 x3 x4 x5 x6 x7 x8 x9 v x11 x12 x13 x14 x15 x16 x17 x18 x19 x20 x21 x22 x23 x24
    x25 x26 x27 x28 x29 x30 x31 x32 x33 x34 x35 x36 x37 x38 x39 x40 x41 x42 x43 x44 x45 x46 x47
    x48 x49 x50 x51 x52 x53 end.
Definition set_start_stack (v : Z) (t : task_struct) : task_struct :=
  match t with Task x0 x1 x2 x3 x4 x5 x6 x7 x8 x9 x10 _ x12 x13 x14 x15 x16 x17 x18 x19 x20 x21
  x22 x23 x24 x25 x26 x27 x28 x29 x30 x31 x32 x33 x34 x35 x36 x37 x38 x39 x40 x41 x42 x43 x44 x45
  x46 x47 x48 x49 x50 x51 x52 x53 =>
    Task x0 x1 x2 x3 x4 x5 x6 x7 x8 x9 x10 v x12 x13 x14 x15 x16 x17 x18 x19 x20 x21 x22 x23 x24
    x25 x26 x27 x28 x29 x30 x31 x32 x33 x34 x35 x36 x37 x38 x39 x40 x41 x42 x43 x44 x45 x46 x47
    x48 x49 x50 x51 x52 x53 end.
Definition set_pid (v : Z) (t : task_struct) : task_struct :=
  match t with Task x0 x1 x2 x3 x4 x5 x6 x7 x8 x9 x10 x11 _ x13 x14 x15 x16 x17 x18 x19 x20 x21
  x22 x23 x24 x25 x26 x27 x28 x29 x30 x31 x32 x33 x34 x35 x36 x37 x38 x39 x40 x41 x42 x43 x44 x45
  x46 x47 x48 x49 x50 x51 x52 x53 =>
    Task x0 x1 x2 x3 x4 x5 x6 x7 x8 x9 x10 x11 v x13 x14 x15 x16 x17 x18 x19 x20 x21 x22 x23 x24
    x25 x26 x27 x28 x29 x30 x31 x32 x33 x34 x35 x36 x37 x38 x39 x40 x41 x42 x43 x44 x45 x46 x47
    x48 x49 x50 x51 x52 x53 end.
Definition set_pgrp (v : Z) (t : task_struct) : task_struct :=
  match t with Task x0 x1 x2 x3 x4 x5 x6 x7 x8 x9 x10 x11 x12 _ x14 x15 x16 x17 x18 x19 x20 x21
  x22 x23 x24 x25 x26 x27 x28 x29 x30 x31 x32 x33 x34 x35 x36 x37 x38 x39 x40 x41 x42 x43 x44 x45
  x46 x47 x48 x49 x50 x51 x52 x53 =>
    Task x0 x1 x2 x3 x4 x5 x6 x7 x8 x9 x10 x11 x12 v x14 x15 x16 x17 x18 x19 x20 x21 x22 x23 x24
    x25 x26 x27 x28 x29 x30 x31 x32 x33 x34 x35 x36 x37 x38 x39 x40 x41 x42 x43 x44 x45 x46 x47
    x48 x49 x50 x51 x52 x53 end.
Definition set_session (v : Z) (t : task_struct) : task_struct :=
  match t with Task x0 x1 x2 x3 x4 x5 x6 x7 x8 x9 x10 x11 x12 x13 _ x15 x16 x17 x18 x19 x20 x21
  x22 x23 x24 x25 x26 x27 x28 x29 x30 x31 x32 x33 x34 x35 x36 x37 x38 x39 x40 x41 x42 x43 x44 x45
  x46 x47 x48 x49 x50 x51 x52 x53 =>
    Task x0 x1 x2 x3 x4 x5 x6 x7 x8 x9 x10 x11 x12 x13 v x15 x16 x17 x18 x19 x20 x21 x22 x23 x24
    x25 x26 x27 x28 x29 x30 x31 x32 x33 x34 x35 x36 x37 x38 x39 x40 x41 x42 x43 x44 x45 x46 x47
    x48 x49 x50 x51 x52 x53 end.
Definition set_leader (v : Z) (t : task_struct) : task_struct :=
  match t with Task x0 x1 x2 x3 x4 x5 x6 x7 x8 x9 x10 x11 x12 x13 x14 _ x16 x17 x18 x19 x20 x21
  x22 x23 x24 x25 x26 x27 x28 x29 x30 x31 x32 x33 x34 x35 x36 x37 x38 x39 x40 x41 x42 x43 x44 x45
  x46 x47 x48 x49 x50 x51 x52 x53 =>
    Task x0 x1 x2 x3 x4 x5 x6 x7 x8 x9 x10 x11 x12 x13 x14 v x16 x17 x18 x19 x20 x21 x22 x23 x24
    x25 x26 x27 x28 x29 x30 x31 x32 x33 x34 x35 x36 x37 x38 x39 x40 x41 x42 x43 x44 x45 x46 x47
    x48 x49 x50 x51 x52 x53 end.
Definition set_groups (v : list Z) (t : task_struct) : task_struct :=
  match t with Task x0 x1 x2 x3 x4 x5 x6 x7 x8 x9 x10 x11 x12 x13 x14 x15 _ x17 x18 x19 x20 x21
  x22 x23 x24 x25 x26 x27 x28 x29 x30 x31 x32 x33 x34 x35 x36 x37 x38 x39 x40 x41 x42 x43 x44 x45
  x46 x47 x48 x49 x50 x51 x52 x53 =>
    Task x0 x1 x2 x3 x4 x5 x6 x7 x8 x9 x10 x11 x12 x13 x14 x15 v x17 x18 x19 x20 x21 x22 x23 x24
    x25 x26 x27 x28 x29 x30 x31 x32 x33 x34 x35 x36 x37 x38 x39 x40 x41 x42 x43 x44 x45 x46 x47
    x48 x49 x50 x51 x52 x53 end.
Definition set_p_pptr (v : option tptr) (t : task_struct) : task_struct :=
  match t with Task x0 x1 x2 x3 x4 x5 x6 x7 x8 x9 x10 x11 x12 x13 x14 x15 x16 _ x18 x19 x20 x21
  x22 x23 x24 x25 x26 x27 x28 x29 x30 x31 x32 x33 x34 x35 x36 x37 x38 x39 x40 x41 x42 x43 x44 x45
  x46 x47 x48 x49 x50 x51 x52 x53 =>
    Task x0 x1 x2 x3 x4 x5 x6 x7 x8 x9 x10 x11 x12 x13 x14 x15 x16 v x18 x19 x20 x21 x22 x23 x24
    x25 x26 x27 x28 x29 x30 x31 x32 x33 x34 x35 x36 x37 x38 x39 x40 x41 x42 x43 x44 x45 x46 x47
    x48 x49 x50 x51 x52 x53 end.
Definition set_p_cptr (v : option tptr) (t : task_struct) : task_struct :=
  match t with Task x0 x1 x2 x3 x4 x5 x6 x7 x8 x9 x10 x11 x12 x13 x14 x15 x16 x17 _ x19 x20 x21
  x22 x23 x24 x25 x26 x27 x28 x29 x30 x31 x32 x33 x34 x35 x36 x37 x38 x39 x40 x41 x42 x43 x44 x45
  x46 x47 x48 x49 x50 x51 x52 x53 =>
    Task x0 x1 x2 x3 x4 x5 x6 x7 x8 x9 x10 x11 x12 x13 x14 x15 x16 x17 v x19 x20 x21 x22 x23 x24
    x25 x26 x27 x28 x29 x30 x31 x32 x33 x34 x35 x36 x37 x38 x39 x40 x41 x42 x43 x44 x45 x46 x47
    x48 x49 x50 x51 x52 x53 end.
Definition set_p_ysptr (v : option tptr) (t : task_struct) : task_struct :=
  match t with Task x0 x1 x2 x3 x4 x5 x6 x7 x8 x9 x10 x11 x12 x13 x14 x15 x16 x17 x18 _ x20 x21
  x22 x23 x24 x25 x26 x27 x28 x29 x30 x31 x32 x33 x34 x35 x36 x37 x38 x39 x40 x41 x42 x43 x44 x45
  x46 x47 x48 x49 x50 x51 x52 x53 =>
    Task x0 x1 x2 x3 x4 x5 x6 x7 x8 x9 x10 x11 x12 x13 x14 x15 x16 x17 x18 v x20 x21 x22 x23 x24
    x25 x26 x27 x28 x29 x30 x31 x32 x33 x34 x35 x36 x37 x38 x39 x40 x41 x42 x43 x44 x45 x46 x47
    x48 x49 x50 x51 x52 x53 end.
Definition set_p_osptr (v : option tptr) (t : task_struct) : task_struct :=
  match t with Task x0 x1 x2 x3 x4 x5 x6 x7 x8 x9 x10 x11 x12 x13 x14 x15 x16 x17 x18 x19 _ x21
  x22 x23 x24 x25 x26 x27 x28 x29 x30 x31 x32 x33 x34 x35 x36 x37 x38 x39 x40 x41 x42 x43 x44 x45
  x46 x47 x48 x49 x50 x51 x52 x53 =>
    Task x0 x1 x2 x3 x4 x5 x6 x7 x8 x9 x10 x11 x12 x13 x14 x15 x16 x17 x18 x19 v x21 x22 x23 x24
    x25 x26 x27 x28 x29 x30 x31 x32 x33 x34 x35 x36 x37 x38 x39 x40 x41 x42 x43 x44 x45 x46 x47
    x48 x49 x50 x51 x52 x53 end.
Definition set_next_wait (v : option tptr) (t : task_struct) : task_struct :=
  match t with Task x0 x1 x2 x3 x4 x5 x6 x7 x8 x9 x10 x11 x12 x13 x14 x15 x16 x17 x18 x19 x20 _
  x22 x23 x24 x25 x26 x27 x28 x29 x30 x31 x32 x33 x34 x35 x36 x37 x38 x39 x40 x41 x42 x43 x44 x45
  x46 x47 x48 x49 x50 x51 x52 x53 =>
    Task x0 x1 x2 x3 x4 x5 x6 x7 x8 x9 x10 x11 x12 x13 x14 x15 x16 x17 x18 x19 x20 v x22 x23 x24
    x25 x26 x27 x28 x29 x30 x31 x32 x33 x34 x35 x36 x37 x38 x39 x40 x41 x42 x43 x44 x45 x46 x47
    x48 x49 x50 x51 x52 x53 end.
Definition set_uid (v : Z) (t : task_struct) : task_struct :=
  match t with Task x0 x1 x2 x3 x4 x5 x6 x7 x8 x9 x10 x11 x12 x13 x14 x15 x16 x17 x18 x19 x20 x21
  _ x23 x24 x25 x26 x27 x28 x29 x30 x31 x32 x33 x34 x35 x36 x37 x38 x39 x40 x41 x42 x43 x44 x45
  x46 x47 x48 x49 x50 x51 x52 x53 =>
    Task x0 x1 x2 x3 x4 x5 x6 x7 x8 x9 x10 x11 x12 x13 x14 x15 x16 x17 x18 x19 x20 x21 v x23 x24
    x25 x26 x27 x28 x29 x30 x31 x32 x33 x34 x35 x36 x37 x38 x39 x40 x41 x42 x43 x44 x45 x46 x47
    x48 x49 x50 x51 x52 x53 end.
Definition set_euid (v : Z) (t : task_struct) : task_struct :=
  match t with Task x0 x1 x2 x3 x4 x5 x6 x7 x8 x9 x10 x11 x12 x13 x14 x15 x16 x17 x18 x19 x20 x21
  x22 _ x24 x25 x26 x27 x28 x29 x30 x31 x32 x33 x34 x35 x36 x37 x38 x39 x40 x41 x42 x43 x44 x45
  x46 x47 x48 x49 x50 x51 x52 x53 =>
    Task x0 x1 x2 x3 x4 x5 x6 x7 x8 x9 x10 x11 x12 x13 x14 x15 x16 x17 x18 x19 x20 x21 x22 v x24
    x25 x26 x27 x28 x29 x30 x31 x32 x33 x34 x35 x36 x37 x38 x39 x40 x41 x42 x43 x44 x45 x46 x47
    x48 x49 x50 x51 x52 x53 end.
Definition set_suid (v : Z) (t : task_struct) : task_struct :=
  match t with Task x0 x1 x2 x3 x4 x5 x6 x7 x8 x9 x10 x11 x12 x13 x14 x15 x16 x17 x18 x19 x20 x21
  x22 x23 _ x25 x26 x27 x28 x29 x30 x31 x32 x33 x34 x35 x36 x37 x38 x39 x40 x41 x42 x43 x44 x45
  x46 x47 x48 x49 x50 x51 x52 x53 =>
    Task x0 x1 x2 x3 x4 x5 x6 x7 x8 x9 x10 x11 x12 x13 x14 x15 x16 x17 x18 x19 x20 x21 x22 x23 v
    x25 x26 x27 x28 x29 x30 x31 x32 x33 x34 x35 x36 x37 x38 x39 x40 x41 x42 x43 x44 x45 x46 x47
    x48 x49 x50 x51 x52 x53 end.
Definition set_gid (v : Z) (t : task_struct) : task_struct :=
  match t with Task x0 x1 x2 x3 x4 x5 x6 x7 x8 x9 x10 x11 x12 x13 x14 x15 x16 x17 x18 x19 x20 x21
  x22 x23 x24 _ x26 x27 x28 x29 x30 x31 x32 x33 x34 x35 x36 x37 x38 x39 x40 x41 x42 x43 x44 x45
  x46 x47 x48 x49 x50 x51 x52 x53 =>
    Task x0 x1 x2 x3 x4 x5 x6 x7 x8 x9 x10 x11 x12 x13 x14 x15 x16 x17 x18 x19 x20 x21 x22 x23
    x24 v x26 x27 x28 x29 x30 x31 x32 x33 x34 x35 x36 x37 x38 x39 x40 x41 x42 x43 x44 x45 x46 x47
    x48 x49 x50 x51 x52 x53 end.
Definition set_egid (v : Z) (t : task_struct) : task_struct :=
  match t with Task x0 x1 x2 x3 x4 x5 x6 x7 x8 x9 x10 x11 x12 x13 x14 x15 x16 x17 x18 x19 x20 x21
  x22 x23 x24 x25 _ x27 x28 x29 x30 x31 x32 x33 x34 x35 x36 x37 x38 x39 x40 x41 x42 x43 x44 x45
  x46 x47 x48 x49 x50 x51 x52 x53 =>
    Task x0 x1 x2 x3 x4 x5 x6 x7 x8 x9 x10 x11 x12 x13 x14 x15 x16 x17 x18 x19 x20 x21 x22 x23
    x24 x25 v x27 x28 x29 x30 x31 x32 x33 x34 x35 x36 x37 x38 x39 x40 x41 x42 x43 x44 x45 x46 x47
    x48 x49 x50 x51 x52 x53 end.
Definition set_sgid (v : Z) (t : task_struct) : task_struct :=
  match t with Task x0 x1 x2 x3 x4 x5 x6 x7 x8 x9 x10 x11 x12 x13 x14 x15 x16 x17 x18 x19 x20 x21
  x22 x23 x24 x25 x26 _ x28 x29 x30 x31 x32 x33 x34 x35 x36 x37 x38 x39 x40 x41 x42 x43 x44 x45
  x46 x47 x48 x49 x50 x51 x52 x53 =>
    Task x0 x1 x2 x3 x4 x5 x6 x7 x8 x9 x10 x11 x12 x13 x14 x15 x16 x17 x18 x19 x20 x21 x22 x23
    x24 x25 x26 v x28 x29 x30 x31 x32 x33 x34 x35 x36 x37 x38 x39 x40 x41 x42 x43 x44 x45 x46 x47
    x48 x49 x50 x51 x52 x53 end.
Definition set_timeout (v : Z) (t : task_struct) : task_struct :=
  match t with Task x0 x1 x2 x3 x4 x5 x6 x7 x8 x9 x10 x11 x12 x13 x14 x15 x16 x17 x18 x19 x20 x21
  x22 x23 x24 x25 x26 x27 _ x29 x30 x31 x32 x33 x34 x35 x36 x37 x38 x39 x40 x41 x42 x43 x44 x45
  x46 x47 x48 x49 x50 x51 x52 x53 =>
    Task x0 x1 x2 x3 x4 x5 x6 x7 x8 x9 x10 x11 x12 x13 x14 x15 x16 x17 x18 x19 x20 x21 x22 x23
    x24 x25 x26 x27 v x29 x30 x31 x32 x33 x34 x35 x36 x37 x38 x39 x40 x41 x42 x43 x44 x45 x46 x47
    x48 x49 x50 x51 x52 x53 end.
Definition set_alarm (v : Z) (t : task_struct) : task_struct :=
  match t with Task x0 x1 x2 x3 x4 x5 x6 x7 x8 x9 x10 x11 x12 x13 x14 x15 x16 x17 x18 x19 x20 x21
  x22 x23 x24 x25 x26 x27 x28 _ x30 x31 x32 x33 x34 x35 x36 x37 x38 x39 x40 x41 x42 x43 x44 x45
  x46 x47 x48 x49 x50 x51 x52 x53 =>
    Task x0 x1 x2 x3 x4 x5 x6 x7 x8 x9 x10 x11 x12 x13 x14 x15 x16 x17 x18 x19 x20 x21 x22 x23
    x24 x25 x26 x27 x28 v x30 x31 x32 x33 x34 x35 x36 x37 x38 x39 x40 x41 x42 x43 x44 x45 x46 x47
    x48 x49 x50 x51 x52 x53 end.
Definition set_utime (v : Z) (t : task_struct) : task_struct :=
  match t with Task x0 x1 x2 x3 x4 x5 x6 x7 x8 x9 x10 x11 x12 x13 x14 x15 x16 x17 x18 x19 x20 x21
  x22 x23 x24 x25 x26 x27 x28 x29 _ x31 x32 x33 x34 x35 x36 x37 x38 x39 x40 x41 x42 x43 x44 x45
  x46 x47 x48 x49 x50 x51 x52 x53 =>
    Task x0 x1 x2 x3 x4 x5 x6 x7 x8 x9 x10 x11 x12 x13 x14 x15 x16 x17 x18 x19 x20 x21 x22 x23
    x24 x25 x26 x27 x28 x29 v x31 x32 x33 x34 x35 x36 x37 x38 x39 x40 x41 x42 x43 x44 x45 x46 x47
    x48 x49 x50 x51 x52 x53 end.
Definition set_stime (v : Z) (t : task_struct) : task_struct :=
  match t with Task x0 x1 x2 x3 x4 x5 x6 x7 x8 x9 x10 x11 x12 x13 x14 x15 x16 x17 x18 x19 x20 x21
  x22 x23 x24 x25 x26 x27 x28 x29 x30 _ x32 x33 x34 x35 x36 x37 x38 x39 x40 x41 x42 x43 x44 x45
  x46 x47 x48 x49 x50 x51 x52 x53 =>
    Task x0 x1 x2 x3 x4 x5 x6 x7 x8 x9 x10 x11 x12 x13 x14 x15 x16 x17 x18 x19 x20 x21 x22 x23
    x24 x25 x26 x27 x28 x29 x30 v x32 x33 x34 x35 x36 x37 x38 x39 x40 x41 x42 x43 x44 x45 x46 x47
    x48 x49 x50 x51 x52 x53 end.
Definition set_cutime (v : Z) (t : task_struct) : task_struct :=
  match t with Task x0 x1 x2 x3 x4 x5 x6 x7 x8 x9 x10 x11 x12 x13 x14 x15 x16 x17 x18 x19 x20 x21
  x22 x23 x24 x25 x26 x27 x28 x29 x30 x31 _ x33 x34 x35 x36 x37 x38 x39 x40 x41 x42 x43 x44 x45
  x46 x47 x48 x49 x50 x51 x52 x53 =>
    Task x0 x1 x2 x3 x4 x5 x6 x7 x8 x9 x10 x11 x12 x13 x14 x15 x16 x17 x18 x19 x20 x21 x22 x23
    x24 x25 x26 x27 x28 x29 x30 x31 v x33 x34 x35 x36 x37 x38 x39 x40 x41 x42 x43 x44 x45 x46 x47
    x48 x49 x50 x51 x52 x53 end.
Definition set_cstime (v : Z) (t : task_struct) : task_struct :=
  match t with Task x0 x1 x2 x3 x4 x5 x6 x7 x8 x9 x10 x11 x12 x13 x14 x15 x16 x17 x18 x19 x20 x21
  x22 x23 x24 x25 x26 x27 x28 x29 x30 x31 x32 _ x34 x35 x36 x37 x38 x39 x40 x41 x42 x43 x44 x45
  x46 x47 x48 x49 x50 x51 x52 x53 =>
    Task x0 x1 x2 x3 x4 x5 x6 x7 x8 x9 x10 x11 x12 x13 x14 x15 x16 x17 x18 x19 x20 x21 x22 x23
    x24 x25 x26 x27 x28 x29 x30 x31 x32 v x34 x35 x36 x37 x38 x39 x40 x41 x42 x43 x44 x45 x46 x47
    x48 x49 x50 x51 x52 x53 end.
Definition set_start_time (v : Z) (t : task_struct) : task_struct :=
  match t with Task x0 x1 x2 x3 x4 x5 x6 x7 x8 x9 x10 x11 x12 x13 x14 x15 x16 x17 x18 x19 x20 x21
  x22 x23 x24 x25 x26 x27 x28 x29 x30 x31 x32 x33 _ x35 x36 x37 x38 x39 x40 x41 x42 x43 x44 x45
  x46 x47 x48 x49 x50 x51 x52 x53 =>
    Task x0 x1 x2 x3 x4 x5 x6 x7 x8 x9 x10 x11 x12 x13 x14 x15 x16 x17 x18 x19 x20 x21 x22 x23
    x24 x25 x26 x27 x28 x29 x30 x31 x32 x33 v x35 x36 x37 x38 x39 x40 x41 x42 x43 x44 x45 x46 x47
    x48 x49 x50 x51 x52 x53 end.
Definition set_min_flt (v : Z) (t : task_struct) : task_struct :=
  match t with Task x0 x1 x2 x3 x4 x5 x6 x7 x8 x9 x10 x11 x12 x13 x14 x15 x16 x17 x18 x19 x20 x21
  x22 x23 x24 x25 x26 x27 x28 x29 x30 x31 x32 x33 x34 _ x36 x37 x38 x39 x40 x41 x42 x43 x44 x45
  x46 x47 x48 x49 x50 x51 x52 x53 =>
    Task x0 x1 x2 x3 x4 x5 x6 x7 x8 x9 x10 x11 x12 x13 x14 x15 x16 x17 x18 x19 x20 x21 x22 x23
    x24 x25 x26 x27 x28 x29 x30 x31 x32 x33 x34 v x36 x37 x38 x39 x40 x41 x42 x43 x44 x45 x46 x47
    x48 x49 x50 x51 x52 x53 end.
Definition set_maj_flt (v : Z) (t : task_struct) : task_struct :=
  match t with Task x0 x1 x2 x3 x4 x5 x6 x7 x8 x9 x10 x11 x12 x13 x14 x15 x16 x17 x18 x19 x20 x21
  x22 x23 x24 x25 x26 x27 x28 x29 x30 x31 x32 x33 x34 x35 _ x37 x38 x39 x40 x41 x42 x43 x44 x45
  x46 x47 x48 x49 x50 x51 x52 x53 =>
    Task x0 x1 x2 x3 x4 x5 x6 x7 x8 x9 x10 x11 x12 x13 x14 x15 x16 x17 x18 x19 x20 x21 x22 x23
    x24 x25 x26 x27 x28 x29 x30 x31 x32 x33 x34 x35 v x37 x38 x39 x40 x41 x42 x43 x44 x45 x46 x47
    x48 x49 x50 x51 x52 x53 end.
Definition set_cmin_flt (v : Z) (t : task_struct) : task_struct :=
  match t with Task x0 x1 x2 x3 x4 x5 x6 x7 x8 x9 x10 x11 x12 x13 x14 x15 x16 x17 x18 x19 x20 x21
  x22 x23 x24 x25 x26 x27 x28 x29 x30 x31 x32 x33 x34 x35 x36 _ x38 x39 x40 x41 x42 x43 x44 x45
  x46 x47 x48 x49 x50 x51 x52 x53 =>
    Task x0 x1 x2 x3 x4 x5 x6 x7 x8 x9 x10 x11 x12 x13 x14 x15 x16 x17 x18 x19 x20 x21 x22 x23
    x24 x25 x26 x27 x28 x29 x30 x31 x32 x33 x34 x35 x36 v x38 x39 x40 x41 x42 x43 x44 x45 x46 x47
    x48 x49 x50 x51 x52 x53 end.
Definition set_cmaj_flt (v : Z) (t : task_struct) : task_struct :=
  match t with Task x0 x1 x2 x3 x4 x5 x6 x7 x8 x9 x10 x11 x12 x13 x14 x15 x16 x17 x18 x19 x20 x21
  x22 x23 x24 x25 x26 x27 x28 x29 x30 x31 x32 x33 x34 x35 x36 x37 _ x39 x40 x41 x42 x43 x44 x45
  x46 x47 x48 x49 x50 x51 x52 x53 =>
    Task x0 x1 x2 x3 x4 x5 x6 x7 x8 x9 x10 x11 x12 x13 x14 x15 x16 x17 x18 x19 x20 x21 x22 x23
    x24 x25 x26 x27 x28 x29 x30 x31 x32 x33 x34 x35 x36 x37 v x39 x40 x41 x42 x43 x44 x45 x46 x47
    x48 x49 x50 x51 x52 x53 end.
Definition set_rlim (v : list (Z * Z)) (t : task_struct) : task_struct :=
  match t with Task x0 x1 x2 x3 x4 x5 x6 x7 x8 x9 x10 x11 x12 x13 x14 x15 x16 x17 x18 x19 x20 x21
  x22 x23 x24 x25 x26 x27 x28 x29 x30 x31 x32 x33 x34 x35 x36 x37 x38 _ x40 x41 x42 x43 x44 x45
  x46 x47 x48 x49 x50 x51 x52 x53 =>
    Task x0 x1 x2 x3 x4 x5 x6 x7 x8 x9 x10 x11 x12 x13 x14 x15 x16 x17 x18 x19 x20 x21 x22 x23
    x24 x25 x26 x27 x28 x29 x30 x31 x32 x33 x34 x35 x36 x37 x38 v x40 x41 x42 x43 x44 x45 x46 x47
    x48 x49 x50 x51 x52 x53 end.
Definition set_tflags (v : Z) (t : task_struct) : task_struct :=
  match t with Task x0 x1 x2 x3 x4 x5 x6 x7 x8 x9 x10 x11 x12 x13 x14 x15 x16 x17 x18 x19 x20 x21
  x22 x23 x24 x25 x26 x27 x28 x29 x30 x31 x32 x33 x34 x35 x36 x37 x38 x39 _ x41 x42 x43 x44 x45
  x46 x47 x48 x49 x50 x51 x52 x53 =>
    Task x0 x1 x2 x3 x4 x5 x6 x7 x8 x9 x10 x11 x12 x13 x14 x15 x16 x17 x18 x19 x20 x21 x22 x23
    x24 x25 x26 x27 x28 x29 x30 x31 x32 x33 x34 x35 x36 x37 x38 x39 v x41 x42 x43 x44 x45 x46 x47
    x48 x49 x50 x51 x52 x53 end.
Definition set_used_math (v : Z) (t : task_struct) : task_struct :=
  match t with Task x0 x1 x2 x3 x4 x5 x6 x7 x8 x9 x10 x11 x12 x13 x14 x15 x16 x17 x18 x19 x20 x21
  x22 x23 x24 x25 x26 x27 x28 x29 x30 x31 x32 x33 x34 x35 x36 x37 x38 x39 x40 _ x42 x43 x44 x45
  x46 x47 x48 x49 x50 x51 x52 x53 =>
    Task x0 x1 x2 x3 x4 x5 x6 x7 x8 x9 x10 x11 x12 x13 x14 x15 x16 x17 x18 x19 x20 x21 x22 x23
    x24 x25 x26 x27 x28 x29 x30 x31 x32 x33 x34 x35 x36 x37 x38 x39 x40 v x42 x43 x44 x45 x46 x47
    x48 x49 x50 x51 x52 x53 end.
Definition set_rss (v : Z) (t : task_struct) : task_struct :=
  match t with Task x0 x1 x2 x3 x4 x5 x6 x7 x8 x9 x10 x11 x12 x13 x14 x15 x16 x17 x18 x19 x20 x21
  x22 x23 x24 x25 x26 x27 x28 x29 x30 x31 x32 x33 x34 x35 x36 x37 x38 x39 x40 x41 _ x43 x44 x45
  x46 x47 x48 x49 x50 x51 x52 x53 =>
    Task x0 x1 x2 x3 x4 x5 x6 x7 x8 x9 x10 x11 x12 x13 x14 x15 x16 x17 x18 x19 x20 x21 x22 x23
    x24 x25 x26 x27 x28 x29 x30 x31 x32 x33 x34 x35 x36 x37 x38 x39 x40 x41 v x43 x44 x45 x46 x47
    x48 x49 x50 x51 x52 x53 end.
Definition set_link_count (v : Z) (t : task_struct) : task_struct :=
  match t with Task x0 x1 x2 x3 x4 x5 x6 x7 x8 x9 x10 x11 x12 x13 x14 x15 x16 x17 x18 x19 x20 x21
  x22 x23 x24 x25 x26 x27 x28 x29 x30 x31 x32 x33 x34 x35 x36 x37 x38 x39 x40 x41 x42 _ x44 x45
  x46 x47 x48 x49 x50 x51 x52 x53 =>
    Task x0 x1 x2 x3 x4 x5 x6 x7 x8 x9 x10 x11 x12 x13 x14 x15 x16 x17 x18 x19 x20 x21 x22 x23
    x24 x25 x26 x27 x28 x29 x30 x31 x32 x33 x34 x35 x36 x37 x38 x39 x40 x41 x42 v x44 x45 x46 x47
    x48 x49 x50 x51 x52 x53 end.
Definition set_tty (v : Z) (t : task_struct) : task_struct :=
  match t with Task x0 x1 x2 x3 x4 x5 x6 x7 x8 x9 x10 x11 x12 x13 x14 x15 x16 x17 x18 x19 x20 x21
  x22 x23 x24 x25 x26 x27 x28 x29 x30 x31 x32 x33 x34 x35 x36 x37 x38 x39 x40 x41 x42 x43 _ x45
  x46 x47 x48 x49 x50 x51 x52 x53 =>
    Task x0 x1 x2 x3 x4 x5 x6 x7 x8 x9 x10 x11 x12 x13 x14 x15 x16 x17 x18 x19 x20 x21 x22 x23
    x24 x25 x26 x27 x28 x29 x30 x31 x32 x33 x34 x35 x36 x37 x38 x39 x40 x41 x42 x43 v x45 x46 x47
    x48 x49 x50 x51 x52 x53 end.
Definition set_umask (v : Z) (t : task_struct) : task_struct :=
  match t with Task x0 x1 x2 x3 x4 x5 x6 x7 x8 x9 x10 x11 x12 x13 x14 x15 x16 x17 x18 x19 x20 x21
  x22 x23 x24 x25 x26 x27 x28 x29 x30 x31 x32 x33 x34 x35 x36 x37 x38 x39 x40 x41 x42 x43 x44 _
  x46 x47 x48 x49 x50 x51 x52 x53 =>
    Task x0 x1 x2 x3 x4 x5 x6 x7 x8 x9 x10 x11 x12 x13 x14 x15 x16 x17 x18 x19 x20 x21 x22 x23
    x24 x25 x26 x27 x28 x29 x30 x31 x32 x33 x34 x35 x36 x37 x38 x39 x40 x41 x42 x43 x44 v x46 x47
    x48 x49 x50 x51 x52 x53 end.
Definition set_pwd (v : option positive) (t : task_struct) : task_struct :=
  match t with Task x0 x1 x2 x3 x4 x5 x6 x7 x8 x9 x10 x11 x12 x13 x14 x15 x16 x17 x18 x19 x20 x21
  x22 x23 x24 x25 x26 x27 x28 x29 x30 x31 x32 x33 x34 x35 x36 x37 x38 x39 x40 x41 x42 x43 x44 x45
  _ x47 x48 x49 x50 x51 x52 x53 =>
    Task x0 x1 x2 x3 x4 x5 x6 x7 x8 x9 x10 x11 x12 x13 x14 x15 x16 x17 x18 x19 x20 x21 x22 x23
    x24 x25 x26 x27 x28 x29 x30 x31 x32 x33 x34 x35 x36 x37 x38 x39 x40 x41 x42 x43 x44 x45 v x47
    x48 x49 x50 x51 x52 x53 end.
Definition set_root (v : option positive) (t : task_struct) : task_struct :=
  match t with Task x0 x1 x2 x3 x4 x5 x6 x7 x8 x9 x10 x11 x12 x13 x14 x15 x16 x17 x18 x19 x20 x21
  x22 x23 x24 x25 x26 x27 x28 x29 x30 x31 x32 x33 x34 x35 x36 x37 x38 x39 x40 x41 x42 x43 x44 x45
  x46 _ x48 x49 x50 x51 x52 x53 =>
    Task x0 x1 x2 x3 x4 x5 x6 x7 x8 x9 x10 x11 x12 x13 x14 x15 x16 x17 x18 x19 x20 x21 x22 x23
    x24 x25 x26 x27 x28 x29 x30 x31 x32 x33 x34 x35 x36 x37 x38 x39 x40 x41 x42 x43 x44 x45 x46 v
    x48 x49 x50 x51 x52 x53 end.
Definition set_executable (v : option positive) (t : task_struct) : task_struct :=
  match t with Task x0 x1 x2 x3 x4 x5 x6 x7 x8 x9 x10 x11 x12 x13 x14 x15 x16 x17 x18 x19 x20 x21
  x22 x23 x24 x25 x26 x27 x28 x29 x30 x31 x32 x33 x34 x35 x36 x37 x38 x39 x40 x41 x42 x43 x44 x45
  x46 x47 _ x49 x50 x51 x52 x53 =>
    Task x0 x1 x2 x3 x4 x5 x6 x7 x8 x9 x10 x11 x12 x13 x14 x15 x16 x17 x18 x19 x20 x21 x22 x23
    x24 x25 x26 x27 x28 x29 x30 x31 x32 x33 x34 x35 x36 x37 x38 x39 x40 x41 x42 x43 x44 x45 x46
    x47 v x49 x50 x51 x52 x53 end.
Definition set_library (v : option positive) (t : task_struct) : task_struct :=
  match t with Task x0 x1 x2 x3 x4 x5 x6 x7 x8 x9 x10 x11 x12 x13 x14 x15 x16 x17 x18 x19 x20 x21
  x22 x23 x24 x25 x26 x27 x28 x29 x30 x31 x32 x33 x34 x35 x36 x37 x38 x39 x40 x41 x42 x43 x44 x45
  x46 x47 x48 _ x50 x51 x52 x53 =>
    Task x0 x1 x2 x3 x4 x5 x6 x7 x8 x9 x10 x11 x12 x13 x14 x15 x16 x17 x18 x19 x20 x21 x22 x23
    x24 x25 x26 x27 x28 x29 x30 x31 x32 x33 x34 x35 x36 x37 x38 x39 x40 x41 x42 x43 x44 x45 x46
    x47 x48 v x50 x51 x52 x53 end.
Definition set_close_on_exec (v : Z) (t : task_struct) : task_struct :=
  match t with Task x0 x1 x2 x3 x4 x5 x6 x7 x8 x9 x10 x11 x12 x13 x14 x15 x16 x17 x18 x19 x20 x21
  x22 x23 x24 x25 x26 x27 x28 x29 x30 x31 x32 x33 x34 x35 x36 x37 x38 x39 x40 x41 x42 x43 x44 x45
  x46 x47 x48 x49 _ x51 x52 x53 =>
    Task x0 x1 x2 x3 x4 x5 x6 x7 x8 x9 x10 x11 x12 x13 x14 x15 x16 x17 x18 x19 x20 x21 x22 x23
    x24 x25 x26 x27 x28 x29 x30 x31 x32 x33 x34 x35 x36 x37 x38 x39 x40 x41 x42 x43 x44 x45 x46
    x47 x48 x49 v x51 x52 x53 end.
Definition set_filp (v : list (option positive)) (t : task_struct) : task_struct :=
  match t with Task x0 x1 x2 x3 x4 x5 x6 x7 x8 x9 x10 x11 x12 x13 x14 x15 x16 x17 x18 x19 x20 x21
  x22 x23 x24 x25 x26 x27 x28 x29 x30 x31 x32 x33 x34 x35 x36 x37 x38 x39 x40 x41 x42 x43 x44 x45
  x46 x47 x48 x49 x50 _ x52 x53 =>
    Task x0 x1 x2 x3 x4 x5 x6 x7 x8 x9 x10 x11 x12 x13 x14 x15 x16 x17 x18 x19 x20 x21 x22 x23
    x24 x25 x26 x27 x28 x29 x30 x31 x32 x33 x34 x35 x36 x37 x38 x39 x40 x41 x42 x43 x44 x45 x46
    x47 x48 x49 x50 v x52 x53 end.
Definition set_ldt (v : list (Z * Z)) (t : task_struct) : task_struct :=
  match t with Task x0 x1 x2 x3 x4 x5 x6 x7 x8 x9 x10 x11 x12 x13 x14 x15 x16 x17 x18 x19 x20 x21
  x22 x23 x24 x25 x26 x27 x28 x29 x30 x31 x32 x33 x34 x35 x36 x37 x38 x39 x40 x41 x42 x43 x44 x45
  x46 x47 x48 x49 x50 x51 _ x53 =>
    Task x0 x1 x2 x3 x4 x5 x6 x7 x8 x9 x10 x11 x12 x13 x14 x15 x16 x17 x18 x19 x20 x21 x22 x23
    x24 x25 x26 x27 x28 x29 x30 x31 x32 x33 x34 x35 x36 x37 x38 x39 x40 x41 x42 x43 x44 x45 x46
    x47 x48 x49 x50 x51 v x53 end.
Definition set_tss (v : tss_struct) (t : task_struct) : task_struct :=
  match t with Task x0 x1 x2 x3 x4 x5 x6 x7 x8 x9 x10 x11 x12 x13 x14 x15 x16 x17 x18 x19 x20 x21
  x22 x23 x24 x25 x26 x27 x28 x29 x30 x31 x32 x33 x34 x35 x36 x37 x38 x39 x40 x41 x42 x43 x44 x45
  x46 x47 x48 x49 x50 x51 x52 _ =>
    Task x0 x1 x2 x3 x4 x5 x6 x7 x8 x9 x10 x11 x12 x13 x14 x15 x16 x17 x18 x19 x20 x21 x22 x23
    x24 x25 x26 x27 x28 x29 x30 x31 x32 x33 x34 x35 x36 x37 x38 x39 x40 x41 x42 x43 x44 x45 x46
    x47 x48 x49 x50 x51 x52 v end.

(** Projections of updated tasks compute once the task is a constructor. *)
Ltac task_simpl t := destruct t; cbn.

(** ** The state of the process side *)

(** What other parts of the kernel are asked to do. *)
Inductive event :=
| EPrintk (msg : string)                   (* console output *)
| EVerify (addr size : Z)                  (* verify_area(addr, size) *)
| EPut (addr v : Z)                        (* put_fs_long(v, addr) *)
| EPutB (addr v : Z)                       (* put_fs_byte(v, addr) *)
| EPutW (addr v : Z)                       (* put_fs_word(v, addr) *)
| ECall (fn : Z)                           (* a timer function is called *)
| EWriteVerify (addr : Z)                  (* write_verify(addr) *)
| EGdt (nr : Z) (p : tptr)                 (* descriptors of task nr point to p *)
| EFreePageTables (from size : Z)          (* free_page_tables(from, size) *)
| ECopyPageTables (from to size : Z)       (* copy_page_tables(from, to, size) *)
| EClose (fd : Z)                          (* the file side of sys_close(fd) *)
| EIput (i : option positive)              (* iput(i) *)
| EHoldFile (f : positive)                 (* f->f_count++ *)
| EHoldInode (i : positive)                (* i->i_count++ *)
| EFreePage (p : tptr).                    (* free_page(task structure) *)

(** One entry of [timer_list]; the function is an address, 0 is null, and
    [tl_next] is the index of the next entry. *)
Record timer := Timer { tl_jiffies : Z; tl_fn : Z; tl_next : option Z }.

(** The two kinds of kernel timers of [kernel/sched.c]. *)
Record tst := Tst {
  timer_list : list timer;                 (* timer_list[TIME_REQUESTS] *)
  next_timer : option Z;
  timer_active : Z;                        (* one bit per entry of timer_table *)
  timer_table : list (Z * Z)               (* expires, fn *)
}.

(** Global variables of [kernel/sys.c], [kernel/fork.c], [kernel/sched.c] and of
    the terminals, as far as the process calls use them. *)
Record sysdata := SysData {
  nodename : list Z;                       (* thisname.nodename *)
  tz_minuteswest : Z; tz_dsttime : Z;      (* sys_tz *)
  firsttime : Z;                           (* of sys_settimeofday *)
  last_pid : Z;
  last_task_used_math : option tptr;
  fg_console : Z;
  tty_group : list (Z * Z)                 (* pgrp and session of tty_table *)
}.

Record kst := Kst {
  heap : gmap tptr task_struct;            (* pages holding task structures *)
  task : list (option tptr);               (* struct task_struct *task[NR_TASKS] *)
  current : tptr;
  jiffies : Z;                             (* unsigned long *)
  startup_time : Z;
  jiffies_offset : Z;
  wq : gmap Z tptr;                        (* wait queue heads, by address; absent is NULL *)
  timers : tst;
  sysd : sysdata;
  trace : list event
}.

Definition set_heap v k := Kst v (task k) (current k) (jiffies k) (startup_time k) (jiffies_offset k) (wq k) (timers k) (sysd k) (trace k).
Definition set_task v k := Kst (heap k) v (current k) (jiffies k) (startup_time k) (jiffies_offset k) (wq k) (timers k) (sysd k) (trace k).
Definition set_current v k := Kst (heap k) (task k) v (jiffies k) (startup_time k) (jiffies_offset k) (wq k) (timers k) (sysd k) (trace k).
Definition set_startup_time v k := Kst (heap k) (task k) (current k) (jiffies k) v (jiffies_offset k) (wq k) (timers k) (sysd k) (trace k).
Definition set_jiffies_offset v k := Kst (heap k) (task k) (current k) (jiffies k) (startup_time k) v (wq k) (timers k) (sysd k) (trace k).
Definition set_wq v k := Kst (heap k) (task k) (current k) (jiffies k) (startup_time k) (jiffies_offset k) v (timers k) (sysd k) (trace k).
Definition set_timers v k := Kst (heap k) (task k) (current k) (jiffies k) (startup_time k) (jiffies_offset k) (wq k) v (sysd k) (trace k).
Definition set_sysd v k := Kst (heap k) (task k) (current k) (jiffies k) (startup_time k) (jiffies_offset k) (wq k) (timers k) v (trace k).
Definition add_event e k := Kst (heap k) (task k) (current k) (jiffies k) (startup_time k) (jiffies_offset k) (wq k) (timers k) (sysd k) (trace k ++ [e]).

Definition printk (msg : string) : M kst unit := modify (add_event (EPrintk msg)).

(** Following a pointer to a task; a null or dangling pointer faults. *)
Definition deref (p : option tptr) : M kst task_struct := fun k =>
  match p with
  | Some q => match heap k !! q with Some t => Ok t k | None => Halt Fault k end
  | None => Halt Fault k
  end.

(** [p->field = ...]: an update of the task a pointer points to. *)
Definition upd (p : option tptr) (f : task_struct -> task_struct) : M kst unit := fun k =>
  match p with
  | Some q => match heap k !! q with
              | Some t => Ok tt (set_heap (<[q := f t]> (heap k)) k)
              | None => Halt Fault k
              end
  | None => Halt Fault k
  end.

Definition cur {A} (f : task_struct -> A) : M kst A :=
  c ← gets current; t ← deref (Some c); mret (f t).
Definition upd_cur (f : task_struct -> task_struct) : M kst unit :=
  c ← gets current; upd (Some c) f.

(** [task[i]] *)
Definition task_at (i : Z) : M kst (option tptr) := k ← getS; ofOpt (aget (task k) i).

(** [suser()]: the effective user is root. *)
Definition suser : M kst bool := e ← cur euid; mret (e =? 0).

(** A state is well formed when the table has [NR_TASKS] entries, every entry
    and the running task point to task structures, and no structure is entered
    twice. *)
Record kst_wf (k : kst) : Prop := {
  wf_len : length (task k) = 64%nat;
  wf_ptr : forall i p, aget (task k) i = Some (Some p) -> is_Some (heap k !! p);
  wf_cur : is_Some (heap k !! current k);
  wf_inj : forall i j p, aget (task k) i = Some (Some p) -> aget (task k) j = Some (Some p) -> i = j
}.

Lemma deref_Ok p t k k' : deref p k = Ok t k' -> exists q, p = Some q /\ heap k !! q = Some t /\ k' = k.
Proof.
  unfold deref. destruct p as [q|]; [|done]. destruct (heap k !! q) eqn:E; [|done].
  intros [= -> ->]. eauto.
Qed.

Lemma upd_Ok p f u k k' :
  upd p f k = Ok u k' -> exists q t, p = Some q /\ heap k !! q = Some t /\
    k' = set_heap (<[q := f t]> (heap k)) k.
Proof.
  unfold upd. destruct p as [q|]; [|done]. destruct (heap k !! q) eqn:E; [|done].
  intros [= _ <-]. eauto 10.
Qed.

Lemma task_at_Ok i p k k' : task_at i k = Ok p k' -> aget (task k) i = Some p /\ k' = k.
Proof.
  unfold task_at, getS, ofOpt, mbind, M_bind. destruct (aget (task k) i); [|done]. by intros [= -> ->].
Qed.

Lemma cur_Ok {A} (f : task_struct -> A) a k k' :
  cur f k = Ok a k' -> exists t, heap k !! current k = Some t /\ a = f t /\ k' = k.
Proof.
  unfold cur. intros H. inv_ok. apply deref_Ok in Hr0 as (q & [= <-] & Ht & ->). eauto.
Qed.

Lemma upd_cur_Ok f u k k' :
  upd_cur f k = Ok u k' -> exists t, heap k !! current k = Some t /\
    k' = set_heap (<[current k := f t]> (heap k)) k.
Proof.
  unfold upd_cur. intros H. inv_ok. apply upd_Ok in H as (q & t & [= <-] & Ht & ->). eauto.
Qed.

Lemma wp_deref q t k (Q : task_struct -> kst -> Prop) E :
  heap k !! q = Some t -> Q t k -> wp (deref (Some q)) k Q E.
Proof. intros H HQ. unfold wp, deref. by rewrite H. Qed.

Lemma wp_upd q t f k (Q : unit -> kst -> Prop) E :
  heap k !! q = Some t -> Q tt (set_heap (<[q := f t]> (heap k)) k) -> wp (upd (Some q) f) k Q E.
Proof. intros H HQ. unfold wp, upd. by rewrite H. Qed.

Lemma wp_task_at i p k (Q : option tptr -> kst -> Prop) E :
  aget (task k) i = Some p -> Q p k -> wp (task_at i) k Q E.
Proof. intros H HQ. unfold task_at, wp, getS, mbind, M_bind, ofOpt. by rewrite H. Qed.

(** Running one heap or table access whose outcome is known. *)
Lemma deref_eq q t k : heap k !! q = Some t -> deref (Some q) k = Ok t k.
Proof. intros H. unfold deref. by rewrite H. Qed.

Lemma upd_eq q t f k :
  heap k !! q = Some t -> upd (Some q) f k = Ok tt (set_heap (<[q := f t]> (heap k)) k).
Proof. intros H. unfold upd. by rewrite H. Qed.

Lemma cur_eq {A} (f : task_struct -> A) t k :
  heap k !! current k = Some t -> cur f k = Ok (f t) k.
Proof. intros H. unfold cur, mbind, M_bind, gets, deref. by rewrite H. Qed.

Lemma upd_cur_eq f t k :
  heap k !! current k = Some t ->
  upd_cur f k = Ok tt (set_heap (<[current k := f t]> (heap k)) k).
Proof. intros H. unfold upd_cur, mbind, M_bind, gets, upd. by rewrite H. Qed.

Lemma suser_eq t k : heap k !! current k = Some t -> suser k = Ok (euid t =? 0) k.
Proof. intros H. unfold suser, mbind, M_bind. by rewrite (cur_eq _ t). Qed.

(** Updating tasks in place keeps a state well formed. *)
Lemma kst_wf_upd k q f t :
  kst_wf k -> heap k !! q = Some t -> kst_wf (set_heap (<[q := f t]> (heap k)) k).
Proof.
  intros [Hl Hp Hc Hi] Hq. split; [done| | |done].
  - intros i p Hip. cbn. destruct (decide (p = q)) as [->|];
      [rewrite lookup_insert_eq; eauto|rewrite lookup_insert_ne by done; eauto].
  - cbn. destruct (decide (current k = q)) as [->|];
      [rewrite lookup_insert_eq; eauto|rewrite lookup_insert_ne by done; eauto].
Qed.

(** ** Checking well-formedness by evaluation *)

Definition kst_wfb (k : kst) : bool :=
  bool_decide (length (task k) = 64%nat)
  && forallb (fun o => match o with Some p => bool_decide (is_Some (heap k !! p)) | None => true end) (task k)
  && bool_decide (is_Some (heap k !! current k))
  && bool_decide (NoDup (omap id (task k))).

Lemma omap_id_lookup_inj {A} (l : list (option A)) i j x :
  NoDup (omap id l) -> l !! i = Some (Some x) -> l !! j = Some (Some x) -> i = j.
Proof.
  revert i j. induction l as [|o l IH]; intros i j Hnd Hi Hj; [done|].
  assert (Hin : forall n, l !! n = Some (Some x) -> x ∈ omap id l).
  { intros n Hn. apply list_elem_of_omap. exists (Some x). split; [|done]. by eapply list_elem_of_lookup_2. }
  destruct i as [|i], j as [|j]; cbn in *; simplify_eq; try done.
  - apply NoDup_cons in Hnd as [Hx _]. by apply Hin in Hj.
  - apply NoDup_cons in Hnd as [Hx _]. by apply Hin in Hi.
  - f_equal. apply IH; [|done..]. destruct o; [by apply NoDup_cons in Hnd as [_ ?]|done].
Qed.

Lemma kst_wfb_sound k : kst_wfb k = true -> kst_wf k.
Proof.
  unfold kst_wfb. rewrite !andb_true_iff, !bool_decide_eq_true, forallb_forall.
  intros [[[Hl Hp] Hc] Hnd]. split; [done| |done|].
  - intros i p Hi. unfold aget in Hi. destruct (Z.ltb_spec i 0); [done|].
    apply list_elem_of_lookup_2, list_elem_of_In, Hp in Hi. by apply bool_decide_eq_true in Hi.
  - intros i j p. unfold aget. destruct (Z.ltb_spec i 0), (Z.ltb_spec j 0); try done.
    intros Hi Hj. pose proof (omap_id_lookup_inj _ _ _ _ Hnd Hi Hj). lia.
Qed.

(** [INIT_TASK]: the structure of task 0. *)
Definition INIT_TASK (self : tptr) : task_struct :=
  Task 0 15 15 0 (replicate 32 (SigAction 0 0 0 0)) 0
       0 0 0 0 0 0
       0 0 0 0 (-1 :: replicate 31 0)
       (Some self) None None None None
       0 0 0 0 0 0
       0 0 0 0 0 0 0
       0 0 0 0 (replicate 6 (0x7fffffff, 0x7fffffff))
       0 0 2
       0 (-1) 18 None None None None 0 (replicate 20 None)
       [(0, 0); (0x9f, 0xc0fa00); (0x9f, 0xc0f200)]
       (Tss 0 (4096 + Zpos self) 0x10 0 0 0 0 0 0 0 0 0 0 0 0 0 0 0 0x17 0x17 0x17 0x17 0x17 0x17 40 0x80000000).

(** ** Segment descriptors

    The two words of a descriptor hold a base address in three pieces and a
    limit in two. *)

(** [_set_base(addr, base)] *)
Definition set_base (d : Z * Z) (base : Z) : Z * Z :=
  (Z.lor (Z.land d.1 0xffff) (Z.shiftl (Z.land base 0xffff) 16),
   Z.lor (Z.land d.2 0x00ffff00)
     (Z.lor (Z.land (Z.shiftr base 16) 0xff) (Z.shiftl (Z.shiftr base 24) 24))).

(** [_get_base(addr)] *)
Definition get_base (d : Z * Z) : Z :=
  Z.lor (Z.shiftr d.1 16)
    (Z.shiftl (Z.lor (Z.shiftl (Z.shiftr d.2 24) 8) (Z.land d.2 0xff)) 16).

(** [get_limit(segment)] on the descriptor the selector names: the instruction
    [lsl] scales the 20-bit limit by the granularity bit, then one is added. *)
Definition get_limit (d : Z * Z) : Z :=
  let l := Z.lor (Z.land d.1 0xffff) (Z.land d.2 0xf0000) in
  u32 ((if Z.testbit d.2 23 then Z.lor (Z.shiftl l 12) 0xfff else l) + 1).

(** Each bit of an address is found where [_set_base] put it. *)
Lemma get_base_set_base d base : in_u32 base -> get_base (set_base d base) = base.
Proof.
  intros Hb. apply Z.bits_inj'. intros i Hi. unfold get_base, set_base. cbn [fst snd].
  change 0xffff with (Z.ones 16). change 0x00ffff00 with (Z.shiftl (Z.ones 16) 8). change 0xff with (Z.ones 8).
  assert (Hhi : forall i, 32 <= i -> Z.testbit base i = false).
  { intros. apply testbit_above with 32; [exact Hb|lia|done]. }
  destruct (Z_lt_le_dec i 16); [bit_simpl; f_equal; lia|].
  destruct (Z_lt_le_dec i 24); [bit_simpl; f_equal; lia|].
  destruct (Z_lt_le_dec i 32); [bit_simpl; f_equal; lia|].
  rewrite Hhi by lia. bit_simpl. rewrite !Hhi by lia. done.
Qed.

(** The state before the first task is created, given the other tasks by slot. *)
Definition boot_state (l : list task_struct) (j : Z) : kst :=
  Kst (<[1%positive := INIT_TASK 1]> (list_to_map (zip (Pos.of_nat <$> seq 2 (length l)) l)))
      (Some 1%positive :: (Some <$> (Pos.of_nat <$> seq 2 (length l))) ++ replicate (63 - length l) None)
      1 j 0 0 ∅ (Tst (replicate 64 (Timer 0 0 None)) None 0 (replicate 32 (0, 0)))
      (SysData ([40; 110; 111; 110; 101; 41; 0; 0; 0]) 0 0 1 0 None 0 (replicate 256 (0, 0))) [].

(** ** Invariants of all tasks *)

Definition all_tasks (P : task_struct -> Prop) (k : kst) : Prop := map_Forall (fun _ t => P t) (heap k).

Lemma preserves_deref I p : preserves I (deref p).
Proof. intros k t k' HI (q & -> & _ & ->)%deref_Ok. done. Qed.

Lemma preserves_cur {A} I (f : task_struct -> A) : preserves I (cur f).
Proof. unfold cur. pres. apply preserves_deref. Qed.

Lemma preserves_suser I : preserves I suser.
Proof. unfold suser. pres. apply preserves_cur. Qed.

Lemma preserves_task_at I i : preserves I (task_at i).
Proof. unfold task_at. pres. Qed.

#[export] Hint Resolve preserves_deref preserves_cur preserves_suser preserves_task_at : pres.

Lemma preserves_upd (I : kst -> Prop) p f :
  (forall k q t, I k -> heap k !! q = Some t -> I (set_heap (<[q := f t]> (heap k)) k)) ->
  preserves I (upd p f).
Proof. intros Hf k a k' HI (q & t & -> & Ht & ->)%upd_Ok. auto. Qed.

Lemma all_tasks_upd P p f : (forall t, P t -> P (f t)) -> preserves (all_tasks P) (upd p f).
Proof.
  intros Hf. apply preserves_upd. intros k q t HI Ht. apply map_Forall_insert_2; [|done].
  apply Hf. by eapply HI.
Qed.

Lemma all_tasks_event P e : preserves (all_tasks P) (modify (add_event e)).
Proof. by apply preserves_modify. Qed.

#[export] Hint Resolve all_tasks_event : pres.
