(* ===== verification/Sched.v ===== *)
(** * The scheduler: [kernel/sched.c]

    [schedule] wakes tasks whose timeout, alarm or signals are due, picks the
    runnable task with the largest time slice and switches to it; [sleep_on]
    and [wake_up] keep the wait queues; [add_timer] and [do_timer] the kernel
    timers; [sys_nice], [sys_alarm] and the [sys_get*id] calls act on the
    running task.

    Bitmaps of signals are the unsigned 32-bit pattern of the [long] that
    holds them. *)

From S2P Require Import Prelude TaskStruct.
From Stdlib Require Sorting.Sorted.

(** [for (p = &LAST_TASK; p > &FIRST_TASK; --p)]: the slots 63 down to 1. *)
Definition slots_down : list Z := reverse (range 1 63).

(** ** [schedule] *)

(** The first loop's body: expired timeouts, expired alarms, pending signals. *)
Definition wake_task (jiffies : Z) (t : task_struct) : task_struct :=
  let t := if truth (timeout t) && (timeout t <? jiffies)
           then if state t =? TASK_INTERRUPTIBLE
                then set_state TASK_RUNNING (set_timeout 0 t) else t
           else t in
  let t := if truth (alarm t) && (alarm t <? jiffies)
           then set_alarm 0 (set_signal (Z.lor (signal t) (word_bit (SIGALRM - 1))) t)
           else t in
  if truth (Z.ldiff (signal t) (blocked t)) && (state t =? TASK_INTERRUPTIBLE)
  then set_state TASK_RUNNING t else t.

(** The task in a slot, if there is one. *)
Definition with_task (i : Z) (f : option tptr -> M kst unit) : M kst unit :=
  p ← task_at i; match p with Some _ => f p | None => mret tt end.

Definition wake_tasks : M kst unit :=
  for_each slots_down (fun i => with_task i (fun p =>
    j ← gets jiffies; upd p (wake_task j))).

(** The scan for the runnable task with the largest counter: [c] and [next]. *)
Fixpoint pick (l : list Z) (c next : Z) : M kst (Z * Z) :=
  match l with
  | [] => mret (c, next)
  | i :: l' =>
      p ← task_at i;
      match p with
      | None => pick l' c next
      | Some _ =>
          t ← deref p;
          if (state t =? TASK_RUNNING) && (c <? counter t) then pick l' (counter t) i
          else pick l' c next
      end
  end.

(** All runnable tasks have used up their time: new slices for everybody. *)
Definition recharge_task (t : task_struct) : task_struct :=
  set_counter (s32 (Z.shiftr (counter t) 1 + priority t)) t.
Definition recharge : M kst unit :=
  for_each slots_down (fun i => with_task i (fun p => upd p recharge_task)).

(** One round of the [while (1)] loop. *)
Definition sched_round (_ : unit) : M kst (unit + Z) :=
  '(c, next) ← pick slots_down (-1) 0;
  if truth c then mret (inr next) else recharge;; mret (inl tt).

(** [switch_to(n)]: a jump through a task state segment that does not exist faults. *)
Definition switch_to (n : Z) : M kst unit :=
  p ← task_at n;
  match p with Some q => modify (set_current q) | None => halts Fault end.

(** [void schedule(void)], with at most [rounds] rounds of the selection loop. *)
Definition schedule (rounds : nat) : M kst unit :=
  wake_tasks;; next ← iter rounds sched_round tt; switch_to next.

(** ** Wait queues *)

Definition set_wq_head (q : Z) (v : option tptr) : M kst unit :=
  modify (fun k => set_wq (match v with Some p => <[q := p]> (wq k) | None => delete q (wq k) end) k).

(** [tmp = wakeup_ptr->next_wait; wakeup_ptr->next_wait = task[0]; wakeup_ptr = tmp;] *)
Definition wake_next (w t0 : option tptr) : M kst (option tptr + unit) :=
  t ← deref w; upd w (set_next_wait t0);; mret (inl (next_wait t)).

(** [void wake_up(struct task_struct **p)]; the queue cannot be longer than
    there are tasks. *)
Definition wake_step (w : option tptr) : M kst (option tptr + unit) :=
  t0 ← task_at 0;
  if bool_decide (w = None) || bool_decide (w = t0) then mret (inr tt)
  else
    t ← deref w;
    (if state t =? TASK_STOPPED then printk "wake_up: TASK_STOPPED"
     else if state t =? TASK_ZOMBIE then printk "wake_up: TASK_ZOMBIE"
     else upd w (set_state TASK_RUNNING));;
    wake_next w t0.

Definition wake_up (q : Z) : M kst unit :=
  k ← getS;
  match wq k !! q with
  | None => mret tt
  | Some w => set_wq_head q None;; iter (S (S (size (heap k)))) wake_step (Some w)
  end.

(** [__sleep_on] up to the call of [schedule]. *)
Definition sleep_enter (q : Z) (st : Z) : M kst unit :=
  c ← gets current; t0 ← task_at 0;
  if bool_decide (t0 = Some c) then halts (Panic "task[0] trying to sleep")
  else
    h ← gets (fun k => wq k !! q);
    upd (Some c) (set_next_wait h);;
    upd t0 (set_next_wait None);;
    set_wq_head q (Some c);;
    upd (Some c) (set_state st).

(** [__sleep_on] after [schedule] has returned to the sleeper. *)
Definition sleep_resume (q : Z) : M kst unit :=
  t0 ← task_at 0; nw ← cur next_wait;
  (if bool_decide (nw = t0) then mret tt else wake_up q);;
  upd_cur (set_next_wait None).

(** [static inline void __sleep_on(struct task_struct **p, int state)];
    [others] is what runs between the switch away from the sleeper and the
    switch back to it. *)
Definition __sleep_on (rounds : nat) (others : M kst unit) (q : Z) (st : Z) : M kst unit :=
  sleep_enter q st;; schedule rounds;; others;; sleep_resume q.

Definition interruptible_sleep_on rounds others q := __sleep_on rounds others q TASK_INTERRUPTIBLE.
Definition sleep_on rounds others q := __sleep_on rounds others q TASK_UNINTERRUPTIBLE.

(** [int sys_pause(void)]: signals whose handler is "ignore" are blocked
    meanwhile. *)
Fixpoint block_ignored (l : list sigaction) (mask blocked : Z) : Z :=
  match l with
  | [] => blocked
  | sa :: l' =>
      block_ignored l' (u32 (mask + mask))
        (if sa_handler sa =? SIG_IGN then Z.lor blocked mask else blocked)
  end.

Definition sys_pause (rounds : nat) (others : M kst unit) : M kst Z :=
  old_blocked ← cur blocked;
  upd_cur (fun t => set_blocked (block_ignored (sigactions t) 1 (blocked t)) t);;
  upd_cur (set_state TASK_INTERRUPTIBLE);;
  schedule rounds;; others;;
  upd_cur (set_blocked old_blocked);;
  mret (- EINTR).

(** ** Timers *)

Definition TIME_REQUESTS : Z := 64.

Definition get_timer (i : Z) : M kst timer := k ← getS; ofOpt (aget (timer_list (timers k)) i).
Definition put_timer (i : Z) (v : timer) : M kst unit :=
  k ← getS;
  l ← ofOpt (aset (timer_list (timers k)) i v);
  modify (fun k => set_timers (Tst l (next_timer (timers k)) (timer_active (timers k)) (timer_table (timers k))) k).
Definition put_next_timer (v : option Z) : M kst unit :=
  modify (fun k => set_timers (Tst (timer_list (timers k)) v (timer_active (timers k)) (timer_table (timers k))) k).
Definition put_timer_active (v : Z) : M kst unit :=
  modify (fun k => set_timers (Tst (timer_list (timers k)) (next_timer (timers k)) v (timer_table (timers k))) k).

(** The first entry without a function. *)
Fixpoint free_slot (l : list timer) (i : Z) : option Z :=
  match l with
  | [] => None
  | t :: l' => if tl_fn t =? 0 then Some i else free_slot l' (i + 1)
  end.

(** One turn of the loop that moves the new timer [p] to its place. *)
Definition timer_sink (p : Z) : M kst (Z + unit) :=
  tp ← get_timer p;
  match tl_next tp with
  | None => mret (inr tt)
  | Some n =>
      tn ← get_timer n;
      if tl_jiffies tn <? tl_jiffies tp then
        put_timer p (Timer (tl_jiffies tn) (tl_fn tn) (tl_next tp));;
        tn' ← get_timer n;
        put_timer n (Timer (s32 (tl_jiffies tp - tl_jiffies tn)) (tl_fn tp) (tl_next tn'));;
        mret (inl n)
      else mret (inr tt)
  end.

(** [void add_timer(long jiffies, void (fn)(void))] *)
Definition add_timer (jif fn : Z) : M kst unit :=
  if fn =? 0 then mret tt
  else if jif <=? 0 then modify (add_event (ECall fn))
  else
    l ← gets (fun k => timer_list (timers k));
    match free_slot l 0 with
    | None => halts (Panic "No more time requests free")
    | Some p =>
        nt ← gets (fun k => next_timer (timers k));
        put_timer p (Timer jif fn nt);;
        put_next_timer (Some p);;
        iter (S (length l)) timer_sink p
    end.

(** The scan of [timer_table] in [do_timer]: bits of [timer_active] from [i] on. *)
Fixpoint run_table (n : nat) (i : Z) : M kst unit :=
  match n with
  | O => mret tt
  | S n' =>
      k ← getS;
      let mask := word_bit i in
      let active := timer_active (timers k) in
      if active <? mask then mret tt
      else if negb (truth (Z.land mask active)) then run_table n' (i + 1)
      else
        '(expires, fn) ← ofOpt (aget (timer_table (timers k)) i);
        if jiffies k <? expires then run_table n' (i + 1)
        else put_timer_active (Z.ldiff active mask);;
             modify (add_event (ECall fn));;
             run_table n' (i + 1)
  end.

(** The loop over the expired timers at the head of the list. *)
Definition expire_step (_ : unit) : M kst (unit + unit) :=
  nt ← gets (fun k => next_timer (timers k));
  match nt with
  | None => mret (inr tt)
  | Some i =>
      t ← get_timer i;
      if tl_jiffies t <=? 0 then
        put_timer i (Timer (tl_jiffies t) 0 (tl_next t));;
        put_next_timer (tl_next t);;
        modify (add_event (ECall (tl_fn t)));;
        mret (inl tt)
      else mret (inr tt)
  end.

Definition run_timers : M kst unit :=
  nt ← gets (fun k => next_timer (timers k));
  match nt with
  | None => mret tt
  | Some i =>
      t ← get_timer i;
      put_timer i (Timer (s32 (tl_jiffies t - 1)) (tl_fn t) (tl_next t));;
      iter (S (Z.to_nat TIME_REQUESTS)) expire_step tt
  end.

(** [void do_timer(long cpl)]; [cpl] is 0 when the tick interrupted the kernel.
    The floppy timer it calls is an empty function. *)
Definition do_timer (rounds : nat) (cpl : Z) : M kst unit :=
  run_table 32 0;;
  upd_cur (fun t => if truth cpl then set_utime (s32 (utime t + 1)) t
                    else set_stime (s32 (stime t + 1)) t);;
  run_timers;;
  upd_cur (fun t => set_counter (s32 (counter t - 1)) t);;
  c ← cur counter;
  if 0 <? c then mret tt
  else
    upd_cur (set_counter 0);;
    if negb (truth cpl) then mret tt else schedule rounds.

(** ** System calls on the running task *)

(** [int sys_alarm(long seconds)]: the difference is unsigned. *)
Definition sys_alarm (seconds : Z) : M kst Z :=
  old ← cur alarm; j ← gets jiffies;
  let old := if truth (s32 old) then s32 (u32 (old - j) / HZ) else s32 old in
  upd_cur (set_alarm (if 0 <? seconds then u32 (j + HZ * seconds) else 0));;
  mret old.

Definition sys_getpid : M kst Z := cur pid.
Definition sys_getppid : M kst Z := pp ← cur p_pptr; t ← deref pp; mret (pid t).
Definition sys_getuid : M kst Z := cur uid.
Definition sys_geteuid : M kst Z := cur euid.
Definition sys_getgid : M kst Z := cur gid.
Definition sys_getegid : M kst Z := cur egid.

(** [int sys_nice(long increment)] *)
Definition sys_nice (increment : Z) : M kst Z :=
  su ← suser;
  if (increment <? 0) && negb su then mret (- EPERM)
  else
    pr ← cur priority;
    let increment := if pr <? increment then s32 (pr - 1) else increment in
    upd_cur (fun t => set_priority (s32 (priority t - increment)) t);;
    mret 0.

(** [void sched_init(void)]: of the set-up of the tables, the part that
    empties the slots 1 to 63. *)
Definition sched_init_tasks : M kst unit :=
  for_each (range 1 63) (fun i =>
    k ← getS; l ← ofOpt (aset (task k) i None); modify (set_task l)).

(** ** The task in a slot *)

Definition task_in (k : kst) (i : Z) : option task_struct :=
  match aget (task k) i with Some (Some p) => heap k !! p | _ => None end.

(** The counter of the runnable task in a slot. *)
Definition run_counter (k : kst) (i : Z) : option Z :=
  match task_in k i with
  | Some t => if state t =? TASK_RUNNING then Some (counter t) else None
  | None => None
  end.

Lemma slots_down_spec i : i ∈ slots_down <-> 1 <= i <= 63.
Proof. unfold slots_down. rewrite elem_of_reverse, elem_of_range. lia. Qed.

Lemma slots_down_sorted : Sorted.StronglySorted Z.gt slots_down.
Proof.
  assert (H : forall n lo, Sorted.StronglySorted Z.gt (reverse (range lo n))); [|apply H].
  intros n. induction n as [|n IH]; intros lo; [constructor|].
  unfold range. rewrite seq_S, fmap_app, reverse_app. cbn. constructor; [apply IH|].
  apply List.Forall_forall. intros x Hx%list_elem_of_In. rewrite elem_of_reverse in Hx.
  apply (elem_of_range lo n) in Hx. lia.
Qed.

Lemma sorted_gt_NoDup l : Sorted.StronglySorted Z.gt l -> NoDup l.
Proof.
  induction 1 as [|x l Hl IH Hx]; constructor; [|done]. intros Hin.
  apply list_elem_of_In in Hin. apply (proj1 (List.Forall_forall _ _) Hx) in Hin. lia.
Qed.

(** ** Loops over the process table *)

(** [k'] is [k] with [g] applied to the tasks in the slots [l]. *)
Definition slots_updated (l : list Z) (g : task_struct -> task_struct) (k k' : kst) : Prop :=
  k' = set_heap (heap k') k /\
  (forall i p, i ∈ l -> aget (task k) i = Some (Some p) -> heap k' !! p = g <$> heap k !! p) /\
  (forall p, (forall i, i ∈ l -> aget (task k) i <> Some (Some p)) -> heap k' !! p = heap k !! p).

Lemma slots_updated_wf l g k k' : kst_wf k -> slots_updated l g k k' -> kst_wf k'.
Proof.
  intros [Hl Hp Hc Hi] (Ek & Hin & Hout).
  assert (Hd : forall p, is_Some (heap k !! p) -> is_Some (heap k' !! p)).
  { intros p Hs. destruct (decide (Exists (fun i => aget (task k) i = Some (Some p)) l)) as [He|He].
    - apply Exists_exists in He as (i & Hil & Hip). rewrite (Hin i p) by done. by apply fmap_is_Some.
    - rewrite Hout; [done|]. intros i Hil Hip. apply He, Exists_exists. eauto. }
  rewrite Ek. split; cbn; eauto.
Qed.

Lemma slots_updated_in l g k k' i :
  kst_wf k -> slots_updated l g k k' -> i ∈ l -> task_in k' i = g <$> task_in k i.
Proof.
  intros Hw (Ek & Hin & _) Hi. unfold task_in. rewrite Ek. cbn.
  destruct (aget (task k) i) as [[p|]|] eqn:E; [|done..]. by apply (Hin i).
Qed.

Lemma for_each_slots (f : option tptr -> M kst unit) (g : Z -> task_struct -> task_struct) l k :
  (forall q k, f (Some q) k = upd (Some q) (g (jiffies k)) k) ->
  kst_wf k -> NoDup l -> (forall i, i ∈ l -> 0 <= i <= 63) ->
  exists k', for_each l (fun i => with_task i f) k = Ok tt k' /\ slots_updated l (g (jiffies k)) k k'.
Proof.
  intros Hf. revert k. induction l as [|i l IH]; intros k Hw Hnd Hr.
  { exists k. split; [done|]. split; [by destruct k|]. split; [set_solver|done]. }
  apply NoDup_cons in Hnd as [Hni Hnd].
  destruct (aget_in_range (task k) i) as [p Ep]; [rewrite (wf_len k Hw); specialize (Hr i); set_solver by lia|].
  cbn [for_each]. unfold mbind, M_bind, with_task, task_at, getS, mbind, M_bind, ofOpt. rewrite Ep.
  destruct p as [p|].
  - destruct (wf_ptr k Hw i p Ep) as [t Ht]. rewrite Hf, (upd_eq p t) by done.
    set (k1 := set_heap _ k).
    destruct (IH k1) as (k' & Hk' & Ek & Hin & Hout); [by apply kst_wf_upd|done|set_solver|].
    exists k'. split; [exact Hk'|]. change (task k1) with (task k) in *. change (jiffies k1) with (jiffies k) in *.
    assert (Hp : forall j, j ∈ l -> aget (task k) j <> Some (Some p)).
    { intros j Hj E. assert (i = j) by (by eapply (wf_inj k Hw)). set_solver. }
    split; [by rewrite Ek|]. split.
    + intros j q Hj Eq. apply elem_of_cons in Hj as [->|Hj].
      * rewrite Eq in Ep. injection Ep as ->. rewrite (Hout p Hp), Ht. cbn. by rewrite lookup_insert_eq.
      * rewrite (Hin j q Hj Eq). cbn. rewrite lookup_insert_ne; [done|]. intros ->. by eapply Hp.
    + intros q Hq. rewrite Hout by set_solver. cbn. rewrite lookup_insert_ne; [done|].
      intros ->. apply (Hq i); set_solver.
  - destruct (IH k) as (k' & Hk' & Ek & Hin & Hout); [done..|set_solver|].
    exists k'. split; [exact Hk'|]. split; [done|]. split.
    + intros j q Hj Eq. apply elem_of_cons in Hj as [->|Hj]; [congruence|eauto].
    + intros q Hq. apply Hout. set_solver.
Qed.

Lemma wake_tasks_spec k :
  kst_wf k -> exists k', wake_tasks k = Ok tt k' /\ slots_updated slots_down (wake_task (jiffies k)) k k'.
Proof.
  intros Hw. apply for_each_slots; [done|done|apply sorted_gt_NoDup, slots_down_sorted|].
  intros i. rewrite slots_down_spec. lia.
Qed.

Lemma recharge_spec k :
  kst_wf k -> exists k', recharge k = Ok tt k' /\ slots_updated slots_down recharge_task k k'.
Proof.
  intros Hw. apply (for_each_slots _ (fun _ => recharge_task)); [done|done|apply sorted_gt_NoDup, slots_down_sorted|].
  intros i. rewrite slots_down_spec. lia.
Qed.

(** ** The choice of the next task *)

(** [n] is the best slot among [l]: runnable with the largest counter, the
    highest slot among equals. *)
Definition best (k : kst) (l : list Z) (c n : Z) : Prop :=
  n ∈ l /\ run_counter k n = Some c /\
  forall i x, i ∈ l -> run_counter k i = Some x -> x <= c /\ (x = c -> i <= n).

Lemma pick_spec k l c n :
  kst_wf k -> (forall i, i ∈ l -> 0 <= i <= 63) -> Sorted.StronglySorted Z.gt l ->
  exists c' n', pick l c n k = Ok (c', n') k /\
    ((c' = c /\ n' = n /\ forall i x, i ∈ l -> run_counter k i = Some x -> x <= c)
     \/ (c < c' /\ best k l c' n')).
Proof.
  intros Hw. revert c n. induction l as [|i l IH]; intros c n Hr Hs.
  { exists c, n. split; [done|]. left. set_solver. }
  apply Sorted.StronglySorted_inv in Hs as [Hs Hgt].
  assert (Hlt : forall j, j ∈ l -> j < i).
  { intros j Hj. apply (proj1 (Forall_forall _ _) Hgt) in Hj. lia. }
  destruct (aget_in_range (task k) i) as [p Ep]; [rewrite (wf_len k Hw); specialize (Hr i); set_solver by lia|].
  cbn [pick]. unfold mbind, M_bind, task_at, getS, mbind, M_bind, ofOpt. rewrite Ep.
  assert (Hskip : (forall x, run_counter k i = Some x -> x <= c) ->
    exists c' n', pick l c n k = Ok (c', n') k /\
      ((c' = c /\ n' = n /\ forall j x, j ∈ i :: l -> run_counter k j = Some x -> x <= c)
       \/ (c < c' /\ best k (i :: l) c' n'))).
  { intros Hi. destruct (IH c n) as (c' & n' & E & H); [set_solver|done|].
    exists c', n'. split; [done|]. destruct H as [(-> & -> & H)|(Hc & Hn & Hrn & H)]; [left|right].
    - split_and!; [done..|]. intros j x [->|Hj]%elem_of_cons; eauto.
    - split; [done|]. split; [set_solver|]. split; [done|].
      intros j x [->|Hj]%elem_of_cons Hx; [apply Hi in Hx; lia|eauto]. }
  destruct p as [p|]; [|apply Hskip; unfold run_counter, task_in; rewrite Ep; done].
  destruct (wf_ptr k Hw i p Ep) as [t Ht]. rewrite (deref_eq p t) by done.
  assert (Hrc : run_counter k i = if state t =? TASK_RUNNING then Some (counter t) else None)
    by (unfold run_counter, task_in; by rewrite Ep, Ht).
  destruct (Z.eqb_spec (state t) TASK_RUNNING) as [Es|Es];
    [|apply Hskip; rewrite Hrc; done]. cbn [andb].
  destruct (Z.ltb_spec c (counter t)) as [Hc|Hc]; [|apply Hskip; rewrite Hrc; by intros x [= <-]].
  destruct (IH (counter t) i) as (c' & n' & E & H); [set_solver|done|].
  exists c', n'. split; [done|]. right. destruct H as [(-> & -> & H)|(Hc' & Hn & Hrn & H)].
  - split; [done|]. split; [set_solver|]. split; [done|].
    intros j x [->|Hj]%elem_of_cons Hx; [rewrite Hrc in Hx; injection Hx; lia|].
    specialize (H j x Hj Hx). specialize (Hlt j Hj). lia.
  - split; [lia|]. split; [set_solver|]. split; [done|].
    intros j x [->|Hj]%elem_of_cons Hx; [rewrite Hrc in Hx; injection Hx; lia|eauto].
Qed.

Lemma slots_range i : i ∈ slots_down -> 0 <= i <= 63.
Proof. rewrite slots_down_spec. lia. Qed.

(** What [sched_round] leaves for [switch_to]: the best runnable task, or slot 0
    when no task has a non-negative counter. *)
Definition chosen (k : kst) (n : Z) : Prop :=
  (exists c, 0 < c /\ best k slots_down c n) \/
  (n = 0 /\ forall i x, 1 <= i <= 63 -> run_counter k i = Some x -> x < 0).

Lemma sched_round_spec k :
  kst_wf k ->
  (exists n, sched_round tt k = Ok (inr n) k /\ chosen k n) \/
  (exists k', sched_round tt k = Ok (inl tt) k' /\ slots_updated slots_down recharge_task k k' /\
     (exists n, best k slots_down 0 n)).
Proof.
  intros Hw. destruct (pick_spec k slots_down (-1) 0 Hw slots_range slots_down_sorted) as (c & n & E & H).
  unfold sched_round, mbind, M_bind. rewrite E. unfold truth.
  destruct (Z.eqb_spec c 0) as [->|Hc]; cbn [negb].
  - right. destruct (recharge_spec k Hw) as (k' & Er & Hu). exists k'.
    rewrite Er. split; [done|]. split; [done|]. destruct H as [H|[_ H]]; [lia|eauto].
  - left. exists n. split; [done|]. destruct H as [(-> & -> & H)|(Hc' & H)].
    + right. split; [done|]. intros i x Hi Hx. apply slots_down_spec in Hi.
      specialize (H i x Hi Hx). lia.
    + left. exists c. split; [lia|done].
Qed.

Lemma iter_round_chosen n k next k' :
  kst_wf k -> iter n sched_round tt k = Ok next k' -> kst_wf k' /\ chosen k' next.
Proof.
  intros Hw. apply (iter_inv sched_round (fun _ k => kst_wf k) (fun n k => kst_wf k /\ chosen k n)); [|done].
  clear. intros [] k r k' Hw Hr. destruct (sched_round_spec k Hw) as [(n & E & Hc)|(k1 & E & Hu & _)];
    rewrite E in Hr; injection Hr as <- <-; [done|]. by eapply slots_updated_wf.
Qed.

(** C14: [schedule] switches to the runnable task with the largest remaining time
    slice (the highest slot among equals), which is positive; only when no
    task of the slots 1 to 63 is runnable (all counters being non-negative) does it run
    task 0. *)
Theorem schedule_picks_best (rounds : nat) (k k' : kst) :
  kst_wf k -> schedule rounds k = Ok tt k' ->
  exists next, aget (task k') next = Some (Some (current k')) /\
    ((1 <= next <= 63 /\ exists c, 0 < c /\ run_counter k' next = Some c /\
        forall i x, 1 <= i <= 63 -> run_counter k' i = Some x -> x <= c /\ (x = c -> i <= next))
     \/ (next = 0 /\ forall i x, 1 <= i <= 63 -> run_counter k' i = Some x -> x < 0)).
Proof.
  intros Hw Hs. unfold schedule in Hs. inv_ok.
  destruct (wake_tasks_spec k Hw) as (k1 & E1 & Hu). rewrite E1 in Hr. injection Hr as <- <-.
  apply iter_round_chosen in Hr0 as [Hw2 Hc]; [|by eapply slots_updated_wf].
  rename a0 into next, s0 into k2. exists next.
  unfold switch_to, task_at, getS, ofOpt, mbind, M_bind in Hs.
  destruct (aget (task k2) next) as [[q|]|] eqn:Eq; [|done..]. injection Hs as <-. split; [done|].
  destruct Hc as [(c & Hc0 & Hin & Hrc & Hb)|[-> H]]; [left|by right].
  split; [by apply slots_down_spec|]. exists c. split; [done|]. split; [done|].
  intros i x Hi. apply Hb. by apply slots_down_spec.
Qed.

(** Three tasks: the second has the larger slice. *)
Definition demo_sched : kst :=
  boot_state [set_counter 3 (INIT_TASK 1); set_counter 7 (INIT_TASK 1);
              set_state TASK_INTERRUPTIBLE (INIT_TASK 1)] 100.

Lemma schedule_picks_best_witness :
  exists k', schedule 2 demo_sched = Ok tt k' /\
    exists next, aget (task k') next = Some (Some (current k')) /\
    ((1 <= next <= 63 /\ exists c, 0 < c /\ run_counter k' next = Some c /\
        forall i x, 1 <= i <= 63 -> run_counter k' i = Some x -> x <= c /\ (x = c -> i <= next))
     \/ (next = 0 /\ forall i x, 1 <= i <= 63 -> run_counter k' i = Some x -> x < 0)).
Proof.
  eexists. split; [vm_compute; reflexivity|].
  apply (schedule_picks_best 2 demo_sched); [apply kst_wfb_sound|]; vm_compute; reflexivity.
Defined.

(** ** Termination *)

Lemma wake_task_slice j t : counter (wake_task j t) = counter t /\ priority (wake_task j t) = priority t.
Proof. unfold wake_task. destruct t; cbn. repeat (case_match; cbn); done. Qed.

Lemma switch_to_chosen k n p0 :
  aget (task k) 0 = Some (Some p0) -> chosen k n -> exists k', switch_to n k = Ok tt k'.
Proof.
  intros H0 Hc. unfold switch_to, task_at, getS, ofOpt, mbind, M_bind.
  assert (exists q, aget (task k) n = Some (Some q)) as [q ->]; [|eauto].
  destruct Hc as [(c & _ & _ & Hrc & _)|[-> _]]; [|eauto].
  unfold run_counter, task_in in Hrc. destruct (aget (task k) n) as [[q|]|]; [eauto|done..].
Qed.

Lemma run_counter_recharged k k' n t :
  kst_wf k -> slots_updated slots_down recharge_task k k' -> n ∈ slots_down ->
  task_in k n = Some t -> state t = TASK_RUNNING ->
  run_counter k' n = Some (s32 (Z.shiftr (counter t) 1 + priority t)).
Proof.
  intros Hw Hu Hn Ht Hs. unfold run_counter. rewrite (slots_updated_in _ _ _ _ _ Hw Hu Hn), Ht.
  cbn. unfold recharge_task. destruct t; cbn in *. subst. done.
Qed.

Lemma run_counter_Some k n c :
  run_counter k n = Some c -> exists t, task_in k n = Some t /\ state t = TASK_RUNNING /\ counter t = c.
Proof.
  unfold run_counter. destruct (task_in k n) as [t|]; [|done].
  destruct (Z.eqb_spec (state t) TASK_RUNNING); [|done]. intros [= <-]. eauto.
Qed.

(** two rounds are enough: when every task has a positive priority and a
    non-negative time slice, the selection loop of [schedule] ends after at
    most one recharge of the time slices, so [schedule] always returns. *)
Theorem schedule_terminates (k : kst) (p0 : tptr) :
  kst_wf k -> aget (task k) 0 = Some (Some p0) ->
  (forall i t, 1 <= i <= 63 -> task_in k i = Some t ->
     0 < priority t < 2147483648 /\ 0 <= counter t) ->
  exists k', schedule 2 k = Ok tt k'.
Proof.
  intros Hw H0 Hpr. destruct (wake_tasks_spec k Hw) as (k1 & E1 & Hu1).
  pose proof (slots_updated_wf _ _ _ _ Hw Hu1) as Hw1.
  assert (T1 : task k1 = task k) by (by rewrite (proj1 Hu1)).
  unfold schedule, mbind, M_bind. rewrite E1. cbn [iter]. unfold mbind, M_bind.
  destruct (sched_round_spec k1 Hw1) as [(n & -> & Hc)|(k2 & -> & Hu2 & n & Hn & Hrc & _)].
  { apply (switch_to_chosen k1 n p0); congruence. }
  pose proof (slots_updated_wf _ _ _ _ Hw1 Hu2) as Hw2.
  assert (T2 : task k2 = task k) by (by rewrite (proj1 Hu2)).
  destruct (sched_round_spec k2 Hw2) as [(m & -> & Hc)|(k3 & -> & _ & m & _ & _ & Hb)].
  { apply (switch_to_chosen k2 m p0); congruence. }
  exfalso. apply run_counter_Some in Hrc as (t1 & Ht1 & Hs1 & Hc1).
  pose proof (run_counter_recharged k1 k2 n t1 Hw1 Hu2 Hn Ht1 Hs1) as Hr2.
  rewrite (slots_updated_in _ _ _ _ _ Hw Hu1 Hn) in Ht1.
  destruct (task_in k n) as [t|] eqn:Ht; [|done]. injection Ht1 as <-.
  destruct (wake_task_slice (jiffies k) t) as [Ec Ep].
  destruct (Hpr n t) as [Hp _]; [by apply slots_down_spec|done|].
  rewrite Hc1, Ep in Hr2. change (Z.shiftr 0 1) with 0 in Hr2.
  rewrite s32_small in Hr2 by (unfold in_s32; lia). apply Hb in Hr2; [lia|done].
Qed.

Lemma schedule_terminates_witness : exists k', schedule 2 demo_sched = Ok tt k'.
Proof.
  apply (schedule_terminates demo_sched 1); [by apply kst_wfb_sound; vm_compute|by vm_compute|].
  intros i t Hi Ht.
  assert (Hall : forallb (fun i => match task_in demo_sched i with
            | Some t => (0 <? priority t) && (priority t <? 2147483648) && (0 <=? counter t)
            | None => true end) (range 1 63) = true) by (vm_compute; reflexivity).
  rewrite forallb_forall in Hall.
  specialize (Hall i ltac:(apply list_elem_of_In, elem_of_range; lia)). rewrite Ht in Hall. lia.
Defined.

(** ** A task that was made too nice *)

(** Every runnable task has no time left and a zero priority. *)
Definition starved (k : kst) : Prop :=
  kst_wf k /\ (exists n, best k slots_down 0 n) /\
  forall i t, i ∈ slots_down -> task_in k i = Some t -> state t = TASK_RUNNING ->
    counter t = 0 /\ priority t = 0.

Lemma recharge_task_fields t :
  state (recharge_task t) = state t /\
  counter (recharge_task t) = s32 (Z.shiftr (counter t) 1 + priority t) /\
  priority (recharge_task t) = priority t.
Proof. by destruct t. Qed.

Lemma starved_round k : starved k -> exists k', sched_round tt k = Ok (inl tt) k' /\ starved k'.
Proof.
  intros (Hw & (n & Hn & Hrc & Hb) & Hall).
  destruct (sched_round_spec k Hw) as [(m & _ & Hc)|(k' & E & Hu & _)].
  - exfalso. destruct Hc as [(c & Hc & Hin & Hm & _)|[_ H]].
    + apply run_counter_Some in Hm as (t & Ht & Hs & Ec). destruct (Hall m t Hin Ht Hs). lia.
    + apply slots_down_spec in Hn. specialize (H n 0 Hn Hrc). lia.
  - exists k'. split; [done|].
    assert (Hall' : forall i t, i ∈ slots_down -> task_in k' i = Some t -> state t = TASK_RUNNING ->
              counter t = 0 /\ priority t = 0).
    { intros i t Hi Ht Hs. rewrite (slots_updated_in _ _ _ _ _ Hw Hu Hi) in Ht.
      destruct (task_in k i) as [t0|] eqn:E0; [|done]. injection Ht as <-.
      destruct (recharge_task_fields t0) as (Es & Ec & Ep). rewrite Es in Hs.
      destruct (Hall i t0 Hi E0 Hs) as [H1 H2]. rewrite Ec, Ep, H1, H2. done. }
    split; [by eapply slots_updated_wf|]. split; [|done].
    apply run_counter_Some in Hrc as (t & Ht & Hs & Ec).
    destruct (Hall n t Hn Ht Hs) as [Ec0 Ep0].
    pose proof (run_counter_recharged k k' n t Hw Hu Hn Ht Hs) as Hr. rewrite Ec0, Ep0 in Hr.
    assert (Hz : forall i x, i ∈ slots_down -> run_counter k' i = Some x -> x = 0).
    { intros i x Hi Hx. apply run_counter_Some in Hx as (u & Hu' & Hs' & <-). by apply (Hall' i u). }
    (* the highest slot with a runnable task *)
    destruct (pick_spec k' slots_down (-1) 0 (slots_updated_wf _ _ _ _ Hw Hu) slots_range slots_down_sorted)
      as (c & m & _ & [(-> & -> & H)|(Hc & Hbm)]).
    + specialize (H n 0 Hn Hr). lia.
    + exists m. destruct Hbm as (Hm & Hrm & Hbest). by pose proof (Hz m c Hm Hrm) as ->.
Qed.

Lemma starved_hangs n k : starved k -> exists k', iter n sched_round tt k = Halt Hang k'.
Proof.
  revert k. induction n as [|n IH]; intros k Hs; [by eexists|].
  destruct (starved_round k Hs) as (k' & E & Hs'). destruct (IH k' Hs') as [k2 E2].
  exists k2. cbn [iter]. unfold mbind, M_bind. by rewrite E.
Qed.

(** The state of a task that runs alone with its time slice used up. *)
Definition alone (k : kst) (t : task_struct) : Prop :=
  kst_wf k /\ heap k !! current k = Some t /\
  (exists n, 1 <= n <= 63 /\ aget (task k) n = Some (Some (current k))) /\
  (forall i p, 1 <= i <= 63 -> aget (task k) i = Some (Some p) -> p = current k) /\
  state t = TASK_RUNNING /\ counter t = 0.

Lemma wake_running j t : state t = TASK_RUNNING -> state (wake_task j t) = TASK_RUNNING.
Proof. unfold wake_task. destruct t; cbn. intros ->. repeat (case_match; cbn in *); done. Qed.

Lemma alone_starved k k1 t :
  alone k t -> priority t = 0 -> slots_updated slots_down (wake_task (jiffies k)) k k1 -> starved k1.
Proof.
  intros (Hw & Ht & (n & Hn & En) & Hone & Hs & Hc) Hp Hu.
  assert (Hn' : n ∈ slots_down) by (by apply slots_down_spec).
  assert (Hin : forall i u, i ∈ slots_down -> task_in k1 i = Some u -> i = n /\ u = wake_task (jiffies k) t).
  { intros i u Hi Hu'. rewrite (slots_updated_in _ _ _ _ _ Hw Hu Hi) in Hu'. unfold task_in in Hu'.
    destruct (aget (task k) i) as [[p|]|] eqn:E; [|done..]. apply slots_down_spec in Hi.
    pose proof (Hone i p Hi E) as ->. split; [by eapply (wf_inj k Hw)|].
    rewrite Ht in Hu'. by injection Hu' as <-. }
  assert (Hk1 : task_in k1 n = Some (wake_task (jiffies k) t)).
  { rewrite (slots_updated_in _ _ _ _ _ Hw Hu Hn'). unfold task_in. by rewrite En, Ht. }
  destruct (wake_task_slice (jiffies k) t) as [Ec Ep].
  split; [by eapply slots_updated_wf|]. split.
  - exists n. split; [done|]. split.
    + unfold run_counter. rewrite Hk1, wake_running by done. by rewrite Ec, Hc.
    + intros i x Hi Hx. apply run_counter_Some in Hx as (u & Hu' & _ & <-).
      destruct (Hin i u Hi Hu') as [-> ->]. lia.
  - intros i u Hi Hu' _. destruct (Hin i u Hi Hu') as [_ ->]. lia.
Qed.

Lemma sys_nice_priority k t :
  heap k !! current k = Some t -> 0 <= priority t < 2147483648 ->
  sys_nice (priority t) k = Ok 0 (set_heap (<[current k := set_priority 0 t]> (heap k)) k).
Proof.
  intros Ht Hp. unfold sys_nice, mbind, M_bind. rewrite (suser_eq t) by done.
  destruct (Z.ltb_spec (priority t) 0); [lia|]. cbn [andb]. rewrite (cur_eq priority t) by done.
  destruct (Z.ltb_spec (priority t) (priority t)); [lia|]. rewrite (upd_cur_eq _ t) by done.
  by rewrite Z.sub_diag.
Qed.

(** [sys_nice] lets a task give up its whole priority (an increment equal
    to the priority is not clamped, only a larger one is), and then
    [schedule] never returns when that task alone is runnable and has used up
    its time slice: its selection loop recharges the slice with zero forever. *)
Theorem sys_nice_hangs_schedule (k : kst) (t : task_struct) :
  alone k t -> 0 < priority t < 2147483648 ->
  exists k1, sys_nice (priority t) k = Ok 0 k1 /\
    forall rounds, exists k2, schedule rounds k1 = Halt Hang k2.
Proof.
  intros Ha Hp. destruct Ha as (Hw & Ht & Hslot & Hone & Hs & Hc).
  eexists. split; [apply sys_nice_priority; [done|lia]|]. intros rounds.
  set (k1 := set_heap _ k).
  assert (Ha1 : alone k1 (set_priority 0 t)).
  { split; [by apply (kst_wf_upd k (current k) (set_priority 0))|]. split; [apply lookup_insert_eq|].
    split; [done|]. split; [done|]. by destruct t. }
  destruct (wake_tasks_spec k1) as (k2 & E & Hu); [apply Ha1|].
  assert (Hst : starved k2) by (apply (alone_starved k1 k2 (set_priority 0 t)); [done|by destruct t|done]).
  destruct (starved_hangs rounds k2 Hst) as [k3 E3]. exists k3.
  unfold schedule, mbind, M_bind. by rewrite E, E3.
Qed.

Definition demo_alone : kst :=
  set_current 2 (boot_state [set_counter 0 (INIT_TASK 1)] 100).

Lemma sys_nice_hangs_schedule_witness :
  exists k1, sys_nice 15 demo_alone = Ok 0 k1 /\
    forall rounds, exists k2, schedule rounds k1 = Halt Hang k2.
Proof.
  apply (sys_nice_hangs_schedule demo_alone (set_counter 0 (INIT_TASK 1))); [|closed_arith].
  split; [by apply kst_wfb_sound; vm_compute|]. split; [by vm_compute|].
  split; [exists 1; closed_arith|]. split; [|by vm_compute].
  intros i p Hi Hp.
  assert (Hall : forallb (fun i => match aget (task demo_alone) i with
     | Some (Some p) => Pos.eqb p 2 | _ => true end) (range 1 63) = true) by (vm_compute; reflexivity).
  rewrite forallb_forall in Hall.
  specialize (Hall i ltac:(apply list_elem_of_In, elem_of_range; lia)). rewrite Hp in Hall.
  by apply Pos.eqb_eq in Hall.
Defined.

(** ** Which tasks [schedule] wakes *)

(** The signals a task has once its alarm has been looked at. *)
Definition due_signals (j : Z) (t : task_struct) : Z :=
  if truth (alarm t) && (alarm t <? j) then Z.lor (signal t) (word_bit (SIGALRM - 1)) else signal t.

Definition due (j : Z) (t : task_struct) : bool :=
  (truth (timeout t) && (timeout t <? j)) || truth (Z.ldiff (due_signals j t) (blocked t)).

Lemma wake_task_state j t :
  state (wake_task j t) =
    (if (state t =? TASK_INTERRUPTIBLE) && due j t then TASK_RUNNING else state t)
  /\ signal (wake_task j t) = due_signals j t /\ blocked (wake_task j t) = blocked t.
Proof.
  unfold wake_task, due, due_signals. destruct t; cbn -[truth word_bit].
  destruct (Z.eqb_spec state TASK_INTERRUPTIBLE) as [->|Hne]; cbn -[truth word_bit];
    (destruct (truth timeout && (timeout <? j)); cbn -[truth word_bit]);
    (destruct (truth alarm && (alarm <? j)); cbn -[truth word_bit]);
    try match goal with |- context [truth (Z.ldiff ?a ?b)] => destruct (truth (Z.ldiff a b)) end;
    rewrite ?(proj2 (Z.eqb_neq _ _) Hne); done.
Qed.

Lemma iter_round_keeps n k next k' :
  kst_wf k -> iter n sched_round tt k = Ok next k' ->
  task k' = task k /\ forall i, i ∈ slots_down ->
    (fun t => (state t, signal t, blocked t)) <$> task_in k' i = (fun t => (state t, signal t, blocked t)) <$> task_in k i.
Proof.
  intros Hw Hi.
  eapply (iter_inv sched_round (fun _ s => kst_wf s /\ task s = task k /\ forall i, i ∈ slots_down ->
    (fun t => (state t, signal t, blocked t)) <$> task_in s i = (fun t => (state t, signal t, blocked t)) <$> task_in k i)
    (fun _ s => task s = task k /\ forall i, i ∈ slots_down ->
    (fun t => (state t, signal t, blocked t)) <$> task_in s i = (fun t => (state t, signal t, blocked t)) <$> task_in k i));
    [|by split|exact Hi].
  clear Hi. intros [] s r s' (Hs & Ht & Heq) Hr.
  destruct (sched_round_spec s Hs) as [(m & E & Hc)|(k1 & E & Hu & _)];
    rewrite E in Hr; injection Hr as <- <-; [done|].
  split; [by eapply slots_updated_wf|]. split; [by rewrite (proj1 Hu)|].
  intros i Hin. rewrite <- (Heq i Hin), (slots_updated_in _ _ _ _ _ Hs Hu Hin).
  destruct (task_in s i) as [t|]; [|done]. by destruct t.
Qed.

(** [schedule] wakes exactly the tasks it should: an interruptible sleeper
    whose timeout has passed or that has an unblocked signal (an expired
    alarm counting as one) becomes runnable, every other task keeps its
    state, and an alarm that has passed leaves the alarm signal. *)
Theorem schedule_wakes_due (rounds : nat) (k k' : kst) (i : Z) (t : task_struct) :
  kst_wf k -> schedule rounds k = Ok tt k' -> 1 <= i <= 63 -> task_in k i = Some t ->
  exists t', task_in k' i = Some t' /\
    state t' = (if (state t =? TASK_INTERRUPTIBLE) && due (jiffies k) t then TASK_RUNNING else state t) /\
    signal t' = due_signals (jiffies k) t /\
    (state t' = TASK_INTERRUPTIBLE -> Z.ldiff (signal t') (blocked t') = 0).
Proof.
  intros Hw Hs Hi Ht. unfold schedule in Hs. inv_ok.
  destruct (wake_tasks_spec k Hw) as (k1 & E1 & Hu). rewrite E1 in Hr. injection Hr as <- <-.
  apply iter_round_keeps in Hr0 as [Etask Hkeep]; [|by eapply slots_updated_wf].
  apply slots_down_spec in Hi. specialize (Hkeep i Hi).
  rewrite (slots_updated_in _ _ _ _ _ Hw Hu Hi), Ht in Hkeep.
  destruct (wake_task_state (jiffies k) t) as (Est & Esig & Ebl).
  assert (E : task_in k' i = task_in s0 i).
  { unfold switch_to, task_at, getS, ofOpt, mbind, M_bind in Hs.
    destruct (aget (task s0) a0) as [[q|]|]; [|done..]. by injection Hs as <-. }
  rewrite E. destruct (task_in s0 i) as [t'|]; [|done]. exists t'. cbn in Hkeep.
  injection Hkeep as E1' E2' E3'. rewrite E1', E2', E3', Est, Esig, Ebl. split_and!; [done..|].
  intros Hint. unfold due in Hint.
  destruct (Z.eqb_spec (state t) TASK_INTERRUPTIBLE); [|done]. cbn [andb] in Hint.
  destruct (truth (timeout t) && (timeout t <? jiffies k)); [done|]. cbn [orb] in Hint.
  unfold truth in Hint. destruct (Z.eqb_spec (Z.ldiff (due_signals (jiffies k) t) (blocked t)) 0); done.
Qed.

Definition demo_wake : kst :=
  boot_state [set_counter 3 (INIT_TASK 1);
              set_alarm 50 (set_state TASK_INTERRUPTIBLE (INIT_TASK 1))] 100.

Lemma schedule_wakes_due_witness :
  exists k' t', schedule 2 demo_wake = Ok tt k' /\ task_in k' 2 = Some t' /\
    state t' = TASK_RUNNING /\ signal t' = 8192.
Proof.
  destruct (schedule 2 demo_wake) as [[] k'|] eqn:E; [|vm_compute in E; discriminate].
  destruct (schedule_wakes_due 2 demo_wake k' 2 (set_alarm 50 (set_state TASK_INTERRUPTIBLE (INIT_TASK 1))))
    as (t' & H1 & H2 & H3 & _);
    [by apply kst_wfb_sound; vm_compute|done|lia|by vm_compute|].
  exists k', t'. split_and!; [done|done|rewrite H2; by vm_compute|rewrite H3; by vm_compute].
Defined.

(** ** Wait queues *)

(** The tasks on a wait queue: from [w] along [next_wait], up to a null pointer
    or task 0. *)
Inductive queue (k : kst) (t0 : option tptr) : option tptr -> list tptr -> Prop :=
| queue_null : queue k t0 None []
| queue_stop : queue k t0 t0 []
| queue_cons p t l :
    Some p <> t0 -> heap k !! p = Some t -> queue k t0 (next_wait t) l ->
    queue k t0 (Some p) (p :: l).

Lemma queue_frame k k' t0 w l :
  queue k t0 w l -> (forall p, p ∈ l -> next_wait <$> heap k' !! p = next_wait <$> heap k !! p) ->
  queue k' t0 w l.
Proof.
  induction 1 as [| |p t l Hne Ht Hq IH]; intros Hf; [constructor|constructor|].
  specialize (Hf p ltac:(set_solver)) as Hp. rewrite Ht in Hp.
  destruct (heap k' !! p) as [t'|] eqn:E'; [|done]. injection Hp as Hp.
  apply (queue_cons _ _ p t'); [done|done|]. rewrite Hp. apply IH. set_solver.
Qed.

Lemma queue_in_heap k t0 w l p : queue k t0 w l -> p ∈ l -> is_Some (heap k !! p).
Proof. induction 1; set_solver. Qed.

Lemma queue_length k t0 w l : queue k t0 w l -> NoDup l -> (length l <= size (heap k))%nat.
Proof.
  intros Hq Hnd. rewrite <- (size_list_to_set (C := gset tptr) l) by done.
  rewrite <- (size_dom (D := gset tptr) (heap k)). apply subseteq_size.
  intros p Hp%elem_of_list_to_set. apply elem_of_dom. by eapply queue_in_heap.
Qed.

(** What waking does to one task: zombies and stopped tasks stay as they are. *)
Definition woken (t0 : option tptr) (t : task_struct) : task_struct :=
  set_next_wait t0
    (if (state t =? TASK_STOPPED) || (state t =? TASK_ZOMBIE) then t else set_state TASK_RUNNING t).

(** [k'] differs from [k] in the trace and in the tasks of [l], which are woken. *)
Definition queue_woken (t0 : option tptr) (l : list tptr) (k k' : kst) : Prop :=
  (task k' = task k /\ current k' = current k /\ wq k' = wq k) /\
  (forall p, p ∈ l -> heap k' !! p = woken t0 <$> heap k !! p) /\
  (forall p, p ∉ l -> heap k' !! p = heap k !! p).

Lemma task_at_eq i p k : aget (task k) i = Some p -> task_at i k = Ok p k.
Proof. intros H. unfold task_at, getS, ofOpt, mbind, M_bind. by rewrite H. Qed.

Lemma wake_step_stop k t0 w :
  aget (task k) 0 = Some t0 -> w = None \/ w = t0 -> wake_step w k = Ok (inr tt) k.
Proof.
  intros H0 Hw. unfold wake_step, mbind, M_bind. rewrite (task_at_eq 0 t0) by done.
  destruct Hw as [-> | ->]; [done|]. rewrite (bool_decide_true (t0 = t0)) by done.
  by rewrite orb_true_r.
Qed.

Lemma wake_step_one k t0 p t :
  aget (task k) 0 = Some t0 -> Some p <> t0 -> heap k !! p = Some t ->
  exists k', wake_step (Some p) k = Ok (inl (next_wait t)) k' /\ queue_woken t0 [p] k k'.
Proof.
  intros H0 Hne Ht. unfold wake_step, mbind, M_bind. rewrite (task_at_eq 0 t0) by done.
  rewrite (bool_decide_false (Some p = None)), (bool_decide_false (Some p = t0)) by done.
  cbn [orb]. rewrite (deref_eq p t) by done. unfold woken.
  assert (Hone : forall k1 u, heap k1 = <[p := u]> (heap k) -> next_wait u = next_wait t ->
    set_next_wait t0 u = woken t0 t -> task k1 = task k /\ current k1 = current k /\ wq k1 = wq k ->
    exists k', wake_next (Some p) t0 k1 = Ok (inl (next_wait t)) k' /\ queue_woken t0 [p] k k').
  { intros k1 u Hh Hn Hw Hs. unfold wake_next, mbind, M_bind.
    rewrite (deref_eq p u) by (rewrite Hh; apply lookup_insert_eq). rewrite (upd_eq p u) by (rewrite Hh; apply lookup_insert_eq).
    rewrite Hn. eexists. split; [reflexivity|]. split; [done|]. cbn. rewrite Hh, insert_insert_eq, Hw. split.
    - intros q ->%list_elem_of_singleton. rewrite lookup_insert_eq, Ht. done.
    - intros q Hq. rewrite lookup_insert_ne; [done|]. set_solver. }
  unfold woken in Hone.
  destruct (state t =? TASK_STOPPED); cbn [orb] in *;
    [apply (Hone (add_event _ k) t); try done; by rewrite insert_id|].
  destruct (state t =? TASK_ZOMBIE);
    [apply (Hone (add_event _ k) t); try done; by rewrite insert_id|].
  rewrite (upd_eq p t) by done. apply (Hone (set_heap _ k) (set_state TASK_RUNNING t)); try done.
  by destruct t.
Qed.

Lemma queue_woken_trans t0 p l k k1 k2 :
  p ∉ l -> queue_woken t0 [p] k k1 -> queue_woken t0 l k1 k2 -> queue_woken t0 (p :: l) k k2.
Proof.
  intros Hp ((A1 & A2 & A3) & B1 & C1) ((A4 & A5 & A6) & B2 & C2).
  split; [split_and!; congruence|]. split.
  - intros q [->|Hq]%elem_of_cons; [rewrite (C2 p), (B1 p) by set_solver; done|].
    rewrite (B2 q Hq), C1; [done|]. set_solver.
  - intros q Hq. rewrite C2, C1; set_solver.
Qed.

Lemma wake_loop k t0 w l n :
  aget (task k) 0 = Some t0 -> queue k t0 w l -> NoDup l -> (length l < n)%nat ->
  exists k', iter n wake_step w k = Ok tt k' /\ queue_woken t0 l k k'.
Proof.
  revert k w n. induction l as [|p l IH]; intros k w n H0 Hq Hnd Hn; (destruct n as [|n]; [cbn in Hn; lia|]);
    cbn [iter]; unfold mbind, M_bind.
  - rewrite (wake_step_stop k t0 w) by (try done; inversion Hq; auto).
    exists k. split; [done|]. split; [done|]. set_solver.
  - apply NoDup_cons in Hnd as [Hp Hnd]. inversion Hq as [| |? t ? Hne Ht Hq']; subst.
    destruct (wake_step_one k t0 p t H0 Hne Ht) as (k1 & -> & Hw).
    destruct (IH k1 (next_wait t) n) as (k2 & E & Hw2); [|..|done|cbn in Hn; lia|].
    + destruct Hw as ((-> & _) & _). done.
    + eapply queue_frame; [exact Hq'|]. intros q Hql. destruct Hw as (_ & _ & Hk).
      rewrite Hk; [done|]. set_solver.
    + exists k2. split; [exact E|]. by eapply queue_woken_trans.
Qed.

(** [wake_up] empties the wait queue and wakes every task on it: each becomes
    runnable, unless it is stopped or a zombie, and is marked as woken (its
    [next_wait] points to task 0); no other task changes.  In particular the
    walk along the queue ends. *)
Theorem wake_up_wakes_all (k : kst) (q : Z) (t0 : option tptr) (l : list tptr) :
  aget (task k) 0 = Some t0 -> queue k t0 (wq k !! q) l -> NoDup l ->
  exists k', wake_up q k = Ok tt k' /\ wq k' = delete q (wq k) /\ task k' = task k /\
    (forall p, p ∈ l -> heap k' !! p = woken t0 <$> heap k !! p) /\
    (forall p, p ∉ l -> heap k' !! p = heap k !! p).
Proof.
  intros H0 Hq Hnd. unfold wake_up, mbind, M_bind, getS.
  destruct (wq k !! q) as [w|] eqn:Ew.
  - set (k1 := set_wq (delete q (wq k)) k).
    destruct (wake_loop k1 t0 (Some w) l (S (S (size (heap k))))) as (k' & E & (A & _ & A') & B & C);
      [done|by eapply queue_frame; [exact Hq|]|done|pose proof (queue_length _ _ _ _ Hq Hnd); lia|].
    exists k'. split; [exact E|]. split; [done|]. done.
  - exists k. rewrite delete_id by done. inversion Hq; subst; split_and!; try done; set_solver.
Qed.

(** going to sleep puts the running task at the head of the queue in front
    of the tasks already there, in the requested state, so that the next
    [wake_up] of the queue reaches it: no wake-up is lost. *)
Theorem sleep_enter_queues (k : kst) (q st : Z) (z : tptr) (l : list tptr) (tz tc : task_struct) :
  aget (task k) 0 = Some (Some z) -> heap k !! z = Some tz -> heap k !! current k = Some tc ->
  current k <> z -> current k ∉ l -> z ∉ l -> queue k (Some z) (wq k !! q) l ->
  exists k' tc', sleep_enter q st k = Ok tt k' /\ wq k' !! q = Some (current k) /\
    queue k' (Some z) (wq k' !! q) (current k :: l) /\
    heap k' !! current k = Some tc' /\ state tc' = st.
Proof.
  intros H0 Hz Hc Hne Hcl Hzl Hq. set (c := current k) in *.
  unfold sleep_enter, mbind, M_bind, gets. fold c. rewrite (task_at_eq 0 (Some z)) by done.
  rewrite bool_decide_false by congruence.
  rewrite (upd_eq c tc) by done. rewrite (upd_eq z tz) by (cbn; by rewrite lookup_insert_ne).
  unfold set_wq_head, modify. erewrite (upd_eq c); [|cbn; rewrite lookup_insert_ne by done; apply lookup_insert_eq].
  eexists _, _. split; [reflexivity|]. cbn [wq set_heap set_wq heap].
  rewrite !lookup_insert_eq. split; [done|]. split; [|split; [reflexivity|by destruct tc]].
  eapply queue_cons; [congruence|cbn; apply lookup_insert_eq|].
  replace (next_wait (set_state st (set_next_wait (wq k !! q) tc))) with (wq k !! q) by (by destruct tc).
  eapply queue_frame; [exact Hq|]. intros p Hp. cbn. rewrite !lookup_insert_ne by set_solver. done.
Qed.

Definition demo_queue : kst :=
  set_wq {[ 77 := 3%positive ]} (set_current 2
    (boot_state [INIT_TASK 1;
                 set_state TASK_UNINTERRUPTIBLE (set_next_wait (Some 4%positive) (INIT_TASK 1));
                 set_state TASK_UNINTERRUPTIBLE (INIT_TASK 1)] 0)).

Lemma demo_queue_tasks : queue demo_queue (Some 1%positive) (wq demo_queue !! 77) [3%positive; 4%positive].
Proof.
  change (wq demo_queue !! 77) with (Some 3%positive).
  eapply queue_cons; [done|vm_compute; reflexivity|]. cbn [next_wait].
  eapply queue_cons; [done|vm_compute; reflexivity|]. cbn [next_wait]. constructor.
Qed.

Lemma wake_up_wakes_all_witness :
  exists k', wake_up 77 demo_queue = Ok tt k' /\ wq k' = delete 77 (wq demo_queue) /\
    task k' = task demo_queue /\
    (forall p, p ∈ [3%positive; 4%positive] -> heap k' !! p = woken (Some 1%positive) <$> heap demo_queue !! p) /\
    (forall p, p ∉ [3%positive; 4%positive] -> heap k' !! p = heap demo_queue !! p).
Proof.
  apply (wake_up_wakes_all demo_queue 77 (Some 1%positive) [3%positive; 4%positive]);
    [done|apply demo_queue_tasks|apply (bool_decide_unpack _); by vm_compute].
Defined.

Lemma sleep_enter_queues_witness :
  exists k' tc', sleep_enter 77 TASK_UNINTERRUPTIBLE demo_queue = Ok tt k' /\ wq k' !! 77 = Some 2%positive /\
    queue k' (Some 1%positive) (wq k' !! 77) [2%positive; 3%positive; 4%positive] /\
    heap k' !! 2%positive = Some tc' /\ state tc' = TASK_UNINTERRUPTIBLE.
Proof.
  apply (sleep_enter_queues demo_queue 77 TASK_UNINTERRUPTIBLE 1 [3%positive; 4%positive] (INIT_TASK 1) (INIT_TASK 1));
    [done|by vm_compute|by vm_compute|done|apply (bool_decide_unpack _); by vm_compute
    |apply (bool_decide_unpack _); by vm_compute|apply demo_queue_tasks].
Defined.

(** ** The timer list *)

(** The entries reached from [p] along [tl_next]. *)
Inductive tchain (l : list timer) : option Z -> list Z -> Prop :=
| tchain_nil : tchain l None []
| tchain_cons i t r : aget l i = Some t -> tchain l (tl_next t) r -> tchain l (Some i) (i :: r).

(** What an entry says: ticks after the previous entry, function. *)
Definition tentry (l : list timer) (i : Z) : Z * Z :=
  match aget l i with Some t => (tl_jiffies t, tl_fn t) | None => (0, 0) end.

(** The abstract timer list: distances and functions, in order. *)
Definition pending (k : kst) (idx : list Z) : list (Z * Z) := tentry (timer_list (timers k)) <$> idx.

(** Absolute expiry times of a list of distances. *)
Fixpoint expiry (base : Z) (l : list (Z * Z)) : list (Z * Z) :=
  match l with [] => [] | (d, f) :: r => (base + d, f) :: expiry (base + d) r end.

(** Where the loop of [add_timer] puts a timer. *)
Fixpoint insert_delta (j fn : Z) (l : list (Z * Z)) : list (Z * Z) :=
  match l with
  | [] => [(j, fn)]
  | (d, f) :: r => if d <? j then (d, f) :: insert_delta (j - d) fn r else (j, fn) :: l
  end.

Lemma tchain_frame (l l' : list timer) p (idx : list Z) :
  tchain l p idx -> (forall i, i ∈ idx -> aget l' i = aget l i) -> tchain l' p idx.
Proof.
  induction 1 as [|i t r Ht Hc IH]; intros Hf; [constructor|].
  econstructor; [rewrite Hf; [done|set_solver]|]. apply IH. set_solver.
Qed.

Lemma tentry_frame (l l' : list timer) (idx : list Z) :
  (forall i, i ∈ idx -> aget l' i = aget l i) -> tentry l' <$> idx = tentry l <$> idx.
Proof.
  intros Hf. apply list_fmap_ext. intros n i Hi. unfold tentry. rewrite Hf; [done|].
  by eapply list_elem_of_lookup_2.
Qed.

Definition with_list (l : list timer) (k : kst) : kst :=
  set_timers (Tst l (next_timer (timers k)) (timer_active (timers k)) (timer_table (timers k))) k.

Lemma put_timer_eq i v k l :
  aset (timer_list (timers k)) i v = Some l -> put_timer i v k = Ok tt (with_list l k).
Proof. intros H. unfold put_timer, getS, ofOpt, mbind, M_bind. by rewrite H. Qed.

Lemma get_timer_eq i t k : aget (timer_list (timers k)) i = Some t -> get_timer i k = Ok t k.
Proof. intros H. unfold get_timer, getS, ofOpt, mbind, M_bind. by rewrite H. Qed.

Lemma aset_total {A} (l : list A) i x y : aget l i = Some x -> exists l', aset l i y = Some l'.
Proof. intros H%aget_Some_range. eexists. by apply aset_in_range. Qed.

(** The loop that sinks the new timer [p] into the chain. *)
Lemma timer_sink_loop idx : forall k p j fn n,
  let l := timer_list (timers k) in
  NoDup (p :: idx) -> tchain l (Some p) (p :: idx) -> tentry l p = (j, fn) ->
  0 < j < 2147483648 -> Forall (fun e => 0 <= e.1) (tentry l <$> idx) -> (length idx < n)%nat ->
  exists l', iter n timer_sink p k = Ok tt (with_list l' k) /\
    tchain l' (Some p) (p :: idx) /\
    tentry l' <$> (p :: idx) = insert_delta j fn (tentry l <$> idx) /\
    (forall i, i ∉ p :: idx -> aget l' i = aget l i) /\ length l' = length l.
Proof.
  induction idx as [|m idx IH]; intros k p j fn n l Hnd Hch He Hj Hpos Hn;
    (destruct n as [|n]; [cbn in Hn; lia|]); cbn [iter]; unfold mbind, M_bind, timer_sink, mbind, M_bind;
    inversion Hch as [|? tp ? Htp Hch']; subst; rewrite (get_timer_eq p tp) by done;
    (assert (Etp : tl_jiffies tp = j /\ tl_fn tp = fn)
       by (unfold tentry in He; rewrite Htp in He; by injection He)); destruct Etp as [Ej Ef].
  - inversion Hch' as [Hnx|]; subst. exists l. split; [by destruct k as [? ? ? ? ? ? ? [] ?]|].
    split; [done|]. split; [|done]. cbn. by rewrite He.
  - apply NoDup_cons in Hnd as [Hp Hnd]. inversion Hch' as [|? tm ? Htm Hch'' Hnx]; subst.
    rewrite (get_timer_eq m tm) by done.
    assert (Em : tentry l m = (tl_jiffies tm, tl_fn tm)) by (unfold tentry; by rewrite Htm).
    cbn [fmap list_fmap] in Hpos |- *. rewrite Em in *. cbn [insert_delta].
    apply Forall_cons in Hpos as [Hd Hpos]. cbn in Hd.
    destruct (Z.ltb_spec (tl_jiffies tm) (tl_jiffies tp)) as [Hlt|Hge].
    + assert (Hne : p <> m) by set_solver.
      destruct (aset_total l p tp (Timer (tl_jiffies tm) (tl_fn tm) (Some m)) Htp) as [l1 E1].
      rewrite (put_timer_eq p _ k l1) by done.
      assert (Htm1 : aget l1 m = Some tm) by (by rewrite (aget_aset_ne l l1 p m _ Hne E1)).
      rewrite (get_timer_eq m tm) by done.
      destruct (aset_total l1 m tm (Timer (s32 (tl_jiffies tp - tl_jiffies tm)) (tl_fn tp) (tl_next tm)) Htm1) as [l2 E2].
      rewrite (put_timer_eq m _ _ l2) by done.
      rewrite s32_small in E2 by (unfold in_s32; lia).
      assert (Hout : forall i, i <> p -> i <> m -> aget l2 i = aget l i).
      { intros i ??. rewrite (aget_aset_ne l1 l2 m i _ ltac:(done) E2). by apply (aget_aset_ne l l1 p i _ ltac:(done) E1). }
      assert (Hp2 : aget l2 p = Some (Timer (tl_jiffies tm) (tl_fn tm) (Some m))).
      { rewrite (aget_aset_ne l1 l2 m p _ ltac:(done) E2). by eapply aget_aset_eq. }
      pose proof (aget_aset_eq _ _ _ _ E2) as Hm2.
      assert (Hin : forall i, i ∈ idx -> aget l2 i = aget l i).
      { intros i Hi. apply NoDup_cons in Hnd as [Hm _]. apply Hout; intros ->; [apply Hp; by right|done]. }
      destruct (IH (with_list l2 (with_list l1 k)) m (tl_jiffies tp - tl_jiffies tm) (tl_fn tp) n)
        as (l' & E & Hc' & Hcont & Hfr & Hlen'); [done|..|lia| |cbn in Hn; lia|].
      * econstructor; [exact Hm2|]. cbn. eapply tchain_frame; [exact Hch''|].
        exact Hin.
      * unfold tentry. cbn. by rewrite Hm2.
      * cbn. erewrite tentry_frame; [exact Hpos|exact Hin].
      * exists l'. split; [exact E|]. cbn [timers timer_list with_list set_timers] in Hcont, Hfr.
        rewrite (tentry_frame l l2 idx) in Hcont by exact Hin.
        assert (Hp' : aget l' p = Some (Timer (tl_jiffies tm) (tl_fn tm) (Some m))) by (by rewrite Hfr).
        split; [econstructor; [exact Hp'|exact Hc']|].
        rewrite Hlen'. cbn. rewrite (aset_length _ _ _ _ E2), (aset_length _ _ _ _ E1). split; [|split; [|done]].
        { cbn [fmap list_fmap]. cbn [fmap list_fmap] in Hcont. rewrite Hcont. f_equal.
          unfold tentry. by rewrite Hp'. }
        { intros i Hi. rewrite !not_elem_of_cons in Hi. destruct Hi as (Hip & Him & Hi).
          rewrite Hfr by (rewrite not_elem_of_cons; done). by apply Hout. }
    + exists l. split; [by destruct k as [? ? ? ? ? ? ? [] ?]|]. split; [done|]. split; [|done].
      cbn [fmap list_fmap]. by rewrite He, Em.
Qed.

(** The timer list is well formed: [idx] are the entries in use, in the order
    of the list, and every distance is positive. *)
Record timers_wf (k : kst) (idx : list Z) : Prop := {
  twf_len : length (timer_list (timers k)) = Z.to_nat TIME_REQUESTS;
  twf_chain : tchain (timer_list (timers k)) (next_timer (timers k)) idx;
  twf_nodup : NoDup idx;
  twf_used : forall i t, aget (timer_list (timers k)) i = Some t -> tl_fn t <> 0 <-> i ∈ idx;
  twf_pos : Forall (fun e => 0 < e.1 < 2147483648) (pending k idx)
}.

(** When each pending timer is due, in ticks from now. *)
Definition due_times (k : kst) (idx : list Z) : list (Z * Z) := expiry 0 (pending k idx).

Lemma free_slot_Some l : forall b i, free_slot l b = Some i ->
  b <= i /\ exists t, aget l (i - b) = Some t /\ tl_fn t = 0.
Proof.
  induction l as [|t l IH]; intros b i H; [done|]. cbn in H.
  destruct (Z.eqb_spec (tl_fn t) 0).
  - injection H as <-. split; [lia|]. exists t. by rewrite Z.sub_diag.
  - apply IH in H as (Hb & t' & Ht & Hz). split; [lia|]. exists t'. split; [|done].
    unfold aget in *. destruct (Z.ltb_spec (i - (b + 1)) 0); [done|].
    destruct (Z.ltb_spec (i - b) 0); [lia|].
    replace (Z.to_nat (i - b)) with (S (Z.to_nat (i - (b + 1)))) by lia. done.
Qed.

Lemma free_slot_None l b : free_slot l b = None -> Forall (fun t => tl_fn t <> 0) l.
Proof.
  revert b. induction l as [|t l IH]; intros b H; [constructor|]. cbn in H.
  destruct (Z.eqb_spec (tl_fn t) 0); [done|]. constructor; eauto.
Qed.

Lemma tchain_bound l p idx i : tchain l p idx -> i ∈ idx -> exists t, aget l i = Some t.
Proof. induction 1; set_solver. Qed.

Lemma free_slot_exists k idx :
  timers_wf k idx -> (length idx < Z.to_nat TIME_REQUESTS)%nat ->
  exists p, free_slot (timer_list (timers k)) 0 = Some p.
Proof.
  intros [Hlen Hch Hnd Hused _] Hlt.
  destruct (free_slot (timer_list (timers k)) 0) as [p|] eqn:E; [eauto|].
  apply free_slot_None in E. exfalso.
  assert (Hsub : range 0 (Z.to_nat TIME_REQUESTS) ⊆ idx).
  { intros i Hi%elem_of_range. destruct (aget_in_range (timer_list (timers k)) i) as [t Ht]; [lia|].
    apply (Hused i t Ht). rewrite Forall_lookup in E. unfold aget in Ht.
    destruct (Z.ltb_spec i 0); [done|]. by eapply E. }
  apply (NoDup_submseteq _ _ (NoDup_range 0 (Z.to_nat TIME_REQUESTS))) in Hsub.
  apply submseteq_length in Hsub. rewrite length_range in Hsub. lia.
Qed.

(** All the timers of a list, [t] ticks later. *)
Definition delay (t : Z) (l : list (Z * Z)) : list (Z * Z) := (fun e => (e.1 + t, e.2)) <$> l.

Lemma expiry_delay l : forall b t, expiry (b + t) l = delay t (expiry b l).
Proof.
  induction l as [|[d f] l IH]; intros b t; [done|]. unfold delay in *. cbn.
  replace (b + t + d) with (b + d + t) by lia. by rewrite IH.
Qed.

Lemma expiry_gt l : forall b, Forall (fun e => 0 < e.1) l -> Forall (fun e => b < e.1) (expiry b l).
Proof.
  induction l as [|[d f] l IH]; intros b H; [constructor|]. apply Forall_cons in H as [Hd H]. cbn in *.
  constructor; [cbn; lia|]. eapply Forall_impl; [by apply IH|]. intros e He. cbn in He. lia.
Qed.

(** The time of the last timer of [l], [b] when there is none. *)
Definition last_due (b : Z) (l : list (Z * Z)) : Z := List.last l.*1 b.

Lemma last_due_cons e l b : last_due b (e :: l) = last_due e.1 l.
Proof.
  unfold last_due. revert e b. induction l as [|x l IH]; intros e b; [done|].
  change (List.last (x :: l).*1 b = List.last (x :: l).*1 e.1). by rewrite !IH.
Qed.

Lemma insert_delta_expiry l : forall base j fn,
  Forall (fun e => 0 < e.1) l ->
  exists pre post, expiry base l = pre ++ post /\
    expiry base (insert_delta j fn l) = pre ++ (base + j, fn) :: delay (base + j - last_due base pre) post /\
    Forall (fun e => e.1 < base + j) pre /\ Forall (fun e => base + j <= e.1) post.
Proof.
  induction l as [|[d f] l IH]; intros base j fn Hpos.
  - by exists [], [].
  - apply Forall_cons in Hpos as [Hd Hpos]. cbn [insert_delta]. cbn in Hd.
    destruct (Z.ltb_spec d j) as [Hlt|Hge].
    + destruct (IH (base + d) (j - d) fn Hpos) as (pre & post & E1 & E2 & F1 & F2).
      replace (base + d + (j - d)) with (base + j) in * by lia.
      exists ((base + d, f) :: pre), post. cbn [expiry]. rewrite E1, E2, last_due_cons.
      repeat split; [|done]. constructor; [cbn; lia|done].
    + exists [], (expiry base ((d, f) :: l)). split; [done|]. split; [|split; [constructor|]].
      * change (last_due base []) with base. rewrite <-expiry_delay.
        replace (base + (base + j - base)) with (base + j) by lia. done.
      * cbn [expiry]. constructor; [cbn; lia|].
        eapply Forall_impl; [by apply expiry_gt|]. intros e He. cbn in He. lia.
Qed.

Lemma insert_delta_bounds l : forall j fn,
  0 < j < 2147483648 -> Forall (fun e : Z * Z => 0 < e.1 < 2147483648) l ->
  Forall (fun e => 0 < e.1 < 2147483648) (insert_delta j fn l).
Proof.
  induction l as [|[d f] l IH]; intros j fn Hj H; cbn [insert_delta].
  - by constructor.
  - destruct (Z.ltb_spec d j); [|by constructor]. apply Forall_cons in H as [Hd H].
    constructor; [done|]. apply IH; [cbn in Hd; lia|done].
Qed.

Lemma insert_delta_fns l : forall j fn,
  fn <> 0 -> Forall (fun e : Z * Z => e.2 <> 0) l -> Forall (fun e => e.2 <> 0) (insert_delta j fn l).
Proof.
  induction l as [|[d f] l IH]; intros j fn Hj H; cbn [insert_delta]; [by constructor|].
  destruct (Z.ltb_spec d j); [|by constructor]. apply Forall_cons in H as [Hd H].
  constructor; [done|]. by apply IH.
Qed.

(** [add_timer] with a free entry: it does not panic, keeps the list well
    formed, and inserts the timer by [insert_delta]. *)
Lemma add_timer_list k idx j fn :
  timers_wf k idx -> (length idx < Z.to_nat TIME_REQUESTS)%nat -> fn <> 0 -> 0 < j < 2147483648 ->
  exists l p, add_timer j fn k = Ok tt (set_timers l k) /\
    timers_wf (set_timers l k) (p :: idx) /\
    pending (set_timers l k) (p :: idx) = insert_delta j fn (pending k idx).
Proof.
  intros Hwf Hlt Hfn Hj. destruct (free_slot_exists k idx Hwf Hlt) as [p Hp].
  destruct Hwf as [Hlen Hch Hnd Hused Hpos].
  pose proof (free_slot_Some _ _ _ Hp) as (_ & t0 & Ht0 & Hz0). rewrite Z.sub_0_r in Ht0.
  assert (Hfns : Forall (fun e => e.2 <> 0) (pending k idx)).
  { apply Forall_forall. intros e (i & -> & Hi)%list_elem_of_fmap.
    destruct (tchain_bound _ _ _ i Hch Hi) as [t Ht]. unfold tentry. rewrite Ht. by apply (Hused i t Ht). }
  assert (Hpi : p ∉ idx) by (intros Hin; by apply (Hused p t0 Ht0) in Hin).
  destruct (aset_total (timer_list (timers k)) p t0 (Timer j fn (next_timer (timers k))) Ht0) as [l1 E1].
  assert (Hin : forall i, i ∈ idx -> aget l1 i = aget (timer_list (timers k)) i).
  { intros i Hi. eapply aget_aset_ne; [|exact E1]. by intros ->. }
  pose proof (aget_aset_eq _ _ _ _ E1) as Hp1.
  set (k1 := set_timers (Tst l1 (Some p) (timer_active (timers k)) (timer_table (timers k))) k).
  destruct (timer_sink_loop idx k1 p j fn (S (length (timer_list (timers k)))))
    as (l' & E & Hc' & Hcont & Hfr & Hlen'); cbn [timers set_timers timer_list k1].
  - by constructor.
  - econstructor; [exact Hp1|]. by eapply tchain_frame.
  - unfold tentry. by rewrite Hp1.
  - lia.
  - rewrite (tentry_frame (timer_list (timers k)) l1 idx Hin).
    eapply Forall_impl; [exact Hpos|]. cbn. intros ??. lia.
  - lia.
  - exists (Tst l' (Some p) (timer_active (timers k)) (timer_table (timers k))), p.
    assert (Hcont' : pending (set_timers (Tst l' (Some p) (timer_active (timers k)) (timer_table (timers k))) k) (p :: idx)
                     = insert_delta j fn (pending k idx)).
    { unfold pending. cbn [timers set_timers timer_list]. rewrite Hcont. cbn.
      by rewrite (tentry_frame (timer_list (timers k)) l1 idx Hin). }
    split; [|split; [|done]].
    + unfold add_timer. rewrite (proj2 (Z.eqb_neq fn 0) Hfn).
      destruct (Z.leb_spec j 0); [lia|]. unfold gets, mbind, M_bind. rewrite Hp.
      rewrite (put_timer_eq p _ k l1) by done. unfold put_next_timer, modify. cbn. exact E.
    + constructor; try done.
      * cbn. rewrite Hlen'. cbn. by rewrite (aset_length _ _ _ _ E1).
      * by constructor.
      * cbn. intros i t Ht. destruct (decide (i ∈ p :: idx)) as [Hi|Hi].
        { split; [done|]. intros _. assert (He : tentry l' i ∈ tentry l' <$> (p :: idx)) by (apply list_elem_of_fmap_2; done).
          unfold tentry in He at 1. rewrite Ht in He.
          change (tentry l' <$> (p :: idx)) with
            (pending (set_timers (Tst l' (Some p) (timer_active (timers k)) (timer_table (timers k))) k) (p :: idx)) in He.
          rewrite Hcont' in He.
          apply (proj1 (Forall_forall _ _) (insert_delta_fns (pending k idx) j fn Hfn Hfns) _ He). }
        { rewrite Hfr in Ht by done. rewrite not_elem_of_cons in Hi. destruct Hi as [Hip Hi].
          cbn in Ht. rewrite (aget_aset_ne _ _ p i _ ltac:(done) E1) in Ht. rewrite (Hused i t Ht). set_solver. }
      * rewrite Hcont'. by apply insert_delta_bounds.
Qed.

(** setting a timer for [j] ticks when an entry is free: the timers due
    before it keep their times and it is due in exactly [j] ticks, but every
    timer due later is put off, by the distance from the timer before the new
    one (the loop does not take the new distance off its successor). *)
Theorem add_timer_due (k : kst) (idx : list Z) (j fn : Z)
    (Hwf : timers_wf k idx) (Hfree : (length idx < Z.to_nat TIME_REQUESTS)%nat)
    (Hfn : fn <> 0) (Hj : 0 < j < 2147483648) :
  exists k' p pre post, add_timer j fn k = Ok tt k' /\ timers_wf k' (p :: idx) /\
    due_times k idx = pre ++ post /\
    due_times k' (p :: idx) = pre ++ (j, fn) :: delay (j - last_due 0 pre) post /\
    Forall (fun e => e.1 < j) pre /\ Forall (fun e => j <= e.1) post.
Proof.
  destruct (add_timer_list k idx j fn Hwf Hfree Hfn Hj) as (l & p & E & Hwf' & Hp).
  destruct (insert_delta_expiry (pending k idx) 0 j fn) as (pre & post & E1 & E2 & F1 & F2).
  { eapply Forall_impl; [apply (twf_pos _ _ Hwf)|]. cbn. intros ??. lia. }
  exists (set_timers l k), p, pre, post. unfold due_times. by rewrite Hp.
Qed.

(** One tick on the abstract list: the functions called and what is left. *)
Definition tick (l : list (Z * Z)) : list Z * list (Z * Z) :=
  match l with
  | [] => ([], [])
  | (d, f) :: r => if d - 1 <=? 0 then ([f], r) else ([], (d - 1, f) :: r)
  end.

Lemma timers_wf_head k i idx t :
  timers_wf k (i :: idx) -> aget (timer_list (timers k)) i = Some t ->
  0 < tl_jiffies t < 2147483648 /\ tchain (timer_list (timers k)) (tl_next t) idx.
Proof.
  intros [_ Hch _ _ Hpos] Ht. inversion Hch as [|? t' ? Ht' Hch']; subst.
  rewrite Ht in Ht'. injection Ht' as <-. split; [|done].
  apply Forall_cons in Hpos as [Hp _]. unfold tentry in Hp. by rewrite Ht in Hp.
Qed.

(** The state after the head [i] of the list is rewritten to [t']. *)
Lemma timers_wf_aset k i idx t t' l' :
  timers_wf k (i :: idx) -> aget (timer_list (timers k)) i = Some t ->
  aset (timer_list (timers k)) i t' = Some l' -> tl_next t' = tl_next t ->
  tchain l' (tl_next t) idx /\ tentry l' <$> idx = pending k idx /\ i ∉ idx /\
  (forall j tj, aget l' j = Some tj -> j <> i -> tl_fn tj <> 0 <-> j ∈ idx).
Proof.
  intros Hwf Ht E Hn. pose proof (timers_wf_head _ _ _ _ Hwf Ht) as [_ Hch].
  destruct Hwf as [_ _ Hnd Hused _]. apply NoDup_cons in Hnd as [Hi Hnd].
  assert (Hin : forall j, j ∈ idx -> aget l' j = aget (timer_list (timers k)) j).
  { intros j Hj. eapply aget_aset_ne; [|exact E]. by intros ->. }
  split; [by eapply tchain_frame|]. split; [by apply tentry_frame|]. split; [done|].
  intros j tj Hj Hne. rewrite (aget_aset_ne _ _ i j _ ltac:(done) E) in Hj. rewrite (Hused j tj Hj). set_solver.
Qed.

(** With every distance positive there is nothing to expire. *)
Lemma expire_stop k idx : timers_wf k idx -> expire_step tt k = Ok (inr tt) k.
Proof.
  intros Hwf. unfold expire_step, gets, mbind, M_bind. pose proof (twf_chain _ _ Hwf) as Hch.
  inversion Hch as [|i t r Ht Hch' En]; subst; [done|]. rewrite (get_timer_eq i t) by done.
  destruct (timers_wf_head _ _ _ _ Hwf Ht) as [Hd _]. by destruct (Z.leb_spec (tl_jiffies t) 0); [lia|].
Qed.

(** A head that is down to zero is called and unlinked. *)
Lemma expire_fire k i t l' :
  next_timer (timers k) = Some i -> aget (timer_list (timers k)) i = Some t -> tl_jiffies t <= 0 ->
  aset (timer_list (timers k)) i (Timer (tl_jiffies t) 0 (tl_next t)) = Some l' ->
  expire_step tt k = Ok (inl tt) (add_event (ECall (tl_fn t))
    (set_timers (Tst l' (tl_next t) (timer_active (timers k)) (timer_table (timers k))) k)).
Proof.
  intros En Ht Hz E. unfold expire_step, gets, mbind, M_bind. rewrite En, (get_timer_eq i t) by done.
  destruct (Z.leb_spec (tl_jiffies t) 0); [|lia]. by rewrite (put_timer_eq i _ k l').
Qed.

Lemma pending_cons k i r t :
  aget (timer_list (timers k)) i = Some t ->
  pending k (i :: r) = (tl_jiffies t, tl_fn t) :: pending k r.
Proof. intros Ht. unfold pending. cbn. unfold tentry at 1. by rewrite Ht. Qed.

(** Unlinking the head keeps the list well formed. *)
Lemma timers_wf_drop k i r t j l2 :
  timers_wf k (i :: r) -> aget (timer_list (timers k)) i = Some t ->
  aset (timer_list (timers k)) i (Timer j 0 (tl_next t)) = Some l2 ->
  let k2 := add_event (ECall (tl_fn t))
    (set_timers (Tst l2 (tl_next t) (timer_active (timers k)) (timer_table (timers k))) k) in
  timers_wf k2 r /\ pending k2 r = pending k r.
Proof.
  intros Hwf Ht E k2. destruct (timers_wf_aset k i r t _ l2 Hwf Ht E eq_refl) as (Hc2 & Hp2 & Hir & Hu2).
  split; [|unfold pending; cbn; by rewrite Hp2]. constructor; [|done| | |].
  - cbn. rewrite (aset_length _ _ _ _ E). apply (twf_len _ _ Hwf).
  - pose proof (twf_nodup _ _ Hwf) as Hnd. by apply NoDup_cons in Hnd as [_ ?].
  - cbn. intros x tx Hx. destruct (decide (x = i)) as [->|]; [|by apply Hu2].
    rewrite (aget_aset_eq _ _ _ _ E) in Hx. by injection Hx as <-.
  - pose proof (twf_pos _ _ Hwf) as Hpos. rewrite (pending_cons k i r t Ht) in Hpos.
    unfold pending. cbn. rewrite Hp2. by apply Forall_cons in Hpos as [_ ?].
Qed.

(** So does changing the distance of the head. *)
Lemma timers_wf_dist k i r t j l1 :
  timers_wf k (i :: r) -> next_timer (timers k) = Some i -> aget (timer_list (timers k)) i = Some t ->
  aset (timer_list (timers k)) i (Timer j (tl_fn t) (tl_next t)) = Some l1 -> 0 < j < 2147483648 ->
  timers_wf (with_list l1 k) (i :: r) /\ pending (with_list l1 k) (i :: r) = (j, tl_fn t) :: pending k r.
Proof.
  intros Hwf En Ht E Hj. destruct (timers_wf_aset k i r t _ l1 Hwf Ht E eq_refl) as (Hc1 & Hp1 & Hir & Hu1).
  pose proof (aget_aset_eq _ _ _ _ E) as Ht1.
  assert (Ep : pending (with_list l1 k) (i :: r) = (j, tl_fn t) :: pending k r).
  { erewrite pending_cons by done. unfold pending. cbn. by rewrite Hp1. }
  split; [|done]. constructor.
  - cbn. rewrite (aset_length _ _ _ _ E). apply (twf_len _ _ Hwf).
  - cbn. rewrite En. by econstructor.
  - apply (twf_nodup _ _ Hwf).
  - cbn. intros x tx Hx. destruct (decide (x = i)) as [->|].
    + rewrite Ht1 in Hx. injection Hx as <-. cbn. apply (twf_used _ _ Hwf i t Ht).
    + rewrite (Hu1 x tx Hx) by done. set_solver.
  - rewrite Ep. pose proof (twf_pos _ _ Hwf) as Hpos. rewrite (pending_cons k i r t Ht) in Hpos.
    apply Forall_cons in Hpos as [_ ?]. by constructor.
Qed.

Lemma run_timers_tick k idx :
  timers_wf k idx ->
  exists k' idx', run_timers k = Ok tt k' /\ timers_wf k' idx' /\
    pending k' idx' = (tick (pending k idx)).2 /\
    trace k' = trace k ++ (ECall <$> (tick (pending k idx)).1).
Proof.
  intros Hwf. unfold run_timers, gets, mbind, M_bind. destruct (next_timer (timers k)) as [i|] eqn:En.
  2:{ exists k, idx. pose proof (twf_chain _ _ Hwf) as Hch. rewrite En in Hch. inversion Hch; subst.
      cbn. by rewrite app_nil_r. }
  pose proof (twf_chain _ _ Hwf) as Hch. rewrite En in Hch. inversion Hch as [|? t r Ht Hch']; subst.
  rewrite (get_timer_eq i t) by done.
  destruct (timers_wf_head _ _ _ _ Hwf Ht) as [Hd _]. rewrite s32_small by (unfold in_s32; lia).
  set (t1 := Timer (tl_jiffies t - 1) (tl_fn t) (tl_next t)).
  destruct (aset_total _ i t t1 Ht) as [l1 E1]. pose proof (aget_aset_eq _ _ _ _ E1) as Ht1.
  rewrite (put_timer_eq i _ k l1), (pending_cons k i r t) by done. cbn [tick iter]. unfold mbind at 1, M_bind at 1.
  destruct (Z.leb_spec (tl_jiffies t - 1) 0) as [Hz|Hz].
  - destruct (aset_total l1 i t1 (Timer (tl_jiffies t - 1) 0 (tl_next t)) Ht1) as [l2 E2].
    rewrite (expire_fire (with_list l1 k) i t1 l2) by done.
    assert (E2' : aset (timer_list (timers k)) i (Timer (tl_jiffies t - 1) 0 (tl_next t)) = Some l2).
    { apply aset_Some in E1 as [Hi ->]. apply aset_Some in E2 as [_ ->].
      rewrite aset_in_range by done. by rewrite list_insert_insert_eq. }
    destruct (timers_wf_drop k i r t _ l2 Hwf Ht E2') as [Hwf2 Hp2].
    eexists _, r. split; [|by split; [exact Hwf2|]].
    change (Z.to_nat TIME_REQUESTS) with 64%nat. cbn [iter]. unfold mbind at 1, M_bind at 1.
    match goal with |- context [expire_step tt ?k2] => rewrite (expire_stop k2 r) by exact Hwf2 end. reflexivity.
  - destruct (timers_wf_dist k i r t _ l1 Hwf En Ht E1) as [Hwf1 Ep]; [lia|].
    exists (with_list l1 k), (i :: r). rewrite (expire_stop _ (i :: r) Hwf1).
    split; [done|split; [done|split; [done|by rewrite app_nil_r]]].
Qed.

(** [n] ticks in a row. *)
Fixpoint ticks (n : nat) : M kst unit :=
  match n with O => mret tt | S n' => run_timers;; ticks n' end.

(** A tick calls the timers due in one tick and brings the others one nearer. *)
Lemma tick_expiry l : forall n,
  Forall (fun e => 0 < e.1) l -> 0 <= n ->
  ((tick l).1 ++ (filter (fun e => e.1 <= n) (expiry 0 (tick l).2)).*2) =
  (filter (fun e => e.1 <= n + 1) (expiry 0 l)).*2.
Proof.
  assert (Hsh : forall b n (l : list (Z * Z)),
    (filter (fun e => e.1 <= n) (expiry b l)).*2 = (filter (fun e => e.1 <= n + 1) (expiry (b + 1) l)).*2).
  { intros b n l0. revert b. induction l0 as [|[d f] l0 IH]; intros b; [done|]. cbn [expiry].
    replace (b + 1 + d) with (b + d + 1) by lia. rewrite !filter_cons. cbn.
    rewrite !(decide_ext (b + d <= n) (b + d + 1 <= n + 1)) by lia.
    destruct (decide (b + d + 1 <= n + 1)); cbn; by rewrite IH. }
  intros n Hp Hn. destruct l as [|[d f] l]; [done|]. apply Forall_cons in Hp as [Hd Hp]. cbn in Hd. cbn [tick].
  destruct (Z.leb_spec (d - 1) 0).
  - assert (d = 1) as -> by lia. cbn [fst snd expiry]. rewrite filter_cons, decide_True by (cbn; lia).
    rewrite Hsh. done.
  - cbn [fst snd app]. rewrite Hsh. cbn [expiry]. replace (0 + 1 + (d - 1)) with (0 + d) by lia. done.
Qed.

(** after [n] ticks, exactly the timers that were due within [n] ticks
    have been called, in the order of their times, and the list is well
    formed. *)
Theorem ticks_exact (n : nat) (k : kst) (idx : list Z) (Hwf : timers_wf k idx) :
  exists k' idx', ticks n k = Ok tt k' /\ timers_wf k' idx' /\
    trace k' = trace k ++ (ECall <$> (filter (fun e => e.1 <= Z.of_nat n) (due_times k idx)).*2).
Proof.
  revert k idx Hwf. induction n as [|n IH]; intros k idx Hwf.
  - exists k, idx. split; [done|]. split; [done|].
    assert (Hg : Forall (fun e => 0 < e.1) (due_times k idx)).
    { apply expiry_gt. eapply Forall_impl; [apply (twf_pos _ _ Hwf)|]. cbn. intros ??. lia. }
    induction Hg as [|e l He Hg IHg]; [by rewrite app_nil_r|].
    rewrite filter_cons, decide_False; [done|]. cbn. lia.
  - destruct (run_timers_tick k idx Hwf) as (k1 & idx1 & E1 & Hwf1 & Hp1 & Ht1).
    destruct (IH k1 idx1 Hwf1) as (k' & idx' & E & Hwf' & Ht').
    exists k', idx'. split; [|split; [done|]].
    + cbn [ticks]. unfold mbind, M_bind. by rewrite E1.
    + rewrite Ht', Ht1, <-app_assoc, <-fmap_app. do 2 f_equal. unfold due_times. rewrite Hp1.
      rewrite tick_expiry; [by rewrite Nat2Z.inj_succ|..|lia].
      eapply Forall_impl; [apply (twf_pos _ _ Hwf)|]. cbn. intros ??. lia.
Qed.

(** Two timers, due in 3 and 5 ticks, on the machine as it boots. *)
Definition two_timers : kst :=
  set_timers (Tst (Timer 3 7 (Some 1) :: Timer 2 9 None :: replicate 62 (Timer 0 0 None)) (Some 0) 0 []) (boot_state [INIT_TASK 1%positive] 0).

Lemma two_timers_wf : timers_wf two_timers [0; 1].
Proof.
  constructor.
  - reflexivity.
  - econstructor; [reflexivity|]. econstructor; [reflexivity|constructor].
  - repeat constructor; set_solver.
  - intros i t H. unfold aget in H. destruct (Z.ltb_spec i 0); [done|].
    remember (Z.to_nat i) as n eqn:En. destruct n as [|[|n]].
    + injection H as <-. replace i with 0 by lia. set_solver.
    + injection H as <-. replace i with 1 by lia. set_solver.
    + cbn -[replicate] in H. apply lookup_replicate in H as [-> _]. cbn. split; [done|].
      rewrite !elem_of_cons, elem_of_nil. lia.
  - repeat constructor; cbn; lia.
Qed.

Lemma add_timer_due_witness :
  exists k' p pre post, add_timer 4 8 two_timers = Ok tt k' /\ timers_wf k' (p :: [0; 1]) /\
    [(3, 7); (5, 9)] = pre ++ post /\
    due_times k' (p :: [0; 1]) = pre ++ (4, 8) :: delay (4 - last_due 0 pre) post /\
    Forall (fun e => e.1 < 4) pre /\ Forall (fun e => 4 <= e.1) post.
Proof.
  apply (add_timer_due two_timers [0; 1] 4 8 two_timers_wf); [change (2 < 64)%nat; lia|lia|lia].
Defined.

Lemma ticks_exact_witness :
  exists k' idx', ticks 4 two_timers = Ok tt k' /\ timers_wf k' idx' /\ trace k' = [ECall 7].
Proof. exact (ticks_exact 4 two_timers [0; 1] two_timers_wf). Defined.
