(* ===== verification/Exit.v ===== *)
(** * Signals between tasks, exit and wait: [kernel/exit.c]

    [send_sig] and the calls built on it ([kill_pg], [kill_proc], [sys_kill]);
    [release], which frees the structure of a dead task; [do_exit], which
    closes a task's files, tells its parent and hands its children to task 1;
    [sys_waitpid]; and [audit_ptree], the consistency check of the process tree.

    The loops over the process table in this file follow a table entry without
    testing it for null, as the code does; such an access faults here. *)

From S2P Require Import Prelude TaskStruct Sched.

Definition WNOHANG : Z := 1.
Definition WUNTRACED : Z := 2.

(** [task[i] = v] *)
Definition set_slot (i : Z) (v : option tptr) : M kst unit :=
  k ← getS; l ← ofOpt (aset (task k) i v); modify (set_task l).

(** ** [release] *)

(** [free_page((long) p)] for the page of a task structure. *)
Definition free_task (q : tptr) : M kst unit :=
  modify (fun k => add_event (EFreePage q) (set_heap (delete q (heap k)) k)).

(** Taking a task out of the sibling list of its parent. *)
Definition unlink_task (q : tptr) : M kst unit :=
  t ← deref (Some q);
  (match p_osptr t with Some _ => upd (p_osptr t) (set_p_ysptr (p_ysptr t)) | None => mret tt end);;
  t ← deref (Some q);
  match p_ysptr t with
  | Some _ => upd (p_ysptr t) (set_p_osptr (p_osptr t))
  | None => upd (p_pptr t) (set_p_cptr (p_osptr t))
  end.

Fixpoint release_scan (l : list Z) (q : tptr) : M kst unit :=
  match l with
  | [] => halts (Panic "trying to release non-existent task")
  | i :: l' =>
      s ← task_at i;
      if bool_decide (s = Some q) then set_slot i None;; unlink_task q;; free_task q
      else release_scan l' q
  end.

(** [void release(struct task_struct *p)] *)
Definition release (p : option tptr) : M kst unit :=
  match p with
  | None => mret tt
  | Some q =>
      c ← gets current;
      if bool_decide (q = c) then printk "task releasing itself"
      else release_scan (range 1 63) q
  end.

(** ** [audit_ptree] *)

(** [int bad_task_ptr(struct task_struct *p)] *)
Definition bad_task_ptr (p : option tptr) : M kst bool :=
  k ← getS;
  mret (match p with
        | None => false
        | Some q => negb (bool_decide (Some q ∈ task k))
        end).

Definition warn_if (b : bool) (msg : string) : M kst unit := when b (printk msg).

Definition audit_slot (i : Z) : M kst unit :=
  s ← task_at i;
  match s with
  | None => mret tt
  | Some q =>
      t ← deref s;
      b ← bad_task_ptr (p_pptr t); warn_if b "parent link is bad";;
      b ← bad_task_ptr (p_cptr t); warn_if b "child link is bad";;
      b ← bad_task_ptr (p_ysptr t); warn_if b "ys link is bad";;
      b ← bad_task_ptr (p_osptr t); warn_if b "os link is bad";;
      warn_if (bool_decide (p_pptr t = Some q)) "parent link points to self";;
      warn_if (bool_decide (p_cptr t = Some q)) "child link points to self";;
      warn_if (bool_decide (p_ysptr t = Some q)) "ys link points to self";;
      warn_if (bool_decide (p_osptr t = Some q)) "os link points to self";;
      (match p_osptr t with
       | None => mret tt
       | Some _ =>
           o ← deref (p_osptr t);
           (if bool_decide (p_pptr t = p_pptr o) then mret tt
            else _ ← deref (p_pptr o); printk "older sibling parent");;
           warn_if (negb (bool_decide (p_ysptr o = Some q))) "older sibling has mismatched ys link"
       end);;
      (match p_ysptr t with
       | None => mret tt
       | Some _ =>
           y ← deref (p_ysptr t);
           (if bool_decide (p_pptr t = p_pptr y) then mret tt
            else o ← deref (p_osptr t); _ ← deref (p_pptr o); printk "younger sibling parent");;
           warn_if (negb (bool_decide (p_osptr y = Some q))) "younger sibling has mismatched os link"
       end);;
      match p_cptr t with
      | None => mret tt
      | Some _ =>
          c ← deref (p_cptr t);
          warn_if (negb (bool_decide (p_pptr c = Some q))) "youngest child has mismatched parent link";;
          warn_if (negb (bool_decide (p_ysptr c = None))) "youngest child has non-NULL ys link"
      end
  end.

(** [void audit_ptree()] *)
Definition audit_ptree : M kst unit := for_each (range 1 63) audit_slot.

(** ** Signals *)

(** The signals that stop a task. *)
Definition stop_signals : Z :=
  Z.lor (Z.lor (word_bit (SIGSTOP - 1)) (word_bit (SIGTSTP - 1)))
        (Z.lor (word_bit (SIGTTIN - 1)) (word_bit (SIGTTOU - 1))).

(** The changes [send_sig] makes to the receiver before it looks at tracing. *)
Definition deliver (sig : Z) (t : task_struct) : task_struct :=
  let t := if (sig =? SIGKILL) || (sig =? SIGCONT)
           then set_signal (Z.ldiff (signal t) stop_signals)
                  (set_exit_code 0 (if state t =? TASK_STOPPED then set_state TASK_RUNNING t else t))
           else t in
  let t := if (SIGSTOP <=? sig) && (sig <=? SIGTTOU)
           then set_signal (Z.ldiff (signal t) (word_bit (SIGCONT - 1))) t else t in
  set_signal (Z.lor (signal t) (word_bit (sig - 1))) t.

(** A traced task reports to its parent instead. *)
Definition trace_stop (sig : Z) (p : option tptr) : M kst unit :=
  upd p (set_exit_code sig);;
  t ← deref p;
  (match p_pptr t with
   | None => mret tt
   | Some _ =>
       tp ← deref (p_pptr t);
       when (state tp =? TASK_INTERRUPTIBLE) (upd (p_pptr t) (set_state TASK_RUNNING))
   end);;
  t ← deref p;
  when ((state t =? TASK_INTERRUPTIBLE) || (state t =? TASK_RUNNING)) (upd p (set_state TASK_STOPPED)).

(** [static inline int send_sig(long sig, struct task_struct *p, int priv)] *)
Definition send_sig (sig : Z) (p : option tptr) (priv : bool) : M kst Z :=
  if bool_decide (p = None) || (sig <? 0) || (32 <? sig) then mret (- EINVAL)
  else
    tp ← deref p; ce ← cur euid; su ← suser;
    if negb priv && negb (ce =? euid tp) && negb su then mret (- EPERM)
    else if sig =? 0 then mret 0
    else
      upd p (deliver sig);;
      t ← deref p;
      when (truth (Z.land (tflags t) PF_PTRACED)) (trace_stop sig p);;
      mret 0.

(** [int session_of_pgrp(int pgrp)] *)
Fixpoint session_scan (l : list Z) (pg : Z) : M kst Z :=
  match l with
  | [] => mret (-1)
  | i :: l' =>
      p ← task_at i; t ← deref p;
      if pgrp t =? pg then mret (session t) else session_scan l' pg
  end.
Definition session_of_pgrp (pg : Z) : M kst Z := session_scan slots_down pg.

(** [int kill_pg(int pgrp, int sig, int priv)]: the loop carries [found] and
    [retval]. *)
Fixpoint kill_pg_scan (l : list Z) (pg sig : Z) (priv : bool) (found retval : Z) : M kst Z :=
  match l with
  | [] => mret (if truth found then 0 else retval)
  | i :: l' =>
      p ← task_at i; t ← deref p;
      if pgrp t =? pg then
        err ← (if truth sig then send_sig sig p priv else mret 0);
        if truth err then kill_pg_scan l' pg sig priv found err
        else kill_pg_scan l' pg sig priv (found + 1) retval
      else kill_pg_scan l' pg sig priv found retval
  end.

Definition kill_pg (pg sig : Z) (priv : bool) : M kst Z :=
  if (sig <? 1) || (32 <? sig) || (pg <=? 0) then mret (- EINVAL)
  else kill_pg_scan slots_down pg sig priv 0 (- ESRCH).

(** [int kill_proc(int pid, int sig, int priv)] *)
Fixpoint kill_proc_scan (l : list Z) (pd sig : Z) (priv : bool) : M kst Z :=
  match l with
  | [] => mret (- ESRCH)
  | i :: l' =>
      p ← task_at i; t ← deref p;
      if pid t =? pd then (if truth sig then send_sig sig p priv else mret 0)
      else kill_proc_scan l' pd sig priv
  end.

Definition kill_proc (pd sig : Z) (priv : bool) : M kst Z :=
  if (sig <? 0) || (32 <? sig) then mret (- EINVAL) else kill_proc_scan slots_down pd sig priv.

(** [int sys_kill(int pid, int sig)]; the loop for [pid == -1] carries [retval]
    and [count]. *)
Fixpoint kill_all_scan (l : list Z) (sig retval count : Z) : M kst Z :=
  match l with
  | [] => mret (if truth count then retval else - ESRCH)
  | i :: l' =>
      p ← task_at i; t ← deref p; c ← gets current;
      if (1 <? pid t) && negb (bool_decide (p = Some c)) then
        err ← send_sig sig p false;
        kill_all_scan l' sig (if negb (err =? - EPERM) then err else retval) (count + 1)
      else kill_all_scan l' sig retval count
  end.

Definition sys_kill (pd sig : Z) : M kst Z :=
  if negb (truth pd) then pg ← cur pgrp; kill_pg pg sig false
  else if pd =? -1 then kill_all_scan slots_down sig 0 0
  else if pd <? 0 then kill_pg (- pd) sig false
  else kill_proc pd sig false.

(** [int is_orphaned_pgrp(int pgrp)] *)
Fixpoint orphaned_scan (l : list Z) (pg : Z) : M kst bool :=
  match l with
  | [] => mret true
  | i :: l' =>
      p ← task_at i;
      match p with
      | None => orphaned_scan l' pg
      | Some _ =>
          t ← deref p;
          if negb (pgrp t =? pg) || (state t =? TASK_ZOMBIE) then orphaned_scan l' pg
          else
            tp ← deref (p_pptr t);
            if pid tp =? 1 then orphaned_scan l' pg
            else if negb (pgrp tp =? pg) && (session tp =? session t) then mret false
            else orphaned_scan l' pg
      end
  end.
Definition is_orphaned_pgrp (pg : Z) : M kst bool := orphaned_scan slots_down pg.

(** [static int has_stopped_jobs(int pgrp)] *)
Fixpoint stopped_scan (l : list Z) (pg : Z) : M kst bool :=
  match l with
  | [] => mret false
  | i :: l' =>
      p ← task_at i; t ← deref p;
      if negb (pgrp t =? pg) then stopped_scan l' pg
      else if state t =? TASK_STOPPED then mret true
      else stopped_scan l' pg
  end.
Definition has_stopped_jobs (pg : Z) : M kst bool := stopped_scan slots_down pg.

(** ** [do_exit] *)

(** The task side of [sys_close(fd)] for a descriptor in use. *)
Definition close_fd (fd : Z) : M kst unit :=
  l ← cur filp;
  f ← ofOpt (aget l fd);
  match f with
  | None => mret tt
  | Some _ =>
      modify (add_event (EClose fd));;
      l' ← ofOpt (aset l fd None);
      upd_cur (fun t => set_filp l' (set_close_on_exec (Z.ldiff (close_on_exec t) (word_bit fd)) t))
  end.

Definition drop_inode (get : task_struct -> option positive)
    (set : option positive -> task_struct -> task_struct) : M kst unit :=
  i ← cur get; modify (add_event (EIput i));; upd_cur (set None).

(** [free_page_tables(get_base(current->ldt[n]), get_limit(...))] *)
Definition free_segment (n : Z) : M kst unit :=
  l ← cur ldt; d ← ofOpt (aget l n);
  modify (add_event (EFreePageTables (get_base d) (get_limit d))).

(** A newly orphaned process group with stopped jobs is hung up and continued. *)
Definition hangup_orphans (pg : Z) (related : bool) : M kst unit :=
  if related then
    o ← is_orphaned_pgrp pg;
    if o : bool then
      s ← has_stopped_jobs pg;
      if s : bool then _ ← kill_pg pg SIGHUP true; _ ← kill_pg pg SIGCONT true; mret tt
      else mret tt
    else mret tt
  else mret tt.

(** One turn of the loop that gives a child of the exiting task to task 1. *)
Definition reparent_step (_ : unit) : M kst (unit + unit) :=
  p ← cur p_cptr;
  match p with
  | None => mret (inr tt)
  | Some _ =>
      t ← deref p;
      upd_cur (set_p_cptr (p_osptr t));;
      upd p (fun t => set_tflags (Z.ldiff (tflags t) PF_PTRACED) (set_p_ysptr None t));;
      init ← task_at 1;
      upd p (set_p_pptr init);;
      ti ← deref init;
      upd p (set_p_osptr (p_cptr ti));;
      upd (p_cptr ti) (set_p_ysptr p);;
      upd init (set_p_cptr p);;
      t ← deref p;
      when (state t =? TASK_ZOMBIE) (upd init (fun ti => set_signal (Z.lor (signal ti) (word_bit (SIGCHLD - 1))) ti));;
      cpg ← cur pgrp; cs ← cur session;
      hangup_orphans (pgrp t) (negb (pgrp t =? cpg) && (session t =? cs));;
      mret (inl tt)
  end.

(** [TTY_TABLE(nr)] *)
Definition TTY_TABLE (k : kst) (nr : Z) : Z :=
  if truth nr then (if nr <? 64 then nr - 1 else nr) else fg_console (sysd k).

Definition set_tty_group (v : list (Z * Z)) (d : sysdata) : sysdata :=
  SysData (nodename d) (tz_minuteswest d) (tz_dsttime d) (firsttime d) (last_pid d)
    (last_task_used_math d) (fg_console d) v.
Definition set_last_math (v : option tptr) (d : sysdata) : sysdata :=
  SysData (nodename d) (tz_minuteswest d) (tz_dsttime d) (firsttime d) (last_pid d) v (fg_console d) (tty_group d).

(** What a session leader does to its terminal and its session. *)
Definition leader_exit : M kst unit :=
  n ← cur tty;
  (if 0 <=? n then
     k ← getS;
     '(pg, _) ← ofOpt (aget (tty_group (sysd k)) (TTY_TABLE k n));
     (if 0 <? pg then _ ← kill_pg pg SIGHUP true; mret tt else mret tt);;
     k ← getS;
     l ← ofOpt (aset (tty_group (sysd k)) (TTY_TABLE k n) (-1, 0));
     modify (fun k => set_sysd (set_tty_group l (sysd k)) k)
   else mret tt);;
  cs ← cur session;
  for_each slots_down (fun i =>
    p ← task_at i; t ← deref p; when (session t =? cs) (upd p (set_tty (-1)))).

(** [void do_exit(long code)]: it does not return. *)
Definition exit_release (code : Z) : M kst unit :=
  free_segment 1;; free_segment 2;;
  for_each (range 0 20) close_fd;;
  drop_inode pwd set_pwd;; drop_inode root set_root;;
  drop_inode executable set_executable;; drop_inode library set_library;;
  upd_cur (fun t => set_rss 0 (set_exit_code code (set_state TASK_ZOMBIE t))).

Definition exit_notify : M kst unit :=
  t ← cur id; tp ← deref (p_pptr t);
  hangup_orphans (pgrp t) (negb (pgrp tp =? pgrp t) && (session tp =? session t));;
  pp ← cur p_pptr; _ ← send_sig SIGCHLD pp true; mret tt.

Definition do_exit (rounds : nat) (code : Z) : M kst unit :=
  exit_release code;;
  exit_notify;;
  k ← getS;
  iter (S (size (heap k))) reparent_step tt;;
  ld ← cur leader;
  when (truth ld) leader_exit;;
  modify (fun k => if bool_decide (last_task_used_math (sysd k) = Some (current k))
                   then set_sysd (set_last_math None (sysd k)) k else k);;
  audit_ptree;;
  schedule rounds;;
  halts (Exit code).

(** [void sys_exit(int error_code)] *)
Definition sys_exit (rounds : nat) (error_code : Z) : M kst unit :=
  do_exit rounds (Z.shiftl (Z.land error_code 0xff) 8).

(** ** [sys_waitpid] *)

(** Whether a child is one of those waited for. *)
Definition wait_match (pd cpg : Z) (t : task_struct) : bool :=
  if 0 <? pd then pid t =? pd
  else if pd =? 0 then pgrp t =? cpg
  else if pd =? -1 then true
  else pgrp t =? - pd.

Definition put_status (addr v : Z) : M kst unit :=
  when (truth addr) (modify (add_event (EPut addr v))).

(** What the scan over the children comes to. *)
Inductive wait_result := Reaped (pid : Z) | Nothing (flag : bool).

(** The accounting of a dead child, [release] and the return value. *)
Definition reap (p : option tptr) (stat_addr : Z) : M kst Z :=
  t ← deref p;
  upd_cur (fun c => set_cutime (s32 (cutime c + s32 (utime t + cutime t))) c);;
  upd_cur (fun c => set_cstime (s32 (cstime c + s32 (stime t + cstime t))) c);;
  upd_cur (fun c => set_cmin_flt (u32 (cmin_flt c + u32 (min_flt t + cmin_flt t))) c);;
  upd_cur (fun c => set_cmaj_flt (u32 (cmaj_flt c + u32 (maj_flt t + cmaj_flt t))) c);;
  put_status stat_addr (exit_code t);;
  release p;;
  audit_ptree;;
  mret (pid t).

(** [for (p = current->p_cptr; p; p = p->p_osptr)]; the loop carries [p] and
    [flag]. *)
Definition wait_step (pd stat_addr options : Z) (x : option tptr * bool) :
    M kst (option tptr * bool + wait_result) :=
  let '(p, flag) := x in
  match p with
  | None => mret (inr (Nothing flag))
  | Some _ =>
      t ← deref p; cpg ← cur pgrp;
      if negb (wait_match pd cpg t) then mret (inl (p_osptr t, flag))
      else if state t =? TASK_STOPPED then
        if negb (truth (Z.land options WUNTRACED)) || negb (truth (exit_code t))
        then mret (inl (p_osptr t, flag))
        else
          put_status stat_addr (Z.lor (s32 (Z.shiftl (exit_code t) 8)) 0x7f);;
          upd p (set_exit_code 0);;
          mret (inr (Reaped (pid t)))
      else if state t =? TASK_ZOMBIE then r ← reap p stat_addr; mret (inr (Reaped r))
      else mret (inl (p_osptr t, true))
  end.

(** One pass from the label [repeat]; the sleep runs [others] until the caller
    is scheduled again. *)
Definition wait_round (rounds : nat) (others : M kst unit) (pd stat_addr options : Z) (_ : unit) :
    M kst (unit + Z) :=
  k ← getS; c ← cur p_cptr;
  r ← iter (S (size (heap k))) (wait_step pd stat_addr options) (c, false);
  match r with
  | Reaped p => mret (inr p)
  | Nothing false => mret (inr (- ECHILD))
  | Nothing true =>
      if truth (Z.land options WNOHANG) then mret (inr 0)
      else
        upd_cur (set_state TASK_INTERRUPTIBLE);;
        oldblocked ← cur blocked;
        upd_cur (fun t => set_blocked (Z.ldiff (blocked t) (word_bit (SIGCHLD - 1))) t);;
        schedule rounds;; others;;
        upd_cur (set_blocked oldblocked);;
        t ← cur id;
        if truth (Z.ldiff (signal t) (Z.lor (blocked t) (word_bit (SIGCHLD - 1))))
        then mret (inr (- ERESTARTSYS)) else mret (inl tt)
  end.

(** [int sys_waitpid(pid_t pid, unsigned long *stat_addr, int options)]; the
    call sleeps at most [naps] times. *)
Definition sys_waitpid (naps rounds : nat) (others : M kst unit) (pd stat_addr options : Z) : M kst Z :=
  when (truth stat_addr) (modify (add_event (EVerify stat_addr 4)));;
  iter (S naps) (wait_round rounds others pd stat_addr options) tt.

(** ** Signals: exclusion of stop and continue *)

Definition pending_sig (t : task_struct) (sig : Z) : bool := Z.testbit (signal t) (sig - 1).

(** A continue signal is never pending together with a stop signal. *)
Definition exclusive (t : task_struct) : Prop :=
  pending_sig t SIGCONT = true -> forall sig, SIGSTOP <= sig <= SIGTTOU -> pending_sig t sig = false.

Lemma signal_set_signal v t : signal (set_signal v t) = v.
Proof. by destruct t. Qed.

Lemma pending_set_signal v t s : pending_sig (set_signal v t) s = Z.testbit v (s - 1).
Proof. unfold pending_sig. by rewrite signal_set_signal. Qed.

(** Which bits [stop_signals] has. *)
Lemma stop_signals_bits s : 1 <= s -> Z.testbit stop_signals (s - 1) = (SIGSTOP <=? s) && (s <=? SIGTTOU).
Proof.
  intros Hs. unfold stop_signals. rewrite !Z.lor_spec, !testbit_word_bit by (vm_compute; discriminate).
  unfold SIGSTOP, SIGTSTP, SIGTTIN, SIGTTOU.
  destruct (Z.leb_spec 19 s), (Z.leb_spec s 22); cbn [andb].
  - destruct (Z.eqb_spec (s - 1) (19 - 1)), (Z.eqb_spec (s - 1) (20 - 1)), (Z.eqb_spec (s - 1) (21 - 1)),
      (Z.eqb_spec (s - 1) (22 - 1)); try done; lia.
  - destruct (Z.eqb_spec (s - 1) (19 - 1)), (Z.eqb_spec (s - 1) (20 - 1)), (Z.eqb_spec (s - 1) (21 - 1)),
      (Z.eqb_spec (s - 1) (22 - 1)); try done; lia.
  - destruct (Z.eqb_spec (s - 1) (19 - 1)), (Z.eqb_spec (s - 1) (20 - 1)), (Z.eqb_spec (s - 1) (21 - 1)),
      (Z.eqb_spec (s - 1) (22 - 1)); try done; lia.
  - lia.
Qed.

(** The signals pending after [deliver]. *)
Lemma deliver_pending sig t s : 1 <= sig -> 1 <= s ->
  pending_sig (deliver sig t) s =
    (s =? sig)
    || (pending_sig t s
        && negb (((sig =? SIGKILL) || (sig =? SIGCONT)) && ((SIGSTOP <=? s) && (s <=? SIGTTOU)))
        && negb (((SIGSTOP <=? sig) && (sig <=? SIGTTOU)) && (s =? SIGCONT))).
Proof.
  intros Hsig Hs. unfold deliver. cbv zeta. rewrite pending_set_signal, Z.lor_spec, testbit_word_bit by lia.
  assert (Heq : forall x, (s - 1 =? x - 1) = (s =? x)).
  { intros x. destruct (Z.eqb_spec (s - 1) (x - 1)), (Z.eqb_spec s x); lia. }
  rewrite Heq, orb_comm. f_equal.
  assert (Hst : forall st : bool, signal (if st then set_state TASK_RUNNING t else t) = signal t)
    by (intros []; by destruct t).
  destruct ((sig =? SIGKILL) || (sig =? SIGCONT)), ((SIGSTOP <=? sig) && (sig <=? SIGTTOU));
    cbn [andb negb]; rewrite ?signal_set_signal, ?Z.ldiff_spec, ?stop_signals_bits, ?testbit_word_bit by (done || lia);
    unfold pending_sig; rewrite ?Heq, ?andb_true_r; done.
Qed.

Lemma deliver_exclusive sig t : 1 <= sig -> exclusive t -> exclusive (deliver sig t).
Proof.
  unfold exclusive. intros Hs Ht Hc s Hr. unfold SIGSTOP, SIGTTOU, SIGCONT in *.
  rewrite deliver_pending in Hc by lia. rewrite deliver_pending by lia.
  unfold SIGKILL, SIGSTOP, SIGTTOU, SIGCONT in *.
  destruct (Z.leb_spec 19 s), (Z.leb_spec s 22); try lia. cbn [andb] in *. rewrite andb_true_r.
  change (18 =? 18) with true in Hc. change (19 <=? 18) with false in Hc. cbn [andb] in Hc.
  rewrite andb_false_r in Hc. cbn [negb] in Hc. rewrite !andb_true_r in Hc.
  destruct (Z.eqb_spec sig 18) as [->|].
  - rewrite orb_true_r, andb_false_r. cbn. destruct (Z.eqb_spec s 18); [lia|done].
  - destruct (Z.eqb_spec 18 sig); [lia|]. cbn [orb] in Hc.
    apply andb_true_iff in Hc as [Hp Hc]. rewrite (Ht Hp s Hr). cbn.
    destruct (Z.eqb_spec s sig) as [<-|]; [|done].
    rewrite (proj2 (Z.leb_le 19 s)), (proj2 (Z.leb_le s 22)) in Hc by lia. done.
Qed.

Lemma exclusive_frame t t' : signal t' = signal t -> exclusive t -> exclusive t'.
Proof. unfold exclusive, pending_sig. by intros ->. Qed.

Lemma all_exclusive_upd p f :
  (forall t, signal (f t) = signal t) -> preserves (all_tasks exclusive) (upd p f).
Proof. intros Hf. apply all_tasks_upd. intros t. by apply exclusive_frame. Qed.

Lemma all_exclusive_send_sig sig p priv : preserves (all_tasks exclusive) (send_sig sig p priv).
Proof.
  unfold send_sig, trace_stop. destruct (Z.ltb_spec sig 0); [rewrite orb_true_r; cbn [orb]; pres|].
  destruct (Z.eqb_spec sig 0); pres; try (apply all_exclusive_upd; by intros []).
  apply all_tasks_upd. intros u. apply deliver_exclusive. lia.
Qed.

#[local] Hint Resolve all_exclusive_send_sig : pres.

Lemma all_exclusive_kill_pg pg sig priv : preserves (all_tasks exclusive) (kill_pg pg sig priv).
Proof.
  unfold kill_pg. destruct (_ || _); [pres|]. generalize 0 at 1. generalize (- ESRCH).
  induction slots_down as [|i l IH]; intros r f; cbn [kill_pg_scan]; pres.
Qed.

Lemma all_exclusive_kill_proc pd sig priv : preserves (all_tasks exclusive) (kill_proc pd sig priv).
Proof.
  unfold kill_proc. destruct (_ || _); [pres|].
  induction slots_down as [|i l IH]; cbn [kill_proc_scan]; pres.
Qed.

#[local] Hint Resolve all_exclusive_kill_pg all_exclusive_kill_proc : pres.

(** C38: [sys_kill] keeps the exclusion of stop and continue: no task ever has
    a pending SIGCONT together with a pending SIGSTOP, SIGTSTP, SIGTTIN or
    SIGTTOU. *)
Theorem sys_kill_exclusive (pd sig r : Z) (k k' : kst)
    (Hex : all_tasks exclusive k) (Hrun : sys_kill pd sig k = Ok r k') :
  all_tasks exclusive k'.
Proof.
  revert k r k' Hex Hrun. change (preserves (all_tasks exclusive) (sys_kill pd sig)).
  unfold sys_kill. destruct (truth pd); cbn [negb]; [|pres]. destruct (pd =? -1); [|pres].
  generalize 0 at 2. generalize 0 at 1.
  induction slots_down as [|i l IH]; intros r c; cbn [kill_all_scan]; pres.
Qed.

(** ** Signals: protection between users *)

(** What a sender with effective user [e] must not change: everybody's user,
    and the pending signals and exit code of other users' tasks. *)
Definition protected (e : Z) (t : task_struct) : Z * option (Z * Z) :=
  (euid t, if euid t =? e then None else Some (signal t, exit_code t)).

Definition untouched (e : Z) (k0 k : kst) : Prop :=
  current k = current k0 /\ euid <$> heap k !! current k = Some e /\
  forall q, protected e <$> heap k !! q = protected e <$> heap k0 !! q.

Section Protection.
Context (e : Z) (k0 : kst) (He : e <> 0).

Lemma untouched_upd p f :
  (forall k q t, p = Some q -> untouched e k0 k -> heap k !! q = Some t -> protected e (f t) = protected e t) ->
  preserves (untouched e k0) (upd p f).
Proof.
  intros Hf k a k' HI (q & t & -> & Ht & ->)%upd_Ok. pose proof (Hf k q t eq_refl HI Ht) as Hp.
  destruct HI as (Hc & Hce & Hq). split; [done|]. cbn [heap set_heap current]. split.
  - destruct (decide (current k = q)) as [E|]; [|by rewrite lookup_insert_ne].
    rewrite E, lookup_insert_eq. rewrite E, Ht in Hce. injection Hce as <-.
    cbn. f_equal. by injection Hp.
  - intros q'. rewrite <-Hq. destruct (decide (q = q')) as [<-|]; [|by rewrite lookup_insert_ne].
    rewrite lookup_insert_eq, Ht. cbn. by rewrite Hp.
Qed.

Lemma untouched_upd_frame p f :
  (forall t, protected e (f t) = protected e t) -> preserves (untouched e k0) (upd p f).
Proof. intros Hf. by apply untouched_upd. Qed.

(** Tasks of the sender's own user may change, as long as they keep the user. *)
Lemma protected_own f t : euid t = e -> euid (f t) = euid t -> protected e (f t) = protected e t.
Proof. unfold protected. intros -> ->. by rewrite Z.eqb_refl. Qed.

Lemma euid_deliver sig t : euid (deliver sig t) = euid t.
Proof. unfold deliver. destruct (_ || _), (_ && _); destruct t; cbn; try done; by destruct (_ =? _). Qed.

Lemma tflags_deliver sig t : tflags (deliver sig t) = tflags t.
Proof. unfold deliver. destruct (_ || _), (_ && _); destruct t; cbn; try done; by destruct (_ =? _). Qed.

(** The receiver keeps its user throughout [trace_stop]. *)
Definition own (q : tptr) (k : kst) : Prop := untouched e k0 k /\ euid <$> heap k !! q = Some e.

Lemma own_upd q p f :
  (forall t, euid (f t) = euid t) ->
  (p = Some q \/ forall t, protected e (f t) = protected e t) -> preserves (own q) (upd p f).
Proof.
  intros Hf Hp k a k' [HI Hq] Hr. split.
  - revert Hr. apply (untouched_upd p f); [|done]. intros k1 q1 t1 -> HI1 Ht1. destruct Hp as [[= ->]|Hp]; [|done].
    apply protected_own; [|done]. destruct HI1 as (_ & _ & H1), HI as (_ & _ & H2).
    specialize (H1 q). rewrite <-(H2 q), Ht1 in H1.
    destruct (heap k !! q) as [t|]; [|done]. cbn in H1, Hq. injection H1 as H1 _. congruence.
  - apply upd_Ok in Hr as (q1 & t & -> & Ht & ->). cbn.
    destruct (decide (q = q1)) as [->|]; [|by rewrite lookup_insert_ne].
    rewrite lookup_insert_eq, Ht in *. cbn in *. by rewrite Hf.
Qed.

Lemma untouched_send_sig sig p : preserves (untouched e k0) (send_sig sig p false).
Proof.
  unfold send_sig. destruct (_ || _ || _) eqn:Eb; [pres|].
  destruct p as [q|]; [|done].
  intros k r k' HI Hr. inv_ok. apply deref_Ok in Hr0 as (? & [= <-] & Ht & ->).
  pose proof HI as (Hc & Hce & _).
  destruct (heap k !! current k) as [tc|] eqn:Etc; [|done]. cbn in Hce. injection Hce as Hce.
  rewrite (cur_eq euid tc) in Hr1 by done. injection Hr1 as <- <-.
  rewrite (suser_eq tc) in Hr2 by done. injection Hr2 as <- <-.
  rewrite Hce in Hr. rewrite (proj2 (Z.eqb_neq e 0) He) in Hr. cbn [negb andb] in Hr. rewrite andb_true_r in Hr.
  destruct (Z.eqb_spec e (euid a)) as [Ea|]; cbn [negb] in Hr; [|by inv_ok].
  destruct (sig =? 0); [by inv_ok|].
  assert (Ho : own q k) by (split; [done|by rewrite Ht; cbn; rewrite <-Ea]).
  revert Hr. enough (Hp : preserves (own q) (upd (Some q) (deliver sig);; t ← deref (Some q);
     when (truth (Z.land (tflags t) PF_PTRACED)) (trace_stop sig (Some q));; mret 0)).
  { intros Hr. by apply (Hp k r k' Ho Hr). }
  unfold trace_stop. pres; apply own_upd; try (by intros []); try (by left); try (right; by intros []).
  apply euid_deliver.
Qed.

End Protection.

(** a sender who is not root leaves other users alone: whatever [sys_kill]
    is called with, the pending signals and the exit code of every task with
    a different effective user are unchanged. *)
Theorem sys_kill_protects (pd sig r : Z) (k k' : kst) (tc t : task_struct) (q : tptr)
    (Hcur : heap k !! current k = Some tc) (Huser : euid tc <> 0)
    (Hq : heap k !! q = Some t) (Hother : euid t <> euid tc) (Hrun : sys_kill pd sig k = Ok r k') :
  exists t', heap k' !! q = Some t' /\ euid t' = euid t /\ signal t' = signal t /\ exit_code t' = exit_code t.
Proof.
  set (e := euid tc) in *.
  assert (Hp : preserves (untouched e k) (sys_kill pd sig)).
  { assert (Hpg : forall l pg f r, preserves (untouched e k) (kill_pg_scan l pg sig false f r)).
    { intros l pg. induction l as [|i l IH]; intros f r0; cbn [kill_pg_scan]; pres. by apply untouched_send_sig. }
    assert (Hpr : forall l, preserves (untouched e k) (kill_proc_scan l pd sig false)).
    { intros l. induction l as [|i l IH]; cbn [kill_proc_scan]; pres. by apply untouched_send_sig. }
    assert (Hall : forall l r c, preserves (untouched e k) (kill_all_scan l sig r c)).
    { intros l. induction l as [|i l IH]; intros r0 c; cbn [kill_all_scan]; pres. by apply untouched_send_sig. }
    unfold sys_kill, kill_pg, kill_proc. pres. }
  destruct (Hp k r k') as (_ & _ & Hk'); [|done|].
  { split; [done|]. split; [by rewrite Hcur|done]. }
  specialize (Hk' q). rewrite Hq in Hk'. destruct (heap k' !! q) as [t'|]; [|done]. exists t'. split; [done|].
  cbn in Hk'. unfold protected in Hk'. injection Hk' as He Ho. rewrite He in Ho.
  rewrite (proj2 (Z.eqb_neq _ _) Hother) in Ho. by injection Ho as -> ->.
Qed.

(** The state a computation ends in. *)
Definition final {A} (m : M kst A) (k : kst) : kst := match m k with Ok _ k' | Halt _ k' => k' end.

(** A task of user 5 runs; slot 63 holds another one of that user, which is
    stopped, and slot 1 one of user 7. *)
Definition demo_kill : kst :=
  let t := set_euid 5 (INIT_TASK 1) in
  Kst (<[1%positive := t]> (<[2%positive := set_state TASK_STOPPED (set_pid 9 t)]>
        {[3%positive := set_euid 7 (set_pid 4 t)]}))
      (Some 1%positive :: Some 3%positive :: replicate 61 None ++ [Some 2%positive])
      1 0 0 0 ∅ (Tst [] None 0 []) (SysData [] 0 0 0 0 None 0 []) [].

Lemma sys_kill_exclusive_witness :
  sys_kill 9 SIGCONT demo_kill = Ok 0 (final (sys_kill 9 SIGCONT) demo_kill) /\
  all_tasks exclusive (final (sys_kill 9 SIGCONT) demo_kill).
Proof.
  assert (Hr : sys_kill 9 SIGCONT demo_kill = Ok 0 (final (sys_kill 9 SIGCONT) demo_kill)) by (vm_compute; reflexivity).
  split; [exact Hr|]. apply (sys_kill_exclusive 9 SIGCONT 0 demo_kill); [|exact Hr].
  intros q t Ht. unfold demo_kill in Ht. cbn [heap] in Ht.
  assert (Hz : signal t = 0).
  { repeat (apply lookup_insert_Some in Ht as [[_ <-]|[_ Ht]]; [reflexivity|]).
    apply lookup_singleton_Some in Ht as [_ <-]. reflexivity. }
  unfold exclusive, pending_sig. by rewrite Hz.
Defined.

Lemma sys_kill_protects_witness :
  exists t', heap (final (sys_kill 9 SIGCONT) demo_kill) !! 3%positive = Some t' /\ euid t' = 7 /\
    signal t' = 0 /\ exit_code t' = 0.
Proof.
  refine (sys_kill_protects 9 SIGCONT 0 demo_kill _ (set_euid 5 (INIT_TASK 1))
            (set_euid 7 (set_pid 4 (set_euid 5 (INIT_TASK 1)))) 3 _ _ _ _ _); vm_compute; (reflexivity || discriminate).
Defined.

(** ** Empty slots *)

Lemma preserves_upd_task T p f : preserves (fun k => task k = T) (upd p f).
Proof. by apply preserves_upd. Qed.

#[local] Hint Resolve preserves_upd_task : pres.

Lemma send_sig_task T sig p priv : preserves (fun k => task k = T) (send_sig sig p priv).
Proof. unfold send_sig, trace_stop. pres. Qed.

#[local] Hint Resolve send_sig_task : pres.

(** The scan of [kill_pg] returns only when every slot it visits is in use. *)
Lemma kill_pg_scan_full l pg sig priv : forall found retval k r k',
  kill_pg_scan l pg sig priv found retval k = Ok r k' ->
  forall i, i ∈ l -> exists p, aget (task k) i = Some (Some p).
Proof.
  induction l as [|j l IH]; intros found retval k r k' Hr i Hi; [by apply elem_of_nil in Hi|].
  cbn [kill_pg_scan] in Hr. inv_ok.
  apply task_at_Ok in Hr0 as [Ej ->]. apply deref_Ok in Hr1 as (q & -> & Ht & ->).
  assert (Hrest : exists f rv k1, kill_pg_scan l pg sig priv f rv k1 = Ok r k' /\ task k1 = task k).
  { destruct (pgrp a0 =? pg); [|eauto]. inv_ok.
    assert (task s = task k).
    { revert Hr0. destruct (truth sig); [|by intros [= _ <-]]. intros Hs. by apply (send_sig_task (task k)) in Hs. }
    destruct (truth a); eauto. }
  destruct Hrest as (f & rv & k1 & Hr1 & E1). apply elem_of_cons in Hi as [->|Hi]; [eauto|].
  rewrite <-E1. by eapply IH.
Qed.

(** with a single empty slot in the process table, [kill_pg] never comes
    back from its loop with a result: it follows the null entry. *)
Theorem kill_pg_empty_slot (pg sig : Z) (priv : bool) (k k' : kst) (r i : Z)
    (Hargs : 1 <= sig <= 32 /\ 0 < pg) (Hi : 1 <= i <= 63) (Hempty : aget (task k) i = Some None) :
  kill_pg pg sig priv k <> Ok r k'.
Proof.
  unfold kill_pg. destruct (Z.ltb_spec sig 1), (Z.ltb_spec 32 sig), (Z.leb_spec pg 0); try lia. cbn [orb].
  intros Hr. destruct (kill_pg_scan_full _ _ _ _ _ _ _ _ _ Hr i) as [p Hp]; [by apply slots_down_spec|].
  by rewrite Hempty in Hp.
Qed.

Lemma kill_pg_empty_slot_witness : kill_pg 3 SIGHUP true demo_kill <> Ok 0 demo_kill.
Proof.
  apply (kill_pg_empty_slot 3 SIGHUP true demo_kill demo_kill 0 5); [vm_compute; repeat split; discriminate|lia|reflexivity].
Defined.
