(* ===== verification/Fork.v ===== *)
(** * Creating a task: [kernel/fork.c]

    [verify_area] makes the pages of a user buffer writable, [find_empty_process]
    chooses a process id and a slot, [copy_mem] and [sys_fork] build the child.

    The page the child's structure goes to and the result of
    [copy_page_tables] come from the memory manager and are arguments here. *)

From S2P Require Import Prelude TaskStruct Sched Exit.

Definition PAGE_SIZE : Z := 4096.
Definition _LDT (n : Z) : Z := Z.shiftl n 4 + Z.shiftl 5 3.

(** ** [verify_area] *)

(** The loop: [size] bytes from the page at [start] on. *)
Definition verify_step (x : Z * Z) : M kst (Z * Z + unit) :=
  let '(start, size) := x in
  if 0 <? size then
    modify (add_event (EWriteVerify start));;
    mret (inl (u32 (start + 4096), s32 (size - 4096)))
  else mret (inr tt).

(** [void verify_area(void *addr, int size)] *)
Definition verify_area (addr size : Z) : M kst unit :=
  let size := s32 (size + Z.land addr 0xfff) in
  l ← cur ldt; d ← ofOpt (aget l 2);
  let start := u32 (Z.land addr 0xfffff000 + get_base d) in
  iter (Z.to_nat (size / 4096) + 2) verify_step (start, size).

(** ** [find_empty_process] *)

Definition set_last_pid (v : Z) (d : sysdata) : sysdata :=
  SysData (nodename d) (tz_minuteswest d) (tz_dsttime d) (firsttime d) v (last_task_used_math d) (fg_console d) (tty_group d).

(** Whether a task uses [n] as its process or group number. *)
Fixpoint pid_in_use (l : list Z) (n : Z) : M kst bool :=
  match l with
  | [] => mret false
  | i :: l' =>
      p ← task_at i;
      match p with
      | None => pid_in_use l' n
      | Some _ => t ← deref p; if (pid t =? n) || (pgrp t =? n) then mret true else pid_in_use l' n
      end
  end.

(** One turn from the label [repeat]. *)
Definition next_pid (_ : unit) : M kst (unit + unit) :=
  modify (fun k => let n := s32 (last_pid (sysd k) + 1) in
                   set_sysd (set_last_pid (if n <? 0 then 1 else n) (sysd k)) k);;
  n ← gets (fun k => last_pid (sysd k));
  b ← pid_in_use (range 0 64) n;
  if b : bool then mret (inl tt) else mret (inr tt).

Fixpoint empty_slot (l : list Z) : M kst Z :=
  match l with
  | [] => mret (- EAGAIN)
  | i :: l' => p ← task_at i; match p with None => mret i | Some _ => empty_slot l' end
  end.

(** [static int find_empty_process(void)]: each of the 64 tasks rules out at
    most two numbers. *)
Definition PID_TRIES : nat := 130.
Definition find_empty_process : M kst Z :=
  iter PID_TRIES next_pid tt;; empty_slot (range 1 63).

(** ** [sys_fork] *)

(** The registers a system call finds on its stack. *)
Record regs := Regs {
  r_ebx : Z; r_ecx : Z; r_edx : Z; r_esi : Z; r_edi : Z; r_ebp : Z; r_eax : Z;
  r_ds : Z; r_es : Z; r_fs : Z; r_gs : Z; r_orig_eax : Z;
  r_eip : Z; r_cs : Z; r_eflags : Z; r_esp : Z; r_ss : Z
}.

(** [static int copy_mem(int nr, struct task_struct *p)]; [cpt] is what
    [copy_page_tables] returns. *)
Definition copy_mem (cpt nr : Z) (p : tptr) : M kst Z :=
  l ← cur ldt; d1 ← ofOpt (aget l 1); d2 ← ofOpt (aget l 2);
  let code_limit := get_limit d1 in
  let data_limit := get_limit d2 in
  if negb (get_base d2 =? get_base d1) then halts (Panic "We don't support separate I&D")
  else if data_limit <? code_limit then halts (Panic "Bad data_limit")
  else
    let new_base := u32 (nr * TASK_SIZE) in
    upd (Some p) (set_start_code new_base);;
    lp ← (t ← deref (Some p); mret (ldt t));
    e1 ← ofOpt (aget lp 1); e2 ← ofOpt (aget lp 2);
    lp ← ofOpt (aset lp 1 (set_base e1 new_base));
    lp ← ofOpt (aset lp 2 (set_base e2 new_base));
    upd (Some p) (set_ldt lp);;
    modify (add_event (ECopyPageTables (get_base d2) new_base data_limit));;
    if truth cpt then
      modify (add_event (EFreePageTables new_base data_limit));; mret (- ENOMEM)
    else mret 0.

(** The child's structure: a copy of the parent's with these fields changed. *)
Definition child_task (r : regs) (nr newpid jif : Z) (p : tptr) (t : task_struct) : task_struct :=
  let x := tss t in
  set_tss (Tss 0 (u32 (PAGE_SIZE + Zpos p)) 0x10 (esp1 x) (ss1 x) (esp2 x) (ss2 x) (cr3 x)
             (r_eip r) (r_eflags r) 0 (r_ecx r) (r_edx r) (r_ebx r)
             (r_esp r) (r_ebp r) (r_esi r) (r_edi r)
             (Z.land (r_es r) 0xffff) (Z.land (r_cs r) 0xffff) (Z.land (r_ss r) 0xffff)
             (Z.land (r_ds r) 0xffff) (Z.land (r_fs r) 0xffff) (Z.land (r_gs r) 0xffff)
             (_LDT nr) 0x80000000)
  (set_start_time jif
  (set_cmaj_flt 0 (set_cmin_flt 0 (set_maj_flt 0 (set_min_flt 0
  (set_cstime 0 (set_cutime 0 (set_stime 0 (set_utime 0
  (set_leader 0 (set_alarm 0 (set_signal 0
  (set_counter (priority t) (set_pid newpid (set_state TASK_UNINTERRUPTIBLE t))))))))))))))).

(** One more reference to each open file and inode. *)
Definition hold_files (q : tptr) : M kst unit :=
  t ← deref (Some q);
  for_each (filp t) (fun f => match f with Some g => modify (add_event (EHoldFile g)) | None => mret tt end);;
  c ← cur id;
  for_each [pwd c; root c; executable c; library c]
    (fun i => match i with Some n => modify (add_event (EHoldInode n)) | None => mret tt end).

(** The new task becomes the youngest child of its parent. *)
Definition link_child (q : tptr) : M kst unit :=
  c ← gets current;
  upd (Some q) (fun t => set_p_ysptr None (set_p_cptr None (set_p_pptr (Some c) t)));;
  old ← cur p_cptr;
  upd (Some q) (set_p_osptr old);;
  (match old with Some _ => upd old (set_p_ysptr (Some q)) | None => mret tt end);;
  upd_cur (set_p_cptr (Some q)).

(** [int sys_fork(...)]; [page] is what [get_free_page] returns. *)
Definition sys_fork (page : option tptr) (cpt : Z) (r : regs) : M kst Z :=
  match page with
  | None => mret (- EAGAIN)
  | Some q =>
      nr ← find_empty_process;
      if nr <? 0 then modify (add_event (EFreePage q));; mret nr
      else
        set_slot nr (Some q);;
        t ← cur id;
        n ← gets (fun k => last_pid (sysd k)); j ← gets jiffies;
        modify (fun k => set_heap (<[q := child_task r nr n j q t]> (heap k)) k);;
        err ← copy_mem cpt nr q;
        if truth err then
          set_slot nr None;; free_task q;; mret (- EAGAIN)
        else
          hold_files q;;
          modify (add_event (EGdt nr q));;
          link_child q;;
          upd (Some q) (set_state TASK_RUNNING);;
          t' ← deref (Some q);
          mret (pid t')
  end.

(** ** The pages [verify_area] visits *)

Definition verify_events (start : Z) (n : nat) : list event :=
  (fun i => EWriteVerify (u32 (start + 4096 * i))) <$> range 0 n.

Definition add_events (ev : list event) (k : kst) : kst :=
  Kst (heap k) (task k) (current k) (jiffies k) (startup_time k) (jiffies_offset k) (wq k) (timers k) (sysd k)
    (trace k ++ ev).

Lemma add_events_nil k : add_events [] k = k.
Proof. destruct k. unfold add_events. cbn. by rewrite app_nil_r. Qed.

Lemma add_events_cons e ev k : add_events ev (add_event e k) = add_events (e :: ev) k.
Proof. unfold add_events, add_event. cbn. by rewrite <-app_assoc. Qed.

Lemma verify_events_cons start n :
  verify_events start (S n) = EWriteVerify (u32 start) :: verify_events (start + 4096) n.
Proof.
  unfold verify_events, range. cbn [seq fmap list_fmap]. f_equal; [do 2 f_equal; lia|].
  rewrite <-fmap_S_seq, <-!list_fmap_compose. apply list_fmap_ext. intros i x _. cbn. do 2 f_equal. lia.
Qed.

Lemma verify_events_u32 start n : verify_events (u32 start) n = verify_events start n.
Proof.
  unfold verify_events. apply list_fmap_ext. intros i x _. cbn. f_equal.
  unfold u32. by rewrite Zplus_mod_idemp_l.
Qed.

Lemma verify_loop n : forall fuel k start size,
  (n < fuel)%nat -> (Z.of_nat n - 1) * 4096 < size <= Z.of_nat n * 4096 -> -4096 < size < 2147483648 ->
  iter fuel verify_step (u32 start, size) k = Ok tt (add_events (verify_events start n) k).
Proof.
  induction n as [|n IH]; intros fuel k start size Hf Hs Hb; (destruct fuel as [|fuel]; [lia|]); cbn [iter].
  - assert (Hst : verify_step (u32 start, size) k = Ok (inr tt) k).
    { unfold verify_step. by destruct (Z.ltb_spec 0 size); [lia|]. }
    rewrite (run_bind _ _ _ _ _ Hst). cbn. by rewrite add_events_nil.
  - assert (Hst : verify_step (u32 start, size) k =
      Ok (inl (u32 (u32 start + 4096), s32 (size - 4096))) (add_event (EWriteVerify (u32 start)) k)).
    { unfold verify_step. by destruct (Z.ltb_spec 0 size); [|lia]. }
    rewrite (run_bind _ _ _ _ _ Hst).
    replace (u32 (u32 start + 4096)) with (u32 (start + 4096)) by (unfold u32; by rewrite Zplus_mod_idemp_l).
    rewrite s32_small by (unfold in_s32; lia).
    rewrite IH by lia. by rewrite verify_events_cons, add_events_cons.
Qed.

(** [verify_area] verifies exactly the pages the buffer touches: an event
    for every page that holds one of its bytes, in the data segment of the
    running task, and no other. *)
Theorem verify_area_pages (addr size : Z) (k : kst) (t : task_struct) (d : Z * Z)
    (Hcur : heap k !! current k = Some t) (Hd : aget (ldt t) 2 = Some d)
    (Haddr : in_u32 addr) (Hsize : 0 < size < 2147479552) :
  exists ev, verify_area addr size k = Ok tt (add_events ev k) /\
    forall x, x ∈ ev <-> exists b, addr <= b < addr + size /\ x = EWriteVerify (u32 (get_base d + 4096 * (b / 4096))).
Proof.
  pose proof (land_page_off addr) as Elow. pose proof (land_page_mask addr Haddr) as Ehigh.
  pose proof (Z.mod_pos_bound addr 4096 ltac:(lia)) as Hm.
  pose proof (Z.div_mod addr 4096 ltac:(lia)) as Hdm.
  set (tot := size + addr mod 4096). set (n := Z.to_nat ((tot + 4095) / 4096)).
  assert (Hn : (Z.of_nat n - 1) * 4096 < tot <= Z.of_nat n * 4096).
  { unfold n. pose proof (Z.div_mod (tot + 4095) 4096 ltac:(lia)). pose proof (Z.mod_pos_bound (tot + 4095) 4096 ltac:(lia)).
    rewrite Z2Nat.id by (apply Z.div_pos; lia). lia. }
  exists (verify_events (4096 * (addr / 4096) + get_base d) n). split.
  - unfold verify_area. rewrite Elow, Ehigh. rewrite s32_small by (unfold in_s32; lia).
    erewrite run_bind by (by apply (cur_eq ldt t)). unfold ofOpt at 1. rewrite Hd. unfold mbind at 1, M_bind at 1.
    apply verify_loop; [|done|lia]. fold tot.
    pose proof (Z.div_mod tot 4096 ltac:(lia)). pose proof (Z.mod_pos_bound tot 4096 ltac:(lia)).
    pose proof (Z.div_pos tot 4096 ltac:(lia) ltac:(lia)). lia.
  - intros x. unfold verify_events. rewrite list_elem_of_fmap. split.
    + intros (i & -> & Hi%elem_of_range). exists (Z.max addr (4096 * (addr / 4096 + i))).
      split; [lia|]. do 2 f_equal.
      replace (Z.max addr (4096 * (addr / 4096 + i)) / 4096) with (addr / 4096 + i); [lia|].
      destruct (Z.max_spec addr (4096 * (addr / 4096 + i))) as [[_ ->]|[Hle ->]].
      * rewrite Z.mul_comm, Z.div_mul; lia.
      * assert (i = 0) as -> by lia. lia.
    + intros (b & Hb & ->). exists (b / 4096 - addr / 4096). split; [do 2 f_equal; lia|].
      apply elem_of_range. pose proof (Z.div_mod b 4096 ltac:(lia)). pose proof (Z.mod_pos_bound b 4096 ltac:(lia)).
      lia.
Qed.

(** ** Fresh process numbers *)

(** The process and group numbers in use by the tasks in the slots [l]. *)
Definition numbers_in (k : kst) (l : list Z) : list Z :=
  l ≫= fun i => match task_in k i with Some t => [pid t; pgrp t] | None => [] end.

Definition numbers (k : kst) : list Z := numbers_in k (range 0 64).

Lemma numbers_in_cons k i l :
  numbers_in k (i :: l) = (match task_in k i with Some t => [pid t; pgrp t] | None => [] end) ++ numbers_in k l.
Proof. done. Qed.

Lemma pid_in_use_spec k l n :
  kst_wf k -> (forall i, i ∈ l -> 0 <= i < 64) ->
  exists b : bool, pid_in_use l n k = Ok b k /\ (b <-> n ∈ numbers_in k l).
Proof.
  intros Hw. induction l as [|i l IH]; intros Hl.
  { exists false. split; [done|]. cbn. by rewrite elem_of_nil. }
  destruct IH as (b & Hr & Hb); [set_solver|]. cbn [pid_in_use]. rewrite numbers_in_cons.
  destruct (aget_in_range (task k) i) as [p Ep]; [rewrite (wf_len k Hw); specialize (Hl i); set_solver by lia|].
  erewrite run_bind by (unfold task_at, getS, ofOpt, mbind, M_bind; by rewrite Ep).
  unfold task_in. rewrite Ep. destruct p as [p|]; [|by exists b].
  destruct (wf_ptr k Hw i p Ep) as [t Ht]. erewrite run_bind by (by apply deref_eq). rewrite Ht. cbn [app].
  destruct (Z.eqb_spec (pid t) n) as [<-|]; [exists true; split; [done|]; set_solver|].
  destruct (Z.eqb_spec (pgrp t) n) as [<-|]; [exists true; split; [done|]; set_solver|].
  exists b. split; [done|]. rewrite Hb. set_solver.
Qed.

Lemma numbers_task k i t : 0 <= i < 64 -> task_in k i = Some t -> pid t ∈ numbers k /\ pgrp t ∈ numbers k.
Proof.
  intros Hi Ht. unfold numbers, numbers_in.
  split; apply list_elem_of_bind; exists i; rewrite Ht; (split; [set_solver|apply elem_of_range; lia]).
Qed.

Lemma numbers_length k : (length (numbers k) <= 128)%nat.
Proof.
  unfold numbers. assert (H : forall l, (length (numbers_in k l) <= 2 * length l)%nat).
  { induction l as [|i l IH]; [cbn; lia|]. rewrite numbers_in_cons, length_app. cbn [length].
    destruct (task_in k i); cbn [length]; lia. }
  specialize (H (range 0 64)). by rewrite length_range in H.
Qed.

(** The number tried after [n]. *)
Definition succ_pid (n : Z) : Z := if s32 (n + 1) <? 0 then 1 else s32 (n + 1).

Lemma succ_pid_eq n : 0 <= n <= 2147483647 -> succ_pid n = if n =? 2147483647 then 1 else n + 1.
Proof.
  intros Hn. unfold succ_pid. destruct (Z.eqb_spec n 2147483647) as [->|].
  - reflexivity.
  - rewrite s32_small by (unfold in_s32; lia). destruct (Z.ltb_spec (n + 1) 0); [lia|done].
Qed.

Lemma iter_succ_pid (i : nat) n : 0 <= n <= 2147483647 -> (0 < i < 1000)%nat ->
  Nat.iter i succ_pid n =
    if n + Z.of_nat i <=? 2147483647 then n + Z.of_nat i else n + Z.of_nat i - 2147483647.
Proof.
  intros Hn. induction i as [|i IH]; intros Hi; [lia|]. rewrite Nat.iter_succ.
  destruct i as [|i]; [change (Nat.iter 0 succ_pid n) with n|rewrite IH by lia].
  - rewrite succ_pid_eq by lia. destruct (Z.eqb_spec n 2147483647), (Z.leb_spec (n + Z.of_nat 1) 2147483647); lia.
  - destruct (Z.leb_spec (n + Z.of_nat (S i)) 2147483647); rewrite succ_pid_eq by lia.
    + destruct (Z.eqb_spec (n + Z.of_nat (S i)) 2147483647), (Z.leb_spec (n + Z.of_nat (S (S i))) 2147483647); lia.
    + destruct (Z.eqb_spec (n + Z.of_nat (S i) - 2147483647) 2147483647), (Z.leb_spec (n + Z.of_nat (S (S i))) 2147483647); lia.
Qed.

Lemma iter_succ_pid_range (i : nat) n : 0 <= n <= 2147483647 -> (i < 900)%nat ->
  1 <= Nat.iter (S i) succ_pid n <= 2147483647.
Proof.
  intros Hn Hi. rewrite iter_succ_pid by lia. destruct (Z.leb_spec (n + Z.of_nat (S i)) 2147483647); lia.
Qed.

(** Among 129 successive numbers one is not in use. *)
Lemma fresh_exists k n : 0 <= n <= 2147483647 ->
  exists j, (j < 129)%nat /\ Nat.iter (S j) succ_pid n ∉ numbers k.
Proof.
  intros Hn. destruct (decide (Exists (fun j => Nat.iter (S j) succ_pid n ∉ numbers k) (seq 0 129))) as [He|He].
  { apply Exists_exists in He as (j & Hj & He). exists j. apply elem_of_seq in Hj. split; [lia|done]. }
  exfalso. set (l := (fun j => Nat.iter (S j) succ_pid n) <$> seq 0 129).
  assert (Hnd : NoDup l).
  { apply NoDup_fmap_2_strong; [|apply NoDup_seq]. intros x y Hx Hy E. apply elem_of_seq in Hx, Hy.
    rewrite !iter_succ_pid in E by lia.
    destruct (Z.leb_spec (n + Z.of_nat (S x)) 2147483647), (Z.leb_spec (n + Z.of_nat (S y)) 2147483647); lia. }
  assert (Hsub : l ⊆ numbers k).
  { intros x (j & -> & Hj)%list_elem_of_fmap.
    destruct (decide (Nat.iter (S j) succ_pid n ∈ numbers k)) as [|Hx]; [done|].
    exfalso. apply He, Exists_exists. eauto. }
  apply (NoDup_submseteq _ _ Hnd), submseteq_length in Hsub.
  pose proof (numbers_length k). unfold l in Hsub. rewrite length_fmap, length_seq in Hsub. lia.
Qed.

Definition with_pid (n : Z) (k : kst) : kst := set_sysd (set_last_pid n (sysd k)) k.

Lemma kst_wf_with_pid n k : kst_wf k -> kst_wf (with_pid n k).
Proof. intros [? ? ? ?]. by split. Qed.

Lemma next_pid_step k :
  kst_wf k -> let n := succ_pid (last_pid (sysd k)) in
  exists b : bool, next_pid tt k = Ok (if b then inl tt else inr tt) (with_pid n k) /\ (b <-> n ∈ numbers k).
Proof.
  intros Hw n. destruct (pid_in_use_spec (with_pid n k) (range 0 64) n) as (b & Hr & Hb).
  { by apply kst_wf_with_pid. }
  { intros i Hi%elem_of_range. lia. }
  exists b. split; [|exact Hb]. unfold next_pid. erewrite run_bind by reflexivity. erewrite run_bind by reflexivity.
  erewrite run_bind by exact Hr. by destruct b.
Qed.

Lemma next_pid_loop j : forall fuel k,
  kst_wf k -> Nat.iter (S j) succ_pid (last_pid (sysd k)) ∉ numbers k -> (j < fuel)%nat ->
  exists i, iter fuel next_pid tt k = Ok tt (with_pid (Nat.iter (S i) succ_pid (last_pid (sysd k))) k) /\
    Nat.iter (S i) succ_pid (last_pid (sysd k)) ∉ numbers k /\ (i <= j)%nat.
Proof.
  induction j as [|j IH]; intros fuel k Hw Hfresh Hf; (destruct fuel as [|fuel]; [lia|]); cbn [iter];
    destruct (next_pid_step k Hw) as (b & Hst & Hb); rewrite (run_bind _ _ _ _ _ Hst).
  - destruct b; [exfalso; by apply Hfresh, Hb|]. by exists 0%nat.
  - destruct b; [|exists 0%nat; split; [done|]; split; [|lia]; intros Hin; by apply Hb in Hin].
    set (n := succ_pid (last_pid (sysd k))) in *.
    destruct (IH fuel (with_pid n k)) as (i & Hi & Hni & Hij); [by apply kst_wf_with_pid| |lia|].
    { cbn [sysd with_pid set_sysd set_last_pid last_pid]. unfold n. by rewrite <-Nat.iter_succ_r. }
    cbn [sysd with_pid set_sysd set_last_pid last_pid] in Hi, Hni. unfold n in Hi, Hni. rewrite <-Nat.iter_succ_r in Hi, Hni.
    exists (S i). split; [exact Hi|split; [done|lia]].
Qed.

Lemma empty_slot_spec k l :
  kst_wf k -> (forall i, i ∈ l -> 0 <= i < 64) ->
  exists r, empty_slot l k = Ok r k /\
    ((r ∈ l /\ aget (task k) r = Some None) \/
     (r = - EAGAIN /\ forall i, i ∈ l -> exists p, aget (task k) i = Some (Some p))).
Proof.
  intros Hw. induction l as [|i l IH]; intros Hl.
  { exists (- EAGAIN). split; [done|]. right. split; [done|]. intros i Hi. by apply elem_of_nil in Hi. }
  destruct IH as (r & Hr & Hc); [set_solver|]. cbn [empty_slot].
  destruct (aget_in_range (task k) i) as [p Ep]; [rewrite (wf_len k Hw); specialize (Hl i); set_solver by lia|].
  erewrite run_bind by (unfold task_at, getS, ofOpt, mbind, M_bind; by rewrite Ep).
  destruct p as [p|].
  - exists r. split; [done|]. destruct Hc as [[Hin He]|[-> Hall]]; [left; split; [by right|done]|].
    right. split; [done|]. intros j Hj. apply elem_of_cons in Hj as [->|Hj]; eauto.
  - exists i. split; [done|]. left. split; [by left|done].
Qed.

Lemma find_empty_run k r k1 k2 :
  iter PID_TRIES next_pid tt k = Ok tt k1 -> empty_slot (range 1 63) k1 = Ok r k2 ->
  find_empty_process k = Ok r k2.
Proof. intros H1 H2. unfold find_empty_process. rewrite (run_bind _ _ _ _ _ H1). exact H2. Qed.

Lemma find_empty_process_spec (k : kst) (Hw : kst_wf k) (Hl : 0 <= last_pid (sysd k) <= 2147483647) :
  exists r n, find_empty_process k = Ok r (with_pid n k) /\ 1 <= n <= 2147483647 /\
    (forall i t, 0 <= i < 64 -> task_in k i = Some t -> pid t <> n /\ pgrp t <> n) /\
    ((1 <= r <= 63 /\ aget (task k) r = Some None) \/
     (r = - EAGAIN /\ forall i, 1 <= i <= 63 -> exists p, aget (task k) i = Some (Some p))).
Proof.
  destruct (fresh_exists k (last_pid (sysd k)) Hl) as (j & Hj & Hfr).
  destruct (next_pid_loop j PID_TRIES k Hw Hfr) as (i & Hi & Hni & Hij); [unfold PID_TRIES; lia|].
  set (n := Nat.iter (S i) succ_pid (last_pid (sysd k))) in *.
  destruct (empty_slot_spec (with_pid n k) (range 1 63)) as (r & Hr & Hc).
  { by apply kst_wf_with_pid. }
  { intros x Hx%elem_of_range. lia. }
  exists r, n. split; [|split; [|split]].
  - exact (find_empty_run _ _ _ _ Hi Hr).
  - apply iter_succ_pid_range; [exact Hl|lia].
  - intros x t Hx Ht. destruct (numbers_task k x t Hx Ht) as [H1 H2].
    split; intros E; apply Hni; by rewrite <-E.
  - destruct Hc as [[Hin He]|[-> Hall]]; [left; apply elem_of_range in Hin; split; [lia|done]|].
    right. split; [done|]. intros x Hx. apply Hall, elem_of_range. lia.
Qed.

(** [find_empty_process] always returns. The process number it leaves in
    [last_pid] is positive and is neither the process nor the group number of
    any task; the slot is a free one of 1 to 63, or the result is -EAGAIN and
    there is none. Nothing else changes. *)
Theorem find_empty_process_fresh (k : kst) (Hw : kst_wf k) (Hl : 0 <= last_pid (sysd k) <= 2147483647) :
  exists r n, find_empty_process k = Ok r (with_pid n k) /\ 1 <= n <= 2147483647 /\
    (forall i t, 0 <= i < 64 -> task_in k i = Some t -> pid t <> n /\ pgrp t <> n) /\
    ((1 <= r <= 63 /\ aget (task k) r = Some None) \/
     (r = - EAGAIN /\ forall i, 1 <= i <= 63 -> exists p, aget (task k) i = Some (Some p))).
Proof. by apply find_empty_process_spec. Qed.

(** With a free slot the result is one. *)
Lemma find_empty_process_run (k : kst) :
  kst_wf k -> 0 <= last_pid (sysd k) <= 2147483647 -> (exists i, 1 <= i <= 63 /\ aget (task k) i = Some None) ->
  exists nr n, find_empty_process k = Ok nr (with_pid n k) /\ 1 <= n <= 2147483647 /\
    (forall i t, 0 <= i < 64 -> task_in k i = Some t -> pid t <> n /\ pgrp t <> n) /\
    1 <= nr <= 63 /\ aget (task k) nr = Some None.
Proof.
  intros Hw Hl (i & Hi & Hs). destruct (find_empty_process_spec k Hw Hl) as (r & n & Hf & Hn & Hfr & [[Hr He]|[_ Hall]]).
  - by exists r, n.
  - destruct (Hall i Hi) as [p Hp]. congruence.
Qed.

Lemma find_empty_process_fresh_witness :
  exists r n, find_empty_process demo_kill = Ok r (with_pid n demo_kill) /\ 1 <= n <= 2147483647 /\
    (forall i t, 0 <= i < 64 -> task_in demo_kill i = Some t -> pid t <> n /\ pgrp t <> n) /\
    ((1 <= r <= 63 /\ aget (task demo_kill) r = Some None) \/
     (r = - EAGAIN /\ forall i, 1 <= i <= 63 -> exists p, aget (task demo_kill) i = Some (Some p))).
Proof.
  apply (find_empty_process_fresh demo_kill); [apply kst_wfb_sound; vm_compute; reflexivity|].
  vm_compute. split; discriminate.
Defined.

Lemma verify_area_pages_witness :
  exists ev, verify_area 5000 4096 demo_kill = Ok tt (add_events ev demo_kill) /\
    forall x, x ∈ ev <-> exists b, 5000 <= b < 5000 + 4096 /\ x = EWriteVerify (u32 (0 + 4096 * (b / 4096))).
Proof.
  refine (verify_area_pages 5000 4096 demo_kill (set_euid 5 (INIT_TASK 1)) (0x9f, 0xc0f200) _ _ _ _);
    [reflexivity|reflexivity|unfold in_u32; lia|lia].
Defined.
