(* ===== verification/Ptree.v ===== *)
(** * The process tree

    Every task but the first is a child of a task; the children of a task form
    a doubly linked list through [p_ysptr] and [p_osptr] that starts at its
    [p_cptr] and in which each points back at the parent.  [sys_fork],
    [release] and [do_exit] rebuild these links; here they are shown to keep
    the shape, and [audit_ptree], the kernel's own check of it, is shown to
    find nothing wrong.  [sys_waitpid] walks the list. *)

From S2P Require Import Prelude TaskStruct Sched Exit Fork.

(** ** Sibling lists *)

(** The links a sibling list is made of. *)
Definition links (t : task_struct) : option tptr * option tptr * option tptr := (p_pptr t, p_ysptr t, p_osptr t).

Definition hd_or (l : list tptr) (nxt : option tptr) : option tptr :=
  match l with [] => nxt | c :: _ => Some c end.
Definition last_or (prev : option tptr) (l : list tptr) : option tptr :=
  match last l with Some c => Some c | None => prev end.

(** The tasks [l] are linked as siblings below [par], between [prev] on the
    younger and [nxt] on the older side. *)
Fixpoint dll (h : gmap tptr task_struct) (par prev : option tptr) (l : list tptr) (nxt : option tptr) : Prop :=
  match l with
  | [] => True
  | c :: r => links <$> h !! c = Some (par, prev, hd_or r nxt) /\ dll h par (Some c) r nxt
  end.

Lemma dll_frame h h' par l : forall prev nxt,
  dll h par prev l nxt -> (forall c, c ∈ l -> links <$> h' !! c = links <$> h !! c) -> dll h' par prev l nxt.
Proof.
  induction l as [|c l IH]; intros prev nxt; cbn; [done|]. intros [Hc Hd] Hf.
  split; [by rewrite Hf by left|]. apply IH; [done|]. intros x Hx. apply Hf. by right.
Qed.

Lemma last_or_cons prev c l : last_or prev (c :: l) = last_or (Some c) l.
Proof. unfold last_or. rewrite last_cons. by destruct (last l). Qed.

Lemma dll_app h par l1 : forall prev l2 nxt,
  dll h par prev (l1 ++ l2) nxt <-> dll h par prev l1 (hd_or l2 nxt) /\ dll h par (last_or prev l1) l2 nxt.
Proof.
  induction l1 as [|c l1 IH]; intros prev l2 nxt; [cbn; tauto|].
  cbn [app dll]. rewrite IH, last_or_cons.
  replace (hd_or (l1 ++ l2) nxt) with (hd_or l1 (hd_or l2 nxt)) by (by destruct l1). tauto.
Qed.

Lemma dll_set_ys h par prev v c r nxt t :
  dll h par prev (c :: r) nxt -> h !! c = Some t -> c ∉ r ->
  dll (<[c := set_p_ysptr v t]> h) par v (c :: r) nxt.
Proof.
  cbn. intros [Hc Hd] Ht Hn. rewrite Ht in Hc. cbn in Hc. injection Hc as H1 H2 H3. split.
  - rewrite lookup_insert_eq. cbn. unfold links. rewrite <-H1, <-H3. by destruct t.
  - eapply dll_frame; [done|]. intros x Hx. rewrite lookup_insert_ne; [done|]. by intros ->.
Qed.

Lemma dll_set_os h par l c v t : forall prev nxt,
  dll h par prev (l ++ [c]) nxt -> h !! c = Some t -> c ∉ l ->
  dll (<[c := set_p_osptr v t]> h) par prev (l ++ [c]) v.
Proof.
  intros prev nxt. rewrite !dll_app. cbn. intros (H1 & Hc & _) Ht Hn. split; [|split; [|done]].
  - eapply dll_frame; [done|]. intros x Hx. rewrite lookup_insert_ne; [done|]. by intros ->.
  - rewrite Ht in Hc. cbn in Hc. injection Hc as E1 E2 E3. rewrite lookup_insert_eq. cbn. unfold links.
    rewrite <-E1, <-E2. by destruct t.
Qed.

(** A member's links. *)
Lemma dll_member h par l1 c l2 prev nxt :
  dll h par prev (l1 ++ c :: l2) nxt -> links <$> h !! c = Some (par, last_or prev l1, hd_or l2 nxt).
Proof. rewrite dll_app. by intros (_ & Hc & _). Qed.

(** ** The tree *)

Definition live (k : kst) (p : tptr) : Prop := exists i, 0 <= i <= 63 /\ aget (task k) i = Some (Some p).
Definition child_live (k : kst) (p : tptr) : Prop := exists i, 1 <= i <= 63 /\ aget (task k) i = Some (Some p).

(** [ch p] are the children of [p], youngest first. *)
Record tree (k : kst) (ch : tptr -> list tptr) : Prop := {
  tr_wf : kst_wf k;
  tr_head : forall p, live k p -> p_cptr <$> heap k !! p = Some (head (ch p));
  tr_dll : forall p, live k p -> dll (heap k) (Some p) None (ch p) None;
  tr_nodup : forall p, live k p -> NoDup (ch p);
  tr_child : forall p c, live k p -> c ∈ ch p -> child_live k c /\ c <> p;
  tr_parent : forall c, child_live k c -> exists p, live k p /\ c ∈ ch p
}.

Lemma child_live_live k p : child_live k p -> live k p.
Proof. intros (i & Hi & E). exists i. split; [lia|done]. Qed.

Section Tree.
Context (k : kst) (ch : tptr -> list tptr) (Ht : tree k ch).

Lemma live_heap p : live k p -> exists t, heap k !! p = Some t.
Proof. intros (i & _ & E). destruct (wf_ptr k (tr_wf _ _ Ht) i p E) as [t ?]. eauto. Qed.

Lemma live_elem p : live k p -> Some p ∈ task k.
Proof.
  intros (i & _ & E). unfold aget in E. destruct (i <? 0); [done|]. by eapply list_elem_of_lookup_2.
Qed.

(** A child's place in the list of its parent. *)
Lemma child_split p c : live k p -> c ∈ ch p ->
  exists l1 l2 t, ch p = l1 ++ c :: l2 /\ heap k !! c = Some t /\
    p_pptr t = Some p /\ p_ysptr t = last l1 /\ p_osptr t = head l2.
Proof.
  intros Hp Hc. apply list_elem_of_split in Hc as (l1 & l2 & E).
  pose proof (tr_dll _ _ Ht p Hp) as Hd. rewrite E in Hd. apply dll_member in Hd.
  destruct (heap k !! c) as [t|] eqn:Et; [|done]. cbn in Hd. injection Hd as H1 H2 H3.
  exists l1, l2, t. split; [done|]. split; [done|]. split; [done|]. split.
  - rewrite H2. unfold last_or. by destruct (last l1).
  - rewrite H3. by destruct l2.
Qed.

(** A task has one parent. *)
Lemma child_unique p p' c : live k p -> live k p' -> c ∈ ch p -> c ∈ ch p' -> p = p'.
Proof.
  intros Hp Hp' Hc Hc'. destruct (child_split p c Hp Hc) as (l1 & l2 & t & _ & Et & E & _).
  destruct (child_split p' c Hp' Hc') as (l1' & l2' & t' & _ & Et' & E' & _). congruence.
Qed.

(** What [audit_slot] asks of a pointer. *)
Lemma bad_ptr_run {B} o (f : bool -> M kst B) :
  (forall q, o = Some q -> live k q) -> (bad_task_ptr o ≫= f) k = f false k.
Proof.
  intros H. erewrite run_bind; [reflexivity|]. unfold bad_task_ptr, getS, mbind, M_bind.
  destruct o as [q|]; [|done]. by rewrite bool_decide_true by (by apply live_elem, H).
Qed.

Lemma warn_run {B} b msg (f : unit -> M kst B) : b = false -> (warn_if b msg ≫= f) k = f tt k.
Proof. by intros ->. Qed.

Lemma child_links c : child_live k c ->
  exists p t, live k p /\ heap k !! c = Some t /\ p_pptr t = Some p /\ p <> c /\
    (forall o, p_osptr t = Some o -> live k o /\ o <> c /\
       exists to, heap k !! o = Some to /\ p_pptr to = Some p /\ p_ysptr to = Some c) /\
    (forall y, p_ysptr t = Some y -> live k y /\ y <> c /\
       exists ty, heap k !! y = Some ty /\ p_pptr ty = Some p /\ p_osptr ty = Some c) /\
    (forall d, p_cptr t = Some d -> live k d /\ d <> c /\
       exists td, heap k !! d = Some td /\ p_pptr td = Some c /\ p_ysptr td = None).
Proof.
  intros Hc. destruct (tr_parent _ _ Ht c Hc) as (p & Hp & Hin).
  destruct (child_split p c Hp Hin) as (l1 & l2 & t & E & Et & Epp & Eys & Eos).
  pose proof (tr_nodup _ _ Ht p Hp) as Hnd. rewrite E in Hnd.
  pose proof (tr_dll _ _ Ht p Hp) as Hd. rewrite E in Hd.
  exists p, t. repeat (split; [done || (intros ->; by apply (tr_child _ _ Ht) in Hin as [_ ?])|]). split; [|split].
  - intros o Ho. rewrite Ho in Eos. destruct l2 as [|o' l2]; [done|]. injection Eos as <-.
    assert (Hoin : o ∈ ch p) by (rewrite E; set_solver).
    split; [by apply child_live_live, (tr_child _ _ Ht p)|]. split.
    { intros ->. apply NoDup_app in Hnd as (_ & _ & Hnd). apply NoDup_cons in Hnd as [Hnd _]. set_solver. }
    replace (l1 ++ c :: o :: l2) with ((l1 ++ [c]) ++ o :: l2) in Hd by (by rewrite <-app_assoc).
    apply dll_member in Hd. destruct (heap k !! o) as [to|]; [|done]. exists to. split; [done|].
    cbn in Hd. injection Hd as -> -> _. unfold last_or. by rewrite last_snoc.
  - intros y Hy. rewrite Hy in Eys. symmetry in Eys. apply last_Some in Eys as (l0 & ->).
    assert (Hyin : y ∈ ch p) by (rewrite E; set_solver).
    split; [by apply child_live_live, (tr_child _ _ Ht p)|]. split.
    { intros ->. apply NoDup_app in Hnd as (_ & Hnd & _). apply (Hnd c); set_solver. }
    rewrite <-app_assoc in Hd. apply dll_member in Hd.
    destruct (heap k !! y) as [ty|]; [|done]. exists ty. split; [done|]. by injection Hd as -> _ ->.
  - intros d Hdc. pose proof (tr_head _ _ Ht c (child_live_live _ _ Hc)) as Hh. rewrite Et in Hh. cbn in Hh.
    injection Hh as Hh. rewrite Hdc in Hh. destruct (ch c) as [|d' r] eqn:Ec; [done|]. injection Hh as <-.
    assert (Hdin : d ∈ ch c) by (rewrite Ec; by left).
    destruct (tr_child _ _ Ht c d (child_live_live _ _ Hc) Hdin) as [Hdl Hdne].
    split; [by apply child_live_live|]. split; [done|].
    pose proof (tr_dll _ _ Ht c (child_live_live _ _ Hc)) as Hd2. rewrite Ec in Hd2. destruct Hd2 as [Hd2 _].
    destruct (heap k !! d) as [td|]; [|done]. exists td. split; [done|]. by injection Hd2 as -> -> _.
Qed.

(** Nothing to report on a slot. *)
Lemma audit_slot_silent i : 1 <= i <= 63 -> audit_slot i k = Ok tt k.
Proof.
  intros Hi. unfold audit_slot.
  destruct (aget_in_range (task k) i) as [s Es]; [rewrite (wf_len k (tr_wf _ _ Ht)); lia|].
  erewrite run_bind by (unfold task_at, getS, ofOpt, mbind, M_bind; by rewrite Es).
  destruct s as [c|]; [|done].
  destruct (child_links c) as (p & t & Hp & Et & Epp & Hne & Hos & Hys & Hch); [by exists i|].
  erewrite run_bind by (by apply deref_eq).
  rewrite bad_ptr_run, warn_run by naive_solver. rewrite bad_ptr_run, warn_run by naive_solver.
  rewrite bad_ptr_run, warn_run by naive_solver. rewrite bad_ptr_run, warn_run by naive_solver.
  rewrite !warn_run by (apply bool_decide_false; naive_solver).
  erewrite run_bind; [erewrite run_bind|].
  - destruct (p_cptr t) as [d|]; [|done]. destruct (Hch d eq_refl) as (_ & _ & td & Etd & E1 & E2).
    erewrite run_bind by (by apply deref_eq). rewrite E1, E2, !bool_decide_true by done. done.
  - destruct (p_ysptr t) as [y|]; [|done]. destruct (Hys y eq_refl) as (_ & _ & ty & Ety & E1 & E2).
    erewrite run_bind by (by apply deref_eq). rewrite E1, E2, Epp, !bool_decide_true by done. done.
  - destruct (p_osptr t) as [o|]; [|done]. destruct (Hos o eq_refl) as (_ & _ & to & Eto & E1 & E2).
    erewrite run_bind by (by apply deref_eq). rewrite E1, E2, Epp, !bool_decide_true by done. done.
Qed.

Lemma audit_silent : audit_ptree k = Ok tt k.
Proof.
  unfold audit_ptree. assert (Hl : forall l, (forall i, i ∈ l -> 1 <= i <= 63) -> for_each l audit_slot k = Ok tt k).
  { induction l as [|i l IH]; intros Hl; [done|]. cbn [for_each].
    erewrite run_bind by (apply audit_slot_silent, Hl; by left). apply IH. intros j Hj. apply Hl. by right. }
  apply Hl. intros i Hi%elem_of_range. lia.
Qed.

End Tree.

(** ** Taking a child out *)

(** The heap after [unlink_task] and [free_task]. *)
Definition unlink_heap (h : gmap tptr task_struct) (p q : tptr) (l1 l2 : list tptr) : gmap tptr task_struct :=
  let h1 := match head l2 with Some o => alter (set_p_ysptr (last l1)) o h | None => h end in
  let h2 := match last l1 with
            | Some y => alter (set_p_osptr (head l2)) y h1
            | None => alter (set_p_cptr (head l2)) p h1 end in
  delete q h2.

(** Fields of a task other than the links are the same in two heaps. *)
Lemma links_set_cptr v t : links (set_p_cptr v t) = links t.
Proof. by destruct t. Qed.

Lemma alter_insert_eq (f : task_struct -> task_struct) (h : gmap tptr task_struct) i t : h !! i = Some t -> alter f i h = <[i := f t]> h.
Proof.
  intros Ht. apply map_eq. intros j. destruct (decide (i = j)) as [<-|];
    [rewrite lookup_alter_eq, lookup_insert_eq, Ht|rewrite lookup_alter_ne, lookup_insert_ne]; done.
Qed.

Section Unlink.
Context (h : gmap tptr task_struct) (p q : tptr) (l1 l2 : list tptr).
Hypothesis (Hd : dll h (Some p) None (l1 ++ q :: l2) None).
Hypothesis (Hnd : NoDup (l1 ++ q :: l2)).
Hypothesis (Hp : p ∉ l1 ++ q :: l2).

Lemma unlink_links c : c ∉ l1 ++ q :: l2 -> links <$> unlink_heap h p q l1 l2 !! c = links <$> h !! c.
Proof.
  intros Hc. unfold unlink_heap. rewrite lookup_delete_ne by set_solver.
  assert (H1 : links <$> (match head l2 with Some o => alter (set_p_ysptr (last l1)) o h | None => h end) !! c
               = links <$> h !! c).
  { destruct l2 as [|o l2']; cbn; [done|]. rewrite lookup_alter_ne; [done|]. set_solver. }
  destruct (last l1) as [y|] eqn:El.
  - apply last_Some in El as [l1' ->]. rewrite lookup_alter_ne; [done|]. set_solver.
  - destruct (decide (p = c)) as [<-|]; [|by rewrite lookup_alter_ne].
    rewrite lookup_alter_eq, <-H1. by destruct (_ !! p) as [t|]; cbn; [rewrite links_set_cptr|].
Qed.

Lemma unlink_dll : dll (unlink_heap h p q l1 l2) (Some p) None (l1 ++ l2) None.
Proof.
  apply dll_app in Hd as [Hd1 [Hq Hd2]]. apply NoDup_app in Hnd as (Hn1 & Hn12 & Hn2).
  apply NoDup_cons in Hn2 as [Hql2 Hn2]. apply dll_app.
  set (h1 := match head l2 with Some o => alter (set_p_ysptr (last l1)) o h | None => h end).
  assert (Hl1 : dll h1 (Some p) None l1 (Some q)).
  { eapply dll_frame; [done|]. intros c Hc. unfold h1. destruct l2 as [|o l2']; cbn; [done|].
    rewrite lookup_alter_ne; [done|]. intros ->. apply (Hn12 c Hc). set_solver. }
  assert (Hl2 : dll h1 (Some p) (last l1) l2 None).
  { unfold h1. destruct l2 as [|o l2']; cbn [head]; [done|]. apply NoDup_cons in Hn2 as [Ho _].
    destruct Hd2 as [Ho2 Hd2]. destruct (h !! o) as [t|] eqn:Et; [|done].
    rewrite (alter_insert_eq _ _ _ t) by done. eapply dll_set_ys; [|done|done]. split; [by rewrite Et|done]. }
  unfold unlink_heap. fold h1. split.
  - destruct (last l1) as [y|] eqn:El; [|by apply last_None in El as ->].
    apply last_Some in El as [l1' ->]. apply NoDup_app in Hn1 as (_ & Hy & _).
    assert (Hyq : y <> q) by (intros ->; apply (Hn12 q); set_solver).
    destruct (h1 !! y) as [ty|] eqn:Ety; cycle 1.
    { apply dll_app in Hl1 as (_ & Hl1 & _). by rewrite Ety in Hl1. }
    rewrite (alter_insert_eq _ _ _ ty) by done.
    apply dll_frame with (h := <[y := set_p_osptr (head l2) ty]> h1).
    + replace (hd_or l2 None) with (head l2) by (by destruct l2). eapply dll_set_os; [done|done|].
      intros Hin. apply (Hy y Hin). set_solver.
    + intros c Hc. rewrite lookup_delete_ne; [done|]. intros <-. apply (Hn12 q Hc). set_solver.
  - replace (last_or None l1) with (last l1) by (unfold last_or; by destruct (last l1)).
    eapply dll_frame; [done|]. intros c Hc. rewrite lookup_delete_ne by set_solver.
    destruct (last l1) as [y|] eqn:El.
    + rewrite lookup_alter_ne; [done|]. intros ->. apply last_Some in El as [l1' ->]. apply (Hn12 c); set_solver.
    + rewrite lookup_alter_ne; [done|]. intros ->. apply Hp. set_solver.
Qed.

Lemma unlink_cptr x : x <> q ->
  p_cptr <$> unlink_heap h p q l1 l2 !! x =
  if decide (x = p /\ l1 = []) then (fun _ => head l2) <$> h !! x else p_cptr <$> h !! x.
Proof.
  intros Hx. unfold unlink_heap. rewrite lookup_delete_ne by done.
  set (h1 := match head l2 with Some o => alter (set_p_ysptr (last l1)) o h | None => h end).
  assert (H1 : p_cptr <$> h1 !! x = p_cptr <$> h !! x /\ (is_Some (h1 !! x) <-> is_Some (h !! x))).
  { unfold h1. destruct (head l2) as [o|]; [|done]. destruct (decide (o = x)) as [<-|]; [|by rewrite lookup_alter_ne].
    rewrite lookup_alter_eq, fmap_is_Some. split; [|done]. destruct (h !! o) as [[]|]; done. }
  destruct H1 as [H1 H2]. destruct (last l1) as [y|] eqn:El.
  - rewrite decide_False by (intros [_ ->]; done). rewrite <-H1.
    destruct (decide (y = x)) as [<-|]; [|by rewrite lookup_alter_ne].
    rewrite lookup_alter_eq. by destruct (h1 !! y) as [[]|].
  - apply last_None in El. destruct (decide (p = x)) as [<-|].
    + rewrite decide_True by done. rewrite lookup_alter_eq.
      destruct (h1 !! p) as [t1|] eqn:E1, (h !! p) as [t|] eqn:E; cbn.
      * by destruct t1.
      * destruct H2 as [H2 _]. destruct H2; [eauto|done].
      * destruct H2 as [_ H2]. destruct H2; [eauto|done].
      * done.
    + rewrite decide_False by naive_solver. by rewrite lookup_alter_ne.
Qed.

(** Nothing but links changes, and only the one task goes. *)
Lemma unlink_dom x : x <> q -> is_Some (h !! x) -> is_Some (unlink_heap h p q l1 l2 !! x).
Proof.
  intros Hx Hs. unfold unlink_heap. rewrite lookup_delete_ne by done.
  destruct (head l2), (last l1); by rewrite ?lookup_alter_is_Some.
Qed.

End Unlink.

(** Running the code on the links of a child. *)
Lemma unlink_task_run k p q l1 l2 :
  dll (heap k) (Some p) None (l1 ++ q :: l2) None -> NoDup (l1 ++ q :: l2) -> p ∉ l1 ++ q :: l2 ->
  is_Some (heap k !! p) ->
  (unlink_task q;; free_task q) k = Ok tt (add_event (EFreePage q) (set_heap (unlink_heap (heap k) p q l1 l2) k)).
Proof.
  intros Hd Hnd Hp [tp Htp].
  pose proof (dll_member _ _ _ _ _ _ _ Hd) as Hq. destruct (heap k !! q) as [t|] eqn:Et; [|done].
  injection Hq as E1 E2 E3. apply NoDup_app in Hnd as (Hn1 & Hn12 & Hn2). apply NoDup_cons in Hn2 as [Hql2 Hn2].
  replace (last_or None l1) with (last l1) in E2 by (unfold last_or; by destruct (last l1)).
  replace (hd_or l2 None) with (head l2) in E3 by (by destruct l2).
  apply dll_app in Hd as [Hd1 [_ Hd2]].
  set (h1 := match head l2 with Some o => alter (set_p_ysptr (last l1)) o (heap k) | None => heap k end).
  assert (Hs1 : (match p_osptr t with Some _ => upd (p_osptr t) (set_p_ysptr (p_ysptr t)) | None => mret tt end) k
                = Ok tt (set_heap h1 k)).
  { rewrite E3, E2. unfold h1. destruct l2 as [|o l2']; cbn [head]; [by destruct k|].
    destruct Hd2 as [Ho _]. destruct (heap k !! o) as [to|] eqn:Eto; [|done].
    rewrite (upd_eq o to) by done. by rewrite (alter_insert_eq _ _ _ to). }
  assert (Hq1 : h1 !! q = Some t).
  { unfold h1. destruct l2 as [|o l2']; cbn [head]; [done|]. rewrite lookup_alter_ne; [done|]. set_solver. }
  assert (Hs2 : exists h2, (match p_ysptr t with Some _ => upd (p_ysptr t) (set_p_osptr (p_osptr t))
       | None => upd (p_pptr t) (set_p_cptr (p_osptr t)) end) (set_heap h1 k) = Ok tt (set_heap h2 k) /\
      delete q h2 = unlink_heap (heap k) p q l1 l2).
  { rewrite E2, E3, E1. unfold unlink_heap. fold h1. eexists. split; [|reflexivity].
    destruct (last l1) as [y|] eqn:El.
    - apply last_Some in El as [l1' ->]. destruct (h1 !! y) as [ty|] eqn:Ety; cycle 1.
      { assert (Hy : h1 !! y = heap k !! y).
        { unfold h1. destruct l2 as [|o l2']; cbn [head]; [done|]. rewrite lookup_alter_ne; [done|].
          intros ->. apply (Hn12 y); set_solver. }
        rewrite Hy in Ety. apply dll_app in Hd1 as (_ & Hd1 & _). by rewrite Ety in Hd1. }
      rewrite (upd_eq y ty) by done. by rewrite (alter_insert_eq _ _ _ ty).
    - destruct (h1 !! p) as [tp1|] eqn:Etp; cycle 1.
      { assert (Hy : h1 !! p = heap k !! p).
        { unfold h1. destruct l2 as [|o l2']; cbn [head]; [done|]. rewrite lookup_alter_ne; [done|]. set_solver. }
        congruence. }
      rewrite (upd_eq p tp1) by done. by rewrite (alter_insert_eq _ _ _ tp1). }
  destruct Hs2 as (h2 & Hs2 & <-).
  unfold unlink_task. rewrite (run_bind _ _ _ tt (set_heap h2 k)); [reflexivity|].
  erewrite run_bind by (by apply deref_eq). rewrite (run_bind _ _ _ _ _ Hs1).
  erewrite run_bind by (by apply deref_eq). exact Hs2.
Qed.

Lemma release_scan_run k q i l :
  kst_wf k -> aget (task k) i = Some (Some q) -> (forall j, j ∈ l -> 0 <= j <= 63) -> i ∈ l ->
  release_scan l q k = (set_slot i None;; unlink_task q;; free_task q) k.
Proof.
  intros Hw Hi Hl. induction l as [|j l IH]; intros Hin; [by apply elem_of_nil in Hin|]. cbn [release_scan].
  destruct (aget_in_range (task k) j) as [s Es]; [rewrite (wf_len k Hw); specialize (Hl j); set_solver by lia|].
  erewrite run_bind by (unfold task_at, getS, ofOpt, mbind, M_bind; by rewrite Es).
  destruct (decide (s = Some q)) as [->|Hne].
  - rewrite bool_decide_true by done. by rewrite (wf_inj k Hw i j q Hi Es).
  - rewrite bool_decide_false by done. apply IH; [set_solver|].
    apply elem_of_cons in Hin as [->|Hin]; [|done]. congruence.
Qed.

(** The children of each task once [q] is gone. *)
Definition without (q : tptr) (ch : tptr -> list tptr) (p : tptr) : list tptr := filter (fun c => c <> q) (ch p).

Lemma filter_id (q : tptr) (l : list tptr) : q ∉ l -> filter (fun c => c <> q) l = l.
Proof.
  induction l as [|c l IH]; intros Hq; [done|]. apply not_elem_of_cons in Hq as [Hc Hq].
  rewrite filter_cons_True by done. by rewrite IH.
Qed.

Lemma without_split (q : tptr) (l1 l2 : list tptr) : NoDup (l1 ++ q :: l2) -> filter (fun c => c <> q) (l1 ++ q :: l2) = l1 ++ l2.
Proof.
  intros (_ & Hn & Hnd)%NoDup_app. apply NoDup_cons in Hnd as [Hq _].
  rewrite filter_app, filter_cons_False by (by intros []). rewrite !filter_id; [done|done|].
  intros Hin. apply (Hn q Hin). by left.
Qed.

Section Release.
Context (k : kst) (ch : tptr -> list tptr) (Htree : tree k ch).
Context (p q : tptr) (i : Z) (l1 l2 : list tptr).
Hypothesis (Hp : live k p) (Hch : ch p = l1 ++ q :: l2) (Hi : 1 <= i <= 63).
Hypothesis (Hslot : aget (task k) i = Some (Some q)) (Hcur : q <> current k) (Hnochild : ch q = []).

Let tasks' := <[Z.to_nat i := None]> (task k).
Let k' := add_event (EFreePage q) (set_heap (unlink_heap (heap k) p q l1 l2) (set_task tasks' k)).

Lemma rel_slot j : aget tasks' j = if decide (j = i) then Some None else aget (task k) j.
Proof.
  pose proof (aget_Some_range _ _ _ Hslot). unfold tasks'. destruct (decide (j = i)) as [->|].
  - by rewrite aget_insert_eq.
  - by rewrite aget_insert_ne by lia.
Qed.

Lemma rel_live x : live k' x <-> live k x /\ x <> q.
Proof.
  unfold live. cbn [task k' add_event set_heap set_task]. split.
  - intros (j & Hj & E). rewrite rel_slot in E. destruct (decide (j = i)); [done|].
    split; [by exists j|]. intros ->. by pose proof (wf_inj k (tr_wf _ _ Htree) i j q Hslot E).
  - intros [(j & Hj & E) Hx]. exists j. split; [done|]. rewrite rel_slot.
    destruct (decide (j = i)) as [->|]; [congruence|done].
Qed.

Lemma rel_child_live x : child_live k' x <-> child_live k x /\ x <> q.
Proof.
  unfold child_live. cbn [task k' add_event set_heap set_task]. split.
  - intros (j & Hj & E). rewrite rel_slot in E. destruct (decide (j = i)); [done|].
    split; [by exists j|]. intros ->. by pose proof (wf_inj k (tr_wf _ _ Htree) i j q Hslot E).
  - intros [(j & Hj & E) Hx]. exists j. split; [done|]. rewrite rel_slot.
    destruct (decide (j = i)) as [->|]; [congruence|done].
Qed.

Lemma rel_wf : kst_wf k'.
Proof.
  destruct (tr_wf _ _ Htree) as [Hl Hptr Hc Hinj]. split; cbn.
  - unfold tasks'. by rewrite length_insert.
  - intros j x E. rewrite rel_slot in E. destruct (decide (j = i)); [done|].
    apply unlink_dom; [|by eapply Hptr]. intros ->. by pose proof (Hinj i j q Hslot E).
  - by apply unlink_dom.
  - intros a b x Ea Eb. rewrite rel_slot in Ea, Eb.
    destruct (decide (a = i)), (decide (b = i)); try done. by eapply Hinj.
Qed.

Lemma rel_facts : dll (heap k) (Some p) None (l1 ++ q :: l2) None /\ NoDup (l1 ++ q :: l2) /\ p ∉ l1 ++ q :: l2.
Proof.
  rewrite <-Hch. split; [by apply (tr_dll _ _ Htree)|]. split; [by apply (tr_nodup _ _ Htree)|].
  intros Hin. by apply (tr_child _ _ Htree p p Hp) in Hin as [_ ?].
Qed.

(** Only the list of the parent has changed. *)
Lemma rel_without x : live k x -> without q ch x = if decide (x = p) then l1 ++ l2 else ch x.
Proof.
  intros Hx. unfold without. destruct rel_facts as (_ & Hnd & _). destruct (decide (x = p)) as [->|Hne].
  - rewrite Hch. by apply without_split.
  - apply filter_id. intros Hin. apply Hne. apply (child_unique k ch Htree x p q); [done..|]. rewrite Hch. set_solver.
Qed.

Lemma rel_tree : tree k' (without q ch).
Proof.
  destruct rel_facts as (Hd & Hnd & Hpn). split; [apply rel_wf|..].
  - intros x [Hx Hxq]%rel_live. cbn. rewrite unlink_cptr by done. rewrite rel_without by done.
    pose proof (tr_head _ _ Htree x Hx) as Hh. destruct (heap k !! x) as [t|]; [|done].
    destruct (decide (x = p)) as [->|Hne].
    + rewrite Hch in Hh. destruct l1; [by rewrite decide_True|by rewrite decide_False by naive_solver].
    + by rewrite decide_False by naive_solver.
  - intros x [Hx Hxq]%rel_live. cbn. rewrite rel_without by done. destruct (decide (x = p)) as [->|Hne].
    + by apply unlink_dll.
    + eapply dll_frame; [by apply (tr_dll _ _ Htree)|]. intros c Hc. apply unlink_links; [done..|].
      rewrite <-Hch. intros Hc'. apply Hne. by apply (child_unique k ch Htree x p c).
  - intros x [Hx _]%rel_live. unfold without. by apply NoDup_filter, (tr_nodup _ _ Htree).
  - intros x c [Hx Hxq]%rel_live Hc. unfold without in Hc. apply list_elem_of_filter in Hc as [Hcq Hc].
    destruct (tr_child _ _ Htree x c Hx Hc) as [Hcl Hne]. split; [|done]. by apply rel_child_live.
  - intros c [Hc Hcq]%rel_child_live. destruct (tr_parent _ _ Htree c Hc) as (x & Hx & Hin).
    exists x. split; [|unfold without; by apply list_elem_of_filter].
    apply rel_live. split; [done|]. intros ->. rewrite Hnochild in Hin. by apply elem_of_nil in Hin.
Qed.

Lemma rel_run : release (Some q) k = Ok tt k'.
Proof.
  destruct rel_facts as (Hd & Hnd & Hpn). unfold release. erewrite run_bind by reflexivity.
  rewrite bool_decide_false by done.
  rewrite (release_scan_run k q i (range 1 63)); [|apply (tr_wf _ _ Htree)|done|intros j Hj%elem_of_range; lia|apply elem_of_range; lia].
  erewrite run_bind.
  2:{ unfold set_slot, getS, ofOpt, mbind, M_bind. rewrite aset_in_range by (by eapply aget_Some_range). reflexivity. }
  rewrite (unlink_task_run _ p q l1 l2); [done..|]. by apply (live_heap k ch).
Qed.

End Release.

(** C37: [release] of a child without children, on a well-formed process tree:
    it returns, the tree is well formed again with exactly that task taken out
    of its parent's list, and its slot and its page are free. *)
Theorem release_tree (k : kst) (ch : tptr -> list tptr) (q : tptr)
    (Htree : tree k ch) (Hq : child_live k q) (Hcur : q <> current k) (Hnochild : ch q = []) :
  exists k', release (Some q) k = Ok tt k' /\ tree k' (without q ch) /\
    (forall x, live k' x <-> live k x /\ x <> q) /\ heap k' !! q = None.
Proof.
  destruct Hq as (i & Hi & Hslot). destruct (tr_parent _ _ Htree q) as (p & Hp & Hin); [by exists i|].
  apply list_elem_of_split in Hin as (l1 & l2 & Hch).
  eexists. split; [by apply (rel_run k ch Htree p q i l1 l2)|]. split; [by apply rel_tree|].
  split; [by apply (rel_live k ch Htree)|]. cbn. unfold unlink_heap. apply lookup_delete_eq.
Qed.

(** ** Waiting for children *)

(** A child [sys_waitpid] reports: it is one of those waited for and is dead,
    or stopped and the caller asks for stopped ones. *)
Definition ready (pd cpg options : Z) (t : task_struct) : bool :=
  wait_match pd cpg t &&
  (((state t =? TASK_STOPPED) && truth (Z.land options WUNTRACED) && truth (exit_code t)) || (state t =? TASK_ZOMBIE)).

(** A child that makes the caller wait. *)
Definition busy (pd cpg : Z) (t : task_struct) : bool :=
  wait_match pd cpg t && negb (state t =? TASK_STOPPED) && negb (state t =? TASK_ZOMBIE).

Definition child_is (h : gmap tptr task_struct) (f : task_struct -> bool) (c : tptr) : bool :=
  match h !! c with Some t => f t | None => false end.

Definition first_ready (h : gmap tptr task_struct) (pd cpg options : Z) (l : list tptr) : option tptr :=
  List.find (child_is h (ready pd cpg options)) l.

Definition report (c : tptr) (stat_addr : Z) : M kst wait_result :=
  t ← deref (Some c);
  if state t =? TASK_STOPPED then
    put_status stat_addr (Z.lor (s32 (Z.shiftl (exit_code t) 8)) 0x7f);;
    upd (Some c) (set_exit_code 0);; mret (Reaped (pid t))
  else r ← reap (Some c) stat_addr; mret (Reaped r).

Lemma NoDup_heap_size (h : gmap tptr task_struct) l :
  NoDup l -> (forall c, c ∈ l -> is_Some (h !! c)) -> (length l <= size h)%nat.
Proof.
  intros Hnd Hin. rewrite <-(size_list_to_set (C := gset tptr) l Hnd), <-size_dom.
  apply subseteq_size. intros c Hc. apply elem_of_list_to_set, Hin in Hc. by apply elem_of_dom.
Qed.

(** The scan of [sys_waitpid] over a sibling list: it stops at the first child
    it can report. *)
Lemma wait_scan k tc par pd stat options l : forall fuel prev flag,
  heap k !! current k = Some tc -> dll (heap k) par prev l None -> (length l < fuel)%nat ->
  iter fuel (wait_step pd stat options) (hd_or l None, flag) k =
    match first_ready (heap k) pd (pgrp tc) options l with
    | Some c => report c stat k
    | None => Ok (Nothing (flag || existsb (child_is (heap k) (busy pd (pgrp tc))) l)) k
    end.
Proof.
  induction l as [|c l IH]; intros fuel prev flag Hc Hd Hf; (destruct fuel as [|fuel]; [cbn in Hf; lia|]); cbn [iter].
  { cbn. by rewrite orb_false_r. }
  destruct Hd as [Hl Hd]. destruct (heap k !! c) as [t|] eqn:Et; [|done]. injection Hl as _ _ Hos.
  cbn [first_ready List.find existsb]. unfold child_is at 1 3. rewrite Et.
  assert (Hst : forall m, wait_step pd stat options (Some c, flag) k = m ->
    (wait_step pd stat options (hd_or (c :: l) None, flag) ≫= (fun r => match r with
       | inl x' => iter fuel (wait_step pd stat options) x' | inr b => mret b end)) k
    = match m with Ok (inl x) k1 => iter fuel (wait_step pd stat options) x k1
                 | Ok (inr b) k1 => Ok b k1 | Halt hh k1 => Halt hh k1 end).
  { intros m <-. unfold mbind, M_bind. cbn [hd_or]. by destruct (wait_step _ _ _ _ k) as [[]|]. }
  rewrite (Hst _ eq_refl). clear Hst.
  assert (Hnext : forall b, iter fuel (wait_step pd stat options) (p_osptr t, b) k =
    match first_ready (heap k) pd (pgrp tc) options l with
    | Some c => report c stat k
    | None => Ok (Nothing (b || existsb (child_is (heap k) (busy pd (pgrp tc))) l)) k end).
  { intros b. rewrite Hos. apply (IH fuel (Some c) b); [done..|]. cbn in Hf. lia. }
  unfold wait_step at 1. rewrite (run_bind _ _ _ t k) by (by apply deref_eq).
  rewrite (run_bind _ _ _ (pgrp tc) k) by (by apply cur_eq).
  unfold ready at 1, busy at 1, mret, M_ret. destruct (wait_match pd (pgrp tc) t); cbn [negb andb]; [|by rewrite Hnext].
  destruct (state t =? TASK_STOPPED) eqn:Es; cbn [negb andb orb].
  - assert (Ez : (state t =? TASK_ZOMBIE) = false).
    { apply Z.eqb_eq in Es. rewrite Es. reflexivity. }
    rewrite Ez, orb_false_r. destruct (truth (Z.land options WUNTRACED)); cbn [negb andb orb]; [|by rewrite Hnext].
    destruct (truth (exit_code t)); cbn [negb orb]; [|by rewrite Hnext].
    unfold report. rewrite (run_bind (deref (Some c)) _ _ t k) by (by apply deref_eq). rewrite Es.
    unfold mbind, M_bind. destruct (put_status _ _ k) as [? k1|]; [|done]. by destruct (upd _ _ k1).
  - destruct (state t =? TASK_ZOMBIE); cbn [negb].
    + unfold report. rewrite (run_bind (deref (Some c)) _ _ t k) by (by apply deref_eq). rewrite Es.
      unfold mbind, M_bind. by destruct (reap _ _ k).
    + rewrite Hnext. by rewrite orb_true_r, orb_true_l.
Qed.

(** Changing anything but links leaves the tree as it is. *)
Lemma tree_frame k k' ch :
  tree k ch -> task k' = task k -> current k' = current k ->
  (forall x, (fun t => (links t, p_cptr t)) <$> heap k' !! x = (fun t => (links t, p_cptr t)) <$> heap k !! x) ->
  tree k' ch.
Proof.
  intros [[Hl Hptr Hc Hinj] Hh Hd Hnd Hch Hpa] Et Ec Hf.
  assert (Hdom : forall x, is_Some (heap k !! x) -> is_Some (heap k' !! x)).
  { intros x [t E]. specialize (Hf x). rewrite E in Hf. destruct (heap k' !! x); [eauto|done]. }
  assert (Hlk : forall x, links <$> heap k' !! x = links <$> heap k !! x).
  { intros x. specialize (Hf x). destruct (heap k' !! x), (heap k !! x); try done.
    cbn -[links] in *. congruence. }
  assert (Hlv : forall x, live k' x <-> live k x) by (intros x; unfold live; by rewrite Et).
  assert (Hcl : forall x, child_live k' x <-> child_live k x) by (intros x; unfold child_live; by rewrite Et).
  split.
  - split; rewrite ?Et, ?Ec; eauto.
  - intros p Hp%Hlv%Hh. rewrite <-Hp. specialize (Hf p).
    destruct (heap k' !! p), (heap k !! p); try done. cbn -[links] in *. congruence.
  - intros p Hp%Hlv. eapply dll_frame; [by apply Hd|]. auto.
  - intros p Hp%Hlv. auto.
  - intros p c Hp%Hlv Hc'. rewrite Hcl. auto.
  - intros c Hcc%Hcl%Hpa. destruct Hcc as (p & Hp & Hin). exists p. by rewrite Hlv.
Qed.

(** What a parent adds to its own counts for a dead child. *)
Definition account (t c : task_struct) : task_struct :=
  set_cmaj_flt (u32 (cmaj_flt c + u32 (maj_flt t + cmaj_flt t)))
  (set_cmin_flt (u32 (cmin_flt c + u32 (min_flt t + cmin_flt t)))
  (set_cstime (s32 (cstime c + s32 (stime t + cstime t)))
  (set_cutime (s32 (cutime c + s32 (utime t + cutime t))) c))).

Definition post_status (addr v : Z) (k : kst) : kst := if truth addr then add_event (EPut addr v) k else k.

Lemma put_status_run addr v k : put_status addr v k = Ok tt (post_status addr v k).
Proof. unfold put_status, post_status. by destruct (truth addr). Qed.

Lemma reap_run k ch c t tc stat :
  tree k ch -> child_live k c -> c <> current k -> ch c = [] ->
  heap k !! c = Some t -> heap k !! current k = Some tc ->
  exists k', reap (Some c) stat k = Ok (pid t) k' /\ tree k' (without c ch) /\ heap k' !! c = None /\
    (forall x, live k' x <-> live k x /\ x <> c).
Proof.
  intros Ht Hc Hne Hch Et Etc.
  set (k1 := post_status stat (exit_code t) (set_heap (<[current k := account t tc]> (heap k)) k)).
  assert (Hk1 : tree k1 ch /\ live k1 = live k /\ child_live k1 = child_live k /\ current k1 = current k).
  { unfold k1, post_status. destruct (truth stat); (split; [|done]);
      (eapply tree_frame; [exact Ht|done|done|]; intros x; cbn;
       destruct (decide (current k = x)) as [<-|]; [|by rewrite lookup_insert_ne];
       rewrite lookup_insert_eq, Etc; by destruct tc). }
  destruct Hk1 as (Ht1 & El & Ecl & Ec1).
  destruct (release_tree k1 ch c) as (k2 & Hr & Ht2 & Hl2 & Hn); [done|by rewrite Ecl|by rewrite Ec1|done|].
  exists k2. split; [|split; [done|split; [done|by rewrite El in Hl2]]].
  unfold reap. erewrite run_bind by (by apply deref_eq).
  rewrite (run_bind _ _ _ _ _ (upd_cur_eq _ tc k Etc)).
  do 3 (erewrite run_bind by (apply upd_cur_eq; apply lookup_insert_eq)).
  rewrite (run_bind _ _ _ _ _ (put_status_run _ _ _)).
  match goal with |- context [post_status stat (exit_code t) ?k0] =>
    replace (post_status stat (exit_code t) k0) with k1 end; cycle 1.
  { unfold k1. f_equal. cbn. unfold set_heap. cbn. f_equal. rewrite !insert_insert_eq. f_equal.
    unfold account. by destruct tc. }
  rewrite (run_bind _ _ _ _ _ Hr). by rewrite (run_bind _ _ _ _ _ (audit_silent k2 _ Ht2)).
Qed.

Lemma first_ready_Some h pd cpg options l c :
  first_ready h pd cpg options l = Some c ->
  c ∈ l /\ exists t, h !! c = Some t /\ ready pd cpg options t = true.
Proof.
  intros [Hin Hr]%List.find_some. split; [by apply list_elem_of_In|]. unfold child_is in Hr.
  destruct (h !! c) as [t|]; [eauto|done].
Qed.

(** Reporting a child found by the scan. *)
Lemma report_run k ch pd options stat c t tc :
  tree k ch -> live k (current k) -> heap k !! current k = Some tc ->
  c ∈ ch (current k) -> heap k !! c = Some t -> ready pd (pgrp tc) options t = true ->
  (state t = TASK_ZOMBIE -> ch c = []) ->
  exists k', report c stat k = Ok (Reaped (pid t)) k' /\
    (state t = TASK_ZOMBIE -> tree k' (without c ch) /\ heap k' !! c = None) /\
    (state t = TASK_STOPPED -> tree k' ch /\ heap k' !! c = Some (set_exit_code 0 t)).
Proof.
  intros Ht Hcur Etc Hin Et Hr Hz. destruct (tr_child _ _ Ht _ _ Hcur Hin) as [Hcl Hne].
  unfold report. rewrite (run_bind _ _ _ t k) by (by apply deref_eq).
  destruct (Z.eqb_spec (state t) TASK_STOPPED) as [Es|Es].
  - eexists. rewrite (run_bind _ _ _ _ _ (put_status_run _ _ _)).
    erewrite run_bind; [split; [reflexivity|]|].
    2:{ apply upd_eq. unfold post_status. by destruct (truth stat). }
    split; [by rewrite Es|]. intros _. unfold post_status.
    destruct (truth stat); cbn; (split; [|by rewrite lookup_insert_eq]); (eapply tree_frame; [exact Ht|done|done|]);
      (intros x; cbn; destruct (decide (c = x)) as [<-|]; [rewrite lookup_insert_eq, Et; by destruct t|by rewrite lookup_insert_ne]).
  - assert (Ez : state t = TASK_ZOMBIE).
    { unfold ready in Hr. apply andb_true_iff in Hr as [_ Hr]. rewrite (proj2 (Z.eqb_neq _ _) Es) in Hr. cbn in Hr.
      by apply Z.eqb_eq in Hr. }
    destruct (reap_run k ch c t tc stat) as (k' & Hrun & Ht' & Hn & _); auto.
    exists k'. rewrite (run_bind _ _ _ _ _ Hrun). split; [done|]. split; [done|]. by rewrite Ez.
Qed.

(** [sys_waitpid] with WNOHANG always returns: with the number of the
    youngest child that matches and is dead (its structure, slot and links are
    then gone and the tree is well formed) or stopped and asked for (its exit
    code is then cleared); else with 0 when some matching child is neither
    dead nor stopped, else with -ECHILD. *)
Theorem waitpid_nohang (naps rounds : nat) (others : M kst unit) (pd stat options : Z)
    (k : kst) (ch : tptr -> list tptr) (tc : task_struct)
    (Ht : tree k ch) (Hcur : live k (current k)) (Etc : heap k !! current k = Some tc)
    (Hz : forall c t, live k c -> heap k !! c = Some t -> state t = TASK_ZOMBIE -> ch c = [])
    (Hnohang : truth (Z.land options WNOHANG) = true) :
  exists r k', sys_waitpid naps rounds others pd stat options k = Ok r k' /\
    match first_ready (heap k) pd (pgrp tc) options (ch (current k)) with
    | Some c => exists t, heap k !! c = Some t /\ r = pid t /\
        (state t = TASK_ZOMBIE -> tree k' (without c ch) /\ heap k' !! c = None) /\
        (state t = TASK_STOPPED -> tree k' ch /\ heap k' !! c = Some (set_exit_code 0 t))
    | None => heap k' = heap k /\
        r = if existsb (child_is (heap k) (busy pd (pgrp tc))) (ch (current k)) then 0 else - ECHILD
    end.
Proof.
  set (k0 := if truth stat then add_event (EVerify stat 4) k else k).
  assert (E0 : heap k0 = heap k /\ current k0 = current k /\ live k0 = live k /\ tree k0 ch).
  { unfold k0. destruct (truth stat); [|done]. split; [done|]. split; [done|]. split; [done|].
    by apply (tree_frame k). }
  destruct E0 as (Eh & Ec & El & Ht0). pose proof Etc as Etc0. rewrite <-Eh, <-Ec in Etc0.
  assert (Hhead : p_cptr tc = hd_or (ch (current k)) None).
  { pose proof (tr_head _ _ Ht _ Hcur) as Hh. rewrite Etc in Hh. injection Hh as ->. by destruct (ch (current k)). }
  assert (Hlen : (length (ch (current k)) < S (size (heap k)))%nat).
  { apply Nat.lt_succ_r, NoDup_heap_size; [by apply (tr_nodup _ _ Ht)|]. intros c Hc.
    destruct (live_heap k ch Ht c) as [t Et]; [|eauto]. by apply child_live_live, (tr_child _ _ Ht _ _ Hcur Hc). }
  pose proof (wait_scan k0 tc (Some (current k)) pd stat options (ch (current k)) (S (size (heap k))) None false Etc0) as Hscan.
  rewrite Eh in Hscan. specialize (Hscan (tr_dll _ _ Ht _ Hcur)). specialize (Hscan Hlen).
  unfold sys_waitpid. erewrite run_bind.
  2:{ unfold when. instantiate (1 := k0). unfold k0. by destruct (truth stat). }
  cbn [iter]. assert (Hround : forall w k1,
    iter (S (size (heap k))) (wait_step pd stat options) (hd_or (ch (current k)) None, false) k0 = Ok w k1 ->
    wait_round rounds others pd stat options tt k0 =
      Ok (inr (match w with Reaped p => p | Nothing true => 0 | Nothing false => - ECHILD end)) k1).
  { intros w k1 Hw. unfold wait_round. rewrite (run_bind getS _ _ k0 k0) by done.
    rewrite (run_bind _ _ _ _ _ (cur_eq p_cptr tc k0 Etc0)). rewrite Hhead, Eh, (run_bind _ _ _ _ _ Hw).
    destruct w as [p|[|]]; [done| |done]. by rewrite Hnohang. }
  destruct (first_ready (heap k) pd (pgrp tc) options (ch (current k))) as [c|] eqn:Ef.
  - destruct (first_ready_Some _ _ _ _ _ _ Ef) as (Hin & t & Et & Hr).
    destruct (report_run k0 ch pd options stat c t tc) as (k' & Hrep & H1 & H2); try done.
    { by rewrite El, Ec. } { by rewrite Ec. } { by rewrite Eh. }
    { apply Hz; [|done]. by apply child_live_live, (tr_child _ _ Ht _ _ Hcur Hin). }
    rewrite Hrep in Hscan. exists (pid t), k'. split; [by rewrite (run_bind _ _ _ _ _ (Hround _ _ Hscan))|].
    exists t. done.
  - eexists _, k0. split; [by rewrite (run_bind _ _ _ _ _ (Hround _ _ Hscan))|]. split; [done|].
    cbn [orb]. by destruct (existsb _ _).
Qed.

(** ** Adding a child *)

(** The heap after [link_child]: the task [q] becomes the youngest child of [c],
    whose children were [l]. *)
Definition new_child (c : tptr) (l : list tptr) (t : task_struct) : task_struct :=
  set_p_osptr (head l) (set_p_ysptr None (set_p_cptr None (set_p_pptr (Some c) t))).

Definition link_heap (h : gmap tptr task_struct) (c q : tptr) (l : list tptr) (t : task_struct) : gmap tptr task_struct :=
  let h1 := <[q := new_child c l t]> h in
  let h2 := match head l with Some o => alter (set_p_ysptr (Some q)) o h1 | None => h1 end in
  alter (set_p_cptr (Some q)) c h2.

Definition with_child (c q : tptr) (ch : tptr -> list tptr) (p : tptr) : list tptr :=
  if decide (p = c) then q :: ch c else if decide (p = q) then [] else ch p.

Section AddChild.
Context (k k' : kst) (ch : tptr -> list tptr) (q : tptr) (nr : Z) (t : task_struct).
Let c := current k.
Hypothesis (Htree : tree k ch) (Hc : live k c) (Hq : heap k !! q = None).
Hypothesis (Hnr : 1 <= nr <= 63) (Hslot : aget (task k) nr = Some None).
Hypothesis (Etask : task k' = <[Z.to_nat nr := Some q]> (task k)) (Ecur : current k' = c).
Hypothesis (Eheap : heap k' = link_heap (heap k) c q (ch c) t).

Lemma add_slot j : aget (task k') j = if decide (j = nr) then Some (Some q) else aget (task k) j.
Proof.
  pose proof (aget_Some_range _ _ _ Hslot). rewrite Etask. destruct (decide (j = nr)) as [->|].
  - by rewrite aget_insert_eq.
  - by rewrite aget_insert_ne by lia.
Qed.

Lemma add_live_ne x : live k x -> x <> q.
Proof. intros Hx ->. destruct (live_heap k ch Htree q Hx) as [? ?]. congruence. Qed.

Lemma add_child_ne p x : live k p -> x ∈ ch p -> x <> q.
Proof. intros Hp Hx. by apply add_live_ne, child_live_live, (tr_child _ _ Htree p). Qed.

Lemma add_live x : live k' x <-> live k x \/ x = q.
Proof.
  unfold live. split.
  - intros (j & Hj & E). rewrite add_slot in E. destruct (decide (j = nr)); [right; congruence|left; eauto].
  - intros [(j & Hj & E)| ->].
    + exists j. split; [done|]. rewrite add_slot. destruct (decide (j = nr)) as [->|]; [congruence|done].
    + exists nr. split; [lia|]. rewrite add_slot. by rewrite decide_True.
Qed.

Lemma add_child_live x : child_live k' x <-> child_live k x \/ x = q.
Proof.
  unfold child_live. split.
  - intros (j & Hj & E). rewrite add_slot in E. destruct (decide (j = nr)); [right; congruence|left; eauto].
  - intros [(j & Hj & E)| ->].
    + exists j. split; [done|]. rewrite add_slot. destruct (decide (j = nr)) as [->|]; [congruence|done].
    + exists nr. split; [lia|]. rewrite add_slot. by rewrite decide_True.
Qed.

Lemma add_dom x : is_Some (heap k !! x) \/ x = q -> is_Some (heap k' !! x).
Proof.
  intros Hx. rewrite Eheap. unfold link_heap. rewrite lookup_alter_is_Some.
  assert (H1 : is_Some (<[q := new_child c (ch c) t]> (heap k) !! x)).
  { apply lookup_insert_is_Some. destruct (decide (q = x)); [by left|right]. split; [done|]. naive_solver. }
  destruct (head (ch c)); [by rewrite lookup_alter_is_Some|done].
Qed.

Lemma add_wf : kst_wf k'.
Proof.
  destruct (tr_wf _ _ Htree) as [Hl Hptr Hcu Hinj]. split.
  - by rewrite Etask, length_insert.
  - intros j x E. rewrite add_slot in E. apply add_dom.
    destruct (decide (j = nr)); [right; congruence|left; by eapply Hptr].
  - rewrite Ecur. apply add_dom. by left.
  - assert (Hx : forall j x, aget (task k) j = Some (Some x) -> x <> q).
    { intros j x E. apply add_live_ne. pose proof (aget_Some_range _ _ _ E). exists j. split; [lia|done]. }
    intros a b x Ea Eb. rewrite add_slot in Ea, Eb. destruct (decide (a = nr)) as [Ha|], (decide (b = nr)) as [Hb|].
    + by rewrite Ha, Hb.
    + apply Hx in Eb. congruence.
    + apply Hx in Ea. congruence.
    + by eapply Hinj.
Qed.

(** The tasks whose links change are the new one and its next older sibling. *)
Lemma add_links x : x <> q -> Some x <> head (ch c) -> links <$> heap k' !! x = links <$> heap k !! x.
Proof.
  intros Hx Ho. rewrite Eheap. unfold link_heap.
  assert (H1 : (match head (ch c) with Some o => alter (set_p_ysptr (Some q)) o (<[q := new_child c (ch c) t]> (heap k))
                | None => <[q := new_child c (ch c) t]> (heap k) end) !! x = heap k !! x).
  { destruct (head (ch c)) as [o|]; [rewrite lookup_alter_ne by congruence|]; by rewrite lookup_insert_ne. }
  destruct (decide (c = x)) as [<-|]; [rewrite lookup_alter_eq|rewrite lookup_alter_ne by done]; rewrite H1; [|done].
  destruct (heap k !! c); cbn -[links]; [by rewrite links_set_cptr|done].
Qed.

Lemma add_new : heap k' !! q = Some (new_child c (ch c) t).
Proof.
  rewrite Eheap. unfold link_heap. assert (Hcq : c <> q) by (by apply add_live_ne).
  rewrite lookup_alter_ne by done. destruct (ch c) as [|o l] eqn:El; cbn [head].
  - by rewrite lookup_insert_eq.
  - rewrite lookup_alter_ne, lookup_insert_eq; [done|]. apply (add_child_ne c); [done|]. rewrite El. by left.
Qed.

Lemma add_dll : dll (heap k') (Some c) None (q :: ch c) None.
Proof.
  split.
  - rewrite add_new. cbn. unfold new_child, links. destruct t; cbn. by destruct (ch c).
  - pose proof (tr_dll _ _ Htree c Hc) as Hd. pose proof (tr_nodup _ _ Htree c Hc) as Hnd.
    assert (Hne : forall x, x ∈ ch c -> x <> q /\ x <> c).
    { intros x Hx. split; [by apply (add_child_ne c)|]. by apply (tr_child _ _ Htree c x). }
    rewrite Eheap. unfold link_heap. destruct (ch c) as [|o l] eqn:El; [done|]. cbn [head].
    apply NoDup_cons in Hnd as [Ho _]. destruct (Hne o) as [Hoq Hoc]; [by left|].
    destruct (heap k !! o) as [to|] eqn:Eto; [|destruct Hd as [Hd _]; by rewrite Eto in Hd].
    rewrite (alter_insert_eq _ (<[q := new_child c (o :: l) t]> (heap k)) o to) by (by rewrite lookup_insert_ne).
    apply dll_frame with (h := <[o := set_p_ysptr (Some q) to]> (<[q := new_child c (o :: l) t]> (heap k))).
    + eapply dll_set_ys; [|by rewrite lookup_insert_ne|done].
      eapply dll_frame; [exact Hd|]. intros x Hx. destruct (Hne x Hx). by rewrite lookup_insert_ne.
    + intros x Hx. destruct (Hne x Hx). by rewrite lookup_alter_ne.
Qed.

Lemma add_cptr x : live k x -> x <> c -> p_cptr <$> heap k' !! x = p_cptr <$> heap k !! x.
Proof.
  intros Hx Hxc. pose proof (add_live_ne x Hx) as Hxq. rewrite Eheap. unfold link_heap.
  rewrite lookup_alter_ne by done. destruct (head (ch c)) as [o|]; [|by rewrite lookup_insert_ne].
  destruct (decide (o = x)) as [<-|]; [|by rewrite lookup_alter_ne, lookup_insert_ne].
  rewrite lookup_alter_eq, lookup_insert_ne by done. by destruct (heap k !! o) as [[]|].
Qed.

Lemma add_tree : tree k' (with_child c q ch).
Proof.
  assert (Hcq : c <> q) by (by apply add_live_ne). split; [apply add_wf|..]; unfold with_child.
  - intros x [Hx| ->]%add_live.
    + destruct (decide (x = c)) as [->|Hxc].
      * rewrite Eheap. unfold link_heap. rewrite lookup_alter_eq.
        destruct (add_dom c) as [tc Etc]; [left; by apply (live_heap k ch)|].
        rewrite Eheap in Etc. unfold link_heap in Etc. rewrite lookup_alter_eq in Etc.
        apply fmap_Some in Etc as (t0 & Et0 & _). rewrite Et0. by destruct t0.
      * rewrite decide_False by (by apply add_live_ne). rewrite add_cptr by done. by apply (tr_head _ _ Htree).
    + rewrite decide_False, decide_True by done. rewrite add_new. unfold new_child. by destruct t.
  - intros x [Hx| ->]%add_live.
    + destruct (decide (x = c)) as [->|Hxc]; [apply add_dll|]. rewrite decide_False by (by apply add_live_ne).
      eapply dll_frame; [by apply (tr_dll _ _ Htree)|]. intros y Hy. apply add_links; [by apply (add_child_ne x)|].
      intros Hh. apply Hxc. apply (child_unique k ch Htree x c y); [done..|].
      destruct (ch c); [done|]. injection Hh as ->. by left.
    + by rewrite decide_False, decide_True.
  - intros x [Hx| ->]%add_live; [|by rewrite decide_False, decide_True by done; constructor].
    pose proof (tr_nodup _ _ Htree x Hx) as Hnd. destruct (decide (x = c)) as [->|].
    + constructor; [|done]. intros Hin. by apply (add_child_ne c q).
    + by rewrite decide_False by (by apply add_live_ne).
  - intros x y [Hx| ->]%add_live Hy; rewrite add_child_live.
    + destruct (decide (x = c)) as [->|].
      * apply elem_of_cons in Hy as [->|Hy]; [split; [by right|done]|].
        destruct (tr_child _ _ Htree c y Hc Hy). split; [by left|done].
      * rewrite decide_False in Hy by (by apply add_live_ne).
        destruct (tr_child _ _ Htree x y Hx Hy). split; [by left|done].
    + rewrite decide_False, decide_True in Hy by done. by apply elem_of_nil in Hy.
  - intros x [Hx| ->]%add_child_live.
    + destruct (tr_parent _ _ Htree x Hx) as (p & Hp & Hin). exists p. rewrite add_live. split; [by left|].
      destruct (decide (p = c)) as [->|]; [by right|]. by rewrite decide_False by (by apply add_live_ne).
    + exists c. rewrite add_live. split; [by left|]. rewrite decide_True by done. by left.
Qed.

End AddChild.

(** ** [sys_fork] *)

(** The segments a task must have to be copied: code and data share a base and
    the data segment is not the smaller one. *)
Definition good_segments (t : task_struct) (d1 d2 : Z * Z) : Prop :=
  aget (ldt t) 1 = Some d1 /\ aget (ldt t) 2 = Some d2 /\ get_base d2 = get_base d1 /\ get_limit d1 <= get_limit d2.

Definition moved (nr : Z) (d1 d2 : Z * Z) (t : task_struct) : task_struct :=
  let nb := u32 (nr * TASK_SIZE) in
  set_ldt (<[2%nat := set_base d2 nb]> (<[1%nat := set_base d1 nb]> (ldt t))) (set_start_code nb t).

Definition copy_events (cpt nr : Z) (d2 : Z * Z) : list event :=
  let nb := u32 (nr * TASK_SIZE) in
  ECopyPageTables (get_base d2) nb (get_limit d2) ::
  (if truth cpt then [EFreePageTables nb (get_limit d2)] else []).

Lemma copy_mem_run cpt nr q k tc t d1 d2 :
  heap k !! current k = Some tc -> heap k !! q = Some t -> ldt t = ldt tc -> q <> current k -> good_segments tc d1 d2 ->
  copy_mem cpt nr q k = Ok (if truth cpt then - ENOMEM else 0)
    (add_events (copy_events cpt nr d2) (set_heap (<[q := moved nr d1 d2 t]> (heap k)) k)).
Proof.
  intros Etc Et El Hne (H1 & H2 & Hb & Hl). pose proof (aget_Some_range _ _ _ H2) as Hr.
  unfold copy_mem. rewrite (run_bind _ _ _ _ _ (cur_eq ldt tc k Etc)), H1, H2.
  rewrite (run_bind _ _ k d1 k), (run_bind _ _ k d2 k) by done.
  rewrite Hb, Z.eqb_refl. cbn [negb]. destruct (Z.ltb_spec (get_limit d2) (get_limit d1)); [lia|].
  rewrite (run_bind _ _ _ _ _ (upd_eq q t _ k Et)).
  erewrite run_bind by (erewrite run_bind by (apply deref_eq, lookup_insert_eq); reflexivity).
  replace (ldt (set_start_code (u32 (nr * TASK_SIZE)) t)) with (ldt tc) by (rewrite <-El; by destruct t).
  rewrite H1, H2. rewrite (run_bind _ _ _ d1 _), (run_bind _ _ _ d2 _) by reflexivity.
  rewrite (aset_in_range (ldt tc) 1) by lia. erewrite run_bind by reflexivity.
  rewrite aset_in_range by (rewrite length_insert; lia). erewrite run_bind by reflexivity.
  erewrite run_bind by (apply upd_eq, lookup_insert_eq). erewrite run_bind by reflexivity.
  assert (Hfin : forall ev, add_events ev (set_heap (<[q := moved nr d1 d2 t]> (heap k)) k) =
    add_events ev (set_heap (<[q := set_ldt (<[Z.to_nat 2 := set_base d2 (u32 (nr * TASK_SIZE))]>
      (<[Z.to_nat 1 := set_base d1 (u32 (nr * TASK_SIZE))]> (ldt tc))) (set_start_code (u32 (nr * TASK_SIZE)) t)]>
      (<[q := set_start_code (u32 (nr * TASK_SIZE)) t]> (heap k))) k)).
  { intros ev. rewrite insert_insert_eq. unfold moved. by rewrite El. }
  unfold copy_events. destruct (truth cpt).
  - erewrite run_bind by reflexivity. rewrite Hfin. unfold add_events, add_event. cbn. by rewrite <-app_assoc, <-Hb.
  - rewrite Hfin. by rewrite <-Hb.
Qed.

Lemma add_events_app e1 e2 k : add_events e2 (add_events e1 k) = add_events (e1 ++ e2) k.
Proof. unfold add_events. cbn. by rewrite app_assoc. Qed.

(** A loop that only records events. *)
Lemma for_each_events {A} (g : A -> M kst unit) (l : list A) :
  (forall x k, exists ev, g x k = Ok tt (add_events ev k)) ->
  forall k, exists ev, for_each l g k = Ok tt (add_events ev k).
Proof.
  intros Hg. induction l as [|x l IH]; intros k; cbn [for_each].
  - exists []. by rewrite add_events_nil.
  - destruct (Hg x k) as [e1 H1]. rewrite (run_bind _ _ _ _ _ H1). destruct (IH (add_events e1 k)) as [e2 H2].
    rewrite H2. exists (e1 ++ e2). by rewrite add_events_app.
Qed.

Lemma hold_files_run q t tc k :
  heap k !! q = Some t -> heap k !! current k = Some tc -> exists ev, hold_files q k = Ok tt (add_events ev k).
Proof.
  intros Et Etc. unfold hold_files. rewrite (run_bind _ _ _ _ _ (deref_eq q t k Et)).
  assert (Hev : forall (e : positive -> event) (x : option positive) k0,
    exists ev, (match x with Some g => modify (add_event (e g)) | None => mret tt end) k0 = Ok tt (add_events ev k0)).
  { intros e [g|] k0; [exists [e g]; done|exists []; by rewrite add_events_nil]. }
  destruct (for_each_events (fun f => match f with Some g => modify (add_event (EHoldFile g)) | None => mret tt end)
              (filp t) (Hev EHoldFile) k) as [e1 H1].
  rewrite (run_bind _ _ _ _ _ H1), (run_bind _ _ _ _ _ (cur_eq id tc (add_events e1 k) Etc)).
  destruct (for_each_events (fun f => match f with Some g => modify (add_event (EHoldInode g)) | None => mret tt end)
              [pwd tc; root tc; executable tc; library tc] (Hev EHoldInode) (add_events e1 k)) as [e2 H2].
  exists (e1 ++ e2). rewrite <-add_events_app. exact H2.
Qed.

Lemma link_child_run k q t tc l :
  heap k !! q = Some t -> heap k !! current k = Some tc -> q <> current k -> p_cptr tc = head l ->
  (forall o, head l = Some o -> is_Some (heap k !! o) /\ o <> q) ->
  link_child q k = Ok tt (set_heap (link_heap (heap k) (current k) q l t) k).
Proof.
  intros Et Etc Hne Hl Ho. unfold link_child. erewrite run_bind by reflexivity.
  rewrite (run_bind _ _ _ _ _ (upd_eq q t _ k Et)).
  erewrite run_bind by (apply cur_eq; cbn; rewrite lookup_insert_ne by done; exact Etc). rewrite Hl.
  erewrite run_bind by (apply upd_eq, lookup_insert_eq). cbn [heap set_heap]. rewrite insert_insert_eq.
  set (h1 := <[q := new_child (current k) l t]> (heap k)).
  set (h2 := match head l with Some o => alter (set_p_ysptr (Some q)) o h1 | None => h1 end).
  assert (H2 : (match head l with Some _ => upd (head l) (set_p_ysptr (Some q)) | None => mret tt end) (set_heap h1 k)
               = Ok tt (set_heap h2 k)).
  { unfold h2. destruct (head l) as [o|]; [|done]. destruct (Ho o eq_refl) as [[to Eto] Hoq].
    assert (E1 : h1 !! o = Some to) by (unfold h1; by rewrite lookup_insert_ne).
    rewrite (upd_eq o to) by done. by rewrite (alter_insert_eq _ _ _ to). }
  change (set_p_osptr (head l) _) with (new_child (current k) l t).
  match goal with |- ((match head l with Some _ => _ | None => _ end) ≫= ?f) ?k0 = _ =>
    change k0 with (set_heap h1 k) end. rewrite (run_bind _ _ _ _ _ H2).
  assert (E2 : exists tc', h2 !! current k = Some tc').
  { unfold h2. destruct (head l) as [o|]; [apply lookup_alter_is_Some|]; unfold h1; rewrite lookup_insert_ne by done; eauto. }
  destruct E2 as [tc' E2]. rewrite (upd_cur_eq _ tc') by done.
  unfold link_heap. fold h1. fold h2. by rewrite (alter_insert_eq _ _ _ tc').
Qed.

Lemma set_slot_run nr v k x : aget (task k) nr = Some x -> set_slot nr v k = Ok tt (set_task (<[Z.to_nat nr := v]> (task k)) k).
Proof.
  intros Hx%aget_Some_range. unfold set_slot, getS, ofOpt, mbind, M_bind. by rewrite aset_in_range.
Qed.

(** The state in which [copy_mem] is called. *)
Definition fork_entry (k : kst) (q : tptr) (n nr : Z) (t : task_struct) : kst :=
  set_heap (<[q := t]> (heap k)) (set_task (<[Z.to_nat nr := Some q]> (task k)) (with_pid n k)).

Lemma sys_fork_start k q n nr r tc cpt :
  find_empty_process k = Ok nr (with_pid n k) -> 1 <= nr <= 63 -> aget (task k) nr = Some None ->
  heap k !! current k = Some tc ->
  sys_fork (Some q) cpt r k =
    (err ← copy_mem cpt nr q;
     if truth err then set_slot nr None;; free_task q;; mret (- EAGAIN)
     else hold_files q;; modify (add_event (EGdt nr q));; link_child q;; upd (Some q) (set_state TASK_RUNNING);;
          t' ← deref (Some q); mret (pid t'))
    (fork_entry k q n nr (child_task r nr n (jiffies k) q tc)).
Proof.
  intros Hf Hnr Hslot Etc. unfold sys_fork. rewrite (run_bind _ _ _ _ _ Hf).
  destruct (Z.ltb_spec nr 0); [lia|].
  rewrite (run_bind _ _ _ _ _ (set_slot_run nr _ (with_pid n k) _ Hslot)).
  rewrite (run_bind _ _ _ _ _ (cur_eq id tc (set_task _ (with_pid n k)) Etc)).
  do 2 (erewrite run_bind by reflexivity). by erewrite run_bind by reflexivity.
Qed.

Lemma ldt_child r nr n j q t : ldt (child_task r nr n j q t) = ldt t.
Proof. by destruct t. Qed.

(** What the new task has from its parent and what is its own. *)
Definition forked (r : regs) (n : Z) (tc t : task_struct) : Prop :=
  pid t = n /\ state t = TASK_RUNNING /\ signal t = 0 /\ counter t = priority tc /\ alarm t = 0 /\
  (tss_eax (tss t), tss_eip (tss t), tss_esp (tss t), tss_ebx (tss t)) = (0, r_eip r, r_esp r, r_ebx r) /\
  (uid t, euid t, suid t, gid t, egid t, sgid t) = (uid tc, euid tc, suid tc, gid tc, egid tc, sgid tc) /\
  (sigactions t, blocked t, filp t, pgrp t, session t) = (sigactions tc, blocked tc, filp tc, pgrp tc, session tc).

(** C8: [sys_fork] with a free page and a free slot, on a well-formed process
    tree: it returns a process number no task uses as number or group; the
    new task is runnable, will see 0 as the result of the call, has its
    parent's registers, users, groups, signal handlers and files, no pending
    signal, and a segment of its own; and the tree is well formed with the new
    task as the youngest child of the caller. *)
Theorem sys_fork_child (r : regs) (k : kst) (ch : tptr -> list tptr) (q : tptr) (tc : task_struct) (d1 d2 : Z * Z)
    (Htree : tree k ch) (Hcur : live k (current k)) (Etc : heap k !! current k = Some tc) (Hq : heap k !! q = None)
    (Hpid : 0 <= last_pid (sysd k) <= 2147483647) (Hseg : good_segments tc d1 d2)
    (Hfree : exists i, 1 <= i <= 63 /\ aget (task k) i = Some None) :
  exists n k' t nr, sys_fork (Some q) 0 r k = Ok n k' /\ heap k' !! q = Some t /\ forked r n tc t /\
    (forall i t', 0 <= i < 64 -> task_in k i = Some t' -> pid t' <> n /\ pgrp t' <> n) /\
    1 <= nr <= 63 /\ aget (task k') nr = Some (Some q) /\
    (exists d, aget (ldt t) 1 = Some d /\ get_base d = nr * TASK_SIZE) /\
    tree k' (with_child (current k) q ch).
Proof.
  destruct (find_empty_process_run k (tr_wf _ _ Htree) Hpid Hfree) as (nr & n & Hf & Hn & Hfresh & Hnr & Hslot).
  set (c0 := child_task r nr n (jiffies k) q tc). set (k1 := fork_entry k q n nr c0).
  assert (Hqc : q <> current k) by congruence.
  assert (E1 : heap k1 !! q = Some c0) by apply lookup_insert_eq.
  assert (Ec1 : heap k1 !! current k1 = Some tc) by (cbn; by rewrite lookup_insert_ne).
  pose proof (copy_mem_run 0 nr q k1 tc c0 d1 d2 Ec1 E1 (ldt_child _ _ _ _ _ _) Hqc Hseg) as Hcm.
  set (c1 := moved nr d1 d2 c0) in *. set (k2 := add_events _ _) in Hcm.
  destruct (hold_files_run q c1 tc k2) as [ev Hh]; [apply lookup_insert_eq|cbn; by rewrite !lookup_insert_ne|].
  set (k3 := add_event (EGdt nr q) (add_events ev k2)).
  assert (Hl : p_cptr tc = head (ch (current k))).
  { pose proof (tr_head _ _ Htree _ Hcur) as Hh0. rewrite Etc in Hh0. by injection Hh0. }
  assert (Hlink : link_child q k3 = Ok tt (set_heap (link_heap (heap k3) (current k) q (ch (current k)) c1) k3)).
  { apply (link_child_run k3 q c1 tc); [apply lookup_insert_eq|cbn; by rewrite !lookup_insert_ne|done|done|].
    intros o Ho. assert (Hin : o ∈ ch (current k)) by (destruct (ch (current k)); [done|]; injection Ho as ->; by left).
    destruct (tr_child _ _ Htree _ _ Hcur Hin) as [Hol _]. apply child_live_live in Hol.
    assert (Hoq : o <> q) by (by apply (add_live_ne k ch)).
    split; [|done]. cbn. rewrite !lookup_insert_ne by done. by apply (live_heap k ch). }
  assert (Eh3 : link_heap (heap k3) (current k) q (ch (current k)) c1 = link_heap (heap k) (current k) q (ch (current k)) c1).
  { unfold link_heap. cbn. by rewrite !insert_insert_eq. }
  rewrite Eh3 in Hlink. set (k4 := set_heap _ k3) in Hlink.
  assert (Htree4 : tree k4 (with_child (current k) q ch)) by (by apply (add_tree k k4 ch q nr c1)).
  assert (Eq4 : heap k4 !! q = Some (new_child (current k) (ch (current k)) c1)) by (by apply (add_new k k4 ch q c1)).
  set (t := set_state TASK_RUNNING (new_child (current k) (ch (current k)) c1)).
  exists n, (set_heap (<[q := t]> (heap k4)) k4), t, nr. split; [|split; [apply lookup_insert_eq|]].
  { rewrite (sys_fork_start k q n nr r tc 0 Hf Hnr Hslot Etc). rewrite (run_bind _ _ _ _ _ Hcm).
    cbn [truth negb Z.eqb]. change (truth 0) with false. cbn iota. rewrite (run_bind _ _ _ _ _ Hh).
    erewrite run_bind by reflexivity. rewrite (run_bind _ _ _ _ _ Hlink).
    rewrite (run_bind _ _ _ _ _ (upd_eq q _ _ k4 Eq4)).
    erewrite run_bind by (apply deref_eq, lookup_insert_eq). unfold mret, M_ret. f_equal. by destruct tc. }
  split; [by destruct tc|]. split; [done|]. split; [done|]. split; [|split].
  - cbn. rewrite aget_insert_eq by (by eapply aget_Some_range). done.
  - exists (set_base d1 (u32 (nr * TASK_SIZE))). destruct Hseg as (Hs1 & Hs2 & _). split.
    + unfold new_child, c1, moved. pose proof (aget_Some_range _ _ _ Hs1) as Hr1.
      assert (El : ldt c0 = ldt tc) by apply ldt_child. destruct c0; cbn in *. rewrite El. unfold aget. cbn.
      rewrite list_lookup_insert_ne by done. apply list_lookup_insert_eq. lia.
    + rewrite get_base_set_base by (apply u32_range). apply u32_small. unfold in_u32, TASK_SIZE. lia.
  - eapply tree_frame; [exact Htree4|done|done|]. intros x. cbn -[links].
    destruct (decide (q = x)) as [<-|]; [|by rewrite lookup_insert_ne]. cbn in Eq4. rewrite lookup_insert_eq, Eq4.
    cbn -[links]. by destruct (new_child _ _ _).
Qed.

(** when [sys_fork] cannot give a child - no page, no slot, or no memory
    for its page tables - it returns -EAGAIN and leaves the process table and
    all task structures as they were. *)
Theorem sys_fork_fails_clean (page : option tptr) (cpt : Z) (r : regs) (k : kst) (tc : task_struct) (d1 d2 : Z * Z)
    (Hw : kst_wf k) (Etc : heap k !! current k = Some tc) (Hpage : forall q, page = Some q -> heap k !! q = None)
    (Hpid : 0 <= last_pid (sysd k) <= 2147483647) (Hseg : good_segments tc d1 d2)
    (Hfail : page = None \/ (forall i, 1 <= i <= 63 -> aget (task k) i <> Some None) \/ cpt <> 0) :
  exists k', sys_fork page cpt r k = Ok (- EAGAIN) k' /\ heap k' = heap k /\ task k' = task k /\ current k' = current k.
Proof.
  destruct page as [q|]; [|by exists k]. specialize (Hpage q eq_refl).
  destruct (find_empty_process_spec k Hw Hpid) as (nr & n & Hf & Hn & Hfr & [[Hnr Hslot]|[-> Hall]]).
  - assert (Hcpt : cpt <> 0) by (destruct Hfail as [|[Hno|]]; [done|by apply Hno in Hslot|done]).
    rewrite (sys_fork_start k q n nr r tc cpt Hf Hnr Hslot Etc).
    set (c0 := child_task r nr n (jiffies k) q tc).
    assert (Hqc : q <> current k) by congruence.
    assert (Hcm : copy_mem cpt nr q (fork_entry k q n nr c0) = Ok (if truth cpt then - ENOMEM else 0)
      (add_events (copy_events cpt nr d2) (set_heap (<[q := moved nr d1 d2 c0]> (heap (fork_entry k q n nr c0))) (fork_entry k q n nr c0)))).
    { apply (copy_mem_run cpt nr q _ tc c0 d1 d2); [cbn; by rewrite lookup_insert_ne|apply lookup_insert_eq|apply ldt_child|done|done]. }
    assert (Htr : truth cpt = true) by (unfold truth; by destruct (Z.eqb_spec cpt 0)). rewrite Htr in Hcm.
    rewrite (run_bind _ _ _ _ _ Hcm). change (truth (- ENOMEM)) with true. cbn iota.
    erewrite run_bind.
    2:{ apply set_slot_run with (x := Some q). cbn. apply aget_insert_eq. by eapply aget_Some_range. }
    erewrite run_bind by reflexivity. eexists. split; [reflexivity|]. cbn. split; [|split; [|done]].
    + rewrite !delete_insert_eq. by apply delete_id.
    + rewrite list_insert_insert_eq. apply list_insert_id. unfold aget in Hslot. by destruct (nr <? 0).
  - eexists. unfold sys_fork. rewrite (run_bind _ _ _ _ _ Hf). change (- EAGAIN <? 0) with true. cbn iota.
    by erewrite run_bind by reflexivity.
Qed.

(** ** A small tree: task 2, child of 1, runs; its children are 4, which is
    dead, and 3, which runs. *)

Definition demo_task (n par : positive) (cp ys os : option tptr) (st : Z) : task_struct :=
  set_state st (set_p_osptr os (set_p_ysptr ys (set_p_cptr cp (set_p_pptr (Some par)
    (set_pid (Zpos n - 1) (INIT_TASK 1)))))).

Definition demo_tree : kst :=
  Kst (<[1 := demo_task 1 1 (Some 2) None None TASK_RUNNING]> (<[2 := demo_task 2 1 (Some 4) None None TASK_RUNNING]>
       (<[3 := demo_task 3 2 None (Some 4) None TASK_RUNNING]> {[4 := demo_task 4 2 None None (Some 3) TASK_ZOMBIE]})))%positive
      ([Some 1; Some 2; Some 3; Some 4]%positive ++ replicate 60 None)
      2 0 0 0 ∅ (Tst [] None 0 []) (SysData [] 0 0 0 3 None 0 []) [].

Definition demo_ch (p : tptr) : list tptr :=
  if decide (p = 1%positive) then [2%positive] else if decide (p = 2%positive) then [4; 3]%positive else [].

Lemma demo_live p : live demo_tree p -> p ∈ [1; 2; 3; 4]%positive.
Proof.
  intros (i & Hi & E). unfold aget in E. destruct (i <? 0); [done|]. apply list_elem_of_lookup_2 in E.
  cbn [task demo_tree] in E. apply elem_of_app in E as [E|E].
  - rewrite !elem_of_cons, elem_of_nil in E. rewrite !elem_of_cons.
    destruct E as [[= ->]|[[= ->]|[[= ->]|[[= ->]|[]]]]]; tauto.
  - by apply elem_of_replicate in E as [? _].
Qed.

Lemma demo_child_live p : child_live demo_tree p -> p ∈ [2; 3; 4]%positive.
Proof.
  intros (i & Hi & E). assert (Hp : live demo_tree p) by (exists i; split; [lia|done]). apply demo_live in Hp.
  rewrite !elem_of_cons in *. destruct Hp as [->|Hp]; [|tauto].
  exfalso. assert (E0 : aget (task demo_tree) 0 = Some (Some 1%positive)) by done.
  assert (Hw : kst_wf demo_tree) by (apply kst_wfb_sound; vm_compute; reflexivity).
  pose proof (wf_inj _ Hw i 0 _ E E0). lia.
Qed.

Lemma demo_tree_ok : tree demo_tree demo_ch.
Proof.
  assert (Hcl : forall c, c ∈ [2; 3; 4]%positive -> child_live demo_tree c).
  { intros c Hc. rewrite !elem_of_cons, elem_of_nil in Hc.
    destruct Hc as [->|[->|[->|[]]]]; [exists 1|exists 2|exists 3]; (split; [lia|reflexivity]). }
  split.
  - apply kst_wfb_sound. vm_compute. reflexivity.
  - intros p Hp%demo_live. rewrite !elem_of_cons, elem_of_nil in Hp. destruct Hp as [->|[->|[->|[->|[]]]]]; reflexivity.
  - intros p Hp%demo_live. rewrite !elem_of_cons, elem_of_nil in Hp.
    destruct Hp as [->|[->|[->|[->|[]]]]]; repeat (split; [reflexivity|]); exact I.
  - intros p _. unfold demo_ch. repeat destruct (decide _); repeat constructor; set_solver.
  - intros p c _ Hc. unfold demo_ch in Hc. destruct (decide (p = 1%positive)) as [->|]; [|destruct (decide (p = 2%positive)) as [->|]].
    + rewrite list_elem_of_singleton in Hc. subst c. split; [apply Hcl; set_solver|done].
    + rewrite !elem_of_cons, elem_of_nil in Hc. destruct Hc as [->|[->|[]]]; (split; [apply Hcl; set_solver|done]).
    + by apply elem_of_nil in Hc.
  - intros c Hc%demo_child_live. rewrite !elem_of_cons, elem_of_nil in Hc.
    assert (L1 : live demo_tree 1) by (exists 0; split; [lia|reflexivity]).
    assert (L2 : live demo_tree 2) by (exists 1; split; [lia|reflexivity]).
    destruct Hc as [->|[->|[->|[]]]]; [exists 1%positive|exists 2%positive|exists 2%positive];
      (split; [done|]; unfold demo_ch; cbn; set_solver).
Qed.

Lemma demo_seg : good_segments (demo_task 2 1 (Some 4) None None TASK_RUNNING)%positive (0x9f, 0xc0fa00) (0x9f, 0xc0f200).
Proof. repeat split; vm_compute; (reflexivity || discriminate). Qed.

Lemma demo_cur : heap demo_tree !! current demo_tree = Some (demo_task 2 1 (Some 4) None None TASK_RUNNING)%positive.
Proof. reflexivity. Qed.

Lemma demo_cur_live : live demo_tree (current demo_tree).
Proof. exists 1. split; [lia|reflexivity]. Qed.

Lemma release_tree_witness :
  exists k', release (Some 4%positive) demo_tree = Ok tt k' /\ tree k' (without 4 demo_ch) /\
    (forall x, live k' x <-> live demo_tree x /\ x <> 4%positive) /\ heap k' !! 4%positive = None.
Proof.
  apply (release_tree demo_tree demo_ch 4 demo_tree_ok); [exists 3; split; [lia|reflexivity]|discriminate|reflexivity].
Defined.

Lemma waitpid_nohang_witness :
  exists r k', sys_waitpid 0 0 (mret tt) (-1) 0 WNOHANG demo_tree = Ok r k' /\
    exists t, heap demo_tree !! 4%positive = Some t /\ r = pid t /\
        (state t = TASK_ZOMBIE -> tree k' (without 4 demo_ch) /\ heap k' !! 4%positive = None) /\
        (state t = TASK_STOPPED -> tree k' demo_ch /\ heap k' !! 4%positive = Some (set_exit_code 0 t)).
Proof.
  refine (waitpid_nohang 0 0 (mret tt) (-1) 0 WNOHANG demo_tree demo_ch _ demo_tree_ok demo_cur_live demo_cur _ eq_refl).
  intros c t Hc%demo_live Et Hz. rewrite !elem_of_cons, elem_of_nil in Hc.
  destruct Hc as [->|[->|[->|[->|[]]]]]; vm_compute in Et; injection Et as <-; vm_compute in Hz; try discriminate; reflexivity.
Defined.

Lemma sys_fork_child_witness :
  exists n k' t nr, sys_fork (Some 9%positive) 0 (Regs 0 0 0 0 0 0 0 0 0 0 0 0 7 0 0 0 0) demo_tree = Ok n k' /\
    heap k' !! 9%positive = Some t /\
    forked (Regs 0 0 0 0 0 0 0 0 0 0 0 0 7 0 0 0 0) n (demo_task 2 1 (Some 4) None None TASK_RUNNING)%positive t /\
    (forall i t', 0 <= i < 64 -> task_in demo_tree i = Some t' -> pid t' <> n /\ pgrp t' <> n) /\
    1 <= nr <= 63 /\ aget (task k') nr = Some (Some 9%positive) /\
    (exists d, aget (ldt t) 1 = Some d /\ get_base d = nr * TASK_SIZE) /\
    tree k' (with_child 2 9 demo_ch).
Proof.
  apply (sys_fork_child _ demo_tree demo_ch 9 _ (0x9f, 0xc0fa00) (0x9f, 0xc0f200) demo_tree_ok demo_cur_live demo_cur eq_refl);
    [cbn; lia|exact demo_seg|].
  exists 4. split; [lia|reflexivity].
Defined.

Lemma sys_fork_fails_clean_witness :
  exists k', sys_fork (Some 9%positive) 1 (Regs 0 0 0 0 0 0 0 0 0 0 0 0 7 0 0 0 0) demo_tree = Ok (- EAGAIN) k' /\
    heap k' = heap demo_tree /\ task k' = task demo_tree /\ current k' = current demo_tree.
Proof.
  refine (sys_fork_fails_clean (Some 9%positive) 1 _ demo_tree _ _ _ (tr_wf _ _ demo_tree_ok) demo_cur _ _ demo_seg _).
  - intros q [= <-]. reflexivity.
  - cbn. lia.
  - right. by right.
Defined.

(** on a well-formed process tree the kernel's own check, [audit_ptree],
    follows no bad pointer, prints no warning and changes nothing. *)
Theorem audit_ptree_silent (k : kst) (ch : tptr -> list tptr) (Htree : tree k ch) : audit_ptree k = Ok tt k.
Proof. by apply (audit_silent k ch). Qed.

Lemma audit_ptree_silent_witness : audit_ptree demo_tree = Ok tt demo_tree.
Proof. exact (audit_ptree_silent demo_tree demo_ch demo_tree_ok). Defined.
