(* ===== verification/Signal.v ===== *)
(** * Signal handling: [kernel/signal.c]

    The calls that set masks and handlers, and [do_signal], which runs on the
    way back to user mode: it restarts or interrupts the system call, ignores,
    stops or kills, or builds the frame for the user's handler.

    User memory is a function [fs] from addresses to bytes; what the kernel
    writes there is recorded as events. *)

From S2P Require Import Prelude TaskStruct Sched Exit.

(** ** User memory: [get_fs_byte], [get_fs_word], [get_fs_long] of [asm/segment.h] *)

Definition umem : Type := Z -> Z.
Definition get_fs_byte (fs : umem) (a : Z) : Z := u8 (fs (u32 a)).
Definition get_fs_word (fs : umem) (a : Z) : Z := get_fs_byte fs a + 256 * get_fs_byte fs (a + 1).
Definition get_fs_long (fs : umem) (a : Z) : Z := get_fs_word fs a + 65536 * get_fs_word fs (a + 2).

Definition put_fs_byte (v a : Z) : M kst unit := modify (add_event (EPutB (u32 a) (u8 v))).
Definition put_fs_word (v a : Z) : M kst unit := modify (add_event (EPutW (u32 a) (u16 v))).
Definition put_fs_long (v a : Z) : M kst unit := modify (add_event (EPut (u32 a) (u32 v))).
Definition call_verify_area (a n : Z) : M kst unit := modify (add_event (EVerify a n)).

Lemma get_fs_word_range fs a : 0 <= get_fs_word fs a < 65536.
Proof.
  unfold get_fs_word, get_fs_byte. pose proof (u8_range (fs (u32 a))). pose proof (u8_range (fs (u32 (a + 1)))). lia.
Qed.

Lemma get_fs_long_range fs a : in_u32 (get_fs_long fs a).
Proof.
  unfold get_fs_long, in_u32. pose proof (get_fs_word_range fs a). pose proof (get_fs_word_range fs (a + 2)). lia.
Qed.

(** ** Masks *)

(** [int sys_sgetmask()] *)
Definition sys_sgetmask : M kst Z := b ← cur blocked; mret (s32 b).

(** [int sys_ssetmask(int newmask)] *)
Definition sys_ssetmask (newmask : Z) : M kst Z :=
  old ← cur blocked;
  upd_cur (set_blocked (Z.ldiff (Z.ldiff (u32 newmask) (word_bit (SIGKILL - 1))) (word_bit (SIGSTOP - 1))));;
  mret (s32 old).

(** [int sys_sigpending(sigset_t *set)] *)
Definition sys_sigpending (set : Z) : M kst Z :=
  call_verify_area set 4;;
  t ← cur id;
  put_fs_long (Z.land (blocked t) (signal t)) set;;
  mret 0.

(** [int sys_sigsuspend(int restart, unsigned long old_mask, unsigned long set)]:
    the call also writes its own arguments on the stack; the result is the
    return value, [restart] and [old_mask]. *)
Definition sys_sigsuspend (rounds : nat) (others : M kst unit) (restart old_mask set : Z) : M kst (Z * Z * Z) :=
  if truth restart then
    upd_cur (set_blocked old_mask);; mret (- EINTR, restart, old_mask)
  else
    old ← cur blocked;
    upd_cur (set_blocked set);;
    _ ← sys_pause rounds others;
    mret (- ERESTARTNOINTR, 0, old).

(** ** Handlers *)

(** The sixteen bytes of a [struct sigaction] in memory. *)
Definition long_bytes (v : Z) : list Z := [u8 v; u8 (Z.shiftr v 8); u8 (Z.shiftr v 16); u8 (Z.shiftr v 24)].
Definition sigaction_bytes (sa : sigaction) : list Z :=
  long_bytes (sa_handler sa) ++ long_bytes (sa_mask sa) ++ long_bytes (sa_flags sa) ++ long_bytes (sa_restorer sa).

(** [static inline void save_old(char *from, char *to)] *)
Fixpoint put_bytes (l : list Z) (to : Z) : M kst unit :=
  match l with [] => mret tt | b :: l' => put_fs_byte b to;; put_bytes l' (to + 1) end.
Definition save_old (from : sigaction) (to : Z) : M kst unit :=
  call_verify_area to 16;; put_bytes (sigaction_bytes from) to.

(** [static inline void get_new(char *from, char *to)] *)
Definition get_new (fs : umem) (from : Z) : sigaction :=
  SigAction (get_fs_long fs from) (get_fs_long fs (from + 4)) (get_fs_long fs (from + 8)) (get_fs_long fs (from + 12)).

Definition bad_signal (signum : Z) : bool :=
  (signum <? 1) || (32 <? signum) || (signum =? SIGKILL) || (signum =? SIGSTOP).

(** [current->sigaction[n] = v] *)
Definition set_action (n : Z) (v : sigaction) : M kst unit :=
  l ← cur sigactions; l' ← ofOpt (aset l n v); upd_cur (set_sigactions l').
Definition get_action (n : Z) : M kst sigaction := l ← cur sigactions; ofOpt (aget l n).

(** [int sys_signal(int signum, long handler, long restorer)] *)
Definition sys_signal (signum handler restorer : Z) : M kst Z :=
  if bad_signal signum then mret (- EINVAL)
  else
    old ← get_action (signum - 1);
    set_action (signum - 1) (SigAction (u32 handler) 0 (Z.lor SA_ONESHOT SA_NOMASK) (u32 restorer));;
    mret (s32 (sa_handler old)).

(** [int sys_sigaction(int signum, const struct sigaction *action, struct sigaction *oldaction)] *)
Definition sys_sigaction (fs : umem) (signum action oldaction : Z) : M kst Z :=
  if bad_signal signum then mret (- EINVAL)
  else
    tmp ← get_action (signum - 1);
    set_action (signum - 1) (get_new fs action);;
    when (truth oldaction) (save_old tmp oldaction);;
    sa ← get_action (signum - 1);
    (if truth (Z.land (sa_flags sa) SA_NOMASK)
     then set_action (signum - 1) (SigAction (sa_handler sa) 0 (sa_flags sa) (sa_restorer sa))
     else set_action (signum - 1) (SigAction (sa_handler sa) (Z.lor (sa_mask sa) (word_bit (signum - 1)))
                                     (sa_flags sa) (sa_restorer sa)));;
    mret 0.

(** [int core_dump(long signr)] *)
Definition core_dump (signr : Z) : Z := 0.

(** ** [do_signal] *)

(** The registers of the interrupted program that [do_signal] reads or changes. *)
Record frame := Frame { f_eax : Z; f_ecx : Z; f_edx : Z; f_orig_eax : Z; f_eip : Z; f_eflags : Z; f_esp : Z }.

(** A system call that asks to be restarted is interrupted or set back to its
    [int 0x80] instruction: new values of [eax] and [eip]. *)
Definition restart_call (signr flags : Z) (f : frame) : Z * Z :=
  if negb (f_orig_eax f =? -1) && ((f_eax f =? - ERESTARTSYS) || (f_eax f =? - ERESTARTNOINTR)) then
    if (f_eax f =? - ERESTARTSYS) && (truth (Z.land flags SA_INTERRUPT) || (signr <? SIGCONT) || (SIGTTOU <? signr))
    then (- EINTR, f_eip f)
    else (f_orig_eax f, s32 (f_eip f - 2))
  else (f_eax f, f_eip f).

(** The words pushed on the user's stack, from the new top upwards. *)
Definition signal_words (signr : Z) (sa : sigaction) (blocked eax : Z) (f : frame) (old_eip : Z) : list Z :=
  [sa_restorer sa; signr]
  ++ (if truth (Z.land (sa_flags sa) SA_NOMASK) then [] else [blocked])
  ++ [eax; f_ecx f; f_edx f; f_eflags f; old_eip].

Fixpoint put_longs (l : list Z) (a : Z) : M kst unit :=
  match l with [] => mret tt | v :: l' => put_fs_long v a;; put_longs l' (a + 4) end.

(** The default action of a signal; the branches that kill the task do not
    come back from [do_exit]. *)
Definition default_action (rounds : nat) (signr : Z) (f : frame) : M kst (Z * frame) :=
  if (signr =? SIGCONT) || (signr =? SIGCHLD) then mret (1, f)
  else if (signr =? SIGSTOP) || (signr =? SIGTSTP) || (signr =? SIGTTIN) || (signr =? SIGTTOU) then
    upd_cur (fun t => set_exit_code signr (set_state TASK_STOPPED t));;
    pp ← cur p_pptr; tp ← deref pp;
    pa ← ofOpt (aget (sigactions tp) (SIGCHLD - 1));
    when (negb (truth (Z.land (sa_flags pa) SA_NOCLDSTOP)))
      (upd pp (fun t => set_signal (Z.lor (signal t) (word_bit (SIGCHLD - 1))) t));;
    mret (1, f)
  else if (signr =? SIGQUIT) || (signr =? SIGILL) || (signr =? SIGTRAP) || (signr =? SIGIOT)
          || (signr =? SIGFPE) || (signr =? SIGSEGV) then
    when (truth (core_dump signr)) (do_exit rounds (Z.lor signr 0x80));;
    do_exit rounds signr;; mret (1, f)
  else do_exit rounds signr;; mret (1, f).

(** [int do_signal(long signr, long eax, ...)]: the return value and the frame
    as the call leaves it. *)
Definition do_signal (rounds : nat) (signr : Z) (f : frame) : M kst (Z * frame) :=
  sa ← get_action (signr - 1);
  let '(eax, eip) := restart_call signr (sa_flags sa) f in
  let f1 := Frame eax (f_ecx f) (f_edx f) (f_orig_eax f) eip (f_eflags f) (f_esp f) in
  let h := sa_handler sa in
  if h =? 1 then mret (1, f1)
  else if h =? 0 then default_action rounds signr f1
  else
    when (truth (Z.land (sa_flags sa) SA_ONESHOT))
      (set_action (signr - 1) (SigAction 0 (sa_mask sa) (sa_flags sa) (sa_restorer sa)));;
    let longs := if truth (Z.land (sa_flags sa) SA_NOMASK) then 7 else 8 in
    let esp := u32 (f_esp f - 4 * longs) in
    call_verify_area esp (longs * 4);;
    b ← cur blocked;
    put_longs (signal_words signr sa b eax f eip) esp;;
    upd_cur (fun t => set_blocked (Z.lor (blocked t) (sa_mask sa)) t);;
    mret (0, Frame eax (f_ecx f) (f_edx f) (f_orig_eax f) (s32 h) (f_eflags f) esp).

(** ** The frame a handler gets *)

Fixpoint long_events (l : list Z) (a : Z) : list event :=
  match l with [] => [] | v :: l' => EPut (u32 a) (u32 v) :: long_events l' (a + 4) end.

Definition set_trace (tr : list event) (k : kst) : kst :=
  Kst (heap k) (task k) (current k) (jiffies k) (startup_time k) (jiffies_offset k) (wq k) (timers k) (sysd k) tr.

Lemma put_longs_run l : forall a k, put_longs l a k = Ok tt (set_trace (trace k ++ long_events l a) k).
Proof.
  induction l as [|v l IH]; intros a k; cbn [put_longs long_events].
  - rewrite app_nil_r. by destruct k.
  - erewrite run_bind by reflexivity. rewrite IH. unfold set_trace, add_event. cbn. by rewrite <-app_assoc.
Qed.

Lemma get_action_run n k t sa : heap k !! current k = Some t -> aget (sigactions t) n = Some sa -> get_action n k = Ok sa k.
Proof. intros Ht Hn. unfold get_action. rewrite (run_bind _ _ _ _ _ (cur_eq sigactions t k Ht)), Hn. done. Qed.

Lemma set_action_run n v k t sa :
  heap k !! current k = Some t -> aget (sigactions t) n = Some sa ->
  set_action n v k =
    Ok tt (set_heap (<[current k := set_sigactions (<[Z.to_nat n := v]> (sigactions t)) t]> (heap k)) k).
Proof.
  intros Ht Hn. unfold set_action. rewrite (run_bind _ _ _ _ _ (cur_eq sigactions t k Ht)).
  rewrite aset_in_range by (by eapply aget_Some_range). erewrite run_bind by reflexivity. by apply upd_cur_eq.
Qed.

(** The number of words pushed. *)
Lemma signal_words_length signr sa b eax f eip :
  Z.of_nat (length (signal_words signr sa b eax f eip)) = if truth (Z.land (sa_flags sa) SA_NOMASK) then 7 else 8.
Proof. unfold signal_words. by destruct (truth _). Qed.

Definition reset_oneshot (signr : Z) (sa : sigaction) (t : task_struct) : task_struct :=
  if truth (Z.land (sa_flags sa) SA_ONESHOT)
  then set_sigactions (<[Z.to_nat (signr - 1) := SigAction 0 (sa_mask sa) (sa_flags sa) (sa_restorer sa)]> (sigactions t)) t
  else t.

(** [do_signal] with a user handler: the call returns 0 with the program
    counter at the handler; directly below the old stack top it has verified
    and written, in order, the restorer, the signal number, the old mask
    (unless SA_NOMASK), eax, ecx, edx, eflags and the return address - eax and
    the address already set for restarting or interrupting the system call;
    the mask is the old one joined with the handler's, and a one-shot handler
    is reset to the default. Nothing else changes. *)
Theorem do_signal_frame (rounds : nat) (signr : Z) (f : frame) (k : kst) (t : task_struct) (sa : sigaction)
    (Hcur : heap k !! current k = Some t) (Hsa : aget (sigactions t) (signr - 1) = Some sa)
    (Hh : sa_handler sa <> 0 /\ sa_handler sa <> 1) :
  let '(eax, eip) := restart_call signr (sa_flags sa) f in
  let words := signal_words signr sa (blocked t) eax f eip in
  let esp := u32 (f_esp f - 4 * Z.of_nat (length words)) in
  let t' := set_blocked (Z.lor (blocked t) (sa_mask sa)) (reset_oneshot signr sa t) in
  do_signal rounds signr f k =
    Ok (0, Frame eax (f_ecx f) (f_edx f) (f_orig_eax f) (s32 (sa_handler sa)) (f_eflags f) esp)
       (set_trace (trace k ++ EVerify esp (4 * Z.of_nat (length words)) :: long_events words esp)
          (set_heap (<[current k := t']> (heap k)) k)).
Proof.
  destruct (restart_call signr (sa_flags sa) f) as [eax eip] eqn:Er. cbv zeta.
  rewrite signal_words_length. unfold do_signal. rewrite (run_bind _ _ _ _ _ (get_action_run _ _ _ _ Hcur Hsa)), Er.
  destruct Hh as [H0 H1]. rewrite (proj2 (Z.eqb_neq _ _) H0), (proj2 (Z.eqb_neq _ _) H1). cbv zeta.
  set (n := if truth (Z.land (sa_flags sa) SA_NOMASK) then 7 else 8). set (esp := u32 (f_esp f - 4 * n)).
  set (t1 := reset_oneshot signr sa t). set (k1 := set_heap (<[current k := t1]> (heap k)) k).
  rewrite (run_bind _ _ _ tt k1).
  2:{ unfold when, k1, t1, reset_oneshot. destruct (truth (Z.land (sa_flags sa) SA_ONESHOT)).
      - by apply set_action_run with (sa := sa).
      - rewrite insert_id by done. by destruct k. }
  assert (Hb : blocked t1 = blocked t) by (unfold t1, reset_oneshot; destruct (truth (Z.land (sa_flags sa) SA_ONESHOT)); by destruct t).
  erewrite run_bind by reflexivity.
  erewrite run_bind by (apply cur_eq, lookup_insert_eq). rewrite Hb.
  rewrite (run_bind _ _ _ _ _ (put_longs_run _ _ _)).
  erewrite run_bind by (apply upd_cur_eq, lookup_insert_eq). unfold mret, M_ret. f_equal.
  unfold set_trace, set_heap, add_event, k1. cbn. rewrite insert_insert_eq, Hb, <-app_assoc. cbn.
  replace (n * 4) with (4 * n) by lia. done.
Qed.

(** ** SIGKILL and SIGSTOP keep their default action *)

Definition default_for (n : Z) (t : task_struct) : Prop :=
  forall sa, aget (sigactions t) (n - 1) = Some sa -> sa_handler sa = 0.
Definition unhandled (t : task_struct) : Prop := default_for SIGKILL t /\ default_for SIGSTOP t.

Lemma unhandled_frame t t' : sigactions t' = sigactions t -> unhandled t -> unhandled t'.
Proof. unfold unhandled, default_for. by intros ->. Qed.

Lemma all_unhandled_upd p f :
  (forall t, sigactions (f t) = sigactions t) -> preserves (all_tasks unhandled) (upd p f).
Proof. intros Hf. apply all_tasks_upd. intros t. by apply unhandled_frame. Qed.

Lemma all_unhandled_upd_cur f :
  (forall t, sigactions (f t) = sigactions t) -> preserves (all_tasks unhandled) (upd_cur f).
Proof. intros Hf. unfold upd_cur. pres. by apply all_unhandled_upd. Qed.

(** Setting the action of another signal, or one with the default handler. *)
Lemma all_unhandled_set_action n v :
  (n <> SIGKILL - 1 /\ n <> SIGSTOP - 1) \/ sa_handler v = 0 -> preserves (all_tasks unhandled) (set_action n v).
Proof.
  intros Hn k u k' HI Hr. unfold set_action in Hr. inv_ok.
  apply cur_Ok in Hr0 as (t & Ht & -> & ->). unfold ofOpt in Hr1. destruct (aset _ _ _) as [l|] eqn:El; [|done].
  injection Hr1 as -> ->. rewrite (upd_cur_eq _ t) in Hr by done. injection Hr as _ <-.
  apply map_Forall_insert_2; [|done]. destruct (HI _ _ Ht) as [H1 H2].
  assert (Hset : sigactions (set_sigactions a0 t) = a0) by (by destruct t).
  assert (Hget : forall m sa, m = SIGKILL - 1 \/ m = SIGSTOP - 1 -> aget a0 m = Some sa ->
    (forall sa0, aget (sigactions t) m = Some sa0 -> sa_handler sa0 = 0) -> sa_handler sa = 0).
  { intros m sa Hm Hg Hold. destruct (decide (n = m)) as [->|Hne].
    - rewrite (aget_aset_eq _ _ _ _ El) in Hg. injection Hg as <-. destruct Hn as [[? ?]|?]; [|done]. destruct Hm; done.
    - rewrite (aget_aset_ne _ _ _ _ _ Hne El) in Hg. eauto. }
  split; unfold default_for; rewrite Hset; intros sa Hg; [apply (Hget (SIGKILL - 1))|apply (Hget (SIGSTOP - 1))]; auto.
Qed.

Lemma do_exit_no_return rounds code k u k' : do_exit rounds code k <> Ok u k'.
Proof. unfold do_exit. intros Hr. by inv_ok. Qed.

Lemma preserves_do_exit I rounds code : preserves I (do_exit rounds code).
Proof. intros k u k' _ Hr. by apply do_exit_no_return in Hr. Qed.

Lemma preserves_get_action I n : preserves I (get_action n).
Proof. unfold get_action. pres. Qed.

Lemma bad_signal_false n : bad_signal n = false -> 1 <= n <= 32 /\ n <> SIGKILL /\ n <> SIGSTOP.
Proof.
  unfold bad_signal. rewrite !orb_false_iff, !Z.eqb_neq, !Z.ltb_ge. lia.
Qed.

#[local] Hint Resolve preserves_do_exit preserves_get_action : pres.

Lemma all_unhandled_put_bytes l : forall a, preserves (all_tasks unhandled) (put_bytes l a).
Proof. induction l; intros a0; cbn [put_bytes]; unfold put_fs_byte; pres. Qed.

Lemma all_unhandled_put_longs l : forall a, preserves (all_tasks unhandled) (put_longs l a).
Proof. induction l; intros a0; cbn [put_longs]; unfold put_fs_long; pres. Qed.

#[local] Hint Resolve all_unhandled_put_bytes all_unhandled_put_longs : pres.

(** The system calls on signals, and the delivery of one. *)
Inductive signal_step (k k' : kst) : Prop :=
| step_signal n h rs r : sys_signal n h rs k = Ok r k' -> signal_step k k'
| step_sigaction fs n a o r : sys_sigaction fs n a o k = Ok r k' -> signal_step k k'
| step_ssetmask m r : sys_ssetmask m k = Ok r k' -> signal_step k k'
| step_sigpending s r : sys_sigpending s k = Ok r k' -> signal_step k k'
| step_deliver rounds n f r : do_signal rounds n f k = Ok r k' -> signal_step k k'
| step_kill p n r : sys_kill p n k = Ok r k' -> signal_step k k'.

Lemma all_unhandled_send_sig sig p priv : preserves (all_tasks unhandled) (send_sig sig p priv).
Proof.
  unfold send_sig, trace_stop. pres; apply all_unhandled_upd; try (by intros []).
  intros t. unfold deliver. destruct (_ || _), (_ && _); destruct t; cbn; try done; by destruct (_ =? _).
Qed.

#[local] Hint Resolve all_unhandled_send_sig : pres.

Lemma all_unhandled_sys_kill pd sig : preserves (all_tasks unhandled) (sys_kill pd sig).
Proof.
  assert (Hpg : forall l pg f r, preserves (all_tasks unhandled) (kill_pg_scan l pg sig false f r)).
  { intros l pg. induction l; intros f r; cbn [kill_pg_scan]; pres. }
  assert (Hpr : forall l, preserves (all_tasks unhandled) (kill_proc_scan l pd sig false)).
  { induction l; cbn [kill_proc_scan]; pres. }
  assert (Hall : forall l r c, preserves (all_tasks unhandled) (kill_all_scan l sig r c)).
  { induction l; intros r c; cbn [kill_all_scan]; pres. }
  unfold sys_kill, kill_pg, kill_proc. pres.
Qed.

Lemma all_unhandled_do_signal rounds n f : preserves (all_tasks unhandled) (do_signal rounds n f).
Proof.
  unfold do_signal, default_action, call_verify_area.
  pres; try (apply all_unhandled_upd_cur; by intros []); try (apply all_unhandled_upd; by intros []).
  apply all_unhandled_set_action. by right.
Qed.

Lemma all_unhandled_sys_signal n h rs : preserves (all_tasks unhandled) (sys_signal n h rs).
Proof.
  unfold sys_signal. destruct (bad_signal n) eqn:Eb; [pres|]. apply bad_signal_false in Eb.
  pres. apply all_unhandled_set_action. lia.
Qed.

Lemma all_unhandled_sys_sigaction fs n a o : preserves (all_tasks unhandled) (sys_sigaction fs n a o).
Proof.
  unfold sys_sigaction, save_old, call_verify_area. destruct (bad_signal n) eqn:Eb; [pres|].
  apply bad_signal_false in Eb. pres; apply all_unhandled_set_action; lia.
Qed.

Lemma all_unhandled_sys_ssetmask m : preserves (all_tasks unhandled) (sys_ssetmask m).
Proof. unfold sys_ssetmask. pres. apply all_unhandled_upd_cur. by intros []. Qed.

Lemma all_unhandled_sys_sigpending s : preserves (all_tasks unhandled) (sys_sigpending s).
Proof. unfold sys_sigpending, call_verify_area, put_fs_long. pres. Qed.

#[local] Hint Resolve all_unhandled_sys_signal all_unhandled_sys_sigaction all_unhandled_sys_ssetmask
  all_unhandled_sys_sigpending all_unhandled_do_signal all_unhandled_sys_kill : pres.

(** Delivering a signal whose action is the default to a task it kills. *)
Lemma do_signal_kill_halts rounds f k t r k' :
  heap k !! current k = Some t -> unhandled t -> do_signal rounds SIGKILL f k <> Ok r k'.
Proof.
  intros Ht [Hk _] Hr. unfold do_signal in Hr. inv_ok. unfold get_action in Hr0. inv_ok.
  apply cur_Ok in Hr1 as (t' & Ht' & -> & ->). unfold ofOpt in Hr0.
  destruct (aget (sigactions t') (SIGKILL - 1)) as [sa|] eqn:Es; [|done]. injection Hr0 as -> ->.
  assert (Hh : sa_handler a = 0) by (apply Hk; congruence). rewrite Hh in Hr. cbn [Z.eqb] in Hr.
  destruct (restart_call _ _ _) as [eax eip]. unfold default_action in Hr.
  change (SIGKILL =? SIGCONT) with false in Hr. change (SIGKILL =? SIGCHLD) with false in Hr.
  cbn in Hr. inv_ok. by apply do_exit_no_return in Hr0.
Qed.

(** C12: no sequence of signal calls, kills and deliveries lets a task catch or
    ignore SIGKILL: if all tasks start with the default action for SIGKILL and
    SIGSTOP, then after any number of steps delivering SIGKILL to the running
    task never returns to user mode. *)
Theorem sigkill_never_caught (k k' : kst) (rounds : nat) (f : frame) (r : Z * frame) (k2 : kst)
    (Hinit : all_tasks unhandled k) (Hsteps : rtc signal_step k k') :
  do_signal rounds SIGKILL f k' <> Ok r k2.
Proof.
  assert (HI : all_tasks unhandled k').
  { revert Hinit. induction Hsteps as [|k k1 k' Hst _ IH]; [done|]. intros HI. apply IH. clear IH.
    destruct Hst as [n h rs v Hr|fs n a o v Hr|m v Hr|s v Hr|rn n g v Hr|p n v Hr].
    - by eapply all_unhandled_sys_signal.
    - by eapply all_unhandled_sys_sigaction.
    - by eapply all_unhandled_sys_ssetmask.
    - by eapply all_unhandled_sys_sigpending.
    - by eapply all_unhandled_do_signal.
    - by eapply all_unhandled_sys_kill. }
  intros Hr. assert (Ht : exists t, heap k' !! current k' = Some t).
  { unfold do_signal in Hr. inv_ok. unfold get_action in Hr0. inv_ok. apply cur_Ok in Hr1 as (t & Ht & _). eauto. }
  destruct Ht as [t Ht]. eapply do_signal_kill_halts; [exact Ht| |exact Hr]. by eapply HI.
Qed.

(** ** Handlers read back *)

Fixpoint byte_events (l : list Z) (a : Z) : list event :=
  match l with [] => [] | b :: l' => EPutB (u32 a) (u8 b) :: byte_events l' (a + 1) end.

Lemma put_bytes_run l : forall a k, put_bytes l a k = Ok tt (set_trace (trace k ++ byte_events l a) k).
Proof.
  induction l as [|v l IH]; intros a k; cbn [put_bytes byte_events].
  - rewrite app_nil_r. by destruct k.
  - erewrite run_bind by reflexivity. rewrite IH. unfold set_trace, add_event. cbn. by rewrite <-app_assoc.
Qed.

(** Memory [fs] holds the bytes [l] at [a]. *)
Definition holds (fs : umem) (a : Z) (l : list Z) : Prop :=
  forall (i : nat) b, l !! i = Some b -> get_fs_byte fs (a + Z.of_nat i) = b.

Lemma holds_app fs a l1 l2 : holds fs a (l1 ++ l2) -> holds fs a l1 /\ holds fs (a + Z.of_nat (length l1)) l2.
Proof.
  intros H. split; intros i b Hi.
  - apply H. by apply lookup_app_l_Some.
  - replace (a + Z.of_nat (length l1) + Z.of_nat i) with (a + Z.of_nat (length l1 + i)) by lia.
    apply H. by rewrite lookup_app_r, Nat.add_comm, Nat.add_sub by lia.
Qed.

Lemma holds_long fs a v : in_u32 v -> holds fs a (long_bytes v) -> get_fs_long fs a = v.
Proof.
  intros Hv H. unfold get_fs_long, get_fs_word.
  pose proof (H 0%nat _ eq_refl) as H0. pose proof (H 1%nat _ eq_refl) as H1.
  pose proof (H 2%nat _ eq_refl) as H2. pose proof (H 3%nat _ eq_refl) as H3. cbn [Z.of_nat] in *.
  rewrite Z.add_0_r in H0. replace (a + 2 + 1) with (a + 3) by lia.
  change (Z.of_nat 2) with 2 in *. change (Z.of_nat 3) with 3 in *. change (Z.of_nat 1) with 1 in *.
  cbn in H1, H2, H3. rewrite H0, H1, H2, H3. unfold u8, in_u32 in *.
  rewrite !Z.shiftr_div_pow2 by lia. change (2 ^ 8) with 256. change (2 ^ 16) with 65536. change (2 ^ 24) with 16777216.
  Z.to_euclidean_division_equations. lia.
Qed.

Definition valid_action (sa : sigaction) : Prop :=
  in_u32 (sa_handler sa) /\ in_u32 (sa_mask sa) /\ in_u32 (sa_flags sa) /\ in_u32 (sa_restorer sa).

(** [save_old] and [get_new] are inverse. *)
Lemma get_new_holds fs a sa : valid_action sa -> holds fs a (sigaction_bytes sa) -> get_new fs a = sa.
Proof.
  intros (H1 & H2 & H3 & H4) H. unfold sigaction_bytes in H.
  apply holds_app in H as [Ha H]. apply holds_app in H as [Hb H]. apply holds_app in H as [Hc Hd].
  cbn [length long_bytes] in Hb, Hc, Hd. unfold get_new.
  replace (a + 12) with (a + Z.of_nat 4 + Z.of_nat 4 + Z.of_nat 4) by lia.
  replace (a + 8) with (a + Z.of_nat 4 + Z.of_nat 4) by lia. change (a + 4) with (a + Z.of_nat 4).
  rewrite (holds_long fs a (sa_handler sa)), (holds_long fs _ (sa_mask sa)), (holds_long fs _ (sa_flags sa)),
    (holds_long fs _ (sa_restorer sa)) by done. by destruct sa.
Qed.

(** What [sys_sigaction] installs. *)
Definition installed (signum : Z) (sa : sigaction) : sigaction :=
  SigAction (sa_handler sa)
    (if truth (Z.land (sa_flags sa) SA_NOMASK) then 0 else Z.lor (sa_mask sa) (word_bit (signum - 1)))
    (sa_flags sa) (sa_restorer sa).

Lemma lor_u32 a b : in_u32 a -> in_u32 b -> in_u32 (Z.lor a b).
Proof.
  unfold in_u32. intros Ha Hb. split; [apply Z.lor_nonneg; lia|].
  destruct (Z.eq_dec (Z.lor a b) 0) as [->|]; [lia|]. pose proof (proj2 (Z.lor_nonneg a b) ltac:(lia)).
  apply Z.log2_lt_cancel. change (Z.log2 4294967296) with 32. rewrite Z.log2_lor by lia.
  apply Z.max_lub_lt.
  - destruct (Z.eq_dec a 0) as [->|]; [cbn; lia|]. apply (Z.log2_lt_pow2 a 32); [lia|]. change (2 ^ 32) with 4294967296. lia.
  - destruct (Z.eq_dec b 0) as [->|]; [cbn; lia|]. apply (Z.log2_lt_pow2 b 32); [lia|]. change (2 ^ 32) with 4294967296. lia.
Qed.

Lemma word_bit_u32 n : 0 <= n < 32 -> in_u32 (word_bit n).
Proof.
  intros Hn. unfold word_bit, in_u32. rewrite Z.shiftl_1_l. split; [apply Z.pow_nonneg; lia|].
  change 4294967296 with (2 ^ 32). apply Z.pow_lt_mono_r; lia.
Qed.

Lemma installed_valid signum fs a : 1 <= signum <= 32 -> valid_action (installed signum (get_new fs a)).
Proof.
  intros Hs. unfold installed, get_new, valid_action. cbn. repeat split; try apply get_fs_long_range.
  all: destruct (truth _); [unfold in_u32; lia|apply lor_u32; [apply get_fs_long_range|apply word_bit_u32; lia]].
Qed.

Lemma set_sigactions_twice l l' t : set_sigactions l (set_sigactions l' t) = set_sigactions l t.
Proof. by destruct t. Qed.

Lemma sigactions_set l t : sigactions (set_sigactions l t) = l.
Proof. by destruct t. Qed.

Definition old_events (old : sigaction) (a : Z) : list event :=
  if truth a then EVerify a 16 :: byte_events (sigaction_bytes old) a else [].

(** [sys_sigaction] for a signal it accepts. *)
Lemma sys_sigaction_run fs signum action oldaction k t old :
  bad_signal signum = false -> heap k !! current k = Some t -> aget (sigactions t) (signum - 1) = Some old ->
  sys_sigaction fs signum action oldaction k =
    Ok 0 (set_trace (trace k ++ old_events old oldaction)
      (set_heap (<[current k := set_sigactions
        (<[Z.to_nat (signum - 1) := installed signum (get_new fs action)]> (sigactions t)) t]> (heap k)) k)).
Proof.
  intros Hb Ht Ho. unfold sys_sigaction. rewrite Hb. rewrite (run_bind _ _ _ _ _ (get_action_run _ _ _ _ Ht Ho)).
  rewrite (run_bind _ _ _ _ _ (set_action_run _ (get_new fs action) _ _ _ Ht Ho)).
  set (l1 := <[Z.to_nat (signum - 1) := get_new fs action]> (sigactions t)).
  set (k1 := set_heap (<[current k := set_sigactions l1 t]> (heap k)) k).
  rewrite (run_bind _ _ _ tt (set_trace (trace k ++ old_events old oldaction) k1)).
  2:{ unfold when, old_events. destruct (truth oldaction); [|rewrite app_nil_r; by destruct k].
      unfold save_old. erewrite run_bind by reflexivity. rewrite put_bytes_run. cbn. unfold set_trace. cbn.
      by rewrite <-app_assoc. }
  set (k2 := set_trace _ k1).
  assert (E2 : heap k2 !! current k2 = Some (set_sigactions l1 t)) by apply lookup_insert_eq.
  assert (E3 : aget (sigactions (set_sigactions l1 t)) (signum - 1) = Some (get_new fs action)).
  { rewrite sigactions_set. apply aget_insert_eq. by eapply aget_Some_range. }
  rewrite (run_bind _ _ _ _ _ (get_action_run _ _ _ _ E2 E3)).
  erewrite run_bind.
  2:{ instantiate (1 := set_heap (<[current k := set_sigactions
        (<[Z.to_nat (signum - 1) := installed signum (get_new fs action)]> (sigactions t)) t]> (heap k)) k2).
      instantiate (1 := tt). unfold installed. destruct (truth (Z.land (sa_flags (get_new fs action)) SA_NOMASK));
        rewrite (set_action_run _ _ _ _ _ E2 E3); unfold set_heap; cbn;
        rewrite insert_insert_eq, sigactions_set, set_sigactions_twice; unfold l1; by rewrite list_insert_insert_eq. }
  reflexivity.
Qed.

(** a handler set with [sys_sigaction] is the one the next call for the
    same signal reports: the sixteen bytes it writes to the caller's buffer
    read back as the action that was installed, with the signal itself added
    to the mask, or an empty mask under SA_NOMASK. *)
Theorem sigaction_roundtrip (fs fs2 fs' : umem) (signum action action2 old : Z) (k : kst) (t : task_struct)
    (Hsig : 1 <= signum <= 32 /\ signum <> SIGKILL /\ signum <> SIGSTOP) (Hold : old <> 0)
    (Hcur : heap k !! current k = Some t) (Hlen : length (sigactions t) = 32%nat) :
  exists k1 k2 bytes, sys_sigaction fs signum action 0 k = Ok 0 k1 /\
    sys_sigaction fs2 signum action2 old k1 = Ok 0 k2 /\
    trace k2 = trace k1 ++ EVerify old 16 :: byte_events bytes old /\ length bytes = 16%nat /\
    (holds fs' old bytes -> get_new fs' old = installed signum (get_new fs action)).
Proof.
  assert (Hb : bad_signal signum = false).
  { unfold bad_signal. rewrite !orb_false_iff, !Z.eqb_neq, !Z.ltb_ge. lia. }
  destruct (aget_in_range (sigactions t) (signum - 1)) as [old0 Ho]; [rewrite Hlen; lia|].
  set (new := installed signum (get_new fs action)).
  pose proof (sys_sigaction_run fs signum action 0 k t old0 Hb Hcur Ho) as H1. fold new in H1.
  set (k1 := set_trace _ _) in H1.
  set (t1 := set_sigactions (<[Z.to_nat (signum - 1) := new]> (sigactions t)) t) in k1.
  assert (E1 : heap k1 !! current k1 = Some t1) by apply lookup_insert_eq.
  assert (E2 : aget (sigactions t1) (signum - 1) = Some new).
  { unfold t1. rewrite sigactions_set. apply aget_insert_eq. by eapply aget_Some_range. }
  pose proof (sys_sigaction_run fs2 signum action2 old k1 t1 new Hb E1 E2) as H2.
  eexists k1, _, (sigaction_bytes new). split; [done|]. split; [exact H2|]. split; [|split; [done|]].
  - unfold old_events. assert (Htr : truth old = true) by (unfold truth; by destruct (Z.eqb_spec old 0)). by rewrite Htr.
  - apply get_new_holds, installed_valid. lia.
Qed.

Lemma sigaction_roundtrip_witness :
  exists k1 k2 bytes, sys_sigaction (fun a => a) 2 100 0 demo_kill = Ok 0 k1 /\
    sys_sigaction (fun a => 0) 2 200 300 k1 = Ok 0 k2 /\
    trace k2 = trace k1 ++ EVerify 300 16 :: byte_events bytes 300 /\ length bytes = 16%nat /\
    (holds (fun a => 1) 300 bytes -> get_new (fun a => 1) 300 = installed 2 (get_new (fun a => a) 100)).
Proof.
  refine (sigaction_roundtrip _ _ _ 2 100 200 300 demo_kill (set_euid 5 (INIT_TASK 1)) _ _ _ _);
    [unfold SIGKILL, SIGSTOP; lia|lia|reflexivity|reflexivity].
Defined.

Lemma do_signal_frame_witness :
  exists k', do_signal 0 2 (Frame (-512) 1 2 29 1000 0 8000) (final (sys_signal 2 4096 5000) demo_kill) =
    Ok (0, Frame (-4) 1 2 29 4096 0 7972) k'.
Proof.
  eexists. refine (do_signal_frame 0 2 (Frame (-512) 1 2 29 1000 0 8000) (final (sys_signal 2 4096 5000) demo_kill)
            _ (SigAction 4096 0 (Z.lor SA_ONESHOT SA_NOMASK) 5000) _ _ _);
    [vm_compute; reflexivity|vm_compute; reflexivity|cbn; lia].
Defined.

Lemma sigkill_never_caught_witness : do_signal 0 SIGKILL (Frame 0 0 0 0 0 0 0) demo_kill <> Ok (0, Frame 0 0 0 0 0 0 0) demo_kill.
Proof.
  apply (sigkill_never_caught demo_kill demo_kill); [|reflexivity].
  intros q t Ht. unfold demo_kill in Ht. cbn [heap] in Ht.
  assert (Hz : sigactions t = replicate 32 (SigAction 0 0 0 0)).
  { repeat (apply lookup_insert_Some in Ht as [[_ <-]|[_ Ht]]; [reflexivity|]).
    apply lookup_singleton_Some in Ht as [_ <-]. reflexivity. }
  split; intros sa; rewrite Hz; intros [= <-]; reflexivity.
Defined.
