(* ===== verification/Sys.v ===== *)
(** * System calls on the process itself: [kernel/sys.c]

    Users and groups, process groups and sessions, the clock, resource limits,
    the break, the host name and accounting. *)

From S2P Require Import Prelude TaskStruct Sched Exit Signal.

Definition NGROUPS : Z := 32.
Definition NOGROUP : Z := -1.
Definition MAXHOSTNAMELEN : Z := 8.
Definition RLIM_NLIMITS : Z := 6.
Definition RUSAGE_SELF : Z := 0.
Definition RUSAGE_CHILDREN : Z := -1.

(** Calls that are not implemented: [sys_ftime], [sys_break], [sys_stty],
    [sys_gtty], [sys_prof], [sys_acct], [sys_phys], [sys_lock], [sys_mpx],
    [sys_ulimit]. *)
Definition sys_ftime : M kst Z := mret (- ENOSYS).
Definition sys_break : M kst Z := mret (- ENOSYS).
Definition sys_stty : M kst Z := mret (- ENOSYS).
Definition sys_gtty : M kst Z := mret (- ENOSYS).
Definition sys_prof : M kst Z := mret (- ENOSYS).
Definition sys_acct : M kst Z := mret (- ENOSYS).
Definition sys_phys : M kst Z := mret (- ENOSYS).
Definition sys_lock : M kst Z := mret (- ENOSYS).
Definition sys_mpx : M kst Z := mret (- ENOSYS).
Definition sys_ulimit : M kst Z := mret (- ENOSYS).

(** ** Users and groups; the fields are unsigned shorts *)

(** [int sys_setregid(int rgid, int egid)] *)
Definition sys_setregid (rg eg : Z) : M kst Z :=
  t ← cur id; su ← suser;
  if (0 <? rg) && negb ((gid t =? rg) || su) then mret (- EPERM)
  else
    when (0 <? rg) (upd_cur (set_gid (u16 rg)));;
    t ← cur id;
    if (0 <? eg) && negb ((gid t =? eg) || (egid t =? eg) || su) then mret (- EPERM)
    else
      when (0 <? eg) (upd_cur (fun t => set_sgid (u16 eg) (set_egid (u16 eg) t)));;
      mret 0.

(** [int sys_setgid(int gid)] *)
Definition sys_setgid (g : Z) : M kst Z :=
  t ← cur id; su ← suser;
  if su : bool then
    upd_cur (fun t => set_gid (u16 g) (set_egid (u16 g) (set_sgid (u16 g) t)));; mret 0
  else if (g =? gid t) || (g =? sgid t) then upd_cur (set_egid (u16 g));; mret 0
  else mret (- EPERM).

(** [int sys_setreuid(int ruid, int euid)] *)
Definition sys_setreuid (ru eu : Z) : M kst Z :=
  t0 ← cur id; su ← suser;
  if (0 <? ru) && negb ((euid t0 =? ru) || (uid t0 =? ru) || su) then mret (- EPERM)
  else
    when (0 <? ru) (upd_cur (set_uid (u16 ru)));;
    t ← cur id; su ← suser;
    if 0 <? eu then
      if (uid t0 =? eu) || (euid t =? eu) || su then
        upd_cur (fun t => set_suid (u16 eu) (set_euid (u16 eu) t));; mret 0
      else
        upd_cur (set_uid (uid t0));; mret (- EPERM)
    else mret 0.

(** [int sys_setuid(int uid)] *)
Definition sys_setuid (u : Z) : M kst Z :=
  t ← cur id; su ← suser;
  if su : bool then
    upd_cur (fun t => set_uid (u16 u) (set_euid (u16 u) (set_suid (u16 u) t)));; mret 0
  else if (u =? uid t) || (u =? suid t) then upd_cur (set_euid (u16 u));; mret 0
  else mret (- EPERM).

(** [int in_group_p(gid_t grp)] *)
Fixpoint group_scan (l : list Z) (grp : Z) : bool :=
  match l with
  | [] => false
  | g :: l' => if g =? NOGROUP then false else if g =? grp then true else group_scan l' grp
  end.
Definition in_group_p (grp : Z) : M kst Z :=
  t ← cur id; mret (b2z ((grp =? egid t) || group_scan (groups t) grp)).

(** [int sys_getgroups(int gidsetsize, gid_t *grouplist)]; [gid_t] has two bytes. *)
Fixpoint getgroups_loop (l : list Z) (i gidsetsize grouplist : Z) : M kst Z :=
  match l with
  | [] => mret i
  | g :: l' =>
      if g =? NOGROUP then mret i
      else if truth gidsetsize then
        if gidsetsize <=? i then mret (- EINVAL)
        else put_fs_word g grouplist;; getgroups_loop l' (i + 1) gidsetsize (grouplist + 2)
      else getgroups_loop l' (i + 1) gidsetsize (grouplist + 2)
  end.
Definition sys_getgroups (gidsetsize grouplist : Z) : M kst Z :=
  when (truth gidsetsize) (call_verify_area grouplist (2 * gidsetsize));;
  t ← cur id; getgroups_loop (groups t) 0 gidsetsize grouplist.

(** [current->groups[i] = v] *)
Definition set_group (i v : Z) : M kst unit :=
  l ← cur groups; l' ← ofOpt (aset l i v); upd_cur (set_groups l').

(** [int sys_setgroups(int gidsetsize, gid_t *grouplist)] *)
Definition sys_setgroups (fs : umem) (gidsetsize grouplist : Z) : M kst Z :=
  su ← suser;
  if negb su then mret (- EPERM)
  else if NGROUPS <? gidsetsize then mret (- EINVAL)
  else
    for_each (range 0 (Z.to_nat gidsetsize)) (fun i => set_group i (get_fs_word fs (grouplist + 2 * i)));;
    let i := Z.max 0 gidsetsize in
    when (i <? NGROUPS) (set_group i NOGROUP);;
    mret 0.

(** ** Process groups and sessions *)

(** [int sys_setpgid(int pid, int pgid)] *)
Fixpoint setpgid_loop (l : list Z) (pd pg : Z) : M kst Z :=
  match l with
  | [] => mret (- ESRCH)
  | i :: l' =>
      p ← task_at i;
      match p with
      | None => setpgid_loop l' pd pg
      | Some q =>
          t ← deref p; c ← gets current;
          if (pid t =? pd) && (bool_decide (p_pptr t = Some c) || bool_decide (q = c)) then
            if truth (leader t) then mret (- EPERM)
            else
              cs ← cur session;
              if negb (session t =? cs) then mret (- EPERM)
              else if pg =? pd then upd p (set_pgrp pg);; mret 0
              else
                s ← session_of_pgrp pg;
                if negb (s =? cs) then mret (- EPERM) else upd p (set_pgrp pg);; mret 0
          else setpgid_loop l' pd pg
      end
  end.
Definition sys_setpgid (pd pg : Z) : M kst Z :=
  cpid ← cur pid;
  let pd := if truth pd then pd else cpid in
  let pg := if truth pg then pg else cpid in
  if pg <? 0 then mret (- EINVAL) else setpgid_loop (range 0 64) pd pg.

(** [int sys_getpgrp(void)] *)
Definition sys_getpgrp : M kst Z := cur pgrp.

(** [int sys_setsid(void)] *)
Definition sys_setsid : M kst Z :=
  ld ← cur leader; su ← suser;
  if truth ld && negb su then mret (- EPERM)
  else
    upd_cur (set_leader 1);;
    upd_cur (fun t => set_session (pid t) (set_pgrp (pid t) t));;
    upd_cur (set_tty (-1));;
    cur pgrp.

(** ** The clock *)

(** [CURRENT_TIME] *)
Definition CURRENT_TIME (k : kst) : Z := u32 (startup_time k + u32 (jiffies k + jiffies_offset k) / HZ).

(** [int sys_time(long *tloc)] *)
Definition sys_time (tloc : Z) : M kst Z :=
  i ← gets CURRENT_TIME;
  when (truth tloc) (call_verify_area tloc 4;; put_fs_long i tloc);;
  mret (s32 i).

(** [int sys_stime(long *tptr)] *)
Definition sys_stime (fs : umem) (p : Z) : M kst Z :=
  su ← suser;
  if negb su then mret (- EPERM)
  else
    modify (fun k => set_startup_time (u32 (get_fs_long fs p - jiffies k / HZ)) k);;
    modify (set_jiffies_offset 0);;
    mret 0.

(** [int sys_times(struct tms *tbuf)] *)
Definition sys_times (tbuf : Z) : M kst Z :=
  (if truth tbuf then
     call_verify_area tbuf 16;;
     t ← cur id;
     put_fs_long (utime t) tbuf;; put_fs_long (stime t) (tbuf + 4);;
     put_fs_long (cutime t) (tbuf + 8);; put_fs_long (cstime t) (tbuf + 12)
   else mret tt);;
  j ← gets jiffies; mret (s32 j).

(** [CT_TO_SECS(x)] and [CT_TO_USECS(x)] on an unsigned [x]. *)
Definition CT_TO_SECS (x : Z) : Z := x / HZ.
Definition CT_TO_USECS (x : Z) : Z := u32 (x mod HZ * 1000000) / HZ.

(** [int sys_gettimeofday(struct timeval *tv, struct timezone *tz)] *)
Definition sys_gettimeofday (tv tz : Z) : M kst Z :=
  (if truth tv then
     call_verify_area tv 8;;
     k ← getS;
     put_fs_long (startup_time k + CT_TO_SECS (u32 (jiffies k + jiffies_offset k))) tv;;
     put_fs_long (CT_TO_USECS (u32 (jiffies k + jiffies_offset k))) (tv + 4)
   else mret tt);;
  (if truth tz then
     call_verify_area tz 8;;
     k ← getS;
     put_fs_long (tz_minuteswest (sysd k)) tz;; put_fs_long (tz_dsttime (sysd k)) (tz + 4)
   else mret tt);;
  mret 0.

Definition set_tz (m d : Z) (s : sysdata) : sysdata :=
  SysData (nodename s) m d (firsttime s) (last_pid s) (last_task_used_math s) (fg_console s) (tty_group s).
Definition set_firsttime (v : Z) (s : sysdata) : sysdata :=
  SysData (nodename s) (tz_minuteswest s) (tz_dsttime s) v (last_pid s) (last_task_used_math s) (fg_console s) (tty_group s).

(** [void adjust_clock()] *)
Definition adjust_clock : M kst unit :=
  modify (fun k => set_startup_time (u32 (startup_time k + s32 (tz_minuteswest (sysd k) * 60))) k).

(** [int sys_settimeofday(struct timeval *tv, struct timezone *tz)] *)
Definition sys_settimeofday (fs : umem) (tv tz : Z) : M kst Z :=
  su ← suser;
  if negb su then mret (- EPERM)
  else
    (if truth tz then
       modify (fun k => set_sysd (set_tz (s32 (get_fs_long fs tz)) (s32 (get_fs_long fs (tz + 4))) (sysd k)) k);;
       ft ← gets (fun k => firsttime (sysd k));
       when (truth ft)
         (modify (fun k => set_sysd (set_firsttime 0 (sysd k)) k);; when (negb (truth tv)) adjust_clock)
     else mret tt);;
    (if truth tv then
       let sec := s32 (get_fs_long fs tv) in
       let usec := s32 (get_fs_long fs (tv + 4)) in
       modify (fun k => set_startup_time (u32 (sec - jiffies k / HZ)) k);;
       modify (fun k => set_jiffies_offset (s32 (s32 (usec * HZ) ÷ 1000000 - jiffies k mod HZ)) k)
     else mret tt);;
    mret 0.

(** ** Limits *)

(** [int sys_brk(unsigned long end_data_seg)] *)
Definition sys_brk (end_data_seg : Z) : M kst Z :=
  t ← cur id;
  when ((end_code t <=? end_data_seg) && (end_data_seg <? u32 (start_stack t - 16384)))
    (upd_cur (set_brk end_data_seg));;
  t ← cur id; mret (s32 (brk t)).

(** [int sys_getrlimit(int resource, struct rlimit *rlim)] *)
Definition sys_getrlimit (resource rlimp : Z) : M kst Z :=
  if RLIM_NLIMITS <=? resource then mret (- EINVAL)
  else
    call_verify_area rlimp 8;;
    l ← cur rlim; r ← ofOpt (aget l resource);
    put_fs_long (fst r) rlimp;; put_fs_long (snd r) (rlimp + 4);;
    mret 0.

(** [int sys_setrlimit(int resource, struct rlimit *rlim)] *)
Definition sys_setrlimit (fs : umem) (resource rlimp : Z) : M kst Z :=
  if RLIM_NLIMITS <=? resource then mret (- EINVAL)
  else
    l ← cur rlim; old ← ofOpt (aget l resource);
    let new := (s32 (get_fs_long fs rlimp), s32 (get_fs_long fs (rlimp + 4))) in
    su ← suser;
    if ((snd old <? fst new) || (snd old <? snd new)) && negb su then mret (- EPERM)
    else l' ← ofOpt (aset l resource new); upd_cur (set_rlim l');; mret 0.

(** The structure [sys_getrusage] fills in: times in seconds and microseconds,
    six zero words, page faults, and eight more zero words. *)
Definition rusage_words (ut st minf majf : Z) : list Z :=
  [ut ÷ HZ; s32 (Z.rem ut HZ * 1000000) ÷ HZ; st ÷ HZ; s32 (Z.rem st HZ * 1000000) ÷ HZ;
   0; 0; 0; 0; minf; majf; 0; 0; 0; 0; 0; 0; 0; 0].

(** [int sys_getrusage(int who, struct rusage *ru)] *)
Definition sys_getrusage (who ru : Z) : M kst Z :=
  if negb (who =? RUSAGE_SELF) && negb (who =? RUSAGE_CHILDREN) then mret (- EINVAL)
  else
    call_verify_area ru 72;;
    t ← cur id;
    put_longs (if who =? RUSAGE_SELF then rusage_words (utime t) (stime t) (min_flt t) (maj_flt t)
               else rusage_words (cutime t) (cstime t) (cmin_flt t) (cmaj_flt t)) ru;;
    mret 0.

(** [int sys_umask(int mask)] *)
Definition sys_umask (mask : Z) : M kst Z :=
  old ← cur umask; upd_cur (set_umask (Z.land mask 511));; mret old.

(** ** The host name *)

Definition set_nodename (v : list Z) (s : sysdata) : sysdata :=
  SysData v (tz_minuteswest s) (tz_dsttime s) (firsttime s) (last_pid s) (last_task_used_math s) (fg_console s) (tty_group s).

Definition chars9 (s : string) : list Z :=
  let l := (fun c => Z.of_N (Ascii.N_of_ascii c)) <$> String.list_ascii_of_string s in l ++ replicate (9 - length l) 0.

(** [thisname] as memory: five arrays of nine characters. *)
Definition thisname (k : kst) : list Z :=
  chars9 "Linux" ++ nodename (sysd k) ++ chars9 "0" ++ chars9 "0.12" ++ chars9 "i386".

(** [int sys_uname(struct utsname *name)] *)
Definition sys_uname (name : Z) : M kst Z :=
  if negb (truth name) then mret (- ERROR)
  else
    call_verify_area name 45;;
    l ← gets thisname; put_bytes l name;; mret 0.

(** [thisname.nodename[i] = v] *)
Definition put_nodename (i v : Z) : M kst unit :=
  k ← getS; l ← ofOpt (aset (nodename (sysd k)) i v);
  modify (fun k => set_sysd (set_nodename l (sysd k)) k).

(** The copying loop returns the index it stopped at. *)
Fixpoint hostname_loop (fs : umem) (n : nat) (name i : Z) : M kst Z :=
  match n with
  | O => mret i
  | S n' =>
      let c := get_fs_byte fs (name + i) in
      put_nodename i c;;
      if c =? 0 then mret i else hostname_loop fs n' name (i + 1)
  end.

(** [int sys_sethostname(char *name, int len)] *)
Definition sys_sethostname (fs : umem) (name len : Z) : M kst Z :=
  su ← suser;
  if negb su then mret (- EPERM)
  else if MAXHOSTNAMELEN <? len then mret (- EINVAL)
  else
    i ← hostname_loop fs (Z.to_nat len) name 0;
    c ← (k ← getS; ofOpt (aget (nodename (sysd k)) i));
    when (truth c) (put_nodename (if MAXHOSTNAMELEN <? i then MAXHOSTNAMELEN else i) 0);;
    mret 0.

(** ** Privileges *)

(** The users a task may act as. *)
Definition users (t : task_struct) : list Z := [uid t; euid t; suid t].
Definition groups_of (t : task_struct) : list Z := [gid t; egid t; sgid t].

(** The calls that change users and groups, by the running task. *)
Inductive cred_call := SetUid (u : Z) | SetReUid (r e : Z) | SetGid (g : Z) | SetReGid (r e : Z) | SetSid | SetGroups (fs : umem) (n p : Z).

Definition run_cred (c : cred_call) : M kst Z :=
  match c with
  | SetUid u => sys_setuid u
  | SetReUid r e => sys_setreuid r e
  | SetGid g => sys_setgid g
  | SetReGid r e => sys_setregid r e
  | SetSid => sys_setsid
  | SetGroups fs n p => sys_setgroups fs n p
  end.

Fixpoint run_creds (l : list cred_call) : M kst unit :=
  match l with [] => mret tt | c :: l' => _ ← run_cred c; run_creds l' end.

(** [k'] differs from [k] in the running task only, which is [t'] there. *)
Definition cur_is (k : kst) (t' : task_struct) (k' : kst) : Prop :=
  k' = set_heap (<[current k := t']> (heap k)) k.

Lemma cur_is_refl k t : heap k !! current k = Some t -> cur_is k t k.
Proof. intros Ht. unfold cur_is. rewrite insert_id by done. by destruct k. Qed.

Lemma when_upd_run b f k t : heap k !! current k = Some t ->
  when b (upd_cur f) k = Ok tt (set_heap (<[current k := if b then f t else t]> (heap k)) k).
Proof.
  intros Ht. destruct b; cbn [when]; [by apply upd_cur_eq|]. rewrite insert_id by done. by destruct k.
Qed.

(** What each call does to the running task, as a function: the new task and
    the result. *)
Definition setuid_task (u : Z) (t : task_struct) : task_struct * Z :=
  if euid t =? 0 then (set_uid (u16 u) (set_euid (u16 u) (set_suid (u16 u) t)), 0)
  else if (u =? uid t) || (u =? suid t) then (set_euid (u16 u) t, 0) else (t, - EPERM).

Definition setreuid_task (ru eu : Z) (t : task_struct) : task_struct * Z :=
  let su := euid t =? 0 in
  if (0 <? ru) && negb ((euid t =? ru) || (uid t =? ru) || su) then (t, - EPERM)
  else
    let t1 := if 0 <? ru then set_uid (u16 ru) t else t in
    if 0 <? eu then
      if (uid t =? eu) || (euid t =? eu) || su then (set_suid (u16 eu) (set_euid (u16 eu) t1), 0)
      else (set_uid (uid t) t1, - EPERM)
    else (t1, 0).

Lemma setuid_run u k t : heap k !! current k = Some t ->
  sys_setuid u k = Ok (setuid_task u t).2 (set_heap (<[current k := (setuid_task u t).1]> (heap k)) k).
Proof.
  intros Ht. unfold sys_setuid, setuid_task.
  rewrite (run_bind _ _ _ _ _ (cur_eq id t k Ht)), (run_bind _ _ _ _ _ (suser_eq t k Ht)).
  destruct (euid t =? 0); [by rewrite (run_bind _ _ _ _ _ (upd_cur_eq _ t k Ht))|]. cbn [id].
  destruct ((u =? uid t) || (u =? suid t)); [by rewrite (run_bind _ _ _ _ _ (upd_cur_eq _ t k Ht))|].
  cbn [fst snd]. rewrite insert_id by done. by destruct k.
Qed.

Lemma setreuid_run ru eu k t : heap k !! current k = Some t ->
  sys_setreuid ru eu k = Ok (setreuid_task ru eu t).2 (set_heap (<[current k := (setreuid_task ru eu t).1]> (heap k)) k).
Proof.
  intros Ht. unfold sys_setreuid, setreuid_task.
  rewrite (run_bind _ _ _ _ _ (cur_eq id t k Ht)), (run_bind _ _ _ _ _ (suser_eq t k Ht)). cbn [id].
  destruct ((0 <? ru) && _); [cbn; rewrite insert_id by done; by destruct k|].
  rewrite (run_bind _ _ _ _ _ (when_upd_run _ _ k t Ht)).
  set (t1 := if 0 <? ru then set_uid (u16 ru) t else t).
  assert (E1 : euid t1 = euid t) by (unfold t1; destruct (0 <? ru); by destruct t).
  erewrite run_bind by (apply cur_eq, lookup_insert_eq). cbn [id].
  erewrite run_bind by (apply suser_eq, lookup_insert_eq). rewrite E1.
  destruct (0 <? eu); [|done].
  destruct ((uid t =? eu) || (euid t =? eu) || (euid t =? 0));
    (erewrite run_bind by (apply upd_cur_eq, lookup_insert_eq)); cbn; by rewrite insert_insert_eq.
Qed.

Definition setgid_task (g : Z) (t : task_struct) : task_struct * Z :=
  if euid t =? 0 then (set_gid (u16 g) (set_egid (u16 g) (set_sgid (u16 g) t)), 0)
  else if (g =? gid t) || (g =? sgid t) then (set_egid (u16 g) t, 0) else (t, - EPERM).

Definition setregid_task (rg eg : Z) (t : task_struct) : task_struct * Z :=
  let su := euid t =? 0 in
  if (0 <? rg) && negb ((gid t =? rg) || su) then (t, - EPERM)
  else
    let t1 := if 0 <? rg then set_gid (u16 rg) t else t in
    if (0 <? eg) && negb ((gid t1 =? eg) || (egid t1 =? eg) || su) then (t1, - EPERM)
    else (if 0 <? eg then set_sgid (u16 eg) (set_egid (u16 eg) t1) else t1, 0).

Definition setsid_task (t : task_struct) : task_struct * Z :=
  if truth (leader t) && negb (euid t =? 0) then (t, - EPERM)
  else (set_tty (-1) (set_session (pid t) (set_pgrp (pid t) (set_leader 1 t))), pid t).

Lemma setgid_run g k t : heap k !! current k = Some t ->
  sys_setgid g k = Ok (setgid_task g t).2 (set_heap (<[current k := (setgid_task g t).1]> (heap k)) k).
Proof.
  intros Ht. unfold sys_setgid, setgid_task.
  rewrite (run_bind _ _ _ _ _ (cur_eq id t k Ht)), (run_bind _ _ _ _ _ (suser_eq t k Ht)).
  destruct (euid t =? 0); [by rewrite (run_bind _ _ _ _ _ (upd_cur_eq _ t k Ht))|]. cbn [id].
  destruct ((g =? gid t) || (g =? sgid t)); [by rewrite (run_bind _ _ _ _ _ (upd_cur_eq _ t k Ht))|].
  cbn [fst snd]. rewrite insert_id by done. by destruct k.
Qed.

Lemma setregid_run rg eg k t : heap k !! current k = Some t ->
  sys_setregid rg eg k = Ok (setregid_task rg eg t).2 (set_heap (<[current k := (setregid_task rg eg t).1]> (heap k)) k).
Proof.
  intros Ht. unfold sys_setregid, setregid_task.
  rewrite (run_bind _ _ _ _ _ (cur_eq id t k Ht)), (run_bind _ _ _ _ _ (suser_eq t k Ht)). cbn [id].
  destruct ((0 <? rg) && _); [cbn; rewrite insert_id by done; by destruct k|].
  rewrite (run_bind _ _ _ _ _ (when_upd_run _ _ k t Ht)).
  set (t1 := if 0 <? rg then set_gid (u16 rg) t else t).
  erewrite run_bind by (apply cur_eq, lookup_insert_eq). cbn [id].
  destruct ((0 <? eg) && _); [done|].
  erewrite run_bind by (apply when_upd_run, lookup_insert_eq). cbn. by rewrite insert_insert_eq.
Qed.

Lemma setsid_run k t : heap k !! current k = Some t ->
  sys_setsid k = Ok (setsid_task t).2 (set_heap (<[current k := (setsid_task t).1]> (heap k)) k).
Proof.
  intros Ht. unfold sys_setsid, setsid_task.
  rewrite (run_bind _ _ _ _ _ (cur_eq leader t k Ht)), (run_bind _ _ _ _ _ (suser_eq t k Ht)).
  destruct (truth (leader t) && _); [cbn; rewrite insert_id by done; by destruct k|].
  rewrite (run_bind _ _ _ _ _ (upd_cur_eq _ t k Ht)).
  do 2 (erewrite run_bind by (apply upd_cur_eq, lookup_insert_eq)).
  erewrite (cur_eq pgrp) by (apply lookup_insert_eq). unfold set_heap. cbn. rewrite !insert_insert_eq. by destruct t.
Qed.

(** What a task without root among its users may become. *)
Definition lesser (t t' : task_struct) : Prop :=
  users t' ⊆ users t /\ groups_of t' ⊆ groups_of t /\ groups t' = groups t.

Definition small_ids (t : task_struct) : Prop := Forall in_u16 (users t ++ groups_of t).

Lemma lesser_refl t : lesser t t.
Proof. by repeat split. Qed.

Lemma lesser_trans t1 t2 t3 : lesser t1 t2 -> lesser t2 t3 -> lesser t1 t3.
Proof. intros (? & ? & ?) (? & ? & ?). repeat split; [by etrans..|congruence]. Qed.

Lemma lesser_small t t' : lesser t t' -> small_ids t -> small_ids t'.
Proof.
  unfold small_ids. rewrite !Forall_forall. intros (H1 & H2 & _) H x Hx. apply H.
  apply elem_of_app in Hx as [Hx|Hx]; apply elem_of_app; [left; by apply H1|right; by apply H2].
Qed.

Lemma small_id t x : small_ids t -> x ∈ users t ++ groups_of t -> u16 x = x.
Proof. intros H Hx. apply u16_small. by apply (proj1 (Forall_forall _ _) H). Qed.

Lemma setuid_lesser u t : euid t <> 0 -> small_ids t -> lesser t (setuid_task u t).1.
Proof.
  intros He Hs. unfold setuid_task. rewrite (proj2 (Z.eqb_neq _ _) He).
  destruct ((u =? uid t) || (u =? suid t)) eqn:E; [|apply lesser_refl].
  assert (Hin : u ∈ users t). { apply orb_true_iff in E as [E|E]; apply Z.eqb_eq in E as ->; unfold users; set_solver. }
  cbn [fst]. rewrite (small_id t u Hs) by (apply elem_of_app; by left).
  unfold users in Hin. destruct t; cbn in *. unfold lesser, users, groups_of. cbn. repeat split; set_solver.
Qed.

Lemma setgid_lesser g t : euid t <> 0 -> small_ids t -> lesser t (setgid_task g t).1.
Proof.
  intros He Hs. unfold setgid_task. rewrite (proj2 (Z.eqb_neq _ _) He).
  destruct ((g =? gid t) || (g =? sgid t)) eqn:E; [|apply lesser_refl].
  assert (Hin : g ∈ groups_of t). { apply orb_true_iff in E as [E|E]; apply Z.eqb_eq in E as ->; unfold groups_of; set_solver. }
  cbn [fst]. rewrite (small_id t g Hs) by (apply elem_of_app; by right).
  unfold groups_of in Hin. destruct t; cbn in *. unfold lesser, users, groups_of. cbn. repeat split; set_solver.
Qed.

Lemma setreuid_lesser ru eu t : euid t <> 0 -> small_ids t -> lesser t (setreuid_task ru eu t).1.
Proof.
  intros He Hs. unfold setreuid_task. rewrite (proj2 (Z.eqb_neq _ _) He), !orb_false_r.
  destruct (0 <? ru) eqn:Er; cbn [andb].
  - destruct ((euid t =? ru) || (uid t =? ru)) eqn:E; cbn [negb]; [|apply lesser_refl].
    assert (Hin : ru ∈ users t). { apply orb_true_iff in E as [E|E]; apply Z.eqb_eq in E as <-; unfold users; set_solver. }
    rewrite (small_id t ru Hs) by (apply elem_of_app; by left).
    destruct (0 <? eu); [destruct ((uid t =? eu) || (euid t =? eu)) eqn:E2|]; cbn [fst].
    + assert (Hin2 : eu ∈ users t). { apply orb_true_iff in E2 as [E2|E2]; apply Z.eqb_eq in E2 as <-; unfold users; set_solver. }
      rewrite (small_id t eu Hs) by (apply elem_of_app; by left).
      unfold users in Hin, Hin2. destruct t; cbn in *. unfold lesser, users, groups_of. cbn. repeat split; set_solver.
    + destruct t; cbn in *. unfold lesser, users, groups_of. cbn. repeat split; set_solver.
    + unfold users in Hin. destruct t; cbn in *. unfold lesser, users, groups_of. cbn. repeat split; set_solver.
  - destruct (0 <? eu); [destruct ((uid t =? eu) || (euid t =? eu)) eqn:E2|apply lesser_refl]; cbn [fst].
    + assert (Hin2 : eu ∈ users t). { apply orb_true_iff in E2 as [E2|E2]; apply Z.eqb_eq in E2 as <-; unfold users; set_solver. }
      rewrite (small_id t eu Hs) by (apply elem_of_app; by left).
      unfold users in Hin2. destruct t; cbn in *. unfold lesser, users, groups_of. cbn. repeat split; set_solver.
    + destruct t; cbn in *. unfold lesser, users, groups_of. cbn. repeat split; set_solver.
Qed.

Lemma setregid_lesser rg eg t : euid t <> 0 -> small_ids t -> lesser t (setregid_task rg eg t).1.
Proof.
  intros He Hs. unfold setregid_task. rewrite (proj2 (Z.eqb_neq _ _) He), !orb_false_r.
  destruct ((0 <? rg) && negb (gid t =? rg)) eqn:E; [apply lesser_refl|].
  set (t1 := if 0 <? rg then set_gid (u16 rg) t else t).
  assert (E1 : t1 = t).
  { unfold t1. destruct (0 <? rg); [|done]. cbn in E. apply negb_false_iff, Z.eqb_eq in E as <-.
    rewrite (small_id t (gid t) Hs) by (apply elem_of_app; right; unfold groups_of; set_solver). by destruct t. }
  rewrite E1. destruct ((0 <? eg) && _) eqn:E2; [apply lesser_refl|]. cbn [fst].
  destruct (0 <? eg); [|apply lesser_refl]. cbn in E2. apply negb_false_iff in E2.
  assert (Hin2 : eg ∈ groups_of t). { apply orb_true_iff in E2 as [E2|E2]; apply Z.eqb_eq in E2 as <-; unfold groups_of; set_solver. }
  rewrite (small_id t eg Hs) by (apply elem_of_app; by right).
  unfold groups_of in Hin2. destruct t; cbn in *. unfold lesser, users, groups_of. cbn. repeat split; set_solver.
Qed.

Lemma setsid_lesser t : lesser t (setsid_task t).1.
Proof. unfold setsid_task. destruct (_ && _); [apply lesser_refl|]. unfold lesser, users, groups_of. by destruct t. Qed.

(** One call of a task that is not root. *)
Lemma run_cred_lesser c k t :
  heap k !! current k = Some t -> euid t <> 0 -> small_ids t ->
  exists r t', run_cred c k = Ok r (set_heap (<[current k := t']> (heap k)) k) /\ lesser t t'.
Proof.
  intros Ht He Hs. destruct c as [u|r e|g|r e| |fs n p]; cbn [run_cred].
  - rewrite (setuid_run u k t Ht). eexists _, _. split; [done|]. by apply setuid_lesser.
  - rewrite (setreuid_run r e k t Ht). eexists _, _. split; [done|]. by apply setreuid_lesser.
  - rewrite (setgid_run g k t Ht). eexists _, _. split; [done|]. by apply setgid_lesser.
  - rewrite (setregid_run r e k t Ht). eexists _, _. split; [done|]. by apply setregid_lesser.
  - rewrite (setsid_run k t Ht). eexists _, _. split; [done|]. apply setsid_lesser.
  - exists (- EPERM), t. split; [|apply lesser_refl]. unfold sys_setgroups.
    rewrite (run_bind _ _ _ _ _ (suser_eq t k Ht)), (proj2 (Z.eqb_neq _ _) He). cbn.
    rewrite insert_id by done. by destruct k.
Qed.

(** C11: no privilege is gained: a task with root neither as real nor effective
    nor saved user can make any sequence of the calls that set users, groups
    and sessions; each of them returns, and afterwards its users are among
    those it had, its groups among those it had, and its supplementary groups
    are the same. *)
Theorem no_privilege_gain (l : list cred_call) (k : kst) (t : task_struct)
    (Hcur : heap k !! current k = Some t) (Hroot : 0 ∉ users t) (Hids : small_ids t) :
  exists k' t', run_creds l k = Ok tt k' /\ heap k' !! current k' = Some t' /\ lesser t t'.
Proof.
  revert k t Hcur Hroot Hids. induction l as [|c l IH]; intros k t Hcur Hroot Hids.
  - exists k, t. split; [done|]. split; [done|]. apply lesser_refl.
  - destruct (run_cred_lesser c k t Hcur) as (r & t1 & Hr & Hl); [unfold users in Hroot; set_solver|done|].
    destruct (IH (set_heap (<[current k := t1]> (heap k)) k) t1) as (k' & t' & Hrun & Ht' & Hl').
    + apply lookup_insert_eq.
    + destruct Hl as [Hu _]. intros H0. by apply Hroot, Hu.
    + by eapply lesser_small.
    + exists k', t'. cbn [run_creds]. rewrite (run_bind _ _ _ _ _ Hr). split; [done|]. split; [done|]. by eapply lesser_trans.
Qed.

(** ** The clock *)

Lemma settimeofday_run fs tv k t :
  heap k !! current k = Some t -> euid t = 0 -> tv <> 0 ->
  sys_settimeofday fs tv 0 k =
    Ok 0 (set_jiffies_offset (s32 (s32 (s32 (get_fs_long fs (tv + 4)) * HZ) ÷ 1000000 - jiffies k mod HZ))
           (set_startup_time (u32 (s32 (get_fs_long fs tv) - jiffies k / HZ)) k)).
Proof.
  intros Ht He Htv. unfold sys_settimeofday. rewrite (run_bind _ _ _ _ _ (suser_eq t k Ht)), He. cbn [Z.eqb negb].
  assert (Etr : truth tv = true) by (unfold truth; by destruct (Z.eqb_spec tv 0)). rewrite Etr.
  change (truth 0) with false. cbn iota. erewrite run_bind by reflexivity.
  by erewrite run_bind by reflexivity.
Qed.

Lemma gettimeofday_run tv k :
  tv <> 0 -> sys_gettimeofday tv 0 k =
    Ok 0 (set_trace (trace k ++ [EVerify tv 8;
       EPut (u32 tv) (u32 (startup_time k + CT_TO_SECS (u32 (jiffies k + jiffies_offset k))));
       EPut (u32 (tv + 4)) (u32 (CT_TO_USECS (u32 (jiffies k + jiffies_offset k))))]) k).
Proof.
  intros Htv. unfold sys_gettimeofday.
  assert (Etr : truth tv = true) by (unfold truth; by destruct (Z.eqb_spec tv 0)). rewrite Etr.
  change (truth 0) with false. cbn iota. unfold set_trace.
  erewrite run_bind; [erewrite run_bind by reflexivity; reflexivity|].
  do 3 (erewrite run_bind by reflexivity). unfold put_fs_long, modify, add_event. cbn. by rewrite <-!app_assoc.
Qed.

(** The tick count the two calls agree on. *)
Lemma clock_ticks j usec : 0 <= j < 4294967200 -> 0 <= usec < 1000000 ->
  u32 (j + s32 (s32 (usec * HZ) ÷ 1000000 - j mod HZ)) = 100 * (j / 100) + usec / 10000.
Proof.
  unfold HZ. intros Hj Hu. rewrite (s32_small (usec * 100)) by (unfold in_s32; lia).
  replace (usec * 100 ÷ 1000000) with (usec / 10000).
  2:{ rewrite Z.quot_div_nonneg by lia. change 1000000 with (10000 * 100). rewrite Z.div_mul_cancel_r by lia. done. }
  pose proof (Z.div_mod usec 10000 ltac:(lia)). pose proof (Z.mod_pos_bound usec 10000 ltac:(lia)).
  pose proof (Z.div_mod j 100 ltac:(lia)). pose proof (Z.mod_pos_bound j 100 ltac:(lia)).
  rewrite s32_small by (unfold in_s32; lia). rewrite u32_small by (unfold in_u32; lia). lia.
Qed.

(** a time set with [sys_settimeofday] is the one [sys_gettimeofday] and
    [sys_time] report in the same tick: the seconds exactly, the microseconds
    rounded down to the hundredth of a second the clock counts in. *)
Theorem settimeofday_roundtrip (fs : umem) (tv tv2 : Z) (k : kst) (t : task_struct)
    (Hcur : heap k !! current k = Some t) (Hroot : euid t = 0) (Htv : tv <> 0 /\ tv2 <> 0)
    (Hj : 0 <= jiffies k < 4294967200) (Husec : 0 <= s32 (get_fs_long fs (tv + 4)) < 1000000) :
  let sec := s32 (get_fs_long fs tv) in
  let usec := s32 (get_fs_long fs (tv + 4)) in
  exists k1 k2, sys_settimeofday fs tv 0 k = Ok 0 k1 /\ sys_gettimeofday tv2 0 k1 = Ok 0 k2 /\
    trace k2 = trace k1 ++ [EVerify tv2 8; EPut (u32 tv2) (u32 sec); EPut (u32 (tv2 + 4)) (usec / 10000 * 10000)] /\
    sys_time 0 k1 = Ok sec k1.
Proof.
  intros sec usec. pose proof (clock_ticks (jiffies k) usec Hj Husec) as Hticks.
  assert (Hq : 0 <= usec / 10000 < 100).
  { pose proof (Z.div_mod usec 10000 ltac:(lia)). pose proof (Z.mod_pos_bound usec 10000 ltac:(lia)). lia. }
  assert (Hdiv : (100 * (jiffies k / 100) + usec / 10000) / HZ = jiffies k / 100).
  { unfold HZ. rewrite Z.add_comm, Z.mul_comm, Z.div_add by lia. rewrite Z.div_small by lia. lia. }
  assert (Hmod : (100 * (jiffies k / 100) + usec / 10000) mod HZ = usec / 10000).
  { unfold HZ. rewrite Z.add_comm, Z.mul_comm, Z_mod_plus_full. by apply Z.mod_small. }
  assert (Hsec : u32 (u32 (sec - jiffies k / HZ) + jiffies k / 100) = u32 sec).
  { unfold u32, HZ. rewrite Zplus_mod_idemp_l. f_equal. lia. }
  assert (Hus : u32 (u32 (usec / 10000 * 1000000) / HZ) = usec / 10000 * 10000).
  { rewrite (u32_small (usec / 10000 * 1000000)) by (unfold in_u32; lia). change 1000000 with (10000 * HZ).
    rewrite Z.mul_assoc, Z.div_mul by (by vm_compute). apply u32_small. unfold in_u32. lia. }
  pose proof (settimeofday_run fs tv k t Hcur Hroot ltac:(lia)) as H1. fold sec usec in H1.
  set (k1 := set_jiffies_offset _ _) in H1. exists k1. eexists. split; [done|].
  split; [apply gettimeofday_run; lia|]. split.
  - cbn [trace set_trace]. rewrite app_inv_head_iff. cbn [startup_time jiffies jiffies_offset k1 set_jiffies_offset set_startup_time].
    rewrite Hticks. unfold CT_TO_SECS, CT_TO_USECS. rewrite Hdiv, Hmod, Hsec.
    by rewrite Hus.
  - unfold sys_time, gets. unfold mbind at 1, M_bind at 1. change (truth 0) with false. cbn [when].
    unfold CURRENT_TIME. cbn [startup_time jiffies jiffies_offset k1 set_jiffies_offset set_startup_time].
    rewrite Hticks, Hdiv, Hsec. unfold mbind, M_bind, mret, M_ret. rewrite s32_u32, s32_small; [done|]. apply s32_range.
Qed.

(** ** Supplementary groups *)

Definition group_words (fs : umem) (p : Z) (n : nat) : list Z := (fun i => get_fs_word fs (p + 2 * i)) <$> range 0 n.

Lemma group_words_S fs p n : group_words fs p (S n) = group_words fs p n ++ [get_fs_word fs (p + 2 * (0 + Z.of_nat n))].
Proof. unfold group_words. by rewrite range_S, fmap_app. Qed.

Lemma group_words_length fs p n : length (group_words fs p n) = n.
Proof. unfold group_words. by rewrite length_fmap, length_range. Qed.

Lemma group_words_range fs p n g : g ∈ group_words fs p n -> 0 <= g < 65536.
Proof. intros (i & -> & _)%list_elem_of_fmap. apply get_fs_word_range. Qed.

Lemma set_group_run i v k t : heap k !! current k = Some t -> 0 <= i < Z.of_nat (length (groups t)) ->
  set_group i v k = Ok tt (set_heap (<[current k := set_groups (<[Z.to_nat i := v]> (groups t)) t]> (heap k)) k).
Proof.
  intros Ht Hi. unfold set_group. rewrite (run_bind _ _ _ _ _ (cur_eq groups t k Ht)).
  rewrite aset_in_range by done. erewrite run_bind by reflexivity. by apply upd_cur_eq.
Qed.

Lemma groups_set l t : groups (set_groups l t) = l.
Proof. by destruct t. Qed.
Lemma set_groups_twice l l' t : set_groups l (set_groups l' t) = set_groups l t.
Proof. by destruct t. Qed.
Lemma set_groups_id t : set_groups (groups t) t = t.
Proof. by destruct t. Qed.

(** The copying loop. *)
Lemma set_groups_loop fs p n k t : heap k !! current k = Some t -> (n <= length (groups t))%nat ->
  for_each (range 0 n) (fun i => set_group i (get_fs_word fs (p + 2 * i))) k =
  Ok tt (set_heap (<[current k := set_groups (group_words fs p n ++ drop n (groups t)) t]> (heap k)) k).
Proof.
  intros Ht. induction n as [|n IH]; intros Hn.
  - cbn. unfold mret, M_ret. rewrite drop_0, set_groups_id, insert_id by done. by destruct k.
  - rewrite range_S, group_words_S, for_each_app. rewrite (run_bind _ _ _ _ _ (IH ltac:(lia))). cbn [for_each].
    assert (Hlen : length (group_words fs p n ++ drop n (groups t)) = length (groups t)).
    { rewrite length_app, group_words_length, length_drop. lia. }
    erewrite run_bind by (apply set_group_run; [apply lookup_insert_eq|rewrite groups_set, Hlen; lia]).
    unfold mret, M_ret. f_equal. unfold set_heap. cbn. rewrite insert_insert_eq, groups_set, set_groups_twice.
    do 3 f_equal. rewrite insert_app_r_alt by (rewrite group_words_length; lia). rewrite group_words_length.
    replace (Z.to_nat (0 + Z.of_nat n) - n)%nat with 0%nat by lia. rewrite drop_insert_0 by lia.
    by rewrite <-app_assoc.
Qed.

(** The groups after [sys_setgroups]. *)
Definition stored_groups (ws old : list Z) : list Z :=
  if Z.of_nat (length ws) <? NGROUPS then ws ++ NOGROUP :: drop (S (length ws)) old else ws.

Lemma setgroups_run fs (n : nat) p k t :
  heap k !! current k = Some t -> euid t = 0 -> (n <= 32)%nat -> length (groups t) = 32%nat ->
  sys_setgroups fs (Z.of_nat n) p k =
  Ok 0 (set_heap (<[current k := set_groups (stored_groups (group_words fs p n) (groups t)) t]> (heap k)) k).
Proof.
  intros Ht He Hn Hlen. unfold sys_setgroups. rewrite (run_bind _ _ _ _ _ (suser_eq t k Ht)), He. cbn [Z.eqb negb].
  unfold NGROUPS. destruct (Z.ltb_spec 32 (Z.of_nat n)); [lia|]. rewrite Nat2Z.id.
  rewrite (run_bind _ _ _ _ _ (set_groups_loop fs p n k t Ht ltac:(lia))). rewrite Z.max_r by lia.
  unfold stored_groups, NGROUPS. rewrite group_words_length. destruct (Z.ltb_spec (Z.of_nat n) 32); cbn [when].
  - erewrite run_bind.
    2:{ apply set_group_run; [apply lookup_insert_eq|].
        rewrite groups_set, length_app, group_words_length, length_drop. lia. }
    unfold mret, M_ret. f_equal. unfold set_heap. cbn. rewrite insert_insert_eq, groups_set, set_groups_twice.
    do 3 f_equal. rewrite insert_app_r_alt by (rewrite group_words_length; lia). rewrite group_words_length.
    replace (Z.to_nat (Z.of_nat n) - n)%nat with 0%nat by lia.
    by rewrite drop_insert_0 by lia.
  - assert (n = 32%nat) as -> by lia. erewrite run_bind by reflexivity. unfold mret, M_ret. do 4 f_equal.
    rewrite drop_ge by lia. by rewrite app_nil_r.
Qed.

Fixpoint word_events (l : list Z) (a : Z) : list event :=
  match l with [] => [] | v :: l' => EPutW (u32 a) (u16 v) :: word_events l' (a + 2) end.

Lemma getgroups_loop_run ws rest size : forall i a k,
  (forall g, g ∈ ws -> 0 <= g) -> (match rest with [] => True | g :: _ => g = NOGROUP end) ->
  0 <= i -> i + Z.of_nat (length ws) <= size ->
  getgroups_loop (ws ++ rest) i size a k = Ok (i + Z.of_nat (length ws)) (set_trace (trace k ++ word_events ws a) k).
Proof.
  induction ws as [|g ws IH]; intros i a k Hws Hrest Hi Hs; cbn [app getgroups_loop word_events].
  - rewrite app_nil_r. cbn [length]. rewrite Z.add_0_r.
    assert (Ek : set_trace (trace k) k = k) by (by destruct k). rewrite Ek.
    destruct rest as [|g r]; [done|]. rewrite Hrest. done.
  - pose proof (Hws g ltac:(by left)) as Hg. cbn [length] in Hs.
    destruct (Z.eqb_spec g NOGROUP) as [E|_]; [unfold NOGROUP in E; lia|].
    unfold truth. destruct (Z.eqb_spec size 0); [lia|]. cbn [negb]. destruct (Z.leb_spec size i); [lia|].
    erewrite run_bind by reflexivity. rewrite IH; [|set_solver|done|lia|lia].
    unfold set_trace, add_event. cbn [trace heap task current jiffies startup_time jiffies_offset wq timers sysd length].
    rewrite <-app_assoc. f_equal. lia.
Qed.

Lemma group_scan_stored ws old g : (forall x, x ∈ ws -> 0 <= x) -> 0 <= g ->
  group_scan (stored_groups ws old) g = bool_decide (g ∈ ws).
Proof.
  intros Hws Hg.
  assert (H : forall rest, (match rest with [] => True | x :: _ => x = NOGROUP end) ->
    group_scan (ws ++ rest) g = bool_decide (g ∈ ws)).
  { intros rest Hr. induction ws as [|x ws IH]; cbn [app group_scan].
    - rewrite bool_decide_false by apply not_elem_of_nil. destruct rest; [done|]. by rewrite Hr.
    - pose proof (Hws x ltac:(by left)). destruct (Z.eqb_spec x NOGROUP) as [E|_]; [unfold NOGROUP in E; lia|].
      destruct (Z.eqb_spec x g) as [->|]; [by rewrite bool_decide_true by left|]. rewrite IH by set_solver.
      apply bool_decide_ext. set_solver. }
  unfold stored_groups. destruct (_ <? _); [by apply H|]. rewrite <-(app_nil_r ws) at 1. by apply H.
Qed.

(** the groups root sets with [sys_setgroups] are those [sys_getgroups]
    returns, in number, order and value, and [in_group_p] then holds for
    exactly these and the effective group. *)
Theorem setgroups_roundtrip (fs : umem) (n : nat) (p p2 size g : Z) (k : kst) (t : task_struct)
    (Hcur : heap k !! current k = Some t) (Hroot : euid t = 0) (Hn : (n <= 32)%nat)
    (Hlen : length (groups t) = 32%nat) (Hsize : Z.of_nat n <= size /\ size <> 0) (Hg : in_u16 g) :
  exists k1 k2, sys_setgroups fs (Z.of_nat n) p k = Ok 0 k1 /\
    sys_getgroups size p2 k1 = Ok (Z.of_nat n) k2 /\
    trace k2 = trace k1 ++ EVerify p2 (2 * size) :: word_events (group_words fs p n) p2 /\
    in_group_p g k1 = Ok (b2z (bool_decide (g = egid t \/ g ∈ group_words fs p n))) k1.
Proof.
  set (ws := group_words fs p n).
  pose proof (setgroups_run fs n p k t Hcur Hroot Hn Hlen) as H1. fold ws in H1.
  set (t1 := set_groups (stored_groups ws (groups t)) t) in H1. set (k1 := set_heap _ k) in H1.
  assert (E1 : heap k1 !! current k1 = Some t1) by apply lookup_insert_eq.
  assert (Hws : forall x, x ∈ ws -> 0 <= x) by (intros x Hx; apply group_words_range in Hx; lia).
  assert (Hst : exists rest, stored_groups ws (groups t) = ws ++ rest /\ match rest with [] => True | x :: _ => x = NOGROUP end).
  { unfold stored_groups. destruct (_ <? _); [by eexists|]. exists []. by rewrite app_nil_r. }
  destruct Hst as (rest & Hst & Hrest).
  exists k1. eexists. split; [done|]. split; [|split].
  - unfold sys_getgroups. unfold when. unfold truth. destruct (Z.eqb_spec size 0); [lia|]. cbn [negb].
    erewrite run_bind by reflexivity. erewrite run_bind by (apply cur_eq; exact E1).
    unfold t1, id. rewrite groups_set, Hst. rewrite getgroups_loop_run; [|done|done|lia|].
    + unfold ws. rewrite group_words_length, Z.add_0_l. reflexivity.
    + unfold ws. rewrite group_words_length. lia.
  - cbn. by rewrite <-app_assoc.
  - unfold in_group_p. rewrite (run_bind _ _ _ _ _ (cur_eq id t1 k1 E1)). unfold id, mret, M_ret.
    assert (Eg : egid t1 = egid t) by (unfold t1; by destruct t). rewrite Eg. unfold t1. rewrite groups_set.
    rewrite group_scan_stored by (done || (unfold in_u16 in Hg; lia)). do 2 f_equal.
    destruct (Z.eqb_spec g (egid t)) as [->|]; cbn [orb].
    + by rewrite bool_decide_true by (by left).
    + apply bool_decide_ext. naive_solver.
Qed.

(** ** Resource limits *)

Fixpoint run_setrlimits (l : list (umem * Z * Z)) : M kst unit :=
  match l with [] => mret tt | (fs, r, p) :: l' => _ ← sys_setrlimit fs r p; run_setrlimits l' end.

(** What a limit [(cur, max)] may become without privilege. *)
Definition limit_le (o n : Z * Z) : Prop := n.2 <= o.2 /\ (n.1 = o.1 \/ n.1 <= o.2).

Lemma limit_le_refl o : limit_le o o.
Proof. unfold limit_le. lia. Qed.

Lemma Forall2_limit_refl l : Forall2 limit_le l l.
Proof. induction l; constructor; [apply limit_le_refl|done]. Qed.

Lemma limit_le_trans a b c : limit_le a b -> limit_le b c -> limit_le a c.
Proof. unfold limit_le. lia. Qed.

Lemma Forall2_limit_trans l1 : forall l2 l3, Forall2 limit_le l1 l2 -> Forall2 limit_le l2 l3 -> Forall2 limit_le l1 l3.
Proof.
  induction l1; intros l2 l3 H1 H2; inversion H1; subst; inversion H2; subst; constructor; [by eapply limit_le_trans|eauto].
Qed.

(** One call by a task that is not root. *)
Lemma setrlimit_lowers fs r p k k' v t :
  heap k !! current k = Some t -> euid t <> 0 -> sys_setrlimit fs r p k = Ok v k' ->
  exists t', k' = set_heap (<[current k := t']> (heap k)) k /\ euid t' = euid t /\ Forall2 limit_le (rlim t) (rlim t').
Proof.
  intros Ht He Hr. unfold sys_setrlimit in Hr.
  assert (Hsame : exists t', k = set_heap (<[current k := t']> (heap k)) k /\ euid t' = euid t /\ Forall2 limit_le (rlim t) (rlim t')).
  { exists t. split; [rewrite insert_id by done; by destruct k|]. split; [done|apply Forall2_limit_refl]. }
  destruct (RLIM_NLIMITS <=? r); [by injection Hr as _ <-|].
  rewrite (run_bind _ _ _ _ _ (cur_eq rlim t k Ht)) in Hr.
  destruct (aget (rlim t) r) as [o|] eqn:Eo; [|done]. rewrite (run_bind _ _ _ o k) in Hr by done.
  rewrite (run_bind _ _ _ _ _ (suser_eq t k Ht)), (proj2 (Z.eqb_neq _ _) He) in Hr. cbn [negb fst snd] in Hr.
  rewrite andb_true_r in Hr. destruct (_ || _) eqn:Ec; [by injection Hr as _ <-|].
  apply orb_false_iff in Ec as [Hc%Z.ltb_ge Hm%Z.ltb_ge].
  rewrite aset_in_range in Hr by (by eapply aget_Some_range). erewrite run_bind in Hr by reflexivity.
  rewrite (run_bind _ _ _ _ _ (upd_cur_eq _ t k Ht)) in Hr. injection Hr as _ <-.
  eexists. split; [done|]. split; [by destruct t|].
  replace (rlim (set_rlim _ t)) with (<[Z.to_nat r := (s32 (get_fs_long fs p), s32 (get_fs_long fs (p + 4)))]> (rlim t)) by (by destruct t).
  assert (Hl : rlim t !! Z.to_nat r = Some o) by (unfold aget in Eo; by destruct (r <? 0)).
  rewrite <-(list_insert_id (rlim t) (Z.to_nat r) o Hl) at 1.
  apply Forall2_insert; [apply Forall2_limit_refl|]. split; cbn; [lia|by right].
Qed.

(** without root, limits only go down: after any sequence of
    [sys_setrlimit] calls each maximum is at most the one the task started
    with, and each current limit is the original one or below that maximum. *)
Theorem setrlimit_monotone (l : list (umem * Z * Z)) (k k' : kst) (t : task_struct)
    (Hcur : heap k !! current k = Some t) (Huser : euid t <> 0) (Hrun : run_setrlimits l k = Ok tt k') :
  exists t', heap k' !! current k' = Some t' /\ Forall2 limit_le (rlim t) (rlim t').
Proof.
  revert k t Hcur Huser Hrun. induction l as [|[[fs r] p] l IH]; intros k t Hcur Huser Hrun.
  - injection Hrun as <-. exists t. split; [done|apply Forall2_limit_refl].
  - cbn [run_setrlimits] in Hrun. apply bind_Ok in Hrun as (v & k1 & H1 & Hrun).
    destruct (setrlimit_lowers fs r p k k1 v t Hcur Huser H1) as (t1 & -> & He & Hf).
    destruct (IH (set_heap (<[current k := t1]> (heap k)) k) t1) as (t' & Ht' & Hf'); [apply lookup_insert_eq|congruence|done|].
    exists t'. split; [done|]. by eapply Forall2_limit_trans.
Qed.

(** a negative resource number is not refused: the calls test only the
    upper bound and then leave the array of limits. *)
Theorem rlimit_negative (fs : umem) (r p : Z) (k : kst) (t : task_struct)
    (Hcur : heap k !! current k = Some t) (Hr : r < 0) :
  (exists k', sys_getrlimit r p k = Halt Fault k') /\ (exists k', sys_setrlimit fs r p k = Halt Fault k').
Proof.
  assert (Hag : aget (rlim t) r = None) by (unfold aget; by rewrite (proj2 (Z.ltb_lt r 0) Hr)).
  unfold sys_getrlimit, sys_setrlimit, RLIM_NLIMITS. destruct (Z.leb_spec 6 r); [lia|]. split; eexists.
  - erewrite run_bind by reflexivity. erewrite run_bind by (apply (cur_eq rlim t); exact Hcur). by rewrite Hag.
  - rewrite (run_bind _ _ _ _ _ (cur_eq rlim t k Hcur)). by rewrite Hag.
Qed.

(** ** Concrete runs *)

Definition demo_root : kst := boot_state [] 12345.

Lemma demo_root_cur : heap demo_root !! current demo_root = Some (INIT_TASK 1).
Proof. reflexivity. Qed.

Definition demo_user : task_struct := set_uid 5 (set_euid 7 (set_suid 5 (INIT_TASK 1))).
Definition demo_plain : kst := set_heap {[1%positive := demo_user]} demo_root.

Lemma no_privilege_gain_witness :
  exists k' t', run_creds [SetUid 0; SetReUid 7 5; SetUid 7; SetGid 3] demo_plain = Ok tt k' /\
    heap k' !! current k' = Some t' /\ lesser demo_user t'.
Proof.
  apply (no_privilege_gain _ demo_plain demo_user); [reflexivity| |].
  - unfold users. cbn. set_solver.
  - unfold small_ids. repeat constructor; cbn; lia.
Defined.

Definition clock_mem : umem := fun a => if a =? 100 then 9 else if a =? 104 then 7 else if a =? 105 then 161 else if a =? 106 then 7 else 0.

Lemma settimeofday_roundtrip_witness :
  exists k1 k2, sys_settimeofday clock_mem 100 0 demo_root = Ok 0 k1 /\ sys_gettimeofday 200 0 k1 = Ok 0 k2 /\
    trace k2 = trace k1 ++ [EVerify 200 8; EPut 200 9; EPut 204 490000] /\ sys_time 0 k1 = Ok 9 k1.
Proof.
  apply (settimeofday_roundtrip clock_mem 100 200 demo_root (INIT_TASK 1));
    [exact demo_root_cur|reflexivity|lia|cbn; lia|vm_compute; split; [discriminate|reflexivity]].
Defined.

Lemma setgroups_roundtrip_witness :
  exists k1 k2, sys_setgroups (fun a => a mod 7) 3 100 demo_root = Ok 0 k1 /\ sys_getgroups 10 200 k1 = Ok 3 k2 /\
    trace k2 = trace k1 ++ EVerify 200 20 :: word_events (group_words (fun a => a mod 7) 100 3) 200 /\
    in_group_p 9 k1 = Ok (b2z (bool_decide (9 = 0 \/ 9 ∈ group_words (fun a => a mod 7) 100 3))) k1.
Proof.
  apply (setgroups_roundtrip (fun a => a mod 7) 3 100 200 10 9 demo_root (INIT_TASK 1));
    [exact demo_root_cur|reflexivity|lia|reflexivity|lia|unfold in_u16; lia].
Defined.

Lemma setrlimit_monotone_witness :
  exists t', heap (final (run_setrlimits [(fun _ => 0, 2, 100)]) demo_plain) !! 1%positive = Some t' /\
    Forall2 limit_le (rlim demo_user) (rlim t').
Proof.
  apply (setrlimit_monotone [(fun _ => 0, 2, 100)] demo_plain (final (run_setrlimits [(fun _ => 0, 2, 100)]) demo_plain) demo_user);
    [reflexivity|vm_compute; discriminate|vm_compute; reflexivity].
Defined.

Lemma rlimit_negative_witness :
  (exists k', sys_getrlimit (-1) 100 demo_plain = Halt Fault k') /\
  (exists k', sys_setrlimit (fun _ => 0) (-1) 100 demo_plain = Halt Fault k').
Proof. apply (rlimit_negative (fun _ => 0) (-1) 100 demo_plain demo_user); [reflexivity|lia]. Defined.
