(* ===== verification/Memory.v ===== *)
(** * Memory management: [mm/memory.c] and [mm/swap.c]

    Physical memory is a map from word addresses to 32-bit words; the page
    directory is the page at address 0 and page tables are pages of it, as in
    the kernel.  [mem_map] counts the users of each page above 1 MB.  Pages can
    be moved to a swap device and back.

    The tasks appear with the fields the memory manager uses.  What a page of
    a program file holds, how often an inode is in use, where a swap file has its
    blocks and whether a transfer to the swap device succeeds are arguments. *)

From S2P Require Import Prelude TaskStruct.

Definition LOW_MEM : Z := 0x100000.
Definition PAGING_MEMORY : Z := 15 * 1024 * 1024.
Definition PAGING_PAGES : Z := Z.shiftr PAGING_MEMORY 12.
Definition MAP_NR (addr : Z) : Z := Z.shiftr (addr - LOW_MEM) 12.
Definition USED : Z := 100.
Definition PAGE_DIRTY : Z := 0x40.
Definition PAGE_PRESENT : Z := 1.
Definition LIBRARY_SIZE : Z := 0x00400000.
Definition LIBRARY_OFFSET : Z := TASK_SIZE - LIBRARY_SIZE.
Definition CHECK_LAST_NR : Z := 16.
Definition BLOCK_SIZE : Z := 1024.
Definition SWAP_BITS : Z := Z.shiftl 4096 3.
Definition FIRST_VM_PAGE : Z := Z.shiftr TASK_SIZE 12.
Definition LAST_VM_PAGE : Z := 1024 * 1024.
Definition VM_PAGES : Z := LAST_VM_PAGE - FIRST_VM_PAGE.

(** ** The state *)

Record mtask := MTask {
  m_start_code : Z; m_end_data : Z; m_brk : Z; m_stack_max : Z;
  m_executable : option positive; m_library : option positive;
  m_rss : Z; m_min_flt : Z; m_counter : Z
}.

Record mst := Mst {
  HIGH_MEMORY : Z;
  mem_map : list Z;                    (* unsigned char mem_map[PAGING_PAGES] *)
  phys : gmap Z Z;                     (* words of memory, by address; absent is 0 *)
  swap_bitmap : option (gset Z);       (* the bits that are set: free swap pages *)
  swap_device : Z;
  swap_file : option positive;
  swap_store : gmap (Z * Z) (list Z);  (* pages of the swap devices, by device and number *)
  swap_blocks : gmap (Z * Z) (list Z); (* blocks of the swap files, by device and number *)
  dir_entry : Z; page_entry : Z;       (* static variables of swap_out *)
  last_pages : list Z; last_checked : Z;
  mtasks : list (option mtask); mcurrent : Z;
  messages : list string
}.

Definition set_mem_map v m := Mst (HIGH_MEMORY m) v (phys m) (swap_bitmap m) (swap_device m) (swap_file m) (swap_store m) (swap_blocks m) (dir_entry m) (page_entry m) (last_pages m) (last_checked m) (mtasks m) (mcurrent m) (messages m).
Definition set_phys v m := Mst (HIGH_MEMORY m) (mem_map m) v (swap_bitmap m) (swap_device m) (swap_file m) (swap_store m) (swap_blocks m) (dir_entry m) (page_entry m) (last_pages m) (last_checked m) (mtasks m) (mcurrent m) (messages m).
Definition set_swap_bitmap v m := Mst (HIGH_MEMORY m) (mem_map m) (phys m) v (swap_device m) (swap_file m) (swap_store m) (swap_blocks m) (dir_entry m) (page_entry m) (last_pages m) (last_checked m) (mtasks m) (mcurrent m) (messages m).
Definition set_swap_dev d f m := Mst (HIGH_MEMORY m) (mem_map m) (phys m) (swap_bitmap m) d f (swap_store m) (swap_blocks m) (dir_entry m) (page_entry m) (last_pages m) (last_checked m) (mtasks m) (mcurrent m) (messages m).
Definition set_swap_data s b m := Mst (HIGH_MEMORY m) (mem_map m) (phys m) (swap_bitmap m) (swap_device m) (swap_file m) s b (dir_entry m) (page_entry m) (last_pages m) (last_checked m) (mtasks m) (mcurrent m) (messages m).
Definition set_scan d p m := Mst (HIGH_MEMORY m) (mem_map m) (phys m) (swap_bitmap m) (swap_device m) (swap_file m) (swap_store m) (swap_blocks m) d p (last_pages m) (last_checked m) (mtasks m) (mcurrent m) (messages m).
Definition set_last l c m := Mst (HIGH_MEMORY m) (mem_map m) (phys m) (swap_bitmap m) (swap_device m) (swap_file m) (swap_store m) (swap_blocks m) (dir_entry m) (page_entry m) l c (mtasks m) (mcurrent m) (messages m).
Definition set_mtasks v m := Mst (HIGH_MEMORY m) (mem_map m) (phys m) (swap_bitmap m) (swap_device m) (swap_file m) (swap_store m) (swap_blocks m) (dir_entry m) (page_entry m) (last_pages m) (last_checked m) v (mcurrent m) (messages m).
Definition set_high v m := Mst v (mem_map m) (phys m) (swap_bitmap m) (swap_device m) (swap_file m) (swap_store m) (swap_blocks m) (dir_entry m) (page_entry m) (last_pages m) (last_checked m) (mtasks m) (mcurrent m) (messages m).
Definition add_message s m := Mst (HIGH_MEMORY m) (mem_map m) (phys m) (swap_bitmap m) (swap_device m) (swap_file m) (swap_store m) (swap_blocks m) (dir_entry m) (page_entry m) (last_pages m) (last_checked m) (mtasks m) (mcurrent m) (messages m ++ [s]).

Definition mprintk (s : string) : M mst unit := modify (add_message s).

(** [*(unsigned long * ) a], read and written. *)
Definition word (p : gmap Z Z) (a : Z) : Z := default 0 (p !! a).
Definition rd (a : Z) : M mst Z := gets (fun m => word (phys m) a).
Definition wr (a v : Z) : M mst unit := modify (fun m => set_phys (<[a := v]> (phys m)) m).

(** [mem_map[i]]; the entries are unsigned bytes. *)
Definition get_map (i : Z) : M mst Z := m ← getS; ofOpt (aget (mem_map m) i).
Definition put_map (i v : Z) : M mst unit :=
  m ← getS; l ← ofOpt (aset (mem_map m) i (u8 v)); modify (set_mem_map l).

(** [oom()] *)
Definition oom {A} : M mst A := mprintk "out of memory";; halts (Exit SIGSEGV).

(** Runs of words: the contents of a page. *)
Fixpoint store_words (a : Z) (ws : list Z) (p : gmap Z Z) : gmap Z Z :=
  match ws with [] => p | w :: ws' => store_words (a + 4) ws' (<[a := w]> p) end.
Definition load_words (a : Z) (n : nat) (p : gmap Z Z) : list Z := (fun i => word p (a + 4 * i)) <$> range 0 n.
Definition load_page (a : Z) (p : gmap Z Z) : list Z := load_words a 1024 p.
Definition zeros (n : nat) : list Z := replicate n 0.

(** [copy_page(from, to)] *)
Definition copy_page (from to : Z) : M mst unit :=
  modify (fun m => set_phys (store_words to (load_page from (phys m)) (phys m)) m).

(** ** [free_page] *)

(** [void free_page(unsigned long addr)] *)
Definition free_page (addr : Z) : M mst unit :=
  if addr <? LOW_MEM then mret tt
  else
    h ← gets HIGH_MEMORY;
    if addr <? h then
      let i := Z.shiftr (addr - LOW_MEM) 12 in
      c ← get_map i;
      put_map i (c - 1);;
      if truth c then mret tt
      else put_map i 0;; mprintk "trying to free free page: memory probably corrupted"
    else mprintk "trying to free free page: memory probably corrupted".

(** ** The swap map *)

Definition bit_of (nr : Z) (b : gset Z) : bool := bool_decide (nr ∈ b).

(** [static int get_swap_page(void)]: the lowest set bit from 1 on is cleared. *)
Fixpoint swap_scan (l : list Z) (b : gset Z) : option Z :=
  match l with [] => None | nr :: l' => if bit_of nr b then Some nr else swap_scan l' b end.
Definition get_swap_page : M mst Z :=
  o ← gets swap_bitmap;
  match o with
  | None => mret 0
  | Some b =>
      match swap_scan (range 1 (Z.to_nat (SWAP_BITS - 1))) b with
      | Some nr => modify (set_swap_bitmap (Some (b ∖ {[nr]})));; mret nr
      | None => mret 0
      end
  end.

(** [void swap_free(int swap_nr)] *)
Definition swap_free (swap_nr : Z) : M mst unit :=
  if swap_nr =? 0 then mret tt
  else
    o ← gets swap_bitmap;
    match o with
    | Some b =>
        if swap_nr <? SWAP_BITS then
          modify (set_swap_bitmap (Some ({[swap_nr]} ∪ b)));;
          if bit_of swap_nr b then mprintk "swap_free: swap-space bitmap bad" else mret tt
        else mprintk "swap_free: swap-space bitmap bad"
    | None => mprintk "swap_free: swap-space bitmap bad"
    end.

(** ** Swapping *)

Section Swap.

(** What swapping relies on: [bmap] of the swap file and the device it is on, which majors
    have a driver, and what the hardware makes of a request: [None] if the words are
    moved, and on an error the words the page or block is left with. *)
Record swap_env := SwapEnv {
  swap_bmap : positive -> Z -> Z;
  swap_i_dev : positive -> Z;
  swap_driver : Z -> bool;
  swap_io : forall (writing : bool) (dev sector nr_sectors : Z), mst -> option (Z -> Z)
}.
Context (env : swap_env).

(** The four blocks of page [nr] of the swap file; the first missing one ends
    the search. *)
Fixpoint swap_zones (f : positive) (l : list Z) : option (list Z) :=
  match l with
  | [] => Some []
  | n :: l' => if swap_bmap env f n =? 0 then None
               else match swap_zones f l' with Some r => Some (swap_bmap env f n :: r) | None => None end
  end.

(** [major >= NR_BLK_DEV || !(blk_dev[major].request_fn)] *)
Definition no_driver (dev : Z) : bool := (7 <=? Z.shiftr (u32 dev) 8) || negb (swap_driver env (Z.shiftr (u32 dev) 8)).

(** The words after a transfer of [ws], and what [end_request] says of it. *)
Definition moved (o : option (Z -> Z)) (ws : list Z) : list Z := match o with None => ws | Some f => f <$> range 0 (length ws) end.
Definition io_message (o : option (Z -> Z)) : M mst unit := match o with None => mret tt | Some _ => mprintk "I/O error" end.

(** [ll_rw_page] and [ll_rw_swap_file], reading and writing, to the end of the requests;
    what other tasks do to the page while this one waits is left out. *)
Definition read_dev_page (dev nr buf : Z) : M mst unit :=
  if no_driver dev then mprintk "Trying to read nonexistent block-device"
  else
    m ← getS;
    let o := swap_io env false dev (u32 (Z.shiftl nr 3)) 8 m in
    modify (set_phys (store_words buf (moved o (default (zeros 1024) (swap_store m !! (dev, nr)))) (phys m)));;
    io_message o.
Definition write_dev_page (dev nr buf : Z) : M mst unit :=
  if no_driver dev then mprintk "Trying to read nonexistent block-device"
  else
    m ← getS;
    let o := swap_io env true dev (u32 (Z.shiftl nr 3)) 8 m in
    modify (set_swap_data (<[(dev, nr) := moved o (load_page buf (phys m))]> (swap_store m)) (swap_blocks m));;
    io_message o.
Definition read_file_block (dev z buf : Z) : M mst unit :=
  m ← getS;
  let o := swap_io env false dev (u32 (Z.shiftl z 1)) 2 m in
  modify (set_phys (store_words buf (moved o (default (zeros 256) (swap_blocks m !! (dev, z)))) (phys m)));;
  io_message o.
Definition write_file_block (dev z buf : Z) : M mst unit :=
  m ← getS;
  let o := swap_io env true dev (u32 (Z.shiftl z 1)) 2 m in
  modify (set_swap_data (swap_store m) (<[(dev, z) := moved o (load_words buf 256 (phys m))]> (swap_blocks m)));;
  io_message o.
Fixpoint swap_file_blocks (io : Z -> Z -> Z -> M mst unit) (dev : Z) (zones : list Z) (buf : Z) : M mst unit :=
  match zones with [] => mret tt | z :: l => io dev z buf;; swap_file_blocks io dev l (buf + BLOCK_SIZE) end.

(** [void rw_swap_page(int rw, unsigned int nr, char *buf)] *)
Definition rw_swap_page (page_io block_io : Z -> Z -> Z -> M mst unit) (nr buf : Z) : M mst unit :=
  m ← getS;
  if truth (swap_device m) then page_io (swap_device m) nr buf
  else match swap_file m with
  | Some f =>
      match swap_zones f (range (4 * nr) 4) with
      | Some zs =>
          if no_driver (swap_i_dev env f) then mprintk "ll_rw_swap_file: trying to swap nonexistent block-device"
          else swap_file_blocks block_io (swap_i_dev env f) zs buf
      | None => mprintk "rw_swap_page: bad swap file"
      end
  | None => mprintk "ll_swap_page: no swap file or device"
  end.
Definition read_swap_page : Z -> Z -> M mst unit := rw_swap_page read_dev_page read_file_block.
Definition write_swap_page : Z -> Z -> M mst unit := rw_swap_page write_dev_page write_file_block.

(** [int try_to_swap_out(unsigned long *table_ptr)] *)
Definition try_to_swap_out (table_ptr : Z) : M mst Z :=
  page ← rd table_ptr;
  if negb (truth (Z.land PAGE_PRESENT page)) then mret 0
  else if PAGING_MEMORY <? u32 (page - LOW_MEM) then mret 0
  else if truth (Z.land PAGE_DIRTY page) then
    let page := Z.land page 0xfffff000 in
    c ← get_map (MAP_NR page);
    if negb (c =? 1) then mret 0
    else
      swap_nr ← get_swap_page;
      if swap_nr =? 0 then mret 0
      else
        wr table_ptr (Z.shiftl swap_nr 1);;
        write_swap_page swap_nr page;;
        free_page page;;
        mret 1
  else
    wr table_ptr 0;; free_page (Z.land page 0xfffff000);; mret 1.

(** [int swap_out(void)] as a machine whose states are its labels. *)
Inductive scan_label := CheckDir (counter : Z) | CheckTable (counter pg_table : Z).

Definition swap_rss (d : Z) : M mst unit :=
  m ← getS; o ← ofOpt (aget (mtasks m) (Z.shiftr d 4));
  match o with
  | None => mprintk "swapping out page from non-existent task"
  | Some t =>
      l ← ofOpt (aset (mtasks m) (Z.shiftr d 4)
            (Some (MTask (m_start_code t) (m_end_data t) (m_brk t) (m_stack_max t) (m_executable t) (m_library t)
                     (u16 (m_rss t - 1)) (m_min_flt t) (m_counter t))));
      modify (set_mtasks l)
  end.

Definition swap_out_step (x : scan_label) : M mst (scan_label + Z) :=
  match x with
  | CheckDir counter =>
      if counter <? 0 then mprintk "Out of swap-memory";; mret (inr 0)
      else
        modify (fun m => if 1024 <=? dir_entry m then set_scan (Z.shiftr FIRST_VM_PAGE 10) (page_entry m) m else m);;
        d ← gets dir_entry;
        pg_table ← rd (4 * d);
        if negb (truth (Z.land 1 pg_table)) then
          (if truth pg_table then mprintk "bad page-table at pg_dir";; wr (4 * d) 0 else mret tt);;
          modify (fun m => set_scan (dir_entry m + 1) (page_entry m) m);;
          mret (inl (CheckDir (counter - 1024)))
        else mret (inl (CheckTable counter (Z.land pg_table 0xfffff000)))
  | CheckTable counter pg_table =>
      if counter <? 0 then mprintk "Out of swap-memory";; mret (inr 0)
      else
        modify (fun m => set_scan (dir_entry m) (page_entry m + 1) m);;
        p ← gets page_entry;
        if 1024 <=? p then
          modify (fun m => set_scan (dir_entry m + 1) (-1) m);;
          mret (inl (CheckDir (counter - 1)))
        else
          r ← try_to_swap_out (pg_table + 4 * p);
          if truth r then d ← gets dir_entry; swap_rss d;; mret (inr 1)
          else mret (inl (CheckTable (counter - 1) pg_table))
  end.

(** Each visit of a table entry takes one off [counter], each directory entry
    leads to at most one more step. *)
Definition SCAN_FUEL : nat := Z.to_nat (2 * VM_PAGES + 5).
Definition swap_out : M mst Z := iter SCAN_FUEL swap_out_step (CheckDir VM_PAGES).

(** The scan of [mem_map] from its end for a zero byte. *)
Fixpoint last_zero (l : list Z) (i : Z) (found : option Z) : option Z :=
  match l with
  | [] => found
  | c :: l' => last_zero l' (i + 1) (if c =? 0 then Some i else found)
  end.

(** The assembler part of [get_free_page]: find, mark and clear. *)
Definition take_page : M mst Z :=
  m ← getS;
  match last_zero (mem_map m) 0 None with
  | None => mret 0
  | Some i =>
      put_map i 1;;
      let page := LOW_MEM + 4096 * i in
      modify (fun m => set_phys (store_words page (zeros 1024) (phys m)) m);;
      mret page
  end.

(** One turn from the label [repeat]. *)
Definition get_free_page_step (_ : unit) : M mst (unit + Z) :=
  result ← take_page;
  h ← gets HIGH_MEMORY;
  if h <=? result then mret (inl tt)
  else
    result ← (if (truth result && (result <? LOW_MEM)) || truth (Z.land result 0xfff)
              then mprintk "weird result";; mret 0 else mret result);
    if result =? 0 then
      r ← swap_out;
      if truth r then mret (inl tt) else mret (inr result)
    else mret (inr result).

(** [unsigned long get_free_page(void)]: [tries] bounds how often it starts
    over. *)
Context (tries : nat).
Definition get_free_page : M mst Z := iter tries get_free_page_step tt.

(** [void swap_in(unsigned long *table_ptr)] *)
Definition swap_in (table_ptr : Z) : M mst unit :=
  o ← gets swap_bitmap;
  match o with
  | None => mprintk "Trying to swap in without swap bit-map"
  | Some _ =>
      e ← rd table_ptr;
      if truth (Z.land 1 e) then mprintk "trying to swap in present page"
      else
        let swap_nr := Z.shiftr e 1 in
        if swap_nr =? 0 then mprintk "No swap page in swap_in"
        else
          page ← get_free_page;
          if page =? 0 then oom
          else
            read_swap_page swap_nr page;;
            o ← gets swap_bitmap;
            b ← ofOpt o;
            modify (set_swap_bitmap (Some ({[swap_nr]} ∪ b)));;
            (if bit_of swap_nr b then mprintk "swapping in multiply from same page" else mret tt);;
            wr table_ptr (Z.lor page (Z.lor PAGE_DIRTY 7))
  end.

(** ** Page tables *)

(** The address of the directory entry of a linear address. *)
Definition dir_of (address : Z) : Z := Z.land (Z.shiftr address 20) 0xffc.
(** The offset of its entry in a page table. *)
Definition entry_off (address : Z) : Z := Z.land (Z.shiftr address 10) 0xffc.

(** [int free_page_tables(unsigned long from, unsigned long size)] *)
Definition free_entry (a : Z) : M mst unit :=
  page ← rd a;
  if page =? 0 then mret tt
  else
    wr a 0;;
    if truth (Z.land 1 page) then free_page (Z.land 0xfffff000 page) else swap_free (Z.shiftr page 1).

Definition free_dir (d : Z) : M mst unit :=
  page_dir ← rd d;
  if page_dir =? 0 then mret tt
  else
    wr d 0;;
    if negb (truth (Z.land page_dir 1)) then mprintk "free_page_tables: bad page directory."
    else
      let pg_table := Z.land 0xfffff000 page_dir in
      for_each (range 0 1024) (fun nr => free_entry (pg_table + 4 * nr));;
      free_page pg_table.

Definition free_page_tables (from size : Z) : M mst Z :=
  if truth (Z.land from 0x3fffff) then halts (Panic "free_page_tables called with wrong alignment")
  else if from =? 0 then halts (Panic "Trying to free up swapper memory space")
  else
    let size := Z.shiftr (u32 (size + 0x3fffff)) 22 in
    for_each (range 0 (Z.to_nat size)) (fun i => free_dir (dir_of from + 4 * i));;
    modify (fun m => set_last (zeros (Z.to_nat CHECK_LAST_NR)) (last_checked m) m);;
    mret 0.

(** [int copy_page_tables(unsigned long from, unsigned long to, long size)] *)
Definition rss_up : M mst unit :=
  m ← getS; o ← ofOpt (aget (mtasks m) (mcurrent m)); t ← ofOpt o;
  l ← ofOpt (aset (mtasks m) (mcurrent m)
        (Some (MTask (m_start_code t) (m_end_data t) (m_brk t) (m_stack_max t) (m_executable t) (m_library t)
                 (u16 (m_rss t + 1)) (m_min_flt t) (m_counter t))));
  modify (set_mtasks l).

(** One entry; [false] when memory ran out. *)
Definition copy_entry (fa ta : Z) : M mst bool :=
  this_page ← rd fa;
  if this_page =? 0 then mret true
  else if negb (truth (Z.land 1 this_page)) then
    new_page ← get_free_page;
    if new_page =? 0 then mret false
    else
      rss_up;;
      read_swap_page (Z.shiftr this_page 1) new_page;;
      wr ta this_page;;
      wr fa (Z.lor new_page (Z.lor PAGE_DIRTY 7));;
      mret true
  else
    let this_page := Z.ldiff this_page 2 in
    wr ta this_page;;
    (if LOW_MEM <? this_page then
       wr fa this_page;;
       c ← get_map (Z.shiftr (this_page - LOW_MEM) 12);
       put_map (Z.shiftr (this_page - LOW_MEM) 12) (c + 1)
     else mret tt);;
    mret true.

Fixpoint copy_entries (l : list Z) (fa ta : Z) : M mst bool :=
  match l with
  | [] => mret true
  | i :: l' => ok ← copy_entry (fa + 4 * i) (ta + 4 * i); if ok : bool then copy_entries l' fa ta else mret false
  end.

Definition copy_dir (from fd td : Z) : M mst bool :=
  t ← rd td;
  (if truth t then mprintk "copy_page_tables: already exist, probable memory corruption" else mret tt);;
  f ← rd fd;
  if f =? 0 then mret true
  else if negb (truth (Z.land 1 f)) then wr fd 0;; mret true
  else
    to_page_table ← get_free_page;
    if to_page_table =? 0 then mret false
    else
      wr td (Z.lor to_page_table 7);;
      copy_entries (range 0 (if from =? 0 then 0xA0 else 1024)) (Z.land 0xfffff000 f) to_page_table.

Fixpoint copy_dirs (l : list Z) (from fd td : Z) : M mst bool :=
  match l with
  | [] => mret true
  | i :: l' => ok ← copy_dir from (fd + 4 * i) (td + 4 * i); if ok : bool then copy_dirs l' from fd td else mret false
  end.

Definition copy_page_tables (from to size : Z) : M mst Z :=
  if truth (Z.land from 0x3fffff) || truth (Z.land to 0x3fffff)
  then halts (Panic "copy_page_tables called with wrong alignment")
  else
    let size := Z.shiftr (u32 (size + 0x3fffff)) 22 in
    ok ← copy_dirs (range 0 (Z.to_nat size)) from (dir_of from) (dir_of to);
    mret (if ok : bool then 0 else -1).

(** [static unsigned long put_page(...)] and [put_dirty_page(...)] differ in the
    flags of the entry. *)
Definition put_page_flags (flags page address : Z) : M mst Z :=
  h ← gets HIGH_MEMORY;
  (if (page <? LOW_MEM) || (h <=? page) then mprintk "Trying to put page" else mret tt);;
  c ← get_map (Z.shiftr (page - LOW_MEM) 12);
  (if negb (c =? 1) then mprintk "mem_map disagrees" else mret tt);;
  e ← rd (dir_of address);
  o ← (if truth (Z.land e 1) then mret (Some (Z.land 0xfffff000 e))
       else
         tmp ← get_free_page;
         if tmp =? 0 then mret None
         else wr (dir_of address) (Z.lor tmp 7);; mret (Some tmp));
  match o with
  | None => mret 0
  | Some table => wr (table + 4 * Z.land (Z.shiftr address 12) 0x3ff) (Z.lor page flags);; mret page
  end.

Definition put_page : Z -> Z -> M mst Z := put_page_flags 7.
Definition put_dirty_page : Z -> Z -> M mst Z := put_page_flags (Z.lor PAGE_DIRTY 7).

(** [void un_wp_page(unsigned long *table_entry)] *)
Definition un_wp_page (table_entry : Z) : M mst unit :=
  e ← rd table_entry;
  let old_page := Z.land 0xfffff000 e in
  sole ← (if LOW_MEM <=? old_page then c ← get_map (MAP_NR old_page); mret (c =? 1) else mret false);
  if sole : bool then wr table_entry (Z.lor e 2)
  else
    new_page ← get_free_page;
    if new_page =? 0 then oom
    else
      (if LOW_MEM <=? old_page then c ← get_map (MAP_NR old_page); put_map (MAP_NR old_page) (c - 1) else mret tt);;
      copy_page old_page new_page;;
      wr table_entry (Z.lor new_page 7).

(** The task whose memory it is. *)
Definition get_task (n : Z) : M mst mtask := m ← getS; o ← ofOpt (aget (mtasks m) n); ofOpt o.
Definition put_task (n : Z) (t : mtask) : M mst unit :=
  m ← getS; l ← ofOpt (aset (mtasks m) n (Some t)); modify (set_mtasks l).

(** [void do_wp_page(unsigned long error_code, unsigned long address)] *)
Definition do_wp_page (address : Z) : M mst unit :=
  (if address <? TASK_SIZE then mprintk "BAD! KERNEL MEMORY WP-ERR!" else mret tt);;
  c ← gets mcurrent; t ← get_task c;
  if TASK_SIZE <? u32 (address - m_start_code t)
  then mprintk "Bad things happen: page error in do_wp_page";; halts (Exit SIGSEGV)
  else
    e ← rd (dir_of address);
    un_wp_page (entry_off address + Z.land 0xfffff000 e).

(** [void write_verify(unsigned long address)] *)
Definition write_verify (address : Z) : M mst unit :=
  page ← rd (dir_of address);
  if negb (truth (Z.land page 1)) then mret tt
  else
    let a := Z.land page 0xfffff000 + entry_off address in
    e ← rd a;
    if Z.land 3 e =? 1 then un_wp_page a else mret tt.

(** [void get_empty_page(unsigned long address)] *)
Definition get_empty_page (address : Z) : M mst unit :=
  tmp ← get_free_page;
  ok ← (if tmp =? 0 then mret 0 else put_page tmp address);
  if ok =? 0 then free_page tmp;; oom else mret tt.

(** [static int try_to_share(unsigned long address, struct task_struct *p)]:
    [from] and [to] are the start addresses of the two tasks. *)
Definition try_to_share (address from to : Z) : M mst Z :=
  let from_page := dir_of address + dir_of from in
  let to_page := dir_of address + dir_of to in
  fd ← rd from_page;
  if negb (truth (Z.land fd 1)) then mret 0
  else
    let from_page := Z.land fd 0xfffff000 + entry_off address in
    phys_addr ← rd from_page;
    if negb (Z.land phys_addr 0x41 =? 1) then mret 0
    else
      let phys_addr := Z.land phys_addr 0xfffff000 in
      h ← gets HIGH_MEMORY;
      if (h <=? phys_addr) || (phys_addr <? LOW_MEM) then mret 0
      else
        td ← rd to_page;
        td ← (if negb (truth (Z.land td 1)) then
                n ← get_free_page;
                if n =? 0 then oom else wr to_page (Z.lor n 7);; mret n
              else mret td);
        let to_page := Z.land td 0xfffff000 + entry_off address in
        te ← rd to_page;
        if truth (Z.land 1 te) then halts (Panic "try_to_share: to_page already exists")
        else
          fe ← rd from_page;
          wr from_page (Z.ldiff fe 2);;
          fe ← rd from_page;
          wr to_page fe;;
          c ← get_map (Z.shiftr (phys_addr - LOW_MEM) 12);
          put_map (Z.shiftr (phys_addr - LOW_MEM) 12) (c + 1);;
          mret 1.

(** What the file system tells: the use count of an inode, and the contents of
    the page of a file that starts at a block. *)
Context (i_count : positive -> Z) (file_page : positive -> Z -> list Z).

(** [static int share_page(struct inode *inode, unsigned long address)] *)
Fixpoint share_scan (l : list Z) (inode : positive) (address : Z) : M mst Z :=
  match l with
  | [] => mret 0
  | i :: l' =>
      m ← getS; o ← ofOpt (aget (mtasks m) i);
      match o with
      | None => share_scan l' inode address
      | Some p =>
          if mcurrent m =? i then share_scan l' inode address
          else if negb (bool_decide ((if address <? LIBRARY_OFFSET then m_executable p else m_library p) = Some inode))
          then share_scan l' inode address
          else
            c ← get_task (mcurrent m);
            r ← try_to_share address (m_start_code p) (m_start_code c);
            if truth r then mret 1 else share_scan l' inode address
      end
  end.
Definition share_page (inode : positive) (address : Z) : M mst Z :=
  if i_count inode <? 2 then mret 0 else share_scan (reverse (range 1 63)) inode address.

(** Clearing the last [n] bytes of a page, byte by byte from its end. *)
Definition clear_tail (page n : Z) (p : gmap Z Z) : gmap Z Z :=
  let first := 4096 - n in
  let w := first / 4 in
  let keep := first mod 4 in
  let p1 := if keep =? 0 then p else <[page + 4 * w := Z.land (word p (page + 4 * w)) (Z.ones (8 * keep))]> p in
  let from := if keep =? 0 then w else w + 1 in
  store_words (page + 4 * from) (zeros (Z.to_nat (1024 - from))) p1.

(** [do_no_page] up to the choice of the contents; [resched] is what happens
    while the task gives up the processor because it faults on the same page
    again. *)
Definition fault_check (resched : M mst unit) (address : Z) : M mst unit :=
  for_each (range 0 16) (fun i =>
    m ← getS; l ← ofOpt (aget (last_pages m) i);
    if Z.land address 0xfffff000 =? l then
      c ← gets mcurrent; t ← get_task c;
      put_task c (MTask (m_start_code t) (m_end_data t) (m_brk t) (m_stack_max t) (m_executable t) (m_library t)
                    (m_rss t) (m_min_flt t) 0);;
      resched
    else mret tt);;
  m ← getS;
  let n := if CHECK_LAST_NR <=? last_checked m + 1 then 0 else last_checked m + 1 in
  l ← ofOpt (aset (last_pages m) n (Z.land address 0xfffff000));
  modify (set_last l n).

(** The page a program file supplies, cleared beyond the end of the data. *)
Definition load_file_page (inode : positive) (block tmp address : Z) : M mst unit :=
  page ← get_free_page;
  if page =? 0 then oom
  else
    modify (fun m => set_phys (store_words page (take 1024 (file_page inode block)) (phys m)) m);;
    c ← gets mcurrent; t ← get_task c;
    let i := s32 (tmp + 4096 - m_end_data t) in
    let i := if 4095 <? i then 0 else i in
    modify (fun m => if 0 <? i then set_phys (clear_tail page i (phys m)) m else m);;
    r ← put_page page address;
    if truth r then mret tt else free_page page;; oom.

(** [void do_no_page(unsigned long error_code, unsigned long address,
    struct task_struct *tsk)]; [tsk] is the slot of the task. *)
Definition do_no_page (resched : M mst unit) (address tsk : Z) : M mst unit :=
  fault_check resched address;;
  (if address <? TASK_SIZE then mprintk "BAD!! KERNEL PAGE MISSING";; halts (Exit SIGSEGV) else mret tt);;
  t ← get_task tsk;
  (if TASK_SIZE <? u32 (address - m_start_code t)
   then mprintk "Bad things happen: nonexistent page error in do_no_page";; halts (Exit SIGSEGV) else mret tt);;
  put_task tsk (MTask (m_start_code t) (m_end_data t) (m_brk t) (m_stack_max t) (m_executable t) (m_library t)
                  (u16 (m_rss t + 1)) (m_min_flt t) (m_counter t));;
  page ← rd (dir_of address);
  swapped ← (if truth (Z.land page 1) then
               let a := Z.land page 0xfffff000 + entry_off address in
               e ← rd a;
               if truth e && negb (truth (Z.land 1 e)) then swap_in a;; mret true else mret false
             else
               (if truth page then mprintk "do_no_page: bad page directory" else mret tt);;
               n ← get_free_page;
               if n =? 0 then oom else wr (dir_of address) (Z.lor n 7);; mret false);
  if swapped : bool then mret tt
  else
    let address := Z.land address 0xfffff000 in
    t ← get_task tsk;
    let tmp := u32 (address - m_start_code t) in
    let '(inode, block) :=
      if LIBRARY_OFFSET <=? tmp then (m_library t, 1 + (tmp - LIBRARY_OFFSET) / BLOCK_SIZE)
      else if tmp <? m_end_data t then (m_executable t, 1 + tmp / BLOCK_SIZE)
      else (None, 0) in
    match inode with
    | None =>
        put_task tsk (MTask (m_start_code t) (m_end_data t) (m_brk t) (m_stack_max t) (m_executable t) (m_library t)
                        (m_rss t) (u32 (m_min_flt t + 1)) (m_counter t));;
        c ← gets mcurrent;
        if (m_brk t <? tmp) && (tsk =? c) && (u32 (m_stack_max t) <? u32 (LIBRARY_OFFSET - tmp))
        then halts (Exit SIGSEGV)
        else get_empty_page address
    | Some i =>
        r ← share_page i tmp;
        if truth r then mret tt else load_file_page i block tmp address
    end.

(** [void do_page_fault(unsigned long *esp, unsigned long error_code)]; the
    address is the one the processor reports. *)
Definition do_page_fault (resched : M mst unit) (error_code address : Z) : M mst unit :=
  if negb (truth (Z.land error_code 1)) then c ← gets mcurrent; do_no_page resched address c
  else do_wp_page address.

(** ** Set-up *)

(** [setup_paging] of [boot/head.S]: the directory and four tables, which map the first
    16 MB to themselves, written from the end. *)
Definition setup_paging : M mst unit :=
  modify (fun m => set_phys (store_words 0 (zeros (1024 * 5)) (phys m)) m);;
  wr 0 (0x1000 + 7);; wr 4 (0x2000 + 7);; wr 8 (0x3000 + 7);; wr 12 (0x4000 + 7);;
  for_each (reverse (range 0 4096)) (fun i => wr (0x1000 + 4 * i) (0x1000 * i + 7)).

(** [void mem_init(long start_mem, long end_mem)] *)
Definition mem_init (start_mem end_mem : Z) : M mst unit :=
  modify (set_swap_dev 0 None);;
  modify (set_high end_mem);;
  modify (set_mem_map (replicate (Z.to_nat PAGING_PAGES) USED));;
  for_each (range (MAP_NR start_mem) (Z.to_nat (Z.shiftr (end_mem - start_mem) 12))) (fun i => put_map i 0).

(** Bits and bytes of a page. *)
Definition page_bit (ws : list Z) (i : Z) : bool := Z.testbit (default 0 (ws !! Z.to_nat (i / 32))) (i mod 32).
Definition page_byte (ws : list Z) (i : Z) : Z := Z.land (Z.shiftr (default 0 (ws !! Z.to_nat (i / 4))) (8 * (i mod 4))) 255.

(** The last ten bytes are SWAP-SPACE; they are cleared before use. *)
Definition swap_signature (ws : list Z) : bool :=
  bool_decide (page_byte ws <$> range 4086 10 = [83; 87; 65; 80; 45; 83; 80; 65; 67; 69]).
Definition swap_bits (ws : list Z) : gset Z := list_to_set (List.filter (page_bit ws) (range 0 (4086 * 8))).

(** [int sys_swapon(const char *specialfile)]: [found] is what [namei] finds,
    with its kind; references to it are counted in the file system. *)
Inductive swap_node := BlockDevice (rdev : Z) | RegularFile | OtherFile.

Definition sys_swapon (root : bool) (found : option (positive * swap_node)) : M mst Z :=
  if negb root then mret (- EPERM)
  else match found with
  | None => mret (- ENOENT)
  | Some (inode, kind) =>
      m ← getS;
      if bool_decide (swap_file m <> None) || truth (swap_device m) || bool_decide (swap_bitmap m <> None)
      then mret (- EBUSY)
      else match kind with
      | OtherFile => mret (- EINVAL)
      | _ =>
          (match kind with
           | BlockDevice d => modify (set_swap_dev d None)
           | _ => modify (set_swap_dev 0 (Some inode))
           end);;
          page ← get_free_page;
          if page =? 0 then
            modify (set_swap_dev 0 None);;
            mprintk "Unable to start swapping: out of memory :-)";; mret (- ENOMEM)
          else
            read_swap_page 0 page;;
            ws ← gets (fun m => load_page page (phys m));
            let bits := swap_bits ws in
            if negb (swap_signature ws) then
              mprintk "Unable to find swap-space signature";;
              free_page page;; modify (set_swap_dev 0 None);; modify (set_swap_bitmap None);; mret (- EINVAL)
            else if negb (existsb (fun i => bit_of i bits) (range 1 (Z.to_nat (SWAP_BITS - 1)))) then
              mprintk "Empty swap-file";;
              free_page page;; modify (set_swap_dev 0 None);; modify (set_swap_bitmap None);; mret (- EINVAL)
            else
              modify (set_swap_bitmap (Some bits));; mprintk "Adding Swap";; mret 0
      end
  end.

End Swap.
