(* ===== verification/Paging.v ===== *)
(** * Theorems about memory management

    Pages are handed out once and empty ([get_free_page]); writing to a shared
    page gives the writer a copy that no address space can tell from the
    original ([write_verify]); a page swapped out comes back as it was
    ([try_to_swap_out], [swap_in]); the scan for a page to swap ends; and
    [mem_init] frees exactly the main memory. *)

From S2P Require Import Prelude TaskStruct Memory.

(** ** Words and pages *)

Lemma word_insert p a b v : word (<[a := v]> p) b = if decide (a = b) then v else word p b.
Proof. unfold word. destruct (decide (a = b)) as [<-|]; [by rewrite lookup_insert_eq|by rewrite lookup_insert_ne]. Qed.

(** Whether an address is one of [n] words from [a] on. *)
Definition in_words (a : Z) (n : nat) (x : Z) : Prop := exists i, 0 <= i < Z.of_nat n /\ x = a + 4 * i.

Lemma word_store_out ws : forall a p x, ~ in_words a (length ws) x -> word (store_words a ws p) x = word p x.
Proof.
  induction ws as [|w ws IH]; intros a p x Hx; [done|]. cbn [store_words length] in *. rewrite IH.
  - rewrite word_insert. destruct (decide (a = x)) as [<-|]; [|done]. exfalso. apply Hx. exists 0. lia.
  - intros (i & Hi & ->). apply Hx. exists (i + 1). lia.
Qed.

Lemma word_store_in ws : forall a p i w, 0 <= i -> ws !! Z.to_nat i = Some w -> word (store_words a ws p) (a + 4 * i) = w.
Proof.
  induction ws as [|w0 ws IH]; intros a p i w Hi Hw; [done|]. cbn [store_words].
  destruct (Z.eq_dec i 0) as [->|Hne].
  - cbn in Hw. injection Hw as <-. rewrite word_store_out.
    + rewrite word_insert, decide_True by lia. done.
    + intros (j & Hj & E). lia.
  - replace (a + 4 * i) with (a + 4 + 4 * (i - 1)) by lia. apply IH; [lia|].
    replace (Z.to_nat i) with (S (Z.to_nat (i - 1))) in Hw by lia. done.
Qed.

Lemma load_words_lookup a n p i : (i < n)%nat -> load_words a n p !! i = Some (word p (a + 4 * Z.of_nat i)).
Proof.
  intros Hi. unfold load_words, range. rewrite !list_lookup_fmap, lookup_seq_lt by done. cbn. done.
Qed.

Lemma load_words_length a n p : length (load_words a n p) = n.
Proof. unfold load_words. by rewrite length_fmap, length_range. Qed.

Lemma load_store a ws p : load_words a (length ws) (store_words a ws p) = ws.
Proof.
  apply list_eq. intros i. destruct (decide (i < length ws)%nat) as [Hi|Hi].
  - rewrite load_words_lookup by done. destruct (lookup_lt_is_Some_2 ws i Hi) as [w Hw]. rewrite Hw. f_equal.
    apply word_store_in; [lia|]. by rewrite Nat2Z.id.
  - rewrite !lookup_ge_None_2; [done|lia|rewrite load_words_length; lia].
Qed.

Lemma load_words_ext a n p q :
  (forall i, 0 <= i < Z.of_nat n -> word p (a + 4 * i) = word q (a + 4 * i)) -> load_words a n p = load_words a n q.
Proof.
  intros H. unfold load_words. apply list_fmap_ext. intros j i Hi.
  apply list_elem_of_lookup_2, elem_of_range in Hi. apply H. lia.
Qed.

(** Pages are 4096 bytes at multiples of 4096. *)
Definition page_addr (a : Z) : Prop := a mod 4096 = 0.
Definition in_page (a x : Z) : Prop := a <= x < a + 4096.

Lemma in_words_page a x : in_words a 1024 x -> in_page a x.
Proof. intros (i & Hi & ->). unfold in_page. lia. Qed.

Lemma page_disjoint a b x : page_addr a -> page_addr b -> a <> b -> in_page a x -> ~ in_page b x.
Proof.
  unfold page_addr, in_page. intros Ha Hb Hne Hx Hy.
  pose proof (Z.div_mod a 4096 ltac:(lia)). pose proof (Z.div_mod b 4096 ltac:(lia)). lia.
Qed.

Lemma load_page_frame a b ws p :
  page_addr a -> page_addr b -> a <> b -> (length ws <= 1024)%nat -> load_page b (store_words a ws p) = load_page b p.
Proof.
  intros Ha Hb Hne Hl. apply load_words_ext. intros i Hi. apply word_store_out. intros (j & Hj & E).
  apply (page_disjoint b a (b + 4 * i)); [done..|unfold in_page; lia|unfold in_page; lia].
Qed.

(** ** Free pages *)

Lemma last_zero_spec l : forall b f,
  match last_zero l b f with
  | Some i => (Some i = f /\ Forall (fun c => c <> 0) l) \/
      (b <= i < b + Z.of_nat (length l) /\ l !! Z.to_nat (i - b) = Some 0 /\
       forall j c, i < j -> 0 <= j - b -> l !! Z.to_nat (j - b) = Some c -> c <> 0)
  | None => f = None /\ Forall (fun c => c <> 0) l
  end.
Proof.
  induction l as [|c l IH]; intros b f; cbn [last_zero].
  - destruct f; [left|]; done.
  - specialize (IH (b + 1) (if c =? 0 then Some b else f)).
    assert (Hsh : forall j c', 1 <= j - b -> (c :: l) !! Z.to_nat (j - b) = Some c' -> l !! Z.to_nat (j - (b + 1)) = Some c').
    { intros j c' Hj H. by replace (Z.to_nat (j - b)) with (S (Z.to_nat (j - (b + 1)))) in H by lia. }
    destruct (last_zero l (b + 1) _) as [i|].
    + destruct IH as [[E Hf]|(Hi & Hl & Hmax)].
      * destruct (Z.eqb_spec c 0) as [->|Hc].
        -- injection E as ->. right. cbn [length]. split; [lia|]. rewrite Z.sub_diag. split; [done|].
           intros j c' Hj Hj' H. apply Hsh in H; [|lia]. by eapply Forall_lookup_1 in Hf.
        -- left. split; [done|]. by constructor.
      * right. cbn [length]. split; [lia|]. split.
        -- by replace (Z.to_nat (i - b)) with (S (Z.to_nat (i - (b + 1)))) by lia.
        -- intros j c' Hj Hj' H. apply (Hmax j c'); [lia|lia|]. apply Hsh; [lia|done].
    + destruct IH as [E Hf]. destruct (Z.eqb_spec c 0); [done|]. split; [done|]. by constructor.
Qed.

Definition frame_addr (i : Z) : Z := LOW_MEM + 4096 * i.

Lemma frame_page i : page_addr (frame_addr i).
Proof.
  unfold page_addr, frame_addr, LOW_MEM. replace (0x100000 + 4096 * i) with ((256 + i) * 4096) by lia. apply Z.mod_mul. lia.
Qed.

Lemma MAP_NR_frame i : MAP_NR (frame_addr i) = i.
Proof.
  unfold MAP_NR, frame_addr. rewrite Z.shiftr_div_pow2 by lia. change (2 ^ 12) with 4096.
  replace (LOW_MEM + 4096 * i - LOW_MEM) with (i * 4096) by lia. apply Z.div_mul. lia.
Qed.

(** The state of [mem_map]: the right length, nothing free beyond the end of
    memory, and memory that ends at a page boundary inside the table. *)
Record map_ok (m : mst) : Prop := {
  mo_len : Z.of_nat (length (mem_map m)) = PAGING_PAGES;
  mo_high : forall i, aget (mem_map m) i = Some 0 -> frame_addr i < HIGH_MEMORY m;
  mo_byte : Forall in_u8 (mem_map m)
}.

(** The free page [get_free_page] takes. *)
Definition next_free (m : mst) (i : Z) : Prop :=
  aget (mem_map m) i = Some 0 /\ forall j, i < j -> aget (mem_map m) j <> Some 0.

Lemma last_zero_next_free m :
  match last_zero (mem_map m) 0 None with
  | Some i => next_free m i
  | None => forall i, aget (mem_map m) i <> Some 0
  end.
Proof.
  pose proof (last_zero_spec (mem_map m) 0 None) as H. destruct (last_zero (mem_map m) 0 None) as [i|].
  - destruct H as [[? _]|(Hi & Hl & Hmax)]; [done|]. rewrite Z.sub_0_r in Hl. split.
    + unfold aget. by destruct (Z.ltb_spec i 0); [lia|].
    + intros j Hj E. unfold aget in E. destruct (Z.ltb_spec j 0); [done|]. apply (Hmax j 0); [lia|lia| |done].
      by rewrite Z.sub_0_r.
  - destruct H as [_ Hf]. intros i E. unfold aget in E. destruct (i <? 0); [done|]. by eapply Forall_lookup_1 in Hf.
Qed.

Lemma next_free_unique m i j : next_free m i -> next_free m j -> i = j.
Proof.
  intros [Hi Hi'] [Hj Hj']. destruct (Z.lt_trichotomy i j) as [H|[H|H]]; [by apply Hi' in H|done|by apply Hj' in H].
Qed.

(** Taking the free page [i]. *)
Definition taken (i : Z) (m : mst) : mst :=
  set_phys (store_words (frame_addr i) (zeros 1024) (phys m)) (set_mem_map (<[Z.to_nat i := 1]> (mem_map m)) m).

Lemma put_map_run i v m c : aget (mem_map m) i = Some c -> in_u8 v ->
  put_map i v m = Ok tt (set_mem_map (<[Z.to_nat i := v]> (mem_map m)) m).
Proof.
  intros Hi Hv. unfold put_map, getS, mbind at 1, M_bind at 1. rewrite u8_small by done.
  rewrite aset_in_range by (by eapply aget_Some_range). done.
Qed.

Lemma get_map_run i m c : aget (mem_map m) i = Some c -> get_map i m = Ok c m.
Proof. intros Hi. unfold get_map, getS, mbind, M_bind. by rewrite Hi. Qed.

Lemma get_free_page_run env tries m i : (0 < tries)%nat -> map_ok m -> next_free m i -> get_free_page env tries m = Ok (frame_addr i) (taken i m).
Proof.
  intros Htries Hok Hnf. pose proof (last_zero_next_free m) as Hz.
  assert (El : last_zero (mem_map m) 0 None = Some i).
  { destruct (last_zero (mem_map m) 0 None) as [j|].
    - f_equal. by eapply next_free_unique.
    - destruct Hnf as [Hi _]. by apply Hz in Hi. }
  destruct Hnf as [Hi Hmax]. pose proof (aget_Some_range _ _ _ Hi) as Hr.
  assert (Htake : take_page m = Ok (frame_addr i) (taken i m)).
  { unfold take_page. rewrite (run_bind getS _ _ m m) by done. rewrite El.
    rewrite (run_bind _ _ _ _ _ (put_map_run i 1 m 0 Hi ltac:(unfold in_u8; lia))). done. }
  unfold get_free_page. destruct tries as [|n]; [lia|]. cbn [iter].
  rewrite (run_bind _ _ _ (inr (frame_addr i)) (taken i m)); [reflexivity|]. unfold get_free_page_step.
  rewrite (run_bind _ _ _ _ _ Htake). erewrite run_bind by reflexivity.
  pose proof (mo_high m Hok i Hi) as Hh. change (HIGH_MEMORY (taken i m)) with (HIGH_MEMORY m).
  destruct (Z.leb_spec (HIGH_MEMORY m) (frame_addr i)); [lia|].
  assert (Hlow : LOW_MEM <= frame_addr i) by (unfold frame_addr; lia).
  destruct (Z.ltb_spec (frame_addr i) LOW_MEM); [lia|]. rewrite andb_false_r.
  rewrite land_page_off, (frame_page i). cbn [truth Z.eqb negb orb].
  rewrite (run_bind _ _ _ (frame_addr i) (taken i m)) by done.
  destruct (Z.eqb_spec (frame_addr i) 0) as [E|]; [unfold LOW_MEM in Hlow; lia|]. done.
Qed.

(** [free_page] of a page in use. *)
Lemma free_page_run m i c : aget (mem_map m) i = Some c -> 0 < c < 256 -> frame_addr i < HIGH_MEMORY m ->
  free_page (frame_addr i) m = Ok tt (set_mem_map (<[Z.to_nat i := c - 1]> (mem_map m)) m).
Proof.
  intros Hi Hc Hh. pose proof (aget_Some_range _ _ _ Hi) as Hr. unfold free_page.
  assert (Hlow : LOW_MEM <= frame_addr i) by (unfold frame_addr; lia).
  destruct (Z.ltb_spec (frame_addr i) LOW_MEM); [lia|]. erewrite run_bind by reflexivity.
  destruct (Z.ltb_spec (frame_addr i) (HIGH_MEMORY m)); [|lia].
  change (Z.shiftr (frame_addr i - LOW_MEM) 12) with (MAP_NR (frame_addr i)). rewrite MAP_NR_frame.
  rewrite (run_bind _ _ _ _ _ (get_map_run i m c Hi)).
  rewrite (run_bind _ _ _ _ _ (put_map_run i (c - 1) m c Hi ltac:(unfold in_u8; lia))).
  unfold truth. by destruct (Z.eqb_spec c 0); [lia|].
Qed.

(** The facts about the page taken. *)
Lemma taken_zero i m : load_page (frame_addr i) (phys (taken i m)) = zeros 1024.
Proof. exact (load_store (frame_addr i) (zeros 1024) (phys m)). Qed.

Lemma taken_word i m x : ~ in_page (frame_addr i) x -> word (phys (taken i m)) x = word (phys m) x.
Proof. intros Hx. apply word_store_out. intros H%in_words_page. done. Qed.

Lemma taken_map i j m c : aget (mem_map m) i = Some c ->
  aget (mem_map (taken i m)) j = if decide (j = i) then Some 1 else aget (mem_map m) j.
Proof.
  intros Hi%aget_Some_range. cbn. destruct (decide (j = i)) as [->|]; [by rewrite aget_insert_eq|].
  by rewrite aget_insert_ne by lia.
Qed.

(** as long as a page is free, [get_free_page] returns the highest one at
    once: its count was 0 and is 1, it is all zeros, and every other count and
    every word outside it is as before; [free_page] of it afterwards puts the
    counts back. *)
Theorem get_free_page_fresh (env : swap_env) (tries : nat) (m : mst) (i : Z)
    (Htries : (0 < tries)%nat) (Hok : map_ok m) (Hfree : next_free m i) :
  exists m', get_free_page env tries m = Ok (frame_addr i) m' /\
    aget (mem_map m') i = Some 1 /\ (forall j, j <> i -> aget (mem_map m') j = aget (mem_map m) j) /\
    load_page (frame_addr i) (phys m') = zeros 1024 /\
    (forall x, ~ in_page (frame_addr i) x -> word (phys m') x = word (phys m) x) /\
    exists m'', free_page (frame_addr i) m' = Ok tt m'' /\ mem_map m'' = mem_map m.
Proof.
  exists (taken i m). pose proof Hfree as [Hi _]. pose proof (aget_Some_range _ _ _ Hi) as Hr.
  split; [by apply get_free_page_run|].
  split; [by rewrite (taken_map i i m 0 Hi), decide_True|].
  split; [intros j Hj; by rewrite (taken_map i j m 0 Hi), decide_False|].
  split; [apply taken_zero|]. split; [intros x; apply taken_word|].
  eexists. split.
  - apply (free_page_run _ i 1); [by rewrite (taken_map i i m 0 Hi), decide_True|lia|by apply (mo_high m Hok)].
  - cbn. rewrite list_insert_insert_eq. apply list_insert_id. unfold aget in Hi. by destruct (i <? 0).
Qed.

(** ** Address spaces *)

Lemma mask_page z : page_addr (Z.land z 0xfffff000).
Proof.
  unfold page_addr. change 4096 with (2 ^ 12). rewrite <-Z.land_ones by lia. rewrite <-Z.land_assoc.
  change (Z.land 0xfffff000 (Z.ones 12)) with 0. apply Z.land_0_r.
Qed.

Lemma page_mask x : in_u32 x -> page_addr x -> Z.land x 0xfffff000 = x.
Proof.
  intros Hx Hp. rewrite land_page_mask by done. unfold page_addr in Hp. pose proof (Z.div_mod x 4096 ltac:(lia)). lia.
Qed.

Lemma mask_flags z f : Z.land f 0xfffff000 = 0 -> Z.land (Z.lor z f) 0xfffff000 = Z.land z 0xfffff000.
Proof. intros Hf. by rewrite Z.land_lor_distr_l, Hf, Z.lor_0_r. Qed.

(** The page-table entry of a linear address: its address and value. *)
Definition table_of (p : gmap Z Z) (a : Z) : Z := Z.land (word p (dir_of a)) 0xfffff000.
Definition pte_addr (p : gmap Z Z) (a : Z) : Z := table_of p a + entry_off a.
Definition pte (p : gmap Z Z) (a : Z) : Z := word p (pte_addr p a).
Definition frame_of (p : gmap Z Z) (a : Z) : Z := Z.land (pte p a) 0xfffff000.
Definition has_table (p : gmap Z Z) (a : Z) : bool := truth (Z.land (word p (dir_of a)) 1).
Definition mapped (p : gmap Z Z) (a : Z) : bool := has_table p a && truth (Z.land 1 (pte p a)).

(** What a program reads at linear address [a]: the word there, if there is a
    page. *)
Definition lin (p : gmap Z Z) (a : Z) : option Z :=
  if mapped p a then Some (word p (frame_of p a + Z.land a 0xffc)) else None.

Definition user (a : Z) : Prop := TASK_SIZE <= a < 4294967296.

(** A page that is not on the free list. *)
Definition in_use (m : mst) (x : Z) : Prop :=
  x < LOW_MEM \/ exists c, aget (mem_map m) (MAP_NR x) = Some c /\ 0 < c < 256.

(** The tables of the user address spaces: tables and mapped pages are in use, no
    program has a page table of a program mapped, and what is mapped writable is not
    shared.  (Task 1 has the first 640 KB of memory mapped read-only, the page
    directory among them.) *)
Record paging_ok (m : mst) : Prop := {
  po_map : map_ok m;
  po_table : forall a, user a -> has_table (phys m) a = true ->
    in_use m (table_of (phys m) a) /\ table_of (phys m) a <> 0;
  po_frame : forall a, user a -> mapped (phys m) a = true ->
    in_use m (frame_of (phys m) a) /\
    forall b, user b -> has_table (phys m) b = true -> table_of (phys m) b <> frame_of (phys m) a;
  po_write : forall a, user a -> mapped (phys m) a = true -> Z.testbit (pte (phys m) a) 1 = true ->
    LOW_MEM <= frame_of (phys m) a -> aget (mem_map m) (MAP_NR (frame_of (phys m) a)) = Some 1
}.

Lemma land_ffc z : Z.land z 0xffc = 4 * Z.land (Z.shiftr z 2) 0x3ff.
Proof.
  change 0xffc with (Z.shiftl 0x3ff 2). apply Z.bits_inj'. intros n Hn.
  rewrite Z.land_spec. change 4 with (2 ^ 2). rewrite (Z.mul_comm (2 ^ 2)), <-Z.shiftl_mul_pow2 by lia.
  destruct (Z_lt_le_dec n 2).
  - rewrite !Z.shiftl_spec_low by lia. by rewrite andb_false_r.
  - rewrite !Z.shiftl_spec_high by lia. rewrite Z.land_spec, Z.shiftr_spec by lia. by replace (n - 2 + 2) with n by lia.
Qed.

Lemma land_3ff_range z : 0 <= Z.land z 0x3ff < 1024.
Proof. change 0x3ff with (Z.ones 10). rewrite Z.land_ones by lia. apply Z.mod_pos_bound. lia. Qed.

Lemma land_ffc_range z : 0 <= Z.land z 0xffc < 4096.
Proof. rewrite land_ffc. pose proof (land_3ff_range (Z.shiftr z 2)). lia. Qed.

Lemma dir_of_page a : 0 <= a -> in_page 0 (dir_of a).
Proof. intros Ha. unfold dir_of, in_page. pose proof (land_ffc_range (Z.shiftr a 20)). lia. Qed.

Lemma pte_addr_page p a : 0 <= a -> in_page (table_of p a) (pte_addr p a).
Proof.
  intros Ha. unfold pte_addr, entry_off, in_page.
  pose proof (land_ffc_range (Z.shiftr a 10)). lia.
Qed.

Lemma data_page p a : 0 <= a -> in_page (frame_of p a) (frame_of p a + Z.land a 0xffc).
Proof. intros Ha. unfold in_page. pose proof (land_ffc_range a). lia. Qed.

Lemma in_use_not_free m x i : page_addr x -> in_use m x -> next_free m i -> x <> frame_addr i.
Proof.
  intros Hp Hu [Hi _] ->. destruct Hu as [Hlow|(c & Hc & Hpos)].
  - pose proof (aget_Some_range _ _ _ Hi). unfold frame_addr in Hlow. lia.
  - rewrite MAP_NR_frame, Hi in Hc. injection Hc as <-. lia.
Qed.

Lemma user_nonneg a : user a -> 0 <= a.
Proof. unfold user, TASK_SIZE. lia. Qed.

Lemma dir_of_div a : user a -> dir_of a = 4 * (a / 4194304) /\ 16 <= a / 4194304 < 1024.
Proof.
  unfold user, TASK_SIZE. intros Ha. assert (Hr : 16 <= a / 4194304 < 1024) by (split; [apply Z.div_le_lower_bound|apply Z.div_lt_upper_bound]; lia). split; [|done].
  unfold dir_of. rewrite land_ffc, Z.shiftr_shiftr by lia. rewrite Z.shiftr_div_pow2 by lia. change (2 ^ (20 + 2)) with 4194304. f_equal.
  change 0x3ff with (Z.ones 10). apply land_ones_small; lia.
Qed.

Lemma frame_addr_u32 m i : map_ok m -> 0 <= i < Z.of_nat (length (mem_map m)) -> in_u32 (frame_addr i).
Proof.
  intros Hok Hi. rewrite (mo_len m Hok) in Hi. unfold in_u32, frame_addr, LOW_MEM.
  change PAGING_PAGES with 3840 in Hi. lia.
Qed.

(** A step that changes one entry and at most fills the free page. *)
Section EntryStep.
Context (m : mst) (i b e' : Z) (p' : gmap Z Z).
Context (Hok : paging_ok m) (Hnf : next_free m i) (Hb : user b) (Hmb : mapped (phys m) b = true).
Context (Hout : forall x, ~ in_page (frame_addr i) x -> x <> pte_addr (phys m) b -> word p' x = word (phys m) x).
Context (He' : word p' (pte_addr (phys m) b) = e').

Lemma mapped_table p a : mapped p a = true -> has_table p a = true /\ truth (Z.land 1 (pte p a)) = true.
Proof using. unfold mapped. apply andb_true_iff. Qed.

Lemma step_page P x : page_addr P -> P <> frame_addr i -> P <> table_of (phys m) b -> in_page P x -> word p' x = word (phys m) x.
Proof using Hb Hout.
  intros HP Hne HneT Hx. apply Hout.
  - apply (page_disjoint P); [done|apply frame_page|done|done].
  - intros ->. eapply (page_disjoint (table_of (phys m) b) P); [apply mask_page|done|congruence|by apply pte_addr_page, user_nonneg|done].
Qed.

Lemma frame_not_free a : user a -> mapped (phys m) a = true -> frame_of (phys m) a <> frame_addr i.
Proof using Hok Hnf. intros Ha Hm. destruct (po_frame m Hok a Ha Hm) as (Hu & _). apply (in_use_not_free m); [apply mask_page|done|done]. Qed.

Lemma table_not_free a : user a -> has_table (phys m) a = true -> table_of (phys m) a <> frame_addr i.
Proof using Hok Hnf. intros Ha Ht. destruct (po_table m Hok a Ha Ht) as (Hu & _). apply (in_use_not_free m); [apply mask_page|done|done]. Qed.

Lemma step_dir a : user a -> word p' (dir_of a) = word (phys m) (dir_of a).
Proof using Hok Hnf Hb Hmb Hout.
  intros Ha. apply mapped_table in Hmb as [Htb _]. apply (step_page 0); [done| | |by apply dir_of_page, user_nonneg].
  - destruct Hnf as [Hi _]. apply aget_Some_range in Hi. unfold frame_addr, LOW_MEM. lia.
  - by destruct (po_table m Hok b Hb Htb) as [_ ?].
Qed.

Lemma step_table a : user a -> has_table p' a = has_table (phys m) a /\ table_of p' a = table_of (phys m) a /\ pte_addr p' a = pte_addr (phys m) a.
Proof using Hok Hnf Hb Hmb Hout. intros Ha. unfold pte_addr, has_table, table_of. by rewrite (step_dir a Ha). Qed.

Lemma step_pte a : user a -> has_table (phys m) a = true ->
  pte p' a = if decide (pte_addr (phys m) a = pte_addr (phys m) b) then e' else pte (phys m) a.
Proof using All.
  intros Ha Ht. unfold pte. destruct (step_table a Ha) as (_ & _ & ->).
  destruct (decide _) as [->|Hne]; [done|]. apply Hout; [|done].
  apply (page_disjoint (table_of (phys m) a)); [apply mask_page|apply frame_page|by apply table_not_free|by apply pte_addr_page, user_nonneg].
Qed.

Lemma step_data a x : user a -> mapped (phys m) a = true -> in_page (frame_of (phys m) a) x -> word p' x = word (phys m) x.
Proof using Hok Hnf Hb Hmb Hout.
  intros Ha Hm Hx. destruct (po_frame m Hok a Ha Hm) as (_ & HT). apply mapped_table in Hmb as [Htb _].
  apply (step_page (frame_of (phys m) a)); [apply mask_page|by apply frame_not_free| |done]. intros E. by apply (HT b Hb Htb).
Qed.

(** The new entry maps the old page or a copy of it: no address space can
    tell. *)
Context (Hpres : truth (Z.land 1 e') = true).
Context (Hfr : Z.land e' 0xfffff000 = frame_of (phys m) b \/
   Z.land e' 0xfffff000 = frame_addr i /\
   forall o, 0 <= o < 1024 -> word p' (frame_addr i + 4 * o) = word (phys m) (frame_of (phys m) b + 4 * o)).

Lemma step_mapped a : user a -> mapped p' a = mapped (phys m) a.
Proof using All.
  intros Ha. unfold mapped. destruct (step_table a Ha) as (-> & _ & _).
  destruct (has_table (phys m) a) eqn:Et; [cbn [andb]|done]. rewrite (step_pte a Ha Et).
  destruct (decide _) as [E|]; [|done]. rewrite Hpres. apply mapped_table in Hmb as [_ Hp]. unfold pte in *. by rewrite E.
Qed.

Lemma step_frame a : user a -> mapped (phys m) a = true ->
  frame_of p' a = if decide (pte_addr (phys m) a = pte_addr (phys m) b) then Z.land e' 0xfffff000 else frame_of (phys m) a.
Proof using All.
  intros Ha [Ht _]%mapped_table. unfold frame_of. rewrite (step_pte a Ha Ht). by destruct (decide _).
Qed.

Lemma same_entry_frame a : pte_addr (phys m) a = pte_addr (phys m) b -> frame_of (phys m) a = frame_of (phys m) b.
Proof using. intros E. unfold frame_of, pte. by rewrite E. Qed.

Lemma step_lin a : user a -> lin p' a = lin (phys m) a.
Proof using All.
  intros Ha. pose proof (user_nonneg a Ha) as Ha0. unfold lin. rewrite (step_mapped a Ha).
  destruct (mapped (phys m) a) eqn:Em; [f_equal|done]. rewrite (step_frame a Ha Em). destruct (decide _) as [E|].
  - rewrite (same_entry_frame a E). destruct Hfr as [->|[-> Hcopy]].
    + apply (step_data b); [done..|]. unfold in_page. pose proof (land_ffc_range a). lia.
    + rewrite land_ffc. apply Hcopy, land_3ff_range.
  - apply (step_data a); [done..|]. by apply data_page.
Qed.

(** The invariant across such a step. *)
Lemma new_frame_ok : forall a, user a -> has_table (phys m) a = true -> table_of (phys m) a <> Z.land e' 0xfffff000.
Proof using Hok Hnf Hb Hmb Hfr.
  intros a Ha Ht. destruct Hfr as [->|[-> _]]; [|by apply table_not_free].
  destruct (po_frame m Hok b Hb Hmb) as (_ & HT). by apply HT.
Qed.

Lemma step_ok m' :
  phys m' = p' -> map_ok m' -> (forall x, page_addr x -> in_use m x -> in_use m' x) ->
  in_use m' (Z.land e' 0xfffff000) ->
  (LOW_MEM <= Z.land e' 0xfffff000 -> aget (mem_map m') (MAP_NR (Z.land e' 0xfffff000)) = Some 1) ->
  (forall a, user a -> mapped (phys m) a = true -> pte_addr (phys m) a <> pte_addr (phys m) b ->
     LOW_MEM <= frame_of (phys m) a -> aget (mem_map m) (MAP_NR (frame_of (phys m) a)) = Some 1 ->
     aget (mem_map m') (MAP_NR (frame_of (phys m) a)) = Some 1) ->
  paging_ok m'.
Proof using All.
  intros Hp Hmap Huse Hnew Hone Hold. split; [done|..]; rewrite Hp.
  - intros a Ha Ht. destruct (step_table a Ha) as (Et & -> & _). rewrite Et in Ht.
    destruct (po_table m Hok a Ha Ht). split; [by apply Huse; [apply mask_page|]|done].
  - intros a Ha Hm. rewrite (step_mapped a Ha) in Hm. destruct (po_frame m Hok a Ha Hm) as (Hu & HT).
    assert (Htb : forall b0, user b0 -> has_table p' b0 = true -> has_table (phys m) b0 = true /\ table_of p' b0 = table_of (phys m) b0).
    { intros b0 Hb0 Ht. destruct (step_table b0 Hb0) as (E & -> & _). by rewrite <-E. }
    rewrite (step_frame a Ha Hm). destruct (decide _).
    + split; [done|]. intros b0 Hb0 [Ht ->]%Htb; [by apply new_frame_ok|done].
    + split; [by apply Huse; [apply mask_page|]|]. intros b0 Hb0 [Ht ->]%Htb; [by apply HT|done].
  - intros a Ha Hm Hw. rewrite (step_mapped a Ha) in Hm. rewrite (step_frame a Ha Hm).
    apply mapped_table in Hm as Hm'. rewrite (step_pte a Ha (proj1 Hm')) in Hw. destruct (decide _); [done|].
    intros Hl. apply Hold; [done..|]. by apply (po_write m Hok a).
Qed.
End EntryStep.

(** ** Copy on write *)

Lemma load_page_length a p : length (load_page a p) = 1024%nat.
Proof. apply load_words_length. Qed.

Lemma load_page_lookup a p o : 0 <= o < 1024 -> load_page a p !! Z.to_nat o = Some (word p (a + 4 * o)).
Proof. intros Ho. unfold load_page. rewrite load_words_lookup by lia. by rewrite Z2Nat.id by lia. Qed.

#[local] Opaque store_words load_page zeros.

Lemma frame_of_MAP_NR x : page_addr x -> frame_addr (MAP_NR x) = x.
Proof.
  unfold page_addr, frame_addr, MAP_NR, LOW_MEM. intros Hx. rewrite Z.shiftr_div_pow2 by lia. change (2 ^ 12) with 4096.
  assert (E : (x - 0x100000) mod 4096 = 0) by (by rewrite Zminus_mod, Hx).
  pose proof (Z.div_mod (x - 0x100000) 4096 ltac:(lia)). lia.
Qed.

(** The state after [un_wp_page] has copied page [old] into the free page
    [i]: [old] lost a user if it is counted. *)
Definition drop_user (old : Z) (l : list Z) : list Z :=
  if old <? LOW_MEM then l else <[Z.to_nat (MAP_NR old) := default 0 (aget l (MAP_NR old)) - 1]> l.
Definition unshared (i old ea : Z) (m : mst) : mst :=
  let m1 := set_mem_map (drop_user old (mem_map (taken i m))) (taken i m) in
  let m2 := set_phys (store_words (frame_addr i) (load_page old (phys m1)) (phys m1)) m1 in
  set_phys (<[ea := Z.lor (frame_addr i) 7]> (phys m2)) m2.

Lemma copy_page_run a b m : copy_page a b m = Ok tt (set_phys (store_words b (load_page a (phys m)) (phys m)) m).
Proof. unfold copy_page, modify. exact eq_refl. Qed.

Lemma un_wp_page_sole env tries m ea :
  LOW_MEM <= Z.land (word (phys m) ea) 0xfffff000 ->
  aget (mem_map m) (MAP_NR (Z.land (word (phys m) ea) 0xfffff000)) = Some 1 ->
  un_wp_page env tries ea m = Ok tt (set_phys (<[ea := Z.lor (word (phys m) ea) 2]> (phys m)) m).
Proof.
  intros Hlow H1. unfold un_wp_page. rewrite (run_bind _ _ m (word (phys m) ea) m) by done.
  rewrite (Z.land_comm 0xfffff000). destruct (Z.leb_spec LOW_MEM (Z.land (word (phys m) ea) 0xfffff000)); [|lia].
  rewrite (run_bind _ _ m true m); [done|]. by rewrite (run_bind _ _ _ _ _ (get_map_run _ m 1 H1)).
Qed.

Lemma un_wp_page_copies env tries m i ea :
  (0 < tries)%nat -> map_ok m -> next_free m i ->
  let old := Z.land (word (phys m) ea) 0xfffff000 in
  in_use m old -> (LOW_MEM <= old -> aget (mem_map m) (MAP_NR old) <> Some 1) ->
  un_wp_page env tries ea m = Ok tt (unshared i old ea m).
Proof.
  intros Ht Hok Hnf old Hu Hn1. pose proof Hnf as [Hi _]. pose proof (aget_Some_range _ _ _ Hi) as Hr.
  assert (Hni : old <> frame_addr i) by (by apply (in_use_not_free m); [apply mask_page| |]).
  unfold un_wp_page. rewrite (run_bind _ _ m (word (phys m) ea) m) by done. rewrite (Z.land_comm 0xfffff000). fold old.
  rewrite (run_bind _ _ m false m).
  2:{ destruct (Z.leb_spec LOW_MEM old) as [Hl|]; [|done]. destruct Hu as [|(c & Hc & _)]; [lia|].
      rewrite (run_bind _ _ _ _ _ (get_map_run _ m c Hc)). destruct (Z.eqb_spec c 1) as [->|]; [|done]. by apply Hn1 in Hc. }
  rewrite (run_bind _ _ _ _ _ (get_free_page_run env tries m i Ht Hok Hnf)).
  destruct (Z.eqb_spec (frame_addr i) 0) as [E|]; [unfold frame_addr, LOW_MEM in E; lia|].
  rewrite (run_bind _ _ _ tt (set_mem_map (drop_user old (mem_map (taken i m))) (taken i m))).
  { rewrite (run_bind _ _ _ _ _ (copy_page_run _ _ _)). unfold wr, modify, unshared. exact eq_refl. }
  unfold drop_user. destruct (Z.leb_spec LOW_MEM old) as [Hl|Hl], (Z.ltb_spec old LOW_MEM); try lia; [|done].
  destruct Hu as [|(c & Hc & Hpos)]; [lia|].
  assert (Hc' : aget (mem_map (taken i m)) (MAP_NR old) = Some c).
  { rewrite (taken_map i _ m 0 Hi), decide_False; [done|]. intros E. apply Hni. rewrite <-E. symmetry. apply frame_of_MAP_NR, mask_page. }
  rewrite (run_bind _ _ _ _ _ (get_map_run _ _ c Hc')). rewrite (put_map_run _ _ _ c Hc') by (unfold in_u8; lia).
  by rewrite Hc'.
Qed.

(** What the new state holds. *)
Lemma unshared_out i old ea m x : ~ in_page (frame_addr i) x -> x <> ea -> word (phys (unshared i old ea m)) x = word (phys m) x.
Proof.
  intros Hx Hne. cbn. rewrite word_insert, decide_False by congruence. rewrite word_store_out; [by apply taken_word|].
  rewrite load_page_length. intros H%in_words_page. done.
Qed.

Lemma unshared_copy i old ea m o :
  page_addr old -> old <> frame_addr i -> ~ in_page (frame_addr i) ea -> 0 <= o < 1024 ->
  word (phys (unshared i old ea m)) (frame_addr i + 4 * o) = word (phys m) (old + 4 * o).
Proof.
  intros Hp Hne Hea Ho. cbn. rewrite word_insert, decide_False.
  2:{ intros ->. apply Hea. unfold in_page. lia. }
  apply word_store_in; [lia|]. rewrite load_page_lookup by lia. f_equal.
  apply taken_word. apply (page_disjoint old); [done|apply frame_page|done|]. unfold in_page. lia.
Qed.

Lemma drop_user_map old l j : page_addr old ->
  aget (drop_user old l) j =
  if decide (LOW_MEM <= old /\ j = MAP_NR old) then (fun c => c - 1) <$> aget l j else aget l j.
Proof.
  intros Hp. unfold drop_user. destruct (Z.ltb_spec old LOW_MEM); [by rewrite decide_False by lia|].
  assert (H0 : 0 <= MAP_NR old) by (unfold MAP_NR; apply Z.shiftr_nonneg; lia).
  destruct (decide _) as [[_ ->]|Hne].
  - destruct (aget l (MAP_NR old)) as [c|] eqn:Hc.
    + cbn. apply aget_insert_eq. by apply aget_Some_range in Hc.
    + cbn. unfold aget in *. destruct (MAP_NR old <? 0); [done|]. rewrite list_insert_ge; [done|]. by apply lookup_ge_None.
  - rewrite aget_insert_ne; [done|done|]. intros E. by apply Hne.
Qed.

(** The flags of entries. *)
Lemma new_entry_frame m i : map_ok m -> next_free m i -> Z.land (Z.lor (frame_addr i) 7) 0xfffff000 = frame_addr i.
Proof.
  intros Hok [Hi _]. rewrite mask_flags by done. apply page_mask; [|apply frame_page].
  apply (frame_addr_u32 m); [done|by apply aget_Some_range in Hi].
Qed.

Lemma truth_land_1 e : truth (Z.land 1 e) = Z.testbit e 0.
Proof.
  rewrite Z.land_comm. change 1 with (Z.ones 1) at 1. rewrite Z.land_ones by lia. rewrite Z.bit0_odd. unfold truth.
  change (2 ^ 1) with 2. rewrite Zmod_odd. by destruct (Z.odd e).
Qed.

Lemma land_3_1 e : (Z.land 3 e =? 1) = Z.testbit e 0 && negb (Z.testbit e 1).
Proof.
  change 3 with (Z.lor (word_bit 0) (word_bit 1)). apply eq_true_iff_eq. rewrite Z.eqb_eq, andb_true_iff, negb_true_iff. split.
  - intros E. split; [apply (f_equal (fun z => Z.testbit z 0)) in E|apply (f_equal (fun z => Z.testbit z 1)) in E];
      rewrite Z.land_spec, Z.lor_spec, !testbit_word_bit in E by lia; exact E.
  - intros [E0 E1]. apply Z.bits_inj'. intros n Hn. rewrite Z.land_spec, Z.lor_spec, !testbit_word_bit by lia.
    change 1 with (word_bit 0) at 2. rewrite testbit_word_bit by lia.
    destruct (Z.eqb_spec n 0) as [->|]; [done|]. by destruct (Z.eqb_spec n 1) as [->|]; cbn.
Qed.

(** What making the page at [b] writable promises: nobody can tell, the tables
    stay in order, and the page is writable and has no other user. *)
Definition unshared_for (m : mst) (b : Z) (m' : mst) : Prop :=
  (forall a, user a -> lin (phys m') a = lin (phys m) a) /\ paging_ok m' /\
  (mapped (phys m) b = true -> Z.testbit (pte (phys m') b) 1 = true /\
     (LOW_MEM <= frame_of (phys m') b -> aget (mem_map m') (MAP_NR (frame_of (phys m') b)) = Some 1)).

Lemma sole_unshared m i b :
  paging_ok m -> next_free m i -> user b -> mapped (phys m) b = true ->
  aget (mem_map m) (MAP_NR (frame_of (phys m) b)) = Some 1 ->
  unshared_for m b (set_phys (<[pte_addr (phys m) b := Z.lor (pte (phys m) b) 2]> (phys m)) m).
Proof.
  intros Hok Hnf Hb Hmb H1. set (m' := set_phys _ m).
  assert (Hout : forall x, ~ in_page (frame_addr i) x -> x <> pte_addr (phys m) b -> word (phys m') x = word (phys m) x).
  { intros x _ Hx. cbn. rewrite word_insert, decide_False; done. }
  assert (He : word (phys m') (pte_addr (phys m) b) = Z.lor (pte (phys m) b) 2).
  { cbn. by rewrite word_insert, decide_True. }
  assert (Hpres : truth (Z.land 1 (Z.lor (pte (phys m) b) 2)) = true).
  { rewrite truth_land_1, Z.lor_spec. apply mapped_table in Hmb as [_ Hp]. rewrite truth_land_1 in Hp. by rewrite Hp. }
  assert (Hf : Z.land (Z.lor (pte (phys m) b) 2) 0xfffff000 = frame_of (phys m) b) by (by apply mask_flags).
  split; [|split].
  - exact (step_lin m i b _ _ Hok Hnf Hb Hmb Hout He Hpres (or_introl Hf)).
  - apply (step_ok m i b _ _ Hok Hnf Hb Hmb Hout He Hpres (or_introl Hf) m' eq_refl).
    + destruct (po_map m Hok); by split.
    + done.
    + rewrite Hf. by apply (po_frame m Hok).
    + by rewrite Hf.
    + done.
  - intros _. destruct (mapped_table _ _ Hmb) as [Ht _].
    assert (Ep : pte (phys m') b = Z.lor (pte (phys m) b) 2).
    { by rewrite (step_pte m i b _ _ Hok Hnf Hb Hmb Hout He b Hb Ht), decide_True. }
    unfold frame_of. rewrite Ep, Hf. split; [by rewrite Z.lor_spec, orb_true_r|done].
Qed.

(** The counts after a copy. *)
Section CopyCounts.
Context (m : mst) (i old ea : Z).
Context (Hok : map_ok m) (Hnf : next_free m i) (Hp : page_addr old) (Hu : in_use m old) (Hn : old <> frame_addr i).
Context (Hmany : LOW_MEM <= old -> aget (mem_map m) (MAP_NR old) <> Some 1).

Lemma unshared_map j :
  aget (mem_map (unshared i old ea m)) j =
  if decide (j = i) then Some 1
  else if decide (LOW_MEM <= old /\ j = MAP_NR old) then (fun c => c - 1) <$> aget (mem_map m) j else aget (mem_map m) j.
Proof using Hnf Hp Hn.
  destruct Hnf as [Hi _]. change (mem_map (unshared i old ea m)) with (drop_user old (mem_map (taken i m))).
  rewrite drop_user_map, (taken_map i j m 0 Hi) by done. destruct (decide (j = i)) as [->|]; [|done].
  rewrite decide_False; [done|]. intros [_ E]. apply Hn. rewrite E. symmetry. by apply frame_of_MAP_NR.
Qed.

Lemma unshared_new : aget (mem_map (unshared i old ea m)) i = Some 1.
Proof using Hnf Hp Hn. by rewrite unshared_map, decide_True. Qed.

Lemma old_many : LOW_MEM <= old -> exists c, aget (mem_map m) (MAP_NR old) = Some c /\ 1 < c < 256.
Proof using Hu Hmany.
  intros Hl. destruct Hu as [|(c & Hc & Hr)]; [lia|]. exists c. split; [done|].
  assert (c <> 1) by (intros ->; by apply Hmany). lia.
Qed.

Lemma unshared_in_use x : page_addr x -> in_use m x -> in_use (unshared i old ea m) x.
Proof using Hnf Hp Hu Hn Hmany.
  intros Hx [|(c & Hc & Hr)]; [by left|]. right. rewrite unshared_map. destruct (decide (MAP_NR x = i)); [eexists; split; [done|lia]|].
  destruct (decide _) as [[Hl E]|]; [|by eauto]. destruct (old_many Hl) as (c' & Hc' & Hr'). rewrite E, Hc'. eexists. split; [done|lia].
Qed.

Lemma unshared_map_ok : map_ok (unshared i old ea m).
Proof using All.
  split.
  - rewrite <-(mo_len m Hok). change (mem_map (unshared i old ea m)) with (drop_user old (mem_map (taken i m))).
    unfold drop_user. destruct (old <? LOW_MEM); cbn; by rewrite ?length_insert.
  - intros j. rewrite unshared_map. destruct (decide (j = i)); [done|].
    destruct (decide _) as [[Hl ->]|]; [|apply (mo_high m Hok)].
    destruct (old_many Hl) as (c & -> & Hr). cbn. intros [=]. lia.
  - apply Forall_lookup. intros k c Hk. pose proof (unshared_map (Z.of_nat k)) as E.
    unfold aget at 1 in E. destruct (Z.ltb_spec (Z.of_nat k) 0); [lia|]. rewrite Nat2Z.id, Hk in E.
    assert (Hb : forall c0, aget (mem_map m) (Z.of_nat k) = Some c0 -> in_u8 c0).
    { intros c0. unfold aget. destruct (_ <? 0); [done|]. apply Forall_lookup_1, (mo_byte m Hok). }
    destruct (decide (Z.of_nat k = i)); [injection E as ->; unfold in_u8; lia|].
    destruct (decide _) as [[Hl Ek]|]; [|by apply Hb].
    destruct (old_many Hl) as (c' & Hc' & Hr). rewrite Ek, Hc' in E. injection E as ->. unfold in_u8. lia.
Qed.
End CopyCounts.

Lemma copy_unshared m i b :
  paging_ok m -> next_free m i -> user b -> mapped (phys m) b = true ->
  (LOW_MEM <= frame_of (phys m) b -> aget (mem_map m) (MAP_NR (frame_of (phys m) b)) <> Some 1) ->
  unshared_for m b (unshared i (frame_of (phys m) b) (pte_addr (phys m) b) m).
Proof.
  intros Hok Hnf Hb Hmb Hmany. set (old := frame_of (phys m) b) in *. set (ea := pte_addr (phys m) b). set (m' := unshared i old ea m).
  destruct (mapped_table _ _ Hmb) as [Ht _]. destruct (po_frame m Hok b Hb Hmb) as (Hu & _). fold old in Hu.
  assert (Hp : page_addr old) by apply mask_page.
  assert (Hn : old <> frame_addr i) by (by apply (in_use_not_free m)).
  assert (Hea : ~ in_page (frame_addr i) ea).
  { apply (page_disjoint (table_of (phys m) b)); [apply mask_page|apply frame_page|by apply (table_not_free m)|by apply pte_addr_page, user_nonneg]. }
  assert (Hout : forall x, ~ in_page (frame_addr i) x -> x <> pte_addr (phys m) b -> word (phys m') x = word (phys m) x)
    by (intros x ??; by apply unshared_out).
  assert (He : word (phys m') (pte_addr (phys m) b) = Z.lor (frame_addr i) 7).
  { unfold m', unshared. cbn [phys set_phys]. by rewrite word_insert, decide_True. }
  pose proof (new_entry_frame m i (po_map m Hok) Hnf) as Hf.
  assert (Hpres : truth (Z.land 1 (Z.lor (frame_addr i) 7)) = true) by (by rewrite truth_land_1, Z.lor_spec, orb_true_r).
  assert (Hcopy : forall o, 0 <= o < 1024 -> word (phys m') (frame_addr i + 4 * o) = word (phys m) (frame_of (phys m) b + 4 * o))
    by (intros o Ho; by apply unshared_copy).
  pose proof (or_intror (conj Hf Hcopy) : Z.land (Z.lor (frame_addr i) 7) 0xfffff000 = frame_of (phys m) b \/ _) as Hfr.
  pose proof (unshared_new m i old ea Hnf Hp Hn) as H1.
  split; [|split].
  - exact (step_lin m i b _ _ Hok Hnf Hb Hmb Hout He Hpres Hfr).
  - apply (step_ok m i b _ _ Hok Hnf Hb Hmb Hout He Hpres Hfr m' eq_refl).
    + by apply unshared_map_ok; [apply po_map| | | | |].
    + intros x. by apply unshared_in_use.
    + rewrite Hf. right. rewrite MAP_NR_frame. eexists. split; [exact H1|lia].
    + intros _. by rewrite Hf, MAP_NR_frame.
    + intros a Ha Hma Hne Hl Hc. unfold m'. rewrite (unshared_map m i old ea Hnf Hp Hn).
      destruct (decide _); [done|]. destruct (decide _) as [[Hlo E]|]; [|done]. rewrite E in Hc. destruct (Hmany Hlo Hc).
  - intros _. assert (Ep : pte (phys m') b = Z.lor (frame_addr i) 7).
    { by rewrite (step_pte m i b _ _ Hok Hnf Hb Hmb Hout He b Hb Ht), decide_True. }
    unfold frame_of. rewrite Ep, Hf, MAP_NR_frame. split; [by rewrite Z.lor_spec, orb_true_r|done].
Qed.

(** C6: before the kernel writes to a user page, [write_verify] leaves every
    address space reading what it read before, keeps the page tables in order,
    and makes the page writable and its task the only user of it. *)
Theorem write_verify_unshares (env : swap_env) (tries : nat) (m : mst) (i b : Z)
    (Htries : (0 < tries)%nat) (Hok : paging_ok m) (Hfree : next_free m i) (Hb : user b) :
  exists m', write_verify env tries b m = Ok tt m' /\ unshared_for m b m'.
Proof.
  unfold write_verify. rewrite (run_bind _ _ m (word (phys m) (dir_of b)) m) by done.
  assert (Hsame : (mapped (phys m) b = true -> Z.testbit (pte (phys m) b) 1 = true) -> unshared_for m b m).
  { intros Hw. split; [done|]. split; [done|]. intros Hm. split; [by apply Hw|]. by apply (po_write m Hok), Hw. }
  fold (has_table (phys m) b). destruct (has_table (phys m) b) eqn:Ht; cbn [negb].
  2:{ exists m. split; [done|]. apply Hsame. intros [? _]%mapped_table. congruence. }
  fold (table_of (phys m) b). fold (pte_addr (phys m) b). rewrite (run_bind _ _ m (pte (phys m) b) m) by done.
  rewrite land_3_1. destruct (Z.testbit (pte (phys m) b) 0) eqn:E0; cbn [andb].
  2:{ exists m. split; [done|]. apply Hsame. intros [_ Hp]%mapped_table. rewrite truth_land_1 in Hp. congruence. }
  destruct (Z.testbit (pte (phys m) b) 1) eqn:E1; cbn [negb]; [exists m; split; [done|by apply Hsame]|].
  assert (Hm : mapped (phys m) b = true) by (unfold mapped; by rewrite Ht, truth_land_1).
  destruct (po_frame m Hok b Hb Hm) as (Hu & _).
  destruct (decide (LOW_MEM <= frame_of (phys m) b /\ aget (mem_map m) (MAP_NR (frame_of (phys m) b)) = Some 1)) as [[Hl H1]|Hno].
  - eexists. split; [by apply un_wp_page_sole|]. by apply (sole_unshared m i b).
  - assert (Hmany : LOW_MEM <= frame_of (phys m) b -> aget (mem_map m) (MAP_NR (frame_of (phys m) b)) <> Some 1) by tauto.
    eexists. split; [apply (un_wp_page_copies env tries m i); [done|by apply po_map|done..]|]. by apply (copy_unshared m i b).
Qed.

(** A hard disk whose transfers succeed, and no swap file. *)
Definition demo_env : swap_env := SwapEnv (fun _ _ => 0) (fun _ => 0) (fun major => major =? 3) (fun _ _ _ _ _ => None).

(** Two tasks that share a page after a fork. *)
Definition demo_mem : mst :=
  Mst 0x104000 ([2; 1; 1; 0] ++ replicate 3836 USED)
    (list_to_map [(64, 0x101007); (128, 0x102007); (0x101000, 0x100005); (0x102000, 0x100005); (0x100008, 42)])
    None 0 None ∅ ∅ 0 0 (zeros 16) 0 (replicate 64 None) 1 [].

Lemma demo_word x : word (phys demo_mem) x =
  if decide (x = 64) then 0x101007 else if decide (x = 128) then 0x102007 else if decide (x = 0x101000) then 0x100005
  else if decide (x = 0x102000) then 0x100005 else if decide (x = 0x100008) then 42 else 0.
Proof.
  cbn [demo_mem phys list_to_map foldr curry fst snd]. rewrite !word_insert. unfold word. rewrite lookup_empty.
  cbn [default from_option]. repeat (case_decide; try congruence).
Qed.

Lemma demo_map_lookup j c : aget (mem_map demo_mem) j = Some c -> 0 <= j < 4 \/ c = USED.
Proof.
  unfold aget. destruct (Z.ltb_spec j 0); [done|]. destruct (Z.le_gt_cases 4 j); [|lia]. cbn [demo_mem mem_map].
  rewrite lookup_app_r by (cbn; lia). intros [-> _]%lookup_replicate. by right.
Qed.

Lemma demo_next_free : next_free demo_mem 3.
Proof. split; [done|]. intros j Hj E. apply demo_map_lookup in E as Hc. destruct Hc; [lia|done]. Qed.

Lemma demo_map_ok : map_ok demo_mem.
Proof.
  split; [done| |].
  - intros i Hi. apply demo_map_lookup in Hi as [Hr|]; [|done]. unfold frame_addr, LOW_MEM. cbn. lia.
  - cbn [demo_mem mem_map]. apply Forall_app. split; [repeat constructor; unfold in_u8; lia|]. by apply Forall_replicate.
Qed.

Lemma demo_table a : user a -> has_table (phys demo_mem) a = true -> table_of (phys demo_mem) a = 0x101000 \/ table_of (phys demo_mem) a = 0x102000.
Proof.
  intros Ha%user_nonneg%dir_of_page. unfold in_page in Ha. unfold has_table, table_of. rewrite demo_word.
  repeat (destruct (decide _) as [E|_]; [try rewrite E in Ha; first [by left|by right|lia]|]). done.
Qed.

Lemma demo_pte a : user a -> mapped (phys demo_mem) a = true -> pte (phys demo_mem) a = 0x100005.
Proof.
  intros Ha [Ht Hp]%mapped_table. pose proof (pte_addr_page (phys demo_mem) a (user_nonneg a Ha)) as Hr. unfold in_page in Hr.
  unfold pte in *. rewrite demo_word in *. destruct (demo_table a Ha Ht) as [E|E]; rewrite E in Hr;
    repeat (destruct (decide _) as [E'|_]; [try rewrite E' in Hr; first [done|lia]|]); done.
Qed.

Lemma demo_paging_ok : paging_ok demo_mem.
Proof.
  split; [apply demo_map_ok|..].
  - intros a Ha Ht. destruct (demo_table a Ha Ht) as [-> | ->]; (split; [right; exists 1; split; [done|lia]|done]).
  - intros a Ha Hm. unfold frame_of. rewrite (demo_pte a Ha Hm). split; [right; exists 2; split; [done|lia]|].
    intros b Hb Ht. destruct (demo_table b Hb Ht) as [-> | ->]; done.
  - intros a Ha Hm. by rewrite (demo_pte a Ha Hm).
Qed.

Lemma get_free_page_fresh_witness : exists m', get_free_page demo_env 1 demo_mem = Ok (frame_addr 3) m' /\
    aget (mem_map m') 3 = Some 1 /\ (forall j, j <> 3 -> aget (mem_map m') j = aget (mem_map demo_mem) j) /\
    load_page (frame_addr 3) (phys m') = zeros 1024 /\
    (forall x, ~ in_page (frame_addr 3) x -> word (phys m') x = word (phys demo_mem) x) /\
    exists m'', free_page (frame_addr 3) m' = Ok tt m'' /\ mem_map m'' = mem_map demo_mem.
Proof. apply get_free_page_fresh; [lia|apply demo_map_ok|apply demo_next_free]. Defined.

(** A check of all the words of memory. *)
Lemma words_all (f : Z -> Z -> bool) (p : gmap Z Z) x : forallb (fun y => f y.1 y.2) (map_to_list p) = true -> (forall y, f y 0 = true) -> f x (word p x) = true.
Proof.
  intros Hall H0. rewrite forallb_forall in Hall. unfold word. destruct (p !! x) as [v|] eqn:E; cbn [default from_option]; [|apply H0].
  apply (Hall (x, v)). by apply list_elem_of_In, elem_of_map_to_list.
Qed.

(** The memory [m] of the first two tasks: the table of task 1, in the last page of
    memory, its entries, and the counts. *)
Definition task1_word (x v : Z) : bool :=
  (negb ((64 <=? x) && (x <? 4096)) || (v =? 0) || ((x =? 64) && (v =? 0xfff007))) &&
  (negb ((0xfff000 <=? x) && (x <? 0x1000000)) || (v =? 0) || ((v mod 4096 =? 5) && (0 <=? v) && (v <? 0xA0000))).
Definition task1_count (i : Z) (c : option Z) : bool :=
  match c with Some c => (0 <=? c) && (c <? 256) && (negb (c =? 0) || (i <? 3839)) | None => false end.
Definition task1_fact (m : mst) : bool :=
  (Z.of_nat (length (mem_map m)) =? 3840) && (HIGH_MEMORY m =? 0x1000000) && bool_decide (aget (mem_map m) 3839 = Some 1) &&
  bool_decide (aget (mem_map m) 3838 = Some 0) && bool_decide (lin (phys m) 0x4000040 = Some 0xfff007).

Section Task1.
Context (m : mst) (Hwords : forallb (fun y => task1_word y.1 y.2) (map_to_list (phys m)) = true).
Context (Hcounts : forallb (fun i => task1_count i (aget (mem_map m) i)) (range 0 3840) = true) (Hfacts : task1_fact m = true).

Lemma task1_word_at x : task1_word x (word (phys m) x) = true.
Proof using Hwords. apply words_all; [apply Hwords|]. intros y. unfold task1_word. by rewrite !Z.eqb_refl, !orb_true_r. Qed.

Lemma task1_map_ok : map_ok m /\ next_free m 3838 /\ aget (mem_map m) 3839 = Some 1 /\ lin (phys m) 0x4000040 = Some 0xfff007.
Proof using All.
  pose proof Hfacts as H. unfold task1_fact in H. rewrite !andb_true_iff, !bool_decide_eq_true in H. destruct H as ((((Hl%Z.eqb_eq & Hh%Z.eqb_eq) & H1) & H0) & Hlin).
  assert (Hc : forall i c, aget (mem_map m) i = Some c -> in_u8 c /\ (c = 0 -> i < 3839)).
  { intros i c Hi. pose proof (aget_Some_range _ _ _ Hi) as Hr. pose proof Hcounts as Hall. rewrite forallb_forall in Hall.
    specialize (Hall i). rewrite Hi in Hall. cbn [task1_count] in Hall. unfold in_u8. destruct (Z.eqb_spec c 0); cbn [negb orb] in Hall; assert (In i (range 0 3840)) by (apply list_elem_of_In, elem_of_range; lia); specialize (Hall H); lia. }
  split; [split|split; [split; [done|]|done]].
  - by rewrite Hl.
  - intros i Hi. rewrite Hh. destruct (Hc i 0 Hi) as [_ Hb]. specialize (Hb eq_refl). unfold frame_addr, LOW_MEM. lia.
  - apply Forall_lookup. intros k c Hk. apply (Hc (Z.of_nat k)). unfold aget. destruct (Z.ltb_spec (Z.of_nat k) 0); [lia|]. by rewrite Nat2Z.id.
  - intros j Hj E. destruct (Z.eq_dec j 3839) as [->|]; [by rewrite H1 in E|]. pose proof (aget_Some_range _ _ _ E). lia.
Qed.

Lemma task1_table a : user a -> has_table (phys m) a = true -> table_of (phys m) a = 0xfff000.
Proof using All.
  intros Ha Ht. destruct (dir_of_div a Ha) as [Ed Hr]. unfold has_table, table_of in *. pose proof (task1_word_at (dir_of a)) as Hw. unfold task1_word in Hw. apply andb_true_iff in Hw as [Hw _].
  rewrite Ed in *. destruct (Z.eqb_spec (word (phys m) (4 * (a / 4194304))) 0) as [E|E]; [by rewrite E in Ht|]. assert (E' : word (phys m) (4 * (a / 4194304)) = 0xfff007) by lia. by rewrite E'.
Qed.

Lemma task1_pte a : user a -> mapped (phys m) a = true -> exists i, pte (phys m) a = 4096 * i + 5 /\ 0 <= i < 160.
Proof using All.
  intros Ha [Ht Hp]%mapped_table. pose proof (pte_addr_page (phys m) a (user_nonneg a Ha)) as Hr. rewrite (task1_table a Ha Ht) in Hr. unfold in_page in Hr.
  unfold pte in *. pose proof (task1_word_at (pte_addr (phys m) a)) as Hw. unfold task1_word in Hw. apply andb_true_iff in Hw as [_ Hw].
  destruct (Z.eqb_spec (word (phys m) (pte_addr (phys m) a)) 0) as [E|E]; [by rewrite E in Hp|]. set (v := word _ _) in *. exists (v / 4096).
  pose proof (Z.div_mod v 4096 ltac:(lia)). assert (Hv : v mod 4096 = 5 /\ 0 <= v < 0xA0000) by lia. split; [lia|]. split; [apply Z.div_pos; lia|]. apply Z.div_lt_upper_bound; lia.
Qed.

Lemma task1_frame a : user a -> mapped (phys m) a = true -> 0 <= frame_of (phys m) a < LOW_MEM.
Proof using All.
  intros Ha Hm. destruct (task1_pte a Ha Hm) as (i & E & Hi). unfold frame_of. rewrite E, land_page_mask by (unfold in_u32; lia).
  replace (4096 * i + 5) with (5 + i * 4096) by lia. rewrite Z.div_add by lia. change (5 / 4096) with 0. unfold LOW_MEM. lia.
Qed.

Lemma task1_paging_ok : paging_ok m.
Proof using All.
  destruct task1_map_ok as (Hok & _ & H1 & _). split; [done|..].
  - intros a Ha Ht. rewrite (task1_table a Ha Ht). split; [right; exists 1; split; [exact H1|lia]|done].
  - intros a Ha Hm. pose proof (task1_frame a Ha Hm) as Hf. split; [left; lia|]. intros b Hb Ht. rewrite (task1_table b Hb Ht). unfold LOW_MEM in Hf. lia.
  - intros a Ha Hm _ Hl. pose proof (task1_frame a Ha Hm). lia.
Qed.

End Task1.

(** Memory when task 1 has been made: the tables of [setup_paging], the free pages of
    [mem_init], and the 640 KB of task 0 copied by [copy_page_tables]. *)
Definition make_task1 : M mst Z := setup_paging;; mem_init 0x400000 0x1000000;; copy_page_tables demo_env 1 0 0x4000000 0xA0000.
Definition task1_mem : mst := match make_task1 demo_mem with Ok _ m | Halt _ m => m end.

Lemma task1_made : match make_task1 demo_mem with Ok v _ => v =? 0 | Halt _ _ => false end = true.
Proof. vm_cast_no_check (eq_refl true). Qed.
Lemma task1_words : forallb (fun y => task1_word y.1 y.2) (map_to_list (phys task1_mem)) = true.
Proof. vm_cast_no_check (eq_refl true). Qed.
Lemma task1_counts : forallb (fun i => task1_count i (aget (mem_map task1_mem) i)) (range 0 3840) = true.
Proof. vm_cast_no_check (eq_refl true). Qed.
Lemma task1_facts : task1_fact task1_mem = true.
Proof. vm_cast_no_check (eq_refl true). Qed.

(** Task 1 writes to its first page, which shows it the page directory; and two tasks
    share a page after a fork. *)
Lemma write_verify_unshares_witness :
  (exists m', write_verify demo_env 1 0x4000000 task1_mem = Ok tt m' /\ unshared_for task1_mem 0x4000000 m' /\ lin (phys task1_mem) 0x4000040 = Some 0xfff007) /\
  exists m', write_verify demo_env 1 0x4000000 demo_mem = Ok tt m' /\ unshared_for demo_mem 0x4000000 m' /\ lin (phys demo_mem) 0x4000008 = Some 42.
Proof.
  destruct (task1_map_ok task1_mem task1_words task1_counts task1_facts) as (_ & Hnf & _ & Hlin). split.
  - destruct (write_verify_unshares demo_env 1 task1_mem 3838 0x4000000) as (m' & Hr & Hu);
      [lia|exact (task1_paging_ok task1_mem task1_words task1_counts task1_facts)|exact Hnf|unfold user, TASK_SIZE; lia|]. exists m'. split; [exact Hr|]. split; [exact Hu|exact Hlin].
  - destruct (write_verify_unshares demo_env 1 demo_mem 3 0x4000000) as (m' & Hr & Hu);
      [lia|apply demo_paging_ok|apply demo_next_free|unfold user, TASK_SIZE; lia|]. exists m'. split; [exact Hr|]. split; [exact Hu|]. vm_compute. reflexivity.
Defined.

(** ** Swapping out and in *)

Lemma swap_scan_spec l b :
  match swap_scan l b with Some nr => nr ∈ l /\ nr ∈ b | None => forall nr, nr ∈ l -> nr ∉ b end.
Proof.
  induction l as [|x l IH]; cbn [swap_scan]; [set_solver|]. unfold bit_of. destruct (bool_decide_reflect (x ∈ b)); [set_solver|].
  destruct (swap_scan l b); set_solver.
Qed.

(** A swap page is available. *)
Definition swap_space (b : gset Z) : Prop := exists nr, nr ∈ b /\ 1 <= nr < SWAP_BITS.

#[local] Opaque range swap_scan.

Lemma get_swap_page_run m b : swap_bitmap m = Some b -> swap_space b ->
  exists nr, get_swap_page m = Ok nr (set_swap_bitmap (Some (b ∖ {[nr]})) m) /\ nr ∈ b /\ 1 <= nr < SWAP_BITS.
Proof.
  intros Hb (nr & Hnr & Hr). unfold get_swap_page. rewrite (run_bind _ _ m (Some b) m) by (unfold gets; by rewrite Hb).
  pose proof (swap_scan_spec (range 1 (Z.to_nat (SWAP_BITS - 1))) b) as Hs.
  destruct (swap_scan (range 1 (Z.to_nat (SWAP_BITS - 1))) b) as [nr'|].
  - destruct Hs as [Hin Hb']. apply elem_of_range in Hin. exists nr'. split; [done|]. split; [done|].
    change (Z.to_nat (SWAP_BITS - 1)) with (Z.to_nat 32767) in Hin. change SWAP_BITS with 32768. lia.
  - exfalso. apply (Hs nr); [|done]. apply elem_of_range.
    change (Z.to_nat (SWAP_BITS - 1)) with (Z.to_nat 32767). change SWAP_BITS with 32768 in Hr. lia.
Qed.

(** The state after the page [page] of entry [tp] went to swap page [nr]; [o] is what the
    hardware made of it. *)
Definition after_io (o : option (Z -> Z)) (m : mst) : mst := match o with None => m | Some _ => add_message "I/O error" m end.
Definition written (o : option (Z -> Z)) (nr buf : Z) (m : mst) : mst :=
  after_io o (set_swap_data (<[(swap_device m, nr) := moved o (load_page buf (phys m))]> (swap_store m)) (swap_blocks m) m).
Definition swapped_out (o : option (Z -> Z)) (tp page nr : Z) (b : gset Z) (m : mst) : mst :=
  let m1 := set_swap_bitmap (Some (b ∖ {[nr]})) m in
  let m2 := set_phys (<[tp := Z.shiftl nr 1]> (phys m1)) m1 in
  let m3 := written o nr page m2 in
  set_mem_map (<[Z.to_nat (MAP_NR page) := 0]> (mem_map m3)) m3.

Lemma io_message_run o m : io_message o m = Ok tt (after_io o m).
Proof. by destruct o. Qed.

Lemma write_swap_page_run env nr buf m : swap_device m <> 0 -> no_driver env (swap_device m) = false ->
  write_swap_page env nr buf m = Ok tt (written (swap_io env true (swap_device m) (u32 (Z.shiftl nr 3)) 8 m) nr buf m).
Proof.
  intros Hd Hdrv. unfold write_swap_page, rw_swap_page. rewrite (run_bind getS _ m m m) by done. unfold truth.
  destruct (Z.eqb_spec (swap_device m) 0); [done|]. cbn [negb]. unfold write_dev_page. rewrite Hdrv. rewrite (run_bind getS _ m m m) by done. cbv zeta.
  erewrite run_bind by (unfold modify; exact eq_refl). by rewrite io_message_run.
Qed.

Lemma read_swap_page_run env nr buf m ws : swap_device m <> 0 -> no_driver env (swap_device m) = false ->
  swap_io env false (swap_device m) (u32 (Z.shiftl nr 3)) 8 m = None -> swap_store m !! (swap_device m, nr) = Some ws ->
  read_swap_page env nr buf m = Ok tt (set_phys (store_words buf ws (phys m)) m).
Proof.
  intros Hd Hdrv Hio Hs. unfold read_swap_page, rw_swap_page. rewrite (run_bind getS _ m m m) by done. unfold truth.
  destruct (Z.eqb_spec (swap_device m) 0); [done|]. cbn [negb]. unfold read_dev_page. rewrite Hdrv. rewrite (run_bind getS _ m m m) by done. cbv zeta.
  rewrite Hio, Hs. erewrite run_bind by (unfold modify; exact eq_refl). by rewrite io_message_run.
Qed.

Lemma free_page_sole m page : page_addr page -> aget (mem_map m) (MAP_NR page) = Some 1 -> page < HIGH_MEMORY m ->
  free_page page m = Ok tt (set_mem_map (<[Z.to_nat (MAP_NR page) := 0]> (mem_map m)) m).
Proof.
  intros Hp H1 Hh. rewrite <-(frame_of_MAP_NR page Hp) at 1. apply (free_page_run m _ 1); [done|lia|]. by rewrite frame_of_MAP_NR.
Qed.

(** An entry for a page of its own that has been written to. *)
Record dirty_entry (m : mst) (tp page : Z) : Prop := {
  de_word : in_u32 (word (phys m) tp);
  de_frame : page = Z.land (word (phys m) tp) 0xfffff000;
  de_present : Z.testbit (word (phys m) tp) 0 = true;
  de_dirty : Z.land PAGE_DIRTY (word (phys m) tp) <> 0;
  de_low : LOW_MEM <= page < HIGH_MEMORY m;
  de_sole : aget (mem_map m) (MAP_NR page) = Some 1
}.

Lemma MAP_NR_bound m page : map_ok m -> page_addr page -> aget (mem_map m) (MAP_NR page) = Some 1 ->
  LOW_MEM <= page <= LOW_MEM + PAGING_MEMORY - 4096.
Proof.
  intros Hok Hp Hc%aget_Some_range. rewrite (mo_len m Hok) in Hc. rewrite <-(frame_of_MAP_NR page Hp).
  change PAGING_PAGES with 3840 in Hc. change PAGING_MEMORY with 15728640. unfold frame_addr. lia.
Qed.

Lemma try_to_swap_out_run env m tp page b :
  map_ok m -> dirty_entry m tp page -> swap_device m <> 0 -> no_driver env (swap_device m) = false -> swap_bitmap m = Some b -> swap_space b ->
  exists nr m0 o, swap_io env true (swap_device m) (u32 (Z.shiftl nr 3)) 8 m0 = o /\
    try_to_swap_out env tp m = Ok 1 (swapped_out o tp page nr b m) /\ nr ∈ b /\ 1 <= nr < SWAP_BITS.
Proof.
  intros Hok [Hw Hf Hp Hd Hl H1] Hdev Hdrv Hb Hs. destruct (get_swap_page_run m b Hb Hs) as (nr & Hrun & Hnr & Hr).
  exists nr. eexists _, _. split; [reflexivity|]. split; [|done]. unfold try_to_swap_out. set (e := word (phys m) tp) in *.
  rewrite (run_bind _ _ m e m) by done. unfold PAGE_PRESENT. rewrite truth_land_1, Hp. cbn [negb].
  assert (Hpage : page_addr page) by (rewrite Hf; apply mask_page).
  pose proof (MAP_NR_bound m page Hok Hpage H1) as Hbd.
  assert (He : page <= e < page + 4096).
  { rewrite Hf, land_page_mask by done. pose proof (Z.div_mod e 4096 ltac:(lia)). pose proof (Z.mod_pos_bound e 4096). lia. }
  rewrite u32_small by (unfold in_u32, LOW_MEM in *; unfold in_u32 in Hw; lia).
  destruct (Z.ltb_spec PAGING_MEMORY (e - LOW_MEM)); [lia|].
  unfold truth. destruct (Z.eqb_spec (Z.land PAGE_DIRTY e) 0); [done|]. cbn [negb]. rewrite <-Hf.
  rewrite (run_bind _ _ _ _ _ (get_map_run _ m 1 H1)). cbn [Z.eqb Pos.eqb negb]. rewrite (run_bind _ _ _ _ _ Hrun).
  destruct (Z.eqb_spec nr 0); [lia|]. set (m1 := set_swap_bitmap (Some (b ∖ {[nr]})) m).
  rewrite (run_bind (wr tp (Z.shiftl nr 1)) _ m1 tt (set_phys (<[tp := Z.shiftl nr 1]> (phys m1)) m1)) by (unfold wr, modify; exact eq_refl).
  erewrite run_bind by (by apply write_swap_page_run).
  erewrite run_bind; [|apply (free_page_sole _ page); [done|unfold written; by destruct (swap_io _ _ _ _ _ _)|unfold written; destruct (swap_io _ _ _ _ _ _); cbn; lia]].
  unfold swapped_out. fold m1. exact eq_refl.
Qed.

(** [swap_in] when a page is free. *)
Definition swapped_in (tp i nr : Z) (ws : list Z) (b : gset Z) (m : mst) : mst :=
  let m1 := taken i m in
  let m2 := set_phys (store_words (frame_addr i) ws (phys m1)) m1 in
  let m3 := set_swap_bitmap (Some ({[nr]} ∪ b)) m2 in
  set_phys (<[tp := Z.lor (frame_addr i) 0x47]> (phys m3)) m3.

Lemma swap_in_run env tries m tp i nr ws b :
  (0 < tries)%nat -> map_ok m -> next_free m i -> swap_device m <> 0 -> no_driver env (swap_device m) = false ->
  (forall m', swap_io env false (swap_device m) (u32 (Z.shiftl nr 3)) 8 m' = None) -> swap_bitmap m = Some b ->
  word (phys m) tp = Z.shiftl nr 1 -> nr <> 0 -> nr ∉ b -> swap_store m !! (swap_device m, nr) = Some ws ->
  swap_in env tries tp m = Ok tt (swapped_in tp i nr ws b m).
Proof.
  intros Ht Hok Hnf Hdev Hdrv Hio Hb Hw Hnr Hnb Hs. unfold swap_in.
  rewrite (run_bind _ _ m (Some b) m) by (unfold gets; by rewrite Hb).
  rewrite (run_bind _ _ m (Z.shiftl nr 1) m) by (unfold rd, gets; by rewrite Hw).
  rewrite truth_land_1, Z.shiftl_spec_low by lia. rewrite Z.shiftr_shiftl_l by lia. rewrite Z.sub_diag, Z.shiftl_0_r.
  destruct (Z.eqb_spec nr 0); [done|]. rewrite (run_bind _ _ _ _ _ (get_free_page_run env tries m i Ht Hok Hnf)).
  destruct Hnf as [Hi%aget_Some_range _].
  destruct (Z.eqb_spec (frame_addr i) 0) as [E|]; [unfold frame_addr, LOW_MEM in E; lia|].
  rewrite (run_bind _ _ _ _ _ (read_swap_page_run env nr (frame_addr i) (taken i m) ws Hdev Hdrv (Hio _) Hs)).
  set (m2 := set_phys (store_words (frame_addr i) ws (phys (taken i m))) (taken i m)).
  rewrite (run_bind (gets swap_bitmap) _ m2 (Some b) m2) by (unfold gets; change (swap_bitmap m2) with (swap_bitmap m); by rewrite Hb).
  rewrite (run_bind (ofOpt (Some b)) _ m2 b m2) by done.
  rewrite (run_bind (modify _) _ m2 tt (set_swap_bitmap (Some ({[nr]} ∪ b)) m2)) by (unfold modify; exact eq_refl).
  unfold bit_of. rewrite bool_decide_eq_false_2 by done. rewrite (run_bind _ _ _ tt (set_swap_bitmap (Some ({[nr]} ∪ b)) m2)) by done.
  unfold wr, modify, swapped_in. fold m2. exact eq_refl.
Qed.

(** The free list after a page went to swap. *)
Lemma swapped_out_map o tp page nr b m j :
  page_addr page -> LOW_MEM <= page -> aget (mem_map m) (MAP_NR page) = Some 1 ->
  aget (mem_map (swapped_out o tp page nr b m)) j = if decide (j = MAP_NR page) then Some 0 else aget (mem_map m) j.
Proof.
  intros Hp Hl H1%aget_Some_range. assert (E : mem_map (swapped_out o tp page nr b m) = <[Z.to_nat (MAP_NR page) := 0]> (mem_map m)) by (by destruct o). rewrite E.
  destruct (decide _) as [->|]; [by rewrite aget_insert_eq|by rewrite aget_insert_ne by lia].
Qed.

Lemma swapped_out_map_ok o tp page nr b m :
  map_ok m -> page_addr page -> LOW_MEM <= page < HIGH_MEMORY m -> aget (mem_map m) (MAP_NR page) = Some 1 ->
  map_ok (swapped_out o tp page nr b m).
Proof.
  intros Hok Hp Hl H1. pose proof (aget_Some_range _ _ _ H1) as Hr. split.
  - rewrite <-(mo_len m Hok). destruct o; cbn; by rewrite length_insert.
  - intros j. rewrite swapped_out_map by (done || lia). assert (E : HIGH_MEMORY (swapped_out o tp page nr b m) = HIGH_MEMORY m) by (by destruct o). rewrite E.
    destruct (decide _) as [->|]; [|apply (mo_high m Hok)]. intros _. rewrite frame_of_MAP_NR by done. lia.
  - destruct o; cbn; (apply Forall_insert; [apply (mo_byte m Hok)|unfold in_u8; lia]).
Qed.

Lemma swapped_out_next_free o tp page nr b m :
  page_addr page -> LOW_MEM <= page -> aget (mem_map m) (MAP_NR page) = Some 1 ->
  exists i, next_free (swapped_out o tp page nr b m) i.
Proof.
  intros Hp Hl H1. pose proof (last_zero_next_free (swapped_out o tp page nr b m)) as H.
  destruct (last_zero _ _ _) as [i|]; [by exists i|]. exfalso. apply (H (MAP_NR page)).
  by rewrite swapped_out_map, decide_True.
Qed.

Lemma singleton_readd (nr : Z) (b : gset Z) : nr ∈ b -> {[nr]} ∪ b ∖ {[nr]} = b.
Proof. intros Hnr. apply set_eq. intros x. destruct (decide (x = nr)) as [->|]; set_solver. Qed.

Lemma load_page_insert a x v p : page_addr a -> ~ in_page a x -> load_page a (<[x := v]> p) = load_page a p.
Proof.
  Transparent load_page. intros Ha Hx. apply load_words_ext. intros i Hi. rewrite word_insert, decide_False; [done|].
  intros ->. apply Hx. unfold in_page. lia. Opaque load_page.
Qed.

Lemma load_page_store a ws p : length ws = 1024%nat -> load_page a (store_words a ws p) = ws.
Proof. Transparent load_page. intros Hl. unfold load_page. rewrite <-Hl. apply load_store. Opaque load_page. Qed.

(** The swap device has a driver and gives no errors on the pages [b]. *)
Definition good_swap (env : swap_env) (dev : Z) (b : gset Z) : Prop :=
  dev <> 0 /\ no_driver env dev = false /\ forall nr w m, nr ∈ b -> swap_io env w dev (u32 (Z.shiftl nr 3)) 8 m = None.

(** C24: a written page that [try_to_swap_out] moved to a swap device without errors
    comes back with [swap_in]: the page table entry points to a page with the same
    contents, present, writable and dirty; the page that was left is free, the one taken
    has one user, and every other count is as it was; the swap page is free again; and no
    other word of memory and no other page of the device has changed. *)
Theorem swap_roundtrip (env : swap_env) (tries : nat) (m : mst) (tp T page : Z) (b : gset Z)
    (Htries : (0 < tries)%nat) (Hok : map_ok m) (He : dirty_entry m tp page)
    (HT : page_addr T /\ in_use m T /\ in_page T tp /\ T <> page)
    (Hdev : good_swap env (swap_device m) b) (Hb : swap_bitmap m = Some b) (Hs : swap_space b) :
  exists nr m1 i m2,
    try_to_swap_out env tp m = Ok 1 m1 /\ word (phys m1) tp = Z.shiftl nr 1 /\
    aget (mem_map m1) (MAP_NR page) = Some 0 /\ swap_bitmap m1 = Some (b ∖ {[nr]}) /\
    swap_in env tries tp m1 = Ok tt m2 /\ word (phys m2) tp = Z.lor (frame_addr i) 0x47 /\
    load_page (frame_addr i) (phys m2) = load_page page (phys m) /\ swap_bitmap m2 = Some b /\
    (forall k, aget (mem_map m2) k = if decide (k = i) then Some 1 else if decide (k = MAP_NR page) then Some 0 else aget (mem_map m) k) /\
    (forall x, x <> tp -> ~ in_page (frame_addr i) x -> word (phys m2) x = word (phys m) x) /\
    (forall d, d <> (swap_device m, nr) -> swap_store m2 !! d = swap_store m !! d).
Proof.
  destruct HT as (HTp & HTu & HTin & HTne). destruct Hdev as (Hdev & Hdrv & Hio). destruct (try_to_swap_out_run env m tp page b Hok He Hdev Hdrv Hb Hs) as (nr & m0 & o & Ho & Hrun & Hnr & Hr).
  rewrite (Hio nr true m0 Hnr) in Ho. subst o. destruct He as [_ Hf _ _ Hl H1]. assert (Hp : page_addr page) by (rewrite Hf; apply mask_page).
  set (m1 := swapped_out None tp page nr b m) in *.
  assert (Hok1 : map_ok m1) by (by apply swapped_out_map_ok).
  destruct (swapped_out_next_free None tp page nr b m Hp ltac:(lia) H1) as [i Hnf]. fold m1 in Hnf.
  assert (Htp : ~ in_page page tp) by (by apply (page_disjoint T)).
  assert (HTi : T <> frame_addr i).
  { apply (in_use_not_free m1); [done| |done]. destruct HTu as [|(c & Hc & Hr')]; [by left|]. right. exists c. split; [|done].
    unfold m1. rewrite swapped_out_map by (done || lia). rewrite decide_False; [done|]. intros E. apply HTne.
    by rewrite <-(frame_of_MAP_NR T HTp), E, frame_of_MAP_NR. }
  assert (Hti : ~ in_page (frame_addr i) tp) by (by apply (page_disjoint T); [|apply frame_page|..]).
  assert (Hw : word (phys m1) tp = Z.shiftl nr 1).
  { unfold m1, swapped_out. cbn [phys set_mem_map written after_io set_swap_data set_phys]. by rewrite word_insert, decide_True. }
  set (ws := load_page page (<[tp := Z.shiftl nr 1]> (phys m))).
  assert (Hstore : swap_store m1 !! (swap_device m1, nr) = Some ws) by (apply lookup_insert_eq).
  assert (Hin : swap_in env tries tp m1 = Ok tt (swapped_in tp i nr ws (b ∖ {[nr]}) m1)).
  { apply swap_in_run; [done|done|done|done|done|intros m'; by apply Hio|done|done|lia|set_solver|done]. }
  exists nr, m1, i, (swapped_in tp i nr ws (b ∖ {[nr]}) m1). split; [done|]. split; [done|].
  split; [unfold m1; rewrite swapped_out_map by (done || lia); by rewrite decide_True|]. split; [done|]. split; [done|].
  pose proof Hnf as [Hi _]. assert (Hm1 : forall x, x <> tp -> word (phys m1) x = word (phys m) x).
  { intros x Hx. unfold m1, swapped_out. cbn [phys set_mem_map written after_io set_swap_data set_phys set_swap_bitmap]. rewrite word_insert, decide_False; done. }
  split; [|split; [|split; [|split; [|split]]]].
  - unfold swapped_in. cbn [phys set_phys]. by rewrite word_insert, decide_True.
  - unfold swapped_in. cbn [phys set_phys set_swap_bitmap].
    rewrite (load_page_insert (frame_addr i) tp) by (apply frame_page || done). rewrite load_page_store by apply load_page_length.
    by apply load_page_insert.
  - change (swap_bitmap (swapped_in tp i nr ws (b ∖ {[nr]}) m1)) with (Some ({[nr]} ∪ b ∖ {[nr]})). f_equal.
    by apply singleton_readd.
  - intros k. change (mem_map (swapped_in tp i nr ws (b ∖ {[nr]}) m1)) with (mem_map (taken i m1)). rewrite (taken_map i k m1 0 Hi).
    destruct (decide (k = i)); [done|]. unfold m1. by rewrite swapped_out_map by (done || lia).
  - intros x Hx Hxi. unfold swapped_in. cbn [phys set_phys set_swap_bitmap]. rewrite word_insert, decide_False by congruence.
    rewrite word_store_out by (unfold ws; rewrite load_page_length; intros H%in_words_page; done). rewrite taken_word by done. by apply Hm1.
  - intros d Hd. apply lookup_insert_ne. intros E. apply Hd. by rewrite <-E.
Qed.

(** A write that the device could not do is not noticed: the page is given up all the
    same, and the swap page holds what the device was left with. *)
Theorem swap_error_loses (env : swap_env) (m : mst) (tp page : Z) (b : gset Z) (f : Z -> Z)
    (Hok : map_ok m) (He : dirty_entry m tp page) (Hdev : swap_device m <> 0) (Hdrv : no_driver env (swap_device m) = false)
    (Hb : swap_bitmap m = Some b) (Hs : swap_space b) (Hio : forall nr m', swap_io env true (swap_device m) (u32 (Z.shiftl nr 3)) 8 m' = Some f) :
  exists nr m1, try_to_swap_out env tp m = Ok 1 m1 /\ word (phys m1) tp = Z.shiftl nr 1 /\ aget (mem_map m1) (MAP_NR page) = Some 0 /\
    swap_store m1 !! (swap_device m, nr) = Some (f <$> range 0 1024).
Proof.
  destruct (try_to_swap_out_run env m tp page b Hok He Hdev Hdrv Hb Hs) as (nr & m0 & o & Ho & Hrun & Hnr & Hr). rewrite Hio in Ho. subst o. destruct He as [_ Hf _ _ Hl H1].
  assert (Hp : page_addr page) by (rewrite Hf; apply mask_page). exists nr. eexists. split; [exact Hrun|]. split; [|split].
  - unfold swapped_out. cbn [phys set_mem_map written after_io add_message set_swap_data set_phys]. by rewrite word_insert, decide_True.
  - rewrite swapped_out_map by (done || lia). by rewrite decide_True.
  - unfold swapped_out. cbn [swap_store set_mem_map written after_io add_message set_swap_data]. rewrite lookup_insert_eq. unfold moved. by rewrite load_page_length.
Qed.

Definition demo_swap : mst := set_swap_dev 0x301 None (set_swap_bitmap (Some {[ 5; 9 ]}) (set_phys (<[0x101004 := 0x100067]> (phys demo_mem))
  (set_mem_map (<[0%nat := 1]> (mem_map demo_mem)) demo_mem))).

Lemma swap_roundtrip_witness : exists nr m1 i m2, let m := demo_swap in
  try_to_swap_out demo_env 0x101004 m = Ok 1 m1 /\ word (phys m1) 0x101004 = Z.shiftl nr 1 /\
  aget (mem_map m1) (MAP_NR 0x100000) = Some 0 /\ swap_bitmap m1 = Some ({[ 5; 9 ]} ∖ {[nr]}) /\
  swap_in demo_env 1 0x101004 m1 = Ok tt m2 /\ word (phys m2) 0x101004 = Z.lor (frame_addr i) 0x47 /\
  load_page (frame_addr i) (phys m2) = load_page 0x100000 (phys m) /\ swap_bitmap m2 = Some {[ 5; 9 ]} /\
  (forall k, aget (mem_map m2) k = if decide (k = i) then Some 1 else if decide (k = MAP_NR 0x100000) then Some 0 else aget (mem_map m) k) /\
  (forall x, x <> 0x101004 -> ~ in_page (frame_addr i) x -> word (phys m2) x = word (phys m) x) /\
  (forall d, d <> (0x301, nr) -> swap_store m2 !! d = swap_store m !! d).
Proof.
  apply (swap_roundtrip demo_env 1 demo_swap 0x101004 0x101000 0x100000 {[ 5; 9 ]}).
  - lia.
  - destruct demo_map_ok as [Hl Hh Hb]. split; [done| |apply Forall_insert; [done|unfold in_u8; lia]].
    intros i. cbn [demo_swap mem_map set_swap_dev set_swap_bitmap set_phys set_mem_map HIGH_MEMORY]. change 0%nat with (Z.to_nat 0).
    destruct (decide (0 = i)) as [<-|]; [done|]. rewrite aget_insert_ne by done. apply Hh.
  - split; try done; vm_compute; done.
  - repeat split; try done. right. exists 1. split; [done|lia].
  - split; [done|]. split; [reflexivity|]. reflexivity.
  - done.
  - exists 5. split; [set_solver|done].
Defined.

(** ** The scan for a page to swap out ends *)

(** A computation that never runs out of iterations. *)
Definition no_hang {A} (c : M mst A) : Prop := forall m, wp c m (fun _ _ => True) (fun h _ => h <> Hang).

Lemma no_hang_ret {A} (a : A) : no_hang (mret a).
Proof. intros m. done. Qed.
Lemma no_hang_bind {A B} (c : M mst A) (f : A -> M mst B) : no_hang c -> (forall a, no_hang (f a)) -> no_hang (c ≫= f).
Proof. intros Hc Hf m. apply wp_bind. eapply wp_mono; [apply Hc|intros a s' _; apply Hf|done]. Qed.
Lemma no_hang_modify f : no_hang (modify f).
Proof. intros m. done. Qed.
Lemma no_hang_gets {A} (f : mst -> A) : no_hang (gets f).
Proof. intros m. done. Qed.
Lemma no_hang_getS : no_hang getS.
Proof. intros m. done. Qed.
Lemma no_hang_ofOpt {A} (o : option A) : no_hang (ofOpt o).
Proof. intros m. by destruct o. Qed.
Lemma no_hang_if {A} (b : bool) (c d : M mst A) : no_hang c -> no_hang d -> no_hang (if b then c else d).
Proof. by destruct b. Qed.

Create HintDb nohang discriminated.
#[local] Hint Resolve no_hang_ret no_hang_modify no_hang_gets no_hang_getS no_hang_ofOpt : nohang.
Ltac nh :=
  repeat match goal with
  | |- no_hang (if _ then _ else _) => apply no_hang_if
  | |- no_hang (_ ≫= _) => apply no_hang_bind; [|intros ?]
  | |- no_hang (match ?x with _ => _ end) => destruct x
  | |- no_hang _ => solve [auto 1 with nohang]
  end.

Lemma no_hang_get_map i : no_hang (get_map i).
Proof. unfold get_map. nh. Qed.
Lemma no_hang_put_map i v : no_hang (put_map i v).
Proof. unfold put_map. nh. Qed.
Lemma no_hang_rd a : no_hang (rd a).
Proof. unfold rd. nh. Qed.
Lemma no_hang_wr a v : no_hang (wr a v).
Proof. unfold wr. nh. Qed.
Lemma no_hang_mprintk t : no_hang (mprintk t).
Proof. unfold mprintk. nh. Qed.
#[local] Hint Resolve no_hang_get_map no_hang_put_map no_hang_rd no_hang_wr no_hang_mprintk : nohang.

Lemma no_hang_free_page a : no_hang (free_page a).
Proof. unfold free_page. nh. Qed.
Lemma no_hang_get_swap_page : no_hang get_swap_page.
Proof. unfold get_swap_page. nh. Qed.
Lemma no_hang_io_message o : no_hang (io_message o).
Proof. unfold io_message. nh. Qed.
#[local] Hint Resolve no_hang_io_message : nohang.
Lemma no_hang_write_swap_page env nr a : no_hang (write_swap_page env nr a).
Proof.
  assert (Hb : forall dev zs buf, no_hang (swap_file_blocks (write_file_block env) dev zs buf)) by (intros dev zs; induction zs; intros buf; cbn [swap_file_blocks]; unfold write_file_block; nh; auto).
  unfold write_swap_page, rw_swap_page, write_dev_page. nh; apply Hb.
Qed.
Lemma no_hang_swap_rss d : no_hang (swap_rss d).
Proof. unfold swap_rss. nh. Qed.
#[local] Hint Resolve no_hang_free_page no_hang_get_swap_page no_hang_write_swap_page no_hang_swap_rss : nohang.
Lemma no_hang_try_to_swap_out env tp : no_hang (try_to_swap_out env tp).
Proof. unfold try_to_swap_out. nh. Qed.
#[local] Hint Resolve no_hang_try_to_swap_out : nohang.

(** How much of the scan is left. *)
Definition scan_left (x : scan_label) : nat :=
  match x with CheckDir c => S (2 * Z.to_nat (c + 1)) | CheckTable c _ => 2 * Z.to_nat (c + 1) end.

Definition scan_result (x : scan_label) (r : scan_label + Z) : Prop :=
  match r with inl x' => (scan_left x' < scan_left x)%nat | inr v => v = 0 \/ v = 1 end.

Lemma wp_no_hang {A B} (c : M mst A) (f : A -> M mst B) m (Q : B -> mst -> Prop) :
  no_hang c -> (forall a m', wp (f a) m' Q (fun h _ => h <> Hang)) -> wp (c ≫= f) m Q (fun h _ => h <> Hang).
Proof. intros Hc Hf. apply wp_bind. eapply wp_mono; [apply Hc|intros a s' _; apply Hf|done]. Qed.

Ltac scan :=
  repeat match goal with
  | |- wp (if ?b then _ else _) _ _ _ => let E := fresh "E" in destruct b eqn:E
  | |- wp (mret _) _ _ _ => apply wp_ret
  | |- wp (_ ≫= _) _ _ _ => apply wp_no_hang; [solve [nh]|intros ??]
  end.

Lemma swap_out_step_left env x m : wp (swap_out_step env x) m (fun r _ => scan_result x r) (fun h _ => h <> Hang).
Proof.
  destruct x as [c|c t]; unfold swap_out_step; scan; cbn [scan_result scan_left];
    try (apply Z.ltb_ge in E; clear -E; lia); auto.
Qed.

(** The scan reported that it made room (1) or that there is none (0), or hit
    an access outside an array; it did not run on. *)
Definition scan_ends (r : res mst Z) : Prop :=
  match r with Ok v _ => v = 0 \/ v = 1 | Halt h _ => h <> Hang end.

(** [swap_out] always comes to an end: in every state of memory and page
    tables it reports within [SCAN_FUEL] steps, with 0 or 1, or stops at an
    access outside an array. *)
Theorem swap_out_terminates (env : swap_env) (m : mst) :
  scan_ends (swap_out env m).
Proof.
  change (wp (swap_out env) m (fun r _ => r = 0 \/ r = 1) (fun h _ => h <> Hang)).
  unfold swap_out. apply (wp_iter (swap_out_step env) (fun _ _ => True) (fun x _ => scan_left x)); [|done|].
  - intros x s _. eapply wp_mono; [apply swap_out_step_left| |done]. intros [x'|r] s'; [by split|done].
  - cbn [scan_left]. unfold SCAN_FUEL. change VM_PAGES with 1032192. lia.
Qed.

(** ** [mem_init] *)

Lemma put_map_range v n : forall lo m, in_u8 v -> 0 <= lo -> lo + Z.of_nat n <= Z.of_nat (length (mem_map m)) ->
  exists m', for_each (range lo n) (fun i => put_map i v) m = Ok tt m' /\ HIGH_MEMORY m' = HIGH_MEMORY m /\
    phys m' = phys m /\ length (mem_map m') = length (mem_map m) /\
    forall j, aget (mem_map m') j = if decide (lo <= j < lo + Z.of_nat n) then Some v else aget (mem_map m) j.
Proof.
  Transparent range.
  induction n as [|n IH]; intros lo m Hv Hlo Hlen.
  - exists m. split; [done|]. repeat (split; [done|]). intros j. by rewrite decide_False by lia.
  - destruct (IH lo m Hv Hlo ltac:(lia)) as (m1 & Hrun & Hh & Hph & Hl & Hm).
    destruct (aget_in_range (mem_map m1) (lo + Z.of_nat n)) as [c Hc]; [lia|].
    eexists. rewrite range_S, for_each_app, (run_bind _ _ _ _ _ Hrun). cbn [for_each].
    rewrite (run_bind _ _ _ _ _ (put_map_run _ v m1 c Hc Hv)). split; [done|]. split; [done|]. split; [done|].
    cbn [mem_map set_mem_map]. split; [by rewrite length_insert|]. intros j. destruct (decide (j = lo + Z.of_nat n)) as [->|].
    + rewrite aget_insert_eq by lia. by rewrite decide_True by lia.
    + rewrite aget_insert_ne by lia. rewrite Hm. by repeat case_decide; try lia.
  Opaque range.
Qed.

(** after [mem_init] the pages of [start_mem, end_mem) are free and every
    other page is marked used, so that the pages handed out later lie in main
    memory. *)
Theorem mem_init_free (start_mem end_mem : Z) (m : mst)
    (Hs : page_addr start_mem) (He : page_addr end_mem)
    (Hr : LOW_MEM <= start_mem <= end_mem /\ end_mem <= LOW_MEM + PAGING_MEMORY) :
  exists m', mem_init start_mem end_mem m = Ok tt m' /\ map_ok m' /\
    forall i, 0 <= i < PAGING_PAGES ->
      aget (mem_map m') i = Some (if decide (start_mem <= frame_addr i < end_mem) then 0 else USED).
Proof.
  unfold mem_init. erewrite run_bind by (unfold modify; exact eq_refl). erewrite run_bind by (unfold modify; exact eq_refl).
  erewrite run_bind by (unfold modify; exact eq_refl).
  set (m1 := set_mem_map _ _).
  assert (Hn : Z.of_nat (Z.to_nat (Z.shiftr (end_mem - start_mem) 12)) = MAP_NR end_mem - MAP_NR start_mem).
  { pose proof (frame_of_MAP_NR _ Hs). pose proof (frame_of_MAP_NR _ He). unfold frame_addr in *.
    rewrite Z2Nat.id by (apply Z.shiftr_nonneg; lia). rewrite Z.shiftr_div_pow2 by lia. change (2 ^ 12) with 4096.
    replace (end_mem - start_mem) with ((MAP_NR end_mem - MAP_NR start_mem) * 4096) by lia. apply Z.div_mul. lia. }
  pose proof (frame_of_MAP_NR _ Hs) as Es. pose proof (frame_of_MAP_NR _ He) as Ee. unfold frame_addr in Es, Ee.
  change PAGING_MEMORY with 15728640 in Hr.
  assert (Hl : length (mem_map m1) = Z.to_nat PAGING_PAGES) by apply length_replicate.
  assert (Hl' : Z.of_nat (length (mem_map m1)) = 3840) by (by rewrite Hl).
  destruct (put_map_range 0 (Z.to_nat (Z.shiftr (end_mem - start_mem) 12)) (MAP_NR start_mem) m1)
    as (m' & Hrun & Hh & _ & Hlen & Hm); [unfold in_u8; lia|lia|lia|].
  assert (Hget : forall i, 0 <= i < PAGING_PAGES ->
      aget (mem_map m') i = Some (if decide (start_mem <= frame_addr i < end_mem) then 0 else USED)).
  { intros i Hi. rewrite Hm. unfold frame_addr. change PAGING_PAGES with 3840 in Hi.
    assert (Hg : aget (mem_map m1) i = Some USED).
    { unfold aget. destruct (Z.ltb_spec i 0); [lia|]. apply lookup_replicate. change PAGING_PAGES with 3840. split; [done|lia]. }
    rewrite Hg. repeat case_decide; try lia; done. }
  exists m'. split; [exact Hrun|]. split; [|exact Hget].
  assert (Hin : forall i c, aget (mem_map m') i = Some c -> 0 <= i < PAGING_PAGES).
  { intros i c Hi%aget_Some_range. change PAGING_PAGES with 3840. lia. }
  split.
  - change PAGING_PAGES with 3840. lia.
  - intros i Hi. pose proof (Hget i (Hin _ _ Hi)) as E. rewrite Hi in E. case_decide; [|done].
    rewrite Hh. change (HIGH_MEMORY m1) with end_mem. lia.
  - apply Forall_lookup. intros k c Hk.
    assert (Hk' : aget (mem_map m') (Z.of_nat k) = Some c) by (unfold aget; destruct (Z.ltb_spec (Z.of_nat k) 0); [lia|by rewrite Nat2Z.id]).
    rewrite (Hget _ (Hin _ _ Hk')) in Hk'. injection Hk' as <-. unfold in_u8, USED. case_decide; lia.
Qed.

Lemma mem_init_free_witness : exists m', mem_init 0x400000 0x1000000 demo_mem = Ok tt m' /\ map_ok m' /\
  forall i, 0 <= i < PAGING_PAGES -> aget (mem_map m') i = Some (if decide (0x400000 <= frame_addr i < 0x1000000) then 0 else USED).
Proof. apply (mem_init_free 0x400000 0x1000000 demo_mem); [done|done|unfold LOW_MEM, PAGING_MEMORY; lia]. Defined.
