(* ===== verification/Buffer.v ===== *)
(** * The buffer cache: [fs/buffer.c]

    The heads of the buffers are an array; a pointer to one is its index, and
    [NULL] is [None].  Every head is on the ring of [free_list], most recently
    used last; the heads of blocks in use are on the hash queue of their device
    and block number.  The data of a buffer is found by its address.

    Waiting for a buffer, and asking the drivers for a transfer, let other
    tasks and interrupts run: what they do is the interface [BlockLayer]. *)

From S2P Require Import Prelude TaskStruct.

Definition NR_HASH : Z := 307.
Definition NR_SUPER : Z := 8.
Definition READ : Z := 0.
Definition WRITE : Z := 1.
Definition READA : Z := 2.
Definition WRITEA : Z := 3.

Definition bptr := option Z.

(** [struct buffer_head], without the queue of waiting tasks. *)
Record buffer_head := Buf {
  b_data : Z; b_blocknr : Z; b_dev : Z;
  b_uptodate : Z; b_dirt : Z; b_count : Z; b_lock : Z;
  b_prev : bptr; b_next : bptr; b_prev_free : bptr; b_next_free : bptr
}.

Definition set_b_data v b := Buf v (b_blocknr b) (b_dev b) (b_uptodate b) (b_dirt b) (b_count b) (b_lock b) (b_prev b) (b_next b) (b_prev_free b) (b_next_free b).
Definition set_b_ident d n b := Buf (b_data b) n d (b_uptodate b) (b_dirt b) (b_count b) (b_lock b) (b_prev b) (b_next b) (b_prev_free b) (b_next_free b).
Definition set_b_uptodate v b := Buf (b_data b) (b_blocknr b) (b_dev b) v (b_dirt b) (b_count b) (b_lock b) (b_prev b) (b_next b) (b_prev_free b) (b_next_free b).
Definition set_b_dirt v b := Buf (b_data b) (b_blocknr b) (b_dev b) (b_uptodate b) v (b_count b) (b_lock b) (b_prev b) (b_next b) (b_prev_free b) (b_next_free b).
Definition set_b_count v b := Buf (b_data b) (b_blocknr b) (b_dev b) (b_uptodate b) (b_dirt b) v (b_lock b) (b_prev b) (b_next b) (b_prev_free b) (b_next_free b).
Definition set_b_lock v b := Buf (b_data b) (b_blocknr b) (b_dev b) (b_uptodate b) (b_dirt b) (b_count b) v (b_prev b) (b_next b) (b_prev_free b) (b_next_free b).
Definition set_b_prev v b := Buf (b_data b) (b_blocknr b) (b_dev b) (b_uptodate b) (b_dirt b) (b_count b) (b_lock b) v (b_next b) (b_prev_free b) (b_next_free b).
Definition set_b_next v b := Buf (b_data b) (b_blocknr b) (b_dev b) (b_uptodate b) (b_dirt b) (b_count b) (b_lock b) (b_prev b) v (b_prev_free b) (b_next_free b).
Definition set_b_prev_free v b := Buf (b_data b) (b_blocknr b) (b_dev b) (b_uptodate b) (b_dirt b) (b_count b) (b_lock b) (b_prev b) (b_next b) v (b_next_free b).
Definition set_b_next_free v b := Buf (b_data b) (b_blocknr b) (b_dev b) (b_uptodate b) (b_dirt b) (b_count b) (b_lock b) (b_prev b) (b_next b) (b_prev_free b) v.

Definition NR_BLK_DEV : Z := 7.
Definition NR_REQUEST : Z := 32.

(** [struct request] of [blk_drv/blk.h]; the links are indices into the table
    of requests. *)
Record request := Req {
  r_dev : Z; r_cmd : Z; r_errors : Z; r_sector : Z; r_nr_sectors : Z; r_buffer : Z;
  r_waiting : bool;                    (* whether a task waits for it *)
  r_bh : bptr; r_next : option Z
}.

Record bst := Bst {
  bufs : list buffer_head;             (* start_buffer[0 .. NR_BUFFERS - 1] *)
  NR_BUFFERS : Z;
  hash_table : list bptr;
  free_list : bptr;
  bdata : gmap Z (list Z);             (* contents of the data areas, as words *)
  bmem : gmap Z (list Z);              (* pages filled by bread_page, by address *)
  requests : list request;             (* request[NR_REQUEST] of the block drivers *)
  current_request : list (option Z)    (* blk_dev[].current_request *)
}.

Definition set_bufs v s := Bst v (NR_BUFFERS s) (hash_table s) (free_list s) (bdata s) (bmem s) (requests s) (current_request s).
Definition set_nr v s := Bst (bufs s) v (hash_table s) (free_list s) (bdata s) (bmem s) (requests s) (current_request s).
Definition set_hash_table v s := Bst (bufs s) (NR_BUFFERS s) v (free_list s) (bdata s) (bmem s) (requests s) (current_request s).
Definition set_free_list v s := Bst (bufs s) (NR_BUFFERS s) (hash_table s) v (bdata s) (bmem s) (requests s) (current_request s).
Definition set_bmem v s := Bst (bufs s) (NR_BUFFERS s) (hash_table s) (free_list s) (bdata s) v (requests s) (current_request s).
Definition set_bdata v s := Bst (bufs s) (NR_BUFFERS s) (hash_table s) (free_list s) v (bmem s) (requests s) (current_request s).
Definition set_requests v s := Bst (bufs s) (NR_BUFFERS s) (hash_table s) (free_list s) (bdata s) (bmem s) v (current_request s).
Definition set_current v s := Bst (bufs s) (NR_BUFFERS s) (hash_table s) (free_list s) (bdata s) (bmem s) (requests s) v.

(** [*bh] and an assignment to its fields. *)
Definition bh_at (x : Z) : M bst buffer_head := s ← getS; ofOpt (aget (bufs s) x).
Definition bh_upd (x : Z) (f : buffer_head -> buffer_head) : M bst unit :=
  s ← getS; b ← ofOpt (aget (bufs s) x); l ← ofOpt (aset (bufs s) x (f b)); modify (set_bufs l).
(** The same through a pointer that may be [NULL]. *)
Definition ptr_upd (p : bptr) (f : buffer_head -> buffer_head) : M bst unit := x ← ofOpt p; bh_upd x f.
Definition ptr_at (p : bptr) : M bst buffer_head := x ← ofOpt p; bh_at x.

(** ** Hash queues and the free list *)

Definition _hashfn (dev block : Z) : Z := u32 (Z.lxor dev block) mod NR_HASH.
Definition hash (dev block : Z) : M bst bptr := s ← getS; ofOpt (aget (hash_table s) (_hashfn dev block)).
Definition set_hash (dev block : Z) (p : bptr) : M bst unit :=
  s ← getS; l ← ofOpt (aset (hash_table s) (_hashfn dev block) p); modify (set_hash_table l).

(** [static inline void remove_from_hash_queue(struct buffer_head *bh)] *)
Definition remove_from_hash_queue (bh : Z) : M bst unit :=
  b ← bh_at bh;
  match b_next b with Some n => bh_upd n (set_b_prev (b_prev b)) | None => mret tt end;;
  b ← bh_at bh;
  match b_prev b with Some p => bh_upd p (set_b_next (b_next b)) | None => mret tt end;;
  b ← bh_at bh;
  h ← hash (b_dev b) (b_blocknr b);
  (if bool_decide (h = Some bh) then set_hash (b_dev b) (b_blocknr b) (b_next b) else mret tt);;
  bh_upd bh (fun b => set_b_next None (set_b_prev None b)).

(** [static inline void remove_from_free_list(struct buffer_head *bh)] *)
Definition remove_from_free_list (bh : Z) : M bst unit :=
  b ← bh_at bh;
  if bool_decide (b_prev_free b = None) || bool_decide (b_next_free b = None)
  then halts (Panic "Free block list corrupted")
  else
    ptr_upd (b_prev_free b) (set_b_next_free (b_next_free b));;
    b ← bh_at bh;
    ptr_upd (b_next_free b) (set_b_prev_free (b_prev_free b));;
    b ← bh_at bh;
    modify (fun s => if bool_decide (free_list s = Some bh) then set_free_list (b_next_free b) s else s);;
    bh_upd bh (fun b => set_b_next_free None (set_b_prev_free None b)).

(** [static inline void remove_from_queues(struct buffer_head * bh)] *)
Definition remove_from_queues (bh : Z) : M bst unit := remove_from_hash_queue bh;; remove_from_free_list bh.

(** Four assignments that several routines share: [bh] goes before the head of
    the ring. *)
Definition link_before_head (bh : Z) : M bst unit :=
  f ← gets free_list;
  bh_upd bh (set_b_next_free f);;
  hd ← ptr_at f;
  bh_upd bh (set_b_prev_free (b_prev_free hd));;
  hd ← ptr_at f;
  ptr_upd (b_prev_free hd) (set_b_next_free (Some bh));;
  ptr_upd f (set_b_prev_free (Some bh)).

(** [static inline void put_first_free(struct buffer_head *bh)] *)
Definition put_first_free (p : bptr) : M bst unit :=
  match p with
  | None => mret tt
  | Some bh =>
      f ← gets free_list;
      if bool_decide (f = Some bh) then mret tt
      else remove_from_free_list bh;; link_before_head bh;; modify (set_free_list (Some bh))
  end.

(** [static inline void put_last_free(struct buffer_head *bh)] *)
Definition put_last_free (p : bptr) : M bst unit :=
  match p with
  | None => mret tt
  | Some bh =>
      f ← gets free_list;
      if bool_decide (f = Some bh) then b ← bh_at bh; modify (set_free_list (b_next_free b))
      else remove_from_free_list bh;; link_before_head bh
  end.

(** [static inline void insert_into_queues(struct buffer_head * bh)] *)
Definition insert_into_queues (bh : Z) : M bst unit :=
  link_before_head bh;;
  bh_upd bh (fun b => set_b_next None (set_b_prev None b));;
  b ← bh_at bh;
  if b_dev b =? 0 then mret tt
  else
    h ← hash (b_dev b) (b_blocknr b);
    bh_upd bh (set_b_next h);;
    set_hash (b_dev b) (b_blocknr b) (Some bh);;
    match h with Some n => bh_upd n (set_b_prev (Some bh)) | None => mret tt end.

(** [static struct buffer_head * find_buffer(int dev, int block)]: a queue has
    at most [NR_BUFFERS] heads. *)
Definition find_step (dev block : Z) (tmp : bptr) : M bst (bptr + bptr) :=
  match tmp with
  | None => mret (inr None)
  | Some x =>
      b ← bh_at x;
      if (b_dev b =? dev) && (b_blocknr b =? u32 block) then mret (inr (Some x)) else mret (inl (b_next b))
  end.
Definition find_buffer (dev block : Z) : M bst bptr :=
  h ← hash dev block; n ← gets (fun s => length (bufs s)); iter (S (S n)) (find_step dev block) h.

(** ** The rest of the system *)

(** What the cache needs of others: [sleeping mine] is what other tasks and
    interrupts do while the running task, which holds the buffers [mine],
    sleeps; [ll_rw_block mine rw bh] asks the driver for a transfer, which may
    sleep too. *)
Class BlockLayer := {
  sleeping : list Z -> M bst unit;
  ll_rw_block : list Z -> Z -> Z -> M bst unit;
  sync_inodes : list Z -> M bst unit
}.

Section Cache.
Context `{BlockLayer}.
(** Bounds the times a loop that waits for others starts over. *)
Context (patience : nat).

(** [static inline void wait_on_buffer(struct buffer_head * bh)] *)
Definition wait_on_buffer (mine : list Z) (bh : Z) : M bst unit :=
  iter patience (fun _ => b ← bh_at bh; if truth (b_lock b) then sleeping mine;; mret (inl tt) else mret (inr tt)) tt.

(** [static void sync_buffers(int dev)] *)
Fixpoint sync_loop (mine : list Z) (n : nat) (p : bptr) : M bst unit :=
  match n with
  | O => mret tt
  | S n' =>
      x ← ofOpt p;
      wait_on_buffer mine x;;
      b ← bh_at x;
      (if truth (b_dirt b) then ll_rw_block mine WRITE x else mret tt);;
      b ← bh_at x;
      sync_loop mine n' (b_next_free b)
  end.
Definition sync_buffers (mine : list Z) (dev : Z) : M bst unit :=
  s ← getS; sync_loop mine (Z.to_nat (NR_BUFFERS s)) (free_list s).

(** [int sys_sync(void)] *)
Definition sys_sync : M bst Z := sync_inodes [];; sync_buffers [] 0;; mret 0.

(** [int sync_dev(int dev)] *)
Definition sync_dev (mine : list Z) (dev : Z) : M bst Z :=
  sync_buffers mine dev;; sync_inodes mine;; sync_buffers mine dev;; mret 0.

(** [static inline void invalidate_buffers(int dev)] *)
Definition invalidate_buffers (dev : Z) : M bst unit :=
  n ← gets NR_BUFFERS;
  for_each (range 0 (Z.to_nat n)) (fun i =>
    b ← bh_at i;
    if negb (b_dev b =? dev) then mret tt
    else
      wait_on_buffer [] i;;
      b ← bh_at i;
      if b_dev b =? dev then bh_upd i (fun b => set_b_uptodate 0 (set_b_dirt 0 b)) else mret tt).

(** [void check_disk_change(int dev)]: whether the floppy was changed, the
    devices of the super blocks, and the routines of the other tables come from
    their components. *)
Definition check_disk_change (floppy_change : Z -> bool) (s_devs : list Z) (put_super invalidate_inodes : Z -> M bst unit)
    (dev : Z) : M bst unit :=
  if negb (Z.shiftr (u32 dev) 8 =? 2) then mret tt
  else if negb (floppy_change (Z.land dev 3)) then mret tt
  else
    for_each (range 0 (Z.to_nat NR_SUPER)) (fun i =>
      d ← ofOpt (aget s_devs i); if d =? dev then put_super d else mret tt);;
    invalidate_inodes dev;;
    invalidate_buffers dev.

(** [struct buffer_head * get_hash_table(int dev, int block)] *)
Definition get_hash_table_step (mine : list Z) (dev block : Z) (_ : unit) : M bst (unit + bptr) :=
  p ← find_buffer dev block;
  match p with
  | None => mret (inr None)
  | Some bh =>
      bh_upd bh (fun b => set_b_count (u8 (b_count b + 1)) b);;
      wait_on_buffer (bh :: mine) bh;;
      b ← bh_at bh;
      if (b_dev b =? dev) && (b_blocknr b =? u32 block) then put_last_free (Some bh);; mret (inr (Some bh))
      else bh_upd bh (fun b => set_b_count (u8 (b_count b - 1)) b);; mret (inl tt)
  end.
Definition get_hash_table (mine : list Z) (dev block : Z) : M bst bptr := iter patience (get_hash_table_step mine dev block) tt.

Definition BADNESS (b : buffer_head) : Z := Z.shiftl (b_dirt b) 1 + b_lock b.

(** The search of [getblk] for the best unused buffer: [n] more turns, from
    the buffer after [tmp]. *)
Fixpoint getblk_scan (mine : list Z) (n : nat) (tmp : Z) (bh : bptr) : M bst bptr :=
  match n with
  | O => mret bh
  | S n' =>
      t ← bh_at tmp;
      tmp ← ofOpt (b_next_free t);
      t ← bh_at tmp;
      if truth (b_count t) then getblk_scan mine n' tmp bh
      else
        best ← (match bh with None => mret true | Some x => b ← bh_at x; mret (BADNESS t <? BADNESS b) end);
        if (best : bool) && (BADNESS t =? 0) then mret (Some tmp)
        else
          (if truth (b_dirt t) then ll_rw_block mine WRITEA tmp else mret tt);;
          getblk_scan mine n' tmp (if best : bool then Some tmp else bh)
  end.

(** [while (bh->b_dirt) ...]: [true] when the buffer is clean and still
    unused. *)
Definition clean_step (mine : list Z) (bh : Z) (_ : unit) : M bst (unit + bool) :=
  b ← bh_at bh;
  if truth (b_dirt b) then
    sync_dev mine (b_dev b);;
    wait_on_buffer mine bh;;
    b ← bh_at bh;
    if truth (b_count b) then mret (inr false) else mret (inl tt)
  else mret (inr true).

(** One turn from the label [repeat]. *)
Definition getblk_step (mine : list Z) (dev block : Z) (_ : unit) : M bst (unit + Z) :=
  p ← get_hash_table mine dev block;
  match p with
  | Some bh => mret (inr bh)
  | None =>
      s ← getS; f ← ofOpt (free_list s);
      o ← getblk_scan mine (S (Z.to_nat (NR_BUFFERS s))) f None;
      match o with
      | None => sleeping mine;; mret (inl tt)
      | Some bh =>
          wait_on_buffer mine bh;;
          b ← bh_at bh;
          if truth (b_count b) then mret (inl tt)
          else
            ok ← iter patience (clean_step mine bh) tt;
            if negb ok then mret (inl tt)
            else
              q ← find_buffer dev block;
              match q with
              | Some _ => mret (inl tt)
              | None =>
                  bh_upd bh (fun b => set_b_uptodate 0 (set_b_dirt 0 (set_b_count 1 b)));;
                  remove_from_queues bh;;
                  bh_upd bh (set_b_ident (u16 dev) (u32 block));;
                  insert_into_queues bh;;
                  mret (inr bh)
              end
      end
  end.

(** [struct buffer_head *getblk(int dev, int block)] *)
Definition getblk (mine : list Z) (dev block : Z) : M bst Z := iter patience (getblk_step mine dev block) tt.

(** [void brelse(struct buffer_head * buf)] *)
Definition brelse (mine : list Z) (buf : bptr) : M bst unit :=
  match buf with
  | None => mret tt
  | Some x =>
      wait_on_buffer mine x;;
      b ← bh_at x;
      bh_upd x (fun b => set_b_count (u8 (b_count b - 1)) b);;
      if b_count b =? 0 then halts (Panic "Trying to free free buffer") else mret tt
  end.

(** [struct buffer_head *bread(int dev, int block)] *)
Definition bread (mine : list Z) (dev block : Z) : M bst bptr :=
  bh ← getblk mine dev block;
  b ← bh_at bh;
  if truth (b_uptodate b) then mret (Some bh)
  else
    ll_rw_block (bh :: mine) READ bh;;
    wait_on_buffer (bh :: mine) bh;;
    b ← bh_at bh;
    if truth (b_uptodate b) then mret (Some bh)
    else brelse (bh :: mine) (Some bh);; mret None.

(** [void bread_page(unsigned long address, int dev, int b[4])] *)
Fixpoint page_get (mine : list Z) (dev : Z) (bs : list Z) : M bst (list bptr) :=
  match bs with
  | [] => mret []
  | b0 :: bs' =>
      if truth b0 then
        x ← getblk mine dev b0;
        b ← bh_at x;
        (if truth (b_uptodate b) then mret tt else ll_rw_block (x :: mine) READ x);;
        r ← page_get (x :: mine) dev bs';
        mret (Some x :: r)
      else r ← page_get mine dev bs'; mret (None :: r)
  end.

(** The buffers of a list of pointers. *)
Definition held_of (l : list bptr) : list Z := omap id l.

Fixpoint page_copy (mine : list Z) (address : Z) (l : list bptr) : M bst unit :=
  match l with
  | [] => mret tt
  | p :: l' =>
      match p with
      | None => mret tt
      | Some x =>
          let m := held_of l ++ mine in
          wait_on_buffer m x;;
          b ← bh_at x;
          (if truth (b_uptodate b)
           then modify (fun s => set_bmem (<[address := default [] (bdata s !! b_data b)]> (bmem s)) s) else mret tt);;
          brelse m (Some x)
      end;;
      page_copy mine (address + 1024) l'
  end.
Definition bread_page (mine : list Z) (address dev : Z) (bs : list Z) : M bst unit :=
  l ← page_get mine dev bs; page_copy mine address l.

(** [struct buffer_head * breada(int dev, int first, ...)]; [rest] are the
    arguments up to the first negative one. *)
Fixpoint read_ahead (mine : list Z) (dev : Z) (rest : list Z) : M bst unit :=
  match rest with
  | [] => mret tt
  | first :: rest' =>
      x ← getblk mine dev first;
      b ← bh_at x;
      (if truth (b_uptodate b) then mret tt else ll_rw_block (x :: mine) READA x);;
      bh_upd x (fun b => set_b_count (u8 (b_count b - 1)) b);;
      read_ahead mine dev rest'
  end.
Definition breada (mine : list Z) (dev first : Z) (rest : list Z) : M bst bptr :=
  bh ← getblk mine dev first;
  b ← bh_at bh;
  (if truth (b_uptodate b) then mret tt else ll_rw_block (bh :: mine) READ bh);;
  read_ahead (bh :: mine) dev rest;;
  wait_on_buffer (bh :: mine) bh;;
  b ← bh_at bh;
  if truth (b_uptodate b) then mret (Some bh) else brelse (bh :: mine) (Some bh);; mret None.

End Cache.

(** ** Set-up *)

(** [sizeof(struct buffer_head)] *)
Definition SIZEOF_BH : Z := 36.

(** [void buffer_init(long buffer_end)]: [end_] is the address after the
    kernel, where the heads start, [stale] the block numbers memory happens to
    hold there.  [h] is the index of the next head and [b] the data address. *)
Definition init_step (end_ : Z) (stale : Z -> Z) (x : Z * Z) : M bst ((Z * Z) + Z) :=
  let '(h, b) := x in
  let b := b - 1024 in
  if negb (end_ + SIZEOF_BH * (h + 1) <=? b) then mret (inr h)
  else if 0xA0000 <? end_ + SIZEOF_BH * (h + 1) then mret (inr h)
  else
    modify (fun s => set_nr (NR_BUFFERS s + 1)
              (set_bufs (bufs s ++ [Buf b (stale h) 0 0 0 0 0 None None (Some (h - 1)) (Some (h + 1))]) s));;
    mret (inl (h + 1, if b =? 0x100000 then 0xA0000 else b)).

Definition buffer_init (end_ : Z) (stale : Z -> Z) (buffer_end : Z) : M bst unit :=
  let b := if buffer_end =? Z.shiftl 1 20 then 640 * 1024 else buffer_end in
  modify (fun s => set_bufs [] s);;
  h ← iter (Z.to_nat (buffer_end / 1024 + 2)) (init_step end_ stale) (0, b);
  let h := h - 1 in
  modify (set_free_list (Some 0));;
  bh_upd 0 (set_b_prev_free (Some h));;
  bh_upd h (set_b_next_free (Some 0));;
  modify (set_hash_table (replicate (Z.to_nat NR_HASH) None)).
