(* ===== verification/Cache.v ===== *)
(** * Theorems about the buffer cache

    The ring of buffers and the hash queues are doubly linked lists through the
    heads; the invariant [bufs_ok] says which lists they are.  [getblk] and
    [bread] keep it whatever the other tasks do within the invariant, a block
    has at most one buffer, and a buffer that is looked up becomes the most
    recently used one. *)

From S2P Require Import Prelude TaskStruct Buffer.

(** ** Doubly linked lists *)

(** The elements of [l] in order, linked by [nx] and [pv], after [pr] and
    before [e]. *)
Fixpoint dl (nx pv : Z -> option Z) (pr : option Z) (l : list Z) (e : option Z) : Prop :=
  match l with
  | [] => True
  | x :: l' => pv x = pr /\ nx x = (match head l' with Some y => Some y | None => e end) /\ dl nx pv (Some x) l' e
  end.

Definition hd_or (l : list Z) (e : option Z) : option Z := match head l with Some y => Some y | None => e end.
Definition last_or (l : list Z) (p : option Z) : option Z := match last l with Some y => Some y | None => p end.

Lemma last_or_step x l p : last_or (x :: l) p = last_or l (Some x).
Proof. unfold last_or. rewrite last_cons. by destruct (last l). Qed.

Lemma last_or_some x l p : last_or (x :: l) p = last (x :: l).
Proof. unfold last_or. rewrite last_cons. by destruct (last l). Qed.

Lemma last_in (l : list Z) x : last l = Some x -> x ∈ l.
Proof. intros (l' & ->)%last_Some. set_solver. Qed.

Lemma head_in (l : list Z) x : head l = Some x -> x ∈ l.
Proof. destruct l; [done|]. intros [= ->]. set_solver. Qed.

Lemma dl_app nx pv l1 : forall pr l2 e, dl nx pv pr (l1 ++ l2) e <-> dl nx pv pr l1 (hd_or l2 e) /\ dl nx pv (last_or l1 pr) l2 e.
Proof.
  induction l1 as [|x l1 IH]; intros pr l2 e; cbn [app dl]; [unfold last_or; cbn; tauto|].
  rewrite IH, last_or_step. destruct l1 as [|y l1]; cbn [app head]; unfold hd_or; tauto.
Qed.

(** New links at the two ends. *)
Lemma dl_ends nx pv nx' pv' pr' e' l : forall pr e, NoDup l -> dl nx pv pr l e ->
  (forall y, y ∈ l -> nx' y = if bool_decide (last l = Some y) then e' else nx y) ->
  (forall y, y ∈ l -> pv' y = if bool_decide (head l = Some y) then pr' else pv y) ->
  dl nx' pv' pr' l e'.
Proof.
  revert pr'. induction l as [|x l IH]; intros pr' pr e Hnd Hdl Hnx Hpv; [done|]. apply NoDup_cons in Hnd as [Hx Hnd].
  destruct Hdl as (H1 & H2 & H3). cbn [dl]. split; [|split].
  - rewrite Hpv by set_solver. by rewrite bool_decide_eq_true_2.
  - rewrite Hnx by set_solver. rewrite last_cons. destruct l as [|y l]; [by rewrite bool_decide_eq_true_2|]. cbn [head].
    rewrite last_cons. rewrite bool_decide_eq_false_2; [done|]. intros E. apply Hx. destruct (last l) eqn:El; simplify_eq.
    + apply last_in in El. set_solver.
    + set_solver.
  - apply (IH (Some x) (Some x) e); [done|done| |].
    + intros y Hy. rewrite Hnx by set_solver. rewrite last_cons. destruct l as [|z l]; [set_solver|].
      rewrite last_cons. by destruct (last l).
    + intros y Hy. rewrite Hpv by set_solver. cbn [head]. rewrite bool_decide_eq_false_2 by (intros [= ->]; done).
      case_bool_decide as E; [|done]. destruct l as [|z l]; [done|]. cbn in E. injection E as ->. by destruct H3 as (-> & _).
Qed.

Lemma dl_same nx pv nx' pv' pr l e :
  dl nx pv pr l e -> (forall y, y ∈ l -> nx' y = nx y /\ pv' y = pv y) -> dl nx' pv' pr l e.
Proof.
  revert pr. induction l as [|x l IH]; intros pr Hdl Hs; [done|]. destruct Hdl as (H1 & H2 & H3). cbn [dl].
  destruct (Hs x) as [-> ->]; [set_solver|]. repeat split; [done|done|]. apply IH; [done|]. intros y Hy. apply Hs. set_solver.
Qed.

(** Rings: the last element is before the first. *)
Definition ring (nx pv : Z -> option Z) (l : list Z) : Prop := dl nx pv (last l) l (head l).

Lemma ring_rotate nx pv l1 l2 : ring nx pv (l1 ++ l2) -> ring nx pv (l2 ++ l1).
Proof.
  destruct l1 as [|x l1]; [by rewrite app_nil_r|]. destruct l2 as [|y l2]; [by rewrite app_nil_r|].
  unfold ring. rewrite !dl_app, !last_app_cons. cbn [app head]. unfold hd_or, last_or. cbn [head].
  rewrite !last_cons. destruct (last l1), (last l2); tauto.
Qed.

(** Taking [x] out of a ring and putting it in. *)
Lemma ring_remove nx pv nx' pv' x r : NoDup (x :: r) -> ring nx pv (x :: r) ->
  (forall y, y ∈ r -> nx' y = if bool_decide (pv x = Some y) then nx x else nx y) ->
  (forall y, y ∈ r -> pv' y = if bool_decide (nx x = Some y) then pv x else pv y) ->
  ring nx' pv' r.
Proof.
  intros [Hx Hnd]%NoDup_cons (H1 & H2 & H3) Hnx Hpv. destruct r as [|y r]; [done|]. cbn [head] in *.
  assert (E : last (x :: y :: r) = last (y :: r)) by (by rewrite (last_cons x), last_cons; destruct (last r)).
  rewrite E in H1. eapply dl_ends; [done|exact H3| |].
  - intros z Hz. rewrite Hnx, H1, H2 by done. done.
  - intros z Hz. rewrite Hpv, H1, H2 by done. done.
Qed.

Lemma ring_insert nx pv nx' pv' x r h t : NoDup r -> x ∉ r -> ring nx pv r -> head r = Some h -> last r = Some t ->
  nx' x = Some h -> pv' x = Some t ->
  (forall y, y ∈ r -> nx' y = if bool_decide (y = t) then Some x else nx y) ->
  (forall y, y ∈ r -> pv' y = if bool_decide (y = h) then Some x else pv y) ->
  ring nx' pv' (r ++ [x]).
Proof.
  intros Hnd Hx Hr Hh Ht Hnx Hpv Hnx' Hpv'. unfold ring in *. rewrite last_snoc, dl_app. rewrite Ht, Hh in Hr.
  assert (Hhd : head (r ++ [x]) = Some h) by (destruct r; [done|exact Hh]). rewrite Hhd. unfold hd_or. cbn [head].
  unfold last_or. rewrite Ht. split; [|by repeat split].
  eapply dl_ends; [done|exact Hr| |].
  - intros y Hy. rewrite Hnx', Ht by done. repeat case_bool_decide; simplify_eq; done.
  - intros y Hy. rewrite Hpv', Hh by done. repeat case_bool_decide; simplify_eq; done.
Qed.

(** Taking [x] out of a queue and putting it at the front. *)
Lemma queue_remove nx pv nx' pv' l1 x l2 : NoDup (l1 ++ x :: l2) -> dl nx pv None (l1 ++ x :: l2) None ->
  (forall y, y ∈ l1 ++ l2 -> nx' y = if bool_decide (pv x = Some y) then nx x else nx y) ->
  (forall y, y ∈ l1 ++ l2 -> pv' y = if bool_decide (nx x = Some y) then pv x else pv y) ->
  dl nx' pv' None (l1 ++ l2) None /\ pv x = last l1 /\ nx x = head l2.
Proof.
  intros Hnd Hdl Hnx Hpv. apply NoDup_app in Hnd as (Hnd1 & Hdis & [Hx Hnd2]%NoDup_cons).
  rewrite dl_app in Hdl. destruct Hdl as [Hd1 (Hp & Hn & Hd2)]. unfold hd_or in Hd1. cbn [head] in Hd1.
  assert (Ep : pv x = last l1) by (rewrite Hp; unfold last_or; by destruct (last l1)).
  assert (En : nx x = head l2) by (rewrite Hn; by destruct (head l2)).
  split; [|done]. rewrite dl_app. split.
  - eapply dl_ends; [done|exact Hd1| |].
    + intros y Hy. rewrite Hnx, Ep, En by set_solver. case_bool_decide; [|done]. unfold hd_or. by destruct (head l2).
    + intros y Hy. rewrite Hpv, En by set_solver. rewrite bool_decide_eq_false_2.
      2:{ intros E%head_in. apply (Hdis y Hy). set_solver. }
      case_bool_decide as E; [|done]. destruct l1 as [|z l1]; [done|]. injection E as ->. by destruct Hd1.
  - eapply dl_ends; [done|exact Hd2| |].
    + intros y Hy. rewrite Hnx, Ep by set_solver. rewrite bool_decide_eq_false_2.
      2:{ intros E%last_in. apply (Hdis y E). set_solver. }
      case_bool_decide as E; [|done]. apply last_Some in E as (l' & ->). apply dl_app in Hd2 as [_ (_ & E & _)]. exact E.
    + intros y Hy. rewrite Hpv, En, Ep by set_solver. case_bool_decide; [|done]. unfold last_or. by destruct (last l1).
Qed.

(** ** Reading and writing heads *)

Definition upd_buf (x : Z) (f : buffer_head -> buffer_head) (s : bst) : bst := set_bufs (alter f (Z.to_nat x) (bufs s)) s.
Definition valid (s : bst) (x : Z) : Prop := 0 <= x < Z.of_nat (length (bufs s)).

Lemma valid_buf s x : valid s x -> exists b, aget (bufs s) x = Some b.
Proof. apply aget_in_range. Qed.

Lemma aget_upd_buf s x f y : 0 <= x ->
  aget (bufs (upd_buf x f s)) y = if decide (y = x) then f <$> aget (bufs s) y else aget (bufs s) y.
Proof.
  intros Hx. cbn. unfold aget. destruct (Z.ltb_spec y 0); [by case_decide|].
  rewrite list_lookup_alter. repeat case_decide; first [congruence|lia].
Qed.

Lemma bh_at_run s x b : aget (bufs s) x = Some b -> bh_at x s = Ok b s.
Proof. intros Hx. unfold bh_at, getS, mbind, M_bind. by rewrite Hx. Qed.

Lemma bh_upd_run s x f : valid s x -> bh_upd x f s = Ok tt (upd_buf x f s).
Proof.
  intros Hx. destruct (valid_buf s x Hx) as [b Hb]. unfold bh_upd, getS, mbind, M_bind. rewrite Hb. cbn.
  rewrite aset_in_range by exact Hx. cbn. unfold modify, upd_buf. f_equal. f_equal.
  unfold aget in Hb. destruct (x <? 0); [done|]. rewrite list_insert_alter.
  apply list_eq. intros i. rewrite !list_lookup_alter. case_decide as E; [|done]. subst i. by rewrite Hb.
Qed.

Lemma ptr_upd_run s x f : valid s x -> ptr_upd (Some x) f s = Ok tt (upd_buf x f s).
Proof. apply bh_upd_run. Qed.

(** A link of a head. *)
Definition fld (g : buffer_head -> option Z) (s : bst) (y : Z) : option Z := aget (bufs s) y ≫= g.
Notation nf := (fld b_next_free).
Notation pf := (fld b_prev_free).
Notation nx := (fld b_next).
Notation pv := (fld b_prev).

Lemma fld_upd g s x f y : 0 <= x ->
  fld g (upd_buf x f s) y = if decide (y = x) then aget (bufs s) y ≫= (fun b => g (f b)) else fld g s y.
Proof. intros Hx. unfold fld. rewrite aget_upd_buf by done. case_decide; [|done]. by destruct (aget (bufs s) y). Qed.

Lemma valid_upd s x f y : valid (upd_buf x f s) y <-> valid s y.
Proof. unfold valid, upd_buf. cbn. by rewrite length_alter. Qed.

(** What a change of the free list links, or of the hash links, leaves alone. *)
Definition no_free (b : buffer_head) : buffer_head := set_b_next_free None (set_b_prev_free None b).
Definition no_hash (b : buffer_head) : buffer_head := set_b_next None (set_b_prev None b).

Record same_but (v : buffer_head -> buffer_head) (s s' : bst) : Prop := {
  sb_bufs : v <$> bufs s' = v <$> bufs s;
  sb_nr : NR_BUFFERS s' = NR_BUFFERS s;
  sb_data : bdata s' = bdata s;
  sb_mem : bmem s' = bmem s;
  sb_reqs : requests s' = requests s;
  sb_cur : current_request s' = current_request s
}.

Lemma same_but_refl v s : same_but v s s.
Proof. by split. Qed.
Lemma same_but_trans v s1 s2 s3 : same_but v s1 s2 -> same_but v s2 s3 -> same_but v s1 s3.
Proof. intros [] []. split; congruence. Qed.

Lemma same_but_upd v s x f : (forall b, v (f b) = v b) -> same_but v s (upd_buf x f s).
Proof.
  intros Hf. split; try done. cbn. apply list_eq. intros i. rewrite !list_lookup_fmap, list_lookup_alter.
  case_decide; [|done]. subst. destruct (bufs s !! Z.to_nat x); cbn; [by rewrite Hf|done].
Qed.

Lemma same_but_aget v s s' y : same_but v s s' -> v <$> aget (bufs s') y = v <$> aget (bufs s) y.
Proof.
  intros [H _ _ _ _ _]. unfold aget. destruct (y <? 0); [done|]. by rewrite <-!list_lookup_fmap, H.
Qed.

Lemma same_but_length v s s' : same_but v s s' -> length (bufs s') = length (bufs s).
Proof. intros [H _ _ _ _ _]. apply (f_equal length) in H. by rewrite !length_fmap in H. Qed.

Lemma same_but_valid v s s' y : same_but v s s' -> valid s' y <-> valid s y.
Proof. intros H. unfold valid. by rewrite (same_but_length v s s' H). Qed.

(** ** The ring *)

(** The ring of all heads, from [free_list] on. *)
Definition free_ring (s : bst) (l : list Z) : Prop := l ≡ₚ range 0 (length (bufs s)) /\ free_list s = head l /\ ring (nf s) (pf s) l.

Lemma ring_ends n p x r : ring n p (x :: r) -> r <> [] -> p x = last r /\ n x = head r.
Proof.
  intros (H1 & H2 & _) Hr. destruct r as [|y r]; [done|]. cbn [head] in *. split; [|done].
  rewrite H1, (last_cons x), last_cons. by destruct (last r).
Qed.

Lemma remove_from_free_list_run s x r :
  NoDup (x :: r) -> (forall y, y ∈ x :: r -> valid s y) -> r <> [] -> ring (nf s) (pf s) (x :: r) ->
  exists s', remove_from_free_list x s = Ok tt s' /\ ring (nf s') (pf s') r /\ same_but no_free s s' /\
    hash_table s' = hash_table s /\ free_list s' = if decide (free_list s = Some x) then head r else free_list s.
Proof.
  intros Hnd Hval Hr Hring. destruct (ring_ends _ _ x r Hring Hr) as [Hp Hn].
  destruct r as [|h r0] eqn:Er; [done|]. rewrite <-Er in *. assert (Hh : head r = Some h) by (by rewrite Er).
  assert (exists t, last r = Some t) as [t Ht] by (rewrite Er, last_cons; destruct (last r0); eauto).
  apply NoDup_cons in Hnd as [Hx Hnd]. pose proof (head_in _ _ Hh) as Hhr. pose proof (last_in _ _ Ht) as Htr.
  assert (Hvx : valid s x) by (apply Hval; set_solver). assert (Hvh : valid s h) by (apply Hval; set_solver).
  assert (Hvt : valid s t) by (apply Hval; set_solver). assert (h <> x) by (intros ->; done). assert (t <> x) by (intros ->; done).
  destruct (valid_buf s x Hvx) as [b Hb].
  assert (Hbp : b_prev_free b = Some t) by (unfold fld in Hp; rewrite Hb, Ht in Hp; exact Hp).
  assert (Hbn : b_next_free b = Some h) by (unfold fld in Hn; rewrite Hb, Hh in Hn; exact Hn).
  set (s1 := upd_buf t (set_b_next_free (Some h)) s). set (s2 := upd_buf h (set_b_prev_free (Some t)) s1).
  set (s3 := if bool_decide (free_list s2 = Some x) then set_free_list (Some h) s2 else s2).
  assert (Hb3 : bufs s3 = bufs s2) by (unfold s3; by case_bool_decide).
  assert (Hs1 : aget (bufs s1) x = Some b) by (unfold s1; rewrite aget_upd_buf by (unfold valid in *; lia); by rewrite decide_False).
  assert (Hs2 : aget (bufs s2) x = Some b) by (unfold s2; rewrite aget_upd_buf by (unfold valid in *; lia); by rewrite decide_False).
  assert (Hrun : remove_from_free_list x s = Ok tt (upd_buf x no_free s3)).
  { unfold remove_from_free_list. rewrite (run_bind _ _ _ _ _ (bh_at_run s x b Hb)). rewrite Hbp, Hbn. rewrite !bool_decide_eq_false_2 by done. cbn [orb].
    rewrite (run_bind _ _ _ _ _ (ptr_upd_run s t _ Hvt)). fold s1. rewrite (run_bind _ _ _ _ _ (bh_at_run s1 x b Hs1)). rewrite Hbn, Hbp.
    rewrite (run_bind _ _ _ _ _ (ptr_upd_run s1 h _ (proj2 (valid_upd s t _ h) Hvh))). fold s2.
    rewrite (run_bind _ _ _ _ _ (bh_at_run s2 x b Hs2)). rewrite Hbn. rewrite (run_bind _ _ _ tt s3) by done.
    apply bh_upd_run. unfold valid. rewrite Hb3. change (valid s2 x). unfold s2, s1. by rewrite !valid_upd. }
  assert (Hfld : forall g y, y <> x -> fld g (upd_buf x no_free s3) y = fld g s2 y).
  { intros g y Hy. rewrite fld_upd by (unfold valid in *; lia). rewrite decide_False by done. unfold fld. by rewrite Hb3. }
  exists (upd_buf x no_free s3). split; [exact Hrun|]. split; [|split; [|split]].
  - apply (ring_remove (nf s) (pf s) _ _ x r); [by apply NoDup_cons|done| |]; intros y Hy;
      (assert (y <> x) by (intros ->; done)); rewrite Hfld by done; unfold s2, s1; rewrite Hp, Hn, Ht, Hh;
      destruct (valid_buf s y (Hval y ltac:(set_solver))) as [by_ Eby]; unfold fld;
      rewrite !aget_upd_buf by (unfold valid in *; lia); rewrite Eby; cbn;
      repeat (case_decide || case_bool_decide); simplify_eq/=; done.
  - apply (same_but_trans _ s s1); [by apply same_but_upd|]. apply (same_but_trans _ s1 s2); [by apply same_but_upd|].
    apply (same_but_trans _ s2 s3); [unfold s3; case_bool_decide; [by split|apply same_but_refl]|by apply same_but_upd].
  - unfold s3. by case_bool_decide.
  - unfold s3. cbn. rewrite Hh. change (free_list s2) with (free_list s). case_bool_decide; case_decide; done.
Qed.

Lemma link_before_head_run s x r :
  NoDup r -> x ∉ r -> (forall y, y ∈ x :: r -> valid s y) -> r <> [] -> ring (nf s) (pf s) r -> free_list s = head r ->
  exists s', link_before_head x s = Ok tt s' /\ ring (nf s') (pf s') (r ++ [x]) /\ same_but no_free s s' /\
    hash_table s' = hash_table s /\ free_list s' = free_list s.
Proof.
  intros Hnd Hx Hval Hr Hring Hf. destruct r as [|h r0] eqn:Er; [done|]. rewrite <-Er in *.
  assert (Hh : head r = Some h) by (by rewrite Er). rewrite Hh in Hf.
  assert (exists t, last r = Some t) as [t Ht] by (rewrite Er, last_cons; destruct (last r0); eauto).
  pose proof (head_in _ _ Hh) as Hhr. pose proof (last_in _ _ Ht) as Htr.
  assert (Hvx : valid s x) by (apply Hval; set_solver). assert (Hvh : valid s h) by (apply Hval; set_solver).
  assert (Hvt : valid s t) by (apply Hval; set_solver). assert (h <> x) by (intros ->; done). assert (t <> x) by (intros ->; done).
  destruct (valid_buf s h Hvh) as [b Hb].
  assert (Hp : pf s h = Some t) by (unfold ring in Hring; rewrite Er in Hring; destruct Hring as [E _]; rewrite E, <-Er; exact Ht).
  assert (Hbp : b_prev_free b = Some t) by (unfold fld in Hp; by rewrite Hb in Hp).
  set (s1 := upd_buf x (set_b_next_free (Some h)) s). set (s2 := upd_buf x (set_b_prev_free (Some t)) s1).
  set (s3 := upd_buf t (set_b_next_free (Some x)) s2). set (s4 := upd_buf h (set_b_prev_free (Some x)) s3).
  assert (Hs1 : aget (bufs s1) h = Some b) by (unfold s1; rewrite aget_upd_buf by (unfold valid in *; lia); by rewrite decide_False).
  assert (Hs2 : aget (bufs s2) h = Some b) by (unfold s2; rewrite aget_upd_buf by (unfold valid in *; lia); by rewrite decide_False).
  exists s4. split; [|split; [|split; [|done]]].
  - unfold link_before_head. rewrite (run_bind _ _ s (Some h) s) by (unfold gets; by rewrite Hf).
    rewrite (run_bind _ _ _ _ _ (bh_upd_run s x _ Hvx)). fold s1.
    rewrite (run_bind (ptr_at (Some h)) _ s1 b s1) by (by apply bh_at_run). rewrite Hbp.
    rewrite (run_bind _ _ _ _ _ (bh_upd_run s1 x _ (proj2 (valid_upd s x _ x) Hvx))). fold s2.
    rewrite (run_bind (ptr_at (Some h)) _ s2 b s2) by (by apply bh_at_run). rewrite Hbp.
    rewrite (run_bind (ptr_upd (Some t) _) _ s2 tt s3) by (apply ptr_upd_run; unfold s2, s1; by rewrite !valid_upd).
    apply ptr_upd_run. unfold s3, s2, s1. by rewrite !valid_upd.
  - assert (Hne : forall y, y ∈ r -> y <> x) by (intros y Hy ->; done).
    assert (Hx0 : 0 <= x) by (unfold valid in *; lia). assert (Ht0 : 0 <= t) by (unfold valid in *; lia). assert (Hh0 : 0 <= h) by (unfold valid in *; lia).
    destruct (valid_buf s x Hvx) as [bx Hbx].
    apply (ring_insert (nf s) (pf s) _ _ x r h t); [done|done|done|done|done|..]; try (intros y Hy; pose proof (Hne y Hy);
      destruct (valid_buf s y (Hval y ltac:(set_solver))) as [by_ Eby]);
      unfold fld, s4, s3, s2, s1; rewrite !aget_upd_buf by done; rewrite ?Hbx, ?Eby; cbn;
      repeat (case_decide || case_bool_decide); simplify_eq/=; done.
  - apply (same_but_trans _ s s1); [by apply same_but_upd|]. apply (same_but_trans _ s1 s2); [by apply same_but_upd|].
    apply (same_but_trans _ s2 s3); by apply same_but_upd.
Qed.

Lemma perm_range_valid l n y : l ≡ₚ range 0 n -> y ∈ l -> 0 <= y < Z.of_nat n.
Proof. intros Hp Hy. rewrite Hp in Hy. apply elem_of_range in Hy. lia. Qed.

Lemma perm_range_NoDup l n : l ≡ₚ range 0 n -> NoDup l.
Proof. intros ->. apply NoDup_range. Qed.

(** [x] moves to the end of the ring. *)
Definition others (x : Z) (l : list Z) : list Z := filter (fun y : Z => y <> x) l.
Definition to_back (x : Z) (l : list Z) : list Z := others x l ++ [x].

Lemma others_id x l : x ∉ l -> others x l = l.
Proof.
  unfold others. induction l as [|y l IH]; intros Hx; [done|]. rewrite filter_cons_True by (intros ->; set_solver).
  f_equal. apply IH. set_solver.
Qed.

Lemma others_split l1 x l2 : NoDup (l1 ++ x :: l2) -> others x (l1 ++ x :: l2) = l1 ++ l2.
Proof.
  intros (_ & Hd & [Hx Hn]%NoDup_cons)%NoDup_app. unfold others. rewrite filter_app, filter_cons_False by (intros E; by apply E).
  fold (others x l1) (others x l2). rewrite !others_id; [done|done|]. intros H1. apply (Hd x H1). set_solver.
Qed.

Lemma to_back_perm x l : NoDup l -> x ∈ l -> to_back x l ≡ₚ l.
Proof.
  intros Hnd (l1 & l2 & ->)%list_elem_of_split. unfold to_back. rewrite others_split by done.
  rewrite <-Permutation_cons_append. apply Permutation_middle.
Qed.

(** The ring is taken apart at [x] and put together again. *)
Lemma free_ring_remove s l x :
  free_ring s l -> x ∈ l -> (1 < length l)%nat ->
  exists s', remove_from_free_list x s = Ok tt s' /\ ring (nf s') (pf s') (others x l) /\ same_but no_free s s' /\
    hash_table s' = hash_table s /\ free_list s' = head (others x l).
Proof.
  intros (Hperm & Hfree & Hring) Hx Hlen. pose proof (perm_range_NoDup _ _ Hperm) as Hnd.
  apply list_elem_of_split in Hx as (l1 & l2 & ->). rewrite others_split by done.
  assert (Hp : x :: l2 ++ l1 ≡ₚ l1 ++ x :: l2) by (rewrite (Permutation_app_comm l1); done).
  apply ring_rotate in Hring. cbn [app] in Hring.
  destruct (remove_from_free_list_run s x (l2 ++ l1)) as (s' & Hrun & Hr & Hsb & Hh & Hf).
  - by rewrite Hp.
  - intros y Hy. rewrite Hp in Hy. by apply (perm_range_valid _ _ y Hperm).
  - intros E. apply (f_equal length) in E. rewrite length_app in E, Hlen. cbn in E, Hlen. lia.
  - done.
  - exists s'. split; [done|]. split; [by apply ring_rotate|]. split; [done|]. split; [done|]. rewrite Hf, Hfree.
    destruct l1 as [|y l1]; cbn [app head] in *; [by rewrite app_nil_r, decide_True|].
    rewrite decide_False; [done|]. intros [= ->]. apply NoDup_cons in Hnd as [Hy _]. set_solver.
Qed.

Lemma free_ring_insert s l x n :
  length (bufs s) = n -> l ++ [x] ≡ₚ range 0 n -> l <> [] -> ring (nf s) (pf s) l -> free_list s = head l ->
  exists s', link_before_head x s = Ok tt s' /\ free_ring s' (l ++ [x]) /\ same_but no_free s s' /\ hash_table s' = hash_table s.
Proof.
  intros Hn Hperm Hl Hring Hf. pose proof (perm_range_NoDup _ _ Hperm) as (Hnd & Hx & _)%NoDup_app.
  destruct (link_before_head_run s x l) as (s' & Hrun & Hr & Hsb & Hh & Hf'); [done| | |done|done|done|].
  - intros Hin. apply (Hx x Hin). set_solver.
  - intros y Hy. unfold valid. rewrite Hn. apply (perm_range_valid _ _ y Hperm). set_solver.
  - exists s'. split; [done|]. split; [|done]. split; [by rewrite (same_but_length _ _ _ Hsb), Hn|].
    rewrite Hf', Hf. split; [by destruct l|done].
Qed.

(** [put_last_free] makes the buffer the most recently used one. *)
Lemma put_last_free_run s l x : free_ring s l -> x ∈ l -> (1 < length l)%nat ->
  exists s', put_last_free (Some x) s = Ok tt s' /\ free_ring s' (to_back x l) /\ same_but no_free s s' /\ hash_table s' = hash_table s.
Proof.
  intros Hfr Hx Hlen. pose proof Hfr as (Hperm & Hfree & Hring). pose proof (perm_range_NoDup _ _ Hperm) as Hnd.
  unfold put_last_free. rewrite (run_bind _ _ s (free_list s) s) by done. case_bool_decide as E.
  - rewrite Hfree in E. destruct l as [|y l]; [done|]. injection E as ->.
    assert (Hvx : valid s x) by (by apply (perm_range_valid _ _ x Hperm)). destruct (valid_buf s x Hvx) as [b Hb].
    apply NoDup_cons in Hnd as [Hxl _]. unfold to_back, others. rewrite filter_cons_False by (intros E; by apply E).
    fold (others x l). rewrite others_id by done. destruct l as [|z l]; [cbn in Hlen; lia|].
    destruct (ring_ends _ _ _ _ Hring) as [_ Hn]; [done|]. unfold fld in Hn. rewrite Hb in Hn. cbn in Hn.
    rewrite (run_bind _ _ _ _ _ (bh_at_run s x b Hb)). rewrite Hn. eexists. split; [done|]. split; [|by split].
    split; [|split; [done|]]; [|by apply (ring_rotate _ _ [x])]. rewrite <-Permutation_cons_append. done.
  - destruct (free_ring_remove s l x Hfr Hx Hlen) as (s1 & Hrun & Hr1 & Hsb & Hh & Hf).
    rewrite (run_bind _ _ _ _ _ Hrun). destruct (free_ring_insert s1 (others x l) x (length (bufs s))) as (s' & Hrun' & Hfr' & Hsb' & Hh').
    + by apply same_but_length in Hsb.
    + fold (to_back x l). by rewrite to_back_perm.
    + intros E'. pose proof (to_back_perm x l Hnd Hx) as Hp%Permutation_length. unfold to_back in Hp. rewrite E' in Hp. cbn in Hp. lia.
    + done.
    + done.
    + exists s'. split; [done|]. split; [done|]. split; [by eapply same_but_trans|congruence].
Qed.

(** ** Hash queues *)

(** The heads [P] holds of are on the queues [q]. *)
Definition hashed (s : bst) (x h : Z) : Prop :=
  exists b, aget (bufs s) x = Some b /\ b_dev b <> 0 /\ _hashfn (b_dev b) (b_blocknr b) = h.

Definition queues (s : bst) (q : Z -> list Z) (P : Z -> Prop) : Prop :=
  Z.of_nat (length (hash_table s)) = NR_HASH /\
  forall h, 0 <= h < NR_HASH -> aget (hash_table s) h = Some (head (q h)) /\ dl (nx s) (pv s) None (q h) None /\
    NoDup (q h) /\ forall x, x ∈ q h <-> P x /\ hashed s x h.

Lemma hashfn_range dev block : 0 <= _hashfn dev block < NR_HASH.
Proof. unfold _hashfn. apply Z.mod_pos_bound. done. Qed.

(** The block number of a head is unsigned. *)
Lemma hashfn_u32 dev block : _hashfn dev (u32 block) = _hashfn dev block.
Proof.
  unfold _hashfn. f_equal. unfold u32. rewrite <-!Z.land_ones by lia. apply Z.bits_inj'. intros n Hn.
  rewrite !Z.land_spec, !Z.lxor_spec, Z.land_spec. by destruct (Z.testbit (Z.ones 32) n); rewrite ?andb_true_r, ?andb_false_r.
Qed.

Lemma hash_run s q P dev block : queues s q P -> hash dev block s = Ok (head (q (_hashfn dev block))) s.
Proof.
  intros [_ Hq]. destruct (Hq (_hashfn dev block) (hashfn_range dev block)) as [Hh _].
  unfold hash, getS, mbind, M_bind. by rewrite Hh.
Qed.

Lemma set_hash_run s q P dev block p : queues s q P ->
  set_hash dev block p s = Ok tt (set_hash_table (<[Z.to_nat (_hashfn dev block) := p]> (hash_table s)) s).
Proof.
  intros [Hl _]. pose proof (hashfn_range dev block). unfold set_hash, getS, mbind, M_bind. cbn.
  rewrite aset_in_range by lia. done.
Qed.

(** What a change of other fields keeps. *)
Lemma same_but_fld v g s s' y : same_but v s s' -> (forall b, g (v b) = g b) -> fld g s' y = fld g s y.
Proof.
  intros Hs Hg. apply (same_but_aget v s s' y) in Hs. unfold fld.
  destruct (aget (bufs s') y) as [b'|], (aget (bufs s) y) as [b|]; try done. injection Hs as E. cbn. by rewrite <-(Hg b'), E, Hg.
Qed.

Lemma same_but_buf {A} v (g : buffer_head -> A) s s' y b' :
  same_but v s s' -> (forall b, g (v b) = g b) -> aget (bufs s') y = Some b' -> exists b, aget (bufs s) y = Some b /\ g b = g b'.
Proof.
  intros Hs Hg Hb'. apply (same_but_aget v s s' y) in Hs. rewrite Hb' in Hs. destruct (aget (bufs s) y) as [b|]; [|done].
  injection Hs as E. exists b. by rewrite <-(Hg b'), E, Hg.
Qed.

Lemma same_but_sym v s s' : same_but v s s' -> same_but v s' s.
Proof. intros []. by split. Qed.

Definition ident (b : buffer_head) : Z * Z := (b_dev b, b_blocknr b).

Lemma same_but_hashed v s s' x h : same_but v s s' -> (forall b, ident (v b) = ident b) -> hashed s' x h <-> hashed s x h.
Proof.
  intros Hs Hg. split; intros (b & Hb & Hd & Hh).
  - destruct (same_but_buf v ident s s' x b Hs Hg Hb) as (b0 & Hb0 & [= E1 E2]). exists b0. by rewrite E1, E2.
  - destruct (same_but_buf v ident s' s x b (same_but_sym _ _ _ Hs) Hg Hb) as (b0 & Hb0 & [= E1 E2]). exists b0. by rewrite E1, E2.
Qed.

Lemma queues_same s s' q P : same_but no_free s s' -> hash_table s' = hash_table s -> queues s q P -> queues s' q P.
Proof.
  intros Hs Hh [Hl Hq]. unfold queues. rewrite Hh. split; [done|]. intros h Hr. destruct (Hq h Hr) as (H1 & H2 & H3 & H4).
  split; [done|]. split; [|split; [done|]].
  - eapply dl_same; [exact H2|]. intros y _. split; by apply (same_but_fld no_free).
  - intros x. rewrite H4. by rewrite (same_but_hashed no_free s s' x h Hs).
Qed.

Lemma free_ring_same s s' l : same_but no_hash s s' -> free_list s' = free_list s -> free_ring s l -> free_ring s' l.
Proof.
  intros Hs Hf (H1 & H2 & H3). split; [by rewrite (same_but_length _ _ _ Hs)|]. split; [congruence|].
  eapply dl_same; [exact H3|]. intros y _. split; by apply (same_but_fld no_hash).
Qed.

(** [find_buffer] finds the buffer of a block if there is one. *)
Definition is_for (s : bst) (dev block x : Z) : Prop := exists b, aget (bufs s) x = Some b /\ b_dev b = dev /\ b_blocknr b = u32 block.

Lemma find_step_run s dev block x b : aget (bufs s) x = Some b ->
  find_step dev block (Some x) s = Ok (if (b_dev b =? dev) && (b_blocknr b =? u32 block) then inr (Some x) else inl (b_next b)) s.
Proof. intros Hb. unfold find_step. rewrite (run_bind _ _ _ _ _ (bh_at_run s x b Hb)). by destruct (_ && _). Qed.

Lemma find_run s dev block l : forall pr n, dl (nx s) (pv s) pr l None -> (forall x, x ∈ l -> valid s x) -> (length l < n)%nat ->
  exists r, iter n (find_step dev block) (head l) s = Ok r s /\
    match r with Some x => x ∈ l /\ is_for s dev block x | None => forall x, x ∈ l -> ~ is_for s dev block x end.
Proof.
  induction l as [|x l IH]; intros pr n Hdl Hval Hn; (destruct n as [|n]; [cbn in Hn; lia|]); cbn [iter head].
  - exists None. split; [done|set_solver].
  - destruct (valid_buf s x (Hval x ltac:(set_solver))) as [b Hb]. destruct Hdl as (_ & Hnx & Hdl).
    rewrite (run_bind _ _ _ _ _ (find_step_run s dev block x b Hb)).
    destruct (Z.eqb_spec (b_dev b) dev) as [Ed|Ed], (Z.eqb_spec (b_blocknr b) (u32 block)) as [Eb|Eb]; cbn [andb].
    1: { exists (Some x). split; [done|]. split; [set_solver|]. by exists b. }
    all: unfold fld in Hnx; rewrite Hb in Hnx; cbn in Hnx; rewrite Hnx;
      destruct (IH (Some x) n Hdl) as (r & Hr & Hs); [set_solver|cbn in Hn; lia|]; exists r;
      (split; [by destruct l|]); (destruct r as [y|]; [set_solver|]); intros y [->|Hy]%elem_of_cons; [|by apply Hs];
      intros (b' & Hb' & ? & ?); congruence.
Qed.

Lemma hash_queue_length s q h P : queues s q P -> 0 <= h < NR_HASH -> (length (q h) <= length (bufs s))%nat.
Proof.
  intros [_ Hq] Hr. destruct (Hq h Hr) as (_ & _ & Hnd & Hin). rewrite <-(length_range 0 (length (bufs s))).
  apply submseteq_length, NoDup_submseteq; [done|]. intros x [_ (b & Hb & _)]%Hin. apply aget_Some_range in Hb. apply elem_of_range. lia.
Qed.

Lemma find_buffer_run s q dev block : queues s q (fun _ => True) -> dev <> 0 -> in_u16 dev ->
  (forall x b, aget (bufs s) x = Some b -> in_u16 (b_dev b) /\ in_u32 (b_blocknr b)) ->
  exists r, find_buffer dev block s = Ok r s /\
    match r with Some x => is_for s dev block x | None => forall x, ~ is_for s dev block x end.
Proof.
  intros Hq Hd Hu Hty. pose proof (hashfn_range dev block) as Hr. pose proof (hash_queue_length s q _ _ Hq Hr) as Hlen.
  unfold find_buffer. rewrite (run_bind _ _ _ _ _ (hash_run s q _ dev block Hq)). rewrite (run_bind _ _ s (length (bufs s)) s) by done.
  destruct Hq as [_ Hq]. destruct (Hq _ Hr) as (_ & Hdl & _ & Hin).
  destruct (find_run s dev block (q (_hashfn dev block)) None (S (S (length (bufs s)))) Hdl) as (r & Hrun & Hs).
  - intros x [_ (b & Hb & _)]%Hin. by apply aget_Some_range in Hb.
  - lia.
  - exists r. split; [done|]. destruct r as [x|]; [by destruct Hs|]. intros x Hx. apply (Hs x); [|done]. apply Hin. split; [done|].
    destruct Hx as (b & Hb & <- & Ebl). exists b. split; [done|]. split; [done|]. rewrite Ebl. apply hashfn_u32.
Qed.

Lemma hashed_fun s x h h' : hashed s x h -> hashed s x h' -> h = h'.
Proof. intros (b & Hb & _ & <-) (b' & Hb' & _ & <-). congruence. Qed.

(** The links of a head on a queue, or on none. *)
Lemma queue_links s q x b : queues s q (fun _ => True) -> aget (bufs s) x = Some b -> (b_dev b = 0 -> b_next b = None /\ b_prev b = None) ->
  forall y, b_next b = Some y \/ b_prev b = Some y -> y <> x /\ valid s y /\ exists h, 0 <= h < NR_HASH /\ x ∈ q h /\ y ∈ q h.
Proof.
  intros [_ Hq] Hb Hz y Hy. destruct (decide (b_dev b = 0)) as [E|Hd]; [destruct (Hz E); destruct Hy; congruence|].
  set (h := _hashfn (b_dev b) (b_blocknr b)). assert (Hh : 0 <= h < NR_HASH) by apply hashfn_range.
  destruct (Hq h Hh) as (_ & Hdl & Hnd & Hin). assert (Hx : x ∈ q h) by (apply Hin; split; [done|by exists b]).
  pose proof Hx as (l1 & l2 & E)%list_elem_of_split. rewrite E in Hdl, Hnd.
  destruct (queue_remove (nx s) (pv s) (fun z => if bool_decide (pv s x = Some z) then nx s x else nx s z)
             (fun z => if bool_decide (nx s x = Some z) then pv s x else pv s z) l1 x l2 Hnd Hdl) as (_ & Hp & Hn); [done..|].
  unfold fld in Hp, Hn. rewrite Hb in Hp, Hn. cbn in Hp, Hn.
  assert (Hyq : y ∈ l1 ++ l2).
  { destruct Hy as [Hy|Hy]; [rewrite Hn in Hy; apply head_in in Hy; set_solver|rewrite Hp in Hy; apply last_in in Hy; set_solver]. }
  assert (Hyx : y <> x).
  { intros ->. apply NoDup_app in Hnd as (_ & Hd1 & [Hd2 _]%NoDup_cons). apply elem_of_app in Hyq as [Hl|Hl]; [|done]. apply (Hd1 x Hl). set_solver. }
  assert (Hyh : y ∈ q h) by (rewrite E; set_solver). split; [done|]. split; [|by exists h].
  apply Hin in Hyh as [_ (b' & Hb' & _)]. by apply aget_Some_range in Hb'.
Qed.

(** The buffers after [x] was taken off its queue. *)
Definition unhash (x : Z) (b : buffer_head) (s : bst) : bst :=
  let s1 := match b_next b with Some n => upd_buf n (set_b_prev (b_prev b)) s | None => s end in
  match b_prev b with Some p => upd_buf p (set_b_next (b_next b)) s1 | None => s1 end.

Lemma unhash_other x b s y : (forall z, b_next b = Some z \/ b_prev b = Some z -> z <> x /\ valid s z) -> y <> x -> valid s y ->
  nx (unhash x b s) y = (if bool_decide (b_prev b = Some y) then b_next b else nx s y) /\
  pv (unhash x b s) y = (if bool_decide (b_next b = Some y) then b_prev b else pv s y).
Proof.
  intros Hl Hy Hv. destruct (valid_buf s y Hv) as [c Hc]. unfold unhash.
  destruct (b_next b) as [n|] eqn:En; destruct (b_prev b) as [p|] eqn:Ep;
    try (assert (0 <= n) by (destruct (Hl n) as [_ Hv']; [by left|]; unfold valid in Hv'; lia));
    try (assert (0 <= p) by (destruct (Hl p) as [_ Hv']; [by right|]; unfold valid in Hv'; lia));
    unfold fld; rewrite ?aget_upd_buf by done; rewrite ?Hc; cbn;
    (split; repeat (case_decide || case_bool_decide); simplify_eq/=; done).
Qed.

Lemma unhash_same x b s : same_but no_hash s (unhash x b s) /\ hash_table (unhash x b s) = hash_table s /\ free_list (unhash x b s) = free_list s.
Proof.
  unfold unhash. destruct (b_next b) as [n|], (b_prev b) as [p|]; (split; [|done]).
  - apply (same_but_trans _ s (upd_buf n (set_b_prev (Some p)) s)); by apply same_but_upd.
  - by apply same_but_upd.
  - by apply same_but_upd.
  - apply same_but_refl.
Qed.

Lemma unhash_self x b s : (forall z, b_next b = Some z \/ b_prev b = Some z -> z <> x /\ valid s z) ->
  aget (bufs (unhash x b s)) x = aget (bufs s) x.
Proof.
  intros Hl. unfold unhash. destruct (b_next b) as [n|] eqn:En; destruct (b_prev b) as [p|] eqn:Ep;
    try (destruct (Hl n) as [Hn Hvn]; [by left|]; unfold valid in Hvn); try (destruct (Hl p) as [Hp Hvp]; [by right|]; unfold valid in Hvp);
    rewrite ?aget_upd_buf by lia; rewrite ?decide_False by congruence; done.
Qed.

(** The whole of [remove_from_hash_queue]. *)
Section Removal.
Context (s : bst) (q : Z -> list Z) (x : Z) (b : buffer_head).
Context (Hq : queues s q (fun _ => True)) (Hb : aget (bufs s) x = Some b).
Context (Hz : b_dev b = 0 -> b_next b = None /\ b_prev b = None).
#[local] Notation h0 := (_hashfn (b_dev b) (b_blocknr b)).

Definition removed : bst :=
  let s2 := unhash x b s in
  upd_buf x no_hash (if bool_decide (head (q h0) = Some x) then set_hash_table (<[Z.to_nat h0 := b_next b]> (hash_table s2)) s2 else s2).

Lemma removal_links z : b_next b = Some z \/ b_prev b = Some z -> z <> x /\ valid s z.
Proof using Hq Hb Hz. intros Hl. by destruct (queue_links s q x b Hq Hb Hz z Hl) as (? & ? & _). Qed.

Lemma removal_valid : valid s x.
Proof using Hb. by apply aget_Some_range in Hb. Qed.

Lemma removed_run : remove_from_hash_queue x s = Ok tt removed.
Proof using Hq Hb Hz.
  pose proof removal_links as Hl. pose proof removal_valid as Hvx. pose proof (unhash_same x b s) as (Hsb & Hht & _). pose proof (unhash_self x b s Hl) as Hself. rewrite Hb in Hself.
  set (s1 := match b_next b with Some n => upd_buf n (set_b_prev (b_prev b)) s | None => s end).
  assert (H1 : aget (bufs s1) x = Some b).
  { unfold s1. destruct (b_next b) as [n|] eqn:En; [|done]. destruct (Hl n) as [? Hv]; [by left|]. unfold valid in Hv.
    rewrite aget_upd_buf by lia. by rewrite decide_False by congruence. }
  unfold remove_from_hash_queue. rewrite (run_bind _ _ _ _ _ (bh_at_run s x b Hb)).
  rewrite (run_bind _ _ s tt s1).
  2:{ unfold s1. destruct (b_next b) as [n|] eqn:En; [|done]. apply bh_upd_run, Hl. by left. }
  rewrite (run_bind _ _ _ _ _ (bh_at_run s1 x b H1)).
  rewrite (run_bind _ _ s1 tt (unhash x b s)).
  2:{ unfold unhash. fold s1. destruct (b_prev b) as [p|] eqn:Ep; [|done]. apply bh_upd_run. destruct (Hl p) as [_ Hv]; [by right|].
      unfold s1. destruct (b_next b); [by apply valid_upd|done]. }
  rewrite (run_bind _ _ _ _ _ (bh_at_run (unhash x b s) x b Hself)).
  pose proof Hq as [Hlen Hqs]. pose proof (hashfn_range (b_dev b) (b_blocknr b)) as Hr.
  rewrite (run_bind (hash (b_dev b) (b_blocknr b)) _ _ (head (q h0)) (unhash x b s)).
  2:{ unfold hash, getS, mbind, M_bind. rewrite Hht. by destruct (Hqs h0 Hr) as [-> _]. }
  unfold removed. erewrite run_bind; [apply bh_upd_run|].
  - case_bool_decide; change (valid (unhash x b s) x); apply (same_but_valid no_hash s _ x Hsb), Hvx.
  - case_bool_decide; [|done]. unfold set_hash, getS, mbind, M_bind. rewrite aset_in_range by (rewrite Hht; lia). done.
Qed.

Lemma removed_same : same_but no_hash s removed /\ free_list removed = free_list s.
Proof using.
  pose proof (unhash_same x b s) as (Hsb & Hht & Hfl). split; [|unfold removed; by case_bool_decide].
  apply (same_but_trans _ s _ _ Hsb). unfold removed. case_bool_decide; [|by apply same_but_upd].
  eapply same_but_trans; [|by apply same_but_upd]. by split.
Qed.

Lemma removed_links y : y <> x -> valid s y ->
  nx removed y = (if bool_decide (pv s x = Some y) then nx s x else nx s y) /\
  pv removed y = (if bool_decide (nx s x = Some y) then pv s x else pv s y).
Proof using Hq Hb Hz.
  intros Hy Hv. pose proof removal_valid as Hvx. unfold valid in Hvx. unfold removed. rewrite !fld_upd by lia. rewrite !decide_False by done.
  destruct (unhash_other x b s y removal_links Hy Hv) as [E1 E2].
  assert (Ep : pv s x = b_prev b) by (unfold fld; by rewrite Hb). assert (En : nx s x = b_next b) by (unfold fld; by rewrite Hb).
  rewrite Ep, En. unfold fld in E1, E2 |- *.
  destruct (bool_decide (head (q h0) = Some x)); cbn [set_hash_table bufs]; rewrite E1, E2; done.
Qed.

Lemma removed_hash h : 0 <= h < NR_HASH ->
  aget (hash_table removed) h = if bool_decide (h = h0 /\ head (q h0) = Some x) then Some (b_next b) else aget (hash_table s) h.
Proof using Hq.
  intros Hr. pose proof (unhash_same x b s) as (_ & Hht & _). pose proof Hq as [Hlen _]. pose proof (hashfn_range (b_dev b) (b_blocknr b)).
  unfold removed. repeat case_bool_decide; cbn; rewrite ?Hht; try tauto.
  - destruct_and!. subst. rewrite aget_insert_eq by lia. done.
  - rewrite aget_insert_ne; [done|lia|]. intros E. match goal with H : ~ _ |- _ => apply H end. by split.
Qed.

Lemma removed_queue_in : x ∈ q h0 -> head (others x (q h0)) = (if bool_decide (head (q h0) = Some x) then b_next b else head (q h0)) /\
  dl (nx removed) (pv removed) None (others x (q h0)) None.
Proof using Hq Hb Hz.
  intros Hx. pose proof Hq as [_ Hqs]. destruct (Hqs h0 (hashfn_range _ _)) as (_ & Hdl & Hnd & Hin).
  assert (Hqv : forall y, y ∈ q h0 -> valid s y) by (intros y [_ (c & Hc & _)]%Hin; by apply aget_Some_range in Hc).
  pose proof Hx as (l1 & l2 & E)%list_elem_of_split. rewrite E in Hdl, Hnd, Hqv. rewrite E, others_split by done.
  assert (Hne : forall y, y ∈ l1 ++ l2 -> y <> x).
  { intros y Hy ->. apply NoDup_app in Hnd as (_ & Hd1 & [Hd2 _]%NoDup_cons). apply elem_of_app in Hy as [Hl1|Hl1]; [|done]. apply (Hd1 x Hl1). set_solver. }
  destruct (queue_remove (nx s) (pv s) (nx removed) (pv removed) l1 x l2 Hnd Hdl) as (Hdl' & _ & Hn).
  1,2: intros y Hy; apply removed_links; [by apply Hne|apply Hqv; set_solver].
  split; [|done]. unfold fld in Hn. rewrite Hb in Hn. cbn in Hn. destruct l1 as [|z l1]; cbn [app head].
  - by rewrite bool_decide_eq_true_2.
  - rewrite bool_decide_eq_false_2; [done|]. intros [= ->]. apply (Hne x); set_solver.
Qed.

Lemma removed_queue_out h : 0 <= h < NR_HASH -> x ∉ q h -> dl (nx removed) (pv removed) None (q h) None.
Proof using Hq Hb Hz.
  intros Hr Hx. pose proof Hq as [_ Hqs]. destruct (Hqs h Hr) as (_ & Hdl & _ & Hin). eapply dl_same; [exact Hdl|].
  intros y Hy. assert (y <> x) by (intros ->; done). pose proof Hy as [_ Hh]%Hin.
  destruct (removed_links y) as [-> ->]; [done|destruct Hh as (c & Hc & _); by apply aget_Some_range in Hc|].
  assert (Hno : ~ (nx s x = Some y \/ pv s x = Some y)).
  { unfold fld. rewrite Hb. intros H1. destruct (queue_links s q x b Hq Hb Hz y H1) as (_ & _ & h' & Hr' & Hx' & Hy').
    destruct (Hqs h' Hr') as (_ & _ & _ & Hin'). apply Hin' in Hy' as [_ Hy']. rewrite (hashed_fun s y h' h Hy' Hh) in Hx'. done. }
  rewrite !bool_decide_eq_false_2 by tauto. done.
Qed.

Lemma removed_queues : queues removed (fun h => others x (q h)) (fun y => y <> x).
Proof using Hq Hb Hz.
  destruct removed_same as [Hsb _]. pose proof Hq as [Hlen Hqs]. split.
  { pose proof (unhash_same x b s) as (_ & Hht & _). unfold removed. case_bool_decide; cbn; rewrite ?length_insert, Hht; done. }
  intros h Hr. rewrite removed_hash by done. destruct (Hqs h Hr) as (Hhd & Hdl & Hnd & Hin).
  split; [|split; [|split]]; [| |by apply NoDup_filter|].
  - destruct (decide (x ∈ q h)) as [Hx|Hx].
    + assert (h = h0) as -> by (apply Hin in Hx as [_ (b' & Hb' & _ & <-)]; congruence).
      destruct (removed_queue_in Hx) as [-> _]. rewrite Hhd. repeat case_bool_decide; tauto.
    + rewrite (others_id x (q h) Hx). rewrite bool_decide_eq_false_2; [done|]. intros [-> E%head_in]. done.
  - destruct (decide (x ∈ q h)) as [Hx|Hx]; [|by rewrite (others_id x (q h) Hx); apply removed_queue_out].
    assert (h = h0) as -> by (apply Hin in Hx as [_ (b' & Hb' & _ & <-)]; congruence). by apply removed_queue_in.
  - intros y. unfold others. rewrite list_elem_of_filter, Hin, (same_but_hashed no_hash s _ y h Hsb) by done. tauto.
Qed.
End Removal.

(** The queue part of [insert_into_queues]. *)
Section Insertion.
Context (s : bst) (q : Z -> list Z) (x : Z) (b : buffer_head).
Context (Hq : queues s q (fun y => y <> x)) (Hb : aget (bufs s) x = Some b) (Hd : b_dev b <> 0).
#[local] Notation h0 := (_hashfn (b_dev b) (b_blocknr b)).

Definition inserted : bst :=
  let s1 := upd_buf x (set_b_next (head (q h0))) (upd_buf x no_hash s) in
  let s2 := set_hash_table (<[Z.to_nat h0 := Some x]> (hash_table s1)) s1 in
  match head (q h0) with Some n => upd_buf n (set_b_prev (Some x)) s2 | None => s2 end.

Lemma insertion_valid : valid s x.
Proof using Hb. by apply aget_Some_range in Hb. Qed.

Lemma insertion_queue h y : 0 <= h < NR_HASH -> y ∈ q h -> y <> x /\ valid s y /\ hashed s y h.
Proof using Hq.
  intros Hr Hy. destruct Hq as [_ Hqs]. destruct (Hqs h Hr) as (_ & _ & _ & Hin). apply Hin in Hy as [Hne Hh].
  split; [done|]. split; [|done]. destruct Hh as (c & Hc & _). by apply aget_Some_range in Hc.
Qed.

Lemma inserted_run :
  (bh_upd x (fun b => set_b_next None (set_b_prev None b));;
   b ← bh_at x;
   if b_dev b =? 0 then mret tt
   else
     h ← hash (b_dev b) (b_blocknr b);
     bh_upd x (set_b_next h);;
     set_hash (b_dev b) (b_blocknr b) (Some x);;
     match h with Some n => bh_upd n (set_b_prev (Some x)) | None => mret tt end) s = Ok tt inserted.
Proof using Hq Hb Hd.
  pose proof insertion_valid as Hv. pose proof (hashfn_range (b_dev b) (b_blocknr b)) as Hr.
  change (fun b => set_b_next None (set_b_prev None b)) with no_hash. rewrite (run_bind _ _ _ _ _ (bh_upd_run s x no_hash Hv)).
  assert (Hb1 : aget (bufs (upd_buf x no_hash s)) x = Some (no_hash b)).
  { rewrite aget_upd_buf by (unfold valid in Hv; lia). by rewrite decide_True, Hb. }
  rewrite (run_bind _ _ _ _ _ (bh_at_run _ x _ Hb1)). change (b_dev (no_hash b)) with (b_dev b). change (b_blocknr (no_hash b)) with (b_blocknr b).
  destruct (Z.eqb_spec (b_dev b) 0); [done|]. pose proof Hq as [Hlen Hqs].
  rewrite (run_bind (hash (b_dev b) (b_blocknr b)) _ _ (head (q h0)) (upd_buf x no_hash s)).
  2:{ unfold hash, getS, mbind, M_bind. change (hash_table (upd_buf x no_hash s)) with (hash_table s). by destruct (Hqs h0 Hr) as [-> _]. }
  erewrite run_bind by (apply bh_upd_run; by rewrite valid_upd).
  set (s1 := upd_buf x (set_b_next (head (q h0))) (upd_buf x no_hash s)).
  rewrite (run_bind _ _ s1 tt (set_hash_table (<[Z.to_nat h0 := Some x]> (hash_table s1)) s1)).
  2:{ unfold set_hash, getS, mbind, M_bind. rewrite aset_in_range by (cbn; lia). done. }
  unfold inserted. fold s1. destruct (head (q h0)) as [m|] eqn:En; [|done]. apply bh_upd_run. change (valid s1 m). unfold s1.
  rewrite !valid_upd. by apply head_in in En as (_ & ? & _)%insertion_queue.
Qed.

Lemma inserted_same : same_but no_hash s inserted /\ free_list inserted = free_list s.
Proof using.
  unfold inserted. split; [|by destruct (head (q h0))].
  apply (same_but_trans _ s (upd_buf x no_hash s)); [by apply same_but_upd|].
  apply (same_but_trans _ _ (upd_buf x (set_b_next (head (q h0))) (upd_buf x no_hash s))); [by apply same_but_upd|].
  destruct (head (q h0)); [|by split]. eapply same_but_trans; [|by apply same_but_upd]. by split.
Qed.

Lemma inserted_self : nx inserted x = head (q h0) /\ pv inserted x = None.
Proof using Hq Hb.
  pose proof insertion_valid as Hv. unfold valid in Hv. unfold inserted. destruct (head (q h0)) as [n|] eqn:En.
  - apply head_in in En as (Hne & Hvn & _)%insertion_queue; [|apply hashfn_range]. unfold valid in Hvn.
    unfold fld. rewrite aget_upd_buf by lia. rewrite decide_False by done. cbn [set_hash_table bufs].
    rewrite !aget_upd_buf by lia. by rewrite !decide_True, Hb.
  - unfold fld. cbn [set_hash_table bufs]. rewrite !aget_upd_buf by lia. by rewrite !decide_True, Hb.
Qed.

Lemma inserted_links y : y <> x -> valid s y -> nx inserted y = nx s y /\ pv inserted y = if bool_decide (head (q h0) = Some y) then Some x else pv s y.
Proof using Hq Hb.
  pose proof insertion_valid as Hvx. unfold valid in Hvx. intros Hy Hv. destruct (valid_buf s y Hv) as [c Hc]. unfold inserted.
  destruct (head (q h0)) as [n|] eqn:En.
  - apply head_in in En as (Hne & Hvn & _)%insertion_queue; [|apply hashfn_range]. unfold valid in Hvn.
    unfold fld. rewrite !aget_upd_buf by lia. cbn [set_hash_table bufs]. rewrite !aget_upd_buf by lia. rewrite Hc.
    split; repeat (case_decide || case_bool_decide); simplify_eq/=; done.
  - unfold fld. cbn [set_hash_table bufs]. rewrite !aget_upd_buf by lia. rewrite Hc.
    split; repeat (case_decide || case_bool_decide); simplify_eq/=; done.
Qed.

Lemma inserted_queues : queues inserted (fun h => if decide (h = h0) then x :: q h else q h) (fun _ => True).
Proof using Hq Hb Hd.
  destruct inserted_same as [Hsb _]. destruct inserted_self as [Hnx Hpv]. pose proof Hq as [Hlen Hqs]. pose proof (hashfn_range (b_dev b) (b_blocknr b)) as Hr0.
  assert (Eht : hash_table inserted = <[Z.to_nat h0 := Some x]> (hash_table s)) by (unfold inserted; by destruct (head (q h0))).
  split; [by rewrite Eht, length_insert|]. intros h Hr. destruct (Hqs h Hr) as (Hhd & Hdl & Hnd & Hin). rewrite Eht.
  assert (Hmem : forall y, hashed inserted y h <-> hashed s y h) by (intros y; by apply (same_but_hashed no_hash)).
  assert (Hself : forall h', hashed s x h' <-> h' = h0).
  { intros h'. split; [intros (c & Hc & _ & <-); congruence|]. intros ->. by exists b. }
  destruct (decide (h = h0)) as [->|Hne].
  - split; [by rewrite aget_insert_eq by lia|]. split; [|split].
    + cbn [dl]. split; [done|]. split; [rewrite Hnx; by destruct (head (q h0))|]. eapply dl_ends; [done|exact Hdl| |].
      * intros y Hy. destruct (insertion_queue _ y Hr Hy) as (Hyx & Hv & _). destruct (inserted_links y Hyx Hv) as [-> _].
        case_bool_decide as E; [|done]. apply last_Some in E as (l' & E). rewrite E in Hdl. apply dl_app in Hdl as [_ (_ & E' & _)]. exact E'.
      * intros y Hy. destruct (insertion_queue _ y Hr Hy) as (Hyx & Hv & _). by destruct (inserted_links y Hyx Hv) as [_ ->].
    + apply NoDup_cons. split; [|done]. by intros [Hxx _]%Hin.
    + intros y. rewrite elem_of_cons, Hin, Hmem. split; [|intros [_ Hy]; destruct (decide (y = x)); tauto].
      intros [->|[_ ?]]; [|done]. split; [done|]. by apply Hself.
  - split; [by rewrite aget_insert_ne by lia|]. split; [|split; [done|]].
    + eapply dl_same; [exact Hdl|]. intros y Hy. destruct (insertion_queue _ y Hr Hy) as (Hyx & Hv & Hh).
      destruct (inserted_links y Hyx Hv) as [-> ->]. split; [done|]. rewrite bool_decide_eq_false_2; [done|].
      intros E%head_in. apply insertion_queue in E as (_ & _ & E); [|done]. by apply Hne, (hashed_fun s y).
    + intros y. rewrite Hin, Hmem. split; [tauto|]. intros [_ Hy]. split; [|done]. intros ->. by apply Hself in Hy.
Qed.
End Insertion.

(** ** The invariant *)

(** The references the running task holds are [mine]; others hold at most 250
    to one buffer, so that the 8-bit counts do not overflow. *)
Definition OTHERS : Z := 250.
Definition mult (x : Z) (mine : list Z) : Z := Z.of_nat (count_occ Z.eq_dec mine x).

Record head_ok (mine : list Z) (x : Z) (b : buffer_head) : Prop := {
  ho_dev : in_u16 (b_dev b);
  ho_block : in_u32 (b_blocknr b);
  ho_count : mult x mine <= b_count b <= OTHERS + mult x mine;
  ho_free : b_dev b = 0 -> b_next b = None /\ b_prev b = None
}.

(** The queues of the drivers: lists through the table of requests that share
    nothing, of requests in use whose buffers exist. *)
Fixpoint path (n : Z -> option Z) (l : list Z) : Prop :=
  match l with [] => True | x :: l' => n x = head l' /\ path n l' end.

Definition nxr (s : bst) (x : Z) : option Z := aget (requests s) x ≫= r_next.

Definition pending (s : bst) (q : Z -> list Z) : Prop :=
  (forall m, 0 <= m < NR_BLK_DEV -> aget (current_request s) m = Some (head (q m)) /\ path (nxr s) (q m) /\ NoDup (q m)) /\
  (forall m x, 0 <= m < NR_BLK_DEV -> x ∈ q m -> exists r, aget (requests s) x = Some r /\ 0 <= r_dev r) /\
  (forall m m' x, 0 <= m < NR_BLK_DEV -> 0 <= m' < NR_BLK_DEV -> x ∈ q m -> x ∈ q m' -> m = m').

Record reqs_ok (s : bst) : Prop := {
  rk_len : Z.of_nat (length (requests s)) = NR_REQUEST;
  rk_cur : Z.of_nat (length (current_request s)) = NR_BLK_DEV;
  rk_queues : exists q, pending s q;
  rk_bh : forall x r b, aget (requests s) x = Some r -> 0 <= r_dev r -> r_bh r = Some b -> valid s b
}.

Lemma reqs_ok_same v s s' : same_but v s s' -> reqs_ok s -> reqs_ok s'.
Proof.
  intros Hs [H1 H2 (q & H3) H4]. pose proof (same_but_length _ _ _ Hs) as Hl. destruct Hs as [_ _ _ _ Eq Ec]. split.
  - by rewrite Eq.
  - by rewrite Ec.
  - exists q. unfold pending, nxr. by rewrite Eq, Ec.
  - unfold valid. rewrite Eq, Hl. exact H4.
Qed.

Lemma reqs_ok_upd x f s : reqs_ok s -> reqs_ok (upd_buf x f s).
Proof. apply (reqs_ok_same (fun _ => Buf 0 0 0 0 0 0 0 None None None None)). by apply same_but_upd. Qed.

Record bufs_ok (mine : list Z) (s : bst) : Prop := {
  bk_nr : NR_BUFFERS s = Z.of_nat (length (bufs s));
  bk_two : (1 < length (bufs s))%nat;
  bk_ring : exists l, free_ring s l;
  bk_queues : exists q, queues s q (fun _ => True);
  bk_heads : forall x b, aget (bufs s) x = Some b -> head_ok mine x b;
  bk_mine : forall x, x ∈ mine -> valid s x;
  bk_unique : forall x y b c, aget (bufs s) x = Some b -> aget (bufs s) y = Some c -> b_dev b <> 0 -> ident b = ident c -> x = y;
  bk_reqs : reqs_ok s
}.

(** What happens to the buffers of [mine] while others run: nothing but their
    flags and contents. *)
Definition keeps (mine : list Z) (s s' : bst) : Prop :=
  length (bufs s') = length (bufs s) /\
  forall x b b', x ∈ mine -> aget (bufs s) x = Some b -> aget (bufs s') x = Some b' -> ident b' = ident b.

(** The only way not to return is to wait longer than the model allows. *)
Definition only_hang (h : halt) (s : bst) : Prop := h = Hang.

(** In order, and the buffers held as they were. *)
Definition same_for (mine : list Z) (s s' : bst) : Prop := bufs_ok mine s' /\ keeps mine s s'.

(** What the cache relies on. *)
Class BlockLayerOk `{BlockLayer} := {
  sleeping_ok : forall mine s, bufs_ok mine s -> wp (sleeping mine) s (fun _ s' => same_for mine s s') only_hang;
  ll_rw_block_ok : forall mine rw x s, READ <= rw <= WRITEA -> bufs_ok mine s -> valid s x ->
    wp (ll_rw_block mine rw x) s (fun _ s' => same_for mine s s') only_hang;
  sync_inodes_ok : forall mine s, bufs_ok mine s -> wp (sync_inodes mine) s (fun _ s' => same_for mine s s') only_hang
}.

Lemma mult_cons x y mine : mult x (y :: mine) = (if decide (x = y) then 1 else 0) + mult x mine.
Proof. unfold mult. cbn. destruct (Z.eq_dec y x); case_decide; try congruence; lia. Qed.

Lemma mult_in x mine : x ∈ mine -> 1 <= mult x mine.
Proof. intros Hx%list_elem_of_In. unfold mult. apply (count_occ_In Z.eq_dec) in Hx. lia. Qed.

Lemma mult_out x mine : mult x mine <= 0 -> x ∉ mine.
Proof. intros Hm Hx%mult_in. lia. Qed.

Lemma mult_length x mine : 0 <= mult x mine <= Z.of_nat (length mine).
Proof. unfold mult. pose proof (count_occ_bound Z.eq_dec x mine). lia. Qed.

Lemma keeps_refl mine s : keeps mine s s.
Proof. split; [done|]. intros. congruence. Qed.

Lemma keeps_trans mine s1 s2 s3 : keeps mine s1 s2 -> keeps mine s2 s3 -> keeps mine s1 s3.
Proof.
  intros [H1 K1] [H2 K2]. split; [congruence|]. intros x b b3 Hx Hb Hb3.
  destruct (aget_in_range (bufs s2) x) as [b2 Hb2]; [apply aget_Some_range in Hb; lia|]. rewrite (K2 x b2 b3), (K1 x b b2); done.
Qed.

Lemma keeps_mono mine mine' s s' : mine ⊆ mine' -> keeps mine' s s' -> keeps mine s s'.
Proof. intros Hm [H K]. split; [done|]. intros x b b' Hx. apply K. set_solver. Qed.

Lemma keeps_valid mine s s' x : keeps mine s s' -> valid s x -> valid s' x.
Proof. intros [E _]. unfold valid. by rewrite E. Qed.

Lemma keeps_same v mine s s' : same_but v s s' -> (forall b, ident (v b) = ident b) -> keeps mine s s'.
Proof.
  intros Hs Hv. split; [by apply same_but_length in Hs|]. intros x b b' _ Hb Hb'.
  destruct (same_but_buf v ident s s' x b' Hs Hv Hb') as (b0 & Hb0 & E). congruence.
Qed.

Lemma keeps_for mine s s' x dev block : keeps mine s s' -> x ∈ mine -> is_for s dev block x -> is_for s' dev block x.
Proof.
  intros [Hl K] Hx (b & Hb & Hd & Hn). destruct (aget_in_range (bufs s') x) as [b' Hb']; [apply aget_Some_range in Hb; lia|].
  pose proof (K x b b' Hx Hb Hb') as [= E1 E2]. exists b'. by rewrite E1, E2.
Qed.

(** The ring names the next buffer of every buffer. *)
Lemma dl_next n p l : forall pr e x, dl n p pr l (Some e) -> x ∈ l -> exists y, n x = Some y /\ (y ∈ l \/ y = e).
Proof.
  induction l as [|z l IH]; intros pr e x Hdl Hx; [set_solver|]. destruct Hdl as (_ & Hn & Hdl). apply elem_of_cons in Hx as [->|Hx].
  - rewrite Hn. destruct l as [|y l]; [exists e; split; [done|by right]|]. exists y. split; [done|]. left. set_solver.
  - destruct (IH _ _ _ Hdl Hx) as (y & Hy & Hin). exists y. split; [done|]. set_solver.
Qed.

Lemma next_free_valid mine s x b : bufs_ok mine s -> aget (bufs s) x = Some b -> exists y, b_next_free b = Some y /\ valid s y.
Proof.
  intros [_ H2 (l & Hperm & _ & Hring) _ _ _ _ _] Hb.
  assert (Hx : x ∈ l) by (rewrite Hperm; apply elem_of_range; apply aget_Some_range in Hb; lia).
  destruct l as [|h l]; [set_solver|]. unfold ring in Hring. cbn [head] in Hring.
  destruct (dl_next _ _ _ _ _ _ Hring Hx) as (y & Hy & Hin). unfold fld in Hy. rewrite Hb in Hy. exists y. split; [done|].
  apply (perm_range_valid _ _ y Hperm). destruct Hin as [?| ->]; set_solver.
Qed.

Lemma free_list_valid mine s : bufs_ok mine s -> exists f, free_list s = Some f /\ valid s f.
Proof.
  intros [_ H2 (l & Hperm & Hf & _) _ _ _ _ _]. destruct l as [|f l].
  - apply Permutation_length in Hperm. rewrite length_range in Hperm. cbn in Hperm. lia.
  - exists f. split; [done|]. apply (perm_range_valid _ _ f Hperm). set_solver.
Qed.

(** ** Steps that keep the invariant *)

Definition noflags (b : buffer_head) : buffer_head := set_b_uptodate 0 (set_b_dirt 0 (set_b_count 0 (set_b_lock 0 b))).

Lemma unique_same v s s' : same_but v s s' -> (forall b, ident (v b) = ident b) ->
  (forall x y b c, aget (bufs s) x = Some b -> aget (bufs s) y = Some c -> b_dev b <> 0 -> ident b = ident c -> x = y) ->
  forall x y b c, aget (bufs s') x = Some b -> aget (bufs s') y = Some c -> b_dev b <> 0 -> ident b = ident c -> x = y.
Proof.
  intros Hs Hv Hu x y b c Hb Hc Hd E. destruct (same_but_buf v ident s s' x b Hs Hv Hb) as (b0 & Hb0 & E1).
  destruct (same_but_buf v ident s s' y c Hs Hv Hc) as (c0 & Hc0 & E2). apply (Hu x y b0 c0 Hb0 Hc0); [|congruence].
  injection E1 as E1 _. by rewrite E1.
Qed.

Lemma bufs_ok_noflags mine mine' s s' :
  same_but noflags s s' -> hash_table s' = hash_table s -> free_list s' = free_list s -> bufs_ok mine s ->
  (forall x b, aget (bufs s') x = Some b -> mult x mine' <= b_count b <= OTHERS + mult x mine') -> (forall x, x ∈ mine' -> valid s x) ->
  bufs_ok mine' s'.
Proof.
  intros Hs Hh Hf [Hn H2 (l & Hr1 & Hr2 & Hr3) (q & Hlen & Hq) Hhd Hm Hu Hrq] Hc Hm'. pose proof (same_but_length _ _ _ Hs) as Hl. split.
  - rewrite (sb_nr _ _ _ Hs). by rewrite Hl.
  - by rewrite Hl.
  - exists l. split; [by rewrite Hl|]. split; [congruence|]. eapply dl_same; [exact Hr3|]. intros y _. split; by apply (same_but_fld noflags).
  - exists q. split; [by rewrite Hh|]. intros h Hr. destruct (Hq h Hr) as (A1 & A2 & A3 & A4). rewrite Hh. split; [done|].
    split; [eapply dl_same; [exact A2|]; intros y _; split; by apply (same_but_fld noflags)|]. split; [done|].
    intros y. rewrite A4. by rewrite (same_but_hashed noflags s s' y h Hs).
  - intros x b Hb. destruct (same_but_buf noflags noflags s s' x b Hs) as (b0 & Hb0 & E); [by intros []|done|].
    destruct (Hhd x b0 Hb0) as [A1 A2 _ A4]. destruct b0, b. injection E as. simplify_eq/=. split; try done. by apply Hc.
  - intros x Hx. apply (same_but_valid noflags s s' x Hs), Hm', Hx.
  - by apply (unique_same noflags s s' Hs).
  - by apply (reqs_ok_same noflags s).
Qed.

(** Flags of one head. *)
Lemma bufs_ok_flags mine s x f :
  (forall b, noflags (f b) = noflags b) -> (forall b, b_count (f b) = b_count b) -> valid s x -> bufs_ok mine s -> bufs_ok mine (upd_buf x f s).
Proof.
  intros Hf Hc Hv Hok. apply (bufs_ok_noflags mine mine s); [by apply same_but_upd|done|done|done| |by apply (bk_mine mine s)].
  intros y b. rewrite aget_upd_buf by (unfold valid in Hv; lia). case_decide; [|by intros Hb; apply (bk_heads mine s Hok)].
  destruct (aget (bufs s) y) as [c|] eqn:Ec; [|done]. intros [= <-]. rewrite Hc. by apply (bk_heads mine s Hok).
Qed.

Lemma mult_mine mine s y b : bufs_ok mine s -> aget (bufs s) y = Some b -> mult y mine <= b_count b <= OTHERS + mult y mine.
Proof. intros Hok Hb. by destruct (bk_heads mine s Hok y b Hb). Qed.

(** Another reference, and one less. *)
Lemma bufs_ok_get mine s x : (length mine <= 4)%nat -> valid s x -> bufs_ok mine s ->
  bufs_ok (x :: mine) (upd_buf x (fun b => set_b_count (u8 (b_count b + 1)) b) s).
Proof.
  intros Hl Hv Hok. apply (bufs_ok_noflags mine (x :: mine) s); [by apply same_but_upd|done|done|done| |].
  - intros y b. rewrite aget_upd_buf by (unfold valid in Hv; lia). rewrite mult_cons. case_decide as E.
    + destruct (aget (bufs s) y) as [c|] eqn:Ec; [|done]. intros [= <-]. cbn. pose proof (mult_mine mine s y c Hok Ec).
      pose proof (mult_length y mine). unfold OTHERS in *. rewrite u8_small by (unfold in_u8; lia). lia.
    + intros Hb. pose proof (mult_mine mine s y b Hok Hb). lia.
  - intros y [->|Hy]%elem_of_cons; [done|]. by apply (bk_mine mine s).
Qed.

Lemma bufs_ok_put mine s x : (length mine <= 4)%nat -> bufs_ok (x :: mine) s ->
  bufs_ok mine (upd_buf x (fun b => set_b_count (u8 (b_count b - 1)) b) s).
Proof.
  intros Hl Hok. assert (Hv : valid s x) by (apply (bk_mine _ s Hok); set_solver).
  apply (bufs_ok_noflags (x :: mine) mine s); [by apply same_but_upd|done|done|done| |].
  - intros y b. rewrite aget_upd_buf by (unfold valid in Hv; lia). case_decide as E.
    + destruct (aget (bufs s) y) as [c|] eqn:Ec; [|done]. intros [= <-]. cbn. pose proof (mult_mine _ s y c Hok Ec) as Hm.
      rewrite mult_cons, decide_True in Hm by done. pose proof (mult_length y mine). unfold OTHERS in *.
      rewrite u8_small by (unfold in_u8; lia). lia.
    + intros Hb. pose proof (mult_mine _ s y b Hok Hb) as Hm. by rewrite mult_cons, decide_False in Hm by done.
  - intros y Hy. apply (bk_mine _ s Hok). set_solver.
Qed.

(** The buffer becomes the most recently used one. *)
Lemma put_last_free_ok mine s x : bufs_ok mine s -> valid s x ->
  exists s', put_last_free (Some x) s = Ok tt s' /\ bufs_ok mine s' /\ same_but no_free s s' /\ exists l, free_ring s' (l ++ [x]).
Proof.
  intros [Hn H2 (l & Hring) (q & Hq) Hhd Hm Hu Hrq] Hv. pose proof Hring as (Hperm & _).
  assert (Hx : x ∈ l) by (rewrite Hperm; apply elem_of_range; unfold valid in Hv; lia).
  destruct (put_last_free_run s l x Hring Hx) as (s' & Hrun & Hr' & Hs & Hh).
  { apply Permutation_length in Hperm. by rewrite length_range in Hperm; rewrite Hperm. }
  pose proof (same_but_length _ _ _ Hs) as Hlen. exists s'. split; [done|]. split; [|split; [done|by eexists]]. split.
  - rewrite (sb_nr _ _ _ Hs). by rewrite Hlen.
  - by rewrite Hlen.
  - by eexists.
  - exists q. by apply (queues_same s).
  - intros y b Hb. destruct (same_but_buf no_free no_free s s' y b Hs) as (b0 & Hb0 & E); [by intros []|done|].
    destruct (Hhd y b0 Hb0). destruct b0, b. injection E as. simplify_eq/=. by split.
  - intros y Hy. apply (same_but_valid no_free s s' y Hs), Hm, Hy.
  - by apply (unique_same no_free s s' Hs).
  - by apply (reqs_ok_same no_free s).
Qed.

(** ** A buffer for another block *)

Definition core (b : buffer_head) : buffer_head := no_free (no_hash b).

Lemma same_but_weaken v w s s' : (forall b, w (v b) = w b) -> same_but v s s' -> same_but w s s'.
Proof.
  intros Hw [Hb Hn Hd Hm Hq Hc]. split; [|done..].
  assert (E : forall l : list buffer_head, w <$> (v <$> l) = w <$> l).
  { intros l. rewrite <-list_fmap_compose. apply list_fmap_ext. intros i b _. apply Hw. }
  by rewrite <-(E (bufs s')), Hb, E.
Qed.

Lemma upd_buf_twice x f g s : upd_buf x g (upd_buf x f s) = upd_buf x (fun b => g (f b)) s.
Proof.
  unfold upd_buf, set_bufs. cbn. f_equal. apply list_eq. intros i. rewrite !list_lookup_alter.
  repeat case_decide; try congruence. by rewrite <-option_fmap_compose.
Qed.

Lemma same_but_both v x g s s' : same_but v s s' -> (forall b b', v b = v b' -> v (g b) = v (g b')) -> same_but v (upd_buf x g s) (upd_buf x g s').
Proof.
  intros [Hb Hn Hd Hm Hq Hc] Hg. split; [|done..]. cbn. apply list_eq. intros i. rewrite !list_lookup_fmap, !list_lookup_alter.
  apply (f_equal (fun l => l !! i)) in Hb. rewrite !list_lookup_fmap in Hb. case_decide as Ei; [|done]. rewrite Ei.
  destruct (bufs s' !! i), (bufs s !! i); try done. cbn in *. injection Hb as Hb. f_equal. by apply Hg.
Qed.

(** Changing the block of a head that is on no queue. *)
Lemma rename_ring s x dev block l : 0 <= x -> ring (nf s) (pf s) l -> ring (nf (upd_buf x (set_b_ident dev block) s)) (pf (upd_buf x (set_b_ident dev block) s)) l.
Proof.
  intros Hx Hr. eapply dl_same; [exact Hr|]. intros y _. unfold fld. rewrite aget_upd_buf by done. case_decide; [|done].
  by destruct (aget (bufs s) y).
Qed.

Lemma rename_queues s x dev block q : 0 <= x -> queues s q (fun y => y <> x) -> queues (upd_buf x (set_b_ident dev block) s) q (fun y => y <> x).
Proof.
  intros Hx [Hl Hq]. split; [done|]. intros h Hr. destruct (Hq h Hr) as (A1 & A2 & A3 & A4). split; [done|]. split; [|split; [done|]].
  - eapply dl_same; [exact A2|]. intros y _. unfold fld. rewrite aget_upd_buf by done. case_decide; [|done]. by destruct (aget (bufs s) y).
  - intros y. rewrite A4. assert (E : y <> x -> aget (bufs (upd_buf x (set_b_ident dev block) s)) y = aget (bufs s) y).
    { intros Hy. rewrite aget_upd_buf by done. by rewrite decide_False. }
    unfold hashed. split; intros [Hy ?]; (split; [done|]); [by rewrite E|by rewrite E in *].
Qed.

(** Heads of no device have no links. *)
Definition unlinked (s : bst) : Prop := forall y b, aget (bufs s) y = Some b -> b_dev b = 0 -> b_next b = None /\ b_prev b = None.

Lemma fld_none g s y b : aget (bufs s) y = Some b -> fld g s y = g b.
Proof. intros Hb. unfold fld. by rewrite Hb. Qed.

Lemma removed_unlinked s q x b : queues s q (fun _ => True) -> unlinked s -> aget (bufs s) x = Some b ->
  forall y c, y <> x -> aget (bufs (removed s q x b)) y = Some c -> b_dev c = 0 -> b_next c = None /\ b_prev c = None.
Proof.
  intros Hq Hu Hb y c Hy Hc Hd. destruct (removed_same s q x b) as [Hsb _].
  destruct (same_but_buf no_hash b_dev s _ y c Hsb) as (c0 & Hc0 & E); [done|done|]. rewrite Hd in E.
  destruct (removed_links s q x b Hq Hb (Hu x b Hb) y Hy) as [E1 E2]; [by apply aget_Some_range in Hc0|].
  rewrite (fld_none _ _ _ _ Hc), (fld_none _ _ _ _ Hc0) in E1. rewrite (fld_none _ _ _ _ Hc), (fld_none _ _ _ _ Hc0) in E2. destruct (Hu y c0 Hc0 E) as [H1 H2].
  assert (Hno : ~ (nx s x = Some y \/ pv s x = Some y)).
  { rewrite (fld_none b_next _ _ _ Hb), (fld_none b_prev _ _ _ Hb). intros Hl. destruct (queue_links s q x b Hq Hb (Hu x b Hb) y Hl) as (_ & _ & h & Hr & _ & Hyq).
    destruct Hq as [_ Hqs]. apply (Hqs h Hr) in Hyq as [_ (c1 & Hc1 & Hd1 & _)]. congruence. }
  rewrite bool_decide_eq_false_2 in E1 by tauto. rewrite bool_decide_eq_false_2 in E2 by tauto. by rewrite E1, E2.
Qed.

Lemma inserted_unlinked s q x b : queues s q (fun y => y <> x) -> aget (bufs s) x = Some b ->
  (forall y c, y <> x -> aget (bufs s) y = Some c -> b_dev c = 0 -> b_next c = None /\ b_prev c = None) ->
  forall y c, y <> x -> aget (bufs (inserted s q x b)) y = Some c -> b_dev c = 0 -> b_next c = None /\ b_prev c = None.
Proof.
  intros Hq Hb Hu y c Hy Hc Hd. destruct (inserted_same s q x b) as [Hsb _].
  destruct (same_but_buf no_hash b_dev s _ y c Hsb) as (c0 & Hc0 & E); [done|done|]. rewrite Hd in E.
  destruct (inserted_links s q x b Hq Hb y Hy) as [E1 E2]; [by apply aget_Some_range in Hc0|].
  rewrite (fld_none _ _ _ _ Hc), (fld_none _ _ _ _ Hc0) in E1. rewrite (fld_none _ _ _ _ Hc), (fld_none _ _ _ _ Hc0) in E2. destruct (Hu y c0 Hy Hc0 E) as [H1 H2].
  rewrite bool_decide_eq_false_2 in E2; [by rewrite E1, E2|].
  intros Eh%head_in. apply (insertion_queue s q x Hq) in Eh as (_ & _ & (c1 & Hc1 & Hd1 & _)); [congruence|apply hashfn_range].
Qed.

(** Off both lists. *)
Lemma remove_from_queues_run s l q x b : free_ring s l -> queues s q (fun _ => True) -> unlinked s -> (1 < length (bufs s))%nat ->
  aget (bufs s) x = Some b ->
  exists s2, remove_from_queues x s = Ok tt s2 /\ ring (nf s2) (pf s2) (others x l) /\ free_list s2 = head (others x l) /\
    queues s2 (fun h => others x (q h)) (fun y => y <> x) /\ same_but core s s2 /\
    (forall y c, y <> x -> aget (bufs s2) y = Some c -> b_dev c = 0 -> b_next c = None /\ b_prev c = None).
Proof.
  intros Hring Hq Hu H2 Hb. set (s1 := removed s q x b). destruct (removed_same s q x b) as [Hsb1 Hf1]. fold s1 in Hsb1, Hf1.
  pose proof (removed_queues s q x b Hq Hb (Hu x b Hb)) as Hq1. fold s1 in Hq1.
  pose proof (free_ring_same s s1 l Hsb1 Hf1 Hring) as Hring1. pose proof Hring as (Hperm & _).
  assert (Hxl : x ∈ l) by (rewrite Hperm; apply elem_of_range; apply aget_Some_range in Hb; lia).
  assert (Hlen : (1 < length l)%nat) by (apply Permutation_length in Hperm; by rewrite length_range in Hperm; rewrite Hperm).
  destruct (free_ring_remove s1 l x Hring1 Hxl Hlen) as (s2 & Hrun & Hr2 & Hsb2 & Hh2 & Hf2). exists s2. split.
  { unfold remove_from_queues. by rewrite (run_bind _ _ _ _ _ (removed_run s q x b Hq Hb (Hu x b Hb))). }
  split; [done|]. split; [done|]. split; [by apply (queues_same s1)|]. split.
  - apply (same_but_trans _ s s1); [by apply (same_but_weaken no_hash)|by apply (same_but_weaken no_free)].
  - intros y c Hy Hc Hd. destruct (same_but_buf no_free no_free s1 s2 y c Hsb2) as (c1 & Hc1 & E); [by intros []|done|].
    destruct c1, c. injection E as. simplify_eq/=. exact (removed_unlinked s q x b Hq Hu Hb y _ Hy Hc1 eq_refl).
Qed.

(** Back on both. *)
Lemma insert_into_queues_run s l q x b n : length (bufs s) = n -> l ++ [x] ≡ₚ range 0 n -> l <> [] -> ring (nf s) (pf s) l -> free_list s = head l ->
  queues s q (fun y => y <> x) -> aget (bufs s) x = Some b -> b_dev b <> 0 ->
  (forall y c, y <> x -> aget (bufs s) y = Some c -> b_dev c = 0 -> b_next c = None /\ b_prev c = None) ->
  exists s', insert_into_queues x s = Ok tt s' /\ free_ring s' (l ++ [x]) /\ (exists q', queues s' q' (fun _ => True)) /\ same_but core s s' /\ unlinked s'.
Proof.
  intros Hn Hperm Hl Hr Hf Hq Hb Hd Hu. destruct (free_ring_insert s l x n Hn Hperm Hl Hr Hf) as (s1 & Hrun & Hring1 & Hsb1 & Hh1).
  pose proof (queues_same s s1 q _ Hsb1 Hh1 Hq) as Hq1.
  destruct (same_but_buf no_free no_free s1 s x b (same_but_sym _ _ _ Hsb1)) as (b1 & Hb1 & E1); [by intros []|done|].
  assert (Hd1 : b_dev b1 <> 0) by (destruct b1, b; injection E1 as; simplify_eq/=; done).
  destruct (inserted_same s1 q x b1) as [Hsb2 Hf2]. exists (inserted s1 q x b1). split; [|split; [|split; [|split]]].
  - unfold insert_into_queues. rewrite (run_bind _ _ _ _ _ Hrun). exact (inserted_run s1 q x b1 Hq1 Hb1 Hd1).
  - by apply (free_ring_same s1).
  - eexists. by apply inserted_queues.
  - apply (same_but_trans _ s s1); [by apply (same_but_weaken no_free)|by apply (same_but_weaken no_hash)].
  - intros y c Hc Hdc. destruct (decide (y = x)) as [->|Hy].
    { destruct (same_but_buf no_hash b_dev s1 _ x c Hsb2) as (c0 & Hc0 & E); [done|done|]. congruence. }
    apply (inserted_unlinked s1 q x b1 Hq1 Hb1) with y; [|done..]. intros z d Hz Hdd.
    destruct (same_but_buf no_free no_free s s1 z d Hsb1) as (d0 & Hd0 & E); [by intros []|done|].
    destruct d0, d. injection E as. simplify_eq/=. intros ->. exact (Hu z _ Hz Hd0 eq_refl).
Qed.

(** What [getblk] does with the unused buffer it chose. *)
Definition refill (x dev block : Z) : M bst unit :=
  bh_upd x (fun b => set_b_uptodate 0 (set_b_dirt 0 (set_b_count 1 b)));;
  remove_from_queues x;; bh_upd x (set_b_ident (u16 dev) (u32 block));; insert_into_queues x.

Lemma core_buf s s' y c : same_but core s s' -> aget (bufs s') y = Some c -> exists c0, aget (bufs s) y = Some c0 /\ core c0 = core c.
Proof. intros Hs Hc. by apply (same_but_buf core core s s' y c Hs); [intros []|]. Qed.

Lemma refill_states mine s x b dev block : bufs_ok mine s -> aget (bufs s) x = Some b -> b_count b = 0 -> u16 dev <> 0 ->
  exists s', refill x dev block s = Ok tt s' /\ (exists l, free_ring s' (l ++ [x])) /\ (exists q, queues s' q (fun _ => True)) /\ unlinked s' /\
    same_but core (upd_buf x (fun b => set_b_ident (u16 dev) (u32 block) (set_b_uptodate 0 (set_b_dirt 0 (set_b_count 1 b)))) s) s'.
Proof.
  intros [Hn H2 (l & Hring) (q & Hq) Hhd Hm Hu Hrq] Hb Hc Hdev. set (f := fun b => set_b_uptodate 0 (set_b_dirt 0 (set_b_count 1 b))).
  assert (Hv : valid s x) by (by apply aget_Some_range in Hb). assert (Hx0 : 0 <= x) by (unfold valid in Hv; lia).
  set (s0 := upd_buf x f s). assert (Hs0 : same_but noflags s s0) by (by apply same_but_upd).
  assert (Hb0 : aget (bufs s0) x = Some (f b)) by (unfold s0; rewrite aget_upd_buf by done; by rewrite decide_True, Hb).
  pose proof Hring as (Hperm & Hfl & Hr). pose proof (perm_range_NoDup _ _ Hperm) as Hnd.
  assert (Hring0 : free_ring s0 l).
  { split; [unfold s0; cbn; by rewrite length_alter|]. split; [done|]. eapply dl_same; [exact Hr|]. intros y _. split; by apply (same_but_fld noflags). }
  assert (Hq0 : queues s0 q (fun _ => True)).
  { destruct Hq as [Hlen Hq]. split; [done|]. intros h Hh. destruct (Hq h Hh) as (A1 & A2 & A3 & A4). split; [done|]. split; [|split; [done|]].
    - eapply dl_same; [exact A2|]. intros y _. split; by apply (same_but_fld noflags).
    - intros y. rewrite A4. by rewrite (same_but_hashed noflags s s0 y h Hs0). }
  assert (Hun0 : unlinked s0).
  { intros y c Hcy Hd. destruct (same_but_buf noflags noflags s s0 y c Hs0) as (c0 & Hc0 & E); [by intros []|done|].
    destruct (Hhd y c0 Hc0) as [_ _ _ Hz]. destruct c0, c. injection E as. simplify_eq/=. by apply Hz. }
  destruct (remove_from_queues_run s0 l q x (f b) Hring0 Hq0 Hun0) as (s2 & Hrun2 & Hr2 & Hf2 & Hq2 & Hsb2 & Hu2); [unfold s0; cbn; by rewrite length_alter|done|].
  assert (Hlen2 : length (bufs s2) = length (bufs s)) by (rewrite (same_but_length _ _ _ Hsb2); unfold s0; cbn; by rewrite length_alter).
  set (s3 := upd_buf x (set_b_ident (u16 dev) (u32 block)) s2).
  destruct (core_buf s2 s0 x (f b) (same_but_sym _ _ _ Hsb2) Hb0) as (b2 & Hb2 & _).
  assert (Hb3 : aget (bufs s3) x = Some (set_b_ident (u16 dev) (u32 block) b2)) by (unfold s3; rewrite aget_upd_buf by done; by rewrite decide_True, Hb2).
  assert (Hxl : x ∈ l) by (rewrite Hperm; apply elem_of_range; unfold valid in Hv; lia).
  destruct (insert_into_queues_run s3 (others x l) (fun h => others x (q h)) x (set_b_ident (u16 dev) (u32 block) b2) (length (bufs s)))
    as (s' & Hrun3 & Hring' & Hq' & Hsb3 & Hu3).
  - unfold s3. cbn. by rewrite length_alter.
  - fold (to_back x l). rewrite <-Hperm. by apply to_back_perm.
  - intros E. pose proof (Permutation_length (to_back_perm x l Hnd Hxl)) as E'. unfold to_back in E'. rewrite E in E'.
    apply Permutation_length in Hperm. rewrite length_range in Hperm. cbn in E'. lia.
  - by apply rename_ring.
  - done.
  - by apply rename_queues.
  - done.
  - done.
  - intros y c Hy. unfold s3. rewrite aget_upd_buf by done. rewrite decide_False by done. by apply Hu2.
  - exists s'. split; [|split; [by eexists|split; [done|split; [done|]]]].
    + unfold refill. rewrite (run_bind _ _ _ _ _ (bh_upd_run s x _ Hv)). fold f s0. rewrite (run_bind _ _ _ _ _ Hrun2).
      rewrite (run_bind _ _ _ _ _ (bh_upd_run s2 x _ ltac:(unfold valid; rewrite Hlen2; exact Hv))). exact Hrun3.
    + apply (same_but_trans _ _ s3); [|done]. apply (same_but_trans _ _ (upd_buf x (set_b_ident (u16 dev) (u32 block)) s0)).
      * unfold s0. rewrite upd_buf_twice. apply same_but_refl.
      * apply same_but_both; [done|]. intros [] [] E. injection E as. by simplify_eq/=.
Qed.

Lemma refill_ok mine s x b dev block : bufs_ok mine s -> aget (bufs s) x = Some b -> b_count b = 0 -> dev <> 0 -> in_u16 dev ->
  (forall y, ~ is_for s dev block y) ->
  exists s', refill x dev block s = Ok tt s' /\ bufs_ok (x :: mine) s' /\ keeps mine s s' /\ is_for s' dev block x.
Proof.
  intros Hok Hb Hc Hd0 Hdev Hno. rewrite <-(u16_small dev Hdev) in Hd0.
  destruct (refill_states mine s x b dev block Hok Hb Hc Hd0) as (s' & Hrun & (l & Hring) & Hq & Hu & Hsb).
  set (g := fun b => set_b_ident (u16 dev) (u32 block) (set_b_uptodate 0 (set_b_dirt 0 (set_b_count 1 b)))) in *.
  assert (Hv : valid s x) by (by apply aget_Some_range in Hb). assert (Hx0 : 0 <= x) by (unfold valid in Hv; lia).
  assert (Hlen : length (bufs s') = length (bufs s)) by (rewrite (same_but_length _ _ _ Hsb); cbn; by rewrite length_alter).
  assert (Hbuf : forall y c, aget (bufs s') y = Some c -> exists c0, aget (bufs s) y = Some c0 /\ core c = core (if decide (y = x) then g c0 else c0)).
  { intros y c Hcy. destruct (core_buf _ _ _ _ Hsb Hcy) as (c1 & Hc1 & E). rewrite aget_upd_buf in Hc1 by done. case_decide.
    - destruct (aget (bufs s) y) as [c0|]; [|done]. injection Hc1 as <-. by exists c0.
    - by exists c1. }
  pose proof (mult_mine mine s x b Hok Hb) as Hmx. rewrite Hc in Hmx. assert (Hnx : x ∉ mine) by (apply mult_out; lia).
  exists s'. split; [done|]. split; [|split].
  - split.
    + rewrite (sb_nr _ _ _ Hsb). cbn. rewrite Hlen. apply (bk_nr mine s Hok).
    + rewrite Hlen. apply (bk_two mine s Hok).
    + by eexists.
    + done.
    + intros y c Hcy. destruct (Hbuf y c Hcy) as (c0 & Hc0 & E). destruct (bk_heads mine s Hok y c0 Hc0) as [A1 A2 A3 _].
      assert (Hlinks : b_dev c = 0 -> b_next c = None /\ b_prev c = None) by (by apply (Hu y c)).
      destruct c0, c. case_decide as Ey; injection E as; simplify_eq/=; split; cbn; try done.
      * apply u16_range.
      * apply u32_range.
      * rewrite mult_cons, decide_True by done. pose proof (mult_length x mine). unfold OTHERS. lia.
      * rewrite mult_cons, decide_False by done. done.
    + intros y [->|Hy]%elem_of_cons; unfold valid; rewrite Hlen; [done|by apply (bk_mine mine s Hok)].
    + assert (Hid : forall y c, aget (bufs s') y = Some c -> y <> x -> exists c0, aget (bufs s) y = Some c0 /\ ident c0 = ident c).
      { intros y c Hcy Hy. destruct (Hbuf y c Hcy) as (c0 & Hc0 & E). rewrite decide_False in E by done. exists c0. split; [done|].
        destruct c0, c. injection E as. by simplify_eq/=. }
      assert (Hidx : forall c, aget (bufs s') x = Some c -> ident c = (u16 dev, u32 block)).
      { intros c Hcy. destruct (Hbuf x c Hcy) as (c0 & Hc0 & E). rewrite decide_True in E by done. destruct c0, c. injection E as. by simplify_eq/=. }
      assert (Hnew : forall y c, aget (bufs s') y = Some c -> ident c = (u16 dev, u32 block) -> y = x).
      { intros y c Hcy E. destruct (decide (y = x)) as [|Hy]; [done|]. destruct (Hid y c Hcy Hy) as (c0 & Hc0 & E0). exfalso.
        apply (Hno y). rewrite E in E0. injection E0 as E1 E2. exists c0. rewrite E1, u16_small by done. done. }
      intros y z c d Hcy Hdz Hd E. destruct (decide (y = x)) as [->|Hy].
      { symmetry. apply (Hnew z d Hdz). by rewrite <-E, (Hidx c Hcy). }
      destruct (decide (z = x)) as [->|Hz]; [apply (Hnew y c Hcy); by rewrite E, (Hidx d Hdz)|].
      destruct (Hid y c Hcy Hy) as (c0 & Hc0 & E1), (Hid z d Hdz Hz) as (d0 & Hd0' & E2).
      apply (bk_unique mine s Hok y z c0 d0 Hc0 Hd0'); [injection E1 as -> _; done|congruence].
    + apply (reqs_ok_same _ _ _ Hsb), reqs_ok_upd, (bk_reqs mine s Hok).
  - split; [done|]. intros y c c' Hy Hcy Hcy'. assert (y <> x) by (intros ->; done). destruct (Hbuf y c' Hcy') as (c0 & Hc0 & E).
    rewrite decide_False in E by done. rewrite Hc0 in Hcy. injection Hcy as ->. destruct c, c'. injection E as. by simplify_eq/=.
  - destruct (aget_in_range (bufs s') x) as [c Hcx]; [unfold valid in Hv; lia|]. destruct (Hbuf x c Hcx) as (c0 & Hc0 & E).
    rewrite decide_True in E by done. exists c. split; [done|]. destruct c0, c. injection E as. simplify_eq/=. by rewrite u16_small.
Qed.

(** ** The routines, whatever the others do *)

Lemma wp_iter_hang {A B} (body : A -> M bst (A + B)) (I : A -> bst -> Prop) (Q : B -> bst -> Prop) :
  (forall x s, I x s -> wp (body x) s (fun r s' => match r with inl x' => I x' s' | inr b => Q b s' end) only_hang) ->
  forall n x s, I x s -> wp (iter n body x) s Q only_hang.
Proof.
  intros Hb n. induction n as [|n IH]; intros x s HI; [done|]. cbn [iter]. apply wp_bind.
  eapply wp_mono; [apply Hb, HI| |done]. intros [x'|b] s'; [apply IH|done].
Qed.

Lemma wp_run_bind {A B} (m : M bst A) (f : A -> M bst B) s a s1 Q E : m s = Ok a s1 -> wp (f a) s1 Q E -> wp (m ≫= f) s Q E.
Proof. intros Hm Hf. apply wp_bind. unfold wp at 1. by rewrite Hm. Qed.

Lemma wp_seq {A B} (m : M bst A) (f : A -> M bst B) s (R : A -> bst -> Prop) Q E :
  wp m s R E -> (forall a s', R a s' -> wp (f a) s' Q E) -> wp (m ≫= f) s Q E.
Proof. intros Hm Hf. apply wp_bind. eapply wp_mono; [exact Hm|exact Hf|done]. Qed.

Lemma wp_of_run {A} (m : M bst A) s a s1 (Q : A -> bst -> Prop) E : m s = Ok a s1 -> Q a s1 -> wp m s Q E.
Proof. unfold wp. by intros ->. Qed.

Lemma same_for_refl mine s : bufs_ok mine s -> same_for mine s s.
Proof. intros H. split; [done|apply keeps_refl]. Qed.
Lemma same_for_trans mine s1 s2 s3 : keeps mine s1 s2 -> same_for mine s2 s3 -> same_for mine s1 s3.
Proof. intros K [H K']. split; [done|by eapply keeps_trans]. Qed.
#[local] Hint Resolve same_for_refl keeps_refl : core.

Section Routines.
Context `{BL : BlockLayer} {BLok : BlockLayerOk}.
Context (patience : nat).

Lemma wait_on_buffer_ok mine x s : bufs_ok mine s -> valid s x ->
  wp (wait_on_buffer patience mine x) s (fun _ s' => same_for mine s s') only_hang.
Proof using BLok.
  intros Hok Hv. unfold wait_on_buffer. apply (wp_iter_hang _ (fun _ s' => same_for mine s s')); [|auto].
  intros [] s1 [Hok1 K1]. destruct (valid_buf s1 x (keeps_valid _ _ _ _ K1 Hv)) as [b Hb].
  eapply wp_run_bind; [by apply bh_at_run|]. destruct (truth (b_lock b)); [|by split].
  eapply wp_seq; [by apply sleeping_ok|]. intros [] s2 [Hok2 K2]. split; [done|by eapply keeps_trans].
Qed.

Lemma sync_loop_ok mine n : forall p s, bufs_ok mine s -> (exists x, p = Some x /\ valid s x) ->
  wp (sync_loop patience mine n p) s (fun _ s' => same_for mine s s') only_hang.
Proof using BLok.
  induction n as [|n IH]; intros p s Hok (x & -> & Hv); [by apply wp_ret; auto|]. cbn [sync_loop].
  eapply wp_run_bind; [done|]. eapply wp_seq; [by apply wait_on_buffer_ok|]. intros [] s1 [Hok1 K1].
  pose proof (keeps_valid _ _ _ _ K1 Hv) as Hv1. destruct (valid_buf s1 x Hv1) as [b Hb]. eapply wp_run_bind; [by apply bh_at_run|].
  apply (wp_seq _ _ _ (fun _ s' => same_for mine s1 s')).
  { destruct (truth (b_dirt b)); [|by apply wp_ret; auto]. by apply ll_rw_block_ok. }
  intros [] s2 [Hok2 K2]. destruct (valid_buf s2 x (keeps_valid _ _ _ _ K2 Hv1)) as [b2 Hb2]. eapply wp_run_bind; [by apply bh_at_run|].
  eapply wp_mono; [apply IH; [done|]; by apply (next_free_valid mine s2 x)| |done].
  intros [] s3 [Hok3 K3]. split; [done|]. by eapply keeps_trans; [eapply keeps_trans|].
Qed.

Lemma sync_buffers_ok mine dev s : bufs_ok mine s -> wp (sync_buffers patience mine dev) s (fun _ s' => same_for mine s s') only_hang.
Proof using BLok.
  intros Hok. unfold sync_buffers. eapply wp_run_bind; [done|]. apply sync_loop_ok; [done|]. by apply (free_list_valid mine).
Qed.

Lemma sync_dev_ok mine dev s : bufs_ok mine s -> wp (sync_dev patience mine dev) s (fun _ s' => same_for mine s s') only_hang.
Proof using BLok.
  intros Hok. unfold sync_dev. eapply wp_seq; [by apply sync_buffers_ok|]. intros [] s1 [Hok1 K1].
  eapply wp_seq; [by apply sync_inodes_ok|]. intros [] s2 [Hok2 K2].
  eapply wp_seq; [by apply sync_buffers_ok|]. intros [] s3 [Hok3 K3]. apply wp_ret. split; [done|].
  by eapply keeps_trans; [eapply keeps_trans|].
Qed.

(** A lookup, with a reference to what it finds. *)
Definition found (mine : list Z) (dev block : Z) (s : bst) (x : Z) (s' : bst) : Prop :=
  bufs_ok (x :: mine) s' /\ keeps mine s s' /\ is_for s' dev block x.

Lemma find_buffer_ok mine dev block s : bufs_ok mine s -> dev <> 0 -> in_u16 dev ->
  exists r, find_buffer dev block s = Ok r s /\
    match r with Some x => is_for s dev block x | None => forall x, ~ is_for s dev block x end.
Proof using.
  intros Hok Hd Hu. destruct (bk_queues mine s Hok) as (q & Hq). apply (find_buffer_run s q); try done.
  intros x b Hb. by destruct (bk_heads mine s Hok x b Hb).
Qed.

Lemma get_hash_table_ok mine dev block s : bufs_ok mine s -> (length mine <= 4)%nat -> dev <> 0 -> in_u16 dev ->
  wp (get_hash_table patience mine dev block) s
    (fun r s' => match r with Some x => found mine dev block s x s' | None => s' = s /\ forall x, ~ is_for s dev block x end) only_hang.
Proof using BLok.
  intros Hok Hl Hd Hu. unfold get_hash_table. apply (wp_iter_hang _ (fun _ s' => s' = s)); [|done]. intros [] ? ->.
  destruct (find_buffer_ok mine dev block s Hok Hd Hu) as (r & Hrun & Hr). eapply wp_run_bind; [exact Hrun|].
  destruct r as [x|]; [|by apply wp_ret]. assert (Hv : valid s x) by (destruct Hr as (b & Hb & _); by apply aget_Some_range in Hb).
  eapply wp_run_bind; [by apply bh_upd_run|]. set (s1 := upd_buf x _ s).
  assert (Hok1 : bufs_ok (x :: mine) s1) by (by apply bufs_ok_get). assert (K1 : forall m, keeps m s s1).
  { intros m. apply (keeps_same noflags); [by apply same_but_upd|done]. }
  assert (Hf1 : is_for s1 dev block x) by (apply (keeps_for [x] s); [done|set_solver|done]).
  eapply wp_seq; [apply wait_on_buffer_ok; [done|by apply valid_upd]|]. intros [] s2 [Hok2 K2].
  pose proof (keeps_for (x :: mine) s1 s2 x dev block K2 ltac:(set_solver) Hf1) as Hf2. destruct Hf2 as (b & Hb & Eb & En).
  eapply wp_run_bind; [by apply bh_at_run|]. rewrite Eb, En, !Z.eqb_refl. cbn [andb].
  assert (Hv2 : valid s2 x) by (by apply aget_Some_range in Hb).
  destruct (put_last_free_ok (x :: mine) s2 x Hok2 Hv2) as (s3 & Hrun3 & Hok3 & Hsb & _). eapply wp_run_bind; [exact Hrun3|]. apply wp_ret.
  assert (K3 : forall m, keeps m s2 s3) by (intros m; by apply (keeps_same no_free)). split; [done|]. split.
  - eapply keeps_trans; [eapply keeps_trans; [apply K1|]|apply K3]. eapply keeps_mono; [|exact K2]. set_solver.
  - apply (keeps_for [x] s2); [done|set_solver|]. by exists b.
Qed.

Lemma getblk_scan_ok mine n : forall tmp bh s, bufs_ok mine s -> valid s tmp -> (forall x, bh = Some x -> valid s x) ->
  wp (getblk_scan mine n tmp bh) s (fun r s' => same_for mine s s' /\ forall x, r = Some x -> valid s' x) only_hang.
Proof using BLok.
  induction n as [|n IH]; intros tmp bh s Hok Hv Hbh; [by apply wp_ret; auto|]. cbn [getblk_scan].
  destruct (valid_buf s tmp Hv) as [t Ht]. eapply wp_run_bind; [by apply bh_at_run|].
  destruct (next_free_valid mine s tmp t Hok Ht) as (y & Ey & Hvy). rewrite Ey. eapply wp_run_bind; [done|].
  destruct (valid_buf s y Hvy) as [ty Hty]. eapply wp_run_bind; [by apply bh_at_run|].
  destruct (truth (b_count ty)); [by apply IH|].
  apply (wp_seq _ _ _ (fun _ s' => s' = s)).
  { destruct bh as [x|]; [|done]. destruct (valid_buf s x (Hbh x eq_refl)) as [b Hb]. by eapply wp_run_bind; [apply bh_at_run|]. }
  intros best ? ->. destruct (best && (BADNESS ty =? 0)); [apply wp_ret; split; [auto|]; by intros x [= <-]|].
  apply (wp_seq _ _ _ (fun _ s' => same_for mine s s')).
  { destruct (truth (b_dirt ty)); [|by apply wp_ret; auto]. by apply ll_rw_block_ok. }
  intros [] s1 [Hok1 K1]. eapply wp_mono; [apply IH; [done|by apply (keeps_valid _ _ _ _ K1)|]| |done].
  - intros x E. apply (keeps_valid _ _ _ _ K1). destruct best; [by injection E as <-|by apply Hbh].
  - intros r s2 [H2 Hr]. split; [by apply (same_for_trans _ s s1)|done].
Qed.

(** Waiting until the chosen buffer is clean. *)
Definition unused (s : bst) (x : Z) : Prop := exists b, aget (bufs s) x = Some b /\ b_count b = 0.

Lemma clean_ok mine x s : bufs_ok mine s -> unused s x ->
  wp (iter patience (clean_step patience mine x) tt) s (fun ok s' => same_for mine s s' /\ (ok = true -> unused s' x)) only_hang.
Proof using BLok.
  intros Hok Hux. apply (wp_iter_hang _ (fun _ s' => same_for mine s s' /\ unused s' x)); [|auto].
  intros [] s1 [[Hok1 K1] Hu1]. pose proof Hu1 as (b & Hb & Hc). unfold clean_step. eapply wp_run_bind; [by apply bh_at_run|].
  destruct (truth (b_dirt b)); [|by apply wp_ret]. assert (Hv : valid s1 x) by (by apply aget_Some_range in Hb).
  eapply wp_seq; [by apply sync_dev_ok|]. intros _ s2 [Hok2 K2]. pose proof (keeps_valid _ _ _ _ K2 Hv) as Hv2.
  eapply wp_seq; [by apply wait_on_buffer_ok|]. intros [] s3 [Hok3 K3]. destruct (valid_buf s3 x (keeps_valid _ _ _ _ K3 Hv2)) as [b3 Hb3].
  assert (K : keeps mine s s3) by (by eapply keeps_trans; [eapply keeps_trans|]).
  eapply wp_run_bind; [by apply bh_at_run|]. unfold truth. destruct (Z.eqb_spec (b_count b3) 0); apply wp_ret; [|done].
  split; [done|]. by exists b3.
Qed.

Lemma getblk_step_ok mine dev block s : bufs_ok mine s -> (length mine <= 4)%nat -> dev <> 0 -> in_u16 dev ->
  wp (getblk_step patience mine dev block tt) s
    (fun r s' => match r with inl _ => same_for mine s s' | inr x => found mine dev block s x s' end) only_hang.
Proof using BLok.
  intros Hok Hl Hd Hu. unfold getblk_step. eapply wp_seq; [by apply get_hash_table_ok|]. intros [x|] s1; [done|].
  intros [-> _]. eapply wp_run_bind; [done|]. destruct (free_list_valid mine s Hok) as (f & -> & Hvf). eapply wp_run_bind; [done|].
  eapply wp_seq; [by apply getblk_scan_ok|]. intros [x|] s1 [[Hok1 K1] Hx].
  2:{ eapply wp_seq; [by apply sleeping_ok|]. intros [] s2 [Hok2 K2]. split; [done|by eapply keeps_trans]. }
  pose proof (Hx x eq_refl) as Hv1. eapply wp_seq; [by apply wait_on_buffer_ok|]. intros [] s2 [Hok2 K2].
  destruct (valid_buf s2 x (keeps_valid _ _ _ _ K2 Hv1)) as [b Hb]. eapply wp_run_bind; [by apply bh_at_run|].
  assert (K12 : keeps mine s s2) by (by eapply keeps_trans). unfold truth at 1. destruct (Z.eqb_spec (b_count b) 0) as [Hc|]; [|by apply wp_ret].
  eapply wp_seq; [apply clean_ok; [done|by exists b]|]. intros [] s3 [[Hok3 K3] Hu3]; [|apply wp_ret; split; [done|by eapply keeps_trans]].
  assert (K13 : keeps mine s s3) by (by eapply keeps_trans).
  destruct (find_buffer_ok mine dev block s3 Hok3 Hd Hu) as (r & Hrun & Hr). eapply wp_run_bind; [exact Hrun|].
  destruct r as [y|]; [by apply wp_ret|]. destruct (Hu3 eq_refl) as (b3 & Hb3 & Hc3).
  destruct (refill_ok mine s3 x b3 dev block Hok3 Hb3 Hc3 Hd Hu Hr) as (s4 & Hrun4 & Hok4 & K4 & Hf4).
  unfold refill in Hrun4. apply bind_Ok in Hrun4 as ([] & t1 & R1 & Hrun4). apply bind_Ok in Hrun4 as ([] & t2 & R2 & Hrun4).
  apply bind_Ok in Hrun4 as ([] & t3 & R3 & R4). eapply wp_run_bind; [exact R1|]. eapply wp_run_bind; [exact R2|].
  eapply wp_run_bind; [exact R3|]. eapply wp_run_bind; [exact R4|]. apply wp_ret. split; [done|]. split; [by eapply keeps_trans|done].
Qed.

Lemma getblk_ok mine dev block s : bufs_ok mine s -> (length mine <= 4)%nat -> dev <> 0 -> in_u16 dev ->
  wp (getblk patience mine dev block) s (found mine dev block s) only_hang.
Proof using BLok.
  intros Hok Hl Hd Hu. unfold getblk. apply (wp_iter_hang _ (fun _ s' => same_for mine s s')); [|auto].
  intros [] s1 [Hok1 K1]. eapply wp_mono; [by apply getblk_step_ok| |done]. intros [[]|x] s2.
  - by apply same_for_trans.
  - intros (H1 & K2 & H3). split; [done|]. split; [by eapply keeps_trans|done].
Qed.

Lemma brelse_ok mine x s : bufs_ok (x :: mine) s -> (length mine <= 4)%nat ->
  wp (brelse patience (x :: mine) (Some x)) s (fun _ s' => same_for mine s s') only_hang.
Proof using BLok.
  intros Hok Hl. assert (Hv : valid s x) by (apply (bk_mine _ _ Hok); set_solver). unfold brelse.
  eapply wp_seq; [by apply wait_on_buffer_ok|]. intros [] s1 [Hok1 K1]. pose proof (keeps_valid _ _ _ _ K1 Hv) as Hv1.
  destruct (valid_buf s1 x Hv1) as [b Hb]. eapply wp_run_bind; [by apply bh_at_run|]. eapply wp_run_bind; [by apply bh_upd_run|].
  pose proof (mult_mine _ s1 x b Hok1 Hb) as Hm. rewrite mult_cons, decide_True in Hm by done. pose proof (mult_length x mine).
  destruct (Z.eqb_spec (b_count b) 0); [lia|]. apply wp_ret. split; [by apply bufs_ok_put|].
  apply (keeps_trans _ s s1); [eapply keeps_mono; [|exact K1]; set_solver|]. apply (keeps_same noflags); [by apply same_but_upd|done].
Qed.

(** [bread]: the buffer of the block with its contents, or nothing. *)
Definition fresh_copy (s : bst) (x : Z) : Prop := exists b, aget (bufs s) x = Some b /\ b_uptodate b <> 0.

Lemma finish_read_ok mine dev block s x s1 : (length mine <= 4)%nat -> found mine dev block s x s1 ->
  wp (wait_on_buffer patience (x :: mine) x;; b ← bh_at x;
      if truth (b_uptodate b) then mret (Some x) else brelse patience (x :: mine) (Some x);; mret None) s1
    (fun r s' => match r with Some y => found mine dev block s y s' /\ fresh_copy s' y | None => same_for mine s s' end) only_hang.
Proof using BLok.
  intros Hl (Hok1 & K1 & Hf1). assert (Hv : valid s1 x) by (apply (bk_mine _ _ Hok1); set_solver).
  eapply wp_seq; [by apply wait_on_buffer_ok|]. intros [] s2 [Hok2 K2].
  destruct (valid_buf s2 x (keeps_valid _ _ _ _ K2 Hv)) as [b Hb]. eapply wp_run_bind; [by apply bh_at_run|].
  assert (K12 : keeps mine s s2) by (eapply keeps_trans; [exact K1|]; eapply keeps_mono; [|exact K2]; set_solver).
  unfold truth. destruct (Z.eqb_spec (b_uptodate b) 0).
  - eapply wp_seq; [by apply brelse_ok|]. intros [] s3 [Hok3 K3]. apply wp_ret. split; [done|]. by eapply keeps_trans.
  - apply wp_ret. split; [|by exists b]. split; [done|]. split; [done|]. apply (keeps_for (x :: mine) s1); [done|set_solver|done].
Qed.

Lemma bread_ok mine dev block s : bufs_ok mine s -> (length mine <= 4)%nat -> dev <> 0 -> in_u16 dev ->
  wp (bread patience mine dev block) s
    (fun r s' => match r with Some x => found mine dev block s x s' /\ fresh_copy s' x | None => same_for mine s s' end) only_hang.
Proof using BLok.
  intros Hok Hl Hd Hu. unfold bread. eapply wp_seq; [by apply getblk_ok|]. intros x s1 (Hok1 & K1 & Hf1).
  assert (Hv : valid s1 x) by (apply (bk_mine _ _ Hok1); set_solver). destruct (valid_buf s1 x Hv) as [b Hb].
  eapply wp_run_bind; [by apply bh_at_run|]. unfold truth at 1. destruct (Z.eqb_spec (b_uptodate b) 0).
  2:{ apply wp_ret. split; [done|]. by exists b. }
  cbn [negb]. eapply wp_seq; [by apply ll_rw_block_ok|]. intros [] s2 [Hok2 K2].
  apply finish_read_ok; [done|]. split; [done|]. split; [|apply (keeps_for (x :: mine) s1); [done|set_solver|done]].
  eapply keeps_trans; [exact K1|]. eapply keeps_mono; [|exact K2]. set_solver.
Qed.
End Routines.
