(* ===== verification/Bread.v ===== *)
(** * The buffer cache in use

    [bread], [breada], [bread_page] and [brelse] keep the cache in order
    whatever other tasks do, and give back the references they take; [getblk]
    answers at once when nothing has to be waited for; [buffer_init] sets up a
    cache in order in the memory it is given. *)

From S2P Require Import Prelude TaskStruct Buffer Cache.

#[local] Hint Resolve same_for_refl keeps_refl : core.

(** ** Reading ahead and reading pages *)

Lemma mult_perm x m m' : m ≡ₚ m' -> mult x m = mult x m'.
Proof. intros Hp. unfold mult. by rewrite (proj1 (Permutation_count_occ Z.eq_dec m m') Hp x). Qed.

Lemma bufs_ok_perm m m' s : m ≡ₚ m' -> bufs_ok m s -> bufs_ok m' s.
Proof.
  intros Hp [A1 A2 A3 A4 A5 A6 A7 A8]. split; try done.
  - intros x b Hb. destruct (A5 x b Hb). split; [done|done|by rewrite <-(mult_perm x m m' Hp)|done].
  - intros x. rewrite <-Hp. apply A6.
Qed.

Lemma bufs_ok_mem mine s v : bufs_ok mine s -> bufs_ok mine (set_bmem v s).
Proof. intros [A1 A2 A3 A4 A5 A6 A7 [B1 B2 B3 B4]]. by split. Qed.

Lemma held_of_length l : (length (held_of l) <= length l)%nat.
Proof. induction l as [|[x|] l IH]; [done|..]; unfold held_of in *; cbn; lia. Qed.

Section Reading.
Context `{BL : BlockLayer} {BLok : BlockLayerOk}.
Context (patience : nat).

Lemma read_if_needed mine rw x b s : READ <= rw <= WRITEA -> bufs_ok mine s -> valid s x ->
  wp (if truth (b_uptodate b) then mret tt else ll_rw_block mine rw x) s (fun _ s' => same_for mine s s') only_hang.
Proof using BLok.
  intros Hrw Hok Hv. destruct (truth (b_uptodate b)); [by apply wp_ret; auto|by apply ll_rw_block_ok].
Qed.

Lemma read_ahead_ok mine dev rest : forall s, bufs_ok mine s -> (length mine <= 3)%nat -> dev <> 0 -> in_u16 dev ->
  wp (read_ahead patience mine dev rest) s (fun _ s' => same_for mine s s') only_hang.
Proof using BLok.
  induction rest as [|r rest IH]; intros s Hok Hl Hd Hu; [by apply wp_ret; auto|]. cbn [read_ahead].
  eapply wp_seq; [apply getblk_ok; [done|lia|done|done]|]. intros x s1 (Hok1 & K1 & _).
  assert (Hv : valid s1 x) by (apply (bk_mine _ _ Hok1); set_solver). destruct (valid_buf s1 x Hv) as [b Hb].
  eapply wp_run_bind; [by apply bh_at_run|]. eapply wp_seq; [by apply read_if_needed|]. intros [] s2 [Hok2 K2].
  eapply wp_run_bind; [apply bh_upd_run; by apply (keeps_valid _ _ _ _ K2)|]. set (s3 := upd_buf x _ s2).
  assert (Hok3 : bufs_ok mine s3) by (apply bufs_ok_put; [lia|done]).
  assert (K3 : keeps mine s2 s3) by (apply (keeps_same noflags); [by apply same_but_upd|done]).
  eapply wp_mono; [by apply IH| |done]. intros [] s4 [Hok4 K4]. split; [done|].
  eapply keeps_trans; [exact K1|]. eapply keeps_trans; [eapply keeps_mono; [|exact K2]; set_solver|]. by eapply keeps_trans.
Qed.

Lemma breada_ok mine dev first rest s : bufs_ok mine s -> (length mine <= 2)%nat -> dev <> 0 -> in_u16 dev ->
  wp (breada patience mine dev first rest) s
    (fun r s' => match r with Some x => found mine dev first s x s' /\ fresh_copy s' x | None => same_for mine s s' end) only_hang.
Proof using BLok.
  intros Hok Hl Hd Hu. unfold breada. eapply wp_seq; [apply getblk_ok; [done|lia|done|done]|]. intros x s1 (Hok1 & K1 & Hf1).
  assert (Hv : valid s1 x) by (apply (bk_mine _ _ Hok1); set_solver). destruct (valid_buf s1 x Hv) as [b Hb].
  eapply wp_run_bind; [by apply bh_at_run|]. eapply wp_seq; [by apply read_if_needed|]. intros [] s2 [Hok2 K2].
  eapply wp_seq; [apply read_ahead_ok; [done|cbn; lia|done|done]|]. intros [] s3 [Hok3 K3].
  apply finish_read_ok; [lia|]. split; [done|].
  assert (K23 : keeps (x :: mine) s1 s3) by (by eapply keeps_trans).
  split; [|by apply (keeps_for (x :: mine) s1); [|set_solver|]].
  eapply keeps_trans; [exact K1|]. eapply keeps_mono; [|exact K23]. set_solver.
Qed.

(** The references [page_get] returns with. *)
Lemma page_get_ok dev bs : forall mine s, bufs_ok mine s -> (length mine + length bs <= 4)%nat -> dev <> 0 -> in_u16 dev ->
  wp (page_get patience mine dev bs) s (fun l s' => bufs_ok (held_of l ++ mine) s' /\ keeps mine s s' /\ length l = length bs) only_hang.
Proof using BLok.
  induction bs as [|b0 bs IH]; intros mine s Hok Hl Hd Hu; [by apply wp_ret; auto|]. cbn [page_get]. cbn in Hl. destruct (truth b0).
  - eapply wp_seq; [apply getblk_ok; [done|lia|done|done]|]. intros x s1 (Hok1 & K1 & _).
    assert (Hv : valid s1 x) by (apply (bk_mine _ _ Hok1); set_solver). destruct (valid_buf s1 x Hv) as [b Hb].
    eapply wp_run_bind; [by apply bh_at_run|]. eapply wp_seq; [by apply read_if_needed|]. intros [] s2 [Hok2 K2].
    eapply wp_seq; [apply (IH (x :: mine)); [done|cbn; lia|done|done]|]. intros l s3 (Hok3 & K3 & Hl3). apply wp_ret. split; [|split].
    + change (held_of (Some x :: l) ++ mine) with (x :: held_of l ++ mine).
      apply (bufs_ok_perm (held_of l ++ x :: mine)); [|done]. symmetry. apply Permutation_middle.
    + eapply keeps_trans; [exact K1|]. eapply keeps_mono; [|eapply keeps_trans; [exact K2|exact K3]]. set_solver.
    + cbn. by rewrite Hl3.
  - eapply wp_seq; [apply (IH mine); [done|lia|done|done]|]. intros l s1 (Hok1 & K1 & Hl1). apply wp_ret. split; [done|]. split; [done|].
    cbn. by rewrite Hl1.
Qed.

Lemma page_copy_ok mine l : forall address s, bufs_ok (held_of l ++ mine) s -> (length l + length mine <= 5)%nat ->
  wp (page_copy patience mine address l) s (fun _ s' => same_for mine s s') only_hang.
Proof using BLok.
  induction l as [|p l IH]; intros address s Hok Hl; [by apply wp_ret; auto|]. cbn [page_copy]. cbn in Hl.
  assert (Hlen : (length (held_of l) <= length l)%nat) by apply held_of_length.
  apply (wp_seq _ _ _ (fun _ s' => bufs_ok (held_of l ++ mine) s' /\ keeps mine s s')).
  - destruct p as [x|]; [|by apply wp_ret]. change (held_of (Some x :: l) ++ mine) with (x :: held_of l ++ mine) in *.
    assert (Hv : valid s x) by (apply (bk_mine _ _ Hok); set_solver).
    eapply wp_seq; [by apply wait_on_buffer_ok|]. intros [] s1 [Hok1 K1]. destruct (valid_buf s1 x (keeps_valid _ _ _ _ K1 Hv)) as [b Hb].
    eapply wp_run_bind; [by apply bh_at_run|].
    apply (wp_seq _ _ _ (fun _ s' => bufs_ok (x :: held_of l ++ mine) s' /\ bufs s' = bufs s1)).
    { destruct (truth (b_uptodate b)); [|by apply wp_ret]. apply wp_modify. split; [|done]. by apply (bufs_ok_mem _ s1). }
    intros [] s2 [Hok2 E2]. eapply wp_mono; [apply brelse_ok; [done|rewrite length_app; lia]| |done]. intros [] s3 [Hok3 K3]. split; [done|].
    apply (keeps_trans _ s s2); [|eapply keeps_mono; [|exact K3]; set_solver].
    unfold keeps in *. rewrite E2. destruct K1 as [E1 K1]. split; [done|]. intros y c c' Hy. apply K1. set_solver.
  - intros [] s1 [Hok1 K1]. eapply wp_mono; [apply IH; [done|lia]| |done]. intros [] s2. by apply same_for_trans.
Qed.

Lemma bread_page_ok mine address dev bs s : bufs_ok mine s -> (length mine + length bs <= 4)%nat -> dev <> 0 -> in_u16 dev ->
  wp (bread_page patience mine address dev bs) s (fun _ s' => same_for mine s s') only_hang.
Proof using BLok.
  intros Hok Hl Hd Hu. unfold bread_page. eapply wp_seq; [by apply page_get_ok|]. intros l s1 (Hok1 & K1 & Hl1).
  eapply wp_mono; [apply page_copy_ok; [done|lia]| |done]. intros [] s2. by apply same_for_trans.
Qed.
End Reading.

(** ** When there is nothing to wait for *)

(** No buffer is locked, and the unused ones are clean. *)
Definition quiet (s : bst) : Prop :=
  forall x b, aget (bufs s) x = Some b -> b_lock b = 0 /\ (b_count b = 0 -> b_dirt b = 0).

Section Quiet.
Context `{BL : BlockLayer}.

(** The search meets the buffers in the order of the ring, and takes the first
    unused one. *)
Lemma getblk_scan_quiet mine r : forall n tmp s e, quiet s -> dl (fld b_next_free s) (fld b_prev_free s) (Some tmp) r e ->
  fld b_next_free s tmp = head r -> valid s tmp -> (forall x, x ∈ r -> valid s x) -> (exists x, x ∈ r /\ unused s x) -> (length r <= n)%nat ->
  exists x, getblk_scan mine n tmp None s = Ok (Some x) s /\ unused s x /\ valid s x.
Proof using.
  induction r as [|y r IH]; intros n tmp s e Hq Hdl Hnf Hv Hval (x & Hx & Hux) Hn; [set_solver|].
  destruct n as [|n]; [cbn in Hn; lia|]. cbn [getblk_scan]. destruct (valid_buf s tmp Hv) as [t Ht].
  rewrite (run_bind _ _ _ _ _ (bh_at_run s tmp t Ht)). rewrite (fld_none _ _ _ _ Ht) in Hnf. rewrite Hnf. cbn [head].
  rewrite (run_bind (ofOpt (Some y)) _ s y s) by done. destruct (valid_buf s y (Hval y ltac:(set_solver))) as [ty Hty].
  rewrite (run_bind _ _ _ _ _ (bh_at_run s y ty Hty)). destruct (Hq y ty Hty) as [Hlock Hdirt].
  unfold truth at 1. destruct (Z.eqb_spec (b_count ty) 0) as [Hc|Hc]; cbn [negb].
  - rewrite (run_bind _ _ s true s) by done. unfold BADNESS. rewrite Hlock, (Hdirt Hc). cbn.
    exists y. split; [done|]. split; [by exists ty|apply Hval; set_solver].
  - destruct Hdl as (_ & Hny & Hdl). assert (Hxr : x ∈ r).
    { apply elem_of_cons in Hx as [->|]; [|done]. destruct Hux as (b & Hb & Hb0). rewrite Hb in Hty. by injection Hty as ->. }
    apply (IH n y s e); [done|done| |apply Hval; set_solver|set_solver|by exists x|cbn in Hn; lia].
    rewrite Hny. destruct r; [set_solver|done].
Qed.

Lemma getblk_search mine s : bufs_ok mine s -> quiet s -> (exists x, unused s x) ->
  exists f x, free_list s = Some f /\ getblk_scan mine (S (Z.to_nat (NR_BUFFERS s))) f None s = Ok (Some x) s /\ unused s x /\ valid s x.
Proof using.
  intros [Hn H2 (l & Hperm & Hf & Hring) _ _ _ _ _] Hq (x & Hux).
  assert (Hlen : length l = length (bufs s)) by (apply Permutation_length in Hperm; by rewrite length_range in Hperm).
  destruct l as [|f l]; [cbn in Hlen; lia|]. exists f. cbn [head] in Hf.
  assert (Hval : forall y, y ∈ l ++ [f] -> valid s y) by (intros y Hy; apply (perm_range_valid _ _ y Hperm); set_solver).
  assert (Hr : ring (fld b_next_free s) (fld b_prev_free s) (l ++ [f])) by (by apply (ring_rotate _ _ [f])).
  unfold ring in Hr. rewrite last_snoc in Hr.
  destruct (getblk_scan_quiet mine (l ++ [f]) (S (Z.to_nat (NR_BUFFERS s))) f s (head (l ++ [f])) Hq Hr) as (z & Hz & Hu & Hv).
  - apply dl_app in Hr as [_ (_ & Hnx & _)]. rewrite Hnx. done.
  - apply Hval. set_solver.
  - done.
  - exists x. split; [|done]. destruct Hux as (b & Hb & _). apply aget_Some_range in Hb.
    assert (Hin : x ∈ f :: l) by (rewrite Hperm; apply elem_of_range; lia). set_solver.
  - rewrite length_app. cbn in *. lia.
  - by exists z.
Qed.

Context (patience : nat) (Hpat : (0 < patience)%nat).

Lemma wait_quiet mine x b s : aget (bufs s) x = Some b -> b_lock b = 0 -> wait_on_buffer patience mine x s = Ok tt s.
Proof using Hpat.
  intros Hb Hl. unfold wait_on_buffer. destruct patience as [|n]; [lia|]. cbn [iter]. cbv beta.
  rewrite bind_assoc, (run_bind _ _ _ _ _ (bh_at_run s x b Hb)), Hl. done.
Qed.

Lemma iter_once {A B} (body : A -> M bst (A + B)) x s r s' : body x s = Ok (inr r) s' -> iter patience body x s = Ok r s'.
Proof using Hpat. intros Hb. destruct patience as [|n]; [lia|]. cbn [iter]. by rewrite (run_bind _ _ _ _ _ Hb). Qed.

Lemma get_hash_table_quiet mine dev block s : bufs_ok mine s -> (length mine <= 4)%nat -> quiet s -> dev <> 0 -> in_u16 dev ->
  exists r s', get_hash_table patience mine dev block s = Ok r s' /\
    match r with Some x => found mine dev block s x s' | None => s' = s /\ forall x, ~ is_for s dev block x end.
Proof using Hpat.
  intros Hok Hl Hq Hd Hu. 
  enough (exists r s', get_hash_table_step patience mine dev block tt s = Ok (inr r) s' /\
    match r with Some x => found mine dev block s x s' | None => s' = s /\ forall x, ~ is_for s dev block x end) as (r & s' & Hrun & Hr).
  { exists r, s'. split; [by apply iter_once|done]. }
  destruct (find_buffer_ok mine dev block s Hok Hd Hu) as (r & Hrun & Hr). unfold get_hash_table_step.
  rewrite (run_bind _ _ _ _ _ Hrun). destruct r as [x|]; [|by exists None, s].
  destruct Hr as (b & Hb & Ed & En). assert (Hv : valid s x) by (by apply aget_Some_range in Hb). assert (Hx0 : 0 <= x) by (unfold valid in Hv; lia).
  rewrite (run_bind _ _ _ _ _ (bh_upd_run s x _ Hv)). set (f := fun b => set_b_count (u8 (b_count b + 1)) b). set (s1 := upd_buf x f s).
  assert (Hb1 : aget (bufs s1) x = Some (f b)) by (unfold s1; rewrite aget_upd_buf by done; by rewrite decide_True, Hb).
  destruct (Hq x b Hb) as [Hlk _]. rewrite (run_bind _ _ _ _ _ (wait_quiet (x :: mine) x (f b) s1 Hb1 Hlk)).
  rewrite (run_bind _ _ _ _ _ (bh_at_run s1 x (f b) Hb1)). change (b_dev (f b)) with (b_dev b). change (b_blocknr (f b)) with (b_blocknr b).
  rewrite Ed, En, !Z.eqb_refl. cbn [andb]. pose proof (bufs_ok_get mine s x Hl Hv Hok) as Hok1. fold f s1 in Hok1.
  destruct (put_last_free_ok (x :: mine) s1 x Hok1 ltac:(by apply valid_upd)) as (s2 & Hrun2 & Hok2 & Hsb & _).
  rewrite (run_bind _ _ _ _ _ Hrun2). exists (Some x), s2. split; [done|]. split; [done|].
  assert (K : forall m, keeps m s s2).
  { intros m. apply (keeps_trans _ s s1); [apply (keeps_same noflags); [by apply same_but_upd|done]|by apply (keeps_same no_free)]. }
  split; [done|]. apply (keeps_for [x] s); [done|set_solver|by exists b].
Qed.

Lemma getblk_quiet mine dev block s : bufs_ok mine s -> (length mine <= 4)%nat -> quiet s -> (exists x, unused s x) -> dev <> 0 -> in_u16 dev ->
  exists x s', getblk patience mine dev block s = Ok x s' /\ found mine dev block s x s'.
Proof using Hpat.
  intros Hok Hl Hq Hex Hd Hu. destruct (get_hash_table_quiet mine dev block s Hok Hl Hq Hd Hu) as (r & s1 & Hrun & Hr).
  enough (exists x s', getblk_step patience mine dev block tt s = Ok (inr x) s' /\ found mine dev block s x s') as (x & s' & Hrun' & Hx).
  { exists x, s'. split; [by apply iter_once|done]. }
  unfold getblk_step.
  rewrite (run_bind _ _ _ _ _ Hrun). destruct r as [x|]; [by exists x, s1|]. destruct Hr as [-> Hno].
  rewrite (run_bind getS _ s s s) by done.
  destruct (getblk_search mine s Hok Hq Hex) as (f & x & Hf & Hscan & (b & Hb & Hc) & Hv). rewrite Hf.
  rewrite (run_bind (ofOpt (Some f)) _ s f s) by done. rewrite (run_bind _ _ _ _ _ Hscan).
  destruct (Hq x b Hb) as [Hlk Hdt]. rewrite (run_bind _ _ _ _ _ (wait_quiet mine x b s Hb Hlk)).
  rewrite (run_bind _ _ _ _ _ (bh_at_run s x b Hb)). rewrite Hc. cbn [truth Z.eqb negb].
  assert (Hclean : iter patience (clean_step patience mine x) tt s = Ok true s).
  { apply iter_once. unfold clean_step. rewrite (run_bind _ _ _ _ _ (bh_at_run s x b Hb)). by rewrite (Hdt Hc). }
  rewrite (run_bind _ _ _ _ _ Hclean). cbn [negb].
  destruct (find_buffer_ok mine dev block s Hok Hd Hu) as (r & Hfb & Hr). rewrite (run_bind _ _ _ _ _ Hfb).
  destruct r as [y|]; [by apply Hno in Hr|]. destruct (refill_ok mine s x b dev block Hok Hb Hc Hd Hu Hno) as (s4 & Hrun4 & Hf4).
  unfold refill in Hrun4. apply bind_Ok in Hrun4 as ([] & t1 & R1 & Hrun4). apply bind_Ok in Hrun4 as ([] & t2 & R2 & Hrun4).
  apply bind_Ok in Hrun4 as ([] & t3 & R3 & R4). rewrite (run_bind _ _ _ _ _ R1). rewrite (run_bind _ _ _ _ _ R2).
  rewrite (run_bind _ _ _ _ _ R3). rewrite (run_bind _ _ _ _ _ R4). by exists x, s4.
Qed.
End Quiet.

(** ** [buffer_init] *)

Lemma range_cons lo n : range lo (S n) = lo :: range (lo + 1) n.
Proof.
  unfold range. cbn [seq fmap list_fmap]. f_equal; [lia|]. rewrite <-seq_shift, <-list_fmap_compose.
  apply list_fmap_ext. intros ???. cbn. lia.
Qed.

Lemma dl_range n p k : forall lo, (forall i, lo <= i < lo + Z.of_nat k -> n i = Some (i + 1) /\ p i = Some (i - 1)) ->
  dl n p (Some (lo - 1)) (range lo k) (Some (lo + Z.of_nat k)).
Proof.
  induction k as [|k IH]; intros lo H; [done|]. rewrite range_cons. cbn [dl]. destruct (H lo) as [Hn Hp]; [lia|].
  split; [done|]. split.
  - rewrite Hn. destruct k as [|k]; [cbn; f_equal; lia|]. rewrite range_cons. done.
  - replace (Some lo) with (Some (lo + 1 - 1)) by (f_equal; lia). replace (lo + Z.of_nat (S k)) with (lo + 1 + Z.of_nat k) by lia.
    apply IH. intros i Hi. apply H. lia.
Qed.

Lemma head_range lo k : head (range lo (S k)) = Some lo.
Proof. by rewrite range_cons. Qed.
Lemma last_range lo k : last (range lo (S k)) = Some (lo + Z.of_nat k).
Proof. by rewrite range_S, last_snoc. Qed.

(** A head as the loop leaves it, and the memory of the data areas. *)
Definition new_head (stale : Z -> Z) (i : Z) (b : buffer_head) : Prop :=
  b = Buf (b_data b) (stale i) 0 0 0 0 0 None None (Some (i - 1)) (Some (i + 1)).

Definition in_memory (lo hi : Z) (b : buffer_head) : Prop :=
  lo <= b_data b /\ b_data b + 1024 <= hi /\ (b_data b + 1024 <= 0xA0000 \/ 0x100000 <= b_data b).

Definition apart (s : bst) : Prop :=
  forall x y b c, aget (bufs s) x = Some b -> aget (bufs s) y = Some c -> x < y -> b_data c + 1024 <= b_data b.

Lemma aget_snoc {A} (l : list A) x i y : aget (l ++ [x]) i = Some y -> aget l i = Some y \/ (i = Z.of_nat (length l) /\ y = x).
Proof.
  unfold aget. destruct (Z.ltb_spec i 0); [done|]. intros Hl. apply lookup_app_Some in Hl as [Hl|[Hlen Hl]]; [by left|].
  apply list_lookup_singleton_Some in Hl as [E ->]. right. split; [lia|done].
Qed.

(** The drivers before the first request. *)
Definition blank_requests (s : bst) : Prop :=
  Z.of_nat (length (requests s)) = NR_REQUEST /\ current_request s = replicate (Z.to_nat NR_BLK_DEV) None /\
  forall x r, aget (requests s) x = Some r -> r_dev r < 0.

Lemma blank_reqs_ok s : blank_requests s -> reqs_ok s.
Proof.
  intros (H1 & H2 & H3). split; [done|by rewrite H2| |intros x r b Hx Hr; specialize (H3 x r Hx); lia].
  exists (fun _ => []). split; [|split; set_solver]. intros m Hm. split; [|by split; [|constructor]]. rewrite H2.
  unfold aget. destruct (Z.ltb_spec m 0); [lia|]. apply lookup_replicate. split; [done|]. unfold NR_BLK_DEV in *. lia.
Qed.

Section Init.
Context (end_ b0 : Z) (stale : Z -> Z) (table : list request) (heads : list (option Z)).
Context (Hend : 0 <= end_) (Hroom : end_ + 2 * SIZEOF_BH + 2048 <= Z.min b0 0xA0000).
Context (Hal : b0 mod 1024 = 0) (Hhole : b0 <= 0xA0000 \/ 0x100000 < b0).

Record init_inv (x : Z * Z) (s : bst) : Prop := {
  ii_len : Z.of_nat (length (bufs s)) = fst x /\ NR_BUFFERS s = fst x;
  ii_heads : forall i b, aget (bufs s) i = Some b -> new_head stale i b /\ in_memory (snd x) b0 b;
  ii_apart : apart s;
  ii_next : snd x mod 1024 = 0 /\ (snd x <= 0xA0000 \/ 0x100000 < snd x) /\ snd x <= b0 /\ end_ + SIZEOF_BH * fst x <= snd x;
  ii_reqs : requests s = table /\ current_request s = heads;
  ii_two : (fst x = 0 -> snd x = b0) /\ (fst x = 1 -> Z.min (b0 - 1024) 0xA0000 <= snd x)
}.

(** The memory the heads and the data areas take. *)
Record init_done (h : Z) (s : bst) : Prop := {
  id_len : Z.of_nat (length (bufs s)) = h /\ NR_BUFFERS s = h /\ 2 <= h;
  id_heads : forall i b, aget (bufs s) i = Some b -> new_head stale i b /\ in_memory (end_ + SIZEOF_BH * h) b0 b;
  id_apart : apart s;
  id_reqs : requests s = table /\ current_request s = heads
}.

Lemma init_step_ok x s : init_inv x s ->
  wp (init_step end_ stale x) s (fun r s' => match r with
    | inl x' => init_inv x' s' /\ (Z.to_nat (snd x' / 1024) < Z.to_nat (snd x / 1024))%nat
    | inr h => init_done h s' end) no_halt.
Proof using Hend Hroom Hal Hhole.
  destruct x as [h b]. intros [[Hlen Hnr] Hhd Hap (Hmod & Hho & Hle & Hlow) Hrq [Ht0 Ht1]]. cbn [fst snd] in *. unfold SIZEOF_BH in *.
  assert (Hstop : b - 1024 < end_ + 36 * (h + 1) \/ 0xA0000 < end_ + 36 * (h + 1) -> init_done h s).
  { intros Hst. assert (2 <= h).
    { destruct (Z.eq_dec h 0) as [E|]; [specialize (Ht0 E); lia|]. destruct (Z.eq_dec h 1) as [E|]; [specialize (Ht1 E); lia|]. lia. }
    split; [done| |done|done]. intros i c Hc. destruct (Hhd i c Hc) as [H1 (H2 & H3 & H4)]. split; [done|]. unfold in_memory, SIZEOF_BH. lia. }
  unfold init_step, SIZEOF_BH. destruct (Z.leb_spec (end_ + 36 * (h + 1)) (b - 1024)) as [Hfit|]; cbn [negb]; [|apply wp_ret, Hstop; by left].
  destruct (Z.ltb_spec 0xA0000 (end_ + 36 * (h + 1))); [apply wp_ret, Hstop; by right|].
  apply wp_bind, wp_modify, wp_ret. cbn [fst snd].
  assert (Hq : exists k, b = 1024 * k) by (exists (b / 1024); pose proof (Z.div_mod b 1024); lia). destruct Hq as [k ->].
  set (nb := if 1024 * k - 1024 =? 0x100000 then 0xA0000 else 1024 * k - 1024).
  assert (Hnb : exists k', nb = 1024 * k' /\ k' < k /\ 0 <= k' /\ (nb <= 0xA0000 \/ 0x100000 < nb) /\ nb <= 1024 * k - 1024 /\ (nb = 1024 * k - 1024 \/ nb = 0xA0000)).
  { unfold nb. destruct (Z.eqb_spec (1024 * k - 1024) 0x100000); [exists 640|exists (k - 1)]; lia. }
  destruct Hnb as (k' & Ek & Hk & Hk0 & Hho' & Hle' & Hor). split; [split|].
  - cbn. rewrite length_app. cbn. lia.
  - intros i c Hc. apply aget_snoc in Hc as [Hc|[-> ->]].
    + destruct (Hhd i c Hc) as [H1 (H2 & H3 & H4)]. split; [done|]. unfold in_memory. cbn [snd]. lia.
    + unfold new_head, in_memory. cbn [snd b_data]. rewrite Hlen. split; [done|]. lia.
  - intros x y c d Hc Hd Hxy. apply aget_snoc in Hc as [Hc|[-> ->]], Hd as [Hd|[-> ->]].
    + by apply (Hap x y).
    + destruct (Hhd x c Hc) as [_ (H2 & _)]. cbn [b_data]. lia.
    + apply aget_Some_range in Hd. lia.
    + lia.
  - cbn [fst snd]. unfold SIZEOF_BH. split; [rewrite Ek, Z.mul_comm; apply Z.mod_mul; lia|]. lia.
  - exact Hrq.
  - cbn [fst snd]. split; [lia|]. intros E. assert (h = 0) as Eh by lia. specialize (Ht0 Eh). lia.
  - fold nb. rewrite Ek, !(Z.mul_comm 1024), !Z.div_mul by lia. lia.
Qed.

Lemma init_loop n s : (Z.to_nat (b0 / 1024) < n)%nat -> bufs s = [] -> NR_BUFFERS s = 0 -> requests s = table -> current_request s = heads ->
  exists h s', iter n (init_step end_ stale) (0, b0) s = Ok h s' /\ init_done h s'.
Proof using Hend Hroom Hal Hhole.
  intros Hn Hb Hnr Hq Hc. apply wp_total.
  apply (wp_iter (init_step end_ stale) init_inv (fun x _ => Z.to_nat (snd x / 1024))); [intros x t; apply init_step_ok| |done].
  split; cbn [fst snd]; rewrite ?Hb.
  - split; [done|lia].
  - intros i b Hi. unfold aget in Hi. by destruct (i <? 0).
  - intros x y b c Hx. rewrite Hb in Hx. unfold aget in Hx. by destruct (x <? 0).
  - split; [done|]. unfold SIZEOF_BH in *. lia.
  - done.
  - lia.
Qed.
End Init.

Ltac ring_case :=
  first [done|lia|f_equal; lia|exfalso; match goal with H : ~ _ |- _ => apply H; f_equal; lia end].

(** The ring that is closed at the end of [buffer_init]. *)
Lemma closed_ring s n stale : Z.of_nat (length (bufs s)) = n -> 2 <= n -> (forall i b, aget (bufs s) i = Some b -> new_head stale i b) ->
  let s' := upd_buf (n - 1) (set_b_next_free (Some 0)) (upd_buf 0 (set_b_prev_free (Some (n - 1))) s) in
  ring (fld b_next_free s') (fld b_prev_free s') (range 0 (length (bufs s))).
Proof.
  intros Hl Hn Hh s'. destruct (length (bufs s)) as [|k] eqn:El; [lia|].
  assert (Hd : dl (fld b_next_free s) (fld b_prev_free s) (Some (0 - 1)) (range 0 (S k)) (Some (0 + Z.of_nat (S k)))).
  { apply dl_range. intros i Hi. destruct (aget_in_range (bufs s) i) as [b Hb]; [lia|]. rewrite !(fld_none _ _ _ _ Hb).
    rewrite (Hh i b Hb). done. }
  unfold ring. rewrite head_range, last_range. eapply dl_ends; [apply NoDup_range|exact Hd| |].
  - intros y Hy. apply elem_of_range in Hy. rewrite last_range. unfold s'. destruct (aget_in_range (bufs s) y) as [b Hb]; [lia|].
    unfold fld. rewrite !aget_upd_buf by lia. rewrite Hb. repeat (case_decide || case_bool_decide); simplify_eq/=; ring_case.
  - intros y Hy. apply elem_of_range in Hy. rewrite head_range. unfold s'. destruct (aget_in_range (bufs s) y) as [b Hb]; [lia|].
    unfold fld. rewrite !aget_upd_buf by lia. rewrite Hb. repeat (case_decide || case_bool_decide); simplify_eq/=; ring_case.
Qed.

(** The cache after [buffer_init]: every buffer is unused, clean, unlocked and
    of no device; the data areas lie in the memory behind the heads, outside
    the hole between 640 kB and 1 MB, and do not overlap. *)
Definition blank (b : buffer_head) : Prop := b_dev b = 0 /\ b_count b = 0 /\ b_dirt b = 0 /\ b_lock b = 0 /\ b_uptodate b = 0.

Lemma buffer_init_run (end_ : Z) (stale : Z -> Z) (buffer_end : Z) (s : bst) :
  0 <= end_ -> (forall i, in_u32 (stale i)) -> NR_BUFFERS s = 0 -> blank_requests s -> buffer_end mod 1024 = 0 ->
  end_ + 2 * SIZEOF_BH + 2048 <= Z.min buffer_end 0xA0000 -> buffer_end <= 0xA0000 \/ 0x100000 <= buffer_end ->
  exists s', buffer_init end_ stale buffer_end s = Ok tt s' /\ bufs_ok [] s' /\ apart s' /\
    forall x b, aget (bufs s') x = Some b -> blank b /\ in_memory (end_ + SIZEOF_BH * NR_BUFFERS s') buffer_end b.
Proof.
  intros He Hst Hnr Hblk Hal Hroom Hhole. set (b0 := if buffer_end =? Z.shiftl 1 20 then 640 * 1024 else buffer_end).
  assert (Hb0 : b0 <= buffer_end /\ b0 mod 1024 = 0 /\ (b0 <= 0xA0000 \/ 0x100000 < b0) /\ end_ + 2 * SIZEOF_BH + 2048 <= Z.min b0 0xA0000).
  { unfold b0. change (Z.shiftl 1 20) with 0x100000. destruct (Z.eqb_spec buffer_end 0x100000); [|lia]. split; [lia|]. split; [done|]. lia. }
  destruct Hb0 as (Hb1 & Hb2 & Hb3 & Hb4).
  destruct (init_loop end_ b0 stale (requests s) (current_request s) He Hb4 Hb2 Hb3 (Z.to_nat (buffer_end / 1024 + 2)) (set_bufs [] s))
    as (n & s1 & Hrun & [(Hl & Hn & H2) Hh Hap [Erq Ecr]]); [|done..|].
  { assert (b0 / 1024 <= buffer_end / 1024) by (apply Z.div_le_mono; lia). assert (0 <= b0 / 1024) by (apply Z.div_pos; unfold SIZEOF_BH in *; lia). lia. }
  set (s2 := set_free_list (Some 0) s1). set (s3 := upd_buf 0 (set_b_prev_free (Some (n - 1))) s2).
  set (s4 := upd_buf (n - 1) (set_b_next_free (Some 0)) s3). set (s5 := set_hash_table (replicate (Z.to_nat NR_HASH) None) s4).
  assert (Hl4 : length (bufs s4) = length (bufs s1)) by (unfold s4, s3; cbn; by rewrite !length_alter).
  assert (Hsame : same_but no_free s2 s4) by (apply (same_but_trans _ s2 s3); by apply same_but_upd).
  assert (Hhead : forall x b, aget (bufs s5) x = Some b -> exists c, aget (bufs s1) x = Some c /\ no_free c = no_free b).
  { intros x b Hb. apply (same_but_buf no_free no_free s2 s4 x b Hsame); [by intros []|exact Hb]. }
  assert (Hblank : forall x b, aget (bufs s5) x = Some b -> (blank b /\ b_blocknr b = stale x /\ b_next b = None /\ b_prev b = None) /\
                     in_memory (end_ + SIZEOF_BH * n) b0 b /\ exists c, aget (bufs s1) x = Some c /\ b_data c = b_data b).
  { intros x b Hb. destruct (Hhead x b Hb) as (c & Hc & E). destruct (Hh x c Hc) as [Hnew Hmem].
    assert (Ed : b_data c = b_data b) by (destruct c, b; injection E as; by simplify_eq/=).
    split; [|split; [unfold in_memory in *; by rewrite <-Ed|by exists c]]. rewrite Hnew in E. destruct b. injection E as. by simplify_eq/=. }
  exists s5. split; [|split; [|split]].
  - unfold buffer_init. fold b0. rewrite (run_bind _ _ s tt (set_bufs [] s)) by done. rewrite (run_bind _ _ _ _ _ Hrun).
    rewrite (run_bind _ _ s1 tt s2) by done. rewrite (run_bind _ _ s2 tt s3) by (apply bh_upd_run; unfold valid; cbn; lia).
    rewrite (run_bind _ _ s3 tt s4) by (apply bh_upd_run; unfold s3; rewrite valid_upd; unfold valid; cbn; lia). done.
  - split.
    + change (NR_BUFFERS s5) with (NR_BUFFERS s1). change (bufs s5) with (bufs s4). by rewrite Hl4, Hl.
    + change (bufs s5) with (bufs s4). lia.
    + exists (range 0 (length (bufs s1))). split; [change (bufs s5) with (bufs s4); by rewrite Hl4|]. split.
      * destruct (length (bufs s1)) as [|k] eqn:Ek; [lia|]. by rewrite head_range.
      * apply (closed_ring s2 n stale Hl H2). intros i b Hb. by apply Hh.
    + exists (fun _ => []). split; [done|]. intros h Hr. split; [|split; [done|split; [constructor|]]].
      * unfold aget. destruct (Z.ltb_spec h 0); [lia|]. cbn [head]. apply lookup_replicate. split; [done|]. unfold NR_HASH in *. lia.
      * intros x. split; [set_solver|]. intros [_ (b & Hb & Hd & _)]. by destruct (Hblank x b Hb) as [[[? _] _] _].
    + intros x b Hb. destruct (Hblank x b Hb) as [((B1 & B2 & B3 & B4 & B5) & B6 & B7 & B8) _]. split; [rewrite B1; unfold in_u16; lia|by rewrite B6| |done].
      rewrite B2. unfold mult, OTHERS. cbn. lia.
    + set_solver.
    + intros x y b c Hb _ Hd. by destruct (Hblank x b Hb) as [[[? _] _] _].
    + apply blank_reqs_ok. unfold blank_requests. change (requests s5) with (requests s1). change (current_request s5) with (current_request s1).
      by rewrite Erq, Ecr.
  - intros x y b c Hb Hc Hxy. destruct (Hblank x b Hb) as (_ & _ & b' & Hb' & <-), (Hblank y c Hc) as (_ & _ & c' & Hc' & <-). by apply (Hap x y).
  - intros x b Hb. destruct (Hblank x b Hb) as [[B _] [Hm _]]. split; [done|]. change (NR_BUFFERS s5) with (NR_BUFFERS s1). rewrite Hn.
    unfold in_memory in *. lia.
Qed.

(** ** What the cache promises *)

(** The answer of [bread]: a buffer of the block with valid contents and a
    reference to it, or none and no reference; the task's other buffers stay
    what they were. *)
Definition read_answer (mine : list Z) (dev block : Z) (s : bst) (r : res bst bptr) : Prop :=
  match r with
  | Ok (Some x) s' => found mine dev block s x s' /\ fresh_copy s' x
  | Ok None s' => same_for mine s s'
  | Halt h _ => h = Hang
  end.

(** C1: whatever the other tasks and the drivers do within the rules of the
    cache, [bread] never faults or panics: it waits, or answers with the one
    buffer of the block, up to date and with one more reference, or with
    nothing, and the cache is in order: the ring and the hash queues are intact
    and no block has two buffers. *)
Theorem bread_correct `{BL : BlockLayer} {BLok : BlockLayerOk} (patience : nat) (mine : list Z) (dev block : Z) (s : bst)
    (Hok : bufs_ok mine s) (Hmine : (length mine <= 4)%nat) (Hdev : dev <> 0 /\ in_u16 dev) :
  read_answer mine dev block s (bread patience mine dev block s).
Proof.
  destruct Hdev as [Hd Hu]. pose proof (bread_ok patience mine dev block s Hok Hmine Hd Hu) as H. unfold wp in H.
  unfold read_answer. destruct (bread patience mine dev block s) as [[x|] s'|h s']; exact H.
Qed.

(** if no buffer is locked, the unused ones are clean and there is an
    unused one, [getblk] answers without waiting, in every environment: the
    result is the buffer of the block, and it holds a reference to it. *)
Theorem getblk_at_once `{BL : BlockLayer} (patience : nat) (mine : list Z) (dev block : Z) (s : bst)
    (Hpat : (0 < patience)%nat) (Hok : bufs_ok mine s) (Hmine : (length mine <= 4)%nat) (Hquiet : quiet s)
    (Hunused : exists x, unused s x) (Hdev : dev <> 0 /\ in_u16 dev) :
  exists x s', getblk patience mine dev block s = Ok x s' /\ found mine dev block s x s'.
Proof. destruct Hdev. by apply getblk_quiet. Qed.

(** [buffer_init] sets up a cache in order in which every buffer is blank;
    the data areas do not overlap each other, the heads or the hole between
    640 kB and 1 MB, and end below [buffer_end]. *)
Theorem buffer_init_ok (end_ : Z) (stale : Z -> Z) (buffer_end : Z) (s : bst)
    (Hend : 0 <= end_) (Hstale : forall i, in_u32 (stale i)) (Hnr : NR_BUFFERS s = 0) (Hblk : blank_requests s) (Hal : buffer_end mod 1024 = 0)
    (Hroom : end_ + 2 * SIZEOF_BH + 2048 <= Z.min buffer_end 0xA0000) (Hhole : buffer_end <= 0xA0000 \/ 0x100000 <= buffer_end) :
  exists s', buffer_init end_ stale buffer_end s = Ok tt s' /\ bufs_ok [] s' /\ apart s' /\
    forall x b, aget (bufs s') x = Some b -> blank b /\ in_memory (end_ + SIZEOF_BH * NR_BUFFERS s') buffer_end b.
Proof. by apply buffer_init_run. Qed.

(** ** Witnesses *)

(** A machine where nobody else runs and transfers are immediate. *)
Definition idle_layer : BlockLayer := {|
  sleeping := fun _ => mret tt;
  ll_rw_block := fun _ _ x => bh_upd x (fun b => set_b_lock 0 (set_b_dirt 0 (set_b_uptodate 1 b)));
  sync_inodes := fun _ => mret tt |}.

Lemma idle_layer_ok : @BlockLayerOk idle_layer.
Proof.
  split; cbn.
  - intros mine s Hok. exact (same_for_refl mine s Hok).
  - intros mine _ x s _ Hok Hv. eapply wp_of_run; [by apply bh_upd_run|]. split; [by apply bufs_ok_flags|].
    apply (keeps_same noflags); [by apply same_but_upd|done].
  - intros mine s Hok. exact (same_for_refl mine s Hok).
Qed.

Definition no_cache : bst :=
  Bst [] 0 [] None ∅ ∅ (replicate (Z.to_nat NR_REQUEST) (Req (-1) 0 0 0 0 0 false None None)) (replicate (Z.to_nat NR_BLK_DEV) None).

Lemma no_cache_blank : blank_requests no_cache.
Proof.
  split; [done|]. split; [done|]. intros x r. unfold aget. destruct (x <? 0); [done|]. cbn [no_cache requests].
  intros [-> _]%lookup_replicate. done.
Qed.
Definition small_cache : bst := match buffer_init 0 (fun _ => 0) 4096 no_cache with Ok _ s => s | Halt _ s => s end.

Lemma small_cache_ok : bufs_ok [] small_cache /\ quiet small_cache.
Proof.
  destruct (buffer_init_run 0 (fun _ => 0) 4096 no_cache) as (s' & Hrun & Hok & _ & Hb);
    [lia|by intros _|done|apply no_cache_blank|done|done|left; done|]. unfold small_cache. rewrite Hrun. split; [done|].
  intros x b Hx. by destruct (Hb x b Hx) as [(_ & ? & ? & ? & _) _].
Qed.

Lemma bread_correct_witness :
  read_answer [] 0x301 7 small_cache (@bread idle_layer 1 [] 0x301 7 small_cache) /\
  exists x s', @bread idle_layer 1 [] 0x301 7 small_cache = Ok (Some x) s'.
Proof.
  split.
  - apply (@bread_correct idle_layer idle_layer_ok 1 [] 0x301 7 small_cache); [apply small_cache_ok|cbn; lia|].
    split; [done|]. unfold in_u16. lia.
  - eexists _, _. vm_compute. reflexivity.
Defined.

Lemma getblk_at_once_witness : exists x s', @getblk idle_layer 1 [] 0x301 7 small_cache = Ok x s' /\ found [] 0x301 7 small_cache x s'.
Proof.
  apply (@getblk_at_once idle_layer 1 [] 0x301 7 small_cache); [lia|apply small_cache_ok|cbn; lia|apply small_cache_ok| |].
  - exists 0. eexists. split; [vm_compute; reflexivity|done].
  - split; [done|]. unfold in_u16. lia.
Defined.

Lemma buffer_init_ok_witness : exists s', buffer_init 0 (fun _ => 0) 4096 no_cache = Ok tt s' /\ bufs_ok [] s' /\ apart s' /\
  forall x b, aget (bufs s') x = Some b -> blank b /\ in_memory (0 + SIZEOF_BH * NR_BUFFERS s') 4096 b.
Proof. apply (buffer_init_ok 0 (fun _ => 0) 4096 no_cache); [lia|by intros _|done|apply no_cache_blank|done|done|left; done]. Defined.
