(* ===== verification/Blk.v ===== *)
(** * Block requests: [kernel/blk_drv/ll_rw_blk.c] and [blk_drv/blk.h]

    The table of requests and, for each major device number, the queue of the
    driver: a list through the [next] fields, kept in the order of the
    elevator.  The state is that of the buffer cache, whose interface
    [BlockLayer] these routines implement. *)

From S2P Require Import Prelude TaskStruct Buffer Cache.

Definition MAJOR (a : Z) : Z := Z.shiftr (u32 a) 8.

(** [IN_ORDER(s1, s2)]: reads first, then by device, then by sector. *)
Definition IN_ORDER (s1 s2 : request) : bool :=
  (r_cmd s1 <? r_cmd s2) || ((r_cmd s1 =? r_cmd s2) &&
  ((r_dev s1 <? r_dev s2) || ((r_dev s1 =? r_dev s2) && (r_sector s1 <? r_sector s2)))).

Definition set_r_next v r := Req (r_dev r) (r_cmd r) (r_errors r) (r_sector r) (r_nr_sectors r) (r_buffer r) (r_waiting r) (r_bh r) v.
Definition set_r_dev v r := Req v (r_cmd r) (r_errors r) (r_sector r) (r_nr_sectors r) (r_buffer r) (r_waiting r) (r_bh r) (r_next r).
Definition set_r_progress e sec n buf r := Req (r_dev r) (r_cmd r) e sec n buf (r_waiting r) (r_bh r) (r_next r).
Definition set_r_waiting v r := Req (r_dev r) (r_cmd r) (r_errors r) (r_sector r) (r_nr_sectors r) (r_buffer r) v (r_bh r) (r_next r).

Definition req_at (x : Z) : M bst request := s ← getS; ofOpt (aget (requests s) x).
Definition req_upd (x : Z) (f : request -> request) : M bst unit :=
  s ← getS; r ← ofOpt (aget (requests s) x); l ← ofOpt (aset (requests s) x (f r)); modify (set_requests l).
Definition get_current (major : Z) : M bst (option Z) := s ← getS; ofOpt (aget (current_request s) major).
Definition put_current (major : Z) (p : option Z) : M bst unit :=
  s ← getS; l ← ofOpt (aset (current_request s) major p); modify (set_current l).

(** The drivers, and what happens while a task sleeps: [request_fn] gives the
    routine of a major number, if there is one. *)
Class Drivers := {
  asleep : list Z -> M bst unit;
  request_fn : Z -> option (M bst unit)
}.

Section Requests.
Context `{Drivers}.
Context (patience : nat).

(** [static inline void lock_buffer(struct buffer_head * bh)] *)
Definition lock_buffer (mine : list Z) (bh : Z) : M bst unit :=
  iter patience (fun _ => b ← bh_at bh; if truth (b_lock b) then asleep mine;; mret (inl tt) else mret (inr tt)) tt;;
  bh_upd bh (set_b_lock 1).

(** [static inline void unlock_buffer(struct buffer_head * bh)] *)
Definition unlock_buffer (bh : Z) : M bst unit := bh_upd bh (set_b_lock 0).

(** Where the loop of [add_request] stops: between [tmp] and [next]. *)
Definition stop_at (req tmp next : request) : bool :=
  match r_bh req with
  | None => match r_bh next with Some _ => true | None => false end
  | Some _ => (IN_ORDER tmp req || negb (IN_ORDER tmp next)) && IN_ORDER req next
  end.

Definition elevator_step (req : Z) (tmp : Z) : M bst (Z + Z) :=
  t ← req_at tmp;
  match r_next t with
  | None => mret (inr tmp)
  | Some n => nr ← req_at n; r ← req_at req; if stop_at r t nr then mret (inr tmp) else mret (inl n)
  end.

(** [static void add_request(struct blk_dev_struct * dev, struct request * req)] *)
Definition add_request (major req : Z) : M bst unit :=
  req_upd req (set_r_next None);;
  r ← req_at req;
  match r_bh r with Some b => bh_upd b (set_b_dirt 0) | None => mret tt end;;
  c ← get_current major;
  match c with
  | None =>
      put_current major (Some req);;
      match request_fn major with Some f => f | None => halts Fault end
  | Some tmp0 =>
      tmp ← iter (S (Z.to_nat NR_REQUEST)) (elevator_step req) tmp0;
      t ← req_at tmp;
      req_upd req (set_r_next (r_next t));;
      req_upd tmp (set_r_next (Some req))
  end.

(** The search for a free entry below [hi], from the end. *)
Definition free_req (hi : Z) (l : list request) : option Z :=
  List.find (fun i => match aget l i with Some r => r_dev r <? 0 | None => false end) (reverse (range 0 (Z.to_nat hi))).

(** [static void make_request(int major, int rw, struct buffer_head * bh)] *)
Definition make_request (mine : list Z) (major rw bh : Z) : M bst unit :=
  b ← bh_at bh;
  let rw_ahead := (rw =? READA) || (rw =? WRITEA) in
  if rw_ahead && truth (b_lock b) then mret tt
  else
    let rw := if rw =? READA then READ else if rw =? WRITEA then WRITE else rw in
    if negb (rw =? READ) && negb (rw =? WRITE) then halts (Panic "Bad block dev command, must be R/W/RA/WA")
    else
      lock_buffer mine bh;;
      b ← bh_at bh;
      if ((rw =? WRITE) && negb (truth (b_dirt b))) || ((rw =? READ) && truth (b_uptodate b)) then unlock_buffer bh
      else
        o ← iter patience (fun _ =>
              s ← getS;
              match free_req (if rw =? READ then NR_REQUEST else NR_REQUEST * 2 / 3) (requests s) with
              | Some req => mret (inr (Some req))
              | None => if rw_ahead then mret (inr None) else asleep mine;; mret (inl tt)
              end) tt;
        match o with
        | None => unlock_buffer bh
        | Some req =>
            b ← bh_at bh;
            req_upd req (fun _ => Req (b_dev b) rw 0 (u32 (Z.shiftl (b_blocknr b) 1)) 2 (b_data b) false (Some bh) None);;
            add_request major req
        end.

(** [void ll_rw_block(int rw, struct buffer_head *bh)] *)
Definition ll_rw_block (mine : list Z) (rw bh : Z) : M bst unit :=
  b ← bh_at bh;
  let major := MAJOR (b_dev b) in
  match (if NR_BLK_DEV <=? major then None else request_fn major) with
  | None => mret tt
  | Some _ => make_request mine major rw bh
  end.

(** Waiting for a free entry without a buffer: [ll_rw_page] and
    [ll_rw_swap_file]. *)
Definition wait_free_req (mine : list Z) : M bst Z :=
  iter patience (fun _ =>
    s ← getS;
    match free_req NR_REQUEST (requests s) with Some req => mret (inr req) | None => asleep mine;; mret (inl tt) end) tt.

(** [void ll_rw_page(int rw, int dev, int page, char *buffer)] *)
Definition ll_rw_page (mine : list Z) (rw dev page buffer : Z) : M bst unit :=
  let major := MAJOR dev in
  match (if NR_BLK_DEV <=? major then None else request_fn major) with
  | None => mret tt
  | Some _ =>
      if negb (rw =? READ) && negb (rw =? WRITE) then halts (Panic "Bad block dev command, must be R/W")
      else
        req ← wait_free_req mine;
        req_upd req (fun _ => Req dev rw 0 (u32 (Z.shiftl page 3)) 8 buffer true None None);;
        add_request major req;;
        asleep mine
  end.

(** [void ll_rw_swap_file(int rw, int dev, unsigned int *b, int nb, char *buf)] *)
Fixpoint swap_file_loop (mine : list Z) (major rw dev : Z) (bs : list Z) (buf : Z) : M bst unit :=
  match bs with
  | [] => mret tt
  | b :: bs' =>
      req ← wait_free_req mine;
      req_upd req (fun _ => Req dev rw 0 (u32 (Z.shiftl b 1)) 2 buf true None None);;
      add_request major req;;
      asleep mine;;
      swap_file_loop mine major rw dev bs' (buf + 1024)
  end.
Definition ll_rw_swap_file (mine : list Z) (rw dev : Z) (bs : list Z) (buf : Z) : M bst unit :=
  let major := MAJOR dev in
  match (if NR_BLK_DEV <=? major then None else request_fn major) with
  | None => mret tt
  | Some _ => if negb (rw =? READ) && negb (rw =? WRITE) then mret tt else swap_file_loop mine major rw dev bs buf
  end.

(** [void blk_dev_init(void)] *)
Definition blk_dev_init : M bst unit :=
  for_each (range 0 (Z.to_nat NR_REQUEST)) (fun i => req_upd i (fun r => set_r_next None (set_r_dev (-1) r))).

(** [static void end_request(int uptodate)] of the driver of [major]; the
    message about an error reads the block number through the buffer head. *)
Definition end_request (major uptodate : Z) : M bst unit :=
  c ← get_current major;
  x ← ofOpt c;
  r ← req_at x;
  match r_bh r with
  | Some b => bh_upd b (set_b_uptodate (u8 uptodate));; unlock_buffer b
  | None => mret tt
  end;;
  (if truth uptodate then mret tt else b ← ofOpt (r_bh r); bh_at b;; mret tt);;
  req_upd x (fun r => set_r_waiting false (set_r_dev (-1) r));;
  r ← req_at x;
  put_current major (r_next r).

End Requests.

(** The routines as the cache sees them. *)
#[export] Instance request_layer `{Drivers} (patience : nat) (sync : list Z -> M bst unit) : BlockLayer := {|
  sleeping := asleep;
  Buffer.ll_rw_block := ll_rw_block patience;
  sync_inodes := sync |}.

(** ** The elevator *)

(** What [add_request] means: [req] goes into the rest [l] of the queue behind
    [t]. *)
Fixpoint elevator (req t : request) (l : list request) : list request :=
  match l with
  | [] => [req]
  | n :: l' => if stop_at req t n then req :: n :: l' else n :: elevator req n l'
  end.

(** The number of times the head turns back. *)
Fixpoint turns (t : request) (l : list request) : nat :=
  match l with [] => O | n :: l' => ((if IN_ORDER t n then 0 else 1) + turns n l')%nat end.

Definition key (r : request) : Z * Z * Z := (r_cmd r, r_dev r, r_sector r).

Lemma IN_ORDER_trans a b c : IN_ORDER a b = true -> IN_ORDER b c = true -> IN_ORDER a c = true.
Proof. unfold IN_ORDER. lia. Qed.

Lemma IN_ORDER_total a b : key a <> key b -> IN_ORDER a b = false -> IN_ORDER b a = true.
Proof.
  unfold key, IN_ORDER. intros Hk H1.
  assert (~ (r_cmd a = r_cmd b /\ r_dev a = r_dev b /\ r_sector a = r_sector b)) by (intros (E1 & E2 & E3); apply Hk; congruence). lia.
Qed.

Lemma elevator_perm req t l : elevator req t l ≡ₚ req :: l.
Proof.
  revert t. induction l as [|n l IH]; intros t; [done|]. cbn [elevator]. destruct (stop_at req t n); [done|]. rewrite IH. apply perm_swap.
Qed.

(** In an ascending run that starts before it, a request finds its place. *)
Lemma elevator_ascending req : forall l t, r_bh req <> None -> (forall n, n ∈ l -> key n <> key req) ->
  IN_ORDER t req = true -> turns t l = O -> turns t (elevator req t l) = O.
Proof.
  induction l as [|n l IH]; intros t Hb Hk Ht H0; cbn [elevator turns]; [by rewrite Ht|]. cbn [turns] in H0.
  destruct (IN_ORDER t n) eqn:En; [|lia]. unfold stop_at. destruct (r_bh req) eqn:Eb; [|done]. rewrite Ht. cbn [orb].
  destruct (IN_ORDER req n) eqn:Er; cbn [turns andb]; [by rewrite Ht, Er|]. rewrite En. cbn. apply IH; try done.
  - intros m Hm. apply Hk. set_solver.
  - apply IN_ORDER_total; [|done]. intros E. apply (Hk n); [set_solver|by symmetry].
Qed.

Lemma elevator_turns req : forall l t, r_bh req <> None -> (forall n, n ∈ t :: l -> key n <> key req) ->
  (turns t l <= 1)%nat -> (turns t (elevator req t l) <= 1)%nat.
Proof.
  induction l as [|n l IH]; intros t Hb Hk H1; cbn [elevator turns]; [by destruct (IN_ORDER t req); cbn; lia|]. cbn [turns] in H1.
  unfold stop_at. destruct (r_bh req) eqn:Eb; [|done].
  assert (IHn : (turns n l <= 1)%nat -> (turns n (elevator req n l) <= 1)%nat) by (apply IH; [done|intros m Hm; apply Hk; by constructor]).
  destruct (IN_ORDER t req) eqn:Et, (IN_ORDER t n) eqn:En, (IN_ORDER req n) eqn:Er;
    cbn [orb andb negb turns] in *; rewrite ?Et, ?En, ?Er; cbn in *; try lia; try (by apply IHn).
  all: try (rewrite (IN_ORDER_trans t req n Et Er) in En; done).
  all: assert (Hn : IN_ORDER n req = true) by (apply IN_ORDER_total; [intros E; apply (Hk n); [repeat constructor|by symmetry]|done]).
  all: rewrite elevator_ascending; [lia|by rewrite Eb|intros m Hm; apply Hk; by repeat constructor|done|lia].
Qed.
