(* ===== verification/Elevator.v ===== *)
(** * Theorems about block requests

    [add_request] puts a request into the queue of its driver where the
    elevator wants it; [ll_rw_block] keeps the table of requests and the cache
    in order, so that it is a [BlockLayer] as the cache needs it; a driver that
    ends its requests is one as [ll_rw_block] needs it. *)

From S2P Require Import Prelude TaskStruct Buffer Cache Bread Blk.

(** ** Queues through the table *)

Lemma path_insert n n' l1 x y l2 : NoDup (l1 ++ x :: l2) -> y ∉ l1 ++ x :: l2 -> path n (l1 ++ x :: l2) ->
  n' y = n x -> n' x = Some y -> (forall z, z ∈ l1 ++ x :: l2 -> z <> x -> n' z = n z) -> path n' (l1 ++ x :: y :: l2).
Proof.
  induction l1 as [|z l1 IH]; intros Hnd Hy Hp Hny Hnx Hz; cbn [app path head] in *.
  - destruct Hp as [Hx Hp]. apply NoDup_cons in Hnd as [Hxl _]. split; [done|]. split; [congruence|].
    clear Hny Hnx Hx. revert Hp. assert (Hz' : forall z, z ∈ l2 -> n' z = n z) by (intros z H; apply Hz; [set_solver|by intros ->]).
    clear -Hz'. induction l2 as [|w l2 IH]; [done|]. intros [H1 H2]. split; [rewrite Hz' by set_solver; done|]. apply IH; [set_solver|done].
  - apply NoDup_cons in Hnd as [Hzl Hnd]. destruct Hp as [H1 H2]. split.
    + rewrite Hz by set_solver. rewrite H1. by destruct l1.
    + apply IH; try done; [set_solver|]. intros w Hw. apply Hz. set_solver.
Qed.

Lemma path_same n n' l : path n l -> (forall z, z ∈ l -> n' z = n z) -> path n' l.
Proof.
  induction l as [|x l IH]; intros Hp Hz; [done|]. destruct Hp as [H1 H2]. split; [rewrite Hz by set_solver; done|]. apply IH; [done|set_solver].
Qed.

(** The elevator on indices of the table. *)
Definition no_req : request := Req (-1) 0 0 0 0 0 false None None.
Definition rq (s : bst) (x : Z) : request := default no_req (aget (requests s) x).

Fixpoint insert_at (s : bst) (req t : Z) (l : list Z) : list Z :=
  match l with
  | [] => [req]
  | n :: l' => if stop_at (rq s req) (rq s t) (rq s n) then req :: n :: l' else n :: insert_at s req n l'
  end.

Lemma insert_at_elevator s req l : forall t, rq s <$> insert_at s req t l = elevator (rq s req) (rq s t) (rq s <$> l).
Proof.
  induction l as [|n l IH]; intros t; [done|]. cbn [insert_at elevator fmap list_fmap].
  destruct (stop_at (rq s req) (rq s t) (rq s n)); [done|]. cbn. f_equal. apply IH.
Qed.

Lemma req_at_run s x : 0 <= x < Z.of_nat (length (requests s)) -> req_at x s = Ok (rq s x) s.
Proof.
  intros Hx. destruct (aget_in_range (requests s) x Hx) as [r Hr]. unfold req_at, rq, getS, mbind, M_bind. by rewrite Hr.
Qed.

Lemma elevator_walk s req : 0 <= req < Z.of_nat (length (requests s)) -> forall l t n,
  (forall x, x ∈ t :: l -> 0 <= x < Z.of_nat (length (requests s))) -> path (nxr s) (t :: l) -> (length l < n)%nat ->
  exists l1 x l2, t :: l = l1 ++ x :: l2 /\ iter n (elevator_step req) t s = Ok x s /\ t :: insert_at s req t l = l1 ++ x :: req :: l2.
Proof.
  intros Hreq. induction l as [|m l IH]; intros t n Hval Hp Hn; (destruct n as [|n]; [cbn in Hn; lia|]).
  all: assert (Ht : 0 <= t < Z.of_nat (length (requests s))) by (apply Hval; set_solver).
  all: assert (Hnt : r_next (rq s t) = nxr s t) by (destruct (aget_in_range (requests s) t Ht) as [r Hr]; unfold rq, nxr; by rewrite Hr).
  all: destruct Hp as [Hnx Hp]; rewrite Hnx in Hnt; cbn [head] in Hnt; cbn [iter].
  - exists [], t, []. split; [done|]. split; [|done]. rewrite (run_bind _ _ s (inr t) s); [done|].
    unfold elevator_step. rewrite (run_bind _ _ _ _ _ (req_at_run s t Ht)). by rewrite Hnt.
  - assert (Hm : 0 <= m < Z.of_nat (length (requests s))) by (apply Hval; set_solver).
    assert (Hstep : elevator_step req t s = Ok (if stop_at (rq s req) (rq s t) (rq s m) then inr t else inl m) s).
    { unfold elevator_step. rewrite (run_bind _ _ _ _ _ (req_at_run s t Ht)). rewrite Hnt.
      rewrite (run_bind _ _ _ _ _ (req_at_run s m Hm)), (run_bind _ _ _ _ _ (req_at_run s req Hreq)). by destruct (stop_at _ _ _). }
    cbn [insert_at]. destruct (stop_at (rq s req) (rq s t) (rq s m)).
    + exists [], t, (m :: l). split; [done|]. split; [by rewrite (run_bind _ _ _ _ _ Hstep)|done].
    + destruct (IH m n) as (l1 & x & l2 & E1 & Hrun & E2); [set_solver|done|cbn in Hn; lia|].
      exists (t :: l1), x, l2. split; [by rewrite E1|]. split; [|by rewrite E2]. rewrite (run_bind _ _ _ _ _ Hstep). exact Hrun.
Qed.

(** Updating an entry of the table. *)
Definition upd_req (x : Z) (f : request -> request) (s : bst) : bst := set_requests (alter f (Z.to_nat x) (requests s)) s.

Lemma req_upd_run s x f : 0 <= x < Z.of_nat (length (requests s)) -> req_upd x f s = Ok tt (upd_req x f s).
Proof.
  intros Hx. destruct (aget_in_range (requests s) x Hx) as [r Hr]. unfold req_upd, getS, mbind, M_bind. rewrite Hr. cbn.
  rewrite aset_in_range by exact Hx. cbn. unfold modify, upd_req. f_equal. f_equal. unfold aget in Hr. destruct (x <? 0); [done|].
  rewrite list_insert_alter. apply list_eq. intros i. rewrite !list_lookup_alter. case_decide as E; [|done]. subst i. by rewrite Hr.
Qed.

Lemma aget_upd_req s x f y : 0 <= x ->
  aget (requests (upd_req x f s)) y = if decide (y = x) then f <$> aget (requests s) y else aget (requests s) y.
Proof.
  intros Hx. cbn. unfold aget. destruct (Z.ltb_spec y 0); [by case_decide|].
  rewrite list_lookup_alter. repeat case_decide; first [congruence|lia].
Qed.

Lemma upd_req_length x f s : length (requests (upd_req x f s)) = length (requests s).
Proof. cbn. by rewrite length_alter. Qed.

Lemma nxr_upd s x f y : 0 <= x -> nxr (upd_req x f s) y = if decide (y = x) then aget (requests s) y ≫= (fun r => r_next (f r)) else nxr s y.
Proof. intros Hx. unfold nxr. rewrite aget_upd_req by done. case_decide; [|done]. by destruct (aget (requests s) y). Qed.

(** The cache does not care about the table, as long as it is in order. *)
Lemma bufs_ok_reqs mine s s' : bufs_ok mine s -> reqs_ok s' -> bufs s' = bufs s -> NR_BUFFERS s' = NR_BUFFERS s ->
  hash_table s' = hash_table s -> free_list s' = free_list s -> bufs_ok mine s'.
Proof.
  intros [A1 A2 (l & B1 & B2 & B3) (q & C1 & C2) A5 A6 A7 A8] Hr Hb Hn Hh Hf. split; rewrite ?Hb, ?Hn; try done.
  - exists l. unfold free_ring, fld. by rewrite Hb, Hf.
  - exists q. unfold queues, fld, hashed. by rewrite Hb, Hh.
  - unfold valid. by rewrite Hb.
Qed.

Lemma same_for_reqs mine s s' : bufs_ok mine s -> reqs_ok s' -> bufs s' = bufs s -> NR_BUFFERS s' = NR_BUFFERS s ->
  hash_table s' = hash_table s -> free_list s' = free_list s -> same_for mine s s'.
Proof.
  intros Hok Hr Hb Hn Hh Hf. split; [by apply (bufs_ok_reqs mine s)|]. unfold keeps. rewrite Hb. split; [done|]. intros. congruence.
Qed.

(** Only links change. *)
Definition only_links (s s' : bst) : Prop :=
  (forall y, set_r_next None <$> aget (requests s') y = set_r_next None <$> aget (requests s) y) /\
  length (requests s') = length (requests s) /\ current_request s' = current_request s /\
  bufs s' = bufs s /\ NR_BUFFERS s' = NR_BUFFERS s /\ hash_table s' = hash_table s /\ free_list s' = free_list s.

Lemma only_links_refl s : only_links s s.
Proof. by repeat split. Qed.
Lemma only_links_trans s1 s2 s3 : only_links s1 s2 -> only_links s2 s3 -> only_links s1 s3.
Proof.
  intros (A1 & A2 & A3 & A4 & A5 & A6 & A7) (B1 & B2 & B3 & B4 & B5 & B6 & B7). split; [intros y; by rewrite B1, A1|].
  split_and!; congruence.
Qed.

Lemma only_links_upd s x v : 0 <= x -> only_links s (upd_req x (set_r_next v) s).
Proof.
  intros Hx. split; [|by rewrite upd_req_length]. intros y. rewrite aget_upd_req by done. case_decide; [|done].
  by destruct (aget (requests s) y).
Qed.

Lemma only_links_entry s s' y r : only_links s s' -> aget (requests s') y = Some r ->
  exists r0, aget (requests s) y = Some r0 /\ set_r_next None r0 = set_r_next None r.
Proof. intros [H _] Hr. specialize (H y). rewrite Hr in H. destruct (aget (requests s) y) as [r0|]; [|done]. apply (inj Some) in H. by exists r0. Qed.

Lemma only_links_key s s' y : only_links s s' -> set_r_next None (rq s' y) = set_r_next None (rq s y).
Proof.
  intros [H _]. specialize (H y). unfold rq. destruct (aget (requests s') y) as [r|], (aget (requests s) y) as [r0|]; try done.
  by apply (inj Some) in H.
Qed.

Definition in_table (s : bst) (x : Z) : Prop := 0 <= x < Z.of_nat (length (requests s)).

(** The second half of [add_request], for a queue that is not empty. *)
Definition link_request (req tmp0 : Z) : M bst unit :=
  tmp ← iter (S (Z.to_nat NR_REQUEST)) (elevator_step req) tmp0;
  t ← req_at tmp;
  req_upd req (set_r_next (r_next t));;
  req_upd tmp (set_r_next (Some req)).

Lemma link_request_run s req t l : in_table s req -> (forall x, x ∈ t :: l -> in_table s x) -> NoDup (t :: l) -> req ∉ t :: l ->
  path (nxr s) (t :: l) -> Z.of_nat (length l) <= NR_REQUEST ->
  exists s', link_request req t s = Ok tt s' /\ path (nxr s') (t :: insert_at s req t l) /\ only_links s s' /\
    forall z, z ∉ req :: t :: l -> nxr s' z = nxr s z.
Proof.
  intros Hreq Hval Hnd Hni Hp Hlen. destruct (elevator_walk s req Hreq l t (S (Z.to_nat NR_REQUEST)) Hval Hp) as (l1 & x & l2 & E1 & Hrun & E2).
  { unfold NR_REQUEST in *. lia. }
  assert (Hx : x ∈ t :: l) by (rewrite E1; set_solver). assert (Hne : x <> req) by (intros ->; done).
  pose proof (Hval x Hx) as Hvx. assert (Hx0 : 0 <= x) by (unfold in_table in Hvx; lia). assert (Hr0 : 0 <= req) by (unfold in_table in Hreq; lia).
  set (s1 := upd_req req (set_r_next (r_next (rq s x))) s). set (s2 := upd_req x (set_r_next (Some req)) s1). exists s2.
  assert (Hxq : r_next (rq s x) = nxr s x) by (destruct (aget_in_range (requests s) x Hvx) as [r Hr]; unfold rq, nxr; by rewrite Hr).
  assert (Hnx : forall z, nxr s2 z = if decide (z = x) then Some req else if decide (z = req) then nxr s x else nxr s z).
  { intros z. unfold s2. rewrite nxr_upd by done. case_decide as Ez.
    - subst z. unfold s1. rewrite aget_upd_req by done. rewrite decide_False by done. destruct (aget_in_range (requests s) x Hvx) as [r ->]. done.
    - unfold s1. rewrite nxr_upd by done. case_decide as Ez'; [|done]. subst z. rewrite Hxq.
      destruct (aget_in_range (requests s) req Hreq) as [r ->]. done. }
  split; [|split; [|split]].
  - unfold link_request. rewrite (run_bind _ _ _ _ _ Hrun). rewrite (run_bind _ _ _ _ _ (req_at_run s x Hvx)).
    rewrite (run_bind _ _ _ _ _ (req_upd_run s req _ Hreq)). apply req_upd_run. by rewrite upd_req_length.
  - rewrite E2. rewrite E1 in Hnd, Hni, Hp. apply (path_insert (nxr s)); [done|done|done|..].
    + by rewrite Hnx, decide_False, decide_True.
    + by rewrite Hnx, decide_True.
    + intros z Hz Hzx. rewrite Hnx, !decide_False; [done| |done]. intros ->. done.
  - apply (only_links_trans s s1); by apply only_links_upd.
  - intros z Hz. rewrite Hnx, !decide_False; [done| |]; intros ->; set_solver.
Qed.

(** The queue of a driver. *)
Definition drv_queue (s : bst) (major : Z) (l : list Z) : Prop :=
  aget (current_request s) major = Some (head l) /\ path (nxr s) l /\ NoDup l /\ forall x, x ∈ l -> in_table s x.

Lemma insert_at_perm s req l : forall t, insert_at s req t l ≡ₚ req :: l.
Proof.
  induction l as [|n l IH]; intros t; [done|]. cbn [insert_at]. destruct (stop_at _ _ _); [done|]. rewrite IH. apply perm_swap.
Qed.

(** Where it goes: the others keep their order, and a request for a page passes those for
    pages only. *)
Lemma insert_at_split s req l : forall t, exists l1 l2, l = l1 ++ l2 /\ insert_at s req t l = l1 ++ req :: l2 /\
  (r_bh (rq s req) = None -> (forall x, x ∈ l1 -> r_bh (rq s x) = None) /\ (forall x, head l2 = Some x -> r_bh (rq s x) <> None)).
Proof.
  induction l as [|n l IH]; intros t; [exists [], []; repeat split; set_solver|]. cbn [insert_at]. destruct (stop_at (rq s req) (rq s t) (rq s n)) eqn:E.
  - exists [], (n :: l). repeat split; [set_solver|]. intros x [= <-]. unfold stop_at in E. rewrite H in E. by destruct (r_bh (rq s n)).
  - destruct (IH n) as (l1 & l2 & -> & E1 & Hpage). exists (n :: l1), l2. split; [done|]. split; [by rewrite E1|]. intros Hb. destruct (Hpage Hb) as [H1 H2]. split; [|done].
    intros x [->|Hx]%elem_of_cons; [|by apply H1]. unfold stop_at in E. rewrite Hb in E. by destruct (r_bh (rq s n)).
Qed.

Lemma key_links r r' : set_r_next None r = set_r_next None r' -> key r = key r'.
Proof. destruct r, r'. intros E. injection E as. unfold key. by simplify_eq/=. Qed.

Lemma turns_keys l l' : forall t t', key t = key t' -> Forall2 (fun a b => key a = key b) l l' -> turns t l = turns t' l'.
Proof.
  intros t t' Ht H. revert t t' Ht. induction H as [|a b l l' Hab H IH]; intros t t' Ht; [done|]. cbn [turns]. rewrite (IH a b Hab). f_equal.
  unfold IN_ORDER. unfold key in *. by simplify_eq; repeat match goal with E : _ = _ :> Z |- _ => rewrite E; clear E end.
Qed.

(** Entries with the same contents but for the links. *)
Definition same_entries (s s' : bst) : Prop := forall y, set_r_next None (rq s' y) = set_r_next None (rq s y).

Lemma stop_at_links a b c a' b' c' : set_r_next None a = set_r_next None a' -> set_r_next None b = set_r_next None b' ->
  set_r_next None c = set_r_next None c' -> stop_at a b c = stop_at a' b' c'.
Proof. destruct a, b, c, a', b', c'. intros E1 E2 E3. injection E1 as; injection E2 as; injection E3 as. by simplify_eq/=. Qed.

Lemma insert_at_same s s' req l : same_entries s s' -> forall t, insert_at s' req t l = insert_at s req t l.
Proof.
  intros Hs. induction l as [|n l IH]; intros t; [done|]. cbn [insert_at].
  rewrite (stop_at_links (rq s' req) (rq s' t) (rq s' n) (rq s req) (rq s t) (rq s n)) by apply Hs. by rewrite IH.
Qed.

(** [add_request] before the branch. *)
Definition prepared (req : Z) (r : request) (s : bst) : bst :=
  let s0 := upd_req req (set_r_next None) s in
  match r_bh r with Some b => upd_buf b (set_b_dirt 0) s0 | None => s0 end.

Lemma prepared_facts req r s : in_table s req -> aget (requests s) req = Some r ->
  requests (prepared req r s) = requests (upd_req req (set_r_next None) s) /\ current_request (prepared req r s) = current_request s /\
  same_entries s (prepared req r s) /\ nxr (prepared req r s) req = None /\ (forall z, z <> req -> nxr (prepared req r s) z = nxr s z) /\
  length (requests (prepared req r s)) = length (requests s).
Proof.
  intros Hin Hr. assert (H0 : 0 <= req) by (unfold in_table in Hin; lia).
  assert (Eq : requests (prepared req r s) = requests (upd_req req (set_r_next None) s)) by (unfold prepared; by destruct (r_bh r)).
  split; [done|]. split; [unfold prepared; by destruct (r_bh r)|]. unfold same_entries, rq, nxr. rewrite Eq.
  split; [|split; [|split]].
  - intros y. rewrite aget_upd_req by done. case_decide; [|done]. subst y. rewrite Hr. by destruct r.
  - rewrite aget_upd_req by done. by rewrite decide_True, Hr.
  - intros z Hz. rewrite aget_upd_req by done. by rewrite decide_False.
  - apply upd_req_length.
Qed.

Section Add.
Context `{DR : Drivers}.

Lemma add_request_prepared major req r s c : in_table s req -> aget (requests s) req = Some r ->
  (forall b, r_bh r = Some b -> valid s b) -> aget (current_request s) major = Some c ->
  add_request major req s =
    match c with
    | None => (put_current major (Some req);; match request_fn major with Some f => f | None => halts Fault end) (prepared req r s)
    | Some t => link_request req t (prepared req r s)
    end.
Proof using.
  intros Hin Hr Hv Hc. assert (H0 : 0 <= req) by (unfold in_table in Hin; lia).
  unfold add_request. rewrite (run_bind _ _ _ _ _ (req_upd_run s req _ Hin)). set (s0 := upd_req req (set_r_next None) s).
  assert (Hr0 : aget (requests s0) req = Some (set_r_next None r)) by (unfold s0; rewrite aget_upd_req by done; by rewrite decide_True, Hr).
  rewrite (run_bind (req_at req) _ s0 (set_r_next None r) s0) by (unfold req_at, getS, mbind, M_bind; by rewrite Hr0).
  change (r_bh (set_r_next None r)) with (r_bh r). rewrite (run_bind _ _ s0 tt (prepared req r s)).
  2:{ unfold prepared. fold s0. destruct (r_bh r) as [b|] eqn:Eb; [|done]. apply bh_upd_run. by apply Hv. }
  rewrite (run_bind (get_current major) _ _ c (prepared req r s)).
  2:{ unfold get_current, getS, mbind, M_bind. destruct (prepared_facts req r s Hin Hr) as (_ & -> & _). by rewrite Hc. }
  by destruct c.
Qed.

(** C13: [add_request] puts the request into the queue of the driver, at one place behind
    the one being served; the others stay where they are, in their order.  A request for a
    buffer keeps the elevator going one way: if the queue turns back at most
    once and the request is for a sector of its own, it still turns back at most
    once.  A request for a page goes behind the requests for pages at the head of the
    queue and before every request for a buffer. *)
Theorem add_request_elevator (s : bst) (major req t : Z) (l : list Z) (r : request)
    (Hreq : aget (requests s) req = Some r) (Hq : drv_queue s major (t :: l)) (Hnew : req ∉ t :: l)
    (Hbuf : forall b, r_bh r = Some b -> valid s b) (Hlen : Z.of_nat (length l) <= NR_REQUEST) :
  exists s' l1 l2, l = l1 ++ l2 /\ add_request major req s = Ok tt s' /\ drv_queue s' major (t :: l1 ++ req :: l2) /\ same_entries s s' /\
    (r_bh r <> None -> (forall n, n ∈ t :: l -> key (rq s n) <> key r) ->
       (turns (rq s t) (rq s <$> l) <= 1)%nat -> (turns (rq s' t) (rq s' <$> l1 ++ req :: l2) <= 1)%nat) /\
    (r_bh r = None -> (forall x, x ∈ l1 -> r_bh (rq s x) = None) /\ (forall x, head l2 = Some x -> r_bh (rq s x) <> None)).
Proof using.
  destruct Hq as (Hcur & Hp & Hnd & Hval). assert (Hin : in_table s req) by (by apply aget_Some_range in Hreq).
  destruct (prepared_facts req r s Hin Hreq) as (_ & Ecur & Hse & _ & Hnx & Hlr).
  rewrite (add_request_prepared major req r s (Some t) Hin Hreq Hbuf Hcur). set (s1 := prepared req r s) in *.
  destruct (link_request_run s1 req t l) as (s' & Hrun & Hp' & Hol & _).
  - unfold in_table. by rewrite Hlr.
  - intros x Hx. unfold in_table. rewrite Hlr. by apply Hval.
  - done.
  - done.
  - apply (path_same (nxr s)); [done|]. intros z Hz. apply Hnx. intros ->. done.
  - done.
  - rewrite (insert_at_same s s1 req l Hse) in Hp'. pose proof (insert_at_perm s req l t) as Hperm.
    assert (Hse' : same_entries s s') by (intros y; by rewrite (only_links_key s1 s' y Hol), Hse).
    assert (Erq : rq s req = r) by (unfold rq; by rewrite Hreq).
    destruct (insert_at_split s req l t) as (l1 & l2 & El & Ei & Hpage). exists s', l1, l2. rewrite <-Ei. split; [done|]. split; [done|]. split; [|split; [done|split]].
    + destruct Hol as (_ & Hl' & Hc' & _). split; [by rewrite Hc', Ecur|]. split; [done|].
      assert (Hperm' : t :: insert_at s req t l ≡ₚ req :: t :: l) by (rewrite Hperm; apply perm_swap). split.
      * rewrite Hperm'. by apply NoDup_cons.
      * intros x. rewrite Hperm'. unfold in_table. rewrite Hl', Hlr. intros [->|Hx]%elem_of_cons; [exact Hin|by apply Hval].
    + intros Hb Hk Hturn. rewrite (turns_keys _ (rq s <$> insert_at s req t l) _ (rq s t)); [|by apply key_links, Hse'|].
      2:{ apply Forall2_fmap. apply Forall_Forall2_diag, Forall_forall. intros x _. apply key_links, Hse'. }
      rewrite insert_at_elevator. apply elevator_turns; [by rewrite Erq| |done]. rewrite Erq. intros n Hn.
      change (rq s t :: (rq s <$> l)) with (rq s <$> t :: l) in Hn. apply list_elem_of_fmap in Hn as (x & -> & Hx). by apply Hk.
    + intros Hb. apply Hpage. by rewrite Erq.
Qed.
End Add.

(** ** The interface of the cache, implemented *)

Class DriversOk `{Drivers} := {
  asleep_ok : forall mine s, bufs_ok mine s -> wp (asleep mine) s (fun _ s' => same_for mine s s') only_hang;
  request_fn_ok : forall major f mine s, request_fn major = Some f -> 0 <= major < NR_BLK_DEV -> bufs_ok mine s ->
    wp f s (fun _ s' => same_for mine s s') only_hang
}.

Lemma pending_valid s q m x : pending s q -> 0 <= m < NR_BLK_DEV -> x ∈ q m -> in_table s x.
Proof. intros (_ & H & _) Hm Hx. destruct (H m x Hm Hx) as (r & Hr & _). by apply aget_Some_range in Hr. Qed.

Lemma pending_length s q m : pending s q -> Z.of_nat (length (requests s)) = NR_REQUEST -> 0 <= m < NR_BLK_DEV -> Z.of_nat (length (q m)) <= NR_REQUEST.
Proof.
  intros Hp Hl Hm. pose proof Hp as (H & _). destruct (H m Hm) as (_ & _ & Hnd). rewrite <-Hl.
  assert ((length (q m) <= length (range 0 (length (requests s))))%nat); [|rewrite length_range in *; lia].
  apply submseteq_length, NoDup_submseteq; [done|]. intros x Hx. apply (pending_valid s q m x Hp Hm) in Hx. apply elem_of_range. unfold in_table in Hx. lia.
Qed.

(** A request that no queue knows. *)
Definition loose (s : bst) (req : Z) : Prop :=
  (exists r, aget (requests s) req = Some r /\ 0 <= r_dev r) /\ exists q, pending s q /\ forall m, 0 <= m < NR_BLK_DEV -> req ∉ q m.

Lemma entry_same s s' y r : same_entries s s' -> length (requests s') = length (requests s) -> aget (requests s') y = Some r ->
  exists r0, aget (requests s) y = Some r0 /\ set_r_next None r0 = set_r_next None r.
Proof.
  intros Hs Hl Hr. destruct (aget_in_range (requests s) y) as [r0 Hr0]; [apply aget_Some_range in Hr; lia|]. exists r0. split; [done|].
  specialize (Hs y). unfold rq in Hs. by rewrite Hr, Hr0 in Hs.
Qed.

Lemma reqs_ok_relinked s s' q : reqs_ok s -> same_entries s s' -> length (requests s') = length (requests s) ->
  length (current_request s') = length (current_request s) -> length (bufs s') = length (bufs s) ->
  (forall m, 0 <= m < NR_BLK_DEV -> aget (current_request s') m = Some (head (q m)) /\ path (nxr s') (q m) /\ NoDup (q m)) ->
  (forall m x, 0 <= m < NR_BLK_DEV -> x ∈ q m -> exists r, aget (requests s) x = Some r /\ 0 <= r_dev r) ->
  (forall m m' x, 0 <= m < NR_BLK_DEV -> 0 <= m' < NR_BLK_DEV -> x ∈ q m -> x ∈ q m' -> m = m') -> reqs_ok s'.
Proof.
  intros [A1 A2 _ A4] Hs Hl Hc Hb Q1 Q2 Q3. split.
  - by rewrite Hl.
  - by rewrite Hc.
  - exists q. split; [done|]. split; [|done]. intros m x Hm Hx. destruct (Q2 m x Hm Hx) as (r & Hr & Hd).
    destruct (aget_in_range (requests s') x) as [r' Hr']; [apply aget_Some_range in Hr; lia|]. exists r'. split; [done|].
    destruct (entry_same s s' x r' Hs Hl Hr') as (r0 & Hr0 & E). assert (r0 = r) as -> by congruence. destruct r, r'. injection E as. by simplify_eq/=.
  - intros x r b Hr Hd Hbh. destruct (entry_same s s' x r Hs Hl Hr) as (r0 & Hr0 & E). unfold valid. rewrite Hb.
    apply (A4 x r0); [done|..]; destruct r0, r; injection E as; by simplify_eq/=.
Qed.

Lemma flag_ok mine x f s : (forall b, noflags (f b) = noflags b) -> (forall b, b_count (f b) = b_count b) -> bufs_ok mine s -> valid s x ->
  wp (bh_upd x f) s (fun _ s' => same_for mine s s') only_hang.
Proof.
  intros Hf Hc Hok Hv. eapply wp_of_run; [by apply bh_upd_run|]. split; [by apply bufs_ok_flags|].
  apply (keeps_same noflags); [by apply same_but_upd|]. intros b. done.
Qed.

Lemma reqs_ok_upd_back x f s : reqs_ok (upd_buf x f s) -> reqs_ok s.
Proof.
  apply (reqs_ok_same (fun _ => Buf 0 0 0 0 0 0 0 None None None None)). apply same_but_sym. by apply same_but_upd.
Qed.

Lemma prepared_ok mine req r s : bufs_ok mine s -> (forall b, r_bh r = Some b -> valid s b) -> reqs_ok (prepared req r s) ->
  same_for mine s (prepared req r s).
Proof.
  intros Hok Hv Hr. set (s0 := upd_req req (set_r_next None) s).
  assert (H0 : reqs_ok s0 -> same_for mine s s0) by (intros; by apply same_for_reqs).
  unfold prepared in *. fold s0 in Hr |- *. destruct (r_bh r) as [b|]; [|by apply H0].
  apply reqs_ok_upd_back in Hr as Hr0.
  destruct (H0 Hr0) as [Hok0 K0]. apply (same_for_trans _ s s0 _ K0). split; [by apply bufs_ok_flags; [..|apply Hv|]|].
  apply (keeps_same noflags); [by apply same_but_upd|done].
Qed.

(** Queues stay apart when one of them takes a request that no queue has. *)
Lemma disjoint_add (q : Z -> list Z) major l req : (forall m, 0 <= m < NR_BLK_DEV -> req ∉ q m) ->
  (forall m m' x, 0 <= m < NR_BLK_DEV -> 0 <= m' < NR_BLK_DEV -> x ∈ q m -> x ∈ q m' -> m = m') ->
  0 <= major < NR_BLK_DEV -> (forall x, x ∈ l -> x = req \/ x ∈ q major) ->
  forall m m' x, 0 <= m < NR_BLK_DEV -> 0 <= m' < NR_BLK_DEV ->
    x ∈ (if decide (m = major) then l else q m) -> x ∈ (if decide (m' = major) then l else q m') -> m = m'.
Proof.
  intros Hni Q3 Hm Hl m m' x H1 H2. destruct (decide (m = major)) as [->|], (decide (m' = major)) as [->|]; [done| | |by apply Q3].
  - intros [->|Hx]%Hl Hx'; [by apply Hni in Hx'|by apply (Q3 major m' x)].
  - intros Hx' [->|Hx]%Hl; [by apply Hni in Hx'|by apply (Q3 m major x)].
Qed.

Section Layer.
Context `{DR : Drivers} {DRok : DriversOk}.
Context (patience : nat).

Lemma add_request_ok mine major req s f : bufs_ok mine s -> loose s req -> 0 <= major < NR_BLK_DEV -> request_fn major = Some f ->
  wp (add_request major req) s (fun _ s' => same_for mine s s') only_hang.
Proof using DRok.
  intros Hok [(r & Hr & Hd) (q & Hpend & Hni)] Hm Hf. pose proof (bk_reqs _ _ Hok) as Hrq. pose proof Hpend as (Q1 & Q2 & Q3).
  assert (Hin : in_table s req) by (by apply aget_Some_range in Hr). assert (Hbuf : forall b, r_bh r = Some b -> valid s b) by (intros b; by apply (rk_bh s Hrq req r)).
  destruct (prepared_facts req r s Hin Hr) as (_ & Ecur & Hse & Hn0 & Hnx & Hlr). destruct (Q1 major Hm) as (Hcur & _ & _).
  unfold wp. rewrite (add_request_prepared major req r s _ Hin Hr Hbuf Hcur). set (s1 := prepared req r s) in *.
  assert (Hb1 : length (bufs s1) = length (bufs s)) by (unfold s1, prepared; destruct (r_bh r); cbn; by rewrite ?length_alter).
  assert (Hp1 : forall m, 0 <= m < NR_BLK_DEV -> path (nxr s1) (q m)).
  { intros m Hm'. apply (path_same (nxr s)); [by apply Q1|]. intros z Hz. apply Hnx. intros ->. by apply (Hni m Hm'). }
  assert (Hr1 : reqs_ok s1).
  { apply (reqs_ok_relinked s s1 q); try done; [by rewrite Ecur|]. intros m Hm'. rewrite Ecur. destruct (Q1 m Hm') as (? & _ & ?). by split_and!; [|apply Hp1|]. }
  destruct (prepared_ok mine req r s Hok Hbuf Hr1) as [Hok1 K1]. fold s1 in Hok1, K1. destruct (q major) as [|t l] eqn:Eq; cbn [head].
  - pose proof (rk_cur s Hrq) as Hcl. fold (wp (put_current major (Some req);; match request_fn major with Some f => f | None => halts Fault end) s1 (fun _ s' => same_for mine s s') only_hang).
    set (s2 := set_current (<[Z.to_nat major := Some req]> (current_request s1)) s1).
    eapply (wp_run_bind _ _ _ tt s2); [unfold put_current, getS, mbind, M_bind; rewrite aset_in_range by (rewrite Ecur; lia); done|].
    assert (Hr2 : reqs_ok s2).
    { apply (reqs_ok_relinked s s2 (fun m => if decide (m = major) then [req] else q m)); try done; [cbn; by rewrite length_insert, Ecur|..].
      - intros m Hm'. cbn [current_request s2 set_current]. rewrite Ecur. destruct (Q1 m Hm') as (A1 & _ & A3). case_decide as Em.
        + subst m. split; [by rewrite aget_insert_eq by lia|]. split; [split; [exact Hn0|done]|apply NoDup_singleton].
        + split; [by rewrite aget_insert_ne by lia|]. split; [by apply (Hp1 m)|done].
      - intros m x Hm'. case_decide; [|by apply Q2]. intros ->%list_elem_of_singleton. by exists r.
      - apply (disjoint_add q major [req] req Hni Q3); [done|]. intros x. rewrite list_elem_of_singleton. by left. }
    destruct (same_for_reqs mine s1 s2 Hok1 Hr2) as [Hok2 K2]; [done..|]. rewrite Hf.
    eapply wp_mono; [by apply (request_fn_ok major f mine)| |done]. intros [] s3 [Hok3 K3]. split; [done|].
    exact (keeps_trans _ _ _ _ K1 (keeps_trans _ _ _ _ K2 K3)).
  - assert (Hlen : Z.of_nat (length (q major)) <= NR_REQUEST) by (apply (pending_length s q major Hpend (rk_len s Hrq) Hm)).
    destruct (Q1 major Hm) as (_ & _ & Hnd). rewrite Eq in Hlen, Hnd. pose proof (Hp1 major Hm) as Hpm. rewrite Eq in Hpm.
    assert (Hval : forall x, x ∈ t :: l -> in_table s1 x).
    { intros x Hx. unfold in_table. rewrite Hlr. apply (pending_valid s q major x Hpend Hm). by rewrite Eq. }
    assert (Hnew : req ∉ t :: l) by (rewrite <-Eq; by apply Hni).
    destruct (link_request_run s1 req t l) as (s2 & Hrun & Hp2 & Hol & Hother); [unfold in_table; by rewrite Hlr|done|done|done|done|cbn in Hlen; lia|].
    rewrite Hrun. pose proof Hol as (_ & L2 & L3 & L4 & L5 & L6 & L7).
    assert (Hperm : t :: insert_at s1 req t l ≡ₚ req :: t :: l) by (rewrite insert_at_perm; apply perm_swap).
    assert (Hr2 : reqs_ok s2).
    { apply (reqs_ok_relinked s s2 (fun m => if decide (m = major) then t :: insert_at s1 req t l else q m)); try done.
      - intros y. by rewrite (only_links_key s1 s2 y Hol), Hse.
      - by rewrite L2, Hlr.
      - by rewrite L3, Ecur.
      - by rewrite L4, Hb1.
      - intros m Hm'. rewrite L3, Ecur. destruct (Q1 m Hm') as (A1 & _ & A3). case_decide as Em.
        + subst m. split; [by rewrite A1, Eq|]. split; [done|]. rewrite Hperm. by apply NoDup_cons.
        + split; [done|]. split; [|done]. apply (path_same (nxr s1)); [by apply Hp1|]. intros z Hz. apply Hother. intros [->|Hzz]%elem_of_cons.
          * by apply (Hni m Hm').
          * apply Em, (Q3 m major z); [done|done|done|by rewrite Eq].
      - intros m x Hm'. case_decide; [|by apply Q2]. rewrite Hperm. intros [->|Hx]%elem_of_cons; [by exists r|]. apply (Q2 major); [done|by rewrite Eq].
      - apply (disjoint_add q major _ req Hni Q3); [done|]. intros x. rewrite Hperm, elem_of_cons. by rewrite Eq. }
    destruct (same_for_reqs mine s1 s2 Hok1 Hr2) as [Hok2 K2]; [done..|]. split; [done|by eapply keeps_trans].
Qed.

(** Filling in a free entry makes it a request that no queue knows. *)
Lemma fill_ok mine req r r0 s : bufs_ok mine s -> aget (requests s) req = Some r0 -> r_dev r0 < 0 -> 0 <= r_dev r ->
  (forall b, r_bh r = Some b -> valid s b) ->
  wp (req_upd req (fun _ => r)) s (fun _ s' => same_for mine s s' /\ loose s' req) only_hang.
Proof using.
  intros Hok Hr0 Hneg Hd Hbh. pose proof (aget_Some_range _ _ _ Hr0) as Hin. assert (H0 : 0 <= req) by lia.
  eapply wp_of_run; [by apply req_upd_run|]. set (s' := upd_req req (fun _ => r) s). pose proof (bk_reqs _ _ Hok) as [A1 A2 (q & Q1 & Q2 & Q3) A4].
  assert (Hother : forall y, y <> req -> aget (requests s') y = aget (requests s) y).
  { intros y Hy. unfold s'. rewrite aget_upd_req by done. by rewrite decide_False. }
  assert (Hself : aget (requests s') req = Some r) by (unfold s'; rewrite aget_upd_req by done; by rewrite decide_True, Hr0).
  assert (Hni : forall m, 0 <= m < NR_BLK_DEV -> req ∉ q m).
  { intros m Hm Hx. destruct (Q2 m req Hm Hx) as (r' & Hr' & Hd'). assert (r' = r0) as -> by congruence. lia. }
  assert (Hp : pending s' q).
  { split; [|split; [|done]].
    - intros m Hm. destruct (Q1 m Hm) as (B1 & B2 & B3). split; [done|]. split; [|done]. apply (path_same (nxr s)); [done|].
      intros z Hz. unfold nxr. rewrite Hother; [done|]. intros ->. by apply (Hni m Hm).
    - intros m x Hm Hx. rewrite Hother; [by apply (Q2 m)|]. intros ->. by apply (Hni m Hm). }
  assert (Hr : reqs_ok s').
  { split; [unfold s'; by rewrite upd_req_length|done|by exists q|]. intros x rx b Hx. destruct (decide (x = req)) as [->|Hne].
    - assert (rx = r) as -> by congruence. intros _. apply Hbh.
    - rewrite Hother in Hx by done. by apply (A4 x). }
  split; [by apply same_for_reqs|]. split; [by exists r|by exists q].
Qed.

Lemma free_req_free hi l req : free_req hi l = Some req -> exists r, aget l req = Some r /\ r_dev r < 0.
Proof using.
  intros [_ H]%List.find_some. destruct (aget l req) as [r|]; [|done]. exists r. split; [done|]. lia.
Qed.

Lemma lock_buffer_ok mine x s : bufs_ok mine s -> valid s x -> wp (lock_buffer patience mine x) s (fun _ s' => same_for mine s s') only_hang.
Proof using DRok.
  intros Hok Hv. unfold lock_buffer. eapply (wp_seq _ _ _ (fun _ s' => same_for mine s s')).
  - apply (wp_iter_hang _ (fun _ s' => same_for mine s s')); [|by apply same_for_refl].
    intros [] s1 [Hok1 K1]. destruct (valid_buf s1 x (keeps_valid _ _ _ _ K1 Hv)) as [b Hb].
    eapply wp_run_bind; [by apply bh_at_run|]. destruct (truth (b_lock b)); [|by split].
    eapply wp_seq; [by apply asleep_ok|]. intros [] s2 [Hok2 K2]. split; [done|by eapply keeps_trans].
  - intros [] s1 [Hok1 K1]. eapply wp_mono; [apply (flag_ok mine x); [done|done|done|by eapply keeps_valid]| |done].
    intros [] s2 K2. by eapply same_for_trans.
Qed.

Lemma unlock_buffer_ok mine x s : bufs_ok mine s -> valid s x -> wp (unlock_buffer x) s (fun _ s' => same_for mine s s') only_hang.
Proof using. intros. by apply flag_ok. Qed.

Lemma make_request_ok mine major rw x s f : READ <= rw <= WRITEA -> 0 <= major < NR_BLK_DEV -> request_fn major = Some f -> bufs_ok mine s -> valid s x ->
  wp (make_request patience mine major rw x) s (fun _ s' => same_for mine s s') only_hang.
Proof using DRok.
  intros Hrw Hm Hf Hok Hv. unfold make_request. destruct (valid_buf s x Hv) as [b Hb]. eapply wp_run_bind; [by apply bh_at_run|]. cbv zeta.
  destruct (_ && truth (b_lock b)); [by apply wp_ret, same_for_refl|]. set (ahead := _ || _).
  set (rw' := if rw =? READA then _ else _). destruct (negb (rw' =? READ) && negb (rw' =? WRITE)) eqn:Ebad.
  { exfalso. unfold rw', READ, WRITE, READA, WRITEA in *. destruct (rw =? 2) eqn:?, (rw =? 3) eqn:?; lia. }
  eapply wp_seq; [by apply lock_buffer_ok|]. intros [] s1 [Hok1 K1]. pose proof (keeps_valid _ _ _ _ K1 Hv) as Hv1.
  destruct (valid_buf s1 x Hv1) as [b1 Hb1]. eapply wp_run_bind; [by apply bh_at_run|].
  assert (Hun : forall s2, same_for mine s1 s2 -> wp (unlock_buffer x) s2 (fun _ s' => same_for mine s s') only_hang).
  { intros s2 [Hok2 K2]. eapply wp_mono; [apply (unlock_buffer_ok mine); [done|by eapply keeps_valid]| |done].
    intros [] s3 S3. eapply same_for_trans; [|done]. by eapply keeps_trans. }
  match goal with |- wp (if ?c then _ else _) _ _ _ => destruct c end; [by apply Hun, same_for_refl|].
  eapply (wp_seq _ _ _ (fun o s2 => same_for mine s1 s2 /\ forall req, o = Some req -> exists r, aget (requests s2) req = Some r /\ r_dev r < 0)).
  { apply (wp_iter_hang _ (fun _ s' => same_for mine s1 s')); [|by apply same_for_refl]. intros [] s2 S2.
    eapply wp_run_bind; [done|]. destruct (free_req _ (requests s2)) as [req|] eqn:Efree.
    - apply wp_ret. split; [done|]. intros ? [= <-]. by apply free_req_free in Efree.
    - destruct ahead; [by apply wp_ret|]. destruct S2 as [Hok2 K2]. eapply wp_seq; [by apply asleep_ok|]. intros [] s3 S3. by eapply same_for_trans. }
  intros [req|] s2 [S2 Hfree]; [|by apply Hun]. destruct S2 as [Hok2 K2]. destruct (Hfree req eq_refl) as (r0 & Hr0 & Hneg).
  pose proof (keeps_valid _ _ _ _ K2 Hv1) as Hv2. destruct (valid_buf s2 x Hv2) as [b2 Hb2]. eapply wp_run_bind; [by apply bh_at_run|].
  eapply wp_seq; [apply (fill_ok mine req _ r0 s2 Hok2 Hr0 Hneg); cbn|].
  { pose proof (ho_dev _ _ _ (bk_heads _ _ Hok2 x b2 Hb2)) as Hdev. unfold in_u16 in Hdev. lia. }
  { by intros ? [= <-]. }
  intros [] s3 [[Hok3 K3] Hl]. eapply wp_mono; [by apply (add_request_ok mine major req s3 f)| |done].
  intros [] s4 S4. eapply same_for_trans; [|done]. exact (keeps_trans _ _ _ _ K1 (keeps_trans _ _ _ _ K2 K3)).
Qed.

Lemma rw_block_ok mine rw x s : READ <= rw <= WRITEA -> bufs_ok mine s -> valid s x ->
  wp (ll_rw_block patience mine rw x) s (fun _ s' => same_for mine s s') only_hang.
Proof using DRok.
  intros Hrw Hok Hv. unfold ll_rw_block. destruct (valid_buf s x Hv) as [b Hb]. eapply wp_run_bind; [by apply bh_at_run|]. cbv zeta.
  destruct (Z.leb_spec NR_BLK_DEV (MAJOR (b_dev b))) as [|Hm]; [by apply wp_ret, same_for_refl|].
  destruct (request_fn (MAJOR (b_dev b))) as [f|] eqn:Ef; [|by apply wp_ret, same_for_refl]. apply (make_request_ok _ _ _ _ _ f); try done.
  split; [|done]. unfold MAJOR. apply Z.shiftr_nonneg, u32_range.
Qed.
End Layer.

(** ** Ending a request *)

Lemma pending_tail s s' q major x l : pending s q -> 0 <= major < NR_BLK_DEV -> q major = x :: l ->
  (forall m, 0 <= m < NR_BLK_DEV -> aget (current_request s') m = if decide (m = major) then Some (head l) else aget (current_request s) m) ->
  (forall y, nxr s' y = nxr s y) -> (forall y, y <> x -> aget (requests s') y = aget (requests s) y) ->
  pending s' (fun m => if decide (m = major) then l else q m).
Proof.
  intros (Q1 & Q2 & Q3) Hm Eq Hcur Hnx Hoth.
  assert (Hsub : forall m y, 0 <= m < NR_BLK_DEV -> y ∈ (if decide (m = major) then l else q m) -> y ∈ q m /\ y <> x).
  { intros m y Hm' Hy. destruct (Q1 major Hm) as (_ & _ & Hnd). rewrite Eq in Hnd. apply NoDup_cons in Hnd as [Hxl _]. case_decide as Em.
    - subst m. rewrite Eq. split; [by constructor|]. by intros ->.
    - split; [done|]. intros ->. apply Em, (Q3 m major x); [done|done|done|]. rewrite Eq. by constructor. }
  split; [|split].
  - intros m Hm'. rewrite Hcur by done. destruct (Q1 m Hm') as (A1 & A2 & A3). case_decide as Em.
    + subst m. rewrite Eq in A2, A3. split; [done|]. split; [|by apply NoDup_cons in A3 as [_ ?]]. apply (path_same (nxr s)); [apply A2|done].
    + split; [done|]. split; [by apply (path_same (nxr s))|done].
  - intros m y Hm' Hy. destruct (Hsub m y Hm' Hy) as [Hin Hne]. rewrite Hoth by done. by apply (Q2 m).
  - intros m m' y H1 H2 Hy Hy'. apply Hsub in Hy as [Hy _]; [|done]. apply Hsub in Hy' as [Hy' _]; [|done]. by apply (Q3 m m' y).
Qed.

(** What is left of the request at the head of a queue. *)
Definition ended (r : request) : request := set_r_waiting false (set_r_dev (-1) r).
Definition finish (b uptodate : Z) (s : bst) : bst := upd_buf b (set_b_lock 0) (upd_buf b (set_b_uptodate (u8 uptodate)) s).
Definition after_end (major x uptodate : Z) (r : request) (s : bst) : bst :=
  let s1 := match r_bh r with Some b => finish b uptodate s | None => s end in
  let s2 := upd_req x ended s1 in set_current (<[Z.to_nat major := r_next r]> (current_request s2)) s2.

Lemma end_request_run major uptodate s x r : 0 <= major < Z.of_nat (length (current_request s)) ->
  aget (current_request s) major = Some (Some x) -> aget (requests s) x = Some r ->
  (forall b, r_bh r = Some b -> valid s b) -> (uptodate = 0 -> r_bh r <> None) ->
  end_request major uptodate s = Ok tt (after_end major x uptodate r s).
Proof.
  intros Hm Hc Hr Hv Hup. unfold end_request. rewrite (run_bind (get_current major) _ s (Some x) s); [|unfold get_current, getS, mbind, M_bind; by rewrite Hc].
  rewrite (run_bind _ _ s x s); [|done]. rewrite (run_bind (req_at x) _ s r s); [|unfold req_at, getS, mbind, M_bind; by rewrite Hr].
  set (s1 := match r_bh r with Some b => finish b uptodate s | None => s end).
  assert (Hlen : length (bufs s1) = length (bufs s)) by (unfold s1, finish; destruct (r_bh r); cbn; by rewrite ?length_alter).
  assert (Hrq : requests s1 = requests s /\ current_request s1 = current_request s) by (unfold s1; by destruct (r_bh r)). destruct Hrq as [Hrq Hcq].
  rewrite (run_bind _ _ s tt s1).
  2:{ unfold s1. destruct (r_bh r) as [b|]; [|done]. specialize (Hv b eq_refl). rewrite (run_bind _ _ _ _ _ (bh_upd_run _ _ _ Hv)).
      apply bh_upd_run. unfold valid in *. cbn. by rewrite length_alter. }
  rewrite (run_bind _ _ s1 tt s1).
  2:{ unfold truth. destruct (Z.eqb_spec uptodate 0) as [E|]; [|done]. cbn [negb]. specialize (Hup E). destruct (r_bh r) as [b|] eqn:Eb; [|done].
      specialize (Hv b eq_refl). assert (Hv1 : valid s1 b) by (unfold valid in *; by rewrite Hlen). destruct (valid_buf s1 b Hv1) as [bb Hbb].
      rewrite (run_bind _ _ s1 b s1); [|done]. by rewrite (run_bind _ _ _ _ _ (bh_at_run _ _ _ Hbb)). }
  assert (Hx : 0 <= x < Z.of_nat (length (requests s1))) by (rewrite Hrq; by apply aget_Some_range in Hr).
  rewrite (run_bind _ _ s1 tt (upd_req x ended s1)); [|by apply req_upd_run]. set (s2 := upd_req x ended s1).
  rewrite (run_bind (req_at x) _ s2 (ended r) s2).
  2:{ unfold req_at, getS, mbind, M_bind, s2. rewrite aget_upd_req by lia. rewrite decide_True, Hrq, Hr by done. done. }
  unfold put_current, getS, mbind, M_bind. rewrite aset_in_range; [done|]. unfold s2. cbn. by rewrite Hcq.
Qed.

Lemma after_end_ok mine major x uptodate r s l q : bufs_ok mine s -> pending s q -> 0 <= major < NR_BLK_DEV -> q major = x :: l ->
  aget (requests s) x = Some r -> (forall b, r_bh r = Some b -> valid s b) ->
  same_for mine s (after_end major x uptodate r s) /\ drv_queue (after_end major x uptodate r s) major l.
Proof.
  intros Hok Hq Hm Eq Hr Hv. pose proof (bk_reqs _ _ Hok) as Hrq. pose proof Hq as (Q1 & Q2 & _).
  set (s1 := match r_bh r with Some b => finish b uptodate s | None => s end).
  assert (S1 : same_for mine s s1).
  { unfold s1. destruct (r_bh r) as [b|]; [|by apply same_for_refl]. specialize (Hv b eq_refl).
    pose proof (flag_ok mine b (set_b_uptodate (u8 uptodate)) s ltac:(done) ltac:(done) Hok Hv) as F1.
    unfold wp in F1. rewrite (bh_upd_run _ _ _ Hv) in F1. destruct F1 as [O1 K1]. pose proof (keeps_valid _ _ _ _ K1 Hv) as Hv1.
    pose proof (flag_ok mine b (set_b_lock 0) _ ltac:(done) ltac:(done) O1 Hv1) as F2. unfold wp in F2. rewrite (bh_upd_run _ _ _ Hv1) in F2.
    by eapply same_for_trans. }
  assert (E1 : requests s1 = requests s /\ current_request s1 = current_request s) by (unfold s1; by destruct (r_bh r)). destruct E1 as [E1 E2].
  set (s' := after_end major x uptodate r s). assert (Hx : 0 <= x) by (apply aget_Some_range in Hr; lia).
  assert (Hreq : forall y, aget (requests s') y = if decide (y = x) then Some (ended r) else aget (requests s) y).
  { intros y. change (requests s') with (requests (upd_req x ended s1)). rewrite aget_upd_req by done. case_decide; rewrite E1; [|done]. subst y. by rewrite Hr. }
  assert (Hnx : forall y, nxr s' y = nxr s y) by (intros y; unfold nxr; rewrite Hreq; case_decide; [|done]; subst y; by rewrite Hr).
  destruct (Q1 major Hm) as (_ & Hpath & Hnd). rewrite Eq in Hpath, Hnd.
  assert (Hnext : r_next r = head l) by (destruct Hpath as [Hp _]; unfold nxr in Hp; by rewrite Hr in Hp).
  assert (Hcur : forall m, 0 <= m < NR_BLK_DEV -> aget (current_request s') m = if decide (m = major) then Some (head l) else aget (current_request s) m).
  { intros m Hm'. change (current_request s') with (<[Z.to_nat major := r_next r]> (current_request s1)). rewrite E2, Hnext. pose proof (rk_cur s Hrq). case_decide.
    - subst m. apply aget_insert_eq. lia.
    - apply aget_insert_ne; lia. }
  assert (Hpend : pending s' (fun m => if decide (m = major) then l else q m)).
  { apply (pending_tail s s' q major x l); try done. intros y Hy. rewrite Hreq. by rewrite decide_False. }
  assert (Hr' : reqs_ok s').
  { split.
    - change (requests s') with (requests (upd_req x ended s1)). rewrite upd_req_length, E1. apply Hrq.
    - change (current_request s') with (<[Z.to_nat major := r_next r]> (current_request s1)). rewrite length_insert, E2. apply Hrq.
    - by eexists.
    - intros y ry b. rewrite Hreq. case_decide; [by intros [= <-]|]. intros Hy Hd Hb. unfold valid.
      replace (length (bufs s')) with (length (bufs s)); [by apply (rk_bh s Hrq y ry b)|]. destruct S1 as [_ [S1 _]]. symmetry. exact S1. }
  destruct S1 as [Hok1 K1]. split; [eapply same_for_trans; [exact K1|]; by apply same_for_reqs|].
  destruct Hpend as (P1 & P2 & _). specialize (P1 major Hm). rewrite decide_True in P1 by done. destruct P1 as (P1 & P1' & P1'').
  split; [done|]. split; [done|]. split; [done|]. intros y Hy. specialize (P2 major y Hm). rewrite decide_True in P2 by done.
  destruct (P2 Hy) as (ry & Hry & _). by apply aget_Some_range in Hry.
Qed.

(** ** Properties *)

(** C33: with drivers that keep the tables in order, [ll_rw_block] and the
    routines it calls give the cache all it relies on: whatever the command
    ([READ], [WRITE], [READA] or [WRITEA]), whatever happens while it waits for
    the buffer or for a free request, they never fault or panic, they keep the
    buffers, the requests and every driver's queue well formed, and the buffers
    the caller holds keep their device and block. *)
Theorem request_layer_ok `{DR : Drivers} {DRok : DriversOk} (patience : nat) (sync : list Z -> M bst unit)
    (Hsync : forall mine s, bufs_ok mine s -> wp (sync mine) s (fun _ s' => same_for mine s s') only_hang) :
  @BlockLayerOk (request_layer patience sync).
Proof. split; cbn; [apply asleep_ok|apply (rw_block_ok patience)|done]. Qed.

(** [end_request] takes the request being served off its queue: the entry is
    free again, the rest of the queue is served next in its order, the buffer is
    unlocked and marked as the driver says, and the tables stay in order.  A
    failure ([uptodate] 0) must be one of a request for a buffer. *)
Theorem end_request_ok (mine : list Z) (major uptodate x : Z) (l : list Z) (r : request) (q : Z -> list Z) (s : bst)
    (Hok : bufs_ok mine s) (Hq : pending s q) (Hm : 0 <= major < NR_BLK_DEV) (Hhead : q major = x :: l)
    (Hr : aget (requests s) x = Some r) (Hup : uptodate = 0 -> r_bh r <> None) :
  exists s', end_request major uptodate s = Ok tt s' /\ same_for mine s s' /\ drv_queue s' major l /\
    (exists r', aget (requests s') x = Some r' /\ r_dev r' = -1) /\
    (forall b, r_bh r = Some b -> exists bb, aget (bufs s') b = Some bb /\ b_lock bb = 0 /\ b_uptodate bb = u8 uptodate).
Proof.
  pose proof (bk_reqs _ _ Hok) as Hrq. pose proof Hq as (Q1 & Q2 & _). destruct (Q1 major Hm) as (Hc & _ & _). rewrite Hhead in Hc.
  assert (Hd : 0 <= r_dev r).
  { destruct (Q2 major x Hm) as (r' & Hr' & Hd); [rewrite Hhead; by constructor|]. congruence. }
  assert (Hv : forall b, r_bh r = Some b -> valid s b) by (intros b; by apply (rk_bh s Hrq x)).
  destruct (after_end_ok mine major x uptodate r s l q Hok Hq Hm Hhead Hr Hv) as [S1 S2].
  exists (after_end major x uptodate r s). split; [apply end_request_run; try done; rewrite (rk_cur s Hrq); exact Hm|]. split; [done|]. split; [done|]. split.
  - pose proof (aget_Some_range _ _ _ Hr). exists (ended r). split; [|done]. unfold after_end. cbn [requests set_current].
    rewrite aget_upd_req by lia. rewrite decide_True by done. by destruct (r_bh r); cbn; rewrite Hr.
  - intros b Eb. specialize (Hv b Eb). destruct (valid_buf s b Hv) as [bb Hbb]. assert (0 <= b) by (unfold valid in Hv; lia).
    exists (set_b_lock 0 (set_b_uptodate (u8 uptodate) bb)). split; [|done]. unfold after_end. rewrite Eb.
    change (aget (bufs (upd_buf b (set_b_lock 0) (upd_buf b (set_b_uptodate (u8 uptodate)) s))) b = Some (set_b_lock 0 (set_b_uptodate (u8 uptodate) bb))).
    rewrite !aget_upd_buf by done. rewrite !decide_True by done. by rewrite Hbb.
Qed.

(** ** Witnesses *)

(** A machine whose disk, major number 3, serves a request as soon as it comes. *)
Definition instant : Drivers := {|
  asleep := fun _ => mret tt;
  request_fn := fun m => if m =? 3 then Some (c ← get_current 3; match c with Some _ => end_request 3 1 | None => mret tt end) else None |}.

Lemma instant_ok : @DriversOk instant.
Proof.
  split; cbn; [intros mine s Hok; by apply same_for_refl|]. intros major f mine s Hf Hm Hok. destruct (Z.eqb_spec major 3) as [->|]; [|done].
  injection Hf as <-. pose proof (bk_reqs _ _ Hok) as Hrq. destruct (rk_queues s Hrq) as [q Hq]. pose proof Hq as (Q1 & Q2 & _).
  destruct (Q1 3 Hm) as (Hc & _ & _). eapply (wp_run_bind _ _ _ (head (q 3)) s); [unfold get_current, getS, mbind, M_bind; by rewrite Hc|].
  destruct (q 3) as [|x l] eqn:Eq; [by apply same_for_refl|]. cbn [head] in *. destruct (Q2 3 x Hm) as (r & Hr & Hd); [rewrite Eq; by constructor|].
  assert (Hv : forall b, r_bh r = Some b -> valid s b) by (intros b; by apply (rk_bh s Hrq x)).
  eapply wp_of_run; [apply (end_request_run 3 1 s x r); try done; rewrite (rk_cur s Hrq); exact Hm|]. by apply (after_end_ok mine 3 x 1 r s l q).
Qed.

(** The two layers together read a block. *)
Lemma request_layer_ok_witness :
  @BlockLayerOk (@request_layer instant 1 (fun _ => mret tt)) /\
  exists x s', @bread (@request_layer instant 1 (fun _ => mret tt)) 1 [] 0x301 7 small_cache = Ok (Some x) s'.
Proof.
  split; [|eexists _, _; vm_compute; reflexivity].
  apply (@request_layer_ok instant instant_ok 1 (fun _ => mret tt)). intros mine s Hok. by apply same_for_refl.
Defined.

(** Two reads wait for the disk, at the sectors 10 and 4; a third entry is
    filled in for sector 20. *)
Definition busy_requests : list request :=
  [Req 0x301 READ 0 10 2 0 false (Some 0) (Some 1); Req 0x301 READ 0 4 2 0 false (Some 1) None; Req 0x301 READ 0 20 2 0 false (Some 0) None] ++
  replicate 29 no_req.
Definition busy : bst := set_current (<[3%nat := Some 0]> (current_request small_cache)) (set_requests busy_requests small_cache).

Lemma busy_pending : pending busy (fun m => if m =? 3 then [0; 1] else []).
Proof.
  split; [|split].
  - intros m Hm. assert (Hcs : m = 0 \/ m = 1 \/ m = 2 \/ m = 3 \/ m = 4 \/ m = 5 \/ m = 6) by (unfold NR_BLK_DEV in Hm; lia).
    destruct Hcs as [->|[->|[->|[->|[->|[->| ->]]]]]]; (split; [vm_compute; reflexivity|]);
      (split; [vm_compute; by repeat split|apply (bool_decide_unpack _); vm_compute; exact I]).
  - intros m x _. destruct (m =? 3); [|by intros ?%elem_of_nil]. rewrite !elem_of_cons. intros [->|[->|?%elem_of_nil]]; [..|done];
      eexists; (split; [vm_compute; reflexivity|cbn; lia]).
  - intros m m' x _ _. destruct (Z.eqb_spec m 3), (Z.eqb_spec m' 3); try (by intros ?%elem_of_nil); try (by intros ? ?%elem_of_nil). congruence.
Qed.

Lemma busy_ok : bufs_ok [] busy.
Proof.
  destruct small_cache_ok as [Hok _]. apply (bufs_ok_reqs [] small_cache busy); [done| |reflexivity..]. split.
  - reflexivity.
  - vm_compute. reflexivity.
  - eexists. apply busy_pending.
  - intros x r b Hx Hd. change (requests busy) with busy_requests in Hx. unfold aget in Hx. destruct (x <? 0); [done|].
    unfold busy_requests in Hx. assert (Hvb : forall y, 0 <= y < 2 -> valid busy y) by (intros y Hy; unfold valid; vm_compute length; lia).
    destruct (Z.to_nat x) as [|[|[|n]]]; cbn [app lookup list_lookup] in Hx; try (injection Hx as <-; intros [= <-]; apply Hvb; lia).
    apply lookup_replicate in Hx as [-> _]. cbn in Hd. lia.
Qed.

Lemma end_request_ok_witness : exists s', end_request 3 1 busy = Ok tt s' /\ same_for [] busy s' /\ drv_queue s' 3 [1] /\
  (exists r', aget (requests s') 0 = Some r' /\ r_dev r' = -1) /\
  (forall b, Some 0 = Some b -> exists bb, aget (bufs s') b = Some bb /\ b_lock bb = 0 /\ b_uptodate bb = u8 1).
Proof.
  apply (end_request_ok [] 3 1 0 [1] (Req 0x301 READ 0 10 2 0 false (Some 0) (Some 1)) (fun m => if m =? 3 then [0; 1] else []) busy);
    [apply busy_ok|apply busy_pending|done|done|reflexivity|done].
Defined.

Lemma add_request_elevator_witness :
  (exists s' l1 l2, [1] = l1 ++ l2 /\ @add_request instant 3 2 busy = Ok tt s' /\ drv_queue s' 3 (0 :: l1 ++ 2 :: l2) /\ (turns (rq s' 0) (rq s' <$> l1 ++ 2%Z :: l2) <= 1)%nat) /\
  exists s', @add_request instant 3 2 busy = Ok tt s' /\ nxr s' 0 = Some 1 /\ nxr s' 1 = Some 2.
Proof.
  split; [|eexists; split; [vm_compute; reflexivity|split; reflexivity]].
  assert (Hval : forall y, 0 <= y < 2 -> valid busy y) by (intros y Hy; unfold valid; vm_compute length; lia).
  destruct (@add_request_elevator instant busy 3 2 0 [1] (Req 0x301 READ 0 20 2 0 false (Some 0) None)) as (s' & l1 & l2 & El & Hrun & Hq & _ & Ht & _);
    [reflexivity| |set_solver|intros b [= <-]; apply Hval; lia|done|].
  - destruct busy_pending as (P1 & P2 & _). destruct (P1 3) as (A1 & A2 & A3); [done|]. split; [exact A1|]. split; [exact A2|]. split; [exact A3|].
    intros x Hx. destruct (P2 3 x ltac:(done) Hx) as (r & Hr & _). by apply aget_Some_range in Hr.
  - exists s', l1, l2. split; [exact El|]. split; [exact Hrun|]. split; [exact Hq|]. apply Ht; [done| |vm_compute; lia].
    intros n Hn. rewrite !elem_of_cons in Hn. destruct Hn as [->|[->|Hn%elem_of_nil]]; [vm_compute; discriminate..|done].
Defined.
