(* ===== verification/Queue.v ===== *)
(** * Character queues: the macros of [include/linux/tty.h]

    A [tty_queue] is a ring of [TTY_BUF_SIZE] characters between [tail] and
    [head]; one place stays free to tell a full ring from an empty one. *)

From S2P Require Import Prelude.
From Stdlib Require Znumtheory.

Definition TTY_BUF_SIZE : Z := 1024.

Record tty_queue := Tq {
  q_data : Z;                              (* unsigned long *)
  q_head : Z;
  q_tail : Z;
  q_buf : list Z                           (* char buf[TTY_BUF_SIZE], as bytes *)
}.

Definition set_q_data v q := Tq v (q_head q) (q_tail q) (q_buf q).
Definition set_q_head v q := Tq (q_data q) v (q_tail q) (q_buf q).
Definition set_q_tail v q := Tq (q_data q) (q_head q) v (q_buf q).
Definition set_q_buf v q := Tq (q_data q) (q_head q) (q_tail q) v.

Definition INC (a : Z) : Z := Z.land (u32 (a + 1)) (TTY_BUF_SIZE - 1).
Definition DEC (a : Z) : Z := Z.land (u32 (a - 1)) (TTY_BUF_SIZE - 1).
Definition EMPTY (q : tty_queue) : bool := q_head q =? q_tail q.
Definition LEFT (q : tty_queue) : Z := Z.land (u32 (q_tail q - q_head q - 1)) (TTY_BUF_SIZE - 1).
Definition LAST (q : tty_queue) : option Z := aget (q_buf q) (Z.land (TTY_BUF_SIZE - 1) (u32 (q_head q - 1))).
Definition FULL (q : tty_queue) : bool := negb (truth (LEFT q)).
Definition CHARS (q : tty_queue) : Z := Z.land (u32 (q_head q - q_tail q)) (TTY_BUF_SIZE - 1).

(** [GETCH(queue, c)]: the character and the queue without it. *)
Definition GETCH (q : tty_queue) : option (Z * tty_queue) :=
  c ← aget (q_buf q) (q_tail q); Some (c, set_q_tail (INC (q_tail q)) q).

(** [PUTCH(c, queue)]: there is no test for a full queue. *)
Definition PUTCH (c : Z) (q : tty_queue) : option tty_queue :=
  b ← aset (q_buf q) (q_head q) (u8 c); Some (set_q_head (INC (q_head q)) (set_q_buf b q)).

(** ** The queue as a list *)

Record queue_ok (q : tty_queue) : Prop := {
  qo_head : 0 <= q_head q < TTY_BUF_SIZE;
  qo_tail : 0 <= q_tail q < TTY_BUF_SIZE;
  qo_buf : Z.of_nat (length (q_buf q)) = TTY_BUF_SIZE;
  qo_bytes : Forall in_u8 (q_buf q)
}.

Definition ring (n : Z) : Z := n mod TTY_BUF_SIZE.
Definition q_at (q : tty_queue) (i : Z) : Z := default 0 (aget (q_buf q) (ring i)).
Definition q_count (q : tty_queue) : Z := ring (q_head q - q_tail q).
(** What is in the queue, the oldest character first. *)
Definition content (q : tty_queue) : list Z := q_at q <$> range (q_tail q) (Z.to_nat (q_count q)).

Lemma land_1023 z : Z.land z (TTY_BUF_SIZE - 1) = ring z.
Proof. exact (Z.land_ones z 10 ltac:(lia)). Qed.

Lemma ring_u32 z : ring (u32 z) = ring z.
Proof.
  symmetry. apply Znumtheory.Zmod_div_mod; [done..|]. by exists 4194304.
Qed.

Lemma ring_range z : 0 <= ring z < TTY_BUF_SIZE.
Proof. apply Z.mod_pos_bound. done. Qed.

Lemma ring_small z : 0 <= z < TTY_BUF_SIZE -> ring z = z.
Proof. intros. by apply Z.mod_small. Qed.

Lemma ring_eq a b k : a = b + TTY_BUF_SIZE * k -> ring a = ring b.
Proof. intros ->. unfold ring. rewrite Z.mul_comm. apply Z.mod_add. done. Qed.

Lemma ring_ring_add a b : ring (ring a + b) = ring (a + b).
Proof. unfold ring. by rewrite Zplus_mod_idemp_l. Qed.

Lemma ring_ring_sub a b : ring (ring a - b) = ring (a - b).
Proof. unfold ring. by rewrite Zminus_mod_idemp_l. Qed.

Lemma ring_succ a : ring a < TTY_BUF_SIZE - 1 -> ring (a + 1) = ring a + 1.
Proof. intros. rewrite <-ring_ring_add. apply ring_small. pose proof (ring_range a). lia. Qed.

Lemma ring_pred a : 0 < ring a -> ring (a - 1) = ring a - 1.
Proof. intros. rewrite <-ring_ring_sub. apply ring_small. pose proof (ring_range a). lia. Qed.

Lemma CHARS_count q : CHARS q = q_count q.
Proof. unfold CHARS, q_count. by rewrite land_1023, ring_u32. Qed.

Lemma LEFT_count q : queue_ok q -> LEFT q = TTY_BUF_SIZE - 1 - q_count q.
Proof.
  intros [H1 H2 _ _]. unfold LEFT, q_count. rewrite land_1023, ring_u32. unfold ring, TTY_BUF_SIZE in *.
  Z.to_euclidean_division_equations. lia.
Qed.

Lemma EMPTY_count q : queue_ok q -> EMPTY q = (q_count q =? 0).
Proof.
  intros [H1 H2 _ _]. unfold EMPTY, q_count, ring, TTY_BUF_SIZE in *. Z.to_euclidean_division_equations. lia.
Qed.

Lemma FULL_count q : queue_ok q -> FULL q = (q_count q =? TTY_BUF_SIZE - 1).
Proof. intros H. unfold FULL, truth. rewrite LEFT_count by done. lia. Qed.

Lemma q_count_range q : 0 <= q_count q < TTY_BUF_SIZE.
Proof. apply ring_range. Qed.

Lemma length_content q : Z.of_nat (length (content q)) = q_count q.
Proof. unfold content. rewrite length_fmap, length_range. pose proof (q_count_range q). lia. Qed.

Lemma EMPTY_content q : queue_ok q -> EMPTY q = true <-> content q = [].
Proof.
  intros H. rewrite EMPTY_count, Z.eqb_eq by done. rewrite <-length_content. destruct (content q); cbn; [done|]. split; [lia|done].
Qed.

Lemma FULL_content q : queue_ok q -> FULL q = false <-> Z.of_nat (length (content q)) < TTY_BUF_SIZE - 1.
Proof. intros H. rewrite FULL_count, Z.eqb_neq, length_content by done. pose proof (q_count_range q). lia. Qed.

Lemma range_shift lo n : range lo (S n) = lo :: range (lo + 1) n.
Proof.
  unfold range. cbn [seq fmap list_fmap]. rewrite Z.add_0_r. f_equal. rewrite <-seq_shift, <-list_fmap_compose.
  apply list_fmap_ext. intros i x _. cbn. lia.
Qed.

Lemma q_at_ok q i : queue_ok q -> aget (q_buf q) (ring i) = Some (q_at q i).
Proof.
  intros [_ _ H _]. pose proof (ring_range i). destruct (aget_in_range (q_buf q) (ring i)) as [c Hc]; [lia|]. unfold q_at. by rewrite Hc.
Qed.

Lemma q_at_ring q i j : ring i = ring j -> q_at q i = q_at q j.
Proof. unfold q_at. by intros ->. Qed.

Lemma GETCH_ok q : queue_ok q -> exists q', GETCH q = Some (q_at q (q_tail q), q') /\ queue_ok q' /\ q_data q' = q_data q.
Proof.
  intros Hq. pose proof Hq as [H1 H2 H3 H4]. unfold GETCH. pose proof (q_at_ok q (q_tail q) Hq) as Hc. rewrite (ring_small (q_tail q)) in Hc by done.
  rewrite Hc. cbn. eexists. split; [done|]. split; [|done]. split; cbn; try done. unfold INC. rewrite land_1023, ring_u32. apply ring_range.
Qed.

(** Taking a character takes the oldest one. *)
Lemma GETCH_content q c l : queue_ok q -> content q = c :: l ->
  exists q', GETCH q = Some (c, q') /\ queue_ok q' /\ content q' = l /\ q_data q' = q_data q.
Proof.
  intros Hq Hl. destruct (GETCH_ok q Hq) as (q' & Hg & Hq' & Hd). pose proof (length_content q) as Hn. rewrite Hl in Hn. cbn [length] in Hn.
  unfold content in Hl. rewrite <-Hn, Nat2Z.id, range_shift in Hl. cbn in Hl. injection Hl as Ec El. exists q'. rewrite Hg, Ec.
  split; [done|]. split; [done|]. split; [|done]. etransitivity; [|exact El]. clear El Ec. pose proof Hg as Hg'. unfold GETCH in Hg'.
  destruct (aget (q_buf q) (q_tail q)); [|done]. cbn in Hg'. injection Hg' as _ <-. unfold content, q_count in *. cbn.
  unfold INC. rewrite land_1023, ring_u32. pose proof Hq as [H1 H2 _ _].
  set (n := length l) in *. replace (Z.to_nat (ring (q_head q - ring (q_tail q + 1)))) with n.
  2:{ enough (ring (q_head q - ring (q_tail q + 1)) = Z.of_nat n) by lia. revert Hn. unfold ring, TTY_BUF_SIZE in *.
      Z.to_euclidean_division_equations. lia. }
  unfold range. rewrite <-!list_fmap_compose. apply list_fmap_ext. intros i x _. cbn. unfold q_at. cbn. by rewrite ring_ring_add.
Qed.

(** Where there is room, a character goes to the end. *)
Lemma PUTCH_content c q : queue_ok q -> Z.of_nat (length (content q)) < TTY_BUF_SIZE - 1 ->
  exists q', PUTCH c q = Some q' /\ queue_ok q' /\ content q' = content q ++ [u8 c] /\ q_data q' = q_data q.
Proof.
  intros Hq Hroom. pose proof Hq as [H1 H2 H3 H4]. rewrite length_content in Hroom. unfold PUTCH. rewrite aset_in_range by lia. cbn. eexists. split; [done|].
  assert (Hh : 0 <= INC (q_head q) < TTY_BUF_SIZE) by (unfold INC; rewrite land_1023; apply ring_range).
  split; [|split; [|done]].
  - split; cbn; [done|done|by rewrite length_insert|]. apply Forall_insert; [done|]. apply u8_range.
  - unfold content, q_count in *. cbn. unfold INC. rewrite land_1023, ring_u32.
    set (n := Z.to_nat (ring (q_head q - q_tail q))). pose proof (ring_range (q_head q - q_tail q)).
    replace (Z.to_nat (ring (ring (q_head q + 1) - q_tail q))) with (S n).
    2:{ rewrite ring_ring_sub. replace (q_head q + 1 - q_tail q) with (q_head q - q_tail q + 1) by lia. rewrite ring_succ by done. unfold n. lia. }
    rewrite range_S, fmap_app. cbn. f_equal.
    + apply list_fmap_ext. intros i x Hx. apply list_elem_of_lookup_2, elem_of_range in Hx. unfold q_at. cbn. rewrite aget_insert_ne; [done|lia|].
      intros E. assert (E' : ring (x - q_tail q) = Z.of_nat n) by (rewrite <-ring_ring_sub, <-E; unfold n; lia).
      rewrite ring_small in E' by lia. lia.
    + unfold q_at. cbn. assert (E : ring (q_tail q + Z.of_nat n) = q_head q).
      { unfold n. rewrite Z2Nat.id by lia. rewrite Z.add_comm, ring_ring_add. rewrite <-(ring_small (q_head q)) at 2 by done. f_equal. lia. }
      rewrite E, aget_insert_eq by lia. done.
Qed.

Lemma PUTCH_total c q : queue_ok q -> exists q', PUTCH c q = Some q' /\ queue_ok q' /\ q_data q' = q_data q.
Proof.
  intros Hq. pose proof Hq as [H1 H2 H3 H4]. unfold PUTCH. rewrite aset_in_range by lia. cbn. eexists. split; [done|]. split; [|done].
  split; cbn; [|done|by rewrite length_insert|apply Forall_insert; [done|apply u8_range]]. unfold INC. rewrite land_1023. apply ring_range.
Qed.

(** On a full queue, it loses everything. *)
Lemma PUTCH_full c q q' : queue_ok q -> FULL q = true -> PUTCH c q = Some q' -> content q' = [].
Proof.
  intros Hq Hf Hp. pose proof Hq as [H1 H2 H3 H4]. rewrite FULL_count in Hf by done. unfold PUTCH in Hp. rewrite aset_in_range in Hp by lia. cbn in Hp.
  injection Hp as <-. apply EMPTY_content; [split; cbn; [|done|by rewrite length_insert|apply Forall_insert; [done|apply u8_range]]|].
  - unfold INC. rewrite land_1023. apply ring_range.
  - unfold EMPTY. cbn. unfold INC. rewrite land_1023, ring_u32. unfold q_count, ring, TTY_BUF_SIZE in *. Z.to_euclidean_division_equations. lia.
Qed.

(** The youngest character, and the queue without it. *)
Lemma LAST_content q l c : queue_ok q -> content q = l ++ [c] ->
  LAST q = Some c /\ queue_ok (set_q_head (DEC (q_head q)) q) /\ content (set_q_head (DEC (q_head q)) q) = l.
Proof.
  intros Hq Hl. pose proof Hq as [H1 H2 H3 H4]. pose proof (length_content q) as Hn. rewrite Hl, length_app in Hn. cbn [length] in Hn.
  assert (Hr : 0 <= DEC (q_head q) < TTY_BUF_SIZE) by (unfold DEC; rewrite land_1023; apply ring_range).
  unfold content in Hl. replace (Z.to_nat (q_count q)) with (S (length l)) in Hl by lia. rewrite range_S, fmap_app in Hl. cbn in Hl.
  apply app_inj_tail in Hl as [El Ec]. assert (Ecount : ring (q_tail q + Z.of_nat (length l)) = ring (q_head q - 1)).
  { replace (q_tail q + Z.of_nat (length l)) with (q_count q + (q_tail q - 1)) by lia. unfold q_count. rewrite ring_ring_add. f_equal. lia. }
  split; [|split; [by split|]].
  - unfold LAST. rewrite Z.land_comm, land_1023, ring_u32, <-Ecount, q_at_ok by done. by rewrite Ec.
  - rewrite <-El. unfold content, q_count. cbn. unfold DEC. rewrite land_1023, ring_u32.
    replace (Z.to_nat (ring (ring (q_head q - 1) - q_tail q))) with (length l); [done|].
    unfold q_count in Hn. rewrite ring_ring_sub. replace (q_head q - 1 - q_tail q) with (q_head q - q_tail q - 1) by lia. rewrite ring_pred by lia. lia.
Qed.
