(* ===== verification/Console.v ===== *)
(** * The console: [kernel/chr_drv/console.c]

    A virtual console interprets the characters written to it: it keeps the
    cursor, the scrolling region and the colours, and changes the characters and
    attributes in its video memory.

    The routines that take [currcons] work on [vc_cons[currcons]] and on the
    globals: their state [cst] is that structure and the globals, and [fgd] says
    whether [currcons] is [fg_console].  What they do to the terminal and to the
    timers is the [effect] they return.  Video memory is the part of the address
    space between [video_mem_base] and [video_mem_term] and the buffer
    [vc_scrmembuf]; an access to any other address faults.

    The calls [scrdown(currcons)] and [scrup(currcons)], which lack two
    arguments, are read as calls with the current [top] and [bottom]. *)

From S2P Require Import Prelude TaskStruct.

Definition VIDEO_TYPE_MDA : Z := 0x10.
Definition VIDEO_TYPE_CGA : Z := 0x11.
Definition VIDEO_TYPE_EGAM : Z := 0x20.
Definition VIDEO_TYPE_EGAC : Z := 0x21.
Definition NPAR : Z := 16.
Definition MAX_CONSOLES : Z := 8.
Definition MEM_BUFFER_SIZE : Z := 2 * 80 * 50 * 8.

(** [translations]: the tables [NORM_TRANS] and [GRAF_TRANS], as bytes. *)
Inductive trans := NORM_TRANS | GRAF_TRANS.

Definition norm_trans : list Z :=
  [0; 0; 0; 0; 0; 0; 0; 0; 0; 0; 0; 0; 0; 0; 0; 0;
   0; 0; 0; 0; 0; 0; 0; 0; 0; 0; 0; 0; 0; 0; 0; 0;
   32; 33; 34; 35; 36; 37; 38; 39; 40; 41; 42; 43; 44; 45; 46; 47;
   48; 49; 50; 51; 52; 53; 54; 55; 56; 57; 58; 59; 60; 61; 62; 63;
   64; 65; 66; 67; 68; 69; 70; 71; 72; 73; 74; 75; 76; 77; 78; 79;
   80; 81; 82; 83; 84; 85; 86; 87; 88; 89; 90; 91; 92; 93; 94; 95;
   96; 97; 98; 99; 100; 101; 102; 103; 104; 105; 106; 107; 108; 109; 110; 111;
   112; 113; 114; 115; 116; 117; 118; 119; 120; 121; 122; 123; 124; 125; 126; 0;
   0; 0; 0; 0; 0; 0; 0; 0; 0; 0; 0; 0; 0; 0; 0; 0;
   0; 0; 0; 0; 0; 0; 0; 0; 0; 0; 0; 0; 0; 0; 0; 0;
   32; 173; 155; 156; 254; 157; 124; 21; 254; 254; 166; 174; 170; 45; 254; 254;
   248; 241; 253; 254; 254; 230; 20; 249; 254; 254; 167; 175; 172; 171; 254; 168;
   254; 254; 254; 254; 142; 143; 146; 128; 254; 144; 254; 254; 254; 254; 254; 254;
   254; 165; 254; 254; 254; 254; 153; 254; 254; 254; 254; 254; 154; 254; 254; 225;
   133; 160; 131; 254; 132; 134; 145; 135; 138; 130; 136; 137; 141; 161; 140; 139;
   254; 164; 149; 162; 147; 254; 148; 246; 254; 151; 163; 150; 129; 254; 254; 152].
Definition graf_trans : list Z :=
  [0; 0; 0; 0; 0; 0; 0; 0; 0; 0; 0; 0; 0; 0; 0; 0;
   0; 0; 0; 0; 0; 0; 0; 0; 0; 0; 0; 0; 0; 0; 0; 0;
   32; 33; 34; 35; 36; 37; 38; 39; 40; 41; 42; 43; 44; 45; 46; 47;
   48; 49; 50; 51; 52; 53; 54; 55; 56; 57; 58; 59; 60; 61; 62; 63;
   64; 65; 66; 67; 68; 69; 70; 71; 72; 73; 74; 75; 76; 77; 78; 79;
   80; 81; 82; 83; 84; 85; 86; 87; 88; 89; 90; 91; 92; 93; 94; 32;
   4; 177; 7; 7; 7; 7; 248; 241; 7; 7; 189; 183; 214; 211; 215; 196;
   196; 196; 196; 196; 199; 182; 208; 210; 186; 243; 242; 227; 7; 156; 7; 0;
   0; 0; 0; 0; 0; 0; 0; 0; 0; 0; 0; 0; 0; 0; 0; 0;
   0; 0; 0; 0; 0; 0; 0; 0; 0; 0; 0; 0; 0; 0; 0; 0;
   32; 173; 155; 156; 254; 157; 124; 21; 254; 254; 166; 174; 170; 45; 254; 254;
   248; 241; 253; 254; 254; 230; 20; 249; 254; 254; 167; 175; 172; 171; 254; 168;
   254; 254; 254; 254; 142; 143; 146; 128; 254; 144; 254; 254; 254; 254; 254; 254;
   254; 165; 254; 254; 254; 254; 153; 254; 254; 254; 254; 254; 154; 254; 254; 225;
   133; 160; 131; 254; 132; 134; 145; 135; 138; 130; 136; 137; 141; 161; 140; 139;
   254; 164; 149; 162; 147; 254; 148; 246; 254; 151; 163; 150; 129; 254; 254; 152].
Definition translations (t : trans) : list Z := match t with NORM_TRANS => norm_trans | GRAF_TRANS => graf_trans end.

Record vc_struct := Vc {
  vc_video_erase_char : Z;              (* unsigned short *)
  vc_attr : Z;                          (* unsigned char *)
  vc_def_attr : Z;                      (* unsigned char *)
  vc_bold_attr : Z;                     (* int *)
  vc_ques : Z;
  vc_state : Z;
  vc_restate : trans;                   (* a table of translations *)
  vc_checkin : Z;
  vc_origin : Z;
  vc_scr_end : Z;
  vc_pos : Z;
  vc_x : Z;
  vc_y : Z;
  vc_top : Z;
  vc_bottom : Z;
  vc_npar : Z;
  vc_par : list Z;                      (* [NPAR] *)
  vc_video_mem_start : Z;
  vc_video_mem_end : Z;
  vc_saved_x : Z;
  vc_saved_y : Z;
  vc_iscolor : Z;
  vc_kbdapplic : Z;
  vc_kbdleds : Z;
  vc_kbdmode : Z;
  vc_translate : trans
}.

Definition set_vc_video_erase_char v w := Vc v (vc_attr w) (vc_def_attr w) (vc_bold_attr w) (vc_ques w) (vc_state w) (vc_restate w) (vc_checkin w) (vc_origin w) (vc_scr_end w) (vc_pos w) (vc_x w) (vc_y w) (vc_top w) (vc_bottom w) (vc_npar w) (vc_par w) (vc_video_mem_start w) (vc_video_mem_end w) (vc_saved_x w) (vc_saved_y w) (vc_iscolor w) (vc_kbdapplic w) (vc_kbdleds w) (vc_kbdmode w) (vc_translate w).
Definition set_vc_attr v w := Vc (vc_video_erase_char w) v (vc_def_attr w) (vc_bold_attr w) (vc_ques w) (vc_state w) (vc_restate w) (vc_checkin w) (vc_origin w) (vc_scr_end w) (vc_pos w) (vc_x w) (vc_y w) (vc_top w) (vc_bottom w) (vc_npar w) (vc_par w) (vc_video_mem_start w) (vc_video_mem_end w) (vc_saved_x w) (vc_saved_y w) (vc_iscolor w) (vc_kbdapplic w) (vc_kbdleds w) (vc_kbdmode w) (vc_translate w).
Definition set_vc_def_attr v w := Vc (vc_video_erase_char w) (vc_attr w) v (vc_bold_attr w) (vc_ques w) (vc_state w) (vc_restate w) (vc_checkin w) (vc_origin w) (vc_scr_end w) (vc_pos w) (vc_x w) (vc_y w) (vc_top w) (vc_bottom w) (vc_npar w) (vc_par w) (vc_video_mem_start w) (vc_video_mem_end w) (vc_saved_x w) (vc_saved_y w) (vc_iscolor w) (vc_kbdapplic w) (vc_kbdleds w) (vc_kbdmode w) (vc_translate w).
Definition set_vc_bold_attr v w := Vc (vc_video_erase_char w) (vc_attr w) (vc_def_attr w) v (vc_ques w) (vc_state w) (vc_restate w) (vc_checkin w) (vc_origin w) (vc_scr_end w) (vc_pos w) (vc_x w) (vc_y w) (vc_top w) (vc_bottom w) (vc_npar w) (vc_par w) (vc_video_mem_start w) (vc_video_mem_end w) (vc_saved_x w) (vc_saved_y w) (vc_iscolor w) (vc_kbdapplic w) (vc_kbdleds w) (vc_kbdmode w) (vc_translate w).
Definition set_vc_ques v w := Vc (vc_video_erase_char w) (vc_attr w) (vc_def_attr w) (vc_bold_attr w) v (vc_state w) (vc_restate w) (vc_checkin w) (vc_origin w) (vc_scr_end w) (vc_pos w) (vc_x w) (vc_y w) (vc_top w) (vc_bottom w) (vc_npar w) (vc_par w) (vc_video_mem_start w) (vc_video_mem_end w) (vc_saved_x w) (vc_saved_y w) (vc_iscolor w) (vc_kbdapplic w) (vc_kbdleds w) (vc_kbdmode w) (vc_translate w).
Definition set_vc_state v w := Vc (vc_video_erase_char w) (vc_attr w) (vc_def_attr w) (vc_bold_attr w) (vc_ques w) v (vc_restate w) (vc_checkin w) (vc_origin w) (vc_scr_end w) (vc_pos w) (vc_x w) (vc_y w) (vc_top w) (vc_bottom w) (vc_npar w) (vc_par w) (vc_video_mem_start w) (vc_video_mem_end w) (vc_saved_x w) (vc_saved_y w) (vc_iscolor w) (vc_kbdapplic w) (vc_kbdleds w) (vc_kbdmode w) (vc_translate w).
Definition set_vc_restate v w := Vc (vc_video_erase_char w) (vc_attr w) (vc_def_attr w) (vc_bold_attr w) (vc_ques w) (vc_state w) v (vc_checkin w) (vc_origin w) (vc_scr_end w) (vc_pos w) (vc_x w) (vc_y w) (vc_top w) (vc_bottom w) (vc_npar w) (vc_par w) (vc_video_mem_start w) (vc_video_mem_end w) (vc_saved_x w) (vc_saved_y w) (vc_iscolor w) (vc_kbdapplic w) (vc_kbdleds w) (vc_kbdmode w) (vc_translate w).
Definition set_vc_checkin v w := Vc (vc_video_erase_char w) (vc_attr w) (vc_def_attr w) (vc_bold_attr w) (vc_ques w) (vc_state w) (vc_restate w) v (vc_origin w) (vc_scr_end w) (vc_pos w) (vc_x w) (vc_y w) (vc_top w) (vc_bottom w) (vc_npar w) (vc_par w) (vc_video_mem_start w) (vc_video_mem_end w) (vc_saved_x w) (vc_saved_y w) (vc_iscolor w) (vc_kbdapplic w) (vc_kbdleds w) (vc_kbdmode w) (vc_translate w).
Definition set_vc_origin v w := Vc (vc_video_erase_char w) (vc_attr w) (vc_def_attr w) (vc_bold_attr w) (vc_ques w) (vc_state w) (vc_restate w) (vc_checkin w) v (vc_scr_end w) (vc_pos w) (vc_x w) (vc_y w) (vc_top w) (vc_bottom w) (vc_npar w) (vc_par w) (vc_video_mem_start w) (vc_video_mem_end w) (vc_saved_x w) (vc_saved_y w) (vc_iscolor w) (vc_kbdapplic w) (vc_kbdleds w) (vc_kbdmode w) (vc_translate w).
Definition set_vc_scr_end v w := Vc (vc_video_erase_char w) (vc_attr w) (vc_def_attr w) (vc_bold_attr w) (vc_ques w) (vc_state w) (vc_restate w) (vc_checkin w) (vc_origin w) v (vc_pos w) (vc_x w) (vc_y w) (vc_top w) (vc_bottom w) (vc_npar w) (vc_par w) (vc_video_mem_start w) (vc_video_mem_end w) (vc_saved_x w) (vc_saved_y w) (vc_iscolor w) (vc_kbdapplic w) (vc_kbdleds w) (vc_kbdmode w) (vc_translate w).
Definition set_vc_pos v w := Vc (vc_video_erase_char w) (vc_attr w) (vc_def_attr w) (vc_bold_attr w) (vc_ques w) (vc_state w) (vc_restate w) (vc_checkin w) (vc_origin w) (vc_scr_end w) v (vc_x w) (vc_y w) (vc_top w) (vc_bottom w) (vc_npar w) (vc_par w) (vc_video_mem_start w) (vc_video_mem_end w) (vc_saved_x w) (vc_saved_y w) (vc_iscolor w) (vc_kbdapplic w) (vc_kbdleds w) (vc_kbdmode w) (vc_translate w).
Definition set_vc_x v w := Vc (vc_video_erase_char w) (vc_attr w) (vc_def_attr w) (vc_bold_attr w) (vc_ques w) (vc_state w) (vc_restate w) (vc_checkin w) (vc_origin w) (vc_scr_end w) (vc_pos w) v (vc_y w) (vc_top w) (vc_bottom w) (vc_npar w) (vc_par w) (vc_video_mem_start w) (vc_video_mem_end w) (vc_saved_x w) (vc_saved_y w) (vc_iscolor w) (vc_kbdapplic w) (vc_kbdleds w) (vc_kbdmode w) (vc_translate w).
Definition set_vc_y v w := Vc (vc_video_erase_char w) (vc_attr w) (vc_def_attr w) (vc_bold_attr w) (vc_ques w) (vc_state w) (vc_restate w) (vc_checkin w) (vc_origin w) (vc_scr_end w) (vc_pos w) (vc_x w) v (vc_top w) (vc_bottom w) (vc_npar w) (vc_par w) (vc_video_mem_start w) (vc_video_mem_end w) (vc_saved_x w) (vc_saved_y w) (vc_iscolor w) (vc_kbdapplic w) (vc_kbdleds w) (vc_kbdmode w) (vc_translate w).
Definition set_vc_top v w := Vc (vc_video_erase_char w) (vc_attr w) (vc_def_attr w) (vc_bold_attr w) (vc_ques w) (vc_state w) (vc_restate w) (vc_checkin w) (vc_origin w) (vc_scr_end w) (vc_pos w) (vc_x w) (vc_y w) v (vc_bottom w) (vc_npar w) (vc_par w) (vc_video_mem_start w) (vc_video_mem_end w) (vc_saved_x w) (vc_saved_y w) (vc_iscolor w) (vc_kbdapplic w) (vc_kbdleds w) (vc_kbdmode w) (vc_translate w).
Definition set_vc_bottom v w := Vc (vc_video_erase_char w) (vc_attr w) (vc_def_attr w) (vc_bold_attr w) (vc_ques w) (vc_state w) (vc_restate w) (vc_checkin w) (vc_origin w) (vc_scr_end w) (vc_pos w) (vc_x w) (vc_y w) (vc_top w) v (vc_npar w) (vc_par w) (vc_video_mem_start w) (vc_video_mem_end w) (vc_saved_x w) (vc_saved_y w) (vc_iscolor w) (vc_kbdapplic w) (vc_kbdleds w) (vc_kbdmode w) (vc_translate w).
Definition set_vc_npar v w := Vc (vc_video_erase_char w) (vc_attr w) (vc_def_attr w) (vc_bold_attr w) (vc_ques w) (vc_state w) (vc_restate w) (vc_checkin w) (vc_origin w) (vc_scr_end w) (vc_pos w) (vc_x w) (vc_y w) (vc_top w) (vc_bottom w) v (vc_par w) (vc_video_mem_start w) (vc_video_mem_end w) (vc_saved_x w) (vc_saved_y w) (vc_iscolor w) (vc_kbdapplic w) (vc_kbdleds w) (vc_kbdmode w) (vc_translate w).
Definition set_vc_par v w := Vc (vc_video_erase_char w) (vc_attr w) (vc_def_attr w) (vc_bold_attr w) (vc_ques w) (vc_state w) (vc_restate w) (vc_checkin w) (vc_origin w) (vc_scr_end w) (vc_pos w) (vc_x w) (vc_y w) (vc_top w) (vc_bottom w) (vc_npar w) v (vc_video_mem_start w) (vc_video_mem_end w) (vc_saved_x w) (vc_saved_y w) (vc_iscolor w) (vc_kbdapplic w) (vc_kbdleds w) (vc_kbdmode w) (vc_translate w).
Definition set_vc_video_mem_start v w := Vc (vc_video_erase_char w) (vc_attr w) (vc_def_attr w) (vc_bold_attr w) (vc_ques w) (vc_state w) (vc_restate w) (vc_checkin w) (vc_origin w) (vc_scr_end w) (vc_pos w) (vc_x w) (vc_y w) (vc_top w) (vc_bottom w) (vc_npar w) (vc_par w) v (vc_video_mem_end w) (vc_saved_x w) (vc_saved_y w) (vc_iscolor w) (vc_kbdapplic w) (vc_kbdleds w) (vc_kbdmode w) (vc_translate w).
Definition set_vc_video_mem_end v w := Vc (vc_video_erase_char w) (vc_attr w) (vc_def_attr w) (vc_bold_attr w) (vc_ques w) (vc_state w) (vc_restate w) (vc_checkin w) (vc_origin w) (vc_scr_end w) (vc_pos w) (vc_x w) (vc_y w) (vc_top w) (vc_bottom w) (vc_npar w) (vc_par w) (vc_video_mem_start w) v (vc_saved_x w) (vc_saved_y w) (vc_iscolor w) (vc_kbdapplic w) (vc_kbdleds w) (vc_kbdmode w) (vc_translate w).
Definition set_vc_saved_x v w := Vc (vc_video_erase_char w) (vc_attr w) (vc_def_attr w) (vc_bold_attr w) (vc_ques w) (vc_state w) (vc_restate w) (vc_checkin w) (vc_origin w) (vc_scr_end w) (vc_pos w) (vc_x w) (vc_y w) (vc_top w) (vc_bottom w) (vc_npar w) (vc_par w) (vc_video_mem_start w) (vc_video_mem_end w) v (vc_saved_y w) (vc_iscolor w) (vc_kbdapplic w) (vc_kbdleds w) (vc_kbdmode w) (vc_translate w).
Definition set_vc_saved_y v w := Vc (vc_video_erase_char w) (vc_attr w) (vc_def_attr w) (vc_bold_attr w) (vc_ques w) (vc_state w) (vc_restate w) (vc_checkin w) (vc_origin w) (vc_scr_end w) (vc_pos w) (vc_x w) (vc_y w) (vc_top w) (vc_bottom w) (vc_npar w) (vc_par w) (vc_video_mem_start w) (vc_video_mem_end w) (vc_saved_x w) v (vc_iscolor w) (vc_kbdapplic w) (vc_kbdleds w) (vc_kbdmode w) (vc_translate w).
Definition set_vc_iscolor v w := Vc (vc_video_erase_char w) (vc_attr w) (vc_def_attr w) (vc_bold_attr w) (vc_ques w) (vc_state w) (vc_restate w) (vc_checkin w) (vc_origin w) (vc_scr_end w) (vc_pos w) (vc_x w) (vc_y w) (vc_top w) (vc_bottom w) (vc_npar w) (vc_par w) (vc_video_mem_start w) (vc_video_mem_end w) (vc_saved_x w) (vc_saved_y w) v (vc_kbdapplic w) (vc_kbdleds w) (vc_kbdmode w) (vc_translate w).
Definition set_vc_kbdapplic v w := Vc (vc_video_erase_char w) (vc_attr w) (vc_def_attr w) (vc_bold_attr w) (vc_ques w) (vc_state w) (vc_restate w) (vc_checkin w) (vc_origin w) (vc_scr_end w) (vc_pos w) (vc_x w) (vc_y w) (vc_top w) (vc_bottom w) (vc_npar w) (vc_par w) (vc_video_mem_start w) (vc_video_mem_end w) (vc_saved_x w) (vc_saved_y w) (vc_iscolor w) v (vc_kbdleds w) (vc_kbdmode w) (vc_translate w).
Definition set_vc_kbdleds v w := Vc (vc_video_erase_char w) (vc_attr w) (vc_def_attr w) (vc_bold_attr w) (vc_ques w) (vc_state w) (vc_restate w) (vc_checkin w) (vc_origin w) (vc_scr_end w) (vc_pos w) (vc_x w) (vc_y w) (vc_top w) (vc_bottom w) (vc_npar w) (vc_par w) (vc_video_mem_start w) (vc_video_mem_end w) (vc_saved_x w) (vc_saved_y w) (vc_iscolor w) (vc_kbdapplic w) v (vc_kbdmode w) (vc_translate w).
Definition set_vc_kbdmode v w := Vc (vc_video_erase_char w) (vc_attr w) (vc_def_attr w) (vc_bold_attr w) (vc_ques w) (vc_state w) (vc_restate w) (vc_checkin w) (vc_origin w) (vc_scr_end w) (vc_pos w) (vc_x w) (vc_y w) (vc_top w) (vc_bottom w) (vc_npar w) (vc_par w) (vc_video_mem_start w) (vc_video_mem_end w) (vc_saved_x w) (vc_saved_y w) (vc_iscolor w) (vc_kbdapplic w) (vc_kbdleds w) v (vc_translate w).
Definition set_vc_translate v w := Vc (vc_video_erase_char w) (vc_attr w) (vc_def_attr w) (vc_bold_attr w) (vc_ques w) (vc_state w) (vc_restate w) (vc_checkin w) (vc_origin w) (vc_scr_end w) (vc_pos w) (vc_x w) (vc_y w) (vc_top w) (vc_bottom w) (vc_npar w) (vc_par w) (vc_video_mem_start w) (vc_video_mem_end w) (vc_saved_x w) (vc_saved_y w) (vc_iscolor w) (vc_kbdapplic w) (vc_kbdleds w) (vc_kbdmode w) v.

Record video := Video {
  vmem : gmap Z Z;                      (* bytes of video memory and of vc_scrmembuf *)
  video_num_columns : Z;
  video_num_lines : Z;
  video_size_row : Z;
  video_type : Z;
  video_page : Z;
  video_mem_base : Z;
  video_mem_term : Z;
  vc_scrmembuf : Z;                     (* its address *)
  vc_scrbuf : list Z;
  screen_size : Z;
  NR_CONSOLES : Z;
  can_do_colour : Z;
  crtc : gmap Z Z;                      (* registers of the display controller *)
  blankinterval : Z;
  console_blanked : Z;
  kapplic : Z;
  kleds : Z;
  kmode : Z;
  update_lock : Z                      (* [lock] of update_screen *)
}.

Definition set_vmem v w := Video v (video_num_columns w) (video_num_lines w) (video_size_row w) (video_type w) (video_page w) (video_mem_base w) (video_mem_term w) (vc_scrmembuf w) (vc_scrbuf w) (screen_size w) (NR_CONSOLES w) (can_do_colour w) (crtc w) (blankinterval w) (console_blanked w) (kapplic w) (kleds w) (kmode w) (update_lock w).
Definition set_video_num_columns v w := Video (vmem w) v (video_num_lines w) (video_size_row w) (video_type w) (video_page w) (video_mem_base w) (video_mem_term w) (vc_scrmembuf w) (vc_scrbuf w) (screen_size w) (NR_CONSOLES w) (can_do_colour w) (crtc w) (blankinterval w) (console_blanked w) (kapplic w) (kleds w) (kmode w) (update_lock w).
Definition set_video_num_lines v w := Video (vmem w) (video_num_columns w) v (video_size_row w) (video_type w) (video_page w) (video_mem_base w) (video_mem_term w) (vc_scrmembuf w) (vc_scrbuf w) (screen_size w) (NR_CONSOLES w) (can_do_colour w) (crtc w) (blankinterval w) (console_blanked w) (kapplic w) (kleds w) (kmode w) (update_lock w).
Definition set_video_size_row v w := Video (vmem w) (video_num_columns w) (video_num_lines w) v (video_type w) (video_page w) (video_mem_base w) (video_mem_term w) (vc_scrmembuf w) (vc_scrbuf w) (screen_size w) (NR_CONSOLES w) (can_do_colour w) (crtc w) (blankinterval w) (console_blanked w) (kapplic w) (kleds w) (kmode w) (update_lock w).
Definition set_video_type v w := Video (vmem w) (video_num_columns w) (video_num_lines w) (video_size_row w) v (video_page w) (video_mem_base w) (video_mem_term w) (vc_scrmembuf w) (vc_scrbuf w) (screen_size w) (NR_CONSOLES w) (can_do_colour w) (crtc w) (blankinterval w) (console_blanked w) (kapplic w) (kleds w) (kmode w) (update_lock w).
Definition set_video_page v w := Video (vmem w) (video_num_columns w) (video_num_lines w) (video_size_row w) (video_type w) v (video_mem_base w) (video_mem_term w) (vc_scrmembuf w) (vc_scrbuf w) (screen_size w) (NR_CONSOLES w) (can_do_colour w) (crtc w) (blankinterval w) (console_blanked w) (kapplic w) (kleds w) (kmode w) (update_lock w).
Definition set_video_mem_base v w := Video (vmem w) (video_num_columns w) (video_num_lines w) (video_size_row w) (video_type w) (video_page w) v (video_mem_term w) (vc_scrmembuf w) (vc_scrbuf w) (screen_size w) (NR_CONSOLES w) (can_do_colour w) (crtc w) (blankinterval w) (console_blanked w) (kapplic w) (kleds w) (kmode w) (update_lock w).
Definition set_video_mem_term v w := Video (vmem w) (video_num_columns w) (video_num_lines w) (video_size_row w) (video_type w) (video_page w) (video_mem_base w) v (vc_scrmembuf w) (vc_scrbuf w) (screen_size w) (NR_CONSOLES w) (can_do_colour w) (crtc w) (blankinterval w) (console_blanked w) (kapplic w) (kleds w) (kmode w) (update_lock w).
Definition set_vc_scrmembuf v w := Video (vmem w) (video_num_columns w) (video_num_lines w) (video_size_row w) (video_type w) (video_page w) (video_mem_base w) (video_mem_term w) v (vc_scrbuf w) (screen_size w) (NR_CONSOLES w) (can_do_colour w) (crtc w) (blankinterval w) (console_blanked w) (kapplic w) (kleds w) (kmode w) (update_lock w).
Definition set_vc_scrbuf v w := Video (vmem w) (video_num_columns w) (video_num_lines w) (video_size_row w) (video_type w) (video_page w) (video_mem_base w) (video_mem_term w) (vc_scrmembuf w) v (screen_size w) (NR_CONSOLES w) (can_do_colour w) (crtc w) (blankinterval w) (console_blanked w) (kapplic w) (kleds w) (kmode w) (update_lock w).
Definition set_screen_size v w := Video (vmem w) (video_num_columns w) (video_num_lines w) (video_size_row w) (video_type w) (video_page w) (video_mem_base w) (video_mem_term w) (vc_scrmembuf w) (vc_scrbuf w) v (NR_CONSOLES w) (can_do_colour w) (crtc w) (blankinterval w) (console_blanked w) (kapplic w) (kleds w) (kmode w) (update_lock w).
Definition set_NR_CONSOLES v w := Video (vmem w) (video_num_columns w) (video_num_lines w) (video_size_row w) (video_type w) (video_page w) (video_mem_base w) (video_mem_term w) (vc_scrmembuf w) (vc_scrbuf w) (screen_size w) v (can_do_colour w) (crtc w) (blankinterval w) (console_blanked w) (kapplic w) (kleds w) (kmode w) (update_lock w).
Definition set_can_do_colour v w := Video (vmem w) (video_num_columns w) (video_num_lines w) (video_size_row w) (video_type w) (video_page w) (video_mem_base w) (video_mem_term w) (vc_scrmembuf w) (vc_scrbuf w) (screen_size w) (NR_CONSOLES w) v (crtc w) (blankinterval w) (console_blanked w) (kapplic w) (kleds w) (kmode w) (update_lock w).
Definition set_crtc v w := Video (vmem w) (video_num_columns w) (video_num_lines w) (video_size_row w) (video_type w) (video_page w) (video_mem_base w) (video_mem_term w) (vc_scrmembuf w) (vc_scrbuf w) (screen_size w) (NR_CONSOLES w) (can_do_colour w) v (blankinterval w) (console_blanked w) (kapplic w) (kleds w) (kmode w) (update_lock w).
Definition set_blankinterval v w := Video (vmem w) (video_num_columns w) (video_num_lines w) (video_size_row w) (video_type w) (video_page w) (video_mem_base w) (video_mem_term w) (vc_scrmembuf w) (vc_scrbuf w) (screen_size w) (NR_CONSOLES w) (can_do_colour w) (crtc w) v (console_blanked w) (kapplic w) (kleds w) (kmode w) (update_lock w).
Definition set_console_blanked v w := Video (vmem w) (video_num_columns w) (video_num_lines w) (video_size_row w) (video_type w) (video_page w) (video_mem_base w) (video_mem_term w) (vc_scrmembuf w) (vc_scrbuf w) (screen_size w) (NR_CONSOLES w) (can_do_colour w) (crtc w) (blankinterval w) v (kapplic w) (kleds w) (kmode w) (update_lock w).
Definition set_kapplic v w := Video (vmem w) (video_num_columns w) (video_num_lines w) (video_size_row w) (video_type w) (video_page w) (video_mem_base w) (video_mem_term w) (vc_scrmembuf w) (vc_scrbuf w) (screen_size w) (NR_CONSOLES w) (can_do_colour w) (crtc w) (blankinterval w) (console_blanked w) v (kleds w) (kmode w) (update_lock w).
Definition set_kleds v w := Video (vmem w) (video_num_columns w) (video_num_lines w) (video_size_row w) (video_type w) (video_page w) (video_mem_base w) (video_mem_term w) (vc_scrmembuf w) (vc_scrbuf w) (screen_size w) (NR_CONSOLES w) (can_do_colour w) (crtc w) (blankinterval w) (console_blanked w) (kapplic w) v (kmode w) (update_lock w).
Definition set_kmode v w := Video (vmem w) (video_num_columns w) (video_num_lines w) (video_size_row w) (video_type w) (video_page w) (video_mem_base w) (video_mem_term w) (vc_scrmembuf w) (vc_scrbuf w) (screen_size w) (NR_CONSOLES w) (can_do_colour w) (crtc w) (blankinterval w) (console_blanked w) (kapplic w) (kleds w) v (update_lock w).
Definition set_update_lock v w := Video (vmem w) (video_num_columns w) (video_num_lines w) (video_size_row w) (video_type w) (video_page w) (video_mem_base w) (video_mem_term w) (vc_scrmembuf w) (vc_scrbuf w) (screen_size w) (NR_CONSOLES w) (can_do_colour w) (crtc w) (blankinterval w) (console_blanked w) (kapplic w) (kleds w) (kmode w) v.

Record cst := Cst { vid : video; vc : vc_struct }.

Definition get {A} (f : vc_struct -> A) : M cst A := gets (fun s => f (vc s)).
Definition put (f : vc_struct -> vc_struct) : M cst unit := modify (fun s => Cst (vid s) (f (vc s))).
Definition vget {A} (f : video -> A) : M cst A := gets (fun s => f (vid s)).
Definition vput (f : video -> video) : M cst unit := modify (fun s => Cst (f (vid s)) (vc s)).

(** ** Video memory and the string instructions *)

Definition in_video (v : video) (a : Z) : bool :=
  ((video_mem_base v <=? a) && (a <? video_mem_term v)) || ((vc_scrmembuf v <=? a) && (a <? vc_scrmembuf v + MEM_BUFFER_SIZE)).

Definition peek (a : Z) : M cst Z := v ← vget id; if in_video v a then mret (u8 (default 0 (vmem v !! a))) else halts Fault.
Definition poke (a c : Z) : M cst unit := v ← vget id; if in_video v a then vput (set_vmem (<[a := u8 c]> (vmem v))) else halts Fault.
Definition peekw (a : Z) : M cst Z := lo ← peek a; hi ← peek (a + 1); mret (lo + 256 * hi).
Definition pokew (a w : Z) : M cst unit := poke a w;; poke (a + 1) (Z.shiftr w 8).

(** [rep stosw] and [rep movsl] with [ecx = n], upwards ([dir = 1], after [cld])
    or downwards ([dir = -1], after [std]); they leave the final [edi]. *)
Fixpoint rep_stosw (dir : Z) (n : nat) (edi ax : Z) : M cst Z :=
  match n with O => mret edi | S n' => pokew edi ax;; rep_stosw dir n' (edi + 2 * dir) ax end.
Definition movs (edi esi : Z) : M cst unit :=
  b0 ← peek esi; b1 ← peek (esi + 1); b2 ← peek (esi + 2); b3 ← peek (esi + 3);
  poke edi b0;; poke (edi + 1) b1;; poke (edi + 2) b2;; poke (edi + 3) b3.
Fixpoint rep_movsl (dir : Z) (n : nat) (edi esi : Z) : M cst Z :=
  match n with O => mret edi | S n' => movs edi esi;; rep_movsl dir n' (edi + 4 * dir) (esi + 4 * dir) end.

(** [memcpy] of [string.h]: [rep movsb]; and [memsetw]. *)
Fixpoint memcpy (n : nat) (edi esi : Z) : M cst unit :=
  match n with O => mret tt | S n' => b ← peek esi; poke edi b;; memcpy n' (edi + 1) (esi + 1) end.
Definition memsetw (p c count : Z) : M cst unit := rep_stosw 1 (Z.to_nat count) p c;; mret tt.

(** [outb_p(reg, video_port_reg); outb_p(val, video_port_val)] *)
Definition crtc_out (reg val : Z) : M cst unit := vput (fun v => set_crtc (<[reg := Z.land 0xff val]> (crtc v)) v).

Definition is_ega (v : video) : bool := (video_type v =? VIDEO_TYPE_EGAC) || (video_type v =? VIDEO_TYPE_EGAM).

(** ** Cursor and scrolling *)

Section Console.
Context (fgd : bool).

(** [static inline void gotoxy(int currcons, int new_x, unsigned int new_y)]:
    [new_x] is compared as an unsigned number. *)
Definition gotoxy (new_x new_y : Z) : M cst unit :=
  v ← vget id;
  if (video_num_columns v <? u32 new_x) || (video_num_lines v <=? u32 new_y) then mret tt
  else
    put (fun w => set_vc_y (u32 new_y) (set_vc_x (u32 new_x) w));;
    put (fun w => set_vc_pos (u32 (vc_origin w + vc_y w * video_size_row v + Z.shiftl (vc_x w) 1)) w).

(** [static inline void set_origin(int currcons)] *)
Definition set_origin : M cst unit :=
  v ← vget id; o ← get vc_origin;
  if negb (is_ega v) || negb fgd then mret tt
  else crtc_out 12 (Z.shiftr (u32 (o - video_mem_base v)) 9);; crtc_out 13 (Z.shiftr (u32 (o - video_mem_base v)) 1).

(** [static void scrup(int currcons, unsigned int t, unsigned int b)] *)
Definition scrup (t b : Z) : M cst unit :=
  v ← vget id;
  let cols := video_num_columns v in let lines := video_num_lines v in let row := video_size_row v in
  if (lines <? b) || (b <=? t) then mret tt
  else if is_ega v && (t =? 0) && (b =? lines) then
    put (fun w => set_vc_scr_end (u32 (vc_scr_end w + row)) (set_vc_pos (u32 (vc_pos w + row)) (set_vc_origin (u32 (vc_origin w + row)) w)));;
    w ← get id;
    (if vc_video_mem_end w <? vc_scr_end w then
       edi ← rep_movsl 1 (Z.to_nat (Z.shiftr (u32 ((lines - 1) * cols)) 1)) (vc_video_mem_start w) (vc_origin w);
       rep_stosw 1 (Z.to_nat cols) edi (vc_video_erase_char w);;
       put (fun w => set_vc_scr_end (u32 (vc_scr_end w - (vc_origin w - vc_video_mem_start w))) w);;
       put (fun w => set_vc_pos (u32 (vc_pos w - (vc_origin w - vc_video_mem_start w))) w);;
       put (fun w => set_vc_origin (vc_video_mem_start w) w)
     else rep_stosw 1 (Z.to_nat cols) (u32 (vc_scr_end w - row)) (vc_video_erase_char w);; mret tt);;
    set_origin
  else
    w ← get id;
    edi ← rep_movsl 1 (Z.to_nat (Z.shiftr (u32 ((b - t - 1) * cols)) 1)) (u32 (vc_origin w + row * t)) (u32 (vc_origin w + row * (t + 1)));
    rep_stosw 1 (Z.to_nat cols) edi (vc_video_erase_char w);; mret tt.

(** [static void scrdown(int currcons, unsigned int t, unsigned int b)] *)
Definition scrdown (t b : Z) : M cst unit :=
  v ← vget id;
  if (video_num_lines v <? b) || (b <=? t) then mret tt
  else
    w ← get id;
    edi ← rep_movsl (-1) (Z.to_nat (Z.shiftr (u32 ((b - t - 1) * video_num_columns v)) 1))
            (u32 (vc_origin w + video_size_row v * b - 4)) (u32 (vc_origin w + video_size_row v * (b - 1) - 4));
    rep_stosw (-1) (Z.to_nat (video_num_columns v)) (edi + 2) (vc_video_erase_char w);; mret tt.

(** [static void lf(int currcons)] *)
Definition lf : M cst unit :=
  v ← vget id; w ← get id;
  if u32 (vc_y w + 1) <? vc_bottom w
  then put (fun w => set_vc_pos (u32 (vc_pos w + video_size_row v)) (set_vc_y (u32 (vc_y w + 1)) w))
  else scrup (vc_top w) (vc_bottom w).

(** [static void ri(int currcons)] *)
Definition ri : M cst unit :=
  v ← vget id; w ← get id;
  if vc_top w <? vc_y w
  then put (fun w => set_vc_pos (u32 (vc_pos w - video_size_row v)) (set_vc_y (u32 (vc_y w - 1)) w))
  else scrdown (vc_top w) (vc_bottom w).

(** [static void cr(int currcons)] *)
Definition cr : M cst unit := put (fun w => set_vc_x 0 (set_vc_pos (u32 (vc_pos w - Z.shiftl (vc_x w) 1)) w)).

(** [static void del(int currcons)] *)
Definition del : M cst unit :=
  x ← get vc_x;
  when (truth x) (put (fun w => set_vc_x (u32 (vc_x w - 1)) (set_vc_pos (u32 (vc_pos w - 2)) w));;
                  w ← get id; pokew (vc_pos w) (vc_video_erase_char w)).

(** ** Erasing *)

(** [static void csi_J(int currcons, int vpar)] *)
Definition csi_J (vpar : Z) : M cst unit :=
  v ← vget id; w ← get id;
  let erase count start := rep_stosw 1 (Z.to_nat count) start (vc_video_erase_char w);; mret tt in
  if vpar =? 0 then erase (Z.shiftr (u32 (vc_scr_end w - vc_pos w)) 1) (vc_pos w)
  else if vpar =? 1 then erase (Z.shiftr (u32 (vc_pos w - vc_origin w)) 1) (vc_origin w)
  else if vpar =? 2 then erase (u32 (video_num_columns v * video_num_lines v)) (vc_origin w)
  else mret tt.

(** [static void csi_K(int currcons, int vpar)] *)
Definition csi_K (vpar : Z) : M cst unit :=
  v ← vget id; w ← get id;
  let erase count start := rep_stosw 1 (Z.to_nat count) start (vc_video_erase_char w);; mret tt in
  let cols := video_num_columns v in let line := u32 (vc_pos w - Z.shiftl (vc_x w) 1) in
  if vpar =? 0 then (if cols <=? vc_x w then mret tt else erase (u32 (cols - vc_x w)) (vc_pos w))
  else if vpar =? 1 then erase (if vc_x w <? cols then vc_x w else cols) line
  else if vpar =? 2 then erase cols line
  else mret tt.

(** ** Attributes: [void csi_m(int currcons)] *)

(** What one parameter does to the attribute. *)
Definition sgr (colour : Z) (par : Z) (w : vc_struct) : vc_struct :=
  let attr := vc_attr w in let def := vc_def_attr w in
  let to a := set_vc_attr (u8 a) w in
  if par =? 0 then to def
  else if par =? 1 then to (if truth (vc_iscolor w) then Z.lor attr 0x08 else Z.lor attr 0x0f)
  else if par =? 4 then
    if negb (truth (vc_iscolor w)) then to (Z.lor attr 0x01)
    else if negb (vc_bold_attr w =? -1) then to (Z.lor (Z.land (vc_bold_attr w) 0x0f) (Z.land 0xf0 attr))
    else
      let newattr := Z.lor (Z.land attr 0xf0) (Z.land 0xf (Z.lnot attr)) in
      to (if Z.land newattr 0xf =? Z.land (Z.shiftr attr 4) 0xf then Z.lor (Z.land attr 0xf0) ((Z.land attr 0xf + 1) mod 0xf) else newattr)
  else if par =? 5 then to (Z.lor attr 0x80)
  else if par =? 7 then to (Z.lor (Z.shiftl attr 4) (Z.shiftr attr 4))
  else if par =? 22 then to (Z.land attr 0xf7)
  else if par =? 24 then to (Z.land attr 0xfe)
  else if par =? 25 then to (Z.land attr 0x7f)
  else if par =? 27 then to def
  else if par =? 39 then to (Z.lor (Z.land attr 0xf0) (Z.land def 0x0f))
  else if par =? 49 then to (Z.lor (Z.land attr 0x0f) (Z.land def 0xf0))
  else if negb (truth colour) then w
  else
    let w := set_vc_iscolor 1 w in
    if (30 <=? par) && (par <=? 38) then set_vc_attr (u8 (Z.lor (Z.land attr 0xf0) (par - 30))) w
    else if (40 <=? par) && (par <=? 48) then set_vc_attr (u8 (Z.lor (Z.land attr 0x0f) (Z.shiftl (par - 40) 4))) w
    else w.

Definition csi_m : M cst unit :=
  n ← get vc_npar; colour ← vget can_do_colour;
  for_each (range 0 (Z.to_nat (n + 1))) (fun i => l ← get vc_par; p ← ofOpt (aget l i); put (sgr colour p)).

(** [static inline void set_cursor(int currcons)] *)
Definition set_cursor : M cst unit :=
  v ← vget id; p ← get vc_pos;
  if negb fgd then mret tt
  else crtc_out 14 (Z.shiftr (u32 (p - video_mem_base v)) 9);; crtc_out 15 (Z.shiftr (u32 (p - video_mem_base v)) 1).

(** [static inline void hide_cursor(int currcons)] *)
Definition hide_cursor : M cst unit :=
  v ← vget id; e ← get vc_scr_end;
  crtc_out 14 (Z.shiftr (u32 (e - video_mem_base v)) 9);; crtc_out 15 (Z.shiftr (u32 (e - video_mem_base v)) 1).

(** ** Inserting and deleting *)

(** The loop of [insert_char], [n] turns from [p] on. *)
Fixpoint shift_right (n : nat) (p old : Z) : M cst unit :=
  match n with O => mret tt | S n' => tmp ← peekw p; pokew p old;; shift_right n' (p + 2) tmp end.

(** [static void insert_char(int currcons)] *)
Definition insert_char : M cst unit :=
  v ← vget id; w ← get id;
  shift_right (Z.to_nat (video_num_columns v - vc_x w)) (vc_pos w) (vc_video_erase_char w).

(** The loop of [delete_char]; it leaves the final [p]. *)
Fixpoint shift_left (n : nat) (p : Z) : M cst Z :=
  match n with O => mret p | S n' => tmp ← peekw (p + 2); pokew p tmp;; shift_left n' (p + 2) end.

(** [static void delete_char(int currcons)] *)
Definition delete_char : M cst unit :=
  v ← vget id; w ← get id;
  if video_num_columns v <=? vc_x w then mret tt
  else p ← shift_left (Z.to_nat (video_num_columns v - vc_x w - 1)) (vc_pos w); pokew p (vc_video_erase_char w).

(** [static void insert_line(int currcons)] *)
Definition insert_line : M cst unit :=
  v ← vget id; w ← get id;
  put (fun w => set_vc_bottom (video_num_lines v) (set_vc_top (vc_y w) w));;
  w' ← get id; scrdown (vc_top w') (vc_bottom w');;
  put (fun w' => set_vc_bottom (vc_bottom w) (set_vc_top (vc_top w) w')).

(** [static void delete_line(int currcons)] *)
Definition delete_line : M cst unit :=
  v ← vget id; w ← get id;
  put (fun w => set_vc_bottom (video_num_lines v) (set_vc_top (vc_y w) w));;
  w' ← get id; scrup (vc_top w') (vc_bottom w');;
  put (fun w' => set_vc_bottom (vc_bottom w) (set_vc_top (vc_top w) w')).

(** [if (nr > max) nr = max; else if (!nr) nr = 1; while (nr--) op(currcons);] *)
Definition times (max nr : Z) : nat := Z.to_nat (if max <? nr then max else if nr =? 0 then 1 else nr).
Fixpoint repeat_op (n : nat) (op : M cst unit) : M cst unit := match n with O => mret tt | S n' => op;; repeat_op n' op end.

Definition csi_at (nr : Z) : M cst unit := v ← vget id; repeat_op (times (video_num_columns v) nr) insert_char.
Definition csi_L (nr : Z) : M cst unit := v ← vget id; repeat_op (times (video_num_lines v) nr) insert_line.
Definition csi_P (nr : Z) : M cst unit := v ← vget id; repeat_op (times (video_num_columns v) nr) delete_char.
Definition csi_M (nr : Z) : M cst unit := v ← vget id; repeat_op (times (video_num_lines v) nr) delete_line.

(** [save_cur] and [restore_cur] *)
Definition save_cur : M cst unit := put (fun w => set_vc_saved_y (vc_y w) (set_vc_saved_x (vc_x w) w)).
Definition restore_cur : M cst unit := w ← get id; gotoxy (vc_saved_x w) (vc_saved_y w).

(** ** The interpreter: the body of the loop of [con_write] *)

Definition ESnormal : Z := 0.
Definition ESesc : Z := 1.
Definition ESsquare : Z := 2.
Definition ESgetpars : Z := 3.
Definition ESgotpars : Z := 4.
Definition ESfunckey : Z := 5.
Definition ESsetterm : Z := 6.
Definition ESsetgraph : Z := 7.

(** What a character asks of the rest of the kernel: [respond], [sysbeep], or
    [tty->termios = DEF_TERMIOS]. *)
Inductive effect := Respond | Beep | ResetTermios.

Definition es (st : Z) : M cst unit := put (set_vc_state st).

(** [x -= video_num_columns; pos -= video_size_row; lf(currcons);] *)
Definition wrap_line : M cst unit :=
  v ← vget id;
  put (fun w => set_vc_pos (u32 (vc_pos w - video_size_row v)) (set_vc_x (u32 (vc_x w - video_num_columns v)) w));; lf.

(** [while (x >= video_num_columns)]: every turn takes away a whole line. *)
Definition wrap_lines : M cst unit :=
  x ← get vc_x;
  iter (S (Z.to_nat x)) (fun _ => v ← vget id; x ← get vc_x;
    if video_num_columns v <=? x then wrap_line;; mret (inl tt) else mret (inr tt)) tt.

(** A character that is shown. *)
Definition show (c : Z) : M cst unit :=
  w ← get id;
  poke (vc_pos w) c;; poke (vc_pos w + 1) (vc_attr w);;
  put (fun w => set_vc_x (u32 (vc_x w + 1)) (set_vc_pos (u32 (vc_pos w + 2)) w)).

Definition normal_char (c : Z) : M cst (list effect) :=
  tr ← get vc_translate;
  t ← ofOpt (aget (translations tr) c);
  if truth t then wrap_lines;; show t;; mret []
  else if c =? 27 then es ESesc;; mret []
  else if (c =? 10) || (c =? 11) || (c =? 12) then lf;; mret []
  else if c =? 13 then cr;; mret []
  else if c =? 127 then del;; mret []
  else if c =? 8 then
    x ← get vc_x;
    when (truth x) (put (fun w => set_vc_pos (u32 (vc_pos w - 2)) (set_vc_x (u32 (vc_x w - 1)) w)));; mret []
  else if c =? 9 then
    x ← get vc_x; v ← vget id;
    let c := 8 - Z.land x 7 in
    put (fun w => set_vc_pos (u32 (vc_pos w + Z.shiftl c 1)) (set_vc_x (u32 (vc_x w + c)) w));;
    x ← get vc_x;
    when (video_num_columns v <? x) wrap_line;; mret []
  else if c =? 7 then mret [Beep]
  else if c =? 14 then put (fun w => set_vc_translate (vc_restate w) (set_vc_checkin 1 w));; mret []
  else if c =? 15 then put (fun w => set_vc_checkin 0 (set_vc_translate NORM_TRANS w));; mret []
  else mret [].

(** [kbdapplic = v; if (currcons == fg_console) kapplic = v;] *)
Definition keypad (a : Z) : M cst unit := put (set_vc_kbdapplic a);; when fgd (vput (set_kapplic a)).

Definition esc_char (c : Z) : M cst (list effect) :=
  es ESnormal;;
  w ← get id; v ← vget id;
  if c =? 91 (* [ *) then es ESsquare;; mret []
  else if c =? 69 (* E *) then gotoxy 0 (vc_y w + 1);; mret []
  else if c =? 77 (* M *) then ri;; mret []
  else if c =? 68 (* D *) then lf;; mret []
  else if c =? 90 (* Z *) then mret [Respond]
  else if c =? 55 (* 7 *) then save_cur;; mret []
  else if c =? 56 (* 8 *) then restore_cur;; mret []
  else if (c =? 40) || (c =? 41) (* ( ) *) then es ESsetgraph;; mret []
  else if c =? 80 (* P *) then es ESsetterm;; mret []
  else if c =? 35 (* # *) then es (u32 (-1));; mret []
  else if c =? 99 (* c *) then
    put (fun w => set_vc_translate NORM_TRANS (set_vc_bottom (video_num_lines v) (set_vc_top 0 (set_vc_checkin 0 (set_vc_restate NORM_TRANS (set_vc_state ESnormal w))))));;
    keypad 0;; mret [ResetTermios]
  else if c =? 62 (* > *) then keypad 0;; mret []
  else if c =? 61 (* = *) then keypad 1;; mret []
  else mret [].

Definition par_at (i : Z) : M cst Z := l ← get vc_par; ofOpt (aget l i).
Definition set_par (i v : Z) : M cst unit := l ← get vc_par; l' ← ofOpt (aset l i v); put (set_vc_par l').
(** [if (par[i]) par[i]--] and [if (!par[i]) par[i]++] *)
Definition par_dec (i : Z) : M cst unit := p ← par_at i; when (truth p) (set_par i (u32 (p - 1))).
Definition par_one (i : Z) : M cst unit := p ← par_at i; when (negb (truth p)) (set_par i (u32 (p + 1))).

(** [case ESgotpars]: the command [c] with its parameters. *)
Definition csi_command (c : Z) : M cst unit :=
  w ← get id; v ← vget id;
  let x := vc_x w in let y := vc_y w in
  if (c =? 71) || (c =? 96) (* G ` *) then par_dec 0;; p ← par_at 0; gotoxy p y
  else if c =? 65 (* A *) then par_one 0;; p ← par_at 0; gotoxy x (y - p)
  else if (c =? 66) || (c =? 101) (* B e *) then par_one 0;; p ← par_at 0; gotoxy x (y + p)
  else if (c =? 67) || (c =? 97) (* C a *) then par_one 0;; p ← par_at 0; gotoxy (x + p) y
  else if c =? 68 (* D *) then par_one 0;; p ← par_at 0; gotoxy (x - p) y
  else if c =? 69 (* E *) then par_one 0;; p ← par_at 0; gotoxy 0 (y + p)
  else if c =? 70 (* F *) then par_one 0;; p ← par_at 0; gotoxy 0 (y - p)
  else if c =? 100 (* d *) then par_dec 0;; p ← par_at 0; gotoxy x p
  else if (c =? 72) || (c =? 102) (* H f *) then par_dec 0;; par_dec 1;; p ← par_at 0; q ← par_at 1; gotoxy q p
  else if c =? 74 (* J *) then p ← par_at 0; csi_J p
  else if c =? 75 (* K *) then p ← par_at 0; csi_K p
  else if c =? 76 (* L *) then p ← par_at 0; csi_L p
  else if c =? 77 (* M *) then p ← par_at 0; csi_M p
  else if c =? 80 (* P *) then p ← par_at 0; csi_P p
  else if c =? 64 (* @ *) then p ← par_at 0; csi_at p
  else if c =? 109 (* m *) then csi_m
  else if c =? 114 (* r *) then
    par_dec 0;; q ← par_at 1; when (negb (truth q)) (set_par 1 (video_num_lines v));;
    p ← par_at 0; q ← par_at 1;
    when ((p <? q) && (q <=? video_num_lines v)) (put (fun w => set_vc_bottom q (set_vc_top p w)))
  else if c =? 115 (* s *) then save_cur
  else if c =? 117 (* u *) then restore_cur
  else if (c =? 108) || (c =? 98) (* l b *) then
    p ← par_at 0; q ← par_at 1; r ← par_at 2;
    if negb ((2 <=? vc_npar w) && (u32 (q - 13) =? p) && (u32 (r - 17) =? p)) then mret tt
    else
      when ((c =? 108) && (p <=? 60)) (vput (set_blankinterval (HZ * 60 * p)));;
      when (c =? 98) (put (set_vc_bold_attr (s32 p)))
  else mret tt.

Definition gotpars (c : Z) : M cst (list effect) :=
  es ESnormal;;
  q ← get vc_ques;
  if truth q then put (set_vc_ques 0);; mret [] else csi_command c;; mret [].

(** [case ESgetpars], falling through to the next case. *)
Definition getpars (c : Z) : M cst (list effect) :=
  n ← get vc_npar;
  if (c =? 59) && (n <? NPAR - 1) then put (set_vc_npar (u32 (n + 1)));; mret []
  else if (48 <=? c) && (c <=? 57) then p ← par_at n; set_par n (u32 (10 * p + c - 48));; mret []
  else es ESgotpars;; gotpars c.

Definition square_char (c : Z) : M cst (list effect) :=
  for_each (range 0 (Z.to_nat NPAR)) (fun i => set_par i 0);;
  put (set_vc_npar 0);;
  es ESgetpars;;
  if c =? 91 then es ESfunckey;; mret []
  else
    put (set_vc_ques (b2z (c =? 63)));;
    if c =? 63 then mret [] else getpars c.

Definition con_char (c : Z) : M cst (list effect) :=
  when ((c =? 24) || (c =? 26)) (es ESnormal);;
  st ← get vc_state;
  if st =? ESnormal then normal_char c
  else if st =? ESesc then esc_char c
  else if st =? ESsquare then square_char c
  else if st =? ESgetpars then getpars c
  else if st =? ESgotpars then gotpars c
  else if st =? ESfunckey then es ESnormal;; mret []
  else if st =? ESsetterm then
    es ESnormal;;
    when (c =? 83) (put (fun w => set_vc_video_erase_char (Z.lor (Z.land (vc_video_erase_char w) 0x0ff) (Z.shiftl (vc_attr w) 8)) (set_vc_def_attr (vc_attr w) w)));;
    mret []
  else if st =? ESsetgraph then
    (if c =? 48 then
       k ← get vc_checkin; when (truth k) (put (set_vc_translate GRAF_TRANS));; put (set_vc_restate GRAF_TRANS)
     else when (c =? 66) (put (fun w => set_vc_translate NORM_TRANS (set_vc_restate NORM_TRANS w))));;
    es ESnormal;; mret []
  else es ESnormal;; mret [].

(** [void console_print(const char *b)], on the characters before the null. *)
Definition print_char (c : Z) : M cst unit :=
  if c =? 10 then cr;; lf
  else if c =? 13 then cr
  else
    v ← vget id; x ← get vc_x;
    when (video_num_columns v <=? x) wrap_line;;
    show c.
Definition console_print (b : list Z) : M cst unit := for_each b print_char;; set_cursor.

End Console.
