(* ===== verification/Screen.v ===== *)
(** * Theorems about the console

    A console in order ([screen_ok]) has its cursor on its screen and its screen
    in its window of video memory.  Every character keeps it in order and
    changes nothing outside the window; a printable character is put at the cursor; scrolling moves the lines the way it
    should, with and without the help of the display hardware. *)

From S2P Require Import Prelude TaskStruct Console.

(** ** Video memory *)

Definition byte_at (m : gmap Z Z) (a : Z) : Z := u8 (default 0 (m !! a)).
Definition with_mem (m : gmap Z Z) (s : cst) : cst := Cst (set_vmem m (vid s)) (vc s).
Notation mem s := (vmem (vid s)).
Definition video_range (s : cst) (lo hi : Z) : Prop := forall a, lo <= a < hi -> in_video (vid s) a = true.

Lemma peek_run s a : in_video (vid s) a = true -> peek a s = Ok (byte_at (mem s) a) s.
Proof. intros H. unfold peek, vget, gets, mbind, M_bind, id. by rewrite H. Qed.

Lemma poke_run s a c : in_video (vid s) a = true -> poke a c s = Ok tt (with_mem (<[a := u8 c]> (mem s)) s).
Proof. intros H. unfold poke, vget, gets, mbind, M_bind, id. by rewrite H. Qed.

Lemma u8_u8 z : u8 (u8 z) = u8 z.
Proof. apply u8_small, u8_range. Qed.

Lemma byte_insert m a c x : byte_at (<[a := c]> m) x = if decide (x = a) then u8 c else byte_at m x.
Proof. unfold byte_at. destruct (decide (x = a)) as [->|]; [by rewrite lookup_insert_eq|by rewrite lookup_insert_ne]. Qed.

Lemma video_range_sub s lo hi lo' hi' : video_range s lo hi -> lo <= lo' -> hi' <= hi -> video_range s lo' hi'.
Proof. intros H ?? a ?. apply H. lia. Qed.

Lemma video_range_mem s m lo hi : video_range s lo hi -> video_range (with_mem m s) lo hi.
Proof. done. Qed.

Lemma pokew_run s a w : video_range s a (a + 2) ->
  exists m, pokew a w s = Ok tt (with_mem m s) /\
    forall x, byte_at m x = if decide (x = a) then u8 w else if decide (x = a + 1) then u8 (Z.shiftr w 8) else byte_at (mem s) x.
Proof.
  intros H. unfold pokew. rewrite (run_bind _ _ _ _ _ (poke_run s a w (H a ltac:(lia)))). eexists. split.
  - apply (poke_run (with_mem (<[a := u8 w]> (mem s)) s)). apply (H (a + 1)). lia.
  - intros x. cbn. rewrite !byte_insert, !u8_u8. repeat case_decide; try done; lia.
Qed.

Lemma peekw_run s a : video_range s a (a + 2) -> peekw a s = Ok (byte_at (mem s) a + 256 * byte_at (mem s) (a + 1)) s.
Proof.
  intros H. unfold peekw. rewrite (run_bind _ _ _ _ _ (peek_run s a (H a ltac:(lia)))).
  by rewrite (run_bind _ _ _ _ _ (peek_run s (a + 1) (H (a + 1) ltac:(lia)))).
Qed.

(** The word [w] stored at [d] and every second address from there. *)
Definition word_byte (d w x : Z) : Z := if Z.even (x - d) then u8 w else u8 (Z.shiftr w 8).

Lemma word_byte_shift d w x k : word_byte (d + 2 * k) w x = word_byte d w x.
Proof. unfold word_byte. replace (x - d) with (x - (d + 2 * k) + 2 * k) by lia. by rewrite Z.even_add_mul_2. Qed.

Lemma stosw_up n : forall s d w, video_range s d (d + 2 * Z.of_nat n) ->
  exists m, rep_stosw 1 n d w s = Ok (d + 2 * Z.of_nat n) (with_mem m s) /\
    forall x, byte_at m x = if decide (d <= x < d + 2 * Z.of_nat n) then word_byte d w x else byte_at (mem s) x.
Proof.
  induction n as [|n IH]; intros s d w H; cbn [rep_stosw].
  - exists (mem s). split; [rewrite Z.add_0_r; destruct s as [[] ?]; done|]. intros x. rewrite decide_False by lia. done.
  - destruct (pokew_run s d w) as (m1 & Hr & Hm1); [eapply video_range_sub; [exact H|lia..]|]. rewrite (run_bind _ _ _ _ _ Hr).
    destruct (IH (with_mem m1 s) (d + 2 * 1) w) as (m & Hr2 & Hm); [apply video_range_mem; eapply video_range_sub; [exact H|lia..]|].
    exists m. split; [rewrite Hr2; f_equal; lia|]. intros x. rewrite Hm, (word_byte_shift d w x 1). cbn. rewrite Hm1.
    destruct (decide (x = d)) as [->|]; [|destruct (decide (x = d + 1)) as [->|]]; repeat case_decide; try done; try lia; unfold word_byte.
    + by rewrite Z.sub_diag.
    + by replace (d + 1 - d) with 1 by lia.
Qed.

Lemma stosw_down n : forall s d w, video_range s (d + 2 - 2 * Z.of_nat n) (d + 2) ->
  exists m, rep_stosw (-1) n d w s = Ok (d - 2 * Z.of_nat n) (with_mem m s) /\
    forall x, byte_at m x = if decide (d + 2 - 2 * Z.of_nat n <= x < d + 2) then word_byte d w x else byte_at (mem s) x.
Proof.
  induction n as [|n IH]; intros s d w H; cbn [rep_stosw].
  - exists (mem s). split; [rewrite Z.sub_0_r; destruct s as [[] ?]; done|]. intros x. rewrite decide_False by lia. done.
  - destruct (pokew_run s d w) as (m1 & Hr & Hm1); [eapply video_range_sub; [exact H|lia..]|]. rewrite (run_bind _ _ _ _ _ Hr).
    destruct (IH (with_mem m1 s) (d + 2 * -1) w) as (m & Hr2 & Hm); [apply video_range_mem; eapply video_range_sub; [exact H|lia..]|].
    exists m. split; [rewrite Hr2; f_equal; lia|]. intros x. rewrite Hm, (word_byte_shift d w x (-1)). cbn. rewrite Hm1.
    destruct (decide (x = d)) as [->|]; [|destruct (decide (x = d + 1)) as [->|]]; repeat case_decide; try done; try lia; unfold word_byte.
    + by rewrite Z.sub_diag.
    + by replace (d + 1 - d) with 1 by lia.
Qed.

Lemma movs_run s d e : video_range s d (d + 4) -> video_range s e (e + 4) ->
  exists m, movs d e s = Ok tt (with_mem m s) /\
    forall x, byte_at m x = if decide (d <= x < d + 4) then byte_at (mem s) (x - d + e) else byte_at (mem s) x.
Proof.
  intros Hd He. unfold movs. do 4 (erewrite run_bind by (apply peek_run, He; lia)).
  do 3 (erewrite run_bind by (apply poke_run; apply Hd; lia)). eexists. split; [apply (poke_run (with_mem _ s)); apply Hd; lia|].
  intros x. cbn. rewrite !byte_insert, !u8_u8. unfold byte_at. rewrite !u8_u8.
  destruct (decide (x = d + 3)) as [->|]; [|destruct (decide (x = d + 2)) as [->|]; [|destruct (decide (x = d + 1)) as [->|]; [|destruct (decide (x = d)) as [->|]]]].
  all: case_decide; try lia; try done.
  all: do 3 f_equal; lia.
Qed.

(** Copying to lower addresses upwards, and to higher ones downwards, gives the
    old contents even where source and destination overlap. *)
Lemma movsl_up n : forall s d e, d <= e -> video_range s d (d + 4 * Z.of_nat n) -> video_range s e (e + 4 * Z.of_nat n) ->
  exists m, rep_movsl 1 n d e s = Ok (d + 4 * Z.of_nat n) (with_mem m s) /\
    forall x, byte_at m x = if decide (d <= x < d + 4 * Z.of_nat n) then byte_at (mem s) (x - d + e) else byte_at (mem s) x.
Proof.
  induction n as [|n IH]; intros s d e Hle Hd He; cbn [rep_movsl].
  - exists (mem s). split; [rewrite Z.add_0_r; destruct s as [[] ?]; done|]. intros x. rewrite decide_False by lia. done.
  - destruct (movs_run s d e) as (m1 & Hr & Hm1); [eapply video_range_sub; [exact Hd|lia..]|eapply video_range_sub; [exact He|lia..]|].
    rewrite (run_bind _ _ _ _ _ Hr).
    destruct (IH (with_mem m1 s) (d + 4 * 1) (e + 4 * 1)) as (m & Hr2 & Hm);
      [lia|apply video_range_mem; eapply video_range_sub; [exact Hd|lia..]|apply video_range_mem; eapply video_range_sub; [exact He|lia..]|].
    exists m. split; [rewrite Hr2; f_equal; lia|]. intros x. rewrite Hm. cbn. rewrite !Hm1.
    replace (x - (d + 4 * 1) + (e + 4 * 1)) with (x - d + e) by lia. repeat case_decide; try done; lia.
Qed.

Lemma movsl_down n : forall s d e, e <= d -> video_range s (d + 4 - 4 * Z.of_nat n) (d + 4) -> video_range s (e + 4 - 4 * Z.of_nat n) (e + 4) ->
  exists m, rep_movsl (-1) n d e s = Ok (d - 4 * Z.of_nat n) (with_mem m s) /\
    forall x, byte_at m x = if decide (d + 4 - 4 * Z.of_nat n <= x < d + 4) then byte_at (mem s) (x - d + e) else byte_at (mem s) x.
Proof.
  induction n as [|n IH]; intros s d e Hle Hd He; cbn [rep_movsl].
  - exists (mem s). split; [rewrite Z.sub_0_r; destruct s as [[] ?]; done|]. intros x. rewrite decide_False by lia. done.
  - destruct (movs_run s d e) as (m1 & Hr & Hm1); [eapply video_range_sub; [exact Hd|lia..]|eapply video_range_sub; [exact He|lia..]|].
    rewrite (run_bind _ _ _ _ _ Hr).
    destruct (IH (with_mem m1 s) (d + 4 * -1) (e + 4 * -1)) as (m & Hr2 & Hm);
      [lia|apply video_range_mem; eapply video_range_sub; [exact Hd|lia..]|apply video_range_mem; eapply video_range_sub; [exact He|lia..]|].
    exists m. split; [rewrite Hr2; f_equal; lia|]. intros x. rewrite Hm. cbn. rewrite !Hm1.
    replace (x - (d + 4 * -1) + (e + 4 * -1)) with (x - d + e) by lia. repeat case_decide; try done; lia.
Qed.

(** ** Consoles in order *)

Notation cols s := (video_num_columns (vid s)).
Notation lines s := (video_num_lines (vid s)).
Notation row s := (video_size_row (vid s)).

(** The cursor may stand behind the last column; [screen_upto n] lets it go as
    far as [n]. *)
Record screen_upto (n : Z) (s : cst) : Prop := {
  so_cols : 8 <= cols s;
  so_even : Z.even (cols s) = true;
  so_row : row s = 2 * cols s;
  so_x : 0 <= vc_x (vc s) <= n /\ n <= 2 * cols s;
  so_y : 0 <= vc_y (vc s) < lines s;
  so_region : 0 <= vc_top (vc s) < vc_bottom (vc s) /\ vc_bottom (vc s) <= lines s;
  so_pos : vc_pos (vc s) = vc_origin (vc s) + vc_y (vc s) * row s + 2 * vc_x (vc s);
  so_end : vc_scr_end (vc s) = vc_origin (vc s) + lines s * row s;
  so_window : 4 <= vc_video_mem_start (vc s) <= vc_origin (vc s) /\ vc_scr_end (vc s) <= vc_video_mem_end (vc s) /\
    vc_video_mem_end (vc s) + 2 * row s < 2 ^ 32;
  so_video : video_range s (vc_video_mem_start (vc s)) (vc_video_mem_end (vc s));
  so_npar : 0 <= vc_npar (vc s) < NPAR;
  so_par : Z.of_nat (length (vc_par (vc s))) = NPAR /\ Forall in_u32 (vc_par (vc s))
}.
Definition screen_ok (s : cst) : Prop := screen_upto (cols s) s.

(** Nothing changes but the console itself, its window of video memory, the
    registers of the display, the blanking time and the keypad mode. *)
Definition vid_kept (v v' : video) : Prop :=
  v' = set_kapplic (kapplic v') (set_blankinterval (blankinterval v') (set_crtc (crtc v') (set_vmem (vmem v') v))).
Definition kept (s s' : cst) : Prop :=
  vid_kept (vid s) (vid s') /\ vc_video_mem_start (vc s') = vc_video_mem_start (vc s) /\ vc_video_mem_end (vc s') = vc_video_mem_end (vc s) /\
  forall a, ~ (vc_video_mem_start (vc s) <= a < vc_video_mem_end (vc s)) -> byte_at (mem s') a = byte_at (mem s) a.

Definition stepped (s s' : cst) : Prop := screen_ok s' /\ kept s s'.
Definition safe {A} (m : M cst A) : Prop := forall s, screen_ok s -> wp m s (fun _ s' => stepped s s') no_halt.

Lemma vid_kept_refl v : vid_kept v v.
Proof. by destruct v. Qed.
Lemma vid_kept_trans v1 v2 v3 : vid_kept v1 v2 -> vid_kept v2 v3 -> vid_kept v1 v3.
Proof. unfold vid_kept. intros H1 H2. rewrite H2, H1. done. Qed.

Lemma kept_refl s : kept s s.
Proof. split; [apply vid_kept_refl|done]. Qed.
Lemma kept_trans s1 s2 s3 : kept s1 s2 -> kept s2 s3 -> kept s1 s3.
Proof.
  intros (V1 & A1 & B1 & M1) (V2 & A2 & B2 & M2). split; [by eapply vid_kept_trans|]. split; [congruence|]. split; [congruence|].
  intros a Ha. rewrite M2, M1; [done|done|]. by rewrite A1, B1.
Qed.

Lemma kept_geometry s s' : kept s s' -> cols s' = cols s /\ lines s' = lines s /\ row s' = row s /\ forall a, in_video (vid s') a = in_video (vid s) a.
Proof. intros (V & _). rewrite V. done. Qed.

Lemma stepped_refl s : screen_ok s -> stepped s s.
Proof. split; [done|apply kept_refl]. Qed.
Lemma stepped_trans s1 s2 s3 : kept s1 s2 -> stepped s2 s3 -> stepped s1 s3.
Proof. intros K [H K']. split; [done|by eapply kept_trans]. Qed.

(** Safe computations compose. *)
Lemma safe_ret {A} (a : A) : safe (mret a).
Proof. intros s H. by apply stepped_refl. Qed.
Lemma safe_bind {A B} (m : M cst A) (f : A -> M cst B) : safe m -> (forall a, safe (f a)) -> safe (m ≫= f).
Proof.
  intros Hm Hf s Hs. apply wp_bind. eapply wp_mono; [by apply Hm| |done]. intros a s1 [Hs1 K1]. eapply wp_mono; [by apply Hf| |done].
  intros b s2 S2. by eapply stepped_trans.
Qed.
Lemma safe_gets {A} (f : cst -> A) : safe (gets f).
Proof. intros s H. by apply stepped_refl. Qed.
Lemma safe_when b m : safe m -> safe (when b m).
Proof. destruct b; [done|]. intros _. apply safe_ret. Qed.
Lemma safe_for_each {A} (l : list A) f : (forall x, x ∈ l -> safe (f x)) -> safe (for_each l f).
Proof.
  induction l as [|x l IH]; intros H; cbn; [apply safe_ret|]. apply safe_bind; [apply H; by constructor|]. intros _. apply IH. intros y Hy. apply H. by constructor.
Qed.
Lemma safe_repeat n op : safe op -> safe (repeat_op n op).
Proof. intros H. induction n; cbn; [apply safe_ret|by apply safe_bind]. Qed.

#[local] Hint Resolve safe_ret safe_gets safe_when safe_for_each safe_repeat : kern.

(** Changes of the console that have nothing to do with its geometry. *)
Definition geometry (w : vc_struct) :=
  (vc_x w, vc_y w, (vc_top w, vc_bottom w), vc_pos w, vc_origin w, vc_scr_end w, (vc_video_mem_start w, vc_video_mem_end w), (vc_npar w, vc_par w)).

Lemma screen_geometry n s w' : geometry w' = geometry (vc s) -> screen_upto n s -> screen_upto n (Cst (vid s) w').
Proof.
  intros E [H1 H2 H3 H4 H5 H6 H7 H8 H9 H10 H11 H12]. unfold geometry in E.
  injection E as E1 E2 E3 E4 E5 E6 E7 E8 E9 E10 E11. split; cbn; rewrite ?E1, ?E2, ?E3, ?E4, ?E5, ?E6, ?E7, ?E8, ?E9, ?E10, ?E11; done.
Qed.

Lemma safe_put f : (forall w, geometry (f w) = geometry w) -> safe (put f).
Proof.
  intros Hf s Hs. unfold wp, put, modify. split; [by apply screen_geometry|]. specialize (Hf (vc s)). unfold geometry in Hf. injection Hf as _ _ _ _ _ _ _ E1 E2 _ _.
  split; [apply vid_kept_refl|]. cbn. by rewrite E1, E2.
Qed.

(** Changes of the globals that the console may make. *)
Lemma screen_kept n s v' : vid_kept (vid s) v' -> screen_upto n s -> screen_upto n (Cst v' (vc s)).
Proof.
  intros V [H1 H2 H3 H4 H5 H6 H7 H8 H9 H10 H11 H12]. rewrite V. split; cbn; try done.
Qed.

Lemma safe_vput f : (forall v, vid_kept v (f v)) -> (forall v, vmem (f v) = vmem v) -> safe (vput f).
Proof.
  intros Hf Hm s Hs. unfold wp, vput, modify. split; [|split; [apply Hf|]; split; [done|]; split; [done|]; intros a _; cbn; by rewrite Hm].
  assert (E : cols (Cst (f (vid s)) (vc s)) = cols s) by (cbn; by rewrite (Hf (vid s))).
  unfold screen_ok. rewrite E. apply (screen_kept _ s (f (vid s))); [apply Hf|exact Hs].
Qed.

Lemma safe_crtc_out reg val : safe (crtc_out reg val).
Proof. apply safe_vput; done. Qed.

(** Changes of memory in the window. *)
Lemma mem_kept s m : (forall a, ~ (vc_video_mem_start (vc s) <= a < vc_video_mem_end (vc s)) -> byte_at m a = byte_at (mem s) a) -> kept s (with_mem m s).
Proof. intros H. split; [by destruct s as [[] ?]|]. by split_and!. Qed.

Lemma mem_screen n s m : screen_upto n s -> screen_upto n (with_mem m s).
Proof. intros [H1 H2 H3 H4 H5 H6 H7 H8 H9 H10 H11 H12]. by split. Qed.

Lemma mem_stepped s m : screen_ok s -> (forall a, ~ (vc_video_mem_start (vc s) <= a < vc_video_mem_end (vc s)) -> byte_at m a = byte_at (mem s) a) ->
  stepped s (with_mem m s).
Proof. intros H Hm. split; [by apply (mem_screen (cols s))|by apply mem_kept]. Qed.

(** ** Scrolling *)

(** The screen moves in its window: its start, and with it the cursor and the end. *)
Definition shifted (o : Z) (w : vc_struct) : vc_struct :=
  set_vc_scr_end (vc_scr_end w + (o - vc_origin w)) (set_vc_pos (vc_pos w + (o - vc_origin w)) (set_vc_origin o w)).

Lemma shifted_id w : shifted (vc_origin w) w = w.
Proof. destruct w. unfold shifted, set_vc_scr_end, set_vc_pos, set_vc_origin. cbn. f_equal; lia. Qed.

Lemma shifted_stepped n s v' o : screen_upto n s -> vid_kept (vid s) v' -> vc_video_mem_start (vc s) <= o ->
  o + lines s * row s <= vc_video_mem_end (vc s) ->
  (forall a, ~ (vc_video_mem_start (vc s) <= a < vc_video_mem_end (vc s)) -> byte_at (vmem v') a = byte_at (mem s) a) ->
  screen_upto n (Cst v' (shifted o (vc s))) /\ kept s (Cst v' (shifted o (vc s))).
Proof.
  intros [H1 H2 H3 H4 H5 H6 H7 H8 H9 H10 H11 H12] V Ho He Hm. split; [|by split; [|split_and!]]. rewrite V. split; cbn; try done; lia.
Qed.

(** Row [r], byte [i] of the screen. *)
Definition cell (s : cst) (r i : Z) : Z := byte_at (mem s) (vc_origin (vc s) + r * row s + i).

(** The screen after lines [t] to [b] have moved up by one. *)
Definition scrolled_up (t b : Z) (s s' : cst) : Prop :=
  forall r i, 0 <= r < lines s -> 0 <= i < row s ->
    cell s' r i = if decide (t <= r < b) then if decide (r + 1 < b) then cell s (r + 1) i else word_byte 0 (vc_video_erase_char (vc s)) i else cell s r i.
Definition scrolled_down (t b : Z) (s s' : cst) : Prop :=
  forall r i, 0 <= r < lines s -> 0 <= i < row s ->
    cell s' r i = if decide (t <= r < b) then if decide (t < r) then cell s (r - 1) i else word_byte 0 (vc_video_erase_char (vc s)) i else cell s r i.

Lemma word_byte_off d w x : word_byte d w x = word_byte 0 w (x - d).
Proof. unfold word_byte. by rewrite Z.sub_0_r. Qed.

Lemma half_words s k : Z.even (cols s) = true -> 0 <= k * cols s < 2 ^ 32 ->
  4 * Z.of_nat (Z.to_nat (Z.shiftr (u32 (k * cols s)) 1)) = k * (2 * cols s).
Proof.
  intros He Hk. rewrite u32_small by exact Hk. rewrite Z.shiftr_div_pow2 by lia. change (2 ^ 1) with 2. apply Z.even_spec in He as [h Hh].
  rewrite Hh in *. replace (k * (2 * h)) with (k * h * 2) by lia. rewrite Z.div_mul by lia. rewrite Z2Nat.id by lia. lia.
Qed.

(** Comparing rows: what [lia] needs to know about the products. *)
Lemma rows_le a b c : a <= b -> 0 <= c -> a * c <= b * c.
Proof. intros. by apply Z.mul_le_mono_nonneg_r. Qed.

Lemma set_origin_run fgd s : exists v, set_origin fgd s = Ok tt (Cst v (vc s)) /\ vid_kept (vid s) v /\ vmem v = mem s.
Proof.
  unfold set_origin, vget, get, gets, mbind, M_bind. cbn. destruct (_ || _); [exists (vid s); split; [by destruct s|]; split; [apply vid_kept_refl|done]|].
  eexists. split; [done|]. by split.
Qed.

Lemma run_get {A B} (g : vc_struct -> A) (f : A -> M cst B) s : (get g ≫= f) s = f (g (vc s)) s.
Proof. done. Qed.
Lemma run_vget {A B} (g : video -> A) (f : A -> M cst B) s : (vget g ≫= f) s = f (g (vid s)) s.
Proof. done. Qed.
Lemma run_put {B} g (f : unit -> M cst B) s : (put g ≫= f) s = f tt (Cst (vid s) (g (vc s))).
Proof. done. Qed.

Lemma pos_bounds n s : screen_upto n s -> vc_origin (vc s) <= vc_pos (vc s) <= vc_scr_end (vc s) + row s /\ 0 <= lines s * row s.
Proof.
  intros [H1 H2 H3 H4 H5 H6 H7 H8 H9 H10 H11 H12]. pose proof (rows_le (vc_y (vc s)) (lines s - 1) (row s)). pose proof (rows_le 0 (vc_y (vc s)) (row s)).
  pose proof (rows_le 0 (lines s) (row s)). lia.
Qed.

Section Scroll.
Context (s : cst) (n t b : Z).
Context (Hs : screen_upto n s) (Ht : 0 <= t < b) (Hb : b <= lines s).
Let w := vc s.

Lemma soft_rows : 0 <= (b - t - 1) * cols s < 2 ^ 32 /\ (b - t - 1) * row s + row s <= lines s * row s /\ 16 <= row s.
Proof using Hs Ht Hb.
  destruct Hs as [H1 H2 H3 H4 H5 H6 H7 H8 H9 H10 H11 H12]. rewrite H3. pose proof (rows_le (b - t) (lines s) (2 * cols s)). nia.
Qed.

Lemma soft_range lo hi : t <= lo -> hi <= b -> lo <= hi ->
  video_range s (vc_origin w + lo * row s) (vc_origin w + hi * row s) /\ vc_origin w + hi * row s <= vc_scr_end w /\ vc_origin w <= vc_origin w + lo * row s.
Proof using Hs Ht Hb.
  intros E1 E2 E3. destruct Hs as [H1 H2 H3 H4 H5 H6 H7 H8 H9 H10 H11 H12]. pose proof (rows_le 0 lo (row s)). pose proof (rows_le hi (lines s) (row s)).
  unfold w. split; [|lia]. eapply video_range_sub; [exact H10|lia..].
Qed.

Lemma scrup_soft :
  exists m, (edi ← rep_movsl 1 (Z.to_nat (Z.shiftr (u32 ((b - t - 1) * cols s)) 1)) (u32 (vc_origin w + row s * t)) (u32 (vc_origin w + row s * (t + 1)));
     rep_stosw 1 (Z.to_nat (cols s)) edi (vc_video_erase_char w);; mret tt) s = Ok tt (with_mem m s) /\
    (forall a, ~ (vc_video_mem_start w <= a < vc_video_mem_end w) -> byte_at m a = byte_at (mem s) a) /\ scrolled_up t b s (with_mem m s).
Proof using Hs Ht Hb.
  destruct soft_rows as (R1 & R2 & R3). destruct (soft_range t (b - 1)) as (A1 & A2 & A3); [lia..|]. destruct (soft_range (t + 1) b) as (B1 & B2 & B3); [lia..|].
  destruct (soft_range t b) as (C1 & _ & C3); [lia..|].
  destruct Hs as [H1 H2 H3 H4 H5 H6 H7 H8 H9 H10 H11 H12]. fold w in H7, H8, H9. pose proof (half_words s (b - t - 1) H2 R1) as Hn. rewrite <-H3 in Hn.
  set (k := Z.to_nat (Z.shiftr _ 1)) in *. rewrite !u32_small by (unfold in_u32; lia). replace (row s * t) with (t * row s) by lia. replace (row s * (t + 1)) with ((t + 1) * row s) by lia.
  destruct (movsl_up k s (vc_origin w + t * row s) (vc_origin w + (t + 1) * row s)) as (m1 & Hr1 & Hm1);
    [lia|eapply video_range_sub; [exact A1|lia..]|eapply video_range_sub; [exact B1|lia..]|].
  rewrite (run_bind _ _ _ _ _ Hr1). rewrite Hn. replace (vc_origin w + t * row s + (b - t - 1) * row s) with (vc_origin w + (b - 1) * row s) by lia.
  destruct (stosw_up (Z.to_nat (cols s)) (with_mem m1 s) (vc_origin w + (b - 1) * row s) (vc_video_erase_char w)) as (m & Hr2 & Hm);
    [apply video_range_mem; eapply video_range_sub; [exact C1|lia..]|].
  rewrite (run_bind _ _ _ _ _ Hr2). exists m. split; [done|]. cbn [vid with_mem set_vmem vmem] in Hm.
  rewrite Z2Nat.id in Hm by lia. rewrite <-H3 in Hm. split.
  - intros a Ha. rewrite Hm, Hm1, Hn. rewrite decide_False by lia. rewrite decide_False by lia. done.
  - intros r i Hr Hi. unfold cell. cbn [vid with_mem set_vmem vmem vc video_size_row]. fold w. rewrite Hm, Hm1, Hn.
    pose proof (rows_le r (b - 1) (row s)). pose proof (rows_le b r (row s)). pose proof (rows_le (r + 1) t (row s)). pose proof (rows_le t r (row s)).
    pose proof (rows_le (r + 1) (b - 1) (row s)).
    destruct (decide (t <= r < b)); [destruct (decide (r + 1 < b))|].
    + rewrite decide_False by lia. rewrite decide_True by lia. f_equal. lia.
    + assert (r = b - 1) as -> by lia. rewrite decide_True by lia. rewrite word_byte_off. f_equal. lia.
    + rewrite decide_False by (assert (b <= r \/ r + 1 <= t) by lia; lia). rewrite decide_False by (assert (b <= r \/ r + 1 <= t) by lia; lia). done.
Qed.

Lemma scrdown_run : exists m, scrdown t b s = Ok tt (with_mem m s) /\
  (forall a, ~ (vc_video_mem_start w <= a < vc_video_mem_end w) -> byte_at m a = byte_at (mem s) a) /\ scrolled_down t b s (with_mem m s).
Proof using Hs Ht Hb.
  destruct soft_rows as (R1 & R2 & R3). destruct (soft_range t (b - 1)) as (A1 & A2 & A3); [lia..|]. destruct (soft_range (t + 1) b) as (B1 & B2 & B3); [lia..|].
  destruct (soft_range t b) as (C1 & _ & C3); [lia..|].
  destruct Hs as [H1 H2 H3 H4 H5 H6 H7 H8 H9 H10 H11 H12]. fold w in H7, H8, H9. pose proof (half_words s (b - t - 1) H2 R1) as Hn. rewrite <-H3 in Hn.
  unfold scrdown. rewrite run_vget. cbv zeta. unfold id at 1 2. rewrite (proj2 (Z.ltb_ge (lines s) b)), (proj2 (Z.leb_gt b t)) by lia. cbn [orb].
  rewrite run_get. unfold id. fold w. set (k := Z.to_nat (Z.shiftr _ 1)) in *. rewrite !u32_small by (unfold in_u32; lia).
  replace (vc_origin w + row s * b - 4) with (vc_origin w + b * row s - 4) by lia.
  replace (vc_origin w + row s * (b - 1) - 4) with (vc_origin w + (b - 1) * row s - 4) by lia.
  destruct (movsl_down k s (vc_origin w + b * row s - 4) (vc_origin w + (b - 1) * row s - 4)) as (m1 & Hr1 & Hm1);
    [lia|eapply video_range_sub; [exact B1|lia..]|eapply video_range_sub; [exact A1|lia..]|].
  rewrite (run_bind _ _ _ _ _ Hr1). rewrite Hn. replace (vc_origin w + b * row s - 4 - (b - t - 1) * row s + 2) with (vc_origin w + (t + 1) * row s - 2) by lia.
  destruct (stosw_down (Z.to_nat (cols s)) (with_mem m1 s) (vc_origin w + (t + 1) * row s - 2) (vc_video_erase_char w)) as (m & Hr2 & Hm);
    [apply video_range_mem; eapply video_range_sub; [exact C1|lia..]|].
  rewrite (run_bind _ _ _ _ _ Hr2). exists m. split; [done|]. cbn [vid with_mem set_vmem vmem] in Hm.
  rewrite Z2Nat.id in Hm by lia. rewrite <-H3 in Hm. split.
  - intros a Ha. rewrite Hm, Hm1, Hn. rewrite decide_False by lia. rewrite decide_False by lia. done.
  - intros r i Hr Hi. unfold cell. cbn [vid with_mem set_vmem vmem vc video_size_row]. fold w. rewrite Hm, Hm1, Hn.
    pose proof (rows_le (r + 1) b (row s)). pose proof (rows_le b r (row s)). pose proof (rows_le (r + 1) t (row s)). pose proof (rows_le (t + 1) r (row s)).
    destruct (decide (t <= r < b)); [destruct (decide (t < r))|].
    + rewrite decide_False by lia. rewrite decide_True by lia. f_equal. lia.
    + assert (r = t) as -> by lia. rewrite decide_True by lia. replace (vc_origin w + (t + 1) * row s - 2) with (vc_origin w + t * row s + 2 * (cols s - 1)) by lia.
      rewrite word_byte_shift, word_byte_off. f_equal. lia.
    + rewrite decide_False by (assert (b <= r \/ r + 1 <= t) by lia; lia). rewrite decide_False by (assert (b <= r \/ r + 1 <= t) by lia; lia). done.
Qed.

(** Scrolling by moving the start of the screen in video memory. *)
Lemma scrup_hard_wrap : let w1 := shifted (vc_origin w + row s) w in
  exists m, (forall k : M cst unit, (edi ← rep_movsl 1 (Z.to_nat (Z.shiftr (u32 ((lines s - 1) * cols s)) 1)) (vc_video_mem_start w1) (vc_origin w1);
    rep_stosw 1 (Z.to_nat (cols s)) edi (vc_video_erase_char w1);; k) (Cst (vid s) w1) = k (Cst (set_vmem m (vid s)) w1)) /\
    (forall a, ~ (vc_video_mem_start w <= a < vc_video_mem_end w) -> byte_at m a = byte_at (mem s) a) /\
    forall r i, 0 <= r < lines s -> 0 <= i < row s -> byte_at m (vc_video_mem_start w + r * row s + i) =
      if decide (r + 1 < lines s) then cell s (r + 1) i else word_byte 0 (vc_video_erase_char w) i.
Proof using Hs.
  clear Ht Hb.
  destruct Hs as [H1 H2 H3 H4 H5 H6 H7 H8 H9 H10 H11 H12]. fold w in H7, H8, H9, H10. set (w1 := shifted (vc_origin w + row s) w). cbv zeta.
  pose proof (rows_le 1 (lines s) (row s)) as Hl1. pose proof (half_words s (lines s - 1) H2 ltac:(nia)) as Hn. rewrite <-H3 in Hn.
  set (k := Z.to_nat (Z.shiftr _ 1)) in *. change (vc_video_mem_start w1) with (vc_video_mem_start w). change (vc_origin w1) with (vc_origin w + row s).
  change (vc_video_erase_char w1) with (vc_video_erase_char w).
  destruct (movsl_up k (Cst (vid s) w1) (vc_video_mem_start w) (vc_origin w + row s)) as (m1 & Hr1 & Hm1);
    [lia|eapply (video_range_sub s); [exact H10|lia..]|eapply (video_range_sub s); [exact H10|lia..]|]. rewrite Hn in Hr1.
  destruct (stosw_up (Z.to_nat (cols s)) (with_mem m1 (Cst (vid s) w1)) (vc_video_mem_start w + (lines s - 1) * row s) (vc_video_erase_char w)) as (m & Hr2 & Hm);
    [eapply (video_range_sub s); [exact H10|lia..]|].
  exists m. cbn [vid vc with_mem set_vmem vmem] in Hm, Hm1. rewrite Z2Nat.id in Hm by lia. rewrite <-H3 in Hm.
  split; [intros kk; by rewrite (run_bind _ _ _ _ _ Hr1), (run_bind _ _ _ _ _ Hr2)|]. split.
  - intros a Ha. rewrite Hm, Hm1, Hn. rewrite decide_False by lia. rewrite decide_False by lia. done.
  - intros r i Hr Hi. unfold cell. fold w. rewrite Hm, Hm1, Hn. pose proof (rows_le (r + 1) (lines s - 1) (row s)). pose proof (rows_le 0 r (row s)).
    destruct (decide (r + 1 < lines s)).
    + rewrite decide_False by lia. rewrite decide_True by lia. f_equal. lia.
    + assert (r = lines s - 1) as -> by lia. rewrite decide_True by lia. rewrite word_byte_off. f_equal. lia.
Qed.

Lemma scrup_hard_room : let w1 := shifted (vc_origin w + row s) w in vc_scr_end w1 <= vc_video_mem_end w ->
  exists m, rep_stosw 1 (Z.to_nat (cols s)) (vc_scr_end w) (vc_video_erase_char w) (Cst (vid s) w1) = Ok (vc_scr_end w1) (Cst (set_vmem m (vid s)) w1) /\
    (forall a, ~ (vc_video_mem_start w <= a < vc_video_mem_end w) -> byte_at m a = byte_at (mem s) a) /\
    forall r i, 0 <= r < lines s -> 0 <= i < row s -> byte_at m (vc_origin w + row s + r * row s + i) =
      if decide (r + 1 < lines s) then cell s (r + 1) i else word_byte 0 (vc_video_erase_char w) i.
Proof using Hs.
  clear Ht Hb.
  destruct Hs as [H1 H2 H3 H4 H5 H6 H7 H8 H9 H10 H11 H12]. fold w in H7, H8, H9, H10. set (w1 := shifted (vc_origin w + row s) w). cbv zeta.
  change (vc_scr_end w1) with (vc_scr_end w + (vc_origin w + row s - vc_origin w)). intros Hroom. pose proof (rows_le 1 (lines s) (row s)) as Hl1.
  destruct (stosw_up (Z.to_nat (cols s)) (Cst (vid s) w1) (vc_scr_end w) (vc_video_erase_char w)) as (m & Hr2 & Hm);
    [eapply (video_range_sub s); [exact H10|lia..]|].
  exists m. cbn [vid vc with_mem set_vmem vmem] in Hm. rewrite Z2Nat.id in Hm by lia. rewrite <-H3 in Hm.
  split; [rewrite Hr2; f_equal; lia|]. split.
  - intros a Ha. rewrite Hm. rewrite decide_False by lia. done.
  - intros r i Hr Hi. unfold cell. fold w. rewrite Hm. pose proof (rows_le (r + 2) (lines s) (row s)).
    destruct (decide (r + 1 < lines s)).
    + rewrite decide_False by lia. f_equal. lia.
    + assert (r = lines s - 1) as -> by lia. rewrite decide_True by lia. rewrite word_byte_off. f_equal. lia.
Qed.
End Scroll.

(** Going back to the start of the window. *)
Lemma rewind w o : in_u32 (vc_scr_end w + (vc_video_mem_start w - vc_origin w)) -> in_u32 (vc_pos w + (vc_video_mem_start w - vc_origin w)) ->
  let w1 := shifted o w in
  let w2 := set_vc_scr_end (u32 (vc_scr_end w1 - (vc_origin w1 - vc_video_mem_start w1))) w1 in
  let w3 := set_vc_pos (u32 (vc_pos w2 - (vc_origin w2 - vc_video_mem_start w2))) w2 in
  set_vc_origin (vc_video_mem_start w3) w3 = shifted (vc_video_mem_start w) w.
Proof.
  intros E1 E2. cbv zeta. set (w1 := shifted o w).
  assert (F1 : u32 (vc_scr_end w1 - (vc_origin w1 - vc_video_mem_start w1)) = vc_scr_end w + (vc_video_mem_start w - vc_origin w)).
  { change (u32 (vc_scr_end w + (o - vc_origin w) - (o - vc_video_mem_start w)) = vc_scr_end w + (vc_video_mem_start w - vc_origin w)).
    unfold in_u32 in *. rewrite u32_small by (unfold in_u32; lia). lia. }
  assert (F2 : u32 (vc_pos w1 - (vc_origin w1 - vc_video_mem_start w1)) = vc_pos w + (vc_video_mem_start w - vc_origin w)).
  { change (u32 (vc_pos w + (o - vc_origin w) - (o - vc_video_mem_start w)) = vc_pos w + (vc_video_mem_start w - vc_origin w)).
    unfold in_u32 in *. rewrite u32_small by (unfold in_u32; lia). lia. }
  rewrite F1. set (w2 := set_vc_scr_end _ w1). change (vc_pos w2 - (vc_origin w2 - vc_video_mem_start w2)) with (vc_pos w1 - (vc_origin w1 - vc_video_mem_start w1)).
  rewrite F2. reflexivity.
Qed.

(** [scrup] on any card: the lines move up, and the screen may move in its window. *)
Lemma scrup_run fgd s n t b : screen_upto n s -> 0 <= t < b -> b <= lines s ->
  exists s', scrup fgd t b s = Ok tt s' /\ screen_upto n s' /\ kept s s' /\ scrolled_up t b s s' /\
    exists o, vc s' = shifted o (vc s).
Proof.
  intros Hs Ht Hb. pose proof Hs as [H1 H2 H3 H4 H5 H6 H7 H8 H9 H10 H11 H12]. unfold scrup. rewrite run_vget. cbv zeta. unfold id at 1 2 3 4 5 6 7 8.
  rewrite (proj2 (Z.ltb_ge (lines s) b)), (proj2 (Z.leb_gt b t)) by lia. cbn [orb]. unfold id.
  destruct (is_ega (vid s) && (t =? 0) && (b =? lines s)) eqn:Eh.
  - assert (t = 0 /\ b = lines s) as [-> ->] by lia. clear Eh Ht Hb. pose proof (rows_le 1 (lines s) (row s)) as Hl1.
    pose proof (pos_bounds n s Hs) as [Hpb Hlr]. rewrite run_put.
    rewrite (u32_small (vc_origin (vc s) + row s)), (u32_small (vc_pos (vc s) + row s)), (u32_small (vc_scr_end (vc s) + row s)) by (unfold in_u32; lia). set (o1 := vc_origin (vc s) + row s).
    replace (set_vc_scr_end (vc_scr_end (vc s) + row s) (set_vc_pos (vc_pos (vc s) + row s) (set_vc_origin o1 (vc s)))) with (shifted o1 (vc s))
      by (unfold shifted, o1; repeat f_equal; lia).
    rewrite run_get. cbn [vid vc]. set (w1 := shifted o1 (vc s)).
    assert (Hfin : forall o m, vc_video_mem_start (vc s) <= o -> o + lines s * row s <= vc_video_mem_end (vc s) ->
        (forall a, ~ (vc_video_mem_start (vc s) <= a < vc_video_mem_end (vc s)) -> byte_at m a = byte_at (mem s) a) ->
        (forall r i, 0 <= r < lines s -> 0 <= i < row s -> byte_at m (o + r * row s + i) =
          if decide (r + 1 < lines s) then cell s (r + 1) i else word_byte 0 (vc_video_erase_char (vc s)) i) ->
        exists s', set_origin fgd (Cst (set_vmem m (vid s)) (shifted o (vc s))) = Ok tt s' /\ screen_upto n s' /\ kept s s' /\ scrolled_up 0 (lines s) s s' /\
          exists o', vc s' = shifted o' (vc s)).
    { intros o m Ho He Hout Hin. destruct (set_origin_run fgd (Cst (set_vmem m (vid s)) (shifted o (vc s)))) as (v & Hr & Hk & Hv). cbn in Hk, Hv.
      assert (Hk' : vid_kept (vid s) v) by (eapply vid_kept_trans; [|exact Hk]; by destruct (vid s)).
      destruct (shifted_stepped n s v o Hs Hk' Ho He) as [S1 S2]; [by rewrite Hv|]. eexists. split; [exact Hr|]. split; [done|]. split; [done|].
      split; [|by exists o]. intros r i Hr' Hi. unfold cell at 1. cbn [vid vc]. rewrite Hv. replace (video_size_row v) with (row s) by (by rewrite Hk').
      rewrite (decide_True (P := 0 <= r < lines s)) by done. by apply Hin. }
    destruct (Z.ltb_spec (vc_video_mem_end w1) (vc_scr_end w1)) as [Hover|Hroom].
    + destruct (scrup_hard_wrap s n Hs) as (m & Hr & Hout & Hin). fold o1 w1 in Hr.
      destruct (Hfin (vc_video_mem_start (vc s)) m) as (s' & Hso & Hrest); [lia|lia|done|done|]. exists s'. split; [|done].
      rewrite (run_bind _ _ (Cst (vid s) w1) tt (Cst (set_vmem m (vid s)) (shifted (vc_video_mem_start (vc s)) (vc s)))); [done|].
      etransitivity; [apply Hr|]. rewrite !run_put. unfold put, modify. cbn [vid vc]. f_equal. f_equal. apply rewind; unfold in_u32; lia.
    + destruct (scrup_hard_room s n Hs Hroom) as (m & Hr & Hout & Hin). fold o1 w1 in Hr, Hin.
      destruct (Hfin o1 m) as (s' & Hso & Hrest); [lia| |done|done|].
      { unfold o1. change (vc_scr_end w1) with (vc_scr_end (vc s) + (o1 - vc_origin (vc s))) in Hroom. unfold o1 in Hroom. cbn in Hroom. lia. }
      exists s'. split; [|done]. replace (u32 (vc_scr_end w1 - row s)) with (vc_scr_end (vc s)).
      2:{ change (vc_scr_end w1) with (vc_scr_end (vc s) + (o1 - vc_origin (vc s))). unfold o1. rewrite u32_small by (unfold in_u32; lia). lia. }
      rewrite (run_bind _ _ (Cst (vid s) w1) tt (Cst (set_vmem m (vid s)) w1)); [done|]. change (vc_video_erase_char w1) with (vc_video_erase_char (vc s)).
      by rewrite (run_bind _ _ _ _ _ Hr).
  - rewrite run_get. destruct (scrup_soft s n t b Hs Ht Hb) as (m & Hr & Hout & Hin). exists (with_mem m s). split; [exact Hr|].
    split; [by apply mem_screen|]. split; [by apply mem_kept|]. split; [done|]. exists (vc_origin (vc s)). cbn. by rewrite shifted_id.
Qed.

(** ** Every operation keeps the console in order *)

Lemma stepped_kept n s s' : screen_upto n s' -> n = cols s -> kept s s' -> stepped s s'.
Proof. intros H -> K. split; [|done]. unfold screen_ok. by destruct (kept_geometry _ _ K) as (-> & _). Qed.

(** Only the cursor moves. *)
Definition at_xy (s : cst) (x y : Z) : cst :=
  Cst (vid s) (set_vc_pos (vc_origin (vc s) + y * row s + 2 * x) (set_vc_y y (set_vc_x x (vc s)))).

Lemma at_xy_upto n n' s x y : screen_upto n s -> 0 <= x <= n' -> n' <= 2 * cols s -> 0 <= y < lines s -> screen_upto n' (at_xy s x y).
Proof. intros [H1 H2 H3 H4 H5 H6 H7 H8 H9 H10 H11 H12] Hx Hn Hy. by split. Qed.

Lemma at_xy_kept s x y : kept s (at_xy s x y).
Proof. split; [apply vid_kept_refl|done]. Qed.

Lemma at_xy_stepped n s x y : screen_upto n s -> 0 <= x <= cols s -> 0 <= y < lines s -> stepped s (at_xy s x y).
Proof.
  intros Hs Hx Hy. split; [|apply at_xy_kept]. apply (at_xy_upto n); try done. change (cols (at_xy s x y)) with (cols s). pose proof (so_cols _ _ Hs). lia.
Qed.

(** The positions of the console are 32-bit numbers. *)
Lemma at_xy_u32 n s x y : screen_upto n s -> 0 <= x <= 2 * cols s -> 0 <= y < lines s -> in_u32 (vc_origin (vc s) + y * row s + 2 * x).
Proof.
  intros [H1 H2 H3 H4 H5 H6 H7 H8 H9 H10 H11 H12] Hx Hy. pose proof (rows_le y (lines s - 1) (row s)). pose proof (rows_le 0 y (row s)). unfold in_u32. lia.
Qed.

Lemma shiftl_1 z : Z.shiftl z 1 = 2 * z.
Proof. rewrite Z.shiftl_mul_pow2 by lia. lia. Qed.

Lemma vc_pos_eq w p : vc_pos w = p -> set_vc_pos p w = w.
Proof. intros <-. by destruct w. Qed.

Lemma small_u32 n s z : screen_upto n s -> 0 <= z <= 2 * cols s \/ 0 <= z <= lines s -> u32 z = z.
Proof.
  intros Hs Hz. pose proof (pos_bounds n s Hs) as [_ Hl]. destruct Hs as [H1 H2 H3 H4 H5 H6 H7 H8 H9 H10 H11 H12]. apply u32_small. unfold in_u32.
  pose proof (rows_le 1 (lines s) (row s)). pose proof (Z.mul_le_mono_nonneg_l 1 (row s) (lines s)). lia.
Qed.

Lemma gotoxy_safe new_x new_y : safe (gotoxy new_x new_y).
Proof.
  intros s Hs. unfold gotoxy, wp. rewrite run_vget. unfold id.
  destruct (Z.ltb_spec (cols s) (u32 new_x)); [by apply stepped_refl|]. destruct (Z.leb_spec (lines s) (u32 new_y)); [by apply stepped_refl|]. cbn [orb].
  rewrite run_put. unfold put, modify. cbn [vid vc]. pose proof (u32_range new_x). pose proof (u32_range new_y). pose proof (so_cols _ _ Hs).
  pose proof (at_xy_u32 _ _ (u32 new_x) (u32 new_y) Hs ltac:(lia) ltac:(lia)) as Hu. set (X := u32 new_x) in *. set (Y := u32 new_y) in *.
  change (stepped s (Cst (vid s) (set_vc_pos (u32 (vc_origin (vc s) + Y * row s + Z.shiftl X 1)) (set_vc_y Y (set_vc_x X (vc s)))))).
  rewrite shiftl_1, u32_small by done. apply (at_xy_stepped (cols s)); [exact Hs|lia..].
Qed.

Lemma lf_down fgd n s : screen_upto n s -> vc_y (vc s) + 1 < vc_bottom (vc s) -> lf fgd s = Ok tt (at_xy s (vc_x (vc s)) (vc_y (vc s) + 1)).
Proof.
  intros Hs Hy. unfold lf. rewrite run_vget, run_get. unfold id. pose proof Hs as [H1 H2 H3 H4 H5 H6 H7 H8 H9 H10 H11 H12]. rewrite (small_u32 _ s (vc_y (vc s) + 1) Hs) by lia.
  destruct (Z.ltb_spec (vc_y (vc s) + 1) (vc_bottom (vc s))); [|lia]. unfold put, modify. pose proof (at_xy_u32 _ s (vc_x (vc s)) (vc_y (vc s) + 1) Hs ltac:(lia) ltac:(lia)) as Hu.
  replace (vc_pos (vc s) + row s) with (vc_origin (vc s) + (vc_y (vc s) + 1) * row s + 2 * vc_x (vc s)) by lia. rewrite (u32_small _ Hu), (small_u32 _ s (vc_y (vc s) + 1) Hs) by lia.
  unfold at_xy. replace (set_vc_x (vc_x (vc s)) (vc s)) with (vc s) by (by destruct (vc s)). done.
Qed.

Lemma lf_safe fgd : safe (lf fgd).
Proof.
  intros s Hs. unfold wp. pose proof Hs as [H1 H2 H3 H4 H5 H6 H7 H8 H9 H10 H11 H12]. destruct (Z.lt_ge_cases (vc_y (vc s) + 1) (vc_bottom (vc s))) as [Hlt|Hge].
  - rewrite (lf_down fgd _ s Hs Hlt). apply (at_xy_stepped (cols s) s); [exact Hs|lia..].
  - unfold lf. rewrite run_vget, run_get. unfold id. rewrite (small_u32 _ s (vc_y (vc s) + 1) Hs) by lia. destruct (Z.ltb_spec (vc_y (vc s) + 1) (vc_bottom (vc s))); [lia|].
    destruct (scrup_run fgd s _ (vc_top (vc s)) (vc_bottom (vc s)) Hs) as (s' & Hr & S1 & S2 & _); [lia..|]. rewrite Hr. by apply (stepped_kept (cols s)).
Qed.

Lemma ri_safe : safe ri.
Proof.
  intros s Hs. unfold ri, wp. rewrite run_vget, run_get. unfold id. pose proof Hs as [H1 H2 H3 H4 H5 H6 H7 H8 H9 H10 H11 H12].
  destruct (Z.ltb_spec (vc_top (vc s)) (vc_y (vc s))).
  - unfold put, modify. pose proof (at_xy_u32 _ s (vc_x (vc s)) (vc_y (vc s) - 1) Hs ltac:(lia) ltac:(lia)) as Hu.
    replace (vc_pos (vc s) - row s) with (vc_origin (vc s) + (vc_y (vc s) - 1) * row s + 2 * vc_x (vc s)) by lia. rewrite (u32_small _ Hu), (small_u32 _ s (vc_y (vc s) - 1) Hs) by lia.
    pose proof (at_xy_stepped _ s (vc_x (vc s)) (vc_y (vc s) - 1) Hs ltac:(lia) ltac:(lia)) as Hst. unfold at_xy in Hst.
    replace (set_vc_x (vc_x (vc s)) (vc s)) with (vc s) in Hst by (by destruct (vc s)). exact Hst.
  - destruct (scrdown_run s _ (vc_top (vc s)) (vc_bottom (vc s)) Hs) as (m & Hr & Hm & _); [lia..|]. rewrite Hr. by apply mem_stepped.
Qed.

(** Moving the cursor along its line. *)
Lemma to_x n s x : screen_upto n s -> 0 <= x <= 2 * cols s ->
  Cst (vid s) (set_vc_x x (set_vc_pos (u32 (vc_pos (vc s) + 2 * (x - vc_x (vc s)))) (vc s))) = at_xy s x (vc_y (vc s)).
Proof.
  intros Hs Hx. pose proof (at_xy_u32 _ s x (vc_y (vc s)) Hs Hx (so_y _ _ Hs)) as Hu. pose proof (so_pos _ _ Hs) as Hp.
  replace (vc_pos (vc s) + 2 * (x - vc_x (vc s))) with (vc_origin (vc s) + vc_y (vc s) * row s + 2 * x) by lia. rewrite (u32_small _ Hu). unfold at_xy. by destruct (vc s).
Qed.

Lemma cr_run n s : screen_upto n s -> cr s = Ok tt (at_xy s 0 (vc_y (vc s))).
Proof.
  intros Hs. pose proof (so_cols _ _ Hs). pose proof (to_x n s 0 Hs ltac:(lia)) as E. unfold cr, put, modify. rewrite shiftl_1.
  replace (vc_pos (vc s) - 2 * vc_x (vc s)) with (vc_pos (vc s) + 2 * (0 - vc_x (vc s))) by lia. by rewrite E.
Qed.

Lemma cr_safe : safe cr.
Proof.
  intros s Hs. unfold wp. rewrite (cr_run _ s Hs). pose proof (so_cols _ _ Hs). apply (at_xy_stepped (cols s)); [done|lia|apply (so_y _ _ Hs)].
Qed.

Lemma back_run s : screen_ok s -> 0 < vc_x (vc s) ->
  Cst (vid s) (set_vc_x (u32 (vc_x (vc s) - 1)) (set_vc_pos (u32 (vc_pos (vc s) - 2)) (vc s))) = at_xy s (vc_x (vc s) - 1) (vc_y (vc s)).
Proof.
  intros Hs Hx. pose proof (so_x _ _ Hs). rewrite (small_u32 _ s (vc_x (vc s) - 1) Hs) by lia. rewrite <-(to_x _ s (vc_x (vc s) - 1) Hs) by lia.
  do 4 f_equal. lia.
Qed.

(** The cells of the cursor's line lie in the window. *)
Lemma line_range n s lo hi : screen_upto n s -> 0 <= lo -> lo <= hi -> hi <= cols s ->
  let a := vc_origin (vc s) + vc_y (vc s) * row s + 2 * lo in let b := vc_origin (vc s) + vc_y (vc s) * row s + 2 * hi in
  video_range s a b /\ vc_video_mem_start (vc s) <= a /\ b <= vc_video_mem_end (vc s) /\ b <= vc_scr_end (vc s).
Proof.
  intros [H1 H2 H3 H4 H5 H6 H7 H8 H9 H10 H11 H12] ???. pose proof (rows_le (vc_y (vc s)) (lines s - 1) (row s)). pose proof (rows_le 0 (vc_y (vc s)) (row s)).
  cbv zeta. split; [|lia]. eapply video_range_sub; [exact H10|lia..].
Qed.

Lemma del_safe : safe del.
Proof.
  intros s Hs. unfold del, wp. rewrite run_get. unfold truth. destruct (Z.eqb_spec (vc_x (vc s)) 0); [by apply stepped_refl|]. cbn [negb when].
  pose proof (so_x _ _ Hs) as Hx. rewrite run_put, back_run by (done || lia). rewrite run_get. set (s1 := at_xy s (vc_x (vc s) - 1) (vc_y (vc s))).
  destruct (line_range _ s (vc_x (vc s) - 1) (vc_x (vc s)) Hs) as (L1 & L2 & L3 & L4); [lia..|].
  assert (S1 : stepped s s1) by (apply (at_xy_stepped (cols s)); [done|lia|apply (so_y _ _ Hs)]).
  destruct (pokew_run s1 (vc_pos (vc s1)) (vc_video_erase_char (vc s1))) as (m & Hr & Hm).
  { change (vc_pos (vc s1)) with (vc_origin (vc s) + vc_y (vc s) * row s + 2 * (vc_x (vc s) - 1)). eapply (video_range_sub s); [exact L1|lia..]. }
  unfold id. rewrite Hr. eapply stepped_trans; [apply S1|]. apply mem_stepped; [apply S1|]. intros a Ha. rewrite Hm.
  change (vc_video_mem_start (vc s1)) with (vc_video_mem_start (vc s)) in Ha. change (vc_video_mem_end (vc s1)) with (vc_video_mem_end (vc s)) in Ha.
  change (vc_pos (vc s1)) with (vc_origin (vc s) + vc_y (vc s) * row s + 2 * (vc_x (vc s) - 1)). by rewrite !decide_False by lia.
Qed.

(** Erasing part of the window. *)
Lemma erase_ok s n d w : screen_ok s -> vc_video_mem_start (vc s) <= d -> d + 2 * Z.of_nat n <= vc_video_mem_end (vc s) ->
  wp (rep_stosw 1 n d w;; mret tt) s (fun _ s' => stepped s s') no_halt.
Proof.
  intros Hs H1 H2. destruct (stosw_up n s d w) as (m & Hr & Hm); [eapply video_range_sub; [apply (so_video _ _ Hs)|lia..]|].
  unfold wp. rewrite (run_bind _ _ _ _ _ Hr). apply mem_stepped; [done|]. intros a Ha. rewrite Hm. by rewrite decide_False by lia.
Qed.

Lemma half z : Z.shiftr z 1 = z / 2.
Proof. by rewrite Z.shiftr_div_pow2 by lia. Qed.

Lemma csi_J_safe vpar : safe (csi_J vpar).
Proof.
  intros s Hs. unfold csi_J. eapply wp_bind. unfold wp at 1, vget, gets. cbn beta. apply wp_bind. unfold wp at 1, get, gets. unfold id. cbv zeta.
  pose proof (pos_bounds _ _ Hs) as [Hp Hl]. pose proof Hs as [H1 H2 H3 H4 H5 H6 H7 H8 H9 H10 H11 H12].
  pose proof (rows_le (vc_y (vc s)) (lines s - 1) (row s)) as Hy. rewrite !half.
  destruct (vpar =? 0); [|destruct (vpar =? 1); [|destruct (vpar =? 2); [|by apply stepped_refl]]].
  - rewrite u32_small by (unfold in_u32; lia). pose proof (Z.mul_div_le (vc_scr_end (vc s) - vc_pos (vc s)) 2). apply erase_ok; [done|lia|].
    rewrite Z2Nat.id by (apply Z.div_pos; lia). lia.
  - rewrite u32_small by (unfold in_u32; lia). pose proof (Z.mul_div_le (vc_pos (vc s) - vc_origin (vc s)) 2). apply erase_ok; [done|lia|].
    rewrite Z2Nat.id by (apply Z.div_pos; lia). lia.
  - assert (0 <= cols s * lines s < 2 ^ 32) by nia. rewrite u32_small by (unfold in_u32; lia). apply erase_ok; [done|lia|]. rewrite Z2Nat.id by lia. nia.
Qed.

Lemma csi_K_safe vpar : safe (csi_K vpar).
Proof.
  intros s Hs. unfold csi_K. eapply wp_bind. unfold wp at 1, vget, gets. cbn beta. apply wp_bind. unfold wp at 1, get, gets. unfold id. cbv zeta.
  pose proof Hs as [H1 H2 H3 H4 H5 H6 H7 H8 H9 H10 H11 H12]. rewrite shiftl_1.
  destruct (line_range _ s 0 (cols s) Hs) as (_ & L2 & L3 & _); [lia..|].
  assert (El : u32 (vc_pos (vc s) - 2 * vc_x (vc s)) = vc_origin (vc s) + vc_y (vc s) * row s) by (rewrite u32_small by (unfold in_u32; lia); lia).
  destruct (vpar =? 0); [|destruct (vpar =? 1); [|destruct (vpar =? 2); [|by apply stepped_refl]]].
  - destruct (Z.leb_spec (cols s) (vc_x (vc s))); [by apply stepped_refl|]. rewrite (small_u32 _ s (cols s - vc_x (vc s)) Hs) by lia.
    apply erase_ok; [done|lia|]. rewrite Z2Nat.id by lia. lia.
  - rewrite El. apply erase_ok; [done|lia|]. destruct (Z.ltb_spec (vc_x (vc s)) (cols s)); rewrite Z2Nat.id by lia; lia.
  - rewrite El. apply erase_ok; [done|lia|]. rewrite Z2Nat.id by lia. lia.
Qed.

(** The loops of [insert_char] and [delete_char]. *)
Lemma shift_right_run n : forall s p old, video_range s p (p + 2 * Z.of_nat n) ->
  exists m, shift_right n p old s = Ok tt (with_mem m s) /\ forall a, ~ (p <= a < p + 2 * Z.of_nat n) -> byte_at m a = byte_at (mem s) a.
Proof.
  induction n as [|n IH]; intros s p old H; cbn [shift_right]; [exists (mem s); by destruct s as [[] ?]|].
  rewrite (run_bind _ _ _ _ _ (peekw_run s p ltac:(eapply video_range_sub; [exact H|lia..]))).
  destruct (pokew_run s p old) as (m1 & Hr1 & Hm1); [eapply video_range_sub; [exact H|lia..]|]. rewrite (run_bind _ _ _ _ _ Hr1).
  destruct (IH (with_mem m1 s) (p + 2) (byte_at (mem s) p + 256 * byte_at (mem s) (p + 1))) as (m & Hr & Hm); [eapply (video_range_sub s); [exact H|lia..]|].
  exists m. split; [exact Hr|]. intros a Ha. rewrite Hm by lia. cbn. rewrite Hm1. by rewrite !decide_False by lia.
Qed.

Lemma shift_left_run n : forall s p, video_range s p (p + 2 * Z.of_nat n + 2) ->
  exists m, shift_left n p s = Ok (p + 2 * Z.of_nat n) (with_mem m s) /\ forall a, ~ (p <= a < p + 2 * Z.of_nat n) -> byte_at m a = byte_at (mem s) a.
Proof.
  induction n as [|n IH]; intros s p H; cbn [shift_left]; [exists (mem s); rewrite Z.add_0_r; by destruct s as [[] ?]|].
  rewrite (run_bind _ _ _ _ _ (peekw_run s (p + 2) ltac:(eapply video_range_sub; [exact H|lia..]))).
  destruct (pokew_run s p (byte_at (mem s) (p + 2) + 256 * byte_at (mem s) (p + 2 + 1))) as (m1 & Hr1 & Hm1); [eapply video_range_sub; [exact H|lia..]|].
  rewrite (run_bind _ _ _ _ _ Hr1).
  destruct (IH (with_mem m1 s) (p + 2)) as (m & Hr & Hm); [eapply (video_range_sub s); [exact H|lia..]|].
  exists m. split; [rewrite Hr; f_equal; lia|]. intros a Ha. rewrite Hm by lia. cbn. rewrite Hm1. by rewrite !decide_False by lia.
Qed.

Lemma insert_char_safe : safe insert_char.
Proof.
  intros s Hs. unfold insert_char, wp. rewrite run_vget, run_get. unfold id. pose proof (so_x _ _ Hs) as Hx. pose proof (so_pos _ _ Hs) as Hp.
  destruct (line_range _ s (vc_x (vc s)) (cols s) Hs) as (L1 & L2 & L3 & _); [lia..|].
  destruct (shift_right_run (Z.to_nat (cols s - vc_x (vc s))) s (vc_pos (vc s)) (vc_video_erase_char (vc s))) as (m & Hr & Hm);
    [rewrite Z2Nat.id by lia; eapply video_range_sub; [exact L1|lia..]|].
  rewrite Hr. apply mem_stepped; [done|]. intros a Ha. apply Hm. lia.
Qed.

Lemma delete_char_safe : safe delete_char.
Proof.
  intros s Hs. unfold delete_char, wp. rewrite run_vget, run_get. unfold id. pose proof (so_x _ _ Hs) as Hx. pose proof (so_pos _ _ Hs) as Hp.
  destruct (Z.leb_spec (cols s) (vc_x (vc s))); [by apply stepped_refl|].
  destruct (line_range _ s (vc_x (vc s)) (cols s) Hs) as (L1 & L2 & L3 & _); [lia..|].
  destruct (shift_left_run (Z.to_nat (cols s - vc_x (vc s) - 1)) s (vc_pos (vc s))) as (m & Hr & Hm);
    [rewrite Z2Nat.id by lia; eapply video_range_sub; [exact L1|lia..]|].
  rewrite (run_bind _ _ _ _ _ Hr). rewrite Z2Nat.id in * by lia.
  destruct (pokew_run (with_mem m s) (vc_pos (vc s) + 2 * (cols s - vc_x (vc s) - 1)) (vc_video_erase_char (vc s))) as (m2 & Hr2 & Hm2);
    [eapply (video_range_sub s); [exact L1|lia..]|].
  rewrite Hr2. apply (mem_stepped s m2); [done|]. intros a Ha. rewrite Hm2, !decide_False by lia. apply Hm. lia.
Qed.

(** [insert_line] and [delete_line] use a scrolling region of their own. *)
Lemma region_upto n s t b : screen_upto n s -> 0 <= t < b -> b <= lines s -> screen_upto n (Cst (vid s) (set_vc_bottom b (set_vc_top t (vc s)))).
Proof. intros [H1 H2 H3 H4 H5 H6 H7 H8 H9 H10 H11 H12] Ht Hb. by split. Qed.

Lemma region_kept s w : vc_video_mem_start w = vc_video_mem_start (vc s) -> vc_video_mem_end w = vc_video_mem_end (vc s) -> kept s (Cst (vid s) w).
Proof. intros. split; [apply vid_kept_refl|]. by split_and!. Qed.

Lemma insert_line_safe : safe insert_line.
Proof.
  intros s Hs. unfold insert_line, wp. rewrite run_vget, run_get, run_put, run_get. unfold id. cbn [vid vc]. pose proof (so_y _ _ Hs) as Hy.
  set (s1 := Cst (vid s) (set_vc_bottom (lines s) (set_vc_top (vc_y (vc s)) (vc s)))).
  assert (H1 : screen_upto (cols s) s1) by (apply region_upto; [done|lia..]).
  destruct (scrdown_run s1 _ (vc_y (vc s)) (lines s) H1) as (m & Hr & Hm & _); [lia|done|].
  change (vc_top (set_vc_bottom (lines s) (set_vc_top (vc_y (vc s)) (vc s)))) with (vc_y (vc s)).
  change (vc_bottom (set_vc_bottom (lines s) (set_vc_top (vc_y (vc s)) (vc s)))) with (lines s).
  rewrite (run_bind _ _ _ _ _ Hr). unfold put, modify.
  apply (stepped_kept (cols s)); [|done|].
  - apply (region_upto _ (with_mem m s1)); [by apply mem_screen|apply (so_region _ _ Hs)..].
  - eapply kept_trans; [apply (region_kept s (vc s1)); done|]. eapply kept_trans; [by apply (mem_kept s1 m)|]. by apply region_kept.
Qed.

Lemma delete_line_safe fgd : safe (delete_line fgd).
Proof.
  intros s Hs. unfold delete_line, wp. rewrite run_vget, run_get, run_put, run_get. unfold id. cbn [vid vc]. pose proof (so_y _ _ Hs) as Hy.
  set (s1 := Cst (vid s) (set_vc_bottom (lines s) (set_vc_top (vc_y (vc s)) (vc s)))).
  assert (H1 : screen_upto (cols s) s1) by (apply region_upto; [done|lia..]).
  destruct (scrup_run fgd s1 _ (vc_y (vc s)) (lines s) H1) as (s2 & Hr & S1 & S2 & _); [lia|done|].
  change (vc_top (set_vc_bottom (lines s) (set_vc_top (vc_y (vc s)) (vc s)))) with (vc_y (vc s)).
  change (vc_bottom (set_vc_bottom (lines s) (set_vc_top (vc_y (vc s)) (vc s)))) with (lines s).
  rewrite (run_bind _ _ _ _ _ Hr). unfold put, modify. destruct (kept_geometry _ _ S2) as (_ & El & _).
  apply (stepped_kept (cols s)); [|done|].
  - apply region_upto; [done|apply (so_region _ _ Hs)|]. rewrite El. apply (so_region _ _ Hs).
  - eapply kept_trans; [apply (region_kept s (vc s1)); done|]. eapply kept_trans; [exact S2|]. by apply region_kept.
Qed.

(** ** Writing characters *)

(** From a cursor too far to the right, [wrap_line] gets back to the screen. *)
Lemma wrap_line_ok fgd n s : screen_upto n s -> cols s <= vc_x (vc s) ->
  wp (wrap_line fgd) s (fun _ s' => stepped s s') no_halt.
Proof.
  intros Hs Hx. unfold wrap_line. apply wp_bind. unfold wp at 1, vget, gets, id. cbn beta. apply wp_bind. unfold wp at 1, put, modify.
  pose proof Hs as [H1 H2 H3 H4 H5 H6 H7 H8 H9 H10 H11 H12].
  assert (E : Cst (vid s) (set_vc_pos (u32 (vc_pos (vc s) - row s)) (set_vc_x (u32 (vc_x (vc s) - cols s)) (vc s))) = at_xy s (vc_x (vc s) - cols s) (vc_y (vc s))).
  { rewrite (small_u32 _ s (vc_x (vc s) - cols s) Hs) by lia. rewrite <-(to_x _ s (vc_x (vc s) - cols s) Hs) by lia.
    replace (vc_pos (vc s) - row s) with (vc_pos (vc s) + 2 * (vc_x (vc s) - cols s - vc_x (vc s))) by lia. by destruct (vc s). }
  rewrite E. assert (S1 : stepped s (at_xy s (vc_x (vc s) - cols s) (vc_y (vc s)))) by (apply (at_xy_stepped n); [done|lia..]).
  eapply wp_mono; [apply lf_safe, S1| |done]. intros [] s2 S2. eapply stepped_trans; [apply S1|done].
Qed.

Lemma lf_x fgd s s' : screen_ok s -> lf fgd s = Ok tt s' -> vc_x (vc s') = vc_x (vc s).
Proof.
  intros Hs. unfold lf. rewrite run_vget, run_get. unfold id. destruct (_ <? _); [by intros [= <-]|].
  destruct (scrup_run fgd s _ (vc_top (vc s)) (vc_bottom (vc s)) Hs) as (s2 & Hr & _ & _ & _ & o & Ho); [apply (so_region _ _ Hs)..|].
  rewrite Hr. intros [= <-]. rewrite Ho. done.
Qed.

Lemma wrap_line_x fgd s s' : screen_ok s -> cols s <= vc_x (vc s) -> wrap_line fgd s = Ok tt s' -> vc_x (vc s') = 0.
Proof.
  intros Hs Hx. unfold wrap_line. rewrite run_vget, run_put. unfold id. pose proof (so_x _ _ Hs).
  assert (vc_x (vc s) = cols s) as Ex by lia. rewrite Ex, Z.sub_diag. change (u32 0) with 0. pose proof (so_cols _ _ Hs).
  assert (E : Cst (vid s) (set_vc_pos (u32 (vc_pos (vc s) - row s)) (set_vc_x 0 (vc s))) = at_xy s 0 (vc_y (vc s))).
  { rewrite <-(to_x _ s 0 Hs) by lia. pose proof (so_row _ _ Hs). replace (vc_pos (vc s) - row s) with (vc_pos (vc s) + 2 * (0 - vc_x (vc s))) by lia. by destruct (vc s). }
  rewrite E. intros Hr. apply lf_x in Hr; [done|]. apply (at_xy_stepped (cols s)); [done|lia|apply (so_y _ _ Hs)].
Qed.

Lemma wrap_lines_ok fgd s : screen_ok s -> wp (wrap_lines fgd) s (fun _ s' => stepped s s' /\ vc_x (vc s') < cols s') no_halt.
Proof.
  intros Hs. unfold wrap_lines. apply wp_bind. unfold wp at 1, get, gets. pose proof (so_x _ _ Hs) as Hx. pose proof (so_cols _ _ Hs) as Hc.
  apply (wp_iter _ (fun _ s' => stepped s s') (fun _ s' => if vc_x (vc s') <? cols s' then O else 1%nat)).
  - intros [] s1 S1. apply wp_bind. unfold wp at 1, vget, gets, id. apply wp_bind. unfold wp at 1, get, gets.
    destruct (Z.leb_spec (cols s1) (vc_x (vc s1))) as [Hle|]; [|by apply wp_ret].
    pose proof (wrap_line_ok fgd _ s1 (proj1 S1) Hle) as W. unfold wp in W. destruct (wrap_line fgd s1) as [[] s2|] eqn:Ew; [|done].
    apply wp_bind. unfold wp at 1. rewrite Ew. apply wp_ret. split; [eapply stepped_trans; [apply S1|done]|].
    rewrite (proj2 (Z.ltb_ge (vc_x (vc s1)) (cols s1))) by lia. apply wrap_line_x in Ew; [|apply S1|done]. rewrite Ew.
    pose proof (so_cols _ _ (proj1 W)). rewrite (proj2 (Z.ltb_lt 0 (cols s2))) by lia. lia.
  - by apply stepped_refl.
  - destruct (Z.ltb_spec (vc_x (vc s)) (cols s)); lia.
Qed.

Lemma show_run c s : screen_ok s -> vc_x (vc s) < cols s ->
  show c s = Ok tt (at_xy (with_mem (<[vc_pos (vc s) + 1 := u8 (vc_attr (vc s))]> (<[vc_pos (vc s) := u8 c]> (mem s))) s) (vc_x (vc s) + 1) (vc_y (vc s))).
Proof.
  intros Hs Hlt. unfold show. rewrite run_get. unfold id. pose proof (so_x _ _ Hs) as Hx. pose proof (so_pos _ _ Hs) as Hp. pose proof (so_cols _ _ Hs).
  destruct (line_range _ s (vc_x (vc s)) (vc_x (vc s) + 1) Hs) as (L1 & L2 & L3 & _); [lia..|].
  rewrite (run_bind _ _ _ _ _ (poke_run s (vc_pos (vc s)) c (L1 (vc_pos (vc s)) ltac:(lia)))).
  rewrite (run_bind _ _ _ _ _ (poke_run (with_mem _ s) (vc_pos (vc s) + 1) (vc_attr (vc s)) (L1 (vc_pos (vc s) + 1) ltac:(lia)))).
  set (s1 := with_mem (<[vc_pos (vc s) + 1 := _]> (<[vc_pos (vc s) := _]> (mem s))) s). change (with_mem _ (with_mem _ s)) with s1. assert (H1 : screen_ok s1) by (by apply (mem_screen (cols s))). 
  assert (E : Cst (vid s1) (set_vc_x (u32 (vc_x (vc s1) + 1)) (set_vc_pos (u32 (vc_pos (vc s1) + 2)) (vc s1))) = at_xy s1 (vc_x (vc s1) + 1) (vc_y (vc s1))).
  { assert (vc_x (vc s1) < cols s1) by exact Hlt. assert (0 <= vc_x (vc s1)) by apply Hx. assert (8 <= cols s1) by done. rewrite (small_u32 _ s1 (vc_x (vc s1) + 1) H1) by lia.
    rewrite <-(to_x _ s1 (vc_x (vc s1) + 1) H1) by lia. do 4 f_equal. lia. }
  exact (f_equal (Ok tt) E).
Qed.

Lemma show_ok c s : screen_ok s -> vc_x (vc s) < cols s -> wp (show c) s (fun _ s' => stepped s s') no_halt.
Proof.
  intros Hs Hlt. unfold wp. rewrite (show_run c s Hs Hlt). pose proof (so_x _ _ Hs) as Hx. pose proof (so_pos _ _ Hs) as Hp. destruct (line_range _ s (vc_x (vc s)) (vc_x (vc s) + 1) Hs) as (_ & L2 & L3 & _); [lia..|].
  set (s1 := with_mem _ s). assert (S1 : stepped s s1) by (apply (mem_stepped s); [done|]; intros a Ha; rewrite !byte_insert, !decide_False by lia; done).
  eapply stepped_trans; [apply S1|]. apply (at_xy_stepped (cols s1)); [apply S1|change (cols s1) with (cols s); lia|apply (so_y _ _ Hs)].
Qed.

(** ** Parameters *)

Lemma par_at_run s i : screen_ok s -> 0 <= i < NPAR -> exists p, par_at i s = Ok p s /\ in_u32 p /\ aget (vc_par (vc s)) i = Some p.
Proof.
  intros Hs Hi. destruct (so_par _ _ Hs) as [Hl Hf]. destruct (aget_in_range (vc_par (vc s)) i) as [p Hp]; [lia|]. exists p.
  unfold par_at. rewrite run_get, Hp. split; [done|]. split; [|done]. unfold aget in Hp. destruct (i <? 0); [done|]. by eapply Forall_lookup_1 in Hp.
Qed.

Lemma par_at_safe i : 0 <= i < NPAR -> safe (par_at i).
Proof. intros Hi s Hs. destruct (par_at_run s i Hs Hi) as (p & Hr & _). unfold wp. rewrite Hr. by apply stepped_refl. Qed.

Lemma set_par_safe i v : 0 <= i < NPAR -> in_u32 v -> safe (set_par i v).
Proof.
  intros Hi Hv s Hs. destruct (so_par _ _ Hs) as [Hl Hf]. unfold set_par, wp. rewrite run_get. rewrite aset_in_range by lia.
  rewrite (run_bind _ _ s (<[Z.to_nat i := v]> (vc_par (vc s))) s); [|done]. unfold put, modify. split; [|by apply region_kept].
  destruct Hs as [H1 H2 H3 H4 H5 H6 H7 H8 H9 H10 H11 H12]. split; try done. cbn. split; [by rewrite length_insert|]. by apply Forall_insert.
Qed.

Lemma par_dec_safe i : 0 <= i < NPAR -> safe (par_dec i).
Proof. intros Hi. apply safe_bind; [by apply par_at_safe|]. intros p. apply safe_when, set_par_safe; [done|apply u32_range]. Qed.
Lemma par_one_safe i : 0 <= i < NPAR -> safe (par_one i).
Proof. intros Hi. apply safe_bind; [by apply par_at_safe|]. intros p. apply safe_when, set_par_safe; [done|apply u32_range]. Qed.

Lemma geometry_sgr colour p w : geometry (sgr colour p w) = geometry w.
Proof. unfold sgr. repeat match goal with |- context [if ?c then _ else _] => destruct c end; done. Qed.

Lemma csi_m_safe : safe csi_m.
Proof.
  intros s Hs. unfold csi_m. apply wp_bind. unfold wp at 1, get, gets. apply wp_bind. unfold wp at 1, vget, gets. pose proof (so_npar _ _ Hs) as Hn.
  apply (safe_for_each (range 0 (Z.to_nat (vc_npar (vc s) + 1)))); [|done]. intros i Hi%elem_of_range s1 Hs1.
  destruct (par_at_run s1 i Hs1) as (p & _ & _ & Hp); [lia|]. apply wp_bind. unfold wp at 1, get, gets. apply wp_bind. unfold wp at 1. rewrite Hp. cbn [ofOpt].
  apply (safe_put (sgr (can_do_colour (vid s)) p)); [|done]. intros w. apply geometry_sgr.
Qed.

Lemma set_region_ok s : screen_ok s -> wp (p ← par_at 0; q ← par_at 1;
    when ((p <? q) && (q <=? lines s)) (put (fun w => set_vc_bottom q (set_vc_top p w)))) s (fun _ s' => stepped s s') no_halt.
Proof.
  intros Hs. destruct (par_at_run s 0 Hs) as (p & Hr & Hp & _); [done|]. destruct (par_at_run s 1 Hs) as (q & Hr2 & Hq & _); [done|].
  unfold wp. rewrite (run_bind _ _ _ _ _ Hr), (run_bind _ _ _ _ _ Hr2). unfold in_u32 in Hp.
  destruct (Z.ltb_spec p q); [|by apply stepped_refl]. destruct (Z.leb_spec q (lines s)); [|by apply stepped_refl]. cbn [andb when]. unfold put, modify.
  apply (stepped_kept (cols s)); [apply region_upto; [done|lia..]|done|by apply region_kept].
Qed.

Lemma csi_r_ok s : screen_ok s -> wp (par_dec 0;; q ← par_at 1; when (negb (truth q)) (set_par 1 (lines s));;
    p ← par_at 0; q ← par_at 1; when ((p <? q) && (q <=? lines s)) (put (fun w => set_vc_bottom q (set_vc_top p w)))) s (fun _ s' => stepped s s') no_halt.
Proof.
  intros Hs. apply wp_bind. eapply wp_mono; [by apply par_dec_safe| |done]. intros [] s1 [Hs1 K1].
  apply wp_bind. eapply wp_mono; [by apply par_at_safe| |done]. intros q s2 [Hs2 K2].
  apply wp_bind. eapply wp_mono; [apply safe_when; [apply (set_par_safe 1 (lines s)); [done|]|exact Hs2]| |done].
  { assert (El : u32 (lines s) = lines s) by (apply (small_u32 _ s _ Hs); pose proof (so_y _ _ Hs); lia). rewrite <-El. apply u32_range. }
  intros [] s3 [Hs3 K3]. assert (K : kept s s3) by (eapply kept_trans; [exact K1|]; eapply kept_trans; [exact K2|exact K3]).
  destruct (kept_geometry _ _ K) as (_ & El & _). rewrite <-El. eapply wp_mono; [by apply set_region_ok| |done]. intros [] s4 S4. by eapply stepped_trans.
Qed.

#[local] Hint Resolve gotoxy_safe lf_safe ri_safe cr_safe del_safe csi_J_safe csi_K_safe csi_m_safe insert_char_safe delete_char_safe
  insert_line_safe delete_line_safe par_dec_safe par_one_safe par_at_safe : kern.

(** Goes through a computation made of safe ones. *)
Ltac safe :=
  repeat first
    [ match goal with
      | |- safe (mret _) => apply safe_ret
      | |- safe (gets _) => apply safe_gets
      | |- safe (get _) => apply safe_gets
      | |- safe (vget _) => apply safe_gets
      | |- safe (es _) => apply safe_put; done
      | |- safe (put _) => apply safe_put; done
      | |- safe (vput _) => apply safe_vput; done
      | |- safe (when _ _) => apply safe_when
      | |- safe (repeat_op _ _) => apply safe_repeat
      | |- safe (_ ≫= _) => apply safe_bind; [|intros ?]
      | |- safe (par_at _) => apply par_at_safe; done
      | |- safe (par_dec _) => apply par_dec_safe; done
      | |- safe (par_one _) => apply par_one_safe; done
      | |- safe (if ?c then _ else _) => destruct c
      end
    | solve [auto with kern] ].

Lemma save_cur_safe : safe save_cur. Proof. unfold save_cur. safe. Qed.
Lemma restore_cur_safe : safe restore_cur. Proof. unfold restore_cur. safe. Qed.
Lemma csi_at_safe nr : safe (csi_at nr). Proof. unfold csi_at. safe. Qed.
Lemma csi_P_safe nr : safe (csi_P nr). Proof. unfold csi_P. safe. Qed.
Lemma csi_L_safe nr : safe (csi_L nr). Proof. unfold csi_L. safe. Qed.
Lemma csi_M_safe fgd nr : safe (csi_M fgd nr). Proof. unfold csi_M. safe. Qed.
Lemma keypad_safe fgd a : safe (keypad fgd a). Proof. unfold keypad. safe. Qed.
Lemma set_cursor_safe fgd : safe (set_cursor fgd). Proof. unfold set_cursor. safe; apply safe_crtc_out. Qed.
#[local] Hint Resolve save_cur_safe restore_cur_safe csi_at_safe csi_P_safe csi_L_safe csi_M_safe keypad_safe set_cursor_safe : kern.

(** ** The interpreter *)

Lemma csi_command_safe fgd c : safe (csi_command fgd c).
Proof.
  intros s Hs. unfold csi_command. apply wp_bind. unfold wp at 1, get, gets, id. apply wp_bind. unfold wp at 1, vget, gets, id. cbv zeta.
  repeat match goal with
  | |- wp (if ?c =? 114 then _ else _) _ _ _ => destruct (c =? 114); [by apply csi_r_ok|]
  | |- wp (if ?b then _ else _) _ _ _ =>
      destruct b; [match goal with |- wp ?m _ _ _ => let H := fresh in assert (H : safe m) by safe; exact (H s Hs) end|]
  end.
  by apply stepped_refl.
Qed.
#[local] Hint Resolve csi_command_safe : kern.

Lemma gotpars_safe fgd c : safe (gotpars fgd c).
Proof. unfold gotpars. safe. Qed.
#[local] Hint Resolve gotpars_safe : kern.

Lemma getpars_safe fgd c : safe (getpars fgd c).
Proof.
  intros s Hs. unfold getpars. apply wp_bind. unfold wp at 1, get, gets. pose proof (so_npar _ _ Hs) as Hn.
  destruct ((c =? 59) && (vc_npar (vc s) <? NPAR - 1)) eqn:E1.
  - unfold wp. rewrite run_put. split; [|by apply region_kept]. assert (Hlt : vc_npar (vc s) < NPAR - 1) by lia. clear E1. unfold NPAR in *.
    destruct Hs as [H1 H2 H3 H4 H5 H6 H7 H8 H9 H10 H11 H12]. split; try done. cbn [vc vc_npar set_vc_npar]. rewrite u32_small by (unfold in_u32; lia). unfold NPAR. lia.
  - destruct ((48 <=? c) && (c <=? 57)).
    + match goal with |- wp ?m _ _ _ => assert (H : safe m); [|exact (H s Hs)] end. safe. apply set_par_safe; [done|apply u32_range].
    + match goal with |- wp ?m _ _ _ => assert (H : safe m) by safe; exact (H s Hs) end.
Qed.
#[local] Hint Resolve getpars_safe : kern.

Lemma square_char_safe fgd c : safe (square_char fgd c).
Proof.
  unfold square_char. apply safe_bind; [apply safe_for_each; intros i Hi%elem_of_range; apply set_par_safe; [unfold NPAR in *; lia|done]|]. intros _.
  apply safe_bind; [|intros _; safe]. intros s Hs. split; [|by apply region_kept]. destruct Hs as [H1 H2 H3 H4 H5 H6 H7 H8 H9 H10 H11 H12]. by split.
Qed.

Lemma esc_char_safe fgd c : safe (esc_char fgd c).
Proof.
  intros s Hs. unfold esc_char. apply wp_bind. eapply wp_mono; [apply (safe_put (set_vc_state ESnormal)); [done|exact Hs]| |done]. intros [] s1 [Hs1 K1].
  apply wp_bind. unfold wp at 1, get, gets, id. apply wp_bind. unfold wp at 1, vget, gets, id.
  eapply (wp_mono _ _ (fun _ s' => stepped s1 s') _ no_halt); [|intros ? s2 S2; by eapply stepped_trans|done].
  repeat match goal with
  | |- wp (if ?c =? 99 then _ else _) _ _ _ => destruct (c =? 99)
  | |- wp (if ?b then _ else _) _ _ _ =>
      destruct b; [match goal with |- wp ?m _ _ _ => let H := fresh in assert (H : safe m) by safe; exact (H s1 Hs1) end|]
  end; [|by apply stepped_refl].
  apply wp_bind. unfold wp at 1, put, modify. pose proof (so_y _ _ Hs1) as Hy.
  set (w' := set_vc_translate _ _). assert (S2 : stepped s1 (Cst (vid s1) w')).
  { apply (stepped_kept (cols s1)); [|done|by apply region_kept].
    apply (screen_geometry _ (Cst (vid s1) (set_vc_bottom (lines s1) (set_vc_top 0 (vc s1))))); [done|]. apply region_upto; [done|lia..]. }
  match goal with |- wp ?m _ _ _ => assert (H : safe m) by safe end.
  eapply wp_mono; [apply H, S2| |done]. intros ? s3 S3. eapply stepped_trans; [apply S2|done].
Qed.

Lemma normal_char_safe fgd c : 0 <= c < 256 -> safe (normal_char fgd c).
Proof.
  intros Hc s Hs. unfold normal_char. apply wp_bind. unfold wp at 1, get, gets.
  assert (Ht : exists t, aget (translations (vc_translate (vc s))) c = Some t) by (apply aget_in_range; destruct (vc_translate (vc s)); exact Hc).
  destruct Ht as [t Ht]. apply wp_bind. unfold wp at 1. rewrite Ht. cbn [ofOpt].
  destruct (truth t).
  { apply wp_bind. eapply wp_mono; [by apply wrap_lines_ok| |done]. intros [] s1 [S1 Hlt]. apply wp_bind. eapply wp_mono; [apply show_ok; [apply S1|done]| |done].
    intros [] s2 S2. apply wp_ret. eapply stepped_trans; [apply S1|done]. }
  repeat match goal with
  | |- wp (if ?c =? 8 then _ else _) _ _ _ => destruct (c =? 8)
  | |- wp (if ?c =? 9 then _ else _) _ _ _ => destruct (c =? 9)
  | |- wp (if ?b then _ else _) _ _ _ =>
      destruct b; [match goal with |- wp ?m _ _ _ => let H := fresh in assert (H : safe m) by safe; exact (H s Hs) end|]
  end; [..|by apply stepped_refl].
  - apply wp_bind. unfold wp at 1, get, gets. unfold truth. destruct (Z.eqb_spec (vc_x (vc s)) 0); [by apply stepped_refl|]. cbn [negb when].
    unfold wp. rewrite run_put. pose proof (so_x _ _ Hs) as Hx. cbn [mret M_ret].
    replace (Cst (vid s) _) with (at_xy s (vc_x (vc s) - 1) (vc_y (vc s))) by (rewrite <-back_run by (done || lia); by destruct (vc s)).
    apply (at_xy_stepped (cols s)); [done|lia|apply (so_y _ _ Hs)].
  - apply wp_bind. unfold wp at 1, get, gets. apply wp_bind. unfold wp at 1, vget, gets, id. cbv zeta. apply wp_bind. unfold wp at 1, put, modify.
    apply wp_bind. unfold wp at 1, get, gets. set (k := 8 - Z.land (vc_x (vc s)) 7).
    assert (Hk : 1 <= k <= 8) by (unfold k; change 7 with (Z.ones 3); rewrite Z.land_ones by lia; pose proof (Z.mod_pos_bound (vc_x (vc s)) (2 ^ 3) ltac:(lia)); lia).
    pose proof (so_x _ _ Hs) as Hx. pose proof (so_cols _ _ Hs) as Hcol. pose proof (so_y _ _ Hs) as Hy.
    set (s1 := Cst (vid s) _). assert (E : s1 = at_xy s (vc_x (vc s) + k) (vc_y (vc s))).
    { rewrite <-(to_x _ s (vc_x (vc s) + k) Hs) by lia. unfold s1. rewrite (small_u32 _ s (vc_x (vc s) + k) Hs) by lia. rewrite shiftl_1.
      replace (vc_x (vc s) + k - vc_x (vc s)) with k by lia. by destruct (vc s). }
    rewrite E. clear E s1. set (s1 := at_xy s (vc_x (vc s) + k) (vc_y (vc s))). change (vc_x (vc s1)) with (vc_x (vc s) + k).
    assert (H1 : screen_upto (2 * cols s) s1) by (apply (at_xy_upto (cols s)); [done|lia..]).
    apply wp_bind. destruct (Z.ltb_spec (cols s) (vc_x (vc s) + k)); cbn [when].
    + eapply wp_mono; [apply (wrap_line_ok fgd _ s1 H1)| |done]; [cbn; lia|]. intros [] s2 S2. eapply stepped_trans; [apply at_xy_kept|done].
    + apply wp_ret. apply (at_xy_stepped (cols s)); [done|lia..].
Qed.

Lemma con_char_safe fgd c : 0 <= c < 256 -> safe (con_char fgd c).
Proof.
  intros Hc. unfold con_char. apply safe_bind; [safe|]. intros _. apply safe_bind; [safe|]. intros st.
  pose proof (normal_char_safe fgd c Hc). pose proof (esc_char_safe fgd c). pose proof (square_char_safe fgd c). safe; done.
Qed.

Lemma print_char_safe fgd c : safe (print_char fgd c).
Proof.
  unfold print_char. destruct (c =? 10); [safe|]. destruct (c =? 13); [safe|]. intros s Hs.
  apply wp_bind. unfold wp at 1, vget, gets, id. apply wp_bind. unfold wp at 1, get, gets. apply wp_bind. pose proof (so_x _ _ Hs). pose proof (so_cols _ _ Hs).
  destruct (Z.leb_spec (cols s) (vc_x (vc s))) as [Hle|Hlt]; cbn [when]; [|by apply show_ok].
  pose proof (wrap_line_ok fgd _ s Hs Hle) as W. unfold wp at 1. unfold wp in W. destruct (wrap_line fgd s) as [[] s1|] eqn:Ew; [|done].
  eapply wp_mono; [apply show_ok; [apply W|]| |done].
  - rewrite (wrap_line_x fgd s s1 Hs Hle Ew). pose proof (so_cols _ _ (proj1 W)). lia.
  - intros [] s2 S2. eapply stepped_trans; [apply W|done].
Qed.

(** ** Text

    Outside an escape sequence every character but ESC leaves the console there and asks
    at most for a beep. *)

Definition plain_state (s : cst) : Prop := vc_state (vc s) = ESnormal.

Lemma plain_put f : (forall w, vc_state (f w) = vc_state w) -> preserves plain_state (put f).
Proof. intros Hf. apply preserves_modify. intros s Hs. unfold plain_state. cbn. by rewrite Hf. Qed.
Lemma plain_vput f : preserves plain_state (vput f).
Proof. by apply preserves_modify. Qed.
Lemma plain_get {A} (f : vc_struct -> A) : preserves plain_state (get f).
Proof. apply preserves_gets. Qed.
Lemma plain_vget {A} (f : video -> A) : preserves plain_state (vget f).
Proof. apply preserves_gets. Qed.
#[local] Hint Resolve plain_vput plain_get plain_vget : pres.
Ltac plain := repeat (pres; try (apply plain_put; done)).

Lemma plain_peek a : preserves plain_state (peek a). Proof. unfold peek. plain. Qed.
Lemma plain_poke a c : preserves plain_state (poke a c). Proof. unfold poke. plain. Qed.
#[local] Hint Resolve plain_peek plain_poke : pres.
Lemma plain_stosw d n : forall a w, preserves plain_state (rep_stosw d n a w).
Proof. induction n; intros a w; cbn [rep_stosw]; unfold pokew; plain. Qed.
Lemma plain_movsl d n : forall a b, preserves plain_state (rep_movsl d n a b).
Proof. induction n; intros a b; cbn [rep_movsl]; unfold movs; plain. Qed.
#[local] Hint Resolve plain_stosw plain_movsl : pres.
Lemma plain_scrup fgd t b : preserves plain_state (scrup fgd t b).
Proof. unfold scrup, set_origin, crtc_out. plain. Qed.
#[local] Hint Resolve plain_scrup : pres.
Lemma plain_lf fgd : preserves plain_state (lf fgd). Proof. unfold lf. plain. Qed.
#[local] Hint Resolve plain_lf : pres.
Lemma plain_wrap fgd : preserves plain_state (wrap_line fgd). Proof. unfold wrap_line. plain. Qed.
#[local] Hint Resolve plain_wrap : pres.
Lemma plain_show c : preserves plain_state (show c). Proof. unfold show. plain. Qed.
#[local] Hint Resolve plain_show : pres.

Lemma normal_char_plain fgd c : c <> 27 -> preserves plain_state (normal_char fgd c).
Proof. intros Hc. unfold normal_char, wrap_lines, cr, del, pokew. destruct (Z.eqb_spec c 27); [done|]. plain. Qed.

Lemma normal_char_effects fgd c s es s' : normal_char fgd c s = Ok es s' -> es = [] \/ es = [Beep].
Proof.
  unfold normal_char. rewrite run_get. destruct (aget (translations (vc_translate (vc s))) c) as [t|]; [|done]. rewrite (run_bind (ofOpt (Some t)) _ s t s) by done.
  repeat match goal with |- (if ?b then _ else _) _ = _ -> _ => destruct b end; intros E; inv_ok; auto.
Qed.

Lemma vc_state_id w : set_vc_state (vc_state w) w = w.
Proof. by destruct w. Qed.

Lemma con_char_plain fgd c s : 0 <= c < 256 -> c <> 27 -> screen_ok s -> plain_state s ->
  exists es s', con_char fgd c s = Ok es s' /\ stepped s s' /\ plain_state s' /\ (es = [] \/ es = [Beep]).
Proof.
  intros Hr Hc Hs Hp. pose proof (con_char_safe fgd c Hr s Hs) as Hw. apply wp_total in Hw as (es & s' & E & Hst). exists es, s'. split; [done|]. split; [done|].
  assert (En : con_char fgd c s = normal_char fgd c s).
  { unfold con_char. rewrite (run_bind _ _ s tt s); [rewrite run_get; by rewrite Hp|]. destruct ((c =? 24) || (c =? 26)); [|done]. unfold when, Console.es, put, modify. rewrite <-Hp, vc_state_id. by destruct s. }
  rewrite En in E. split; [by eapply normal_char_plain|by eapply normal_char_effects].
Qed.

(** *** Characters that are shown *)

(** The next place on the screen: at the end of a line the cursor waits behind it. *)
Definition linear (s : cst) : Z := vc_y (vc s) * cols s + vc_x (vc s).
Definition wrapped (s : cst) : cst := if vc_x (vc s) =? cols s then at_xy s 0 (vc_y (vc s) + 1) else s.

Lemma wrap_lines_run fgd s : screen_ok s -> linear s < vc_bottom (vc s) * cols s -> wrap_lines fgd s = Ok tt (wrapped s).
Proof.
  intros Hs Hl. unfold linear in Hl. pose proof (so_x _ _ Hs) as Hx. pose proof (so_cols _ _ Hs) as Hc. unfold wrap_lines, wrapped. rewrite run_get.
  destruct (Z.eqb_spec (vc_x (vc s)) (cols s)) as [E|E].
  - assert (Hy : vc_y (vc s) + 1 < vc_bottom (vc s)) by nia. destruct (Z.to_nat (vc_x (vc s))) as [|f] eqn:Ef; [lia|]. cbn [iter].
    set (s1 := at_xy s 0 (vc_y (vc s))). assert (H1 : screen_ok s1) by (apply (at_xy_upto (cols s)); [done|change (cols s1) with (cols s); lia..|apply (so_y _ _ Hs)]).
    assert (Ew : wrap_line fgd s = Ok tt (at_xy s 0 (vc_y (vc s) + 1))).
    { unfold wrap_line. rewrite run_vget, run_put. unfold id. rewrite E, Z.sub_diag. change (u32 0) with 0.
      assert (E1 : Cst (vid s) (set_vc_pos (u32 (vc_pos (vc s) - row s)) (set_vc_x 0 (vc s))) = s1).
      { unfold s1. rewrite <-(to_x _ s 0 Hs) by lia. pose proof (so_row _ _ Hs). replace (vc_pos (vc s) - row s) with (vc_pos (vc s) + 2 * (0 - vc_x (vc s))) by lia. by destruct (vc s). }
      rewrite E1. rewrite (lf_down fgd (cols s1) s1 H1) by exact Hy. done. }
    rewrite (run_bind _ _ _ (inl tt) (at_xy s 0 (vc_y (vc s) + 1))) by (rewrite run_vget, run_get; unfold id; rewrite E, Z.leb_refl; by rewrite (run_bind _ _ _ _ _ Ew)).
    rewrite (run_bind _ _ _ (inr tt) (at_xy s 0 (vc_y (vc s) + 1))); [done|]. rewrite run_vget, run_get. unfold id. cbn [vid vc at_xy vc_x set_vc_pos set_vc_y set_vc_x]. by destruct (Z.leb_spec (cols s) 0); [lia|].
  - cbn [iter]. rewrite (run_bind _ _ _ (inr tt) s); [done|]. rewrite run_vget, run_get. unfold id. by destruct (Z.leb_spec (cols s) (vc_x (vc s))); [lia|].
Qed.

(** A printable character goes to the place of the cursor, with the attribute, and the
    cursor to the next place, while the screen does not have to be scrolled. *)
Lemma con_char_shown fgd c t s : screen_ok s -> plain_state s -> aget (translations (vc_translate (vc s))) c = Some t -> t <> 0 -> linear s < vc_bottom (vc s) * cols s ->
  exists x y, let w := vc s in
  con_char fgd c s = Ok [] (Cst (set_vmem (<[vc_pos w + 1 := u8 (vc_attr w)]> (<[vc_pos w := u8 t]> (mem s))) (vid s)) (set_vc_pos (vc_pos w + 2) (set_vc_y y (set_vc_x x w)))) /\
  y * cols s + x = linear s + 1.
Proof.
  intros Hs Hp Ht Ht0 Hl. pose proof (so_x _ _ Hs) as Hx. pose proof (so_cols _ _ Hs) as Hc. pose proof (so_y _ _ Hs) as Hyr. pose proof (so_row _ _ Hs) as Hrow. pose proof (so_pos _ _ Hs) as Hpos. pose proof (so_region _ _ Hs) as Hreg.
  assert (Hc24 : (c =? 24) || (c =? 26) = false).
  { destruct (Z.eqb_spec c 24) as [->|]; [by destruct (vc_translate (vc s)); injection Ht as <-|]. destruct (Z.eqb_spec c 26) as [->|]; [by destruct (vc_translate (vc s)); injection Ht as <-|done]. }
  assert (En : con_char fgd c s = (wrap_lines fgd;; show t;; mret []) s).
  { unfold con_char. rewrite Hc24. rewrite (run_bind _ _ s tt s) by done. rewrite run_get, Hp. change (ESnormal =? ESnormal) with true. cbv iota. unfold normal_char. rewrite run_get, Ht. rewrite (run_bind (ofOpt (Some t)) _ s t s) by done.
    unfold truth. by destruct (Z.eqb_spec t 0). }
  rewrite En, (run_bind _ _ _ _ _ (wrap_lines_run fgd s Hs Hl)). unfold wrapped, linear in *. destruct (Z.eqb_spec (vc_x (vc s)) (cols s)) as [E|E].
  - assert (Hy : vc_y (vc s) + 1 < vc_bottom (vc s)) by nia. set (s1 := at_xy s 0 (vc_y (vc s) + 1)).
    assert (H1 : screen_ok s1) by (apply (at_xy_upto (cols s)); [done|change (cols s1) with (cols s); lia..]).
    assert (Hp1 : vc_pos (vc s1) = vc_pos (vc s)) by (cbn; lia). exists 1, (vc_y (vc s) + 1). cbv zeta.
    rewrite (run_bind _ _ _ _ _ (show_run t s1 H1 ltac:(cbn; lia))). split; [|lia]. rewrite Hp1. unfold mret, M_ret, at_xy, with_mem. cbn [vid vc s1 at_xy]. f_equal. f_equal.
    replace (vc_pos (vc s) + 2) with (vc_origin (vc s) + (vc_y (vc s) + 1) * row s + 2 * (0 + 1)) by lia. reflexivity.
  - exists (vc_x (vc s) + 1), (vc_y (vc s)). cbv zeta. rewrite (run_bind _ _ _ _ _ (show_run t s Hs ltac:(lia))). split; [|lia]. unfold mret, M_ret, at_xy, with_mem. cbn [vid vc]. f_equal. f_equal.
    replace (vc_pos (vc s) + 2) with (vc_origin (vc s) + vc_y (vc s) * row s + 2 * (vc_x (vc s) + 1)) by lia. reflexivity.
Qed.

(** ** Properties *)


(** scrolling lines [t] to [b] up shows the same screen on every card: with
    the fast scrolling of an EGA card, which moves the start of the screen and
    copies only when the window is used up, and without it, every line from [t]
    on gets the contents of the next one, the last one is blank and the others
    stay. *)
Theorem scroll_card_independent (fgd : bool) (s : cst) (t b card : Z)
    (Hs : screen_ok s) (Ht : 0 <= t < b) (Hb : b <= lines s) :
  exists s1 s2, scrup fgd t b s = Ok tt s1 /\ scrup fgd t b (Cst (set_video_type card (vid s)) (vc s)) = Ok tt s2 /\ scrolled_up t b s s1 /\
    forall r i, 0 <= r < lines s -> 0 <= i < row s -> cell s2 r i = cell s1 r i.
Proof.
  destruct (scrup_run fgd s _ t b Hs Ht Hb) as (s1 & Hr1 & _ & _ & S1 & _). set (s0 := Cst (set_video_type card (vid s)) (vc s)).
  assert (H0 : screen_ok s0) by (destruct Hs as [H1 H2 H3 H4 H5 H6 H7 H8 H9 H10 H11 H12]; by split).
  destruct (scrup_run fgd s0 _ t b H0 Ht Hb) as (s2 & Hr2 & _ & _ & S2 & _). exists s1, s2. split; [done|]. split; [done|]. split; [done|].
  intros r i Hr Hi. rewrite S2, S1 by done. done.
Qed.

(** ** Witnesses *)

(** A screen of two lines of eight columns on an EGA card. *)
Definition small_video : video :=
  Video ∅ 8 2 16 VIDEO_TYPE_EGAC 0 0xb8000 0xb8040 0x100000 [0x100000] 32 1 1 ∅ 0 0 0 0 0 0.
Definition small_vc : vc_struct :=
  Vc 0x0720 7 7 (-1) 0 ESnormal NORM_TRANS 0 0xb8000 0xb8020 0xb8000 0 0 0 2 0 (replicate 16 0) 0xb8000 0xb8040 0 0 0 0 2 0 NORM_TRANS.

Lemma small_screen_ok : screen_ok (Cst small_video small_vc).
Proof.
  split; cbn; try lia; try done.
  - intros a Ha. unfold in_video. cbn in *. lia.
  - split; [done|]. apply (Forall_replicate in_u32 16 0). unfold in_u32. lia.
Qed.


Lemma scroll_card_independent_witness : exists s1 s2, scrup true 0 2 (Cst small_video small_vc) = Ok tt s1 /\
  scrup true 0 2 (Cst (set_video_type VIDEO_TYPE_CGA small_video) small_vc) = Ok tt s2 /\ scrolled_up 0 2 (Cst small_video small_vc) s1 /\
  forall r i, 0 <= r < 2 -> 0 <= i < 16 -> cell s2 r i = cell s1 r i.
Proof. apply (scroll_card_independent true (Cst small_video small_vc) 0 2 VIDEO_TYPE_CGA); [apply small_screen_ok|lia|reflexivity]. Defined.
