(* ===== verification/Tty.v ===== *)
(** * Terminals: [kernel/chr_drv/tty_io.c], [pty.c] and the terminal side of
    [console.c]

    A terminal has three queues: characters typed ([read_q]), characters to show
    ([write_q]) and lines ready to be read ([secondary]).  [copy_to_cooked] is
    the line discipline between them; [tty_read] and [tty_write] are the system
    calls; [con_write], [mpty_write] and [spty_write] are what drains the output
    of a console and of a pseudo terminal.

    The state is that of the tasks, the queues, the terminals and the consoles.
    The process group and the session of a terminal are the entries of
    [tty_group].  [TtyEnv] is what happens while a task sleeps or gives up the
    processor, and the serial line. *)

From S2P Require Import Prelude TaskStruct Sched Exit Signal Queue Console.

Definition SIGINT : Z := 2.
Definition SIGWINCH : Z := 28.

(** ** [include/termios.h] *)

Definition VINTR : Z := 0.
Definition VQUIT : Z := 1.
Definition VERASE : Z := 2.
Definition VKILL : Z := 3.
Definition VEOF : Z := 4.
Definition VTIME : Z := 5.
Definition VMIN : Z := 6.
Definition VSTART : Z := 8.
Definition VSTOP : Z := 9.
Definition VSUSP : Z := 10.

Definition ISTRIP : Z := 0x20.
Definition INLCR : Z := 0x40.
Definition IGNCR : Z := 0x80.
Definition ICRNL : Z := 0x100.
Definition IUCLC : Z := 0x200.
Definition IXON : Z := 0x400.

Definition OPOST : Z := 0x1.
Definition OLCUC : Z := 0x2.
Definition ONLCR : Z := 0x4.
Definition OCRNL : Z := 0x8.
Definition ONLRET : Z := 0x20.

Definition CBAUD : Z := 0xf.
Definition B0 : Z := 0.
Definition B2400 : Z := 0xb.
Definition B9600 : Z := 0xd.
Definition B38400 : Z := 0xf.
Definition CS8 : Z := 0x30.

Definition ISIG : Z := 0x1.
Definition ICANON : Z := 0x2.
Definition ECHO : Z := 0x8.
Definition ECHONL : Z := 0x40.
Definition TOSTOP : Z := 0x100.
Definition ECHOCTL : Z := 0x200.
Definition ECHOKE : Z := 0x800.

Definition NCCS : Z := 17.
Record termios := Termios { c_iflag : Z; c_oflag : Z; c_cflag : Z; c_lflag : Z; c_line : Z; c_cc : list Z }.

Definition INIT_C_CC : list Z := [3; 28; 127; 21; 4; 0; 1; 0; 17; 19; 26; 0; 18; 15; 23; 22; 0].
Definition _POSIX_VDISABLE : Z := 0.

(** [DEF_TERMIOS] of [console.c]; [IXON] stands among the local flags. *)
Definition DEF_TERMIOS : termios :=
  Termios ICRNL (Z.lor OPOST ONLCR) 0 (Z.lor IXON (Z.lor ISIG (Z.lor ICANON (Z.lor ECHO (Z.lor ECHOCTL ECHOKE))))) 0 INIT_C_CC.

(** ** [include/ctype.h] and [lib/ctype.c] *)

Definition _ctype : list Z :=
  [0;
   8; 8; 8; 8; 8; 8; 8; 8; 8; 40; 40; 40; 40; 40; 8; 8;
   8; 8; 8; 8; 8; 8; 8; 8; 8; 8; 8; 8; 8; 8; 8; 8;
   160; 16; 16; 16; 16; 16; 16; 16; 16; 16; 16; 16; 16; 16; 16; 16;
   4; 4; 4; 4; 4; 4; 4; 4; 4; 4; 16; 16; 16; 16; 16; 16;
   16; 65; 65; 65; 65; 65; 65; 1; 1; 1; 1; 1; 1; 1; 1; 1;
   1; 1; 1; 1; 1; 1; 1; 1; 1; 1; 1; 16; 16; 16; 16; 16;
   16; 66; 66; 66; 66; 66; 66; 2; 2; 2; 2; 2; 2; 2; 2; 2;
   2; 2; 2; 2; 2; 2; 2; 2; 2; 2; 2; 16; 16; 16; 16; 8;
   0; 0; 0; 0; 0; 0; 0; 0; 0; 0; 0; 0; 0; 0; 0; 0;
   0; 0; 0; 0; 0; 0; 0; 0; 0; 0; 0; 0; 0; 0; 0; 0;
   0; 0; 0; 0; 0; 0; 0; 0; 0; 0; 0; 0; 0; 0; 0; 0;
   0; 0; 0; 0; 0; 0; 0; 0; 0; 0; 0; 0; 0; 0; 0; 0;
   0; 0; 0; 0; 0; 0; 0; 0; 0; 0; 0; 0; 0; 0; 0; 0;
   0; 0; 0; 0; 0; 0; 0; 0; 0; 0; 0; 0; 0; 0; 0; 0;
   0; 0; 0; 0; 0; 0; 0; 0; 0; 0; 0; 0; 0; 0; 0; 0;
   0; 0; 0; 0; 0; 0; 0; 0; 0; 0; 0; 0; 0; 0; 0; 0].

(** [tolower] and [toupper] go through the [char] [_ctmp]; the table is indexed
    by its value, which is negative for the characters from 128 on. *)
Definition s8 (z : Z) : Z := (z + 128) mod 256 - 128.
Definition ctype_of (c : Z) : option Z := aget _ctype (s8 c + 1).
Definition tolower (c : Z) : option Z := f ← ctype_of c; Some (if truth (Z.land f 1) then s8 c + 32 else s8 c).
Definition toupper (c : Z) : option Z := f ← ctype_of c; Some (if truth (Z.land f 2) then s8 c - 32 else s8 c).

(** ** Terminals: [include/linux/tty.h] *)

Definition NR_SERIALS : Z := 4.
Definition NR_PTYS : Z := 4.
Definition QUEUES : Z := 3 * (MAX_CONSOLES + NR_SERIALS + 2 * NR_PTYS).
Definition TTY_WRITE_BUSY : Z := 1.
Definition TTY_READ_BUSY : Z := 2.

(** The functions a [write] field points to. *)
Inductive write_fn := Wcon | Wrs | Wmpty | Wspty.

Record winsize := Winsize { ws_row : Z; ws_col : Z; ws_xpixel : Z; ws_ypixel : Z }.

(** [struct tty_struct]; the queues are indices of [tty_queues]. *)
Record tty_struct := TtyS {
  t_termios : termios;
  t_stopped : Z;
  t_busy : Z;
  t_winsize : winsize;
  t_write : option write_fn;
  read_q : option Z;
  write_q : option Z;
  secondary : option Z
}.

Definition set_t_termios v t := TtyS v (t_stopped t) (t_busy t) (t_winsize t) (t_write t) (read_q t) (write_q t) (secondary t).
Definition set_t_stopped v t := TtyS (t_termios t) v (t_busy t) (t_winsize t) (t_write t) (read_q t) (write_q t) (secondary t).
Definition set_t_busy v t := TtyS (t_termios t) (t_stopped t) v (t_winsize t) (t_write t) (read_q t) (write_q t) (secondary t).
Definition set_t_winsize v t := TtyS (t_termios t) (t_stopped t) (t_busy t) v (t_write t) (read_q t) (write_q t) (secondary t).

Record tts := Tts {
  kern : kst;
  tty_queues : list tty_queue;
  tty_table : list tty_struct;
  vc_cons : list vc_struct;
  glob : video;                            (* the globals of console.c *)
  cr_flag : Z                              (* of tty_write *)
}.

Definition set_kern v s := Tts v (tty_queues s) (tty_table s) (vc_cons s) (glob s) (cr_flag s).
Definition set_tty_queues v s := Tts (kern s) v (tty_table s) (vc_cons s) (glob s) (cr_flag s).
Definition set_tty_table v s := Tts (kern s) (tty_queues s) v (vc_cons s) (glob s) (cr_flag s).
Definition set_vc_cons v s := Tts (kern s) (tty_queues s) (tty_table s) v (glob s) (cr_flag s).
Definition set_glob v s := Tts (kern s) (tty_queues s) (tty_table s) (vc_cons s) v (cr_flag s).
Definition set_cr_flag v s := Tts (kern s) (tty_queues s) (tty_table s) (vc_cons s) (glob s) v.

(** Running a routine of the tasks, or one of the console [currcons]. *)
Definition on_kern {A} (m : M kst A) : M tts A := fun s =>
  match m (kern s) with Ok a k => Ok a (set_kern k s) | Halt h k => Halt h (set_kern k s) end.
Definition on_con {A} (currcons : Z) (m : M cst A) : M tts A := fun s =>
  match aget (vc_cons s) currcons with
  | None => Halt Fault s
  | Some w =>
      let back c := set_glob (vid c) (set_vc_cons (<[Z.to_nat currcons := vc c]> (vc_cons s)) s) in
      match m (Cst (glob s) w) with Ok a c => Ok a (back c) | Halt h c => Halt h (back c) end
  end.

Definition tty_at (i : Z) : M tts tty_struct := s ← getS; ofOpt (aget (tty_table s) i).
Definition tty_upd (i : Z) (f : tty_struct -> tty_struct) : M tts unit :=
  s ← getS; t ← ofOpt (aget (tty_table s) i); l ← ofOpt (aset (tty_table s) i (f t)); modify (set_tty_table l).
Definition queue_at (q : option Z) : M tts tty_queue := s ← getS; i ← ofOpt q; ofOpt (aget (tty_queues s) i).
Definition queue_put (q : option Z) (v : tty_queue) : M tts unit :=
  s ← getS; i ← ofOpt q; l ← ofOpt (aset (tty_queues s) i v); modify (set_tty_queues l).
Definition getch (q : option Z) : M tts Z := v ← queue_at q; '(c, v') ← ofOpt (GETCH v); queue_put q v';; mret c.
Definition putch (c : Z) (q : option Z) : M tts unit := v ← queue_at q; v' ← ofOpt (PUTCH c v); queue_put q v'.

(** [&queue->proc_list]: the wait queues of the terminals, and [wake_up] there. *)
Definition proc_list (i : Z) : Z := -1 - i.
Definition wake_queue (q : option Z) : M tts unit := i ← ofOpt q; on_kern (wake_up (proc_list i)).

(** [current->signal & ~current->blocked] *)
Definition signal_pending : M kst bool := sg ← cur signal; bl ← cur blocked; mret (truth (Z.ldiff sg bl)).
Definition pgrp_of (i : Z) : M kst Z := k ← getS; '(p, _) ← ofOpt (aget (tty_group (sysd k)) i); mret p.

Definition has (flags f : Z) : bool := truth (Z.land flags f).
Definition L_FLAG (t : tty_struct) (f : Z) : bool := has (c_lflag (t_termios t)) f.
Definition I_FLAG (t : tty_struct) (f : Z) : bool := has (c_iflag (t_termios t)) f.
Definition O_FLAG (t : tty_struct) (f : Z) : bool := has (c_oflag (t_termios t)) f.
Definition CC (t : tty_struct) (i : Z) : Z := default 0 (aget (c_cc (t_termios t)) i).
(** [X_CHAR(tty) != _POSIX_VDISABLE && c == X_CHAR(tty)] *)
Definition is_char (t : tty_struct) (i c : Z) : bool := negb (CC t i =? _POSIX_VDISABLE) && (c =? CC t i).

Class TtyEnv := {
  tty_sleep : Z -> M tts unit;             (* interruptible_sleep_on(&queue->proc_list) *)
  tty_yield : M tts unit;                  (* schedule() *)
  rs_write : Z -> M tts unit               (* the serial driver *)
}.

Section Tty.
Context `{TtyEnv}.
Context (patience : nat).

(** ** Line discipline *)

Section Cooked.
(** [tty->write(tty)] *)
Context (write : Z -> M tts unit).

(** [TTY_WRITE_FLUSH(tty)] *)
Definition TTY_WRITE_FLUSH (i : Z) : M tts unit :=
  t ← tty_at i; q ← queue_at (write_q t);
  if EMPTY q || truth (Z.land TTY_WRITE_BUSY (t_busy t)) then mret tt
  else
    tty_upd i (fun t => set_t_busy (Z.lor (t_busy t) TTY_WRITE_BUSY) t);;
    write i;;
    tty_upd i (fun t => set_t_busy (Z.ldiff (t_busy t) TTY_WRITE_BUSY) t).

(** The last character of [secondary], if it may be erased. *)
Definition erasable (t : tty_struct) (q : tty_queue) : M tts (option Z) :=
  if EMPTY q then mret None
  else c ← ofOpt (LAST q); if (c =? 10) || is_char t VEOF c then mret None else mret (Some c).

(** Rubbing out the last character, and its echo. *)
Definition rub_out (i : Z) (t : tty_struct) (c : Z) : M tts unit :=
  (if L_FLAG t ECHO then
     when (c <? 32) (putch 127 (write_q t));; putch 127 (write_q t);; TTY_WRITE_FLUSH i
   else mret tt);;
  q ← queue_at (secondary t); queue_put (secondary t) (set_q_head (DEC (q_head q)) q).

(** The kill character: one turn of its loop. *)
Definition kill_step (i : Z) (_ : unit) : M tts (unit + unit) :=
  t ← tty_at i; q ← queue_at (secondary t);
  o ← erasable t q;
  match o with None => mret (inr tt) | Some c => rub_out i t c;; mret (inl tt) end.

(** The input flags; nothing when the character is dropped. *)
Definition input_char (t : tty_struct) (c : Z) : option (option Z) :=
  let c := if I_FLAG t ISTRIP then Z.land c 0x7f else c in
  if (c =? 13) && negb (I_FLAG t ICRNL) && I_FLAG t IGNCR then Some None
  else
    let c := if c =? 13 then (if I_FLAG t ICRNL then 10 else c) else if (c =? 10) && I_FLAG t INLCR then 13 else c in
    if I_FLAG t IUCLC then c' ← tolower c; Some (Some (u8 c')) else Some (Some c).

(** What a character is for. *)
Inductive char_class := Kill | Erase | Stop | Start | Signal (sig : Z) | Suspend | Plain.
Definition classify (t : tty_struct) (c : Z) : char_class :=
  if L_FLAG t ICANON && is_char t VKILL c then Kill
  else if L_FLAG t ICANON && is_char t VERASE c then Erase
  else if I_FLAG t IXON && is_char t VSTOP c then Stop
  else if I_FLAG t IXON && is_char t VSTART c then Start
  else if L_FLAG t ISIG && is_char t VINTR c then Signal SIGINT
  else if L_FLAG t ISIG && is_char t VQUIT c then Signal SIGQUIT
  else if L_FLAG t ISIG && is_char t VSUSP c then Suspend
  else Plain.

(** The echo of an ordinary character. *)
Definition echo_chars (t : tty_struct) (c : Z) : list Z :=
  if (L_FLAG t ECHO || L_FLAG t ECHONL) && (c =? 10) then [10; 13]
  else if L_FLAG t ECHO then (if (c <? 32) && L_FLAG t ECHOCTL then [94; c + 64] else [c])
  else [].

Definition line_end (t : tty_struct) (c : Z) : bool := (c =? 10) || is_char t VEOF c.

Definition plain_char (i : Z) (t : tty_struct) (c : Z) : M tts unit :=
  (if line_end t c then q ← queue_at (secondary t); queue_put (secondary t) (set_q_data (u32 (q_data q + 1)) q) else mret tt);;
  for_each (echo_chars t c) (fun e => putch e (write_q t));;
  putch c (secondary t);;
  TTY_WRITE_FLUSH i.

(** One turn of the loop of [copy_to_cooked]. *)
Definition cook_step (i : Z) (_ : unit) : M tts (unit + unit) :=
  t ← tty_at i;
  rq ← queue_at (read_q t); sq ← queue_at (secondary t);
  if EMPTY rq then mret (inr tt)
  else if FULL sq then
    j ← ofOpt (secondary t);
    on_kern (k ← getS;
      match wq k !! proc_list j with
      | Some p => if bool_decide (p = current k) then mret tt else upd_cur (set_counter 0)
      | None => mret tt
      end);;
    mret (inr tt)
  else
    c0 ← getch (read_q t);
    o ← ofOpt (input_char t c0);
    match o with
    | None => mret (inl tt)
    | Some c =>
        match classify t c with
        | Kill => iter (Z.to_nat TTY_BUF_SIZE) (kill_step i) tt
        | Erase => q ← queue_at (secondary t); e ← erasable t q; match e with Some l => rub_out i t l | None => mret tt end
        | Stop => tty_upd i (set_t_stopped 1)
        | Start => tty_upd i (set_t_stopped 0);; TTY_WRITE_FLUSH i
        | Signal sig => on_kern (p ← pgrp_of i; _ ← kill_pg p sig true; mret tt)
        | Suspend => on_kern (p ← pgrp_of i; o ← is_orphaned_pgrp p; if (o : bool) then mret tt else _ ← kill_pg p SIGTSTP true; mret tt)
        | Plain => plain_char i t c
        end;;
        mret (inl tt)
    end.

(** [void copy_to_cooked(struct tty_struct * tty)] *)
Definition copy_to_cooked (i : Z) : M tts unit :=
  t ← tty_at i;
  match t_write t, read_q t, write_q t, secondary t with
  | Some _, Some _, Some _, Some _ =>
      iter patience (cook_step i) tt;;
      TTY_WRITE_FLUSH i;;
      sq ← queue_at (secondary t); when (negb (EMPTY sq)) (wake_queue (secondary t));;
      wv ← queue_at (write_q t); when (TTY_BUF_SIZE / 2 <? LEFT wv) (wake_queue (write_q t))
  | _, _, _, _ => on_kern (printk "copy_to_cooked: missing queues")
  end.

End Cooked.


(** ** Output of a console *)

Definition BLANK_TIMER : Z := 0.
Definition BEEP_TIMER : Z := 1.
(** The functions in [timer_table], as addresses. *)
Definition fn_blank_screen : Z := 0x10.
Definition fn_sysbeepstop : Z := 0x14.
Definition RESPONSE : list Z := [27; 91; 63; 49; 59; 50; 99].

Definition timer_entry (n expires : Z) (fn : option Z) : M kst unit :=
  k ← getS;
  '(_, f) ← ofOpt (aget (timer_table (timers k)) n);
  l ← ofOpt (aset (timer_table (timers k)) n (expires, default f fn));
  modify (fun k => set_timers (Tst (timer_list (timers k)) (next_timer (timers k)) (timer_active (timers k)) l) k).
Definition timer_on (n : Z) : M kst unit := k ← getS; put_timer_active (Z.lor (timer_active (timers k)) (word_bit n)).
Definition timer_off (n : Z) : M kst unit := k ← getS; put_timer_active (Z.ldiff (timer_active (timers k)) (word_bit n)).

(** The end of [con_write] and of [do_keyboard_interrupt]. *)
Definition restart_blanking : M tts unit :=
  g ← gets glob; j ← gets (fun s => jiffies (kern s));
  on_kern (
    timer_off BLANK_TIMER;;
    if truth (console_blanked g) then timer_entry BLANK_TIMER 0 None;; timer_on BLANK_TIMER
    else if truth (blankinterval g) then timer_entry BLANK_TIMER (u32 (j + blankinterval g)) None;; timer_on BLANK_TIMER
    else mret tt).

(** [static void sysbeep(void)], less the loudspeaker's ports *)
Definition sysbeep : M kst unit :=
  j ← gets jiffies; timer_entry BEEP_TIMER (u32 (j + HZ / 8)) (Some fn_sysbeepstop);; timer_on BEEP_TIMER.

Section ConWrite.
(** [copy_to_cooked(tty)] *)
Context (cooked : Z -> M tts unit).

(** [static void respond(int currcons, struct tty_struct * tty)] *)
Definition respond (i : Z) : M tts unit :=
  t ← tty_at i; for_each RESPONSE (fun c => putch c (read_q t));; cooked i.

Definition perform (i : Z) (e : effect) : M tts unit :=
  match e with
  | Respond => respond i
  | Beep => on_kern sysbeep
  | ResetTermios => tty_upd i (set_t_termios DEF_TERMIOS)
  end.

Definition is_fg (i : Z) : M tts bool := s ← getS; mret (i =? fg_console (sysd (kern s))).

Definition con_step (i : Z) (_ : unit) : M tts (unit + unit) :=
  t ← tty_at i; q ← queue_at (write_q t);
  if EMPTY q || truth (t_stopped t) then mret (inr tt)
  else
    c ← getch (write_q t);
    fgd ← is_fg i;
    es ← on_con i (con_char fgd c);
    for_each es (perform i);;
    mret (inl tt).

(** [void con_write(struct tty_struct * tty)] *)
Definition con_write (i : Z) : M tts unit :=
  t ← tty_at i;
  wake_queue (write_q t);;
  if MAX_CONSOLES <=? i then on_kern (printk "con_write: illegal tty")
  else
    iter patience (con_step i) tt;;
    fgd ← is_fg i;
    on_con i (set_cursor fgd);;
    restart_blanking.
End ConWrite.

(** ** Pseudo terminals: [pty.c] *)

Section PtyWrite.
Context (cooked : Z -> M tts unit).

(** One turn of the loop of [pty_copy]; it stops at [current->signal &&
    ~current->blocked], with the logical "and". *)
Definition pty_step (from to : Z) (_ : unit) : M tts (unit + unit) :=
  f ← tty_at from; t ← tty_at to;
  q ← queue_at (write_q f);
  if truth (t_stopped f) || EMPTY q then mret (inr tt)
  else
    rq ← queue_at (read_q t);
    if FULL rq then
      sq ← queue_at (secondary t);
      if FULL sq then mret (inr tt) else cooked to;; mret (inl tt)
    else
      c ← getch (write_q f); putch c (read_q t);;
      sg ← on_kern (cur signal); bl ← on_kern (cur blocked);
      if truth sg && negb (bl =? 0xffffffff) then mret (inr tt) else mret (inl tt).

(** [static inline void pty_copy(struct tty_struct * from, struct tty_struct * to)] *)
Definition pty_copy (from to : Z) : M tts unit :=
  iter patience (pty_step from to) tt;;
  cooked to;;
  f ← tty_at from; wake_queue (write_q f).

(** [void mpty_write(struct tty_struct *tty)] and [void spty_write(struct tty_struct *tty)] *)
Definition mpty_write (i : Z) : M tts unit := if negb (Z.shiftr i 6 =? 2) then on_kern (printk "bad mpty") else pty_copy i (i + 64).
Definition spty_write (i : Z) : M tts unit := if negb (Z.shiftr i 6 =? 3) then on_kern (printk "bad spty") else pty_copy i (i - 64).
End PtyWrite.

(** [tty->write(tty)]: [depth] bounds how often [write] and [copy_to_cooked]
    call each other. *)
Fixpoint tty_out (depth : nat) (i : Z) : M tts unit :=
  match depth with
  | O => halts Hang
  | S d =>
      t ← tty_at i;
      match t_write t with
      | None => halts Fault
      | Some Wcon => con_write (copy_to_cooked (tty_out d)) i
      | Some Wrs => rs_write i
      | Some Wmpty => mpty_write (copy_to_cooked (tty_out d)) i
      | Some Wspty => spty_write (copy_to_cooked (tty_out d)) i
      end
  end.

(** ** Reading and writing *)

Definition TTY_TABLE (nr : Z) : M tts Z :=
  s ← getS; mret (if truth nr then (if nr <? 64 then nr - 1 else nr) else fg_console (sysd (kern s))).

(** [static void sleep_if_full(struct tty_queue * queue)] *)
Definition sleep_if_full (q : option Z) : M tts unit :=
  v ← queue_at q; i ← ofOpt q;
  if negb (FULL v) then mret tt
  else iter patience (fun _ =>
    p ← on_kern signal_pending; v ← queue_at q;
    if negb p && (LEFT v <? 128) then tty_sleep i;; mret (inl tt) else mret (inr tt)) tt.

(** [static void sleep_if_empty(struct tty_queue * queue)] *)
Definition sleep_if_empty (q : option Z) : M tts unit :=
  i ← ofOpt q;
  iter patience (fun _ =>
    p ← on_kern signal_pending; v ← queue_at q;
    if negb p && EMPTY v then tty_sleep i;; mret (inl tt) else mret (inr tt)) tt.

(** [int tty_signal(int sig, struct tty_struct *tty)] *)
Definition tty_signal (sig : Z) : M kst Z :=
  pg ← cur pgrp;
  o ← is_orphaned_pgrp pg;
  if (o : bool) then mret (- EIO)
  else
    _ ← kill_pg pg sig true;
    bl ← cur blocked; acts ← cur sigactions; sa ← ofOpt (aget acts (sig - 1));
    if truth (Z.land bl (word_bit (sig - 1))) || (sa_handler sa =? 1) then mret (- EIO)
    else if truth (sa_handler sa) then mret (- EINTR)
    else mret (- ERESTARTSYS).

Section Calls.
(** [tty->write(tty)] *)
Context (write : Z -> M tts unit).

(** The inner loop of [tty_read]: [n] characters wanted, to go to [b]; it leaves
    what is still wanted and the next address. *)
Definition read_step (i : Z) (x : Z * Z) : M tts ((Z * Z) + (Z * Z)) :=
  let '(n, b) := x in
  t ← tty_at i;
  c0 ← getch (secondary t);
  let c := s8 c0 in
  let eof := negb (CC t VEOF =? _POSIX_VDISABLE) && (c =? CC t VEOF) in
  (if eof || (c =? 10) then q ← queue_at (secondary t); queue_put (secondary t) (set_q_data (u32 (q_data q - 1)) q) else mret tt);;
  if eof && L_FLAG t ICANON then mret (inr (n, b))
  else
    on_kern (put_fs_byte c b);;
    let n := n - 1 in let b := b + 1 in
    if n =? 0 then mret (inr (n, b))
    else if (c =? 10) && L_FLAG t ICANON then mret (inr (n, b))
    else
      q ← queue_at (secondary t);
      if (0 <? n) && negb (EMPTY q) then mret (inl (n, b)) else mret (inr (n, b)).

(** The outer loop. *)
Definition read_round (i channel minimum time buf : Z) (other : option Z) (x : Z * Z) : M tts ((Z * Z) + (Z * Z)) :=
  let '(n, b) := x in
  if n <=? 0 then mret (inr x)
  else
    match other with Some o => write o | None => mret tt end;;
    t ← tty_at i; sq ← queue_at (secondary t); rq ← queue_at (read_q t);
    if EMPTY sq || (L_FLAG t ICANON && negb (FULL rq) && negb (truth (q_data sq))) then
      tmo ← on_kern (cur timeout); p ← on_kern signal_pending;
      if negb (truth tmo) || p then mret (inr x)
      else
        hup ← (if Z.land channel 0xC0 =? 0xC0 then o ← ofOpt other; ot ← tty_at o; mret (Z.land (c_cflag (t_termios ot)) CBAUD =? B0) else mret false);
        if (hup : bool) then mret (inr x)
        else j ← ofOpt (secondary t); tty_sleep j;; mret (inl x)
    else
      '(n, b) ← iter (Z.to_nat TTY_BUF_SIZE) (read_step i) (n, b);
      wake_queue (read_q t);;
      (if truth time then j ← gets (fun s => jiffies (kern s)); on_kern (upd_cur (set_timeout (u32 (time + j)))) else mret tt);;
      t ← tty_at i;
      if L_FLAG t ICANON || (minimum <=? b - buf) then mret (inr (n, b)) else mret (inl (n, b)).

(** [int tty_read(unsigned channel, char * buf, int nr)] *)
Definition tty_read (channel buf nr : Z) : M tts Z :=
  if 255 <? channel then mret (- EIO)
  else
    i ← TTY_TABLE channel;
    t ← tty_at i;
    match write_q t, read_q t, secondary t with
    | None, None, None => mret (- EIO)
    | _, _, _ =>
        ctty ← on_kern (cur tty); pg ← on_kern (cur pgrp); tpg ← on_kern (pgrp_of i);
        if (u32 ctty =? channel) && negb (tpg =? pg) then on_kern (tty_signal SIGTTIN)
        else
          let other := if truth (Z.land channel 0x80) then Some (Z.lxor channel 0x40) else None in
          let time := 10 * CC t VTIME in
          let minimum := CC t VMIN in
          '(minimum, time) ←
            (if L_FLAG t ICANON then on_kern (upd_cur (set_timeout 0xffffffff));; mret (nr, 0)
             else if truth minimum then on_kern (upd_cur (set_timeout 0xffffffff));; mret (minimum, time)
             else (if truth time then j ← gets (fun s => jiffies (kern s)); on_kern (upd_cur (set_timeout (u32 (time + j)))) else mret tt);; mret (nr, 0));
          let minimum := if nr <? minimum then nr else minimum in
          '(_, b) ← iter patience (read_round i channel minimum time buf other) (nr, buf);
          on_kern (upd_cur (set_timeout 0));;
          p ← on_kern signal_pending;
          if p && (b - buf =? 0) then mret (- ERESTARTSYS) else mret (b - buf)
    end.

(** One turn of the inner loop of [tty_write]; [fs] is the user's memory. *)
Definition write_step (fs : umem) (i : Z) (x : Z * Z) : M tts ((Z * Z) + (Z * Z)) :=
  let '(n, b) := x in
  t ← tty_at i; q ← queue_at (write_q t);
  if (n <=? 0) || FULL q then mret (inr x)
  else
    let c := s8 (get_fs_byte fs b) in
    cf ← gets cr_flag;
    let post := O_FLAG t OPOST in
    let c := if post then (if (c =? 13) && O_FLAG t OCRNL then 10 else if (c =? 10) && O_FLAG t ONLRET then 13 else c) else c in
    if post && (c =? 10) && negb (truth cf) && O_FLAG t ONLCR then modify (set_cr_flag 1);; putch 13 (write_q t);; mret (inl x)
    else
      c ← (if post && O_FLAG t OLCUC then ofOpt (toupper c) else mret c);
      modify (set_cr_flag 0);; putch c (write_q t);; mret (inl (n - 1, b + 1)).

Definition write_round (fs : umem) (i : Z) (x : Z * Z) : M tts ((Z * Z) + (Z * Z)) :=
  if x.1 <=? 0 then mret (inr x)
  else
    t ← tty_at i;
    sleep_if_full (write_q t);;
    p ← on_kern signal_pending;
    if (p : bool) then mret (inr x)
    else
      '(n, b) ← iter (2 * Z.to_nat TTY_BUF_SIZE) (write_step fs i) x;
      write i;;
      (if 0 <? n then tty_yield else mret tt);;
      mret (inl (n, b)).

(** [int tty_write(unsigned channel, char *buf, int nr)] *)
Definition tty_write (fs : umem) (channel buf nr : Z) : M tts Z :=
  if 255 <? channel then mret (- EIO)
  else
    i ← TTY_TABLE channel;
    t ← tty_at i;
    match read_q t, write_q t, secondary t with
    | None, None, None => mret (- EIO)
    | _, _, _ =>
        ctty ← on_kern (cur tty); pg ← on_kern (cur pgrp); tpg ← on_kern (pgrp_of i);
        if L_FLAG t TOSTOP && (u32 ctty =? channel) && negb (tpg =? pg) then on_kern (tty_signal SIGTTOU)
        else '(_, b) ← iter patience (write_round fs i) (nr, buf); mret (b - buf)
    end.

(** [TTY_READ_FLUSH(tty)] and its callers *)
Definition TTY_READ_FLUSH (i : Z) : M tts unit :=
  t ← tty_at i; q ← queue_at (read_q t);
  if EMPTY q || truth (Z.land TTY_READ_BUSY (t_busy t)) then mret tt
  else
    tty_upd i (fun t => set_t_busy (Z.lor (t_busy t) TTY_READ_BUSY) t);;
    copy_to_cooked write i;;
    tty_upd i (fun t => set_t_busy (Z.ldiff (t_busy t) TTY_READ_BUSY) t).

(** [void do_tty_interrupt(int tty)] and [void do_keyboard_interrupt(void)] *)
Definition do_tty_interrupt (nr : Z) : M tts unit := i ← TTY_TABLE nr; copy_to_cooked write i.
Definition do_keyboard_interrupt : M tts unit := i ← TTY_TABLE 0; TTY_READ_FLUSH i;; restart_blanking.

End Calls.
End Tty.
