(* ===== verification/TtyOk.v ===== *)
(** * Theorems about terminals

    The output of a console is interpreted completely, without leaving the
    console's own memory, and text is put on the screen ([con_write]); the line
    discipline of a console, with its echo, is a line editor on lists
    ([copy_to_cooked]).  Tasks may wait for either. *)

From S2P Require Import Prelude TaskStruct Sched Exit Signal Queue Console Screen Tty.

(** ** Running the primitives *)

Lemma tty_at_run i s t : aget (tty_table s) i = Some t -> tty_at i s = Ok t s.
Proof. intros H. unfold tty_at, getS, mbind, M_bind. by rewrite H. Qed.

Lemma tty_upd_run i f s t : aget (tty_table s) i = Some t -> tty_upd i f s = Ok tt (set_tty_table (<[Z.to_nat i := f t]> (tty_table s)) s).
Proof.
  intros H. unfold tty_upd, getS, mbind, M_bind. rewrite H. cbn. by rewrite aset_in_range by (by apply aget_Some_range in H).
Qed.

Lemma queue_at_run j s q : aget (tty_queues s) j = Some q -> queue_at (Some j) s = Ok q s.
Proof. intros H. unfold queue_at, getS, mbind, M_bind, ofOpt. by rewrite H. Qed.

Definition put_queue (j : Z) (q : tty_queue) (s : tts) : tts := set_tty_queues (<[Z.to_nat j := q]> (tty_queues s)) s.

Lemma queue_put_run j s q q' : aget (tty_queues s) j = Some q -> queue_put (Some j) q' s = Ok tt (put_queue j q' s).
Proof.
  intros H. unfold queue_put, getS, mbind, M_bind, ofOpt. by rewrite aset_in_range by (by apply aget_Some_range in H).
Qed.

Lemma put_queue_eq j q q' s : aget (tty_queues s) j = Some q -> aget (tty_queues (put_queue j q' s)) j = Some q'.
Proof. intros H. apply aget_insert_eq. by apply aget_Some_range in H. Qed.

Lemma put_queue_ne j k q s : 0 <= j -> j <> k -> aget (tty_queues (put_queue j q s)) k = aget (tty_queues s) k.
Proof. intros. by apply aget_insert_ne. Qed.

Lemma getch_run j s q c l : aget (tty_queues s) j = Some q -> queue_ok q -> content q = c :: l ->
  exists q', getch (Some j) s = Ok c (put_queue j q' s) /\ queue_ok q' /\ content q' = l /\ q_data q' = q_data q.
Proof.
  intros Hj Hq Hl. destruct (GETCH_content q c l Hq Hl) as (q' & Hg & Hok & Hc & Hd). exists q'. split; [|done].
  unfold getch. rewrite (run_bind _ _ _ _ _ (queue_at_run j s q Hj)). rewrite Hg.
  rewrite (run_bind _ _ s (c, q') s) by done. cbn beta iota. by rewrite (run_bind _ _ _ _ _ (queue_put_run j s q q' Hj)).
Qed.

Lemma putch_run c j s q : aget (tty_queues s) j = Some q -> queue_ok q ->
  exists q', PUTCH c q = Some q' /\ putch c (Some j) s = Ok tt (put_queue j q' s) /\ queue_ok q' /\ q_data q' = q_data q.
Proof.
  intros Hj Hq. destruct (PUTCH_total c q Hq) as (q' & Hp & Hok & Hd). exists q'. split; [done|]. split; [|done].
  unfold putch. rewrite (run_bind _ _ _ _ _ (queue_at_run j s q Hj)). rewrite Hp. rewrite (run_bind _ _ s q' s) by done. exact (queue_put_run j s q q' Hj).
Qed.

Lemma on_kern_run {A} (m : M kst A) s a k : m (kern s) = Ok a k -> on_kern m s = Ok a (set_kern k s).
Proof. unfold on_kern. by intros ->. Qed.

(** ** Consoles *)

Definition consoles_ok (s : tts) : Prop := forall k w, k < NR_CONSOLES (glob s) -> aget (vc_cons s) k = Some w -> screen_ok (Cst (glob s) w).

(** Only console [i] and its window of video memory change. *)
Record confined (i : Z) (s s' : tts) : Prop := {
  cf_others : forall k, k <> i -> aget (vc_cons s') k = aget (vc_cons s) k;
  cf_len : length (vc_cons s') = length (vc_cons s);
  cf_vid : vid_kept (glob s) (glob s');
  cf_mem : forall w, aget (vc_cons s) i = Some w -> exists w', aget (vc_cons s') i = Some w' /\
    vc_video_mem_start w' = vc_video_mem_start w /\ vc_video_mem_end w' = vc_video_mem_end w /\
    forall a, ~ (vc_video_mem_start w <= a < vc_video_mem_end w) -> byte_at (vmem (glob s')) a = byte_at (vmem (glob s)) a
}.

Lemma confined_refl i s : confined i s s.
Proof. split; [done|done|apply vid_kept_refl|]. intros w Hw. by exists w. Qed.

Lemma confined_trans i s1 s2 s3 : confined i s1 s2 -> confined i s2 s3 -> confined i s1 s3.
Proof.
  intros [A1 A2 A3 A4] [B1 B2 B3 B4]. split; [intros k Hk; by rewrite B1, A1|congruence|by eapply vid_kept_trans|]. intros w Hw.
  destruct (A4 w Hw) as (w2 & Hw2 & E1 & E2 & M2). destruct (B4 w2 Hw2) as (w3 & Hw3 & F1 & F2 & M3).
  exists w3. split; [done|]. split; [congruence|]. split; [congruence|]. intros a Ha. rewrite M3, M2; [done|done|]. by rewrite E1, E2.
Qed.

(** A safe routine of one console. *)
Definition console_index (i : Z) (s : tts) : Prop := 0 <= i < Z.of_nat (length (vc_cons s)) /\ i < NR_CONSOLES (glob s).

Lemma on_con_run {A} i (m : M cst A) s : safe m -> consoles_ok s -> console_index i s ->
  exists a g l, on_con i m s = Ok a (set_glob g (set_vc_cons l s)) /\
    let s' := set_glob g (set_vc_cons l s) in consoles_ok s' /\ confined i s s'.
Proof.
  intros Hm Hs [Hi Hnr]. destruct (aget_in_range _ _ Hi) as [w Hw]. specialize (Hm _ (Hs i w Hnr Hw)). apply wp_total in Hm as (a & [v w'] & Hr & [Hok Hk]).
  exists a, v, (<[Z.to_nat i := w']> (vc_cons s)). unfold on_con. rewrite Hw, Hr. split; [done|]. cbv zeta.
  pose proof Hk as (V & E1 & E2 & Hmem). cbn in V, E1, E2, Hmem. split.
  - intros k u Hkn Hu. cbn in Hkn, Hu |- *. replace (NR_CONSOLES v) with (NR_CONSOLES (glob s)) in Hkn by (by rewrite V). destruct (decide (k = i)) as [->|Hne].
    + rewrite aget_insert_eq in Hu by done. injection Hu as <-. exact Hok.
    + rewrite aget_insert_ne in Hu by lia. pose proof (Hs k u Hkn Hu) as Hsk. unfold screen_ok in *. cbn [vid] in *.
      replace (video_num_columns v) with (video_num_columns (glob s)) by (by rewrite V). by apply (screen_kept _ (Cst (glob s) u)).
  - split; cbn.
    + intros k Hk'. apply aget_insert_ne; lia.
    + apply length_insert.
    + exact V.
    + intros u Hu. assert (u = w) as -> by congruence. exists w'. rewrite aget_insert_eq by done. by split_and!.
Qed.

(** Running one character on console [i]. *)
Lemma on_con_char i c fgd s w : in_u8 c -> c <> 27 -> consoles_ok s -> console_index i s -> aget (vc_cons s) i = Some w -> vc_state w = ESnormal ->
  exists es v w', on_con i (con_char fgd c) s = Ok es (set_glob v (set_vc_cons (<[Z.to_nat i := w']> (vc_cons s)) s)) /\
    con_char fgd c (Cst (glob s) w) = Ok es (Cst v w') /\ vc_state w' = ESnormal /\ (es = [] \/ es = [Beep]) /\
    let s' := set_glob v (set_vc_cons (<[Z.to_nat i := w']> (vc_cons s)) s) in consoles_ok s' /\ confined i s s'.
Proof.
  intros Hc Hne Hs Hi Hw Hst. destruct (con_char_plain fgd c (Cst (glob s) w)) as (es & [v w'] & E & _ & Hp & He); [exact Hc|done|apply (Hs i w (proj2 Hi) Hw)|exact Hst|].
  assert (Er : on_con i (con_char fgd c) s = Ok es (set_glob v (set_vc_cons (<[Z.to_nat i := w']> (vc_cons s)) s))) by (unfold on_con; by rewrite Hw, E).
  destruct (on_con_run i (con_char fgd c) s) as (es' & g & l & E' & H1 & H2); [by apply con_char_safe|done|done|]. exists es, v, w'. rewrite Er in E'. injection E' as <- <- <-.
  split; [done|]. split; [done|]. split; [done|]. split; [done|]. exact (conj H1 H2).
Qed.

(** ** Waiting tasks *)

(** The tasks that sleep on queue [q]. *)
Definition sleepers (k : kst) (q : Z) (l : list tptr) : Prop := exists t0, aget (task k) 0 = Some t0 /\ queue k t0 (wq k !! q) l /\ NoDup l.
(** The sleepers on two queues are different tasks, and there is a running task. *)
Definition two_queues (q1 q2 : Z) (k : kst) : Prop := exists t0 l1 l2, aget (task k) 0 = Some t0 /\ queue k t0 (wq k !! q1) l1 /\ queue k t0 (wq k !! q2) l2 /\ NoDup (l1 ++ l2) /\ is_Some (heap k !! current k).

Lemma wake_up_rest q (T : tst) c : preserves (fun k => timers k = T /\ current k = c) (wake_up q).
Proof.
  unfold wake_up, wake_step, wake_next, set_wq_head, printk. pres; try (apply preserves_modify; by intros k [? ?]); try (apply preserves_upd; by intros k ? ? [? ?]).
Qed.


Lemma wake_up_two q1 q2 k : q1 <> q2 -> two_queues q1 q2 k -> exists k', wake_up q2 k = Ok tt k' /\ timers k' = timers k /\ two_queues q1 q2 k'.
Proof.
  intros Hne (t0 & l1 & l2 & H0 & Hq1 & Hq2 & Hn & Hc). pose proof Hn as Hn0. apply NoDup_app in Hn as (Hn1 & Hdis & Hn2). destruct (wake_up_wakes_all k q2 t0 l2 H0 Hq2 Hn2) as (k' & E & Ew & Et & Hin & Hout). exists k'. split; [done|].
  destruct (wake_up_rest q2 (timers k) (current k) k tt k' (conj eq_refl eq_refl) E) as [E1 E2]. split; [done|]. exists t0, l1, []. rewrite Et, Ew, lookup_delete_eq, lookup_delete_ne, app_nil_r, E2 by done. split; [done|]. split; [|split; [constructor|split; [done|]]].
  - eapply queue_frame; [exact Hq1|]. intros p Hp. rewrite Hout; [done|]. intros Hp2. by apply (Hdis p).
  - destruct (decide (current k ∈ l2)) as [Hi|Hi]; [rewrite Hin by done; destruct Hc as [t ->]; by eexists|by rewrite Hout].
Qed.
Lemma two_queues_comm q1 q2 k : two_queues q1 q2 k -> two_queues q2 q1 k.
Proof. intros (t0 & l1 & l2 & H0 & Hq1 & Hq2 & Hn & Hc). exists t0, l2, l1. split_and!; try done. by rewrite Permutation_app_comm. Qed.
Lemma two_queues_timers q1 q2 k x : two_queues q1 q2 k -> two_queues q1 q2 (set_timers x k).
Proof.
  intros (t0 & l1 & l2 & H0 & Hq1 & Hq2 & Hn & Hc). exists t0, l1, l2. split; [done|]. split; [by eapply queue_frame|]. split; [by eapply queue_frame|done].
Qed.
Lemma two_queues_counter q1 q2 k : two_queues q1 q2 k -> exists k', upd_cur (set_counter 0) k = Ok tt k' /\ timers k' = timers k /\ two_queues q1 q2 k'.
Proof.
  intros (t0 & l1 & l2 & H0 & Hq1 & Hq2 & Hn & [t Hc]). exists (set_heap (<[current k := set_counter 0 t]> (heap k)) k). split; [unfold upd_cur; rewrite (run_bind _ _ _ _ _ (eq_refl : gets current k = Ok (current k) k)); by apply upd_eq|]. split; [done|].
  assert (Hf : forall p, next_wait <$> heap (set_heap (<[current k := set_counter 0 t]> (heap k)) k) !! p = next_wait <$> heap k !! p).
  { intros p. cbn. destruct (decide (p = current k)) as [->|]; [rewrite lookup_insert_eq, Hc; by destruct t|by rewrite lookup_insert_ne]. }
  exists t0, l1, l2. split; [done|]. split; [eapply queue_frame; [exact Hq1|by intros p _]|]. split; [eapply queue_frame; [exact Hq2|by intros p _]|]. split; [done|]. cbn. rewrite lookup_insert_eq. by eexists.
Qed.

(** ** The loop of [con_write] *)

Section ConWriteOk.
Context `{TtyEnv} (cooked : Z -> M tts unit) (i j : Z).

(** Terminal [i] has [l], text without ESC, in its output queue [j], and its console is
    not within an escape sequence. *)
Record con_out (l : list Z) (s : tts) : Prop := {
  ct_cons : consoles_ok s;
  ct_index : console_index i s;
  ct_tty : exists t, aget (tty_table s) i = Some t /\ write_q t = Some j;
  ct_out : exists q, aget (tty_queues s) j = Some q /\ queue_ok q /\ content q = l;
  ct_text : Forall (fun c => in_u8 c /\ c <> 27) l;
  ct_state : forall w, aget (vc_cons s) i = Some w -> vc_state w = ESnormal;
  ct_timers : (2 <= length (timer_table (timers (kern s))))%nat
}.

(** What output leaves alone: the terminals and all other queues. *)
Definition beside (s s' : tts) : Prop := tty_table s' = tty_table s /\ cr_flag s' = cr_flag s /\ forall k, k <> j -> aget (tty_queues s') k = aget (tty_queues s) k.
Lemma beside_trans s1 s2 s3 : beside s1 s2 -> beside s2 s3 -> beside s1 s3.
Proof using. intros (A1 & A2 & A3) (B1 & B2 & B3). split; [congruence|]. split; [congruence|]. intros k Hk. by rewrite B3, A3. Qed.

Lemma timer_run n e f k : 0 <= n < 2 -> (2 <= length (timer_table (timers k)))%nat ->
  exists x, (timer_entry n e f;; timer_on n) k = Ok tt (set_timers x k) /\ (2 <= length (timer_table x))%nat.
Proof using.
  intros Hn Hl. unfold timer_entry, getS. destruct (aget_in_range (timer_table (timers k)) n) as [[e0 f0] He]; [lia|].
  unfold mbind, M_bind. rewrite He. cbn. rewrite aset_in_range by lia. cbn. eexists. split; [done|]. cbn. by rewrite length_insert.
Qed.

Lemma confined_index s s' : confined i s s' -> console_index i s -> console_index i s'.
Proof using. intros [_ Hl Hv _] [H1 H2]. split; [by rewrite Hl|]. by rewrite Hv. Qed.

Lemma confined_same s s' : vc_cons s' = vc_cons s -> glob s' = glob s -> confined i s s'.
Proof using.
  intros E1 E2. split; rewrite ?E1, ?E2; [done|done|apply vid_kept_refl|]. intros w Hw. by exists w.
Qed.

Lemma con_out_kern l s k : con_out l s -> (2 <= length (timer_table (timers k)))%nat -> con_out l (set_kern k s).
Proof using. intros [A1 A2 A3 A4 A5 A6 A7] Hk. by split. Qed.

(** The effects of text: at most a beep, which is the business of a timer. *)
Lemma beeps_ok es l s : es = [] \/ es = [Beep] -> con_out l s -> exists x, for_each es (perform cooked i) s = Ok tt (set_kern (set_timers x (kern s)) s) /\ (2 <= length (timer_table x))%nat.
Proof using.
  intros [-> | ->] Hs.
  - exists (timers (kern s)). split; [by destruct s as [[] ? ? ? ? ?]|apply (ct_timers _ _ Hs)].
  - destruct (timer_run BEEP_TIMER (u32 (jiffies (kern s) + HZ / 8)) (Some fn_sysbeepstop) (kern s)) as (x & Hk & Hl); [done|apply (ct_timers l s Hs)|]. exists x. split; [|done].
    cbn [for_each perform]. rewrite (run_bind _ _ _ tt (set_kern (set_timers x (kern s)) s)); [done|]. apply on_kern_run. unfold sysbeep. rewrite (run_bind _ _ _ (jiffies (kern s)) (kern s)) by done. exact Hk.
Qed.

(** One character: the console interprets it, and nothing else happens but a beep. *)
Lemma con_step_ok c l s w : con_out (c :: l) s -> (exists t, aget (tty_table s) i = Some t /\ t_stopped t = 0) -> aget (vc_cons s) i = Some w ->
  exists s' fgd es w' x, con_step cooked i tt s = Ok (inl tt) s' /\ con_out l s' /\ confined i s s' /\ beside s s' /\ kern s' = set_timers x (kern s) /\
    con_char fgd c (Cst (glob s) w) = Ok es (Cst (glob s') w') /\ aget (vc_cons s') i = Some w'.
Proof using.
  intros Hs (t & Ht & Hstop) Hcon. destruct (ct_tty _ s Hs) as (t' & Ht' & Hw). assert (t' = t) as -> by congruence.
  destruct (ct_out _ s Hs) as (q & Hq & Hqok & Hc). unfold con_step. rewrite (run_bind _ _ _ _ _ (tty_at_run i s t Ht)). rewrite Hw, Hstop.
  rewrite (run_bind _ _ _ _ _ (queue_at_run j s q Hq)).
  assert (He : EMPTY q = false) by (destruct (EMPTY q) eqn:E; [|done]; apply EMPTY_content in E; [|done]; by rewrite E in Hc). rewrite He. cbn [orb truth negb Z.eqb].
  destruct (getch_run j s q c l Hq Hqok Hc) as (q' & Hg & Hok' & Hc' & _). rewrite (run_bind _ _ _ _ _ Hg). set (s1 := put_queue j q' s).
  pose proof (ct_text _ s Hs) as Htext. apply Forall_cons in Htext as [[Hcb Hc27] Hlb].
  set (fgd := i =? fg_console (sysd (kern s1))). rewrite (run_bind (is_fg i) _ s1 fgd s1); [|done].
  destruct (on_con_char i c fgd s1 w) as (es & v & w' & Hrun & Echar & Hst & Hes & Hcons & Hconf); [done|done|apply (ct_cons _ _ Hs)|apply (ct_index _ _ Hs)|done|by apply (ct_state _ _ Hs)|].
  rewrite (run_bind _ _ _ _ _ Hrun). set (s2 := set_glob v (set_vc_cons _ s1)) in *. pose proof (proj1 (ct_index _ _ Hs)) as Hir.
  assert (Hw2 : aget (vc_cons s2) i = Some w') by (unfold s2; cbn [vc_cons set_glob set_vc_cons]; apply aget_insert_eq; exact Hir).
  assert (H2 : con_out l s2).
  { destruct Hs as [A1 A2 A3 A4 A5 A6 A7]. split; try done.
    - by apply (confined_index s1).
    - exists q'. split; [|done]. unfold s2, s1. cbn [tty_queues set_glob set_vc_cons]. by eapply put_queue_eq.
    - intros u Hu. congruence. }
  destruct (beeps_ok es l s2 Hes H2) as (x & Hb & Hx). rewrite (run_bind _ _ _ _ _ Hb). exists (set_kern (set_timers x (kern s2)) s2), fgd, es, w', x.
  split; [done|]. split; [by apply con_out_kern|]. split; [eapply confined_trans; [by apply (confined_same s s1)|]; eapply confined_trans; [exact Hconf|by apply confined_same]|].
  split; [split; [done|]; split; [done|]; intros k Hk; apply put_queue_ne; [apply aget_Some_range in Hq; lia|congruence]|]. done.
Qed.

(** The terminal takes output. *)
Definition running (s : tts) : Prop := forall t, aget (tty_table s) i = Some t -> t_stopped t = 0.

Lemma con_exit l s : con_out l s -> l = [] \/ ~ running s -> con_step cooked i tt s = Ok (inr tt) s.
Proof using.
  intros Hs Hx. destruct (ct_tty _ s Hs) as (t & Ht & Hw). destruct (ct_out _ s Hs) as (q & Hq & Hqok & Hc). unfold con_step. rewrite (run_bind _ _ _ _ _ (tty_at_run i s t Ht)). rewrite Hw, (run_bind _ _ _ _ _ (queue_at_run j s q Hq)).
  assert (E : EMPTY q || truth (t_stopped t) = true); [|by rewrite E]. destruct Hx as [->|Hx]; [by apply EMPTY_content in Hc as ->|].
  unfold truth. destruct (Z.eqb_spec (t_stopped t) 0) as [E|]; [|by rewrite orb_true_r]. exfalso. apply Hx. intros t' Ht'. congruence.
Qed.

Lemma con_loop_ok n : forall l s, con_out l s -> (length l < n)%nat -> exists l' s' x,
  iter n (con_step cooked i) tt s = Ok tt s' /\ con_out l' s' /\ confined i s s' /\ beside s s' /\ kern s' = set_timers x (kern s) /\ (l' = [] \/ ~ running s').
Proof using.
  induction n as [|n IH]; intros l s Hs Hn; [lia|]. cbn [iter]. destruct (ct_tty _ s Hs) as (t & Ht & Hw).
  assert (Hstay : l = [] \/ ~ running s -> exists l' s' x, (con_step cooked i tt ≫= fun r => match r with inl y => iter n (con_step cooked i) y | inr b => mret b end) s = Ok tt s' /\ con_out l' s' /\ confined i s s' /\ beside s s' /\ kern s' = set_timers x (kern s) /\ (l' = [] \/ ~ running s')).
  { intros Hx. rewrite (run_bind _ _ _ _ _ (con_exit l s Hs Hx)). exists l, s, (timers (kern s)). split; [done|]. split; [done|]. split; [apply confined_refl|]. split; [done|]. split; [by destruct (kern s)|done]. }
  destruct l as [|c l]; [apply Hstay; by left|]. destruct (decide (t_stopped t = 0)) as [Hstop|Hstop]; [|apply Hstay; right; intros Hrun; by apply Hstop, Hrun].
  destruct (aget_in_range _ _ (proj1 (ct_index _ _ Hs))) as [w Hcon]. destruct (con_step_ok c l s w Hs) as (s1 & fgd & es & w' & x1 & Hr1 & H1 & C1 & B1 & K1 & _); [by exists t|done|]. rewrite (run_bind _ _ _ _ _ Hr1).
  destruct (IH l s1 H1) as (l' & s' & x & Hr' & H' & C' & B' & K' & Hd); [cbn in Hn; lia|]. exists l', s', x. split; [done|]. split; [done|]. split; [by eapply confined_trans|]. split; [by eapply beside_trans|]. split; [by rewrite K', K1|done].
Qed.

(** *** What is shown *)





(** *** The end *)

Lemma restart_blanking_run l s : con_out l s -> exists x, restart_blanking s = Ok tt (set_kern (set_timers x (kern s)) s) /\ (2 <= length (timer_table x))%nat.
Proof using.
  intros Hs. unfold restart_blanking. rewrite (run_bind (gets glob) _ s (glob s) s) by done. rewrite (run_bind (gets _) _ s (jiffies (kern s)) s) by done.
  set (x0 := Tst (timer_list (timers (kern s))) (next_timer (timers (kern s))) (Z.ldiff (timer_active (timers (kern s))) (word_bit BLANK_TIMER)) (timer_table (timers (kern s)))).
  assert (H0 : (2 <= length (timer_table (timers (set_timers x0 (kern s)))))%nat) by apply (ct_timers _ _ Hs).
  assert (Hoff : timer_off BLANK_TIMER (kern s) = Ok tt (set_timers x0 (kern s))) by done.
  destruct (truth (console_blanked (glob s))); [|destruct (truth (blankinterval (glob s)))].
  - destruct (timer_run BLANK_TIMER 0 None _ ltac:(done) H0) as (x & Hk & Hl). exists x. split; [|done]. apply on_kern_run. by rewrite (run_bind _ _ _ _ _ Hoff).
  - destruct (timer_run BLANK_TIMER (u32 (jiffies (kern s) + blankinterval (glob s))) None _ ltac:(done) H0) as (x & Hk & Hl). exists x. split; [|done]. apply on_kern_run. by rewrite (run_bind _ _ _ _ _ Hoff).
  - exists x0. split; [|done]. apply on_kern_run. by rewrite (run_bind _ _ _ _ _ Hoff).
Qed.

(** [set_cursor] and the blanking timer, behind the loop. *)
Lemma con_end_run l s : con_out l s -> exists s' x, (fgd ← is_fg i; on_con i (set_cursor fgd);; restart_blanking) s = Ok tt s' /\ con_out l s' /\ confined i s s' /\ beside s s' /\ kern s' = set_timers x (kern s) /\
  vmem (glob s') = vmem (glob s) /\ vc_cons s' = vc_cons s.
Proof using.
  intros Hs. set (fgd := i =? fg_console (sysd (kern s))). rewrite (run_bind (is_fg i) _ s fgd s); [|done]. destruct (aget_in_range _ _ (proj1 (ct_index _ _ Hs))) as [w Hcon].
  assert (Hcur : exists g, on_con i (set_cursor fgd) s = Ok tt (set_glob g s) /\ vmem g = vmem (glob s)).
  { assert (Hsc : exists g, set_cursor fgd (Cst (glob s) w) = Ok tt (Cst g w) /\ vmem g = vmem (glob s)) by (unfold set_cursor; rewrite run_vget; unfold id; destruct fgd; by eexists).
    destruct Hsc as (g & Hsc & Hg). exists g. split; [|done]. unfold on_con. rewrite Hcon, Hsc. cbn [vid vc]. rewrite list_insert_id by (unfold aget in Hcon; by destruct (i <? 0)). by destruct s. }
  destruct Hcur as (g & Hrun & Hg). destruct (on_con_run i (set_cursor fgd) s) as (u & g' & lc & Hrun' & Hcons & Hconf); [apply set_cursor_safe|apply (ct_cons _ _ Hs)|apply (ct_index _ _ Hs)|].
  rewrite (run_bind _ _ _ _ _ Hrun). set (s2 := set_glob g s) in *. cbv zeta in Hcons, Hconf. rewrite Hrun in Hrun'. injection Hrun' as _ <- <-. assert (Es2 : set_glob g (set_vc_cons (vc_cons s) s) = s2) by done. rewrite Es2 in Hcons, Hconf.
  assert (H2 : con_out l s2). { destruct Hs as [A1 A2 A3 A4 A5 A6 A7]. split; try done. by apply (confined_index s). }
  destruct (restart_blanking_run l s2 H2) as (x & Hr3 & Hx). exists (set_kern (set_timers x (kern s2)) s2), x. rewrite Hr3. split; [done|]. split; [by apply con_out_kern|]. split; [eapply confined_trans; [exact Hconf|by apply confined_same]|]. by split.
Qed.

Lemma con_write_start patience l s k' : con_out l s -> i < MAX_CONSOLES -> wake_up (proc_list j) (kern s) = Ok tt k' ->
  con_write patience cooked i s = (iter patience (con_step cooked i) tt;; fgd ← is_fg i; on_con i (set_cursor fgd);; restart_blanking) (set_kern k' s).
Proof using.
  intros Hs Hi Hk. unfold con_write. destruct (ct_tty _ s Hs) as (t & Ht & Hw). rewrite (run_bind _ _ _ _ _ (tty_at_run i s t Ht)). rewrite Hw.
  rewrite (run_bind (wake_queue (Some j)) _ s tt (set_kern k' s)) by (unfold wake_queue; rewrite (run_bind _ _ s j s) by done; by apply on_kern_run). by destruct (Z.leb_spec MAX_CONSOLES i); [lia|].
Qed.

Lemma con_write_run patience l s k' : con_out l s -> i < MAX_CONSOLES -> wake_up (proc_list j) (kern s) = Ok tt k' -> timers k' = timers (kern s) -> (length l < patience)%nat ->
  exists l' s' x, con_write patience cooked i s = Ok tt s' /\ con_out l' s' /\ confined i s s' /\ beside s s' /\ kern s' = set_timers x k' /\ (l' = [] \/ ~ running s').
Proof using.
  intros Hs Hi Hk Htm Hn. rewrite (con_write_start patience l s k' Hs Hi Hk). assert (H0 : con_out l (set_kern k' s)) by (apply con_out_kern; [done|rewrite Htm; apply (ct_timers _ _ Hs)]).
  destruct (con_loop_ok patience l _ H0 Hn) as (l1 & s1 & x1 & Hr1 & H1 & C1 & B1 & K1 & Hd). rewrite (run_bind _ _ _ _ _ Hr1). destruct (con_end_run l1 s1 H1) as (s2 & x2 & Hr2 & H2 & C2 & B2 & K2 & _ & _).
  exists l1, s2, x2. split; [done|]. split; [done|]. split; [eapply confined_trans; [by apply (confined_same s (set_kern k' s))|]; by eapply confined_trans|]. split; [by eapply (beside_trans (set_kern k' s) s1 s2)|]. split; [by rewrite K2, K1|].
  destruct Hd as [->|Hd]; [by left|]. right. intros Hrun. apply Hd. intros t Ht. apply Hrun. by rewrite (proj1 B2).
Qed.

End ConWriteOk.

(** ** The line discipline as a line editor *)

(** What the special characters do to the line, which is given backwards. *)
Definition rub (t : tty_struct) (l : list Z) : list Z := match l with c :: l' => if line_end t c then l else l' | [] => [] end.
Fixpoint kill (t : tty_struct) (l : list Z) : list Z := match l with c :: l' => if line_end t c then l else kill t l' | [] => [] end.

Definition edit (t : tty_struct) (l : list Z) (c : Z) : list Z :=
  match input_char t c with
  | Some (Some c) =>
      match classify t c with
      | Kill => kill t l
      | Erase => rub t l
      | Plain => c :: l
      | _ => l
      end
  | _ => l
  end.

(** Typed characters are taken as long as there is room for the lines. *)
Fixpoint cook (t : tty_struct) (l : list Z) (typed : list Z) : list Z * list Z :=
  match typed with
  | [] => (l, [])
  | c :: typed' => if decide (Z.of_nat (length l) = TTY_BUF_SIZE - 1) then (l, typed) else cook t (edit t l c) typed'
  end.

(** The number of complete lines. *)
Definition count_lines (t : tty_struct) (l : list Z) : Z := Z.of_nat (length (filter (fun c => line_end t c = true) l)).

(** A character that can be typed without asking for more than editing: no signal, no
    upper-case character the table of [tolower] does not have, and no ESC on the screen. *)
Definition typeable (t : tty_struct) (c : Z) : bool :=
  match input_char t c with
  | None => false
  | Some None => true
  | Some (Some c') =>
      match classify t c' with Signal _ | Suspend => false | Plain => bool_decide (27 ∉ echo_chars t c') | _ => true end
  end.

Section Discipline.
Context `{TtyEnv} (patience depth : nat) (i r j d : Z) (t : tty_struct).
Context (Hptr : r <> j /\ r <> d /\ j <> d) (Hi : i < MAX_CONSOLES) (Hpat : (1024 <= patience)%nat).
Notation write := (tty_out patience (S depth)).

(** Terminal [i], a console with the modes of [t], holds [typed] in its input queue and
    the lines [l] (backwards) in [secondary], [dt] of them complete. *)
Record lines_tty (dt : Z) (typed l : list Z) (s : tts) : Prop := {
  lt_out : exists out, con_out i j out s;
  lt_tty : exists t', aget (tty_table s) i = Some t' /\ t_termios t' = t_termios t /\ t_write t' = Some Wcon /\
    read_q t' = Some r /\ write_q t' = Some j /\ secondary t' = Some d;
  lt_read : exists q, aget (tty_queues s) r = Some q /\ queue_ok q /\ content q = typed;
  lt_lines : exists q, aget (tty_queues s) d = Some q /\ queue_ok q /\ content q = reverse l /\ q_data q = dt;
  lt_wait : two_queues (proc_list d) (proc_list j) (kern s)
}.
Definition line_tty (typed l : list Z) (s : tts) : Prop := lines_tty (count_lines t l) typed l s.

Lemma proc_list_ne : proc_list d <> proc_list j.
Proof using Hptr. clear Hpat Hi. unfold proc_list. lia. Qed.

Lemma lt_write dt typed l s : lines_tty dt typed l s -> exists q, aget (tty_queues s) j = Some q /\ queue_ok q.
Proof using. intros Hs. destruct (lt_out _ _ _ _ Hs) as [out Ho]. destruct (ct_out _ _ _ _ Ho) as (q & Hq & Hok & _). by exists q. Qed.

(** The console shows what there is to show. *)
Lemma write_run dt typed l s : lines_tty dt typed l s -> exists s', write i s = Ok tt s' /\ lines_tty dt typed l s'.
Proof using Hptr Hi Hpat.
  intros [[out Ho] (t1 & Ht & E1 & E2 & E3 & E4 & E5) (qr & B1 & B2) (qd & D1 & D2) Hw]. cbn [tty_out]. rewrite (run_bind _ _ _ _ _ (tty_at_run i s t1 Ht)), E2.
  destruct (wake_up_two _ _ _ proc_list_ne Hw) as (k' & Hk & Htm & Hw'). destruct (ct_out _ _ _ _ Ho) as (q & _ & Hq & Hqc). pose proof (length_content q) as Hlen. pose proof (q_count_range q). rewrite Hqc in Hlen.
  destruct (con_write_run (copy_to_cooked patience (tty_out patience depth)) i j patience out s k' Ho Hi Hk Htm) as (out' & s' & x & Hr & Ho' & _ & (Bt & _ & Bq) & Kx & _); [unfold TTY_BUF_SIZE in *; lia|].
  destruct Hptr as (P1 & P2 & P3). exists s'. split; [done|]. split; [by exists out'|exists t1; by rewrite Bt|exists qr; by rewrite Bq|exists qd; by rewrite Bq by congruence|rewrite Kx; by apply two_queues_timers].
Qed.

Lemma flags_same t' : t_termios t' = t_termios t ->
  (forall c, input_char t' c = input_char t c) /\ (forall c, classify t' c = classify t c) /\ (forall c, line_end t' c = line_end t c) /\
  (forall f, L_FLAG t' f = L_FLAG t f).
Proof using.
  intros E. assert (EI : forall f, I_FLAG t' f = I_FLAG t f) by (intros; unfold I_FLAG; by rewrite E).
  assert (EL : forall f, L_FLAG t' f = L_FLAG t f) by (intros; unfold L_FLAG; by rewrite E).
  assert (EC : forall n c, is_char t' n c = is_char t n c) by (intros; unfold is_char, CC; by rewrite E). split_and!.
  - intros c. unfold input_char. by rewrite !EI.
  - intros c. unfold classify. by rewrite !EI, !EL, !EC.
  - intros c. unfold line_end. by rewrite EC.
  - done.
Qed.

Lemma upd_tty dt typed l s t1 f : lines_tty dt typed l s -> aget (tty_table s) i = Some t1 ->
  t_termios (f t1) = t_termios t1 -> t_write (f t1) = t_write t1 -> read_q (f t1) = read_q t1 -> write_q (f t1) = write_q t1 -> secondary (f t1) = secondary t1 ->
  exists s', tty_upd i f s = Ok tt s' /\ lines_tty dt typed l s'.
Proof using.
  intros Hs Ht1 E1 E2 E3 E4 E5. rewrite (tty_upd_run i f s t1 Ht1). eexists. split; [done|].
  destruct Hs as [[out [O1 O2 O3 O4 O5 O6 O7]] (t' & Ht & A2 & A3 & A4 & A5 & A6) B D E]. assert (t' = t1) as -> by congruence.
  assert (Hg : aget (tty_table (set_tty_table (<[Z.to_nat i := f t1]> (tty_table s)) s)) i = Some (f t1)) by (cbn; apply aget_insert_eq; by apply aget_Some_range in Ht1).
  split; try done; [exists out; split; try done|]; exists (f t1); rewrite ?E1, ?E2, ?E3, ?E4, ?E5; by split_and!.
Qed.

(** A queue that is not the output queue. *)
Lemma con_out_beside out s k q : k <> j -> 0 <= k -> con_out i j out s -> con_out i j out (put_queue k q s).
Proof using. intros Hk H0 [O1 O2 O3 (qo & Q1 & Q2) O5 O6 O7]. split; try done. exists qo. by rewrite put_queue_ne. Qed.

Lemma put_out dt typed l s c : lines_tty dt typed l s -> u8 c <> 27 -> exists s', putch c (Some j) s = Ok tt s' /\ lines_tty dt typed l s'.
Proof using Hptr.
  clear Hpat Hi. intros [[out Ho] A (qr & B1 & B2) (qd & D1 & D2) E] Hc. destruct (ct_out _ _ _ _ Ho) as (q & Hq & Hok & Hcq). destruct (putch_run c j s q Hq Hok) as (q' & Hp & Hr & Hok' & _). exists (put_queue j q' s). split; [done|].
  pose proof (aget_Some_range _ _ _ Hq). destruct Hptr as (P1 & P2 & P3). assert (Htext : Forall (fun c => in_u8 c /\ c <> 27) (content q')).
  { destruct (FULL q) eqn:Ef; [rewrite (PUTCH_full c q q' Hok Ef Hp); constructor|]. destruct (PUTCH_content c q Hok) as (q2 & Hp2 & _ & Hc2 & _); [by apply FULL_content|]. assert (q2 = q') as -> by congruence. rewrite Hc2, Hcq. apply Forall_app. split; [apply (ct_text _ _ _ _ Ho)|]. repeat constructor; [apply u8_range..|done]. }
  split; try done.
  - exists (content q'). destruct Ho as [O1 O2 O3 O4 O5 O6 O7]. split; try done. exists q'. split; [by eapply put_queue_eq|done].
  - exists qr. split; [|done]. rewrite put_queue_ne; [done|lia|congruence].
  - exists qd. split; [|done]. rewrite put_queue_ne; [done|lia|congruence].
Qed.

Lemma put_lines dt typed l l' s q q' : lines_tty dt typed l s -> aget (tty_queues s) d = Some q -> queue_ok q' -> content q' = reverse l' ->
  lines_tty (q_data q') typed l' (put_queue d q' s).
Proof using Hptr.
  clear Hpat Hi. intros [[out Ho] A (qr & B1 & B2) D E] Hq Hok Hc. pose proof (aget_Some_range _ _ _ Hq). destruct Hptr as (P1 & P2 & P3). split; try done.
  - exists out. apply con_out_beside; [congruence|lia|done].
  - exists qr. split; [|done]. rewrite put_queue_ne; [done|lia|congruence].
  - exists q'. split; [|done]. by eapply put_queue_eq.
Qed.

Lemma flush_run dt typed l s : lines_tty dt typed l s -> exists s', TTY_WRITE_FLUSH write i s = Ok tt s' /\ lines_tty dt typed l s'.
Proof using Hptr Hi Hpat.
  intros Hs. unfold TTY_WRITE_FLUSH. destruct (lt_tty _ _ _ _ Hs) as (t1 & Ht & E1 & E2 & E3 & E4 & E5). rewrite (run_bind _ _ _ _ _ (tty_at_run i s t1 Ht)). rewrite E4.
  destruct (lt_write _ _ _ _ Hs) as (q & Hq & Hqok). rewrite (run_bind _ _ _ _ _ (queue_at_run j s q Hq)). destruct (_ || _); [by exists s|].
  destruct (upd_tty dt typed l s t1 (fun t => set_t_busy (Z.lor (t_busy t) TTY_WRITE_BUSY) t)) as (s1 & Hr1 & H1); [done..|]. rewrite (run_bind _ _ _ _ _ Hr1).
  destruct (write_run dt typed l s1 H1) as (s2 & Hr2 & H2). rewrite (run_bind _ _ _ _ _ Hr2).
  destruct (lt_tty _ _ _ _ H2) as (t2 & Ht2 & _). destruct (upd_tty dt typed l s2 t2 (fun t => set_t_busy (Z.ldiff (t_busy t) TTY_WRITE_BUSY) t)) as (s3 & Hr3 & H3); [done..|].
  exists s3. by rewrite Hr3.
Qed.

Lemma echo_run dt typed l cs : forall s, Forall (fun c => u8 c <> 27) cs -> lines_tty dt typed l s -> exists s', for_each cs (fun e => putch e (Some j)) s = Ok tt s' /\ lines_tty dt typed l s'.
Proof using Hptr.
  induction cs as [|c cs IH]; intros s Hc Hs; cbn [for_each]; [by exists s|]. apply Forall_cons in Hc as [Hc Hcs]. destruct (put_out dt typed l s c Hs Hc) as (s1 & Hr & H1). rewrite (run_bind _ _ _ _ _ Hr). by apply IH.
Qed.

Lemma count_cons c l : count_lines t (c :: l) = (if line_end t c then 1 else 0) + count_lines t l.
Proof using.
  clear Hptr Hpat Hi. unfold count_lines. rewrite filter_cons. destruct (line_end t c); [rewrite decide_True by done|rewrite decide_False by done]; cbn [length]; lia.
Qed.

(** Rubbing out: [t1] is the terminal as the code reads it. *)
Lemma erasable_run typed l s t1 q : line_tty typed l s -> t_termios t1 = t_termios t -> aget (tty_queues s) d = Some q -> queue_ok q -> content q = reverse l ->
  erasable t1 q s = Ok (match l with c :: _ => if line_end t c then None else Some c | [] => None end) s.
Proof using.
  intros Hs E1 Hq Hok Hc. unfold erasable. destruct l as [|c l].
  - by apply EMPTY_content in Hc as ->.
  - assert (He : EMPTY q = false).
    { destruct (EMPTY q) eqn:E; [|done]. apply EMPTY_content in E; [|done]. rewrite E, reverse_cons in Hc. by destruct (reverse l). }
    rewrite He. rewrite reverse_cons in Hc. destruct (LAST_content q (reverse l) c Hok Hc) as (Hl & _). rewrite Hl. rewrite (run_bind _ _ s c s) by done.
    change ((c =? 10) || is_char t1 VEOF c) with (line_end t1 c). destruct (flags_same t1 E1) as (_ & _ & -> & _). by destruct (line_end t c).
Qed.

Lemma rub_out_run typed l c s t1 : line_tty typed (c :: l) s -> aget (tty_table s) i = Some t1 -> line_end t c = false ->
  exists s', rub_out write i t1 c s = Ok tt s' /\ line_tty typed l s'.
Proof using Hptr Hi Hpat.
  intros Hs Ht1 Hend. destruct (lt_tty _ _ _ _ Hs) as (t' & Ht & E1 & E2 & E3 & E4 & E5). assert (t' = t1) as -> by congruence.
  unfold rub_out. rewrite E4, E5.
  assert (Hecho : exists s1, (if L_FLAG t1 ECHO then when (c <? 32) (putch 127 (Some j));; putch 127 (Some j);; TTY_WRITE_FLUSH write i else mret tt) s = Ok tt s1 /\ line_tty typed (c :: l) s1).
  { destruct (L_FLAG t1 ECHO); [|by exists s].
    assert (H1 : exists s1, when (c <? 32) (putch 127 (Some j)) s = Ok tt s1 /\ line_tty typed (c :: l) s1) by (destruct (c <? 32); [by apply put_out|by exists s]).
    destruct H1 as (s1 & Hr1 & H1). rewrite (run_bind _ _ _ _ _ Hr1). destruct (put_out _ _ _ s1 127 H1) as (s2 & Hr2 & H2); [done|]. rewrite (run_bind _ _ _ _ _ Hr2). by apply flush_run. }
  destruct Hecho as (s1 & Hr1 & H1). rewrite (run_bind _ _ _ _ _ Hr1). destruct (lt_lines _ _ _ _ H1) as (q & Hq & Hqok & Hc & Hd).
  rewrite (run_bind _ _ _ _ _ (queue_at_run d s1 q Hq)). rewrite (queue_put_run d s1 q _ Hq). eexists. split; [done|].
  rewrite reverse_cons in Hc. destruct (LAST_content q (reverse l) c Hqok Hc) as (_ & Hok' & Hc'). unfold line_tty. replace (count_lines t l) with (q_data (set_q_head (DEC (q_head q)) q)) by (cbn; rewrite Hd, count_cons, Hend; lia).
  by eapply put_lines.
Qed.

Lemma kill_step_run typed l s : line_tty typed l s ->
  exists s', kill_step write i tt s = Ok (match l with c :: l' => if line_end t c then inr tt else inl tt | [] => inr tt end) s' /\
    line_tty typed (match l with c :: l' => if line_end t c then l else l' | [] => [] end) s'.
Proof using Hptr Hi Hpat.
  intros Hs. destruct (lt_tty _ _ _ _ Hs) as (t1 & Ht & E1 & E2 & E3 & E4 & E5). destruct (lt_lines _ _ _ _ Hs) as (q & Hq & Hqok & Hc & Hd).
  unfold kill_step. rewrite (run_bind _ _ _ _ _ (tty_at_run i s t1 Ht)). rewrite E5, (run_bind _ _ _ _ _ (queue_at_run d s q Hq)).
  rewrite (run_bind _ _ _ _ _ (erasable_run typed l s t1 q Hs E1 Hq Hqok Hc)). destruct l as [|c l]; [by exists s|]. destruct (line_end t c) eqn:Ee; [by exists s|].
  destruct (rub_out_run typed l c s t1 Hs Ht Ee) as (s' & Hr & H'). rewrite (run_bind _ _ _ _ _ Hr). by exists s'.
Qed.

Lemma kill_run typed n : forall l s, line_tty typed l s -> (length l < n)%nat ->
  exists s', iter n (kill_step write i) tt s = Ok tt s' /\ line_tty typed (kill t l) s'.
Proof using Hptr Hi Hpat.
  induction n as [|n IH]; intros l s Hs Hn; [lia|]. cbn [iter]. destruct (kill_step_run typed l s Hs) as (s1 & Hr & H1). rewrite (run_bind _ _ _ _ _ Hr).
  destruct l as [|c l]; [by exists s1|]. cbn [kill]. destruct (line_end t c); [by exists s1|]. apply IH; [done|cbn in Hn; lia].
Qed.

Lemma content_bytes q : queue_ok q -> Forall in_u8 (content q).
Proof using.
  intros Hq. apply Forall_forall. intros x Hx. apply list_elem_of_fmap in Hx as (n & -> & _). pose proof (q_at_ok q n Hq) as Hn. unfold aget in Hn.
  destruct (ring n <? 0); [done|]. by eapply (Forall_lookup_1 _ _ _ _ (qo_bytes q Hq)) in Hn.
Qed.

Lemma input_char_byte c c' : in_u8 c -> input_char t c = Some (Some c') -> in_u8 c'.
Proof using.
  clear Hptr Hpat Hi. intros Hc. unfold input_char. set (c1 := if I_FLAG t ISTRIP then _ else _).
  assert (H1 : in_u8 c1).
  { unfold c1. destruct (I_FLAG t ISTRIP); [|done]. change 0x7f with (Z.ones 7). rewrite Z.land_ones by lia. pose proof (Z.mod_pos_bound c (2 ^ 7) ltac:(lia)). unfold in_u8. lia. }
  destruct (_ && _); [done|]. set (c2 := if c1 =? 13 then _ else _). assert (H2 : in_u8 c2) by (unfold c2, in_u8 in *; repeat match goal with |- context [if ?b then _ else _] => destruct b end; lia).
  destruct (I_FLAG t IUCLC); [|by intros [= <-]]. destruct (tolower c2); [|done]. intros [= <-]. apply u8_range.
Qed.

Lemma echo_text c : in_u8 c -> 27 ∉ echo_chars t c -> Forall (fun e => u8 e <> 27) (echo_chars t c).
Proof using.
  clear Hptr Hpat Hi. intros Hc Hn. apply Forall_forall. intros e He. rewrite u8_small; [by intros ->|]. unfold echo_chars, in_u8 in *. destruct ((_ || _) && _); [by apply elem_of_cons in He as [-> |[-> |?%elem_of_nil]%elem_of_cons]|].
  destruct (L_FLAG t ECHO); [|by apply elem_of_nil in He]. destruct ((c <? 32) && _) eqn:E.
  - apply andb_true_iff in E as [E%Z.ltb_lt _]. apply elem_of_cons in He as [-> |[-> |?%elem_of_nil]%elem_of_cons]; [done|lia|done].
  - by apply elem_of_cons in He as [-> |?%elem_of_nil].
Qed.
Lemma echo_same t1 c : t_termios t1 = t_termios t -> echo_chars t1 c = echo_chars t c.
Proof using. intros E. destruct (flags_same t1 E) as (_ & _ & _ & EL). unfold echo_chars. by rewrite !EL. Qed.

Lemma count_small l : (length l <= 1023)%nat -> 0 <= count_lines t l < 1024.
Proof using. clear Hptr Hpat Hi. intros Hl. unfold count_lines. pose proof (length_filter (fun c => line_end t c = true) l). lia. Qed.

Lemma lines_length dt typed l s : lines_tty dt typed l s -> (length l <= 1023)%nat.
Proof using.
  clear Hptr Hpat Hi. intros Hs. destruct (lt_lines _ _ _ _ Hs) as (q & _ & Hok & Hc & _). pose proof (length_content q) as Hl. pose proof (q_count_range q).
  rewrite Hc, length_reverse in Hl. unfold TTY_BUF_SIZE in *. lia.
Qed.

Lemma plain_char_run typed l c s t1 : line_tty typed l s -> aget (tty_table s) i = Some t1 -> in_u8 c -> 27 ∉ echo_chars t c -> (length l < 1023)%nat ->
  exists s', plain_char write i t1 c s = Ok tt s' /\ line_tty typed (c :: l) s'.
Proof using Hptr Hi Hpat.
  intros Hs Ht1 Hc Hesc Hroom. destruct (lt_tty _ _ _ _ Hs) as (t' & Ht & E1 & E2 & E3 & E4 & E5). assert (t' = t1) as -> by congruence.
  unfold plain_char. rewrite E4, E5. destruct (flags_same t1 E1) as (_ & _ & -> & _).
  assert (H1 : exists s1, (if line_end t c then q ← queue_at (Some d); queue_put (Some d) (set_q_data (u32 (q_data q + 1)) q) else mret tt) s = Ok tt s1 /\
    lines_tty (count_lines t (c :: l)) typed l s1).
  { rewrite count_cons. destruct (line_end t c); [|by exists s]. destruct (lt_lines _ _ _ _ Hs) as (q & Hq & Hqok & Hcq & Hd).
    rewrite (run_bind _ _ _ _ _ (queue_at_run d s q Hq)), (queue_put_run d s q _ Hq). eexists. split; [done|].
    replace (1 + count_lines t l) with (q_data (set_q_data (u32 (q_data q + 1)) q)); [eapply put_lines; [exact Hs|exact Hq|by destruct Hqok|done]|].
    cbn. rewrite Hd. pose proof (count_small l ltac:(lia)). rewrite u32_small by (unfold in_u32; lia). lia. }
  destruct H1 as (s1 & Hr1 & H1). rewrite (run_bind _ _ _ _ _ Hr1). rewrite (echo_same t1 c E1). destruct (echo_run _ typed l (echo_chars t c) s1 (echo_text c Hc Hesc) H1) as (s2 & Hr2 & H2).
  rewrite (run_bind _ _ _ _ _ Hr2). destruct (lt_lines _ _ _ _ H2) as (q & Hq & Hqok & Hcq & Hd). destruct (putch_run c d s2 q Hq Hqok) as (q' & Hp & Hrun & Hok & Hdq).
  rewrite (run_bind _ _ _ _ _ Hrun). apply flush_run. unfold line_tty. rewrite <-Hd, <-Hdq. eapply put_lines; [exact H2|exact Hq|done|].
  destruct (PUTCH_content c q Hqok) as (q2 & Hp2 & _ & Hc2 & _); [rewrite Hcq, length_reverse; unfold TTY_BUF_SIZE; lia|].
  assert (q2 = q') as -> by congruence. rewrite Hc2, Hcq, reverse_cons, u8_small by done. done.
Qed.

Lemma take_typed dt typed l s q q' : lines_tty dt typed l s -> aget (tty_queues s) r = Some q -> queue_ok q' -> lines_tty dt (content q') l (put_queue r q' s).
Proof using Hptr.
  clear Hpat Hi. intros [[out Ho] A B (qd & D1 & D2) E] Hq Hok. pose proof (aget_Some_range _ _ _ Hq). destruct Hptr as (P1 & P2 & P3). split; try done.
  - exists out. apply con_out_beside; [congruence|lia|done].
  - exists q'. split; [|done]. by eapply put_queue_eq.
  - exists qd. split; [|done]. rewrite put_queue_ne; [done|lia|congruence].
Qed.

Lemma cook_step_run c typed l s : typeable t c = true -> line_tty (c :: typed) l s -> (length l < 1023)%nat ->
  exists s', cook_step write i tt s = Ok (inl tt) s' /\ line_tty typed (edit t l c) s'.
Proof using Hptr Hi Hpat.
  intros Htype Hs Hroom. destruct (lt_tty _ _ _ _ Hs) as (t1 & Ht & E1 & E2 & E3 & E4 & E5). destruct (lt_read _ _ _ _ Hs) as (rq & Hrq & Hrok & Hrc).
  destruct (lt_lines _ _ _ _ Hs) as (sq & Hsq & Hsok & Hsc & Hsd). destruct (flags_same t1 E1) as (F1 & F2 & F3 & F4).
  unfold cook_step. rewrite (run_bind _ _ _ _ _ (tty_at_run i s t1 Ht)). rewrite E3, E5.
  rewrite (run_bind _ _ _ _ _ (queue_at_run r s rq Hrq)), (run_bind _ _ _ _ _ (queue_at_run d s sq Hsq)).
  assert (He : EMPTY rq = false) by (destruct (EMPTY rq) eqn:E; [|done]; apply EMPTY_content in E; [|done]; by rewrite E in Hrc). rewrite He.
  assert (Hf : FULL sq = false) by (apply FULL_content; [done|]; rewrite Hsc, length_reverse; unfold TTY_BUF_SIZE; lia). rewrite Hf.
  destruct (getch_run r s rq c typed Hrq Hrok Hrc) as (rq' & Hg & Hok' & Hc' & _). rewrite (run_bind _ _ _ _ _ Hg). set (s1 := put_queue r rq' s).
  assert (H1 : line_tty typed l s1) by (rewrite <-Hc'; by eapply take_typed). rewrite F1. unfold edit, typeable in *.
  assert (Hcb : in_u8 c) by (pose proof (content_bytes rq Hrok) as Hb; rewrite Hrc in Hb; by apply Forall_cons in Hb as [? _]). pose proof (input_char_byte c) as Hbyte.
  destruct (input_char t c) as [o|]; [|done]. rewrite (run_bind _ _ s1 o s1) by done. destruct o as [c1|]; [|by exists s1].
  specialize (Hbyte c1 Hcb eq_refl). rewrite F2. assert (Ht1 : aget (tty_table s1) i = Some t1) by exact Ht.
  assert (Hbody : forall (m : M tts unit) l', (exists s2, m s1 = Ok tt s2 /\ line_tty typed l' s2) -> exists s', (m;; mret (inl tt)) s1 = Ok (@inl unit unit tt) s' /\ line_tty typed l' s').
  { intros m l' (s2 & Hr2 & H2). rewrite (run_bind _ _ _ _ _ Hr2). by exists s2. }
  destruct (classify t c1) eqn:Ec; apply Hbody; try done.
  - apply kill_run; [done|]. unfold TTY_BUF_SIZE. lia.
  - destruct (lt_lines _ _ _ _ H1) as (q & Hq & Hqok & Hcq & _). rewrite (run_bind _ _ _ _ _ (queue_at_run d s1 q Hq)).
    rewrite (run_bind _ _ _ _ _ (erasable_run typed l s1 t1 q H1 E1 Hq Hqok Hcq)). destruct l as [|cl l]; cbn [rub]; [by exists s1|].
    destruct (line_end t cl) eqn:El; [by exists s1|]. by apply rub_out_run.
  - by apply (upd_tty _ typed l s1 t1).
  - destruct (upd_tty _ typed l s1 t1 (set_t_stopped 0) H1) as (s2 & Hr2 & H2); [done..|]. rewrite (run_bind _ _ _ _ _ Hr2). by apply flush_run.
  - apply bool_decide_eq_true in Htype. by apply plain_char_run.
Qed.

(** The loop ends when nothing is typed, or when there is no room: then a task that waits
    for the lines is let run. *)
Lemma cook_exit typed l s : line_tty typed l s -> typed = [] \/ Z.of_nat (length l) = TTY_BUF_SIZE - 1 -> exists s', cook_step write i tt s = Ok (inr tt) s' /\ line_tty typed l s'.
Proof using.
  clear Hpat Hi Hptr. intros Hs Hx. destruct (lt_tty _ _ _ _ Hs) as (t1 & Ht & E1 & E2 & E3 & E4 & E5). destruct (lt_read _ _ _ _ Hs) as (rq & Hrq & Hrok & Hrc).
  destruct (lt_lines _ _ _ _ Hs) as (sq & Hsq & Hsok & Hsc & Hsd). unfold cook_step. rewrite (run_bind _ _ _ _ _ (tty_at_run i s t1 Ht)). rewrite E3, E5.
  rewrite (run_bind _ _ _ _ _ (queue_at_run r s rq Hrq)), (run_bind _ _ _ _ _ (queue_at_run d s sq Hsq)).
  destruct (EMPTY rq) eqn:Ee; [by exists s|]. destruct Hx as [->|Hfull]; [apply EMPTY_content in Hrc; [congruence|done]|].
  assert (Hf : FULL sq = true).
  { destruct (FULL sq) eqn:E; [done|]. apply FULL_content in E; [|done]. rewrite Hsc, length_reverse in E. lia. }
  rewrite Hf. rewrite (run_bind _ _ s d s) by done.
  assert (Hk : exists k', (k ← getS; match wq k !! proc_list d with Some p => if bool_decide (p = current k) then mret tt else upd_cur (set_counter 0) | None => mret tt end) (kern s) = Ok tt k' /\ timers k' = timers (kern s) /\ two_queues (proc_list d) (proc_list j) k').
  { pose proof (lt_wait _ _ _ _ Hs) as Hw. rewrite (run_bind getS _ _ (kern s) (kern s)) by done. destruct (wq (kern s) !! proc_list d) as [p|]; [|by exists (kern s)]. destruct (bool_decide (p = current (kern s))); [by exists (kern s)|by apply two_queues_counter]. }
  destruct Hk as (k' & Hk & Htm & Hw). rewrite (run_bind _ _ s tt (set_kern k' s)) by (by apply on_kern_run). exists (set_kern k' s). split; [done|].
  destruct Hs as [[out Ho] A B D _]. split; try done. exists out. apply con_out_kern; [done|]. rewrite Htm. apply (ct_timers _ _ _ _ Ho).
Qed.

Lemma cook_loop n : forall typed l s, Forall (fun c => typeable t c = true) typed -> line_tty typed l s -> (length typed < n)%nat ->
  exists s', iter n (cook_step write i) tt s = Ok tt s' /\ line_tty (cook t l typed).2 (cook t l typed).1 s'.
Proof using Hptr Hi Hpat.
  induction n as [|n IH]; intros typed l s Htype Hs Hn; [lia|]. cbn [iter]. destruct typed as [|c typed]; cbn [cook].
  - destruct (cook_exit [] l s Hs (or_introl eq_refl)) as (s1 & Hr & H1). rewrite (run_bind _ _ _ _ _ Hr). by exists s1.
  - apply Forall_cons in Htype as [Hc Htype]. destruct (decide (Z.of_nat (length l) = TTY_BUF_SIZE - 1)) as [Hf|Hroom].
    + destruct (cook_exit _ l s Hs (or_intror Hf)) as (s1 & Hr & H1). rewrite (run_bind _ _ _ _ _ Hr). by exists s1.
    + pose proof (lines_length _ _ _ _ Hs) as Hl. destruct (cook_step_run c typed l s Hc Hs) as (s1 & Hr & H1); [unfold TTY_BUF_SIZE in Hroom; lia|].
      rewrite (run_bind _ _ _ _ _ Hr). apply IH; [done|done|cbn in Hn; lia].
Qed.

Lemma wake_run dt typed l s q : lines_tty dt typed l s -> q = d \/ q = j -> exists s', wake_queue (Some q) s = Ok tt s' /\ lines_tty dt typed l s'.
Proof using Hptr.
  intros Hs Hq. assert (Hk : exists k', wake_up (proc_list q) (kern s) = Ok tt k' /\ timers k' = timers (kern s) /\ two_queues (proc_list d) (proc_list j) k').
  { pose proof (lt_wait _ _ _ _ Hs) as Hw. destruct Hq as [->| ->].
    - destruct (wake_up_two (proc_list j) (proc_list d) (kern s)) as (k' & Hk & Htm & Hw'); [apply not_eq_sym, proc_list_ne|by apply two_queues_comm|]. exists k'. split; [done|]. split; [done|by apply two_queues_comm].
    - apply wake_up_two; [apply proc_list_ne|done]. }
  destruct Hk as (k' & Hk & Htm & Hw). exists (set_kern k' s). split; [unfold wake_queue; rewrite (run_bind _ _ s q s) by done; by apply on_kern_run|].
  destruct Hs as [[out Ho] A B D _]. split; try done. exists out. apply con_out_kern; [done|]. rewrite Htm. apply (ct_timers _ _ _ _ Ho).
Qed.

Lemma copy_to_cooked_run typed l s : Forall (fun c => typeable t c = true) typed -> line_tty typed l s ->
  exists s', copy_to_cooked patience write i s = Ok tt s' /\ line_tty (cook t l typed).2 (cook t l typed).1 s'.
Proof using Hptr Hi Hpat.
  intros Htype Hs. unfold copy_to_cooked. destruct (lt_tty _ _ _ _ Hs) as (t1 & Ht & E1 & E2 & E3 & E4 & E5). rewrite (run_bind _ _ _ _ _ (tty_at_run i s t1 Ht)).
  rewrite E2, E3, E4, E5. destruct (lt_read _ _ _ _ Hs) as (rq & _ & _ & Hrc). pose proof (length_content rq) as Hlen. pose proof (q_count_range rq). rewrite Hrc in Hlen.
  destruct (cook_loop patience typed l s Htype Hs) as (s1 & Hr1 & H1); [unfold TTY_BUF_SIZE in *; lia|]. rewrite (run_bind _ _ _ _ _ Hr1).
  destruct (flush_run _ _ _ s1 H1) as (s2 & Hr2 & H2). rewrite (run_bind _ _ _ _ _ Hr2). destruct (lt_lines _ _ _ _ H2) as (q & Hq & _).
  rewrite (run_bind _ _ _ _ _ (queue_at_run d s2 q Hq)).
  assert (H3 : exists s3, when (negb (EMPTY q)) (wake_queue (Some d)) s2 = Ok tt s3 /\ line_tty (cook t l typed).2 (cook t l typed).1 s3) by (destruct (EMPTY q); [by exists s2|by apply wake_run; [|left]]).
  destruct H3 as (s3 & Hr3 & H3). rewrite (run_bind _ _ _ _ _ Hr3). destruct (lt_write _ _ _ _ H3) as (qw & Hqw & _). rewrite (run_bind _ _ _ _ _ (queue_at_run j s3 qw Hqw)).
  destruct (_ <? _); [by apply wake_run; [|right]|by exists s3].
Qed.
End Discipline.

(** ** Properties *)


(** C9: On a console [copy_to_cooked], with the echo going to the screen, is the line
    editor [cook]: typed characters go through the input flags, the erase character takes
    back one character and the kill character the whole unfinished line but never a
    finished one, and characters are taken as long as there is room.  [secondary->data]
    stays the number of finished lines.  (For characters that send no signal and put no
    ESC on the screen, [typeable]; tasks may wait for the lines and for room.) *)
Theorem copy_to_cooked_edits `{TtyEnv} (patience depth : nat) (i r j d : Z) (t : tty_struct) (typed l : list Z) (s : tts)
    (Hptr : r <> j /\ r <> d /\ j <> d) (Hi : i < MAX_CONSOLES) (Hpat : (1024 <= patience)%nat)
    (Htype : Forall (fun c => typeable t c = true) typed) (Hs : line_tty i r j d t typed l s) :
  exists s' qr qd, copy_to_cooked patience (tty_out patience (S depth)) i s = Ok tt s' /\
    aget (tty_queues s') r = Some qr /\ content qr = (cook t l typed).2 /\
    aget (tty_queues s') d = Some qd /\ content qd = reverse (cook t l typed).1 /\ q_data qd = count_lines t (cook t l typed).1.
Proof.
  destruct (copy_to_cooked_run patience depth i r j d t Hptr Hi Hpat typed l s Htype Hs) as (s' & Hr & H').
  destruct (lt_read _ _ _ _ _ _ _ _ _ H') as (qr & Hqr & _ & Hc). destruct (lt_lines _ _ _ _ _ _ _ _ _ H') as (qd & Hqd & _ & Hcd & Hdd). by exists s', qr, qd.
Qed.

(** ** Witnesses *)

Definition empty_queue : tty_queue := Tq 0 0 0 (replicate (Z.to_nat TTY_BUF_SIZE) 0).
Definition queue_of (l : list Z) : tty_queue := foldl (fun q c => default q (PUTCH c q)) empty_queue l.

Lemma empty_queue_ok : queue_ok empty_queue.
Proof. split; [done|done|reflexivity|]. apply Forall_replicate. unfold in_u8. lia. Qed.

Lemma queue_of_ok l : Forall in_u8 l -> (length l <= 1023)%nat -> queue_ok (queue_of l) /\ content (queue_of l) = l /\ q_data (queue_of l) = 0.
Proof.
  induction l as [|c l IH] using rev_ind; intros Hb Hl; [split; [apply empty_queue_ok|done]|].
  apply Forall_app in Hb as [Hb Hc]. apply Forall_cons in Hc as [Hc _]. rewrite length_app in Hl. cbn in Hl. destruct IH as (I1 & I2 & I3); [done|lia|].
  unfold queue_of in *. rewrite foldl_app. cbn [foldl]. set (q := foldl _ empty_queue l) in *.
  destruct (PUTCH_content c q I1) as (q' & -> & H1 & H2 & H3); [rewrite I2; unfold TTY_BUF_SIZE; lia|]. change (default q (Some q')) with q'. split; [done|]. split; [by rewrite H2, I2, u8_small|]. by rewrite H3.
Qed.

Definition calm_kernel : kst :=
  Kst ∅ (replicate 64 None) 1 0 0 0 ∅ (Tst [] None 0 (replicate 32 (0, 0))) (SysData [] 0 0 0 0 None 0 (replicate 256 (0, 0))) [].

Definition demo_tty (wf : write_fn) : tty_struct :=
  TtyS (Termios ICRNL (Z.lor OPOST ONLCR) 0 (Z.lor ICANON ECHO) 0 INIT_C_CC) 0 0 (Winsize 25 80 0 0) (Some wf) (Some 0) (Some 1) (Some 2).
Definition demo_terminal (typed out lines : list Z) : tts :=
  Tts calm_kernel [queue_of typed; queue_of out; queue_of lines] [demo_tty Wcon] [small_vc] small_video 0.

#[local] Instance no_env : TtyEnv := {| tty_sleep := fun _ => mret tt; tty_yield := mret tt; rs_write := fun _ => mret tt |}.

(** A terminal as [tty_init] sets it, task 1 running and task 2 asleep on the queue [asleep]. *)
Definition std_tty : tty_struct := TtyS DEF_TERMIOS 0 0 (Winsize 2 8 0 0) (Some Wcon) (Some 0) (Some 1) (Some 2).
Definition std_kernel (asleep : Z) : kst :=
  set_wq {[proc_list asleep := 2%positive]} (set_heap {[1%positive := INIT_TASK 1; 2%positive := INIT_TASK 1]} calm_kernel).
Definition std_terminal (asleep : Z) (typed out : list Z) : tts :=
  Tts (std_kernel asleep) [queue_of typed; queue_of out; queue_of []] [std_tty] [small_vc] small_video 0.

Lemma std_sleepers asleep : sleepers (std_kernel asleep) (proc_list asleep) [2%positive].
Proof.
  exists None. split; [reflexivity|]. split; [|by apply NoDup_singleton]. cbn [std_kernel wq set_wq]. rewrite lookup_singleton_eq. eapply queue_cons; [done|reflexivity|]. constructor.
Qed.

Lemma std_con_out asleep typed out : Forall (fun c => in_u8 c /\ c <> 27) out -> (length out <= 1023)%nat -> con_out 0 1 out (std_terminal asleep typed out).
Proof.
  intros Ho Hl. destruct (queue_of_ok out) as (Q1 & Q2 & _); [by eapply Forall_impl; [exact Ho|intros c [? _]]|done|]. split.
  - intros k w _ Hw. unfold aget in Hw. destruct (k <? 0); [done|]. cbn in Hw. destruct (Z.to_nat k); [|done]. injection Hw as <-. apply small_screen_ok.
  - repeat split; reflexivity || lia.
  - exists std_tty. split; reflexivity.
  - exists (queue_of out). split; [reflexivity|split; [exact Q1|exact Q2]].
  - exact Ho.
  - intros w [= <-]. reflexivity.
  - change (2 <= length (replicate 32 (0, 0)))%nat. rewrite length_replicate. lia.
Qed.



(** "a", "b", DEL, "c", newline, "x". *)
Definition demo_typed : list Z := [97; 98; 127; 99; 10; 120].

Lemma copy_to_cooked_edits_witness : exists s' qr qd, copy_to_cooked 1024 (tty_out 1024 1) 0 (std_terminal 2 demo_typed []) = Ok tt s' /\
  aget (tty_queues s') 0 = Some qr /\ content qr = [] /\ aget (tty_queues s') 2 = Some qd /\ content qd = [97; 99; 10; 120] /\ q_data qd = 1.
Proof.
  assert (Hb : Forall in_u8 demo_typed) by (unfold demo_typed, in_u8; repeat constructor; lia).
  destruct (queue_of_ok demo_typed Hb ltac:(cbn; lia)) as (Q1 & Q2 & Q3).
  apply (copy_to_cooked_edits 1024 0 0 0 1 2 std_tty demo_typed [] (std_terminal 2 demo_typed []));
    [repeat split; discriminate|reflexivity|apply le_n|repeat constructor; reflexivity|]. split.
  - exists []. apply std_con_out; [constructor|cbn; lia].
  - exists std_tty. repeat split; reflexivity.
  - exists (queue_of demo_typed). split; [reflexivity|split; [exact Q1|exact Q2]].
  - exists (queue_of []). split; [reflexivity|]. split; [apply empty_queue_ok|split; reflexivity].
  - destruct (std_sleepers 2) as (t0 & S1 & S2 & S3). exists t0, [2%positive], []. split; [exact S1|]. split; [exact S2|]. split; [constructor|]. split; [exact S3|by eexists].
Defined.
