(* ===== verification/TtyDev.v ===== *)
(** * Setting up and switching terminals

    [con_init], [update_screen] and their helpers of [console.c], [tty_init] and
    [change_console] of [tty_io.c]. *)

From S2P Require Import Prelude TaskStruct Sched Exit Signal Queue Console Screen Tty TtyOk.

(** ** [con_init] *)

(** What the boot code leaves at 0x90000. *)
Record boot_params := Boot { ORIG_X : Z; ORIG_Y : Z; ORIG_VIDEO_PAGE : Z; ORIG_VIDEO_MODE : Z; ORIG_VIDEO_COLS : Z; ORIG_VIDEO_LINES : Z; ORIG_VIDEO_EGA_BX : Z }.

(** [while ( *display_ptr) { *display_ptr++ = *display_desc++; display_ptr++; }]:
    the loop looks at the screen, and reading past the description faults. *)
Fixpoint show_desc (desc : list Z) (p : Z) : M cst unit :=
  c ← peek p;
  if c =? 0 then mret tt
  else match desc with [] => halts Fault | d :: desc' => poke p d;; show_desc desc' (p + 2) end.

(** The card, with its memory and its name; the terminating null included. *)
Definition detect_card (b : boot_params) : Z * Z * Z * Z * list Z :=
  if ORIG_VIDEO_MODE b =? 7 then
    if negb (Z.land (ORIG_VIDEO_EGA_BX b) 0xff =? 0x10) then (0xb0000, 0xb8000, VIDEO_TYPE_EGAM, 0, [69; 71; 65; 109; 0])
    else (0xb0000, 0xb2000, VIDEO_TYPE_MDA, 0, [42; 77; 68; 65; 0])
  else
    if negb (Z.land (ORIG_VIDEO_EGA_BX b) 0xff =? 0x10) then (0xb8000, 0xc0000, VIDEO_TYPE_EGAC, 1, [69; 71; 65; 99; 0])
    else (0xb8000, 0xba000, VIDEO_TYPE_CGA, 1, [42; 67; 71; 65; 0]).

(** The fields of the first console, in the buffer [base]. *)
Definition first_console (base size lines_ : Z) (w : vc_struct) : vc_struct :=
  let w := set_vc_video_mem_start base (set_vc_origin base w) in
  let w := set_vc_scr_end (u32 (base + size)) (set_vc_video_mem_end (u32 (base + size)) w) in
  let w := set_vc_bottom lines_ (set_vc_top 0 w) in
  let w := set_vc_def_attr 0x07 (set_vc_attr 0x07 w) in
  let w := set_vc_checkin 0 (set_vc_state ESnormal (set_vc_restate NORM_TRANS w)) in
  let w := set_vc_translate NORM_TRANS (set_vc_iscolor 0 (set_vc_ques 0 w)) in
  set_vc_bold_attr (-1) (set_vc_kbdapplic 0 (set_vc_kbdmode 0 (set_vc_kbdleds 2 w))).

(** Console [currcons], a copy of the first one further on in the buffer. *)
Definition next_console (currcons : Z) : M tts unit :=
  s ← getS; w0 ← ofOpt (aget (vc_cons s) 0);
  let g := glob s in
  let start := u32 (video_mem_base g + currcons * screen_size g) in
  let w := set_vc_video_mem_start start (set_vc_origin start w0) in
  let w := set_vc_scr_end (u32 (start + video_num_lines g * video_size_row g)) w in
  let w := set_vc_video_mem_end (u32 (start + screen_size g)) w in
  l ← ofOpt (aset (vc_cons s) currcons w); modify (set_vc_cons l);;
  on_con currcons (gotoxy 0 0).

Definition con_init (b : boot_params) : M tts unit :=
  modify (fun s => set_glob (set_video_page (u8 (ORIG_VIDEO_PAGE b)) (set_video_num_lines (ORIG_VIDEO_LINES b)
    (set_video_size_row (u32 (ORIG_VIDEO_COLS b * 2)) (set_video_num_columns (ORIG_VIDEO_COLS b) (glob s))))) s);;
  on_con 0 (put (set_vc_video_erase_char 0x0720));;
  g ← gets glob; j ← gets (fun s => jiffies (kern s));
  on_kern (timer_entry BLANK_TIMER 0 (Some fn_blank_screen);;
    if truth (blankinterval g) then timer_entry BLANK_TIMER (u32 (j + blankinterval g)) None;; timer_on BLANK_TIMER else mret tt);;
  let '(base, term, type, colour, desc) := detect_card b in
  modify (fun s => set_glob (set_video_type type (set_video_mem_term term (set_video_mem_base base (glob s)))) s);;
  (if truth colour then modify (fun s => set_glob (set_can_do_colour 1 (glob s)) s) else mret tt);;
  g ← gets glob;
  on_con 0 (show_desc desc (u32 (video_mem_base g + video_size_row g - 8)));;
  on_con 0 (memsetw (vc_scrmembuf g) 0x0720 (MEM_BUFFER_SIZE / 2));;
  let size := u32 (video_num_lines g * video_size_row g) in
  (if size =? 0 then halts Fault else mret tt);;
  let nr := MEM_BUFFER_SIZE / size in
  let nr := if MAX_CONSOLES <? nr then MAX_CONSOLES else nr in
  let nr := if nr =? 0 then 1 else nr in
  modify (fun s => set_glob (set_NR_CONSOLES nr (set_screen_size size (set_video_mem_term (u32 (vc_scrmembuf g + MEM_BUFFER_SIZE)) (set_video_mem_base (vc_scrmembuf g) (glob s))))) s);;
  on_con 0 (put (first_console (vc_scrmembuf g) size (video_num_lines g)));;
  on_con 0 (gotoxy (ORIG_X b) (ORIG_Y b));;
  for_each (range 1 (Z.to_nat (nr - 1))) next_console;;
  ws ← gets vc_cons;
  modify (fun s => set_glob (set_vc_scrbuf (vc_origin <$> take (Z.to_nat nr) ws) (glob s)) s);;
  modify (fun s => set_glob (set_video_mem_term term (set_video_mem_base base (glob s))) s);;
  on_con 0 (v ← vget id;
    put (fun w => set_vc_origin base (set_vc_video_mem_end term (set_vc_video_mem_start base w)));;
    put (fun w => set_vc_scr_end (u32 (base + video_num_lines v * video_size_row v)) w);;
    put (fun w => set_vc_bottom (video_num_lines v) (set_vc_top 0 w));;
    put (fun w => set_vc_pos (u32 (vc_origin w + vc_y w * video_size_row v + Z.shiftl (vc_x w) 1)) w)).

(** ** Switching consoles *)

(** [void kbdsave(int new_console)] *)
Definition kbdsave (new_console : Z) : M tts unit :=
  s ← getS;
  on_con (fg_console (sysd (kern s))) (v ← vget id; put (fun w => set_vc_kbdapplic (kapplic v) (set_vc_kbdleds (kleds v) (set_vc_kbdmode (kmode v) w))));;
  on_con new_console (w ← get id;
    vput (fun v => set_kapplic (vc_kbdapplic w) (set_kleds (vc_kbdleds w) (set_kmode (Z.lor (Z.land (kmode v) 0x3F) (Z.land (vc_kbdmode w) 0xC0)) v)))).

(** [pos = origin + y * video_size_row + (x << 1)] *)
Definition set_pos (v : video) (w : vc_struct) : vc_struct := set_vc_pos (u32 (vc_origin w + vc_y w * video_size_row v + Z.shiftl (vc_x w) 1)) w.

(** [static void get_scrmem(int currcons)] and [static void set_scrmem(int currcons)];
    [scrbuf] is [vc_scrbuf[fg_console]]. *)
Definition get_scrmem (scrbuf : Z) : M cst unit :=
  v ← vget id; w ← get id;
  memcpy (Z.to_nat (screen_size v)) scrbuf (vc_origin w);;
  put (fun w => set_vc_origin scrbuf (set_vc_video_mem_start scrbuf w));;
  put (fun w => let e := u32 (vc_video_mem_start w + screen_size v) in set_vc_scr_end e (set_vc_video_mem_end e w));;
  put (set_pos v).
Definition set_scrmem (scrbuf : Z) : M cst unit :=
  v ← vget id;
  put (fun w => set_vc_origin (video_mem_base v) (set_vc_video_mem_end (video_mem_term v) (set_vc_video_mem_start (video_mem_base v) w)));;
  put (fun w => set_vc_scr_end (u32 (vc_video_mem_start w + screen_size v)) w);;
  put (set_pos v);;
  memcpy (Z.to_nat (screen_size v)) (video_mem_base v) scrbuf.

Definition set_fg (n : Z) : M kst unit := modify (fun k =>
  let d := sysd k in set_sysd (SysData (nodename d) (tz_minuteswest d) (tz_dsttime d) (firsttime d) (last_pid d) (last_task_used_math d) n (tty_group d)) k).

(** [void update_screen(int new_console)] *)
Definition update_screen (new_console : Z) : M tts unit :=
  s ← getS;
  let fg := fg_console (sysd (kern s)) in
  if (new_console =? fg) || truth (update_lock (glob s)) then mret tt
  else
    modify (fun s => set_glob (set_update_lock 1 (glob s)) s);;
    kbdsave new_console;;
    g ← gets glob; b ← ofOpt (aget (vc_scrbuf g) fg);
    on_con fg (get_scrmem b);;
    on_kern (set_fg new_console);;
    g ← gets glob; b ← ofOpt (aget (vc_scrbuf g) new_console);
    on_con new_console (set_scrmem b);;
    on_con new_console (set_origin true);;
    on_con new_console (set_cursor true);;
    modify (fun s => set_glob (set_update_lock 0 (glob s)) s).

(** [void change_console(unsigned int new_console)]; [arg] is what stands in
    place of the argument that the call of [update_screen] lacks. *)
Definition change_console (arg new_console : Z) : M tts unit :=
  s ← getS;
  if (new_console =? fg_console (sysd (kern s))) || (NR_CONSOLES (glob s) <=? new_console) then mret tt
  else on_kern (set_fg new_console);; update_screen arg.

(** ** [tty_init] *)

Definition new_queue (data : Z) : tty_queue := Tq data 0 0 (replicate (Z.to_nat TTY_BUF_SIZE) 0).
(** The serial queues carry the addresses of the ports. *)
Definition queue_data (i : Z) : Z :=
  let k := i - 3 * MAX_CONSOLES in
  if (k =? 0) || (k =? 1) then 0x3f8 else if (k =? 3) || (k =? 4) then 0x2f8
  else if (k =? 6) || (k =? 7) then 0x3e8 else if (k =? 9) || (k =? 10) then 0x2e8 else 0.

Definition no_tty : tty_struct := TtyS (Termios 0 0 0 0 0 INIT_C_CC) 0 0 (Winsize 0 0 0 0) None None None None.
Definition make_tty (t : termios) (ws : winsize) (w : write_fn) (q : Z) : tty_struct := TtyS t 0 0 ws (Some w) (Some q) (Some (q + 1)) (Some (q + 2)).

Definition con_tty_init (g : video) (i : Z) : tty_struct :=
  make_tty (Termios ICRNL (Z.lor OPOST ONLCR) (Z.lor B38400 CS8) (Z.lor IXON (Z.lor ISIG (Z.lor ICANON (Z.lor ECHO (Z.lor ECHOCTL ECHOKE))))) 0 INIT_C_CC)
    (Winsize (u16 (video_num_lines g)) (u16 (video_num_columns g)) 0 0) Wcon (i * 3).
Definition rs_tty_init (i : Z) : tty_struct := make_tty (Termios 0 0 (Z.lor B2400 CS8) 0 0 INIT_C_CC) (Winsize 25 80 0 0) Wrs (3 * MAX_CONSOLES + i * 3).
Definition mpty_tty_init (i : Z) : tty_struct :=
  make_tty (Termios 0 0 (Z.lor B9600 CS8) 0 0 INIT_C_CC) (Winsize 25 80 0 0) Wmpty (3 * (MAX_CONSOLES + NR_SERIALS) + i * 3).
Definition spty_tty_init (i : Z) : tty_struct :=
  make_tty (Termios 0 0 (Z.lor B9600 CS8) (Z.lor IXON (Z.lor ISIG ICANON)) 0 INIT_C_CC) (Winsize 25 80 0 0) Wspty (3 * (MAX_CONSOLES + NR_SERIALS + NR_PTYS) + i * 3).

Definition tty_set (i : Z) (t : tty_struct) : M tts unit := s ← getS; l ← ofOpt (aset (tty_table s) i t); modify (set_tty_table l).

(** [void tty_init(void)], less [rs_init], which programs the serial chips. *)
Definition tty_init (b : boot_params) : M tts unit :=
  modify (set_tty_queues ((fun i => new_queue (queue_data i)) <$> range 0 (Z.to_nat QUEUES)));;
  modify (set_tty_table (replicate 256 no_tty));;
  on_kern (modify (fun k => let d := sysd k in
    set_sysd (SysData (nodename d) (tz_minuteswest d) (tz_dsttime d) (firsttime d) (last_pid d) (last_task_used_math d) (fg_console d) (replicate 256 (-1, 0))) k));;
  con_init b;;
  g ← gets glob;
  for_each (range 0 (Z.to_nat (NR_CONSOLES g))) (fun i => tty_set i (con_tty_init g i));;
  for_each (range 0 (Z.to_nat NR_SERIALS)) (fun i => tty_set (64 + i) (rs_tty_init i));;
  for_each (range 0 (Z.to_nat NR_PTYS)) (fun i => tty_set (128 + i) (mpty_tty_init i);; tty_set (192 + i) (spty_tty_init i)).
