(* ===== verification/ConInit.v ===== *)
(** * Theorems about setting up consoles

    [con_init] gives every console a window of its own and leaves it in order;
    the loop that shows the name of the card can run past the end of the name. *)

From S2P Require Import Prelude TaskStruct Sched Queue Console Screen Tty TtyOk TtyDev.

(** The structure as the loader leaves it. *)
Definition zero_vc : vc_struct :=
  Vc 0 0 0 0 0 0 NORM_TRANS 0 0 0 0 0 0 0 0 0 (replicate (Z.to_nat NPAR) 0) 0 0 0 0 0 0 0 0 NORM_TRANS.

Lemma on_con_ok {A} i (m : M cst A) s w a v w' : aget (vc_cons s) i = Some w -> m (Cst (glob s) w) = Ok a (Cst v w') ->
  on_con i m s = Ok a (set_glob v (set_vc_cons (<[Z.to_nat i := w']> (vc_cons s)) s)).
Proof. intros Hw Hm. unfold on_con. by rewrite Hw, Hm. Qed.

(** [gotoxy] as a function. *)
Definition moved (v : video) (x y : Z) (w : vc_struct) : vc_struct :=
  if (video_num_columns v <? u32 x) || (video_num_lines v <=? u32 y) then w
  else set_vc_pos (u32 (vc_origin w + u32 y * video_size_row v + Z.shiftl (u32 x) 1)) (set_vc_y (u32 y) (set_vc_x (u32 x) w)).

Lemma gotoxy_run x y v w : gotoxy x y (Cst v w) = Ok tt (Cst v (moved v x y w)).
Proof. unfold gotoxy, moved. rewrite run_vget. unfold id. cbn [vid]. by destruct (_ || _). Qed.

Lemma moved_fields v x y w :
  0 <= vc_x w <= video_num_columns v -> 0 <= vc_y w < video_num_lines v ->
  let w' := moved v x y w in 0 <= vc_x w' <= video_num_columns v /\ 0 <= vc_y w' < video_num_lines v /\
    vc_origin w' = vc_origin w /\ vc_video_erase_char w' = vc_video_erase_char w /\ vc_npar w' = vc_npar w /\ vc_par w' = vc_par w /\
    vc_top w' = vc_top w /\ vc_bottom w' = vc_bottom w.
Proof.
  intros Hx Hy. unfold moved. pose proof (u32_range x). pose proof (u32_range y).
  destruct (Z.ltb_spec (video_num_columns v) (u32 x)); [done|]. destruct (Z.leb_spec (video_num_lines v) (u32 y)); [done|].
  cbn [orb]. cbv zeta. split_and!; try done; cbn; lia.
Qed.

(** ** The loop over the consoles *)

(** Console [k] of the buffer, made from the first one. *)
Definition console_at (g : video) (w0 : vc_struct) (k : Z) : vc_struct :=
  let start := u32 (video_mem_base g + k * screen_size g) in
  let w := set_vc_video_mem_start start (set_vc_origin start w0) in
  let w := set_vc_scr_end (u32 (start + video_num_lines g * video_size_row g)) w in
  moved g 0 0 (set_vc_video_mem_end (u32 (start + screen_size g)) w).

Lemma next_console_run k s w0 : aget (vc_cons s) 0 = Some w0 -> 0 <= k < Z.of_nat (length (vc_cons s)) ->
  next_console k s = Ok tt (set_vc_cons (<[Z.to_nat k := console_at (glob s) w0 k]> (vc_cons s)) s).
Proof.
  intros H0 Hk. unfold next_console, getS. unfold mbind at 1, M_bind at 1. cbn beta. rewrite H0. rewrite (run_bind _ _ s w0 s) by done. cbv zeta.
  rewrite aset_in_range by done. set (w := set_vc_video_mem_end _ _). rewrite (run_bind _ _ s (<[Z.to_nat k := w]> (vc_cons s)) s) by done.
  rewrite (run_bind _ _ s tt (set_vc_cons (<[Z.to_nat k := w]> (vc_cons s)) s)) by done.
  set (s1 := set_vc_cons _ s). rewrite (on_con_ok k _ s1 w tt (glob s1) (moved (glob s1) 0 0 w)).
  - f_equal. unfold s1. cbn. rewrite list_insert_insert_eq. by destruct s.
  - cbn. by apply aget_insert_eq.
  - apply gotoxy_run.
Qed.

Lemma next_consoles_run w0 n : forall k s, aget (vc_cons s) 0 = Some w0 -> 1 <= k -> k + Z.of_nat n <= Z.of_nat (length (vc_cons s)) ->
  exists l, for_each (range k n) next_console s = Ok tt (set_vc_cons l s) /\ length l = length (vc_cons s) /\
    (forall m, k <= m < k + Z.of_nat n -> aget l m = Some (console_at (glob s) w0 m)) /\
    (forall m, ~ (k <= m < k + Z.of_nat n) -> aget l m = aget (vc_cons s) m).
Proof.
  induction n as [|n IH]; intros k s H0 Hk Hn.
  - exists (vc_cons s). split; [by destruct s|]. split; [done|]. split; [lia|done].
  - rewrite range_shift. cbn [for_each]. rewrite (run_bind _ _ _ _ _ (next_console_run k s w0 H0 ltac:(lia))). set (s1 := set_vc_cons _ s).
    destruct (IH (k + 1) s1) as (l & Hr & Hl & Hin & Hout); [unfold s1; cbn [vc_cons set_vc_cons]; rewrite aget_insert_ne by lia; done|lia|unfold s1; cbn [vc_cons set_vc_cons]; rewrite length_insert; lia|].
    exists l. split; [rewrite Hr; by destruct s|]. split; [rewrite Hl; unfold s1; cbn [vc_cons set_vc_cons]; apply length_insert|]. split.
    + intros m Hm. destruct (decide (m = k)) as [->|]; [|apply Hin; lia]. rewrite Hout by lia. unfold s1. cbn [vc_cons set_vc_cons]. apply aget_insert_eq. lia.
    + intros m Hm. rewrite Hout by lia. unfold s1. cbn [vc_cons set_vc_cons]. apply aget_insert_ne; lia.
Qed.

(** ** [con_init] *)

(** A boot block that describes a text mode: a sensible screen that fits into
    the memory of the card and into the buffer. *)
Record boot_ok (b : boot_params) (s : tts) : Prop := {
  bo_cols : 8 <= ORIG_VIDEO_COLS b /\ Z.even (ORIG_VIDEO_COLS b) = true;
  bo_lines : 1 <= ORIG_VIDEO_LINES b;
  bo_size : ORIG_VIDEO_LINES b * (ORIG_VIDEO_COLS b * 2) <= 0x2000;
  bo_cons : vc_cons s = replicate (Z.to_nat MAX_CONSOLES) zero_vc;
  bo_buffer : 4 <= vc_scrmembuf (glob s) /\ vc_scrmembuf (glob s) + MEM_BUFFER_SIZE + 0x4000 < 2 ^ 32;
  bo_apart : vc_scrmembuf (glob s) + MEM_BUFFER_SIZE <= 0xb0000 \/ 0xc0000 <= vc_scrmembuf (glob s);
  bo_timers : (2 <= length (timer_table (timers (kern s))))%nat
}.

(** The windows of different consoles do not meet. *)
Definition windows_apart (s : tts) : Prop :=
  forall k k' w w', k <> k' -> k < NR_CONSOLES (glob s) -> k' < NR_CONSOLES (glob s) -> aget (vc_cons s) k = Some w -> aget (vc_cons s) k' = Some w' ->
    vc_video_mem_end w <= vc_video_mem_start w' \/ vc_video_mem_end w' <= vc_video_mem_start w.

Lemma timer_entry_run n e f k : 0 <= n < 2 -> (2 <= length (timer_table (timers k)))%nat ->
  exists k', timer_entry n e f k = Ok tt k' /\ (2 <= length (timer_table (timers k')))%nat.
Proof.
  intros Hn Hl. unfold timer_entry, getS. destruct (aget_in_range (timer_table (timers k)) n) as [[e0 f0] He]; [lia|].
  unfold mbind, M_bind. rewrite He. cbn. rewrite aset_in_range by lia. cbn. eexists. split; [done|]. cbn. by rewrite length_insert.
Qed.

Lemma init_timers_run (blank : Z) j k : (2 <= length (timer_table (timers k)))%nat ->
  exists k', (timer_entry BLANK_TIMER 0 (Some fn_blank_screen);;
    if truth blank then timer_entry BLANK_TIMER (u32 (j + blank)) None;; timer_on BLANK_TIMER else mret tt) k = Ok tt k'.
Proof.
  intros Hk. destruct (timer_entry_run BLANK_TIMER 0 (Some fn_blank_screen) k) as (k1 & Hr1 & Hl1); [done|done|]. rewrite (run_bind _ _ _ _ _ Hr1).
  destruct (truth blank); [|by exists k1]. destruct (timer_entry_run BLANK_TIMER (u32 (j + blank)) None k1) as (k2 & Hr2 & Hl2); [done|done|].
  rewrite (run_bind _ _ _ _ _ Hr2). unfold timer_on, getS, mbind, M_bind. eexists. done.
Qed.

(** The number of consoles. *)
Definition nr_consoles (size : Z) : Z :=
  let nr := MEM_BUFFER_SIZE / size in let nr := if MAX_CONSOLES <? nr then MAX_CONSOLES else nr in if nr =? 0 then 1 else nr.

Lemma nr_consoles_ok size : 1 <= size <= 0x2000 -> 1 <= nr_consoles size <= MAX_CONSOLES /\ nr_consoles size * size <= MEM_BUFFER_SIZE.
Proof.
  intros Hs. unfold nr_consoles, MEM_BUFFER_SIZE, MAX_CONSOLES. change (2 * 80 * 50 * 8) with 64000. pose proof (Z.mul_div_le 64000 size ltac:(lia)).
  assert (1 <= 64000 / size) by (apply Z.div_le_lower_bound; lia). destruct (Z.ltb_spec 8 (64000 / size)).
  - change (8 =? 0) with false. cbv iota. nia.
  - destruct (Z.eqb_spec (64000 / size) 0); nia.
Qed.

(** The start and the end of the screen come first. *)
Lemma show_desc_blank desc p v w : in_video v p = true -> byte_at (vmem v) p = 0 -> show_desc desc p (Cst v w) = Ok tt (Cst v w).
Proof.
  intros Hv Hb. destruct desc; cbn [show_desc]; rewrite (run_bind _ _ _ _ _ (peek_run (Cst v w) p Hv)); cbn [vid]; by rewrite Hb.
Qed.

(** If six cells in a row are not blank, the loop reads past the name. *)
Lemma show_desc_overrun desc : forall p v w, (forall k, 0 <= k <= Z.of_nat (length desc) -> in_video v (p + 2 * k) = true /\ byte_at (vmem v) (p + 2 * k) <> 0) ->
  exists s', show_desc desc p (Cst v w) = Halt Fault s'.
Proof.
  induction desc as [|d desc IH]; intros p v w Hk; cbn [show_desc].
  - destruct (Hk 0) as [H1 H2]; [done|]. rewrite Z.add_0_r in H1, H2. rewrite (run_bind _ _ _ _ _ (peek_run (Cst v w) p H1)). cbn [vid].
    destruct (Z.eqb_spec (byte_at (vmem v) p) 0); [done|]. by eexists.
  - destruct (Hk 0) as [H1 H2]; [lia|]. rewrite Z.add_0_r in H1, H2. rewrite (run_bind _ _ _ _ _ (peek_run (Cst v w) p H1)). cbn [vid].
    destruct (Z.eqb_spec (byte_at (vmem v) p) 0); [done|]. rewrite (run_bind _ _ _ _ _ (poke_run (Cst v w) p d H1)). unfold with_mem. cbn [vid vc].
    apply IH. intros k Hk'. destruct (Hk (k + 1)) as [H3 H4]; [cbn [length]; lia|]. replace (p + 2 * (k + 1)) with (p + 2 + 2 * k) in H3, H4 by lia.
    split; [exact H3|]. cbn [vmem set_vmem]. rewrite byte_insert, decide_False by lia. done.
Qed.

(** Up to the name of the card. *)
Lemma con_init_start b s : boot_ok b s ->
  let '(base, term, type, colour, desc) := detect_card b in
  exists k g w, con_init b s = (
      let s4 := Tts k (tty_queues s) (tty_table s) (<[0%nat := w]> (vc_cons s)) g (cr_flag s) in
      (on_con 0 (show_desc desc (u32 (video_mem_base g + video_size_row g - 8)));;
       on_con 0 (memsetw (vc_scrmembuf g) 0x0720 (MEM_BUFFER_SIZE / 2));;
       let size := u32 (video_num_lines g * video_size_row g) in
       (if size =? 0 then halts Fault else mret tt);;
       let nr := nr_consoles size in
       modify (fun s => set_glob (set_NR_CONSOLES nr (set_screen_size size (set_video_mem_term (u32 (vc_scrmembuf g + MEM_BUFFER_SIZE)) (set_video_mem_base (vc_scrmembuf g) (glob s))))) s);;
       on_con 0 (put (first_console (vc_scrmembuf g) size (video_num_lines g)));;
       on_con 0 (gotoxy (ORIG_X b) (ORIG_Y b));;
       for_each (range 1 (Z.to_nat (nr - 1))) next_console;;
       ws ← gets vc_cons;
       modify (fun s => set_glob (set_vc_scrbuf (vc_origin <$> take (Z.to_nat nr) ws) (glob s)) s);;
       modify (fun s => set_glob (set_video_mem_term term (set_video_mem_base base (glob s))) s);;
       on_con 0 (v ← vget id;
         put (fun w => set_vc_origin base (set_vc_video_mem_end term (set_vc_video_mem_start base w)));;
         put (fun w => set_vc_scr_end (u32 (base + video_num_lines v * video_size_row v)) w);;
         put (fun w => set_vc_bottom (video_num_lines v) (set_vc_top 0 w));;
         put (fun w => set_vc_pos (u32 (vc_origin w + vc_y w * video_size_row v + Z.shiftl (vc_x w) 1)) w))) s4) /\
    w = set_vc_video_erase_char 0x0720 zero_vc /\ vmem g = vmem (glob s) /\ video_num_columns g = ORIG_VIDEO_COLS b /\ video_num_lines g = ORIG_VIDEO_LINES b /\
    video_size_row g = ORIG_VIDEO_COLS b * 2 /\ video_mem_base g = base /\ video_mem_term g = term /\ vc_scrmembuf g = vc_scrmembuf (glob s).
Proof.
  intros [B1 B2 B3 B4 B5 B6 B7]. destruct (detect_card b) as [[[[base term] type] colour] desc] eqn:Ed.
  assert (H0 : aget (vc_cons s) 0 = Some zero_vc) by (by rewrite B4).
  unfold con_init. rewrite Ed. set (g1 := set_video_page (u8 (ORIG_VIDEO_PAGE b)) (set_video_num_lines (ORIG_VIDEO_LINES b) (set_video_size_row (u32 (ORIG_VIDEO_COLS b * 2)) (set_video_num_columns (ORIG_VIDEO_COLS b) (glob s))))).
  rewrite (run_bind (modify _) _ s tt (set_glob g1 s)) by done.
  rewrite (run_bind _ _ _ _ _ (on_con_ok 0 (put (set_vc_video_erase_char 0x0720)) (set_glob g1 s) zero_vc tt g1 _ H0 eq_refl)).
  set (s2 := set_glob g1 (set_vc_cons _ (set_glob g1 s))). rewrite (run_bind (gets glob) _ s2 g1 s2) by done.
  rewrite (run_bind (gets _) _ s2 (jiffies (kern s)) s2) by done.
  destruct (init_timers_run (blankinterval g1) (jiffies (kern s)) (kern s2)) as (k & Hk); [exact B7|].
  rewrite (run_bind _ _ _ _ _ (on_kern_run _ s2 tt k Hk)). cbv beta iota.
  set (g2 := set_video_type type (set_video_mem_term term (set_video_mem_base base g1))).
  rewrite (run_bind (modify _) _ (set_kern k s2) tt (set_glob g2 (set_kern k s2))) by done.
  set (g3 := if truth colour then set_can_do_colour 1 g2 else g2).
  rewrite (run_bind _ _ (set_glob g2 (set_kern k s2)) tt (set_glob g3 (set_kern k s2))) by (unfold g3; by destruct (truth colour)).
  rewrite (run_bind (gets glob) _ (set_glob g3 (set_kern k s2)) g3 (set_glob g3 (set_kern k s2))) by done.
  exists k, g3, (set_vc_video_erase_char 0x0720 zero_vc). split; [done|]. split; [done|].
  assert (Hrow : u32 (ORIG_VIDEO_COLS b * 2) = ORIG_VIDEO_COLS b * 2) by (apply u32_small; unfold in_u32; nia).
  unfold g3. destruct (truth colour); unfold g2, g1; cbn; rewrite Hrow; done.
Qed.

Lemma detect_card_ok b : let '(base, term, _, _, desc) := detect_card b in 0xb0000 <= base /\ base + 0x2000 <= term /\ term <= 0xc0000 /\ length desc = 5%nat.
Proof. unfold detect_card. destruct (_ =? 7), (negb _); done. Qed.

(** The first console, on the card. *)
Lemma first_ok g base term w : 8 <= video_num_columns g -> Z.even (video_num_columns g) = true -> video_size_row g = video_num_columns g * 2 ->
  1 <= video_num_lines g -> video_num_lines g * (video_num_columns g * 2) <= 0x2000 -> 0xb0000 <= base -> base + 0x2000 <= term -> term <= 0xc0000 ->
  video_mem_base g = base -> video_mem_term g = term -> 0 <= vc_x w <= video_num_columns g -> 0 <= vc_y w < video_num_lines g ->
  vc_npar w = 0 -> vc_par w = replicate (Z.to_nat NPAR) 0 ->
  let w := set_vc_origin base (set_vc_video_mem_end term (set_vc_video_mem_start base w)) in
  let w := set_vc_scr_end (u32 (base + video_num_lines g * video_size_row g)) w in
  let w := set_vc_bottom (video_num_lines g) (set_vc_top 0 w) in
  screen_ok (Cst g (set_vc_pos (u32 (vc_origin w + vc_y w * video_size_row g + Z.shiftl (vc_x w) 1)) w)).
Proof.
  intros H1 H2 H3 H4 H5 H6 H7 H8 Eb Et Hx Hy Hn Hp. cbv zeta. rewrite shiftl_1, H3. pose proof (rows_le (vc_y w) (video_num_lines g - 1) (video_num_columns g * 2)).
  pose proof (rows_le 0 (vc_y w) (video_num_columns g * 2)). pose proof (rows_le 1 (video_num_lines g) (video_num_columns g * 2)).
  assert (E1 : u32 (base + video_num_lines g * (video_num_columns g * 2)) = base + video_num_lines g * (video_num_columns g * 2)) by (apply u32_small; unfold in_u32; lia).
  assert (E2 : u32 (base + vc_y w * (video_num_columns g * 2) + 2 * vc_x w) = base + vc_y w * (video_num_columns g * 2) + 2 * vc_x w) by (apply u32_small; unfold in_u32; lia).
  split; cbn [vid vc vc_x vc_y vc_top vc_bottom vc_pos vc_origin vc_scr_end vc_video_mem_start vc_video_mem_end vc_npar vc_par
    set_vc_pos set_vc_bottom set_vc_top set_vc_scr_end set_vc_origin set_vc_video_mem_end set_vc_video_mem_start]; rewrite ?H3, ?E1, ?E2; try lia; try done.
  - intros a Ha. unfold in_video. cbn [vid]. rewrite Eb, Et. lia.
  - rewrite Hn. done.
  - rewrite Hp. split; [done|]. apply Forall_replicate. unfold in_u32. lia.
Qed.

(** The others, in the buffer. *)
Lemma other_ok g0 g w k nr : 8 <= video_num_columns g0 -> Z.even (video_num_columns g0) = true -> video_size_row g0 = video_num_columns g0 * 2 ->
  1 <= video_num_lines g0 -> screen_size g0 = video_num_lines g0 * (video_num_columns g0 * 2) -> screen_size g0 <= 0x2000 ->
  video_mem_base g0 = vc_scrmembuf g -> 4 <= vc_scrmembuf g -> vc_scrmembuf g + MEM_BUFFER_SIZE + 0x4000 < 2 ^ 32 ->
  video_num_columns g = video_num_columns g0 -> video_num_lines g = video_num_lines g0 -> video_size_row g = video_size_row g0 ->
  0 <= k < nr -> nr * screen_size g0 <= MEM_BUFFER_SIZE -> vc_top w = 0 -> vc_bottom w = video_num_lines g0 ->
  vc_npar w = 0 -> vc_par w = replicate (Z.to_nat NPAR) 0 ->
  screen_ok (Cst g (console_at g0 w k)) /\ vc_video_mem_start (console_at g0 w k) = vc_scrmembuf g + k * screen_size g0 /\
    vc_video_mem_end (console_at g0 w k) = vc_scrmembuf g + (k + 1) * screen_size g0.
Proof.
  intros H1 H2 H3 H4 H5 H6 Eb Hbuf Htop Ec El Er Hk Hnr Ht Hb Hn Hp. pose proof (rows_le 1 (video_num_lines g0) (video_num_columns g0 * 2)).
  pose proof (rows_le (k + 1) nr (screen_size g0)). pose proof (rows_le 0 k (screen_size g0)).
  unfold console_at, moved. change (u32 0) with 0. rewrite (proj2 (Z.ltb_ge (video_num_columns g0) 0)), (proj2 (Z.leb_gt (video_num_lines g0) 0)) by lia. cbn [orb].
  rewrite Eb, H3, <-H5. change (Z.shiftl 0 1) with 0. rewrite Z.mul_0_l, !Z.add_0_r.
  assert (E1 : u32 (vc_scrmembuf g + k * screen_size g0) = vc_scrmembuf g + k * screen_size g0) by (apply u32_small; unfold in_u32; lia). rewrite E1.
  assert (E2 : u32 (vc_scrmembuf g + k * screen_size g0 + screen_size g0) = vc_scrmembuf g + (k + 1) * screen_size g0) by (rewrite u32_small; [lia|unfold in_u32; lia]). rewrite E2.
  assert (E3 : screen_size g0 = video_num_lines g * video_size_row g) by (rewrite El, Er, H3; exact H5).
  split; [|done]. split; cbn [vid vc vc_x vc_y vc_top vc_bottom vc_pos vc_origin vc_scr_end vc_video_mem_start vc_video_mem_end vc_npar vc_par
    set_vc_pos set_vc_y set_vc_x set_vc_scr_end set_vc_origin set_vc_video_mem_end set_vc_video_mem_start]; rewrite ?Ec, ?Er, ?El, ?E1, ?Ht, ?Hb, ?H3; try lia; try done.
  - intros a Ha. unfold in_video. cbn [vid]. change MEM_BUFFER_SIZE with 64000 in *. lia.
  - rewrite Hn. done.
  - rewrite Hp. split; [done|]. apply Forall_replicate. unfold in_u32. lia.
Qed.

Lemma con_init_run b s : boot_ok b s ->
  let '(base, _, _, _, _) := detect_card b in byte_at (vmem (glob s)) (base + ORIG_VIDEO_COLS b * 2 - 8) = 0 ->
  exists s', con_init b s = Ok tt s' /\ consoles_ok s' /\ windows_apart s'.
Proof.
  intros Hb. pose proof (con_init_start b s Hb) as Hst. pose proof (detect_card_ok b) as Hdet. destruct (detect_card b) as [[[[base term] type] colour] desc].
  intros Hblank. destruct Hst as (k & g & w & -> & Ew & Em & Ec & El & Er & Eb & Et & Es). destruct Hdet as (D1 & D2 & D3 & _). destruct Hb as [[B1 B1'] B2 B3 B4 B5 B6 B7].
  set (cols := ORIG_VIDEO_COLS b) in *. set (lines := ORIG_VIDEO_LINES b) in *. set (buf := vc_scrmembuf (glob s)) in *. cbv zeta.
  pose proof (rows_le 1 lines (cols * 2)) as Hl1. set (s4 := Tts k _ _ _ _ _). change MEM_BUFFER_SIZE with 64000 in *.
  assert (L4 : length (vc_cons s4) = 8%nat) by (unfold s4; cbn [vc_cons]; by rewrite length_insert, B4).
  assert (H4 : aget (vc_cons s4) 0 = Some w) by (unfold s4; cbn [vc_cons]; apply (aget_insert_eq _ 0); by rewrite B4).
  assert (Hvid : forall a, buf <= a < buf + 64000 -> in_video g a = true) by (intros a Ha; unfold in_video; rewrite Es; change MEM_BUFFER_SIZE with 64000; lia).
  rewrite Eb, Er. replace (u32 (base + cols * 2 - 8)) with (base + cols * 2 - 8) by (symmetry; apply u32_small; unfold in_u32; lia).
  rewrite (run_bind _ _ _ _ _ (on_con_ok 0 _ s4 w tt g w H4 (show_desc_blank desc (base + cols * 2 - 8) g w
    ltac:(unfold in_video; rewrite Eb, Et; lia) ltac:(by rewrite Em)))).
  set (s5 := set_glob g (set_vc_cons _ s4)). assert (H5 : aget (vc_cons s5) 0 = Some w) by (unfold s5; cbn [vc_cons set_glob set_vc_cons]; apply (aget_insert_eq _ 0); lia).
  rewrite Es. destruct (stosw_up (Z.to_nat (64000 / 2)) (Cst g w) buf 0x0720) as (m & Hr6 & _); [intros a Ha; apply Hvid; change (2 * Z.of_nat (Z.to_nat (64000 / 2))) with 64000 in Ha; lia|].
  assert (Hr6' : memsetw buf 0x0720 (64000 / 2) (Cst g w) = Ok tt (Cst (set_vmem m g) w)) by (unfold memsetw; by rewrite (run_bind _ _ _ _ _ Hr6)).
  rewrite (run_bind _ _ _ _ _ (on_con_ok 0 _ s5 w tt _ w H5 Hr6')). rewrite El.
  replace (u32 (lines * (cols * 2))) with (lines * (cols * 2)) by (symmetry; apply u32_small; unfold in_u32; lia). set (size := lines * (cols * 2)).
  destruct (Z.eqb_spec size 0); [lia|]. set (s6 := set_glob (set_vmem m g) _). rewrite (run_bind _ _ s6 tt s6) by done.
  pose proof (nr_consoles_ok size ltac:(lia)) as [Hnr Hnrs]. set (nr := nr_consoles size) in *. change MEM_BUFFER_SIZE with 64000 in Hnrs. unfold MAX_CONSOLES in Hnr.
  set (g7 := set_NR_CONSOLES nr (set_screen_size size (set_video_mem_term (u32 (buf + 64000)) (set_video_mem_base buf (set_vmem m g))))).
  rewrite (run_bind (modify _) _ s6 tt (set_glob g7 s6)) by done. set (s7 := set_glob g7 s6).
  assert (H7 : aget (vc_cons s7) 0 = Some w) by (unfold s7, s6; cbn [vc_cons set_glob set_vc_cons]; apply (aget_insert_eq _ 0); unfold s5; cbn [vc_cons set_glob set_vc_cons]; rewrite length_insert; lia).
  set (w1 := first_console buf size lines w). rewrite (run_bind _ _ _ _ _ (on_con_ok 0 (put (first_console buf size lines)) s7 w tt g7 w1 H7 eq_refl)).
  set (s8 := set_glob g7 (set_vc_cons (<[Z.to_nat 0:=w1]> (vc_cons s7)) s7)).
  assert (L7 : length (vc_cons s7) = 8%nat) by (unfold s7, s6, s5; cbn [vc_cons set_glob set_vc_cons]; by rewrite !length_insert).
  assert (H8 : aget (vc_cons s8) 0 = Some w1) by (unfold s8; cbn [vc_cons set_glob set_vc_cons]; apply (aget_insert_eq _ 0); lia).
  set (w2 := moved g7 (ORIG_X b) (ORIG_Y b) w1). rewrite (run_bind _ _ _ _ _ (on_con_ok 0 (gotoxy (ORIG_X b) (ORIG_Y b)) s8 w1 tt g7 w2 H8 (gotoxy_run _ _ _ _))).
  set (s9 := set_glob g7 (set_vc_cons (<[Z.to_nat 0:=w2]> (vc_cons s8)) s8)).
  assert (L9 : length (vc_cons s9) = 8%nat) by (unfold s9, s8; cbn [vc_cons set_glob set_vc_cons]; by rewrite !length_insert).
  assert (H9 : aget (vc_cons s9) 0 = Some w2) by (unfold s9; cbn [vc_cons set_glob set_vc_cons]; apply (aget_insert_eq _ 0); unfold s8; cbn [vc_cons set_glob set_vc_cons]; rewrite length_insert; lia).
  destruct (next_consoles_run w2 (Z.to_nat (nr - 1)) 1 s9 H9) as (l & Hr10 & Ll & Hin & Hout); [lia|lia|]. rewrite (run_bind _ _ _ _ _ Hr10).
  rewrite (run_bind (gets vc_cons) _ (set_vc_cons l s9) l (set_vc_cons l s9)) by done.
  set (g8 := set_vc_scrbuf (vc_origin <$> take (Z.to_nat nr) l) g7). rewrite (run_bind (modify _) _ (set_vc_cons l s9) tt (set_glob g8 (set_vc_cons l s9))) by done.
  set (g9 := set_video_mem_term term (set_video_mem_base base g8)). rewrite (run_bind (modify _) _ (set_glob g8 (set_vc_cons l s9)) tt (set_glob g9 (set_vc_cons l s9))) by done.
  assert (Hl0 : aget l 0 = Some w2) by (rewrite Hout by lia; exact H9).
  destruct (moved_fields g7 (ORIG_X b) (ORIG_Y b) w1) as (F1 & F2 & _ & _ & F5 & F6 & F7 & F8); [unfold w1; rewrite Ew; cbn; lia|unfold w1; rewrite Ew; cbn; lia|].
  fold w2 in F1, F2, F5, F6, F7, F8. eexists. split; [apply (on_con_ok 0 _ (set_glob g9 (set_vc_cons l s9)) w2); [exact Hl0|reflexivity]|].
  assert (G1 : video_num_columns g7 = cols) by exact Ec. assert (G2 : video_num_lines g7 = lines) by exact El. assert (G3 : video_size_row g7 = cols * 2) by exact Er.
  assert (G4 : vc_scrmembuf g9 = buf) by exact Es. assert (G5 : screen_size g7 = size) by reflexivity. assert (G6 : video_mem_base g7 = buf) by reflexivity.
  assert (K1 : video_num_columns g9 = cols) by exact Ec. assert (K2 : video_num_lines g9 = lines) by exact El. assert (K3 : video_size_row g9 = cols * 2) by exact Er.
  assert (W1 : vc_top w2 = 0 /\ vc_bottom w2 = lines /\ vc_npar w2 = 0 /\ vc_par w2 = replicate (Z.to_nat NPAR) 0).
  { rewrite F5, F6, F7, F8. unfold w1. by rewrite Ew. }
  destruct W1 as (W1 & W2 & W3 & W4). rewrite G1 in F1. rewrite G2 in F2.
  assert (Hone : forall i, 0 <= i < nr -> let w' := console_at g7 w2 i in screen_ok (Cst g9 w') /\ vc_video_mem_start w' = buf + i * size /\ vc_video_mem_end w' = buf + (i + 1) * size).
  { intros i Hi. cbv zeta. rewrite <-G4, <-G5. apply (other_ok g7 g9 w2 i nr); rewrite ?G1, ?G2, ?G3, ?G4, ?G5, ?K1, ?K2, ?K3; try done; change MEM_BUFFER_SIZE with 64000; lia. }
  set (w3 := set_vc_pos _ _). set (sf := set_glob _ _).
  assert (Hcons : forall i w', i < nr -> aget (vc_cons sf) i = Some w' -> 0 <= i /\ (i = 0 /\ w' = w3 \/ i <> 0 /\ w' = console_at g7 w2 i)).
  { intros i w' Hi Hw'. assert (Hi0 : 0 <= i) by (apply aget_Some_range in Hw'; clear -Hw'; lia). split; [done|]. unfold sf in Hw'. cbn [vc_cons set_glob set_vc_cons] in Hw'.
    destruct (decide (i = 0)) as [->|Hne]; [left|right].
    - rewrite aget_insert_eq in Hw' by lia. injection Hw' as <-. done.
    - rewrite aget_insert_ne in Hw' by lia. rewrite Hin in Hw' by lia. injection Hw' as <-. done. }
  assert (Hfirst : screen_ok (Cst g9 w3)).
  { assert (E0 : w3 = set_vc_pos (u32 (base + vc_y w2 * (video_size_row g9) + Z.shiftl (vc_x w2) 1)) (set_vc_bottom (video_num_lines g9) (set_vc_top 0
      (set_vc_scr_end (u32 (base + video_num_lines g9 * video_size_row g9)) (set_vc_origin base (set_vc_video_mem_end term (set_vc_video_mem_start base w2))))))) by reflexivity.
    rewrite E0. apply (first_ok g9 base term w2); rewrite ?K1, ?K2, ?K3; try done; lia. }
  split.
  - intros i w' Hi Hw'. change (NR_CONSOLES (glob sf)) with nr in Hi. change (glob sf) with g9. destruct (Hcons i w' Hi Hw') as (Hi0 & [[-> ->]|[Hne ->]]); [done|]. by apply Hone.
  - intros i i' w' w'' Hne Hi Hi' Hw' Hw''. change (NR_CONSOLES (glob sf)) with nr in Hi, Hi'. destruct (Hcons i w' Hi Hw') as (A0 & A), (Hcons i' w'' Hi' Hw'') as (A0' & A').
    change (vc_video_mem_start w3) with base. change (vc_video_mem_end w3) with term.
    destruct A as [[-> ->]|[Hn ->]], A' as [[-> ->]|[Hn' ->]]; [done|..].
    + destruct (Hone i') as (_ & E1 & E2); [lia|]. rewrite E1, E2. change (vc_video_mem_start w3) with base. change (vc_video_mem_end w3) with term.
      pose proof (rows_le (i' + 1) nr size). pose proof (rows_le 0 i' size). lia.
    + destruct (Hone i) as (_ & E1 & E2); [lia|]. rewrite E1, E2. change (vc_video_mem_start w3) with base. change (vc_video_mem_end w3) with term.
      pose proof (rows_le (i + 1) nr size). pose proof (rows_le 0 i size). lia.
    + destruct (Hone i) as (_ & E1 & E2); [lia|]. destruct (Hone i') as (_ & E3 & E4); [lia|]. rewrite E1, E2, E3, E4.
      pose proof (rows_le (i + 1) i' size). pose proof (rows_le (i' + 1) i size). lia.
Qed.

(** ** Properties *)

(** [con_init] leaves every console in order (its cursor on its screen, its
    screen in its window) with a window of its own: the first one has the memory
    of the card, the others have parts of [vc_scrmembuf], and no two windows
    meet.  (If the cell under the name of the card is blank, see below.) *)
Theorem con_init_consoles (b : boot_params) (s : tts) (base term type colour : Z) (desc : list Z)
    (Hboot : boot_ok b s) (Hcard : detect_card b = (base, term, type, colour, desc))
    (Hblank : byte_at (vmem (glob s)) (base + ORIG_VIDEO_COLS b * 2 - 8) = 0) :
  exists s', con_init b s = Ok tt s' /\ consoles_ok s' /\ windows_apart s'.
Proof. pose proof (con_init_run b s Hboot) as H. rewrite Hcard in H. by apply H. Qed.

(** the loop that shows the name of the card tests the screen instead of the
    name: if the four cells at the end of the first line and the first two of the
    second one are not blank, [con_init] reads past the end of the name. *)
Theorem con_init_overruns (b : boot_params) (s : tts) (base term type colour : Z) (desc : list Z)
    (Hboot : boot_ok b s) (Hcard : detect_card b = (base, term, type, colour, desc)) (Hlines : 2 <= ORIG_VIDEO_LINES b)
    (Hcells : forall k, 0 <= k <= 5 -> byte_at (vmem (glob s)) (base + ORIG_VIDEO_COLS b * 2 - 8 + 2 * k) <> 0) :
  exists s', con_init b s = Halt Fault s'.
Proof.
  pose proof (con_init_start b s Hboot) as Hst. pose proof (detect_card_ok b) as Hdet. rewrite Hcard in Hst, Hdet.
  destruct Hst as (k & g & w & -> & Ew & Em & Ec & El & Er & Eb & Et & Es). destruct Hdet as (D1 & D2 & D3 & Dl). destruct Hboot as [[B1 _] B2 B3 B4 _ _ _].
  pose proof (rows_le 2 (ORIG_VIDEO_LINES b) (ORIG_VIDEO_COLS b * 2)) as Hl2. cbv zeta. rewrite Eb, Er.
  replace (u32 (base + ORIG_VIDEO_COLS b * 2 - 8)) with (base + ORIG_VIDEO_COLS b * 2 - 8) by (symmetry; apply u32_small; unfold in_u32; lia).
  destruct (show_desc_overrun desc (base + ORIG_VIDEO_COLS b * 2 - 8) g w) as (s' & Hr).
  { intros i Hi. rewrite Dl in Hi. split; [unfold in_video; rewrite Eb, Et; lia|rewrite Em; apply Hcells; lia]. }
  set (s4 := Tts k _ _ _ _ _). assert (H4 : aget (vc_cons s4) 0 = Some w) by (apply (aget_insert_eq _ 0); by rewrite B4).
  unfold mbind at 1, M_bind at 1. unfold on_con at 1. rewrite H4. change (glob s4) with g. rewrite Hr. by eexists.
Qed.

(** ** Witnesses *)

(** The text mode 80x25 of an EGA card, and a machine that has just started;
    [m] is the memory of the card. *)
Definition text_mode : boot_params := Boot 0 10 0 3 80 25 0.
Definition fresh (m : gmap Z Z) : tts :=
  Tts calm_kernel [] [] (replicate (Z.to_nat MAX_CONSOLES) zero_vc) (Video m 0 0 0 0 0 0 0 0x200000 [] 0 0 0 ∅ 0 0 0 0 0 0) 0.

Lemma text_mode_ok m : boot_ok text_mode (fresh m).
Proof.
  split; cbn [ORIG_VIDEO_COLS ORIG_VIDEO_LINES text_mode fresh vc_cons glob vc_scrmembuf kern];
    [split; [lia|reflexivity]|lia|lia|reflexivity|unfold MEM_BUFFER_SIZE; lia|right; lia|].
  change (2 <= length (replicate 32 (0, 0)))%nat. rewrite length_replicate. lia.
Qed.

Lemma con_init_consoles_witness : exists s', con_init text_mode (fresh ∅) = Ok tt s' /\ consoles_ok s' /\ windows_apart s'.
Proof. apply (con_init_consoles text_mode (fresh ∅) 0xb8000 0xc0000 VIDEO_TYPE_EGAC 1 [69; 71; 65; 99; 0]); [apply text_mode_ok|reflexivity|reflexivity]. Defined.

(** A screen full of spaces. *)
Definition spaces : gmap Z Z := list_to_map ((fun k => (0xb8000 + 2 * k, 32)) <$> range 0 100).

Lemma con_init_overruns_witness : exists s', con_init text_mode (fresh spaces) = Halt Fault s'.
Proof.
  apply (con_init_overruns text_mode (fresh spaces) 0xb8000 0xc0000 VIDEO_TYPE_EGAC 1 [69; 71; 65; 99; 0]); [apply text_mode_ok|reflexivity|cbn; lia|].
  intros k Hk. assert (Hcs : k = 0 \/ k = 1 \/ k = 2 \/ k = 3 \/ k = 4 \/ k = 5) by lia.
  destruct Hcs as [->|[->|[->|[->|[->| ->]]]]]; vm_compute; discriminate.
Defined.
