(* ===== verification/TtyIoctl.v ===== *)
(** * Terminal control: [kernel/chr_drv/tty_ioctl.c]

    [tty_ioctl] reads and sets the modes, the process group and the size of a
    terminal, and flushes its queues.  [fs] is the user's memory; what is written
    there is in the trace of the tasks. *)

From S2P Require Import Prelude TaskStruct Sched Exit Signal Queue Console Blk Tty TtyOk.

Definition TCGETS : Z := 0x5401.
Definition TCSETS : Z := 0x5402.
Definition TCSETSW : Z := 0x5403.
Definition TCSETSF : Z := 0x5404.
Definition TCGETA : Z := 0x5405.
Definition TCSETA : Z := 0x5406.
Definition TCSETAW : Z := 0x5407.
Definition TCSETAF : Z := 0x5408.
Definition TCSBRK : Z := 0x5409.
Definition TCXONC : Z := 0x540A.
Definition TCFLSH : Z := 0x540B.
Definition TIOCGPGRP : Z := 0x540F.
Definition TIOCSPGRP : Z := 0x5410.
Definition TIOCOUTQ : Z := 0x5411.
Definition TIOCGWINSZ : Z := 0x5413.
Definition TIOCSWINSZ : Z := 0x5414.
Definition TIOCINQ : Z := 0x541B.
Definition TIOCLINUX : Z := 0x541C.

(** Structures in memory.  [struct termios] has two bytes of padding at its end
    and [struct termio] one, which are taken as zero. *)
Definition word_bytes (v : Z) : list Z := [u8 v; u8 (Z.shiftr v 8)].
Definition SIZEOF_TERMIOS : Z := 36.
Definition SIZEOF_TERMIO : Z := 18.
Definition SIZEOF_WINSIZE : Z := 8.
Definition NCC : Z := 8.

Definition termios_bytes (t : termios) : list Z :=
  long_bytes (c_iflag t) ++ long_bytes (c_oflag t) ++ long_bytes (c_cflag t) ++ long_bytes (c_lflag t) ++ [u8 (c_line t)] ++ (u8 <$> c_cc t) ++ [0; 0].
Definition termio_bytes (t : termios) : list Z :=
  word_bytes (c_iflag t) ++ word_bytes (c_oflag t) ++ word_bytes (c_cflag t) ++ word_bytes (c_lflag t) ++ [u8 (c_line t)] ++ (u8 <$> take (Z.to_nat NCC) (c_cc t)) ++ [0].
Definition winsize_bytes (w : winsize) : list Z := word_bytes (ws_row w) ++ word_bytes (ws_col w) ++ word_bytes (ws_xpixel w) ++ word_bytes (ws_ypixel w).

Definition get_fs_bytes (fs : umem) (a : Z) (n : nat) : list Z := (fun i => get_fs_byte fs (a + i)) <$> range 0 n.
Definition read_termios (fs : umem) (a : Z) : termios :=
  Termios (get_fs_long fs a) (get_fs_long fs (a + 4)) (get_fs_long fs (a + 8)) (get_fs_long fs (a + 12)) (get_fs_byte fs (a + 16)) (get_fs_bytes fs (a + 17) (Z.to_nat NCCS)).
Definition read_winsize (fs : umem) (a : Z) : winsize :=
  Winsize (get_fs_word fs a) (get_fs_word fs (a + 2)) (get_fs_word fs (a + 4)) (get_fs_word fs (a + 6)).

(** Storing through a pointer to [unsigned short]: the low half changes. *)
Definition low_half (flag v : Z) : Z := Z.lor (Z.land flag 0xffff0000) v.

Definition quotient : list Z := [0; 2304; 1536; 1047; 857; 768; 576; 384; 192; 96; 64; 48; 24; 12; 6; 3].

Section Ioctl.
Context `{TtyEnv} (patience : nat) (write : Z -> M tts unit).
(** The divisor of a serial chip; [do_screendump] and [do_get_ps_info]. *)
Context (set_divisor : Z -> Z -> M tts unit) (screendump ps_info : Z -> M tts Z).

(** [static void change_speed(struct tty_struct * tty)] *)
Definition change_speed (i : Z) : M tts unit :=
  t ← tty_at i; q ← queue_at (read_q t);
  let port := u16 (q_data q) in
  if port =? 0 then mret tt
  else quot ← ofOpt (aget quotient (Z.land (c_cflag (t_termios t)) CBAUD)); set_divisor port quot.

(** [static void flush(struct tty_queue * queue)] *)
Definition flush (q : option Z) : M tts unit := v ← queue_at q; queue_put q (set_q_head (q_tail v) v).

(** [static void wait_until_sent(struct tty_struct * tty)] *)
Definition wait_until_sent (i : Z) : M tts unit :=
  iter patience (fun _ =>
    t ← tty_at i; p ← on_kern signal_pending; q ← queue_at (write_q t);
    if negb p && negb (EMPTY q) then on_kern (upd_cur (set_counter 0));; j ← ofOpt (write_q t); tty_sleep j;; mret (inl tt) else mret (inr tt)) tt.

(** [static int get_termios(struct tty_struct * tty, struct termios * termios)] *)
Definition get_termios (i a : Z) : M tts Z :=
  on_kern (call_verify_area a SIZEOF_TERMIOS);; t ← tty_at i; on_kern (put_bytes (termios_bytes (t_termios t)) a);; mret 0.

(** A task in the background is told, and may have to leave: what [tty_signal]
    says, if the call ends there. *)
Definition background (i channel : Z) : M tts (option Z) :=
  ctty ← on_kern (cur tty); pg ← on_kern (cur pgrp); tpg ← on_kern (pgrp_of i);
  if (ctty =? channel) && negb (tpg =? pg) then
    r ← on_kern (tty_signal SIGTTOU);
    mret (if (r =? - ERESTARTSYS) || (r =? - EINTR) then Some r else None)
  else mret None.

(** [static int set_termios(struct tty_struct * tty, struct termios * termios, int channel)] *)
Definition set_termios (fs : umem) (i a channel : Z) : M tts Z :=
  o ← background i channel;
  match o with
  | Some r => mret r
  | None => tty_upd i (set_t_termios (read_termios fs a));; change_speed i;; mret 0
  end.

(** [static int get_termio(struct tty_struct * tty, struct termio * termio)] *)
Definition get_termio (i a : Z) : M tts Z :=
  on_kern (call_verify_area a SIZEOF_TERMIO);; t ← tty_at i; on_kern (put_bytes (termio_bytes (t_termios t)) a);; mret 0.

(** [static int set_termio(struct tty_struct * tty, struct termio * termio, int channel)] *)
Definition read_termio (fs : umem) (a : Z) (t : termios) : termios :=
  Termios (low_half (c_iflag t) (get_fs_word fs a)) (low_half (c_oflag t) (get_fs_word fs (a + 2))) (low_half (c_cflag t) (get_fs_word fs (a + 4)))
    (low_half (c_lflag t) (get_fs_word fs (a + 6))) (get_fs_byte fs (a + 8)) (get_fs_bytes fs (a + 9) (Z.to_nat NCC) ++ drop (Z.to_nat NCC) (c_cc t)).
Definition set_termio (fs : umem) (i a channel : Z) : M tts Z :=
  o ← background i channel;
  match o with
  | Some r => mret r
  | None => tty_upd i (fun t => set_t_termios (read_termio fs a (t_termios t)) t);; change_speed i;; mret 0
  end.

(** [static int set_window_size(struct tty_struct *tty, struct winsize *ws)] *)
Definition set_window_size (fs : umem) (i ws : Z) : M tts Z :=
  if ws =? 0 then mret (- EINVAL)
  else
    t ← tty_at i;
    let w := read_winsize fs ws in
    tty_upd i (set_t_winsize w);;
    (if bool_decide (winsize_bytes w = winsize_bytes (t_winsize t)) then mret tt else on_kern (p ← pgrp_of i; _ ← kill_pg p SIGWINCH true; mret tt));;
    mret 0.

(** [static int get_window_size(struct tty_struct *tty, struct winsize *ws)] *)
Definition get_window_size (i ws : Z) : M tts Z :=
  if ws =? 0 then mret (- EINVAL)
  else on_kern (call_verify_area ws SIZEOF_WINSIZE);; t ← tty_at i; on_kern (put_bytes (winsize_bytes (t_winsize t)) ws);; mret 0.

Definition flush_input (i : Z) (other : option Z) : M tts unit :=
  t ← tty_at i;
  flush (read_q t);; flush (secondary t);;
  match other with Some o => ot ← tty_at o; flush (write_q ot) | None => mret tt end.

Definition put_count (n a : Z) : M tts Z := on_kern (call_verify_area a 4;; put_fs_long n a);; mret 0.

(** [int tty_ioctl(int dev, int cmd, int arg)] *)
Definition tty_ioctl (fs : umem) (dev cmd arg : Z) : M tts Z :=
  dev ← (if MAJOR dev =? 5 then d ← on_kern (cur tty); if d <? 0 then halts (Panic "tty_ioctl: dev < 0") else mret d else mret (Z.land dev 0xff));
  i ← TTY_TABLE dev;
  let other := if truth (Z.land dev 0x80) then Some (Z.lxor dev 0x40) else None in
  t ← tty_at i;
  match write_q t, read_q t, secondary t, t_write t with
  | Some _, Some _, Some _, Some _ =>
      if cmd =? TCGETS then get_termios i arg
      else if cmd =? TCSETSF then flush_input i other;; wait_until_sent i;; set_termios fs i arg dev
      else if cmd =? TCSETSW then wait_until_sent i;; set_termios fs i arg dev
      else if cmd =? TCSETS then set_termios fs i arg dev
      else if cmd =? TCGETA then get_termio i arg
      else if cmd =? TCSETAF then flush_input i other;; wait_until_sent i;; set_termio fs i arg dev
      else if cmd =? TCSETAW then wait_until_sent i;; set_termio fs i arg dev
      else if cmd =? TCSETA then set_termio fs i arg dev
      else if cmd =? TCSBRK then (if arg =? 0 then wait_until_sent i else mret tt);; mret 0
      else if cmd =? TCXONC then
        if arg =? 0 then tty_upd i (set_t_stopped 1);; TTY_WRITE_FLUSH write i;; mret 0
        else if arg =? 1 then tty_upd i (set_t_stopped 0);; TTY_WRITE_FLUSH write i;; mret 0
        else if arg =? 2 then when (truth (CC t VSTOP)) (putch (CC t VSTOP) (write_q t));; mret 0
        else if arg =? 3 then when (truth (CC t VSTART)) (putch (CC t VSTART) (write_q t));; mret 0
        else mret (- EINVAL)
      else if cmd =? TCFLSH then
        if arg =? 0 then flush_input i other;; mret 0
        else if arg =? 1 then flush (write_q t);; mret 0
        else if arg =? 2 then flush_input i None;; flush (write_q t);; match other with Some o => ot ← tty_at o; flush (write_q ot) | None => mret tt end;; mret 0
        else mret (- EINVAL)
      else if cmd =? TIOCGPGRP then p ← on_kern (pgrp_of i); put_count p arg
      else if cmd =? TIOCSPGRP then
        on_kern (
          ctty ← cur tty; se ← cur session; k ← getS; '(_, tse) ← ofOpt (aget (tty_group (sysd k)) i);
          if (ctty <? 0) || negb (ctty =? dev) || negb (tse =? se) then mret (- ENOTTY)
          else
            let pg := s32 (get_fs_long fs arg) in
            if pg <? 0 then mret (- EINVAL)
            else
              so ← session_of_pgrp pg;
              if negb (so =? se) then mret (- EPERM)
              else
                let d := sysd k in
                l ← ofOpt (aset (tty_group d) i (pg, tse));
                modify (set_sysd (SysData (nodename d) (tz_minuteswest d) (tz_dsttime d) (firsttime d) (last_pid d) (last_task_used_math d) (fg_console d) l));;
                mret 0)
      else if cmd =? TIOCOUTQ then q ← queue_at (write_q t); put_count (CHARS q) arg
      else if cmd =? TIOCINQ then q ← queue_at (secondary t); put_count (CHARS q) arg
      else if cmd =? TIOCGWINSZ then get_window_size i arg
      else if cmd =? TIOCSWINSZ then
        match other with Some o => _ ← set_window_size fs o arg; mret tt | None => mret tt end;; set_window_size fs i arg
      else if cmd =? TIOCLINUX then
        let c := get_fs_byte fs arg in
        if c =? 0 then screendump arg else if c =? 1 then ps_info arg else mret (- EINVAL)
      else mret (- EINVAL)
  | _, _, _, _ => mret (- EINVAL)
  end.

End Ioctl.

(** ** Setting and reading back the modes *)

Lemma long_bytes_get fs a : long_bytes (get_fs_long fs a) = get_fs_bytes fs a 4.
Proof.
  unfold long_bytes, get_fs_long, get_fs_word, get_fs_bytes, range.
  change (_ <$> (_ <$> seq 0 4)) with [get_fs_byte fs (a + 0); get_fs_byte fs (a + 1); get_fs_byte fs (a + 2); get_fs_byte fs (a + 3)]. rewrite Z.add_0_r.
  replace (a + 2 + 1) with (a + 3) by lia.
  assert (Hb : forall x, 0 <= get_fs_byte fs x < 256) by (intros x; apply u8_range).
  pose proof (Hb a). pose proof (Hb (a + 1)). pose proof (Hb (a + 2)). pose proof (Hb (a + 3)).
  unfold u8. rewrite !Z.shiftr_div_pow2 by lia. change (2 ^ 8) with 256. change (2 ^ 16) with 65536. change (2 ^ 24) with 16777216.
  repeat f_equal; Z.to_euclidean_division_equations; lia.
Qed.

Lemma get_fs_bytes_app fs a n m : get_fs_bytes fs a (n + m) = get_fs_bytes fs a n ++ get_fs_bytes fs (a + Z.of_nat n) m.
Proof.
  unfold get_fs_bytes, range. rewrite seq_app, !fmap_app. f_equal. rewrite <-!list_fmap_compose.
  rewrite Nat.add_0_l. replace n with (n + 0)%nat at 1 by lia. rewrite <-fmap_add_seq, <-list_fmap_compose.
  apply list_fmap_ext. intros i x _. cbn. f_equal. lia.
Qed.

Lemma get_fs_bytes_u8 fs a n : u8 <$> get_fs_bytes fs a n = get_fs_bytes fs a n.
Proof.
  unfold get_fs_bytes. rewrite <-list_fmap_compose. apply list_fmap_ext. intros i x _. apply u8_small, u8_range.
Qed.

(** What [set_termios] reads is what [get_termios] writes. *)
Lemma termios_bytes_read fs a : termios_bytes (read_termios fs a) = get_fs_bytes fs a 34 ++ [0; 0].
Proof.
  unfold termios_bytes, read_termios. cbn [c_iflag c_oflag c_cflag c_lflag c_line c_cc]. rewrite !long_bytes_get, get_fs_bytes_u8.
  change 34%nat with (4 + (4 + (4 + (4 + (1 + 17)))))%nat. rewrite !get_fs_bytes_app, <-!app_assoc.
  change (Z.of_nat 4) with 4. change (Z.of_nat 1) with 1. rewrite <-!Z.add_assoc.
  assert (E : u8 (get_fs_byte fs (a + 16)) = get_fs_byte fs (a + 16 + 0)) by (rewrite Z.add_0_r; apply u8_small, u8_range).
  rewrite E. reflexivity.
Qed.


(** The terminal [i] behind device [dev], as the running task [p] sees it: with
    queues and a device, not a serial line, and not in use by another process
    group of the task's session. *)
Record at_terminal (dev i r : Z) (p : task_struct) (t : tty_struct) (s : tts) : Prop := {
  at_major : MAJOR dev <> 5;
  at_index : TTY_TABLE (Z.land dev 0xff) s = Ok i s;
  at_tty : aget (tty_table s) i = Some t;
  at_queues : read_q t = Some r /\ is_Some (write_q t) /\ is_Some (secondary t) /\ is_Some (t_write t);
  at_line : exists q, aget (tty_queues s) r = Some q /\ u16 (q_data q) = 0;
  at_task : heap (kern s) !! current (kern s) = Some p;
  at_group : exists g, aget (tty_group (sysd (kern s))) i = Some g /\ (tty p <> Z.land dev 0xff \/ g.1 = pgrp p)
}.

Lemma on_kern_cur {A} (f : task_struct -> A) s p : heap (kern s) !! current (kern s) = Some p -> on_kern (cur f) s = Ok (f p) s.
Proof.
  intros H. rewrite (on_kern_run _ _ (f p) (kern s)); [by destruct s|].
  unfold cur, deref. rewrite (run_bind _ _ _ (current (kern s)) (kern s)) by reflexivity. rewrite (run_bind _ _ _ p (kern s)); [reflexivity|].
  unfold mbind, M_bind, getS. cbn. by rewrite H.
Qed.

Lemma background_calm dev i r p t s : at_terminal dev i r p t s -> background i (Z.land dev 0xff) s = Ok None s.
Proof.
  intros [? ? ? ? ? Hp (g & Hg & Hf)]. unfold background.
  rewrite (run_bind _ _ _ (tty p) s) by (by apply on_kern_cur). rewrite (run_bind _ _ _ (pgrp p) s) by (by apply on_kern_cur).
  rewrite (run_bind _ _ _ g.1 s).
  2:{ rewrite (on_kern_run _ _ g.1 (kern s)); [by destruct s|]. unfold pgrp_of. rewrite (run_bind _ _ _ (kern s) (kern s)) by reflexivity.
      rewrite Hg. by destruct g. }
  destruct (Z.eqb_spec (tty p) (Z.land dev 255)) as [E|E]; [|reflexivity]. destruct Hf as [?| ->]; [done|]. rewrite Z.eqb_refl. reflexivity.
Qed.

(** The checks at the start of [tty_ioctl] pass. *)
Lemma tty_ioctl_enter `{TtyEnv} n w sd dump ps fs dev cmd arg i r p t s : at_terminal dev i r p t s ->
  (cmd = TCSETS -> tty_ioctl n w sd dump ps fs dev cmd arg s = set_termios sd fs i arg (Z.land dev 0xff) s) /\
  (cmd = TCGETS -> tty_ioctl n w sd dump ps fs dev cmd arg s = get_termios i arg s).
Proof.
  intros [Hm Hx Ht (Hr & [wq_ Hw] & [sq Hs2] & [wf Hf]) _ _ _].
  split; intros ->; unfold tty_ioctl; (rewrite (proj2 (Z.eqb_neq _ _) Hm), (run_bind _ _ _ (Z.land dev 0xff) s) by reflexivity);
    rewrite (run_bind _ _ _ i s) by done; rewrite (run_bind _ _ _ t s) by (by apply tty_at_run); rewrite Hw, Hr, Hs2, Hf; reflexivity.
Qed.

(** the modes a task sets with [TCSETS] are those it reads back with
    [TCGETS]: the first call changes nothing but the modes of the terminal, and
    the second writes the 34 bytes of the structure the first one read. *)
Theorem termios_roundtrip `{TtyEnv} (patience : nat) (write : Z -> M tts unit) (set_divisor : Z -> Z -> M tts unit) (screendump ps_info : Z -> M tts Z)
    (fs fs2 : umem) (dev a b i r : Z) (p : task_struct) (t : tty_struct) (s : tts) (Hs : at_terminal dev i r p t s) :
  exists s1 s2, tty_ioctl patience write set_divisor screendump ps_info fs dev TCSETS a s = Ok 0 s1 /\
    s1 = set_tty_table (<[Z.to_nat i := set_t_termios (read_termios fs a) t]> (tty_table s)) s /\
    tty_ioctl patience write set_divisor screendump ps_info fs2 dev TCGETS b s1 = Ok 0 s2 /\ tty_table s2 = tty_table s1 /\
    trace (kern s2) = trace (kern s1) ++ EVerify b SIZEOF_TERMIOS :: byte_events (get_fs_bytes fs a 34 ++ [0; 0]) b.
Proof.
  set (t1 := set_t_termios (read_termios fs a) t). set (s1 := set_tty_table _ s).
  pose proof (at_tty _ _ _ _ _ _ Hs) as Ht.
  assert (Hs1 : at_terminal dev i r p t1 s1).
  { destruct Hs as [? Hx ? ? ? ? ?]. split; try done; [|by eapply aget_insert_eq, aget_Some_range].
    revert Hx. unfold TTY_TABLE. intros Hx. injection Hx as <-. reflexivity. }
  eexists s1, _. split; [|split; [reflexivity|split; [|split]]].
  - rewrite (proj1 (tty_ioctl_enter _ _ _ _ _ _ _ _ _ _ _ _ _ _ Hs) eq_refl). unfold set_termios.
    rewrite (run_bind _ _ _ None s) by (by eapply background_calm). rewrite (run_bind _ _ _ tt s1) by (by apply tty_upd_run).
    unfold change_speed. destruct (at_line _ _ _ _ _ _ Hs1) as (q & Hq & Hq0). destruct (at_queues _ _ _ _ _ _ Hs1) as (Hr & _).
    rewrite (run_bind _ _ _ tt s1); [reflexivity|].
    rewrite (run_bind _ _ _ t1 s1) by (by apply tty_at_run, (at_tty _ _ _ _ _ _ Hs1)). rewrite Hr. rewrite (run_bind _ _ _ q s1) by (by apply queue_at_run).
    rewrite Hq0. reflexivity.
  - rewrite (proj2 (tty_ioctl_enter _ _ _ _ _ _ _ _ _ _ _ _ _ _ Hs1) eq_refl). unfold get_termios.
    set (k1 := add_event (EVerify b SIZEOF_TERMIOS) (kern s1)).
    rewrite (run_bind _ _ _ tt (set_kern k1 s1)) by (by apply on_kern_run).
    rewrite (run_bind _ _ _ t1 (set_kern k1 s1)) by (apply tty_at_run, (at_tty _ _ _ _ _ _ Hs1)).
    erewrite run_bind; [reflexivity|]. apply on_kern_run, put_bytes_run.
  - reflexivity.
  - rewrite <-termios_bytes_read. change (t_termios t1) with (read_termios fs a). cbn [kern set_kern].
    unfold add_event, set_trace. cbn [trace]. by rewrite <-app_assoc.
Qed.

(** ** Flushing the input *)

Lemma flush_queue_run j s q : aget (tty_queues s) j = Some q -> flush (Some j) s = Ok tt (put_queue j (set_q_head (q_tail q) q) s).
Proof. intros Hq. unfold flush. rewrite (run_bind _ _ _ q s) by (by apply queue_at_run). by eapply queue_put_run. Qed.

Lemma flushed_empty q : content (set_q_head (q_tail q) q) = [].
Proof. unfold content, q_count. cbn [q_head q_tail set_q_head]. rewrite Z.sub_diag. reflexivity. Qed.

(** [TCFLSH] throws away the input of a terminal, but not the number of
    finished lines in it: the queue of lines is empty and [secondary->data] is
    what it was.  A later [tty_read] then takes an unfinished line for a
    finished one. *)
Theorem flush_keeps_lines `{TtyEnv} (patience : nat) (write : Z -> M tts unit) (set_divisor : Z -> Z -> M tts unit) (screendump ps_info : Z -> M tts Z)
    (fs : umem) (dev i r d : Z) (p : task_struct) (t : tty_struct) (q : tty_queue) (s : tts)
    (Hs : at_terminal dev i r p t s) (Hpty : Z.land (Z.land dev 0xff) 0x80 = 0) (Hd : secondary t = Some d) (Hrd : 0 <= r /\ r <> d)
    (Hq : aget (tty_queues s) d = Some q) :
  exists s' qr qd, tty_ioctl patience write set_divisor screendump ps_info fs dev TCFLSH 0 s = Ok 0 s' /\
    aget (tty_queues s') r = Some qr /\ content qr = [] /\ aget (tty_queues s') d = Some qd /\ content qd = [] /\ q_data qd = q_data q.
Proof.
  destruct Hs as [Hm Hx Ht (Hr & [wq_ Hw] & _ & [wf Hf]) (qr & Hqr & _) _ _].
  set (s1 := put_queue r (set_q_head (q_tail qr) qr) s). set (s2 := put_queue d (set_q_head (q_tail q) q) s1).
  assert (Hq1 : aget (tty_queues s1) d = Some q) by (unfold s1; rewrite put_queue_ne; tauto).
  exists s2, (set_q_head (q_tail qr) qr), (set_q_head (q_tail q) q). split; [|split; [|split; [apply flushed_empty|split; [|split; [apply flushed_empty|reflexivity]]]]].
  - unfold tty_ioctl. rewrite (proj2 (Z.eqb_neq _ _) Hm), (run_bind _ _ _ (Z.land dev 0xff) s) by reflexivity.
    rewrite (run_bind _ _ _ i s) by done. rewrite (run_bind _ _ _ t s) by (by apply tty_at_run). rewrite Hw, Hr, Hd, Hf, Hpty.
    change (truth 0) with false. cbn match.
    transitivity ((flush_input i None ≫= fun _ => mret 0) s); [reflexivity|]. rewrite (run_bind _ _ _ tt s2); [reflexivity|].
    unfold flush_input. rewrite (run_bind _ _ _ t s) by (by apply tty_at_run). rewrite Hr, Hd.
    rewrite (run_bind _ _ _ tt s1) by (by apply flush_queue_run). rewrite (run_bind _ _ _ tt s2) by (by apply flush_queue_run). reflexivity.
  - unfold s2. assert (0 <= d) by (apply aget_Some_range in Hq; lia). rewrite put_queue_ne by (lia || naive_solver). by eapply put_queue_eq.
  - by eapply put_queue_eq.
Qed.


(** ** Witnesses *)

#[local] Instance quiet_env : TtyEnv := {| tty_sleep := fun _ => mret tt; tty_yield := mret tt; rs_write := fun _ => mret tt |}.

(** A console whose line "h" is finished, with a task that reads it. *)
Definition demo_line : tts :=
  let s := demo_terminal [] [] [104; 10] in
  put_queue 2 (set_q_data 1 (queue_of [104; 10])) (set_kern (set_heap {[1%positive := INIT_TASK 1]} calm_kernel) s).

Lemma demo_line_at : at_terminal 1 0 0 (INIT_TASK 1) (demo_tty Wcon) demo_line.
Proof.
  split; [discriminate|reflexivity|reflexivity|repeat split; by eexists|exists (queue_of []); split; reflexivity|reflexivity|].
  exists (0, 0). split; [reflexivity|by right].
Qed.

Lemma termios_roundtrip_witness : exists s1 s2,
  tty_ioctl 9 (fun _ => mret tt) (fun _ _ => mret tt) (fun _ => mret 0) (fun _ => mret 0) (fun a => a) 1 TCSETS 512 demo_line = Ok 0 s1 /\
  s1 = set_tty_table (<[Z.to_nat 0 := set_t_termios (read_termios (fun a => a) 512) (demo_tty Wcon)]> (tty_table demo_line)) demo_line /\
  tty_ioctl 9 (fun _ => mret tt) (fun _ _ => mret tt) (fun _ => mret 0) (fun _ => mret 0) (fun a => 0) 1 TCGETS 1024 s1 = Ok 0 s2 /\
  tty_table s2 = tty_table s1 /\ trace (kern s2) = trace (kern s1) ++ EVerify 1024 SIZEOF_TERMIOS :: byte_events (range 0 34 ++ [0; 0]) 1024.
Proof.
  refine (termios_roundtrip 9 _ _ _ _ (fun a => a) (fun a => 0) 1 512 1024 0 0 (INIT_TASK 1) (demo_tty Wcon) demo_line _). exact demo_line_at.
Defined.

(** After the flush, the single character "x" without a newline is read as a line. *)
Definition flush_then_type : M tts Z :=
  _ ← tty_ioctl 9 (fun _ => mret tt) (fun _ _ => mret tt) (fun _ => mret 0) (fun _ => mret 0) (fun a => 0) 1 TCFLSH 0;
  putch 120 (Some 0);; copy_to_cooked 9 (fun _ => mret tt) 0;; tty_read 9 (fun _ => mret tt) 1 4096 10.

Lemma flush_keeps_lines_witness :
  (exists s' qr qd, tty_ioctl 9 (fun _ => mret tt) (fun _ _ => mret tt) (fun _ => mret 0) (fun _ => mret 0) (fun a => 0) 1 TCFLSH 0 demo_line = Ok 0 s' /\
    aget (tty_queues s') 0 = Some qr /\ content qr = [] /\ aget (tty_queues s') 2 = Some qd /\ content qd = [] /\ q_data qd = 1) /\
  match flush_then_type demo_line with Ok n s => n = 1 /\ last (trace (kern s)) = Some (EPutB 4096 120) | _ => False end.
Proof.
  split.
  - refine (flush_keeps_lines 9 _ _ _ _ (fun a => 0) 1 0 0 2 (INIT_TASK 1) (demo_tty Wcon) (set_q_data 1 (queue_of [104; 10])) demo_line demo_line_at _ _ _ _);
      [reflexivity|reflexivity|lia|reflexivity].
  - vm_compute. split; reflexivity.
Defined.
