(* ===== verification/Fs.v ===== *)
(** * The tables of the file system: [include/linux/fs.h]

    The inodes in memory, the super blocks of mounted devices and the open files
    are arrays; a pointer to an entry is its index, and [NULL] is [None].  The
    file system reaches the disk through the buffer cache, whose promises to it
    are the interface [BufferCache] with the laws [BufferCacheOk]. *)

From S2P Require Import Prelude TaskStruct Sched.

Definition NR_INODE : Z := 128.
Definition NR_FILE : Z := 64.
Definition NR_SUPER : Z := 8.
Definition BLOCK_SIZE : Z := 1024.

(** A pointer to a buffer head. *)
Definition bptr := option Z.

(** ** Files, inodes and super blocks *)

(** The only instance of [struct inode_operations] in the kernel. *)
Inductive inode_operations := minix_inode_operations.

(** [struct inode], without the queues of waiting tasks, which are those of
    [i_wait] and [i_wait2] below. *)
Record inode := Inode {
  i_dev : Z;                              (* unsigned short *)
  i_ino : Z;                              (* unsigned short *)
  i_mode : Z;                             (* unsigned short *)
  i_nlink : Z;                            (* unsigned char *)
  i_uid : Z;                              (* unsigned short *)
  i_gid : Z;                              (* unsigned short *)
  i_rdev : Z;                             (* unsigned short *)
  i_size : Z;                             (* long *)
  i_atime : Z;
  i_mtime : Z;
  i_ctime : Z;
  i_data : list Z;                        (* unsigned long i_data[16] *)
  i_op : option inode_operations;
  i_sb : option Z;                        (* an entry of super_block *)
  i_count : Z;                            (* unsigned short *)
  i_lock : Z;                             (* unsigned char, as the rest *)
  i_dirt : Z;
  i_pipe : Z;
  i_mount : Z;
  i_seek : Z;
  i_update : Z
}.
Definition set_i_dev v n := Inode v (i_ino n) (i_mode n) (i_nlink n) (i_uid n) (i_gid n) (i_rdev n) (i_size n) (i_atime n) (i_mtime n) (i_ctime n) (i_data n) (i_op n) (i_sb n) (i_count n) (i_lock n) (i_dirt n) (i_pipe n) (i_mount n) (i_seek n) (i_update n).
Definition set_i_ino v n := Inode (i_dev n) v (i_mode n) (i_nlink n) (i_uid n) (i_gid n) (i_rdev n) (i_size n) (i_atime n) (i_mtime n) (i_ctime n) (i_data n) (i_op n) (i_sb n) (i_count n) (i_lock n) (i_dirt n) (i_pipe n) (i_mount n) (i_seek n) (i_update n).
Definition set_i_mode v n := Inode (i_dev n) (i_ino n) v (i_nlink n) (i_uid n) (i_gid n) (i_rdev n) (i_size n) (i_atime n) (i_mtime n) (i_ctime n) (i_data n) (i_op n) (i_sb n) (i_count n) (i_lock n) (i_dirt n) (i_pipe n) (i_mount n) (i_seek n) (i_update n).
Definition set_i_nlink v n := Inode (i_dev n) (i_ino n) (i_mode n) v (i_uid n) (i_gid n) (i_rdev n) (i_size n) (i_atime n) (i_mtime n) (i_ctime n) (i_data n) (i_op n) (i_sb n) (i_count n) (i_lock n) (i_dirt n) (i_pipe n) (i_mount n) (i_seek n) (i_update n).
Definition set_i_uid v n := Inode (i_dev n) (i_ino n) (i_mode n) (i_nlink n) v (i_gid n) (i_rdev n) (i_size n) (i_atime n) (i_mtime n) (i_ctime n) (i_data n) (i_op n) (i_sb n) (i_count n) (i_lock n) (i_dirt n) (i_pipe n) (i_mount n) (i_seek n) (i_update n).
Definition set_i_gid v n := Inode (i_dev n) (i_ino n) (i_mode n) (i_nlink n) (i_uid n) v (i_rdev n) (i_size n) (i_atime n) (i_mtime n) (i_ctime n) (i_data n) (i_op n) (i_sb n) (i_count n) (i_lock n) (i_dirt n) (i_pipe n) (i_mount n) (i_seek n) (i_update n).
Definition set_i_rdev v n := Inode (i_dev n) (i_ino n) (i_mode n) (i_nlink n) (i_uid n) (i_gid n) v (i_size n) (i_atime n) (i_mtime n) (i_ctime n) (i_data n) (i_op n) (i_sb n) (i_count n) (i_lock n) (i_dirt n) (i_pipe n) (i_mount n) (i_seek n) (i_update n).
Definition set_i_size v n := Inode (i_dev n) (i_ino n) (i_mode n) (i_nlink n) (i_uid n) (i_gid n) (i_rdev n) v (i_atime n) (i_mtime n) (i_ctime n) (i_data n) (i_op n) (i_sb n) (i_count n) (i_lock n) (i_dirt n) (i_pipe n) (i_mount n) (i_seek n) (i_update n).
Definition set_i_atime v n := Inode (i_dev n) (i_ino n) (i_mode n) (i_nlink n) (i_uid n) (i_gid n) (i_rdev n) (i_size n) v (i_mtime n) (i_ctime n) (i_data n) (i_op n) (i_sb n) (i_count n) (i_lock n) (i_dirt n) (i_pipe n) (i_mount n) (i_seek n) (i_update n).
Definition set_i_mtime v n := Inode (i_dev n) (i_ino n) (i_mode n) (i_nlink n) (i_uid n) (i_gid n) (i_rdev n) (i_size n) (i_atime n) v (i_ctime n) (i_data n) (i_op n) (i_sb n) (i_count n) (i_lock n) (i_dirt n) (i_pipe n) (i_mount n) (i_seek n) (i_update n).
Definition set_i_ctime v n := Inode (i_dev n) (i_ino n) (i_mode n) (i_nlink n) (i_uid n) (i_gid n) (i_rdev n) (i_size n) (i_atime n) (i_mtime n) v (i_data n) (i_op n) (i_sb n) (i_count n) (i_lock n) (i_dirt n) (i_pipe n) (i_mount n) (i_seek n) (i_update n).
Definition set_i_data v n := Inode (i_dev n) (i_ino n) (i_mode n) (i_nlink n) (i_uid n) (i_gid n) (i_rdev n) (i_size n) (i_atime n) (i_mtime n) (i_ctime n) v (i_op n) (i_sb n) (i_count n) (i_lock n) (i_dirt n) (i_pipe n) (i_mount n) (i_seek n) (i_update n).
Definition set_i_op v n := Inode (i_dev n) (i_ino n) (i_mode n) (i_nlink n) (i_uid n) (i_gid n) (i_rdev n) (i_size n) (i_atime n) (i_mtime n) (i_ctime n) (i_data n) v (i_sb n) (i_count n) (i_lock n) (i_dirt n) (i_pipe n) (i_mount n) (i_seek n) (i_update n).
Definition set_i_sb v n := Inode (i_dev n) (i_ino n) (i_mode n) (i_nlink n) (i_uid n) (i_gid n) (i_rdev n) (i_size n) (i_atime n) (i_mtime n) (i_ctime n) (i_data n) (i_op n) v (i_count n) (i_lock n) (i_dirt n) (i_pipe n) (i_mount n) (i_seek n) (i_update n).
Definition set_i_count v n := Inode (i_dev n) (i_ino n) (i_mode n) (i_nlink n) (i_uid n) (i_gid n) (i_rdev n) (i_size n) (i_atime n) (i_mtime n) (i_ctime n) (i_data n) (i_op n) (i_sb n) v (i_lock n) (i_dirt n) (i_pipe n) (i_mount n) (i_seek n) (i_update n).
Definition set_i_lock v n := Inode (i_dev n) (i_ino n) (i_mode n) (i_nlink n) (i_uid n) (i_gid n) (i_rdev n) (i_size n) (i_atime n) (i_mtime n) (i_ctime n) (i_data n) (i_op n) (i_sb n) (i_count n) v (i_dirt n) (i_pipe n) (i_mount n) (i_seek n) (i_update n).
Definition set_i_dirt v n := Inode (i_dev n) (i_ino n) (i_mode n) (i_nlink n) (i_uid n) (i_gid n) (i_rdev n) (i_size n) (i_atime n) (i_mtime n) (i_ctime n) (i_data n) (i_op n) (i_sb n) (i_count n) (i_lock n) v (i_pipe n) (i_mount n) (i_seek n) (i_update n).
Definition set_i_pipe v n := Inode (i_dev n) (i_ino n) (i_mode n) (i_nlink n) (i_uid n) (i_gid n) (i_rdev n) (i_size n) (i_atime n) (i_mtime n) (i_ctime n) (i_data n) (i_op n) (i_sb n) (i_count n) (i_lock n) (i_dirt n) v (i_mount n) (i_seek n) (i_update n).
Definition set_i_mount v n := Inode (i_dev n) (i_ino n) (i_mode n) (i_nlink n) (i_uid n) (i_gid n) (i_rdev n) (i_size n) (i_atime n) (i_mtime n) (i_ctime n) (i_data n) (i_op n) (i_sb n) (i_count n) (i_lock n) (i_dirt n) (i_pipe n) v (i_seek n) (i_update n).
Definition set_i_seek v n := Inode (i_dev n) (i_ino n) (i_mode n) (i_nlink n) (i_uid n) (i_gid n) (i_rdev n) (i_size n) (i_atime n) (i_mtime n) (i_ctime n) (i_data n) (i_op n) (i_sb n) (i_count n) (i_lock n) (i_dirt n) (i_pipe n) (i_mount n) v (i_update n).
Definition set_i_update v n := Inode (i_dev n) (i_ino n) (i_mode n) (i_nlink n) (i_uid n) (i_gid n) (i_rdev n) (i_size n) (i_atime n) (i_mtime n) (i_ctime n) (i_data n) (i_op n) (i_sb n) (i_count n) (i_lock n) (i_dirt n) (i_pipe n) (i_mount n) (i_seek n) v.

(** [struct super_block]; its waiting tasks are those of [s_wait]. *)
Record super_block := Super {
  s_ninodes : Z;                          (* unsigned short *)
  s_nzones : Z;
  s_imap_blocks : Z;
  s_zmap_blocks : Z;
  s_firstdatazone : Z;
  s_log_zone_size : Z;
  s_max_size : Z;                         (* unsigned long *)
  s_magic : Z;
  s_imap : list bptr;                     (* struct buffer_head *s_imap[8] *)
  s_zmap : list bptr;
  s_dev : Z;
  s_covered : option Z;                   (* an entry of inode_table *)
  s_mounted : option Z;
  s_time : Z;
  s_lock : Z;
  s_rd_only : Z;
  s_dirt : Z;
  s_op : bool                            (* whether s_op is &minix_sops; NULL otherwise *)
}.
Definition set_s_ninodes v b := Super v (s_nzones b) (s_imap_blocks b) (s_zmap_blocks b) (s_firstdatazone b) (s_log_zone_size b) (s_max_size b) (s_magic b) (s_imap b) (s_zmap b) (s_dev b) (s_covered b) (s_mounted b) (s_time b) (s_lock b) (s_rd_only b) (s_dirt b) (s_op b).
Definition set_s_nzones v b := Super (s_ninodes b) v (s_imap_blocks b) (s_zmap_blocks b) (s_firstdatazone b) (s_log_zone_size b) (s_max_size b) (s_magic b) (s_imap b) (s_zmap b) (s_dev b) (s_covered b) (s_mounted b) (s_time b) (s_lock b) (s_rd_only b) (s_dirt b) (s_op b).
Definition set_s_imap_blocks v b := Super (s_ninodes b) (s_nzones b) v (s_zmap_blocks b) (s_firstdatazone b) (s_log_zone_size b) (s_max_size b) (s_magic b) (s_imap b) (s_zmap b) (s_dev b) (s_covered b) (s_mounted b) (s_time b) (s_lock b) (s_rd_only b) (s_dirt b) (s_op b).
Definition set_s_zmap_blocks v b := Super (s_ninodes b) (s_nzones b) (s_imap_blocks b) v (s_firstdatazone b) (s_log_zone_size b) (s_max_size b) (s_magic b) (s_imap b) (s_zmap b) (s_dev b) (s_covered b) (s_mounted b) (s_time b) (s_lock b) (s_rd_only b) (s_dirt b) (s_op b).
Definition set_s_firstdatazone v b := Super (s_ninodes b) (s_nzones b) (s_imap_blocks b) (s_zmap_blocks b) v (s_log_zone_size b) (s_max_size b) (s_magic b) (s_imap b) (s_zmap b) (s_dev b) (s_covered b) (s_mounted b) (s_time b) (s_lock b) (s_rd_only b) (s_dirt b) (s_op b).
Definition set_s_log_zone_size v b := Super (s_ninodes b) (s_nzones b) (s_imap_blocks b) (s_zmap_blocks b) (s_firstdatazone b) v (s_max_size b) (s_magic b) (s_imap b) (s_zmap b) (s_dev b) (s_covered b) (s_mounted b) (s_time b) (s_lock b) (s_rd_only b) (s_dirt b) (s_op b).
Definition set_s_max_size v b := Super (s_ninodes b) (s_nzones b) (s_imap_blocks b) (s_zmap_blocks b) (s_firstdatazone b) (s_log_zone_size b) v (s_magic b) (s_imap b) (s_zmap b) (s_dev b) (s_covered b) (s_mounted b) (s_time b) (s_lock b) (s_rd_only b) (s_dirt b) (s_op b).
Definition set_s_magic v b := Super (s_ninodes b) (s_nzones b) (s_imap_blocks b) (s_zmap_blocks b) (s_firstdatazone b) (s_log_zone_size b) (s_max_size b) v (s_imap b) (s_zmap b) (s_dev b) (s_covered b) (s_mounted b) (s_time b) (s_lock b) (s_rd_only b) (s_dirt b) (s_op b).
Definition set_s_imap v b := Super (s_ninodes b) (s_nzones b) (s_imap_blocks b) (s_zmap_blocks b) (s_firstdatazone b) (s_log_zone_size b) (s_max_size b) (s_magic b) v (s_zmap b) (s_dev b) (s_covered b) (s_mounted b) (s_time b) (s_lock b) (s_rd_only b) (s_dirt b) (s_op b).
Definition set_s_zmap v b := Super (s_ninodes b) (s_nzones b) (s_imap_blocks b) (s_zmap_blocks b) (s_firstdatazone b) (s_log_zone_size b) (s_max_size b) (s_magic b) (s_imap b) v (s_dev b) (s_covered b) (s_mounted b) (s_time b) (s_lock b) (s_rd_only b) (s_dirt b) (s_op b).
Definition set_s_dev v b := Super (s_ninodes b) (s_nzones b) (s_imap_blocks b) (s_zmap_blocks b) (s_firstdatazone b) (s_log_zone_size b) (s_max_size b) (s_magic b) (s_imap b) (s_zmap b) v (s_covered b) (s_mounted b) (s_time b) (s_lock b) (s_rd_only b) (s_dirt b) (s_op b).
Definition set_s_covered v b := Super (s_ninodes b) (s_nzones b) (s_imap_blocks b) (s_zmap_blocks b) (s_firstdatazone b) (s_log_zone_size b) (s_max_size b) (s_magic b) (s_imap b) (s_zmap b) (s_dev b) v (s_mounted b) (s_time b) (s_lock b) (s_rd_only b) (s_dirt b) (s_op b).
Definition set_s_mounted v b := Super (s_ninodes b) (s_nzones b) (s_imap_blocks b) (s_zmap_blocks b) (s_firstdatazone b) (s_log_zone_size b) (s_max_size b) (s_magic b) (s_imap b) (s_zmap b) (s_dev b) (s_covered b) v (s_time b) (s_lock b) (s_rd_only b) (s_dirt b) (s_op b).
Definition set_s_time v b := Super (s_ninodes b) (s_nzones b) (s_imap_blocks b) (s_zmap_blocks b) (s_firstdatazone b) (s_log_zone_size b) (s_max_size b) (s_magic b) (s_imap b) (s_zmap b) (s_dev b) (s_covered b) (s_mounted b) v (s_lock b) (s_rd_only b) (s_dirt b) (s_op b).
Definition set_s_lock v b := Super (s_ninodes b) (s_nzones b) (s_imap_blocks b) (s_zmap_blocks b) (s_firstdatazone b) (s_log_zone_size b) (s_max_size b) (s_magic b) (s_imap b) (s_zmap b) (s_dev b) (s_covered b) (s_mounted b) (s_time b) v (s_rd_only b) (s_dirt b) (s_op b).
Definition set_s_rd_only v b := Super (s_ninodes b) (s_nzones b) (s_imap_blocks b) (s_zmap_blocks b) (s_firstdatazone b) (s_log_zone_size b) (s_max_size b) (s_magic b) (s_imap b) (s_zmap b) (s_dev b) (s_covered b) (s_mounted b) (s_time b) (s_lock b) v (s_dirt b) (s_op b).
Definition set_s_dirt v b := Super (s_ninodes b) (s_nzones b) (s_imap_blocks b) (s_zmap_blocks b) (s_firstdatazone b) (s_log_zone_size b) (s_max_size b) (s_magic b) (s_imap b) (s_zmap b) (s_dev b) (s_covered b) (s_mounted b) (s_time b) (s_lock b) (s_rd_only b) v (s_op b).
Definition set_s_op v b := Super (s_ninodes b) (s_nzones b) (s_imap_blocks b) (s_zmap_blocks b) (s_firstdatazone b) (s_log_zone_size b) (s_max_size b) (s_magic b) (s_imap b) (s_zmap b) (s_dev b) (s_covered b) (s_mounted b) (s_time b) (s_lock b) (s_rd_only b) (s_dirt b) v.

(** [struct file] *)
Record file := File {
  f_mode : Z;
  f_flags : Z;
  f_count : Z;
  f_inode : option Z;                     (* an entry of inode_table *)
  f_op : bool;                            (* whether f_op is &minix_file_operations; NULL otherwise *)
  f_pos : Z
}.
Definition set_f_mode v f := File v (f_flags f) (f_count f) (f_inode f) (f_op f) (f_pos f).
Definition set_f_flags v f := File (f_mode f) v (f_count f) (f_inode f) (f_op f) (f_pos f).
Definition set_f_count v f := File (f_mode f) (f_flags f) v (f_inode f) (f_op f) (f_pos f).
Definition set_f_inode v f := File (f_mode f) (f_flags f) (f_count f) v (f_op f) (f_pos f).
Definition set_f_op v f := File (f_mode f) (f_flags f) (f_count f) (f_inode f) v (f_pos f).
Definition set_f_pos v f := File (f_mode f) (f_flags f) (f_count f) (f_inode f) (f_op f) v.

(** An inode after [memset(inode, 0, sizeof( *inode))]. *)
Definition zero_inode : inode := Inode 0 0 0 0 0 0 0 0 0 0 0 (replicate 16 0) None None 0 0 0 0 0 0 0.

(** The kinds of files: [S_ISLNK] and so on of [sys/stat.h]. *)
Definition S_IFMT : Z := 0xF000.
Definition S_ISLNK (m : Z) : bool := Z.land m S_IFMT =? 0xA000.
Definition S_ISREG (m : Z) : bool := Z.land m S_IFMT =? 0x8000.
Definition S_ISBLK (m : Z) : bool := Z.land m S_IFMT =? 0x6000.
Definition S_ISDIR (m : Z) : bool := Z.land m S_IFMT =? 0x4000.
Definition S_ISCHR (m : Z) : bool := Z.land m S_IFMT =? 0x2000.

(** Wait queues: [&inode->i_wait], [&inode->i_wait2] and [&sb->s_wait]. *)
Definition i_wait (n : Z) : Z := -1000 - 2 * n.
Definition i_wait2 (n : Z) : Z := -1001 - 2 * n.
Definition s_wait (n : Z) : Z := -2000 - n.
(** The queue of [minix_rename]. *)
Definition rename_wait : Z := -3000.

(** ** The buffer cache, as the file system uses it

    A buffer is named by its head.  [bh_byte x i] and [set_bh_byte x i v] are
    [x->b_data[i]]; the other operations on heads are assignments to its
    fields. *)
Class BufferCache (C : Type) := {
  bread : Z -> Z -> M C bptr;
  getblk : Z -> Z -> M C Z;
  get_hash_table : Z -> Z -> M C bptr;
  brelse : bptr -> M C unit;
  sync_dev : Z -> M C unit;
  bh_byte : Z -> Z -> M C Z;
  set_bh_byte : Z -> Z -> Z -> M C unit;
  bh_count : Z -> M C Z;
  set_bh_dirt : Z -> Z -> M C unit;
  set_bh_uptodate : Z -> Z -> M C unit
}.

Section State.
Context {C : Type}.

Record fss := Fss {
  fkern : kst;                         (* tasks, clock, wait queues *)
  fcache : C;                          (* the buffer cache *)
  inode_table : list inode;
  super_blocks : list super_block;     (* super_block[NR_SUPER] *)
  last_inode : Z;
  file_table : list file;
  fpages : gmap Z (list Z);            (* the pages of pipes, by address *)
  rename_lock : Z                      (* static int lock of minix_rename *)
}.

Definition set_fkern v s := Fss v (fcache s) (inode_table s) (super_blocks s) (last_inode s) (file_table s) (fpages s) (rename_lock s).
Definition set_fcache v s := Fss (fkern s) v (inode_table s) (super_blocks s) (last_inode s) (file_table s) (fpages s) (rename_lock s).
Definition set_inode_table v s := Fss (fkern s) (fcache s) v (super_blocks s) (last_inode s) (file_table s) (fpages s) (rename_lock s).
Definition set_super_blocks v s := Fss (fkern s) (fcache s) (inode_table s) v (last_inode s) (file_table s) (fpages s) (rename_lock s).
Definition set_last_inode v s := Fss (fkern s) (fcache s) (inode_table s) (super_blocks s) v (file_table s) (fpages s) (rename_lock s).
Definition set_file_table v s := Fss (fkern s) (fcache s) (inode_table s) (super_blocks s) (last_inode s) v (fpages s) (rename_lock s).
Definition set_fpages v s := Fss (fkern s) (fcache s) (inode_table s) (super_blocks s) (last_inode s) (file_table s) v (rename_lock s).
Definition set_rename_lock v s := Fss (fkern s) (fcache s) (inode_table s) (super_blocks s) (last_inode s) (file_table s) (fpages s) v.

Definition on_task {A} (m : M kst A) : M fss A :=
  fun s => match m (fkern s) with Ok a k => Ok a (set_fkern k s) | Halt h k => Halt h (set_fkern k s) end.
Definition on_cache {A} (m : M C A) : M fss A :=
  fun s => match m (fcache s) with Ok a c => Ok a (set_fcache c s) | Halt h c => Halt h (set_fcache c s) end.

Definition inode_at (n : Z) : M fss inode := s ← getS; ofOpt (aget (inode_table s) n).
Definition inode_upd (n : Z) (f : inode -> inode) : M fss unit :=
  s ← getS; v ← ofOpt (aget (inode_table s) n); l ← ofOpt (aset (inode_table s) n (f v)); modify (set_inode_table l).
Definition super_at (n : Z) : M fss super_block := s ← getS; ofOpt (aget (super_blocks s) n).
Definition super_upd (n : Z) (f : super_block -> super_block) : M fss unit :=
  s ← getS; v ← ofOpt (aget (super_blocks s) n); l ← ofOpt (aset (super_blocks s) n (f v)); modify (set_super_blocks l).
Definition file_at (n : Z) : M fss file := s ← getS; ofOpt (aget (file_table s) n).
Definition file_upd (n : Z) (f : file -> file) : M fss unit :=
  s ← getS; v ← ofOpt (aget (file_table s) n); l ← ofOpt (aset (file_table s) n (f v)); modify (set_file_table l).

End State.
Arguments fss : clear implicits.

(** What others do while the running task sleeps on a queue, or gives up the
    processor with [schedule]. *)
Class FsEnv (C : Type) := {
  fs_sleep : Z -> M (fss C) unit;
  fs_yield : M (fss C) unit
}.

(** ** Data in buffers *)

Section Data.
Context {C : Type} `{BufferCache C}.

(** [((unsigned short * ) bh->b_data)[i]] *)
Definition bh_word (x i : Z) : M C Z := lo ← bh_byte x (2 * i); hi ← bh_byte x (2 * i + 1); mret (lo + 256 * hi).
Definition set_bh_word (x i v : Z) : M C unit := set_bh_byte x (2 * i) (u8 v);; set_bh_byte x (2 * i + 1) (u8 (Z.shiftr v 8)).
(** [((unsigned long * ) bh->b_data)[i]] *)
Definition bh_long (x i : Z) : M C Z := lo ← bh_word x (2 * i); hi ← bh_word x (2 * i + 1); mret (lo + 65536 * hi).

End Data.

(** ** Super blocks: [fs/super.c] *)

Section Super.
Context {C : Type} `{BufferCache C, FsEnv C}.
(** Bounds the times a loop that waits for others starts over. *)
Context (patience : nat).

(** [static void wait_on_super(struct super_block * sb)] *)
Definition wait_on_super (sb : Z) : M (fss C) unit :=
  iter patience (fun _ => b ← super_at sb; if truth (s_lock b) then fs_sleep (s_wait sb);; mret (inl tt) else mret (inr tt)) tt.

(** [void lock_super(struct super_block *sb)] *)
Definition lock_super (sb : Z) : M (fss C) unit := wait_on_super sb;; super_upd sb (set_s_lock 1).

(** [void free_super(struct super_block *sb)] *)
Definition free_super (sb : Z) : M (fss C) unit := super_upd sb (set_s_lock 0);; on_task (wake_up (s_wait sb)).

(** [struct super_block * get_super(int dev)] *)
Definition get_super_step (dev n : Z) : M (fss C) (Z + option Z) :=
  if NR_SUPER <=? n then mret (inr None)
  else
    b ← super_at n;
    if s_dev b =? dev then
      wait_on_super n;;
      b ← super_at n;
      if s_dev b =? dev then mret (inr (Some n)) else mret (inl 0)
    else mret (inl (n + 1)).
Definition get_super (dev : Z) : M (fss C) (option Z) :=
  if dev =? 0 then mret None else iter (patience * Z.to_nat (NR_SUPER + 1)) (get_super_step dev) 0.

End Super.
