(* ===== verification/Minix.v ===== *)
(** * The MINIX file system on disk: [fs/minix/bitmap.c], [inode.c] and [truncate.c]

    Zones and inodes are allocated in bitmaps; the zones of a file are found
    through seven direct entries of its inode, one indirect and one double
    indirect block.

    Zone numbers come from fields of 16 bits and from [minix_new_block]; they are
    non-negative and are passed on without conversions. *)

From S2P Require Import Prelude TaskStruct Sched Sys Fs.

Definition MINIX_I_MAP_SLOTS : Z := 8.
Definition MINIX_Z_MAP_SLOTS : Z := 8.
Definition MINIX_INODES_PER_BLOCK : Z := 32.
Definition MINIX_SUPER_MAGIC : Z := 0x137F.
Definition MINIX_ROOT_INO : Z := 1.

(** [memset(inode, 0, sizeof( *inode))]: the queues of the inode go, too. *)
Definition clear_inode {C} (n : Z) : M (fss C) unit :=
  inode_upd n (fun _ => zero_inode);;
  on_task (modify (fun k => set_wq (delete (i_wait n) (delete (i_wait2 n) (wq k))) k)).

Definition now {C} : M (fss C) Z := on_task (gets CURRENT_TIME).

(** ** Bits in a block *)

Section Bits.
Context {C : Type} `{BufferCache C}.

(** [clear_block(addr)] *)
Definition clear_block (x : Z) : M C unit := for_each (range 0 (Z.to_nat BLOCK_SIZE)) (fun i => set_bh_byte x i 0).

(** [set_bit(nr, addr)]: the old value of the bit. *)
Definition set_bit (nr x : Z) : M C Z :=
  b ← bh_byte x (nr / 8); set_bh_byte x (nr / 8) (Z.setbit b (nr mod 8));; mret (b2z (Z.testbit b (nr mod 8))).

(** [clear_bit(nr, addr)]: whether the bit was clear before. *)
Definition clear_bit (nr x : Z) : M C Z :=
  b ← bh_byte x (nr / 8); set_bh_byte x (nr / 8) (Z.clearbit b (nr mod 8));; mret (b2z (negb (Z.testbit b (nr mod 8)))).

(** [bsfl]: the lowest bit of [v] that is set, from bit [i] on. *)
Fixpoint bsf (n : nat) (v i : Z) : Z :=
  match n with O => i | S n' => if Z.testbit v i then i else bsf n' v (i + 1) end.

(** [find_first_zero(addr)]: the loop loads a long, inverts it and looks for the
    lowest bit; [cx] counts the bits. *)
Definition zero_step (x cx : Z) : M C (Z + Z) :=
  w ← bh_long x (cx / 32);
  let w := Z.lxor w 0xffffffff in
  if truth w then mret (inr (cx + bsf 32 w 0))
  else if cx + 32 <? 8192 then mret (inl (cx + 32)) else mret (inr (cx + 32)).
Definition find_first_zero (x : Z) : M C Z := iter 257 (zero_step x) 0.

(** The search for a map with a clear bit: its place, the last map looked at and
    the bit found there. *)
Fixpoint map_scan (maps : list bptr) (i : Z) (bh : bptr) (j : Z) : M C (Z * bptr * Z) :=
  match maps with
  | [] => mret (i, bh, j)
  | None :: maps' => map_scan maps' (i + 1) None j
  | Some x :: maps' =>
      j ← find_first_zero x;
      if j <? 8192 then mret (i, Some x, j) else map_scan maps' (i + 1) (Some x) j
  end.

(** The buffer of a block that is freed is forgotten; [true] if somebody else has
    it. *)
Definition forget (dev block : Z) : M C bool :=
  bh ← get_hash_table dev block;
  match bh with
  | None => mret false
  | Some x =>
      n ← bh_count x;
      if 1 <? n then brelse bh;; mret true
      else set_bh_dirt x 0;; set_bh_uptodate x 0;; (if truth n then brelse bh else mret tt);; mret false
  end.

End Bits.

Section Minix.
Context {C : Type} `{BufferCache C, FsEnv C}.
Context (patience : nat).

(** ** [fs/minix/bitmap.c] *)

(** [int minix_free_block(int dev, int block)] *)
Definition minix_free_block (dev block : Z) : M (fss C) Z :=
  o ← get_super patience dev;
  match o with
  | None => halts (Panic "trying to free block on nonexistent device")
  | Some sbn =>
      sb ← super_at sbn;
      if (block <? s_firstdatazone sb) || (s_nzones sb <=? block) then halts (Panic "trying to free block not in datazone")
      else
        busy ← on_cache (forget dev block);
        if (busy : bool) then mret 0
        else
          let zone := u32 (block - s_firstdatazone sb + 1) in
          m ← ofOpt (aget (s_zmap sb) (Z.shiftr zone 13));
          x ← ofOpt m;
          r ← on_cache (clear_bit (Z.land zone 8191) x);
          (if truth r then on_task (printk "free_block (%04x:%d): bit already cleared\n") else mret tt);;
          on_cache (set_bh_dirt x 1);;
          mret 1
  end.

(** [int minix_new_block(int dev)] *)
Definition minix_new_block (dev : Z) : M (fss C) Z :=
  o ← get_super patience dev;
  match o with
  | None => halts (Panic "trying to get new block from nonexistant device")
  | Some sbn =>
      sb ← super_at sbn;
      '(i, bh, j) ← on_cache (map_scan (s_zmap sb) 0 None 8192);
      match bh with
      | None => mret 0
      | Some x =>
          if (8 <=? i) || (8192 <=? j) then mret 0
          else
            r ← on_cache (set_bit j x);
            if truth r then halts (Panic "new_block: bit already set")
            else
              on_cache (set_bh_dirt x 1);;
              let j := j + (i * 8192 + s_firstdatazone sb - 1) in
              if s_nzones sb <=? j then mret 0
              else
                x ← on_cache (getblk dev j);
                c ← on_cache (bh_count x);
                if negb (c =? 1) then halts (Panic "new block: count is != 1")
                else
                  on_cache (clear_block x);;
                  on_cache (set_bh_uptodate x 1);;
                  on_cache (set_bh_dirt x 1);;
                  on_cache (brelse (Some x));;
                  mret j
      end
  end.

(** [void minix_free_inode(struct inode * inode)] *)
Definition minix_free_inode (inode : option Z) : M (fss C) unit :=
  match inode with
  | None => mret tt
  | Some n =>
      v ← inode_at n;
      if i_dev v =? 0 then clear_inode n
      else if 1 <? i_count v then on_task (printk "free_inode: inode has count=%d\n")
      else if truth (i_nlink v) then on_task (printk "free_inode: inode has nlink=%d\n")
      else
        match i_sb v with
        | None => on_task (printk "free_inode: inode on nonexistent device\n")
        | Some sbn =>
            sb ← super_at sbn;
            if (i_ino v <? 1) || (s_ninodes sb <? i_ino v) then on_task (printk "free_inode: inode 0 or nonexistent inode\n")
            else
              m ← ofOpt (aget (s_imap sb) (Z.shiftr (i_ino v) 13));
              match m with
              | None => on_task (printk "free_inode: nonexistent imap in superblock\n")
              | Some x =>
                  r ← on_cache (clear_bit (Z.land (i_ino v) 8191) x);
                  (if truth r then on_task (printk "free_inode: bit already cleared.\n\r") else mret tt);;
                  on_cache (set_bh_dirt x 1);;
                  clear_inode n
              end
        end
  end.

(** ** [fs/minix/inode.c] *)

(** [void minix_put_super(struct super_block *sb)] *)
Definition minix_put_super (sbn : Z) : M (fss C) unit :=
  lock_super patience sbn;;
  super_upd sbn (set_s_dev 0);;
  sb ← super_at sbn;
  for_each (s_imap sb) (fun m => on_cache (brelse m));;
  for_each (s_zmap sb) (fun m => on_cache (brelse m));;
  free_super sbn.

(** An entry of an inode or of an indirect block that is to be filled if it is 0
    and [create] is set. *)
Definition inode_zone (n e : Z) (create : bool) : M (fss C) Z :=
  v ← inode_at n;
  z ← ofOpt (aget (i_data v) e);
  if create && (z =? 0) then
    z ← minix_new_block (i_dev v);
    inode_upd n (fun v => set_i_data (<[Z.to_nat e := z]> (i_data v)) v);;
    (if truth z then t ← now; inode_upd n (fun v => set_i_dirt 1 (set_i_ctime t v)) else mret tt);;
    mret z
  else mret z.
Definition indirect_zone (dev x e : Z) (create : bool) : M (fss C) Z :=
  i ← on_cache (bh_word x e);
  i ← (if create && (i =? 0) then
         i ← minix_new_block dev;
         (if truth i then on_cache (set_bh_word x e i);; on_cache (set_bh_dirt x 1) else mret tt);;
         mret i
       else mret i);
  on_cache (brelse (Some x));;
  mret i.

(** [static int _minix_bmap(struct inode *inode, int block, int create)] *)
Definition _minix_bmap (n block : Z) (create : bool) : M (fss C) Z :=
  if block <? 0 then on_task (printk "_minix_bmap: block<0");; mret 0
  else if 7 + 512 + 512 * 512 <=? block then on_task (printk "_minix_bmap: block>big");; mret 0
  else if block <? 7 then inode_zone n block create
  else
    let block := block - 7 in
    if block <? 512 then
      z ← inode_zone n 7 create;
      if z =? 0 then mret 0
      else
        v ← inode_at n;
        bh ← on_cache (bread (i_dev v) z);
        match bh with
        | None => mret 0
        | Some x => indirect_zone (i_dev v) x block create
        end
    else
      let block := block - 512 in
      z ← inode_zone n 8 create;
      if z =? 0 then mret 0
      else
        v ← inode_at n;
        bh ← on_cache (bread (i_dev v) z);
        match bh with
        | None => mret 0
        | Some x =>
            i ← indirect_zone (i_dev v) x (Z.shiftr block 9) create;
            if i =? 0 then mret 0
            else
              v ← inode_at n;
              bh ← on_cache (bread (i_dev v) i);
              match bh with
              | None => mret 0
              | Some x => indirect_zone (i_dev v) x (Z.land block 511) create
              end
        end.

(** [int minix_bmap(struct inode *inode, int block)] *)
Definition minix_bmap (n block : Z) : M (fss C) Z := _minix_bmap n block false.
(** [int minix_create_block(struct inode *inode, int block)] *)
Definition minix_create_block (n block : Z) : M (fss C) Z := _minix_bmap n block true.

(** The block of an inode on its device, and its place there. *)
Definition inode_block (sb : super_block) (v : inode) : Z :=
  s32 (2 + s_imap_blocks sb + s_zmap_blocks sb + u32 (i_ino v - 1) / MINIX_INODES_PER_BLOCK).
Definition inode_offset (v : inode) : Z := 32 * (u32 (i_ino v - 1) mod MINIX_INODES_PER_BLOCK).

(** [void minix_read_inode(struct inode *inode)]; [o] is the offset of the
    [struct minix_inode] in the block. *)
Definition minix_read_inode (n : Z) : M (fss C) unit :=
  v ← inode_at n;
  sbn ← ofOpt (i_sb v); sb ← super_at sbn;
  bh ← on_cache (bread (i_dev v) (inode_block sb v));
  match bh with
  | None => halts (Panic "unable to read i-node block")
  | Some x =>
      let o := inode_offset v in
      mode ← on_cache (bh_word x (o / 2)); uid ← on_cache (bh_word x (o / 2 + 1));
      size ← on_cache (bh_long x (o / 4 + 1)); time ← on_cache (bh_long x (o / 4 + 2));
      gid ← on_cache (bh_byte x (o + 12)); nlinks ← on_cache (bh_byte x (o + 13));
      inode_upd n (fun v => set_i_mode mode (set_i_uid uid (set_i_gid gid (set_i_nlink nlinks (set_i_size (s32 size)
        (set_i_ctime (s32 time) (set_i_atime (s32 time) (set_i_mtime (s32 time) v))))))));;
      (if S_ISCHR mode || S_ISBLK mode then
         z ← on_cache (bh_word x (o / 2 + 7)); inode_upd n (set_i_rdev z)
       else
         for_each (range 0 9) (fun b =>
           z ← on_cache (bh_word x (o / 2 + 7 + b)); inode_upd n (fun v => set_i_data (<[Z.to_nat b := z]> (i_data v)) v)));;
      on_cache (brelse bh);;
      inode_upd n (set_i_op (Some minix_inode_operations))
  end.

(** [void minix_write_inode(struct inode *inode)] *)
Definition minix_write_inode (n : Z) : M (fss C) unit :=
  v ← inode_at n;
  sbn ← ofOpt (i_sb v); sb ← super_at sbn;
  bh ← on_cache (bread (i_dev v) (inode_block sb v));
  match bh with
  | None => halts (Panic "unable to read i-node block")
  | Some x =>
      v ← inode_at n;
      let o := inode_offset v in
      on_cache (set_bh_word x (o / 2) (i_mode v));; on_cache (set_bh_word x (o / 2 + 1) (i_uid v));;
      on_cache (set_bh_byte x (o + 12) (u8 (i_gid v)));; on_cache (set_bh_byte x (o + 13) (i_nlink v));;
      on_cache (set_bh_word x (o / 2 + 2) (i_size v));; on_cache (set_bh_word x (o / 2 + 3) (Z.shiftr (u32 (i_size v)) 16));;
      on_cache (set_bh_word x (o / 2 + 4) (i_mtime v));; on_cache (set_bh_word x (o / 2 + 5) (Z.shiftr (u32 (i_mtime v)) 16));;
      (if S_ISCHR (i_mode v) || S_ISBLK (i_mode v) then on_cache (set_bh_word x (o / 2 + 7) (i_rdev v))
       else
         for_each (range 0 9) (fun b => z ← ofOpt (aget (i_data v) b); on_cache (set_bh_word x (o / 2 + 7 + b) z)));;
      on_cache (set_bh_dirt x 1);;
      inode_upd n (set_i_dirt 0);;
      on_cache (brelse bh)
  end.

(** ** [fs/minix/truncate.c] *)

(** The loop over the entries of an indirect block: [true] if one of them is in
    use elsewhere. *)
Fixpoint free_entries (free : Z -> M (fss C) Z) (x : Z) (l : list Z) (busy : bool) : M (fss C) bool :=
  match l with
  | [] => mret busy
  | i :: l' =>
      p ← on_cache (bh_word x i);
      if p =? 0 then free_entries free x l' busy
      else
        r ← free p;
        if truth r then on_cache (set_bh_word x i 0);; on_cache (set_bh_dirt x 1);; free_entries free x l' busy
        else free_entries free x l' true
  end.

Definition free_tree (dev : Z) (free : Z -> M (fss C) Z) (block : Z) : M (fss C) Z :=
  if block =? 0 then mret 1
  else
    bh ← on_cache (bread dev block);
    busy ←
      (match bh with
       | None => mret false
       | Some x => r ← free_entries free x (range 0 512) false; on_cache (brelse bh);; mret r
       end);
    if (busy : bool) then mret 0 else minix_free_block dev block.

(** [static int minix_free_ind(int dev, int block)] *)
Definition minix_free_ind (dev block : Z) : M (fss C) Z := free_tree dev (minix_free_block dev) block.
(** [static int minix_free_dind(int dev, int block)] *)
Definition minix_free_dind (dev block : Z) : M (fss C) Z := free_tree dev (minix_free_ind dev) block.

(** Entry [e] of the inode is freed with [free] and cleared; [true] if it is in use
    elsewhere. *)
Definition drop_zone (n e : Z) (free : Z -> Z -> M (fss C) Z) : M (fss C) bool :=
  v ← inode_at n;
  z ← ofOpt (aget (i_data v) e);
  r ← free (i_dev v) z;
  if truth r then inode_upd n (fun v => set_i_data (<[Z.to_nat e := 0]> (i_data v)) v);; mret false else mret true.

(** The seven direct entries. *)
Fixpoint drop_direct (n : Z) (l : list Z) (busy : bool) : M (fss C) bool :=
  match l with
  | [] => mret busy
  | e :: l' =>
      v ← inode_at n; z ← ofOpt (aget (i_data v) e);
      if z =? 0 then drop_direct n l' busy
      else b ← drop_zone n e minix_free_block; drop_direct n l' (busy || b)
  end.

(** One round from the label [repeat]. *)
Definition truncate_step (n : Z) (_ : unit) : M (fss C) (unit + unit) :=
  b1 ← drop_direct n (range 0 7) false;
  b2 ← drop_zone n 7 minix_free_ind;
  b3 ← drop_zone n 8 minix_free_dind;
  inode_upd n (set_i_dirt 1);;
  if (b1 : bool) || (b2 : bool) || (b3 : bool) then on_task (upd_cur (set_counter 0));; fs_yield;; mret (inl tt) else mret (inr tt).

(** [void minix_truncate(struct inode *inode)] *)
Definition minix_truncate (n : Z) : M (fss C) unit :=
  v ← inode_at n;
  if negb (S_ISREG (i_mode v) || S_ISDIR (i_mode v) || S_ISLNK (i_mode v)) then mret tt
  else
    iter patience (truncate_step n) tt;;
    t ← now;
    inode_upd n (fun v => set_i_ctime t (set_i_mtime t (set_i_size 0 v))).

(** [void minix_put_inode(struct inode *inode)] of [minix_op.c] *)
Definition minix_put_inode (n : Z) : M (fss C) unit := minix_truncate n;; minix_free_inode (Some n).

End Minix.
