(* ===== verification/Store.v ===== *)
(** * What the buffer cache promises the file system

    The laws of the interface [BufferCache] when nobody else works on the same
    blocks: buffers that are referenced stay with their block, a block is read as
    it was last written, and what was marked dirty is not lost.  A cache that
    keeps every block satisfies them. *)

From S2P Require Import Prelude TaskStruct Sched Fs.

(** ** The view of the cache *)

(** A buffer somebody refers to. *)
Record bview := BV { bv_id : Z; bv_count : Z; bv_up : bool; bv_dirt : bool; bv_data : list Z }.
Definition set_bv_data d w := BV (bv_id w) (bv_count w) (bv_up w) (bv_dirt w) d.
Definition set_bv_count n w := BV (bv_id w) n (bv_up w) (bv_dirt w) (bv_data w).
Definition set_bv_up u w := BV (bv_id w) (bv_count w) u (bv_dirt w) (bv_data w).
Definition set_bv_dirt d w := BV (bv_id w) (bv_count w) (bv_up w) d (bv_data w).

(** [held c] are the buffers referred to, by device and block; [disk c b] is what
    would be found in the block if its buffer were forgotten; [capacity c] is the
    number of buffers there are, [cache_ok] an invariant of the implementation. *)
Class CacheView (C : Type) := { held : C -> gmap (Z * Z) bview; disk : C -> Z * Z -> list Z; capacity : C -> Z; cache_ok : C -> Prop }.

Definition block_data (d : list Z) : Prop := length d = Z.to_nat BLOCK_SIZE /\ Forall in_u8 d.

Section View.
Context {C : Type} `{CacheView C}.

Record cwf (c : C) : Prop := {
  cwf_ok : cache_ok c;
  cwf_count : forall b w, held c !! b = Some w -> 1 <= bv_count w <= 255;
  cwf_data : forall b w, held c !! b = Some w -> block_data (bv_data w);
  cwf_disk : forall b, block_data (disk c b);
  cwf_id : forall b b' w w', held c !! b = Some w -> held c !! b' = Some w' -> bv_id w = bv_id w' -> b = b'
}.

Definition refs (c : C) (b : Z * Z) : Z := match held c !! b with Some w => bv_count w | None => 0 end.
(** The contents of a block. *)
Definition content (c : C) (b : Z * Z) : list Z :=
  match held c !! b with Some w => if bv_up w then bv_data w else disk c b | None => disk c b end.

(** [x] is the buffer of block [b]. *)
Definition buffer (c : C) (x : Z) (b : Z * Z) (w : bview) : Prop := held c !! b = Some w /\ bv_id w = x.
(** A buffer whose data the disk has, or will get. *)
Definition settled (c : C) (b : Z * Z) (w : bview) : Prop := bv_up w = true -> bv_dirt w = true \/ disk c b = bv_data w.

Lemma content_data c : cwf c -> forall b, block_data (content c b).
Proof.
  intros Hc b. unfold content. destruct (held c !! b) as [w|] eqn:E; [|apply (cwf_disk _ Hc)].
  destruct (bv_up w); [by eapply cwf_data|apply (cwf_disk _ Hc)].
Qed.

(** [n] more buffers can be had. *)
Definition room (n : Z) (c : C) : Prop := Z.of_nat (size (held c)) + n <= capacity c.

(** The view after the buffer of [b] has become [w]. *)
Definition becomes (c c' : C) (b : Z * Z) (w : bview) : Prop :=
  held c' = <[b := w]> (held c) /\ (forall a, disk c' a = disk c a) /\ capacity c' = capacity c.
Definition unchanged (c c' : C) : Prop := held c' = held c /\ (forall a, disk c' a = disk c a) /\ capacity c' = capacity c.

Lemma cwf_insert c c' b w : cwf c -> becomes c c' b w -> cache_ok c' -> 1 <= bv_count w <= 255 -> block_data (bv_data w) ->
  (forall b' w', held c !! b' = Some w' -> bv_id w' = bv_id w -> b' = b) -> cwf c'.
Proof.
  intros [_ H1 H2 H3 H4] (Hh & Hd & _) Ho Hn Hw Hi. split; [done| | | |].
  - intros b' w'. rewrite Hh. intros [[_ <-]|[_ ?]]%lookup_insert_Some; [done|eauto].
  - intros b' w'. rewrite Hh. intros [[_ <-]|[_ ?]]%lookup_insert_Some; [done|eauto].
  - intros a. rewrite Hd. apply H3.
  - intros b1 b2 w1 w2. rewrite Hh. intros [[<- <-]|[? E1]]%lookup_insert_Some [[<- <-]|[? E2]]%lookup_insert_Some He; [done| | |by eapply H4].
    + symmetry. by eapply Hi.
    + by eapply Hi.
Qed.

(** A change to a buffer that is there keeps everything in order. *)
Lemma cwf_update c c' b w0 w : cwf c -> held c !! b = Some w0 -> becomes c c' b w -> cache_ok c' ->
  bv_id w = bv_id w0 -> 1 <= bv_count w <= 255 -> block_data (bv_data w) -> cwf c'.
Proof.
  intros Hc H0 Hb Ho Hi Hn Hw. eapply cwf_insert; try done. intros b' w' H' E. eapply (cwf_id _ Hc); [done|exact H0|congruence].
Qed.

End View.

(** What a lookup gives: a buffer of block [b] with one more reference. *)
Definition found_buffer `{CacheView C} (c : C) (b : Z * Z) (x : Z) (w : bview) : Prop :=
  bv_id w = x /\ bv_count w = refs c b + 1 /\
  match held c !! b with
  | Some w0 => w = set_bv_count (bv_count w0 + 1) w0
  | None => bv_up w = true -> bv_data w = disk c b
  end.

Class BufferCacheOk (C : Type) `{BufferCache C, CacheView C} := {
  bread_law : forall dev blk c, cwf c -> dev <> 0 -> refs c (dev, blk) < 255 -> room 1 c ->
    exists r c', bread dev blk c = Ok r c' /\ cwf c' /\
      match r with
      | None => unchanged c c' /\ forall w, held c !! (dev, blk) = Some w -> bv_up w = false
      | Some x => exists w, becomes c c' (dev, blk) w /\ bv_id w = x /\ bv_count w = refs c (dev, blk) + 1 /\ bv_up w = true /\
          bv_data w = content c (dev, blk) /\
          forall w0, held c !! (dev, blk) = Some w0 -> bv_id w0 = x /\ (bv_up w0 = true -> bv_dirt w = bv_dirt w0)
      end;
  getblk_law : forall dev blk c, cwf c -> dev <> 0 -> refs c (dev, blk) < 255 -> room 1 c ->
    exists x c' w, getblk dev blk c = Ok x c' /\ cwf c' /\ becomes c c' (dev, blk) w /\ found_buffer c (dev, blk) x w;
  get_hash_table_law : forall dev blk c, cwf c -> dev <> 0 -> refs c (dev, blk) < 255 ->
    exists r c', get_hash_table dev blk c = Ok r c' /\ cwf c' /\
      match r with
      | None => unchanged c c' /\ held c !! (dev, blk) = None
      | Some x => exists w, becomes c c' (dev, blk) w /\ found_buffer c (dev, blk) x w
      end;
  brelse_law : forall x b w c, cwf c -> buffer c x b w -> settled c b w ->
    exists c', brelse (Some x) c = Ok tt c' /\ cwf c' /\
      held c' = (if bv_count w =? 1 then delete b (held c) else <[b := set_bv_count (bv_count w - 1) w]> (held c)) /\ capacity c' = capacity c /\
      forall a, disk c' a = if decide (a = b /\ bv_count w = 1 /\ bv_up w = true) then bv_data w else disk c a;
  brelse_null : forall c, brelse None c = Ok tt c;
  bh_byte_law : forall x b w i v c, cwf c -> buffer c x b w -> aget (bv_data w) i = Some v -> bh_byte x i c = Ok v c;
  set_bh_byte_law : forall x b w i v c, cwf c -> buffer c x b w -> 0 <= i < BLOCK_SIZE -> in_u8 v ->
    exists c', set_bh_byte x i v c = Ok tt c' /\ cwf c' /\ becomes c c' b (set_bv_data (<[Z.to_nat i := v]> (bv_data w)) w);
  bh_count_law : forall x b w c, cwf c -> buffer c x b w -> bh_count x c = Ok (bv_count w) c;
  set_bh_dirt_law : forall x b w v c, cwf c -> buffer c x b w ->
    exists c', set_bh_dirt x v c = Ok tt c' /\ cwf c' /\ becomes c c' b (set_bv_dirt (truth v) w);
  set_bh_uptodate_law : forall x b w v c, cwf c -> buffer c x b w ->
    exists c', set_bh_uptodate x v c = Ok tt c' /\ cwf c' /\ becomes c c' b (set_bv_up (truth v) w)
}.

(** ** A cache that keeps every block *)

Record ideal := Ideal { ideal_held : gmap (Z * Z) bview; ideal_disk : gmap (Z * Z) (list Z) }.

Definition zero_block : list Z := replicate (Z.to_nat BLOCK_SIZE) 0.
Definition ideal_block (c : ideal) (b : Z * Z) : list Z := default zero_block (ideal_disk c !! b).
(** The number of a buffer tells its block. *)
Definition ideal_id (b : Z * Z) : Z := Z.pos (encode b).
Definition ideal_key (x : Z) : option (Z * Z) := match x with Z.pos p => decode p | _ => None end.

Lemma ideal_key_id b : ideal_key (ideal_id b) = Some b.
Proof. apply decode_encode. Qed.

#[export] Instance ideal_view : CacheView ideal := {| held := ideal_held; disk := ideal_block; capacity := fun c => 2 ^ 40;
  cache_ok := fun c => forall b w, ideal_held c !! b = Some w -> bv_id w = ideal_id b |}.

Definition ideal_get (dev blk : Z) : M ideal Z := fun c =>
  let b := (dev, blk) in
  let w := match ideal_held c !! b with Some w => set_bv_count (bv_count w + 1) w | None => BV (ideal_id b) 1 true false (ideal_block c b) end in
  Ok (ideal_id b) (Ideal (<[b := w]> (ideal_held c)) (ideal_disk c)).

Definition ideal_upd (x : Z) (f : bview -> bview) : M ideal unit :=
  b ← ofOpt (ideal_key x); c ← getS; w ← ofOpt (ideal_held c !! b); modify (fun c => Ideal (<[b := f w]> (ideal_held c)) (ideal_disk c)).

#[export] Instance ideal_cache : BufferCache ideal := {|
  getblk := ideal_get;
  bread := fun dev blk => x ← ideal_get dev blk; c ← getS; ideal_upd x (fun w => if bv_up w then w else set_bv_up true (set_bv_data (ideal_block c (dev, blk)) w));; mret (Some x);
  get_hash_table := fun dev blk => c ← getS; match ideal_held c !! (dev, blk) with Some _ => x ← ideal_get dev blk; mret (Some x) | None => mret None end;
  brelse := fun p => match p with
    | None => mret tt
    | Some x =>
        b ← ofOpt (ideal_key x); c ← getS; w ← ofOpt (ideal_held c !! b);
        if bv_count w =? 1 then modify (fun c => Ideal (delete b (ideal_held c)) (if bv_up w then <[b := bv_data w]> (ideal_disk c) else ideal_disk c))
        else ideal_upd x (set_bv_count (bv_count w - 1))
    end;
  sync_dev := fun _ => mret tt;
  bh_byte := fun x i => b ← ofOpt (ideal_key x); c ← getS; w ← ofOpt (ideal_held c !! b); ofOpt (aget (bv_data w) i);
  set_bh_byte := fun x i v => ideal_upd x (fun w => set_bv_data (<[Z.to_nat i := v]> (bv_data w)) w);
  bh_count := fun x => b ← ofOpt (ideal_key x); c ← getS; w ← ofOpt (ideal_held c !! b); mret (bv_count w);
  set_bh_dirt := fun x v => ideal_upd x (set_bv_dirt (truth v));
  set_bh_uptodate := fun x v => ideal_upd x (set_bv_up (truth v))
|}.

Lemma becomes_ideal (c : ideal) b w : becomes c (Ideal (<[b := w]> (ideal_held c)) (ideal_disk c)) b w.
Proof. done. Qed.

Lemma ideal_ok_insert (c : ideal) b w : cache_ok c -> bv_id w = ideal_id b -> cache_ok (Ideal (<[b := w]> (ideal_held c)) (ideal_disk c)).
Proof. intros Hc Hw b' w' H. cbn in H. apply lookup_insert_Some in H as [[<- <-]|[_ H]]; [done|by apply Hc]. Qed.

Lemma ideal_id_inj b b' : ideal_id b = ideal_id b' -> b = b'.
Proof. intros H. apply (f_equal ideal_key) in H. rewrite !ideal_key_id in H. congruence. Qed.

Lemma ideal_get_run dev blk (c : ideal) : cwf c -> refs c (dev, blk) < 255 ->
  exists c' w, ideal_get dev blk c = Ok (ideal_id (dev, blk)) c' /\ cwf c' /\ becomes c c' (dev, blk) w /\ found_buffer c (dev, blk) (ideal_id (dev, blk)) w.
Proof.
  intros Hc Hr. pose (w := match ideal_held c !! (dev, blk) with Some w => set_bv_count (bv_count w + 1) w | None => BV (ideal_id (dev, blk)) 1 true false (ideal_block c (dev, blk)) end).
  exists (Ideal (<[(dev, blk) := w]> (ideal_held c)) (ideal_disk c)), w.
  split; [reflexivity|]. pose proof (cwf_ok _ Hc) as Hi. unfold found_buffer, refs in *. cbn [held ideal_view] in *. unfold w.
  destruct (ideal_held c !! (dev, blk)) as [w0|] eqn:E.
  - pose proof (cwf_count _ Hc _ _ E). pose proof (Hi _ _ E). split; [|split; [apply becomes_ideal|done]].
    eapply cwf_update; [done|exact E|apply becomes_ideal|by apply ideal_ok_insert|done|cbn; lia|by apply (cwf_data _ Hc _ _ E)].
  - split; [|split; [apply becomes_ideal|done]].
    eapply cwf_insert; [done|apply becomes_ideal|by apply ideal_ok_insert|cbn; lia|apply (cwf_disk _ Hc)|].
    intros b' w' H' He. cbn in He. rewrite (Hi _ _ H') in He. by apply ideal_id_inj.
Qed.

Lemma ideal_upd_run (c : ideal) x b w f : cwf c -> buffer c x b w -> bv_id (f w) = bv_id w -> 1 <= bv_count (f w) <= 255 -> block_data (bv_data (f w)) ->
  exists c', ideal_upd x f c = Ok tt c' /\ cwf c' /\ becomes c c' b (f w).
Proof.
  intros Hc [Hw Hx] Hi Hn Hd. pose proof (cwf_ok _ Hc _ _ Hw) as Hid. rewrite Hx in Hid. subst x. unfold ideal_upd. rewrite Hid, ideal_key_id.
  eexists. split; [unfold mbind, M_bind, getS; cbn [ofOpt]; cbn in Hw; rewrite Hw; reflexivity|]. split; [|apply becomes_ideal].
  eapply cwf_update; [done|exact Hw|apply becomes_ideal|apply ideal_ok_insert; [apply (cwf_ok _ Hc)|congruence]|done|done|done].
Qed.

Lemma block_data_insert d i v : block_data d -> in_u8 v -> block_data (<[i := v]> d).
Proof. intros [H1 H2] Hv. split; [by rewrite length_insert|by apply Forall_insert]. Qed.


Lemma ideal_brelse_run x b w (c : ideal) : cwf c -> buffer c x b w -> settled c b w ->
  exists c', brelse (Some x) c = Ok tt c' /\ cwf c' /\
    held c' = (if bv_count w =? 1 then delete b (held c) else <[b := set_bv_count (bv_count w - 1) w]> (held c)) /\ capacity c' = capacity c /\
    forall a, disk c' a = if decide (a = b /\ bv_count w = 1 /\ bv_up w = true) then bv_data w else disk c a.
Proof.
  intros Hc Hb _. pose proof Hb as [Hw Hx]. pose proof (cwf_ok _ Hc _ _ Hw) as Hid. pose proof (cwf_count _ Hc _ _ Hw) as Hn. pose proof (cwf_data _ Hc _ _ Hw) as Hd.
  subst x. cbn [brelse ideal_cache]. cbn match.
  rewrite (run_bind _ _ _ b c) by (by rewrite Hid, ideal_key_id). rewrite (run_bind _ _ _ c c) by reflexivity. change (held c) with (ideal_held c) in *.
  rewrite Hw, (run_bind _ _ _ w c) by reflexivity. destruct (Z.eqb_spec (bv_count w) 1) as [E|E].
  - eexists. split; [reflexivity|]. assert (Hdk : forall a, disk (Ideal (delete b (ideal_held c)) (if bv_up w then <[b := bv_data w]> (ideal_disk c) else ideal_disk c)) a =
        if decide (a = b /\ bv_count w = 1 /\ bv_up w = true) then bv_data w else disk c a).
    { intros a. cbn [disk ideal_view]. unfold ideal_block. cbn [ideal_disk]. destruct (decide _) as [(-> & _ & ->)|Hne]; [by rewrite lookup_insert_eq|].
      destruct (bv_up w) eqn:Eu; [|done]. rewrite lookup_insert_ne; [done|]. intros <-. tauto. }
    split; [|split; [done|split; [done|exact Hdk]]]. destruct Hc as [H0 H1 H2 H3 H4]. split; cbn [held cache_ok ideal_view ideal_held].
    + intros b' w' [_ H']%lookup_delete_Some. by apply H0.
    + intros b' w' [_ H']%lookup_delete_Some. by eapply H1.
    + intros b' w' [_ H']%lookup_delete_Some. by eapply H2.
    + intros a. rewrite Hdk. destruct (decide (a = b /\ _)); [done|apply H3].
    + intros b1 b2 w1 w2 [_ E1]%lookup_delete_Some [_ E2]%lookup_delete_Some. by eapply H4.
  - destruct (ideal_upd_run c (bv_id w) b w (set_bv_count (bv_count w - 1)) Hc Hb) as (c' & H1 & H2 & H3 & H4 & _); [done|cbn; lia|done|].
    exists c'. split; [exact H1|]. split; [done|]. split; [done|]. split; [done|]. intros a. rewrite decide_False by tauto. apply H4.
Qed.

#[export] Instance ideal_cache_ok : BufferCacheOk ideal.
Proof.
  split.
  - intros dev blk c Hc _ Hr _. destruct (ideal_get_run dev blk c Hc Hr) as (c1 & w & H1 & Hc1 & Hb & Hi & Hn & Hw).
    pose (f := fun w => if bv_up w then w else set_bv_up true (set_bv_data (ideal_block c1 (dev, blk)) w)).
    assert (Hbuf : buffer c1 (ideal_id (dev, blk)) (dev, blk) w) by (split; [rewrite (proj1 Hb); apply lookup_insert_eq|done]).
    assert (Hcnt : 1 <= bv_count w <= 255) by (eapply cwf_count; [exact Hc1|exact (proj1 Hbuf)]).
    destruct (ideal_upd_run c1 _ _ w f Hc1 Hbuf) as (c2 & H2 & Hc2 & Hb2); [by unfold f; destruct (bv_up w)|by unfold f; destruct (bv_up w)| |].
    { unfold f. destruct (bv_up w); [eapply cwf_data; [exact Hc1|exact (proj1 Hbuf)]|apply (cwf_disk _ Hc1)]. }
    exists (Some (ideal_id (dev, blk))), c2. split; [|split; [done|]].
    { cbn [bread ideal_cache]. rewrite (run_bind _ _ _ _ _ H1). rewrite (run_bind _ _ _ c1 c1) by reflexivity. by rewrite (run_bind _ _ _ _ _ H2). }
    exists (f w). destruct Hb as (Hb1 & Hb3 & _), Hb2 as (Hb4 & Hb5 & _). split; [|split; [|split; [|split; [|split]]]].
    + split; [by rewrite Hb4, Hb1, insert_insert_eq|]. split; [intros a; by rewrite Hb5|done].
    + unfold f. by destruct (bv_up w).
    + unfold f. by destruct (bv_up w).
    + unfold f. by destruct (bv_up w) eqn:E.
    + unfold f, content. destruct (held c !! (dev, blk)) as [w0|]; [subst w; cbn; destruct (bv_up w0); [done|apply Hb3]|].
      destruct (bv_up w) eqn:E; [by apply Hw|apply Hb3].
    + intros w0 H0. rewrite H0 in Hw. subst w. split; [done|]. intros Hu. unfold f. cbn. by rewrite Hu.
  - intros dev blk c Hc _ Hr _. destruct (ideal_get_run dev blk c Hc Hr) as (c1 & w & ?). by exists (ideal_id (dev, blk)), c1, w.
  - intros dev blk c Hc _ Hr. cbn [get_hash_table ideal_cache]. rewrite (run_bind _ _ _ c c) by reflexivity.
    destruct (ideal_held c !! (dev, blk)) as [w0|] eqn:E.
    + destruct (ideal_get_run dev blk c Hc Hr) as (c1 & w & H1 & Hc1 & Hb & Hf). exists (Some (ideal_id (dev, blk))), c1.
      rewrite (run_bind _ _ _ _ _ H1). split; [done|]. split; [done|]. by exists w.
    + by exists None, c.
  - apply ideal_brelse_run.
  - done.
  - intros x b w i v c Hc [Hw Hx] Hv. pose proof (cwf_ok _ Hc _ _ Hw) as Hid. cbn [bh_byte ideal_cache]. rewrite <-Hx, Hid, ideal_key_id.
    unfold mbind, M_bind, getS. cbn [ofOpt]. cbn in Hw. rewrite Hw. cbn [ofOpt]. by rewrite Hv.
  - intros x b w i v c Hc Hw Hi Hv. apply (ideal_upd_run c x b w (fun w => set_bv_data (<[Z.to_nat i := v]> (bv_data w)) w)); [done|done|done|by apply (cwf_count _ Hc _ _ (proj1 Hw))|apply block_data_insert; [by apply (cwf_data _ Hc _ _ (proj1 Hw))|done]].
  - intros x b w c Hc [Hw Hx]. pose proof (cwf_ok _ Hc _ _ Hw) as Hid. cbn [bh_count ideal_cache]. rewrite <-Hx, Hid, ideal_key_id.
    unfold mbind, M_bind, getS. cbn [ofOpt]. cbn in Hw. by rewrite Hw.
  - intros x b w v c Hc Hw. apply (ideal_upd_run c x b w (set_bv_dirt (truth v))); [done|done|done|by apply (cwf_count _ Hc _ _ (proj1 Hw))|by apply (cwf_data _ Hc _ _ (proj1 Hw))].
  - intros x b w v c Hc Hw. apply (ideal_upd_run c x b w (set_bv_up (truth v))); [done|done|done|by apply (cwf_count _ Hc _ _ (proj1 Hw))|by apply (cwf_data _ Hc _ _ (proj1 Hw))].
Qed.


