(* ===== verification/MinixOk.v ===== *)
(** * Theorems about the MINIX file system

    Zones are allocated once, from the bitmap, and given back to it; the entry a
    file gets for a block is the one later found for it, and no other entry
    changes; truncating a file gives back exactly its zones. *)

From S2P Require Import Prelude TaskStruct Sched Sys Fs Store Minix.

(** ** Bits of a block *)

Definition get_bit (d : list Z) (n : Z) : bool := Z.testbit (default 0 (aget d (n / 8))) (n mod 8).
Definition with_bit (d : list Z) (n : Z) (v : bool) : list Z :=
  let b := default 0 (aget d (n / 8)) in <[Z.to_nat (n / 8) := if v then Z.setbit b (n mod 8) else Z.clearbit b (n mod 8)]> d.

Lemma testbit_app a b n k : 0 <= a < 2 ^ n -> 0 <= n -> 0 <= k -> Z.testbit (a + 2 ^ n * b) k = if k <? n then Z.testbit a k else Z.testbit b (k - n).
Proof.
  intros Ha Hn Hk. assert (0 < 2 ^ n) by (apply Z.pow_pos_nonneg; lia). destruct (Z.ltb_spec k n) as [Hlt|Hge].
  - rewrite <-(Z.mod_pow2_bits_low (a + 2 ^ n * b) n k) by done. rewrite (Z.mul_comm (2 ^ n)), Z.mod_add by lia. by rewrite Z.mod_small.
  - assert (E : b = (a + 2 ^ n * b) / 2 ^ n) by (rewrite (Z.mul_comm (2 ^ n)), Z.div_add by lia; rewrite Z.div_small by done; lia).
    rewrite E at 2. rewrite Z.div_pow2_bits by lia. f_equal. lia.
Qed.

Lemma byte_at d i : block_data d -> 0 <= i < BLOCK_SIZE -> exists v, aget d i = Some v /\ in_u8 v.
Proof.
  intros [Hl Hd] Hi. destruct (aget_in_range d i) as [v Hv]; [rewrite Hl; lia|]. exists v. split; [done|].
  unfold aget in Hv. destruct (Z.ltb_spec i 0); [lia|]. by eapply Forall_lookup_1.
Qed.

Lemma bit_place n : 0 <= n < 8192 -> 0 <= n / 8 < BLOCK_SIZE /\ 0 <= n mod 8 < 8.
Proof. intros Hn. unfold BLOCK_SIZE. split; [split; [apply Z.div_pos; lia|apply Z.div_lt_upper_bound; lia]|apply Z.mod_pos_bound; lia]. Qed.

Lemma in_u8_bits v : in_u8 v <-> 0 <= v /\ forall k, 8 <= k -> Z.testbit v k = false.
Proof.
  unfold in_u8. split.
  - intros Hv. split; [lia|]. intros k Hk. destruct (Z.eq_dec v 0) as [->|]; [apply Z.bits_0|]. apply Z.bits_above_log2; [lia|].
    eapply Z.lt_le_trans; [apply (proj1 (Z.log2_lt_pow2 v 8 ltac:(lia)) ltac:(lia))|done].
  - intros [H0 Hk]. split; [done|]. destruct (Z.eq_dec v 0) as [->|]; [lia|]. apply (Z.log2_lt_pow2 v 8); [lia|].
    destruct (Z.lt_ge_cases (Z.log2 v) 8); [done|]. pose proof (Z.bit_log2 v ltac:(lia)) as Hb. rewrite Hk in Hb by done. done.
Qed.

Lemma setbit_u8 v k : in_u8 v -> 0 <= k < 8 -> in_u8 (Z.setbit v k).
Proof.
  rewrite !in_u8_bits. intros [H0 Hv] Hk. split; [unfold Z.setbit; apply Z.lor_nonneg; split; [done|apply Z.shiftl_nonneg; lia]|].
  intros m Hm. rewrite Z.setbit_neq by lia. by apply Hv.
Qed.

Lemma clearbit_u8 v k : in_u8 v -> 0 <= k < 8 -> in_u8 (Z.clearbit v k).
Proof.
  rewrite !in_u8_bits. intros [H0 Hv] Hk. split; [unfold Z.clearbit; apply Z.ldiff_nonneg; by left|].
  intros m Hm. rewrite Z.clearbit_neq by lia. by apply Hv.
Qed.

Lemma with_bit_data d n v : block_data d -> 0 <= n < 8192 -> block_data (with_bit d n v).
Proof.
  intros Hd Hn. destruct (bit_place n Hn) as [H1 H2]. destruct (byte_at d (n / 8) Hd H1) as (b & Hb & Hu). unfold with_bit. rewrite Hb. cbn [default].
  apply block_data_insert; [done|]. destruct v; [by apply setbit_u8|by apply clearbit_u8].
Qed.

Lemma get_with_bit d n v m : block_data d -> 0 <= n < 8192 -> 0 <= m < 8192 -> get_bit (with_bit d n v) m = if decide (m = n) then v else get_bit d m.
Proof.
  intros [Hl Hd] Hn Hm. destruct (bit_place n Hn) as [H1 H2], (bit_place m Hm) as [H3 H4]. unfold get_bit, with_bit.
  destruct (Z.eq_dec (m / 8) (n / 8)) as [E|E].
  - rewrite E, aget_insert_eq by (rewrite Hl; lia). cbn [default]. destruct (decide (m = n)) as [->|Hne].
    + destruct v; [apply Z.setbit_eq; lia|apply Z.clearbit_eq].
    + assert (n mod 8 <> m mod 8) by (intros E'; apply Hne; rewrite (Z.div_mod m 8), (Z.div_mod n 8) by lia; congruence).
      destruct v; [apply Z.setbit_neq; lia|apply Z.clearbit_neq; lia].
  - rewrite aget_insert_ne by lia. rewrite decide_False; [done|]. by intros ->.
Qed.

(** ** Operations on buffers *)

Section Buffers.
Context {C : Type} {HB : BufferCache C} {HV : CacheView C} {HL : BufferCacheOk C}.

Lemma becomes_trans (c c1 c2 : C) b w1 w2 : becomes c c1 b w1 -> becomes c1 c2 b w2 -> becomes c c2 b w2.
Proof. intros (H1 & H2 & H3) (H4 & H5 & H6). split; [by rewrite H4, H1, insert_insert_eq|]. split; [intros a; by rewrite H5|congruence]. Qed.

Lemma becomes_buffer (c c' : C) b w : becomes c c' b w -> buffer c' (bv_id w) b w.
Proof. intros (H1 & _). split; [by rewrite H1, lookup_insert_eq|done]. Qed.

Lemma bh_byte_run (c : C) x b w i : cwf c -> buffer c x b w -> 0 <= i < BLOCK_SIZE -> bh_byte x i c = Ok (default 0 (aget (bv_data w) i)) c.
Proof.
  intros Hc Hb Hi. destruct (byte_at (bv_data w) i) as (v & Hv & _); [by eapply cwf_data; [|exact (proj1 Hb)]|done|].
  rewrite (bh_byte_law x b w i v c Hc Hb Hv). by rewrite Hv.
Qed.

Definition word_at (d : list Z) (i : Z) : Z := default 0 (aget d (2 * i)) + 256 * default 0 (aget d (2 * i + 1)).
Definition long_at (d : list Z) (i : Z) : Z := word_at d (2 * i) + 65536 * word_at d (2 * i + 1).

Lemma bh_word_run (c : C) x b w i : cwf c -> buffer c x b w -> 0 <= i < 512 -> bh_word x i c = Ok (word_at (bv_data w) i) c.
Proof.
  intros Hc Hb Hi. unfold bh_word. rewrite (run_bind _ _ _ _ _ (bh_byte_run c x b w (2 * i) Hc Hb ltac:(unfold BLOCK_SIZE; lia))).
  by rewrite (run_bind _ _ _ _ _ (bh_byte_run c x b w (2 * i + 1) Hc Hb ltac:(unfold BLOCK_SIZE; lia))).
Qed.

Lemma bh_long_run (c : C) x b w i : cwf c -> buffer c x b w -> 0 <= i < 256 -> bh_long x i c = Ok (long_at (bv_data w) i) c.
Proof.
  intros Hc Hb Hi. unfold bh_long. rewrite (run_bind _ _ _ _ _ (bh_word_run c x b w (2 * i) Hc Hb ltac:(lia))).
  by rewrite (run_bind _ _ _ _ _ (bh_word_run c x b w (2 * i + 1) Hc Hb ltac:(lia))).
Qed.

Lemma set_bit_run (c : C) x b w n : cwf c -> buffer c x b w -> 0 <= n < 8192 ->
  exists c', set_bit n x c = Ok (b2z (get_bit (bv_data w) n)) c' /\ cwf c' /\ becomes c c' b (set_bv_data (with_bit (bv_data w) n true) w).
Proof.
  intros Hc Hb Hn. destruct (bit_place n Hn) as [H1 H2]. unfold set_bit. rewrite (run_bind _ _ _ _ _ (bh_byte_run c x b w (n / 8) Hc Hb H1)).
  destruct (byte_at (bv_data w) (n / 8)) as (v & Hv & Hu); [by eapply cwf_data; [|exact (proj1 Hb)]|done|]. rewrite Hv. cbn [default].
  destruct (set_bh_byte_law x b w (n / 8) (Z.setbit v (n mod 8)) c Hc Hb H1) as (c' & Hr & Hc' & Hw); [by apply setbit_u8|].
  exists c'. rewrite (run_bind _ _ _ _ _ Hr). unfold get_bit, with_bit. rewrite Hv. done.
Qed.

Lemma clear_bit_run (c : C) x b w n : cwf c -> buffer c x b w -> 0 <= n < 8192 ->
  exists c', clear_bit n x c = Ok (b2z (negb (get_bit (bv_data w) n))) c' /\ cwf c' /\ becomes c c' b (set_bv_data (with_bit (bv_data w) n false) w).
Proof.
  intros Hc Hb Hn. destruct (bit_place n Hn) as [H1 H2]. unfold clear_bit. rewrite (run_bind _ _ _ _ _ (bh_byte_run c x b w (n / 8) Hc Hb H1)).
  destruct (byte_at (bv_data w) (n / 8)) as (v & Hv & Hu); [by eapply cwf_data; [|exact (proj1 Hb)]|done|]. rewrite Hv. cbn [default].
  destruct (set_bh_byte_law x b w (n / 8) (Z.clearbit v (n mod 8)) c Hc Hb H1) as (c' & Hr & Hc' & Hw); [by apply clearbit_u8|].
  exists c'. rewrite (run_bind _ _ _ _ _ Hr). unfold get_bit, with_bit. rewrite Hv. done.
Qed.

Lemma becomes_refl (c : C) x b w : buffer c x b w -> becomes c c b w.
Proof. intros [Hw _]. split; [by rewrite insert_id|done]. Qed.

Lemma clear_block_run (c : C) x b w : cwf c -> buffer c x b w ->
  exists c', clear_block x c = Ok tt c' /\ cwf c' /\ becomes c c' b (set_bv_data zero_block w).
Proof.
  intros Hc Hb. pose proof (cwf_data _ Hc _ _ (proj1 Hb)) as [Hl Hd]. unfold clear_block.
  assert (Hgo : forall n, (n <= Z.to_nat BLOCK_SIZE)%nat -> exists c', for_each (range 0 n) (fun i => set_bh_byte x i 0) c = Ok tt c' /\ cwf c' /\
    becomes c c' b (set_bv_data (replicate n 0 ++ drop n (bv_data w)) w)).
  { induction n as [|n IH]; intros Hn; [exists c; split; [done|]; split; [done|]; rewrite drop_0; destruct w; by eapply becomes_refl|].
    destruct IH as (c1 & Hr & Hc1 & Hb1); [lia|]. rewrite range_S, for_each_app. rewrite (run_bind _ _ _ _ _ Hr). cbn [for_each]. rewrite Z.add_0_l.
    destruct (set_bh_byte_law x b (set_bv_data (replicate n 0 ++ drop n (bv_data w)) w) (Z.of_nat n) 0 c1 Hc1) as (c2 & Hr2 & Hc2 & Hb2);
      [rewrite <-(proj2 Hb); exact (becomes_buffer _ _ _ _ Hb1)|unfold BLOCK_SIZE in *; lia|unfold in_u8; lia|].
    exists c2. rewrite (run_bind _ _ _ _ _ Hr2). split; [done|]. split; [done|].
    pose proof (becomes_trans _ _ _ _ _ _ Hb1 Hb2) as Ht. unfold set_bv_data in Ht |- *. cbn [bv_id bv_count bv_up bv_dirt bv_data] in Ht. rewrite Nat2Z.id in Ht.
    rewrite replicate_S_end, <-app_assoc. rewrite insert_app_r_alt in Ht by (by rewrite length_replicate). rewrite length_replicate, Nat.sub_diag in Ht.
    destruct (drop n (bv_data w)) as [|v l] eqn:E; [apply (f_equal length) in E; rewrite length_drop in E; cbn in E; lia|]. cbn [insert list_insert] in Ht.
    replace (drop (Datatypes.S n) (bv_data w)) with l; [done|]. apply (f_equal (drop 1)) in E. rewrite drop_drop in E. cbn in E. by rewrite Nat.add_1_r in E. }
  destruct (Hgo (Z.to_nat BLOCK_SIZE)) as (c' & Hr & Hc' & Hb'); [done|]. exists c'. split; [done|]. split; [done|].
  rewrite drop_ge, app_nil_r in Hb' by lia. exact Hb'.
Qed.

(** *** [find_first_zero] *)

Lemma long_bit d i k : block_data d -> 0 <= i < 256 -> 0 <= k < 32 -> Z.testbit (long_at d i) k = get_bit d (32 * i + k).
Proof.
  intros Hd Hi Hk. unfold long_at, word_at, get_bit.
  assert (Hb : forall j, 0 <= j < 1024 -> in_u8 (default 0 (aget d j))) by (intros j Hj; destruct (byte_at d j Hd Hj) as (v & -> & ?); done).
  pose proof (Hb (4 * i) ltac:(lia)) as B0. pose proof (Hb (4 * i + 1) ltac:(lia)) as B1. pose proof (Hb (4 * i + 2) ltac:(lia)) as B2. pose proof (Hb (4 * i + 3) ltac:(lia)) as B3.
  replace (2 * (2 * i)) with (4 * i) by lia. replace (2 * (2 * i + 1)) with (4 * i + 2) by lia. replace (4 * i + 2 + 1) with (4 * i + 3) by lia.
  set (b0 := default 0 (aget d (4 * i))) in *. set (b1 := default 0 (aget d (4 * i + 1))) in *. set (b2 := default 0 (aget d (4 * i + 2))) in *. set (b3 := default 0 (aget d (4 * i + 3))) in *.
  unfold in_u8 in *. change 65536 with (2 ^ 16). rewrite (testbit_app _ _ 16) by lia. change 256 with (2 ^ 8).
  assert (E : forall j, 0 <= j < 4 -> 8 * j <= k < 8 * j + 8 -> (32 * i + k) / 8 = 4 * i + j /\ (32 * i + k) mod 8 = k - 8 * j).
  { intros j Hj Hkj. assert (Hq : 32 * i + k = 8 * (4 * i + j) + (k - 8 * j)) by lia. rewrite Hq. split.
    - rewrite (Z.mul_comm 8 (4 * i + j)), Z.div_add_l, Z.div_small by lia. lia.
    - rewrite Z.add_comm, (Z.mul_comm 8 (4 * i + j)), Z.mod_add, Z.mod_small by lia. done. }
  destruct (Z.ltb_spec k 16); rewrite (testbit_app _ _ 8) by lia; [destruct (Z.ltb_spec k 8)|destruct (Z.ltb_spec (k - 16) 8)].
  - destruct (E 0) as [-> ->]; [lia|lia|]. rewrite Z.add_0_r. fold b0. f_equal; lia.
  - destruct (E 1) as [-> ->]; [lia|lia|]. fold b1. f_equal; lia.
  - destruct (E 2) as [-> ->]; [lia|lia|]. fold b2. f_equal; lia.
  - destruct (E 3) as [-> ->]; [lia|lia|]. fold b3. f_equal; lia.
Qed.

Lemma bsf_spec v : forall n i, 0 <= i -> (exists k, i <= k < i + Z.of_nat n /\ Z.testbit v k = true) ->
  Z.testbit v (bsf n v i) = true /\ i <= bsf n v i < i + Z.of_nat n /\ forall k, i <= k < bsf n v i -> Z.testbit v k = false.
Proof.
  induction n as [|n IH]; intros i Hi (k & Hk & Hv); [lia|]. cbn [bsf]. destruct (Z.testbit v i) eqn:E; [split; [done|]; split; [lia|lia]|].
  assert (k <> i) by congruence. destruct (IH (i + 1)) as (H1' & H2' & H3'); [lia|exists k; split; [lia|done]|]. split; [done|]. split; [lia|].
  intros m Hm. destruct (Z.eq_dec m i) as [->|]; [done|]. apply H3'. lia.
Qed.

Lemma long_at_u32 d i : block_data d -> 0 <= i < 256 -> in_u32 (long_at d i).
Proof.
  intros Hd Hi. unfold long_at, word_at, in_u32.
  assert (Hb : forall j, 0 <= j < 1024 -> in_u8 (default 0 (aget d j))) by (intros j Hj; destruct (byte_at d j Hd Hj) as (v & -> & ?); done).
  pose proof (Hb (2 * (2 * i)) ltac:(lia)). pose proof (Hb (2 * (2 * i) + 1) ltac:(lia)).
  pose proof (Hb (2 * (2 * i + 1)) ltac:(lia)). pose proof (Hb (2 * (2 * i + 1) + 1) ltac:(lia)). unfold in_u8 in *. lia.
Qed.

Lemma ones_bit k : 0 <= k -> Z.testbit 0xffffffff k = (k <? 32).
Proof. intros Hk. change 0xffffffff with (Z.ones 32). rewrite Z.testbit_ones by lia. destruct (Z.leb_spec 0 k); [done|lia]. Qed.

(** Inverting a long: it is 0 when all its bits are set. *)
Lemma inverted d i : block_data d -> 0 <= i < 256 ->
  let v := Z.lxor (long_at d i) 0xffffffff in
  (truth v = false -> forall k, 0 <= k < 32 -> get_bit d (32 * i + k) = true) /\
  (truth v = true -> let j := bsf 32 v 0 in 0 <= j < 32 /\ get_bit d (32 * i + j) = false /\ forall k, 0 <= k < j -> get_bit d (32 * i + k) = true).
Proof.
  intros Hd Hi v. assert (Hv : forall k, 0 <= k -> Z.testbit v k = if k <? 32 then negb (get_bit d (32 * i + k)) else false).
  { intros k Hk. unfold v. rewrite Z.lxor_spec, ones_bit by lia. destruct (Z.ltb_spec k 32); [rewrite (long_bit d i k Hd Hi ltac:(lia)); by destruct (get_bit d _)|].
    rewrite xorb_false_r. destruct (long_at_u32 d i Hd Hi) as [Hl Hu]. destruct (Z.eq_dec (long_at d i) 0) as [->|]; [apply Z.bits_0|].
    apply Z.bits_above_log2; [lia|]. eapply Z.lt_le_trans; [apply (proj1 (Z.log2_lt_pow2 (long_at d i) 32 ltac:(lia)) Hu)|done]. }
  split.
  - unfold truth. destruct (Z.eqb_spec v 0) as [E|]; [|done]. intros _ k Hk. pose proof (Hv k ltac:(lia)) as Hb. rewrite E, Z.bits_0 in Hb.
    destruct (Z.ltb_spec k 32); [|lia]. by destruct (get_bit d _).
  - unfold truth. destruct (Z.eqb_spec v 0) as [|E]; [done|]. intros _. set (j := bsf 32 v 0).
    destruct (bsf_spec v 32 0) as (H1' & H2' & H3'); [lia| |].
    { assert (Hpos : 0 < v) by (destruct (long_at_u32 d i Hd Hi); assert (0 <= v) by (unfold v; by apply Z.lxor_nonneg); lia).
      exists (Z.log2 v). pose proof (Z.bit_log2 v Hpos) as Hb. pose proof (Z.log2_nonneg v). split; [|done].
      rewrite Hv in Hb by done. destruct (Z.ltb_spec (Z.log2 v) 32); [lia|done]. }
    split; [lia|]. split.
    + fold j in H1', H2'. rewrite Hv in H1' by lia. destruct (Z.ltb_spec j 32); [by destruct (get_bit d _)|lia].
    + intros k Hk. pose proof (H3' k ltac:(fold j; lia)) as Hb. rewrite Hv in Hb by lia. destruct (Z.ltb_spec k 32); [by destruct (get_bit d _)|lia].
Qed.

Lemma find_first_zero_run (c : C) x b w : cwf c -> buffer c x b w ->
  exists j, find_first_zero x c = Ok j c /\ 0 <= j <= 8192 /\ (forall k, 0 <= k < j -> get_bit (bv_data w) k = true) /\
    (j < 8192 -> get_bit (bv_data w) j = false).
Proof.
  intros Hc Hb. pose proof (cwf_data _ Hc _ _ (proj1 Hb)) as Hd.
  assert (Hgo : forall n i, 0 <= i < 256 -> (Z.to_nat (256 - i) < n)%nat -> (forall k, 0 <= k < 32 * i -> get_bit (bv_data w) k = true) ->
    exists j, iter n (zero_step x) (32 * i) c = Ok j c /\ 0 <= j <= 8192 /\ (forall k, 0 <= k < j -> get_bit (bv_data w) k = true) /\
      (j < 8192 -> get_bit (bv_data w) j = false)).
  { induction n as [|n IH]; intros i Hi Hn Hlow; [lia|]. cbn [iter].
    destruct (inverted (bv_data w) i Hd Hi) as [Hz Hnz]. set (v := Z.lxor (long_at (bv_data w) i) 0xffffffff) in *.
    assert (Hs : zero_step x (32 * i) c = Ok (if truth v then inr (32 * i + bsf 32 v 0) else if 32 * i + 32 <? 8192 then inl (32 * i + 32) else inr (32 * i + 32)) c).
    { unfold zero_step. rewrite (Z.mul_comm 32 i), Z.div_mul, (Z.mul_comm i 32) by lia. rewrite (run_bind _ _ _ _ _ (bh_long_run c x b w i Hc Hb Hi)). fold v.
      by destruct (truth v), (32 * i + 32 <? 8192). }
    rewrite (run_bind _ _ _ _ _ Hs). destruct (truth v).
    - destruct Hnz as (Hj & Hf & Hlt); [done|]. eexists. split; [reflexivity|]. split; [lia|]. split; [|done].
      intros k Hk. destruct (Z.lt_ge_cases k (32 * i)); [apply Hlow; lia|]. replace k with (32 * i + (k - 32 * i)) by lia. apply Hlt. lia.
    - specialize (Hz eq_refl). assert (Hlow' : forall k, 0 <= k < 32 * (i + 1) -> get_bit (bv_data w) k = true).
      { intros k Hk. destruct (Z.lt_ge_cases k (32 * i)); [apply Hlow; lia|]. replace k with (32 * i + (k - 32 * i)) by lia. apply Hz. lia. }
      replace (32 * i + 32) with (32 * (i + 1)) by lia. destruct (Z.ltb_spec (32 * (i + 1)) 8192); [apply IH; [lia|lia|done]|].
      eexists. split; [reflexivity|]. split; [lia|]. split; [done|]. lia. }
  apply (Hgo 257%nat 0); [lia|lia|]. intros k Hk. lia.
Qed.

(** The maps [l] are the buffers of the blocks of [dev] from [first] on. *)
Definition maps_at (c : C) (dev first : Z) (l : list bptr) : Prop :=
  forall i x, aget l i = Some (Some x) -> exists w, buffer c x (dev, first + i) w /\ bv_up w = true.

Lemma maps_cons (c : C) dev first m l : maps_at c dev first (m :: l) ->
  maps_at c dev (first + 1) l /\ forall x, m = Some x -> exists w, buffer c x (dev, first) w /\ bv_up w = true.
Proof.
  intros Hm. split.
  - intros i x Hx. destruct (Hm (i + 1) x) as (w & ?); [|exists w; by replace (first + 1 + i) with (first + (i + 1)) by lia].
    unfold aget in *. destruct (Z.ltb_spec i 0); [done|]. destruct (Z.ltb_spec (i + 1) 0); [lia|].
    by replace (Z.to_nat (i + 1)) with (Datatypes.S (Z.to_nat i)) by lia.
  - intros x ->. destruct (Hm 0 x eq_refl) as (w & ?). exists w. by rewrite Z.add_0_r in *.
Qed.

Lemma up_content (c : C) x b w : buffer c x b w -> bv_up w = true -> content c b = bv_data w.
Proof. intros [Hw _] Hu. unfold content. by rewrite Hw, Hu. Qed.

(** [map_scan] finds the first clear bit, or all maps are full. *)
Lemma map_scan_run (c : C) dev : cwf c -> forall l first i0 bh0 j0, maps_at c dev first l ->
  exists i bh j, map_scan l i0 bh0 j0 c = Ok (i, bh, j) c /\
    ((i = i0 + Z.of_nat (length l) /\ forall m x k, aget l m = Some (Some x) -> 0 <= k < 8192 -> get_bit (content c (dev, first + m)) k = true) \/
     (i0 <= i < i0 + Z.of_nat (length l) /\ 0 <= j < 8192 /\ is_Some bh /\ aget l (i - i0) = Some bh /\ get_bit (content c (dev, first + (i - i0))) j = false /\
      (forall k, 0 <= k < j -> get_bit (content c (dev, first + (i - i0))) k = true) /\
      forall m x k, 0 <= m < i - i0 -> aget l m = Some (Some x) -> 0 <= k < 8192 -> get_bit (content c (dev, first + m)) k = true)).
Proof.
  intros Hc. induction l as [|o l IH]; intros first i0 bh0 j0 Hm.
  { eexists i0, bh0, j0. split; [reflexivity|]. left. split; [cbn; lia|]. intros m x k Hx. unfold aget in Hx. by destruct (m <? 0). }
  destruct (maps_cons c dev first o l Hm) as [Hl Ho].
  assert (Hstep : forall bh j, (forall x, o = Some x -> forall k, 0 <= k < 8192 -> get_bit (content c (dev, first)) k = true) ->
    exists i bh' j', map_scan l (i0 + 1) bh j c = Ok (i, bh', j') c /\
    ((i = i0 + Z.of_nat (length (o :: l)) /\ forall m x k, aget (o :: l) m = Some (Some x) -> 0 <= k < 8192 -> get_bit (content c (dev, first + m)) k = true) \/
     (i0 <= i < i0 + Z.of_nat (length (o :: l)) /\ 0 <= j' < 8192 /\ is_Some bh' /\ aget (o :: l) (i - i0) = Some bh' /\ get_bit (content c (dev, first + (i - i0))) j' = false /\
      (forall k, 0 <= k < j' -> get_bit (content c (dev, first + (i - i0))) k = true) /\
      forall m x k, 0 <= m < i - i0 -> aget (o :: l) m = Some (Some x) -> 0 <= k < 8192 -> get_bit (content c (dev, first + m)) k = true))).
  { intros bh j Hfull. destruct (IH (first + 1) (i0 + 1) bh j Hl) as (i & bh' & j' & Hr & Hres). exists i, bh', j'. split; [done|].
    assert (Hold : forall n m x k, (forall m x k, 0 <= m < n -> aget l m = Some (Some x) -> 0 <= k < 8192 -> get_bit (content c (dev, first + 1 + m)) k = true) ->
      m < n + 1 -> aget (o :: l) m = Some (Some x) -> 0 <= k < 8192 -> get_bit (content c (dev, first + m)) k = true).
    { intros n m x k Hn Hmn Hx Hk. pose proof (aget_Some_range _ _ _ Hx). destruct (Z.eq_dec m 0) as [->|].
      - rewrite Z.add_0_r. eapply Hfull; [|done]. by injection Hx.
      - replace (first + m) with (first + 1 + (m - 1)) by lia. eapply Hn; [lia| |done]. unfold aget in *. destruct (Z.ltb_spec m 0); [lia|]. destruct (Z.ltb_spec (m - 1) 0); [lia|].
        by replace (Z.to_nat m) with (Datatypes.S (Z.to_nat (m - 1))) in Hx by lia. }
    destruct Hres as [[Hi Hf]|(Hi & Hj & Hb & Hx & Hbit & Hlow & Hf)].
    - left. cbn [length]. split; [lia|]. intros m x k Hx Hk. pose proof (aget_Some_range _ _ _ Hx). cbn [length] in *. eapply (Hold (Z.of_nat (length l))); [|lia|done|done]. intros. by eapply Hf.
    - right. cbn [length]. replace (first + 1 + (i - (i0 + 1))) with (first + (i - i0)) in * by lia. split; [lia|]. split; [done|]. split; [done|]. split; [|split; [done|split; [done|]]].
      + unfold aget in *. destruct (Z.ltb_spec (i - (i0 + 1)) 0); [done|]. destruct (Z.ltb_spec (i - i0) 0); [lia|].
        by replace (Z.to_nat (i - i0)) with (Datatypes.S (Z.to_nat (i - (i0 + 1)))) by lia.
      + intros m x k Hmi Hx' Hk. eapply (Hold (i - (i0 + 1))); [|lia|done|done]. done. }
  cbn [map_scan]. destruct o as [x|]; [|by apply Hstep].
  destruct (Ho x eq_refl) as (w & Hb & Hu). pose proof (up_content c x _ w Hb Hu) as Hct.
  destruct (find_first_zero_run c x _ w Hc Hb) as (j & Hr & Hj & Hlow & Hbit). rewrite (run_bind _ _ _ _ _ Hr).
  destruct (Z.ltb_spec j 8192) as [Hlt|Hge].
  - exists i0, (Some x), j. split; [reflexivity|]. right. rewrite Z.sub_diag, Z.add_0_r, Hct. cbn [length]. split; [lia|]. split; [lia|]. split; [by eexists|]. split; [done|]. split; [auto|]. split; [done|]. lia.
  - apply Hstep. intros _ _ k Hk. rewrite Hct. apply Hlow. lia.
Qed.

End Buffers.

(** ** The zone map of a mounted device *)

Lemma on_cache_run {C A} (m : M C A) (s : fss C) a c : m (fcache s) = Ok a c -> on_cache m s = Ok a (set_fcache c s).
Proof. intros H. unfold on_cache. by rewrite H. Qed.
(** The same with the cache at hand: one step after another. *)
Lemma on_cache_at {C A} (m : M C A) (s : fss C) a c c' : m c = Ok a c' -> on_cache m (set_fcache c s) = Ok a (set_fcache c' s).
Proof. intros H. unfold on_cache. cbn [fcache set_fcache]. by rewrite H. Qed.
Lemma on_task_run {C A} (m : M kst A) (s : fss C) a k : m (fkern s) = Ok a k -> on_task m s = Ok a (set_fkern k s).
Proof. intros H. unfold on_task. by rewrite H. Qed.
Lemma super_at_run {C} n (s : fss C) b : aget (super_blocks s) n = Some b -> super_at n s = Ok b s.
Proof. intros H. unfold super_at. rewrite (run_bind _ _ _ s s) by reflexivity. by rewrite H. Qed.
Lemma inode_at_run {C} n (s : fss C) v : aget (inode_table s) n = Some v -> inode_at n s = Ok v s.
Proof. intros H. unfold inode_at. rewrite (run_bind _ _ _ s s) by reflexivity. by rewrite H. Qed.

(** The first block of the zone map. *)
Definition zmap_first (sb : super_block) : Z := 2 + s_imap_blocks sb.

Section Zones.
Context {C : Type} {HB : BufferCache C} {HV : CacheView C} {HL : BufferCacheOk C} {HE : FsEnv C}.
Context (dev sbn : Z) (sb : super_block).

(** The super block of the device, and where the zones are. *)
Record mounted (s : fss C) : Prop := {
  md_dev : dev <> 0;
  md_super : aget (super_blocks s) sbn = Some sb /\ s_dev sb = dev /\ s_lock sb = 0 /\ sbn < NR_SUPER;
  md_first : forall i b, i < sbn -> aget (super_blocks s) i = Some b -> s_dev b <> dev
}.
Record zones_ok : Prop := {
  zo_len : Z.of_nat (length (s_zmap sb)) = MINIX_Z_MAP_SLOTS;
  zo_some : forall i, 0 <= i < s_zmap_blocks sb -> exists x, aget (s_zmap sb) i = Some (Some x);
  zo_none : forall i x, aget (s_zmap sb) i = Some (Some x) -> i < s_zmap_blocks sb;
  zo_first : 0 <= s_imap_blocks sb /\ zmap_first sb + s_zmap_blocks sb <= s_firstdatazone sb <= s_nzones sb /\ s_nzones sb < 65536;
  zo_size : s_nzones sb - s_firstdatazone sb + 1 <= 8192 * s_zmap_blocks sb <= 65536
}.

Definition data_zone (z : Z) : Prop := s_firstdatazone sb <= z < s_nzones sb.
(** Whether zone [z] is taken. *)
Definition zbit (c : C) (z : Z) : bool :=
  let n := z - s_firstdatazone sb + 1 in get_bit (content c (dev, zmap_first sb + n / 8192)) (n mod 8192).
Definition is_map (b : Z * Z) : Prop := b.1 = dev /\ zmap_first sb <= b.2 < zmap_first sb + s_zmap_blocks sb.

Record zmap_ok (c : C) : Prop := {
  zm_wf : cwf c;
  zm_maps : maps_at c dev (zmap_first sb) (s_zmap sb);
  zm_settled : forall b w, held c !! b = Some w -> settled c b w;
  zm_zero : get_bit (content c (dev, zmap_first sb)) 0 = true;
  zm_free : forall z, data_zone z -> zbit c z = false -> held c !! (dev, z) = None
}.

Lemma get_super_run patience s : (0 < patience)%nat -> mounted s -> get_super patience dev s = Ok (Some sbn) s.
Proof using.
  intros Hpat [Hd (Hs & Hdev & Hl & Hn) Hf]. unfold get_super. destruct (Z.eqb_spec dev 0); [done|].
  assert (Hr : 0 <= sbn) by (apply aget_Some_range in Hs; lia).
  assert (Hgo : forall m k, 0 <= k <= sbn -> (Z.to_nat (sbn - k) < m)%nat -> iter m (get_super_step patience dev) k s = Ok (Some sbn) s).
  { induction m as [|m IH]; intros k Hk Hm; [lia|]. cbn [iter].
    destruct (aget_in_range (super_blocks s) k) as [b Hb]; [apply aget_Some_range in Hs; lia|].
    destruct (Z.eq_dec k sbn) as [->|Hne].
    - rewrite (run_bind _ _ _ (inr (Some sbn)) s); [reflexivity|]. unfold get_super_step. destruct (Z.leb_spec NR_SUPER sbn); [lia|]. rewrite (run_bind _ _ _ sb s) by (by apply super_at_run). rewrite Hdev, Z.eqb_refl.
      rewrite (run_bind _ _ _ tt s). { rewrite (run_bind _ _ _ sb s) by (by apply super_at_run). rewrite Hdev, Z.eqb_refl. reflexivity. }
      unfold wait_on_super. destruct patience as [|p]; [lia|]. cbn [iter]. rewrite (run_bind _ _ _ (inr tt) s); [reflexivity|].
      rewrite (run_bind _ _ _ sb s) by (by apply super_at_run). rewrite Hl. reflexivity.
    - rewrite (run_bind _ _ _ (inl (k + 1)) s); [apply IH; lia|]. unfold get_super_step. destruct (Z.leb_spec NR_SUPER k); [lia|]. rewrite (run_bind _ _ _ b s) by (by apply super_at_run).
      destruct (Z.eqb_spec (s_dev b) dev) as [E|]; [|reflexivity]. by destruct (Hf k b); [lia|..]. }
  apply Hgo; [lia|]. unfold NR_SUPER in *. nia.
Qed.

(** What an operation on the map leaves alone: buffers that are not of the map,
    who refers to the others, and the contents of blocks other than [P]. *)
Record zstep (P : Z * Z -> Prop) (c c' : C) : Prop := {
  zs_held : forall b, ~ is_map b -> held c' !! b = held c !! b;
  zs_maps : forall b w, is_map b -> held c !! b = Some w ->
    exists w', held c' !! b = Some w' /\ bv_id w' = bv_id w /\ bv_count w' = bv_count w /\ bv_up w' = bv_up w;
  zs_dom : dom (held c') = dom (held c);
  zs_content : forall b, ~ is_map b -> ~ P b -> content c' b = content c b;
  zs_cap : capacity c' = capacity c
}.

Lemma zstep_refl P c : zstep P c c.
Proof using. split; try done. intros b w _ Hw. by exists w. Qed.

Lemma zstep_trans P c1 c2 c3 : zstep P c1 c2 -> zstep P c2 c3 -> zstep P c1 c3.
Proof using.
  intros [A1 A2 A3 A4 A5] [B1 B2 B3 B4 B5]. split.
  - intros b Hb. by rewrite B1, A1.
  - intros b w Hb Hw. destruct (A2 b w Hb Hw) as (w' & Hw' & E1 & E2 & E3). destruct (B2 b w' Hb Hw') as (w'' & ? & ? & ? & ?). exists w''. split; [done|]. split_and!; congruence.
  - congruence.
  - intros b Hb Hp. rewrite B4, A4; done.
  - congruence.
Qed.

Lemma zstep_mono (P Q : Z * Z -> Prop) c c' : (forall b, P b -> Q b) -> zstep P c c' -> zstep Q c c'.
Proof using. intros HPQ [A1 A2 A3 A4 A5]. split; try done. intros b Hb Hq. apply A4; [done|auto]. Qed.

Lemma zstep_room P n c c' : zstep P c c' -> room n c -> room n c'.
Proof using. intros [_ _ Hd _ Hc]. unfold room. rewrite <-!size_dom, Hd, Hc. done. Qed.

Lemma map_is_map i x : zones_ok -> aget (s_zmap sb) i = Some (Some x) -> is_map (dev, zmap_first sb + i).
Proof using. intros Hz Hx. pose proof (zo_none Hz i x Hx). apply aget_Some_range in Hx. unfold is_map. cbn. lia. Qed.

Lemma zone_not_map z : zones_ok -> data_zone z -> ~ is_map (dev, z).
Proof using. intros Hz Hd [_ Hm]. pose proof (zo_first Hz). unfold data_zone in Hd. cbn in Hm. lia. Qed.

Lemma zstep_maps P c c' : zones_ok -> zstep P c c' -> maps_at c dev (zmap_first sb) (s_zmap sb) -> maps_at c' dev (zmap_first sb) (s_zmap sb).
Proof using.
  intros Hz Hs Hm i x Hx. destruct (Hm i x Hx) as (w & [Hw Hi] & Hu). destruct (zs_maps _ _ _ Hs _ w (map_is_map i x Hz Hx) Hw) as (w' & ? & ? & ? & ?).
  exists w'. split; [split; congruence|congruence].
Qed.

(** Where the bit of a zone is. *)
Lemma zone_place z : zones_ok -> data_zone z -> let n := z - s_firstdatazone sb + 1 in
  0 < n < 8192 * s_zmap_blocks sb /\ 0 <= n / 8192 < s_zmap_blocks sb /\ 0 <= n mod 8192 < 8192 /\ Z.shiftr (u32 n) 13 = n / 8192 /\ Z.land (u32 n) 8191 = n mod 8192.
Proof using.
  intros Hz Hd n. pose proof (zo_size Hz). pose proof (zo_first Hz). unfold data_zone in Hd. assert (Hn : 0 < n < 8192 * s_zmap_blocks sb) by (unfold n; lia).
  split; [done|]. split; [split; [apply Z.div_pos; lia|apply Z.div_lt_upper_bound; lia]|]. split; [apply Z.mod_pos_bound; lia|].
  rewrite u32_small by (unfold in_u32; lia). split; [by rewrite Z.shiftr_div_pow2 by lia|]. change 8191 with (Z.ones 13). by rewrite Z.land_ones by lia.
Qed.

(** Bit [j] of map [i] becomes [v], and the map dirty. *)
Section Bit.
Context (Hz : zones_ok) (c c2 : C) (i j x : Z) (w : bview) (v : bool).
Context (Hok : zmap_ok c) (Hx : aget (s_zmap sb) i = Some (Some x)) (Hw : buffer c x (dev, zmap_first sb + i) w) (Hu : bv_up w = true).
Context (Hj : 0 <= j < 8192) (Hc2 : cwf c2) (Hb : becomes c c2 (dev, zmap_first sb + i) (set_bv_dirt true (set_bv_data (with_bit (bv_data w) j v) w))).

Lemma bit_content b : content c2 b = if decide (b = (dev, zmap_first sb + i)) then with_bit (content c b) j v else content c b.
Proof using Hz Hok Hx Hw Hu Hj Hc2 Hb HB HL.
  destruct Hb as (H1 & H2 & _). unfold content. rewrite H1. destruct (decide (b = _)) as [->|Hne].
  - rewrite lookup_insert_eq. cbn. destruct Hw as [-> _]. by rewrite Hu.
  - rewrite lookup_insert_ne by done. destruct (held c !! b) as [w0|]; [destruct (bv_up w0)|]; done || apply H2.
Qed.

Lemma bit_zstep : zstep (fun _ => False) c c2.
Proof using Hz Hok Hx Hw Hu Hj Hc2 Hb HB HL.
  pose proof (map_is_map i x Hz Hx) as Hm. split.
  - intros b Hn. rewrite (proj1 Hb), lookup_insert_ne by (intros <-; done). done.
  - intros b w0 _ H0. rewrite (proj1 Hb). destruct (decide (b = (dev, zmap_first sb + i))) as [->|Hne].
    + rewrite lookup_insert_eq. eexists. split; [reflexivity|]. destruct Hw as [Hw' _]. rewrite Hw' in H0. by injection H0 as <-.
    + rewrite lookup_insert_ne by done. by exists w0.
  - rewrite (proj1 Hb), dom_insert_L. destruct Hw as [Hw' _]. apply elem_of_dom_2 in Hw'. set_solver.
  - intros b Hn _. rewrite bit_content, decide_False; [done|]. by intros ->.
  - apply Hb.
Qed.

Lemma bit_settled b w0 : held c2 !! b = Some w0 -> settled c2 b w0.
Proof using Hz Hok Hx Hw Hu Hj Hc2 Hb HB HL.
  rewrite (proj1 Hb). destruct (decide (b = (dev, zmap_first sb + i))) as [->|Hne].
  - rewrite lookup_insert_eq. intros [= <-]. intros _. by left.
  - rewrite lookup_insert_ne by done. intros H0. unfold settled. rewrite (proj1 (proj2 Hb)). by apply (zm_settled _ Hok).
Qed.

Lemma bit_zbit z : data_zone z -> zbit c2 z = if decide (z - s_firstdatazone sb + 1 = 8192 * i + j) then v else zbit c z.
Proof using Hz Hok Hx Hw Hu Hj Hc2 Hb HB HL.
  intros Hd. destruct (zone_place z Hz Hd) as (Hn & Hq & Hm & _). unfold zbit. set (n := z - s_firstdatazone sb + 1) in *.
  rewrite bit_content. pose proof (Z.div_mod n 8192 ltac:(lia)) as Hdm. pose proof (content_data c (zm_wf _ Hok)) as Hcd.
  destruct (decide ((dev, zmap_first sb + n / 8192) = _)) as [E|E].
  - assert (n / 8192 = i) by (injection E; lia). rewrite get_with_bit by done. destruct (decide (n mod 8192 = j)), (decide (n = 8192 * i + j)); done || lia.
  - rewrite decide_False; [done|]. intros En. apply E. f_equal. f_equal. rewrite En, Z.mul_comm, Z.div_add_l, Z.div_small by lia. lia.
Qed.

Lemma bit_zero : v = true \/ 8192 * i + j <> 0 -> get_bit (content c2 (dev, zmap_first sb)) 0 = true.
Proof using Hz Hok Hx Hw Hu Hj Hc2 Hb HB HL.
  intros Hv. pose proof (zm_zero _ Hok) as H0. rewrite bit_content. pose proof (content_data c (zm_wf _ Hok)) as Hcd. destruct (decide (_ = _)) as [E|]; [|done].
  assert (i = 0) by (injection E; lia). rewrite get_with_bit by (done || lia). destruct (decide (0 = j)); [|done]. destruct Hv; [done|lia].
Qed.

End Bit.

(** ** [minix_new_block] *)

(** What [minix_new_block] returns: a zone that was free, now taken and empty; or
    0, when no zone is free. *)
Definition new_zone (s : fss C) (z : Z) (s' : fss C) : Prop :=
  (z = 0 /\ (forall z', data_zone z' -> zbit (fcache s) z' = true /\ zbit (fcache s') z' = true) /\ zstep (fun _ => False) (fcache s) (fcache s')) \/
  (data_zone z /\ zbit (fcache s) z = false /\ (forall z', data_zone z' -> zbit (fcache s') z' = if decide (z' = z) then true else zbit (fcache s) z') /\
   content (fcache s') (dev, z) = zero_block /\ zstep (eq (dev, z)) (fcache s) (fcache s')).

Lemma mark_bit_run c i j x w : zmap_ok c -> buffer c x (dev, zmap_first sb + i) w -> 0 <= j < 8192 ->
  exists c1 c2, set_bit j x c = Ok (b2z (get_bit (bv_data w) j)) c1 /\ set_bh_dirt x 1 c1 = Ok tt c2 /\ cwf c2 /\
    becomes c c2 (dev, zmap_first sb + i) (set_bv_dirt true (set_bv_data (with_bit (bv_data w) j true) w)).
Proof using HL.
  intros Hok Hw Hj. destruct (set_bit_run c x _ w j (zm_wf _ Hok) Hw Hj) as (c1 & H1 & Hc1 & Hb1).
  pose proof (becomes_buffer _ _ _ _ Hb1) as Hw1. cbn [bv_id set_bv_data] in Hw1. rewrite (proj2 Hw) in Hw1.
  destruct (set_bh_dirt_law x _ _ 1 c1 Hc1 Hw1) as (c2 & H2 & Hc2 & Hb2). exists c1, c2. split; [done|]. split; [done|]. split; [done|].
  exact (becomes_trans _ _ _ _ _ _ Hb1 Hb2).
Qed.

(** The block of a new zone is emptied through a buffer nobody else has. *)
Lemma fresh_block_run c z : cwf c -> dev <> 0 -> held c !! (dev, z) = None -> room 1 c ->
  exists x c3 c4 c5 c6 c7, getblk dev z c = Ok x c3 /\ bh_count x c3 = Ok 1 c3 /\ clear_block x c3 = Ok tt c4 /\ set_bh_uptodate x 1 c4 = Ok tt c5 /\
    set_bh_dirt x 1 c5 = Ok tt c6 /\ brelse (Some x) c6 = Ok tt c7 /\ cwf c7 /\ held c7 = held c /\ capacity c7 = capacity c /\
    forall a, disk c7 a = if decide (a = (dev, z)) then zero_block else disk c a.
Proof using HL.
  intros Hc Hd Hn Hr. destruct (getblk_law dev z c Hc Hd) as (x & c3 & w & H3 & Hc3 & Hb3 & Hi & Hk & _); [unfold refs; by rewrite Hn|done|].
  unfold refs in Hk. rewrite Hn in Hk. pose proof (becomes_buffer _ _ _ _ Hb3) as Hw3. rewrite Hi in Hw3.
  destruct (clear_block_run c3 x _ w Hc3 Hw3) as (c4 & H4 & Hc4 & Hb4). pose proof (becomes_buffer _ _ _ _ Hb4) as Hw4. cbn [bv_id set_bv_data] in Hw4. rewrite Hi in Hw4.
  destruct (set_bh_uptodate_law x _ _ 1 c4 Hc4 Hw4) as (c5 & H5 & Hc5 & Hb5). pose proof (becomes_buffer _ _ _ _ Hb5) as Hw5. cbn [bv_id set_bv_data set_bv_up] in Hw5. rewrite Hi in Hw5.
  destruct (set_bh_dirt_law x _ _ 1 c5 Hc5 Hw5) as (c6 & H6 & Hc6 & Hb6). pose proof (becomes_buffer _ _ _ _ Hb6) as Hw6. cbn [bv_id set_bv_data set_bv_up set_bv_dirt] in Hw6. rewrite Hi in Hw6.
  destruct (brelse_law x _ _ c6 Hc6 Hw6) as (c7 & H7 & Hc7 & Hh7 & Hp7 & Hd7); [by left|]. exists x, c3, c4, c5, c6, c7.
  pose proof (becomes_trans _ _ _ _ _ _ Hb3 (becomes_trans _ _ _ _ _ _ Hb4 (becomes_trans _ _ _ _ _ _ Hb5 Hb6))) as (Hh6 & Hd6 & Hp6).
  split; [done|]. split; [rewrite (bh_count_law x _ w c3 Hc3 Hw3); by rewrite Hk|]. split; [done|]. split; [done|]. split; [done|]. split; [done|]. split; [done|].
  cbn [bv_count set_bv_dirt set_bv_up set_bv_data bv_up bv_data] in Hh7, Hd7. rewrite Hk in Hh7, Hd7. cbn in Hh7. split; [|split; [congruence|]].
  - by rewrite Hh7, Hh6, delete_insert_id.
  - intros a. rewrite Hd7. destruct (decide (a = (dev, z))) as [->|Hne]; [by rewrite decide_True|]. rewrite decide_False by tauto. apply Hd6.
Qed.

(** The zone of bit [j] of map [i]. *)
Lemma new_block_zone c i j : zones_ok -> 0 <= i -> 0 <= j < 8192 -> 8192 * i + j <> 0 -> let z := j + (i * 8192 + s_firstdatazone sb - 1) in
  z < s_nzones sb -> data_zone z /\ z - s_firstdatazone sb + 1 = 8192 * i + j /\ zbit c z = get_bit (content c (dev, zmap_first sb + i)) j.
Proof using.
  intros Hz Hi Hj Hn z Hl. assert (Hd : data_zone z) by (unfold data_zone, z in *; lia). split; [done|]. assert (E : z - s_firstdatazone sb + 1 = 8192 * i + j) by (unfold z; lia). split; [done|].
  unfold zbit. rewrite E. f_equal.
  - f_equal. f_equal. f_equal. rewrite Z.mul_comm, Z.div_add_l, Z.div_small by lia. lia.
  - rewrite Z.add_comm, Z.mul_comm, Z.mod_add, Z.mod_small by lia. done.
Qed.

Lemma set_fcache_id (s : fss C) : s = set_fcache (fcache s) s.
Proof using. by destruct s. Qed.

(** A new bit keeps the map in order. *)
Lemma marked_ok c c2 i j x w : zones_ok -> zmap_ok c -> aget (s_zmap sb) i = Some (Some x) -> buffer c x (dev, zmap_first sb + i) w -> bv_up w = true -> 0 <= j < 8192 ->
  cwf c2 -> becomes c c2 (dev, zmap_first sb + i) (set_bv_dirt true (set_bv_data (with_bit (bv_data w) j true) w)) -> zmap_ok c2.
Proof using HL.
  intros Hz Hok Hx Hw Hu Hj Hc2 Hb. pose proof (bit_zstep Hz c c2 i j x w true Hok Hx Hw Hu Hj Hc2 Hb) as Hs. split; [done| | | |].
  - eapply zstep_maps; [done|exact Hs|apply (zm_maps _ Hok)].
  - intros b w0. by eapply bit_settled.
  - eapply bit_zero; eauto.
  - intros z Hd. erewrite bit_zbit by eauto. case_decide; [done|]. intros Hf. rewrite (zs_held _ _ _ Hs) by (by apply zone_not_map). by apply (zm_free _ Hok).
Qed.

(** Writing a block nobody has a buffer of. *)
Lemma written_ok c c' z : zones_ok -> data_zone z -> zmap_ok c -> held c !! (dev, z) = None -> cwf c' -> held c' = held c -> capacity c' = capacity c ->
  (forall a, disk c' a = if decide (a = (dev, z)) then zero_block else disk c a) ->
  zmap_ok c' /\ zstep (eq (dev, z)) c c' /\ content c' (dev, z) = zero_block /\ forall z', data_zone z' -> zbit c' z' = zbit c z'.
Proof using.
  intros Hz Hd Hok Hn Hc' Hh Hp Hdk.
  assert (Hct : forall b, b <> (dev, z) -> content c' b = content c b).
  { intros b Hb. unfold content. rewrite Hh, Hdk, decide_False by done. done. }
  assert (Hs : zstep (eq (dev, z)) c c').
  { split; [by intros; rewrite Hh| |by rewrite Hh|intros b _ Hb; apply Hct; congruence|done]. intros b w _ Hw. exists w. by rewrite Hh. }
  assert (Hmap : forall m, 0 <= m < s_zmap_blocks sb -> content c' (dev, zmap_first sb + m) = content c (dev, zmap_first sb + m)).
  { intros m Hm. apply Hct. intros [= E]. pose proof (zo_first Hz). unfold data_zone in Hd. lia. }
  assert (Hzb : forall z', data_zone z' -> zbit c' z' = zbit c z').
  { intros z' Hd'. destruct (zone_place z' Hz Hd') as (_ & Hq & _). unfold zbit. by rewrite Hmap. }
  split; [|split; [done|split; [|done]]].
  - split; [done|by eapply zstep_maps; [|exact Hs|apply (zm_maps _ Hok)]| | |].
    + intros b w Hw. rewrite Hh in Hw. unfold settled. rewrite Hdk, decide_False by congruence. by apply (zm_settled _ Hok).
    + destruct (zone_place z Hz Hd) as (_ & Hq & _). rewrite <-(Z.add_0_r (zmap_first sb)), Hmap, Z.add_0_r by lia. apply (zm_zero _ Hok).
    + intros z' Hd' Hf. rewrite Hh. rewrite Hzb in Hf by done. by apply (zm_free _ Hok).
  - unfold content. by rewrite Hh, Hn, Hdk, decide_True.
Qed.

Lemma new_block_run patience s : (0 < patience)%nat -> mounted s -> zones_ok -> zmap_ok (fcache s) -> room 1 (fcache s) ->
  exists z s', minix_new_block patience dev s = Ok z s' /\ s' = set_fcache (fcache s') s /\ zmap_ok (fcache s') /\ new_zone s z s'.
Proof using HL.
  intros Hp Hm Hz Hok Hr. set (c := fcache s) in *. pose proof (md_super _ Hm) as (Hsb & _). unfold minix_new_block.
  rewrite (run_bind _ _ _ (Some sbn) s) by (by apply get_super_run). rewrite (run_bind _ _ _ sb s) by (by apply super_at_run).
  destruct (map_scan_run c dev (zm_wf _ Hok) _ (zmap_first sb) 0 None 8192 (zm_maps _ Hok)) as (i & bh & j & Hscan & Hres).
  rewrite (run_bind _ _ _ (i, bh, j) (set_fcache c s)) by (by apply on_cache_run). cbn beta iota. pose proof (zo_len Hz) as Hlen. unfold MINIX_Z_MAP_SLOTS in Hlen.
  destruct Hres as [[Hi Hfull]|(Hi & Hj & [x ->] & Hx & Hbit & Hlow & Hfull)].
  { exists 0, (set_fcache c s). assert (Hi8 : (8 <=? i) = true) by (apply Z.leb_le; lia). split; [destruct bh; [rewrite Hi8|]; reflexivity|]. split; [done|]. split; [done|].
    left. split; [done|]. split; [|apply zstep_refl]. intros z' Hd. cbn [fcache set_fcache]. assert (zbit c z' = true); [|done].
    destruct (zone_place z' Hz Hd) as (_ & Hq & Hmd & _). destruct (zo_some Hz _ Hq) as [x Hx]. by eapply Hfull. }
  rewrite Z.sub_0_r in *. destruct (zm_maps _ Hok i x Hx) as (w & Hw & Hu). pose proof (up_content c x _ w Hw Hu) as Hct.
  destruct (Z.leb_spec 8 i); [lia|]. destruct (Z.leb_spec 8192 j); [lia|]. cbn [orb].
  destruct (mark_bit_run c i j x w Hok Hw Hj) as (c1 & c2 & H1 & H2 & Hc2 & Hb). rewrite <-Hct, Hbit in H1.
  rewrite (run_bind _ _ _ (b2z false) (set_fcache c1 s)) by (by apply on_cache_at). change (truth (b2z false)) with false. cbn match.
  rewrite (run_bind _ _ _ tt (set_fcache c2 s)) by (by apply on_cache_at).
  pose proof (marked_ok c c2 i j x w Hz Hok Hx Hw Hu Hj Hc2 Hb) as Hok2. pose proof (bit_zstep Hz c c2 i j x w true Hok Hx Hw Hu Hj Hc2 Hb) as Hs2.
  assert (Hzb : forall z, data_zone z -> zbit c2 z = if decide (z - s_firstdatazone sb + 1 = 8192 * i + j) then true else zbit c z) by (intros; eapply bit_zbit; eauto).
  assert (Hn0 : 8192 * i + j <> 0).
  { intros E. assert (i = 0 /\ j = 0) as [-> ->] by lia. rewrite Z.add_0_r in Hbit. rewrite (zm_zero _ Hok) in Hbit. done. }
  set (z := j + (i * 8192 + s_firstdatazone sb - 1)) in *. destruct (Z.leb_spec (s_nzones sb) z) as [Hbig|Hlt].
  { exists 0, (set_fcache c2 s). split; [reflexivity|]. split; [done|]. split; [done|]. left. split; [done|]. split; [|exact Hs2]. intros z' Hd.
    assert (Ht : zbit c z' = true).
    { destruct (zone_place z' Hz Hd) as (Hn & Hq & Hmd & _). destruct (zo_some Hz _ Hq) as [x' Hx']. unfold zbit. set (n := z' - s_firstdatazone sb + 1) in *.
      pose proof (Z.div_mod n 8192 ltac:(lia)). assert (n < 8192 * i + j) by (unfold data_zone, n, z in *; lia).
      destruct (Z.lt_ge_cases (n / 8192) i); [eapply Hfull; [|done|done]; lia|]. assert (n / 8192 = i) as -> by nia. apply Hlow. nia. }
    split; [done|]. cbn [fcache set_fcache]. rewrite Hzb by done. by case_decide. }
  destruct (new_block_zone c i j Hz ltac:(lia) Hj Hn0 Hlt) as (Hd & En & Ezb). fold z in Hd, En, Ezb. rewrite Hbit in Ezb.
  pose proof (zs_held _ _ _ Hs2 _ (zone_not_map z Hz Hd)) as Hh2. rewrite (zm_free _ Hok z Hd Ezb) in Hh2.
  destruct (fresh_block_run c2 z Hc2 (md_dev _ Hm) Hh2 (zstep_room _ _ _ _ Hs2 Hr)) as (x2 & c3 & c4 & c5 & c6 & c7 & R3 & Rc & R4 & R5 & R6 & R7 & Hc7 & Hh7 & Hp7 & Hd7).
  rewrite (run_bind _ _ _ x2 (set_fcache c3 s)) by (by apply on_cache_at). rewrite (run_bind _ _ _ 1 (set_fcache c3 s)) by (by apply on_cache_at).
  change (negb (1 =? 1)) with false. cbn match.
  rewrite (run_bind _ _ _ tt (set_fcache c4 s)) by (by apply on_cache_at). rewrite (run_bind _ _ _ tt (set_fcache c5 s)) by (by apply on_cache_at).
  rewrite (run_bind _ _ _ tt (set_fcache c6 s)) by (by apply on_cache_at). rewrite (run_bind _ _ _ tt (set_fcache c7 s)) by (by apply on_cache_at).
  destruct (written_ok c2 c7 z Hz Hd Hok2 Hh2 Hc7 Hh7 Hp7 Hd7) as (Hok7 & Hs7 & Hz7 & Hb7).
  exists z, (set_fcache c7 s). split; [reflexivity|]. split; [done|]. split; [done|]. right. cbn [fcache set_fcache]. fold c. split; [done|]. split; [done|]. split; [|split; [done|]].
  - intros z' Hd'. rewrite Hb7, Hzb by done. destruct (decide (z' = z)) as [->|Hne]; [by rewrite decide_True|]. rewrite decide_False; [done|]. lia.
  - eapply zstep_trans; [|exact Hs7]. eapply zstep_mono; [|exact Hs2]. done.
Qed.

(** ** [minix_free_block] *)

Lemma unchanged_content c c' b : unchanged c c' -> content c' b = content c b.
Proof using. intros (Hh & Hd & _). unfold content. by rewrite Hh, Hd. Qed.

Lemma unchanged_ok c c' : zones_ok -> zmap_ok c -> cwf c' -> unchanged c c' ->
  zmap_ok c' /\ zstep (fun _ => False) c c' /\ forall z, zbit c' z = zbit c z.
Proof using.
  intros Hz Hok Hc' Hu. pose proof (unchanged_content c c') as Hct. assert (Hzb : forall z, zbit c' z = zbit c z) by (intros z; unfold zbit; by rewrite Hct).
  pose proof Hu as (Hh & Hd & Hp).
  assert (Hs : zstep (fun _ => False) c c') by (split; [by intros; rewrite Hh|intros b w _ Hw; exists w; by rewrite Hh|by rewrite Hh|intros; by apply Hct|done]).
  split; [|done]. split; [done|by eapply zstep_maps; [|exact Hs|apply (zm_maps _ Hok)]| | |].
  - intros b w Hw. rewrite Hh in Hw. unfold settled. rewrite Hd. by apply (zm_settled _ Hok).
  - rewrite Hct by done. apply (zm_zero _ Hok).
  - intros z Hdz Hf. rewrite Hh. rewrite Hzb in Hf. by apply (zm_free _ Hok).
Qed.

Lemma forget_run c block : zmap_ok c -> dev <> 0 -> refs c (dev, block) < 255 ->
  exists c', forget dev block c = Ok (bool_decide (is_Some (held c !! (dev, block)))) c' /\ cwf c' /\ unchanged c c'.
Proof using HL.
  intros Hok Hd Hr. destruct (get_hash_table_law dev block c (zm_wf _ Hok) Hd Hr) as (r & c1 & H1 & Hc1 & Hres). unfold forget. rewrite (run_bind _ _ _ _ _ H1).
  destruct r as [x|]; [|destruct Hres as [Hu Hn]; exists c1; rewrite Hn; done].
  destruct Hres as (w & Hb1 & Hi & Hk & Hw). pose proof (becomes_buffer _ _ _ _ Hb1) as Hw1. rewrite Hi in Hw1. rewrite (run_bind _ _ _ _ _ (bh_count_law x _ w c1 Hc1 Hw1)).
  destruct Hb1 as (Hh1 & Hd1 & Hp1). unfold refs in *. destruct (held c !! (dev, block)) as [w0|] eqn:E0.
  - pose proof (cwf_count _ (zm_wf _ Hok) _ _ E0). destruct (Z.ltb_spec 1 (bv_count w)); [|lia].
    destruct (brelse_law x _ w c1 Hc1 Hw1) as (c2 & H2 & Hc2 & Hh2 & Hp2 & Hd2).
    { subst w. unfold settled. rewrite Hd1. exact (zm_settled _ Hok _ _ E0). }
    exists c2. rewrite (run_bind _ _ _ _ _ H2). split; [done|]. split; [done|]. destruct (Z.eqb_spec (bv_count w) 1); [lia|]. split; [|split; [|congruence]].
    + rewrite Hh2, Hh1, insert_insert_eq. replace (set_bv_count (bv_count w - 1) w) with w0; [by rewrite insert_id|]. subst w. destruct w0. unfold set_bv_count. cbn. f_equal. lia.
    + intros a. rewrite Hd2, decide_False by tauto. apply Hd1.
  - destruct (Z.ltb_spec 1 (bv_count w)); [lia|].
    destruct (set_bh_dirt_law x _ w 0 c1 Hc1 Hw1) as (c2 & H2 & Hc2 & Hb2). pose proof (becomes_buffer _ _ _ _ Hb2) as Hw2. cbn [bv_id set_bv_dirt] in Hw2. rewrite Hi in Hw2.
    destruct (set_bh_uptodate_law x _ _ 0 c2 Hc2 Hw2) as (c3 & H3 & Hc3 & Hb3). pose proof (becomes_buffer _ _ _ _ Hb3) as Hw3. cbn [bv_id set_bv_dirt set_bv_up] in Hw3. rewrite Hi in Hw3.
    destruct (brelse_law x _ _ c3 Hc3 Hw3) as (c4 & H4 & Hc4 & Hh4 & Hp4 & Hd4); [done|].
    rewrite (run_bind _ _ _ _ _ H2), (run_bind _ _ _ _ _ H3). rewrite Hk. change (truth (0 + 1)) with true. cbn match. exists c4. rewrite (run_bind _ _ _ _ _ H4). split; [done|]. split; [done|].
    destruct (becomes_trans _ _ _ _ _ _ Hb2 Hb3) as (Hh3 & Hd3 & Hp3). cbn [bv_count set_bv_dirt set_bv_up bv_up] in Hh4, Hd4. rewrite Hk in Hh4. cbn in Hh4. split; [|split; [|congruence]].
    + rewrite Hh4, Hh3, Hh1, insert_insert_eq. by rewrite delete_insert_id.
    + intros a. rewrite Hd4, decide_False by (intros (_ & _ & ?); done). by rewrite Hd3.
Qed.

(** Giving back a zone nobody has a buffer of. *)
Lemma free_block_run patience s z : (0 < patience)%nat -> mounted s -> zones_ok -> zmap_ok (fcache s) -> data_zone z -> zbit (fcache s) z = true ->
  held (fcache s) !! (dev, z) = None ->
  exists s', minix_free_block patience dev z s = Ok 1 s' /\ s' = set_fcache (fcache s') s /\ zmap_ok (fcache s') /\ zstep (fun _ => False) (fcache s) (fcache s') /\
    forall z', data_zone z' -> zbit (fcache s') z' = if decide (z' = z) then false else zbit (fcache s) z'.
Proof using HL.
  intros Hp Hm Hz Hok Hd Ht Hn. set (c := fcache s) in *. pose proof (md_super _ Hm) as (Hsb & _). unfold minix_free_block.
  rewrite (run_bind _ _ _ (Some sbn) s) by (by apply get_super_run). rewrite (run_bind _ _ _ sb s) by (by apply super_at_run).
  destruct (Z.ltb_spec z (s_firstdatazone sb)); [unfold data_zone in Hd; lia|]. destruct (Z.leb_spec (s_nzones sb) z); [unfold data_zone in Hd; lia|]. cbn [orb].
  destruct (forget_run c z Hok (md_dev _ Hm)) as (c1 & H1 & Hc1 & Hu1); [unfold refs; by rewrite Hn|]. rewrite Hn in H1.
  rewrite (run_bind _ _ _ false (set_fcache c1 s)) by (by apply on_cache_run).
  destruct (unchanged_ok c c1 Hz Hok Hc1 Hu1) as (Hok1 & Hs1 & Hb1). destruct (zone_place z Hz Hd) as (Hn0 & Hq & Hmd & -> & ->).
  set (n := z - s_firstdatazone sb + 1) in *. destruct (zo_some Hz _ Hq) as [x Hx]. destruct (zm_maps _ Hok1 _ x Hx) as (w & Hw & Hup).
  rewrite (run_bind _ _ _ (Some x) (set_fcache c1 s)) by (by rewrite Hx). rewrite (run_bind _ _ _ x (set_fcache c1 s)) by done.
  destruct (clear_bit_run c1 x _ w (n mod 8192) Hc1 Hw Hmd) as (c2 & H2 & Hc2 & Hb2).
  assert (Hbit : get_bit (bv_data w) (n mod 8192) = true).
  { rewrite <-(up_content c1 x _ w Hw Hup), <-Ht, <-(Hb1 z). reflexivity. }
  rewrite Hbit in H2. rewrite (run_bind _ _ _ (b2z false) (set_fcache c2 s)) by (by apply on_cache_at). change (truth (b2z false)) with false. cbn match.
  rewrite (run_bind _ _ _ tt (set_fcache c2 s)) by done.
  pose proof (becomes_buffer _ _ _ _ Hb2) as Hw2. cbn [bv_id set_bv_data] in Hw2. rewrite (proj2 Hw) in Hw2.
  destruct (set_bh_dirt_law x _ _ 1 c2 Hc2 Hw2) as (c3 & H3 & Hc3 & Hb3). rewrite (run_bind _ _ _ tt (set_fcache c3 s)) by (by apply on_cache_at).
  pose proof (becomes_trans _ _ _ _ _ _ Hb2 Hb3) as Hb. change (truth 1) with true in Hb.
  pose proof (bit_zstep Hz c1 c3 _ _ x w false Hok1 Hx Hw Hup Hmd Hc3 Hb) as Hs3. pose proof (Z.div_mod n 8192 ltac:(lia)) as Hdm.
  assert (Hzb : forall z', data_zone z' -> zbit c3 z' = if decide (z' = z) then false else zbit c z').
  { intros z' Hd'. erewrite bit_zbit by eauto. rewrite <-Hdm, Hb1. destruct (decide (z' = z)) as [->|]; [by rewrite decide_True|]. rewrite decide_False by (unfold n; lia). done. }
  pose proof (zstep_trans _ _ _ _ Hs1 Hs3) as Hs. exists (set_fcache c3 s). split; [done|]. split; [done|]. cbn [fcache set_fcache]. fold c. split; [|done]. split; [done| | | |].
  - eapply zstep_maps; [done|exact Hs|apply (zm_maps _ Hok)].
  - intros b w0. by eapply bit_settled.
  - eapply bit_zero; eauto. right. lia.
  - intros z' Hd' Hf. rewrite (zs_held _ _ _ Hs) by (by apply zone_not_map). rewrite Hzb in Hf by done. destruct (decide (z' = z)) as [->|]; [done|by apply (zm_free _ Hok)].
Qed.

(** A zone somebody has a buffer of is not given back. *)
Lemma free_block_busy patience s z w : (0 < patience)%nat -> mounted s -> zones_ok -> zmap_ok (fcache s) -> data_zone z ->
  held (fcache s) !! (dev, z) = Some w -> bv_count w < 255 ->
  exists s', minix_free_block patience dev z s = Ok 0 s' /\ s' = set_fcache (fcache s') s /\ zmap_ok (fcache s') /\ unchanged (fcache s) (fcache s').
Proof using HL.
  intros Hp Hm Hz Hok Hd Hw Hc. pose proof (md_super _ Hm) as (Hsb & _). unfold minix_free_block.
  rewrite (run_bind _ _ _ (Some sbn) s) by (by apply get_super_run). rewrite (run_bind _ _ _ sb s) by (by apply super_at_run).
  destruct (Z.ltb_spec z (s_firstdatazone sb)); [unfold data_zone in Hd; lia|]. destruct (Z.leb_spec (s_nzones sb) z); [unfold data_zone in Hd; lia|]. cbn [orb].
  destruct (forget_run (fcache s) z Hok (md_dev _ Hm)) as (c1 & H1 & Hc1 & Hu1); [unfold refs; by rewrite Hw|]. rewrite Hw in H1.
  rewrite (run_bind _ _ _ true (set_fcache c1 s)) by (by apply on_cache_run). exists (set_fcache c1 s). split; [done|]. split; [done|]. split; [|done]. by apply (unchanged_ok (fcache s)).
Qed.

End Zones.
