(* ===== verification/Bmap.v ===== *)
(** * Theorems about the zones of a file

    The zones of a file form a tree: seven direct ones, an indirect block with
    512 entries and a double indirect one with 512 of those.  [_minix_bmap] walks
    the tree and, when asked to, fills a free place; [minix_truncate] takes it
    down. *)

From S2P Require Import Prelude TaskStruct Sched Sys Fs Store Minix MinixOk.

(** ** Words of a block *)

Definition with_word (d : list Z) (i v : Z) : list Z := <[Z.to_nat (2 * i + 1) := u8 (Z.shiftr v 8)]> (<[Z.to_nat (2 * i) := u8 v]> d).

Lemma with_word_data d i v : block_data d -> block_data (with_word d i v).
Proof. intros Hd. unfold with_word. apply block_data_insert; [apply block_data_insert; [done|apply u8_range]|apply u8_range]. Qed.

Lemma word_with_word d i v k : block_data d -> 0 <= i < 512 -> 0 <= k < 512 -> in_u16 v -> word_at (with_word d i v) k = if decide (k = i) then v else word_at d k.
Proof.
  intros [Hl _] Hi Hk Hv. unfold word_at, with_word. unfold BLOCK_SIZE in Hl. destruct (decide (k = i)) as [->|Hne].
  - rewrite aget_insert_ne by lia. rewrite aget_insert_eq by lia. rewrite aget_insert_eq by (rewrite length_insert; lia). cbn [default].
    unfold u8, in_u16 in *. rewrite Z.shiftr_div_pow2 by lia. change (2 ^ 8) with 256. rewrite (Z.mod_small (v / 256)) by (split; [apply Z.div_pos; lia|apply Z.div_lt_upper_bound; lia]).
    unfold id. pose proof (Z.div_mod v 256). lia.
  - rewrite !aget_insert_ne by lia. done.
Qed.

Lemma word_at_u16 d k : block_data d -> 0 <= k < 512 -> in_u16 (word_at d k).
Proof.
  intros Hd Hk. unfold word_at, in_u16. destruct (byte_at d (2 * k) Hd) as (v0 & -> & ?); [unfold BLOCK_SIZE; lia|].
  destruct (byte_at d (2 * k + 1) Hd) as (v1 & -> & ?); [unfold BLOCK_SIZE; lia|]. cbn. unfold in_u8 in *. lia.
Qed.

Lemma word_zero k : word_at zero_block k = 0.
Proof.
  unfold word_at. assert (E : forall i, default 0 (aget zero_block i) = 0); [|by rewrite !E].
  intros i. unfold aget, zero_block. destruct (i <? 0); [done|]. destruct (replicate _ 0 !! _) eqn:H; [|done]. by apply lookup_replicate in H as [-> _].
Qed.

Lemma set_bh_word_run {C} {HB : BufferCache C} {HV : CacheView C} {HL : BufferCacheOk C} (c : C) x b w i v : cwf c -> buffer c x b w -> 0 <= i < 512 ->
  exists c', set_bh_word x i v c = Ok tt c' /\ cwf c' /\ becomes c c' b (set_bv_data (with_word (bv_data w) i v) w).
Proof.
  intros Hc Hb Hi. unfold set_bh_word.
  destruct (set_bh_byte_law x b w (2 * i) (u8 v) c Hc Hb) as (c1 & H1 & Hc1 & Hb1); [unfold BLOCK_SIZE; lia|apply u8_range|]. rewrite (run_bind _ _ _ _ _ H1).
  pose proof (becomes_buffer _ _ _ _ Hb1) as Hw1. cbn [bv_id set_bv_data] in Hw1. rewrite (proj2 Hb) in Hw1.
  destruct (set_bh_byte_law x b _ (2 * i + 1) (u8 (Z.shiftr v 8)) c1 Hc1 Hw1) as (c2 & H2 & Hc2 & Hb2); [unfold BLOCK_SIZE; lia|apply u8_range|].
  exists c2. split; [done|]. split; [done|]. exact (becomes_trans _ _ _ _ _ _ Hb1 Hb2).
Qed.

(** ** The tree of a file *)

(** The places of a file's zones. *)
Inductive zpos := ZDir (e : Z) | ZInd | ZIndE (k : Z) | ZDbl | ZDblE (i : Z) | ZDblEE (i k : Z).
#[export] Instance zpos_eq_dec : EqDecision zpos.
Proof. solve_decision. Defined.

Definition pos_ok (p : zpos) : Prop :=
  match p with
  | ZDir e => 0 <= e < 7 | ZInd | ZDbl => True | ZIndE k => 0 <= k < 512 | ZDblE i => 0 <= i < 512 | ZDblEE i k => 0 <= i < 512 /\ 0 <= k < 512
  end.

(** The place of block [n] of a file. *)
Definition pos_of (n : Z) : zpos :=
  if n <? 7 then ZDir n else if n - 7 <? 512 then ZIndE (n - 7) else ZDblEE (Z.shiftr (n - 519) 9) (Z.land (n - 519) 511).

Lemma pos_of_ok n : 0 <= n < 7 + 512 + 512 * 512 -> pos_ok (pos_of n).
Proof.
  intros Hn. unfold pos_of. destruct (Z.ltb_spec n 7); [cbn; lia|]. destruct (Z.ltb_spec (n - 7) 512); [cbn; lia|]. cbn.
  rewrite Z.shiftr_div_pow2 by lia. change 511 with (Z.ones 9). rewrite Z.land_ones by lia. change (2 ^ 9) with 512. split.
  - split; [apply Z.div_pos; lia|apply Z.div_lt_upper_bound; lia].
  - apply Z.mod_pos_bound. lia.
Qed.

Lemma pos_of_inj n m : 0 <= n -> 0 <= m -> pos_of n = pos_of m -> n = m.
Proof.
  intros Hn Hm. unfold pos_of. destruct (Z.ltb_spec n 7), (Z.ltb_spec m 7); try destruct (Z.ltb_spec (n - 7) 512); try destruct (Z.ltb_spec (m - 7) 512); intros E; try discriminate E; injection E; clear E; intros; try lia.
  rewrite !Z.shiftr_div_pow2 in * by lia. change 511 with (Z.ones 9) in *. rewrite !Z.land_ones in * by lia. change (2 ^ 9) with 512 in *.
  pose proof (Z.div_mod (n - 519) 512). pose proof (Z.div_mod (m - 519) 512). lia.
Qed.

Section File.
Context {C : Type} {HB : BufferCache C} {HV : CacheView C} {HL : BufferCacheOk C} {HE : FsEnv C}.
Context (dev sbn : Z) (sb : super_block).

Definition ent (v : inode) (e : Z) : Z := default 0 (aget (i_data v) e).
(** Entry [k] of the block of zones [z]. *)
Definition entry (c : C) (z k : Z) : Z := if z =? 0 then 0 else word_at (content c (dev, z)) k.

Definition zone_at (c : C) (v : inode) (p : zpos) : Z :=
  match p with
  | ZDir e => ent v e
  | ZInd => ent v 7
  | ZIndE k => entry c (ent v 7) k
  | ZDbl => ent v 8
  | ZDblE i => entry c (ent v 8) i
  | ZDblEE i k => entry c (entry c (ent v 8) i) k
  end.

Definition taken (c : C) (z : Z) : Prop := data_zone sb z /\ zbit dev sb c z = true.

(** The zones of a file are taken, and each has one place. *)
Record file_ok (c : C) (v : inode) : Prop := {
  fo_len : length (i_data v) = 16%nat;
  fo_zone : forall p, pos_ok p -> zone_at c v p = 0 \/ taken c (zone_at c v p);
  fo_inj : forall p q, pos_ok p -> pos_ok q -> zone_at c v p = zone_at c v q -> zone_at c v p <> 0 -> p = q
}.

(** [c'], [v'] have [z] in place [p], and are as [c], [v] elsewhere. *)
Definition filled (p : zpos) (z : Z) (c : C) (v : inode) (c' : C) (v' : inode) : Prop :=
  forall q, pos_ok q -> zone_at c' v' q = if decide (q = p) then z else zone_at c v q.
Definition same_zones (c : C) (v : inode) (c' : C) (v' : inode) : Prop := forall q, pos_ok q -> zone_at c' v' q = zone_at c v q.

(** The tree depends on the inode and on the zones taken. *)
Lemma zone_at_frame c c' v v' : file_ok c v -> (forall e, ent v' e = ent v e) ->
  (forall z, taken c z -> content c' (dev, z) = content c (dev, z)) -> same_zones c v c' v'.
Proof using.
  intros Hf He Hc. assert (Hen : forall p k, pos_ok p -> entry c' (zone_at c v p) k = entry c (zone_at c v p) k).
  { intros p k Hp. unfold entry. destruct (Z.eqb_spec (zone_at c v p) 0); [done|]. destruct (fo_zone _ _ Hf p Hp) as [|Ht]; [done|]. by rewrite Hc. }
  intros [e| |k| |i|i k] Hq; cbn [zone_at]; rewrite ?He; try reflexivity; cbn in Hq.
  - exact (Hen ZInd k I).
  - exact (Hen ZDbl i I).
  - pose proof (Hen ZDbl i I) as E. cbn [zone_at] in E. rewrite E. apply (Hen (ZDblE i) k). apply Hq.
Qed.

(** A new zone in a place of the inode: entry [e]. *)
Definition inode_pos (e : Z) : zpos := if e <? 7 then ZDir e else if e =? 7 then ZInd else ZDbl.

Lemma fill_inode c c' v v' e z : file_ok c v -> 0 <= e < 9 -> z <> 0 -> content c' (dev, z) = zero_block ->
  (forall u, taken c u -> content c' (dev, u) = content c (dev, u)) -> ent v e = 0 ->
  (forall e', ent v' e' = if decide (e' = e) then z else ent v e') -> filled (inode_pos e) z c v c' v'.
Proof using.
  intros Hf He Hz Hzero Hc H0 Hv.
  assert (Hnew : forall k, entry c' z k = 0) by (intros k; unfold entry; destruct (z =? 0); [done|]; rewrite Hzero; apply word_zero).
  assert (Hen : forall p k, pos_ok p -> entry c' (zone_at c v p) k = entry c (zone_at c v p) k).
  { intros p k Hp. unfold entry. destruct (Z.eqb_spec (zone_at c v p) 0); [done|]. destruct (fo_zone _ _ Hf p Hp) as [|Ht]; [done|]. by rewrite Hc. }
  assert (Hz0 : forall k, entry c 0 k = 0) by done.
  intros q Hq. unfold inode_pos. destruct q as [a| |k| |i|i k]; cbn in Hq; cbn [zone_at].
  - rewrite Hv. destruct (Z.ltb_spec e 7); [|destruct (e =? 7); rewrite !decide_False by (done || lia); done].
    destruct (decide (a = e)) as [->|]; [by rewrite decide_True|]. rewrite decide_False by congruence. done.
  - rewrite Hv. destruct (Z.ltb_spec e 7); [rewrite !decide_False by (done || lia); done|]. destruct (Z.eqb_spec e 7) as [->|]; [by rewrite !decide_True|]. rewrite !decide_False by (done || lia). done.
  - rewrite Hv. rewrite (decide_False (P := ZIndE k = _)) by (destruct (e <? 7), (e =? 7); done). destruct (decide (7 = e)) as [<-|]; [by rewrite Hnew, H0|]. exact (Hen ZInd k I).
  - rewrite Hv. destruct (Z.ltb_spec e 7); [rewrite !decide_False by (done || lia); done|]. destruct (Z.eqb_spec e 7) as [->|]; [rewrite !decide_False by (done || lia); done|].
    assert (e = 8) as -> by lia. by rewrite !decide_True.
  - rewrite Hv. rewrite (decide_False (P := ZDblE i = _)) by (destruct (e <? 7), (e =? 7); done). destruct (decide (8 = e)) as [<-|]; [by rewrite Hnew, H0|]. exact (Hen ZDbl i I).
  - rewrite Hv. rewrite (decide_False (P := ZDblEE i k = _)) by (destruct (e <? 7), (e =? 7); done). destruct (decide (8 = e)) as [<-|]; [by rewrite Hnew, H0|].
    pose proof (Hen ZDbl i I) as E. cbn [zone_at] in E. rewrite E. apply (Hen (ZDblE i) k). apply Hq.
Qed.

(** A new zone in entry [k] of the block in place [b]. *)
Definition entry_pos (b : zpos) (k : Z) : option zpos :=
  match b with ZInd => Some (ZIndE k) | ZDbl => Some (ZDblE k) | ZDblE i => Some (ZDblEE i k) | _ => None end.

Lemma entry_pos_ok b k p : pos_ok b -> 0 <= k < 512 -> entry_pos b k = Some p -> pos_ok p.
Proof using. by destruct b; intros ?? [= <-]. Qed.

Lemma zone_at_entry c v b k p : entry_pos b k = Some p -> zone_at c v p = entry c (zone_at c v b) k.
Proof using. by destruct b; intros [= <-]. Qed.

Lemma entry_pos_inj b b' k k' p : entry_pos b k = Some p -> entry_pos b' k' = Some p -> b = b' /\ k = k'.
Proof using. destruct b, b'; intros [= <-] [=]; by subst. Qed.

(** How entries change when entry [k] of the block [y] in place [b] becomes [z]. *)
Section Fill.
Context (c c' : C) (v : inode) (b p : zpos) (y k z : Z).
Context (Hf : file_ok c v) (Hwf : cwf c) (Hb : pos_ok b) (Hk : 0 <= k < 512) (Hp : entry_pos b k = Some p).
Context (Hy : zone_at c v b = y) (Hy0 : y <> 0) (Hz : z <> 0) (Hzu : in_u16 z) (Hp0 : zone_at c v p = 0).
Context (Hzero : content c' (dev, z) = zero_block) (Hcy : content c' (dev, y) = with_word (content c (dev, y)) k z).
Context (Hc : forall u, taken c u -> u <> y -> content c' (dev, u) = content c (dev, u)).

Lemma fill_block q j q' : pos_ok q -> 0 <= j < 512 -> entry_pos q j = Some q' -> entry c' (zone_at c v q) j = if decide (q' = p) then z else zone_at c v q'.
Proof using Hf Hwf Hb Hk Hp Hy Hy0 Hz Hzu Hp0 Hzero Hcy Hc.
  intros Hq Hj Hq'. rewrite (zone_at_entry c v q j q' Hq'). unfold entry. destruct (Z.eqb_spec (zone_at c v q) 0) as [E|E].
  - rewrite decide_False; [done|]. intros ->. destruct (entry_pos_inj _ _ _ _ _ Hq' Hp) as [-> _]. congruence.
  - destruct (Z.eq_dec (zone_at c v q) y) as [Ey|Ey].
    + assert (q = b) as -> by (apply (fo_inj _ _ Hf); [done|done|congruence|done]). rewrite Ey, Hcy. rewrite word_with_word by (done || apply content_data, Hwf).
      destruct (decide (j = k)) as [->|Hne]; [rewrite decide_True by congruence; done|]. rewrite decide_False; [done|]. intros ->. destruct (entry_pos_inj _ _ _ _ _ Hq' Hp). done.
    + rewrite decide_False; [|intros ->; destruct (entry_pos_inj _ _ _ _ _ Hq' Hp) as [-> _]; done].
      destruct (fo_zone _ _ Hf q Hq) as [|Ht]; [done|]. by rewrite Hc.
Qed.

Lemma fill_entry : filled p z c v c' v.
Proof using Hf Hwf Hb Hk Hp Hy Hy0 Hz Hzu Hp0 Hzero Hcy Hc.
  intros q Hq. assert (Hd : forall e, ZDir e <> p) by (intros e; destruct b; cbn in Hp; congruence). assert (Hi : ZInd <> p /\ ZDbl <> p) by (destruct b; cbn in Hp; split; congruence).
  destruct q as [e| |j| |i|i j]; cbn in Hq.
  - by rewrite decide_False.
  - by rewrite decide_False by apply Hi.
  - apply (fill_block ZInd j); done.
  - by rewrite decide_False by apply Hi.
  - apply (fill_block ZDbl i); done.
  - cbn [zone_at]. pose proof (fill_block ZDbl i (ZDblE i) I (proj1 Hq) eq_refl) as E. change (zone_at c v ZDbl) with (ent v 8) in E. rewrite E. destruct (decide (ZDblE i = p)) as [Ep|Ep].
    + unfold entry at 1. destruct (Z.eqb_spec z 0); [done|]. rewrite Hzero, word_zero. assert (zone_at c v (ZDblE i) = 0) as Hi0 by congruence.
      rewrite decide_False by congruence. change (entry c (ent v 8) i) with (zone_at c v (ZDblE i)). by rewrite Hi0.
    + apply (fill_block (ZDblE i) j (ZDblEE i j)); [apply Hq|apply Hq|done].
Qed.

End Fill.

(** A file with a new zone is in order. *)
Lemma file_ok_filled c v c' v' p z : file_ok c v -> pos_ok p -> length (i_data v') = 16%nat -> filled p z c v c' v' -> taken c' z -> zbit dev sb c z = false ->
  (forall u, taken c u -> taken c' u) -> file_ok c' v'.
Proof using.
  intros Hf Hp Hl Hfl Hz Hn Hm. split; [done| |].
  - intros q Hq. rewrite Hfl by done. destruct (decide (q = p)); [by right|]. destruct (fo_zone _ _ Hf q Hq) as [->|Ht]; [by left|right; by apply Hm].
  - intros q1 q2 H1 H2. rewrite !Hfl by done. assert (Hnz : forall q, pos_ok q -> zone_at c v q = z -> zone_at c v q = 0).
    { intros q Hq E. destruct (fo_zone _ _ Hf q Hq) as [|[_ Ht]]; [done|]. rewrite E in Ht. congruence. }
    destruct (decide (q1 = p)), (decide (q2 = p)); [congruence| | |by apply (fo_inj _ _ Hf)].
    + intros E Hne. exfalso. apply Hne. rewrite E. by apply Hnz.
    + intros E Hne. exfalso. apply Hne. by apply Hnz.
Qed.

Lemma file_ok_same c v c' v' : file_ok c v -> length (i_data v') = 16%nat -> same_zones c v c' v' -> (forall u, taken c u -> taken c' u) -> file_ok c' v'.
Proof using.
  intros Hf Hl Hs Hm. split; [done| |].
  - intros q Hq. rewrite Hs by done. destruct (fo_zone _ _ Hf q Hq) as [->|Ht]; [by left|right; by apply Hm].
  - intros q1 q2 H1 H2. rewrite !Hs by done. by apply (fo_inj _ _ Hf).
Qed.

(** ** Buffers others have *)

(** Who has a buffer keeps it, and there are no more than before. *)
Record keeps (c c' : C) : Prop := {
  kp_held : forall b w, held c !! b = Some w -> exists w', held c' !! b = Some w' /\ bv_id w' = bv_id w /\ bv_count w' = bv_count w /\ (bv_up w = true -> bv_up w' = true);
  kp_dom : dom (held c') = dom (held c);
  kp_cap : capacity c' = capacity c
}.

Lemma view_keeps_refl c : keeps c c.
Proof using. split; try done. intros b w Hw. by exists w. Qed.

Lemma view_keeps_trans c1 c2 c3 : keeps c1 c2 -> keeps c2 c3 -> keeps c1 c3.
Proof using.
  intros [A1 A2 A3] [B1 B2 B3]. split; [|congruence|congruence]. intros b w Hw. destruct (A1 b w Hw) as (w' & Hw' & ? & ? & ?).
  destruct (B1 b w' Hw') as (w'' & ? & ? & ? & ?). exists w''. split; [done|]. split; [congruence|]. split; [congruence|auto].
Qed.

Lemma keeps_room n c c' : keeps c c' -> room n c -> room n c'.
Proof using. intros [_ Hd Hc]. unfold room. by rewrite <-!size_dom, Hd, Hc. Qed.

Lemma keeps_refs c c' b : keeps c c' -> refs c' b = refs c b.
Proof using.
  intros [Hh Hd _]. unfold refs. destruct (held c !! b) as [w|] eqn:E; [by destruct (Hh b w E) as (w' & -> & _ & -> & _)|].
  apply not_elem_of_dom in E. rewrite <-Hd in E. apply not_elem_of_dom in E. by rewrite E.
Qed.

Lemma zstep_keeps P c c' : zstep dev sb P c c' -> keeps c c'.
Proof using.
  intros [A1 A2 A3 A4 A5]. split; try done. intros b w Hw. destruct (decide (b.1 = dev /\ zmap_first sb <= b.2 < zmap_first sb + s_zmap_blocks sb)) as [Hm|Hm].
  - destruct (A2 b w Hm Hw) as (w' & ? & ? & ? & E). exists w'. by rewrite E.
  - exists w. by rewrite A1.
Qed.

Lemma becomes_keeps c c' b w w' : held c !! b = Some w -> becomes c c' b w' -> bv_id w' = bv_id w -> bv_count w' = bv_count w -> bv_up w' = bv_up w -> keeps c c'.
Proof using.
  intros Hw (Hh & _ & Hc) Hi Hn Hu. split; [|rewrite Hh; apply dom_insert_lookup_L; by eexists|done].
  intros a v Hv. rewrite Hh. destruct (decide (a = b)) as [->|]; [rewrite lookup_insert_eq; exists w'; split; [done|]; assert (v = w) as -> by congruence; by rewrite Hu|].
  rewrite lookup_insert_ne by done. by exists v.
Qed.

(** ** Growing a file *)

Definition is_index (q : zpos) : bool := match q with ZInd | ZDbl | ZDblE _ => true | _ => false end.

(** The file has grown, at most by index blocks and by place [t]: what was there is
    there, nothing but index blocks has changed, and the buffers others have are
    as they were. *)
Record grown (t : zpos) (c : C) (v : inode) (c' : C) (v' : inode) : Prop := {
  gr_taken : forall u, taken c u -> taken c' u;
  gr_keep : forall q, pos_ok q -> zone_at c v q <> 0 -> zone_at c' v' q = zone_at c v q;
  gr_leaf : forall q, pos_ok q -> is_index q = false -> q <> t -> zone_at c' v' q = zone_at c v q;
  gr_content : forall u, taken c u -> content c' (dev, u) = content c (dev, u) \/ exists q, pos_ok q /\ is_index q = true /\ zone_at c' v' q = u;
  gr_fresh : forall q, pos_ok q -> zone_at c v q = 0 -> zone_at c' v' q <> 0 -> ~ taken c (zone_at c' v' q);
  gr_keeps : keeps c c'
}.

Lemma data_zone_range z : zones_ok sb -> data_zone sb z -> 0 < z < 65536.
Proof using. intros [_ _ _ H1 H2] Hd. unfold data_zone, zmap_first in *. lia. Qed.

Lemma grown_refl t c v : grown t c v c v.
Proof using. split; try done; [intros u _; by left|apply view_keeps_refl]. Qed.

Lemma grown_trans t c1 v1 c2 v2 c3 v3 : zones_ok sb -> grown t c1 v1 c2 v2 -> grown t c2 v2 c3 v3 -> grown t c1 v1 c3 v3.
Proof using.
  intros Hz [A1 A2 A3 A4 A6 A5] [B1 B2 B3 B4 B6 B5]. split; [by auto| | | | |by eapply view_keeps_trans].
  - intros q Hq Hn. rewrite B2, A2; [done|done|done|done|]. by rewrite A2.
  - intros q Hq Hi Ht. by rewrite B3, A3.
  - intros u Hu. destruct (B4 u (A1 u Hu)) as [->|]; [|by right]. destruct (A4 u Hu) as [->|(q & Hq & Hi & E)]; [by left|right].
    exists q. split; [done|]. split; [done|]. rewrite B2; [done|done|]. rewrite E. pose proof (data_zone_range u Hz (proj1 Hu)). lia.
  - intros q Hq H0 Hn. destruct (Z.eq_dec (zone_at c2 v2 q) 0) as [E|E]; [intros Ht; by apply (B6 q Hq E Hn), A1|]. rewrite B2 by done. by apply A6.
Qed.

(** What an operation on place [p] returns. *)
Definition placed (p : zpos) (c : C) (v : inode) (z : Z) (c' : C) (v' : inode) : Prop :=
  (z = zone_at c v p /\ same_zones c v c' v') \/
  (zone_at c v p = 0 /\ taken c' z /\ zbit dev sb c z = false /\ content c' (dev, z) = zero_block /\ filled p z c v c' v').

Lemma placed_zone p c v z c' v' : pos_ok p -> placed p c v z c' v' -> zone_at c' v' p = z.
Proof using. intros Hp [[-> Hs]|(_ & _ & _ & _ & Hf)]; [by apply Hs|rewrite Hf by done; by rewrite decide_True]. Qed.

Lemma placed_grown p c v z c' v' : file_ok c v -> placed p c v z c' v' -> (forall u, taken c u -> taken c' u) ->
  (forall u, taken c u -> content c' (dev, u) = content c (dev, u) \/ exists q, pos_ok q /\ is_index q = true /\ zone_at c' v' q = u) ->
  keeps c c' -> grown p c v c' v'.
Proof using.
  intros Hf Hp Hm Hc Hk. split; try done.
  - intros q Hq Hn. destruct Hp as [[_ Hs]|(H0 & _ & _ & _ & Hfl)]; [by apply Hs|]. rewrite Hfl by done. rewrite decide_False; [done|]. by intros ->.
  - intros q Hq _ Hne. destruct Hp as [[_ Hs]|(H0 & _ & _ & _ & Hfl)]; [by apply Hs|]. rewrite Hfl by done. by rewrite decide_False.
  - intros q Hq H0 Hn. destruct Hp as [[_ Hs]|(_ & _ & Hz & _ & Hfl)]; [by rewrite Hs in Hn|]. rewrite Hfl in * by done. destruct (decide (q = p)); [|done]. intros [_ Ht]. congruence.
Qed.

(** For an index block the place does not matter. *)
Lemma grown_index p t c v c' v' : is_index p = true -> grown p c v c' v' -> grown t c v c' v'.
Proof using. intros Hi [A1 A2 A3 A4 A5 A6]. split; try done. intros q Hq Hn _. apply A3; [done|done|]. intros ->. congruence. Qed.

(** The file of inode [n]. *)
Record file_in (n : Z) (v : inode) (s : fss C) : Prop := {
  fi_mounted : mounted dev sbn sb s;
  fi_zones : zones_ok sb;
  fi_map : zmap_ok dev sb (fcache s);
  fi_inode : aget (inode_table s) n = Some v;
  fi_dev : i_dev v = dev;
  fi_file : file_ok (fcache s) v
}.

(** Nothing but the cache and the zones of the inode changes. *)
Record inode_step (n : Z) (s : fss C) (v' : inode) (s' : fss C) : Prop := {
  is_kern : fkern s' = fkern s;
  is_super : super_blocks s' = super_blocks s;
  is_files : file_table s' = file_table s;
  is_table : exists v, aget (inode_table s) n = Some v /\ inode_table s' = <[Z.to_nat n := v']> (inode_table s) /\
    v' = set_i_data (i_data v') (set_i_ctime (i_ctime v') (set_i_dirt (i_dirt v') v))
}.

Lemma inode_upd_run n f (s : fss C) v : aget (inode_table s) n = Some v -> inode_upd n f s = Ok tt (set_inode_table (<[Z.to_nat n := f v]> (inode_table s)) s).
Proof using.
  intros H. unfold inode_upd. rewrite (run_bind _ _ _ s s) by reflexivity. rewrite H, (run_bind _ _ _ v s) by reflexivity.
  rewrite aset_in_range by (by eapply aget_Some_range). by rewrite (run_bind _ _ _ (<[Z.to_nat n := f v]> (inode_table s)) s).
Qed.

Lemma inode_step_refl n v s : aget (inode_table s) n = Some v -> inode_step n s v s.
Proof using.
  intros Hv. split; [done|done|done|]. exists v. split; [done|]. split; [|by destruct v]. unfold aget in Hv. destruct (n <? 0); [done|]. by rewrite list_insert_id.
Qed.

Lemma inode_step_trans n s1 v2 s2 v3 s3 : inode_step n s1 v2 s2 -> inode_step n s2 v3 s3 -> inode_step n s1 v3 s3.
Proof using.
  intros [A1 A2 A6 (v & A3 & A4 & A5)] [B1 B2 B6 (w & B3 & B4 & B5)]. split; [congruence|congruence|congruence|]. exists v. split; [done|].
  rewrite A4, aget_insert_eq in B3 by (by eapply aget_Some_range). injection B3 as <-. split; [by rewrite B4, A4, list_insert_insert_eq|]. rewrite B5, A5. by destruct v, v2, v3.
Qed.

Lemma mounted_step n v' s s' : inode_step n s v' s' -> mounted dev sbn sb s -> mounted dev sbn sb s'.
Proof using. intros Hs [H1 H2 H3]. split; rewrite ?(is_super _ _ _ _ Hs); done. Qed.

(** A file whose inode has new zones is where it was. *)
Lemma file_in_step n v s v' s' : file_in n v s -> inode_step n s v' s' -> zmap_ok dev sb (fcache s') -> file_ok (fcache s') v' -> file_in n v' s'.
Proof using.
  intros [H1 H2 _ H4 H5 _] Hs Hm Hf. pose proof (is_table _ _ _ _ Hs) as (v0 & Hv0 & Ht & Hv'). assert (v0 = v) as -> by congruence.
  split; [by eapply mounted_step|done|done| | |done].
  - rewrite Ht. apply aget_insert_eq. by eapply aget_Some_range.
  - by rewrite Hv'.
Qed.

Lemma zstep_taken P c c' : zones_ok sb -> zstep dev sb P c c' -> forall u, taken c u -> ~ P (dev, u) -> content c' (dev, u) = content c (dev, u).
Proof using. intros Hz Hs u [Hd _] Hp. apply (zs_content _ _ _ _ _ Hs); [by apply zone_not_map|done]. Qed.

Lemma ent_insert v e z e' : length (i_data v) = 16%nat -> 0 <= e < 16 -> ent (set_i_data (<[Z.to_nat e := z]> (i_data v)) v) e' = if decide (e' = e) then z else ent v e'.
Proof using.
  intros Hl He. unfold ent. cbn [i_data set_i_data]. destruct (decide (e' = e)) as [->|]; [by rewrite aget_insert_eq by lia|by rewrite aget_insert_ne by lia].
Qed.

Lemma inode_pos_ok e : 0 <= e < 9 -> pos_ok (inode_pos e).
Proof using. intros He. unfold inode_pos. destruct (Z.ltb_spec e 7); [cbn; lia|]. by destruct (e =? 7). Qed.

Lemma zone_at_inode c v e : 0 <= e < 9 -> zone_at c v (inode_pos e) = ent v e.
Proof using.
  intros He. unfold inode_pos. destruct (Z.ltb_spec e 7); [done|]. destruct (Z.eqb_spec e 7) as [->|]; [done|]. by assert (e = 8) as -> by lia.
Qed.

(** No zone is free. *)
Definition full (c : C) : Prop := forall z, data_zone sb z -> zbit dev sb c z = true.

(** The result of an operation on place [p] of the file, that fills it if [create]
    is set. *)
Definition place_result (create : bool) (p : zpos) (n : Z) (v : inode) (s : fss C) (z : Z) (v' : inode) (s' : fss C) : Prop :=
  file_in n v' s' /\ inode_step n s v' s' /\ placed p (fcache s) v z (fcache s') v' /\ grown p (fcache s) v (fcache s') v' /\
  (if create then z = 0 -> full (fcache s') else v' = v /\ forall b, content (fcache s') b = content (fcache s) b).

(** After [minix_new_block], a zone in the inode. *)
Lemma new_zone_result n v s z s1 e v' s' : file_in n v s -> 0 <= e < 9 -> ent v e = 0 ->
  s1 = set_fcache (fcache s1) s -> zmap_ok dev sb (fcache s1) -> new_zone dev sb s z s1 ->
  (forall e', ent v' e' = if decide (e' = e) then z else ent v e') -> length (i_data v') = 16%nat -> inode_step n s v' s' -> fcache s' = fcache s1 ->
  place_result true (inode_pos e) n v s z v' s'.
Proof using.
  intros Hin He H0 Hs1 Hm Hnew Hv' Hl Hst Hc'. pose proof Hin as [_ Hz Hok _ _ Hf]. set (c := fcache s) in *. set (c1 := fcache s1) in *.
  assert (Htk : forall u, taken c u -> taken c1 u).
  { intros u [Hd Hu]. split; [done|]. destruct Hnew as [(_ & Hn & _)|(_ & _ & Hn & _)]; [by apply Hn|]. rewrite Hn by done. by case_decide. }
  assert (Hct : forall u, taken c u -> content c1 (dev, u) = content c (dev, u)).
  { intros u Hu. destruct Hnew as [(_ & _ & Hs)|(_ & Hz0 & _ & _ & Hs)]; [exact (zstep_taken _ _ _ Hz Hs u Hu (fun F => F))|]. apply (zstep_taken _ _ _ Hz Hs u Hu). intros E. injection E as E. destruct Hu as [_ Hu]. unfold c in Hu. congruence. }
  assert (Hp : placed (inode_pos e) c v z c1 v').
  { destruct Hnew as [(-> & _ & Hs)|(Hd & Hzb & Hn & Hzero & Hs)].
    - left. rewrite zone_at_inode, H0 by done. split; [done|]. apply zone_at_frame; [done| |done]. intros e'. rewrite Hv'. by destruct (decide (e' = e)) as [->|].
    - right. rewrite zone_at_inode by done. split; [done|]. split; [split; [done|rewrite Hn by done; by rewrite decide_True]|]. split; [done|]. split; [done|].
      apply fill_inode; try done. pose proof (data_zone_range z Hz Hd). lia. }
  assert (Hf1 : file_ok c1 v').
  { destruct Hp as [[_ Hs]|(_ & Ht & Hzb & _ & Hfl)]; [by eapply file_ok_same|]. eapply file_ok_filled; try done. by apply inode_pos_ok. }
  unfold place_result. rewrite Hc'. fold c1. split; [eapply file_in_step; [exact Hin|exact Hst|by rewrite Hc'|by rewrite Hc']|]. split; [done|]. split; [done|].
  assert (Hzs : exists P, zstep dev sb P c c1) by (destruct Hnew as [(_ & _ & ?)|(_ & _ & _ & _ & ?)]; by eexists). destruct Hzs as [P Hzs].
  split; [|intros ->; destruct Hnew as [(_ & Hfull & _)|(Hd & _)]; [intros z' Hd; by apply Hfull|pose proof (data_zone_range 0 Hz Hd); lia]].
  apply placed_grown with z; try done; [intros u Hu; left; by apply Hct|by eapply zstep_keeps].
Qed.

Lemma inode_zone_run patience n e create v s : (0 < patience)%nat -> file_in n v s -> room 1 (fcache s) -> 0 <= e < 9 ->
  exists z v' s', inode_zone patience n e create s = Ok z s' /\ place_result create (inode_pos e) n v s z v' s'.
Proof using HL.
  intros Hp Hin Hr He. pose proof Hin as [Hmt Hz Hok Hn Hdv Hf]. pose proof (fo_len _ _ Hf) as Hl. unfold inode_zone.
  rewrite (run_bind _ _ _ v s) by (by apply inode_at_run). destruct (aget_in_range (i_data v) e) as [z0 Hz0]; [lia|].
  rewrite (run_bind _ _ _ z0 s) by (by rewrite Hz0). assert (Hent : ent v e = z0) by (unfold ent; by rewrite Hz0).
  assert (Hkeep : create = false \/ z0 <> 0 -> exists z v' s', (mret z0 : M (fss C) Z) s = Ok z s' /\ place_result create (inode_pos e) n v s z v' s').
  { intros Hcr. exists z0, v, s. split; [done|]. split; [done|]. split; [by apply inode_step_refl|]. split; [left; by rewrite zone_at_inode|]. split; [apply grown_refl|].
    destruct create; [by destruct Hcr|done]. }
  destruct create; [|apply Hkeep; by left]. destruct (Z.eqb_spec z0 0) as [->|]; [|apply Hkeep; by right]. cbn [andb]. rewrite Hdv.
  destruct (new_block_run dev sbn sb patience s Hp Hmt Hz Hok Hr) as (z & s1 & R1 & Hs1 & Hok1 & Hnew). rewrite (run_bind _ _ _ _ _ R1).
  assert (Hn1 : aget (inode_table s1) n = Some v) by (by rewrite Hs1). set (v1 := set_i_data (<[Z.to_nat e := z]> (i_data v)) v).
  rewrite (run_bind _ _ _ tt _) by (by apply (inode_upd_run n (fun v => set_i_data (<[Z.to_nat e := z]> (i_data v)) v) s1 v)).
  set (s2 := set_inode_table _ s1). assert (Hn2 : aget (inode_table s2) n = Some v1) by (apply aget_insert_eq; by eapply aget_Some_range).
  assert (Hst : forall v' s', fkern s' = fkern s1 -> super_blocks s' = super_blocks s1 -> file_table s' = file_table s1 -> inode_table s' = <[Z.to_nat n := v']> (inode_table s1) ->
    v' = set_i_data (i_data v') (set_i_ctime (i_ctime v') (set_i_dirt (i_dirt v') v)) -> inode_step n s v' s').
  { intros v' s' E1 E2 E5 E3 E4. split; [by rewrite E1, Hs1|by rewrite E2, Hs1|by rewrite E5, Hs1|]. exists v. split; [done|]. split; [by rewrite E3, Hs1|done]. }
  destruct (truth z) eqn:Et.
  - set (v2 := set_i_dirt 1 (set_i_ctime (CURRENT_TIME (fkern s)) v1)). set (s3 := set_inode_table (<[Z.to_nat n := v2]> (inode_table s2)) s2).
    exists z, v2, s3. split.
    + rewrite (run_bind _ _ _ tt s3); [reflexivity|]. rewrite (run_bind _ _ _ (CURRENT_TIME (fkern s)) s2); [exact (inode_upd_run n (fun v => set_i_dirt 1 (set_i_ctime (CURRENT_TIME (fkern s)) v)) s2 v1 Hn2)|].
      unfold now. rewrite (on_task_run _ _ (CURRENT_TIME (fkern s)) (fkern s)); [by unfold s2; rewrite Hs1|]. unfold s2. by rewrite Hs1.
    + eapply new_zone_result; try done.
      * intros e'. change (ent v2 e') with (ent v1 e'). apply ent_insert; [done|lia].
      * change (length (<[Z.to_nat e := z]> (i_data v)) = 16%nat). by rewrite length_insert.
      * apply Hst; try done. change (<[Z.to_nat n := v2]> (<[Z.to_nat n := v1]> (inode_table s1)) = <[Z.to_nat n := v2]> (inode_table s1)). by rewrite list_insert_insert_eq.
  - exists z, v1, s2. split; [reflexivity|]. eapply new_zone_result; try done.
    + intros e'. apply ent_insert; [done|lia].
    + change (length (<[Z.to_nat e := z]> (i_data v)) = 16%nat). by rewrite length_insert.
    + by apply Hst.
Qed.

(** ** Reading an index block *)

(** Blocks of the device can be read. *)
Definition readable : Prop := forall blk c c', bread dev blk c <> Ok None c'.

(** The buffer of zone [y] with one more reference. *)
Record opened (c c1 : C) (y : Z) (w : bview) : Prop := {
  op_other : forall b, b <> (dev, y) -> held c1 !! b = held c !! b;
  op_this : held c1 !! (dev, y) = Some w;
  op_count : bv_count w = refs c (dev, y) + 1;
  op_up : bv_up w = true;
  op_id : forall w0, held c !! (dev, y) = Some w0 -> bv_id w0 = bv_id w;
  op_cap : capacity c1 = capacity c
}.

(** A cache with the same contents and maps is in order. *)
Lemma zmap_ok_same c c' : zones_ok sb -> zmap_ok dev sb c -> cwf c' -> (forall b, content c' b = content c b) -> (forall b w, held c' !! b = Some w -> settled c' b w) ->
  (forall b, is_map dev sb b -> held c' !! b = held c !! b) -> (forall z, zbit dev sb c z = false -> data_zone sb z -> held c' !! (dev, z) = held c !! (dev, z)) ->
  zmap_ok dev sb c'.
Proof using.
  intros Hz Hok Hc Hct Hs Hm Hf. split; [done| |done|rewrite Hct; apply (zm_zero _ _ _ Hok)|].
  - intros i x Hx. destruct (zm_maps _ _ _ Hok i x Hx) as (w & [Hw Hi] & Hu). exists w. split; [|done]. split; [|done]. rewrite Hm; [done|]. by eapply map_is_map.
  - intros z Hd Hb. assert (Hb' : zbit dev sb c z = false) by (unfold zbit in *; by rewrite <-Hct). rewrite Hf by done. by apply (zm_free _ _ _ Hok).
Qed.

Lemma bread_open c y : readable -> zones_ok sb -> zmap_ok dev sb c -> dev <> 0 -> taken c y -> refs c (dev, y) < 255 -> room 1 c ->
  exists x c1 w, bread dev y c = Ok (Some x) c1 /\ zmap_ok dev sb c1 /\ buffer c1 x (dev, y) w /\ opened c c1 y w /\ bv_data w = content c (dev, y) /\ forall b, content c1 b = content c b.
Proof using HL.
  intros Hrd Hz Hok Hdev [Hd Ht] Hr Hroom. destruct (bread_law dev y c (zm_wf _ _ _ Hok) Hdev Hr Hroom) as (r & c1 & R & Hc1 & Hres).
  destruct r as [x|]; [|by destruct (Hrd y c c1)]. destruct Hres as (w & Hb & Hi & Hn & Hu & Hw & Hold). pose proof Hb as (Hh & Hk & Hcap).
  exists x, c1, w. split; [done|]. assert (Hct : forall b, content c1 b = content c b).
  { intros b. unfold content at 1. rewrite Hh. destruct (decide (b = (dev, y))) as [->|]; [rewrite lookup_insert_eq; by rewrite Hu|]. rewrite lookup_insert_ne by done. by rewrite Hk. }
  assert (Hop : opened c c1 y w).
  { split; [intros b Hne; by rewrite Hh, lookup_insert_ne|by rewrite Hh, lookup_insert_eq|done|done| |done]. intros w0 H0. destruct (Hold w0 H0). congruence. }
  split; [|split; [by split; [apply (op_this _ _ _ _ Hop)|]|done]]. apply (zmap_ok_same c); try done.
  - intros b w1. destruct (decide (b = (dev, y))) as [->|Hne].
    + rewrite (op_this _ _ _ _ Hop). intros [= <-]. intros _. rewrite Hk, Hw. unfold content. destruct (held c !! (dev, y)) as [w0|] eqn:E; [|by right].
      destruct (bv_up w0) eqn:Eu; [|by right]. destruct (Hold w0 eq_refl) as [_ ->]; [|done]. by apply (zm_settled _ _ _ Hok _ _ E).
    + rewrite (op_other _ _ _ _ Hop) by done. intros H1. unfold settled. rewrite Hk. by apply (zm_settled _ _ _ Hok).
  - intros b Hm. apply (op_other _ _ _ _ Hop). intros ->. by apply (zone_not_map dev sb y Hz Hd).
  - intros z Hf _. apply (op_other _ _ _ _ Hop). congruence.
Qed.

Lemma opened_room n c c1 y w : opened c c1 y w -> room (n + 1) c -> room n c1.
Proof using.
  intros [H1 H2 _ _ _ H3]. unfold room. rewrite H3. assert (held c1 = <[(dev, y) := w]> (held c)) as ->.
  { apply map_eq. intros b. destruct (decide (b = (dev, y))) as [->|]; [by rewrite lookup_insert_eq|]. rewrite lookup_insert_ne by done. by apply H1. }
  rewrite map_size_insert. destruct (held c !! (dev, y)); cbn; lia.
Qed.

(** Giving it back: everybody has the buffers they had. *)
Lemma brelse_close c c1 c2 x y w w2 : zones_ok sb -> cwf c -> data_zone sb y -> opened c c1 y w -> keeps c1 c2 -> zmap_ok dev sb c2 -> buffer c2 x (dev, y) w2 ->
  exists c3, brelse (Some x) c2 = Ok tt c3 /\ zmap_ok dev sb c3 /\ keeps c c3 /\ forall b, content c3 b = content c2 b.
Proof using HL.
  intros Hz Hwf Hd [O1 O2 O3 O4 O5 O6] [K1 K2 K3] Hok2 Hw2. pose proof (zm_wf _ _ _ Hok2) as Hc2. destruct Hw2 as [Hw2 Hx2].
  destruct (K1 _ _ O2) as (w' & Hw' & Ei & En & Eu). assert (w' = w2) as -> by congruence. clear Hw'. specialize (Eu O4).
  destruct (brelse_law x (dev, y) w2 c2 Hc2 (conj Hw2 Hx2) (zm_settled _ _ _ Hok2 _ _ Hw2)) as (c3 & R & Hc3 & Hh & Hcap & Hk). exists c3. split; [done|].
  assert (Hother : forall b, b <> (dev, y) -> held c3 !! b = held c2 !! b) by (intros b Hb; rewrite Hh; destruct (bv_count w2 =? 1); [by rewrite lookup_delete_ne|by rewrite lookup_insert_ne]).
  assert (Hdk : forall b, b <> (dev, y) -> disk c3 b = disk c2 b) by (intros b Hb; rewrite Hk, decide_False by tauto; done).
  assert (Hthis : held c3 !! (dev, y) = if bv_count w2 =? 1 then None else Some (set_bv_count (bv_count w2 - 1) w2)) by (rewrite Hh; destruct (bv_count w2 =? 1); [apply lookup_delete_eq|apply lookup_insert_eq]).
  assert (Hct : forall b, content c3 b = content c2 b).
  { intros b. unfold content. destruct (decide (b = (dev, y))) as [->|Hne]; [|by rewrite Hother, Hdk]. rewrite Hthis, Hw2, Eu. destruct (Z.eqb_spec (bv_count w2) 1) as [E|E]; [by rewrite Hk, decide_True|].
    cbn [bv_up set_bv_count]. by rewrite Eu. }
  split; [|split; [|done]].
  - apply (zmap_ok_same c2); try done.
    + intros b v. destruct (decide (b = (dev, y))) as [->|Hne].
      * rewrite Hthis. destruct (Z.eqb_spec (bv_count w2) 1) as [|E]; [done|]. intros [= <-]. unfold settled. rewrite Hk, decide_False by tauto. exact (zm_settled _ _ _ Hok2 _ _ Hw2).
      * rewrite Hother by done. unfold settled. rewrite Hdk by done. apply (zm_settled _ _ _ Hok2).
    + intros b Hm. apply Hother. intros ->. by apply (zone_not_map dev sb y Hz Hd).
    + intros z Hf Hdz. apply Hother. intros [= ->]. pose proof (zm_free _ _ _ Hok2 y Hd Hf). congruence.
  - assert (Hr : refs c (dev, y) = 0 <-> held c !! (dev, y) = None).
    { unfold refs. destruct (held c !! (dev, y)) as [w0|] eqn:E; [|done]. pose proof (cwf_count _ Hwf _ _ E). split; [lia|done]. }
    split; [|apply set_eq; intros b; rewrite !elem_of_dom|congruence].
    + intros b v Hv. destruct (decide (b = (dev, y))) as [->|Hne].
      * assert (refs c (dev, y) <> 0) by (rewrite Hr; congruence). rewrite Hthis. destruct (Z.eqb_spec (bv_count w2) 1); [lia|]. eexists. split; [reflexivity|].
        cbn [bv_id bv_count bv_up set_bv_count]. split; [rewrite Ei; symmetry; by apply O5|]. split; [|done]. rewrite En, O3. unfold refs. rewrite Hv. lia.
      * rewrite Hother by done. apply K1. by rewrite O1.
    + destruct (decide (b = (dev, y))) as [->|Hne].
      * rewrite Hthis. destruct (Z.eqb_spec (bv_count w2) 1) as [E|E]; [rewrite (proj1 Hr) by lia; done|]. split; [|by eexists]. intros _.
        destruct (held c !! (dev, y)) eqn:E0; [by eexists|]. pose proof (proj2 Hr eq_refl). lia.
      * rewrite Hother, <-O1 by done. by rewrite <-!elem_of_dom, K2.
Qed.

(** Writing to a zone that is taken. *)
Lemma zmap_ok_write c c' y w w' : zones_ok sb -> zmap_ok dev sb c -> cwf c' -> data_zone sb y -> held c !! (dev, y) = Some w -> becomes c c' (dev, y) w' -> bv_up w' = true -> bv_dirt w' = true ->
  zmap_ok dev sb c' /\ (forall b, content c' b = if decide (b = (dev, y)) then bv_data w' else content c b) /\ forall z, data_zone sb z -> zbit dev sb c' z = zbit dev sb c z.
Proof using.
  intros Hz Hok Hc' Hd Hw (Hh & Hk & _) Hu Hdt.
  assert (Hct : forall b, content c' b = if decide (b = (dev, y)) then bv_data w' else content c b).
  { intros b. unfold content. rewrite Hh. destruct (decide (b = (dev, y))) as [->|]; [by rewrite lookup_insert_eq, Hu|]. rewrite lookup_insert_ne by done. by rewrite Hk. }
  assert (Hmap : forall b, is_map dev sb b -> b <> (dev, y)) by (intros b Hm ->; by apply (zone_not_map dev sb y Hz Hd)).
  assert (Hzb : forall z, data_zone sb z -> zbit dev sb c' z = zbit dev sb c z).
  { intros z Hdz. destruct (zone_place sb z Hz Hdz) as (_ & Hq & _). unfold zbit. rewrite Hct, decide_False; [done|]. apply Hmap. unfold is_map. cbn. lia. }
  split; [|done]. pose proof (zo_first _ Hz). split; [done| | | |].
  - intros i x Hx. destruct (zm_maps _ _ _ Hok i x Hx) as (v & [Hv Hi] & Hup). exists v. split; [|done]. split; [|done]. rewrite Hh, lookup_insert_ne; [done|]. apply not_eq_sym, Hmap. by eapply map_is_map.
  - intros b v. rewrite Hh. destruct (decide (b = (dev, y))) as [->|]; [rewrite lookup_insert_eq; intros [= <-] _; by left|]. rewrite lookup_insert_ne by done. unfold settled. rewrite Hk. apply (zm_settled _ _ _ Hok).
  - rewrite Hct, decide_False; [apply (zm_zero _ _ _ Hok)|]. apply Hmap. destruct (zone_place sb y Hz Hd) as (_ & Hq & _). unfold is_map. cbn. lia.
  - intros z Hdz Hf. rewrite Hzb in Hf by done. pose proof (zm_free _ _ _ Hok z Hdz Hf). rewrite Hh, lookup_insert_ne; [done|]. congruence.
Qed.

Lemma mounted_cache (s : fss C) c : mounted dev sbn sb s -> mounted dev sbn sb (set_fcache c s).
Proof using. by intros [H1 H2 H3]. Qed.

(** An operation that changes nothing but the cache. *)
Lemma cache_result (create : bool) p n v s z c' : file_in n v s -> pos_ok p -> zmap_ok dev sb c' -> (forall u, taken (fcache s) u -> taken c' u) -> keeps (fcache s) c' ->
  placed p (fcache s) v z c' v ->
  (forall u, taken (fcache s) u -> content c' (dev, u) = content (fcache s) (dev, u) \/ exists q, pos_ok q /\ is_index q = true /\ zone_at c' v q = u) ->
  (if create then z = 0 -> full c' else forall b, content c' b = content (fcache s) b) -> place_result create p n v s z v (set_fcache c' s).
Proof using.
  intros Hin Hp Hok Htk Hkp Hpl Hct Hcr. pose proof Hin as [_ _ _ Hn _ Hf]. assert (Hst : inode_step n s v (set_fcache c' s)).
  { split; [done|done|done|]. destruct (is_table _ _ _ _ (inode_step_refl n v s Hn)) as (v0 & ?). by exists v0. }
  assert (Hf' : file_ok c' v).
  { destruct Hpl as [[_ Hs]|(_ & Ht & Hzb & _ & Hfl)]; [eapply file_ok_same; [exact Hf|apply (fo_len _ _ Hf)|done|done]|]. eapply file_ok_filled; try done. apply (fo_len _ _ Hf). }
  split; [by eapply file_in_step|]. split; [done|]. split; [done|]. split; [by apply placed_grown with z|by destruct create].
Qed.

Section Entry.
Context (patience : nat) (i : Z) (v : inode) (s : fss C) (b p : zpos) (k y : Z).
Context (Hrd : readable) (Hpt : (0 < patience)%nat) (Hin : file_in i v s) (Hrm : room 2 (fcache s)) (Hrf : forall a, refs (fcache s) a < 255).
Context (Hb : pos_ok b) (Hk : 0 <= k < 512) (Hp : entry_pos b k = Some p) (Hy : zone_at (fcache s) v b = y) (Hy0 : y <> 0).

Lemma entry_taken : taken (fcache s) y.
Proof using Hin Hb Hy Hy0. destruct (fo_zone _ _ (fi_file _ _ _ Hin) b Hb) as [|Ht]; congruence. Qed.

(** Nothing is filled: the index block is given back. *)
Lemma entry_kept (create : bool) z c1 c2 w x : opened (fcache s) c1 y w -> keeps c1 c2 -> zmap_ok dev sb c2 -> buffer c2 x (dev, y) w -> z = zone_at (fcache s) v p ->
  (forall u, taken (fcache s) u -> zbit dev sb c2 u = true /\ content c2 (dev, u) = content (fcache s) (dev, u)) -> (if create then z = 0 -> full c2 else forall a, content c2 a = content (fcache s) a) ->
  exists c3, brelse (Some x) c2 = Ok tt c3 /\ place_result create p i v s z v (set_fcache c3 s).
Proof using HL Hin Hb Hk Hp Hy Hy0.
  intros Hop Hkp Hok2 Hw Hz Hsame Hfull. pose proof Hin as [_ Hzo Hok _ _ Hf]. pose proof entry_taken as [Hd _].
  destruct (brelse_close (fcache s) c1 c2 x y w w Hzo (zm_wf _ _ _ Hok) Hd Hop Hkp Hok2 Hw) as (c3 & R & Hok3 & Hk3 & Hct). exists c3. split; [done|].
  assert (Hzb : forall u, zbit dev sb c3 u = zbit dev sb c2 u) by (intros u; unfold zbit; by rewrite Hct).
  assert (Hsz : same_zones (fcache s) v c3 v) by (apply zone_at_frame; [done|done|intros u Hu; rewrite Hct; by apply Hsame]).
  apply cache_result; try done.
  - by eapply entry_pos_ok.
  - intros u Hu. split; [apply Hu|]. rewrite Hzb. by apply Hsame.
  - by left.
  - intros u Hu. left. rewrite Hct. by apply Hsame.
  - destruct create; [intros H0 u Hu; rewrite Hzb; by apply Hfull|intros a; by rewrite Hct].
Qed.

(** The new zone goes to its place. *)
Lemma entry_filled z c1 c2 w x : opened (fcache s) c1 y w -> keeps c1 c2 -> zmap_ok dev sb c2 -> buffer c2 x (dev, y) w -> bv_data w = content (fcache s) (dev, y) ->
  zone_at (fcache s) v p = 0 -> data_zone sb z -> zbit dev sb (fcache s) z = false ->
  (forall u, data_zone sb u -> zbit dev sb c2 u = if decide (u = z) then true else zbit dev sb (fcache s) u) -> content c2 (dev, z) = zero_block ->
  (forall u, taken (fcache s) u -> content c2 (dev, u) = content (fcache s) (dev, u)) ->
  exists c3 c4 c5, set_bh_word x k z c2 = Ok tt c3 /\ set_bh_dirt x 1 c3 = Ok tt c4 /\ brelse (Some x) c4 = Ok tt c5 /\ place_result true p i v s z v (set_fcache c5 s).
Proof using HL Hpt Hin Hb Hk Hp Hy Hy0.
  intros Hop Hkp Hok2 Hw Hdata H0 Hd Hfree Hbits Hzero Hsame. pose proof Hin as [_ Hzo Hok _ _ Hf]. pose proof entry_taken as Hty. pose proof (data_zone_range z Hzo Hd) as Hzr.
  destruct (set_bh_word_run c2 x _ w k z (zm_wf _ _ _ Hok2) Hw Hk) as (c3 & R3 & Hc3 & B3). pose proof (becomes_buffer _ _ _ _ B3) as Hw3. cbn [bv_id set_bv_data] in Hw3. rewrite (proj2 Hw) in Hw3.
  destruct (set_bh_dirt_law x _ _ 1 c3 Hc3 Hw3) as (c4 & R4 & Hc4 & B4). pose proof (becomes_trans _ _ _ _ _ _ B3 B4) as B. set (w4 := set_bv_dirt (truth 1) (set_bv_data (with_word (bv_data w) k z) w)) in *.
  destruct (zmap_ok_write c2 c4 y w w4 Hzo Hok2 Hc4 (proj1 Hty) (proj1 Hw) B (op_up _ _ _ _ Hop) eq_refl) as (Hok4 & Hct4 & Hzb4).
  assert (Hk4 : keeps c1 c4) by (eapply view_keeps_trans; [exact Hkp|]; by eapply becomes_keeps; [apply Hw|exact B|..]).
  pose proof (becomes_buffer _ _ _ _ B) as Hw4. change (bv_id w4) with (bv_id w) in Hw4. rewrite (proj2 Hw) in Hw4.
  destruct (brelse_close (fcache s) c1 c4 x y w w4 Hzo (zm_wf _ _ _ Hok) (proj1 Hty) Hop Hk4 Hok4 Hw4) as (c5 & R5 & Hok5 & Hk5 & Hct5).
  exists c3, c4, c5. split; [done|]. split; [done|]. split; [done|].
  assert (Hzb : forall u, data_zone sb u -> zbit dev sb c5 u = if decide (u = z) then true else zbit dev sb (fcache s) u) by (intros u Hu; rewrite <-Hbits, <-Hzb4 by done; unfold zbit; by rewrite Hct5).
  assert (Hct : forall u, content c5 (dev, u) = if decide (u = y) then with_word (content (fcache s) (dev, y)) k z else content c2 (dev, u)).
  { intros u. rewrite Hct5, Hct4, <-Hdata. destruct (decide (u = y)) as [->|]; [by rewrite decide_True|]. rewrite decide_False by congruence. done. }
  assert (Hne : z <> y) by (intros ->; destruct Hty; congruence). assert (Hz5 : content c5 (dev, z) = zero_block) by (rewrite Hct, decide_False by done; done).
  assert (Hoth : forall u, taken (fcache s) u -> u <> y -> content c5 (dev, u) = content (fcache s) (dev, u)) by (intros u Hu Huy; rewrite Hct, decide_False by done; by apply Hsame).
  assert (Hfl : filled p z (fcache s) v c5 v).
  { apply (fill_entry (fcache s) c5 v b p y k z); try done; [apply (zm_wf _ _ _ Hok)|lia|unfold in_u16; lia|]. rewrite Hct. by rewrite decide_True. }
  assert (Hix : is_index b = true) by (by destruct b). assert (Hbp : b <> p) by (destruct b; cbn in Hp; congruence).
  apply cache_result; try done.
  - by eapply entry_pos_ok.
  - intros u [Hu1 Hu2]. split; [done|]. rewrite Hzb by done. by case_decide.
  - right. split; [done|]. split; [split; [done|by rewrite Hzb, decide_True]|]. done.
  - intros u Hu. destruct (Z.eq_dec u y) as [->|]; [right; exists b|left; by apply Hoth]. split; [done|]. split; [done|]. rewrite Hfl by done. by rewrite decide_False.
  - lia.
Qed.

Lemma entry_zone_run create : exists x s1, on_cache (bread dev y) s = Ok (Some x) s1 /\
  exists z s', indirect_zone patience dev x k create s1 = Ok z s' /\ place_result create p i v s z v s'.
Proof using HL Hrd Hpt Hin Hrm Hrf Hb Hk Hp Hy Hy0.
  pose proof Hin as [Hmt Hzo Hok _ _ Hf]. pose proof entry_taken as Hty.
  destruct (bread_open (fcache s) y Hrd Hzo Hok (md_dev _ _ _ _ Hmt) Hty (Hrf _)) as (x & c1 & w & R1 & Hok1 & Hw1 & Hop & Hdata & Hct1); [unfold room in *; lia|].
  exists x, (set_fcache c1 s). split; [by apply on_cache_run|]. unfold indirect_zone.
  rewrite (run_bind _ _ _ (word_at (bv_data w) k) (set_fcache c1 s)) by (apply on_cache_at; by apply (bh_word_run c1 x _ w k (zm_wf _ _ _ Hok1) Hw1 Hk)).
  assert (Hent : word_at (bv_data w) k = zone_at (fcache s) v p).
  { rewrite Hdata, (zone_at_entry _ v b k p Hp), Hy. unfold entry. by destruct (Z.eqb_spec y 0). }
  rewrite Hent. set (z0 := zone_at (fcache s) v p) in *. assert (Hzb1 : forall u, zbit dev sb c1 u = zbit dev sb (fcache s) u) by (intros u; unfold zbit; by rewrite Hct1).
  destruct (create && (z0 =? 0)) eqn:Ecr.
  - apply andb_true_iff in Ecr as [-> E0]. apply Z.eqb_eq in E0. pose proof (opened_room 1 _ _ _ _ Hop Hrm) as Hrm1.
    destruct (new_block_run dev sbn sb patience (set_fcache c1 s) Hpt (mounted_cache s c1 Hmt) Hzo Hok1 Hrm1) as (z & s2 & R2 & Hs2 & Hok2 & Hnew).
    change (set_fcache (fcache s2) (set_fcache c1 s)) with (set_fcache (fcache s2) s) in Hs2. unfold new_zone in Hnew. cbn [fcache set_fcache] in Hnew. set (c2 := fcache s2) in *. clearbody c2. subst s2.
    assert (Hzs : exists P, zstep dev sb P c1 c2) by (destruct Hnew as [(_ & _ & ?)|(_ & _ & _ & _ & ?)]; by eexists). destruct Hzs as [P Hzs].
    assert (Hw2 : buffer c2 x (dev, y) w) by (split; [|apply Hw1]; rewrite (zs_held _ _ _ _ _ Hzs) by (by apply zone_not_map, Hty); apply Hw1).
    destruct Hnew as [(-> & Hfull & Hs)|(Hd & Hzb & Hn & Hzero & Hs)].
    + destruct (entry_kept true 0 c1 c2 w x Hop (zstep_keeps _ _ _ Hzs) Hok2 Hw2 (eq_sym E0)) as (c3 & R3 & Hres).
      { intros u Hu. split; [by apply Hfull, Hu|]. rewrite <-Hct1. apply (zs_content _ _ _ _ _ Hs); [by apply zone_not_map, Hu|exact (fun F => F)]. }
      { intros _ u Hu. by apply Hfull. }
      exists 0, (set_fcache c3 s). split; [|done]. rewrite (run_bind _ _ _ 0 (set_fcache c2 s)); [by rewrite (run_bind _ _ _ tt (set_fcache c3 s)) by (by apply on_cache_at)|]. by rewrite (run_bind _ _ _ _ _ R2).
    + assert (Hzt : truth z = true) by (unfold truth; pose proof (data_zone_range z Hzo Hd); destruct (Z.eqb_spec z 0); [lia|done]).
      destruct (entry_filled z c1 c2 w x Hop (zstep_keeps _ _ _ Hzs) Hok2 Hw2 Hdata E0 Hd) as (c3 & c4 & c5 & R3 & R4 & R5 & Hres); [by rewrite <-Hzb1|intros u Hu; rewrite Hn, Hzb1 by done; done|done| |].
      { intros u Hu. rewrite <-Hct1. apply (zs_content _ _ _ _ _ Hs); [by apply zone_not_map, Hu|]. intros [= ->]. destruct Hu as [_ Hu]. rewrite Hzb1 in Hzb. congruence. }
      exists z, (set_fcache c5 s). split; [|done]. rewrite (run_bind _ _ _ z (set_fcache c4 s)); [by rewrite (run_bind _ _ _ tt (set_fcache c5 s)) by (by apply on_cache_at)|].
      rewrite (run_bind _ _ _ _ _ R2), Hzt. rewrite (run_bind _ _ _ tt (set_fcache c4 s)); [done|]. rewrite (run_bind _ _ _ tt (set_fcache c3 s)) by (by apply on_cache_at). by apply on_cache_at.
  - destruct (entry_kept create z0 c1 c1 w x Hop (view_keeps_refl c1) Hok1 Hw1 eq_refl) as (c3 & R3 & Hres).
    { intros u Hu. rewrite Hzb1, Hct1. split; [apply Hu|done]. }
    { destruct create; [|done]. cbn [andb] in Ecr. apply Z.eqb_neq in Ecr. done. }
    exists z0, (set_fcache c3 s). split; [|done]. rewrite (run_bind _ _ _ z0 (set_fcache c1 s)) by done. by rewrite (run_bind _ _ _ tt (set_fcache c3 s)) by (by apply on_cache_at).
Qed.

End Entry.

(** ** [_minix_bmap] *)

(** What is known after looking for the zone in place [p], and filling it if
    [create] is set. *)
Record bmap_result (create : bool) (p : zpos) (n : Z) (v : inode) (s : fss C) (z : Z) (v' : inode) (s' : fss C) : Prop := {
  br_file : file_in n v' s';
  br_step : inode_step n s v' s';
  br_grown : grown p (fcache s) v (fcache s') v';
  br_zone : zone_at (fcache s') v' p = z;
  br_new : zone_at (fcache s) v p = 0 -> z <> 0 -> taken (fcache s') z /\ zbit dev sb (fcache s) z = false /\ content (fcache s') (dev, z) = zero_block;
  br_create : if create then z = 0 -> full (fcache s') else v' = v /\ forall b, content (fcache s') b = content (fcache s) b
}.

Lemma place_bmap create p n v s z v' s' : pos_ok p -> place_result create p n v s z v' s' -> bmap_result create p n v s z v' s'.
Proof using.
  intros Hp (H1 & H2 & H3 & H4 & H5). split; try done; [by eapply placed_zone|]. intros H0 Hz. destruct H3 as [[-> _]|(_ & H & Hb & Hc & _)]; done.
Qed.

(** An index block first. *)
Lemma bmap_index create b p n v s y v1 s1 z v2 s2 : is_index b = true -> is_index p = false -> pos_ok p -> place_result create b n v s y v1 s1 ->
  bmap_result create p n v1 s1 z v2 s2 -> bmap_result create p n v s z v2 s2.
Proof using.
  intros Hb Hp Hpk (H1 & H2 & H3 & H4 & H5) [B1 B2 B3 B4 B5 B6]. pose proof (fi_zones _ _ _ H1) as Hz. split; [done|by eapply inode_step_trans| |done| |].
  - eapply grown_trans; [done|by eapply grown_index|done].
  - intros H0 Hne. rewrite <-(gr_leaf _ _ _ _ _ H4 p Hpk Hp) in H0 by (intros ->; congruence). destruct (B5 H0 Hne) as (Ht & Hf & Hc). split; [done|]. split; [|done].
    destruct (zbit dev sb (fcache s) z) eqn:E; [|done]. destruct (gr_taken _ _ _ _ _ H4 z) as [_ Ht1]; [by split; [apply Ht|]|]. congruence.
  - destruct create; [done|]. destruct H5 as [-> H5], B6 as [-> B6]. split; [done|]. intros a. by rewrite B6.
Qed.

Lemma bmap_nothing create b p n v s v1 s1 : is_index b = true -> is_index p = false -> pos_ok p -> place_result create b n v s 0 v1 s1 -> zone_at (fcache s1) v1 p = 0 ->
  bmap_result create p n v s 0 v1 s1.
Proof using.
  intros Hb Hp Hpk (H1 & H2 & H3 & H4 & H5) H0. split; try done. by eapply grown_index.
Qed.

(** What the loops over index blocks need. *)
Definition ready (n : Z) (v : inode) (s : fss C) : Prop := file_in n v s /\ room 2 (fcache s) /\ forall a, refs (fcache s) a < 255.

Lemma ready_next create p n v s z v' s' : ready n v s -> place_result create p n v s z v' s' -> ready n v' s'.
Proof using.
  intros (_ & Hr & Hf) (H1 & _ & _ & H4 & _). pose proof (gr_keeps _ _ _ _ _ H4) as Hk. split; [done|]. split; [by eapply keeps_room|]. intros a. by rewrite (keeps_refs _ _ _ Hk).
Qed.

(** From an index block that is there to the place below it. *)
Lemma bmap_entry patience create n v s b k p y : readable -> (0 < patience)%nat -> ready n v s -> pos_ok b -> 0 <= k < 512 -> entry_pos b k = Some p -> zone_at (fcache s) v b = y -> y <> 0 ->
  exists z s', (bh ← on_cache (bread dev y); match bh with None => mret 0 | Some x => indirect_zone patience dev x k create end) s = Ok z s' /\ place_result create p n v s z v s'.
Proof using HL.
  intros Hrd Hp (Hin & Hrm & Hrf) Hb Hk Hpos Hy Hy0. destruct (entry_zone_run patience n v s b p k y Hrd Hp Hin Hrm Hrf Hb Hk Hpos Hy Hy0 create) as (x & s1 & R1 & z & s' & R2 & Hres).
  exists z, s'. split; [|done]. by rewrite (run_bind _ _ _ _ _ R1).
Qed.

Lemma bmap_run patience create n block v s : readable -> (0 < patience)%nat -> ready n v s -> 0 <= block < 7 + 512 + 512 * 512 ->
  exists z v' s', _minix_bmap patience n block create s = Ok z s' /\ bmap_result create (pos_of block) n v s z v' s'.
Proof using HL.
  intros Hrd Hp Hrdy Hblk. pose proof Hrdy as (Hin & Hrm & Hrf). pose proof (pos_of_ok block Hblk) as Hpk. unfold _minix_bmap. assert (Hr1 : room 1 (fcache s)) by (unfold room in *; lia).
  destruct (Z.ltb_spec block 0); [lia|]. destruct (Z.leb_spec (7 + 512 + 512 * 512) block); [lia|]. unfold pos_of in *. destruct (Z.ltb_spec block 7) as [H7|H7].
  { destruct (inode_zone_run patience n block create v s Hp Hin Hr1) as (z & v' & s' & R & Hres); [lia|]. exists z, v', s'. split; [done|]. unfold inode_pos in Hres. destruct (Z.ltb_spec block 7); [|lia]. by apply place_bmap. }
  destruct (Z.ltb_spec (block - 7) 512) as [H5|H5].
  - destruct (inode_zone_run patience n 7 create v s Hp Hin Hr1) as (y & v1 & s1 & R1 & Hres1); [lia|]. change (inode_pos 7) with ZInd in Hres1. rewrite (run_bind _ _ _ _ _ R1).
    pose proof (placed_zone ZInd _ _ _ _ _ I (proj1 (proj2 (proj2 Hres1)))) as Hy. pose proof (ready_next _ _ _ _ _ _ _ _ Hrdy Hres1) as Hrdy1.
    destruct (Z.eqb_spec y 0) as [->|Hy0].
    { exists 0, v1, s1. split; [done|]. eapply bmap_nothing; [..|exact Hres1|]; try done. cbn [zone_at] in Hy |- *. by rewrite Hy. }
    rewrite (run_bind _ _ _ v1 s1) by (apply inode_at_run, fi_inode, Hrdy1). rewrite (fi_dev _ _ _ (proj1 Hrdy1)).
    destruct (bmap_entry patience create n v1 s1 ZInd (block - 7) _ y Hrd Hp Hrdy1 I ltac:(lia) eq_refl Hy Hy0) as (z & s2 & R2 & Hres2).
    exists z, v1, s2. split; [done|]. eapply bmap_index; [..|exact Hres1|]; try done. by apply place_bmap.
  - replace (block - 7 - 512) with (block - 519) by lia. destruct Hpk as [Hi Hk]. set (i := Z.shiftr (block - 519) 9) in *. set (k := Z.land (block - 519) 511) in *.
    destruct (inode_zone_run patience n 8 create v s Hp Hin Hr1) as (y & v1 & s1 & R1 & Hres1); [lia|]. change (inode_pos 8) with ZDbl in Hres1. rewrite (run_bind _ _ _ _ _ R1).
    pose proof (placed_zone ZDbl _ _ _ _ _ I (proj1 (proj2 (proj2 Hres1)))) as Hy. pose proof (ready_next _ _ _ _ _ _ _ _ Hrdy Hres1) as Hrdy1.
    destruct (Z.eqb_spec y 0) as [->|Hy0].
    { exists 0, v1, s1. split; [done|]. eapply bmap_nothing; [..|exact Hres1|]; try done. cbn [zone_at] in Hy |- *. by rewrite Hy. }
    rewrite (run_bind _ _ _ v1 s1) by (apply inode_at_run, fi_inode, Hrdy1). rewrite (fi_dev _ _ _ (proj1 Hrdy1)).
    destruct (entry_zone_run patience n v1 s1 ZDbl _ i y Hrd Hp (proj1 Hrdy1) (proj1 (proj2 Hrdy1)) (proj2 (proj2 Hrdy1)) I Hi eq_refl Hy Hy0 create) as (x & s2 & R2 & y2 & s3 & R3 & Hres2).
    rewrite (run_bind _ _ _ _ _ R2). rewrite (run_bind _ _ _ _ _ R3).
    pose proof (placed_zone (ZDblE i) _ _ _ _ _ Hi (proj1 (proj2 (proj2 Hres2)))) as Hy2. pose proof (ready_next _ _ _ _ _ _ _ _ Hrdy1 Hres2) as Hrdy2.
    destruct (Z.eqb_spec y2 0) as [->|Hy20].
    { exists 0, v1, s3. split; [done|]. eapply bmap_index; [..|exact Hres1|]; try done. eapply bmap_nothing; [..|exact Hres2|]; try done. cbn [zone_at] in Hy2 |- *. by rewrite Hy2. }
    rewrite (run_bind _ _ _ v1 s3) by (apply inode_at_run, fi_inode, Hrdy2). rewrite (fi_dev _ _ _ (proj1 Hrdy2)).
    destruct (bmap_entry patience create n v1 s3 (ZDblE i) k _ y2 Hrd Hp Hrdy2 Hi Hk eq_refl Hy2 Hy20) as (z & s4 & R4 & Hres3).
    exists z, v1, s4. split; [done|]. eapply bmap_index; [..|exact Hres1|]; try done. eapply bmap_index; [..|exact Hres2|]; try done. by apply place_bmap.
Qed.

(** ** A file as a map from block numbers to blocks *)

Definition file_block (b : Z) : Prop := 0 <= b < 7 + 512 + 512 * 512.
(** Block [b] of a file, if it is not a hole. *)
Definition file_map (c : C) (v : inode) (b : Z) : option (list Z) :=
  let z := zone_at c v (pos_of b) in if z =? 0 then None else Some (content c (dev, z)).

Lemma pos_of_leaf b : is_index (pos_of b) = false.
Proof using. unfold pos_of. by destruct (b <? 7), (b - 7 <? 512). Qed.

(** A block other than [t] is as it was when the file grows at [t]. *)
Lemma grown_map t c v c' v' b : file_ok c v -> file_ok c' v' -> grown t c v c' v' -> file_block b -> pos_of b <> t -> file_map c' v' b = file_map c v b.
Proof using.
  intros Hf Hf' Hg Hb Hne. pose proof (pos_of_ok b Hb) as Hp. unfold file_map. rewrite (gr_leaf _ _ _ _ _ Hg _ Hp (pos_of_leaf b) Hne).
  destruct (Z.eqb_spec (zone_at c v (pos_of b)) 0) as [|Hz]; [done|]. f_equal. destruct (fo_zone _ _ Hf _ Hp) as [|Ht]; [done|].
  destruct (gr_content _ _ _ _ _ Hg _ Ht) as [|(q & Hq & Hi & E)]; [done|]. exfalso.
  assert (Eq : q = pos_of b) by (apply (fo_inj _ _ Hf'); [done|done|by rewrite (gr_leaf _ _ _ _ _ Hg _ Hp (pos_of_leaf b) Hne)|congruence]).
  subst q. by rewrite pos_of_leaf in Hi.
Qed.

(** Two files with no zone in common. *)
Definition apart (c : C) (v u : inode) : Prop := forall p q, pos_ok p -> pos_ok q -> zone_at c v p = zone_at c u q -> zone_at c v p = 0.

Lemma grown_apart t c v c' v' u : file_ok c v -> file_ok c u -> apart c v u -> grown t c v c' v' -> same_zones c u c' u /\ forall b, file_block b -> file_map c' u b = file_map c u b.
Proof using.
  intros Hf Hu Ha Hg. assert (Hct : forall q, pos_ok q -> zone_at c u q <> 0 -> content c' (dev, zone_at c u q) = content c (dev, zone_at c u q)).
  { intros q Hq Hn. destruct (fo_zone _ _ Hu q Hq) as [|Ht]; [done|]. destruct (gr_content _ _ _ _ _ Hg _ Ht) as [|(p & Hp & Hi & E)]; [done|]. exfalso.
    destruct (Z.eq_dec (zone_at c v p) 0) as [E0|E0]; [apply (gr_fresh _ _ _ _ _ Hg p Hp E0); congruence|]. apply E0, (Ha p q Hp Hq). rewrite <-E. symmetry. by apply (gr_keep _ _ _ _ _ Hg). }
  assert (Hs : same_zones c u c' u).
  { assert (He : forall q k, pos_ok q -> entry c' (zone_at c u q) k = entry c (zone_at c u q) k) by (intros q k Hq; unfold entry; destruct (Z.eqb_spec (zone_at c u q) 0); [done|]; by rewrite Hct).
    intros [e| |k| |i|i k] Hq; cbn [zone_at]; try reflexivity; cbn in Hq; [exact (He ZInd k I)|exact (He ZDbl i I)|].
    pose proof (He ZDbl i I) as E. cbn [zone_at] in E. rewrite E. apply (He (ZDblE i) k), Hq. }
  split; [done|]. intros b Hb. unfold file_map. rewrite !(Hs (pos_of b)) by (by apply pos_of_ok). destruct (Z.eqb_spec (zone_at c u (pos_of b)) 0); [done|]. f_equal. apply Hct; [by apply pos_of_ok|done].
Qed.

(** The blocks of a file that has grown to have block [block]. *)
Lemma created_map n block v s z v' s' : ready n v s -> file_block block -> bmap_result true (pos_of block) n v s z v' s' -> forall b, file_block b ->
  file_map (fcache s') v' b = if z =? 0 then file_map (fcache s) v b else if decide (b = block) then Some (default zero_block (file_map (fcache s) v block)) else file_map (fcache s) v b.
Proof using.
  intros Hrdy Hblk [B1 B2 B3 B4 B5 B6] b Hb. pose proof (pos_of_ok block Hblk) as Hpk. pose proof (fi_file _ _ _ (proj1 Hrdy)) as Hf. pose proof (fi_file _ _ _ B1) as Hf'.
  destruct (decide (b = block)) as [->|Hne]; [|rewrite (grown_map _ _ _ _ _ _ Hf Hf' B3 Hb); [by destruct (z =? 0)|]; intros E; apply Hne, pos_of_inj; [apply Hb|apply Hblk|done]].
  unfold file_map. rewrite B4. destruct (Z.eqb_spec z 0) as [Hz|Hz].
  - destruct (Z.eqb_spec (zone_at (fcache s) v (pos_of block)) 0) as [|Hn]; [done|]. pose proof (gr_keep _ _ _ _ _ B3 _ Hpk Hn). congruence.
  - f_equal. destruct (Z.eqb_spec (zone_at (fcache s) v (pos_of block)) 0) as [H0|Hn]; cbn [default]; [by apply B5|].
    pose proof (gr_keep _ _ _ _ _ B3 _ Hpk Hn) as E0. rewrite B4 in E0. rewrite E0. destruct (fo_zone _ _ Hf _ Hpk) as [|Ht]; [done|].
    destruct (gr_content _ _ _ _ _ B3 _ Ht) as [|(q & Hq & Hi & E)]; [done|]. assert (q = pos_of block) as -> by (apply (fo_inj _ _ Hf'); [done|done|congruence|congruence]). by rewrite pos_of_leaf in Hi.
Qed.

(** C2: [minix_create_block] refines filling a hole of a file.  The file stays in
    order.  The result is the zone of the block, which is on the device and taken;
    the block is what it was or, if it was a hole, full of zeros; and every other
    block, direct or reached through index blocks, is as it was.  The result is 0
    only when no zone is left, and the file is as it was. *)
Theorem create_block_refines patience n block v s : readable -> (0 < patience)%nat -> ready n v s -> file_block block ->
  exists z v' s', minix_create_block patience n block s = Ok z s' /\ file_in n v' s' /\ z = zone_at (fcache s') v' (pos_of block) /\
    if z =? 0 then full (fcache s') /\ forall b, file_block b -> file_map (fcache s') v' b = file_map (fcache s) v b
    else taken (fcache s') z /\
      forall b, file_block b -> file_map (fcache s') v' b = if decide (b = block) then Some (default zero_block (file_map (fcache s) v block)) else file_map (fcache s) v b.
Proof using HL.
  intros Hrd Hp Hrdy Hblk. destruct (bmap_run patience true n block v s Hrd Hp Hrdy Hblk) as (z & v' & s' & R & Hres). pose proof (created_map n block v s z v' s' Hrdy Hblk Hres) as Hm.
  destruct Hres as [B1 B2 B3 B4 B5 B6]. exists z, v', s'. split; [done|]. split; [done|]. split; [done|]. destruct (Z.eqb_spec z 0) as [Hz|Hz]; [auto|].
  split; [|done]. destruct (fo_zone _ _ (fi_file _ _ _ B1) _ (pos_of_ok block Hblk)) as [|Ht]; congruence.
Qed.

(** C34: [minix_create_block] on one file does not touch another: a file with no
    zone in common with it has the same zones and the same blocks afterwards, and
    still no zone in common with it; and whoever has a buffer has it still. *)
Theorem create_block_apart patience n block v s u : readable -> (0 < patience)%nat -> ready n v s -> file_block block -> file_ok (fcache s) u -> apart (fcache s) v u ->
  exists z v' s', minix_create_block patience n block s = Ok z s' /\ file_in n v' s' /\ apart (fcache s') v' u /\
    (forall b, file_block b -> file_map (fcache s') u b = file_map (fcache s) u b) /\ keeps (fcache s) (fcache s').
Proof using HL.
  intros Hrd Hp Hrdy Hblk Hu Ha. destruct (bmap_run patience true n block v s Hrd Hp Hrdy Hblk) as (z & v' & s' & R & [B1 B2 B3 B4 B5 B6]).
  pose proof (fi_file _ _ _ (proj1 Hrdy)) as Hf. destruct (grown_apart _ _ _ _ _ u Hf Hu Ha B3) as [Hs Hm]. exists z, v', s'. split; [done|]. split; [done|].
  split; [|split; [done|apply (gr_keeps _ _ _ _ _ B3)]]. intros p q Hpp Hq. rewrite Hs by done. destruct (Z.eq_dec (zone_at (fcache s') v' p) 0) as [|Hne]; [done|]. intros E.
  destruct (fo_zone _ _ Hu q Hq) as [H0|Ht]; [congruence|]. destruct (Z.eq_dec (zone_at (fcache s) v p) 0) as [E0|E0].
  - destruct (gr_fresh _ _ _ _ _ B3 p Hpp E0 Hne). by rewrite E.
  - rewrite (gr_keep _ _ _ _ _ B3 p Hpp E0) in *. by apply (Ha p q).
Qed.

(** [minix_bmap] finds the zone of a block, 0 for a hole, through as many index
    blocks as it takes, and leaves the inode, the contents of all blocks and the
    buffers of others as they are; out of the range of blocks it returns 0. *)
Theorem bmap_finds patience n block v s : readable -> (0 < patience)%nat -> ready n v s ->
  (file_block block -> exists s', minix_bmap patience n block s = Ok (zone_at (fcache s) v (pos_of block)) s' /\ aget (inode_table s') n = Some v /\
    (forall b, content (fcache s') b = content (fcache s) b) /\ keeps (fcache s) (fcache s')) /\
  (~ file_block block -> exists msg, minix_bmap patience n block s = (on_task (printk msg);; mret 0) s).
Proof using HL.
  intros Hrd Hp Hrdy. split.
  - intros Hblk. destruct (bmap_run patience false n block v s Hrd Hp Hrdy Hblk) as (z & v' & s' & R & [B1 B2 B3 B4 B5 [-> B6]]). exists s'.
    split; [|split; [apply (fi_inode _ _ _ B1)|split; [done|apply (gr_keeps _ _ _ _ _ B3)]]]. unfold minix_bmap. rewrite R, <-B4. f_equal.
    apply (zone_at_frame _ _ v v (fi_file _ _ _ (proj1 Hrdy))); [done|done|]. by apply pos_of_ok.
  - intros Hn. unfold minix_bmap, _minix_bmap, file_block in *. destruct (Z.ltb_spec block 0); [by eexists|]. destruct (Z.leb_spec (7 + 512 + 512 * 512) block); [by eexists|lia].
Qed.

(** [minix_new_block] takes a zone that was free, fills it with zeros and
    changes no other zone; [minix_free_block] gives it back, and the zone map is
    what it was.  It returns 0 only when no zone is free. *)
Theorem zone_taken_and_given_back patience s : (0 < patience)%nat -> mounted dev sbn sb s -> zones_ok sb -> zmap_ok dev sb (fcache s) -> room 1 (fcache s) ->
  exists z s1, minix_new_block patience dev s = Ok z s1 /\
    ((z = 0 /\ full (fcache s)) \/
     (taken (fcache s1) z /\ ~ taken (fcache s) z /\ content (fcache s1) (dev, z) = zero_block /\
      exists s2, minix_free_block patience dev z s1 = Ok 1 s2 /\
        forall u, data_zone sb u -> zbit dev sb (fcache s2) u = zbit dev sb (fcache s) u /\ (u <> z -> content (fcache s2) (dev, u) = content (fcache s) (dev, u)))).
Proof using HL.
  intros Hp Hmt Hzo Hok Hr. destruct (new_block_run dev sbn sb patience s Hp Hmt Hzo Hok Hr) as (z & s1 & R1 & Hs1 & Hok1 & Hnew). exists z, s1. split; [done|].
  destruct Hnew as [(-> & Hfull & _)|(Hd & Hzb & Hn & Hzero & Hs)]; [left; split; [done|]; intros u Hu; by apply Hfull|right].
  assert (Ht : zbit dev sb (fcache s1) z = true) by (by rewrite Hn, decide_True). split; [done|]. split; [by intros [_ ?]; congruence|]. split; [done|].
  destruct (free_block_run dev sbn sb patience s1 z Hp) as (s2 & R2 & _ & _ & Hs2 & Hb2); try done; [by rewrite Hs1; apply mounted_cache| |].
  { rewrite (zs_held _ _ _ _ _ Hs) by (by apply zone_not_map). by apply (zm_free _ _ _ Hok). }
  exists s2. split; [done|]. intros u Hu. split; [rewrite Hb2, Hn by done; destruct (decide (u = z)) as [->|]; done|]. intros Hne.
  rewrite (zs_content _ _ _ _ _ Hs2), (zs_content _ _ _ _ _ Hs); [done|by apply zone_not_map|congruence|by apply zone_not_map|exact (fun F => F)].
Qed.

End File.

(** ** A device with two files *)

#[local] Instance quiet_env {C} : FsEnv C := {| fs_sleep := fun _ => mret tt; fs_yield := mret tt |}.

Lemma ideal_readable dev : readable (C := ideal) dev.
Proof.
  intros blk c c'. cbn [bread ideal_cache]. unfold ideal_get at 1. unfold mbind, M_bind, getS.
  destruct (ideal_upd _ _ _) as [[] ?|]; [unfold mret, M_ret; intros H; discriminate H|intros H; discriminate H].
Qed.

(** Device 1 has 100 zones, the first data zone is 5, block 3 is the zone map. Zone
    7 belongs to inode 1 of the table; inode 0 has no zones. *)
Definition demo_super : super_block :=
  Super 32 100 1 1 5 0 0x10081c00 MINIX_SUPER_MAGIC (replicate 8 None) (Some (ideal_id (1, 3)) :: replicate 7 None) 1 None None 0 0 0 0 true.
Definition demo_map : bview := BV (ideal_id (1, 3)) 1 true true (9 :: replicate 1023 0).
Definition demo_empty : inode := set_i_dev 1 (set_i_mode 0x8180 zero_inode).
Definition demo_other : inode := set_i_data (7 :: replicate 15 0) demo_empty.
Definition demo_fs : fss ideal := Fss demo_alone (Ideal {[ (1, 3) := demo_map ]} ∅) [demo_empty; demo_other] [demo_super] 0 [] ∅ 0.

Lemma demo_held b w : held (fcache demo_fs) !! b = Some w <-> b = (1, 3) /\ w = demo_map.
Proof. cbn [held ideal_view fcache demo_fs ideal_held]. rewrite lookup_singleton_Some. naive_solver. Qed.

Lemma demo_zero_block : block_data zero_block.
Proof. unfold zero_block. split; [by rewrite length_replicate|]. apply Forall_replicate. unfold in_u8. lia. Qed.

Lemma demo_cwf : cwf (fcache demo_fs).
Proof.
  split.
  - intros b w [-> ->]%demo_held. done.
  - intros b w [-> ->]%demo_held. cbn. lia.
  - intros b w [-> ->]%demo_held. split; [done|]. constructor; [unfold in_u8; lia|]. apply Forall_replicate. unfold in_u8. lia.
  - intros b. cbn [disk ideal_view fcache demo_fs]. unfold ideal_block. cbn [ideal_disk]. rewrite lookup_empty. apply demo_zero_block.
  - intros b b' w w' [-> _]%demo_held [-> _]%demo_held. done.
Qed.

Lemma demo_zones : zones_ok demo_super.
Proof.
  split; cbn [s_zmap s_zmap_blocks s_firstdatazone s_nzones s_imap_blocks demo_super].
  - done.
  - intros i Hi. assert (i = 0) as -> by lia. by eexists.
  - intros i x Hx. pose proof (aget_Some_range _ _ _ Hx) as Hr. cbn [length replicate] in Hr. assert (Hc : i = 0 \/ 1 <= i < 8) by lia. destruct Hc as [->|Hc]; [lia|].
    unfold aget in Hx. destruct (i <? 0); [done|]. replace (Z.to_nat i) with (S (Z.to_nat (i - 1))) in Hx by lia.
    change (replicate 7 (None (A := Z)) !! Z.to_nat (i - 1) = Some (Some x)) in Hx. by apply lookup_replicate in Hx as [? _].
  - unfold zmap_first. cbn. lia.
  - lia.
Qed.

Lemma demo_content b : content (fcache demo_fs) b = if decide (b = (1, 3)) then bv_data demo_map else zero_block.
Proof.
  unfold content. destruct (held (fcache demo_fs) !! b) as [w|] eqn:E.
  - apply demo_held in E as [-> ->]. by rewrite decide_True.
  - rewrite decide_False; [|intros ->; by vm_compute in E]. cbn [disk ideal_view fcache demo_fs]. unfold ideal_block. cbn [ideal_disk]. by rewrite lookup_empty.
Qed.

Lemma demo_zmap : zmap_ok 1 demo_super (fcache demo_fs).
Proof.
  split; [apply demo_cwf| | | |].
  - intros i x Hx. pose proof (zo_none _ demo_zones i x Hx) as Hi. pose proof (aget_Some_range _ _ _ Hx) as Hr. cbn in Hi. assert (i = 0) as -> by lia. injection Hx as <-.
    exists demo_map. split; [|done]. split; [by apply demo_held|done].
  - intros b w [-> ->]%demo_held. intros _. by left.
  - rewrite demo_content. done.
  - intros z Hd _. destruct (held (fcache demo_fs) !! (1, z)) as [w|] eqn:E; [|done]. apply demo_held in E as [[= ->] _]. unfold data_zone in Hd. cbn in Hd. lia.
Qed.

Lemma demo_mounted : mounted 1 0 demo_super demo_fs.
Proof. split; [done|done|]. intros i b Hi Hb. apply aget_Some_range in Hb. lia. Qed.

(** The zones of a file without index blocks. *)
Lemma demo_zone_at v p : ent v 7 = 0 -> ent v 8 = 0 -> zone_at 1 (fcache demo_fs) v p = match p with ZDir e => ent v e | _ => 0 end.
Proof. intros H7 H8. destruct p; cbn [zone_at]; rewrite ?H7, ?H8; done. Qed.

Lemma demo_ent_empty e : ent demo_empty e = 0.
Proof. unfold ent, aget. destruct (e <? 0); [done|]. change (default 0 (replicate 16 0 !! Z.to_nat e) = 0). destruct (replicate 16 0 !! Z.to_nat e) eqn:E; [|done]. by apply lookup_replicate in E as [-> _]. Qed.

Lemma demo_ent_other e : ent demo_other e = if decide (e = 0) then 7 else 0.
Proof.
  destruct (decide (e = 0)) as [->|Hne]; [done|]. unfold ent, aget. destruct (Z.ltb_spec e 0); [done|]. replace (Z.to_nat e) with (S (Z.to_nat (e - 1))) by lia.
  change (default 0 (replicate 15 0 !! Z.to_nat (e - 1)) = 0). destruct (replicate 15 0 !! Z.to_nat (e - 1)) eqn:E; [|done]. by apply lookup_replicate in E as [-> _].
Qed.

Lemma demo_file_empty : file_ok 1 demo_super (fcache demo_fs) demo_empty.
Proof.
  assert (H0 : forall p, zone_at 1 (fcache demo_fs) demo_empty p = 0) by (intros p; rewrite demo_zone_at by apply demo_ent_empty; destruct p; try done; apply demo_ent_empty).
  split; [done|intros p _; left; apply H0|]. intros p q _ _ _ H. by destruct (H (H0 p)).
Qed.

Lemma demo_file_other : file_ok 1 demo_super (fcache demo_fs) demo_other.
Proof.
  assert (Hz : forall p, zone_at 1 (fcache demo_fs) demo_other p = if decide (p = ZDir 0) then 7 else 0).
  { intros p. rewrite demo_zone_at by (by rewrite demo_ent_other). destruct p as [e| | | | |]; try done. rewrite demo_ent_other. destruct (decide (e = 0)) as [->|]; [done|]. by rewrite decide_False by congruence. }
  split; [done| |].
  - intros p _. rewrite Hz. destruct (decide (p = ZDir 0)); [right|by left]. split; [unfold data_zone; cbn; lia|]. unfold zbit. rewrite demo_content. done.
  - intros p q _ _. rewrite !Hz. destruct (decide (p = ZDir 0)), (decide (q = ZDir 0)); congruence.
Qed.

Lemma demo_ready : ready 1 0 demo_super 0 demo_empty demo_fs.
Proof.
  split; [split; [apply demo_mounted|apply demo_zones|apply demo_zmap|done|done|apply demo_file_empty]|]. split; [unfold room; vm_compute; discriminate|].
  intros a. unfold refs. destruct (held (fcache demo_fs) !! a) as [w|] eqn:E; [|lia]. apply demo_held in E as [_ ->]. cbn. lia.
Qed.

Lemma demo_apart : apart 1 (fcache demo_fs) demo_empty demo_other.
Proof. intros p q _ _ _. rewrite demo_zone_at by apply demo_ent_empty. destruct p; try done. apply demo_ent_empty. Qed.

Lemma create_block_refines_witness :
  exists z v' s', minix_create_block 1 0 600 demo_fs = Ok z s' /\ file_in 1 0 demo_super 0 v' s' /\ z = zone_at 1 (fcache s') v' (pos_of 600) /\
    if z =? 0 then full 1 demo_super (fcache s') /\ forall b, file_block b -> file_map 1 (fcache s') v' b = file_map 1 (fcache demo_fs) demo_empty b
    else taken 1 demo_super (fcache s') z /\ forall b, file_block b ->
      file_map 1 (fcache s') v' b = if decide (b = 600) then Some (default zero_block (file_map 1 (fcache demo_fs) demo_empty 600)) else file_map 1 (fcache demo_fs) demo_empty b.
Proof. apply (create_block_refines 1 0 demo_super 1 0 600 demo_empty demo_fs); [apply ideal_readable|lia|apply demo_ready|unfold file_block; lia]. Defined.

Lemma create_block_apart_witness :
  exists z v' s', minix_create_block 1 0 600 demo_fs = Ok z s' /\ file_in 1 0 demo_super 0 v' s' /\ apart 1 (fcache s') v' demo_other /\
    (forall b, file_block b -> file_map 1 (fcache s') demo_other b = file_map 1 (fcache demo_fs) demo_other b) /\ keeps (fcache demo_fs) (fcache s').
Proof. apply (create_block_apart 1 0 demo_super 1 0 600 demo_empty demo_fs demo_other); [apply ideal_readable|lia|apply demo_ready|unfold file_block; lia|apply demo_file_other|apply demo_apart]. Defined.

Lemma bmap_finds_witness :
  exists s', minix_bmap 1 0 600 demo_fs = Ok (zone_at 1 (fcache demo_fs) demo_empty (pos_of 600)) s' /\ aget (inode_table s') 0 = Some demo_empty /\
    (forall b, content (fcache s') b = content (fcache demo_fs) b) /\ keeps (fcache demo_fs) (fcache s').
Proof. apply (bmap_finds 1 0 demo_super 1 0 600 demo_empty demo_fs (ideal_readable 1) ltac:(lia) demo_ready). unfold file_block. lia. Defined.

Lemma zone_taken_and_given_back_witness :
  exists z s1, minix_new_block 1 1 demo_fs = Ok z s1 /\
    ((z = 0 /\ full 1 demo_super (fcache demo_fs)) \/
     (taken 1 demo_super (fcache s1) z /\ ~ taken 1 demo_super (fcache demo_fs) z /\ content (fcache s1) (1, z) = zero_block /\
      exists s2, minix_free_block 1 1 z s1 = Ok 1 s2 /\
        forall u, data_zone demo_super u -> zbit 1 demo_super (fcache s2) u = zbit 1 demo_super (fcache demo_fs) u /\ (u <> z -> content (fcache s2) (1, u) = content (fcache demo_fs) (1, u)))).
Proof. apply (zone_taken_and_given_back 1 0 demo_super 1 demo_fs); [lia|apply demo_mounted|apply demo_zones|apply demo_zmap|unfold room; vm_compute; discriminate]. Defined.
