(* ===== verification/Truncate.v ===== *)
(** * Theorems about truncation

    [minix_truncate] gives back every zone of a file that nobody else uses, the
    index blocks after what they point to, and nothing else. *)

From S2P Require Import Prelude TaskStruct Sched Sys Fs Store Minix MinixOk Bmap.

Section Truncate.
Context {C : Type} {HB : BufferCache C} {HV : CacheView C}.
Context (dev sbn : Z) (sb : super_block) (patience : nat).

(** ** Trees of zones *)

(** The zones a block of zones leads to, level [l] above the data: what its entries
    [ks] lead to, and the block itself. *)
Definition branch (f : Z -> list Z) (d : list Z) (ks : list Z) : list Z := ks ≫= (fun k => if word_at d k =? 0 then [] else f (word_at d k)).
Fixpoint tree (l : nat) (c : C) (z : Z) : list Z :=
  match l with O => [z] | S l' => branch (tree l' c) (content c (dev, z)) (range 0 512) ++ [z] end.

Lemma branch_ext f g d d' ks : (forall k, k ∈ ks -> word_at d' k = word_at d k /\ (word_at d k <> 0 -> f (word_at d k) = g (word_at d k))) -> branch f d' ks = branch g d ks.
Proof using.
  unfold branch. induction ks as [|k ks IH]; intros H; [done|]. cbn [mbind list_bind]. f_equal.
  - destruct (H k) as [-> Hf]; [apply list_elem_of_here|]. destruct (Z.eqb_spec (word_at d k) 0); [done|by apply Hf].
  - apply IH. intros j Hj. apply H. by apply list_elem_of_further.
Qed.

Lemma elem_of_branch f d ks u : u ∈ branch f d ks <-> exists k, k ∈ ks /\ word_at d k <> 0 /\ u ∈ f (word_at d k).
Proof using.
  unfold branch. rewrite list_elem_of_bind. split.
  - intros (k & Hu & Hk). exists k. destruct (Z.eqb_spec (word_at d k) 0); [by apply elem_of_nil in Hu|done].
  - intros (k & Hk & Hn & Hu). exists k. by destruct (Z.eqb_spec (word_at d k) 0).
Qed.

Lemma tree_root l c z : z ∈ tree l c z.
Proof using. destruct l; cbn [tree]; [apply list_elem_of_here|]. apply elem_of_app. right. apply list_elem_of_here. Qed.

(** A tree depends on the zones in it. *)
Lemma tree_ext l : forall c c' z, (forall u, u ∈ tree l c z -> content c' (dev, u) = content c (dev, u)) -> tree l c' z = tree l c z.
Proof using.
  induction l as [|l IH]; intros c c' z H; [done|]. cbn [tree] in *. rewrite (H z) by (apply elem_of_app; right; apply list_elem_of_here). f_equal. apply branch_ext.
  intros k Hk. split; [done|]. intros Hn. apply IH. intros u Hu. apply H, elem_of_app. left. apply elem_of_branch. by exists k.
Qed.

(** ** Giving trees back *)

(** The zones [T] are given back and no others; nobody loses a buffer, and blocks
    outside of [T] and [y] stay as they are. *)
Record cleared (T Y : list Z) (c c' : C) : Prop := {
  cl_ok : zmap_ok dev sb c';
  cl_keeps : keeps c c';
  cl_bits : forall u, data_zone sb u -> zbit dev sb c' u = if decide (u ∈ T) then false else zbit dev sb c u;
  cl_content : forall u, data_zone sb u -> u ∉ T -> u ∉ Y -> content c' (dev, u) = content c (dev, u)
}.

Lemma cleared_trans T1 T2 Y c1 c2 c3 : cleared T1 Y c1 c2 -> cleared T2 Y c2 c3 -> cleared (T1 ++ T2) Y c1 c3.
Proof using.
  intros [A1 A2 A3 A4] [B1 B2 B3 B4]. split; [done|by eapply view_keeps_trans| |].
  - intros u Hu. rewrite B3, A3 by done. destruct (decide (u ∈ T2)); [rewrite decide_True by set_solver; done|]. destruct (decide (u ∈ T1)); [rewrite decide_True by set_solver; done|]. rewrite decide_False by set_solver. done.
  - intros u Hu HT HY. rewrite B4, A4; [done|done|set_solver|done|done|set_solver|done].
Qed.

(** Zones of a file nobody has a buffer of. *)
Definition idle (c : C) (T : list Z) : Prop := forall u, u ∈ T -> taken dev sb c u /\ held c !! (dev, u) = None.

Lemma keeps_none c c' b : keeps c c' -> held c !! b = None -> held c' !! b = None.
Proof using. intros [_ Hd _] H. apply not_elem_of_dom. rewrite Hd. by apply not_elem_of_dom. Qed.

Lemma idle_cleared T U Y c c' : cleared T Y c c' -> (forall u, u ∈ U -> u ∉ T) -> idle c U -> idle c' U.
Proof using.
  intros [A1 A2 A3 A4] Hd Hi u Hu. destruct (Hi u Hu) as [[Hz Ht] Hn]. split; [|by eapply keeps_none]. split; [done|]. rewrite A3, decide_False by auto. done.
Qed.

Context (Hzo : zones_ok sb).

(** What a function that gives back trees of level [l] does. *)
Definition frees (l : nat) (free : Z -> M (fss C) Z) : Prop :=
  forall s z, mounted dev sbn sb s -> zmap_ok dev sb (fcache s) -> room (Z.of_nat l) (fcache s) -> (forall a, refs (fcache s) a < 255) ->
    NoDup (tree l (fcache s) z) -> idle (fcache s) (tree l (fcache s) z) ->
    exists c', free z s = Ok 1 (set_fcache c' s) /\ cleared (tree l (fcache s) z) [] (fcache s) c'.

Lemma zstep_cleared c c' z : zmap_ok dev sb c' -> zstep dev sb (fun _ => False) c c' ->
  (forall u, data_zone sb u -> zbit dev sb c' u = if decide (u = z) then false else zbit dev sb c u) -> cleared [z] [] c c'.
Proof using Hzo.
  intros Hok Hs Hb. split; [done|by eapply zstep_keeps| |].
  - intros u Hu. rewrite Hb by done. destruct (decide (u = z)) as [->|]; [by rewrite decide_True by apply list_elem_of_here|]. rewrite decide_False; [done|]. by intros ?%list_elem_of_singleton.
  - intros u Hu _ _. apply (zs_content _ _ _ _ _ Hs); [by apply zone_not_map|exact (fun F => F)].
Qed.

Context {HL : BufferCacheOk C} {HE : FsEnv C} (Hpt : (0 < patience)%nat).

Lemma free_block_frees : frees 0 (minix_free_block patience dev).
Proof using HL Hpt Hzo.
  intros s z Hm Hok _ _ _ Hi. destruct (Hi z (tree_root 0 _ z)) as [[Hd Ht] Hn].
  destruct (free_block_run dev sbn sb patience s z Hpt Hm Hzo Hok Hd Ht Hn) as (s' & R & Hs' & Hok' & Hst & Hb). exists (fcache s'). split; [by rewrite R, <-Hs'|].
  by apply zstep_cleared.
Qed.

Lemma cleared_refl Y c : zmap_ok dev sb c -> cleared [] Y c c.
Proof using. intros Hok. split; [done|apply view_keeps_refl|intros u _; by rewrite decide_False by apply not_elem_of_nil|done]. Qed.

Lemma cleared_mono T Y Y' c c' : (forall u, u ∈ Y -> u ∈ Y') -> cleared T Y c c' -> cleared T Y' c c'.
Proof using. intros H [A1 A2 A3 A4]. split; auto. Qed.

Lemma cleared_in T Y c c' : (forall u, u ∈ Y -> u ∈ T) -> cleared T Y c c' -> cleared T [] c c'.
Proof using. intros H [A1 A2 A3 A4]. split; auto. Qed.

(** An entry of the block [y] is cleared. *)
Lemma clear_entry c x y w k : zmap_ok dev sb c -> buffer c x (dev, y) w -> bv_up w = true -> data_zone sb y -> 0 <= k < 512 ->
  exists c1 c2, set_bh_word x k 0 c = Ok tt c1 /\ set_bh_dirt x 1 c1 = Ok tt c2 /\ cleared [] [y] c c2 /\
    buffer c2 x (dev, y) (set_bv_dirt true (set_bv_data (with_word (bv_data w) k 0) w)).
Proof using HL Hzo.
  intros Hok Hw Hu Hd Hk. destruct (set_bh_word_run c x _ w k 0 (zm_wf _ _ _ Hok) Hw Hk) as (c1 & R1 & Hc1 & B1). pose proof (becomes_buffer _ _ _ _ B1) as Hw1. cbn [bv_id set_bv_data] in Hw1. rewrite (proj2 Hw) in Hw1.
  destruct (set_bh_dirt_law x _ _ 1 c1 Hc1 Hw1) as (c2 & R2 & Hc2 & B2). pose proof (becomes_trans _ _ _ _ _ _ B1 B2) as B. change (truth 1) with true in B.
  destruct (zmap_ok_write dev sb c c2 y w _ Hzo Hok Hc2 Hd (proj1 Hw) B Hu eq_refl) as (Hok2 & Hct & Hzb). exists c1, c2. split; [done|]. split; [done|]. split.
  - split; [done|by eapply becomes_keeps; [apply Hw|exact B|..]|intros u Hu'; rewrite decide_False by apply not_elem_of_nil; by apply Hzb|].
    intros u _ _ Hy. rewrite Hct, decide_False; [done|]. intros [= ->]. apply Hy, list_elem_of_here.
  - pose proof (becomes_buffer _ _ _ _ B) as Hb. cbn [bv_id set_bv_data set_bv_dirt] in Hb. by rewrite (proj2 Hw) in Hb.
Qed.

(** The buffer of a block whose contents are kept. *)
Lemma kept_buffer T c c' x y w : cleared T [] c c' -> buffer c x (dev, y) w -> bv_up w = true -> data_zone sb y -> y ∉ T ->
  exists w', buffer c' x (dev, y) w' /\ bv_up w' = true /\ bv_data w' = bv_data w.
Proof using.
  intros [A1 [A2 _ _] A3 A4] [Hw Hx] Hu Hd Hn. destruct (A2 _ _ Hw) as (w' & Hw' & Hi & _ & Hu'). exists w'. split; [split; [done|congruence]|]. split; [auto|].
  pose proof (A4 y Hd Hn (not_elem_of_nil y)) as E. unfold content in E. rewrite Hw, Hw', Hu, Hu' in E by done. done.
Qed.

Lemma free_entries_run l free : frees l free -> forall ks s c w x y, mounted dev sbn sb s -> zmap_ok dev sb c -> buffer c x (dev, y) w -> bv_up w = true -> data_zone sb y ->
  room (Z.of_nat l) c -> (forall a, refs c a < 255) -> NoDup ks -> (forall k, k ∈ ks -> 0 <= k < 512) ->
  NoDup (branch (tree l c) (bv_data w) ks) -> y ∉ branch (tree l c) (bv_data w) ks -> idle c (branch (tree l c) (bv_data w) ks) ->
  exists c' w', free_entries free x ks false (set_fcache c s) = Ok false (set_fcache c' s) /\ buffer c' x (dev, y) w' /\ cleared (branch (tree l c) (bv_data w) ks) [y] c c'.
Proof using HL Hzo.
  intros Hfree. induction ks as [|k ks IH]; intros s c w x y Hm Hok Hw Hu Hd Hrm Hrf Hks Hrg Hnd Hny Hid.
  { exists c, w. split; [done|]. split; [done|]. by apply cleared_refl. }
  apply NoDup_cons in Hks as [Hk Hks]. pose proof (Hrg k (list_elem_of_here _ _)) as Hkr. assert (Hrg' : forall j, j ∈ ks -> 0 <= j < 512) by (intros j Hj; apply Hrg; by apply list_elem_of_further).
  cbn [free_entries]. rewrite (run_bind _ _ _ (word_at (bv_data w) k) (set_fcache c s)) by (apply on_cache_at; exact (bh_word_run c x _ w k (zm_wf _ _ _ Hok) Hw Hkr)).
  set (p := word_at (bv_data w) k). unfold branch in Hnd, Hny, Hid. cbn [mbind list_bind] in Hnd, Hny, Hid. fold p (branch (tree l c) (bv_data w) ks) in Hnd, Hny, Hid.
  unfold branch. cbn [mbind list_bind]. fold p (branch (tree l c) (bv_data w) ks). destruct (Z.eqb_spec p 0) as [Hp|Hp]; [by apply IH|].
  apply NoDup_app in Hnd as (Hnd1 & Hdis & Hnd2). rewrite elem_of_app in Hny. set (T := branch (tree l c) (bv_data w) ks) in *.
  destruct (Hfree (set_fcache c s) p (mounted_cache dev sbn sb s c Hm) Hok Hrm Hrf Hnd1) as (c1 & R1 & Hcl1); [intros u Hu'; apply Hid, elem_of_app; by left|].
  change (set_fcache c1 (set_fcache c s)) with (set_fcache c1 s) in R1. cbn [fcache set_fcache] in Hcl1. rewrite (run_bind _ _ _ _ _ R1). change (truth 1) with true. cbn match.
  destruct (kept_buffer _ c c1 x y w Hcl1 Hw Hu Hd) as (w1 & Hw1 & Hu1 & Hd1); [tauto|].
  destruct (clear_entry c1 x y w1 k (cl_ok _ _ _ _ Hcl1) Hw1 Hu1 Hd Hkr) as (c2 & c3 & R2 & R3 & Hcl3 & Hw3). set (w3 := set_bv_dirt true (set_bv_data (with_word (bv_data w1) k 0) w1)) in *.
  rewrite (run_bind _ _ _ tt (set_fcache c2 s)) by (by apply on_cache_at). rewrite (run_bind _ _ _ tt (set_fcache c3 s)) by (by apply on_cache_at).
  pose proof (cleared_trans _ _ _ _ _ _ (cleared_mono _ _ [y] _ _ (fun u H => match not_elem_of_nil u H with end) Hcl1) Hcl3) as Hcl. rewrite app_nil_r in Hcl.
  assert (HT : branch (tree l c3) (bv_data w3) ks = T).
  { apply branch_ext. intros j Hj. change (bv_data w3) with (with_word (bv_data w1) k 0). rewrite Hd1.
    rewrite word_with_word by first [apply (cwf_data _ (zm_wf _ _ _ Hok) _ _ (proj1 Hw))|by apply Hrg'|done]. rewrite decide_False by (intros ->; done).
    split; [done|]. intros Hn. apply tree_ext. intros u Hu'. assert (HuT : u ∈ T) by (apply elem_of_branch; by exists j).
    apply (cl_content _ _ _ _ Hcl); [apply Hid, elem_of_app; by right|intros Hup; by apply (Hdis u)|intros ->%list_elem_of_singleton; tauto]. }
  destruct (IH s c3 w3 x y) as (c4 & w4 & R4 & Hw4 & Hcl4); try done; rewrite ?HT; try done.
  - apply (cl_ok _ _ _ _ Hcl).
  - eapply keeps_room; [apply (cl_keeps _ _ _ _ Hcl)|done].
  - intros a. rewrite (keeps_refs _ _ _ (cl_keeps _ _ _ _ Hcl)). apply Hrf.
  - tauto.
  - eapply idle_cleared; [exact Hcl| |].
    + intros u Hu' Hup. by apply (Hdis u).
    + intros u Hu'. apply Hid, elem_of_app. by right.
  - exists c4, w4. split; [done|]. split; [done|]. rewrite HT in Hcl4. by eapply cleared_trans.
Qed.

Context (Hrd : readable dev).

(** One level up. *)
Lemma free_tree_frees l free : frees l free -> frees (S l) (free_tree patience dev free).
Proof using HL Hpt Hzo Hrd.
  intros Hfree s z Hm Hok Hrm Hrf Hnd Hid. set (c := fcache s) in *. destruct (Hid z (tree_root (S l) c z)) as [Htz Hnz]. pose proof Htz as [Hd Ht].
  unfold free_tree. pose proof (data_zone_range sb z Hzo Hd). destruct (Z.eqb_spec z 0); [lia|].
  destruct (bread_open dev sb c z Hrd Hzo Hok (md_dev _ _ _ _ Hm) Htz (Hrf _)) as (x & c1 & w & R1 & Hok1 & Hw1 & Hop & Hdata & Hct1); [unfold room in *; lia|].
  rewrite (run_bind _ _ _ (Some x) (set_fcache c1 s)) by (by apply on_cache_run). cbn [tree] in Hnd, Hid. apply NoDup_app in Hnd as (Hnd & Hdis & _).
  set (T := branch (tree l c) (content c (dev, z)) (range 0 512)) in *.
  assert (HT : branch (tree l c1) (bv_data w) (range 0 512) = T).
  { rewrite Hdata. apply branch_ext. intros k _. split; [done|]. intros _. apply tree_ext. intros u _. apply Hct1. }
  assert (HzT : z ∉ T) by (intros Hz; apply (Hdis z Hz), list_elem_of_here).
  assert (Hid1 : idle c1 T).
  { intros u Hu. destruct (Hid u) as [[Hud Hut] Hun]; [apply elem_of_app; by left|]. split; [split; [done|]; rewrite <-Hut; unfold zbit; by rewrite Hct1|].
    rewrite (op_other _ _ _ _ _ Hop); [done|]. intros [= ->]. done. }
  destruct (free_entries_run l free Hfree (range 0 512) s c1 w x z Hm Hok1 Hw1 (op_up _ _ _ _ _ Hop) Hd) as (c2 & w2 & R2 & Hw2 & Hcl); rewrite ?HT; try done.
  { apply (opened_room dev _ c c1 z w Hop). by replace (Z.of_nat l + 1) with (Z.of_nat (S l)) by lia. }
  { intros a. unfold refs. destruct (decide (a = (dev, z))) as [->|Hne]; [|rewrite (op_other _ _ _ _ _ Hop) by done; apply Hrf].
    rewrite (op_this _ _ _ _ _ Hop), (op_count _ _ _ _ _ Hop). unfold refs. by rewrite Hnz. }
  { apply NoDup_range. }
  { intros k Hk. apply elem_of_range in Hk. lia. }
  rewrite HT in Hcl. destruct (brelse_close dev sb c c1 c2 x z w w2 Hzo (zm_wf _ _ _ Hok) Hd Hop (cl_keeps _ _ _ _ Hcl) (cl_ok _ _ _ _ Hcl) Hw2) as (c3 & R3 & Hok3 & Hk3 & Hct3).
  rewrite (run_bind _ _ _ false (set_fcache c3 s)) by (rewrite (run_bind _ _ _ _ _ R2); by rewrite (run_bind _ _ _ tt (set_fcache c3 s)) by (by apply on_cache_at)).
  assert (Hb3 : forall u, data_zone sb u -> zbit dev sb c3 u = if decide (u ∈ T) then false else zbit dev sb c u).
  { intros u Hu. transitivity (zbit dev sb c2 u); [unfold zbit; by rewrite Hct3|]. rewrite (cl_bits _ _ _ _ Hcl) by done. destruct (decide (u ∈ T)); [done|]. unfold zbit. by rewrite Hct1. }
  destruct (free_block_frees (set_fcache c3 s) z (mounted_cache dev sbn sb s c3 Hm) Hok3) as (c4 & R4 & Hcl4).
  { eapply (keeps_room 0 c c3); [done|]. unfold room in *. lia. }
  { intros a. cbn [fcache set_fcache]. rewrite (keeps_refs _ _ _ Hk3). apply Hrf. }
  { apply NoDup_singleton. }
  { intros u ->%list_elem_of_singleton. split; [|by eapply keeps_none]. split; [done|]. cbn [fcache set_fcache]. rewrite Hb3, decide_False by done. done. }
  exists c4. split; [exact R4|]. cbn [fcache set_fcache tree] in Hcl4. apply cleared_in with [z]; [intros u Hu; apply elem_of_app; by right|].
  apply (cleared_trans T [z] [z] c c3 c4); [|eapply cleared_mono; [|exact Hcl4]; intros u Hu; by apply not_elem_of_nil in Hu].
  split; [done|done|done|]. intros u Hu HuT Hz. by rewrite Hct3, (cl_content _ _ _ _ Hcl), Hct1.
Qed.

(** ** The trees of a file *)

(** Place [p] is [b] or below it. *)
Definition under (b p : zpos) : Prop :=
  match b, p with
  | ZDir e, ZDir e' => e = e'
  | ZInd, (ZInd | ZIndE _) => True
  | ZIndE k, ZIndE k' => k = k'
  | ZDbl, (ZDbl | ZDblE _ | ZDblEE _ _) => True
  | ZDblE i, (ZDblE i' | ZDblEE i' _) => i = i'
  | ZDblEE i k, ZDblEE i' k' => i = i' /\ k = k'
  | _, _ => False
  end.
Definition lev (p : zpos) : nat := match p with ZDbl => 2 | ZInd | ZDblE _ => 1 | _ => 0 end.

Lemma under_refl b : under b b.
Proof using. by destruct b. Qed.
Lemma entry_under b k q p : entry_pos b k = Some q -> under q p -> under b p /\ p <> b.
Proof using. destruct b; intros [= <-]; destruct p; cbn; try done; intros; by destruct_and?. Qed.
Lemma entry_under_inj b k k' q q' p : entry_pos b k = Some q -> entry_pos b k' = Some q' -> under q p -> under q' p -> k = k'.
Proof using. destruct b; intros [= <-] [= <-]; destruct p; cbn; try done; naive_solver. Qed.
Lemma lev_entry b l : lev b = S l -> forall k, exists q, entry_pos b k = Some q /\ lev q = l.
Proof using. destruct b; intros [= <-] x; by eexists. Qed.
Lemma under_entry b p l : lev b = S l -> under b p -> pos_ok p -> p <> b -> exists k q, entry_pos b k = Some q /\ under q p /\ 0 <= k < 512.
Proof using.
  destruct b, p; cbn; intros Hl Hu Hp Hne; try done; try (by exists k; eexists); try (by exists i; eexists).
  - destruct Hp as [Hi Hk]. exists i. by eexists.
  - congruence.
  - subst. destruct Hp as [Hi Hk]. by exists k; eexists.
Qed.
Lemma under_leaf b p : lev b = O -> under b p -> p = b.
Proof using. destruct b, p; cbn; intros Hl Hu; try done; try congruence. by destruct Hu as [-> ->]. Qed.

(** A zone is reached through zones. *)
Lemma under_nonzero c v b p : under b p -> zone_at dev c v p <> 0 -> zone_at dev c v b <> 0.
Proof using.
  assert (He : forall z k, entry dev c z k <> 0 -> z <> 0) by (intros z k Hn ->; by apply Hn).
  destruct b, p; cbn [under zone_at]; intros Hu Hn; try done; try (by subst); subst; eauto. by destruct Hu as [-> ->].
Qed.

(** The tree below a place has the zones of the places under it, each once. *)
Lemma tree_zones c v : file_ok dev sb c v -> forall l b, lev b = l -> pos_ok b -> zone_at dev c v b <> 0 ->
  (forall u, u ∈ tree l c (zone_at dev c v b) <-> exists p, pos_ok p /\ under b p /\ zone_at dev c v p = u /\ u <> 0) /\ NoDup (tree l c (zone_at dev c v b)).
Proof using Hzo Hpt.
  intros Hf. induction l as [|l IH]; intros b Hl Hb Hz.
  { split; [|apply NoDup_singleton]. intros u. cbn [tree]. rewrite list_elem_of_singleton. split.
    - intros ->. exists b. split; [done|]. split; [apply under_refl|done].
    - intros (p & _ & Hu & <- & _). by rewrite (under_leaf b p Hl Hu). }
  assert (Hw : forall k q, entry_pos b k = Some q -> word_at (content c (dev, zone_at dev c v b)) k = zone_at dev c v q).
  { intros k q Hq. rewrite (zone_at_entry dev c v b k q Hq). unfold entry. by destruct (Z.eqb_spec (zone_at dev c v b) 0). }
  cbn [tree]. set (d := content c (dev, zone_at dev c v b)) in *.
  assert (Hbr : forall u, u ∈ branch (tree l c) d (range 0 512) <-> exists p, pos_ok p /\ under b p /\ p <> b /\ zone_at dev c v p = u /\ u <> 0).
  { intros u. rewrite elem_of_branch. split.
    - intros (k & Hk & Hn & Hu). apply elem_of_range in Hk. destruct (lev_entry b l Hl k) as (q & Hq & Hlq). rewrite (Hw k q Hq) in Hn, Hu.
      apply (proj1 (IH q Hlq (entry_pos_ok b k q Hb ltac:(lia) Hq) Hn)) in Hu as (p & Hp & Hup & Hzp). exists p. destruct (entry_under b k q p Hq Hup). done.
    - intros (p & Hp & Hup & Hne & Hzp & Hu0). destruct (under_entry b p l Hl Hup Hp Hne) as (k & q & Hq & Hqp & Hk). exists k. split; [apply elem_of_range; lia|]. rewrite (Hw k q Hq).
      assert (Hn : zone_at dev c v q <> 0) by (apply (under_nonzero c v q p Hqp); congruence). split; [done|]. destruct (lev_entry b l Hl k) as (q' & Hq' & Hlq). assert (q' = q) as -> by congruence.
      apply (proj1 (IH q Hlq (entry_pos_ok b k q Hb ltac:(lia) Hq) Hn)). by exists p. }
  split.
  - intros u. rewrite elem_of_app, Hbr, list_elem_of_singleton. split.
    + intros [(p & ? & ? & _ & ?)| -> ]; [by exists p|]. exists b. split; [done|]. split; [apply under_refl|done].
    + intros (p & Hp & Hup & Hzp & Hu0). destruct (decide (p = b)) as [->|Hne]; [by right|left; by exists p].
  - apply NoDup_app. split; [|split; [|apply NoDup_singleton]].
    + apply NoDup_bind; [| |apply NoDup_range].
      * intros k k' u Hk Hk'. apply elem_of_range in Hk, Hk'. destruct (lev_entry b l Hl k) as (q & Hq & Hlq), (lev_entry b l Hl k') as (q' & Hq' & Hlq'). rewrite (Hw k q Hq), (Hw k' q' Hq').
        destruct (Z.eqb_spec (zone_at dev c v q) 0) as [|Hn]; [by intros ?%not_elem_of_nil|]. destruct (Z.eqb_spec (zone_at dev c v q') 0) as [|Hn']; [by intros _ ?%not_elem_of_nil|].
        rewrite (proj1 (IH q Hlq (entry_pos_ok b k q Hb ltac:(lia) Hq) Hn)), (proj1 (IH q' Hlq' (entry_pos_ok b k' q' Hb ltac:(lia) Hq') Hn')).
        intros (p & Hp & Hup & Hzp & Hu0) (p' & Hp' & Hup' & Hzp' & _). assert (p = p') as <- by (apply (fo_inj _ _ _ _ Hf); [done|done|congruence|congruence]). by eapply entry_under_inj.
      * intros k Hk. apply elem_of_range in Hk. destruct (lev_entry b l Hl k) as (q & Hq & Hlq). rewrite (Hw k q Hq). destruct (Z.eqb_spec (zone_at dev c v q) 0) as [|Hn]; [apply NoDup_nil_2|].
        apply (IH q Hlq (entry_pos_ok b k q Hb ltac:(lia) Hq) Hn).
    + intros u Hu ->%list_elem_of_singleton. apply Hbr in Hu as (p & Hp & _ & Hne & Hzp & Hu0). apply Hne, (fo_inj _ _ _ _ Hf); [done|done|done|congruence].
Qed.

(** ** [minix_truncate] *)

(** What entry [e] of the inode leads to. *)
Definition piece (c : C) (v : inode) (e : Z) : list Z := if ent v e =? 0 then [] else tree (lev (inode_pos e)) c (ent v e).

Definition with_file (n : Z) (c : C) (v : inode) (s : fss C) : fss C := set_inode_table (<[Z.to_nat n := v]> (inode_table s)) (set_fcache c s).

(** The entries [es] of the inode have been dropped. *)
Record dropped (es : list Z) (c : C) (v : inode) (c' : C) (v' : inode) : Prop := {
  dr_clear : cleared (es ≫= piece c v) [] c c';
  dr_ent : forall e, 0 <= e < 16 -> ent v' e = if decide (e ∈ es) then 0 else ent v e;
  dr_data : exists d, length d = 16%nat /\ v' = set_i_data d v
}.

Section Drop.
Context (n : Z) (v : inode) (s : fss C).
Context (Hin : file_in dev sbn sb n v s) (Hrm : room 2 (fcache s)) (Hrf : forall a, refs (fcache s) a < 255).
Context (Hun : forall p, pos_ok p -> zone_at dev (fcache s) v p <> 0 -> held (fcache s) !! (dev, zone_at dev (fcache s) v p) = None).

Lemma piece_zones e : 0 <= e < 9 ->
  (forall u, u ∈ piece (fcache s) v e <-> exists p, pos_ok p /\ under (inode_pos e) p /\ zone_at dev (fcache s) v p = u /\ u <> 0) /\ NoDup (piece (fcache s) v e).
Proof using Hzo Hpt Hin.
  intros He. unfold piece. pose proof (zone_at_inode dev (fcache s) v e He) as Hz. destruct (Z.eqb_spec (ent v e) 0) as [H0|H0].
  - split; [|apply NoDup_nil_2]. intros u. split; [by intros ?%not_elem_of_nil|]. intros (p & _ & Hup & <- & Hn). apply (under_nonzero _ _ _ _ Hup) in Hn. congruence.
  - rewrite <-Hz. apply tree_zones; [apply (fi_file _ _ _ _ _ _ Hin)|done|by apply inode_pos_ok|congruence].
Qed.

Lemma piece_idle e : 0 <= e < 9 -> idle (fcache s) (piece (fcache s) v e).
Proof using Hzo Hpt Hin Hun.
  intros He u Hu. apply (proj1 (piece_zones e He)) in Hu as (p & Hp & _ & <- & Hn). split; [|by apply Hun]. by destruct (fo_zone _ _ _ _ (fi_file _ _ _ _ _ _ Hin) p Hp).
Qed.

Lemma piece_apart e e' u : 0 <= e < 9 -> 0 <= e' < 9 -> u ∈ piece (fcache s) v e -> u ∈ piece (fcache s) v e' -> e = e'.
Proof using Hzo Hpt Hin.
  intros He He'. rewrite (proj1 (piece_zones e He)), (proj1 (piece_zones e' He')). intros (p & Hp & Hup & Hz & Hn) (p' & Hp' & Hup' & Hz' & _).
  assert (p = p') as <- by (apply (fo_inj _ _ _ _ (fi_file _ _ _ _ _ _ Hin)); [done|done|congruence|congruence]). clear -Hup Hup' He He'. unfold inode_pos in *.
  destruct (Z.ltb_spec e 7), (Z.ltb_spec e' 7), (Z.eqb_spec e 7), (Z.eqb_spec e' 7), p; cbn in *; done || lia.
Qed.

Lemma inserted_file c1 v1 : aget (inode_table (with_file n c1 v1 s)) n = Some v1.
Proof using Hin. apply aget_insert_eq. eapply aget_Some_range, (fi_inode _ _ _ _ _ _ Hin). Qed.

Lemma upd_file f c1 v1 : inode_upd n f (with_file n c1 v1 s) = Ok tt (with_file n c1 (f v1) s).
Proof using Hin.
  rewrite (inode_upd_run n f _ v1) by apply inserted_file. unfold with_file. cbn [inode_table set_inode_table set_fcache fkern fcache super_blocks last_inode file_table fpages].
  unfold set_inode_table. cbn. by rewrite list_insert_insert_eq.
Qed.

Lemma mounted_file c1 v1 : mounted dev sbn sb (with_file n c1 v1 s).
Proof using Hin. by destruct (fi_mounted _ _ _ _ _ _ Hin). Qed.

(** An entry that is not used. *)
Lemma dropped_skip es e c1 v1 : 0 <= e < 9 -> ent v e = 0 -> dropped es (fcache s) v c1 v1 -> dropped (es ++ [e]) (fcache s) v c1 v1.
Proof using.
  intros He H0 [A1 A2 A3]. split; [| |done].
  - rewrite bind_app. cbn [mbind list_bind]. unfold piece at 2. rewrite H0. cbn [Z.eqb]. by rewrite !app_nil_r.
  - intros a Ha. rewrite A2 by done. destruct (decide (a = e)) as [->|Hne].
    + rewrite H0. by destruct (decide (e ∈ es)), (decide (e ∈ es ++ [e])).
    + destruct (decide (a ∈ es)); [rewrite decide_True by (apply elem_of_app; by left); done|]. rewrite decide_False; [done|]. rewrite elem_of_app, list_elem_of_singleton. tauto.
Qed.

Lemma with_zero v1 d e : length d = 16%nat -> v1 = set_i_data d v -> 0 <= e < 9 ->
  (forall a, 0 <= a < 16 -> ent (set_i_data (<[Z.to_nat e := 0]> (i_data v1)) v1) a = if decide (a = e) then 0 else ent v1 a) /\
  exists d', length d' = 16%nat /\ set_i_data (<[Z.to_nat e := 0]> (i_data v1)) v1 = set_i_data d' v.
Proof using Hpt.
  intros Hl -> He. split; [intros a Ha; apply ent_insert; [done|lia]|]. exists (<[Z.to_nat e := 0]> d). by rewrite length_insert.
Qed.

Lemma drop_step es e free c1 v1 : dropped es (fcache s) v c1 v1 -> 0 <= e < 9 -> e ∉ es -> (forall a, a ∈ es -> 0 <= a < 9) -> frees (lev (inode_pos e)) (free dev) ->
  (ent v e = 0 -> forall s', free dev 0 s' = Ok 1 s') ->
  exists c2 v2, drop_zone n e free (with_file n c1 v1 s) = Ok false (with_file n c2 v2 s) /\ dropped (es ++ [e]) (fcache s) v c2 v2.
Proof using Hzo Hpt Hin Hun Hrm Hrf.
  intros Hdr He Hne Hes Hfree Hfree0. pose proof Hdr as [A1 A2 (d & Hl & Hv1)]. unfold drop_zone. rewrite (run_bind _ _ _ v1 (with_file n c1 v1 s)) by (apply inode_at_run, inserted_file).
  assert (He1 : ent v1 e = ent v e) by (rewrite A2, decide_False by (done || lia); done).
  destruct (aget_in_range (i_data v1) e) as [z Hz]; [subst v1; cbn; lia|]. rewrite (run_bind _ _ _ z (with_file n c1 v1 s)) by (by rewrite Hz).
  assert (Hze : z = ent v e) by (rewrite <-He1; unfold ent; by rewrite Hz). assert (Hdv : i_dev v1 = dev) by (rewrite Hv1; apply (fi_dev _ _ _ _ _ _ Hin)). rewrite Hdv.
  destruct (with_zero v1 d e Hl Hv1 He) as [Hent Hdat]. set (v2 := set_i_data (<[Z.to_nat e := 0]> (i_data v1)) v1) in *.
  assert (Hent2 : forall a, 0 <= a < 16 -> ent v2 a = if decide (a ∈ es ++ [e]) then 0 else ent v a).
  { intros a Ha. rewrite Hent, A2 by done. destruct (decide (a = e)) as [->|Hae]; [rewrite decide_True by (apply elem_of_app; right; apply list_elem_of_here); done|].
    destruct (decide (a ∈ es)); [rewrite decide_True by (apply elem_of_app; by left); done|]. rewrite decide_False; [done|]. rewrite elem_of_app, list_elem_of_singleton. tauto. }
  destruct (Z.eq_dec (ent v e) 0) as [H0|H0].
  - exists c1, v2. rewrite Hze, H0, (run_bind _ _ _ _ _ (Hfree0 H0 _)). change (truth 1) with true. cbn match. rewrite (run_bind _ _ _ _ _ (upd_file _ c1 v1)). split; [done|].
    destruct (dropped_skip es e c1 v1 He H0 Hdr) as [B1 _ _]. by split.
  - pose proof (piece_idle e He) as Hid. pose proof (proj2 (piece_zones e He)) as Hnd. assert (Hpe : piece (fcache s) v e = tree (lev (inode_pos e)) (fcache s) z) by (unfold piece; rewrite Hze; by destruct (Z.eqb_spec (ent v e) 0)).
    assert (Hdis : forall u, u ∈ piece (fcache s) v e -> u ∉ es ≫= piece (fcache s) v).
    { intros u Hu (a & Hua & Ha)%list_elem_of_bind. pose proof (piece_apart e a u He (Hes a Ha) Hu Hua). congruence. }
    assert (Ht : tree (lev (inode_pos e)) c1 z = piece (fcache s) v e).
    { rewrite Hpe. apply tree_ext. rewrite <-Hpe. intros u Hu. apply (cl_content _ _ _ _ A1); [by apply Hid|by apply Hdis|apply not_elem_of_nil]. }
    destruct (Hfree (with_file n c1 v1 s) z (mounted_file c1 v1) (cl_ok _ _ _ _ A1)) as (c2 & R & Hcl); cbn [fcache with_file set_inode_table set_fcache] in *; rewrite ?Ht in *; try done.
    { apply (keeps_room _ (fcache s) c1 (cl_keeps _ _ _ _ A1)). unfold room in *. destruct (inode_pos e); cbn; lia. }
    { intros a. rewrite (keeps_refs _ _ _ (cl_keeps _ _ _ _ A1)). apply Hrf. }
    { by eapply idle_cleared. }
    exists c2, v2. rewrite (run_bind _ _ _ _ _ R). change (truth 1) with true. cbn match. change (set_fcache c2 (with_file n c1 v1 s)) with (with_file n c2 v1 s).
    rewrite (run_bind _ _ _ _ _ (upd_file _ c2 v1)). split; [done|]. split; [|done|done].
    rewrite bind_app. cbn [mbind list_bind]. rewrite app_nil_r. by eapply cleared_trans.
Qed.

Lemma drop_direct_run l : forall es c1 v1, dropped es (fcache s) v c1 v1 -> NoDup (es ++ l) -> (forall e, e ∈ es ++ l -> 0 <= e < 7) ->
  exists c2 v2, drop_direct patience n l false (with_file n c1 v1 s) = Ok false (with_file n c2 v2 s) /\ dropped (es ++ l) (fcache s) v c2 v2.
Proof using HL Hzo Hpt Hin Hun Hrm Hrf.
  induction l as [|e l IH]; intros es c1 v1 Hdr Hnd Hrg; [exists c1, v1; by rewrite app_nil_r|]. cbn [drop_direct].
  assert (Hassoc : es ++ e :: l = (es ++ [e]) ++ l) by (by rewrite <-app_assoc). rewrite Hassoc in *.
  assert (He : 0 <= e < 7) by (apply Hrg; rewrite !elem_of_app; left; right; apply list_elem_of_here).
  assert (Hne : e ∉ es) by (apply NoDup_app in Hnd as (Hnd & _); apply NoDup_app in Hnd as (_ & Hd & _); intros Hin'; apply (Hd e Hin'), list_elem_of_here).
  pose proof Hdr as [A1 A2 (d & Hl & Hv1)]. assert (He1 : ent v1 e = ent v e) by (rewrite A2, decide_False by (done || lia); done).
  rewrite (run_bind _ _ _ v1 (with_file n c1 v1 s)) by (apply inode_at_run, inserted_file).
  destruct (aget_in_range (i_data v1) e) as [z Hz]; [subst v1; cbn; lia|]. rewrite (run_bind _ _ _ z (with_file n c1 v1 s)) by (by rewrite Hz).
  assert (Hze : z = ent v e) by (rewrite <-He1; unfold ent; by rewrite Hz). destruct (Z.eqb_spec z 0) as [H0|H0].
  - apply IH; [apply dropped_skip; [lia|congruence|done]|done|done].
  - destruct (drop_step es e (minix_free_block patience) c1 v1 Hdr) as (c2 & v2 & R & Hdr2); [lia|done| | |congruence|].
    + intros a Ha. assert (0 <= a < 7); [|lia]. apply Hrg. rewrite !elem_of_app. by left; left.
    + unfold inode_pos. destruct (Z.ltb_spec e 7); [|lia]. apply free_block_frees.
    + rewrite (run_bind _ _ _ _ _ R). cbn [orb]. by apply IH.
Qed.

Lemma truncate_run : exists c1 v1, iter patience (truncate_step patience n) tt s = Ok tt (with_file n c1 (set_i_dirt 1 v1) s) /\ dropped (range 0 9) (fcache s) v c1 v1.
Proof using HL Hzo Hpt Hrd Hin Hun Hrm Hrf.
  pose proof (fi_inode _ _ _ _ _ _ Hin) as Hn. assert (Hs : s = with_file n (fcache s) v s).
  { unfold with_file. rewrite list_insert_id; [by destruct s|]. unfold aget in Hn. by destruct (n <? 0). }
  assert (H0 : dropped [] (fcache s) v (fcache s) v).
  { split; [apply cleared_refl, (fi_map _ _ _ _ _ _ Hin)|intros e _; by rewrite decide_False by apply not_elem_of_nil|]. exists (i_data v). split; [apply (fo_len _ _ _ _ (fi_file _ _ _ _ _ _ Hin))|by destruct v]. }
  destruct (drop_direct_run (range 0 7) [] (fcache s) v H0) as (c1 & v1 & R1 & D1); [apply NoDup_range|intros e He; apply elem_of_range in He; lia|]. rewrite <-Hs in R1.
  cbn [app] in D1. destruct (drop_step (range 0 7) 7 (minix_free_ind patience) c1 v1 D1) as (c2 & v2 & R2 & D2); [lia|rewrite elem_of_range; lia|intros a Ha; apply elem_of_range in Ha; lia| |done|].
  { apply free_tree_frees, free_block_frees. }
  change (range 0 7 ++ [7]) with (range 0 8) in D2.
  destruct (drop_step (range 0 8) 8 (minix_free_dind patience) c2 v2 D2) as (c3 & v3 & R3 & D3); [lia|rewrite elem_of_range; lia|intros a Ha; apply elem_of_range in Ha; lia| |done|].
  { apply free_tree_frees, free_tree_frees, free_block_frees. }
  change (range 0 8 ++ [8]) with (range 0 9) in D3. exists c3, v3. split; [|done]. assert (Hstep : truncate_step patience n tt s = Ok (inr tt) (with_file n c3 (set_i_dirt 1 v3) s)).
  { unfold truncate_step. rewrite (run_bind _ _ _ _ _ R1), (run_bind _ _ _ _ _ R2), (run_bind _ _ _ _ _ R3). by rewrite (run_bind _ _ _ _ _ (upd_file _ c3 v3)). }
  destruct patience; [lia|]. cbn [iter]. by rewrite (run_bind _ _ _ _ _ Hstep).
Qed.

(** C7: [minix_truncate] gives back the zones of a file, its index blocks included,
    and nothing else.  When nobody has a buffer of them, the first round frees them
    all: every zone the file had is free afterwards, every other zone is taken or
    free and has the contents as before, the file is in order, of size 0 and
    without any blocks, and whoever has a buffer has it still. *)
Theorem truncate_frees : S_ISREG (i_mode v) || S_ISDIR (i_mode v) || S_ISLNK (i_mode v) = true ->
  exists c' v', minix_truncate patience n s = Ok tt (with_file n c' v' s) /\ file_in dev sbn sb n v' (with_file n c' v' s) /\ i_size v' = 0 /\
    (forall b, file_block b -> file_map dev c' v' b = None) /\ keeps (fcache s) c' /\
    (forall p, pos_ok p -> zone_at dev (fcache s) v p <> 0 -> zbit dev sb c' (zone_at dev (fcache s) v p) = false) /\
    (forall u, data_zone sb u -> (forall p, pos_ok p -> zone_at dev (fcache s) v p <> u) ->
       zbit dev sb c' u = zbit dev sb (fcache s) u /\ content c' (dev, u) = content (fcache s) (dev, u)).
Proof using HL Hzo Hpt Hrd Hin Hun Hrm Hrf.
  intros Hmode. destruct truncate_run as (c1 & v1 & R & [A1 A2 (d & Hl & Hv1)]). pose proof Hin as [Hmt _ _ Hn Hdv Hf]. set (t := CURRENT_TIME (fkern s)).
  set (v' := set_i_ctime t (set_i_mtime t (set_i_size 0 (set_i_dirt 1 v1)))). exists c1, v'.
  assert (He : forall e, 0 <= e < 9 -> ent v' e = 0) by (intros e He; change (ent v' e) with (ent v1 e); rewrite A2, decide_True by (try apply elem_of_range; lia); done).
  assert (Hz : forall p, pos_ok p -> zone_at dev c1 v' p = 0) by (intros [e| |k| |i|i k] Hp; cbn [zone_at]; rewrite ?(He 7), ?(He 8) by lia; try done; apply He; cbn in Hp; lia).
  split; [|split; [|split; [done|split; [|split; [apply (cl_keeps _ _ _ _ A1)|split]]]]].
  - unfold minix_truncate. rewrite (run_bind _ _ _ v s) by (by apply inode_at_run). rewrite Hmode. cbn [negb]. rewrite (run_bind _ _ _ _ _ R).
    rewrite (run_bind _ _ _ t (with_file n c1 (set_i_dirt 1 v1) s)) by (by unfold now; rewrite (on_task_run _ _ t (fkern s))). by rewrite upd_file.
  - split; [by destruct Hmt|done|apply (cl_ok _ _ _ _ A1)|apply inserted_file| |].
    + subst v'. by rewrite Hv1.
    + split; [by subst v'; rewrite Hv1|intros p Hp; left; by apply Hz|]. intros p q Hp _ _ H. by destruct (H (Hz p Hp)).
  - intros b Hb. unfold file_map. by rewrite Hz by (by apply pos_of_ok).
  - intros p Hp Hnz. destruct (fo_zone _ _ _ _ Hf p Hp) as [|[Hd _]]; [done|]. rewrite (cl_bits _ _ _ _ A1) by done. rewrite decide_True; [done|]. apply list_elem_of_bind.
    assert (exists e, 0 <= e < 9 /\ under (inode_pos e) p) as (e & He9 & Hup) by (destruct p; cbn in Hp; [exists e|exists 7|exists 7|exists 8..]; (split; [lia|]); try done; unfold inode_pos; destruct (Z.ltb_spec e 7); [done|lia]).
    exists e. split; [|apply elem_of_range; lia]. apply (proj1 (piece_zones e He9)). by exists p.
  - intros u Hu Hno. assert (Hnin : u ∉ range 0 9 ≫= piece (fcache s) v).
    { intros (e & Hue & He9)%list_elem_of_bind. apply elem_of_range in He9. apply (proj1 (piece_zones e ltac:(lia))) in Hue as (p & Hp & _ & E & _). by apply (Hno p). }
    rewrite (cl_bits _ _ _ _ A1), decide_False by done. split; [done|]. by apply (cl_content _ _ _ _ A1); [| |apply not_elem_of_nil].
Qed.

End Drop.

End Truncate.

(** ** Truncating a file of one block *)

#[local] Existing Instance quiet_env.

Lemma demo_in_other : file_in 1 0 demo_super 1 demo_other demo_fs.
Proof. split; [apply demo_mounted|apply demo_zones|apply demo_zmap|done|done|apply demo_file_other]. Qed.

Lemma truncate_frees_witness :
  exists c' v', minix_truncate 1 1 demo_fs = Ok tt (with_file 1 c' v' demo_fs) /\ file_in 1 0 demo_super 1 v' (with_file 1 c' v' demo_fs) /\ i_size v' = 0 /\
    (forall b, file_block b -> file_map 1 c' v' b = None) /\ keeps (fcache demo_fs) c' /\
    (forall p, pos_ok p -> zone_at 1 (fcache demo_fs) demo_other p <> 0 -> zbit 1 demo_super c' (zone_at 1 (fcache demo_fs) demo_other p) = false) /\
    (forall u, data_zone demo_super u -> (forall p, pos_ok p -> zone_at 1 (fcache demo_fs) demo_other p <> u) ->
       zbit 1 demo_super c' u = zbit 1 demo_super (fcache demo_fs) u /\ content c' (1, u) = content (fcache demo_fs) (1, u)).
Proof.
  apply (truncate_frees 1 0 demo_super 1 demo_zones ltac:(lia) (ideal_readable 1) 1 demo_other demo_fs demo_in_other (proj1 (proj2 demo_ready)) (proj2 (proj2 demo_ready))); [|done].
  intros p Hp Hn. destruct (held (fcache demo_fs) !! _) as [w|] eqn:E; [|done]. apply demo_held in E as [E _].
  destruct (fo_zone _ _ _ _ demo_file_other p Hp) as [|[Hd _]]; [done|]. revert E Hd. generalize (zone_at 1 (fcache demo_fs) demo_other p). intros z [= ->] Hd. unfold data_zone in Hd. cbn in Hd. lia.
Defined.
