(* ===== verification/Inode.v ===== *)
(** * Inodes in memory and super blocks: [fs/inode.c], [fs/super.c]

    The table of inodes: locking, reading and writing them, finding a free one,
    [iget] and [iput]; mounting a device, and the parts of [fs/minix] that need
    them.

    The only file system is MINIX, so calls through [i_op] and [s_op] are calls of
    its functions when the pointer is not null.  Pages for pipes come from the
    memory manager, the interface [PageAlloc].  An operation on a device that is
    repeated until others let it go on is repeated [patience] times at most. *)

From S2P Require Import Prelude TaskStruct Sched Sys Fs Minix.

(** [MAJOR(a)] and [MINOR(a)] *)
Definition MAJOR (a : Z) : Z := Z.shiftr (u32 a) 8.
Definition MINOR (a : Z) : Z := Z.land a 0xff.

(** The memory manager, as the file system uses it. *)
Class PageAlloc (C : Type) := {
  get_free_page : M (fss C) Z;
  free_page : Z -> M (fss C) unit
}.

(** A pointer to an entry of [inode_table] or [file_table] as tasks have it. *)
Definition entry_ptr (n : Z) : positive := Z.to_pos (n + 1).
Definition ptr_entry (p : positive) : Z := Z.pos p - 1.

Section Inode.
Context {C : Type} `{BufferCache C, FsEnv C, PageAlloc C}.
Context (patience : nat).

(** ** [fs/inode.c] *)

(** [static inline void wait_on_inode(struct inode *inode)] *)
Definition wait_on_inode (n : Z) : M (fss C) unit :=
  iter patience (fun _ => v ← inode_at n; if truth (i_lock v) then fs_sleep (i_wait n);; mret (inl tt) else mret (inr tt)) tt.
(** [static inline void lock_inode(struct inode *inode)] *)
Definition lock_inode (n : Z) : M (fss C) unit := wait_on_inode n;; inode_upd n (set_i_lock 1).
(** [static inline void unlock_inode(struct inode *inode)] *)
Definition unlock_inode (n : Z) : M (fss C) unit := inode_upd n (set_i_lock 0);; on_task (wake_up (i_wait n)).

(** [static void write_inode(struct inode * inode)] *)
Definition write_inode (n : Z) : M (fss C) unit :=
  lock_inode n;;
  v ← inode_at n;
  if negb (truth (i_dirt v)) || negb (truth (i_dev v)) then unlock_inode n
  else
    (match i_op v with Some minix_inode_operations => minix_write_inode n | None => mret tt end);;
    unlock_inode n.

(** [static void read_inode(struct inode *inode)] *)
Definition read_inode (n : Z) : M (fss C) unit :=
  lock_inode n;;
  v ← inode_at n;
  (match i_sb v with
   | Some sbn => sb ← super_at sbn; if s_op sb then minix_read_inode n else mret tt
   | None => mret tt
   end);;
  unlock_inode n.

(** [int bmap(struct inode *inode, int block)] *)
Definition bmap (n block : Z) : M (fss C) Z :=
  v ← inode_at n;
  match i_op v with Some minix_inode_operations => minix_bmap patience n block | None => mret 0 end.

(** [void invalidate_inodes(int dev)] *)
Definition invalidate_inodes (dev : Z) : M (fss C) unit :=
  for_each (range 0 (Z.to_nat NR_INODE)) (fun n =>
    wait_on_inode n;;
    v ← inode_at n;
    if i_dev v =? dev then
      if truth (i_count v) then on_task (printk "inode in use on removed disk\n\r")
      else inode_upd n (fun v => set_i_dev 0 (set_i_dirt 0 v))
    else mret tt).

(** [void sync_inodes(void)] *)
Definition sync_inodes : M (fss C) unit :=
  for_each (range 0 (Z.to_nat NR_INODE)) (fun n =>
    wait_on_inode n;;
    v ← inode_at n;
    if truth (i_dirt v) && negb (truth (i_pipe v)) then write_inode n else mret tt).

Definition put_count (n : Z) : M (fss C) unit := inode_upd n (fun v => set_i_count (u16 (i_count v - 1)) v).
Definition hold_count (n : Z) : M (fss C) unit := inode_upd n (fun v => set_i_count (u16 (i_count v + 1)) v).

(** [iput] of a pipe. *)
Definition iput_pipe (n : Z) : M (fss C) unit :=
  on_task (wake_up (i_wait n));;
  on_task (wake_up (i_wait2 n));;
  put_count n;;
  v ← inode_at n;
  if truth (i_count v) then mret tt
  else
    free_page (i_size v);;
    inode_upd n (fun v => set_i_count 0 (set_i_dirt 0 (set_i_pipe 0 v))).

(** [iput] from the label [repeat]. *)
Definition iput_step (n : Z) (_ : unit) : M (fss C) (unit + unit) :=
  v ← inode_at n;
  if 1 <? i_count v then put_count n;; mret (inr tt)
  else if negb (truth (i_nlink v)) then
    (match i_op v with Some minix_inode_operations => minix_put_inode patience n | None => mret tt end);; mret (inr tt)
  else if truth (i_dirt v) then write_inode n;; wait_on_inode n;; mret (inl tt)
  else put_count n;; mret (inr tt).

(** [void iput(struct inode * inode)] *)
Definition iput (inode : option Z) : M (fss C) unit :=
  match inode with
  | None => mret tt
  | Some n =>
      wait_on_inode n;;
      v ← inode_at n;
      if negb (truth (i_count v)) then halts (Panic "iput: trying to free free inode")
      else if truth (i_pipe v) then iput_pipe n
      else if negb (truth (i_dev v)) then put_count n
      else
        (if S_ISBLK (i_mode v) then on_cache (sync_dev (i_rdev v));; wait_on_inode n else mret tt);;
        iter patience (iput_step n) tt
  end.

(** The search for a free entry of the table, from the one after [last_inode] on. *)
Fixpoint empty_scan (k : nat) (found : option Z) : M (fss C) (option Z) :=
  match k with
  | O => mret found
  | S k' =>
      modify (fun s => set_last_inode (if NR_INODE <=? last_inode s + 1 then 0 else last_inode s + 1) s);;
      l ← gets last_inode;
      v ← inode_at l;
      if truth (i_count v) then empty_scan k' found
      else if negb (truth (i_dirt v)) && negb (truth (i_lock v)) then mret (Some l) else empty_scan k' (Some l)
  end.

(** The loop that writes back the entry found. *)
Definition clean_step (n : Z) (_ : unit) : M (fss C) (unit + unit) :=
  v ← inode_at n;
  if truth (i_dirt v) then write_inode n;; wait_on_inode n;; mret (inl tt) else mret (inr tt).

Definition empty_step (_ : unit) : M (fss C) (unit + Z) :=
  o ← empty_scan (Z.to_nat NR_INODE) None;
  match o with
  | None => halts (Panic "No free inodes in mem")
  | Some n =>
      wait_on_inode n;;
      iter patience (clean_step n) tt;;
      v ← inode_at n;
      if truth (i_count v) then mret (inl tt) else mret (inr n)
  end.

(** [struct m_inode * get_empty_inode(void)] *)
Definition get_empty_inode : M (fss C) Z :=
  n ← iter patience empty_step tt;
  clear_inode n;;
  inode_upd n (set_i_count 1);;
  mret n.

(** [struct inode * get_pipe_inode(void)] *)
Definition get_pipe_inode : M (fss C) (option Z) :=
  n ← get_empty_inode;
  p ← get_free_page;
  inode_upd n (set_i_size (s32 p));;
  if negb (truth p) then inode_upd n (set_i_count 0);; mret None
  else
    inode_upd n (set_i_count 2);;
    inode_upd n (fun v => set_i_data (<[0%nat := 0]> (<[1%nat := 0]> (i_data v))) v);;
    inode_upd n (set_i_pipe 1);;
    mret (Some n).

(** The super block that covers inode [n]. *)
Fixpoint covered_scan (l : list super_block) (n i : Z) : option Z :=
  match l with [] => None | b :: l' => if bool_decide (s_covered b = Some n) then Some i else covered_scan l' n (i + 1) end.

(** [iget] has found inode [n] in the table. *)
Definition iget_found (empty n : Z) : M (fss C) (option Z) :=
  hold_count n;;
  v ← inode_at n;
  if truth (i_mount v) then
    s ← getS;
    match covered_scan (take (Z.to_nat NR_SUPER) (super_blocks s)) n 0 with
    | None => on_task (printk "Mounted inode hasn't got sb\n");; iput (Some empty);; mret (Some n)
    | Some i =>
        iput (Some n);;
        b ← super_at i;
        (match s_mounted b with
         | None => on_task (printk "iget: mounted dev has no rootinode\n")
         | Some m => hold_count m;; wait_on_inode m
         end);;
        iput (Some empty);;
        mret (s_mounted b)
    end
  else iput (Some empty);; mret (Some n).

(** The search of [iget]: entry [n] is looked at. *)
Definition iget_step (dev nr empty n : Z) : M (fss C) (Z + option (option Z)) :=
  if NR_INODE <=? n then mret (inr None)
  else
    v ← inode_at n;
    if negb (i_dev v =? dev) || negb (i_ino v =? nr) then mret (inl (n + 1))
    else
      wait_on_inode n;;
      v ← inode_at n;
      if negb (i_dev v =? dev) || negb (i_ino v =? nr) then mret (inl 0)
      else r ← iget_found empty n; mret (inr (Some r)).

(** [struct inode * iget(int dev, int nr)] *)
Definition iget (dev nr : Z) : M (fss C) (option Z) :=
  if negb (truth dev) then halts (Panic "iget with dev==0")
  else
    empty ← get_empty_inode;
    o ← iter (patience * Z.to_nat (NR_INODE + 1)) (iget_step dev nr empty) 0;
    match o with
    | Some r => mret r
    | None =>
        sb ← get_super patience dev;
        inode_upd empty (set_i_sb sb);;
        match sb with
        | None => on_task (printk "iget: gouldn't get super-block\n\t");; iput (Some empty);; mret None
        | Some _ =>
            inode_upd empty (fun v => set_i_ino (u16 nr) (set_i_dev (u16 dev) v));;
            read_inode empty;;
            mret (Some empty)
        end
    end.

(** ** [minix_new_inode] of [fs/minix/bitmap.c] *)

Definition minix_new_inode (dev : Z) : M (fss C) (option Z) :=
  n ← get_empty_inode;
  o ← get_super patience dev;
  inode_upd n (set_i_sb o);;
  match o with
  | None => on_task (printk "new_inode: unknown device\n");; iput (Some n);; mret None
  | Some sbn =>
      sb ← super_at sbn;
      '(i, bh, j) ← on_cache (map_scan (s_imap sb) 0 None 8192);
      match bh with
      | None => iput (Some n);; mret None
      | Some x =>
          if (8192 <=? j) || (s_ninodes sb <? j + i * 8192) then iput (Some n);; mret None
          else
            r ← on_cache (set_bit j x);
            if truth r then on_task (printk "new_inode: bit already set");; iput (Some n);; mret None
            else
              on_cache (set_bh_dirt x 1);;
              uid ← on_task (cur euid); gid ← on_task (cur egid); t ← now;
              inode_upd n (fun v => set_i_op (Some minix_inode_operations) (set_i_mtime t (set_i_atime t (set_i_ctime t (set_i_ino (u16 (j + i * 8192))
                (set_i_dirt 1 (set_i_gid gid (set_i_uid uid (set_i_dev (u16 dev) (set_i_nlink 1 (set_i_count 1 v)))))))))));;
              mret (Some n)
      end
  end.

End Inode.
