(* ===== verification/Super.v ===== *)
(** * Mounting devices: [fs/super.c] and [minix_read_super]

    The super block of a device is read from its block 1, with the maps of inodes
    and zones, which stay in the buffer cache while the device is mounted. *)

From S2P Require Import Prelude TaskStruct Sched Sys Fs Minix Inode.

Section Super.
Context {C : Type} `{BufferCache C, FsEnv C, PageAlloc C}.
Context (patience : nat) (ROOT_DEV : Z).

(** ** [minix_read_super] of [fs/minix/inode.c] *)

(** The loops that read the maps: entries from [i] on, [k] of them, from [block] on;
    the number of the block after the last one read. *)
Fixpoint read_maps (dev : Z) (set : Z -> bptr -> M (fss C) unit) (k : nat) (i block : Z) : M (fss C) Z :=
  match k with
  | O => mret block
  | S k' =>
      bh ← on_cache (bread dev block);
      set i bh;;
      match bh with Some _ => read_maps dev set k' (i + 1) (block + 1) | None => mret block end
  end.
Definition set_imap (sbn i : Z) (bh : bptr) : M (fss C) unit :=
  b ← super_at sbn; l ← ofOpt (aset (s_imap b) i bh); super_upd sbn (set_s_imap l).
Definition set_zmap (sbn i : Z) (bh : bptr) : M (fss C) unit :=
  b ← super_at sbn; l ← ofOpt (aset (s_zmap b) i bh); super_upd sbn (set_s_zmap l).

(** The [struct minix_super_block] at the start of a block. *)
Definition copy_super (sbn x : Z) : M (fss C) unit :=
  ni ← on_cache (bh_word x 0); nz ← on_cache (bh_word x 1); ib ← on_cache (bh_word x 2); zb ← on_cache (bh_word x 3);
  fd ← on_cache (bh_word x 4); lz ← on_cache (bh_word x 5); ms ← on_cache (bh_long x 3); mg ← on_cache (bh_word x 8);
  super_upd sbn (fun b => set_s_ninodes ni (set_s_nzones nz (set_s_imap_blocks ib (set_s_zmap_blocks zb (set_s_firstdatazone fd
    (set_s_log_zone_size lz (set_s_max_size ms (set_s_magic mg b)))))))).

(** [m->b_data[0] |= 1] *)
Definition mark_first (m : bptr) : M (fss C) unit :=
  x ← ofOpt m; b ← on_cache (bh_byte x 0); on_cache (set_bh_byte x 0 (Z.lor b 1)).

(** A super block that could not be read. *)
Definition super_failed (sbn : Z) (msg : string) : M (fss C) bool :=
  super_upd sbn (set_s_dev 0);; free_super sbn;; on_task (printk msg);; mret false.

(** [struct super_block *minix_read_super(struct super_block *s, void *data)]: whether
    it returns [s]. *)
Definition minix_read_super (sbn : Z) : M (fss C) bool :=
  b ← super_at sbn;
  let dev := s_dev b in
  lock_super patience sbn;;
  bh ← on_cache (bread dev 1);
  match bh with
  | None => super_failed sbn "bread failed\n"
  | Some x =>
      copy_super sbn x;;
      on_cache (brelse bh);;
      b ← super_at sbn;
      if negb (s_magic b =? MINIX_SUPER_MAGIC) then super_failed sbn "magic match failed\n"
      else
        super_upd sbn (fun b => set_s_imap (replicate 8 None) (set_s_zmap (replicate 8 None) b));;
        b ← super_at sbn;
        block ← read_maps dev (set_imap sbn) (Z.to_nat (s_imap_blocks b)) 0 2;
        block ← read_maps dev (set_zmap sbn) (Z.to_nat (s_zmap_blocks b)) 0 block;
        b ← super_at sbn;
        if negb (block =? 2 + s_imap_blocks b + s_zmap_blocks b) then
          for_each (s_imap b) (fun m => on_cache (brelse m));;
          for_each (s_zmap b) (fun m => on_cache (brelse m));;
          super_failed sbn "block failed\n"
        else
          m ← ofOpt (aget (s_imap b) 0); mark_first m;;
          m ← ofOpt (aget (s_zmap b) 0); mark_first m;;
          free_super sbn;;
          super_upd sbn (fun b => set_s_op true (set_s_dev dev b));;
          r ← iget patience dev MINIX_ROOT_INO;
          super_upd sbn (set_s_mounted r);;
          match r with
          | None => super_upd sbn (set_s_dev 0);; on_task (printk "get root inode failed\n");; mret false
          | Some _ => mret true
          end
  end.

(** ** [fs/super.c] *)

(** [struct file_system_type *get_fs_type(char *name)]: the only type is minix. *)
Definition get_fs_type (name : string) : bool := String.eqb name "minix".

(** [void put_super(int dev)] *)
Definition put_super (dev : Z) : M (fss C) unit :=
  if dev =? ROOT_DEV then on_task (printk "root diskette changed: prepare for armageddon\n\r")
  else
    o ← get_super patience dev;
    match o with
    | None => mret tt
    | Some sbn =>
        b ← super_at sbn;
        match s_covered b with
        | Some _ => on_task (printk "Mounted disk changed - tssk, tssk\n\r")
        | None => if s_op b then minix_put_super patience sbn else mret tt
        end
    end.

(** The first super block that is not in use. *)
Fixpoint free_scan (k : nat) (n : Z) : M (fss C) (option Z) :=
  match k with
  | O => mret None
  | S k' => b ← super_at n; if truth (s_dev b) then free_scan k' (n + 1) else mret (Some n)
  end.

(** [static struct super_block * read_super(int dev, char *name, void *data)] *)
Definition read_super (dev : Z) (name : string) : M (fss C) (option Z) :=
  if negb (truth dev) then mret None
  else
    o ← get_super patience dev;
    match o with
    | Some sbn => mret (Some sbn)
    | None =>
        if negb (get_fs_type name) then on_task (printk "get fs type failed %s\n");; mret None
        else
          o ← free_scan (Z.to_nat NR_SUPER) 0;
          match o with
          | None => mret None
          | Some sbn =>
              super_upd sbn (set_s_dev (u16 dev));;
              ok ← minix_read_super sbn;
              if (ok : bool) then
                super_upd sbn (fun b => set_s_dirt 0 (set_s_rd_only 0 (set_s_time 0 (set_s_covered None (set_s_dev (u16 dev) b)))));;
                mret (Some sbn)
              else mret None
          end
    end.

(** Whether inodes of [dev] other than its root are in use. *)
Fixpoint device_busy (k : nat) (dev : Z) (mounted : option Z) (n : Z) : M (fss C) bool :=
  match k with
  | O => mret false
  | S k' =>
      v ← inode_at n;
      if (i_dev v =? dev) && truth (i_count v) then
        if bool_decide (mounted = Some n) && (i_count v =? 1) then device_busy k' dev mounted (n + 1) else mret true
      else device_busy k' dev mounted (n + 1)
  end.

(** [int sys_umount(char *dev_name)]; [namei] is the inode of the name. *)
Definition sys_umount (namei : M (fss C) (option Z)) : M (fss C) Z :=
  o ← namei;
  match o with
  | None => mret (- ENOENT)
  | Some n =>
      v ← inode_at n;
      let dev := i_rdev v in
      if negb (S_ISBLK (i_mode v)) then iput patience (Some n);; mret (- ENOTBLK)
      else
        iput patience (Some n);;
        if dev =? ROOT_DEV then mret (- EBUSY)
        else
          o ← get_super patience dev;
          match o with
          | None => mret (- ENOENT)
          | Some sbn =>
              b ← super_at sbn;
              match s_covered b with
              | None => mret (- ENOENT)
              | Some c =>
                  v ← inode_at c;
                  (if truth (i_mount v) then mret tt else on_task (printk "Mounted inode has i_mount=0\n"));;
                  busy ← device_busy (Z.to_nat NR_INODE) dev (s_mounted b) 0;
                  if (busy : bool) then mret (- EBUSY)
                  else
                    inode_upd c (set_i_mount 0);;
                    iput patience (Some c);;
                    super_upd sbn (set_s_covered None);;
                    b ← super_at sbn;
                    iput patience (s_mounted b);;
                    super_upd sbn (set_s_mounted None);;
                    put_super dev;;
                    on_cache (sync_dev dev);;
                    mret 0
              end
          end
  end.

(** [int sys_mount(char *dev_name, char *dir_name, int rw_flag)] *)
Definition sys_mount (namei_dev namei_dir : M (fss C) (option Z)) : M (fss C) Z :=
  o ← namei_dev;
  match o with
  | None => mret (- ENOENT)
  | Some n =>
      v ← inode_at n;
      let dev := i_rdev v in
      if negb (S_ISBLK (i_mode v)) then iput patience (Some n);; mret (- EPERM)
      else
        iput patience (Some n);;
        o ← namei_dir;
        match o with
        | None => mret (- ENOENT)
        | Some d =>
            v ← inode_at d;
            if negb (i_count v =? 1) || (i_ino v =? MINIX_ROOT_INO) then iput patience (Some d);; mret (- EBUSY)
            else if negb (S_ISDIR (i_mode v)) then iput patience (Some d);; mret (- EPERM)
            else if truth (i_mount v) then iput patience (Some d);; mret (- EPERM)
            else
              o ← read_super dev "minix";
              match o with
              | None => iput patience (Some d);; mret (- EBUSY)
              | Some sbn =>
                  b ← super_at sbn;
                  match s_covered b with
                  | Some _ => iput patience (Some d);; mret (- EBUSY)
                  | None =>
                      super_upd sbn (set_s_covered (Some d));;
                      inode_upd d (fun v => set_i_dirt 1 (set_i_mount 1 v));;
                      mret 0
                  end
              end
        end
  end.

(** The free blocks of a map: [set_bit] of [super.c] only looks at a bit. *)
Definition test_bit (nr x : Z) : M C bool := b ← bh_byte x (nr / 8); mret (Z.testbit b (nr mod 8)).
Fixpoint count_free (maps : list bptr) (k : nat) (free : Z) : M (fss C) Z :=
  match k with
  | O => mret free
  | S k' =>
      let i := Z.of_nat k' in
      m ← ofOpt (aget maps (Z.shiftr i 13)); x ← ofOpt m;
      r ← on_cache (test_bit (Z.land i 8191) x);
      count_free maps k' (if (r : bool) then free else free + 1)
  end.

(** [void mount_root(void)] *)
Definition mount_root : M (fss C) unit :=
  for_each (range 0 (Z.to_nat NR_FILE)) (fun i => file_upd i (set_f_count 0));;
  if MAJOR ROOT_DEV =? 2 then halts (Panic "need root floppy")
  else
    for_each (range 0 (Z.to_nat NR_SUPER)) (fun i =>
      super_upd i (fun b => set_s_lock 0 (set_s_dev 0 b));; on_task (modify (fun k => set_wq (delete (s_wait i) (wq k)) k)));;
    o ← read_super ROOT_DEV "minix";
    match o with
    | None => halts (Panic "Unable to mount root")
    | Some sbn =>
        b ← super_at sbn;
        mi ← ofOpt (s_mounted b);
        inode_upd mi (fun v => set_i_count (u16 (i_count v + 3)) v);;
        super_upd sbn (fun b => set_s_mounted (Some mi) (set_s_covered (Some mi) b));;
        on_task (upd_cur (set_pwd (Some (entry_ptr mi))));;
        on_task (upd_cur (set_root (Some (entry_ptr mi))));;
        b ← super_at sbn;
        _ ← count_free (s_zmap b) (Z.to_nat (s_nzones b)) 0;
        on_task (printk "%d/%d free blocks\n\r");;
        _ ← count_free (s_imap b) (Z.to_nat (s_ninodes b + 1)) 0;
        on_task (printk "%d/%d free inodes\n\r")
    end.

End Super.
