(* ===== verification/Pipe.v ===== *)
(** * Pipes: [fs/pipe.c]

    A pipe is an inode without a device: [i_size] is the address of a page used as
    a ring, [i_data[0]] and [i_data[1]] are where the next byte is written and
    read.  A pipe refines a queue of bytes of at most 4095. *)

From S2P Require Import Prelude TaskStruct Sched Fork Signal Sys Fs Minix Inode.

Definition O_NONBLOCK : Z := 0x800.
Definition SIGPIPE : Z := 13.
Definition FIONREAD : Z := 0x541B.

(** [PIPE_HEAD], [PIPE_TAIL], [PIPE_SIZE] of [fs.h]; [i_data] has 16 entries. *)
Definition PIPE_HEAD (v : inode) : Z := default 0 (aget (i_data v) 0).
Definition PIPE_TAIL (v : inode) : Z := default 0 (aget (i_data v) 1).
Definition PIPE_SIZE (v : inode) : Z := Z.land (u32 (PIPE_HEAD v - PIPE_TAIL v)) (PAGE_SIZE - 1).
Definition set_PIPE_HEAD (h : Z) (v : inode) : inode := set_i_data (<[0%nat := h]> (i_data v)) v.
Definition set_PIPE_TAIL (h : Z) (v : inode) : inode := set_i_data (<[1%nat := h]> (i_data v)) v.

Section Pipe.
Context {C : Type} `{BufferCache C, FsEnv C, PageAlloc C}.
Context (patience : nat).

(** [current->signal & ~current->blocked] *)
Definition signalled : M (fss C) bool := on_task (t ← cur (fun t => t); mret (truth (Z.ldiff (signal t) (blocked t)))).

(** The page of a pipe. *)
Definition pipe_page (a : Z) : M (fss C) (list Z) := s ← getS; ofOpt (fpages s !! u32 a).
Definition set_pipe_page (a : Z) (d : list Z) : M (fss C) unit := modify (fun s => set_fpages (<[u32 a := d]> (fpages s)) s).

(** Waiting for data: [None] when there is some, the result of the call otherwise. *)
Definition read_wait_step (n : Z) (_ : unit) : M (fss C) (unit + option Z) :=
  v ← inode_at n;
  if truth (PIPE_SIZE v) then mret (inr None)
  else
    on_task (wake_up (i_wait2 n));;
    v ← inode_at n;
    if negb (i_count v =? 2) then mret (inr (Some 0))
    else
      p ← signalled;
      if (p : bool) then mret (inr (Some (- ERESTARTSYS))) else fs_sleep (i_wait n);; mret (inl tt).

(** The bytes of a page from [o] on to [buf]. *)
Fixpoint copy_out (d : list Z) (k : nat) (o buf : Z) : M (fss C) unit :=
  match k with
  | O => mret tt
  | S k' => c ← ofOpt (aget d o); on_task (put_fs_byte c buf);; copy_out d k' (o + 1) (buf + 1)
  end.

(** One round of the reading loop: what is left to read, what has been read, and
    where the next byte goes. *)
Definition read_round (n : Z) (x : Z * Z * Z) : M (fss C) ((Z * Z * Z) + Z) :=
  let '(count, read, buf) := x in
  v ← inode_at n;
  let size := PIPE_SIZE v in
  if (0 <? count) && truth size then
    let chars := Z.min (Z.min (s32 (PAGE_SIZE - PIPE_TAIL v)) count) size in
    inode_upd n (fun v => set_PIPE_TAIL (Z.land (u32 (PIPE_TAIL v + chars)) (PAGE_SIZE - 1)) v);;
    d ← pipe_page (i_size v);
    copy_out d (Z.to_nat chars) (PIPE_TAIL v) buf;;
    mret (inl (count - chars, read + chars, buf + Z.max 0 chars))
  else mret (inr read).

(** [int pipe_read(struct inode * inode, struct file *filp, char * buf, int count)] *)
Definition pipe_read (n filp buf count : Z) : M (fss C) Z :=
  f ← file_at filp;
  w ← (if truth (Z.land (f_flags f) O_NONBLOCK) then mret None else iter patience (read_wait_step n) tt);
  match w with
  | Some r => mret r
  | None =>
      read ← iter patience (read_round n) (count, 0, buf);
      on_task (wake_up (i_wait2 n));;
      mret (if truth read then read else - EAGAIN)
  end.

(** Waiting for room: [None] when there is some. *)
Definition write_wait_step (n written : Z) (_ : unit) : M (fss C) (unit + option Z) :=
  v ← inode_at n;
  if truth (PAGE_SIZE - 1 - PIPE_SIZE v) then mret (inr None)
  else
    on_task (wake_up (i_wait n));;
    v ← inode_at n;
    let r := if truth written then written else - EINTR in
    if negb (i_count v =? 2) then
      on_task (upd_cur (fun t => set_signal (Z.lor (signal t) (Z.shiftl 1 (SIGPIPE - 1))) t));; mret (inr (Some r))
    else
      p ← signalled;
      if (p : bool) then mret (inr (Some r)) else fs_sleep (i_wait2 n);; mret (inl tt).

Fixpoint copy_in (fs : umem) (d : list Z) (k : nat) (o buf : Z) : M (fss C) (list Z) :=
  match k with
  | O => mret d
  | S k' => d ← ofOpt (aset d o (get_fs_byte fs buf)); copy_in fs d k' (o + 1) (buf + 1)
  end.

Definition write_round (fs : umem) (n : Z) (x : Z * Z * Z) : M (fss C) ((Z * Z * Z) + (Z * bool)) :=
  let '(count, written, buf) := x in
  if 0 <? count then
    w ← iter patience (write_wait_step n written) tt;
    match w with
    | Some r => mret (inr (r, false))
    | None =>
        v ← inode_at n;
        let size := PAGE_SIZE - 1 - PIPE_SIZE v in
        let chars := Z.min (Z.min (s32 (PAGE_SIZE - PIPE_HEAD v)) count) size in
        inode_upd n (fun v => set_PIPE_HEAD (Z.land (u32 (PIPE_HEAD v + chars)) (PAGE_SIZE - 1)) v);;
        d ← pipe_page (i_size v);
        d ← copy_in fs d (Z.to_nat chars) (PIPE_HEAD v) buf;
        set_pipe_page (i_size v) d;;
        mret (inl (count - chars, written + chars, buf + Z.max 0 chars))
    end
  else mret (inr (written, true)).

(** [int pipe_write(struct inode * inode, struct file *filp, char * buf, int count)] *)
Definition pipe_write (fs : umem) (n buf count : Z) : M (fss C) Z :=
  '(r, wake) ← iter patience (write_round fs n) (count, 0, buf);
  if (wake : bool) then on_task (wake_up (i_wait n));; mret r else mret r.

(** Free entries of [file_table], at most two, each with [f_count++]. *)
Fixpoint pipe_files (k : nat) (i : Z) (got : list Z) : M (fss C) (list Z) :=
  match k with
  | O => mret got
  | S k' =>
      if 2 <=? Z.of_nat (length got) then mret got
      else
        f ← file_at i;
        if truth (f_count f) then pipe_files k' (i + 1) got
        else file_upd i (set_f_count 1);; pipe_files k' (i + 1) (got ++ [i])
  end.
(** Free descriptors of the task for them. *)
Fixpoint pipe_fds (k : nat) (i : Z) (fs : list Z) (fds : list Z) : M (fss C) (list Z) :=
  match k with
  | O => mret fds
  | S k' =>
      match fs with
      | [] => mret fds
      | f :: fs' =>
          l ← on_task (cur filp); o ← ofOpt (aget l i);
          match o with
          | Some _ => pipe_fds k' (i + 1) fs fds
          | None => on_task (upd_cur (fun t => set_filp (<[Z.to_nat i := Some (entry_ptr f)]> (filp t)) t));; pipe_fds k' (i + 1) fs' (fds ++ [i])
          end
      end
  end.
Definition close_fds (fds : list Z) : M (fss C) unit :=
  for_each fds (fun i => on_task (upd_cur (fun t => set_filp (<[Z.to_nat i := None]> (filp t)) t))).

(** [int sys_pipe(unsigned long *fildes)] *)
Definition sys_pipe (fildes : Z) : M (fss C) Z :=
  f ← pipe_files (Z.to_nat NR_FILE) 0 [];
  match f with
  | [f0; f1] =>
      fd ← pipe_fds (Z.to_nat NR_OPEN) 0 [f0; f1] [];
      match fd with
      | [fd0; fd1] =>
          o ← get_pipe_inode patience;
          match o with
          | None =>
              close_fds [fd0; fd1];;
              for_each [f0; f1] (fun i => file_upd i (set_f_count 0));;
              mret (-1)
          | Some n =>
              file_upd f0 (fun f => set_f_mode 1 (set_f_pos 0 (set_f_inode (Some n) f)));;
              file_upd f1 (fun f => set_f_mode 2 (set_f_pos 0 (set_f_inode (Some n) f)));;
              on_task (put_fs_long fd0 fildes);;
              on_task (put_fs_long fd1 (fildes + 4));;
              mret 0
          end
      | l =>
          close_fds l;;
          for_each [f0; f1] (fun i => file_upd i (set_f_count 0));;
          mret (-1)
      end
  | l => for_each l (fun i => file_upd i (set_f_count 0));; mret (-1)
  end.

(** [int pipe_ioctl(struct m_inode *pino, int cmd, int arg)] *)
Definition pipe_ioctl (n cmd arg : Z) : M (fss C) Z :=
  if cmd =? FIONREAD then
    on_task (verify_area arg 4);;
    v ← inode_at n;
    on_task (put_fs_long (PIPE_SIZE v) arg);;
    mret 0
  else mret (- EINVAL).

End Pipe.

(** ** The ring of a page *)

(** [n] bytes of the ring from [t] on. *)
Definition ring (d : list Z) (t : Z) (n : nat) : list Z := (fun i => default 0 (aget d ((t + i) mod PAGE_SIZE))) <$> range 0 n.

Lemma length_ring d t n : length (ring d t n) = n.
Proof. unfold ring. by rewrite length_fmap, length_range. Qed.

Lemma ring_lookup d t n (i : nat) : (i < n)%nat -> ring d t n !! i = Some (default 0 (aget d ((t + Z.of_nat i) mod PAGE_SIZE))).
Proof.
  intros Hi. unfold ring, range. rewrite !list_lookup_fmap, lookup_seq_lt by done. cbn. by rewrite Z.add_0_l.
Qed.

Lemma ring_app d t a b : ring d t (a + b) = ring d t a ++ ring d ((t + Z.of_nat a) mod PAGE_SIZE) b.
Proof.
  apply list_eq_same_length with (n := (a + b)%nat); rewrite ?length_app, ?length_ring; try done. intros i x y Hi. rewrite ring_lookup by done.
  destruct (Nat.lt_ge_cases i a) as [Hlt|Hge].
  - rewrite lookup_app_l by (by rewrite length_ring). rewrite ring_lookup by done. congruence.
  - rewrite lookup_app_r by (by rewrite length_ring). rewrite length_ring, ring_lookup by lia. rewrite Zplus_mod_idemp_l.
    replace (t + Z.of_nat a + Z.of_nat (i - a)) with (t + Z.of_nat i) by lia. congruence.
Qed.

Lemma ring_flat d t n : length d = 4096%nat -> 0 <= t -> t + Z.of_nat n <= PAGE_SIZE -> ring d t n = take n (drop (Z.to_nat t) d).
Proof.
  unfold PAGE_SIZE. intros Hl Ht Hn. apply list_eq_same_length with (n := n); rewrite ?length_ring, ?length_take, ?length_drop; [lia|lia|]. intros i x y Hi.
  rewrite ring_lookup by done. unfold PAGE_SIZE. rewrite Z.mod_small by lia. rewrite lookup_take, decide_True, lookup_drop by lia. unfold aget.
  destruct (Z.ltb_spec (t + Z.of_nat i) 0); [lia|]. replace (Z.to_nat (t + Z.of_nat i)) with (Z.to_nat t + i)%nat by lia. intros Hx Hy. rewrite Hy in Hx. cbn in Hx. congruence.
Qed.

(** Writing at [h], outside of the bytes in use. *)
Lemma ring_other d h l t n : length d = 4096%nat -> 0 <= h -> h + Z.of_nat (length l) <= PAGE_SIZE -> 0 <= t < PAGE_SIZE -> h = (t + Z.of_nat n) mod PAGE_SIZE ->
  Z.of_nat n + Z.of_nat (length l) <= PAGE_SIZE -> ring (take (Z.to_nat h) d ++ l ++ drop (Z.to_nat h + length l) d) t n = ring d t n.
Proof.
  unfold PAGE_SIZE. intros Hl Hh Hhl Ht Hn Hfit. apply list_eq_same_length with (n := n); rewrite ?length_ring; try done. intros i x y Hi. rewrite !ring_lookup by done. unfold PAGE_SIZE.
  set (j := (t + Z.of_nat i) mod 4096). assert (Hj : 0 <= j < 4096) by (apply Z.mod_pos_bound; lia).
  assert (Ho : j < h \/ h + Z.of_nat (length l) <= j).
  { subst h j. pose proof (Z.div_mod (t + Z.of_nat n) 4096 ltac:(lia)). pose proof (Z.div_mod (t + Z.of_nat i) 4096 ltac:(lia)). pose proof (Z.mod_pos_bound (t + Z.of_nat n) 4096 ltac:(lia)).
    assert (0 <= (t + Z.of_nat n) / 4096) by (apply Z.div_pos; lia). assert (0 <= (t + Z.of_nat i) / 4096) by (apply Z.div_pos; lia).
    assert ((t + Z.of_nat n) / 4096 < 2) by (apply Z.div_lt_upper_bound; lia). assert ((t + Z.of_nat i) / 4096 < 2) by (apply Z.div_lt_upper_bound; lia). lia. }
  enough (aget (take (Z.to_nat h) d ++ l ++ drop (Z.to_nat h + length l) d) j = aget d j) as -> by congruence.
  unfold aget. destruct (Z.ltb_spec j 0); [done|]. destruct Ho as [Ho|Ho].
  - rewrite lookup_app_l by (rewrite length_take; lia). rewrite lookup_take, decide_True by lia. done.
  - rewrite lookup_app_r by (rewrite length_take; lia). rewrite length_take. rewrite lookup_app_r by lia. rewrite lookup_drop. f_equal. lia.
Qed.

Lemma ring_written d h l : length d = 4096%nat -> 0 <= h -> h + Z.of_nat (length l) <= PAGE_SIZE ->
  ring (take (Z.to_nat h) d ++ l ++ drop (Z.to_nat h + length l) d) h (length l) = l.
Proof.
  unfold PAGE_SIZE. intros Hl Hh Hhl. rewrite ring_flat; [|rewrite !length_app, length_take, length_drop; lia|lia|done].
  rewrite drop_app_ge by (rewrite length_take; lia). rewrite length_take. replace (Z.to_nat h - Z.to_nat h `min` length d)%nat with 0%nat by lia. rewrite drop_0. apply take_app_length.
Qed.

(** ** Reading and writing *)

(** The bytes a read puts into user memory. *)
Fixpoint puts (buf : Z) (l : list Z) : list event := match l with [] => [] | c :: l' => EPutB (u32 buf) (u8 c) :: puts (buf + 1) l' end.

Lemma puts_app buf l1 l2 : puts buf (l1 ++ l2) = puts buf l1 ++ puts (buf + Z.of_nat (length l1)) l2.
Proof.
  revert buf. induction l1 as [|c l1 IH]; intros buf; cbn [puts app length]; [by rewrite Z.add_0_r|]. rewrite IH. do 2 f_equal. f_equal. lia.
Qed.

(** The bytes a write takes from user memory. *)
Definition user_bytes (fs : umem) (buf : Z) (n : nat) : list Z := (fun i => get_fs_byte fs (buf + i)) <$> range 0 n.

Section PipeOk.
Context {C : Type} {HB : BufferCache C} {HE : FsEnv C}.

(** Inode [n] is a pipe, and [d] its page. *)
Record pipe_at (n : Z) (v : inode) (d : list Z) (s : fss C) : Prop := {
  pa_inode : aget (inode_table s) n = Some v;
  pa_data : length (i_data v) = 16%nat;
  pa_head : 0 <= PIPE_HEAD v < PAGE_SIZE;
  pa_tail : 0 <= PIPE_TAIL v < PAGE_SIZE;
  pa_page : fpages s !! u32 (i_size v) = Some d;
  pa_len : length d = 4096%nat
}.

(** The bytes in the pipe, the oldest first. *)
Definition pipe_bytes (v : inode) (d : list Z) : list Z := ring d (PIPE_TAIL v) (Z.to_nat (PIPE_SIZE v)).

Lemma pipe_size v : 0 <= PIPE_HEAD v < PAGE_SIZE -> 0 <= PIPE_TAIL v < PAGE_SIZE ->
  PIPE_SIZE v = (PIPE_HEAD v - PIPE_TAIL v) mod PAGE_SIZE /\ 0 <= PIPE_SIZE v < PAGE_SIZE /\ PIPE_HEAD v = (PIPE_TAIL v + PIPE_SIZE v) mod PAGE_SIZE.
Proof using.
  unfold PIPE_SIZE, PAGE_SIZE. intros Hh Ht. change (4096 - 1) with (Z.ones 12). rewrite Z.land_ones by lia. change (2 ^ 12) with 4096.
  assert (E : u32 (PIPE_HEAD v - PIPE_TAIL v) mod 4096 = (PIPE_HEAD v - PIPE_TAIL v) mod 4096).
  { unfold u32. symmetry. apply (Znumtheory.Zmod_div_mod 4096 (2 ^ 32)); [lia|lia|]. by exists 1048576. }
  rewrite E. split; [done|]. split; [apply Z.mod_pos_bound; lia|]. rewrite Zplus_mod_idemp_r. replace (PIPE_TAIL v + (PIPE_HEAD v - PIPE_TAIL v)) with (PIPE_HEAD v) by lia. by rewrite Z.mod_small.
Qed.

Lemma land_page x : 0 <= x < 2 * PAGE_SIZE -> Z.land (u32 x) (PAGE_SIZE - 1) = x mod PAGE_SIZE.
Proof using.
  unfold PAGE_SIZE. intros Hx. change (4096 - 1) with (Z.ones 12). rewrite Z.land_ones by lia. rewrite u32_small by (unfold in_u32; lia). done.
Qed.

(** *** Reading *)

Lemma copy_out_run d : length d = 4096%nat -> forall k o buf (s : fss C), 0 <= o -> o + Z.of_nat k <= PAGE_SIZE ->
  copy_out d k o buf s = Ok tt (set_fkern (add_events (puts buf (take k (drop (Z.to_nat o) d))) (fkern s)) s).
Proof using.
  unfold PAGE_SIZE. intros Hl. induction k as [|k IH]; intros o buf s Ho Hk; cbn [copy_out]; [rewrite add_events_nil; by destruct s|].
  destruct (aget_in_range d o) as [c Hc]; [lia|]. rewrite Hc, (run_bind _ _ _ c s) by reflexivity. rewrite (run_bind _ _ _ tt (set_fkern (add_event (EPutB (u32 buf) (u8 c)) (fkern s)) s)) by reflexivity.
  rewrite IH by lia. assert (Hd : drop (Z.to_nat o) d = c :: drop (Z.to_nat (o + 1)) d).
  { unfold aget in Hc. destruct (o <? 0); [done|]. rewrite (drop_S _ c) by done. f_equal. f_equal. lia. }
  rewrite Hd. cbn [take puts]. destruct s as [[] ? ? ? ? ? ?]. unfold set_fkern, add_event, add_events. cbn. by rewrite <-app_assoc.
Qed.

(** The state after [k] bytes [l] have been read. *)
Definition after_read (n : Z) (v : inode) (buf : Z) (l : list Z) (s : fss C) : fss C :=
  set_inode_table (<[Z.to_nat n := set_PIPE_TAIL ((PIPE_TAIL v + Z.of_nat (length l)) mod PAGE_SIZE) v]> (inode_table s)) (set_fkern (add_events (puts buf l) (fkern s)) s).

Lemma set_tail v t : length (i_data v) = 16%nat -> PIPE_TAIL (set_PIPE_TAIL t v) = t /\ PIPE_HEAD (set_PIPE_TAIL t v) = PIPE_HEAD v.
Proof using.
  intros Hl. unfold PIPE_TAIL, PIPE_HEAD, set_PIPE_TAIL. cbn [i_data set_i_data]. destruct (i_data v) as [|a [|b l]]; try done.
Qed.

Lemma inode_upd_at n f (s : fss C) v : aget (inode_table s) n = Some v -> inode_upd n f s = Ok tt (set_inode_table (<[Z.to_nat n := f v]> (inode_table s)) s).
Proof using.
  intros Hn. unfold inode_upd. rewrite (run_bind _ _ _ s s) by reflexivity. rewrite Hn, (run_bind _ _ _ v s) by reflexivity.
  rewrite aset_in_range by (by eapply aget_Some_range). by rewrite (run_bind _ _ _ (<[Z.to_nat n := f v]> (inode_table s)) s).
Qed.

Lemma inode_at_at n (s : fss C) v : aget (inode_table s) n = Some v -> inode_at n s = Ok v s.
Proof using. intros Hn. unfold inode_at. rewrite (run_bind _ _ _ s s) by reflexivity. by rewrite Hn. Qed.

(** After reading [l], the rest is in the pipe. *)
Lemma after_read_ok n v d s buf k : pipe_at n v d s -> (k <= Z.to_nat (PIPE_SIZE v))%nat ->
  let l := take k (pipe_bytes v d) in let v' := set_PIPE_TAIL ((PIPE_TAIL v + Z.of_nat (length l)) mod PAGE_SIZE) v in
  pipe_at n v' d (after_read n v buf l s) /\ pipe_bytes v' d = drop k (pipe_bytes v d) /\ PIPE_SIZE v' = PIPE_SIZE v - Z.of_nat k.
Proof using.
  intros [H1 H2 H3 H4 H5 H6] Hk l v'. assert (Hl : length l = k) by (unfold l, pipe_bytes; rewrite length_take, length_ring; lia).
  destruct (set_tail v ((PIPE_TAIL v + Z.of_nat (length l)) mod PAGE_SIZE) H2) as [Ht Hh]. fold v' in Ht, Hh. rewrite Hl in Ht.
  destruct (pipe_size v H3 H4) as (Hs & Hsr & Hhd). assert (Htr : 0 <= PIPE_TAIL v' < PAGE_SIZE) by (rewrite Ht; apply Z.mod_pos_bound; done).
  assert (Hsz : PIPE_SIZE v' = PIPE_SIZE v - Z.of_nat k).
  { destruct (pipe_size v') as [-> _]; [by rewrite Hh|done|]. rewrite Hh, Ht, Hhd, <-Zminus_mod. rewrite Z.mod_small; lia. }
  split; [|split; [|done]].
  - split; [|by unfold v'; cbn; rewrite length_insert|by rewrite Hh|done|done|done]. unfold after_read. cbn [inode_table set_inode_table]. apply aget_insert_eq. by eapply aget_Some_range.
  - unfold pipe_bytes. rewrite Hsz, Ht. replace (Z.to_nat (PIPE_SIZE v)) with (k + Z.to_nat (PIPE_SIZE v - Z.of_nat k))%nat by lia. rewrite ring_app, drop_app_length'; [done|]. by rewrite length_ring.
Qed.

Lemma after_read_trans n v d s buf k j : pipe_at n v d s -> (k + j <= Z.to_nat (PIPE_SIZE v))%nat ->
  let l := take k (pipe_bytes v d) in let v' := set_PIPE_TAIL ((PIPE_TAIL v + Z.of_nat (length l)) mod PAGE_SIZE) v in
  after_read n v' (buf + Z.of_nat k) (take j (pipe_bytes v' d)) (after_read n v buf l s) = after_read n v buf (take (k + j) (pipe_bytes v d)) s.
Proof using.
  intros Hp Hk l v'. destruct (after_read_ok n v d s buf k Hp ltac:(lia)) as (Hp' & Hb & Hsz). fold l in Hp', Hb, Hsz. fold v' in Hp', Hb, Hsz. pose proof Hp as [H1 H2 H3 H4 H5 H6].
  assert (Hl : length l = k) by (unfold l, pipe_bytes; rewrite length_take, length_ring; lia).
  assert (Hc : take (k + j) (pipe_bytes v d) = l ++ take j (drop k (pipe_bytes v d))) by (unfold l; by rewrite take_take_drop).
  rewrite Hb, Hc. set (l2 := take j (drop k (pipe_bytes v d))). unfold after_read. cbn [inode_table set_inode_table set_fkern fkern]. unfold set_inode_table, set_fkern. cbn [fkern fcache inode_table super_blocks last_inode file_table fpages].
  f_equal; [destruct (fkern s); unfold add_events; cbn; rewrite puts_app, Hl, app_assoc; done|]. rewrite list_insert_insert_eq. f_equal. unfold v'. rewrite (proj1 (set_tail v _ H2)), length_app, Hl.
  rewrite Zplus_mod_idemp_l. unfold set_PIPE_TAIL. cbn [i_data set_i_data]. rewrite list_insert_insert_eq. replace (PIPE_TAIL v + Z.of_nat k + Z.of_nat (length l2)) with (PIPE_TAIL v + Z.of_nat (k + length l2)) by lia. by destruct v.
Qed.

Lemma read_round_run n v d s count read buf : pipe_at n v d s -> 0 <= count ->
  let k := Z.to_nat (Z.min (Z.min (PAGE_SIZE - PIPE_TAIL v) count) (PIPE_SIZE v)) in
  read_round n (count, read, buf) s =
    if (0 <? count) && truth (PIPE_SIZE v) then Ok (inl (count - Z.of_nat k, read + Z.of_nat k, buf + Z.of_nat k)) (after_read n v buf (take k (pipe_bytes v d)) s)
    else Ok (inr read) s.
Proof using.
  intros Hp Hc k. pose proof Hp as [H1 H2 H3 H4 H5 H6]. destruct (pipe_size v H3 H4) as (Hs & Hsr & Hhd). unfold read_round. rewrite (run_bind _ _ _ v s) by (by apply inode_at_at).
  destruct ((0 <? count) && truth (PIPE_SIZE v)); [|done]. unfold PAGE_SIZE in *. rewrite s32_small by (unfold in_s32; lia). set (chars := Z.min (Z.min (4096 - PIPE_TAIL v) count) (PIPE_SIZE v)) in *.
  assert (Hk : Z.of_nat k = chars) by lia. assert (Hl : length (take k (pipe_bytes v d)) = k) by (unfold pipe_bytes; rewrite length_take, length_ring; lia).
  rewrite (run_bind _ _ _ tt _) by (by apply inode_upd_at). set (s1 := set_inode_table _ s).
  rewrite (run_bind _ _ _ d s1) by (unfold pipe_page; rewrite (run_bind _ _ _ s1 s1) by reflexivity; by change (fpages s1) with (fpages s); rewrite H5).
  fold k. rewrite (run_bind _ _ _ _ _ (copy_out_run d H6 k (PIPE_TAIL v) buf s1 ltac:(lia) ltac:(unfold PAGE_SIZE; lia))).
  replace (Z.max 0 chars) with (Z.of_nat k) by lia. rewrite Hk. f_equal. unfold after_read. rewrite Hl, Hk.
  assert (Ht : take k (drop (Z.to_nat (PIPE_TAIL v)) d) = take k (pipe_bytes v d)).
  { rewrite <-(ring_flat d (PIPE_TAIL v) k H6) by (unfold PAGE_SIZE; lia). unfold pipe_bytes. replace (Z.to_nat (PIPE_SIZE v)) with (k + (Z.to_nat (PIPE_SIZE v) - k))%nat by lia.
    rewrite ring_app, take_app_length'; [done|]. by rewrite length_ring. }
  rewrite Ht. unfold s1, PAGE_SIZE. change (4096 - 1) with 4095.
  assert (E : Z.land (u32 (PIPE_TAIL v + chars)) 4095 = (PIPE_TAIL v + chars) mod 4096) by (apply (land_page (PIPE_TAIL v + chars)); unfold PAGE_SIZE; lia). by rewrite E.
Qed.

Lemma read_loop_run n d : forall fuel v s count read buf, pipe_at n v d s -> 0 <= count -> (Z.to_nat (PIPE_SIZE v) < fuel)%nat ->
  let k := Z.to_nat (Z.min count (PIPE_SIZE v)) in
  iter fuel (read_round n) (count, read, buf) s = Ok (read + Z.of_nat k) (if decide (k = 0%nat) then s else after_read n v buf (take k (pipe_bytes v d)) s).
Proof using.
  induction fuel as [|fuel IH]; intros v s count read buf Hp Hc Hf k; [lia|]. pose proof Hp as [H1 H2 H3 H4 H5 H6]. destruct (pipe_size v H3 H4) as (Hs & Hsr & Hhd). cbn [iter].
  pose proof (read_round_run n v d s count read buf Hp Hc) as R. cbn zeta in R. destruct ((0 <? count) && truth (PIPE_SIZE v)) eqn:E.
  - apply andb_true_iff in E as [Ec Es]. apply Z.ltb_lt in Ec. unfold truth in Es. apply negb_true_iff, Z.eqb_neq in Es.
    set (c := Z.to_nat (Z.min (Z.min (PAGE_SIZE - PIPE_TAIL v) count) (PIPE_SIZE v))) in *. assert (Hck : (0 < c <= k)%nat) by lia. rewrite (run_bind _ _ _ _ _ R).
    destruct (after_read_ok n v d s buf c Hp ltac:(lia)) as (Hp' & Hb & Hsz). set (l := take c (pipe_bytes v d)) in *. set (v' := set_PIPE_TAIL ((PIPE_TAIL v + Z.of_nat (length l)) mod PAGE_SIZE) v) in *.
    rewrite (IH v' (after_read n v buf l s) (count - Z.of_nat c) (read + Z.of_nat c) (buf + Z.of_nat c) Hp' ltac:(lia) ltac:(lia)). rewrite Hsz.
    replace (Z.to_nat (Z.min (count - Z.of_nat c) (PIPE_SIZE v - Z.of_nat c))) with (k - c)%nat by lia. rewrite (decide_False (P := k = 0%nat)) by lia. f_equal; [lia|].
    destruct (decide ((k - c)%nat = 0%nat)); [by assert (c = k) as <- by lia|]. pose proof (after_read_trans n v d s buf c (k - c) Hp ltac:(lia)) as Ht. cbn zeta in Ht. fold l in Ht. fold v' in Ht.
    rewrite Ht. by replace (c + (k - c))%nat with k by lia.
  - rewrite (run_bind _ _ _ _ _ R). assert (k = 0%nat) as ->; [|rewrite decide_True by done; by rewrite Z.add_0_r].
    unfold truth in E. apply andb_false_iff in E as [E|E]; [apply Z.ltb_ge in E; lia|]. apply negb_false_iff, Z.eqb_eq in E. lia.
Qed.

(** *** Writing *)

Lemma length_user_bytes fs buf n : length (user_bytes fs buf n) = n.
Proof using. unfold user_bytes. by rewrite length_fmap, length_range. Qed.

Lemma user_bytes_app fs buf a b : user_bytes fs buf (a + b) = user_bytes fs buf a ++ user_bytes fs (buf + Z.of_nat a) b.
Proof using.
  unfold user_bytes, range. rewrite seq_app, !fmap_app. f_equal. rewrite <-(Nat.add_0_r (0 + a)), <-(Nat.add_0_l a) at 1. cbn [Nat.add].
  rewrite <-(fmap_add_seq a 0 b), <-!list_fmap_compose. apply list_fmap_ext. intros i x _. unfold compose. f_equal. lia.
Qed.

Lemma copy_in_run fs : forall k d o buf (s : fss C), length d = 4096%nat -> 0 <= o -> o + Z.of_nat k <= PAGE_SIZE ->
  copy_in fs d k o buf s = Ok (take (Z.to_nat o) d ++ user_bytes fs buf k ++ drop (Z.to_nat o + k) d) s.
Proof using.
  unfold PAGE_SIZE. induction k as [|k IH]; intros d o buf s Hl Ho Hk; cbn [copy_in]; [rewrite Nat.add_0_r; cbn; by rewrite take_drop|].
  rewrite aset_in_range by lia. rewrite (run_bind _ _ _ (<[Z.to_nat o := get_fs_byte fs buf]> d) s) by reflexivity. rewrite IH by (rewrite ?length_insert; lia). f_equal.
  replace (S k) with (1 + k)%nat by lia. rewrite user_bytes_app. replace (Z.to_nat (o + 1)) with (S (Z.to_nat o)) by lia.
  rewrite (take_S_r _ _ (get_fs_byte fs buf)) by (rewrite list_lookup_insert_eq by lia; done). rewrite take_insert_ge, drop_insert_lt by lia. rewrite <-app_assoc. f_equal. cbn [app]. 
  change (user_bytes fs buf 1) with [get_fs_byte fs (buf + (0 + Z.of_nat 0))]. rewrite Z.add_0_r. cbn [app]. do 3 f_equal. lia.
Qed.

Lemma set_head v h : length (i_data v) = 16%nat -> PIPE_HEAD (set_PIPE_HEAD h v) = h /\ PIPE_TAIL (set_PIPE_HEAD h v) = PIPE_TAIL v.
Proof using.
  intros Hl. unfold PIPE_TAIL, PIPE_HEAD, set_PIPE_HEAD. cbn [i_data set_i_data]. destruct (i_data v) as [|a [|b l]]; try done.
Qed.

Definition with_pipe (n : Z) (v : inode) (d : list Z) (s : fss C) : fss C :=
  set_fpages (<[u32 (i_size v) := d]> (fpages s)) (set_inode_table (<[Z.to_nat n := v]> (inode_table s)) s).

Lemma with_pipe_trans n v d v' d' s : i_size v' = i_size v -> with_pipe n v' d' (with_pipe n v d s) = with_pipe n v' d' s.
Proof using. intros E. unfold with_pipe. cbn. rewrite E, insert_insert_eq. unfold set_fpages, set_inode_table. cbn. by rewrite list_insert_insert_eq. Qed.

(** One round of writing, with room. *)
Lemma write_round_run patience fs n v d s count written buf : (0 < patience)%nat -> pipe_at n v d s -> 0 < count -> PIPE_SIZE v < PAGE_SIZE - 1 ->
  let k := Z.to_nat (Z.min (Z.min (PAGE_SIZE - PIPE_HEAD v) count) (PAGE_SIZE - 1 - PIPE_SIZE v)) in
  exists v' d', write_round patience fs n (count, written, buf) s = Ok (inl (count - Z.of_nat k, written + Z.of_nat k, buf + Z.of_nat k)) (with_pipe n v' d' s) /\
    pipe_at n v' d' (with_pipe n v' d' s) /\ pipe_bytes v' d' = pipe_bytes v d ++ user_bytes fs buf k /\ PIPE_SIZE v' = PIPE_SIZE v + Z.of_nat k /\ v' = set_PIPE_HEAD (PIPE_HEAD v') v.
Proof using.
  intros Hpt Hp Hc Hroom k. pose proof Hp as [H1 H2 H3 H4 H5 H6]. destruct (pipe_size v H3 H4) as (Hs & Hsr & Hhd). set (l := user_bytes fs buf k). assert (Hl : length l = k) by apply length_user_bytes.
  set (v' := set_PIPE_HEAD ((PIPE_HEAD v + Z.of_nat k) mod PAGE_SIZE) v). set (d' := take (Z.to_nat (PIPE_HEAD v)) d ++ l ++ drop (Z.to_nat (PIPE_HEAD v) + k) d).
  destruct (set_head v ((PIPE_HEAD v + Z.of_nat k) mod PAGE_SIZE) H2) as [Hh Ht]. fold v' in Hh, Ht.
  assert (Hkr : 0 < Z.of_nat k /\ PIPE_HEAD v + Z.of_nat k <= PAGE_SIZE /\ PIPE_SIZE v + Z.of_nat k < PAGE_SIZE) by (unfold PAGE_SIZE in *; lia).
  assert (Hhr : 0 <= PIPE_HEAD v' < PAGE_SIZE) by (rewrite Hh; apply Z.mod_pos_bound; done).
  assert (Hsz : PIPE_SIZE v' = PIPE_SIZE v + Z.of_nat k).
  { destruct (pipe_size v' Hhr) as [-> _]; [by rewrite Ht|]. rewrite Hh, Ht, Hhd, Zplus_mod_idemp_l, Zminus_mod_idemp_l. replace (PIPE_TAIL v + PIPE_SIZE v + Z.of_nat k - PIPE_TAIL v) with (PIPE_SIZE v + Z.of_nat k) by lia. rewrite Z.mod_small; lia. }
  exists v', d'. split; [|split; [|split; [|split; [done|by rewrite Hh]]]].
  - unfold write_round. destruct (Z.ltb_spec 0 count); [|lia]. rewrite (run_bind _ _ _ None s).
    2:{ destruct patience; [lia|]. cbn [iter]. rewrite (run_bind _ _ _ (inr None) s); [done|]. unfold write_wait_step. rewrite (run_bind _ _ _ v s) by (by apply inode_at_at). unfold truth. destruct (Z.eqb_spec (PAGE_SIZE - 1 - PIPE_SIZE v) 0); [lia|done]. }
    rewrite (run_bind _ _ _ v s) by (by apply inode_at_at). rewrite s32_small by (unfold in_s32, PAGE_SIZE in *; lia). set (chars := Z.min (Z.min (PAGE_SIZE - PIPE_HEAD v) count) (PAGE_SIZE - 1 - PIPE_SIZE v)) in *. assert (Hk : chars = Z.of_nat k) by lia. rewrite Hk.
    rewrite (run_bind _ _ _ tt _) by (by apply inode_upd_at). cbn beta; rewrite land_page by lia. fold v'. set (s1 := set_inode_table _ s).
    rewrite (run_bind _ _ _ d s1) by (unfold pipe_page; rewrite (run_bind _ _ _ s1 s1) by reflexivity; by change (fpages s1) with (fpages s); rewrite H5).
    rewrite Nat2Z.id. rewrite (run_bind _ _ _ _ _ (copy_in_run fs k d (PIPE_HEAD v) buf s1 H6 ltac:(lia) ltac:(lia))). fold l d'. rewrite (run_bind _ _ _ tt (with_pipe n v' d' s)) by reflexivity.
    by replace (Z.max 0 (Z.of_nat k)) with (Z.of_nat k) by lia.
  - split; [apply aget_insert_eq; by eapply aget_Some_range|by unfold v'; cbn; rewrite length_insert|done|by rewrite Ht|apply lookup_insert_eq|].
    unfold d'. rewrite !length_app, length_take, length_drop. unfold PAGE_SIZE in *. lia.
  - unfold pipe_bytes. rewrite Hsz, Ht. replace (Z.to_nat (PIPE_SIZE v + Z.of_nat k)) with (Z.to_nat (PIPE_SIZE v) + k)%nat by lia. rewrite ring_app, Z2Nat.id, <-Hhd by lia.
    assert (Ed : d' = take (Z.to_nat (PIPE_HEAD v)) d ++ l ++ drop (Z.to_nat (PIPE_HEAD v) + length l) d) by (unfold d'; by rewrite Hl). rewrite Ed.
    rewrite ring_other by (rewrite ?Hl, ?Z2Nat.id; done || lia). f_equal.
    etransitivity; [|apply (ring_written d (PIPE_HEAD v) l H6); [lia|rewrite Hl; lia]]. by rewrite Hl.
Qed.

Lemma write_loop_run patience fs n : (0 < patience)%nat -> forall fuel v d s count written buf, pipe_at n v d s -> 0 <= count -> PIPE_SIZE v + count <= PAGE_SIZE - 1 -> (Z.to_nat count < fuel)%nat ->
  exists v' d' s', iter fuel (write_round patience fs n) (count, written, buf) s = Ok (written + count, true) s' /\ pipe_at n v' d' s' /\
    pipe_bytes v' d' = pipe_bytes v d ++ user_bytes fs buf (Z.to_nat count) /\ fkern s' = fkern s /\ (s' = s \/ s' = with_pipe n v' d' s) /\ v' = set_PIPE_HEAD (PIPE_HEAD v') v.
Proof using.
  intros Hpt. induction fuel as [|fuel IH]; intros v d s count written buf Hp Hc Hroom Hf; [lia|]. cbn [iter]. destruct (Z.eq_dec count 0) as [->|Hne].
  - exists v, d, s. assert (R : write_round patience fs n (0, written, buf) s = Ok (inr (written, true)) s) by done. rewrite (run_bind _ _ _ _ _ R). rewrite Z.add_0_r, app_nil_r. split; [done|]. split; [done|]. split; [done|]. split; [done|]. split; [by left|].
    pose proof (pa_data _ _ _ _ Hp) as Hl. unfold set_PIPE_HEAD, PIPE_HEAD. destruct v as [? ? ? ? ? ? ? ? ? ? ? dd]; cbn in *. destruct dd; [done|]. done.
  - destruct (write_round_run patience fs n v d s count written buf Hpt Hp ltac:(lia) ltac:(lia)) as (v1 & d1 & R & Hp1 & Hb1 & Hs1 & Hv1). pose proof Hp as [H1 H2 H3 H4 H5 H6].
    set (k := Z.to_nat (Z.min (Z.min (PAGE_SIZE - PIPE_HEAD v) count) (PAGE_SIZE - 1 - PIPE_SIZE v))) in *. rewrite (run_bind _ _ _ _ _ R). assert (Hk : (0 < k)%nat /\ Z.of_nat k <= count) by lia.
    destruct (IH v1 d1 (with_pipe n v1 d1 s) (count - Z.of_nat k) (written + Z.of_nat k) (buf + Z.of_nat k) Hp1) as (v2 & d2 & s2 & R2 & Hp2 & Hb2 & Hk2 & Hs2 & Hv2); [lia|lia|lia|].
    assert (Hpv : forall h h', set_PIPE_HEAD h' (set_PIPE_HEAD h v) = set_PIPE_HEAD h' v) by (intros h h'; unfold set_PIPE_HEAD; cbn [i_data set_i_data]; by rewrite list_insert_insert_eq).
    exists v2, d2, s2. split; [rewrite R2; do 2 f_equal; lia|]. split; [done|]. split; [|split; [by rewrite Hk2|split]].
    + rewrite Hb2, Hb1, <-app_assoc, <-user_bytes_app. do 2 f_equal. lia.
    + right. destruct Hs2 as [->| ->].
      * assert (Ev : v2 = v1) by (pose proof (pa_inode _ _ _ _ Hp2); pose proof (pa_inode _ _ _ _ Hp1); congruence).
        assert (Ed : d2 = d1) by (subst v2; pose proof (pa_page _ _ _ _ Hp2); pose proof (pa_page _ _ _ _ Hp1); congruence). by subst.
      * apply with_pipe_trans. by rewrite Hv2.
    + rewrite Hv2 at 1. rewrite Hv1. apply Hpv.
Qed.

(** C32: A pipe is a queue of bytes that holds 4095 of them.  Reading takes the oldest
    bytes, as many as are asked for and there, puts them into user memory in order
    and wakes the writers; writing what there is room for appends it and wakes the
    readers; both keep the ring in order, also where it wraps around.  Reading from
    an empty pipe without blocking returns -EAGAIN. *)
Theorem pipe_is_queue patience n v d s : (4096 <= patience)%nat -> pipe_at n v d s ->
  (forall filp f buf count, aget (file_table s) filp = Some f -> 0 < count -> pipe_bytes v d <> [] ->
     let k := Nat.min (Z.to_nat count) (length (pipe_bytes v d)) in let l := take k (pipe_bytes v d) in
     let v' := set_PIPE_TAIL ((PIPE_TAIL v + Z.of_nat (length l)) mod PAGE_SIZE) v in
     pipe_read patience n filp buf count s = (on_task (wake_up (i_wait2 n));; mret (Z.of_nat k)) (after_read n v buf l s) /\
     pipe_at n v' d (after_read n v buf l s) /\ pipe_bytes v' d = drop k (pipe_bytes v d)) /\
  (forall filp f buf count, aget (file_table s) filp = Some f -> truth (Z.land (f_flags f) O_NONBLOCK) = true -> 0 <= count -> pipe_bytes v d = [] ->
     pipe_read patience n filp buf count s = (on_task (wake_up (i_wait2 n));; mret (- EAGAIN)) s) /\
  (forall fs buf count, 0 <= count -> Z.of_nat (length (pipe_bytes v d)) + count <= 4095 ->
     exists v' d' s', pipe_write patience fs n buf count s = (on_task (wake_up (i_wait n));; mret count) s' /\ pipe_at n v' d' s' /\ fkern s' = fkern s /\
       pipe_bytes v' d' = pipe_bytes v d ++ user_bytes fs buf (Z.to_nat count)).
Proof using.
  intros Hpt Hp. pose proof Hp as [H1 H2 H3 H4 H5 H6]. destruct (pipe_size v H3 H4) as (Hs & Hsr & Hhd).
  assert (Hlen : length (pipe_bytes v d) = Z.to_nat (PIPE_SIZE v)) by apply length_ring. split; [|split].
  - intros filp f buf count Hfl Hc Hne k l v'. assert (Hk : k = Nat.min (Z.to_nat count) (Z.to_nat (PIPE_SIZE v))) by (unfold k; by rewrite Hlen). clearbody k. assert (Hn0 : PIPE_SIZE v <> 0) by (intros E; apply Hne; unfold pipe_bytes; by rewrite E).
    destruct (after_read_ok n v d s buf k Hp ltac:(lia)) as (Hp' & Hb & _). split; [|done]. unfold pipe_read.
    rewrite (run_bind _ _ _ f s) by (unfold file_at; rewrite (run_bind _ _ _ s s) by reflexivity; by rewrite Hfl). rewrite (run_bind _ _ _ None s).
    2:{ destruct (truth (Z.land (f_flags f) O_NONBLOCK)); [done|]. destruct patience; [lia|]. cbn [iter]. rewrite (run_bind _ _ _ (inr None) s); [done|].
        unfold read_wait_step. rewrite (run_bind _ _ _ v s) by (by apply inode_at_at). unfold truth. destruct (Z.eqb_spec (PIPE_SIZE v) 0); done. }
    rewrite (run_bind _ _ _ _ _ (read_loop_run n d patience v s count 0 buf Hp ltac:(lia) ltac:(unfold PAGE_SIZE in *; lia))).
    replace (Z.to_nat (Z.min count (PIPE_SIZE v))) with k by lia. rewrite (decide_False (P := k = 0%nat)) by lia. rewrite Z.add_0_l. fold l. unfold truth. destruct (Z.eqb_spec (Z.of_nat k) 0); [lia|]. done.
  - intros filp f buf count Hfl Hnb Hc Hem. assert (H0 : PIPE_SIZE v = 0) by (rewrite Hem in Hlen; cbn in Hlen; lia). unfold pipe_read.
    rewrite (run_bind _ _ _ f s) by (unfold file_at; rewrite (run_bind _ _ _ s s) by reflexivity; by rewrite Hfl). rewrite Hnb. rewrite (run_bind _ _ _ None s) by reflexivity.
    pose proof (read_loop_run n d patience v s count 0 buf Hp Hc ltac:(unfold PAGE_SIZE in *; lia)) as R. cbn zeta in R. rewrite H0 in R. replace (Z.to_nat (Z.min count 0)) with 0%nat in R by lia.
    by rewrite (run_bind _ _ _ _ _ R).
  - intros fs buf count Hc Hroom. rewrite Hlen in Hroom.
    destruct (write_loop_run patience fs n ltac:(lia) patience v d s count 0 buf Hp Hc) as (v' & d' & s' & R & Hp' & Hb & Hk & _); [unfold PAGE_SIZE in *; lia|lia|].
    exists v', d', s'. split; [|done]. unfold pipe_write. rewrite (run_bind _ _ _ _ _ R). by rewrite Z.add_0_l.
Qed.

End PipeOk.

(** ** A pipe with two bytes at the end of its page *)

#[local] Instance quiet_pipe : FsEnv unit := {| fs_sleep := fun _ => mret tt; fs_yield := mret tt |}.

Definition demo_pipe : inode := set_i_size 0x5000 (set_i_data (0 :: 4094 :: replicate 14 0) zero_inode).
Definition demo_page : list Z := replicate 4094 0 ++ [104; 105].
Definition demo_pipes : fss unit := Fss demo_alone tt [demo_pipe] [] 0 [File 1 O_NONBLOCK 1 (Some 0) false 0] {[ 0x5000 := demo_page ]} 0.

Lemma demo_pipe_at : pipe_at 0 demo_pipe demo_page demo_pipes.
Proof. split; [done|done|vm_compute; split; [discriminate|done]|vm_compute; split; [discriminate|done]|vm_compute; done|by vm_compute]. Qed.

Lemma demo_bytes : pipe_bytes demo_pipe demo_page = [104; 105].
Proof. vm_compute. reflexivity. Qed.

Lemma pipe_is_queue_witness :
  pipe_read 5000 0 0 9 10 demo_pipes = (on_task (wake_up (i_wait2 0));; mret 2) (after_read 0 demo_pipe 9 [104; 105] demo_pipes) /\
  exists v' d' s', pipe_write 5000 (fun _ => 33) 0 9 3 demo_pipes = (on_task (wake_up (i_wait 0));; mret 3) s' /\ pipe_at 0 v' d' s' /\ fkern s' = fkern demo_pipes /\
    pipe_bytes v' d' = [104; 105] ++ user_bytes (fun _ => 33) 9 3.
Proof.
  destruct (pipe_is_queue 5000 0 demo_pipe demo_page demo_pipes ltac:(lia) demo_pipe_at) as (Hr & _ & Hw). rewrite demo_bytes in Hr, Hw. split.
  - apply (Hr 0 (File 1 O_NONBLOCK 1 (Some 0) false 0) 9 10); done.
  - apply (Hw (fun _ => 33) 9 3); [lia|cbn; lia].
Defined.
