(* ===== verification/InodeOk.v ===== *)
(** * Theorems about inodes

    What [minix_write_inode] writes, [minix_read_inode] reads; [get_empty_inode]
    takes an entry nobody uses, and [iget] never has the same inode twice. *)

From S2P Require Import Prelude TaskStruct Sched Sys Fs Store Minix MinixOk Bmap Inode.

(** ** Writing the words of an inode *)

Lemma word_with_word16 d i v k : block_data d -> 0 <= i < 512 -> 0 <= k < 512 -> word_at (with_word d i v) k = if decide (k = i) then u16 v else word_at d k.
Proof.
  intros [Hl _] Hi Hk. unfold word_at, with_word. unfold BLOCK_SIZE in Hl. destruct (decide (k = i)) as [->|Hne].
  - rewrite aget_insert_ne by lia. rewrite aget_insert_eq by lia. rewrite aget_insert_eq by (rewrite length_insert; lia). cbn [default].
    unfold u8, u16, id. rewrite Z.shiftr_div_pow2 by lia. change (2 ^ 8) with 256. change (2 ^ 16) with (256 * 256). rewrite (Z.rem_mul_r v 256 256) by lia. done.
  - rewrite !aget_insert_ne by lia. done.
Qed.

(** The bytes [lo] and [hi] as a word. *)
Lemma bytes_word d i lo hi : in_u8 lo -> in_u8 hi -> <[Z.to_nat (2 * i + 1) := hi]> (<[Z.to_nat (2 * i) := lo]> d) = with_word d i (lo + 256 * hi).
Proof.
  unfold in_u8. intros Hlo Hhi. unfold with_word. f_equal.
  - unfold u8. rewrite Z.shiftr_div_pow2 by lia. change (2 ^ 8) with 256. rewrite (Z.mul_comm 256 hi), Z.div_add by lia. rewrite (Z.div_small lo) by lia. rewrite Z.mod_small; lia.
  - f_equal. unfold u8. change (2 ^ 8) with 256. rewrite (Z.mul_comm 256 hi), Z.mod_add by lia. by rewrite Z.mod_small by lia.
Qed.

(** [n] words from [k] on. *)
Fixpoint with_words (d : list Z) (k : Z) (l : list Z) : list Z :=
  match l with [] => d | v :: l' => with_words (with_word d k v) (k + 1) l' end.

Lemma with_words_data d k l : block_data d -> block_data (with_words d k l).
Proof. revert d k. induction l as [|v l IH]; intros d k Hd; [done|]. apply IH. by apply with_word_data. Qed.

Lemma with_words_app d k l1 l2 : with_words d k (l1 ++ l2) = with_words (with_words d k l1) (k + Z.of_nat (length l1)) l2.
Proof.
  revert d k. induction l1 as [|v l1 IH]; intros d k; cbn [with_words app length]; [by rewrite Z.add_0_r|]. rewrite IH. f_equal. lia.
Qed.

Lemma word_with_words d k l j : block_data d -> 0 <= k -> k + Z.of_nat (length l) <= 512 -> 0 <= j < 512 ->
  word_at (with_words d k l) j = if decide (k <= j < k + Z.of_nat (length l)) then u16 (default 0 (aget l (j - k))) else word_at d j.
Proof.
  revert d k. induction l as [|v l IH]; intros d k Hd Hk Hl Hj; cbn [with_words length] in *; [rewrite decide_False by lia; done|].
  rewrite IH by (try apply with_word_data; done || lia). destruct (decide (k + 1 <= j < k + 1 + Z.of_nat (length l))) as [Hin|Hout].
  - rewrite decide_True by lia. do 2 f_equal. unfold aget. destruct (Z.ltb_spec (j - k) 0); [lia|]. destruct (Z.ltb_spec (j - (k + 1)) 0); [lia|].
    by replace (Z.to_nat (j - k)) with (S (Z.to_nat (j - (k + 1)))) by lia.
  - rewrite word_with_word16 by (done || lia). destruct (decide (j = k)) as [->|Hne]; [rewrite decide_True by lia; by rewrite Z.sub_diag|]. rewrite decide_False by lia. done.
Qed.

(** Words of a block, the last one written first. *)
Fixpoint with_fields (d : list Z) (k : Z) (l : list (Z * Z)) : list Z :=
  match l with [] => d | (j, v) :: l' => with_word (with_fields d k l') (k + j) v end.
Fixpoint field (l : list (Z * Z)) (j : Z) : option Z :=
  match l with [] => None | (i, v) :: l' => if j =? i then Some v else field l' j end.

Lemma with_fields_data d k l : block_data d -> block_data (with_fields d k l).
Proof. intros Hd. induction l as [|[j v] l IH]; [done|]. by apply with_word_data. Qed.

Lemma word_with_fields d k l j : block_data d -> Forall (fun x => 0 <= k + x.1 < 512) l -> 0 <= k + j < 512 ->
  word_at (with_fields d k l) (k + j) = match field l j with Some v => u16 v | None => word_at d (k + j) end.
Proof.
  intros Hd Hl Hj. induction Hl as [|[i v] l Hi Hl IH]; cbn [with_fields field]; [done|]. cbn [fst] in Hi. rewrite word_with_word16 by (try apply with_fields_data; done).
  destruct (Z.eqb_spec j i) as [->|Hne]; [by rewrite decide_True|]. by rewrite decide_False by lia.
Qed.

(** A [struct minix_inode]: its words before the zones, and the zones. *)
Definition inode_fields (v : inode) : list (Z * Z) :=
  [(5, Z.shiftr (u32 (i_mtime v)) 16); (4, i_mtime v); (3, Z.shiftr (u32 (i_size v)) 16); (2, i_size v); (6, u8 (i_gid v) + 256 * i_nlink v); (1, i_uid v); (0, i_mode v)].
Definition inode_zones (v : inode) : list Z := if S_ISCHR (i_mode v) || S_ISBLK (i_mode v) then [i_rdev v] else take 9 (i_data v).
Definition inode_image (d : list Z) (k : Z) (v : inode) : list Z := with_words (with_fields d k (inode_fields v)) (k + 7) (inode_zones v).

Section InodeOk.
Context {C : Type} {HB : BufferCache C} {HV : CacheView C} {HL : BufferCacheOk C}.

(** The buffer [x] of block [b], with the data [d] instead. *)
Record edited (c : C) (x : Z) (b : Z * Z) (w : bview) (d : list Z) (c' : C) : Prop := {
  ed_wf : cwf c';
  ed_view : becomes c c' b (set_bv_data d w);
  ed_id : bv_id w = x
}.

Lemma edited_buffer c x b w d c' : edited c x b w d c' -> buffer c' x b (set_bv_data d w).
Proof using. intros [_ H2 H3]. pose proof (becomes_buffer _ _ _ _ H2) as Hb. cbn [bv_id set_bv_data] in Hb. by rewrite H3 in Hb. Qed.

Lemma edit_byte c x b w d c' i v : edited c x b w d c' -> 0 <= i < BLOCK_SIZE -> in_u8 v -> exists c2, set_bh_byte x i v c' = Ok tt c2 /\ edited c x b w (<[Z.to_nat i := v]> d) c2.
Proof using HL.
  intros He Hi Hv. destruct (set_bh_byte_law x b _ i v c' (ed_wf _ _ _ _ _ _ He) (edited_buffer _ _ _ _ _ _ He) Hi Hv) as (c2 & R & Hc & Hb). exists c2. split; [done|].
  split; [done| |by apply (ed_id _ _ _ _ _ _ He)]. exact (becomes_trans _ _ _ _ _ _ (ed_view _ _ _ _ _ _ He) Hb).
Qed.

Lemma edit_word c x b w d c' i v : edited c x b w d c' -> 0 <= i < 512 -> exists c2, set_bh_word x i v c' = Ok tt c2 /\ edited c x b w (with_word d i v) c2.
Proof using HL.
  intros He Hi. destruct (edit_byte _ _ _ _ _ _ (2 * i) (u8 v) He) as (c1 & R1 & He1); [unfold BLOCK_SIZE; lia|apply u8_range|].
  destruct (edit_byte _ _ _ _ _ _ (2 * i + 1) (u8 (Z.shiftr v 8)) He1) as (c2 & R2 & He2); [unfold BLOCK_SIZE; lia|apply u8_range|].
  exists c2. split; [|done]. unfold set_bh_word. by rewrite (run_bind _ _ _ _ _ R1).
Qed.

(** The loop over the zones. *)
Lemma edit_zones c x b w (s : fss C) k0 dat : 0 <= k0 -> k0 + 9 <= 512 -> length dat = 16%nat -> forall n d c', (n <= 9)%nat -> edited c x b w d c' ->
  exists c2, for_each (range 0 n) (fun e => z ← ofOpt (aget dat e); on_cache (set_bh_word x (k0 + e) z)) (set_fcache c' s) = Ok tt (set_fcache c2 s) /\ edited c x b w (with_words d k0 (take n dat)) c2.
Proof using HL.
  intros Hk0 Hk9 Hl. induction n as [|n IH]; intros d c' Hn He; [exists c'; done|]. destruct (IH d c' ltac:(lia) He) as (c1 & R1 & He1). rewrite range_S, for_each_app, (run_bind _ _ _ _ _ R1).
  destruct (aget_in_range dat (Z.of_nat n)) as [z Hz]; [lia|]. destruct (edit_word _ _ _ _ _ _ (k0 + (0 + Z.of_nat n)) z He1) as (c2 & R2 & He2); [lia|]. exists c2. cbn [for_each]. split.
  - rewrite (run_bind _ _ _ tt (set_fcache c2 s)); [done|]. rewrite Z.add_0_l in *. rewrite Hz. rewrite (run_bind _ _ _ z (set_fcache c1 s)) by reflexivity. by apply on_cache_at.
  - unfold aget in Hz. destruct (Z.ltb_spec (Z.of_nat n) 0); [lia|]. rewrite Nat2Z.id in Hz. rewrite (take_S_r _ _ z) by done. rewrite with_words_app. rewrite length_take. replace (n `min` length dat)%nat with n by lia. by rewrite Z.add_0_l in He2.
Qed.

(** The cache after block [b] has been given new data [d], and given back. *)
Record block_written (b : Z * Z) (d : list Z) (c c' : C) : Prop := {
  bw_wf : cwf c';
  bw_this : content c' b = d;
  bw_settled : forall w, held c' !! b = Some w -> settled c' b w;
  bw_refs : refs c' b = refs c b;
  bw_dom : dom (held c') = dom (held c);
  bw_cap : capacity c' = capacity c;
  bw_other : forall a, a <> b -> held c' !! a = held c !! a /\ content c' a = content c a
}.

(** Taking the buffer of a block, changing its data and giving it back. *)
Lemma give_back c c1 c2 b x w d : cwf c -> cwf c2 -> becomes c c1 b w -> bv_id w = x -> bv_count w = refs c b + 1 -> bv_up w = true ->
  becomes c1 c2 b (set_bv_dirt true (set_bv_data d w)) -> exists c3, brelse (Some x) c2 = Ok tt c3 /\ block_written b d c c3.
Proof using HL.
  intros Hc Hc2 Hb1 Hi Hn Hu Hb2. set (w2 := set_bv_dirt true (set_bv_data d w)) in *. pose proof (becomes_trans _ _ _ _ _ _ Hb1 Hb2) as (Hh & Hdk & Hcap).
  destruct (brelse_law x b w2 c2 Hc2) as (c3 & R & Hc3 & Hh3 & Hcap3 & Hdk3); [split; [by rewrite Hh, lookup_insert_eq|done]|intros _; by left|]. exists c3. split; [done|].
  change (bv_count w2) with (bv_count w) in *. change (bv_up w2) with (bv_up w) in *. change (bv_data w2) with d in *. rewrite Hn, Hu in *. unfold refs in Hh3, Hdk3, Hn |- *.
  assert (Hpos : forall w0, held c !! b = Some w0 -> 1 <= bv_count w0) by (intros w0 H0; apply (cwf_count _ Hc b w0 H0)).
  assert (Hthis : held c3 !! b = match held c !! b with Some w0 => Some (set_bv_count (bv_count w0) w2) | None => None end).
  { rewrite Hh3, Hh. destruct (held c !! b) as [w0|] eqn:E; [|change (0 + 1 =? 1) with true; cbn match; by rewrite lookup_delete_eq]. pose proof (Hpos w0 eq_refl). destruct (Z.eqb_spec (bv_count w0 + 1) 1); [lia|]. rewrite lookup_insert_eq. do 2 f_equal. lia. }
  assert (Hoth : forall a, a <> b -> held c3 !! a = held c !! a /\ disk c3 a = disk c a).
  { intros a Ha. rewrite Hdk3, decide_False by tauto. split; [|apply Hdk]. rewrite Hh3, Hh. destruct (_ =? 1); [by rewrite lookup_delete_ne, lookup_insert_ne|by rewrite !lookup_insert_ne]. }
  split; [done| | | | |congruence|].
  - unfold content. rewrite Hthis. destruct (held c !! b) as [w0|] eqn:E; [cbn; by rewrite Hu|]. by rewrite Hdk3, decide_True.
  - intros w3. rewrite Hthis. destruct (held c !! b) as [w0|]; [|done]. intros [= <-]. intros _. by left.
  - unfold refs. rewrite Hthis. by destruct (held c !! b).
  - apply set_eq. intros a. rewrite !elem_of_dom. destruct (decide (a = b)) as [->|Ha]; [rewrite Hthis; destruct (held c !! b); split; intros [? H]; try done; by eexists|]. by rewrite (proj1 (Hoth a Ha)).
  - intros a Ha. destruct (Hoth a Ha) as [H1 H2]. split; [done|]. unfold content. by rewrite H1, H2.
Qed.

Context {HE : FsEnv C} (dev : Z) (Hdev : dev <> 0) (Hrd : readable dev).

Record inode_typed (v : inode) : Prop := {
  ty_mode : in_u16 (i_mode v); ty_uid : in_u16 (i_uid v); ty_rdev : in_u16 (i_rdev v); ty_nlink : in_u8 (i_nlink v);
  ty_size : in_s32 (i_size v); ty_mtime : in_s32 (i_mtime v); ty_data : length (i_data v) = 16%nat; ty_ino : 1 <= i_ino v <= 65535
}.

(** The inode of entry [n], its device and super block. *)
Record inode_on (n : Z) (v : inode) (sb : super_block) (s : fss C) : Prop := {
  io_inode : aget (inode_table s) n = Some v;
  io_dev : i_dev v = dev;
  io_sb : exists sbn, i_sb v = Some sbn /\ aget (super_blocks s) sbn = Some sb
}.

Lemma ino_place v : 1 <= i_ino v <= 65535 -> let o := inode_offset v in o / 2 = 16 * ((i_ino v - 1) mod 32) /\ o / 4 = 8 * ((i_ino v - 1) mod 32) /\ 0 <= (i_ino v - 1) mod 32 < 32 /\ o = 32 * ((i_ino v - 1) mod 32).
Proof using.
  intros Hi o. assert (Ho : o = 32 * ((i_ino v - 1) mod 32)) by (unfold o, inode_offset, MINIX_INODES_PER_BLOCK; rewrite u32_small by (unfold in_u32; lia); done).
  pose proof (Z.mod_pos_bound (i_ino v - 1) 32 ltac:(lia)). split; [|split; [|split; done]]; rewrite Ho.
  - replace (32 * ((i_ino v - 1) mod 32)) with (16 * ((i_ino v - 1) mod 32) * 2) by lia. by rewrite Z.div_mul.
  - replace (32 * ((i_ino v - 1) mod 32)) with (8 * ((i_ino v - 1) mod 32) * 4) by lia. by rewrite Z.div_mul.
Qed.

(** One more field is written. *)
Lemma edit_field c x b w d k l c' j v i : edited c x b w (with_fields d k l) c' -> i = k + j -> 0 <= k + j < 512 ->
  exists c2, set_bh_word x i v c' = Ok tt c2 /\ edited c x b w (with_fields d k ((j, v) :: l)) c2.
Proof using HL. intros He -> Hj. by apply edit_word. Qed.

Lemma on_cache_step (m : M C unit) (f : M (fss C) unit) (s : fss C) c1 c2 : m c1 = Ok tt c2 -> (on_cache m;; f) (set_fcache c1 s) = f (set_fcache c2 s).
Proof using. intros H. by rewrite (run_bind _ _ _ tt (set_fcache c2 s)) by (by apply on_cache_at). Qed.

Ltac edit_step He i j v :=
  let cj := fresh "c" in let R := fresh "R" in let He' := fresh "He" in
  destruct (edit_field _ _ _ _ _ _ _ _ j v i He ltac:(lia) ltac:(lia)) as (cj & R & He'); rewrite (on_cache_step _ _ _ _ _ R); clear He R; rename He' into He.

Lemma write_inode_run n v sb s : inode_on n v sb s -> inode_typed v -> cwf (fcache s) -> refs (fcache s) (dev, inode_block sb v) < 255 -> room 1 (fcache s) ->
  exists c', minix_write_inode n s = Ok tt (set_inode_table (<[Z.to_nat n := set_i_dirt 0 v]> (inode_table s)) (set_fcache c' s)) /\
    block_written (dev, inode_block sb v) (inode_image (content (fcache s) (dev, inode_block sb v)) (16 * ((i_ino v - 1) mod 32)) v) (fcache s) c'.
Proof using HL Hdev Hrd.
  intros [Hn Hd (sbn & Hsb & Hsbn)] Ht Hc Hr Hrm. set (blk := inode_block sb v) in *. set (b := (dev, blk)) in *. set (c := fcache s) in *. unfold minix_write_inode.
  rewrite (run_bind _ _ _ v s) by (by apply inode_at_run). rewrite Hsb, (run_bind _ _ _ sbn s) by reflexivity. rewrite (run_bind _ _ _ sb s) by (by apply super_at_run). rewrite Hd. fold blk.
  destruct (bread_law dev blk c Hc Hdev Hr Hrm) as (r & c1 & R1 & Hc1 & Hres). destruct r as [x|]; [|by destruct (Hrd blk c c1)]. destruct Hres as (w & Hb1 & Hi & Hcnt & Hu & Hdata & _). fold b in Hb1, Hcnt, Hdata.
  rewrite (run_bind _ _ _ (Some x) (set_fcache c1 s)) by (by apply on_cache_run). rewrite (run_bind _ _ _ v (set_fcache c1 s)) by (by apply inode_at_run).
  destruct (ino_place v (ty_ino _ Ht)) as (E2 & _ & Hidx & Eo). set (o := inode_offset v) in *. rewrite E2. set (idx := (i_ino v - 1) mod 32) in *. set (k := 16 * idx) in *. clearbody idx.
  assert (He : edited c1 x b w (with_fields (bv_data w) k []) c1) by (split; [done|split; [|done]; destruct Hb1 as (-> & _); rewrite insert_insert_eq; by destruct w|done]).
  edit_step He k 0 (i_mode v). edit_step He (k + 1) 1 (i_uid v).
  destruct (edit_byte _ _ _ _ _ _ (o + 12) (u8 (i_gid v)) He) as (c4 & R4 & He4); [unfold BLOCK_SIZE; lia|apply u8_range|]. rewrite (on_cache_step _ _ _ _ _ R4).
  destruct (edit_byte _ _ _ _ _ _ (o + 13) (i_nlink v) He4) as (c5 & R5 & He5); [unfold BLOCK_SIZE; lia|apply (ty_nlink _ Ht)|]. rewrite (on_cache_step _ _ _ _ _ R5).
  replace (o + 13) with (2 * (k + 6) + 1) in He5 by lia. replace (o + 12) with (2 * (k + 6)) in He5 by lia. rewrite bytes_word in He5 by (apply u8_range || apply (ty_nlink _ Ht)).
  match type of He5 with edited _ _ _ _ (with_word (with_fields ?d k ?l) (k + 6) ?y) _ => change (with_word (with_fields d k l) (k + 6) y) with (with_fields d k ((6, y) :: l)) in He5 end.
  edit_step He5 (k + 2) 2 (i_size v). edit_step He5 (k + 3) 3 (Z.shiftr (u32 (i_size v)) 16). edit_step He5 (k + 4) 4 (i_mtime v). edit_step He5 (k + 5) 5 (Z.shiftr (u32 (i_mtime v)) 16).
  match type of He5 with edited _ _ _ _ (with_fields _ _ ?l) _ => change l with (inode_fields v) in He5 end.
  match type of He5 with edited _ _ _ _ _ ?c0 => rename c0 into c9 end.
  match goal with |- context[mbind _ (if ?t then ?m1 else ?m2)] => assert (exists c10, (if t then m1 else m2) (set_fcache c9 s) = Ok tt (set_fcache c10 s) /\ edited c1 x b w (inode_image (bv_data w) k v) c10) as (c10 & R10 & He10) end.
  { unfold inode_image, inode_zones. destruct (S_ISCHR (i_mode v) || S_ISBLK (i_mode v)).
    - destruct (edit_word _ _ _ _ _ _ (k + 7) (i_rdev v) He5) as (c10 & R10 & He10); [lia|]. exists c10. split; [by apply on_cache_at|done].
    - apply (edit_zones c1 x b w s (k + 7) (i_data v)); [lia|lia|apply (ty_data _ Ht)|done|done]. }
  rewrite (run_bind _ _ _ _ _ R10). destruct (set_bh_dirt_law x b _ 1 c10 (ed_wf _ _ _ _ _ _ He10) (edited_buffer _ _ _ _ _ _ He10)) as (c11 & R11 & Hc11 & Hb11). rewrite (on_cache_step _ _ _ _ _ R11).
  pose proof (becomes_trans _ _ _ _ _ _ (ed_view _ _ _ _ _ _ He10) Hb11) as Hb. change (truth 1) with true in Hb.
  destruct (give_back c c1 c11 b x w _ Hc Hc11 Hb1 Hi Hcnt Hu Hb) as (c12 & R12 & Hw). rewrite Hdata in Hw. exists c12. split; [|done].
  rewrite (run_bind _ _ _ tt _) by (by apply (inode_upd_run n (set_i_dirt 0) (set_fcache c11 s) v)). unfold on_cache. cbn [fcache set_inode_table set_fcache]. by rewrite R12.
Qed.

(** The inode that the [struct minix_inode] at word [k] of [d] describes. *)
Definition inode_from (d : list Z) (k : Z) (u : inode) : inode :=
  let t := s32 (long_at d (k / 2 + 2)) in
  let u1 := set_i_mode (word_at d k) (set_i_uid (word_at d (k + 1)) (set_i_gid (default 0 (aget d (2 * k + 12))) (set_i_nlink (default 0 (aget d (2 * k + 13)))
    (set_i_size (s32 (long_at d (k / 2 + 1))) (set_i_ctime t (set_i_atime t (set_i_mtime t u))))))) in
  set_i_op (Some minix_inode_operations)
    (if S_ISCHR (word_at d k) || S_ISBLK (word_at d k) then set_i_rdev (word_at d (k + 7)) u1
     else set_i_data (((fun e => word_at d (k + 7 + e)) <$> range 0 9) ++ drop 9 (i_data u)) u1).

(** Steps that only look at a buffer. *)
Lemma on_cache_look {A B} (m : M C A) (f : A -> M (fss C) B) (s : fss C) c1 a : m c1 = Ok a c1 -> (x ← on_cache m; f x) (set_fcache c1 s) = f a (set_fcache c1 s).
Proof using. intros H. by rewrite (run_bind _ _ _ a (set_fcache c1 s)) by (by apply on_cache_at). Qed.

Lemma upd_step n f g (s : fss C) c1 u : aget (inode_table s) n = Some u ->
  inode_upd n f (set_inode_table (<[Z.to_nat n := g]> (inode_table s)) (set_fcache c1 s)) = Ok tt (set_inode_table (<[Z.to_nat n := f g]> (inode_table s)) (set_fcache c1 s)).
Proof using.
  intros Hn. rewrite (inode_upd_run n f _ g) by (apply aget_insert_eq; by eapply aget_Some_range). unfold set_inode_table. cbn [fkern fcache inode_table super_blocks last_inode file_table fpages set_fcache]. by rewrite list_insert_insert_eq.
Qed.

Lemma read_zones c1 x b w (s : fss C) n u k0 : cwf c1 -> buffer c1 x b w -> aget (inode_table s) n = Some u -> 0 <= k0 -> k0 + 9 <= 512 -> forall m g, (m <= 9)%nat -> length (i_data g) = 16%nat ->
  for_each (range 0 m) (fun e => z ← on_cache (bh_word x (k0 + e)); inode_upd n (fun v => set_i_data (<[Z.to_nat e := z]> (i_data v)) v)) (set_inode_table (<[Z.to_nat n := g]> (inode_table s)) (set_fcache c1 s)) =
  Ok tt (set_inode_table (<[Z.to_nat n := set_i_data (((fun e => word_at (bv_data w) (k0 + e)) <$> range 0 m) ++ drop m (i_data g)) g]> (inode_table s)) (set_fcache c1 s)).
Proof using HL.
  intros Hc Hw Hn Hk Hk9. induction m as [|m IH]; intros g Hm Hl; [cbn; by destruct g|]. rewrite range_S, for_each_app, (run_bind _ _ _ _ _ (IH g ltac:(lia) Hl)). cbn [for_each]. rewrite Z.add_0_l.
  set (g1 := set_i_data _ g). rewrite (run_bind _ _ _ tt (set_inode_table (<[Z.to_nat n := set_i_data (<[m := word_at (bv_data w) (k0 + Z.of_nat m)]> (i_data g1)) g1]> (inode_table s)) (set_fcache c1 s))).
  - cbn [mret]. f_equal. f_equal. f_equal. unfold g1. cbn [i_data set_i_data]. rewrite fmap_app, <-app_assoc. rewrite insert_app_r_alt by (rewrite length_fmap, length_range; lia). rewrite length_fmap, length_range, Nat.sub_diag.
    destruct (drop m (i_data g)) as [|a l] eqn:E; [apply (f_equal length) in E; rewrite length_drop in E; cbn in E; lia|]. cbn [insert list_insert]. apply (f_equal (drop 1)) in E. rewrite drop_drop, Nat.add_1_r in E. cbn in E. by rewrite E.
  - rewrite (run_bind _ _ _ (word_at (bv_data w) (k0 + Z.of_nat m)) (set_inode_table (<[Z.to_nat n := g1]> (inode_table s)) (set_fcache c1 s))).
    + rewrite (upd_step n _ g1 s c1 u Hn). by rewrite Nat2Z.id.
    + unfold on_cache. cbn [fcache set_inode_table set_fcache]. by rewrite (bh_word_run c1 x b w (k0 + Z.of_nat m) Hc Hw ltac:(lia)).
Qed.

Lemma read_inode_run n u sb s : inode_on n u sb s -> length (i_data u) = 16%nat -> 1 <= i_ino u <= 65535 -> cwf (fcache s) -> refs (fcache s) (dev, inode_block sb u) < 255 -> room 1 (fcache s) ->
  (forall w, held (fcache s) !! (dev, inode_block sb u) = Some w -> settled (fcache s) (dev, inode_block sb u) w) ->
  exists c', minix_read_inode n s = Ok tt (set_inode_table (<[Z.to_nat n := inode_from (content (fcache s) (dev, inode_block sb u)) (16 * ((i_ino u - 1) mod 32)) u]> (inode_table s)) (set_fcache c' s)).
Proof using HL Hdev Hrd.
  intros [Hn Hd (sbn & Hsb & Hsbn)] Hl Hino Hc Hr Hrm Hset. set (blk := inode_block sb u) in *. set (b := (dev, blk)) in *. set (c := fcache s) in *. unfold minix_read_inode.
  rewrite (run_bind _ _ _ u s) by (by apply inode_at_run). rewrite Hsb, (run_bind _ _ _ sbn s) by reflexivity. rewrite (run_bind _ _ _ sb s) by (by apply super_at_run). rewrite Hd. fold blk.
  destruct (bread_law dev blk c Hc Hdev Hr Hrm) as (r & c1 & R1 & Hc1 & Hres). destruct r as [x|]; [|by destruct (Hrd blk c c1)]. destruct Hres as (w & Hb1 & Hi & Hcnt & Hu & Hdata & Hold). fold b in Hb1, Hcnt, Hdata, Hold.
  rewrite (run_bind _ _ _ (Some x) (set_fcache c1 s)) by (by apply on_cache_run).
  destruct (ino_place u Hino) as (E2 & E4 & Hidx & Eo). set (o := inode_offset u) in *. rewrite E2, E4. set (idx := (i_ino u - 1) mod 32) in *. clearbody idx.
  pose proof (becomes_buffer _ _ _ _ Hb1) as Hw. rewrite Hi in Hw. rewrite <-Hdata. set (d := bv_data w).
  rewrite (on_cache_look _ _ _ _ _ (bh_word_run c1 x b w (16 * idx) Hc1 Hw ltac:(lia))). rewrite (on_cache_look _ _ _ _ _ (bh_word_run c1 x b w (16 * idx + 1) Hc1 Hw ltac:(lia))).
  rewrite (on_cache_look _ _ _ _ _ (bh_long_run c1 x b w (8 * idx + 1) Hc1 Hw ltac:(lia))). rewrite (on_cache_look _ _ _ _ _ (bh_long_run c1 x b w (8 * idx + 2) Hc1 Hw ltac:(lia))).
  rewrite (on_cache_look _ _ _ _ _ (bh_byte_run c1 x b w (o + 12) Hc1 Hw ltac:(unfold BLOCK_SIZE; lia))). rewrite (on_cache_look _ _ _ _ _ (bh_byte_run c1 x b w (o + 13) Hc1 Hw ltac:(unfold BLOCK_SIZE; lia))). fold d.
  rewrite (run_bind _ _ _ tt _) by (by apply (inode_upd_run n _ (set_fcache c1 s) u)). cbn beta.
  replace (8 * idx + 1) with (16 * idx / 2 + 1) by (replace (16 * idx) with (8 * idx * 2) by lia; by rewrite Z.div_mul). replace (8 * idx + 2) with (16 * idx / 2 + 2) by (replace (16 * idx) with (8 * idx * 2) by lia; by rewrite Z.div_mul).
  replace (o + 12) with (2 * (16 * idx) + 12) by lia. replace (o + 13) with (2 * (16 * idx) + 13) by lia. set (k := 16 * idx) in *. change (inode_table (set_fcache c1 s)) with (inode_table s).
  match goal with |- context[set_inode_table (<[Z.to_nat n := ?g]> (inode_table s)) (set_fcache c1 s)] => set (u1 := g) end.
  set (u2 := if S_ISCHR (word_at d k) || S_ISBLK (word_at d k) then set_i_rdev (word_at d (k + 7)) u1 else set_i_data (((fun e => word_at d (k + 7 + e)) <$> range 0 9) ++ drop 9 (i_data u1)) u1).
  rewrite (run_bind _ _ _ tt (set_inode_table (<[Z.to_nat n := u2]> (inode_table s)) (set_fcache c1 s))).
  2:{ unfold u2. destruct (S_ISCHR (word_at d k) || S_ISBLK (word_at d k)).
      - rewrite (run_bind _ _ _ (word_at d (k + 7)) (set_inode_table (<[Z.to_nat n := u1]> (inode_table s)) (set_fcache c1 s))); [by apply (upd_step n _ u1 s c1 u)|].
        unfold on_cache. cbn [fcache set_inode_table set_fcache]. by rewrite (bh_word_run c1 x b w (k + 7) Hc1 Hw ltac:(lia)).
      - apply (read_zones c1 x b w s n u (k + 7) Hc1 Hw Hn); [lia|lia|done|exact Hl]. }
  destruct (brelse_law x b w c1 Hc1 Hw) as (c2 & R2 & _).
  { intros _. destruct Hb1 as (_ & Hdk & _). rewrite Hdk, Hdata. unfold content. destruct (held c !! b) as [w0|] eqn:E0; [|by right]. destruct (bv_up w0) eqn:Eu; [|by right].
    destruct (Hold w0 eq_refl) as [_ ->]; [|done]. by apply (Hset w0 eq_refl). }
  exists c2. rewrite (run_bind _ _ _ tt (set_inode_table (<[Z.to_nat n := u2]> (inode_table s)) (set_fcache c2 s))) by (unfold on_cache; cbn [fcache set_inode_table set_fcache]; by rewrite R2).
  rewrite (upd_step n (set_i_op (Some minix_inode_operations)) u2 s c2 u Hn). assert (Ei : i_data u1 = i_data u) by reflexivity. unfold u2. rewrite Ei. reflexivity.
Qed.

(** *** The image of an inode *)

Lemma image_field d k v j y : block_data d -> 0 <= k -> k + 16 <= 512 -> 0 <= j < 7 -> field (inode_fields v) j = Some y -> word_at (inode_image d k v) (k + j) = u16 y.
Proof using.
  intros Hd Hk Hk16 Hj Hf. unfold inode_image. assert (Hlz : (length (inode_zones v) <= 9)%nat) by (unfold inode_zones; destruct (_ || _); [cbn; lia|rewrite length_take; lia]).
  rewrite word_with_words by (try apply with_fields_data; done || lia). rewrite decide_False by lia. rewrite word_with_fields; [by rewrite Hf|done| |lia]. unfold inode_fields. repeat constructor; cbn; lia.
Qed.

Lemma image_zone d k v e : block_data d -> 0 <= k -> k + 16 <= 512 -> 0 <= e < Z.of_nat (length (inode_zones v)) -> word_at (inode_image d k v) (k + 7 + e) = u16 (default 0 (aget (inode_zones v) e)).
Proof using.
  intros Hd Hk Hk16 He. assert (Hlz : (length (inode_zones v) <= 9)%nat) by (unfold inode_zones; destruct (_ || _); [cbn; lia|rewrite length_take; lia]).
  unfold inode_image. rewrite word_with_words by (try apply with_fields_data; done || lia). rewrite decide_True by lia. do 3 f_equal. lia.
Qed.

Lemma long_words d i a b : word_at d (2 * i) = u16 a -> word_at d (2 * i + 1) = u16 (Z.shiftr (u32 a) 16) -> a = b -> in_s32 b -> s32 (long_at d i) = b.
Proof using.
  intros H1 H2 -> Hb. unfold long_at. rewrite H1, H2. rewrite Z.shiftr_div_pow2 by lia. unfold u16, u32, in_s32 in *. change (2 ^ 16) with 65536. change (2 ^ 32) with (65536 * 65536).
  rewrite (Z.mod_small (b mod (65536 * 65536) / 65536)) by (split; [apply Z.div_pos; [apply Z.mod_pos_bound; lia|lia]|apply Z.div_lt_upper_bound; [lia|apply Z.mod_pos_bound; lia]]).
  rewrite Z.rem_mul_r by lia. replace ((b mod 65536 + 65536 * ((b / 65536) mod 65536)) / 65536) with ((b / 65536) mod 65536).
  2:{ rewrite Z.add_comm, Z.mul_comm, Z.div_add_l by lia. rewrite (Z.div_small (b mod 65536)) by (apply Z.mod_pos_bound; lia). lia. }
  rewrite <-Z.rem_mul_r by lia. unfold s32. change (65536 * 65536) with (2 ^ 32). rewrite Zplus_mod_idemp_l. rewrite Z.mod_small; lia.
Qed.

(** The bytes of a word. *)
Lemma word_bytes d i lo hi : block_data d -> 0 <= i < 512 -> in_u8 lo -> in_u8 hi -> word_at d i = lo + 256 * hi -> default 0 (aget d (2 * i)) = lo /\ default 0 (aget d (2 * i + 1)) = hi.
Proof using.
  intros Hd Hi Hlo Hhi. unfold word_at. destruct (byte_at d (2 * i) Hd) as (a & -> & Ha); [unfold BLOCK_SIZE; lia|]. destruct (byte_at d (2 * i + 1) Hd) as (c & -> & Hc); [unfold BLOCK_SIZE; lia|].
  cbn [default]. unfold in_u8, id in *. lia.
Qed.

Lemma u16_id x : in_u16 x -> u16 x = x.
Proof using. unfold in_u16, u16. intros H. rewrite Z.mod_small; lia. Qed.

(** What of an inode is kept on disk. *)
Definition same_on_disk (v u : inode) : Prop :=
  i_mode u = i_mode v /\ i_uid u = i_uid v /\ i_gid u = u8 (i_gid v) /\ i_nlink u = i_nlink v /\ i_size u = i_size v /\
  i_mtime u = i_mtime v /\ i_atime u = i_mtime v /\ i_ctime u = i_mtime v /\
  if S_ISCHR (i_mode v) || S_ISBLK (i_mode v) then i_rdev u = i_rdev v else forall e, 0 <= e < 9 -> aget (i_data u) e = u16 <$> aget (i_data v) e.

Lemma inode_from_image d k v u : block_data d -> inode_typed v -> 0 <= k -> k + 16 <= 512 -> k = k / 2 * 2 -> same_on_disk v (inode_from (inode_image d k v) k u).
Proof using.
  intros Hd Ht Hk Hk16 Heven. set (d' := inode_image d k v). assert (Hd' : block_data d') by (apply with_words_data, with_fields_data, Hd).
  pose proof (fun j y Hj Hf => image_field d k v j y Hd Hk Hk16 Hj Hf) as Hw. fold d' in Hw.
  assert (Hmode : word_at d' k = i_mode v) by (rewrite <-(Z.add_0_r k), (Hw 0 (i_mode v) ltac:(lia) eq_refl); apply u16_id, (ty_mode _ Ht)).
  assert (Hsize : s32 (long_at d' (k / 2 + 1)) = i_size v).
  { apply (long_words _ _ (i_size v)); [| |done|apply (ty_size _ Ht)].
    - replace (2 * (k / 2 + 1)) with (k + 2) by lia. by apply Hw.
    - replace (2 * (k / 2 + 1) + 1) with (k + 3) by lia. by apply Hw. }
  assert (Htime : s32 (long_at d' (k / 2 + 2)) = i_mtime v).
  { apply (long_words _ _ (i_mtime v)); [| |done|apply (ty_mtime _ Ht)].
    - replace (2 * (k / 2 + 2)) with (k + 4) by lia. by apply Hw.
    - replace (2 * (k / 2 + 2) + 1) with (k + 5) by lia. by apply Hw. }
  destruct (word_bytes d' (k + 6) (u8 (i_gid v)) (i_nlink v) Hd' ltac:(lia) (u8_range _) (ty_nlink _ Ht)) as [Hgid Hnl].
  { rewrite (Hw 6 (u8 (i_gid v) + 256 * i_nlink v)) by (done || lia). apply u16_id. pose proof (u8_range (i_gid v)). pose proof (ty_nlink _ Ht). unfold in_u8, in_u16 in *. lia. }
  replace (2 * (k + 6) + 1) with (2 * k + 13) in Hnl by lia. replace (2 * (k + 6)) with (2 * k + 12) in Hgid by lia.
  pose proof (fun e He => image_zone d k v e Hd Hk Hk16 He) as Hz. fold d' in Hz.
  unfold inode_from. rewrite Hmode, Hsize, Htime, Hgid, Hnl. unfold same_on_disk. destruct (S_ISCHR (i_mode v) || S_ISBLK (i_mode v)) eqn:Edev.
  - cbn [i_mode i_uid i_gid i_nlink i_size i_mtime i_atime i_ctime i_rdev set_i_op set_i_rdev set_i_mode set_i_uid set_i_gid set_i_nlink set_i_size set_i_ctime set_i_atime set_i_mtime].
    split_and!; try done; [rewrite (Hw 1 (i_uid v)) by (done || lia); apply u16_id, (ty_uid _ Ht)|]. unfold inode_zones in Hz. rewrite Edev in Hz. rewrite <-(Z.add_0_r (k + 7)), Hz by (cbn; lia). apply u16_id, (ty_rdev _ Ht).
  - cbn [i_mode i_uid i_gid i_nlink i_size i_mtime i_atime i_ctime i_data set_i_op set_i_data set_i_mode set_i_uid set_i_gid set_i_nlink set_i_size set_i_ctime set_i_atime set_i_mtime].
    split_and!; try done; [rewrite (Hw 1 (i_uid v)) by (done || lia); apply u16_id, (ty_uid _ Ht)|]. intros e He. unfold inode_zones in Hz. rewrite Edev in Hz. rewrite length_take, (ty_data _ Ht) in Hz.
    destruct (aget_in_range (i_data v) e) as [z Hze]; [rewrite (ty_data _ Ht); lia|]. rewrite Hze. cbn [fmap option_fmap option_map]. unfold aget in Hze |- *. destruct (Z.ltb_spec e 0); [lia|].
    rewrite lookup_app_l by (rewrite length_fmap, length_range; lia). unfold range. rewrite !list_lookup_fmap, lookup_seq_lt by lia. cbn [fmap option_fmap option_map]. f_equal.
    replace (0 + Z.of_nat (0 + Z.to_nat e)) with e by lia. rewrite Hz by lia. f_equal. unfold aget. destruct (Z.ltb_spec e 0); [lia|]. rewrite lookup_take, decide_True by lia. by rewrite Hze.
Qed.

(** C35: An inode survives being written to its device and read back into another
    entry of the table.  [minix_write_inode] stores it at its place in the inode
    blocks and leaves every other block alone; [minix_read_inode] then gets the
    same mode, owner, size, number of links and zones or device number.  The access
    and change times are lost, and of the group the low byte is kept. *)
Theorem inode_roundtrip n m v u sb s : n <> m -> inode_on n v sb s -> inode_on m u sb s -> inode_typed v -> i_ino u = i_ino v -> length (i_data u) = 16%nat ->
  cwf (fcache s) -> refs (fcache s) (dev, inode_block sb v) < 255 -> room 1 (fcache s) ->
  exists s1 s2 u', minix_write_inode n s = Ok tt s1 /\ minix_read_inode m s1 = Ok tt s2 /\ aget (inode_table s2) m = Some u' /\ same_on_disk v u' /\
    aget (inode_table s2) n = Some (set_i_dirt 0 v) /\ forall a, a <> (dev, inode_block sb v) -> content (fcache s1) a = content (fcache s) a.
Proof using HL Hdev Hrd.
  intros Hnm Hon Hom Ht Hino Hlu Hc Hr Hrm. destruct (write_inode_run n v sb s Hon Ht Hc Hr Hrm) as (c1 & R1 & [W1 W2 W3 W4 W5 W6 W7]). set (s1 := set_inode_table _ _) in R1.
  pose proof (aget_Some_range _ _ _ (io_inode _ _ _ _ Hon)) as Hrn. pose proof (aget_Some_range _ _ _ (io_inode _ _ _ _ Hom)) as Hrm'.
  assert (Hblk : inode_block sb u = inode_block sb v) by (unfold inode_block; by rewrite Hino).
  assert (Hom1 : inode_on m u sb s1) by (destruct Hom as [H1 H2 H3]; split; [unfold s1; cbn [inode_table set_inode_table]; by rewrite aget_insert_ne by lia|done|done]).
  pose proof (ty_ino _ Ht) as Hir. destruct (read_inode_run m u sb s1 Hom1 Hlu) as (c2 & R2); rewrite ?Hblk, ?Hino; try done.
  { change (fcache s1) with c1. by rewrite W4. }
  { change (fcache s1) with c1. unfold room in *. by rewrite <-size_dom, W5, W6, size_dom. }
  rewrite Hblk, Hino in R2. change (fcache s1) with c1 in R2. rewrite W2 in R2. set (k := 16 * ((i_ino v - 1) mod 32)) in *. pose proof (Z.mod_pos_bound (i_ino v - 1) 32 ltac:(lia)) as Hidx.
  eexists s1, _, _. split; [done|]. split; [exact R2|]. cbn [inode_table set_inode_table]. split; [apply aget_insert_eq; unfold s1; cbn [inode_table set_inode_table]; rewrite length_insert; lia|]. split; [|split].
  - apply inode_from_image; [by apply content_data|done|lia|lia|]. unfold k. replace (16 * ((i_ino v - 1) mod 32)) with (8 * ((i_ino v - 1) mod 32) * 2) by lia. by rewrite Z.div_mul.
  - rewrite aget_insert_ne by lia. unfold s1. cbn [inode_table set_inode_table]. apply aget_insert_eq. lia.
  - intros a Ha. by apply W7.
Qed.

End InodeOk.

(** ** An inode of a small device *)

#[local] Existing Instance quiet_env.

Definition demo_file_inode : inode :=
  set_i_sb (Some 0) (set_i_ino 2 (set_i_nlink 1 (set_i_uid 7 (set_i_gid 300 (set_i_size 5000 (set_i_mtime 99 (set_i_data (7 :: 9 :: replicate 14 0) demo_empty))))))).
Definition demo_blank_inode : inode := set_i_sb (Some 0) (set_i_ino 2 demo_empty).
Definition demo_inodes : fss ideal := set_inode_table [demo_file_inode; demo_blank_inode] demo_fs.

Lemma inode_roundtrip_witness :
  exists s1 s2 u', minix_write_inode 0 demo_inodes = Ok tt s1 /\ minix_read_inode 1 s1 = Ok tt s2 /\ aget (inode_table s2) 1 = Some u' /\ same_on_disk demo_file_inode u' /\
    aget (inode_table s2) 0 = Some (set_i_dirt 0 demo_file_inode) /\ forall a, a <> (1, inode_block demo_super demo_file_inode) -> content (fcache s1) a = content (fcache demo_inodes) a.
Proof.
  apply (inode_roundtrip 1 ltac:(lia) (ideal_readable 1) 0 1 demo_file_inode demo_blank_inode demo_super demo_inodes); try done.
  - split; [done|done|by exists 0].
  - split; [done|done|by exists 0].
  - exact demo_cwf.
Defined.
