(* ===== verification/Bitmap.v ===== *)
(** * The older bitmaps: [fs/bitmap.c], [fs/truncate.c]

    [fs/bitmap.c] is linked beside [fs/minix/bitmap.c], from which it differs in the way
    a zone is found in the maps and in what happens on errors.  The macros on bits are
    those of [Minix].  The source has the old [struct m_inode] with [i_num] and
    [i_nlinks]; the model reads [struct inode] with [i_ino] and [i_nlink]. *)

From S2P Require Import Prelude TaskStruct Sched Sys Fs Minix Inode.

Section Bitmap.
Context {C : Type} `{BufferCache C, FsEnv C, PageAlloc C}.
Context (patience : nat).

(** [int free_block(int dev, int block)] *)
Definition free_block (dev block : Z) : M (fss C) Z :=
  o ← get_super patience dev;
  match o with
  | None => halts (Panic "trying to free block on nonexistent device")
  | Some sbn =>
      sb ← super_at sbn;
      if (block <? s_firstdatazone sb) || (s_nzones sb <=? block) then halts (Panic "trying to free block not in datazone")
      else
        busy ← on_cache (forget dev block);
        if (busy : bool) then mret 0
        else
          let block := block - (s_firstdatazone sb - 1) in
          m ← ofOpt (aget (s_zmap sb) (Z.quot block 8192));
          x ← ofOpt m;
          r ← on_cache (clear_bit (Z.land block 8191) x);
          (if truth r then on_task (printk "block (%04x:%d) ");; on_task (printk "free_block: bit already cleared\n") else mret tt);;
          on_cache (set_bh_dirt x 1);;
          mret 1
  end.

(** [int new_block(int dev)] *)
Definition new_block (dev : Z) : M (fss C) Z :=
  o ← get_super patience dev;
  match o with
  | None => halts (Panic "trying to get new block from nonexistant device")
  | Some sbn =>
      sb ← super_at sbn;
      '(i, bh, j) ← on_cache (map_scan (s_zmap sb) 0 None 8192);
      match bh with
      | None => mret 0
      | Some x =>
          if (8 <=? i) || (8192 <=? j) then mret 0
          else
            r ← on_cache (set_bit j x);
            if truth r then halts (Panic "new_block: bit already set")
            else
              on_cache (set_bh_dirt x 1);;
              let j := j + (i * 8192 + s_firstdatazone sb - 1) in
              if s_nzones sb <=? j then mret 0
              else
                x ← on_cache (getblk dev j);
                c ← on_cache (bh_count x);
                if negb (c =? 1) then halts (Panic "new block: count is != 1")
                else
                  on_cache (clear_block x);;
                  on_cache (set_bh_uptodate x 1);;
                  on_cache (set_bh_dirt x 1);;
                  on_cache (brelse (Some x));;
                  mret j
      end
  end.

(** [void free_inode(struct m_inode * inode)]: for an inode without a device it goes on
    behind [memset]. *)
Definition free_inode (inode : option Z) : M (fss C) unit :=
  match inode with
  | None => mret tt
  | Some n =>
      v ← inode_at n;
      (if i_dev v =? 0 then clear_inode n else mret tt);;
      v ← inode_at n;
      if 1 <? i_count v then halts (Panic "trying to free inode with count=%d\n")
      else if truth (i_nlink v) then halts (Panic "trying to free inode with links")
      else
        o ← get_super patience (i_dev v);
        match o with
        | None => halts (Panic "trying to free inode on nonexistent device")
        | Some sbn =>
            sb ← super_at sbn;
            if (i_ino v <? 1) || (s_ninodes sb <? i_ino v) then halts (Panic "trying to free inode 0 or nonexistant inode")
            else
              m ← ofOpt (aget (s_imap sb) (Z.shiftr (i_ino v) 13));
              match m with
              | None => halts (Panic "nonexistent imap in superblock")
              | Some x =>
                  r ← on_cache (clear_bit (Z.land (i_ino v) 8191) x);
                  (if truth r then on_task (printk "free_inode: bit already cleared.\n\r") else mret tt);;
                  on_cache (set_bh_dirt x 1);;
                  clear_inode n
              end
        end
  end.

(** [struct m_inode * new_inode(int dev)] *)
Definition new_inode (dev : Z) : M (fss C) (option Z) :=
  n ← get_empty_inode patience;
  o ← get_super patience dev;
  match o with
  | None => halts (Panic "new_inode with unknown device")
  | Some sbn =>
      sb ← super_at sbn;
      '(i, bh, j) ← on_cache (map_scan (s_imap sb) 0 None 8192);
      match bh with
      | None => iput patience (Some n);; mret None
      | Some x =>
          if (8192 <=? j) || (s_ninodes sb <? j + i * 8192) then iput patience (Some n);; mret None
          else
            r ← on_cache (set_bit j x);
            if truth r then halts (Panic "new_inode: bit already set")
            else
              on_cache (set_bh_dirt x 1);;
              uid ← on_task (cur euid); gid ← on_task (cur egid); t ← now;
              inode_upd n (fun v => set_i_mtime t (set_i_atime t (set_i_ctime t (set_i_ino (u16 (j + i * 8192))
                (set_i_dirt 1 (set_i_gid gid (set_i_uid uid (set_i_dev (u16 dev) (set_i_nlink 1 (set_i_count 1 v))))))))));;
              mret (Some n)
      end
  end.

(** [void truncate(struct m_inode * inode)] has no body. *)
Definition truncate (inode : Z) : M (fss C) unit := mret tt.

(** ** The two versions *)

(** What two runs have in common when only their messages differ. *)
Definition no_trace (k : kst) : kst := Kst (heap k) (task k) (current k) (jiffies k) (startup_time k) (jiffies_offset k) (wq k) (timers k) (sysd k) [].
Definition quiet {A} (r : res (fss C) A) : res (fss C) A :=
  match r with Ok a s => Ok a (set_fkern (no_trace (fkern s)) s) | Halt h s => Halt h (set_fkern (no_trace (fkern s)) s) end.

(** The zone's place in the maps, both ways. *)
Lemma old_zone_place block first : 0 <= first - 1 <= block -> block - first + 1 < 2 ^ 32 ->
  let b := block - (first - 1) in let zone := u32 (block - first + 1) in
  Z.quot b 8192 = Z.shiftr zone 13 /\ Z.land b 8191 = Z.land zone 8191.
Proof using.
  intros Hf Hb. cbv zeta. rewrite u32_small by (unfold in_u32; lia). replace (block - first + 1) with (block - (first - 1)) by lia. split; [|done]. rewrite Z.shiftr_div_pow2 by lia. apply Z.quot_div_nonneg; lia.
Qed.

(** [free_block] and [minix_free_block] do the same to the disk: for every zone of a
    mounted device they return the same and leave the same state, except for the text of
    the message about a zone that is free already. *)
Theorem free_block_agrees (dev block : Z) (s : fss C) : (forall n sb, aget (super_blocks s) n = Some sb -> 0 <= s_firstdatazone sb - 1) -> block < 2 ^ 31 ->
  (forall o s', get_super patience dev s = Ok o s' -> super_blocks s' = super_blocks s) ->
  quiet (free_block dev block s) = quiet (minix_free_block patience dev block s).
Proof using.
  intros Hs Hb Hsup. unfold free_block, minix_free_block. unfold mbind, M_bind. destruct (get_super patience dev s) as [o s1|h s1] eqn:E; [|done]. destruct o as [sbn|]; [|done]. specialize (Hsup _ _ eq_refl).
  unfold super_at, mbind, M_bind, getS. cbn. rewrite Hsup. destruct (aget (super_blocks s) sbn) as [sb|] eqn:Es; [|done]. cbn. destruct ((block <? s_firstdatazone sb) || (s_nzones sb <=? block)) eqn:Er; [done|]. apply orb_false_iff in Er as [E1%Z.ltb_ge E2]. specialize (Hs sbn sb Es).
  destruct (on_cache (forget dev block) s1) as [busy s2|]; [|done]. destruct busy; [done|]. cbv zeta. destruct (old_zone_place block (s_firstdatazone sb)) as [P1 P2]; [lia|lia|]. cbv zeta in P1, P2. rewrite P1, P2.
  destruct (aget (s_zmap sb) _) as [m|]; [|done]. cbn. destruct m as [x|]; [|done]. cbn. destruct (on_cache (clear_bit _ x) s2) as [r s3|]; [|done]. destruct (truth r); [|done]. cbn. unfold on_cache. cbn. destruct (set_bh_dirt x 1 (fcache s3)); done.
Qed.

(** [free_inode] stops the kernel on an inode without a device: it clears the inode,
    does not return, and finds no super block for device 0. *)
Theorem free_inode_panics (n : Z) (v : inode) (s : fss C) : aget (inode_table s) n = Some v -> i_dev v = 0 ->
  exists s', free_inode (Some n) s = Halt (Panic "trying to free inode on nonexistent device") s'.
Proof using.
  intros Hn Hd. pose proof (aget_Some_range _ _ _ Hn) as Hr. eexists. unfold free_inode. rewrite (run_bind _ _ _ v s) by (unfold inode_at; erewrite run_bind by reflexivity; by rewrite Hn). rewrite Hd. cbn [Z.eqb].
  set (s1 := set_inode_table (<[Z.to_nat n := zero_inode]> (inode_table s)) s). set (s2 := set_fkern (set_wq (delete (i_wait n) (delete (i_wait2 n) (wq (fkern s1)))) (fkern s1)) s1).
  rewrite (run_bind _ _ _ tt s2) by (unfold clear_inode, inode_upd; rewrite (run_bind _ _ _ tt s1); [done|]; erewrite run_bind by reflexivity; rewrite Hn; erewrite run_bind by reflexivity; rewrite aset_in_range by done; done).
  rewrite (run_bind _ _ _ zero_inode s2) by (unfold inode_at; erewrite run_bind by reflexivity; cbn [inode_table s2 set_fkern s1 set_inode_table]; by rewrite aget_insert_eq). reflexivity.
Qed.
End Bitmap.
