(* ===== verification/Dir.v ===== *)
(** * Directories: [fs/minix/namei.c]

    A directory is a file of entries of 16 bytes: the number of an inode, 0 if the
    entry is free, and a name of 14 bytes.  Its operations find an entry, add and
    clear one, and keep the link counts of the inodes named.

    An entry is named by the buffer of its block and its place there.  Where the
    source does not compile ([mknod], [mkdir], [symlink] and [rename]), its evident
    reading is taken. *)

From S2P Require Import Prelude TaskStruct Sched Signal Sys Fs Minix Inode.

Definition MINIX_NAME_LEN : Z := 14.
Definition MINIX_DIR_ENTRIES_PER_BLOCK : Z := 64.
Definition DIR_ENTRY : Z := 16.                   (* sizeof (struct minix_dir_entry) *)
Definition MAY_EXEC : Z := 1.
Definition MAY_WRITE : Z := 2.
Definition MAY_READ : Z := 4.
Definition I_DIRECTORY : Z := 0x4000.
Definition I_REGULAR : Z := 0x8000.
Definition S_IFLNK : Z := 0xA000.
Definition S_ISVTX : Z := 0x200.

(** ** Where names are read from *)

Section Segment.
Context {C : Type} `{BufferCache C}.

(** What [get_fs_byte] reads depends on the segment in [fs]: the memory of the
    task, or that of the kernel, where a name is in a buffer or a constant. *)
Definition segment := Z -> M (fss C) Z.
Definition user_seg (fs : umem) : segment := fun a => mret (get_fs_byte fs a).
Definition buffer_seg (x : Z) : segment := fun a => on_cache (bh_byte x a).
Definition string_seg (l : list Z) : segment := fun a => ofOpt (aget l a).

(** [de->inode] and [de->name[i]] *)
Definition de_inode (x k : Z) : M (fss C) Z := on_cache (bh_word x (8 * k)).
Definition set_de_inode (x k v : Z) : M (fss C) unit := on_cache (set_bh_word x (8 * k) v).
Definition de_name (x k i : Z) : M (fss C) Z := on_cache (bh_byte x (16 * k + 2 + i)).
Definition set_de_name (x k i v : Z) : M (fss C) unit := on_cache (set_bh_byte x (16 * k + 2 + i) v).

(** [repe; cmpsb] on [n] bytes, from the [i]th on; no bytes are equal. *)
Fixpoint cmpsb (fs : segment) (n : nat) (name x k i : Z) : M (fss C) bool :=
  match n with
  | O => mret true
  | S n' =>
      c ← fs (name + i); d ← de_name x k i;
      if c =? d then cmpsb fs n' name x k (i + 1) else mret false
  end.

(** [static int minix_match(int len, const char *name, struct minix_dir_entry *de)] *)
Definition minix_match (fs : segment) (len name x k : Z) : M (fss C) Z :=
  ino ← de_inode x k;
  if (ino =? 0) || (MINIX_NAME_LEN <? len) then mret 0
  else
    dot ← (if len =? 0 then
             c ← de_name x k 0;
             if c =? 46 then d ← de_name x k 1; mret (d =? 0) else mret false
           else mret false);
    if (dot : bool) then mret 1
    else
      longer ← (if len <? MINIX_NAME_LEN then c ← de_name x k len; mret (truth c) else mret false);
      if (longer : bool) then mret 0 else b ← cmpsb fs (Z.to_nat len) name x k 0; mret (b2z b).

(** [strcmp(l, de->name)] is 0. *)
Fixpoint name_is (l : list Z) (x k i : Z) : M (fss C) bool :=
  c ← de_name x k i;
  match l with
  | [] => mret (c =? 0)
  | a :: l' => if c =? a then name_is l' x k (i + 1) else mret false
  end.

(** [strcpy(de->name, l)] *)
Fixpoint name_copy (l : list Z) (x k i : Z) : M (fss C) unit :=
  match l with [] => set_de_name x k i 0 | a :: l' => set_de_name x k i a;; name_copy l' x k (i + 1) end.

End Segment.
Arguments segment : clear implicits.

Section Dir.
Context {C : Type} `{BufferCache C, FsEnv C, PageAlloc C}.
Context (patience : nat).

(** ** Permissions: [fs/namei.c] *)

(** [int permission(struct inode *inode, int mask)] *)
Definition permission (n mask : Z) : M (fss C) Z :=
  v ← inode_at n;
  let mode := i_mode v in
  if truth (i_dev v) && negb (truth (i_nlink v)) then mret 0
  else
    e ← on_task (cur euid);
    mode ← (if e =? i_uid v then mret (Z.shiftr mode 6)
            else g ← on_task (in_group_p (i_gid v)); mret (if truth g then Z.shiftr mode 3 else mode));
    if Z.land (Z.land mode mask) 7 =? mask then mret 1
    else su ← on_task suser; mret (b2z su).

(** ** Entries of a directory *)

(** The number of entries. *)
Definition dir_entries (v : inode) : Z := u32 (i_size v) / DIR_ENTRY.

(** One round of the search: the entry looked for is number [i], [k] its place in
    the buffer; [bmap] finds the blocks of the directory.  The source goes on with a
    null [bh] when a block is missing. *)
Definition find_step (bmap : Z -> Z -> M (fss C) Z) (fs : segment C) (dir name namelen entries : Z) (st : Z * bptr * Z) : M (fss C) ((Z * bptr * Z) + option (Z * Z)) :=
  let '(i, bh, k) := st in
  if entries <=? i then on_cache (brelse bh);; mret (inr None)
  else
    x ← ofOpt bh;
    next ←
      (if MINIX_DIR_ENTRIES_PER_BLOCK <=? k then
         on_cache (brelse bh);;
         block ← bmap dir (i / MINIX_DIR_ENTRIES_PER_BLOCK);
         if block =? 0 then mret None
         else v ← inode_at dir; bh ← on_cache (bread (i_dev v) block); mret (match bh with Some x => Some (x, 0) | None => None end)
       else mret (Some (x, k)));
    match next with
    | None => mret (inl (i + MINIX_DIR_ENTRIES_PER_BLOCK, None, k))
    | Some (x, k) =>
        r ← minix_match fs namelen name x k;
        if truth r then mret (inr (Some (x, k))) else mret (inl (i + 1, Some x, k + 1))
    end.

Definition find_from (bmap : Z -> Z -> M (fss C) Z) (fs : segment C) (dir name namelen : Z) : M (fss C) (option (Z * Z)) :=
  let namelen := if MINIX_NAME_LEN <? namelen then MINIX_NAME_LEN else namelen in
  v ← inode_at dir;
  block ← ofOpt (aget (i_data v) 0);
  if block =? 0 then mret None
  else
    bh ← on_cache (bread (i_dev v) block);
    match bh with
    | None => mret None
    | Some x => iter (S (Z.to_nat (dir_entries v))) (find_step bmap fs dir name namelen (dir_entries v)) (0, Some x, 0)
    end.

(** [static struct buffer_head *minix_find_entry(struct inode *dir, const char *name, int namelen, struct minix_dir_entry **res_dir)];
    [NO_TRUNCATE] is not defined. *)
Definition minix_find_entry (fs : segment C) (dir : option Z) (name namelen : Z) : M (fss C) (option (Z * Z)) :=
  match dir with
  | None => mret None
  | Some dir => find_from (minix_bmap patience) fs dir name namelen
  end.

(** [int minix_lookup(struct inode *dir, const char *name, int len, struct inode **result)]:
    the value returned and the inode. *)
Definition minix_lookup (fs : segment C) (dir : option Z) (name len : Z) : M (fss C) (Z * option Z) :=
  match dir with
  | None => mret (- ENOENT, None)
  | Some d =>
      v ← inode_at d;
      if negb (S_ISDIR (i_mode v)) then iput patience dir;; mret (- ENOENT, None)
      else
        e ← minix_find_entry fs dir name len;
        match e with
        | None => iput patience dir;; mret (- ENOENT, None)
        | Some (x, k) =>
            ino ← de_inode x k;
            on_cache (brelse (Some x));;
            v ← inode_at d;
            r ← iget patience (i_dev v) ino;
            iput patience dir;;
            mret (match r with None => (- EACCES, None) | Some n => (0, Some n) end)
        end
  end.

(** One round of [minix_add_entry]. *)
Definition add_step (fs : segment C) (dir name namelen : Z) (st : Z * bptr * Z) : M (fss C) ((Z * bptr * Z) + option (Z * Z)) :=
  let '(i, bh, k) := st in
  x ← ofOpt bh;
  next ←
    (if MINIX_DIR_ENTRIES_PER_BLOCK <=? k then
       on_cache (brelse bh);;
       block ← minix_create_block patience dir (i / MINIX_DIR_ENTRIES_PER_BLOCK);
       if block =? 0 then mret (inr None)
       else
         v ← inode_at dir; bh ← on_cache (bread (i_dev v) block);
         mret (match bh with Some x => inl (x, 0) | None => inr (Some (i + MINIX_DIR_ENTRIES_PER_BLOCK)) end)
     else mret (inl (x, k)));
  match next with
  | inr None => mret (inr None)
  | inr (Some i) => mret (inl (i, None, k))
  | inl (x, k) =>
      v ← inode_at dir;
      (if u32 (i_size v) <=? u32 (i * DIR_ENTRY) then
         set_de_inode x k 0;;
         t ← now;
         inode_upd dir (fun v => set_i_ctime t (set_i_dirt 1 (set_i_size (s32 ((i + 1) * DIR_ENTRY)) v)))
       else mret tt);;
      ino ← de_inode x k;
      if ino =? 0 then
        t ← now;
        inode_upd dir (set_i_mtime t);;
        for_each (range 0 (Z.to_nat MINIX_NAME_LEN)) (fun j =>
          c ← (if j <? namelen then fs (name + j) else mret 0);
          set_de_name x k j c);;
        on_cache (set_bh_dirt x 1);;
        mret (inr (Some (x, k)))
      else mret (inl (i + 1, Some x, k + 1))
  end.

(** [static struct buffer_head *minix_add_entry(struct inode *dir, const char *name, int namelen, struct minix_dir_entry **res_dir)];
    there are as many rounds as entries, and one more, unless others add entries
    while a block is waited for. *)
Definition minix_add_entry (fs : segment C) (dir : option Z) (name namelen : Z) : M (fss C) (option (Z * Z)) :=
  match dir with
  | None => mret None
  | Some dir =>
      let namelen := if MINIX_NAME_LEN <? namelen then MINIX_NAME_LEN else namelen in
      if namelen =? 0 then mret None
      else
        v ← inode_at dir;
        block ← ofOpt (aget (i_data v) 0);
        if block =? 0 then mret None
        else
          bh ← on_cache (bread (i_dev v) block);
          match bh with
          | None => mret None
          | Some x => iter (patience + S (Z.to_nat (dir_entries v))) (add_step fs dir name namelen) (0, Some x, 0)
          end
  end.

(** [inode->i_nlink--] and so on. *)
Definition drop_link (n : Z) : M (fss C) unit := inode_upd n (fun v => set_i_nlink (u8 (i_nlink v - 1)) v).
Definition add_link (n : Z) : M (fss C) unit := inode_upd n (fun v => set_i_nlink (u8 (i_nlink v + 1)) v).

(** The new entry names inode [n]. *)
Definition name_inode (x k n : Z) : M (fss C) unit :=
  v ← inode_at n;
  set_de_inode x k (i_ino v);;
  on_cache (set_bh_dirt x 1).

(** [int minix_mknod(struct inode *dir, const char *name, int len, int mode, int rdev)] *)
Definition minix_mknod (fs : segment C) (dir : option Z) (name len mode rdev : Z) : M (fss C) Z :=
  match dir with
  | None => mret (- ENOENT)
  | Some d =>
      e ← minix_find_entry fs dir name len;
      match e with
      | Some (x, _) => on_cache (brelse (Some x));; iput patience dir;; mret (- EEXIST)
      | None =>
          dv ← inode_at d;
          o ← minix_new_inode patience (i_dev dv);
          match o with
          | None => iput patience dir;; mret (- ENOSPC)
          | Some n =>
              u ← on_task (cur euid);
              inode_upd n (fun v => set_i_mode (u16 mode) (set_i_uid u v));;
              (if S_ISBLK mode || S_ISCHR mode then inode_upd n (set_i_rdev (u16 rdev)) else mret tt);;
              t ← now;
              inode_upd n (fun v => set_i_dirt 1 (set_i_mtime t (set_i_atime t v)));;
              e ← minix_add_entry fs dir name len;
              match e with
              | None => drop_link n;; iput patience (Some n);; iput patience dir;; mret (- ENOSPC)
              | Some (x, k) =>
                  name_inode x k n;;
                  on_cache (brelse (Some x));;
                  iput patience dir;;
                  iput patience (Some n);;
                  mret 0
              end
          end
      end
  end.

(** The first block of a new file, from [minix_new_block] on: its buffer, or the
    error returned. *)
Definition first_block (dir : option Z) (n : Z) : M (fss C) (Z + Z) :=
  v ← inode_at n;
  z ← minix_new_block patience (i_dev v);
  inode_upd n (fun v => set_i_data (<[0%nat := z]> (i_data v)) v);;
  if z =? 0 then iput patience dir;; drop_link n;; iput patience (Some n);; mret (inr (- ENOSPC))
  else
    inode_upd n (set_i_dirt 1);;
    v ← inode_at n;
    bh ← on_cache (bread (i_dev v) z);
    match bh with
    | None => iput patience dir;; drop_link n;; iput patience (Some n);; mret (inr (- ERROR))
    | Some x => mret (inl x)
    end.

(** [int minix_mkdir(struct inode *dir, const char *name, int len, int mode)] *)
Definition minix_mkdir (fs : segment C) (d : Z) (name len mode : Z) : M (fss C) Z :=
  e ← minix_find_entry fs (Some d) name len;
  match e with
  | Some (x, _) => on_cache (brelse (Some x));; iput patience (Some d);; mret (- EEXIST)
  | None =>
      dv ← inode_at d;
      o ← minix_new_inode patience (i_dev dv);
      match o with
      | None => iput patience (Some d);; mret (- ENOSPC)
      | Some n =>
          t ← now;
          inode_upd n (fun v => set_i_mtime t (set_i_atime t (set_i_dirt 1 (set_i_size 32 v))));;
          b ← first_block (Some d) n;
          match b with
          | inr r => mret r
          | inl y =>
              v ← inode_at n; dv ← inode_at d;
              set_de_inode y 0 (i_ino v);; name_copy [46] y 0 0;;
              set_de_inode y 1 (i_ino dv);; name_copy [46; 46] y 1 0;;
              inode_upd n (set_i_nlink 2);;
              on_cache (set_bh_dirt y 1);;
              on_cache (brelse (Some y));;
              um ← on_task (cur umask);
              inode_upd n (fun v => set_i_dirt 1 (set_i_mode (u16 (Z.lor I_DIRECTORY (Z.ldiff (Z.land mode 0x1ff) um))) v));;
              e ← minix_add_entry fs (Some d) name len;
              match e with
              | None => iput patience (Some d);; inode_upd n (set_i_nlink 0);; iput patience (Some n);; mret (- ENOSPC)
              | Some (x, k) =>
                  name_inode x k n;;
                  add_link d;;
                  inode_upd d (set_i_dirt 1);;
                  iput patience (Some d);;
                  iput patience (Some n);;
                  on_cache (brelse (Some x));;
                  mret 0
              end
          end
      end
  end.

(** One round of [empty_dir]: [bh] has been given back when a block is missing. *)
Definition empty_dir_step (n len : Z) (st : Z * Z * Z) : M (fss C) ((Z * Z * Z) + Z) :=
  let '(nr, x, k) := st in
  if len <=? nr then on_cache (brelse (Some x));; mret (inr 1)
  else
    next ←
      (if MINIX_DIR_ENTRIES_PER_BLOCK <=? k then
         on_cache (brelse (Some x));;
         block ← minix_bmap patience n (nr / MINIX_DIR_ENTRIES_PER_BLOCK);
         if block =? 0 then mret (inr true)
         else
           v ← inode_at n; bh ← on_cache (bread (i_dev v) block);
           mret (match bh with Some x => inl (x, 0) | None => inr false end)
       else mret (inl (x, k)));
    match next with
    | inr true => mret (inl (nr + MINIX_DIR_ENTRIES_PER_BLOCK, x, k))
    | inr false => mret (inr 0)
    | inl (x, k) =>
        ino ← de_inode x k;
        if truth ino then on_cache (brelse (Some x));; mret (inr 0) else mret (inl (nr + 1, x, k + 1))
    end.

(** [static int empty_dir(struct inode *inode)] *)
Definition empty_dir (n : Z) : M (fss C) Z :=
  v ← inode_at n;
  let len := dir_entries v in
  let bad := on_task (printk "warning - bad directory on dev %04x\n");; mret 0 in
  if len <? 2 then bad
  else
    block ← ofOpt (aget (i_data v) 0);
    if block =? 0 then bad
    else
      bh ← on_cache (bread (i_dev v) block);
      match bh with
      | None => bad
      | Some x =>
          v ← inode_at n;
          i0 ← de_inode x 0; i1 ← de_inode x 1;
          ok ← (if negb (i0 =? i_ino v) || (i1 =? 0) then mret false
                else b ← name_is [46] x 0 0; if (b : bool) then name_is [46; 46] x 1 0 else mret false);
          if negb (ok : bool) then bad else iter (S (Z.to_nat len)) (empty_dir_step n len) (2, x, 2)
      end.

(** The checks of [minix_rmdir] on the inode found: the error, or none. *)
Definition rmdir_check (d n : Z) : M (fss C) (option Z) :=
  dv ← inode_at d; v ← inode_at n; e ← on_task (cur euid);
  if truth (Z.land (i_mode dv) S_ISVTX) && truth e && negb (i_uid v =? e) then mret (Some (- EPERM))
  else if negb (i_dev v =? i_dev dv) then mret (Some (- EPERM))
  else if n =? d then mret (Some (- EPERM))
  else if negb (S_ISDIR (i_mode v)) then mret (Some (- ENOTDIR))
  else
    r ← empty_dir n;
    if negb (truth r) then mret (Some (- ENOTEMPTY))
    else v ← inode_at n; if 1 <? i_count v then mret (Some (- EBUSY)) else mret None.

(** [int minix_rmdir(struct inode *dir, const char *name, int len)] *)
Definition minix_rmdir (fs : segment C) (d : Z) (name len : Z) : M (fss C) Z :=
  e ← minix_find_entry fs (Some d) name len;
  match e with
  | None => iput patience (Some d);; mret (- ENOENT)
  | Some (x, k) =>
      dv ← inode_at d; ino ← de_inode x k;
      o ← iget patience (i_dev dv) ino;
      r ← (match o with
           | None => mret (- EPERM)
           | Some n =>
               c ← rmdir_check d n;
               match c with
               | Some err => mret err
               | None =>
                   v ← inode_at n;
                   (if i_nlink v =? 2 then mret tt else on_task (printk "empty directory has nlink!=2 (%d)\n"));;
                   set_de_inode x k 0;;
                   on_cache (set_bh_dirt x 1);;
                   inode_upd n (fun v => set_i_dirt 1 (set_i_nlink 0 v));;
                   drop_link d;;
                   t ← now;
                   inode_upd d (fun v => set_i_dirt 1 (set_i_ctime t (set_i_mtime t v)));;
                   mret 0
               end
           end);
      iput patience (Some d);;
      iput patience o;;
      on_cache (brelse (Some x));;
      mret r
  end.

(** [int minix_unlink(struct inode *dir, const char *name, int len)] *)
Definition minix_unlink (fs : segment C) (d : Z) (name len : Z) : M (fss C) Z :=
  e ← minix_find_entry fs (Some d) name len;
  match e with
  | None => iput patience (Some d);; mret (- ENOENT)
  | Some (x, k) =>
      dv ← inode_at d; ino ← de_inode x k;
      o ← iget patience (i_dev dv) ino;
      r ← (match o with
           | None => mret (- ENOENT)
           | Some n =>
               dv ← inode_at d; v ← inode_at n; su ← on_task suser; e ← on_task (cur euid);
               if truth (Z.land (i_mode dv) S_ISVTX) && negb su && negb (e =? i_uid v) && negb (e =? i_uid dv) then mret (- EPERM)
               else if S_ISDIR (i_mode v) then mret (- EPERM)
               else
                 (if truth (i_nlink v) then mret tt
                  else on_task (printk "Deleting nonexistent file (%04x:%d), %d\n");; inode_upd n (set_i_nlink 1));;
                 set_de_inode x k 0;;
                 on_cache (set_bh_dirt x 1);;
                 drop_link n;;
                 t ← now;
                 inode_upd n (fun v => set_i_ctime t (set_i_dirt 1 v));;
                 mret 0
           end);
      on_cache (brelse (Some x));;
      iput patience o;;
      iput patience (Some d);;
      mret r
  end.

(** The loop that copies the target of a link to the buffer [y]: how many bytes. *)
Definition symname_step (fs : segment C) (sysname y i : Z) : M (fss C) (Z + Z) :=
  if i <? 1023 then
    c ← fs (sysname + i);
    if truth c then on_cache (set_bh_byte y i c);; mret (inl (i + 1)) else mret (inr i)
  else mret (inr i).

(** [int minix_symlink(struct inode *dir, const char *name, int len, const char *sysname)] *)
Definition minix_symlink (fs : segment C) (d : Z) (name len sysname : Z) : M (fss C) Z :=
  dv ← inode_at d;
  o ← minix_new_inode patience (i_dev dv);
  match o with
  | None => iput patience (Some d);; mret (- ENOSPC)
  | Some n =>
      inode_upd n (fun v => set_i_dirt 1 (set_i_mode (Z.lor S_IFLNK 0x1ff) v));;
      b ← first_block (Some d) n;
      match b with
      | inr r => mret r
      | inl y =>
          i ← iter 1024 (symname_step fs sysname y) 0;
          on_cache (set_bh_byte y i 0);;
          on_cache (set_bh_dirt y 1);;
          on_cache (brelse (Some y));;
          inode_upd n (fun v => set_i_dirt 1 (set_i_size i v));;
          e ← minix_find_entry fs (Some d) name len;
          match e with
          | Some (x, _) => drop_link n;; iput patience (Some n);; on_cache (brelse (Some x));; iput patience (Some d);; mret (- EEXIST)
          | None =>
              e ← minix_add_entry fs (Some d) name len;
              match e with
              | None => drop_link n;; iput patience (Some n);; iput patience (Some d);; mret (- ENOSPC)
              | Some (x, k) =>
                  name_inode x k n;;
                  on_cache (brelse (Some x));;
                  iput patience (Some d);;
                  iput patience (Some n);;
                  mret 0
              end
          end
      end
  end.

(** [int minix_link(struct inode *oldinode, struct inode *dir, const char *name, int len)] *)
Definition minix_link (fs : segment C) (old d : Z) (name len : Z) : M (fss C) Z :=
  v ← inode_at old;
  if S_ISDIR (i_mode v) then iput patience (Some old);; iput patience (Some d);; mret (- EPERM)
  else
    e ← minix_find_entry fs (Some d) name len;
    match e with
    | Some (x, _) => on_cache (brelse (Some x));; iput patience (Some d);; iput patience (Some old);; mret (- EEXIST)
    | None =>
        e ← minix_add_entry fs (Some d) name len;
        match e with
        | None => iput patience (Some d);; iput patience (Some old);; mret (- ENOSPC)
        | Some (x, k) =>
            name_inode x k old;;
            on_cache (brelse (Some x));;
            iput patience (Some d);;
            add_link old;;
            t ← now;
            inode_upd old (fun v => set_i_dirt 1 (set_i_ctime t v));;
            iput patience (Some old);;
            mret 0
        end
    end.

(** ** Renaming *)

(** One round of [subdir]. *)
Definition subdir_step (old new : Z) : M (fss C) (Z + (Z * option Z)) :=
  if new =? old then mret (inr (1, Some new))
  else
    v ← inode_at new; ov ← inode_at old;
    if negb (i_dev v =? i_dev ov) then mret (inr (0, Some new))
    else
      '(err, r) ← minix_lookup (string_seg [46; 46]) (Some new) 0 2;
      match r with
      | None => mret (inr (0, None))
      | Some m =>
          if truth err then mret (inr (0, Some m))
          else w ← inode_at m; if i_ino w =? i_ino v then mret (inr (0, Some m)) else mret (inl m)
      end.

(** [static int subdir(struct inode *new, struct inode *old)] *)
Definition subdir (new old : Z) : M (fss C) Z :=
  hold_count new;;
  '(r, new) ← iter patience (subdir_step old) new;
  iput patience new;;
  mret r.

(** The checks on a directory that is renamed: the error, or the buffer of its first
    block; the buffer may be there with an error. *)
Definition rename_dir_check (old_dir new_dir n : Z) (new_bh : bool) : M (fss C) (option Z * bptr) :=
  if new_bh then mret (Some (- EEXIST), None)
  else
    p ← permission n MAY_WRITE;
    if negb (truth p) then mret (Some (- EACCES), None)
    else
      s ← subdir new_dir n;
      if truth s then mret (Some (- EINVAL), None)
      else
        v ← inode_at n;
        z ← ofOpt (aget (i_data v) 0);
        if z =? 0 then mret (Some (- EIO), None)
        else
          bh ← on_cache (bread (i_dev v) z);
          match bh with
          | None => mret (Some (- EIO), None)
          | Some y =>
              parent ← de_inode y 1; dv ← inode_at old_dir;
              mret (if negb (parent =? i_ino dv) then Some (- EIO) else None, Some y)
          end.

(** What a round holds when it ends: the buffers and inodes to give back. *)
Record rename_held := RH { rh_dir : bptr; rh_old_bh : bptr; rh_new_bh : bptr; rh_old : option Z; rh_new : option Z }.

(** The last part of a round, from [if (!new_bh)] on: the buffer of the new entry,
    and the value returned, or none if the round starts over. *)
Definition rename_move (fs : segment C) (old_dir new_dir new_name new_len n : Z) (new_inode : option Z)
    (old_de : Z * Z) (new_de : option (Z * Z)) (dir_bh : bptr) : M (fss C) (bptr * option Z) :=
  e ← (match new_de with Some e => mret (Some e) | None => minix_add_entry fs (Some new_dir) new_name new_len end);
  match e with
  | None => mret (None, Some (- ENOSPC))
  | Some (y, j) =>
      let '(x, k) := old_de in
      new_ino ← de_inode y j; old_ino ← de_inode x k; v ← inode_at n;
      again ← (match new_inode with
               | Some m => w ← inode_at m; mret (negb (new_ino =? i_ino w))
               | None => mret (truth new_ino)
               end);
      if (again : bool) || negb (old_ino =? i_ino v) then mret (Some y, None)
      else
        set_de_inode x k 0;;
        set_de_inode y j (i_ino v);;
        (match new_inode with Some m => drop_link m | None => mret tt end);;
        on_cache (set_bh_dirt x 1);;
        on_cache (set_bh_dirt y 1);;
        (match dir_bh with
         | None => mret tt
         | Some z =>
             w ← inode_at new_dir;
             set_de_inode z 1 (i_ino w);;
             on_cache (set_bh_dirt z 1);;
             drop_link old_dir;; add_link new_dir;;
             inode_upd old_dir (set_i_dirt 1);; inode_upd new_dir (set_i_dirt 1)
         end);;
        mret (Some y, Some 0)
  end.

(** A round of [do_minix_rename], from [start_up] on. *)
Definition rename_round (fs : segment C) (old_dir old_name old_len new_dir new_name new_len : Z) : M (fss C) (rename_held * option Z) :=
  e ← minix_find_entry fs (Some old_dir) old_name old_len;
  match e with
  | None => mret (RH None None None None None, Some (- ENOENT))
  | Some (x, k) =>
      dv ← inode_at old_dir; ino ← de_inode x k;
      o ← iget patience (i_dev dv) ino;
      match o with
      | None => mret (RH None (Some x) None None None, Some (- ENOENT))
      | Some n =>
          e2 ← minix_find_entry fs (Some new_dir) new_name new_len;
          '(e2, m) ←
            (match e2 with
             | None => mret (None, None)
             | Some (y, j) =>
                 nv ← inode_at new_dir; ino ← de_inode y j;
                 m ← iget patience (i_dev nv) ino;
                 match m with
                 | None => on_cache (brelse (Some y));; mret (None, None)
                 | Some m => mret (Some (y, j), Some m)
                 end
             end);
          let new_bh := option_map fst e2 in
          if bool_decide (m = Some n) then mret (RH None (Some x) new_bh (Some n) m, Some 0)
          else
            v ← inode_at n;
            '(err, dir_bh) ← (if S_ISDIR (i_mode v) then rename_dir_check old_dir new_dir n (bool_decide (is_Some e2)) else mret (None, None));
            match err with
            | Some r => mret (RH dir_bh (Some x) new_bh (Some n) m, Some r)
            | None =>
                '(new_bh, r) ← rename_move fs old_dir new_dir new_name new_len n m (x, k) e2 dir_bh;
                mret (RH dir_bh (Some x) new_bh (Some n) m, r)
            end
      end
  end.

(** A round, and what follows [try_again] or [end_rename]. *)
Definition rename_step (fs : segment C) (old_dir old_name old_len new_dir new_name new_len : Z) (_ : unit) : M (fss C) (unit + Z) :=
  '(h, r) ← rename_round fs old_dir old_name old_len new_dir new_name new_len;
  match r with
  | None =>
      on_cache (brelse (rh_old_bh h));; on_cache (brelse (rh_new_bh h));; on_cache (brelse (rh_dir h));;
      iput patience (rh_old h);; iput patience (rh_new h);;
      on_task (upd_cur (set_counter 0));;
      fs_yield;;
      mret (inl tt)
  | Some r =>
      on_cache (brelse (rh_dir h));; on_cache (brelse (rh_old_bh h));; on_cache (brelse (rh_new_bh h));;
      iput patience (rh_old h);; iput patience (rh_new h);;
      iput patience (Some old_dir);; iput patience (Some new_dir);;
      mret (inr r)
  end.

(** [static int do_minix_rename(...)] *)
Definition do_minix_rename (fs : segment C) (old_dir old_name old_len new_dir new_name new_len : Z) : M (fss C) Z :=
  iter patience (rename_step fs old_dir old_name old_len new_dir new_name new_len) tt.

(** [int minix_rename(...)] *)
Definition minix_rename (fs : segment C) (old_dir old_name old_len new_dir new_name new_len : Z) : M (fss C) Z :=
  iter patience (fun _ => l ← gets rename_lock; if truth l then fs_sleep rename_wait;; mret (inl tt) else mret (inr tt)) tt;;
  modify (set_rename_lock 1);;
  r ← do_minix_rename fs old_dir old_name old_len new_dir new_name new_len;
  modify (set_rename_lock 0);;
  on_task (wake_up rename_wait);;
  mret r.

End Dir.
