(* ===== verification/Namei.v ===== *)
(** * Path names: [fs/namei.c]

    A path is walked one name at a time; symbolic links are followed by walking
    their target, at most six deep.  The system calls on names check permissions
    and call the operations of the directory.

    [open_namei] and the static functions it calls are left from before the file
    systems were separated: [i_zone], [i_num], [i_nlinks] and [s_imount] are
    [i_data], [i_ino], [i_nlink] and [s_covered].  [new_inode] and [truncate] are those
    of [Bitmap], and [create_block], which no file defines, is that of MINIX. *)

From S2P Require Import Prelude TaskStruct Sched Signal Sys Fs Minix Inode Bitmap Dir.

Definition O_ACCMODE : Z := 3.
Definition O_WRONLY : Z := 1.
Definition O_CREAT : Z := 0x40.
Definition O_EXCL : Z := 0x80.
Definition O_TRUNC : Z := 0x200.

(** [ACC_MODE(x)]: a character of the string, which is signed. *)
Definition ACC_MODE (x : Z) : Z := nth (Z.to_nat (Z.land x O_ACCMODE)) [4; 2; 6; -1] 0.

Section Namei.
Context {C : Type} `{BufferCache C, FsEnv C, PageAlloc C}.
Context (patience : nat).

(** [base = current->pwd; base->i_count++] and so on: a new reference to an inode
    of the running task. *)
Definition hold_of (f : task_struct -> option positive) : M (fss C) Z :=
  p ← on_task (cur f);
  p ← ofOpt p;
  hold_count (ptr_entry p);;
  mret (ptr_entry p).

(** [len == 2 && get_fs_byte(name) == '.' && get_fs_byte(name + 1) == '.'] *)
Definition is_dotdot (fs : segment C) (name len : Z) : M (fss C) bool :=
  if len =? 2 then
    a ← fs name;
    if a =? 46 then b ← fs (name + 1); mret (b =? 46) else mret false
  else mret false.

Definition is_root (d : Z) : M (fss C) bool := r ← on_task (cur root); mret (bool_decide (ptr_entry <$> r = Some d)).

(** [int lookup(struct inode *dir, const char *name, int len, struct inode **result)] *)
Definition lookup (fs : segment C) (d name len : Z) : M (fss C) (Z * option Z) :=
  up ← is_dotdot fs name len;
  '(dir, len) ←
    (if (up : bool) then
       r ← is_root d;
       if (r : bool) then mret (Some d, 1)
       else
         v ← inode_at d;
         match i_sb v with
         | None => mret (Some d, len)
         | Some sbn =>
             sb ← super_at sbn;
             if bool_decide (s_mounted sb = Some d) then
               iput patience (Some d);;
               sb ← super_at sbn;
               (match s_covered sb with Some c => hold_count c | None => mret tt end);;
               mret (s_covered sb, len)
             else mret (Some d, len)
         end
     else mret (Some d, len));
  match dir with
  | None => mret (- ENOENT, None)
  | Some d =>
      p ← permission d MAY_EXEC;
      if negb (truth p) then iput patience (Some d);; mret (- EACCES, None)
      else if len =? 0 then mret (0, Some d)
      else
        v ← inode_at d;
        match i_op v with
        | None => iput patience (Some d);; mret (- ENOENT, None)
        | Some minix_inode_operations => minix_lookup patience fs (Some d) name len
        end
  end.

(** ** Walking a path

    [deeper] is [_namei], for the target of a link. *)
Section Walk.
Context (deeper : segment C -> Z -> option Z -> bool -> M (fss C) (option Z)).

(** [struct inode *minix_follow_link(struct inode *dir, struct inode *inode)] *)
Definition minix_follow_link (dir inode : option Z) : M (fss C) (option Z) :=
  d ← (match dir with Some d => mret d | None => hold_of root end);
  match inode with
  | None => iput patience (Some d);; mret None
  | Some n =>
      v ← inode_at n;
      if negb (S_ISLNK (i_mode v)) then iput patience (Some d);; mret inode
      else
        l ← on_task (cur link_count);
        z ← ofOpt (aget (i_data v) 0);
        bh ← (if (5 <? l) || (z =? 0) then mret None else on_cache (bread (i_dev v) z));
        match bh with
        | None => iput patience (Some d);; iput patience inode;; mret None
        | Some x =>
            iput patience inode;;
            on_task (upd_cur (fun t => set_link_count (s32 (link_count t + 1)) t));;
            r ← deeper (buffer_seg x) 0 (Some d) true;
            on_task (upd_cur (fun t => set_link_count (s32 (link_count t - 1)) t));;
            on_cache (brelse bh);;
            mret r
        end
  end.

(** [struct inode * follow_link(struct inode * dir, struct inode * inode)] *)
Definition follow_link (dir inode : option Z) : M (fss C) (option Z) :=
  match dir, inode with
  | Some d, Some n =>
      v ← inode_at n;
      match i_op v with
      | None => iput patience dir;; mret inode
      | Some minix_inode_operations => minix_follow_link dir inode
      end
  | _, _ => iput patience dir;; iput patience inode;; mret None
  end.

(** Each leading slash starts at the root. *)
Definition slash_step (fs : segment C) (x : Z * Z) : M (fss C) ((Z * Z) + (Z * Z)) :=
  let '(base, pathname) := x in
  c ← fs pathname;
  if c =? 47 then
    iput patience (Some base);;
    b ← hold_of root;
    mret (inl (b, pathname + 1))
  else mret (inr (base, pathname)).

(** The length of a name, and the character that ends it. *)
Definition name_step (fs : segment C) (name len : Z) : M (fss C) (Z + (Z * Z)) :=
  c ← fs (name + len);
  if (c =? 0) || (c =? 47) then mret (inr (len, c)) else mret (inl (len + 1)).

(** One name of the path; at the last one the directory, the name and its length. *)
Definition walk_step (fs : segment C) (x : Z * Z) : M (fss C) ((Z * Z) + option (Z * Z * Z)) :=
  let '(base, thisname) := x in
  '(len, c) ← iter patience (name_step fs thisname) 0;
  if c =? 0 then mret (inr (Some (base, thisname, len)))
  else
    hold_count base;;
    '(error, inode) ← lookup fs base thisname len;
    if truth error then iput patience (Some base);; mret (inr None)
    else
      b ← follow_link (Some base) inode;
      match b with None => mret (inr None) | Some b => mret (inl (b, thisname + len + 1)) end.

(** [static struct inode * dir_namei(const char * pathname, int * namelen, const char ** name, struct inode * base)] *)
Definition dir_namei_with (fs : segment C) (pathname : Z) (base : option Z) : M (fss C) (option (Z * Z * Z)) :=
  b ← (match base with Some b => mret b | None => hold_of pwd end);
  x ← iter patience (slash_step fs) (b, pathname);
  iter patience (walk_step fs) x.

(** [struct inode * _namei(const char * pathname, struct inode * base, int follow_links)] *)
Definition namei_with (fs : segment C) (pathname : Z) (base : option Z) (follow_links : bool) : M (fss C) (option Z) :=
  o ← dir_namei_with fs pathname base;
  match o with
  | None => mret None
  | Some (b, name, len) =>
      hold_count b;;
      '(error, inode) ← lookup fs b name len;
      if truth error then iput patience (Some b);; mret None
      else
        inode ← (if follow_links then follow_link (Some b) inode else iput patience (Some b);; mret inode);
        (match inode with
         | None => mret tt
         | Some n => t ← now; inode_upd n (fun v => set_i_dirt 1 (set_i_atime t v))
         end);;
        mret inode
  end.

End Walk.

(** [_namei] calls itself through links, at most [depth] deep. *)
Fixpoint _namei (depth : nat) : segment C -> Z -> option Z -> bool -> M (fss C) (option Z) :=
  match depth with O => fun _ _ _ _ => halts Hang | S d => namei_with (_namei d) end.

(** Deep enough: a task with [link_count > 5] follows no link. *)
Definition link_depth : nat := 6.

Definition dir_namei (fs : segment C) (pathname : Z) : M (fss C) (option (Z * Z * Z)) := dir_namei_with (_namei link_depth) fs pathname None.
(** [struct m_inode * lnamei(const char * pathname)] *)
Definition lnamei (fs : segment C) (pathname : Z) : M (fss C) (option Z) := _namei (S link_depth) fs pathname None false.
(** [struct inode * namei(const char * pathname)] *)
Definition namei (fs : segment C) (pathname : Z) : M (fss C) (option Z) := _namei (S link_depth) fs pathname None true.

(** ** Opening: [open_namei] *)

(** [static struct buffer_head * find_entry(struct m_inode ** dir, const char * name, int namelen, struct dir_entry ** res_dir)]:
    the directory may change. *)
Definition find_entry (fs : segment C) (d name namelen : Z) : M (fss C) (Z * option (Z * Z)) :=
  let namelen := if MINIX_NAME_LEN <? namelen then MINIX_NAME_LEN else namelen in
  up ← is_dotdot fs name namelen;
  '(d, namelen) ←
    (if (up : bool) then
       r ← is_root d;
       if (r : bool) then mret (d, 1)
       else
         v ← inode_at d;
         if i_ino v =? MINIX_ROOT_INO then
           o ← get_super patience (i_dev v);
           sbn ← ofOpt o;
           sb ← super_at sbn;
           match s_covered sb with
           | None => mret (d, namelen)
           | Some c => iput patience (Some d);; hold_count c;; mret (c, namelen)
           end
         else mret (d, namelen)
     else mret (d, namelen));
  e ← find_from (bmap patience) fs d name namelen;
  mret (d, e).

(** [static struct buffer_head * add_entry(struct m_inode * dir, const char * name, int namelen, struct dir_entry ** res_dir)];
    its loop is the one of [minix_add_entry]. *)
Definition add_entry (fs : segment C) (dir name namelen : Z) : M (fss C) (option (Z * Z)) :=
  let namelen := if MINIX_NAME_LEN <? namelen then MINIX_NAME_LEN else namelen in
  if namelen =? 0 then mret None
  else
    v ← inode_at dir;
    block ← ofOpt (aget (i_data v) 0);
    if block =? 0 then mret None
    else
      bh ← on_cache (bread (i_dev v) block);
      match bh with
      | None => mret None
      | Some x => iter (patience + S (Z.to_nat (dir_entries v))) (add_step patience fs dir name namelen) (0, Some x, 0)
      end.

(** A new file of the directory. *)
Definition open_create (fs : segment C) (d name len mode : Z) : M (fss C) (Z * option Z) :=
  p ← permission d MAY_WRITE;
  if negb (truth p) then iput patience (Some d);; mret (- EACCES, None)
  else
    dv ← inode_at d;
    o ← new_inode patience (i_dev dv);
    match o with
    | None => iput patience (Some d);; mret (- ENOSPC, None)
    | Some n =>
        u ← on_task (cur euid);
        inode_upd n (fun v => set_i_dirt 1 (set_i_mode (u16 mode) (set_i_uid u v)));;
        e ← add_entry fs d name len;
        match e with
        | None => drop_link n;; iput patience (Some n);; iput patience (Some d);; mret (- ENOSPC, None)
        | Some (x, k) =>
            name_inode x k n;;
            on_cache (brelse (Some x));;
            iput patience (Some d);;
            mret (0, Some n)
        end
    end.

(** A file of the directory that is there: its entry is [k] of buffer [x]. *)
Definition open_found (d x k flag : Z) : M (fss C) (Z * option Z) :=
  inr ← de_inode x k;
  dv ← inode_at d;
  on_cache (brelse (Some x));;
  if truth (Z.land flag O_EXCL) then iput patience (Some d);; mret (- EEXIST, None)
  else
    i ← iget patience (i_dev dv) inr;
    o ← follow_link (_namei link_depth) (Some d) i;
    match o with
    | None => mret (- EACCES, None)
    | Some n =>
        v ← inode_at n;
        bad ← (if S_ISDIR (i_mode v) && truth (Z.land flag O_ACCMODE) then mret true
               else p ← permission n (ACC_MODE flag); mret (negb (truth p)));
        if (bad : bool) then iput patience (Some n);; mret (- EPERM, None)
        else
          t ← now;
          inode_upd n (set_i_atime t);;
          (if truth (Z.land flag O_TRUNC) then truncate n else mret tt);;
          mret (0, Some n)
    end.

(** [int open_namei(const char * pathname, int flag, int mode, struct inode ** res_inode)] *)
Definition open_namei (fs : segment C) (pathname flag mode : Z) : M (fss C) (Z * option Z) :=
  let flag := if truth (Z.land flag O_TRUNC) && negb (truth (Z.land flag O_ACCMODE)) then Z.lor flag O_WRONLY else flag in
  um ← on_task (cur umask);
  let mode := Z.lor (Z.ldiff (Z.land mode 0x1ff) um) I_REGULAR in
  o ← dir_namei fs pathname;
  match o with
  | None => mret (- ENOENT, None)
  | Some (d, name, len) =>
      if len =? 0 then
        if negb (truth (Z.land flag (Z.lor O_ACCMODE (Z.lor O_CREAT O_TRUNC)))) then mret (0, Some d)
        else iput patience (Some d);; mret (- EISDIR, None)
      else
        '(d, e) ← find_entry fs d name len;
        match e with
        | None =>
            if truth (Z.land (b2z (flag =? 0)) O_CREAT) then iput patience (Some d);; mret (- ENOENT, None)
            else open_create fs d name len mode
        | Some (x, k) => open_found d x k flag
        end
  end.

(** ** System calls on names *)

(** The directory of a path, for a call that changes it: an error when there is
    none, when the path ends in a slash, when it must not be written, or when it
    has no operations. *)
Definition on_dir (fs : segment C) (path none empty denied : Z) (act : Z -> Z -> Z -> M (fss C) Z) : M (fss C) Z :=
  o ← dir_namei fs path;
  match o with
  | None => mret none
  | Some (d, name, len) =>
      if len =? 0 then iput patience (Some d);; mret empty
      else
        p ← permission d MAY_WRITE;
        if negb (truth p) then iput patience (Some d);; mret denied
        else
          v ← inode_at d;
          match i_op v with
          | None => iput patience (Some d);; mret (- EPERM)
          | Some minix_inode_operations => act d name len
          end
  end.

(** [int sys_mknod(const char * filename, int mode, int dev)] *)
Definition sys_mknod (fs : segment C) (filename mode dev : Z) : M (fss C) Z :=
  su ← on_task suser;
  if negb (su : bool) then mret (- EPERM)
  else on_dir fs filename (- ENOENT) (- ENOENT) (- EACCES) (fun d name len => minix_mknod patience fs (Some d) name len mode dev).

(** [int sys_mkdir(const char * pathname, int mode)] *)
Definition sys_mkdir (fs : segment C) (pathname mode : Z) : M (fss C) Z :=
  on_dir fs pathname (- ENOENT) (- ENOENT) (- EPERM) (fun d name len => minix_mkdir patience fs d name len mode).

(** [int sys_rmdir(const char * name)] *)
Definition sys_rmdir (fs : segment C) (path : Z) : M (fss C) Z :=
  on_dir fs path (- ENOENT) (- ENOENT) (- EACCES) (fun d name len => minix_rmdir patience fs d name len).

(** [int sys_unlink(const char * name)] *)
Definition sys_unlink (fs : segment C) (path : Z) : M (fss C) Z :=
  on_dir fs path (- ENOENT) (- EPERM) (- EACCES) (fun d name len => minix_unlink patience fs d name len).

(** [int sys_symlink(const char * oldname, const char * newname)] *)
Definition sys_symlink (fs : segment C) (oldname newname : Z) : M (fss C) Z :=
  on_dir fs newname (- EACCES) (- EACCES) (- EACCES) (fun d name len => minix_symlink patience fs d name len oldname).

(** [int sys_link(const char * oldname, const char * newname)] *)
Definition sys_link (fs : segment C) (oldname newname : Z) : M (fss C) Z :=
  i ← namei fs oldname;
  match i with
  | None => mret (- ENOENT)
  | Some old =>
      o ← dir_namei fs newname;
      match o with
      | None => iput patience (Some old);; mret (- EACCES)
      | Some (d, name, len) =>
          if len =? 0 then iput patience (Some old);; iput patience (Some d);; mret (- EPERM)
          else
            dv ← inode_at d; ov ← inode_at old;
            if negb (i_dev dv =? i_dev ov) then iput patience (Some d);; iput patience (Some old);; mret (- EXDEV)
            else
              p ← permission d MAY_WRITE;
              if negb (truth p) then iput patience (Some d);; iput patience (Some old);; mret (- EACCES)
              else
                v ← inode_at d;
                match i_op v with
                | None => iput patience (Some d);; iput patience (Some old);; mret (- EPERM)
                | Some minix_inode_operations => minix_link patience fs old d name len
                end
      end
  end.

(** An empty name, [.] or [..]. *)
Definition bad_name (fs : segment C) (name len : Z) : M (fss C) bool :=
  if len =? 0 then mret true
  else
    a ← fs name;
    if a =? 46 then
      if len =? 1 then mret true
      else b ← fs (name + 1); mret ((b =? 46) && (len =? 2))
    else mret false.

(** Whether [i_op->rename] is not null. *)
Definition has_rename (ops : inode_operations) : bool := match ops with minix_inode_operations => true end.

(** [int sys_rename(const char *oldname, const char *newname)]; the last test gives
    up when there is an operation, and calls it when there is none. *)
Definition sys_rename (fs : segment C) (oldname newname : Z) : M (fss C) Z :=
  o ← dir_namei fs oldname;
  match o with
  | None => mret (- ENOENT)
  | Some (od, oname, olen) =>
      p ← permission od MAY_WRITE;
      if negb (truth p) then iput patience (Some od);; mret (- EACCES)
      else
        b ← bad_name fs oname olen;
        if (b : bool) then iput patience (Some od);; mret (- EPERM)
        else
          o ← dir_namei fs newname;
          match o with
          | None => iput patience (Some od);; mret (- ENOENT)
          | Some (nd, nname, nlen) =>
              p ← permission nd MAY_WRITE;
              if negb (truth p) then iput patience (Some od);; iput patience (Some nd);; mret (- EPERM)
              else
                b ← bad_name fs nname nlen;
                if (b : bool) then iput patience (Some od);; iput patience (Some nd);; mret (- EPERM)
                else
                  ov ← inode_at od; nv ← inode_at nd;
                  if negb (i_dev nv =? i_dev ov) then iput patience (Some od);; iput patience (Some nd);; mret (- EXDEV)
                  else
                    match i_op ov with
                    | None => iput patience (Some od);; iput patience (Some nd);; mret (- EPERM)
                    | Some ops =>
                        if has_rename ops then iput patience (Some od);; iput patience (Some nd);; mret (- EPERM)
                        else halts Fault
                    end
          end
  end.

End Namei.
