(* ===== verification/DirOk.v ===== *)
(** * Theorems about directories

    A name is found in a directory exactly when an entry in use has it, and it is
    the first such entry; a name that is added is found afterwards, and no other
    entry changes.  Permissions are those of the class the task belongs to. *)

From S2P Require Import Prelude TaskStruct Sched Signal Sys Fs Store Minix MinixOk Bmap Truncate Inode Pipe InodeOk Dir.

(** ** Names *)

(** A string up to the first zero. *)
Fixpoint cstr (l : list Z) : list Z := match l with [] => [] | c :: l' => if c =? 0 then [] else c :: cstr l' end.

Lemma cstr_take l : cstr l = take (length (cstr l)) l.
Proof. induction l as [|c l IH]; [done|]. cbn [cstr]. destruct (c =? 0); [done|]. cbn [length take]. by rewrite <-IH. Qed.

Lemma cstr_nonzero l : Forall (fun c => c <> 0) (cstr l).
Proof. induction l as [|c l IH]; [constructor|]. cbn [cstr]. destruct (Z.eqb_spec c 0); constructor; done. Qed.

(** A string of nonzero characters is there when they are, and a zero follows. *)
Lemma cstr_is nm l : Forall (fun c => c <> 0) l -> (length l <= length nm)%nat ->
  cstr nm = l <-> take (length l) nm = l /\ ((length l < length nm)%nat -> nm !! length l = Some 0).
Proof.
  intros Hl. revert nm. induction Hl as [|c l Hc Hl IH]; intros nm Hle.
  - cbn [length take] in *. destruct nm as [|a nm]; [cbn; split; [by split; [|lia]|done]|]. cbn [cstr length]. destruct (Z.eqb_spec a 0) as [->|Ha].
    + split; [done|done].
    + split; [done|]. intros [_ H]. specialize (H ltac:(lia)). cbn in H. congruence.
  - destruct nm as [|a nm]; [cbn in Hle; lia|]. cbn [length take cstr] in *. specialize (IH nm ltac:(lia)). destruct (Z.eqb_spec a 0) as [->|Ha].
    + split; [done|]. intros [[= <-] _]. done.
    + change ((a :: nm) !! S (length l)) with (nm !! length l). split.
      * intros [= -> E]. destruct (proj1 IH E) as [H1 H2]. split; [by rewrite H1|]. intros ?. apply H2. lia.
      * intros [[= -> E] H]. f_equal. apply IH. split; [done|]. intros ?. apply H. lia.
Qed.

(** ** Entries of a block *)

(** The name field and the name of entry [k], and the inode it names. *)
Definition ename (d : list Z) (k : Z) : list Z := take 14 (drop (Z.to_nat (16 * k + 2)) d).
Definition dname (d : list Z) (k : Z) : list Z := cstr (ename d k).
Definition dino (d : list Z) (k : Z) : Z := word_at d (8 * k).

(** Whether entry [k] is in use, with the name [l]. *)
Definition entry_named (d : list Z) (k : Z) (l : list Z) : bool := negb (dino d k =? 0) && bool_decide (dname d k = l).

Lemma length_ename d k : block_data d -> 0 <= k < 64 -> length (ename d k) = 14%nat.
Proof. intros [Hl _] Hk. unfold ename. rewrite length_take, length_drop, Hl. unfold BLOCK_SIZE. lia. Qed.

Lemma ename_lookup d k i : block_data d -> 0 <= k < 64 -> 0 <= i < 14 -> ename d k !! Z.to_nat i = Some (default 0 (aget d (16 * k + 2 + i))).
Proof.
  intros [Hl _] Hk Hi. unfold ename, aget. rewrite lookup_take_lt by lia. rewrite lookup_drop. destruct (Z.ltb_spec (16 * k + 2 + i) 0); [lia|].
  replace (Z.to_nat (16 * k + 2 + i)) with (Z.to_nat (16 * k + 2) + Z.to_nat i)%nat by lia.
  destruct (d !! (Z.to_nat (16 * k + 2) + Z.to_nat i)%nat) as [c|] eqn:E; [done|]. apply lookup_ge_None in E. unfold BLOCK_SIZE in Hl. lia.
Qed.

Section Match.
Context {C : Type} {HB : BufferCache C} {HV : CacheView C} {HL : BufferCacheOk C}.

Lemma de_inode_run (c : C) (s : fss C) x b w k : cwf c -> buffer c x b w -> 0 <= k < 64 -> de_inode x k (set_fcache c s) = Ok (dino (bv_data w) k) (set_fcache c s).
Proof using HL. intros Hc Hb Hk. unfold de_inode. apply on_cache_at. by apply (bh_word_run c x b w (8 * k) Hc Hb ltac:(lia)). Qed.

Lemma de_name_run (c : C) (s : fss C) x b w k i : cwf c -> buffer c x b w -> 0 <= k < 64 -> 0 <= i < 14 ->
  de_name x k i (set_fcache c s) = Ok (default 0 (aget (bv_data w) (16 * k + 2 + i))) (set_fcache c s).
Proof using HL. intros Hc Hb Hk Hi. unfold de_name. apply on_cache_at. apply (bh_byte_run c x b w _ Hc Hb). unfold BLOCK_SIZE. lia. Qed.

Lemma cmpsb_run fs (c : C) (s : fss C) x b w k name : cwf c -> buffer c x b w -> 0 <= k < 64 -> forall n i, 0 <= i -> i + Z.of_nat n <= 14 ->
  cmpsb (user_seg fs) n name x k i (set_fcache c s) = Ok (bool_decide (take n (drop (Z.to_nat i) (ename (bv_data w) k)) = user_bytes fs (name + i) n)) (set_fcache c s).
Proof using HL.
  intros Hc Hb Hk. pose proof (cwf_data _ Hc _ _ (proj1 Hb)) as Hd. induction n as [|n IH]; intros i Hi Hn; [done|]. cbn [cmpsb].
  change (user_seg fs (name + i)) with (mret (M := M (fss C)) (get_fs_byte fs (name + i))). rewrite bind_ret.
  rewrite (run_bind _ _ _ _ _ (de_name_run c s x b w k i Hc Hb Hk ltac:(lia))). set (a := default 0 (aget (bv_data w) (16 * k + 2 + i))).
  replace (S n) with (1 + n)%nat by lia. rewrite user_bytes_app. change (user_bytes fs (name + i) 1) with [get_fs_byte fs (name + i + (0 + Z.of_nat 0))]. rewrite Z.add_0_r.
  rewrite (drop_S _ a) by (apply ename_lookup; [done|done|lia]). cbn [Nat.add take app]. replace (S (Z.to_nat i)) with (Z.to_nat (i + 1)) by lia.
  destruct (Z.eqb_spec (get_fs_byte fs (name + i)) a) as [E|E].
  - rewrite IH by lia. replace (name + i + Z.of_nat 1) with (name + (i + 1)) by lia. f_equal. apply bool_decide_ext. rewrite E. split; [intros H1; by rewrite H1|by intros [= H1]].
  - rewrite bool_decide_false; [done|]. intros [= E' _]. congruence.
Qed.

(** [minix_match] compares the name of an entry in use. *)
Lemma match_run fs (c : C) (s : fss C) x b w k name len : cwf c -> buffer c x b w -> 0 <= k < 64 -> 1 <= len <= 14 ->
  Forall (fun c => c <> 0) (user_bytes fs name (Z.to_nat len)) ->
  minix_match (user_seg fs) len name x k (set_fcache c s) = Ok (b2z (entry_named (bv_data w) k (user_bytes fs name (Z.to_nat len)))) (set_fcache c s).
Proof using HL.
  intros Hc Hb Hk Hlen Hnz. pose proof (cwf_data _ Hc _ _ (proj1 Hb)) as Hd. unfold minix_match, MINIX_NAME_LEN, entry_named, dname.
  rewrite (run_bind _ _ _ _ _ (de_inode_run c s x b w k Hc Hb Hk)). destruct (Z.ltb_spec 14 len); [lia|]. rewrite orb_false_r. destruct (dino (bv_data w) k =? 0); [done|].
  destruct (Z.eqb_spec len 0); [lia|]. rewrite bind_ret. cbn [negb andb].
  pose proof (cstr_is (ename (bv_data w) k) _ Hnz) as Hcs. rewrite length_user_bytes, (length_ename _ _ Hd Hk) in Hcs. specialize (Hcs ltac:(lia)).
  pose proof (cmpsb_run fs c s x b w k name Hc Hb Hk (Z.to_nat len) 0 ltac:(lia) ltac:(lia)) as Hcmp. rewrite Z.add_0_r, drop_0 in Hcmp.
  destruct (Z.ltb_spec len 14) as [Hl|Hl].
  - rewrite (run_bind _ _ _ (truth (default 0 (aget (bv_data w) (16 * k + 2 + len)))) (set_fcache c s)) by (by rewrite (run_bind _ _ _ _ _ (de_name_run c s x b w k len Hc Hb Hk ltac:(lia)))).
    rewrite (ename_lookup _ _ len Hd Hk ltac:(lia)) in Hcs. set (a := default 0 _) in *. unfold truth. destruct (Z.eqb_spec a 0) as [E|E]; cbn [negb].
    + rewrite (run_bind _ _ _ _ _ Hcmp). unfold mret, M_ret. do 2 f_equal. apply bool_decide_ext. rewrite Hcs, E. split; [by intros ->|by intros [? _]].
    + rewrite bool_decide_false; [done|]. intros H1. apply Hcs in H1 as [_ H1]. specialize (H1 ltac:(lia)). congruence.
  - rewrite bind_ret, (run_bind _ _ _ _ _ Hcmp). unfold mret, M_ret. do 2 f_equal. apply bool_decide_ext. rewrite Hcs. split; [intros ->; split; [done|lia]|by intros [? _]].
Qed.

End Match.

(** ** Finding a name *)

Section Find.
Context {C : Type} {HB : BufferCache C} {HV : CacheView C} {HL : BufferCacheOk C} {HE : FsEnv C}.
Context (dev sbn : Z) (sb : super_block).

(** The block of entry [i], and whether the entry has the name [l]. *)
Definition dir_data (c : C) (v : inode) (i : Z) : list Z := content c (dev, zone_at dev c v (pos_of (i / 64))).
Definition dir_named (c : C) (v : inode) (l : list Z) (i : Z) : bool := entry_named (dir_data c v i) (i mod 64) l.
Definition dir_inode (c : C) (v : inode) (i : Z) : Z := dino (dir_data c v i) (i mod 64).

(** A directory has no holes. *)
Record dir_ok (c : C) (v : inode) : Prop := {
  do_size : 0 <= i_size v <= 1024 * (7 + 512 + 512 * 512) /\ i_size v mod 16 = 0;
  do_first : zone_at dev c v (pos_of 0) <> 0;
  do_blocks : forall b, 0 <= b -> 64 * b < dir_entries v -> zone_at dev c v (pos_of b) <> 0
}.

Lemma dir_size c v : dir_ok c v -> i_size v = 16 * dir_entries v /\ 0 <= dir_entries v <= 64 * (7 + 512 + 512 * 512).
Proof using.
  intros [[Hs Hm] _ _]. unfold dir_entries, DIR_ENTRY. rewrite u32_small by (unfold in_u32; lia). pose proof (Z.div_mod (i_size v) 16). lia.
Qed.

(** Nothing has changed for inode [n], nor for those who have buffers. *)
Record same_dir (n : Z) (v : inode) (s s' : fss C) : Prop := {
  sd_ready : ready dev sbn sb n v s';
  sd_content : forall b, content (fcache s') b = content (fcache s) b;
  sd_keeps : keeps (fcache s) (fcache s');
  sd_kern : fkern s' = fkern s;
  sd_table : inode_table s' = inode_table s
}.

Lemma same_dir_refl n v s : ready dev sbn sb n v s -> same_dir n v s s.
Proof using. intros H. split; try done. apply view_keeps_refl. Qed.

Lemma same_dir_trans n v s1 s2 s3 : same_dir n v s1 s2 -> same_dir n v s2 s3 -> same_dir n v s1 s3.
Proof using.
  intros [A1 A2 A3 A4 A5] [B1 B2 B3 B4 B5]. split; [done| |by eapply view_keeps_trans|congruence|congruence]. intros b. by rewrite B2, A2.
Qed.

Lemma content_zbit c c' z : (forall b, content c' b = content c b) -> zbit dev sb c' z = zbit dev sb c z.
Proof using. intros H. unfold zbit. by rewrite H. Qed.

Lemma content_zone_at c c' v p : (forall b, content c' b = content c b) -> zone_at dev c' v p = zone_at dev c v p.
Proof using. intros H. assert (He : forall z k, entry dev c' z k = entry dev c z k) by (intros z k; unfold entry; by rewrite H). destruct p; cbn [zone_at]; rewrite ?He; done. Qed.

Lemma same_dir_cache n v s c' : ready dev sbn sb n v s -> zmap_ok dev sb c' -> keeps (fcache s) c' -> (forall b, content c' b = content (fcache s) b) -> same_dir n v s (set_fcache c' s).
Proof using.
  intros ([H1 H2 H3 H4 H5 H6] & Hr & Hf) Hz Hk Hc. split; try done. split; [split; try done|].
  - by apply mounted_cache.
  - cbn [fcache set_fcache]. eapply file_ok_same; [exact H6|apply (fo_len _ _ _ _ H6)| |].
    + intros q _. by apply content_zone_at.
    + intros u [Hd Hu]. split; [done|]. by rewrite (content_zbit (fcache s)).
  - split; [by eapply keeps_room|]. intros a. cbn [fcache set_fcache]. by rewrite (keeps_refs _ _ _ Hk).
Qed.

(** The search is at entry [i]: place [k] of the buffer [x]. *)
Record at_entry (n : Z) (v : inode) (s0 : fss C) (i x k : Z) (s : fss C) : Prop := {
  ae_place : 0 <= k <= 64 /\ exists b, 0 <= b /\ i = 64 * b + k;
  ae_ok : zmap_ok dev sb (fcache s);
  ae_content : forall b, content (fcache s) b = content (fcache s0) b;
  ae_open : exists s1 w, same_dir n v s0 s1 /\ s = set_fcache (fcache s) s1 /\
    let y := zone_at dev (fcache s0) v (pos_of ((i - k) / 64)) in
    taken dev sb (fcache s0) y /\ opened dev (fcache s1) (fcache s) y w /\ buffer (fcache s) x (dev, y) w /\ bv_data w = content (fcache s0) (dev, y)
}.

(** The buffer can be given back. *)
Lemma at_entry_close n v s0 i x k s : at_entry n v s0 i x k s -> exists s', on_cache (brelse (Some x)) s = Ok tt s' /\ same_dir n v s0 s'.
Proof using HL.
  intros [_ Hok Hct (s1 & w & Hsd & Hs & Hy & Hop & Hb & Hd)]. pose proof (sd_ready _ _ _ _ Hsd) as (Hin & _).
  destruct (brelse_close dev sb (fcache s1) (fcache s) (fcache s) x _ w w (fi_zones _ _ _ _ _ _ Hin) (zm_wf _ _ _ (fi_map _ _ _ _ _ _ Hin)) (proj1 Hy) Hop (view_keeps_refl _) Hok Hb) as (c3 & R & Hz & Hk & Hc).
  exists (set_fcache c3 s1). split; [rewrite Hs; by apply on_cache_at|]. eapply same_dir_trans; [exact Hsd|]. apply same_dir_cache; [apply (sd_ready _ _ _ _ Hsd)|done|done|].
  intros b. rewrite Hc, Hct. symmetry. apply (sd_content _ _ _ _ Hsd).
Qed.

Lemma at_entry_kern n v s0 i x k s : at_entry n v s0 i x k s -> fkern s = fkern s0 /\ inode_table s = inode_table s0 /\ aget (inode_table s) n = Some v.
Proof using.
  intros [_ _ _ (s1 & w & Hsd & Hs & _)]. rewrite Hs. cbn [fkern inode_table set_fcache]. split; [apply (sd_kern _ _ _ _ Hsd)|]. split; [apply (sd_table _ _ _ _ Hsd)|].
  apply (fi_inode _ _ _ _ _ _ (proj1 (sd_ready _ _ _ _ Hsd))).
Qed.

Lemma first_zone n v s : ready dev sbn sb n v s -> aget (i_data v) 0 = Some (zone_at dev (fcache s) v (pos_of 0)).
Proof using.
  intros (Hin & _). change (pos_of 0) with (ZDir 0). cbn [zone_at]. unfold ent. destruct (aget_in_range (i_data v) 0) as [z ->]; [rewrite (fo_len _ _ _ _ (fi_file _ _ _ _ _ _ Hin)); lia|done].
Qed.

Context (patience : nat) (Hpt : (0 < patience)%nat) (Hrd : readable (C := C) dev).

(** Block [b] is read. *)
Lemma open_block n v s0 s1 b : same_dir n v s0 s1 -> 0 <= b -> file_block b -> ready dev sbn sb n v s0 -> zone_at dev (fcache s0) v (pos_of b) <> 0 ->
  exists x s, on_cache (bread dev (zone_at dev (fcache s0) v (pos_of b))) s1 = Ok (Some x) s /\ at_entry n v s0 (64 * b) x 0 s.
Proof using HL Hpt Hrd.
  intros Hsd Hb Hfb (Hin0 & _) Hz. set (y := zone_at dev (fcache s0) v (pos_of b)) in *. pose proof (sd_ready _ _ _ _ Hsd) as (Hin & Hrm & Hrf).
  assert (Hy : taken dev sb (fcache s0) y) by (destruct (fo_zone _ _ _ _ (fi_file _ _ _ _ _ _ Hin0) (pos_of b) (pos_of_ok b Hfb)); done).
  assert (Hy1 : taken dev sb (fcache s1) y) by (split; [apply Hy|]; rewrite (content_zbit (fcache s0)); [apply Hy|apply (sd_content _ _ _ _ Hsd)]).
  destruct (bread_open dev sb (fcache s1) y Hrd (fi_zones _ _ _ _ _ _ Hin) (fi_map _ _ _ _ _ _ Hin) (md_dev _ _ _ _ (fi_mounted _ _ _ _ _ _ Hin)) Hy1 (Hrf _) ltac:(unfold room in *; lia))
    as (x & c1 & w & R & Hok & Hbuf & Hop & Hd & Hct).
  exists x, (set_fcache c1 s1). split; [by apply on_cache_run|]. pose proof (sd_content _ _ _ _ Hsd) as Hc0. split; [split; [lia|]; exists b; lia|done|intros a; cbn [fcache set_fcache]; by rewrite Hct|].
  exists s1, w. split; [done|]. split; [done|]. replace ((64 * b - 0) / 64) with b by (rewrite Z.sub_0_r, Z.mul_comm, Z.div_mul by lia; done). fold y. cbn [fcache set_fcache]. split; [done|]. split; [done|]. split; [done|].
  by rewrite Hd, Hc0.
Qed.

Lemma bmap_same n v s0 s1 b : same_dir n v s0 s1 -> file_block b ->
  exists s2, minix_bmap patience n b s1 = Ok (zone_at dev (fcache s0) v (pos_of b)) s2 /\ same_dir n v s0 s2.
Proof using HL Hpt Hrd.
  intros Hsd Hb. pose proof (sd_ready _ _ _ _ Hsd) as Hrdy. destruct (bmap_run dev sbn sb patience false n b v s1 Hrd Hpt Hrdy Hb) as (z & v' & s2 & R & [B1 B2 B3 B4 B5 [-> B6]]).
  exists s2. assert (z = zone_at dev (fcache s0) v (pos_of b)) as <-.
  { rewrite <-B4. apply content_zone_at. intros a. rewrite B6. apply (sd_content _ _ _ _ Hsd). }
  split; [exact R|]. eapply same_dir_trans; [exact Hsd|]. destruct Hrdy as (Hin & Hrm & Hrf). pose proof (gr_keeps _ _ _ _ _ _ _ B3) as Hk. split; [|done|done|apply (is_kern _ _ _ _ B2)|].
  - split; [done|]. split; [by eapply keeps_room|]. intros a. by rewrite (keeps_refs _ _ _ Hk).
  - destruct (is_table _ _ _ _ B2) as (v0 & H0 & -> & _). apply list_insert_id. rewrite (fi_inode _ _ _ _ _ _ Hin) in H0. injection H0 as <-.
    pose proof (fi_inode _ _ _ _ _ _ Hin) as Hn. unfold aget in Hn. by destruct (n <? 0).
Qed.

(** The search goes on to the next block. *)
Lemma next_block n v s0 i x s : at_entry n v s0 i x 64 s -> ready dev sbn sb n v s0 -> dir_ok (fcache s0) v -> i < dir_entries v ->
  exists (s2 s3 : fss C) (x' : Z), on_cache (brelse (Some x)) s = Ok tt s2 /\ minix_bmap patience n (i / 64) s2 = Ok (zone_at dev (fcache s0) v (pos_of (i / 64))) s3 /\
    zone_at dev (fcache s0) v (pos_of (i / 64)) <> 0 /\ aget (inode_table s3) n = Some v /\
    exists s', on_cache (bread dev (zone_at dev (fcache s0) v (pos_of (i / 64)))) s3 = Ok (Some x') s' /\ at_entry n v s0 i x' 0 s'.
Proof using HL Hpt Hrd.
  intros Hae Hrdy Hdo Hi. destruct (ae_place _ _ _ _ _ _ _ Hae) as (_ & b & Hb & Hib). assert (Hq : i / 64 = b + 1) by (rewrite Hib; replace (64 * b + 64) with ((b + 1) * 64) by lia; by rewrite Z.div_mul).
  destruct (at_entry_close _ _ _ _ _ _ _ Hae) as (s2 & R2 & Hsd2). pose proof (dir_size _ _ Hdo) as (_ & Hmx). rewrite Hq.
  assert (Hfb : file_block (b + 1)) by (unfold file_block; lia).
  destruct (bmap_same _ _ _ _ _ Hsd2 Hfb) as (s3 & R3 & Hsd3). assert (Hz : zone_at dev (fcache s0) v (pos_of (b + 1)) <> 0) by (apply (do_blocks _ _ Hdo); lia).
  destruct (open_block _ _ _ _ _ Hsd3 (ltac:(lia) : 0 <= b + 1) Hfb Hrdy Hz) as (x' & s' & R' & Hae'). exists s2, s3, x'. split; [done|]. split; [done|]. split; [done|].
  split; [apply (fi_inode _ _ _ _ _ _ (proj1 (sd_ready _ _ _ _ Hsd3)))|]. exists s'. split; [done|]. by replace i with (64 * (b + 1)) by lia.
Qed.

(** The entry the search is at. *)
Lemma at_entry_match fs n v s0 i x k s name len : at_entry n v s0 i x k s -> k < 64 -> 1 <= len <= 14 -> Forall (fun c => c <> 0) (user_bytes fs name (Z.to_nat len)) ->
  minix_match (user_seg fs) len name x k s = Ok (b2z (dir_named (fcache s0) v (user_bytes fs name (Z.to_nat len)) i)) s.
Proof using HL Hpt Hrd.
  intros [(Hk & b & Hb & Hi) Hok Hct (s1 & w & Hsd & Hs & Hy & Hop & Hbuf & Hd)] Hk' Hlen Hnz. unfold dir_named, dir_data.
  assert (Hq : i / 64 = b) by (rewrite Hi; rewrite Z.mul_comm, Z.div_add_l, Z.div_small by lia; lia). assert (Hm : i mod 64 = k) by (rewrite Hi, Z.add_comm, Z.mul_comm, Z.mod_add, Z.mod_small by lia; done).
  rewrite Hq, Hm. replace ((i - k) / 64) with b in * by (rewrite Hi; replace (64 * b + k - k) with (b * 64) by lia; by rewrite Z.div_mul). rewrite <-Hd. rewrite Hs.
  apply (match_run fs (fcache s) s1 x _ w k name len (zm_wf _ _ _ Hok) Hbuf ltac:(lia) Hlen Hnz).
Qed.

Lemma at_entry_next n v s0 i x k s : at_entry n v s0 i x k s -> k < 64 -> at_entry n v s0 (i + 1) x (k + 1) s.
Proof using Hpt Hrd.
  intros [(Hk & b & Hb & Hi) Hok Hct Hop] Hk'. split; [split; [lia|]; exists b; lia|done|done|]. by replace (i + 1 - (k + 1)) with (i - k) by lia.
Qed.

(** One round at an entry. *)
Lemma dir_step_run fs n v s0 i x k s name len : ready dev sbn sb n v s0 -> dir_ok (fcache s0) v -> at_entry n v s0 i x k s -> i < dir_entries v -> 1 <= len <= 14 ->
  Forall (fun c => c <> 0) (user_bytes fs name (Z.to_nat len)) ->
  exists x' k' s', find_step (minix_bmap patience) (user_seg fs) n name len (dir_entries v) (i, Some x, k) s =
      Ok (if dir_named (fcache s0) v (user_bytes fs name (Z.to_nat len)) i then inr (Some (x', k')) else inl (i + 1, Some x', k' + 1)) s' /\ at_entry n v s0 i x' k' s' /\ k' < 64.
Proof using HL Hpt Hrd.
  intros Hrdy Hdo Hae Hi Hlen Hnz. unfold find_step, MINIX_DIR_ENTRIES_PER_BLOCK. destruct (Z.leb_spec (dir_entries v) i); [lia|]. cbn [ofOpt]. rewrite (run_bind _ _ _ x s) by reflexivity.
  assert (Hnext : exists x' k' s', at_entry n v s0 i x' k' s' /\ k' < 64 /\
    (if 64 <=? k then on_cache (brelse (Some x));; block ← minix_bmap patience n (i / 64); if block =? 0 then mret None else v ← inode_at n; bh ← on_cache (bread (i_dev v) block); mret (match bh with Some x => Some (x, 0) | None => None end)
     else mret (Some (x, k))) s = Ok (Some (x', k')) s').
  { destruct (Z.leb_spec 64 k) as [H64|H64]; [|exists x, k, s; done]. pose proof (ae_place _ _ _ _ _ _ _ Hae) as (Hk & _). assert (k = 64) as -> by lia.
    destruct (next_block _ _ _ _ _ _ Hae Hrdy Hdo Hi) as (s2 & s3 & x' & R2 & R3 & Hz & Hn & s' & R4 & Hae'). exists x', 0, s'. split; [done|]. split; [lia|].
    rewrite (run_bind _ _ _ _ _ R2), (run_bind _ _ _ _ _ R3). destruct (Z.eqb_spec (zone_at dev (fcache s0) v (pos_of (i / 64))) 0); [done|].
    rewrite (run_bind _ _ _ v s3) by (by apply inode_at_run). rewrite (fi_dev _ _ _ _ _ _ (proj1 Hrdy)). by rewrite (run_bind _ _ _ _ _ R4). }
  destruct Hnext as (x' & k' & s' & Hae' & Hk' & R). exists x', k', s'. split; [|done]. rewrite (run_bind _ _ _ _ _ R), (run_bind _ _ _ _ _ (at_entry_match fs _ _ _ _ _ _ _ name len Hae' Hk' Hlen Hnz)).
  by destruct (dir_named _ _ _ _).
Qed.

(** The outcome of a search among the first [m] entries. *)
Definition find_result (n : Z) (v : inode) (s0 : fss C) (l : list Z) (m : Z) (r : option (Z * Z)) (s : fss C) : Prop :=
  match r with
  | None => same_dir n v s0 s /\ forall i, 0 <= i < m -> dir_named (fcache s0) v l i = false
  | Some (x, k) => exists i, 0 <= i < m /\ k < 64 /\ at_entry n v s0 i x k s /\ dir_named (fcache s0) v l i = true /\ forall j, 0 <= j < i -> dir_named (fcache s0) v l j = false
  end.

Lemma find_loop_run fs n v s0 name len : ready dev sbn sb n v s0 -> dir_ok (fcache s0) v -> 1 <= len <= 14 -> Forall (fun c => c <> 0) (user_bytes fs name (Z.to_nat len)) ->
  forall fuel i x k s, at_entry n v s0 i x k s -> 0 <= i <= dir_entries v -> dir_entries v - i < Z.of_nat fuel ->
  (forall j, 0 <= j < i -> dir_named (fcache s0) v (user_bytes fs name (Z.to_nat len)) j = false) ->
  exists r s', iter fuel (find_step (minix_bmap patience) (user_seg fs) n name len (dir_entries v)) (i, Some x, k) s = Ok r s' /\
    find_result n v s0 (user_bytes fs name (Z.to_nat len)) (dir_entries v) r s'.
Proof using HL Hpt Hrd.
  intros Hrdy Hdo Hlen Hnz. induction fuel as [|fuel IH]; intros i x k s Hae Hi Hf Hno; [lia|]. cbn [iter]. destruct (Z.eq_dec i (dir_entries v)) as [->|Hne].
  - destruct (at_entry_close _ _ _ _ _ _ _ Hae) as (s2 & R2 & Hsd). exists None, s2. split; [|done]. unfold find_step. rewrite Z.leb_refl.
    rewrite (run_bind _ _ _ (inr None) s2); [done|]. by rewrite (run_bind _ _ _ _ _ R2).
  - destruct (dir_step_run fs n v s0 i x k s name len Hrdy Hdo Hae ltac:(lia) Hlen Hnz) as (x' & k' & s' & R & Hae' & Hk').
    rewrite (run_bind _ _ _ _ _ R). destruct (dir_named (fcache s0) v _ i) eqn:E.
    + exists (Some (x', k')), s'. split; [done|]. exists i. split; [lia|]. done.
    + apply IH; [by apply at_entry_next|lia|lia|]. intros j Hj. destruct (Z.eq_dec j i) as [->|]; [done|]. apply Hno. lia.
Qed.

(** The name looked for: at most 14 characters count. *)
Definition short_len (len : Z) : Z := if MINIX_NAME_LEN <? len then MINIX_NAME_LEN else len.
Definition name_at (fs : umem) (name len : Z) : list Z := user_bytes fs name (Z.to_nat (short_len len)).

Lemma find_entry_run fs n v s name len : ready dev sbn sb n v s -> dir_ok (fcache s) v -> 1 <= len -> Forall (fun c => c <> 0) (name_at fs name len) ->
  exists r s', minix_find_entry patience (user_seg fs) (Some n) name len s = Ok r s' /\ find_result n v s (name_at fs name len) (dir_entries v) r s'.
Proof using HL Hpt Hrd.
  intros Hrdy Hdo Hlen Hnz. unfold minix_find_entry, find_from. fold (short_len len). unfold name_at in *. assert (Hsl : 1 <= short_len len <= 14) by (unfold short_len, MINIX_NAME_LEN; destruct (Z.ltb_spec 14 len); lia).
  rewrite (run_bind _ _ _ v s) by (apply inode_at_run, (fi_inode _ _ _ _ _ _ (proj1 Hrdy))). pose proof (do_first _ _ Hdo) as Hz. rewrite (first_zone n v s Hrdy). cbn [ofOpt]. rewrite (run_bind _ _ _ (zone_at dev (fcache s) v (pos_of 0)) s) by reflexivity. destruct (Z.eqb_spec (zone_at dev (fcache s) v (pos_of 0)) 0); [done|].
  destruct (open_block n v s s 0 (same_dir_refl _ _ _ Hrdy) ltac:(lia) ltac:(unfold file_block; lia) Hrdy Hz) as (x & s1 & R1 & Hae). rewrite (fi_dev _ _ _ _ _ _ (proj1 Hrdy)), (run_bind _ _ _ _ _ R1).
  assert (0 <= dir_entries v) by (unfold dir_entries, DIR_ENTRY; pose proof (u32_range (i_size v)); apply Z.div_pos; lia).
  apply (find_loop_run fs n v s name (short_len len) Hrdy Hdo Hsl Hnz (S (Z.to_nat (dir_entries v))) 0 x 0 s1 Hae); lia.
Qed.

(** The inode named by the entry found. *)
Lemma at_entry_inode n v s0 i x k s : at_entry n v s0 i x k s -> k < 64 -> de_inode x k s = Ok (dir_inode (fcache s0) v i) s.
Proof using HL Hpt Hrd.
  intros [(Hk & b & Hb & Hi) Hok Hct (s1 & w & Hsd & Hs & Hy & Hop & Hbuf & Hd)] Hk'. unfold dir_inode, dir_data.
  assert (Hq : i / 64 = b) by (rewrite Hi; rewrite Z.mul_comm, Z.div_add_l, Z.div_small by lia; lia). assert (Hm : i mod 64 = k) by (rewrite Hi, Z.add_comm, Z.mul_comm, Z.mod_add, Z.mod_small by lia; done).
  rewrite Hq, Hm. replace ((i - k) / 64) with b in * by (rewrite Hi; replace (64 * b + k - k) with (b * 64) by lia; by rewrite Z.div_mul). rewrite <-Hd. rewrite Hs.
  apply (de_inode_run (fcache s) s1 x _ w k (zm_wf _ _ _ Hok) Hbuf). lia.
Qed.

(** C22: [minix_find_entry] returns, and finds a name exactly when an entry of the
    directory that is in use has it, comparing 14 characters at most; it is the
    first such entry, and its block is held in a buffer with one more reference.
    When there is none, nothing has changed: no buffer is left held, and blocks,
    inodes and the buffers of others are as they were. *)
Theorem find_entry_first fs n v s name len : ready dev sbn sb n v s -> dir_ok (fcache s) v -> 1 <= len -> Forall (fun c => c <> 0) (name_at fs name len) ->
  exists r s', minix_find_entry patience (user_seg fs) (Some n) name len s = Ok r s' /\
  match r with
  | None => same_dir n v s s' /\ forall i, 0 <= i < dir_entries v -> dir_named (fcache s) v (name_at fs name len) i = false
  | Some (x, k) => exists i, 0 <= i < dir_entries v /\ at_entry n v s i x k s' /\ de_inode x k s' = Ok (dir_inode (fcache s) v i) s' /\
      dir_named (fcache s) v (name_at fs name len) i = true /\ forall j, 0 <= j < i -> dir_named (fcache s) v (name_at fs name len) j = false
  end.
Proof using HL Hpt Hrd.
  intros Hrdy Hdo Hlen Hnz. destruct (find_entry_run fs n v s name len Hrdy Hdo Hlen Hnz) as (r & s' & R & Hres). exists r, s'. split; [done|]. destruct r as [[x k]|]; [|done].
  destruct Hres as (i & Hi & Hk & Hae & Hn & Hf). exists i. split; [done|]. split; [done|]. split; [|done]. by apply (at_entry_inode n v s i).
Qed.

End Find.

(** ** Permissions *)

Section Permission.
Context {C : Type}.

(** The bits of the class of task [t]: owner, group or others. *)
Definition class_shift (t : task_struct) (v : inode) : Z :=
  if euid t =? i_uid v then 6 else if (i_gid v =? egid t) || group_scan (groups t) (i_gid v) then 3 else 0.
(** A file that is still linked may be accessed when every kind of access asked for
    is granted to the class, and by the superuser. *)
Definition may_access (t : task_struct) (v : inode) (mask : Z) : Prop :=
  (i_dev v = 0 \/ i_nlink v <> 0) /\ (euid t = 0 \/ forall b, 0 <= b < 3 -> Z.testbit mask b = true -> Z.testbit (i_mode v) (class_shift t v + b) = true).

Lemma mask_granted mode shift mask : 0 <= shift -> 0 <= mask < 8 ->
  Z.land (Z.land (Z.shiftr mode shift) mask) 7 =? mask = true <-> forall b, 0 <= b < 3 -> Z.testbit mask b = true -> Z.testbit mode (shift + b) = true.
Proof using.
  intros Hs Hm. rewrite Z.eqb_eq. change 7 with (Z.ones 3). rewrite <-Z.land_assoc, (Z.land_ones mask), (Z.mod_small mask) by lia. split.
  - intros E b Hb Ht. rewrite <-E, Z.land_spec, Z.shiftr_spec in Ht by lia. rewrite Z.add_comm. by apply andb_prop in Ht as [? _].
  - intros H. apply Z.bits_inj'. intros b Hb. rewrite Z.land_spec, Z.shiftr_spec by lia. destruct (Z.testbit mask b) eqn:E; [|by rewrite andb_false_r]. rewrite andb_true_r.
    destruct (Z.lt_ge_cases b 3); [rewrite Z.add_comm; by apply H|]. rewrite (testbit_above mask 3 b) in E by lia. done.
Qed.

(** C36: [permission] answers 1 exactly when the running task may access the file:
    a file with no links left is refused even to the superuser; otherwise the bits
    of the owner, the group or the others decide, by the first class the task is
    in, or the task is the superuser.  Nothing changes. *)
Theorem permission_correct (s : fss C) n v t mask : heap (fkern s) !! current (fkern s) = Some t -> aget (inode_table s) n = Some v -> 0 <= mask < 8 ->
  exists r, permission n mask s = Ok r s /\ (r = 1 <-> may_access t v mask) /\ (r = 0 \/ r = 1).
Proof using.
  intros Ht Hn Hm. unfold permission. rewrite (run_bind _ _ _ v s) by (by apply inode_at_run). unfold may_access.
  destruct (truth (i_dev v) && negb (truth (i_nlink v))) eqn:Ed.
  { exists 0. split; [done|]. split; [|by left]. split; [done|]. unfold truth in Ed. destruct (Z.eqb_spec (i_dev v) 0), (Z.eqb_spec (i_nlink v) 0); try done. intros [[|] _]; done. }
  assert (Hlink : i_dev v = 0 \/ i_nlink v <> 0) by (unfold truth in Ed; destruct (Z.eqb_spec (i_dev v) 0), (Z.eqb_spec (i_nlink v) 0); auto; done).
  rewrite (run_bind _ _ _ (euid t) s) by (rewrite (on_task_run _ _ (euid t) (fkern s)) by (by apply cur_eq); by destruct s).
  rewrite (run_bind _ _ _ (Z.shiftr (i_mode v) (class_shift t v)) s).
  2: { unfold class_shift. destruct (euid t =? i_uid v); [done|]. rewrite (run_bind _ _ _ (b2z ((i_gid v =? egid t) || group_scan (groups t) (i_gid v))) s).
       - rewrite truth_b2z. by destruct ((i_gid v =? egid t) || group_scan (groups t) (i_gid v)).
       - rewrite (on_task_run _ _ (b2z ((i_gid v =? egid t) || group_scan (groups t) (i_gid v))) (fkern s)); [by destruct s|]. unfold in_group_p. by rewrite (run_bind _ _ _ t (fkern s)) by (by apply (cur_eq id t)). }
  assert (Hsh : 0 <= class_shift t v) by (unfold class_shift; destruct (euid t =? i_uid v); [lia|]; destruct (_ || _); lia). pose proof (mask_granted (i_mode v) (class_shift t v) mask Hsh Hm) as Hg.
  destruct (Z.land (Z.land (Z.shiftr (i_mode v) (class_shift t v)) mask) 7 =? mask).
  - exists 1. split; [done|]. split; [|by right]. split; [|done]. intros _. split; [done|]. right. by apply Hg.
  - rewrite (run_bind _ _ _ (euid t =? 0) s) by (rewrite (on_task_run _ _ (euid t =? 0) (fkern s)) by (by apply suser_eq); by destruct s). exists (b2z (euid t =? 0)). split; [done|].
    destruct (Z.eqb_spec (euid t) 0) as [E|E]; cbn [b2z]; (split; [|tauto]); (split; [|try done]).
    + intros _. split; [done|by left].
    + intros [=].
    + intros [_ [|Hb]]; [done|]. apply Hg in Hb. done.
Qed.

End Permission.

(** ** A directory on the device of [Bmap] *)

#[local] Instance quiet_env_dir {C} : FsEnv C := {| fs_sleep := fun _ => mret tt; fs_yield := mret tt |}.

(** Inode 1 of the table is a directory with two entries, both free; inode 0 has
    number 5. *)
Definition demo_dir : inode := set_i_mode 0x41ed (set_i_size 32 (set_i_nlink 2 demo_other)).
Definition demo_target : inode := set_i_nlink 1 (set_i_ino 5 demo_empty).
Definition demo_dirs : fss ideal := set_inode_table [demo_target; demo_dir] demo_fs.
(** The name [ab] at address 100. *)
Definition demo_names : umem := fun a => if a =? 100 then 97 else if a =? 101 then 98 else 0.

Lemma demo_dir_zone p : zone_at 1 (fcache demo_dirs) demo_dir p = zone_at 1 (fcache demo_fs) demo_other p.
Proof. by destruct p. Qed.

Lemma demo_dir_ready : ready 1 0 demo_super 1 demo_dir demo_dirs.
Proof.
  destruct demo_ready as ([F1 F2 F3 _ _ _] & Hrm & Hrf). split; [split; [by destruct F1|done|done|done|done|]|by split].
  eapply file_ok_same; [apply demo_file_other|done|intros q _; apply demo_dir_zone|done].
Qed.

Lemma demo_dir_ok : dir_ok 1 (fcache demo_dirs) demo_dir.
Proof.
  split; [closed_arith|by rewrite demo_dir_zone|]. intros b Hb1 Hb2. change (dir_entries demo_dir) with 2 in Hb2. assert (b = 0) as -> by lia. by rewrite demo_dir_zone.
Qed.

Lemma find_entry_first_witness :
  exists r s', minix_find_entry 1 (user_seg demo_names) (Some 1) 100 2 demo_dirs = Ok r s' /\
  match r with
  | None => same_dir 1 0 demo_super 1 demo_dir demo_dirs s' /\ forall i, 0 <= i < dir_entries demo_dir -> dir_named 1 (fcache demo_dirs) demo_dir (name_at demo_names 100 2) i = false
  | Some (x, k) => exists i, 0 <= i < dir_entries demo_dir /\ at_entry 1 0 demo_super 1 demo_dir demo_dirs i x k s' /\ de_inode x k s' = Ok (dir_inode 1 (fcache demo_dirs) demo_dir i) s' /\
      dir_named 1 (fcache demo_dirs) demo_dir (name_at demo_names 100 2) i = true /\ forall j, 0 <= j < i -> dir_named 1 (fcache demo_dirs) demo_dir (name_at demo_names 100 2) j = false
  end.
Proof.
  apply (find_entry_first 1 0 demo_super 1 ltac:(lia) (ideal_readable 1) demo_names 1 demo_dir demo_dirs 100 2 demo_dir_ready demo_dir_ok); [lia|]. repeat constructor; discriminate.
Defined.

Lemma permission_correct_witness :
  exists r, permission (C := ideal) 1 MAY_WRITE demo_dirs = Ok r demo_dirs /\ (r = 1 <-> may_access (set_counter 0 (INIT_TASK 1)) demo_dir MAY_WRITE) /\ (r = 0 \/ r = 1).
Proof. apply (permission_correct demo_dirs 1 demo_dir); [reflexivity|reflexivity|unfold MAY_WRITE; lia]. Defined.
