(* ===== verification/AddOk.v ===== *)
(** * Adding a name to a directory

    The entry a name gets is a free one, or a new one at the end; the other entries
    stay as they are, and the name is found afterwards. *)

From S2P Require Import Prelude TaskStruct Sched Signal Sys Fs Store Minix MinixOk Bmap Truncate Inode Pipe InodeOk Dir DirOk.

(** ** Bytes of a block *)

Fixpoint with_bytes (d : list Z) (o : Z) (l : list Z) : list Z :=
  match l with [] => d | c :: l' => with_bytes (<[Z.to_nat o := c]> d) (o + 1) l' end.

Lemma with_bytes_data l : forall d o, block_data d -> Forall in_u8 l -> block_data (with_bytes d o l).
Proof. induction l as [|c l IH]; intros d o Hd Hl; [done|]. apply Forall_cons in Hl as [Hc Hl]. apply IH; [by apply block_data_insert|done]. Qed.

Lemma with_bytes_app l1 : forall d o l2, with_bytes d o (l1 ++ l2) = with_bytes (with_bytes d o l1) (o + Z.of_nat (length l1)) l2.
Proof. induction l1 as [|c l1 IH]; intros d o l2; cbn [with_bytes app length]; [by rewrite Z.add_0_r|]. rewrite IH. f_equal. lia. Qed.

Lemma with_bytes_lookup l : forall d o i, 0 <= o -> o + Z.of_nat (length l) <= Z.of_nat (length d) -> 0 <= i ->
  aget (with_bytes d o l) i = if bool_decide (o <= i < o + Z.of_nat (length l)) then aget l (i - o) else aget d i.
Proof.
  induction l as [|c l IH]; intros d o i Ho Hl Hi; cbn [with_bytes length] in *; [by rewrite bool_decide_false by lia|].
  rewrite IH by (rewrite ?length_insert; lia). destruct (Z.eq_dec i o) as [->|Hne].
  - rewrite bool_decide_false, bool_decide_true by lia. rewrite aget_insert_eq by lia. by rewrite Z.sub_diag.
  - rewrite aget_insert_ne by lia. destruct (decide (o + 1 <= i < o + 1 + Z.of_nat (length l))).
    + rewrite !bool_decide_true by lia. unfold aget. destruct (Z.ltb_spec (i - (o + 1)) 0); [lia|]. destruct (Z.ltb_spec (i - o) 0); [lia|].
      by replace (Z.to_nat (i - o)) with (S (Z.to_nat (i - (o + 1)))) by lia.
    + by rewrite !bool_decide_false by lia.
Qed.

(** The name [l] in entry [k], padded with zeros. *)
Definition with_name (d : list Z) (k : Z) (l : list Z) : list Z := with_bytes d (16 * k + 2) (resize 14 0 l).

Lemma resize_u8 l : Forall in_u8 l -> Forall in_u8 (resize 14 0 l).
Proof. intros H. apply Forall_resize; [unfold in_u8; lia|done]. Qed.

Lemma with_name_data d k l : block_data d -> Forall in_u8 l -> block_data (with_name d k l).
Proof. intros Hd Hl. apply with_bytes_data; [done|by apply resize_u8]. Qed.

Lemma with_name_lookup d k l i : block_data d -> 0 <= k < 64 -> 0 <= i ->
  aget (with_name d k l) i = if bool_decide (16 * k + 2 <= i < 16 * k + 16) then aget (resize 14 0 l) (i - (16 * k + 2)) else aget d i.
Proof.
  intros [Hl _] Hk Hi. unfold with_name. rewrite with_bytes_lookup by (rewrite ?length_resize, ?Hl; unfold BLOCK_SIZE; lia). rewrite length_resize.
  by replace (16 * k + 2 + Z.of_nat 14) with (16 * k + 16) by lia.
Qed.

Lemma ename_ext d d' j : block_data d -> block_data d' -> 0 <= j < 64 -> (forall i, 16 * j + 2 <= i < 16 * j + 16 -> aget d' i = aget d i) -> ename d' j = ename d j.
Proof.
  intros Hd Hd' Hj H. apply list_eq_same_length with 14%nat; [by apply length_ename|by apply length_ename|]. intros i x y Hi Hx Hy.
  pose proof (ename_lookup d' j (Z.of_nat i) Hd' Hj ltac:(lia)) as E'. pose proof (ename_lookup d j (Z.of_nat i) Hd Hj ltac:(lia)) as E.
  rewrite Nat2Z.id in E, E'. rewrite H in E' by lia. congruence.
Qed.

Lemma ename_with_name d k l j : block_data d -> Forall in_u8 l -> 0 <= k < 64 -> 0 <= j < 64 -> ename (with_name d k l) j = if decide (j = k) then resize 14 0 l else ename d j.
Proof.
  intros Hd Hl Hk Hj. pose proof (with_name_data d k l Hd Hl) as Hd'. destruct (decide (j = k)) as [->|Hne].
  - apply list_eq_same_length with 14%nat; [apply length_resize|by apply length_ename|]. intros i x y Hi Hx Hy.
    pose proof (ename_lookup _ k (Z.of_nat i) Hd' Hk ltac:(lia)) as E. rewrite Nat2Z.id, Hx in E. injection E as ->. rewrite with_name_lookup by (done || lia). rewrite bool_decide_true by lia.
    unfold aget. destruct (Z.ltb_spec (16 * k + 2 + Z.of_nat i - (16 * k + 2)) 0); [lia|]. replace (Z.to_nat (16 * k + 2 + Z.of_nat i - (16 * k + 2))) with i by lia. by rewrite Hy.
  - apply ename_ext; [done|done|done|]. intros i Hi. rewrite with_name_lookup by (done || lia). rewrite bool_decide_false by lia. done.
Qed.

Lemma dino_with_name d k l j : block_data d -> 0 <= k < 64 -> 0 <= j < 64 -> dino (with_name d k l) j = dino d j.
Proof. intros Hd Hk Hj. unfold dino, word_at. rewrite !with_name_lookup by (done || lia). rewrite !bool_decide_false by lia. done. Qed.

Lemma ename_with_word d k v j : block_data d -> 0 <= k < 64 -> 0 <= j < 64 -> ename (with_word d (8 * k) v) j = ename d j.
Proof.
  intros Hd Hk Hj. apply ename_ext; [done|by apply with_word_data|done|]. intros i Hi. unfold with_word. assert (i <> 2 * (8 * k) /\ i <> 2 * (8 * k) + 1) as [H1 H2] by lia.
  by rewrite !aget_insert_ne by lia.
Qed.

Lemma dino_with_word d k v j : block_data d -> 0 <= k < 64 -> 0 <= j < 64 -> dino (with_word d (8 * k) v) j = if decide (j = k) then u16 v else dino d j.
Proof. intros Hd Hk Hj. unfold dino. rewrite word_with_word16 by (done || lia). destruct (decide (j = k)) as [->|]; [by rewrite decide_True|]. by rewrite decide_False by lia. Qed.

Lemma cstr_resize l : Forall (fun c => c <> 0) l -> (length l <= 14)%nat -> cstr (resize 14 0 l) = l.
Proof.
  intros Hl Hn. apply cstr_is; [done|by rewrite length_resize|]. rewrite length_resize. split.
  - rewrite resize_ge by done. by rewrite take_app_length.
  - intros Hlt. rewrite resize_ge by done. rewrite lookup_app_r, Nat.sub_diag by done. apply lookup_replicate_2. lia.
Qed.

(** An entry of a block written anew: it names inode [ino] by [l]. *)
Definition with_entry (d : list Z) (k ino : Z) (l : list Z) : list Z := with_word (with_name d k l) (8 * k) ino.

Lemma with_entry_named d k ino l j l' : block_data d -> Forall in_u8 l -> Forall (fun c => c <> 0) l -> (length l <= 14)%nat -> 0 <= k < 64 -> 0 <= j < 64 ->
  entry_named (with_entry d k ino l) j l' = if decide (j = k) then negb (u16 ino =? 0) && bool_decide (l = l') else entry_named d j l'.
Proof.
  intros Hd Hl Hnz Hn Hk Hj. pose proof (with_name_data d k l Hd Hl) as Hd'. unfold entry_named, dname, with_entry.
  rewrite dino_with_word, ename_with_word, dino_with_name, ename_with_name by done. destruct (decide (j = k)); [|done]. by rewrite cstr_resize.
Qed.

Lemma with_entry_inode d k ino l j : block_data d -> Forall in_u8 l -> 0 <= k < 64 -> 0 <= j < 64 -> dino (with_entry d k ino l) j = if decide (j = k) then u16 ino else dino d j.
Proof. intros Hd Hl Hk Hj. unfold with_entry. rewrite dino_with_word by (done || by apply with_name_data). by rewrite dino_with_name. Qed.

(** ** The steps of adding *)

Section Add.
Context {C : Type} {HB : BufferCache C} {HV : CacheView C} {HL : BufferCacheOk C}.

(** Writing the name. *)
Lemma name_loop_run fs (c : C) x b w k name len c1 d (s : fss C) : 0 <= k < 64 -> 0 <= len <= 14 -> edited c x b w d c1 -> forall m, (m <= 14)%nat ->
  exists c2, for_each (range 0 m) (fun j => c ← (if j <? len then user_seg fs (name + j) else mret 0); set_de_name x k j c) (set_fcache c1 s) = Ok tt (set_fcache c2 s) /\
    edited c x b w (with_bytes d (16 * k + 2) (take m (resize 14 0 (user_bytes fs name (Z.to_nat len))))) c2.
Proof using HL.
  intros Hk Hlen He. set (l := resize 14 0 (user_bytes fs name (Z.to_nat len))). assert (Hll : length l = 14%nat) by apply length_resize.
  assert (Hl : forall j : nat, (j < 14)%nat -> l !! j = Some (if Z.of_nat j <? len then get_fs_byte fs (name + Z.of_nat j) else 0)).
  { intros j Hj. unfold l. destruct (Z.ltb_spec (Z.of_nat j) len) as [Hlt|Hge].
    - rewrite lookup_resize by (rewrite ?length_user_bytes; lia). unfold user_bytes. rewrite list_lookup_fmap. unfold range. rewrite list_lookup_fmap, lookup_seq_lt by lia. cbn. do 3 f_equal.
    - rewrite lookup_resize_new by (rewrite ?length_user_bytes; lia). done. }
  induction m as [|m IH]; intros Hm; [exists c1; done|]. destruct IH as (c2 & R & He2); [lia|]. rewrite range_S, for_each_app, (run_bind _ _ _ _ _ R). cbn [for_each]. rewrite Z.add_0_l.
  pose proof (Hl m ltac:(lia)) as Hv. set (a := if Z.of_nat m <? len then _ else _) in Hv.
  assert (Ha : in_u8 a) by (unfold a; destruct (_ <? _); [apply u8_range|unfold in_u8; lia]).
  destruct (edit_byte _ _ _ _ _ _ (16 * k + 2 + Z.of_nat m) a He2) as (c3 & R3 & He3); [unfold BLOCK_SIZE; lia|done|]. exists c3. split.
  - rewrite (run_bind _ _ _ tt (set_fcache c3 s)); [done|]. rewrite (run_bind _ _ _ a (set_fcache c2 s)) by (unfold a; by destruct (Z.of_nat m <? len)). by apply on_cache_at.
  - rewrite (take_S_r _ _ a) by done. rewrite with_bytes_app. cbn [with_bytes]. rewrite length_take, Hll. by replace (m `min` 14)%nat with m by lia.
Qed.

Lemma set_dirt_run (c : C) x b w d c1 : edited c x b w d c1 -> exists c2, set_bh_dirt x 1 c1 = Ok tt c2 /\ cwf c2 /\ becomes c c2 b (set_bv_dirt true (set_bv_data d w)).
Proof using HL.
  intros He. destruct (set_bh_dirt_law x b _ 1 c1 (ed_wf _ _ _ _ _ _ He) (edited_buffer _ _ _ _ _ _ He)) as (c2 & R & Hc & Hb). exists c2. split; [done|]. split; [done|].
  exact (becomes_trans _ _ _ _ _ _ (ed_view _ _ _ _ _ _ He) Hb).
Qed.

Lemma now_run (s : fss C) : now s = Ok (CURRENT_TIME (fkern s)) s.
Proof using. unfold now. rewrite (on_task_run _ _ (CURRENT_TIME (fkern s)) (fkern s)) by reflexivity. by destruct s. Qed.

(** A free entry gets the name. *)
Lemma fill_run fs (c : C) x b w k name len c1 d (s : fss C) n u els : cwf c -> 0 <= k < 64 -> 0 <= len <= 14 -> edited c x b w d c1 -> dino d k = 0 ->
  aget (inode_table s) n = Some u ->
  exists c2, (ino ← de_inode x k;
    if ino =? 0 then
      t ← now; inode_upd n (set_i_mtime t);;
      for_each (range 0 (Z.to_nat MINIX_NAME_LEN)) (fun j => c ← (if j <? len then user_seg fs (name + j) else mret 0); set_de_name x k j c);;
      on_cache (set_bh_dirt x 1);; mret (inr (Some (x, k)))
    else els : M (fss C) ((Z * bptr * Z) + option (Z * Z))) (set_fcache c1 s) =
      Ok (inr (Some (x, k))) (set_fcache c2 (set_inode_table (<[Z.to_nat n := set_i_mtime (CURRENT_TIME (fkern s)) u]> (inode_table s)) s)) /\
    cwf c2 /\ becomes c c2 b (set_bv_dirt true (set_bv_data (with_name d k (user_bytes fs name (Z.to_nat len))) w)).
Proof using HL.
  intros Hc Hk Hlen He H0 Hn. rewrite (run_bind _ _ _ _ _ (de_inode_run c1 s x b _ k (ed_wf _ _ _ _ _ _ He) (edited_buffer _ _ _ _ _ _ He) Hk)). cbn [bv_data set_bv_data]. rewrite H0, Z.eqb_refl.
  rewrite (run_bind _ _ _ _ _ (now_run _)). cbn [fkern set_fcache]. set (t := CURRENT_TIME (fkern s)). set (T := set_inode_table _ s).
  rewrite (run_bind _ _ _ tt (set_fcache c1 T)) by (rewrite (inode_upd_run n (set_i_mtime t) (set_fcache c1 s) u) by done; reflexivity).
  destruct (name_loop_run fs c x b w k name len c1 d T Hk Hlen He 14) as (c2 & R2 & He2); [lia|]. rewrite take_ge in He2 by (by rewrite length_resize).
  rewrite (run_bind _ _ _ tt (set_fcache c2 T)) by exact R2. destruct (set_dirt_run _ _ _ _ _ _ He2) as (c3 & R3 & Hc3 & Hb3). exists c3.
  rewrite (run_bind _ _ _ tt (set_fcache c3 T)) by (by apply on_cache_at). done.
Qed.

(** The entry gets its inode. *)
Lemma name_inode_run (c c2 : C) x b w d k (s : fss C) m u : cwf c2 -> 0 <= k < 64 -> bv_id w = x -> becomes c c2 b (set_bv_dirt true (set_bv_data d w)) -> aget (inode_table s) m = Some u ->
  exists c4, name_inode x k m (set_fcache c2 s) = Ok tt (set_fcache c4 s) /\ cwf c4 /\ becomes c c4 b (set_bv_dirt true (set_bv_data (with_word d (8 * k) (i_ino u)) w)).
Proof using HL.
  intros Hc Hk Hx Hb Hm. unfold name_inode. rewrite (run_bind _ _ _ u (set_fcache c2 s)) by (by apply inode_at_run).
  assert (He : edited c2 x b (set_bv_dirt true (set_bv_data d w)) d c2).
  { split; [done| |done]. pose proof (becomes_buffer _ _ _ _ Hb) as Hbuf. destruct w. exact (becomes_refl _ _ _ _ Hbuf). }
  destruct (edit_word _ _ _ _ _ _ (8 * k) (i_ino u) He) as (c3 & R3 & He3); [lia|]. destruct (set_dirt_run _ _ _ _ _ _ He3) as (c4 & R4 & Hc4 & Hb4). exists c4.
  unfold set_de_inode. rewrite (run_bind _ _ _ tt (set_fcache c3 s)) by (by apply on_cache_at). split; [by apply on_cache_at|]. split; [done|]. exact (becomes_trans _ _ _ _ _ _ Hb Hb4).
Qed.

End Add.

(** ** The loop *)

Section Grow.
Context {C : Type} {HB : BufferCache C} {HV : CacheView C} {HL : BufferCacheOk C} {HE : FsEnv C}.
Context (dev sbn : Z) (sb : super_block).

Notation ready := (ready dev sbn sb).
Notation dir_ok := (dir_ok dev).
Notation dir_data := (dir_data dev).
Notation dir_named := (dir_named dev).
Notation dir_inode := (dir_inode dev).
Notation same_dir := (same_dir dev sbn sb).
Notation at_entry := (at_entry dev sbn sb).

(** The directory may have got blocks after its last entry. *)
Record grew (n : Z) (v : inode) (s0 : fss C) (u : inode) (s1 : fss C) : Prop := {
  gw_ready : ready n u s1;
  gw_dir : dir_ok (fcache s1) u;
  gw_size : i_size u = i_size v;
  gw_data : forall j, 0 <= j < dir_entries v -> dir_data (fcache s1) u j = dir_data (fcache s0) v j;
  gw_keeps : keeps (fcache s0) (fcache s1);
  gw_table : forall q, q <> n -> aget (inode_table s1) q = aget (inode_table s0) q
}.

Lemma grew_refl n v s : ready n v s -> dir_ok (fcache s) v -> grew n v s v s.
Proof using. intros H1 H2. split; try done. apply view_keeps_refl. Qed.

Lemma same_dir_data n v s s' j : same_dir n v s s' -> dir_data (fcache s') v j = dir_data (fcache s) v j.
Proof using. intros Hs. unfold DirOk.dir_data. rewrite (content_zone_at dev (fcache s)) by apply (sd_content _ _ _ _ _ _ _ Hs). apply (sd_content _ _ _ _ _ _ _ Hs). Qed.

Lemma same_dir_ok n v s s' : same_dir n v s s' -> dir_ok (fcache s) v -> dir_ok (fcache s') v.
Proof using.
  intros Hs [H1 H2 H3]. pose proof (sd_content _ _ _ _ _ _ _ Hs) as Hc. split; [done| |]; [by rewrite (content_zone_at dev (fcache s))|]. intros b. rewrite (content_zone_at dev (fcache s)) by done. apply H3.
Qed.

Lemma grew_same n v s0 u s1 s2 : grew n v s0 u s1 -> same_dir n u s1 s2 -> grew n v s0 u s2.
Proof using.
  intros [G1 G2 G3 G4 G5 G6] Hs. split; [apply (sd_ready _ _ _ _ _ _ _ Hs)|by eapply same_dir_ok|done| | |].
  - intros j Hj. by rewrite (same_dir_data _ _ _ _ _ Hs), G4.
  - eapply view_keeps_trans; [exact G5|apply (sd_keeps _ _ _ _ _ _ _ Hs)].
  - intros q Hq. rewrite (sd_table _ _ _ _ _ _ _ Hs). by apply G6.
Qed.

Lemma size_entries v u : i_size u = i_size v -> dir_entries u = dir_entries v.
Proof using. intros H. unfold dir_entries. by rewrite H. Qed.

Context (patience : nat) (Hpt : (0 < patience)%nat) (Hrd : readable (C := C) dev).

(** Block [b] is looked for, and made if it is not there. *)
Lemma grew_block n v s0 u s1 b : grew n v s0 u s1 -> file_block b ->
  exists z u' s2, minix_create_block patience n b s1 = Ok z s2 /\ grew n v s0 u' s2 /\ zone_at dev (fcache s2) u' (pos_of b) = z /\ (z = 0 -> full dev sb (fcache s2)).
Proof using HL Hpt Hrd.
  intros [G1 G2 G3 G4 G5 G6] Hb. destruct (bmap_run dev sbn sb patience true n b u s1 Hrd Hpt G1 Hb) as (z & u' & s2 & R & Hres).
  pose proof (created_map dev sbn sb n b u s1 z u' s2 G1 Hb Hres) as Hmap. destruct Hres as [B1 B2 B3 B4 B5 B6]. exists z, u', s2. split; [done|]. split; [|split; [done|exact B6]].
  destruct (is_table _ _ _ _ B2) as (u0 & Hu0 & Htab & Hu'). rewrite (fi_inode _ _ _ _ _ _ (proj1 G1)) in Hu0. injection Hu0 as <-.
  assert (Hsz : i_size u' = i_size v) by (rewrite Hu'; exact G3). pose proof (size_entries _ _ Hsz) as Hen. pose proof (size_entries _ _ G3) as Hen1.
  assert (Hkeep : forall a, file_block a -> zone_at dev (fcache s1) u (pos_of a) <> 0 -> zone_at dev (fcache s2) u' (pos_of a) = zone_at dev (fcache s1) u (pos_of a)).
  { intros a Ha. apply (gr_keep _ _ _ _ _ _ _ B3). by apply pos_of_ok. }
  pose proof (dir_size _ _ _ G2) as (Hs1 & Hs2). assert (Hfb : forall a, 0 <= a -> 64 * a < dir_entries v -> file_block a) by (intros a Ha1 Ha2; unfold file_block; lia).
  pose proof (gr_keeps _ _ _ _ _ _ _ B3) as Hk. split; [|split|done| | |].
  - destruct G1 as (_ & Hrm & Hrf). split; [done|]. split; [by eapply keeps_room|]. intros a. by rewrite (keeps_refs _ _ _ Hk).
  - rewrite Hsz, <-G3. apply (do_size _ _ _ G2).
  - rewrite Hkeep; [apply (do_first _ _ _ G2)|unfold file_block; lia|apply (do_first _ _ _ G2)].
  - rewrite Hen. intros a Ha1 Ha2. assert (Hz : zone_at dev (fcache s1) u (pos_of a) <> 0) by (apply (do_blocks _ _ _ G2); lia). rewrite Hkeep; [done|by apply Hfb|done].
  - intros j Hj. rewrite <-(G4 j Hj). assert (Hq : 0 <= j / 64 /\ 64 * (j / 64) < dir_entries v) by (split; [apply Z.div_pos; lia|pose proof (Z.mul_div_le j 64 ltac:(lia)); lia]).
    assert (Hz : zone_at dev (fcache s1) u (pos_of (j / 64)) <> 0) by (apply (do_blocks _ _ _ G2); lia). pose proof (Hkeep _ (Hfb _ (proj1 Hq) (proj2 Hq)) Hz) as Hz2.
    pose proof (Hmap (j / 64) (Hfb _ (proj1 Hq) (proj2 Hq))) as Hm. unfold file_map in Hm. rewrite Hz2 in Hm. destruct (Z.eqb_spec (zone_at dev (fcache s1) u (pos_of (j / 64))) 0) as [|_]; [done|].
    unfold DirOk.dir_data. rewrite Hz2. destruct (z =? 0); [by injection Hm|]. destruct (decide (j / 64 = b)) as [E|]; [|by injection Hm]. rewrite <-E in Hm.
    destruct (Z.eqb_spec (zone_at dev (fcache s1) u (pos_of (j / 64))) 0); [done|]. by injection Hm.
  - by eapply view_keeps_trans.
  - intros q Hq. rewrite Htab, <-(G6 q Hq). destruct (Z.ltb_spec n 0) as [Hneg|Hn]; [|by rewrite aget_insert_ne by lia].
    pose proof (fi_inode _ _ _ _ _ _ (proj1 G1)) as E. unfold aget in E. destruct (Z.ltb_spec n 0); [done|lia].
Qed.

(** The search is at entry [i] of the directory: the buffer [x] of its block. *)
Record open_at (n : Z) (v : inode) (s0 : fss C) (u : inode) (s1 : fss C) (i x k : Z) (c : C) (w : bview) : Prop := {
  oa_grew : grew n v s0 u s1;
  oa_place : 0 <= k < 64 /\ 0 <= i /\ k = i mod 64;
  oa_ok : zmap_ok dev sb c;
  oa_content : forall b, content c b = content (fcache s1) b;
  oa_taken : taken dev sb (fcache s1) (zone_at dev (fcache s1) u (pos_of (i / 64)));
  oa_open : opened dev (fcache s1) c (zone_at dev (fcache s1) u (pos_of (i / 64))) w;
  oa_buffer : buffer c x (dev, zone_at dev (fcache s1) u (pos_of (i / 64))) w;
  oa_data : bv_data w = dir_data (fcache s1) u i
}.

Lemma at_entry_open n v s0 u s1 i x k s : grew n v s0 u s1 -> at_entry n u s1 i x k s -> k < 64 ->
  exists s1' w, s = set_fcache (fcache s) s1' /\ open_at n v s0 u s1' i x k (fcache s) w.
Proof using Hpt Hrd.
  intros Hg [(Hk & b & Hb & Hi) Hok Hct (s1' & w & Hsd & Hs & Hy & Hop & Hbuf & Hd)] Hk'. exists s1', w. split; [done|]. pose proof (sd_content _ _ _ _ _ _ _ Hsd) as Hc.
  assert (Hq : i / 64 = b) by (rewrite Hi, Z.mul_comm, Z.div_add_l, Z.div_small by lia; lia). assert (Hm : i mod 64 = k) by (rewrite Hi, Z.add_comm, Z.mul_comm, Z.mod_add, Z.mod_small by lia; done).
  replace ((i - k) / 64) with (i / 64) in * by (rewrite Hq, Hi; replace (64 * b + k - k) with (b * 64) by lia; by rewrite Z.div_mul).
  assert (Hz : zone_at dev (fcache s1') u (pos_of (i / 64)) = zone_at dev (fcache s1) u (pos_of (i / 64))) by (by apply content_zone_at).
  split; [by eapply grew_same|lia|done|intros a; by rewrite Hct, Hc|rewrite Hz; split; [apply Hy|]; rewrite (content_zbit dev sb (fcache s1)) by done; apply Hy|by rewrite Hz|by rewrite Hz|].
  unfold DirOk.dir_data. rewrite Hz, Hc. done.
Qed.

(** Entry [i] has got the name [l], in the buffer [x]. *)
Definition named (n : Z) (v : inode) (s0 : fss C) (l : list Z) (i x k : Z) (s' : fss C) : Prop :=
  exists u s1 c w d u2 c2, open_at n v s0 u s1 i x k c w /\ s' = set_fcache c2 (set_inode_table (<[Z.to_nat n := u2]> (inode_table s1)) s1) /\ cwf c2 /\
    becomes c c2 (dev, zone_at dev (fcache s1) u (pos_of (i / 64))) (set_bv_dirt true (set_bv_data (with_name d k l) w)) /\
    (d = bv_data w \/ d = with_word (bv_data w) (8 * k) 0) /\ i_data u2 = i_data u /\ i_dev u2 = i_dev u /\ i_size u2 = (if i <? dir_entries v then i_size u else 16 * (i + 1)) /\
    i <= dir_entries v /\ (i < dir_entries v -> dir_inode (fcache s0) v i = 0).

Definition adding (n : Z) (v : inode) (s0 : fss C) (i x k : Z) (s : fss C) : Prop :=
  (exists u s1, grew n v s0 u s1 /\ at_entry n u s1 i x k s) /\ 0 <= i <= dir_entries v /\ forall j, 0 <= j < i -> dir_inode (fcache s0) v j <> 0.

(** The loop is at an entry of a block that is there, or the device is full. *)
Lemma add_next n v s0 i x k s : adding n v s0 i x k s -> dir_entries v < 64 * (7 + 512 + 512 * 512) ->
  exists r s', (if 64 <=? k then
     on_cache (brelse (Some x));; block ← minix_create_block patience n (i / 64);
     if block =? 0 then mret (inr None)
     else v ← inode_at n; bh ← on_cache (bread (i_dev v) block); mret (match bh with Some x => inl (x, 0) | None => inr (Some (i + 64)) end)
   else mret (inl (x, k)) : M (fss C) (Z * Z + option Z)) s = Ok r s' /\
  match r with
  | inl (x', k') => k' < 64 /\ adding n v s0 i x' k' s'
  | inr None => full dev sb (fcache s') /\ exists u, grew n v s0 u s'
  | inr (Some _) => False
  end.
Proof using HL Hpt Hrd.
  intros ((u & s1 & Hg & Hae) & Hi & Hno) Hmax. destruct (Z.leb_spec 64 k) as [H64|H64].
  2: { exists (inl (x, k)), s. split; [done|]. split; [done|]. split; [by exists u, s1|done]. }
  destruct (ae_place _ _ _ _ _ _ _ _ _ _ Hae) as (Hk & b & Hb & Hib). assert (k = 64) as -> by lia.
  assert (Hq : i / 64 = b + 1) by (rewrite Hib; replace (64 * b + 64) with ((b + 1) * 64) by lia; by rewrite Z.div_mul).
  destruct (at_entry_close _ _ _ _ _ _ _ _ _ _ Hae) as (s2 & R2 & Hsd2). rewrite (run_bind _ _ _ _ _ R2).
  assert (Hfb : file_block (i / 64)) by (rewrite Hq; unfold file_block; lia).
  destruct (grew_block n v s0 u s2 (i / 64) (grew_same _ _ _ _ _ _ Hg Hsd2) Hfb) as (z & u' & s3 & R3 & Hg3 & Hz & Hfull). rewrite (run_bind _ _ _ _ _ R3). destruct (Z.eqb_spec z 0) as [->|Hz0].
  { exists (inr None), s3. split; [done|]. split; [auto|]. by exists u'. }
  pose proof (gw_ready _ _ _ _ _ Hg3) as Hr3. rewrite (run_bind _ _ _ u' s3) by (apply inode_at_run, (fi_inode _ _ _ _ _ _ (proj1 Hr3))). rewrite (fi_dev _ _ _ _ _ _ (proj1 Hr3)).
  destruct (open_block dev sbn sb patience Hpt Hrd n u' s3 s3 (i / 64) (same_dir_refl _ _ _ _ _ _ Hr3) ltac:(unfold file_block in Hfb; lia) Hfb Hr3) as (x' & s' & R' & Hae'); [by rewrite Hz|].
  rewrite Hz in R'. rewrite (run_bind _ _ _ _ _ R'). exists (inl (x', 0)), s'. split; [done|]. split; [lia|]. split; [|done]. exists u', s3. split; [done|]. by replace i with (64 * (i / 64)) by lia.
Qed.

Lemma insert_inode n u2 (s : fss C) u f : aget (inode_table s) n = Some u -> inode_upd n f (set_inode_table (<[Z.to_nat n := u2]> (inode_table s)) s) =
  Ok tt (set_inode_table (<[Z.to_nat n := f u2]> (inode_table s)) s).
Proof using Hpt Hrd.
  intros Hn. rewrite (inode_upd_run n f _ u2) by (apply aget_insert_eq; by eapply aget_Some_range). cbn [inode_table set_inode_table]. by rewrite list_insert_insert_eq.
Qed.

(** A round of the loop. *)
Lemma add_step_run fs n v s0 i x k s name len : adding n v s0 i x k s -> dir_entries v < 64 * (7 + 512 + 512 * 512) -> dir_ok (fcache s0) v -> 1 <= len <= 14 ->
  exists r s', add_step patience (user_seg fs) n name len (i, Some x, k) s = Ok r s' /\
  match r with
  | inl (i', bh, k') => i' = i + 1 /\ i < dir_entries v /\ exists x', bh = Some x' /\ adding n v s0 (i + 1) x' k' s'
  | inr None => full dev sb (fcache s') /\ exists u, grew n v s0 u s'
  | inr (Some (x', k')) => named n v s0 (user_bytes fs name (Z.to_nat len)) i x' k' s'
  end.
Proof using HL Hpt Hrd.
  intros Had Hmax Hdo Hlen. unfold add_step, MINIX_DIR_ENTRIES_PER_BLOCK. rewrite (run_bind _ _ _ x s) by reflexivity. destruct (add_next _ _ _ _ _ _ _ Had Hmax) as (r & s2 & R & Hr).
  rewrite (run_bind _ _ _ _ _ R). destruct r as [[x' k']|[i'|]]; [|done|by exists (inr None), s2]. clear R. destruct Hr as (Hk' & (u & s1 & Hg & Hae) & Hi & Hno).
  destruct (at_entry_open _ _ _ _ _ _ _ _ _ Hg Hae Hk') as (s3 & w & Hs2 & Hoa). pose proof (oa_grew _ _ _ _ _ _ _ _ _ _ Hoa) as Hg3. pose proof (oa_place _ _ _ _ _ _ _ _ _ _ Hoa) as (Hk & Hi0 & Hm).
  pose proof (fi_inode _ _ _ _ _ _ (proj1 (gw_ready _ _ _ _ _ Hg3))) as Hn. set (c := fcache s2) in *. rewrite Hs2. rewrite (run_bind _ _ _ u (set_fcache c s3)) by (by apply inode_at_run).
  pose proof (dir_size _ _ _ Hdo) as (Hsz & Hen). pose proof (gw_size _ _ _ _ _ Hg3) as Hgs. unfold DIR_ENTRY. rewrite Hgs, Hsz, !u32_small by (unfold in_u32; lia).
  pose proof (oa_ok _ _ _ _ _ _ _ _ _ _ Hoa) as Hok. pose proof (oa_buffer _ _ _ _ _ _ _ _ _ _ Hoa) as Hbuf. set (y := zone_at dev (fcache s3) u (pos_of (i / 64))) in *.
  assert (Hed : edited c x' (dev, y) w (bv_data w) c) by (split; [apply (zm_wf _ _ _ Hok)|destruct w; by eapply becomes_refl|apply Hbuf]).
  destruct (Z.leb_spec (16 * dir_entries v) (i * 16)) as [Hend|Hend].
  - assert (i = dir_entries v) as -> by lia. destruct (edit_word _ _ _ _ _ _ (8 * k') 0 Hed) as (c1 & R1 & He1); [lia|]. set (t := CURRENT_TIME (fkern s3)).
    set (u1 := set_i_ctime t (set_i_dirt 1 (set_i_size (s32 ((dir_entries v + 1) * 16)) u))). set (T := set_inode_table (<[Z.to_nat n := u1]> (inode_table s3)) s3).
    rewrite (run_bind _ _ _ tt (set_fcache c1 T)).
    2: { unfold set_de_inode. rewrite (run_bind _ _ _ tt (set_fcache c1 s3)) by (by apply on_cache_at). rewrite (run_bind _ _ _ _ _ (now_run _)).
         by rewrite (inode_upd_run n _ (set_fcache c1 s3) u) by done. }
    assert (HT : aget (inode_table T) n = Some u1) by (apply aget_insert_eq; by eapply aget_Some_range). pose proof (cwf_data _ (zm_wf _ _ _ Hok) _ _ (proj1 Hbuf)) as Hwd.
    assert (H0 : dino (with_word (bv_data w) (8 * k') 0) k' = 0) by (rewrite dino_with_word by done; by rewrite decide_True).
    destruct (fill_run fs c x' (dev, y) w k' name len c1 _ T n u1 (mret (inl (dir_entries v + 1, Some x', k' + 1))) (zm_wf _ _ _ Hok) Hk ltac:(lia) He1 H0 HT) as (c2 & R2 & Hc2 & Hb2).
    eexists (inr (Some (x', k'))), _. split; [exact R2|]. exists u, s3, c, w, (with_word (bv_data w) (8 * k') 0), (set_i_mtime (CURRENT_TIME (fkern T)) u1), c2.
    split; [done|]. split; [unfold T; cbn [inode_table set_inode_table fkern]; by rewrite list_insert_insert_eq|]. split; [done|]. split; [done|]. split; [by right|]. split; [done|]. split; [done|].
    rewrite Z.ltb_irrefl. split; [|split; [done|lia]]. cbn [i_size set_i_mtime u1 set_i_ctime set_i_dirt set_i_size]. rewrite s32_small by (unfold in_s32; lia). lia.
  - rewrite bind_ret. assert (Hdi : dino (bv_data w) k' = dir_inode (fcache s0) v i) by (rewrite (oa_data _ _ _ _ _ _ _ _ _ _ Hoa), (gw_data _ _ _ _ _ Hg3) by lia; unfold DirOk.dir_inode; by rewrite Hm).
    destruct (Z.eq_dec (dir_inode (fcache s0) v i) 0) as [H0|H0].
    + destruct (fill_run fs c x' (dev, y) w k' name len c _ s3 n u (mret (inl (i + 1, Some x', k' + 1))) (zm_wf _ _ _ Hok) Hk ltac:(lia) Hed ltac:(congruence) Hn) as (c2 & R2 & Hc2 & Hb2).
      eexists (inr (Some (x', k'))), _. split; [exact R2|]. exists u, s3, c, w, (bv_data w), (set_i_mtime (CURRENT_TIME (fkern s3)) u), c2.
      split; [done|]. split; [done|]. split; [done|]. split; [done|]. split; [by left|]. split; [done|]. split; [done|]. destruct (Z.ltb_spec i (dir_entries v)); [|lia]. split; [done|]. split; [lia|done].
    + rewrite (run_bind _ _ _ _ _ (de_inode_run c s3 x' (dev, y) w k' (zm_wf _ _ _ Hok) Hbuf Hk)), Hdi. destruct (Z.eqb_spec (dir_inode (fcache s0) v i) 0); [done|].
      exists (inl (i + 1, Some x', k' + 1)), (set_fcache c s3). split; [done|]. split; [done|]. split; [lia|]. exists x'. split; [done|]. split; [|split; [lia|]].
      * exists u, s1. split; [done|]. rewrite <-Hs2. by eapply at_entry_next.
      * intros j Hj. destruct (Z.eq_dec j i) as [->|]; [done|]. apply Hno. lia.
Qed.

Lemma add_loop_run fs n v s0 name len : dir_entries v < 64 * (7 + 512 + 512 * 512) -> dir_ok (fcache s0) v -> 1 <= len <= 14 -> forall fuel i x k s, adding n v s0 i x k s -> dir_entries v - i < Z.of_nat fuel ->
  exists r s', iter fuel (add_step patience (user_seg fs) n name len) (i, Some x, k) s = Ok r s' /\
  match r with
  | None => full dev sb (fcache s') /\ exists u, grew n v s0 u s'
  | Some (x', k') => exists i, named n v s0 (user_bytes fs name (Z.to_nat len)) i x' k' s'
  end.
Proof using HL Hpt Hrd.
  intros Hmax Hdo Hlen. induction fuel as [|fuel IH]; intros i x k s Had Hf; [destruct Had as (_ & ? & _); lia|]. cbn [iter].
  destruct (add_step_run fs n v s0 i x k s name len Had Hmax Hdo Hlen) as (r & s' & R & Hr). rewrite (run_bind _ _ _ _ _ R). destruct r as [[[i' bh] k']|[[x' k']|]].
  - destruct Hr as (-> & Hi & x' & -> & Had'). apply IH; [done|lia].
  - exists (Some (x', k')), s'. split; [done|]. by exists i.
  - by exists None, s'.
Qed.

Lemma add_entry_run fs n v s name len : ready n v s -> dir_ok (fcache s) v -> dir_entries v < 64 * (7 + 512 + 512 * 512) -> 1 <= len ->
  exists r s', minix_add_entry patience (user_seg fs) (Some n) name len s = Ok r s' /\
  match r with
  | None => full dev sb (fcache s') /\ exists u, grew n v s u s'
  | Some (x, k) => exists i, named n v s (name_at fs name len) i x k s'
  end.
Proof using HL Hpt Hrd.
  intros Hrdy Hdo Hmax Hlen. unfold minix_add_entry. fold (short_len len). unfold name_at. assert (Hsl : 1 <= short_len len <= 14) by (unfold short_len, MINIX_NAME_LEN; destruct (Z.ltb_spec 14 len); lia).
  destruct (Z.eqb_spec (short_len len) 0); [lia|]. rewrite (run_bind _ _ _ v s) by (apply inode_at_run, (fi_inode _ _ _ _ _ _ (proj1 Hrdy))). pose proof (do_first _ _ _ Hdo) as Hz.
  rewrite (first_zone dev sbn sb n v s Hrdy). cbn [ofOpt]. rewrite (run_bind _ _ _ (zone_at dev (fcache s) v (pos_of 0)) s) by reflexivity. destruct (Z.eqb_spec (zone_at dev (fcache s) v (pos_of 0)) 0); [done|].
  destruct (open_block dev sbn sb patience Hpt Hrd n v s s 0 (same_dir_refl _ _ _ _ _ _ Hrdy) ltac:(lia) ltac:(unfold file_block; lia) Hrdy Hz) as (x & s1 & R1 & Hae). rewrite (fi_dev _ _ _ _ _ _ (proj1 Hrdy)), (run_bind _ _ _ _ _ R1).
  pose proof (dir_size _ _ _ Hdo) as (_ & Hen). apply (add_loop_run fs n v s name (short_len len) Hmax Hdo Hsl (patience + S (Z.to_nat (dir_entries v)))%nat 0 x 0 s1); [|lia].
  split; [|split; [lia|lia]]. exists v, s. split; [by apply grew_refl|done].
Qed.

(** ** The directory with a new entry *)

Lemma zone_at_data c (u u2 : inode) p : i_data u2 = i_data u -> zone_at dev c u2 p = zone_at dev c u p.
Proof using. intros H. assert (He : forall e, ent u2 e = ent u e) by (intros e; unfold ent; by rewrite H). destruct p; cbn [zone_at]; by rewrite ?He. Qed.

(** Writing to a zone that is no index block changes no zone of the file. *)
Lemma leaf_write c c' u p : file_ok dev sb c u -> pos_ok p -> is_index p = false -> zone_at dev c u p <> 0 -> (forall a, a <> (dev, zone_at dev c u p) -> content c' a = content c a) -> same_zones dev c u c' u.
Proof using.
  intros Hf Hp Hi Hy Hc. assert (He : forall q k, pos_ok q -> is_index q = true -> entry dev c' (zone_at dev c u q) k = entry dev c (zone_at dev c u q) k).
  { intros q k Hq Hiq. unfold entry. destruct (Z.eqb_spec (zone_at dev c u q) 0) as [|Hz]; [done|]. rewrite Hc; [done|]. intros [= E]. pose proof (fo_inj _ _ _ _ Hf q p Hq Hp E Hz). congruence. }
  intros [e| |k| |a|a k] Hq; cbn [zone_at]; try reflexivity; cbn in Hq; [exact (He ZInd k I eq_refl)|exact (He ZDbl a I eq_refl)|].
  pose proof (He ZDbl a I eq_refl) as E. cbn [zone_at] in E. rewrite E. exact (He (ZDblE a) k (proj1 Hq) eq_refl).
Qed.

(** Entry [i] names [ino] by [l], and the others are as they were. *)
Record entry_added (n : Z) (v : inode) (s0 : fss C) (l : list Z) (ino i : Z) (v' : inode) (s' : fss C) : Prop := {
  ea_ready : ready n v' s';
  ea_dir : dir_ok (fcache s') v';
  ea_count : 0 <= i <= dir_entries v /\ dir_entries v' = Z.max (dir_entries v) (i + 1);
  ea_free : i < dir_entries v -> dir_inode (fcache s0) v i = 0;
  ea_new : dir_named (fcache s') v' l i = true /\ dir_inode (fcache s') v' i = ino;
  ea_old : forall j l', 0 <= j < dir_entries v -> j <> i -> dir_named (fcache s') v' l' j = dir_named (fcache s0) v l' j /\ dir_inode (fcache s') v' j = dir_inode (fcache s0) v j;
  ea_keeps : keeps (fcache s0) (fcache s')
}.

(** The buffer with the new entry is given back. *)
Lemma named_close n v s0 l i x k s' m um : named n v s0 l i x k s' -> dir_entries v < 64 * (7 + 512 + 512 * 512) -> aget (inode_table s0) m = Some um -> m <> n ->
  exists u s1 c5 u2 d, (name_inode x k m;; on_cache (brelse (Some x))) s' = Ok tt (set_fcache c5 (set_inode_table (<[Z.to_nat n := u2]> (inode_table s1)) s1)) /\
    (exists c w, open_at n v s0 u s1 i x k c w /\ (d = bv_data w \/ d = with_word (bv_data w) (8 * k) 0)) /\ zmap_ok dev sb c5 /\ keeps (fcache s1) c5 /\
    (forall z, data_zone sb z -> zbit dev sb c5 z = zbit dev sb (fcache s1) z) /\
    (forall b, content c5 b = if decide (b = (dev, zone_at dev (fcache s1) u (pos_of (i / 64)))) then with_entry d k (i_ino um) l else content (fcache s1) b) /\
    i_data u2 = i_data u /\ i_dev u2 = i_dev u /\ i_size u2 = (if i <? dir_entries v then i_size u else 16 * (i + 1)) /\
    i <= dir_entries v /\ (i < dir_entries v -> dir_inode (fcache s0) v i = 0).
Proof using HL Hpt Hrd.
  intros (u & s1 & c & w & d & u2 & c2 & Hoa & -> & Hc2 & Hb2 & Hd & Hrest) Hmax Hm Hne. pose proof Hoa as [Hg (Hk & Hi & Hkm) Hok Hct Htk Hop Hbuf Hdata]. set (y := zone_at dev (fcache s1) u (pos_of (i / 64))) in *.
  pose proof (gw_ready _ _ _ _ _ Hg) as (Hin & _). pose proof (fi_zones _ _ _ _ _ _ Hin) as Hzo. set (T := set_inode_table _ s1).
  assert (Hn0 : 0 <= n) by (pose proof (aget_Some_range _ _ _ (fi_inode _ _ _ _ _ _ Hin)); lia).
  assert (HmT : aget (inode_table T) m = Some um) by (unfold T; cbn [inode_table set_inode_table]; rewrite aget_insert_ne by done; by rewrite (gw_table _ _ _ _ _ Hg)).
  destruct (name_inode_run c c2 x (dev, y) w (with_name d k l) k T m um Hc2 Hk (proj2 Hbuf) Hb2 HmT) as (c4 & R4 & Hc4 & Hb4). fold (with_entry d k (i_ino um) l) in Hb4.
  destruct (zmap_ok_write dev sb c c4 y w _ Hzo Hok Hc4 (proj1 Htk) (proj1 Hbuf) Hb4 (op_up _ _ _ _ _ Hop) eq_refl) as (Hok4 & Hct4 & Hzb4).
  pose proof (becomes_keeps c c4 (dev, y) w _ (proj1 Hbuf) Hb4 eq_refl eq_refl eq_refl) as Hk4. pose proof (becomes_buffer _ _ _ _ Hb4) as Hbuf4. cbn [bv_id set_bv_dirt set_bv_data] in Hbuf4. rewrite (proj2 Hbuf) in Hbuf4.
  destruct (brelse_close dev sb (fcache s1) c c4 x y w _ Hzo (zm_wf _ _ _ (fi_map _ _ _ _ _ _ Hin)) (proj1 Htk) Hop Hk4 Hok4 Hbuf4) as (c5 & R5 & Hok5 & Hk5 & Hct5).
  exists u, s1, c5, u2, d. split; [rewrite (run_bind _ _ _ _ _ R4); by apply on_cache_at|]. split; [by exists c, w|]. split; [done|]. split; [done|]. split; [|split; [|done]].
  - intros z Hz. rewrite (content_zbit dev sb c4) by done. rewrite Hzb4 by done. by apply content_zbit.
  - intros b. fold y. rewrite Hct5, Hct4. destruct (decide (b = (dev, y))); [done|apply Hct].
Qed.

Lemma named_added n v s0 l i x k s' m um : named n v s0 l i x k s' -> dir_entries v < 64 * (7 + 512 + 512 * 512) -> dir_ok (fcache s0) v ->
  aget (inode_table s0) m = Some um -> m <> n -> 1 <= i_ino um < 65536 -> Forall in_u8 l -> Forall (fun c => c <> 0) l -> (length l <= 14)%nat ->
  exists v2 s2, (name_inode x k m;; on_cache (brelse (Some x))) s' = Ok tt s2 /\ entry_added n v s0 l (i_ino um) i v2 s2.
Proof using HL Hpt Hrd.
  intros Hnm Hmax Hdo Hm Hne Hino Hl Hnz Hll. destruct (named_close _ _ _ _ _ _ _ _ _ _ Hnm Hmax Hm Hne) as (u & s1 & c5 & u2 & d & R & (c & w & Hoa & Hd) & Hok5 & Hk5 & Hzb5 & Hct5 & Hdat & Hdev & Hsz & Hi & Hfree).
  exists u2, (set_fcache c5 (set_inode_table (<[Z.to_nat n := u2]> (inode_table s1)) s1)). split; [done|]. pose proof Hoa as [Hg (Hk & Hi0 & Hkm) Hok Hct Htk Hop Hbuf Hdata]. set (y := zone_at dev (fcache s1) u (pos_of (i / 64))) in *.
  pose proof (gw_ready _ _ _ _ _ Hg) as ([F1 F2 F3 F4 F5 F6] & Hrm & Hrf). pose proof (dir_size _ _ _ Hdo) as (Hsv & Hen). pose proof (gw_size _ _ _ _ _ Hg) as Hgs. pose proof (gw_dir _ _ _ _ _ Hg) as Hdu.
  assert (Hyz : y <> 0) by (pose proof (data_zone_range sb y F2 (proj1 Htk)); lia). assert (Hq64 : 0 <= i / 64 /\ 64 * (i / 64) <= i < 64 * (i / 64) + 64) by (pose proof (Z.div_mod i 64 ltac:(lia)); pose proof (Z.mod_pos_bound i 64 ltac:(lia)); split; [apply Z.div_pos; lia|lia]).
  assert (Hfi : file_block (i / 64)) by (unfold file_block; lia).
  assert (Hsame : forall q, pos_ok q -> zone_at dev c5 u2 q = zone_at dev (fcache s1) u q).
  { intros q Hq. rewrite (zone_at_data _ u) by done. apply (leaf_write (fcache s1) c5 u (pos_of (i / 64)) F6); [by apply pos_of_ok|apply pos_of_leaf|done| |done]. intros a Ha. rewrite Hct5. by rewrite decide_False. }
  assert (Hen2 : dir_entries u2 = Z.max (dir_entries v) (i + 1) /\ i_size u2 = 16 * Z.max (dir_entries v) (i + 1)).
  { assert (E : i_size u2 = 16 * Z.max (dir_entries v) (i + 1)) by (rewrite Hsz; destruct (Z.ltb_spec i (dir_entries v)); lia). split; [|done].
    unfold dir_entries at 1, DIR_ENTRY. rewrite E, u32_small by (unfold in_u32; lia). rewrite Z.mul_comm. by apply Z.div_mul. }
  assert (Hdat2 : forall j, 0 <= j < Z.max (dir_entries v) (i + 1) -> dir_data c5 u2 j = if decide (j / 64 = i / 64) then with_entry d k (i_ino um) l else dir_data (fcache s1) u j).
  { intros j Hj. assert (Hfj : file_block (j / 64)) by (unfold file_block; pose proof (Z.mul_div_le j 64 ltac:(lia)); split; [apply Z.div_pos; lia|lia]). unfold DirOk.dir_data. rewrite Hsame by (by apply pos_of_ok). rewrite Hct5.
    destruct (decide (j / 64 = i / 64)) as [->|Hjq]; [by rewrite decide_True|]. rewrite decide_False; [done|]. intros [= E]. apply Hjq, pos_of_inj; [apply Hfj|apply Hfi|].
    apply (fo_inj _ _ _ _ F6); [by apply pos_of_ok|by apply pos_of_ok|done|by rewrite E]. }
  pose proof (cwf_data _ (zm_wf _ _ _ Hok) _ _ (proj1 Hbuf)) as Hwd. assert (Hdd : block_data d) by (destruct Hd as [->| ->]; [done|by apply with_word_data]).
  assert (Hda : forall j, 0 <= j < 64 -> j <> k -> dino d j = dino (bv_data w) j /\ ename d j = ename (bv_data w) j).
  { intros j Hj Hjk. destruct Hd as [->| ->]; [done|]. rewrite dino_with_word, ename_with_word by done. by rewrite decide_False. }
  split; cbn [fcache set_fcache].
  - split; [split; [by destruct F1|done|done|cbn [inode_table set_fcache set_inode_table]; apply aget_insert_eq; by eapply aget_Some_range|congruence|]|].
    + eapply file_ok_same; [exact F6|rewrite Hdat; apply (fo_len _ _ _ _ F6)|done|]. intros z [Hz1 Hz2]. split; [done|]. cbn [fcache set_fcache]. by rewrite Hzb5.
    + split; [by eapply keeps_room|]. intros a. cbn [fcache set_fcache]. by rewrite (keeps_refs _ _ _ Hk5).
  - destruct Hen2 as [E1 E2]. split; [rewrite E2; split; [lia|rewrite Z.mul_comm; by apply Z.mod_mul]| |].
    + rewrite Hsame by (by apply pos_of_ok). apply (do_first _ _ _ Hdu).
    + rewrite E1. intros b Hb1 Hb2. rewrite Hsame by (apply pos_of_ok; unfold file_block in *; lia). destruct (Z.lt_ge_cases (64 * b) (dir_entries v)) as [Hlt|Hge].
      * apply (do_blocks _ _ _ Hdu); [done|]. by rewrite (size_entries v u Hgs).
      * replace b with (i / 64); [done|]. lia.
  - split; [lia|apply Hen2].
  - done.
  - unfold DirOk.dir_named, DirOk.dir_inode. rewrite Hdat2 by lia. rewrite decide_True, <-Hkm by done. rewrite with_entry_named, with_entry_inode by done. rewrite !decide_True by done. rewrite u16_small by (unfold in_u16; lia).
    split; [|done]. rewrite bool_decide_true by done. destruct (Z.eqb_spec (i_ino um) 0); [lia|done].
  - intros j l' Hj Hji. unfold DirOk.dir_named, DirOk.dir_inode. rewrite Hdat2 by lia. rewrite <-(gw_data _ _ _ _ _ Hg j Hj). destruct (decide (j / 64 = i / 64)) as [E|]; [|done].
    assert (Hjk : j mod 64 <> k) by (rewrite Hkm; intros E2; apply Hji; rewrite (Z.div_mod j 64), (Z.div_mod i 64) by lia; congruence). pose proof (Z.mod_pos_bound j 64 ltac:(lia)) as Hjm.
    rewrite with_entry_named, with_entry_inode by done. rewrite !decide_False by done. destruct (Hda (j mod 64) Hjm Hjk) as [A1 A2]. assert (Ew : dir_data (fcache s1) u j = bv_data w) by (rewrite Hdata; unfold DirOk.dir_data; by rewrite E).
    rewrite Ew. unfold entry_named, dname. by rewrite A1, A2.
  - eapply view_keeps_trans; [apply (gw_keeps _ _ _ _ _ Hg)|done].
Qed.

(** The end of [minix_mknod], [minix_symlink] and [minix_link]: the name of inode
    [m] is added. *)
Definition add_name (fs : segment C) (n name len m : Z) : M (fss C) bool :=
  e ← minix_add_entry patience fs (Some n) name len;
  match e with
  | None => mret false
  | Some (x, k) => name_inode x k m;; on_cache (brelse (Some x));; mret true
  end.

(** C20: adding a name to a directory, as [minix_add_entry] and its callers do: the
    name gets a free entry, or a new one after the last; every other entry keeps
    its name and inode, whatever block it is in; if the name was not there,
    [minix_find_entry] now finds it, with the inode it was added for.  It fails only
    when no zone is left, and then no entry has changed. *)
Theorem add_then_find fs n v s name len m um : ready n v s -> dir_ok (fcache s) v -> dir_entries v < 64 * (7 + 512 + 512 * 512) ->
  1 <= len -> Forall (fun c => c <> 0) (name_at fs name len) -> aget (inode_table s) m = Some um -> m <> n -> 1 <= i_ino um < 65536 ->
  exists r s1, add_name (user_seg fs) n name len m s = Ok r s1 /\
  if r then exists v1 i, entry_added n v s (name_at fs name len) (i_ino um) i v1 s1 /\
    ((forall j, 0 <= j < dir_entries v -> dir_named (fcache s) v (name_at fs name len) j = false) ->
     exists x k s2, minix_find_entry patience (user_seg fs) (Some n) name len s1 = Ok (Some (x, k)) s2 /\ de_inode x k s2 = Ok (i_ino um) s2)
  else full dev sb (fcache s1) /\ exists u, grew n v s u s1.
Proof using HL Hpt Hrd.
  intros Hrdy Hdo Hmax Hlen Hnz Hm Hne Hino. unfold add_name. destruct (add_entry_run fs n v s name len Hrdy Hdo Hmax Hlen) as (r & s1 & R & Hr). rewrite (run_bind _ _ _ _ _ R). destruct r as [[x k]|]; [|by exists false, s1].
  destruct Hr as (i & Hnm). assert (Hl : Forall in_u8 (name_at fs name len)) by (apply Forall_fmap, Forall_true; intros j; apply u8_range).
  assert (Hll : (length (name_at fs name len) <= 14)%nat) by (unfold name_at; rewrite length_user_bytes; unfold short_len, MINIX_NAME_LEN; destruct (Z.ltb_spec 14 len); lia).
  destruct (named_added _ _ _ _ _ _ _ _ _ _ Hnm Hmax Hdo Hm Hne Hino Hl Hnz Hll) as (v2 & s2 & R2 & Hea). exists true, s2. split.
  - apply bind_Ok in R2 as ([] & s1' & Ra & Rb). rewrite (run_bind _ _ _ _ _ Ra). by rewrite (run_bind _ _ _ _ _ Rb).
  - exists v2, i. split; [done|]. intros Hno. destruct Hea as [E1 E2 [E3 E4] E5 [E6 E7] E8 E9].
    destruct (find_entry_run dev sbn sb patience Hpt Hrd fs n v2 s2 name len E1 E2 Hlen Hnz) as (r & s3 & R3 & Hres). destruct r as [[x2 k2]|].
    + destruct Hres as (j & Hj & Hk & Hae & Hnd & _). exists x2, k2, s3. split; [done|]. rewrite (at_entry_inode dev sbn sb patience Hpt Hrd _ _ _ _ _ _ _ Hae Hk). f_equal.
      destruct (Z.eq_dec j i) as [->|Hji]; [done|]. exfalso. assert (Hjv : 0 <= j < dir_entries v) by lia. destruct (E8 j (name_at fs name len) Hjv Hji) as [E _]. rewrite E, Hno in Hnd by done. done.
    + destruct Hres as [_ Hres]. rewrite Hres in E6; [done|lia].
Qed.

End Grow.

Existing Instance quiet_env_dir.

Lemma add_then_find_witness :
  exists r s1, add_name 1 (user_seg demo_names) 1 100 2 0 demo_dirs = Ok r s1 /\
  if r then exists v1 i, entry_added 1 0 demo_super 1 demo_dir demo_dirs (name_at demo_names 100 2) 5 i v1 s1 /\
    ((forall j, 0 <= j < dir_entries demo_dir -> dir_named 1 (fcache demo_dirs) demo_dir (name_at demo_names 100 2) j = false) ->
     exists x k s2, minix_find_entry 1 (user_seg demo_names) (Some 1) 100 2 s1 = Ok (Some (x, k)) s2 /\ de_inode x k s2 = Ok 5 s2)
  else full 1 demo_super (fcache s1) /\ exists u, grew 1 0 demo_super 1 demo_dir demo_dirs u s1.
Proof.
  apply (add_then_find 1 0 demo_super 1 ltac:(lia) (ideal_readable 1) demo_names 1 demo_dir demo_dirs 100 2 0 demo_target demo_dir_ready demo_dir_ok); try lia; [closed_arith|repeat constructor; discriminate|done|cbn; lia].
Defined.
