(* ===== verification/NameiOk.v ===== *)
(** * Theorems about path names

    Following symbolic links ends, six links deep at most; a path is walked name by
    name, as it is split at its slashes; and what the calls on names do where they
    are not what they mean to be. *)

From S2P Require Import Prelude TaskStruct Sched Signal Sys Fs Store Minix MinixOk Bmap Inode Pipe Dir DirOk Namei.

(** ** Computations that agree

    [agree I m m']: the same result from every state where [I] holds. *)

Definition agree {S A} (I : S -> Prop) (m m' : M S A) : Prop := forall s, I s -> m s = m' s.

Section Agree.
Context {S : Type} (I : S -> Prop).

Lemma agree_refl {A} (m : M S A) : agree I m m.
Proof. done. Qed.

Lemma agree_bind {A B} (m m' : M S A) (f f' : A -> M S B) : agree I m m' -> preserves I m -> (forall a, agree I (f a) (f' a)) -> agree I (m ≫= f) (m' ≫= f').
Proof. intros Hm Hp Hf s HI. unfold mbind, M_bind. rewrite <-(Hm s HI). destruct (m s) as [a s1|h s1] eqn:E; [|done]. apply Hf. by eapply Hp. Qed.

Lemma preserves_bind_post {A B} (Q : A -> Prop) (m : M S A) (f : A -> M S B) : preserves I m -> (forall s a s', I s -> m s = Ok a s' -> Q a) -> (forall a, Q a -> preserves I (f a)) -> preserves I (m ≫= f).
Proof. intros Hm HQ Hf s b s' HI (a & s1 & H1 & H2)%bind_Ok. eapply Hf; [by eapply HQ| |exact H2]. by eapply Hm. Qed.

Lemma agree_bind_post {A B} (Q : A -> Prop) (m : M S A) (f f' : A -> M S B) : preserves I m -> (forall s a s', I s -> m s = Ok a s' -> Q a) -> (forall a, Q a -> agree I (f a) (f' a)) -> agree I (m ≫= f) (m ≫= f').
Proof. intros Hp HQ Hf s HI. unfold mbind, M_bind. destruct (m s) as [a s1|h s1] eqn:E; [|done]. apply Hf; [by eapply HQ|by eapply Hp]. Qed.

Lemma agree_iter {A B} (body body' : A -> M S (A + B)) n x : (forall x, agree I (body x) (body' x)) -> (forall x, preserves I (body x)) -> agree I (iter n body x) (iter n body' x).
Proof.
  intros Hb Hp. revert x. induction n as [|n IH]; intros x; [done|]. cbn [iter]. apply agree_bind; [done|done|]. intros [y|y]; [apply IH|done].
Qed.

End Agree.

(** ** The number of links a task follows *)

Definition links_of (k : kst) : option Z := link_count <$> heap k !! current k.

Definition klevel (l : Z) (k : kst) : Prop := links_of k = Some l.

Lemma klevel_upd l p f : (forall t, link_count (f t) = link_count t) -> preserves (klevel l) (upd p f).
Proof.
  intros Hf. apply preserves_upd. intros k q t HI Ht. unfold klevel, links_of in *. cbn [heap current set_heap]. destruct (decide (q = current k)) as [->|Hne].
  - rewrite lookup_insert_eq. rewrite Ht in HI. cbn in *. by rewrite Hf.
  - by rewrite lookup_insert_ne.
Qed.

Lemma klevel_event l e : preserves (klevel l) (modify (add_event e)).
Proof. by apply preserves_modify. Qed.
#[local] Hint Resolve klevel_event : pres.

Lemma klevel_wake_up l q : preserves (klevel l) (wake_up q).
Proof.
  unfold wake_up, wake_step, wake_next, set_wq_head, printk. pres; try (by apply preserves_modify); apply klevel_upd; by intros [].
Qed.

Section Links.
Context {C : Type} {HB : BufferCache C} {HE : FsEnv C} {HP : PageAlloc C}.

(** The running task is following [l] links. *)
Definition level (l : Z) (s : fss C) : Prop := klevel l (fkern s).

Lemma level_task {A} l (m : M kst A) : preserves (klevel l) m -> preserves (level l) (on_task m).
Proof using. intros Hm s a s' HI. unfold on_task. destruct (m (fkern s)) as [b k|] eqn:E; [|done]. intros [= _ <-]. by eapply Hm. Qed.

Lemma level_cache {A} l (m : M C A) : preserves (level l) (on_cache m).
Proof using. intros s a s' HI. unfold on_cache. destruct (m (fcache s)); [|done]. by intros [= _ <-]. Qed.

Lemma level_inode_at l n : preserves (level l) (inode_at n).
Proof using. unfold inode_at. pres. Qed.
Lemma level_super_at l n : preserves (level l) (super_at n).
Proof using. unfold super_at. pres. Qed.
Lemma level_inode_upd l n f : preserves (level l) (inode_upd n f).
Proof using. unfold inode_upd. pres. by apply preserves_modify. Qed.
Lemma level_super_upd l n f : preserves (level l) (super_upd n f).
Proof using. unfold super_upd. pres. by apply preserves_modify. Qed.
Lemma level_cur {A} l (f : task_struct -> A) : preserves (level l) (on_task (cur f)).
Proof using. apply level_task. pres. Qed.
Lemma level_printk l msg : preserves (level l) (on_task (printk msg)).
Proof using. apply level_task, klevel_event. Qed.
Lemma level_wake_up l q : preserves (level l) (on_task (wake_up q)).
Proof using. apply level_task, klevel_wake_up. Qed.
Lemma level_now l : preserves (level l) now.
Proof using. apply level_task. pres. Qed.
Lemma level_upd_cur l f : (forall t, link_count (f t) = link_count t) -> preserves (level l) (on_task (upd_cur f)).
Proof using. intros Hf. apply level_task. unfold upd_cur. pres. by apply klevel_upd. Qed.
Lemma level_clear_inode l n : preserves (level l) (clear_inode n).
Proof using. unfold clear_inode. pres; [apply level_inode_upd|]. apply level_task. by apply preserves_modify. Qed.
#[local] Hint Resolve level_cache level_inode_at level_super_at level_inode_upd level_super_upd level_cur level_printk level_wake_up level_now level_clear_inode : pres.

(** Others do not follow links for the task while it sleeps. *)
Context (Hsleep : forall l q, preserves (level l) (fs_sleep q)) (Hyield : forall l, preserves (level l) fs_yield) (Hfree : forall l a, preserves (level l) (free_page a)).
Context (patience : nat).

Ltac level := pres; auto with pres.

Lemma level_get_super l dev : preserves (level l) (get_super patience dev).
Proof using Hsleep. unfold get_super, get_super_step, wait_on_super. level. Qed.
#[local] Hint Resolve level_get_super : pres.

Lemma level_free_block l dev z : preserves (level l) (minix_free_block patience dev z).
Proof using Hsleep. unfold minix_free_block. level. Qed.
Lemma level_new_block l dev : preserves (level l) (minix_new_block patience dev).
Proof using Hsleep. unfold minix_new_block. level. Qed.
#[local] Hint Resolve level_free_block level_new_block : pres.

Lemma level_free_inode l o : preserves (level l) (minix_free_inode o).
Proof using. unfold minix_free_inode. level. Qed.
Lemma level_bmap l n b c : preserves (level l) (_minix_bmap patience n b c).
Proof using Hsleep. unfold _minix_bmap, inode_zone, indirect_zone. level. Qed.
Lemma level_free_entries l free x : (forall z, preserves (level l) (free z)) -> forall es b, preserves (level l) (free_entries free x es b).
Proof using. intros Hf. induction es as [|e es IH]; intros b; cbn [free_entries]; level. Qed.
Lemma level_free_tree l dev free z : (forall z, preserves (level l) (free z)) -> preserves (level l) (free_tree patience dev free z).
Proof using Hsleep. intros Hf. unfold free_tree. level. by apply level_free_entries. Qed.
Lemma level_drop_zone l n e free : (forall d z, preserves (level l) (free d z)) -> preserves (level l) (drop_zone n e free).
Proof using. intros Hf. unfold drop_zone. level. Qed.
Lemma level_drop_direct l n : forall es b, preserves (level l) (drop_direct patience n es b).
Proof using Hsleep. induction es as [|e es IH]; intros b; cbn [drop_direct]; level. apply level_drop_zone. level. Qed.
#[local] Hint Resolve level_free_inode level_bmap level_drop_direct : pres.

Lemma level_truncate l n : preserves (level l) (minix_truncate patience n).
Proof using Hsleep Hyield.
  unfold minix_truncate, truncate_step. level; try (apply level_drop_zone; intros; unfold minix_free_dind, minix_free_ind; repeat (apply level_free_tree; intros); level). apply level_upd_cur. by intros [].
Qed.
#[local] Hint Resolve level_truncate : pres.

Lemma level_wait_on_inode l n : preserves (level l) (wait_on_inode patience n).
Proof using Hsleep. unfold wait_on_inode. level. Qed.
#[local] Hint Resolve level_wait_on_inode : pres.
Lemma level_write_inode l n : preserves (level l) (write_inode patience n).
Proof using Hsleep. unfold write_inode, lock_inode, unlock_inode, minix_write_inode. level. Qed.
Lemma level_read_inode l n : preserves (level l) (read_inode patience n).
Proof using Hsleep. unfold read_inode, lock_inode, unlock_inode, minix_read_inode. level. Qed.
#[local] Hint Resolve level_write_inode level_read_inode : pres.

Lemma level_put l n : preserves (level l) (put_count n).
Proof using. apply level_inode_upd. Qed.
Lemma level_hold l n : preserves (level l) (hold_count n).
Proof using. apply level_inode_upd. Qed.
#[local] Hint Resolve level_put level_hold : pres.
Lemma level_iput l o : preserves (level l) (iput patience o).
Proof using Hsleep Hyield Hfree. unfold iput, iput_pipe, iput_step, minix_put_inode. level. Qed.
#[local] Hint Resolve level_iput : pres.

Lemma level_empty_scan l : forall k o, preserves (level l) (empty_scan k o).
Proof using. induction k as [|k IH]; intros o; cbn [empty_scan]; level. by apply preserves_modify. Qed.
Lemma level_get_empty_inode l : preserves (level l) (get_empty_inode patience).
Proof using Hsleep. unfold get_empty_inode, empty_step, clean_step. level. apply level_empty_scan. Qed.
#[local] Hint Resolve level_get_empty_inode : pres.
Lemma level_iget l dev nr : preserves (level l) (iget patience dev nr).
Proof using Hsleep Hyield Hfree. unfold iget, iget_step, iget_found. level. Qed.
#[local] Hint Resolve level_iget : pres.

(** Reading a name. *)
Definition quiet_seg (fs : segment C) : Prop := forall l a, preserves (level l) (fs a).

Lemma quiet_user fs : quiet_seg (user_seg fs).
Proof using. intros l a. apply preserves_ret. Qed.
Lemma quiet_buffer x : quiet_seg (buffer_seg x).
Proof using. intros l a. apply level_cache. Qed.

Lemma level_cmpsb l fs name x k : quiet_seg fs -> forall n i, preserves (level l) (cmpsb fs n name x k i).
Proof using. intros Hf. induction n as [|n IH]; intros i; cbn [cmpsb]; unfold de_name; level. Qed.
Lemma level_match l fs len name x k : quiet_seg fs -> preserves (level l) (minix_match fs len name x k).
Proof using. intros Hf. unfold minix_match, de_inode, de_name. level. by apply level_cmpsb. Qed.
Lemma level_find l fs dir name len : quiet_seg fs -> preserves (level l) (minix_find_entry patience fs dir name len).
Proof using Hsleep. intros Hf. unfold minix_find_entry, find_from, find_step, minix_bmap. level. by apply level_match. Qed.
Lemma level_minix_lookup l fs dir name len : quiet_seg fs -> preserves (level l) (minix_lookup patience fs dir name len).
Proof using Hsleep Hyield Hfree. intros Hf. unfold minix_lookup, de_inode. level. by apply level_find. Qed.
Lemma level_permission l n mask : preserves (level l) (permission n mask).
Proof using. unfold permission. level; apply level_task; unfold in_group_p; pres. Qed.
#[local] Hint Resolve level_permission : pres.
Lemma level_lookup l fs d name len : quiet_seg fs -> preserves (level l) (lookup patience fs d name len).
Proof using Hsleep Hyield Hfree. intros Hf. unfold lookup, is_dotdot, is_root. level. by apply level_minix_lookup. Qed.

Lemma level_hold_of l f : preserves (level l) (hold_of f).
Proof using. unfold hold_of. level. Qed.
#[local] Hint Resolve level_hold_of : pres.

(** Following one link more, and back. *)
Lemma level_shift l f g s a s' : (forall t, link_count (f t) = g (link_count t)) -> level l s -> on_task (upd_cur f) s = Ok a s' -> level (g l) s'.
Proof using.
  intros Hf HI. unfold on_task. destruct (upd_cur f (fkern s)) as [b k|] eqn:E; [|done]. intros [= _ <-]. unfold upd_cur in E. inv_ok. apply upd_Ok in E as (q & t & [= <-] & Ht & ->).
  unfold level, klevel, links_of in *. cbn [fkern set_fkern heap current set_heap]. rewrite Ht in HI. rewrite lookup_insert_eq. cbn in *. rewrite Hf. congruence.
Qed.

Lemma level_value l s v s' : level l s -> on_task (cur link_count) s = Ok v s' -> v = l.
Proof using.
  unfold on_task, level, klevel, links_of. intros HI. destruct (heap (fkern s) !! current (fkern s)) as [t|] eqn:E; [|done]. rewrite (cur_eq link_count t) by done. cbn in HI. intros [= <- _]. congruence.
Qed.

Section Deeper.
Context (l : Z) (Hl : 0 <= l) (f g : segment C -> Z -> option Z -> bool -> M (fss C) (option Z)).
Context (Hf : l <= 5 -> forall fs p b fl, quiet_seg fs -> preserves (level (l + 1)) (f fs p b fl)).
Context (Hfg : l <= 5 -> forall fs p b fl, quiet_seg fs -> agree (level (l + 1)) (f fs p b fl) (g fs p b fl)).

(** The walk along the target of a link. *)
Let nested (h : segment C -> Z -> option Z -> bool -> M (fss C) (option Z)) (x d : Z) : M (fss C) (option Z) :=
  on_task (upd_cur (fun t => set_link_count (s32 (link_count t + 1)) t));;
  r ← h (buffer_seg x) 0 (Some d) true;
  on_task (upd_cur (fun t => set_link_count (s32 (link_count t - 1)) t));;
  on_cache (brelse (Some x));;
  mret r.

Lemma nested_up s a s' : l <= 5 -> level l s -> on_task (upd_cur (fun t => set_link_count (s32 (link_count t + 1)) t)) s = Ok a s' -> level (l + 1) s'.
Proof using Hl.
  intros H5 HI R. rewrite <-(s32_small (l + 1)) by (unfold in_s32; lia). eapply (level_shift l (fun t => set_link_count (s32 (link_count t + 1)) t) (fun n => s32 (n + 1))); [by intros []|done|exact R].
Qed.

Lemma nested_level x d : l <= 5 -> preserves (level l) (nested f x d).
Proof using Hl Hf.
  intros H5 s r s' HI H. unfold nested in H. inv_ok. pose proof (nested_up _ _ _ H5 HI Hr) as H1. pose proof (Hf H5 _ _ _ _ (quiet_buffer x) _ _ _ H1 Hr0) as H2.
  pose proof (level_shift (l + 1) (fun t => set_link_count (s32 (link_count t - 1)) t) (fun n => s32 (n - 1)) _ _ _ ltac:(by intros []) H2 Hr1) as H3. cbn beta in H3. rewrite s32_small in H3 by (unfold in_s32; lia). replace (l + 1 - 1) with l in H3 by lia.
  by eapply level_cache.
Qed.

Lemma nested_agree x d : l <= 5 -> agree (level l) (nested f x d) (nested g x d).
Proof using Hl Hfg.
  intros H5 s HI. unfold nested, mbind, M_bind. destruct (on_task (upd_cur (fun t => set_link_count (s32 (link_count t + 1)) t)) s) as [a s1|] eqn:E; [|done].
  by rewrite (Hfg H5 _ _ _ _ (quiet_buffer x) s1 (nested_up _ _ _ H5 HI E)).
Qed.

Lemma minix_follow_both dir inode : preserves (level l) (minix_follow_link patience f dir inode) /\ agree (level l) (minix_follow_link patience f dir inode) (minix_follow_link patience g dir inode).
Proof using Hsleep Hyield Hfree Hl Hf Hfg.
  unfold minix_follow_link. set (hold := match dir with Some d => mret d | None => hold_of root end). assert (Hh : preserves (level l) hold) by (unfold hold; destruct dir; level).
  split.
  - apply preserves_bind; [done|]. intros d. destruct inode as [n|]; [|level]. apply preserves_bind; [level|]. intros v. destruct (negb (S_ISLNK (i_mode v))); [level|].
    eapply (preserves_bind_post _ (fun k => k = l)); [level|intros; by eapply level_value|]. intros k ->. apply preserves_bind; [level|]. intros z. destruct (Z.ltb_spec 5 l) as [H5|H5].
    { eapply (preserves_bind_post _ (fun b => b = None)); [level|by intros s b s' _ [= <- _]|]. intros b ->. level. }
    apply preserves_bind; [level|]. intros [x|]; [|level]. apply preserves_bind; [level|]. intros _. by apply nested_level.
  - apply agree_bind; [done|done|]. intros d. destruct inode as [n|]; [|done]. apply agree_bind; [done|level|]. intros v. destruct (negb (S_ISLNK (i_mode v))); [done|].
    eapply (agree_bind_post _ (fun k => k = l)); [level|intros; by eapply level_value|]. intros k ->. apply agree_bind; [done|level|]. intros z. destruct (Z.ltb_spec 5 l) as [H5|H5].
    { eapply (agree_bind_post _ (fun b => b = None)); [level|by intros s b s' _ [= <- _]|]. by intros b ->. }
    apply agree_bind; [done|level|]. intros [x|]; [|done]. apply agree_bind; [done|level|]. intros _. by apply nested_agree.
Qed.

Lemma follow_both dir inode : preserves (level l) (follow_link patience f dir inode) /\ agree (level l) (follow_link patience f dir inode) (follow_link patience g dir inode).
Proof using Hsleep Hyield Hfree Hl Hf Hfg.
  unfold follow_link. destruct dir as [d|], inode as [n|]; [|split; [level|done]..]. split.
  - apply preserves_bind; [level|]. intros v. destruct (i_op v) as [[]|]; [apply minix_follow_both|level].
  - apply agree_bind; [done|level|]. intros v. destruct (i_op v) as [[]|]; [apply minix_follow_both|done].
Qed.

Lemma walk_both fs x : quiet_seg fs -> preserves (level l) (walk_step patience f fs x) /\ agree (level l) (walk_step patience f fs x) (walk_step patience g fs x).
Proof using Hsleep Hyield Hfree Hl Hf Hfg.
  intros Hq. unfold walk_step. destruct x as [base name]. assert (Hn : preserves (level l) (iter patience (name_step fs name) 0)) by (unfold name_step; level).
  split.
  - apply preserves_bind; [done|]. intros [len c]. destruct (c =? 0); [level|]. apply preserves_bind; [level|]. intros _. apply preserves_bind; [by apply level_lookup|]. intros [err o].
    destruct (truth err); [level|]. apply preserves_bind; [apply follow_both|]. intros [b|]; level.
  - apply agree_bind; [done|done|]. intros [len c]. destruct (c =? 0); [done|]. apply agree_bind; [done|level|]. intros _. apply agree_bind; [done|by apply level_lookup|]. intros [err o].
    destruct (truth err); [done|]. apply agree_bind; [apply follow_both|apply follow_both|]. intros [b|]; done.
Qed.

Lemma dir_namei_both fs p base : quiet_seg fs -> preserves (level l) (dir_namei_with patience f fs p base) /\ agree (level l) (dir_namei_with patience f fs p base) (dir_namei_with patience g fs p base).
Proof using Hsleep Hyield Hfree Hl Hf Hfg.
  intros Hq. unfold dir_namei_with. set (hold := match base with Some d => mret d | None => hold_of pwd end). assert (Hh : preserves (level l) hold) by (unfold hold; destruct base; level).
  assert (Hs : forall x, preserves (level l) (iter patience (slash_step patience fs) x)) by (intros x; unfold slash_step; level).
  split.
  - apply preserves_bind; [done|]. intros b. apply preserves_bind; [done|]. intros x. apply preserves_iter. intros y. by apply walk_both.
  - apply agree_bind; [done|done|]. intros b. apply agree_bind; [done|done|]. intros x. apply agree_iter; intros y; by apply walk_both.
Qed.

Lemma namei_both fs p base fl : quiet_seg fs -> preserves (level l) (namei_with patience f fs p base fl) /\ agree (level l) (namei_with patience f fs p base fl) (namei_with patience g fs p base fl).
Proof using Hsleep Hyield Hfree Hl Hf Hfg.
  intros Hq. unfold namei_with. split.
  - apply preserves_bind; [by apply dir_namei_both|]. intros [[[b name] len]|]; [|level]. apply preserves_bind; [level|]. intros _. apply preserves_bind; [by apply level_lookup|]. intros [err o].
    destruct (truth err); [level|]. apply preserves_bind; [destruct fl; [apply follow_both|level]|]. intros i. level.
  - apply agree_bind; [by apply dir_namei_both|by apply dir_namei_both|]. intros [[[b name] len]|]; [|done]. apply agree_bind; [done|level|]. intros _. apply agree_bind; [done|by apply level_lookup|]. intros [err o].
    destruct (truth err); [done|]. apply agree_bind; [destruct fl; [apply follow_both|done]|destruct fl; [apply follow_both|level]|]. done.
Qed.

End Deeper.

Lemma namei_deep d : forall D l, 0 <= l -> (1 <= D)%nat -> 7 <= Z.of_nat D + l -> forall fs p b fl, quiet_seg fs ->
  preserves (level l) (_namei patience D fs p b fl) /\ agree (level l) (_namei patience D fs p b fl) (_namei patience (D + d) fs p b fl).
Proof using Hsleep Hyield Hfree.
  induction D as [|D IH]; intros l Hl HD Hsum fs p b fl Hq; [lia|]. cbn [_namei Nat.add]. apply namei_both; [done| | |done]; intros H5 fs' p' b' fl' Hq'; (destruct (IH (l + 1) ltac:(lia) ltac:(lia) ltac:(lia) fs' p' b' fl' Hq'); done).
Qed.

(** C21: following symbolic links ends.  However the links on the disk point to each
    other, walking a path calls [_namei] at most seven deep, once for the path and
    for six links: with more depth the result of [namei] is the same, and the task
    is left following as many links as before. *)
Theorem links_end d fs path base follow s : level 0 s ->
  _namei patience (S link_depth + d) (user_seg fs) path base follow s = _namei patience (S link_depth) (user_seg fs) path base follow s /\
  forall r s', _namei patience (S link_depth) (user_seg fs) path base follow s = Ok r s' -> level 0 s'.
Proof using Hsleep Hyield Hfree.
  intros Hs. destruct (namei_deep d (S link_depth) 0 ltac:(lia) ltac:(unfold link_depth; lia) ltac:(unfold link_depth; lia) (user_seg fs) path base follow (quiet_user fs)) as [Hp Ha].
  split; [symmetry; by apply Ha|]. intros r s' R. by eapply Hp.
Qed.

End Links.

(** ** Walking a path *)

(** A path: its names, with a slash between them and a zero after the last. *)
Fixpoint path_of (cs : list (list Z)) : list Z :=
  match cs with [] => [0] | c :: cs' => c ++ match cs' with [] => [0] | _ => 47 :: path_of cs' end end.
Definition plain (c : list Z) : Prop := Forall (fun a => a <> 0 /\ a <> 47) c.

Lemma holds_head fs a b l : holds fs a (b :: l) -> get_fs_byte fs a = b /\ holds fs (a + 1) l.
Proof. intros H. destruct (holds_app fs a [b] l H) as [H1 H2]. split; [|done]. rewrite <-(Z.add_0_r a). by apply (H1 0%nat). Qed.

Section Path.
Context {C : Type} {HB : BufferCache C} {HE : FsEnv C} {HP : PageAlloc C}.
Context (patience : nat) (deeper : segment C -> Z -> option Z -> bool -> M (fss C) (option Z)).
Context (fs : umem).

(** The directory of the last name, by its names: each one but the last is looked
    up in the directory reached so far, and a link is followed. *)
Fixpoint walk_names (base a : Z) (cs : list (list Z)) : M (fss C) (option (Z * Z * Z)) :=
  match cs with
  | [] => mret None
  | c :: cs' =>
      match cs' with
      | [] => mret (Some (base, a, Z.of_nat (length c)))
      | _ =>
          hold_count base;;
          '(error, inode) ← lookup patience (user_seg fs) base a (Z.of_nat (length c));
          if truth error then iput patience (Some base);; mret None
          else
            b ← follow_link patience deeper (Some base) inode;
            match b with None => mret None | Some b => walk_names b (a + Z.of_nat (length c) + 1) cs' end
      end
  end.

(** A path that starts with [k] slashes is walked from the root. *)
Fixpoint from_root (k : nat) (base : Z) : M (fss C) Z :=
  match k with O => mret base | S k' => iput patience (Some base);; b ← hold_of root; from_root k' b end.

Lemma name_loop a c e (s : fss C) : plain c -> holds fs a (c ++ [e]) -> e = 0 \/ e = 47 -> forall n i, (length c - i < n)%nat -> (i <= length c)%nat ->
  iter n (name_step (user_seg fs) a) (Z.of_nat i) s = Ok (Z.of_nat (length c), e) s.
Proof using.
  intros Hp Hh He. induction n as [|n IH]; intros i Hn Hi; [lia|]. cbn [iter]. set (it := iter n (name_step (user_seg fs) a)). unfold name_step. change (user_seg fs (a + Z.of_nat i)) with (mret (M := M (fss C)) (get_fs_byte fs (a + Z.of_nat i))).
  destruct (decide (i = length c)) as [->|Hne].
  - rewrite (Hh (length c) e) by (rewrite lookup_app_r by lia; by rewrite Nat.sub_diag). rewrite bind_assoc, bind_ret. assert ((e =? 0) || (e =? 47) = true) as -> by (destruct He as [->| ->]; done). done.
  - destruct (lookup_lt_is_Some_2 c i ltac:(lia)) as [b Hb]. rewrite (Hh i b) by (by apply lookup_app_l_Some). destruct (Forall_lookup_1 _ _ _ _ Hp Hb) as [H0 H47].
    rewrite bind_assoc, bind_ret. destruct (Z.eqb_spec b 0); [done|]. destruct (Z.eqb_spec b 47); [done|]. cbn [orb]. rewrite bind_ret. replace (Z.of_nat i + 1) with (Z.of_nat (S i)) by lia. apply IH; lia.
Qed.

Lemma walk_loop cs : cs <> [] -> Forall (fun c => plain c /\ (length c < patience)%nat) cs -> forall fuel base a s, (length cs <= fuel)%nat -> holds fs a (path_of cs) ->
  iter fuel (walk_step patience deeper (user_seg fs)) (base, a) s = walk_names base a cs s.
Proof using.
  intros Hne Hc. induction Hc as [|c cs [Hp Hlen] Hc IH]; [done|]. clear Hne. intros fuel base a s Hf Hh. destruct fuel as [|fuel]; [cbn in Hf; lia|]. cbn [iter path_of walk_names] in *.
  set (it := iter fuel (walk_step patience deeper (user_seg fs))). unfold walk_step. destruct cs as [|c2 cs].
  - pose proof (name_loop a c 0 s Hp Hh ltac:(by left) patience 0 ltac:(lia) ltac:(lia)) as R. change (Z.of_nat 0) with 0 in R. rewrite bind_assoc, (run_bind _ _ _ _ _ R). reflexivity.
  - assert (Hh1 : holds fs a (c ++ [47])) by (change (c ++ 47 :: path_of (c2 :: cs)) with (c ++ [47] ++ path_of (c2 :: cs)) in Hh; rewrite app_assoc in Hh; by apply holds_app in Hh as [? _]).
    assert (Hh2 : holds fs (a + Z.of_nat (length c) + 1) (path_of (c2 :: cs))) by (apply holds_app in Hh as [_ Hh]; by apply holds_head in Hh as [_ ?]).
    pose proof (name_loop a c 47 s Hp Hh1 ltac:(by right) patience 0 ltac:(lia) ltac:(lia)) as R. change (Z.of_nat 0) with 0 in R. rewrite bind_assoc, (run_bind _ _ _ _ _ R). cbn match. change (47 =? 0) with false. cbn match.
    rewrite !bind_assoc. unfold mbind, M_bind. destruct (hold_count base s) as [[] s1|]; [|done]. destruct (lookup patience (user_seg fs) base a (Z.of_nat (length c)) s1) as [[err o] s2|]; [|done].
    destruct (truth err); [by destruct (iput patience (Some base) s2)|]. destruct (follow_link patience deeper (Some base) o s2) as [[b|] s3|]; [|done|done].
    cbn [mret M_ret]. apply IH; [done|cbn in Hf |- *; lia|done].
Qed.

Lemma slash_loop k : forall n base a l s, (k < n)%nat -> holds fs a (replicate k 47 ++ l) -> match l with [] => False | b :: _ => b <> 47 end ->
  iter n (slash_step patience (user_seg fs)) (base, a) s = (b ← from_root k base; mret (b, a + Z.of_nat k)) s.
Proof using.
  induction k as [|k IH]; intros n base a l s Hn Hh Hl; (destruct n as [|n]; [lia|]); cbn [iter from_root]; set (it := iter n (slash_step patience (user_seg fs))); unfold slash_step;
    change (user_seg fs a) with (mret (M := M (fss C)) (get_fs_byte fs a)); rewrite bind_assoc, bind_ret.
  - destruct l as [|b l]; [done|]. destruct (holds_head _ _ _ _ Hh) as [E _]. rewrite E. destruct (Z.eqb_spec b 47); [done|]. by rewrite Z.add_0_r.
  - destruct (holds_head _ _ _ _ Hh) as [E Hh']. rewrite E. change (47 =? 47) with true. cbn match. rewrite !bind_assoc. unfold mbind, M_bind. destruct (iput patience (Some base) s) as [[] s1|]; [|done].
    destruct (hold_of root s1) as [b s2|]; [|done]. cbn [mret M_ret]. specialize (IH n b (a + 1) l s2 ltac:(lia) Hh' Hl). unfold it. rewrite IH. unfold mbind, M_bind. destruct (from_root k b s2); [|done]. unfold mret, M_ret. do 2 f_equal. lia.
Qed.

(** [dir_namei] walks a path as it is split at its slashes: from the root if it
    starts with one, from [base] or the working directory otherwise; every name but
    the last is looked up in turn, and the last is returned with its directory. *)
Theorem dir_namei_splits k cs a base s : cs <> [] -> Forall (fun c => plain c /\ (length c < patience)%nat) cs -> (k < patience)%nat -> (length cs <= patience)%nat ->
  holds fs a (replicate k 47 ++ path_of cs) -> (hd [] cs <> [] \/ length cs = 1%nat) ->
  dir_namei_with patience deeper (user_seg fs) a base s =
    (b ← (match base with Some b => mret b | None => hold_of pwd end); b ← from_root k b; walk_names b (a + Z.of_nat k) cs) s.
Proof using.
  intros Hne Hc Hk Hn Hh Hfirst. unfold dir_namei_with. set (start := match base with Some b => mret b | None => hold_of pwd end). unfold mbind, M_bind.
  destruct (start s) as [b s1|]; [|done]. assert (Hhd : match path_of cs with [] => False | x :: _ => x <> 47 end).
  { destruct cs as [|[|x c] cs]; [done| |].
    - destruct Hfirst as [|Hl]; [done|]. destruct cs; [done|cbn in Hl; lia].
    - apply Forall_cons in Hc as [[Hp _] _]. apply Forall_cons in Hp as [[_ ?] _]. by destruct cs. }
  pose proof (holds_app _ _ _ _ Hh) as [_ Hpath]. rewrite length_replicate in Hpath. pose proof (slash_loop k patience b a (path_of cs) s1 Hk Hh Hhd) as R.
  unfold mbind, M_bind in R |- *. rewrite R. destruct (from_root k b s1) as [b' s2|]; [|done]. cbn [mret M_ret]. by apply walk_loop.
Qed.

End Path.

(** ** Calls that do not do what they mean to *)

Section Calls.
Context {C : Type} {HB : BufferCache C} {HE : FsEnv C} {HP : PageAlloc C}.
Context (patience : nat).

Lemma rename_result (fs : segment C) o n s r s' : sys_rename patience fs o n s = Ok r s' -> r = - EPERM \/ r = - ENOENT \/ r = - EACCES \/ r = - EXDEV.
Proof using.
  unfold sys_rename. intros H. repeat first [progress inv_ok | progress cbn beta in * | match type of H with context [match ?x with _ => _ end] => destruct x end]; try discriminate; auto.
Qed.

(** A call that has returned an error, or has not returned. *)
Definition failed (r : res (fss C) Z) : Prop := match r with Ok v _ => v < 0 | Halt _ _ => True end.

(** [rename] never renames: whatever the names and the permissions, a call that
    returns has failed.  The test of [i_op->rename] has lost its negation. *)
Theorem rename_fails (fs : segment C) oldname newname s : failed (sys_rename patience fs oldname newname s).
Proof using.
  unfold failed. destruct (sys_rename patience fs oldname newname s) as [r s'|] eqn:E; [|done]. pose proof (rename_result _ _ _ _ _ _ E) as Hr. unfold EPERM, ENOENT, EACCES, EXDEV in Hr. lia.
Qed.

(** The walk along [path] ends at name [name] of directory [d], which has no such
    entry. *)
Definition missing (fs : segment C) (path d name len : Z) (s s2 : fss C) : Prop :=
  exists d0 s1, dir_namei patience fs path s = Ok (Some (d0, name, len)) s1 /\ len <> 0 /\ find_entry patience fs d0 name len s1 = Ok (d, None) s2.

(** [open] of a name that is not there makes the file whether or not [O_CREAT] is
    given: [!flag & O_CREAT] is 0 for every [flag], so [ENOENT] is never returned
    for the last name of a path. *)
Theorem open_always_creates (fs : segment C) path flag mode um d name len s s2 : on_task (cur umask) s = Ok um s -> missing fs path d name len s s2 ->
  open_namei patience fs path flag mode s = open_create patience fs d name len (Z.lor (Z.ldiff (Z.land mode 0x1ff) um) I_REGULAR) s2.
Proof using.
  intros Hu (d0 & s1 & Hd & Hl & He). unfold open_namei. rewrite (run_bind _ _ _ _ _ Hu), (run_bind _ _ _ _ _ Hd). destruct (Z.eqb_spec len 0); [done|]. rewrite (run_bind _ _ _ _ _ He).
  destruct (_ && _); [|by destruct (flag =? 0)]. by destruct (Z.lor flag O_WRONLY =? 0).
Qed.

End Calls.

(** ** A task at the root of the device of [DirOk] *)

#[local] Instance quiet_env_path {C} : FsEnv C := {| fs_sleep := fun _ => mret tt; fs_yield := mret tt |}.
#[local] Instance no_pages {C} : PageAlloc C := {| get_free_page := mret 0; free_page := fun _ => mret tt |}.

Definition demo_kern : kst := set_heap (<[2%positive := set_root (Some 2%positive) (set_pwd (Some 2%positive) (INIT_TASK 1))]> (heap demo_alone)) demo_alone.
Definition demo_root : fss ideal := set_fkern demo_kern (set_inode_table [demo_target; set_i_op (Some minix_inode_operations) (set_i_count 5 demo_dir)] demo_fs).
(** The path [/ab] at address 99. *)
Definition demo_path : umem := fun a => if a =? 99 then 47 else demo_names a.
Definition state_of {S A} (r : res S A) : S := match r with Ok _ s => s | Halt _ s => s end.

Lemma links_end_witness :
  _namei 200 (S link_depth + 3) (user_seg demo_path) 99 None true demo_root = _namei 200 (S link_depth) (user_seg demo_path) 99 None true demo_root /\
  forall r s', _namei 200 (S link_depth) (user_seg demo_path) 99 None true demo_root = Ok r s' -> level 0 s'.
Proof.
  apply (links_end (C := ideal)); [intros l q; apply preserves_ret|intros l; apply preserves_ret|intros l a; apply preserves_ret|reflexivity].
Defined.

Lemma demo_path_holds : holds demo_path 99 (replicate 1 47 ++ path_of [[97; 98]]).
Proof. intros i b. do 4 (destruct i as [|i]; [intros [= <-]; reflexivity|]). done. Qed.

Lemma dir_namei_splits_witness :
  dir_namei_with 200 (_namei 200 6) (user_seg demo_path) 99 None demo_root = (b ← hold_of pwd; b ← from_root 200 1 b; walk_names 200 (_namei 200 6) demo_path b (99 + Z.of_nat 1) [[97; 98]]) demo_root.
Proof.
  apply (dir_namei_splits 200 (_namei 200 6) demo_path 1 [[97; 98]] 99 None demo_root); [done| |lia|cbn; lia|apply demo_path_holds|by right].
  constructor; [|constructor]. split; [repeat constructor; lia|cbn; lia].
Defined.

Definition demo_walked : fss ideal := state_of (dir_namei 200 (user_seg demo_path) 99 demo_root).
Definition demo_missing : fss ideal := state_of (find_entry 200 (user_seg demo_path) 1 100 2 demo_walked).

Lemma open_always_creates_witness :
  open_namei 200 (user_seg demo_path) 99 0 0 demo_root = open_create 200 (user_seg demo_path) 1 100 2 (Z.lor (Z.ldiff (Z.land 0 0x1ff) 18) I_REGULAR) demo_missing.
Proof.
  apply (open_always_creates 200 (user_seg demo_path) 99 0 0 18 1 100 2 demo_root demo_missing); [reflexivity|]. exists 1, demo_walked. split; [vm_compute; reflexivity|]. split; [done|vm_compute; reflexivity].
Defined.

(** The call returns, with [EPERM], for a task that may write the directory. *)
Lemma rename_returns : match sys_rename 200 (user_seg demo_path) 99 99 demo_root with Ok r _ => r = - EPERM | Halt _ _ => False end.
Proof. vm_compute. reflexivity. Qed.
