(* ===== verification/Files.v ===== *)
(** * Open files: [fs/open.c], [fs/fcntl.c], [fs/stat.c], [fs/ioctl.c], and opening in [fs/minix/truncate.c]

    A task has [NR_OPEN] descriptors, pointers into [file_table]; an entry of that
    table counts the descriptors that name it and has the inode and the position.

    The character devices are the interface [CharDevices].  In [cp_stat], [i_num] is
    read as [i_ino]; in [readlink], [i_zone] as [i_data]. *)

From S2P Require Import Prelude TaskStruct Sched Fork Signal Sys Fs Minix Inode Dir Namei Pipe.

Definition O_NOCTTY : Z := 0x100.
Definition O_APPEND : Z := 0x400.
Definition F_DUPFD : Z := 0.
Definition F_GETFD : Z := 1.
Definition F_SETFD : Z := 2.
Definition F_GETFL : Z := 3.
Definition F_SETFL : Z := 4.
Definition F_GETLK : Z := 5.
Definition F_SETLK : Z := 6.
Definition F_SETLKW : Z := 7.

(** Terminals, printers and the check for changed disks, as the file system uses
    them; [tty_session] and [set_tty_owner] are fields of [TTY_TABLE(min)]. *)
Class CharDevices (C : Type) := {
  tty_read : Z -> Z -> Z -> Z -> M (fss C) Z;
  tty_write : Z -> Z -> Z -> M (fss C) Z;
  rw_lp : bool -> Z -> Z -> Z -> Z -> M (fss C) Z;
  tty_ioctl : Z -> Z -> Z -> M (fss C) Z;
  tty_session : Z -> M (fss C) Z;
  set_tty_owner : Z -> Z -> Z -> M (fss C) unit;
  serial_open : Z -> M (fss C) unit;
  check_disk_change : Z -> M (fss C) unit
}.

Section Files.
Context {C : Type} `{BufferCache C, FsEnv C, PageAlloc C, CharDevices C}.
Context (patience : nat).

(** ** Descriptors *)

(** [current->filp[fd]], for [fd < NR_OPEN]: an entry of [file_table]. *)
Definition filp_at (fd : Z) : M (fss C) (option Z) :=
  l ← on_task (cur filp); o ← ofOpt (aget l fd); mret (ptr_entry <$> o).
Definition set_filp_at (fd : Z) (f : option Z) : M (fss C) unit :=
  on_task (upd_cur (fun t => set_filp (<[Z.to_nat fd := entry_ptr <$> f]> (filp t)) t)).
(** [current->close_on_exec &= ~(1 << fd)] *)
Definition keep_on_exec (fd : Z) : M (fss C) unit :=
  on_task (upd_cur (fun t => set_close_on_exec (Z.clearbit (close_on_exec t) fd) t)).

(** The file of descriptor [fd], if it is one. *)
Definition file_of (fd : Z) : M (fss C) (option Z) := if NR_OPEN <=? fd then mret None else filp_at fd.

(** The first free descriptor from [i] on, [NR_OPEN] if there is none. *)
Fixpoint free_fd (k : nat) (i : Z) : M (fss C) Z :=
  match k with
  | O => mret i
  | S k' => o ← filp_at i; match o with None => mret i | Some _ => free_fd k' (i + 1) end
  end.

(** The first unused entry of [file_table], [NR_FILE] if there is none. *)
Fixpoint free_file (k : nat) (i : Z) : M (fss C) Z :=
  match k with
  | O => mret i
  | S k' => f ← file_at i; if f_count f =? 0 then mret i else free_file k' (i + 1)
  end.

(** [int sys_close(unsigned int fd)] *)
Definition sys_close (fd : Z) : M (fss C) Z :=
  if NR_OPEN <=? fd then mret (- EINVAL)
  else
    keep_on_exec fd;;
    o ← filp_at fd;
    match o with
    | None => mret (- EINVAL)
    | Some f =>
        set_filp_at fd None;;
        v ← file_at f;
        if f_count v =? 0 then halts (Panic "Close: file count is 0")
        else
          file_upd f (fun v => set_f_count (f_count v - 1) v);;
          v ← file_at f;
          if truth (f_count v) then mret 0 else iput patience (f_inode v);; mret 0
    end.

(** [static int dupfd(unsigned int fd, unsigned int arg)] *)
Definition dupfd (fd arg : Z) : M (fss C) Z :=
  o ← file_of fd;
  match o with
  | None => mret (- EBADF)
  | Some _ =>
      if NR_OPEN <=? arg then mret (- EINVAL)
      else
        arg ← free_fd (Z.to_nat (NR_OPEN - arg)) arg;
        if NR_OPEN <=? arg then mret (- EMFILE)
        else
          keep_on_exec arg;;
          o ← filp_at fd;
          set_filp_at arg o;;
          f ← ofOpt o;
          file_upd f (fun v => set_f_count (u16 (f_count v + 1)) v);;
          mret arg
  end.

(** [int sys_dup2(unsigned int oldfd, unsigned int newfd)] *)
Definition sys_dup2 (oldfd newfd : Z) : M (fss C) Z :=
  if newfd =? oldfd then mret newfd else sys_close newfd;; dupfd oldfd newfd.

(** [int sys_dup(unsigned int fildes)] *)
Definition sys_dup (fildes : Z) : M (fss C) Z := dupfd fildes 0.

(** [int sys_fcntl(unsigned int fd, unsigned int cmd, unsigned long arg)] *)
Definition sys_fcntl (fd cmd arg : Z) : M (fss C) Z :=
  o ← file_of fd;
  match o with
  | None => mret (- EBADF)
  | Some f =>
      if cmd =? F_DUPFD then dupfd fd arg
      else if cmd =? F_GETFD then c ← on_task (cur close_on_exec); mret (Z.land (Z.shiftr c fd) 1)
      else if cmd =? F_SETFD then
        (if truth (Z.land arg 1) then on_task (upd_cur (fun t => set_close_on_exec (Z.setbit (close_on_exec t) fd) t)) else keep_on_exec fd);; mret 0
      else if cmd =? F_GETFL then v ← file_at f; mret (f_flags v)
      else if cmd =? F_SETFL then
        let m := Z.lor O_APPEND O_NONBLOCK in
        file_upd f (fun v => set_f_flags (Z.lor (Z.ldiff (f_flags v) m) (Z.land arg m)) v);; mret 0
      else if (cmd =? F_GETLK) || (cmd =? F_SETLK) || (cmd =? F_SETLKW) then mret (- ENOSYS)
      else mret (- EINVAL)
  end.

(** ** Opening *)

(** [static int check_char_dev(struct inode *inode, struct file *filp)]; it has no
    [return] at its end: [leftover] is what its caller then finds. *)
Definition check_char_dev (leftover : Z) (n f : Z) : M (fss C) Z :=
  v ← inode_at n;
  let dev := i_rdev v in
  if (MAJOR dev =? 4) || (MAJOR dev =? 5) then
    min ← (if MAJOR dev =? 5 then on_task (cur tty) else mret (MINOR dev));
    if min <? 0 then mret (-1)
    else if (Z.land min 0xC0 =? 0x80) && (1 <? i_count v) then mret (-1)
    else
      fv ← file_at f; t ← on_task (cur id); s ← tty_session min;
      (if negb (truth (Z.land (f_flags fv) O_NOCTTY)) && truth (leader t) && (tty t <? 0) && (s =? 0) then
         on_task (upd_cur (set_tty min));; set_tty_owner min (session t) (pgrp t)
       else mret tt);;
      (if Z.land min 0xC0 =? 0x40 then serial_open (min - 64) else mret tt);;
      mret leftover
  else mret leftover.

(** [int minix_open(struct inode *inode, struct file *filp)] *)
Definition minix_open (leftover : Z) (n f : Z) : M (fss C) Z :=
  v ← inode_at n;
  bad ← (if S_ISCHR (i_mode v) then r ← check_char_dev leftover n f; mret (truth r)
         else (if S_ISBLK (i_mode v) then check_disk_change (i_rdev v) else mret tt);; mret false);
  if (bad : bool) then mret (- EAGAIN) else file_upd f (set_f_op true);; mret 0.

(** [int sys_open(const char * filename, int flag, int mode)] *)
Definition sys_open (leftover : Z) (fs : segment C) (filename flag mode : Z) : M (fss C) Z :=
  fd ← free_fd (Z.to_nat NR_OPEN) 0;
  if NR_OPEN <=? fd then mret (- EINVAL)
  else
    keep_on_exec fd;;
    f ← free_file (Z.to_nat NR_FILE) 0;
    if NR_FILE <=? f then mret (- EINVAL)
    else
      set_filp_at fd (Some f);;
      file_upd f (fun v => set_f_count (u16 (f_count v + 1)) v);;
      '(i, inode) ← open_namei patience fs filename flag mode;
      if i <? 0 then set_filp_at fd None;; file_upd f (set_f_count 0);; mret i
      else
        file_upd f (fun _ => File (nth (Z.to_nat (Z.land flag O_ACCMODE)) [1; 2; 3; 0] 0) (u16 flag) 1 inode false 0);;
        n ← ofOpt inode;
        v ← inode_at n;
        i ← (match i_op v with Some minix_inode_operations => minix_open leftover n f | None => mret 0 end);
        if truth i then iput patience (Some n);; file_upd f (set_f_count 0);; set_filp_at fd None;; mret i
        else mret fd.

(** [int sys_creat(const char * pathname, int mode)] *)
Definition sys_creat (leftover : Z) (fs : segment C) (pathname mode : Z) : M (fss C) Z :=
  sys_open leftover fs pathname (Z.lor O_CREAT (Z.lor O_WRONLY O_TRUNC)) mode.

(** ** Other calls on names *)

(** [int sys_ustat(int dev, struct ustat * ubuf)] *)
Definition sys_ustat (dev ubuf : Z) : M (fss C) Z := mret (- ENOSYS).

(** [int sys_utime(char *filename, struct utimbuf *times)] *)
Definition sys_utime (fs : umem) (filename times : Z) : M (fss C) Z :=
  o ← namei patience (user_seg fs) filename;
  match o with
  | None => mret (- ENOENT)
  | Some n =>
      ok ← (if truth times then
              v ← inode_at n; e ← on_task (cur euid);
              if e =? i_uid v then mret true else p ← permission n MAY_WRITE; mret (truth p)
            else mret true);
      if negb (ok : bool) then iput patience (Some n);; mret (- EPERM)
      else
        t ← now;
        let '(a, b) := if truth times then (s32 (get_fs_long fs times), s32 (get_fs_long fs (times + 4))) else (t, t) in
        inode_upd n (fun v => set_i_dirt 1 (set_i_mtime b (set_i_atime a v)));;
        iput patience (Some n);;
        mret 0
  end.

(** [int sys_access(const char * filename, int mode)]: the owner is read after the
    inode has been given back. *)
Definition sys_access (fs : segment C) (filename mode : Z) : M (fss C) Z :=
  let mode := Z.land mode 7 in
  o ← namei patience fs filename;
  match o with
  | None => mret (- EACCES)
  | Some n =>
      v ← inode_at n;
      let i_mode := Z.land (i_mode v) 0x1ff in
      iput patience (Some n);;
      v ← inode_at n; t ← on_task (cur id);
      let res := if uid t =? i_uid v then Z.shiftr i_mode 6 else if gid t =? i_gid v then Z.shiftr i_mode 3 else i_mode in
      if Z.land (Z.land res 7) mode =? mode then mret 0
      else if (uid t =? 0) && (negb (truth (Z.land mode 1)) || truth (Z.land i_mode 0x49)) then mret 0
      else mret (- EACCES)
  end.

(** [sys_chdir] and [sys_chroot]: the directory goes to [pwd] or [root]. *)
Definition change_dir (fs : segment C) (get : task_struct -> option positive) (put : option positive -> task_struct -> task_struct) (filename : Z) : M (fss C) Z :=
  o ← namei patience fs filename;
  match o with
  | None => mret (- ENOENT)
  | Some n =>
      v ← inode_at n;
      if negb (S_ISDIR (i_mode v)) then iput patience (Some n);; mret (- ENOTDIR)
      else
        p ← on_task (cur get);
        iput patience (ptr_entry <$> p);;
        on_task (upd_cur (put (Some (entry_ptr n))));;
        mret 0
  end.
(** [int sys_chdir(const char * filename)] *)
Definition sys_chdir (fs : segment C) (filename : Z) : M (fss C) Z := change_dir fs pwd set_pwd filename.
(** [int sys_chroot(const char * filename)] *)
Definition sys_chroot (fs : segment C) (filename : Z) : M (fss C) Z := change_dir fs root set_root filename.

(** [int sys_chmod(const char * filename, int mode)] *)
Definition sys_chmod (fs : segment C) (filename mode : Z) : M (fss C) Z :=
  o ← namei patience fs filename;
  match o with
  | None => mret (- ENOENT)
  | Some n =>
      v ← inode_at n; e ← on_task (cur euid); su ← on_task suser;
      if negb (e =? i_uid v) && negb su then iput patience (Some n);; mret (- EACCES)
      else
        inode_upd n (fun v => set_i_dirt 1 (set_i_mode (Z.lor (Z.land mode 0xfff) (Z.ldiff (i_mode v) 0xfff)) v));;
        iput patience (Some n);;
        mret 0
  end.

(** [int sys_chown(const char * filename, int uid, int gid)] *)
Definition sys_chown (fs : segment C) (filename u g : Z) : M (fss C) Z :=
  o ← namei patience fs filename;
  match o with
  | None => mret (- ENOENT)
  | Some n =>
      su ← on_task suser;
      if negb (su : bool) then iput patience (Some n);; mret (- EACCES)
      else
        inode_upd n (fun v => set_i_dirt 1 (set_i_gid (u16 g) (set_i_uid (u16 u) v)));;
        iput patience (Some n);;
        mret 0
  end.

(** ** The state of a file: [fs/stat.c] *)

(** The 32 bytes of a [struct stat]; [pad] are the three bytes between its fields,
    which nobody sets. *)
Definition le16 (z : Z) : list Z := [u8 z; u8 (Z.shiftr z 8)].
Definition le32 (z : Z) : list Z := le16 z ++ le16 (Z.shiftr z 16).
Definition stat_bytes (pad : Z * Z * Z) (v : inode) : list Z :=
  let '(p1, p2, p3) := pad in
  le16 (i_dev v) ++ le16 (i_ino v) ++ le16 (i_mode v) ++ [u8 (i_nlink v); p1] ++ le16 (i_uid v) ++ le16 (i_gid v) ++ le16 (i_rdev v) ++ [p2; p3] ++
  le32 (i_size v) ++ le32 (i_atime v) ++ le32 (i_mtime v) ++ le32 (i_ctime v).

(** Bytes written one after another. *)
Fixpoint put_bytes (l : list Z) (a : Z) : M (fss C) unit :=
  match l with [] => mret tt | c :: l' => on_task (put_fs_byte c a);; put_bytes l' (a + 1) end.

(** [static void cp_stat(struct inode * inode, struct stat * statbuf)] *)
Definition cp_stat (pad : Z * Z * Z) (n statbuf : Z) : M (fss C) unit :=
  on_task (verify_area statbuf 32);;
  v ← inode_at n;
  put_bytes (stat_bytes pad v) statbuf.

(** [int sys_stat(char * filename, struct stat *statbuf)] and [sys_lstat] *)
Definition stat_path (pad : Z * Z * Z) (find : M (fss C) (option Z)) (statbuf : Z) : M (fss C) Z :=
  o ← find;
  match o with None => mret (- ENOENT) | Some n => cp_stat pad n statbuf;; iput patience (Some n);; mret 0 end.
Definition sys_stat (pad : Z * Z * Z) (fs : segment C) (filename statbuf : Z) : M (fss C) Z := stat_path pad (namei patience fs filename) statbuf.
Definition sys_lstat (pad : Z * Z * Z) (fs : segment C) (filename statbuf : Z) : M (fss C) Z := stat_path pad (lnamei patience fs filename) statbuf.

(** [int sys_fstat(unsigned int fd, struct stat * statbuf)] *)
Definition sys_fstat (pad : Z * Z * Z) (fd statbuf : Z) : M (fss C) Z :=
  o ← file_of fd;
  match o with
  | None => mret (- EBADF)
  | Some f => v ← file_at f; match f_inode v with None => mret (- EBADF) | Some n => cp_stat pad n statbuf;; mret 0 end
  end.

(** The loop of [readlink]. *)
Definition readlink_step (x bufsiz buf i : Z) : M (fss C) (Z + Z) :=
  if i <? bufsiz then
    c ← on_cache (bh_byte x i);
    if truth c then on_task (put_fs_byte c (buf + i));; mret (inl (i + 1)) else mret (inr i)
  else mret (inr i).

(** [int sys_readlink(const char * path, char * buf, int bufsiz)] *)
Definition sys_readlink (fs : segment C) (path buf bufsiz : Z) : M (fss C) Z :=
  if bufsiz <=? 0 then mret (- EBADF)
  else
    let bufsiz := if 1023 <? bufsiz then 1023 else bufsiz in
    on_task (verify_area buf bufsiz);;
    o ← lnamei patience fs path;
    match o with
    | None => mret (- ENOENT)
    | Some n =>
        v ← inode_at n;
        z ← ofOpt (aget (i_data v) 0);
        bh ← (if truth z then on_cache (bread (i_dev v) z) else mret None);
        iput patience (Some n);;
        match bh with
        | None => mret 0
        | Some x => i ← iter 1024 (readlink_step x bufsiz buf) 0; on_cache (brelse bh);; mret i
        end
    end.

(** ** [fs/ioctl.c] *)

(** [ioctl_table]: the entries of the terminals are not null. *)
Definition ioctl_table : list bool := [false; false; false; false; true; true; false; false].

(** [int sys_ioctl(unsigned int fd, unsigned int cmd, unsigned long arg)] *)
Definition sys_ioctl (fd cmd arg : Z) : M (fss C) Z :=
  o ← file_of fd;
  match o with
  | None => mret (- EBADF)
  | Some f =>
      fv ← file_at f; n ← ofOpt (f_inode fv); v ← inode_at n;
      if truth (i_pipe v) then if truth (Z.land (f_mode fv) 1) then pipe_ioctl n cmd arg else mret (- EBADF)
      else if negb (S_ISCHR (i_mode v)) && negb (S_ISBLK (i_mode v)) then mret (- EINVAL)
      else
        match aget ioctl_table (MAJOR (i_rdev v)) with
        | None => mret (- ENODEV)
        | Some false => mret (- ENOTTY)
        | Some true => tty_ioctl (i_rdev v) cmd arg
        end
  end.

End Files.
