(* ===== verification/ReadWrite.v ===== *)
(** * Reading and writing: [fs/read_write.c], [fs/file_dev.c], [fs/block_dev.c], [fs/char_dev.c]

    The system calls choose by the kind of the inode; regular files go block by
    block through [bmap] and the buffer cache, block devices by their block numbers.

    [read] and [write] of regular files call [minix_file_read] and
    [minix_file_write], which the sources declare but do not contain: they are
    arguments.  [file_read] and [file_write] are what they were before the file
    systems were separated; [create_block] there is [minix_create_block]. *)

From S2P Require Import Prelude TaskStruct Sched Fork Signal Sys Fs Minix Inode Dir Namei Pipe Files.

Definition BLOCK_SIZE_BITS : Z := 10.

(** [breada] of the buffer cache: a block, and others to be read soon. *)
Class ReadAhead (C : Type) := { breada : Z -> Z -> list Z -> M C bptr }.

Section ReadWrite.
Context {C : Type} `{BufferCache C, FsEnv C, PageAlloc C, CharDevices C, ReadAhead C}.
Context (patience : nat).

(** ** Regular files: [fs/file_dev.c] *)

(** [k] bytes of buffer [x] from [o] on to [buf]. *)
Fixpoint bytes_out (x : Z) (k : nat) (o buf : Z) : M (fss C) unit :=
  match k with
  | O => mret tt
  | S k' => c ← on_cache (bh_byte x o); on_task (put_fs_byte c buf);; bytes_out x k' (o + 1) (buf + 1)
  end.
(** [k] bytes from [buf] to buffer [x]. *)
Fixpoint bytes_in (fs : umem) (x : Z) (k : nat) (o buf : Z) : M (fss C) unit :=
  match k with
  | O => mret tt
  | S k' => on_cache (set_bh_byte x o (get_fs_byte fs buf));; bytes_in fs x k' (o + 1) (buf + 1)
  end.

(** A round of [file_read]: what is left to read, and where it goes.  For a hole one
    byte is written, however many are counted. *)
Definition file_read_step (n f : Z) (st : Z * Z) : M (fss C) ((Z * Z) + Z) :=
  let '(rest, buf) := st in
  if rest =? 0 then mret (inr rest)
  else
    fv ← file_at f;
    nr ← bmap patience n (Z.quot (f_pos fv) BLOCK_SIZE);
    v ← inode_at n;
    o ← (if truth nr then bh ← on_cache (bread (i_dev v) nr); mret (match bh with None => None | Some x => Some (Some x) end) else mret (Some None));
    match o with
    | None => mret (inr rest)
    | Some bh =>
        fv ← file_at f;
        let nr := Z.rem (f_pos fv) BLOCK_SIZE in
        let chars := Z.min (BLOCK_SIZE - nr) rest in
        file_upd f (fun fv => set_f_pos (s32 (f_pos fv + chars)) fv);;
        match bh with
        | Some x =>
            bytes_out x (Z.to_nat chars) nr buf;;
            on_cache (brelse bh);;
            mret (inl (rest - chars, buf + chars))
        | None => on_task (put_fs_byte 0 buf);; mret (inl (rest - chars, buf + 1))
        end
    end.

(** [int file_read(struct m_inode *inode, struct file *filp, char *buf, int count)];
    each round takes a byte at least. *)
Definition file_read (n f buf count : Z) : M (fss C) Z :=
  if count <=? 0 then mret 0
  else
    rest ← iter (S (Z.to_nat count)) (file_read_step n f) (count, buf);
    t ← now;
    inode_upd n (set_i_atime t);;
    mret (if truth (count - rest) then count - rest else - ERROR).

(** A round of [file_write]: the bytes written, the position, and the next byte. *)
Definition file_write_step (fs : umem) (n count : Z) (st : Z * Z * Z) : M (fss C) ((Z * Z * Z) + (Z * Z)) :=
  let '(i, pos, buf) := st in
  if count <=? i then mret (inr (i, pos))
  else
    block ← minix_create_block patience n (Z.quot pos BLOCK_SIZE);
    if block =? 0 then mret (inr (i, pos))
    else
      v ← inode_at n;
      bh ← on_cache (bread (i_dev v) block);
      match bh with
      | None => mret (inr (i, pos))
      | Some x =>
          let c := Z.rem pos BLOCK_SIZE in
          on_cache (set_bh_dirt x 1);;
          let k := if count - i <? BLOCK_SIZE - c then count - i else BLOCK_SIZE - c in
          let pos := pos + k in
          v ← inode_at n;
          (if i_size v <? pos then inode_upd n (fun v => set_i_dirt 1 (set_i_size pos v)) else mret tt);;
          bytes_in fs x (Z.to_nat k) c buf;;
          on_cache (brelse bh);;
          mret (inl (i + k, pos, buf + k))
      end.

(** [int file_write(struct m_inode * inode, struct file * filp, char * buf, int count)] *)
Definition file_write (fs : umem) (n f buf count : Z) : M (fss C) Z :=
  fv ← file_at f; v ← inode_at n;
  let append := truth (Z.land (f_flags fv) O_APPEND) in
  let pos := if append then i_size v else f_pos fv in
  '(i, pos) ← iter (S (Z.to_nat count)) (file_write_step fs n count) (0, pos, buf);
  t ← now;
  inode_upd n (set_i_mtime t);;
  (if append then mret tt else file_upd f (set_f_pos pos);; inode_upd n (set_i_ctime t));;
  mret (if truth i then i else -1).

(** ** Block devices: [fs/block_dev.c] *)

(** [blk_size[MAJOR(dev)][MINOR(dev)]], when there is a table. *)
Definition dev_blocks (blk_size : list (option (list Z))) (dev : Z) : M (fss C) Z :=
  t ← ofOpt (aget blk_size (MAJOR dev));
  match t with Some l => ofOpt (aget l (MINOR dev)) | None => mret 0x7fffffff end.

(** A round of [block_write]: block, offset, bytes left, bytes written, next byte. *)
Definition block_write_step (fs : umem) (dev size f : Z) (st : Z * Z * Z * Z * Z) : M (fss C) ((Z * Z * Z * Z * Z) + Z) :=
  let '(block, offset, count, written, buf) := st in
  if count <=? 0 then mret (inr written)
  else if size <=? block then mret (inr written)
  else
    let chars := Z.min (BLOCK_SIZE - offset) count in
    bh ← (if chars =? BLOCK_SIZE then x ← on_cache (getblk dev block); mret (Some x) else on_cache (breada dev block [block + 1; block + 2]));
    match bh with
    | None => mret (inr (if truth written then written else - EIO))
    | Some x =>
        file_upd f (fun v => set_f_pos (s32 (f_pos v + chars)) v);;
        bytes_in fs x (Z.to_nat chars) offset buf;;
        on_cache (set_bh_dirt x 1);;
        on_cache (brelse bh);;
        mret (inl (block + 1, 0, count - chars, written + chars, buf + chars))
    end.

(** [int block_write(struct inode *inode, struct file *filp, char *buf, int count)] *)
Definition block_write (fs : umem) (blk_size : list (option (list Z))) (n f buf count : Z) : M (fss C) Z :=
  fv ← file_at f; v ← inode_at n;
  size ← dev_blocks blk_size (i_rdev v);
  iter (S (Z.to_nat count)) (block_write_step fs (i_rdev v) size f) (Z.shiftr (f_pos fv) BLOCK_SIZE_BITS, Z.land (f_pos fv) (BLOCK_SIZE - 1), count, 0, buf).

(** A round of [block_read]; [block] and [size] are unsigned. *)
Definition block_read_step (dev size f : Z) (st : Z * Z * Z * Z * Z) : M (fss C) ((Z * Z * Z * Z * Z) + Z) :=
  let '(block, offset, count, read, buf) := st in
  if count <=? 0 then mret (inr read)
  else if u32 size <=? u32 block then mret (inr read)
  else
    let chars := Z.min (BLOCK_SIZE - offset) count in
    bh ← on_cache (breada dev (s32 block) [s32 (block + 1); s32 (block + 2)]);
    match bh with
    | None => mret (inr (if truth read then read else - EIO))
    | Some x =>
        file_upd f (fun v => set_f_pos (s32 (f_pos v + chars)) v);;
        bytes_out x (Z.to_nat chars) offset buf;;
        on_cache (brelse bh);;
        mret (inl (block + 1, 0, count - chars, read + chars, buf + chars))
    end.

(** [int block_read(struct inode *inode, struct file *filp, char *buf, int count)] *)
Definition block_read (blk_size : list (option (list Z))) (n f buf count : Z) : M (fss C) Z :=
  fv ← file_at f; v ← inode_at n;
  size ← dev_blocks blk_size (i_rdev v);
  iter (S (Z.to_nat count)) (block_read_step (i_rdev v) size f) (Z.shiftr (f_pos fv) BLOCK_SIZE_BITS, Z.land (f_pos fv) (BLOCK_SIZE - 1), count, 0, buf).

(** ** Character devices: [fs/char_dev.c] *)

(** The entries of [crw_table]. *)
Inductive crw := rw_memory_ptr | rw_ttyx_ptr | rw_tty_ptr | rw_lp_ptr.
Definition crw_table : list (option crw) := [None; Some rw_memory_ptr; None; None; Some rw_ttyx_ptr; Some rw_tty_ptr; Some rw_lp_ptr; None].

(** [static int rw_ttyx(int rw, unsigned minor, char * buf, int count, off_t * pos)];
    [write] is [rw == WRITE]. *)
Definition rw_ttyx (write : bool) (minor buf count flags : Z) : M (fss C) Z :=
  if write then tty_write minor buf count else tty_read minor buf count flags.
(** [static int rw_tty(...)] *)
Definition rw_tty (write : bool) (buf count flags : Z) : M (fss C) Z :=
  t ← on_task (cur tty);
  if t <? 0 then mret (- EPERM) else rw_ttyx write (u32 t) buf count flags.
(** [static int rw_memory(...)] *)
Definition rw_memory : M (fss C) Z := mret 0.

Definition call_crw (p : crw) (write : bool) (minor buf count flags : Z) : M (fss C) Z :=
  match p with
  | rw_memory_ptr => rw_memory
  | rw_ttyx_ptr => rw_ttyx write minor buf count flags
  | rw_tty_ptr => rw_tty write buf count flags
  | rw_lp_ptr => rw_lp write minor buf count flags
  end.

(** [char_read] and [char_write] *)
Definition char_rw (write : bool) (n f buf count : Z) : M (fss C) Z :=
  v ← inode_at n; fv ← file_at f;
  match aget crw_table (MAJOR (i_rdev v)) with
  | None | Some None => mret (- ENODEV)
  | Some (Some p) => call_crw p write (MINOR (i_rdev v)) buf count (f_flags fv)
  end.
Definition char_read (n f buf count : Z) : M (fss C) Z := char_rw false n f buf count.
Definition char_write (n f buf count : Z) : M (fss C) Z := char_rw true n f buf count.

(** ** [fs/read_write.c] *)

(** The file and the inode of a descriptor. *)
Definition opened_inode (fd : Z) : M (fss C) (option (Z * Z)) :=
  o ← file_of fd;
  match o with
  | None => mret None
  | Some f => v ← file_at f; mret (match f_inode v with Some n => Some (f, n) | None => None end)
  end.

(** [int sys_lseek(unsigned int fd, off_t offset, unsigned int origin)]; no file
    operations have an [lseek]. *)
Definition sys_lseek (fd offset origin : Z) : M (fss C) Z :=
  o ← opened_inode fd;
  match o with
  | None => mret (- EBADF)
  | Some (f, n) =>
      if 2 <? origin then mret (- EINVAL)
      else
        v ← inode_at n;
        if truth (i_pipe v) then mret (- ESPIPE)
        else
          fv ← file_at f;
          let mem_dev := S_ISCHR (i_mode v) in
          let pos := s32 (if origin =? 0 then offset else if origin =? 1 then f_pos fv + offset else i_size v + offset) in
          if (pos <? 0) && negb mem_dev then mret (- EINVAL)
          else
            file_upd f (set_f_pos pos);;
            mret (if mem_dev && (pos <? 0) then 0 else pos)
  end.

Context (minix_file_read : Z -> Z -> Z -> Z -> M (fss C) Z) (minix_file_write : umem -> Z -> Z -> Z -> Z -> M (fss C) Z).
Context (blk_size : list (option (list Z))).

(** [int sys_read(unsigned int fd, char *buf, unsigned int count)]; no file
    operations have a [read]. *)
Definition sys_read (fd buf count : Z) : M (fss C) Z :=
  o ← opened_inode fd;
  match o with
  | None => mret (- EBADF)
  | Some (f, n) =>
      fv ← file_at f;
      if negb (truth (Z.land (f_mode fv) 1)) then mret (- EBADF)
      else if count =? 0 then mret 0
      else
        on_task (verify_area buf (s32 count));;
        v ← inode_at n;
        if truth (i_pipe v) then pipe_read patience n f buf (s32 count)
        else if S_ISCHR (i_mode v) then char_read n f buf (s32 count)
        else if S_ISBLK (i_mode v) then block_read blk_size n f buf (s32 count)
        else if S_ISDIR (i_mode v) || S_ISREG (i_mode v) then minix_file_read n f buf (s32 count)
        else on_task (printk "(Read)inode->i_mode=%06o\n\r");; mret (- EINVAL)
  end.

(** [int sys_write(unsigned int fd, char * buf, unsigned int count)] *)
Definition sys_write (fs : umem) (fd buf count : Z) : M (fss C) Z :=
  o ← opened_inode fd;
  match o with
  | None => mret (- EBADF)
  | Some (f, n) =>
      fv ← file_at f;
      if negb (truth (Z.land (f_mode fv) 2)) then mret (- EBADF)
      else if count =? 0 then mret 0
      else
        v ← inode_at n;
        if truth (i_pipe v) then pipe_write patience fs n buf (s32 count)
        else if S_ISCHR (i_mode v) then char_write n f buf (s32 count)
        else if S_ISBLK (i_mode v) then block_write fs blk_size n f buf (s32 count)
        else if S_ISREG (i_mode v) then minix_file_write fs n f buf (s32 count)
        else on_task (printk "(Write)inode->i_mode=%06o\n\r");; mret (- EINVAL)
  end.

End ReadWrite.
