(* ===== verification/FileOk.v ===== *)
(** * Theorems about reading and writing files

    A regular file is an array of bytes with holes.  Writing puts the bytes where
    they belong, fills holes with zeros and changes nothing else; reading gives the
    bytes back; and a whole block written to a block device can be lost. *)

From S2P Require Import Prelude TaskStruct Sched Fork Signal Sys Fs Store Minix MinixOk Bmap Truncate Inode Pipe InodeOk Dir DirOk AddOk Namei NameiOk Files ReadWrite.

Section FileOk.
Context {C : Type} {HB : BufferCache C} {HV : CacheView C} {HL : BufferCacheOk C} {HE : FsEnv C}.
Context (dev sbn : Z) (sb : super_block).

(** Byte [o] of a file, if it is not in a hole. *)
Definition file_get (c : C) (v : inode) (o : Z) : option Z :=
  match file_map dev c v (o / 1024) with Some d => aget d (o mod 1024) | None => None end.

(** A block of the file is changed in its buffer and given back. *)
Lemma block_rewritten n v s b c w x c2 w2 v2 : ready dev sbn sb n v s -> file_block b -> let y := zone_at dev (fcache s) v (pos_of b) in
  y <> 0 -> zmap_ok dev sb c -> opened dev (fcache s) c y w -> (forall a, content c a = content (fcache s) a) -> buffer c x (dev, y) w ->
  cwf c2 -> becomes c c2 (dev, y) w2 -> bv_id w2 = bv_id w -> bv_count w2 = bv_count w -> bv_up w2 = true -> bv_dirt w2 = true -> i_data v2 = i_data v -> i_dev v2 = i_dev v ->
  exists c3, brelse (Some x) c2 = Ok tt c3 /\ ready dev sbn sb n v2 (set_fcache c3 (set_inode_table (<[Z.to_nat n := v2]> (inode_table s)) s)) /\
    forall a, file_block a -> file_map dev c3 v2 a = if decide (a = b) then Some (bv_data w2) else file_map dev (fcache s) v a.
Proof using HL.
  intros ([F1 F2 F3 F4 F5 F6] & Hrm & Hrf) Hb y Hy Hok Hop Hct Hbuf Hc2 Hb2 Hid Hcnt Hup Hdirt Hdat Hdev. pose proof (pos_of_ok b Hb) as Hpb.
  assert (Hty : taken dev sb (fcache s) y) by (destruct (fo_zone _ _ _ _ F6 (pos_of b) Hpb); done).
  destruct (zmap_ok_write dev sb c c2 y w w2 F2 Hok Hc2 (proj1 Hty) (proj1 Hbuf) Hb2 Hup Hdirt) as (Hok2 & Hct2 & Hzb2).
  assert (Hk2 : keeps c c2) by (eapply becomes_keeps; [exact (proj1 Hbuf)|exact Hb2|done|done|by rewrite Hup, (op_up _ _ _ _ _ Hop)]).
  pose proof (becomes_buffer _ _ _ _ Hb2) as Hbuf2. rewrite Hid, (proj2 Hbuf) in Hbuf2.
  destruct (brelse_close dev sb (fcache s) c c2 x y w w2 F2 (zm_wf _ _ _ F3) (proj1 Hty) Hop Hk2 Hok2 Hbuf2) as (c3 & R3 & Hok3 & Hk3 & Hct3). exists c3. split; [done|].
  assert (Hct' : forall a, content c3 a = if decide (a = (dev, y)) then bv_data w2 else content (fcache s) a) by (intros a; rewrite Hct3, Hct2; destruct (decide (a = (dev, y))); [done|apply Hct]).
  assert (Hsame : forall q, pos_ok q -> zone_at dev c3 v2 q = zone_at dev (fcache s) v q).
  { intros q Hq. rewrite (zone_at_data dev _ v) by done. apply (leaf_write dev sb (fcache s) c3 v (pos_of b) F6 Hpb (pos_of_leaf b)); [done| |done]. intros a Ha. rewrite Hct'. by rewrite decide_False. }
  split.
  - split; [split; [by destruct F1|done|done|cbn [inode_table set_fcache set_inode_table]; apply aget_insert_eq; by eapply aget_Some_range|congruence|]|].
    + eapply file_ok_same; [exact F6|rewrite Hdat; apply (fo_len _ _ _ _ F6)|done|]. intros z [Hz1 Hz2]. split; [done|]. cbn [fcache set_fcache].
      rewrite (content_zbit dev sb c2) by done. rewrite Hzb2 by done. by rewrite (content_zbit dev sb (fcache s)).
    + split; [by eapply keeps_room|]. intros a. cbn [fcache set_fcache]. by rewrite (keeps_refs _ _ _ Hk3).
  - intros a Ha. unfold file_map. rewrite Hsame by (by apply pos_of_ok). destruct (decide (a = b)) as [->|Hab].
    + fold y. destruct (Z.eqb_spec y 0); [done|]. rewrite Hct'. by rewrite decide_True.
    + destruct (Z.eqb_spec (zone_at dev (fcache s) v (pos_of a)) 0) as [|Hz]; [done|]. rewrite Hct'. rewrite decide_False; [done|]. intros [= E]. apply Hab, pos_of_inj; [apply Ha|apply Hb|].
      apply (fo_inj _ _ _ _ F6); [by apply pos_of_ok|done|done|done].
Qed.

(** Copying to a buffer. *)
Lemma bytes_in_run fs (c : C) x b w (s : fss C) : forall k o buf d c1, 0 <= o -> o + Z.of_nat k <= 1024 -> edited c x b w d c1 ->
  exists c2, bytes_in fs x k o buf (set_fcache c1 s) = Ok tt (set_fcache c2 s) /\ edited c x b w (with_bytes d o (user_bytes fs buf k)) c2.
Proof using HL.
  induction k as [|k IH]; intros o buf d c1 Ho Hk He; [by exists c1|]. cbn [bytes_in]. destruct (edit_byte _ _ _ _ _ _ o (get_fs_byte fs buf) He) as (c2 & R2 & He2); [unfold BLOCK_SIZE; lia|apply u8_range|].
  destruct (IH (o + 1) (buf + 1) _ c2 ltac:(lia) ltac:(lia) He2) as (c3 & R3 & He3). exists c3. rewrite (run_bind _ _ _ tt (set_fcache c2 s)) by (by apply on_cache_at). split; [done|].
  replace (S k) with (1 + k)%nat by lia. rewrite user_bytes_app. change (user_bytes fs buf 1) with [get_fs_byte fs (buf + (0 + Z.of_nat 0))]. rewrite Z.add_0_r. done.
Qed.

(** Bytes [p] to [p + i] of the file are those of memory at [buf], and the others are
    as they were; holes may have become zeros. *)
Record written (fs : umem) (buf p i : Z) (c : C) (v : inode) (c' : C) (v' : inode) : Prop := {
  wr_new : forall o, p <= o < p + i -> file_get c' v' o = Some (get_fs_byte fs (buf + (o - p)));
  wr_old : forall o, 0 <= o < 1024 * (7 + 512 + 512 * 512) -> ~ p <= o < p + i -> default 0 (file_get c' v' o) = default 0 (file_get c v o);
  wr_size : i_size v' = (if 0 <? i then Z.max (i_size v) (p + i) else i_size v);
  wr_op : i_op v' = i_op v
}.

Lemma written_refl fs buf p c v : written fs buf p 0 c v c v.
Proof using. split; [lia|done|done|done]. Qed.

Lemma written_trans fs buf p i k c1 v1 c2 v2 c3 v3 : 0 <= p -> 0 <= i -> 0 <= k -> p + i + k <= 1024 * (7 + 512 + 512 * 512) -> written fs buf p i c1 v1 c2 v2 -> written fs (buf + i) (p + i) k c2 v2 c3 v3 ->
  (forall o, p <= o < p + i -> file_get c3 v3 o = file_get c2 v2 o) -> written fs buf p (i + k) c1 v1 c3 v3.
Proof using.
  intros Hp Hi Hk Hmax [A1 A2 A3 A4] [B1 B2 B3 B4] Hkeep. split; [..|congruence].
  - intros o Ho. destruct (Z.lt_ge_cases o (p + i)); [rewrite Hkeep by lia; apply A1; lia|]. rewrite B1 by lia. do 2 f_equal. lia.
  - intros o Ho Hno. rewrite B2 by lia. apply A2; lia.
  - rewrite B3, A3. destruct (Z.ltb_spec 0 k), (Z.ltb_spec 0 i), (Z.ltb_spec 0 (i + k)); lia.
Qed.

(** The data of the block written. *)
Lemma block_bytes d c k fs buf o : block_data d -> 0 <= c -> c + Z.of_nat k <= 1024 -> 0 <= o < 1024 ->
  aget (with_bytes d c (user_bytes fs buf k)) o = if decide (c <= o < c + Z.of_nat k) then Some (get_fs_byte fs (buf + (o - c))) else aget d o.
Proof using.
  intros [Hl _] Hc Hk Ho. rewrite with_bytes_lookup by (rewrite ?length_user_bytes, ?Hl; unfold BLOCK_SIZE; lia). rewrite length_user_bytes. destruct (decide (c <= o < c + Z.of_nat k)) as [Hin|Hout].
  - rewrite bool_decide_true by done. unfold aget. destruct (Z.ltb_spec (o - c) 0); [lia|]. unfold user_bytes, range. rewrite list_lookup_fmap, list_lookup_fmap, lookup_seq_lt by lia. cbn. do 3 f_equal. lia.
  - by rewrite bool_decide_false.
Qed.

(** Nothing written, with blocks perhaps created. *)
Lemma written_none fs buf p c v c' v' : i_size v' = i_size v -> i_op v' = i_op v -> (forall o, 0 <= o < 1024 * (7 + 512 + 512 * 512) -> file_get c' v' o = file_get c v o) -> written fs buf p 0 c v c' v'.
Proof using. intros Hs Ho Hg. split; [lia| |done|done]. intros o Hr _. by rewrite Hg. Qed.

(** An inode whose zones are not changed. *)
Lemma ready_upd n v v2 s l : ready dev sbn sb n v s -> i_data v2 = i_data v -> i_dev v2 = i_dev v -> ready dev sbn sb n v2 (set_file_table l (set_inode_table (<[Z.to_nat n := v2]> (inode_table s)) s)).
Proof using.
  intros ([F1 F2 F3 F4 F5 F6] & Hr) Hd Hv. split; [|done]. split; [by destruct F1|done|done|cbn; apply aget_insert_eq; by eapply aget_Some_range|congruence|].
  eapply file_ok_same; [exact F6|rewrite Hd; apply (fo_len _ _ _ _ F6)|intros q _; by apply zone_at_data|done].
Qed.

Lemma file_get_data c v v2 o : i_data v2 = i_data v -> file_get c v2 o = file_get c v o.
Proof using. intros Hd. unfold file_get, file_map. by rewrite (zone_at_data dev c v v2) by done. Qed.

Lemma written_upd fs buf p i c v c' v1 v2 : written fs buf p i c v c' v1 -> i_data v2 = i_data v1 -> i_size v2 = i_size v1 -> i_op v2 = i_op v1 -> written fs buf p i c v c' v2.
Proof using.
  intros [A B D F] Hd Hs Ho. split; [intros; rewrite (file_get_data _ v1) by done; by apply A|intros; rewrite (file_get_data _ v1) by done; by apply B|congruence|congruence].
Qed.

Lemma file_upd_run (s : fss C) f g fv : aget (file_table s) f = Some fv -> file_upd f g s = Ok tt (set_file_table (<[Z.to_nat f := g fv]> (file_table s)) s).
Proof using.
  intros H. unfold file_upd. rewrite (run_bind _ _ _ s s) by reflexivity. rewrite H, (run_bind _ _ _ fv s) by reflexivity.
  rewrite aset_in_range by (by eapply aget_Some_range). by rewrite (run_bind _ _ _ (<[Z.to_nat f := g fv]> (file_table s)) s).
Qed.

(** The file system does not depend on the tasks and the open files. *)
Lemma ready_frame n v (s : fss C) k l : ready dev sbn sb n v s -> ready dev sbn sb n v (set_fkern k (set_file_table l s)).
Proof using. intros ([F1 F2 F3 F4 F5 F6] & Hr). split; [|done]. split; [by destruct F1|done..]. Qed.

Lemma zone_at_content c c' v p : (forall a, content c' a = content c a) -> zone_at dev c' v p = zone_at dev c v p.
Proof using. intros H. destruct p; cbn [zone_at]; unfold entry; by rewrite ?H. Qed.

(** Copying from a buffer. *)
Lemma bytes_out_run x b w : forall k o buf (s : fss C), cwf (fcache s) -> buffer (fcache s) x b w -> 0 <= o -> o + Z.of_nat k <= 1024 ->
  bytes_out x k o buf s = Ok tt (set_fkern (add_events (puts buf (take k (drop (Z.to_nat o) (bv_data w)))) (fkern s)) s).
Proof using HL.
  induction k as [|k IH]; intros o buf s Hc Hb Ho Hk; cbn [bytes_out]; [rewrite add_events_nil; by destruct s|]. pose proof (cwf_data _ Hc _ _ (proj1 Hb)) as [Hl _].
  destruct (aget_in_range (bv_data w) o) as [a Ha]; [rewrite Hl; unfold BLOCK_SIZE; lia|]. rewrite (run_bind _ _ _ a s) by (rewrite (on_cache_run _ _ a (fcache s)); [by destruct s|]; by apply (bh_byte_law x b w)).
  set (s1 := set_fkern (add_event (EPutB (u32 buf) (u8 a)) (fkern s)) s). rewrite (run_bind _ _ _ tt s1) by reflexivity. rewrite (IH (o + 1) (buf + 1) s1 Hc Hb) by lia.
  unfold aget in Ha. destruct (o <? 0); [done|]. rewrite (drop_S (bv_data w) a (Z.to_nat o)) by done. replace (S (Z.to_nat o)) with (Z.to_nat (o + 1)) by lia. cbn [take puts]. by rewrite <-add_events_cons.
Qed.

Lemma file_events_app l1 l2 k : add_events l2 (add_events l1 k) = add_events (l1 ++ l2) k.
Proof using. unfold add_events. cbn. by rewrite <-app_assoc. Qed.

(** The bytes of a block and the bytes of the file. *)
Lemma block_of_file c v pos k d l : file_map dev c v (pos / 1024) = Some d -> block_data d -> 0 <= pos -> pos mod 1024 + Z.of_nat k <= 1024 -> (k <= length l)%nat ->
  (forall j : nat, (j < length l)%nat -> file_get c v (pos + Z.of_nat j) = l !! j) -> take k (drop (Z.to_nat (pos mod 1024)) d) = take k l.
Proof using.
  intros Hd [Hl _] Hp Hk Hkl Hg. pose proof (Z.mod_pos_bound pos 1024 ltac:(lia)) as Hm. pose proof (Z.div_mod pos 1024 ltac:(lia)) as Hdm. apply list_eq. intros j.
  destruct (Nat.lt_ge_cases j k) as [Hj|Hj]; [|by rewrite !lookup_take_ge by lia]. rewrite !lookup_take_lt by lia. rewrite lookup_drop. rewrite <-Hg by lia. unfold file_get.
  replace ((pos + Z.of_nat j) / 1024) with (pos / 1024) by (apply Z.div_unique with (pos mod 1024 + Z.of_nat j); lia). rewrite Hd.
  replace ((pos + Z.of_nat j) mod 1024) with (pos mod 1024 + Z.of_nat j) by (apply Z.mod_unique with (pos / 1024); lia). unfold aget. destruct (Z.ltb_spec (pos mod 1024 + Z.of_nat j) 0); [lia|]. f_equal. lia.
Qed.

Context (patience : nat) (Hpt : (0 < patience)%nat) (Hrd : readable (C := C) dev).

(** A round of [file_write]. *)
Lemma write_round_file fs n v s count i pos buf : ready dev sbn sb n v s -> 0 <= pos -> 0 <= i < count -> pos + (count - i) <= 1024 * (7 + 512 + 512 * 512) ->
  exists r v' s', file_write_step patience fs n count (i, pos, buf) s = Ok r s' /\ ready dev sbn sb n v' s' /\ fkern s' = fkern s /\ file_table s' = file_table s /\
  match r with
  | inr (i', pos') => i' = i /\ pos' = pos /\ full dev sb (fcache s') /\ i_size v' = i_size v /\ i_op v' = i_op v /\ forall o, 0 <= o < 1024 * (7 + 512 + 512 * 512) -> file_get (fcache s') v' o = file_get (fcache s) v o
  | inl (i', pos', buf') => exists k, 0 < k <= count - i /\ i' = i + k /\ pos' = pos + k /\ buf' = buf + k /\ written fs buf pos k (fcache s) v (fcache s') v' /\
      forall o, 0 <= o < pos -> is_Some (file_get (fcache s) v o) -> file_get (fcache s') v' o = file_get (fcache s) v o
  end.
Proof using HL Hpt Hrd.
  intros Hrdy Hpos Hi Hmax. unfold file_write_step. destruct (Z.leb_spec count i); [lia|]. unfold BLOCK_SIZE. rewrite Z.quot_div_nonneg, Z.rem_mod_nonneg by lia.
  set (b := pos / 1024). set (c := pos mod 1024). pose proof (Z.mod_pos_bound pos 1024 ltac:(lia)) as Hc. fold c in Hc. pose proof (Z.div_mod pos 1024 ltac:(lia)) as Hdm. fold b c in Hdm.
  assert (Hb : file_block b) by (unfold file_block; lia). destruct (bmap_run dev sbn sb patience true n b v s Hrd Hpt Hrdy Hb) as (z & v1 & s1 & R1 & Hres).
  pose proof (created_map dev sbn sb n b v s z v1 s1 Hrdy Hb Hres) as Hmap. destruct Hres as [B1 B2 B3 B4 B5 B6]. rewrite (run_bind _ _ _ _ _ R1).
  assert (Hrdy1 : ready dev sbn sb n v1 s1) by (destruct Hrdy as (_ & Hrm & Hrf); pose proof (gr_keeps _ _ _ _ _ _ _ B3) as Hk; split; [done|]; split; [by eapply keeps_room|]; intros a; by rewrite (keeps_refs _ _ _ Hk)).
  assert (Hsz1 : i_size v1 = i_size v /\ i_op v1 = i_op v) by (destruct (is_table _ _ _ _ B2) as (v0 & Hv0 & _ & Hv1); rewrite (fi_inode _ _ _ _ _ _ (proj1 Hrdy)) in Hv0; injection Hv0 as <-; by rewrite Hv1). destruct Hsz1 as [Hsz1 Hop1].
  assert (Hblk : forall o, 0 <= o < 1024 * (7 + 512 + 512 * 512) -> file_block (o / 1024)) by (intros o Ho; unfold file_block; split; [apply Z.div_pos; lia|apply Z.div_lt_upper_bound; lia]).
  destruct (Z.eqb_spec z 0) as [Hz0|Hz0].
  { exists (inr (i, pos)), v1, s1. split; [done|]. split; [done|]. split; [apply (is_kern _ _ _ _ B2)|]. split; [apply (is_files _ _ _ _ B2)|]. split; [done|]. split; [done|]. split; [by apply B6|]. split; [done|]. split; [done|].
    intros o Ho. unfold file_get. by rewrite Hmap by (by apply Hblk). }
  destruct Hrdy1 as ([F1 F2 F3 F4 F5 F6] & Hrm1 & Hrf1). assert (Hrdy1 : ready dev sbn sb n v1 s1) by done. assert (Htz : taken dev sb (fcache s1) z) by (destruct (fo_zone _ _ _ _ F6 (pos_of b) (pos_of_ok b Hb)); congruence).
  rewrite (run_bind _ _ _ v1 s1) by (by apply inode_at_run). rewrite F5. destruct (bread_open dev sb (fcache s1) z Hrd F2 F3 (md_dev _ _ _ _ F1) Htz (Hrf1 _) ltac:(unfold room in *; lia)) as (x & c1 & w & R2 & Hok & Hbuf & Hop & Hwd & Hct).
  rewrite (run_bind _ _ _ (Some x) (set_fcache c1 s1)) by (by apply on_cache_run). destruct (set_bh_dirt_law x (dev, z) w 1 c1 (zm_wf _ _ _ Hok) Hbuf) as (c2 & R3 & Hc2 & Hbc2). rewrite (run_bind _ _ _ tt (set_fcache c2 s1)) by (by apply on_cache_at).
  set (k := if count - i <? 1024 - c then count - i else 1024 - c). assert (Hk : 0 < k <= count - i /\ c + k <= 1024) by (unfold k; destruct (Z.ltb_spec (count - i) (1024 - c)); lia).
  rewrite (run_bind _ _ _ v1 (set_fcache c2 s1)) by (by apply inode_at_run). set (v2 := if i_size v1 <? pos + k then set_i_dirt 1 (set_i_size (pos + k) v1) else v1). set (T := set_inode_table (<[Z.to_nat n := v2]> (inode_table s1)) s1).
  rewrite (run_bind _ _ _ tt (set_fcache c2 T)).
  2: { unfold T, v2. destruct (i_size v1 <? pos + k); [by rewrite (inode_upd_run n _ (set_fcache c2 s1) v1) by done|]. rewrite list_insert_id; [by destruct s1|]. unfold aget in F4. by destruct (n <? 0). }
  assert (He : edited c1 x (dev, z) (set_bv_dirt true w) (bv_data w) c2) by (split; [done| |apply Hbuf]; destruct w; exact Hbc2).
  destruct (bytes_in_run fs c1 x (dev, z) _ T (Z.to_nat k) c buf _ c2 ltac:(lia) ltac:(lia) He) as (c3 & R4 & He3). rewrite (run_bind _ _ _ _ _ R4).
  assert (Hzp : zone_at dev (fcache s1) v1 (pos_of b) = z) by done.
  destruct (block_rewritten n v1 s1 b c1 w x c3 (set_bv_data (with_bytes (bv_data w) c (user_bytes fs buf (Z.to_nat k))) (set_bv_dirt true w)) v2 Hrdy1 Hb) as (c4 & R5 & Hrdy4 & Hmap4); rewrite ?Hzp; try done.
  { apply (ed_wf _ _ _ _ _ _ He3). } { apply (ed_view _ _ _ _ _ _ He3). } { apply (op_up _ _ _ _ _ Hop). } { unfold v2. by destruct (i_size v1 <? pos + k). } { unfold v2. by destruct (i_size v1 <? pos + k). }
  rewrite (run_bind _ _ _ tt (set_fcache c4 T)) by (by apply on_cache_at). exists (inl (i + k, pos + k, buf + k)), v2, (set_fcache c4 T).
  split; [done|]. split; [done|]. split; [apply (is_kern _ _ _ _ B2)|]. split; [apply (is_files _ _ _ _ B2)|]. cbn [bv_data set_bv_data] in Hmap4.
  assert (Hdata : block_data (bv_data w)) by (rewrite Hwd; apply content_data, (zm_wf _ _ _ F3)).
  assert (Hold : bv_data w = default zero_block (file_map dev (fcache s) v b)).
  { rewrite Hwd. pose proof (Hmap b Hb) as Hm. rewrite decide_True in Hm by done. unfold file_map in Hm at 1. rewrite Hzp in Hm. destruct (Z.eqb_spec z 0); [done|]. by injection Hm. }
  assert (Hget : forall o, 0 <= o < 1024 * (7 + 512 + 512 * 512) -> file_get c4 v2 o = if decide (o / 1024 = b) then
      (if decide (pos <= o < pos + k) then Some (get_fs_byte fs (buf + (o - pos))) else aget (default zero_block (file_map dev (fcache s) v b)) (o mod 1024)) else file_get (fcache s) v o).
  { intros o Ho. pose proof (Z.mod_pos_bound o 1024 ltac:(lia)) as Hom. pose proof (Z.div_mod o 1024 ltac:(lia)) as Hod. unfold file_get. rewrite Hmap4 by (by apply Hblk). destruct (decide (o / 1024 = b)) as [E|E].
    - rewrite block_bytes by (done || lia). rewrite <-Hold. destruct (decide (c <= o mod 1024 < c + Z.of_nat (Z.to_nat k))), (decide (pos <= o < pos + k)); try done; try lia. do 3 f_equal. lia.
    - rewrite Hmap by (by apply Hblk). by rewrite decide_False. }
  exists k. split; [lia|]. split; [done|]. split; [done|]. split; [done|]. cbn [fcache set_fcache]. split; [split; [| | |unfold v2; by destruct (i_size v1 <? pos + k)]|].
  - intros o Ho. rewrite Hget by lia. rewrite decide_True; [by rewrite decide_True|]. symmetry. apply Z.div_unique with (o - 1024 * b); lia.
  - intros o Ho Hno. rewrite Hget by done. destruct (decide (o / 1024 = b)) as [E|]; [|done]. rewrite decide_False by done. unfold file_get. rewrite E. destruct (file_map dev (fcache s) v b) as [d|]; [done|]. cbn [default].
    pose proof (Z.mod_pos_bound o 1024 ltac:(lia)). unfold zero_block, aget. destruct (o mod 1024 <? 0); [done|]. rewrite lookup_replicate_2; [done|]. unfold BLOCK_SIZE. lia.
  - unfold v2. destruct (Z.ltb_spec 0 k); [|lia]. destruct (Z.ltb_spec (i_size v1) (pos + k)); cbn [i_size set_i_dirt set_i_size]; lia.
  - intros o Ho [a Ha]. rewrite Hget by lia. destruct (decide (o / 1024 = b)) as [E|]; [|done]. rewrite decide_False by lia. unfold file_get in *. rewrite E in *. by destruct (file_map dev (fcache s) v b).
Qed.

Lemma write_loop_file fs n count : 0 <= count -> forall m v s i pos buf, ready dev sbn sb n v s -> 0 <= pos -> 0 <= i <= count -> pos + (count - i) <= 1024 * (7 + 512 + 512 * 512) -> (Z.to_nat (count - i) < m)%nat ->
  exists i' v' s', iter m (file_write_step patience fs n count) (i, pos, buf) s = Ok (i', pos + (i' - i)) s' /\ i <= i' <= count /\ ready dev sbn sb n v' s' /\ fkern s' = fkern s /\ file_table s' = file_table s /\
    (i' = count \/ full dev sb (fcache s')) /\ written fs buf pos (i' - i) (fcache s) v (fcache s') v' /\
    forall o, 0 <= o < pos -> is_Some (file_get (fcache s) v o) -> file_get (fcache s') v' o = file_get (fcache s) v o.
Proof using HL Hpt Hrd.
  intros Hcount. induction m as [|m IH]; intros v s i pos buf Hrdy Hpos Hi Hmax Hm; [lia|]. cbn [iter]. destruct (Z.eq_dec i count) as [->|Hne].
  { exists count, v, s. rewrite (run_bind _ _ _ (inr (count, pos)) s) by (unfold file_write_step; by rewrite Z.leb_refl). rewrite Z.sub_diag, Z.add_0_r. split; [done|]. split; [lia|]. do 3 (split; [done|]). split; [by left|]. split; [apply written_refl|done]. }
  destruct (write_round_file fs n v s count i pos buf Hrdy Hpos ltac:(lia) Hmax) as (r & v1 & s1 & R & Hrdy1 & Hk1 & Hf1 & Hr). rewrite (run_bind _ _ _ _ _ R). destruct r as [[[i1 pos1] buf1]|[i1 pos1]].
  - destruct Hr as (k & Hk & -> & -> & -> & Hw & Hkeep). destruct (IH v1 s1 (i + k) (pos + k) (buf + k) Hrdy1) as (i2 & v2 & s2 & R2 & Hi2 & Hrdy2 & Hk2 & Hf2 & Hend & Hw2 & Hkeep2); [lia..|].
    exists i2, v2, s2. split; [rewrite R2; do 2 f_equal; lia|]. split; [lia|]. split; [done|]. split; [congruence|]. split; [congruence|]. split; [done|]. split.
    + replace (i2 - i) with (k + (i2 - (i + k))) by lia. eapply written_trans; [lia|lia|lia|lia|exact Hw|exact Hw2|]. intros o Ho. apply Hkeep2; [lia|]. rewrite (wr_new _ _ _ _ _ _ _ _ Hw) by done. by eexists.
    + intros o Ho Hsome. pose proof (Hkeep o Ho Hsome) as E. rewrite <-E. apply Hkeep2; [lia|]. by rewrite E.
  - destruct Hr as (-> & -> & Hfull & Hsz & Hop & Hget). exists i, v1, s1. rewrite Z.sub_diag, Z.add_0_r. split; [done|]. split; [lia|]. do 3 (split; [done|]). split; [by right|]. split; [by apply written_none|]. intros o Ho _. apply Hget. lia.
Qed.

(** Writing a file, from its position or from its end. *)
Lemma file_write_run fs n f buf count v fv s : ready dev sbn sb n v s -> aget (file_table s) f = Some fv -> 0 <= count ->
  let pos := if truth (Z.land (f_flags fv) O_APPEND) then i_size v else f_pos fv in 0 <= pos -> pos + count <= 1024 * (7 + 512 + 512 * 512) ->
  exists k v' s', file_write patience fs n f buf count s = Ok (if truth k then k else -1) s' /\ 0 <= k <= count /\ ready dev sbn sb n v' s' /\ fkern s' = fkern s /\
    file_table s' = (if truth (Z.land (f_flags fv) O_APPEND) then file_table s else <[Z.to_nat f := set_f_pos (pos + k) fv]> (file_table s)) /\
    (k = count \/ full dev sb (fcache s')) /\ written fs buf pos k (fcache s) v (fcache s') v'.
Proof using HL Hpt Hrd.
  intros Hrdy Hf Hcount pos Hpos Hmax. unfold file_write. rewrite (run_bind _ _ _ fv s) by (unfold file_at; rewrite (run_bind _ _ _ s s) by done; by rewrite Hf).
  rewrite (run_bind _ _ _ v s) by (by apply inode_at_run; apply Hrdy). set (ap := truth (Z.land (f_flags fv) O_APPEND)) in *. fold pos.
  destruct (write_loop_file fs n count Hcount (S (Z.to_nat count)) v s 0 pos buf Hrdy Hpos ltac:(lia) ltac:(lia) ltac:(lia)) as (k & v1 & s1 & R & Hk & Hrdy1 & Hkn & Hft & Hend & Hw & _).
  rewrite (run_bind _ _ _ _ _ R). rewrite (run_bind _ _ _ _ _ (now_run _)). set (t := CURRENT_TIME (fkern s1)). rewrite Z.sub_0_r in *. rewrite (run_bind _ _ _ _ _ (inode_upd_run n _ s1 v1 ltac:(apply Hrdy1))).
  set (v2 := set_i_mtime t v1). assert (Hn : 0 <= n < Z.of_nat (length (inode_table s1))) by (eapply aget_Some_range; apply Hrdy1). destruct ap.
  - rewrite bind_ret. exists k, v2, (set_inode_table (<[Z.to_nat n := v2]> (inode_table s1)) s1). split; [done|]. split; [lia|]. split; [by apply (ready_upd n v1 v2 s1 (file_table s1))|]. do 3 (split; [done|]). by eapply written_upd.
  - set (s2 := set_inode_table _ s1). assert (Hf2 : aget (file_table s2) f = Some fv) by (by cbn; rewrite Hft). rewrite bind_assoc. rewrite (run_bind _ _ _ _ _ (file_upd_run s2 f _ fv Hf2)).
    set (s3 := set_file_table _ s2). rewrite (run_bind _ _ _ _ _ (inode_upd_run n _ s3 v2 ltac:(cbn; by apply aget_insert_eq))). exists k, (set_i_ctime t v2). eexists. split; [done|]. split; [lia|].
    split; [cbn [inode_table set_file_table s3 s2 set_inode_table]; rewrite list_insert_insert_eq; by apply (ready_upd n v1 (set_i_ctime t v2) s1)|]. split; [done|]. split; [cbn; by rewrite Hft|]. split; [done|]. by eapply written_upd.
Qed.

Lemma file_at_run (s : fss C) f fv : aget (file_table s) f = Some fv -> file_at f s = Ok fv s.
Proof using. intros H. unfold file_at. rewrite (run_bind _ _ _ s s) by done. by rewrite H. Qed.

(** A round of [file_read]: a block of the file, or a hole. *)
Lemma read_round_file n f v fv s rest buf : ready dev sbn sb n v s -> i_op v = Some minix_inode_operations -> aget (file_table s) f = Some fv -> 0 <= f_pos fv -> 0 < rest -> f_pos fv + rest <= 1024 * (7 + 512 + 512 * 512) ->
  let k := Z.min (1024 - f_pos fv mod 1024) rest in let o := file_map dev (fcache s) v (f_pos fv / 1024) in
  exists s', file_read_step patience n f (rest, buf) s = Ok (inl (rest - k, buf + (match o with Some _ => k | None => 1 end))) s' /\ ready dev sbn sb n v s' /\
    (forall a, content (fcache s') a = content (fcache s) a) /\ file_table s' = <[Z.to_nat f := set_f_pos (f_pos fv + k) fv]> (file_table s) /\
    fkern s' = add_events (puts buf (match o with Some d => take (Z.to_nat k) (drop (Z.to_nat (f_pos fv mod 1024)) d) | None => [0] end)) (fkern s).
Proof using HL Hpt Hrd.
  intros Hrdy Hop Hf Hpos Hrest Hmax k o. unfold file_read_step. destruct (Z.eqb_spec rest 0); [lia|]. rewrite (run_bind _ _ _ _ _ (file_at_run s f fv Hf)).
  unfold BLOCK_SIZE. rewrite Z.quot_div_nonneg by lia. set (b := f_pos fv / 1024). assert (Hb : file_block b) by (unfold file_block, b; split; [apply Z.div_pos; lia|apply Z.div_lt_upper_bound; lia]).
  destruct (bmap_run dev sbn sb patience false n b v s Hrd Hpt Hrdy Hb) as (z & v1 & s1 & R1 & [B1 B2 B3 B4 B5 [-> B6]]).
  rewrite (run_bind _ _ _ z s1) by (unfold bmap; rewrite (run_bind _ _ _ v s) by (apply inode_at_run, Hrdy); by rewrite Hop).
  pose proof B1 as [F1 F2 F3 F4 F5 F6]. destruct Hrdy as (H0 & Hrm & Hrf). pose proof (gr_keeps _ _ _ _ _ _ _ B3) as Hk1. assert (Hrm1 : room 2 (fcache s1)) by (by eapply keeps_room).
  assert (Hrdy1 : ready dev sbn sb n v s1) by (split; [done|]; split; [done|]; intros a; by rewrite (keeps_refs _ _ _ Hk1)).
  assert (Hm1 : file_map dev (fcache s1) v b = o).
  { unfold o. fold b. unfold file_map. assert (E : zone_at dev (fcache s1) v (pos_of b) = zone_at dev (fcache s) v (pos_of b)) by (apply zone_at_content; apply B6). rewrite E. destruct (_ =? 0); [done|]. by rewrite B6. }
  rewrite (run_bind _ _ _ v s1) by (by apply inode_at_run). rewrite F5. pose proof (Z.mod_pos_bound (f_pos fv) 1024 ltac:(lia)) as Hmod. assert (Hkk : 0 < k <= rest /\ f_pos fv mod 1024 + k <= 1024) by (unfold k; lia).
  assert (Hft1 : file_table s1 = file_table s) by apply (is_files _ _ _ _ B2). assert (Hkn1 : fkern s1 = fkern s) by apply (is_kern _ _ _ _ B2).
  unfold file_map in Hm1. rewrite B4 in Hm1. unfold truth. destruct (Z.eqb_spec z 0) as [Hz|Hz]; cbn [negb].
  - rewrite bind_ret. rewrite (run_bind _ _ _ fv s1) by (apply file_at_run; by rewrite Hft1). rewrite Z.rem_mod_nonneg by lia. fold k. rewrite (run_bind _ _ _ _ _ (file_upd_run s1 f _ fv ltac:(by rewrite Hft1))).
    eexists. rewrite <-Hm1. split; [reflexivity|]. split; [by apply ready_frame|]. split; [done|]. split; [cbn; rewrite Hft1; do 3 f_equal; apply s32_small; unfold in_s32; lia|]. cbn. by rewrite Hkn1.
  - assert (Htz : taken dev sb (fcache s1) z) by (destruct (fo_zone _ _ _ _ F6 (pos_of b) (pos_of_ok b Hb)); congruence).
    destruct (bread_open dev sb (fcache s1) z Hrd F2 F3 (md_dev _ _ _ _ F1) Htz) as (x & c1 & w & R2 & Hok & Hbuf & Hopn & Hwd & Hct); [by rewrite (keeps_refs _ _ _ Hk1)|unfold room in *; lia|].
    rewrite bind_assoc. rewrite (run_bind _ _ _ (Some x) (set_fcache c1 s1)) by (by apply on_cache_run). rewrite bind_ret.
    rewrite (run_bind _ _ _ fv (set_fcache c1 s1)) by (apply file_at_run; cbn; by rewrite Hft1). rewrite Z.rem_mod_nonneg by lia. fold k.
    rewrite (run_bind _ _ _ _ _ (file_upd_run (set_fcache c1 s1) f _ fv ltac:(cbn; by rewrite Hft1))). set (s2 := set_file_table _ (set_fcache c1 s1)).
    rewrite (run_bind _ _ _ _ _ (bytes_out_run x _ w (Z.to_nat k) (f_pos fv mod 1024) buf s2 (zm_wf _ _ _ Hok) Hbuf ltac:(lia) ltac:(lia))). set (s3 := set_fkern _ s2).
    destruct (brelse_close dev sb (fcache s1) c1 c1 x z w w F2 (zm_wf _ _ _ F3) (proj1 Htz) Hopn (view_keeps_refl c1) Hok Hbuf) as (c3 & R3 & Hok3 & Hk3 & Hct3).
    rewrite (run_bind _ _ _ tt (set_fcache c3 s3)) by (by apply on_cache_run). eexists. rewrite <-Hm1. split; [reflexivity|].
    assert (Hall : forall a, content c3 a = content (fcache s1) a) by (intros a; by rewrite Hct3).
    split; [|split; [intros a; cbn; by rewrite Hall, B6|split; [cbn; rewrite Hft1; do 3 f_equal; apply s32_small; unfold in_s32; lia|cbn; by rewrite Hkn1, Hwd]]].
    split; [|split; [by eapply keeps_room|intros a; cbn; by rewrite (keeps_refs _ _ _ Hk3), (keeps_refs _ _ _ Hk1)]].
    split; [by destruct F1|done|done|done|done|]. eapply file_ok_same; [exact F6|apply (fo_len _ _ _ _ F6)|intros q _; apply zone_at_content; intros a; apply Hall|]. intros u [Hu1 Hu2]. split; [done|]. unfold zbit in *. cbn. by rewrite Hall.
Qed.

Lemma read_loop_file n f : forall m l v fv s buf, ready dev sbn sb n v s -> i_op v = Some minix_inode_operations -> aget (file_table s) f = Some fv -> 0 <= f_pos fv -> f_pos fv + Z.of_nat (length l) <= 1024 * (7 + 512 + 512 * 512) ->
  (forall j : nat, (j < length l)%nat -> file_get (fcache s) v (f_pos fv + Z.of_nat j) = l !! j) -> (length l < m)%nat ->
  exists s', iter m (file_read_step patience n f) (Z.of_nat (length l), buf) s = Ok 0 s' /\ ready dev sbn sb n v s' /\ (forall a, content (fcache s') a = content (fcache s) a) /\
    file_table s' = <[Z.to_nat f := set_f_pos (f_pos fv + Z.of_nat (length l)) fv]> (file_table s) /\ fkern s' = add_events (puts buf l) (fkern s).
Proof using HL Hpt Hrd.
  induction m as [|m IH]; intros l v fv s buf Hrdy Hop Hf Hpos Hmax Hg Hm; [lia|]. cbn [iter]. destruct (Nat.eq_dec (length l) 0%nat) as [H0|H0].
  { destruct l; [|done]. exists s. rewrite (run_bind _ _ _ (inr 0) s) by done. split; [done|]. split; [done|]. split; [done|]. cbn [length puts]. rewrite Z.add_0_r, add_events_nil. split; [|done]. destruct fv; cbn. unfold aget in Hf. destruct (f <? 0); [done|]. by rewrite list_insert_id. }
  set (k := Z.min (1024 - f_pos fv mod 1024) (Z.of_nat (length l))). pose proof (Z.mod_pos_bound (f_pos fv) 1024 ltac:(lia)) as Hmod.
  destruct (read_round_file n f v fv s (Z.of_nat (length l)) buf Hrdy Hop Hf Hpos ltac:(lia) Hmax) as (s1 & R & Hrdy1 & Hct1 & Hft1 & Hk1). fold k in R, Hft1, Hk1. rewrite (run_bind _ _ _ _ _ R).
  destruct (file_map dev (fcache s) v (f_pos fv / 1024)) as [d|] eqn:Hd.
  2: { exfalso. specialize (Hg 0%nat ltac:(lia)). unfold file_get in Hg. rewrite Z.add_0_r, Hd in Hg. symmetry in Hg. apply lookup_ge_None in Hg. lia. }
  assert (Hbd : block_data d) by (unfold file_map in Hd; destruct (_ =? 0); [done|]; injection Hd as <-; apply content_data, (zm_wf _ _ _ (fi_map _ _ _ _ _ _ (proj1 Hrdy)))).
  rewrite (block_of_file (fcache s) v (f_pos fv) (Z.to_nat k) d l Hd Hbd Hpos ltac:(lia) ltac:(lia) Hg) in Hk1.
  assert (Hf1 : aget (file_table s1) f = Some (set_f_pos (f_pos fv + k) fv)) by (rewrite Hft1; apply aget_insert_eq; by eapply aget_Some_range).
  assert (Hsame : forall o, file_get (fcache s1) v o = file_get (fcache s) v o) by (intros o; unfold file_get, file_map; rewrite (zone_at_content (fcache s) (fcache s1)) by done; by rewrite Hct1).
  assert (Hld : length (drop (Z.to_nat k) l) = (length l - Z.to_nat k)%nat) by (by rewrite length_drop).
  destruct (IH (drop (Z.to_nat k) l) v _ s1 (buf + k) Hrdy1 Hop Hf1) as (s2 & R2 & Hrdy2 & Hct2 & Hft2 & Hk2); [cbn; lia|cbn; rewrite Hld; lia| |rewrite Hld; lia|].
  { intros j Hj. cbn [f_pos set_f_pos]. rewrite Hsame, lookup_drop, <-Hg by lia. f_equal. lia. }
  exists s2. replace (Z.of_nat (length l) - k) with (Z.of_nat (length (drop (Z.to_nat k) l))) by lia. split; [done|]. split; [done|]. split; [intros a; by rewrite Hct2|].
  split; [rewrite Hft2, Hft1, list_insert_insert_eq; cbn [f_pos set_f_pos]; f_equal; unfold set_f_pos; cbn; by replace (f_pos fv + k + Z.of_nat (length (drop (Z.to_nat k) l))) with (f_pos fv + Z.of_nat (length l)) by lia|]. rewrite Hk2, Hk1, file_events_app. f_equal. rewrite <-(take_drop (Z.to_nat k) l) at 3. rewrite puts_app, length_take. do 2 f_equal. lia.
Qed.

(** Reading bytes that are not in holes. *)
Lemma file_read_run n f v fv s buf l : ready dev sbn sb n v s -> i_op v = Some minix_inode_operations -> aget (file_table s) f = Some fv -> 0 <= f_pos fv -> f_pos fv + Z.of_nat (length l) <= 1024 * (7 + 512 + 512 * 512) ->
  (forall j : nat, (j < length l)%nat -> file_get (fcache s) v (f_pos fv + Z.of_nat j) = l !! j) -> (0 < length l)%nat ->
  exists s', file_read patience n f buf (Z.of_nat (length l)) s = Ok (Z.of_nat (length l)) s' /\ ready dev sbn sb n (set_i_atime (CURRENT_TIME (fkern s)) v) s' /\ (forall a, content (fcache s') a = content (fcache s) a) /\
    file_table s' = <[Z.to_nat f := set_f_pos (f_pos fv + Z.of_nat (length l)) fv]> (file_table s) /\ fkern s' = add_events (puts buf l) (fkern s).
Proof using HL Hpt Hrd.
  intros Hrdy Hop Hf Hpos Hmax Hg Hl. unfold file_read. destruct (Z.leb_spec (Z.of_nat (length l)) 0); [lia|].
  destruct (read_loop_file n f (S (Z.to_nat (Z.of_nat (length l)))) l v fv s buf Hrdy Hop Hf Hpos Hmax Hg ltac:(lia)) as (s1 & R & Hrdy1 & Hct & Hft & Hk). rewrite (run_bind _ _ _ _ _ R), (run_bind _ _ _ _ _ (now_run _)).
  rewrite (run_bind _ _ _ _ _ (inode_upd_run n _ s1 v ltac:(apply Hrdy1))). eexists. rewrite Z.sub_0_r. unfold truth. destruct (Z.eqb_spec (Z.of_nat (length l)) 0); [lia|]. split; [done|]. replace (CURRENT_TIME (fkern s)) with (CURRENT_TIME (fkern s1)) by (by rewrite Hk).
  split; [by apply (ready_upd n v _ s1 (file_table s1))|done].
Qed.

Lemma user_bytes_lookup fs buf m (j : nat) : (j < m)%nat -> user_bytes fs buf m !! j = Some (get_fs_byte fs (buf + Z.of_nat j)).
Proof using. intros Hj. unfold user_bytes, range. rewrite list_lookup_fmap, list_lookup_fmap, lookup_seq_lt by done. cbn. do 3 f_equal. Qed.

(** C3: What is written to a file is read back.  [file_write] of [count] bytes writes
    all of them, or as many as there was room for before every data zone of the device
    was in use; the bytes are at the position of the file, every other byte is as it
    was (a byte in a hole is a zero), the size is the end of the written bytes if that
    is beyond it, and the position moves past them.  Reading as many bytes from there
    through another entry of [file_table] puts exactly these bytes into memory. *)
Theorem write_then_read fs n f g buf buf2 count v fv gv s : ready dev sbn sb n v s -> i_op v = Some minix_inode_operations ->
  aget (file_table s) f = Some fv -> aget (file_table s) g = Some gv -> f <> g -> Z.land (f_flags fv) O_APPEND = 0 -> f_pos gv = f_pos fv ->
  0 <= f_pos fv -> 0 <= count -> f_pos fv + count <= 1024 * (7 + 512 + 512 * 512) ->
  exists k v1 s1, file_write patience fs n f buf count s = Ok (if k =? 0 then -1 else k) s1 /\ 0 <= k <= count /\ (k = count \/ full dev sb (fcache s1)) /\
    aget (inode_table s1) n = Some v1 /\ written fs buf (f_pos fv) k (fcache s) v (fcache s1) v1 /\ aget (file_table s1) f = Some (set_f_pos (f_pos fv + k) fv) /\
    (0 < k -> exists s2, file_read patience n g buf2 k s1 = Ok k s2 /\ fkern s2 = add_events (puts buf2 (user_bytes fs buf (Z.to_nat k))) (fkern s) /\
      aget (file_table s2) g = Some (set_f_pos (f_pos fv + k) gv) /\ forall a, content (fcache s2) a = content (fcache s1) a).
Proof using HL Hpt Hrd.
  intros Hrdy Hop Hf Hg Hne Hap Hgp Hpos Hc Hmax. destruct (file_write_run fs n f buf count v fv s Hrdy Hf Hc) as (k & v1 & s1 & R & Hk & Hrdy1 & Hkn & Hft & Hend & Hw); rewrite ?Hap; [done|done|].
  rewrite Hap in Hft, Hw. cbn [truth Z.eqb negb] in Hft, Hw. pose proof (aget_Some_range _ _ _ Hf) as Hfr. pose proof (aget_Some_range _ _ _ Hg) as Hgr.
  exists k, v1, s1. split; [rewrite R; unfold truth; by destruct (k =? 0)|]. split; [done|]. split; [done|]. split; [apply Hrdy1|]. split; [done|]. split; [rewrite Hft; by apply aget_insert_eq|]. intros Hk0.
  set (l := user_bytes fs buf (Z.to_nat k)). assert (Hl : length l = Z.to_nat k) by apply length_user_bytes.
  assert (Hg1 : aget (file_table s1) g = Some gv) by (rewrite Hft; rewrite aget_insert_ne by lia; done).
  destruct (file_read_run n g v1 gv s1 buf2 l Hrdy1) as (s2 & R2 & _ & Hct & Hft2 & Hk2); [by rewrite (wr_op _ _ _ _ _ _ _ _ Hw)|done|lia|lia| |lia|].
  { intros j Hj. rewrite (wr_new _ _ _ _ _ _ _ _ Hw) by lia. unfold l. rewrite user_bytes_lookup by lia. do 2 f_equal. lia. }
  rewrite Hl, Z2Nat.id in R2, Hft2 by lia. exists s2. split; [done|]. split; [by rewrite Hk2, Hkn|]. split; [|done]. rewrite Hft2, <-Hgp. apply aget_insert_eq. apply aget_Some_range in Hg1. lia.
Qed.

(** Reading a hole writes one zero, whatever was asked for: [file_read] of up to the
    rest of a block that the file does not have returns the full count and moves the
    position by it, and puts a single byte into memory. *)
Theorem read_hole n f v fv s buf count : ready dev sbn sb n v s -> i_op v = Some minix_inode_operations -> aget (file_table s) f = Some fv -> 0 <= f_pos fv ->
  0 < count <= 1024 - f_pos fv mod 1024 -> f_pos fv + count <= 1024 * (7 + 512 + 512 * 512) -> file_map dev (fcache s) v (f_pos fv / 1024) = None ->
  exists s', file_read patience n f buf count s = Ok count s' /\ aget (file_table s') f = Some (set_f_pos (f_pos fv + count) fv) /\ fkern s' = add_events [EPutB (u32 buf) 0] (fkern s).
Proof using HL Hpt Hrd.
  intros Hrdy Hop Hf Hpos Hc Hmax Hd. unfold file_read. destruct (Z.leb_spec count 0); [lia|]. destruct (read_round_file n f v fv s count buf Hrdy Hop Hf Hpos ltac:(lia) Hmax) as (s1 & R & Hrdy1 & _ & Hft & Hk).
  rewrite Hd in R, Hk. replace (Z.min (1024 - f_pos fv mod 1024) count) with count in * by lia. rewrite Z.sub_diag in R.
  rewrite (run_bind _ _ _ 0 s1). 2: { cbn [iter]. rewrite (run_bind _ _ _ _ _ R). destruct (Z.to_nat count) eqn:E; [lia|]. cbn [iter]. by rewrite (run_bind _ _ _ (inr 0) s1). }
  rewrite (run_bind _ _ _ _ _ (now_run _)). rewrite (run_bind _ _ _ _ _ (inode_upd_run n _ s1 v ltac:(apply Hrdy1))). eexists. rewrite Z.sub_0_r. unfold truth. destruct (Z.eqb_spec count 0); [lia|]. split; [done|]. split; [|done].
  cbn [file_table set_inode_table]. rewrite Hft. apply aget_insert_eq. by eapply aget_Some_range.
Qed.

End FileOk.

(** ** Block devices *)

Section BlockOk.
Context {C : Type} {HB : BufferCache C} {HV : CacheView C} {HL : BufferCacheOk C} {HA : ReadAhead C}.

Lemma with_bytes_all d l : length l = length d -> with_bytes d 0 l = l.
Proof.
  intros Hl. assert (Hlw : forall l d o, length (with_bytes d o l) = length d) by (induction l0 as [|a l0 IH]; intros d0 o; cbn [with_bytes]; [done|by rewrite IH, length_insert]).
  apply (list_eq_same_length _ _ (length l)); [done|by rewrite Hlw|]. intros j x y Hj Hx Hy. pose proof (with_bytes_lookup l d 0 (Z.of_nat j) ltac:(lia) ltac:(lia) ltac:(lia)) as E. rewrite bool_decide_true in E by lia.
  unfold aget in E. rewrite Z.sub_0_r in E. destruct (Z.ltb_spec (Z.of_nat j) 0); [lia|]. rewrite Nat2Z.id in E. congruence.
Qed.

(** What the blocks of a device hold. *)
Definition block_at (s : fss C) (dev blk : Z) : list Z := content (fcache s) (dev, blk).

(** A whole block written to a block device is there afterwards only if its buffer
    was up to date.  [block_write] fills the buffer [getblk] gives it and marks it
    dirty, but not up to date: if it was not, the contents of the block are still the
    old ones, and these are what [bread] reads back. *)
Theorem block_write_whole fs blk_size n f buf v fv s dev blk nblk x c1 w : aget (inode_table s) n = Some v -> aget (file_table s) f = Some fv -> i_rdev v = dev -> f_pos fv = 1024 * blk -> 0 <= blk < nblk -> 1024 * blk + 1024 < 2 ^ 31 ->
  dev_blocks blk_size dev s = Ok nblk s -> cwf (fcache s) -> dev <> 0 -> refs (fcache s) (dev, blk) < 255 -> room 1 (fcache s) ->
  getblk dev blk (fcache s) = Ok x c1 -> held c1 !! (dev, blk) = Some w ->
  exists s', block_write fs blk_size n f buf 1024 s = Ok 1024 s' /\ aget (file_table s') f = Some (set_f_pos (1024 * blk + 1024) fv) /\ cwf (fcache s') /\
    block_at s' dev blk = (if bv_up w then user_bytes fs buf 1024 else block_at s dev blk) /\ refs (fcache s') (dev, blk) = refs (fcache s) (dev, blk) /\
    forall y c2, bread dev blk (fcache s') = Ok (Some y) c2 -> exists w2, buffer c2 y (dev, blk) w2 /\ bv_data w2 = block_at s' dev blk.
Proof using HL.
  unfold block_at. intros Hv Hf Hrv Hpos Hblk Hsm Hsz Hc Hdev Hrefs Hroom Hget Hw. unfold block_write. rewrite (run_bind _ _ _ fv s) by (unfold file_at; rewrite (run_bind _ _ _ s s) by done; by rewrite Hf).
  rewrite (run_bind _ _ _ v s) by (by apply inode_at_run). rewrite Hrv, (run_bind _ _ _ _ _ Hsz), Hpos. unfold BLOCK_SIZE_BITS, BLOCK_SIZE. rewrite Z.shiftr_div_pow2 by lia. change (2 ^ 10) with 1024. change (1024 - 1) with (Z.ones 10).
  rewrite Z.land_ones by lia. change (2 ^ 10) with 1024. replace (1024 * blk / 1024) with blk by (apply Z.div_unique with 0; lia). replace ((1024 * blk) mod 1024) with 0 by (apply Z.mod_unique with blk; lia).
  destruct (getblk_law dev blk (fcache s) Hc Hdev Hrefs Hroom) as (x' & c1' & w' & R & Hc1 & Hb1 & Hid & Hcnt & Hold). rewrite Hget in R. injection R as <- <-. pose proof (becomes_buffer _ _ _ _ Hb1) as Hbuf. assert (w' = w) as -> by (destruct Hbuf; congruence). rewrite Hid in Hbuf.
  assert (Hed : edited c1 x (dev, blk) w (bv_data w) c1) by (split; [done| |done]; split; [rewrite insert_id; [done|by destruct w]|done]).
  set (s1 := set_file_table (<[Z.to_nat f := set_f_pos (1024 * blk + 1024) fv]> (file_table s)) s).
  destruct (bytes_in_run fs c1 x (dev, blk) w s1 1024 0 buf _ c1 ltac:(lia) ltac:(lia) Hed) as (c2 & R2 & Hed2).
  destruct (set_dirt_run c1 x (dev, blk) w _ c2 Hed2) as (c3 & R3 & Hc3 & Hb3). rewrite with_bytes_all in Hb3 by (rewrite length_user_bytes, (proj1 (cwf_data _ Hc1 _ _ Hw)); done). set (w3 := set_bv_dirt true _) in Hb3. pose proof (becomes_buffer _ _ _ _ Hb3) as Hbuf3.
  destruct (brelse_law x (dev, blk) w3 c3 Hc3) as (c4 & R4 & Hc4 & Hh4 & Hcap4 & Hd4); [by rewrite <-Hid|by intros _; left|]. set (s4 := set_fcache c4 s1).
  assert (Hst : block_write_step fs dev nblk f (blk, 0, 1024, 0, buf) s = Ok (inl (blk + 1, 0, 0, 1024, buf + 1024)) s4).
  { unfold block_write_step. destruct (Z.leb_spec 1024 0); [lia|]. destruct (Z.leb_spec nblk blk); [lia|]. unfold BLOCK_SIZE. change (Z.min (1024 - 0) 1024) with 1024. rewrite Z.eqb_refl, bind_assoc. rewrite (run_bind _ _ _ x (set_fcache c1 s)) by (by apply on_cache_run). rewrite bind_ret.
    rewrite (run_bind _ _ _ _ _ (file_upd_run (set_fcache c1 s) f _ fv Hf)). rewrite Hpos, (s32_small (1024 * blk + _)) by (unfold in_s32; lia). change (set_file_table _ _) with (set_fcache c1 s1).
    rewrite (run_bind _ _ _ tt (set_fcache c2 s1)) by exact R2. rewrite (run_bind _ _ _ tt (set_fcache c3 s1)) by (by apply on_cache_at). by rewrite (run_bind _ _ _ tt s4) by (by apply on_cache_at). }
  assert (Hrun : forall m, iter (S (S m)) (block_write_step fs dev nblk f) (blk, 0, 1024, 0, buf) s = Ok 1024 s4) by (intros m; cbn [iter]; rewrite (run_bind _ _ _ _ _ Hst); by rewrite (run_bind _ _ _ (inr 1024) s4)).
  exists s4. split; [apply (Hrun (Z.to_nat 1023))|]. split; [cbn; apply aget_insert_eq; by eapply aget_Some_range|]. split; [done|].
  cbn [fcache s4 set_fcache]. assert (Hdisk : disk c3 (dev, blk) = disk (fcache s) (dev, blk)) by (destruct Hb3 as (_ & -> & _); by destruct Hb1 as (_ & -> & _)).
  assert (Hcon : content c4 (dev, blk) = if bv_up w then user_bytes fs buf 1024 else content (fcache s) (dev, blk)).
  { unfold content at 1. rewrite Hh4, Hd4, Hdisk. change (bv_count w3) with (bv_count w). change (bv_up w3) with (bv_up w). change (bv_data w3) with (user_bytes fs buf 1024).
    assert (Hun : bv_up w = false -> content (fcache s) (dev, blk) = disk (fcache s) (dev, blk)) by (intros Hu; unfold content; destruct (held (fcache s) !! (dev, blk)) as [w0|]; [|done]; subst w; cbn in Hu; by rewrite Hu).
    destruct (Z.eqb_spec (bv_count w) 1) as [E|E].
    - rewrite lookup_delete_eq. destruct (bv_up w) eqn:Eu; [by rewrite decide_True|]. rewrite decide_False by (by intros (_ & _ & [=])). by rewrite Hun.
    - rewrite lookup_insert_eq. cbn [bv_up set_bv_count w3 set_bv_dirt set_bv_data bv_data]. destruct (bv_up w) eqn:Eu; [reflexivity|]. rewrite decide_False by (by intros (_ & _ & [=])). by rewrite Hun. }
  split; [done|]. assert (Hr4 : refs c4 (dev, blk) = refs (fcache s) (dev, blk)).
  { unfold refs at 1. rewrite Hh4. change (bv_count w3) with (bv_count w). destruct (Z.eqb_spec (bv_count w) 1); [rewrite lookup_delete_eq; lia|]. rewrite lookup_insert_eq. cbn. lia. }
  split; [done|]. intros y c5 Hbr. assert (Hdom : size (held c4) = size (held (fcache s))).
  { rewrite <-!size_dom. f_equal. rewrite Hh4. change (bv_count w3) with (bv_count w). rewrite (proj1 Hb3), (proj1 Hb1), insert_insert_eq. unfold refs in Hcnt.
    destruct (held (fcache s) !! (dev, blk)) as [w0|] eqn:E0.
    - pose proof (cwf_count _ Hc _ _ E0). destruct (Z.eqb_spec (bv_count w) 1); [lia|]. rewrite insert_insert_eq. apply dom_insert_lookup_L. by rewrite E0.
    - destruct (Z.eqb_spec (bv_count w) 1); [|lia]. by rewrite delete_insert_id. }
  destruct (bread_law dev blk c4 Hc4 Hdev ltac:(lia)) as (r & c6 & R6 & Hc6 & Hres); [unfold room in *; rewrite Hdom, Hcap4, (proj2 (proj2 Hb3)), (proj2 (proj2 Hb1)); lia|].
  rewrite Hbr in R6. injection R6 as <- <-. destruct Hres as (w6 & Hb6 & Hi6 & _ & _ & Hd6 & _). exists w6. split; [|done]. rewrite <-Hi6. by apply (becomes_buffer c4).
Qed.

End BlockOk.

(** ** A file with one block, open twice *)

#[local] Instance quiet_files : FsEnv ideal := {| fs_sleep := fun _ => mret tt; fs_yield := mret tt |}.
#[local] Instance quiet_ahead : ReadAhead ideal := {| breada := fun dev blk _ => bread dev blk |}.

Definition demo_file : inode := set_i_op (Some minix_inode_operations) demo_empty.
Definition demo_open : file := File 3 0 1 (Some 0) false 1000.
Definition demo_files : fss ideal := set_file_table [demo_open; demo_open] (set_inode_table [demo_file; demo_other] demo_fs).

Lemma demo_files_ready : ready 1 0 demo_super 0 demo_file demo_files.
Proof. exact (ready_upd 1 0 demo_super 0 demo_empty demo_file demo_fs [demo_open; demo_open] demo_ready eq_refl eq_refl). Qed.

Lemma write_then_read_witness :
  exists k v1 s1, file_write 1 (fun a => a mod 7) 0 0 5000 100 demo_files = Ok (if k =? 0 then -1 else k) s1 /\ 0 <= k <= 100 /\ (k = 100 \/ full 1 demo_super (fcache s1)) /\
    aget (inode_table s1) 0 = Some v1 /\ written 1 (fun a => a mod 7) 5000 1000 k (fcache demo_files) demo_file (fcache s1) v1 /\ aget (file_table s1) 0 = Some (set_f_pos (1000 + k) demo_open) /\
    (0 < k -> exists s2, file_read 1 0 1 8000 k s1 = Ok k s2 /\ fkern s2 = add_events (puts 8000 (user_bytes (fun a => a mod 7) 5000 (Z.to_nat k))) (fkern demo_files) /\
      aget (file_table s2) 1 = Some (set_f_pos (1000 + k) demo_open) /\ forall a, content (fcache s2) a = content (fcache s1) a).
Proof.
  apply (write_then_read 1 0 demo_super 1 ltac:(lia) (ideal_readable 1) (fun a => a mod 7) 0 0 1 5000 8000 100 demo_file demo_open demo_open demo_files demo_files_ready);
    [reflexivity|reflexivity|reflexivity|lia|reflexivity|reflexivity|cbn; lia|lia|cbn; lia].
Defined.

Lemma read_hole_witness :
  exists s', file_read 1 0 0 5000 20 demo_files = Ok 20 s' /\ aget (file_table s') 0 = Some (set_f_pos 1020 demo_open) /\ fkern s' = add_events [EPutB (u32 5000) 0] (fkern demo_files).
Proof.
  apply (read_hole 1 0 demo_super 1 ltac:(lia) (ideal_readable 1) 0 0 demo_file demo_open demo_files 5000 20 demo_files_ready); [reflexivity|reflexivity|cbn; lia|vm_compute; split; [reflexivity|discriminate]|cbn; lia|reflexivity].
Defined.

(** Block 2 of the disk is held by somebody, and has not been read. *)
Definition unread : bview := BV (ideal_id (1, 2)) 1 false false (replicate (Z.to_nat BLOCK_SIZE) 9).
Definition demo_device : inode := set_i_rdev 1 (set_i_mode 0x6180 zero_inode).
Definition demo_disk : fss ideal := Fss demo_alone (Ideal {[ (1, 2) := unread ]} ∅) [demo_device] [] 0 [File 3 0 1 (Some 0) false 2048] ∅ 0.

Lemma demo_disk_cwf : cwf (fcache demo_disk).
Proof.
  assert (Hh : forall b w, held (fcache demo_disk) !! b = Some w -> b = (1, 2) /\ w = unread) by (intros b w H; cbn in H; apply lookup_singleton_Some in H; naive_solver).
  split.
  - intros b w [-> ->]%Hh. done.
  - intros b w [-> ->]%Hh. cbn. lia.
  - intros b w [-> ->]%Hh. split; [apply length_replicate|]. apply (Forall_replicate (fun z => in_u8 z)). unfold in_u8. lia.
  - intros b. cbn. unfold ideal_block. cbn. rewrite lookup_empty. apply demo_zero_block.
  - intros b b' w w' [-> ->]%Hh [-> ->]%Hh. done.
Qed.

Lemma block_write_whole_witness :
  exists s', block_write (fun _ => 33) [None; None] 0 0 5000 1024 demo_disk = Ok 1024 s' /\ aget (file_table s') 0 = Some (File 3 0 1 (Some 0) false 3072) /\ cwf (fcache s') /\
    block_at s' 1 2 = zero_block /\ refs (fcache s') (1, 2) = 1 /\
    forall y c2, bread 1 2 (fcache s') = Ok (Some y) c2 -> exists w2, buffer c2 y (1, 2) w2 /\ bv_data w2 = block_at s' 1 2.
Proof.
  destruct (block_write_whole (fun _ => 33) [None; None] 0 0 5000 demo_device (File 3 0 1 (Some 0) false 2048) demo_disk 1 2 0x7fffffff (ideal_id (1, 2)) (Ideal {[ (1, 2) := set_bv_count 2 unread ]} ∅) (set_bv_count 2 unread)) as (s' & H1 & H2 & H3 & H4 & H5 & H6);
    [reflexivity|reflexivity|reflexivity|reflexivity|lia|lia|reflexivity|apply demo_disk_cwf|lia|vm_compute; reflexivity|vm_compute; discriminate|reflexivity|reflexivity|].
  exists s'. split; [exact H1|]. split; [exact H2|]. split; [exact H3|]. split; [rewrite H4; vm_compute; reflexivity|]. split; [rewrite H5; vm_compute; reflexivity|exact H6].
Defined.
