(* ===== verification/FdOk.v ===== *)
(** * Theorems about descriptors

    Duplicating a descriptor takes the lowest free one and counts the file once more;
    closing it gives it back. *)

From S2P Require Import Prelude TaskStruct Sched Fork Signal Sys Fs Store Minix MinixOk Bmap Inode Pipe Dir Namei Files FileOk.

(** The entry of [file_table] that descriptor [fd] of a task names. *)
Definition fd_file (t : task_struct) (fd : Z) : option Z := match aget (filp t) fd with Some (Some p) => Some (ptr_entry p) | _ => None end.

(** [r] is the lowest free descriptor from [arg] on, [NR_OPEN] if there is none. *)
Definition lowest_free (t : task_struct) (arg r : Z) : Prop :=
  arg <= r <= NR_OPEN /\ (forall j, arg <= j < r -> is_Some (fd_file t j)) /\ (r < NR_OPEN -> fd_file t r = None).

Lemma filp_set_close v t : filp (set_close_on_exec v t) = filp t.
Proof. by destruct t. Qed.
Lemma filp_set_filp v t : filp (set_filp v t) = v.
Proof. by destruct t. Qed.
Lemma close_set_filp v t : close_on_exec (set_filp v t) = close_on_exec t.
Proof. by destruct t. Qed.
Lemma close_set_close v t : close_on_exec (set_close_on_exec v t) = v.
Proof. by destruct t. Qed.

Lemma count_back fv : set_f_count (f_count fv + 1 - 1) (set_f_count (f_count fv + 1) fv) = fv.
Proof. destruct fv as [m fl c i o p]. unfold set_f_count. cbn. by replace (c + 1 - 1) with c by lia. Qed.

Section FdOk.
Context {C : Type} {HB : BufferCache C} {HE : FsEnv C} {HP : PageAlloc C}.

(** The task that runs. *)
Definition runs (s : fss C) (t : task_struct) : Prop := heap (fkern s) !! current (fkern s) = Some t /\ length (filp t) = Z.to_nat NR_OPEN.
Definition with_task (t : task_struct) (s : fss C) : fss C := set_fkern (set_heap (<[current (fkern s) := t]> (heap (fkern s))) (fkern s)) s.

Lemma with_task_runs t t' s : runs s t -> length (filp t') = Z.to_nat NR_OPEN -> runs (with_task t' s) t'.
Proof using. intros _ Hl. split; [|done]. cbn. destruct (fkern s). apply lookup_insert_eq. Qed.

Lemma with_task_again t t' s : with_task t' (with_task t s) = with_task t' s.
Proof using. destruct s as [[] ? ? ? ? ? ? ?]. unfold with_task. cbn. by rewrite insert_insert_eq. Qed.

Lemma with_task_files t1 t2 l1 l2 s : set_file_table l2 (with_task t2 (set_file_table l1 (with_task t1 s))) = set_file_table l2 (with_task t2 s).
Proof using. destruct s as [[] ? ? ? ? ? ? ?]. unfold with_task, set_file_table. cbn. by rewrite insert_insert_eq. Qed.

Lemma with_task_same t s : runs s t -> with_task t s = s.
Proof using. intros [H _]. destruct s as [[] ? ? ? ? ? ? ?]. unfold with_task. cbn in *. by rewrite insert_id. Qed.

Lemma upd_cur_with f t s : runs s t -> on_task (upd_cur f) s = Ok tt (with_task (f t) s).
Proof using. intros [H _]. by rewrite (on_task_run _ _ _ _ (upd_cur_eq f t _ H)). Qed.

Lemma filp_at_run fd t s : runs s t -> 0 <= fd < NR_OPEN -> filp_at fd s = Ok (fd_file t fd) s.
Proof using.
  intros [H Hl] Hfd. unfold filp_at. rewrite (run_bind _ _ _ (filp t) s) by (rewrite (on_task_run _ _ _ _ (cur_eq filp t _ H)); by destruct s).
  destruct (aget_in_range (filp t) fd) as [o Ho]; [rewrite Hl; unfold NR_OPEN in *; lia|]. unfold fd_file. rewrite Ho. rewrite (run_bind _ _ _ o s) by done. by destruct o.
Qed.

Lemma free_fd_run t s : runs s t -> forall k i, 0 <= i -> i + Z.of_nat k = NR_OPEN -> exists r, free_fd k i s = Ok r s /\ lowest_free t i r.
Proof using.
  intros Hr. induction k as [|k IH]; intros i Hi Hk; cbn [free_fd].
  - exists i. split; [done|]. split; [lia|]. split; [lia|]. lia.
  - rewrite (run_bind _ _ _ _ _ (filp_at_run i t s Hr ltac:(lia))). destruct (fd_file t i) as [f|] eqn:E.
    + destruct (IH (i + 1) ltac:(lia) ltac:(lia)) as (r & R & H1 & H2 & H3). exists r. split; [done|]. split; [lia|]. split; [|done]. intros j Hj. destruct (Z.eq_dec j i) as [->|]; [by eexists|]. apply H2. lia.
    + exists i. split; [done|]. split; [lia|]. split; [lia|done].
Qed.

Lemma file_of_run fd t s : runs s t -> 0 <= fd -> file_of fd s = Ok (if NR_OPEN <=? fd then None else fd_file t fd) s.
Proof using. intros Hr Hfd. unfold file_of. destruct (Z.leb_spec NR_OPEN fd); [done|]. apply (filp_at_run fd t s Hr). lia. Qed.

Lemma fd_file_insert t t' r f j : filp t' = <[Z.to_nat r := entry_ptr <$> f]> (filp t) -> length (filp t) = Z.to_nat NR_OPEN -> 0 <= r < NR_OPEN -> (forall g, f = Some g -> 0 <= g) -> fd_file t' j = if decide (j = r) then f else fd_file t j.
Proof using.
  intros E Hl Hr Hf. unfold fd_file. rewrite E. destruct (decide (j = r)) as [->|Hne].
  - rewrite aget_insert_eq by (rewrite Hl; unfold NR_OPEN in *; lia). destruct f as [g|]; [|done]. cbn. f_equal. unfold ptr_entry, entry_ptr. specialize (Hf g eq_refl). lia.
  - destruct (Z.lt_ge_cases j 0) as [Hj|Hj]; [unfold aget; by destruct (Z.ltb_spec j 0); [|lia]|]. by rewrite aget_insert_ne by lia.
Qed.

(** A descriptor set and cleared. *)
Lemma closed_again t r p : length (filp t) = Z.to_nat NR_OPEN -> 0 <= r < NR_OPEN -> fd_file t r = None ->
  let t0 := set_close_on_exec (Z.clearbit (close_on_exec t) r) t in let t1 := set_filp (<[Z.to_nat r := p]> (filp t0)) t0 in let t2 := set_close_on_exec (Z.clearbit (close_on_exec t1) r) t1 in
  set_filp (<[Z.to_nat r := None]> (filp t2)) t2 = t0.
Proof using.
  intros Hl Hr Hn t0 t1 t2. destruct (aget_in_range (filp t) r) as [o Ho]; [rewrite Hl; unfold NR_OPEN in *; lia|]. unfold fd_file in Hn. rewrite Ho in Hn. destruct o; [done|]. unfold aget in Ho. destruct (r <? 0); [done|].
  assert (E : forall c, Z.clearbit (Z.clearbit c r) r = Z.clearbit c r) by (intros c; apply Z.bits_inj'; intros i Hi; rewrite !Z.clearbit_eqb; by destruct (Z.testbit c i), (r =? i)).
  destruct t. unfold t2, t1, t0, set_close_on_exec, set_filp. cbn in *. rewrite list_insert_insert_eq, (list_insert_id _ _ _ Ho). f_equal. apply E.
Qed.

(** Duplicating a descriptor and closing the copy.  [dupfd] gives the lowest free
    descriptor from [arg] on, or [-EMFILE] and nothing has changed; the new descriptor
    names the same entry of [file_table], which is counted once more, and every other
    descriptor is as it was.  Closing it puts everything back, but that the new
    descriptor's close-on-exec bit is clear. *)
Theorem dup_then_close patience t s fd arg f fv : runs s t -> 0 <= fd < NR_OPEN -> fd_file t fd = Some f -> aget (file_table s) f = Some fv -> 1 <= f_count fv < 65535 -> 0 <= arg < NR_OPEN ->
  exists r, lowest_free t arg r /\
    (r = NR_OPEN -> dupfd fd arg s = Ok (- EMFILE) s) /\
    (r < NR_OPEN -> exists t1 s1, dupfd fd arg s = Ok r s1 /\ runs s1 t1 /\ (forall j, fd_file t1 j = if decide (j = r) then Some f else fd_file t j) /\
      file_table s1 = <[Z.to_nat f := set_f_count (f_count fv + 1) fv]> (file_table s) /\
      sys_close patience r s1 = Ok 0 (with_task (set_close_on_exec (Z.clearbit (close_on_exec t) r) t) s)).
Proof using.
  intros Hr Hfd Hf Hfv Hcnt Harg. destruct (free_fd_run t s Hr (Z.to_nat (NR_OPEN - arg)) arg) as (r & R & Hlow); [lia|lia|]. exists r. split; [done|]. pose proof Hr as [Hcur Hlen]. destruct Hlow as (Hrr & Hall & Hfree).
  assert (E : dupfd fd arg s = (if NR_OPEN <=? r then mret (- EMFILE) else keep_on_exec r;; o ← filp_at fd; set_filp_at r o;; f ← ofOpt o; file_upd f (fun v => set_f_count (u16 (f_count v + 1)) v);; mret r) s).
  { unfold dupfd. rewrite (run_bind _ _ _ _ _ (file_of_run fd t s Hr ltac:(lia))). destruct (Z.leb_spec NR_OPEN fd); [lia|]. rewrite Hf. destruct (Z.leb_spec NR_OPEN arg); [lia|]. by rewrite (run_bind _ _ _ _ _ R). }
  rewrite E. split; [intros ->; by destruct (Z.leb_spec NR_OPEN NR_OPEN); [|lia]|]. intros Hlt. destruct (Z.leb_spec NR_OPEN r); [lia|].
  set (t0 := set_close_on_exec (Z.clearbit (close_on_exec t) r) t). pose proof (with_task_runs t t0 s Hr ltac:(by unfold t0; rewrite filp_set_close)) as Hr0. unfold keep_on_exec at 1. rewrite (run_bind _ _ _ _ _ (upd_cur_with _ t s Hr)). fold t0.
  assert (Hf0 : fd_file t0 fd = Some f) by (unfold fd_file, t0; by rewrite filp_set_close). rewrite (run_bind _ _ _ _ _ (filp_at_run fd t0 _ Hr0 Hfd)), Hf0. unfold set_filp_at at 1. rewrite (run_bind _ _ _ _ _ (upd_cur_with _ t0 _ Hr0)), with_task_again.
  set (t1 := set_filp _ t0). assert (Hl1 : length (filp t1) = Z.to_nat NR_OPEN) by (unfold t1, t0; by rewrite filp_set_filp, length_insert, filp_set_close). pose proof (with_task_runs t t1 s Hr Hl1) as Hr1. rewrite (run_bind _ _ _ f (with_task t1 s)) by done.
  rewrite (run_bind _ _ _ _ _ (file_upd_run (with_task t1 s) f _ fv Hfv)). rewrite u16_small by (unfold in_u16; lia). set (s1 := set_file_table _ (with_task t1 s)). pose proof (aget_Some_range _ _ _ Hfv) as Hfr.
  assert (Hfile : forall j, fd_file t1 j = if decide (j = r) then Some f else fd_file t j) by (intros j; apply (fd_file_insert t t1 r (Some f)); [unfold t1, t0; by rewrite filp_set_filp, filp_set_close|done|lia|intros g [= <-]; lia]).
  assert (Hrun1 : runs s1 t1) by exact Hr1. exists t1, s1. split; [done|]. split; [done|]. split; [done|]. split; [done|].
  unfold sys_close. destruct (Z.leb_spec NR_OPEN r); [lia|]. unfold keep_on_exec. rewrite (run_bind _ _ _ _ _ (upd_cur_with _ t1 s1 Hrun1)). set (t2 := set_close_on_exec _ t1).
  pose proof (with_task_runs t1 t2 s1 Hrun1 ltac:(by unfold t2; rewrite filp_set_close)) as Hr2. assert (Hf2 : fd_file t2 r = Some f) by (unfold fd_file, t2; rewrite filp_set_close; fold (fd_file t1 r); rewrite Hfile; by rewrite decide_True).
  rewrite (run_bind _ _ _ _ _ (filp_at_run r t2 _ Hr2 ltac:(lia))), Hf2. unfold set_filp_at. rewrite (run_bind _ _ _ _ _ (upd_cur_with _ t2 _ Hr2)), with_task_again. set (t3 := set_filp _ t2). set (s3 := with_task t3 s1).
  assert (Hf3 : aget (file_table s3) f = Some (set_f_count (f_count fv + 1) fv)) by (cbn; by apply aget_insert_eq). rewrite (run_bind _ _ _ _ _ (file_at_run s3 f _ Hf3)). cbn [f_count set_f_count]. destruct (Z.eqb_spec (f_count fv + 1) 0); [lia|].
  rewrite (run_bind _ _ _ _ _ (file_upd_run s3 f _ _ Hf3)). set (s4 := set_file_table _ s3). rewrite (run_bind _ _ _ fv s4); [|rewrite (file_at_run s4 f fv); [done|]; unfold s4, s3, s1; cbn; rewrite aget_insert_eq by (rewrite length_insert; lia); f_equal; apply count_back].
  unfold truth. destruct (Z.eqb_spec (f_count fv) 0); [lia|]. cbn [negb]. assert (Ht3 : t3 = t0) by (apply (closed_again t r (entry_ptr <$> Some f) Hlen); [lia|by apply Hfree]). assert (Hft : file_table s4 = file_table s).
  { unfold s4, s3, s1. cbn. rewrite list_insert_insert_eq. rewrite (count_back fv). unfold aget in Hfv. destruct (f <? 0); [done|]. by rewrite list_insert_id. }
  assert (Hs4 : s4 = set_file_table (file_table s4) (with_task t3 s)) by apply with_task_files. rewrite Hs4, Hft, Ht3. done.
Qed.

End FdOk.

(** ** A task with one open file *)

#[local] Instance quiet_fd : FsEnv ideal := {| fs_sleep := fun _ => mret tt; fs_yield := mret tt |}.

#[local] Instance no_pages : PageAlloc ideal := {| get_free_page := mret 0; free_page := fun _ => mret tt |}.

Definition demo_fd : fss ideal := set_fkern (set_heap (alter (set_filp (Some 2%positive :: replicate 19 None)) (current demo_alone) (heap demo_alone)) demo_alone) demo_files.

Lemma dup_then_close_witness : exists t, runs demo_fd t /\
  exists r, lowest_free t 0 r /\ (r = NR_OPEN -> dupfd 0 0 demo_fd = Ok (- EMFILE) demo_fd) /\
    (r < NR_OPEN -> exists t1 s1, dupfd 0 0 demo_fd = Ok r s1 /\ runs s1 t1 /\ (forall j, fd_file t1 j = if decide (j = r) then Some 1 else fd_file t j) /\
      file_table s1 = <[Z.to_nat 1 := set_f_count 2 demo_open]> (file_table demo_fd) /\
      sys_close 1 r s1 = Ok 0 (with_task (set_close_on_exec (Z.clearbit (close_on_exec t) r) t) demo_fd)).
Proof.
  destruct (heap (fkern demo_fd) !! current (fkern demo_fd)) as [t|] eqn:E; [|vm_compute in E; discriminate]. assert (Hr : runs demo_fd t) by (split; [exact E|]; vm_compute in E; injection E as <-; reflexivity).
  exists t. split; [exact Hr|]. apply (dup_then_close 1 t demo_fd 0 0 1 demo_open Hr); [unfold NR_OPEN; lia|vm_compute in E; injection E as <-; reflexivity|reflexivity|cbn; lia|unfold NR_OPEN; lia].
Defined.
