(* ===== verification/Hd.v ===== *)
(** * The hard disk driver: [kernel/blk_drv/hd.c] and [hd_interrupt] of [kernel/sys_call.S]

    A request is a conversation with the controller: a command, then an interrupt
    for each sector, which the routine in [do_hd] answers.  The controller is the
    interface [HdPorts]: what the ports of the machine answer, over a state of its
    own.  The queue of requests is that of [Blk]; data goes from and to [hmem], the
    memory the buffers are in, as words of 16 bits by their addresses.

    [do_hd_request] and [reset_hd] call each other and jump back; the fuel of
    [do_hd_request] counts the jumps. *)

From S2P Require Import Prelude TaskStruct Buffer Blk.

Definition MAJOR_NR : Z := 3.
Definition MAX_ERRORS : Z := 7.
Definition MAX_HD : Z := 2.
Definition HD_TIMER : Z := 16.
Definition TIMEOUT_VALUE : Z := 600.
Definition HD_DATA : Z := 0x1f0.
Definition HD_ERROR : Z := 0x1f1.
Definition HD_STATUS : Z := 0x1f7.
Definition HD_CMD : Z := 0x3f6.
Definition ERR_STAT : Z := 0x01.
Definition DRQ_STAT : Z := 0x08.
Definition SEEK_STAT : Z := 0x10.
Definition WRERR_STAT : Z := 0x20.
Definition READY_STAT : Z := 0x40.
Definition BUSY_STAT : Z := 0x80.
Definition WIN_RESTORE : Z := 0x10.
Definition WIN_READ : Z := 0x20.
Definition WIN_WRITE : Z := 0x30.
Definition WIN_SPECIFY : Z := 0x91.

(** [MINOR] and, for disks, [DEVICE_NR]. *)
Definition hd_minor (a : Z) : Z := Z.land a 0xff.
Definition DEVICE_NR (device : Z) : Z := Z.shiftr (hd_minor device) 6.

(** The ports: a byte in and out, and 16-bit words in and out of the data port. *)
Class HdPorts (D : Type) := {
  inb : Z -> M D Z;
  outb : Z -> Z -> M D unit;
  insw : nat -> M D (list Z);
  outsw : list Z -> M D unit
}.

(** [struct hd_i_struct] and [struct hd_struct] *)
Record hd_i_struct := HdI { hi_head : Z; hi_sect : Z; hi_cyl : Z; hi_wpcom : Z; hi_lzone : Z; hi_ctl : Z }.
Record hd_struct := HdS { start_sect : Z; nr_sects : Z }.

(** The routines an interrupt can call. *)
Inductive hd_intr := recal_intr_ptr | reset_hd_ptr | read_intr_ptr | write_intr_ptr.

Record hst (D : Type) := Hst {
  hblk : bst;
  hctl : D;
  hmem : gmap Z Z;
  hd_info : list hd_i_struct;
  NR_HD : Z;
  hd : list hd_struct;
  recalibrate : Z;
  reset : Z;
  do_hd : option hd_intr;
  reset_i : Z;                         (* the static i of reset_hd *)
  hd_expires : Z;                      (* timer_table[HD_TIMER].expires *)
  hd_active : bool;                    (* its bit in timer_active *)
  hd_jiffies : Z;
  hd_installed : bool;                 (* request_fn, interrupt gate and timer function *)
  hd_log : list string
}.
Arguments Hst {_}. Arguments hblk {_}. Arguments hctl {_}. Arguments hmem {_}. Arguments hd_info {_}. Arguments NR_HD {_}. Arguments hd {_}. Arguments recalibrate {_}. Arguments reset {_}.
Arguments do_hd {_}. Arguments reset_i {_}. Arguments hd_expires {_}. Arguments hd_active {_}. Arguments hd_jiffies {_}. Arguments hd_installed {_}. Arguments hd_log {_}.

Section Hd.
Context {D : Type} `{HdPorts D}.

Definition set_hblk v (s : hst D) := Hst v (hctl s) (hmem s) (hd_info s) (NR_HD s) (hd s) (recalibrate s) (reset s) (do_hd s) (reset_i s) (hd_expires s) (hd_active s) (hd_jiffies s) (hd_installed s) (hd_log s).
Definition set_hctl (v : D) (s : hst D) : hst D := Hst (hblk s) v (hmem s) (hd_info s) (NR_HD s) (hd s) (recalibrate s) (reset s) (do_hd s) (reset_i s) (hd_expires s) (hd_active s) (hd_jiffies s) (hd_installed s) (hd_log s).
Definition set_hmem v (s : hst D) := Hst (hblk s) (hctl s) v (hd_info s) (NR_HD s) (hd s) (recalibrate s) (reset s) (do_hd s) (reset_i s) (hd_expires s) (hd_active s) (hd_jiffies s) (hd_installed s) (hd_log s).
Definition set_recalibrate v (s : hst D) := Hst (hblk s) (hctl s) (hmem s) (hd_info s) (NR_HD s) (hd s) v (reset s) (do_hd s) (reset_i s) (hd_expires s) (hd_active s) (hd_jiffies s) (hd_installed s) (hd_log s).
Definition set_reset v (s : hst D) := Hst (hblk s) (hctl s) (hmem s) (hd_info s) (NR_HD s) (hd s) (recalibrate s) v (do_hd s) (reset_i s) (hd_expires s) (hd_active s) (hd_jiffies s) (hd_installed s) (hd_log s).
Definition set_do_hd v (s : hst D) := Hst (hblk s) (hctl s) (hmem s) (hd_info s) (NR_HD s) (hd s) (recalibrate s) (reset s) v (reset_i s) (hd_expires s) (hd_active s) (hd_jiffies s) (hd_installed s) (hd_log s).
Definition set_reset_i v (s : hst D) := Hst (hblk s) (hctl s) (hmem s) (hd_info s) (NR_HD s) (hd s) (recalibrate s) (reset s) (do_hd s) v (hd_expires s) (hd_active s) (hd_jiffies s) (hd_installed s) (hd_log s).
Definition set_hd_timer e a (s : hst D) := Hst (hblk s) (hctl s) (hmem s) (hd_info s) (NR_HD s) (hd s) (recalibrate s) (reset s) (do_hd s) (reset_i s) e a (hd_jiffies s) (hd_installed s) (hd_log s).
Definition set_hd_installed v (s : hst D) := Hst (hblk s) (hctl s) (hmem s) (hd_info s) (NR_HD s) (hd s) (recalibrate s) (reset s) (do_hd s) (reset_i s) (hd_expires s) (hd_active s) (hd_jiffies s) v (hd_log s).
Definition add_log m (s : hst D) := Hst (hblk s) (hctl s) (hmem s) (hd_info s) (NR_HD s) (hd s) (recalibrate s) (reset s) (do_hd s) (reset_i s) (hd_expires s) (hd_active s) (hd_jiffies s) (hd_installed s) (hd_log s ++ [m]).

Definition on_blk {A} (m : M bst A) : M (hst D) A :=
  fun s => match m (hblk s) with Ok a b => Ok a (set_hblk b s) | Halt h b => Halt h (set_hblk b s) end.
Definition on_ctl {A} (m : M D A) : M (hst D) A :=
  fun s => match m (hctl s) with Ok a d => Ok a (set_hctl d s) | Halt h d => Halt h (set_hctl d s) end.
Definition hd_printk (m : string) : M (hst D) unit := modify (add_log m).

(** [CURRENT], as an index, and through the pointer. *)
Definition CURRENT : M (hst D) (option Z) := on_blk (get_current MAJOR_NR).
Definition current_req : M (hst D) request := c ← CURRENT; x ← ofOpt c; on_blk (req_at x).
Definition current_upd (f : request -> request) : M (hst D) unit := c ← CURRENT; x ← ofOpt c; on_blk (req_upd x f).

(** [SET_INTR(x)] *)
Definition SET_INTR (x : option hd_intr) : M (hst D) unit :=
  modify (set_do_hd x);;
  modify (fun s => match x with Some _ => set_hd_timer (u32 (hd_jiffies s + TIMEOUT_VALUE)) true s | None => set_hd_timer (hd_expires s) false s end).

(** [port_read(port, buf, nr)] and [port_write(port, buf, nr)] *)
Fixpoint put_words (a : Z) (ws : list Z) (m : gmap Z Z) : gmap Z Z := match ws with [] => m | w :: ws' => put_words (a + 2) ws' (<[a := w]> m) end.
Definition get_words (a : Z) (n : nat) (m : gmap Z Z) : list Z := (fun i => default 0 (m !! (a + 2 * i))) <$> range 0 n.
Definition port_read (buf : Z) (nr : nat) : M (hst D) unit := ws ← on_ctl (insw nr); modify (fun s => set_hmem (put_words buf ws (hmem s)) s).
Definition port_write (buf : Z) (nr : nat) : M (hst D) unit := s ← getS; on_ctl (outsw (get_words buf nr (hmem s))).

(** ** The controller *)

(** The loop of [controller_ready]: [retries], after it was counted down. *)
Fixpoint ready_loop (retries : nat) : M (hst D) Z :=
  match retries with
  | O => mret 0
  | S r => st ← on_ctl (inb HD_STATUS); if truth (Z.land st 0x80) then ready_loop r else mret (Z.of_nat retries)
  end.
(** [static int controller_ready(void)] *)
Definition controller_ready : M (hst D) Z := ready_loop (Z.to_nat 99999).

(** The bits [win_result] looks at. *)
Definition win_ok (st : Z) : bool :=
  Z.land st (Z.lor BUSY_STAT (Z.lor READY_STAT (Z.lor WRERR_STAT (Z.lor SEEK_STAT ERR_STAT)))) =? Z.lor READY_STAT SEEK_STAT.
(** [static int win_result(void)] *)
Definition win_result : M (hst D) bool :=
  i ← on_ctl (inb HD_STATUS);
  if win_ok i then mret false
  else (if truth (Z.land i 1) then on_ctl (inb HD_ERROR);; mret tt else mret tt);; mret true.

(** The registers, written in order. *)
Definition hd_regs (hi : hd_i_struct) (drive nsect sect head cyl cmd : Z) : M D unit :=
  outb (u8 (hi_ctl hi)) HD_CMD;;
  outb (u8 (Z.shiftr (hi_wpcom hi) 2)) (HD_DATA + 1);;
  outb (u8 nsect) (HD_DATA + 2);;
  outb (u8 sect) (HD_DATA + 3);;
  outb (u8 cyl) (HD_DATA + 4);;
  outb (u8 (Z.shiftr cyl 8)) (HD_DATA + 5);;
  outb (u8 (Z.lor 0xA0 (Z.lor (Z.shiftl drive 4) head))) (HD_DATA + 6);;
  outb (u8 cmd) (HD_DATA + 7).

(** [static void hd_out(...)]; the arguments are unsigned. *)
Definition hd_out (drive nsect sect head cyl cmd : Z) (intr_addr : hd_intr) : M (hst D) unit :=
  if (1 <? u32 drive) || (15 <? u32 head) then halts (Panic "Trying to write bad sector")
  else
    r ← controller_ready;
    if r =? 0 then halts (Panic "HD controller not ready")
    else
      SET_INTR (Some intr_addr);;
      s ← getS; hi ← ofOpt (aget (hd_info s) drive);
      on_ctl (hd_regs hi drive nsect sect head cyl cmd).

(** [static int drive_busy(void)] *)
Fixpoint busy_loop (n : nat) : M (hst D) bool :=
  match n with
  | O => hd_printk "HD controller times out\n\r";; mret true
  | S n' =>
      c ← on_ctl (inb HD_STATUS);
      if Z.land c (Z.lor BUSY_STAT (Z.lor READY_STAT SEEK_STAT)) =? Z.lor READY_STAT SEEK_STAT then mret false else busy_loop n'
  end.
Definition drive_busy : M (hst D) bool := busy_loop (Z.to_nat 50000).

(** [static void reset_controller(void)] *)
Definition reset_controller : M (hst D) unit :=
  on_ctl (outb 4 HD_CMD);;
  s ← getS; hi ← ofOpt (aget (hd_info s) 0);
  on_ctl (outb (Z.land (hi_ctl hi) 0x0f) HD_CMD);;
  b ← drive_busy;
  (if (b : bool) then hd_printk "HD-controller still busy\n\r" else mret tt);;
  i ← on_ctl (inb HD_ERROR);
  if i =? 1 then mret tt else hd_printk "HD-controller reset failed: %02x\n\r".

(** ** Requests *)

(** [static void bad_rw_intr(void)] *)
Definition bad_rw_intr : M (hst D) unit :=
  current_upd (fun r => set_r_progress (r_errors r + 1) (r_sector r) (r_nr_sectors r) (r_buffer r) r);;
  r ← current_req;
  (if MAX_ERRORS <=? r_errors r then on_blk (end_request MAJOR_NR 0) else mret tt);;
  r ← current_req;
  if MAX_ERRORS / 2 <? r_errors r then modify (set_reset 1) else mret tt.

(** The jump of [reset_hd]: back when [bad_rw_intr] asks for a reset. *)
Definition reset_step (_ : unit) : M (hst D) (unit + unit) :=
  s ← getS;
  if truth (reset s) then
    modify (set_reset 0);; modify (set_reset_i (-1));; reset_controller;; mret (inr tt)
  else
    bad ← win_result;
    if (bad : bool) then
      bad_rw_intr;;
      s ← getS;
      if truth (reset s) then mret (inl tt) else mret (inr tt)
    else mret (inr tt).

(** [static void reset_hd(void)]; [request] is [do_hd_request]. *)
Definition reset_hd (request : M (hst D) unit) : M (hst D) unit :=
  iter 2 reset_step tt;;
  modify (fun s => set_reset_i (reset_i s + 1) s);;
  s ← getS;
  let i := reset_i s in
  if i <? NR_HD s then
    hi ← ofOpt (aget (hd_info s) i);
    hd_out i (hi_sect hi) (hi_sect hi) (hi_head hi - 1) (hi_cyl hi) WIN_SPECIFY reset_hd_ptr
  else request.

(** The wait for [DRQ_STAT] after a write command. *)
Fixpoint drq_loop (n : nat) : M (hst D) bool :=
  match n with
  | O => mret false
  | S n' => st ← on_ctl (inb HD_STATUS); if truth (Z.land st DRQ_STAT) then mret true else drq_loop n'
  end.

(** [divl]: quotient and remainder, a fault when the divisor is zero. *)
Definition divl (a b : Z) : M (hst D) (Z * Z) := if u32 b =? 0 then halts Fault else mret (u32 a / u32 b, u32 a mod u32 b).

(** [INIT_REQUEST], when there is a request. *)
Definition check_request (r : request) : M (hst D) unit :=
  if negb (MAJOR (r_dev r) =? MAJOR_NR) then halts (Panic "harddisk: request list destroyed")
  else
    match r_bh r with
    | Some b => h ← on_blk (bh_at b); if truth (b_lock h) then mret tt else halts (Panic "harddisk: block not locked")
    | None => mret tt
    end.

(** Whether the request is for a drive that is not there, or beyond its partition. *)
Definition out_of_range (dev block : Z) : M (hst D) bool :=
  s ← getS;
  if 5 * NR_HD s <=? dev then mret true
  else p ← ofOpt (aget (hd s) dev); mret (u32 (nr_sects p) <? u32 (block + 2)).

(** The command for the request [r]; [dev] is the drive, [retry] the jump to [repeat]. *)
Definition start_command (retry : M (hst D) unit) (r : request) (dev sec head cyl : Z) : M (hst D) unit :=
  if r_cmd r =? WRITE then
    hd_out dev (r_nr_sectors r) sec head cyl WIN_WRITE write_intr_ptr;;
    ok ← drq_loop (Z.to_nat 10000);
    if negb (ok : bool) then bad_rw_intr;; retry else port_write (r_buffer r) 256
  else if r_cmd r =? READ then hd_out dev (r_nr_sectors r) sec head cyl WIN_READ read_intr_ptr
  else halts (Panic "unknown hd-command").

(** [void do_hd_request(void)] *)
Fixpoint do_hd_request (fuel : nat) : M (hst D) unit :=
  match fuel with
  | O => halts Hang
  | S n =>
      c ← CURRENT;
      match c with
      | None => SET_INTR None
      | Some _ =>
          r ← current_req;
          check_request r;;
          let dev := hd_minor (r_dev r) in
          bad ← out_of_range dev (r_sector r);
          if (bad : bool) then on_blk (end_request MAJOR_NR 0);; do_hd_request n
          else
            s ← getS;
            p ← ofOpt (aget (hd s) dev);
            let dev := dev / 5 in
            hi ← ofOpt (aget (hd_info s) dev);
            '(block, sec) ← divl (r_sector r + start_sect p) (hi_sect hi);
            '(cyl, head) ← divl block (hi_head hi);
            let sec := sec + 1 in
            if truth (reset s) then modify (set_recalibrate 1);; reset_hd (do_hd_request n)
            else if truth (recalibrate s) then
              modify (set_recalibrate 0);;
              h2 ← ofOpt (aget (hd_info s) (DEVICE_NR (r_dev r)));
              hd_out dev (hi_sect h2) 0 0 0 WIN_RESTORE recal_intr_ptr
            else start_command (do_hd_request n) r dev sec head cyl
      end
  end.

(** ** Interrupts *)

(** [void unexpected_hd_interrupt(void)] *)
Definition unexpected_hd_interrupt (fuel : nat) : M (hst D) unit :=
  hd_printk "Unexpected HD interrupt\n\r";; modify (set_reset 1);; do_hd_request fuel.

(** [static void read_intr(void)] *)
Definition read_intr (fuel : nat) : M (hst D) unit :=
  bad ← win_result;
  if (bad : bool) then bad_rw_intr;; do_hd_request fuel
  else
    r ← current_req;
    port_read (r_buffer r) 256;;
    current_upd (fun r => set_r_progress 0 (u32 (r_sector r + 1)) (u32 (r_nr_sectors r - 1)) (r_buffer r + 512) r);;
    r ← current_req;
    if truth (r_nr_sectors r) then SET_INTR (Some read_intr_ptr)
    else on_blk (end_request MAJOR_NR 1);; do_hd_request fuel.

(** [static void write_intr(void)] *)
Definition write_intr (fuel : nat) : M (hst D) unit :=
  bad ← win_result;
  if (bad : bool) then bad_rw_intr;; do_hd_request fuel
  else
    current_upd (fun r => set_r_progress (r_errors r) (r_sector r) (u32 (r_nr_sectors r - 1)) (r_buffer r) r);;
    r ← current_req;
    if truth (r_nr_sectors r) then
      current_upd (fun r => set_r_progress (r_errors r) (u32 (r_sector r + 1)) (r_nr_sectors r) (r_buffer r + 512) r);;
      SET_INTR (Some write_intr_ptr);;
      r ← current_req;
      port_write (r_buffer r) 256
    else on_blk (end_request MAJOR_NR 1);; do_hd_request fuel.

(** [static void recal_intr(void)] *)
Definition recal_intr (fuel : nat) : M (hst D) unit :=
  bad ← win_result; (if (bad : bool) then bad_rw_intr else mret tt);; do_hd_request fuel.

(** [void hd_times_out(void)] *)
Definition hd_times_out (fuel : nat) : M (hst D) unit :=
  modify (set_do_hd None);;
  modify (set_reset 1);;
  c ← CURRENT;
  match c with
  | None => mret tt
  | Some _ =>
      hd_printk "HD timeout\n\r";;
      current_upd (fun r => set_r_progress (r_errors r + 1) (r_sector r) (r_nr_sectors r) (r_buffer r) r);;
      r ← current_req;
      (if MAX_ERRORS <=? r_errors r then on_blk (end_request MAJOR_NR 0) else mret tt);;
      do_hd_request fuel
  end.

(** [hd_interrupt]: the routine in [do_hd] is called once. *)
Definition hd_interrupt (fuel : nat) : M (hst D) unit :=
  on_ctl (outb 0x20 0xA0);;
  s ← getS;
  modify (set_do_hd None);;
  on_ctl (outb 0x20 0x20);;
  match do_hd s with
  | None => unexpected_hd_interrupt fuel
  | Some recal_intr_ptr => recal_intr fuel
  | Some reset_hd_ptr => reset_hd (do_hd_request fuel)
  | Some read_intr_ptr => read_intr fuel
  | Some write_intr_ptr => write_intr fuel
  end.

(** [void hd_init(void)] *)
Definition hd_init : M (hst D) unit :=
  modify (set_hd_installed true);;
  a ← on_ctl (inb 0x21); on_ctl (outb (Z.land a 0xfb) 0x21);;
  b ← on_ctl (inb 0xA1); on_ctl (outb (Z.land b 0xbf) 0xA1).

End Hd.
