(* ===== verification/HdOk.v ===== *)
(** * Theorems about the hard disk driver

    A read request that the controller serves fills its buffer sector by sector and
    ends; the sector asked for is the one the partition and the request name.  Minor
    numbers of a second drive or of logical partitions are refused, and the last
    error of the last request goes through a null pointer. *)

From S2P Require Import Prelude TaskStruct Buffer Cache Blk Elevator Hd.

Lemma put_words_app l1 : forall a l2 m, put_words a (l1 ++ l2) m = put_words (a + 2 * Z.of_nat (length l1)) l2 (put_words a l1 m).
Proof.
  induction l1 as [|w l1 IH]; intros a l2 m; cbn [put_words app length]; [by rewrite Z.add_0_r|]. rewrite IH. f_equal. lia.
Qed.

Lemma bind_tt {S} (m : M S unit) s : (m;; mret tt) s = m s.
Proof. unfold mbind, M_bind. by destruct (m s) as [[]|]. Qed.

(** Where a block is: cylinder, head and sector. *)
Definition chs (hi : hd_i_struct) (lba : Z) : Z * Z * Z := (lba / hi_sect hi / hi_head hi, (lba / hi_sect hi) mod hi_head hi, lba mod hi_sect hi + 1).

Lemma chs_inverse hi lba cyl head sec : 0 < hi_sect hi -> 0 < hi_head hi -> 0 <= lba -> chs hi lba = (cyl, head, sec) ->
  (cyl * hi_head hi + head) * hi_sect hi + (sec - 1) = lba /\ 1 <= sec <= hi_sect hi /\ 0 <= head < hi_head hi /\ 0 <= cyl.
Proof.
  intros Hs Hh Hl [= <- <- <-]. pose proof (Z.div_mod lba (hi_sect hi) ltac:(lia)). pose proof (Z.mod_pos_bound lba (hi_sect hi) Hs).
  pose proof (Z.div_mod (lba / hi_sect hi) (hi_head hi) ltac:(lia)). pose proof (Z.mod_pos_bound (lba / hi_sect hi) (hi_head hi) Hh).
  assert (0 <= lba / hi_sect hi) by (apply Z.div_pos; lia). split; [nia|]. split; [lia|]. split; [lia|]. apply Z.div_pos; lia.
Qed.

Section HdOk.
Context {D : Type} {HP : HdPorts D}.

(** The request being served. *)
Definition serving (s : hst D) (x : Z) (r : request) : Prop := aget (current_request (hblk s)) 3 = Some (Some x) /\ aget (requests (hblk s)) x = Some r.
Definition put_req (x : Z) (r : request) (s : hst D) : hst D := set_hblk (set_requests (<[Z.to_nat x := r]> (requests (hblk s))) (hblk s)) s.

Lemma on_blk_run {A} (m : M bst A) (s : hst D) a b : m (hblk s) = Ok a b -> on_blk m s = Ok a (set_hblk b s).
Proof using. intros H. unfold on_blk. by rewrite H. Qed.
Lemma on_blk_look {A} (m : M bst A) (s : hst D) a : m (hblk s) = Ok a (hblk s) -> on_blk m s = Ok a s.
Proof using. intros H. rewrite (on_blk_run _ _ _ _ H). by destruct s. Qed.
Lemma on_ctl_run {A} (m : M D A) (s : hst D) a d : m (hctl s) = Ok a d -> on_ctl m s = Ok a (set_hctl d s).
Proof using. intros H. unfold on_ctl. by rewrite H. Qed.

Lemma CURRENT_run s x r : serving s x r -> CURRENT s = Ok (Some x) s.
Proof using. intros [H _]. apply on_blk_look. unfold get_current, getS, mbind, M_bind, MAJOR_NR. by rewrite H. Qed.

Lemma current_req_run s x r : serving s x r -> current_req s = Ok r s.
Proof using.
  intros H. unfold current_req. rewrite (run_bind _ _ _ _ _ (CURRENT_run s x r H)), (run_bind _ _ _ x s) by done.
  apply on_blk_look. unfold req_at, getS, mbind, M_bind. by rewrite (proj2 H).
Qed.

Lemma current_upd_run s x r f : serving s x r -> current_upd f s = Ok tt (put_req x (f r) s) /\ serving (put_req x (f r) s) x (f r).
Proof using.
  intros H. split.
  - unfold current_upd. rewrite (run_bind _ _ _ _ _ (CURRENT_run s x r H)), (run_bind _ _ _ x s) by done. apply on_blk_run.
    destruct H as [_ H]. unfold req_upd, getS, mbind, M_bind. rewrite H. cbn. rewrite aset_in_range by (by eapply aget_Some_range). done.
  - destruct H as [H1 H2]. split; [done|]. cbn. apply aget_insert_eq. by eapply aget_Some_range.
Qed.

(** The controller answers an interrupt for each of the sectors [l], with no error. *)
Fixpoint delivers (d : D) (l : list (list Z)) (d' : D) : Prop :=
  match l with
  | [] => d' = d
  | ws :: l' => exists d1 d2 d3 d4 st, outb 0x20 0xA0 d = Ok tt d1 /\ outb 0x20 0x20 d1 = Ok tt d2 /\ inb HD_STATUS d2 = Ok st d3 /\ win_ok st = true /\
      insw 256 d3 = Ok ws d4 /\ length ws = 256%nat /\ delivers d4 l' d'
  end.

Fixpoint interrupts (n fuel : nat) : M (hst D) unit := match n with O => mret tt | S n' => hd_interrupt fuel;; interrupts n' fuel end.

(** The request after [n] sectors. *)
Definition progressed (r : request) (n : Z) : request := set_r_progress 0 (r_sector r + n) (r_nr_sectors r - n) (r_buffer r + 512 * n) r.

(** An interrupt up to the transfer. *)
Lemma read_sector_run fuel s x r ws d1 d2 d3 d4 st : serving s x r -> do_hd s = Some read_intr_ptr -> outb 0x20 0xA0 (hctl s) = Ok tt d1 -> outb 0x20 0x20 d1 = Ok tt d2 -> inb HD_STATUS d2 = Ok st d3 -> win_ok st = true ->
  insw 256 d3 = Ok ws d4 -> 0 < r_nr_sectors r < 2 ^ 32 -> 0 <= r_sector r < 2 ^ 32 - 1 ->
  let s1 := put_req x (progressed r 1) (set_hmem (put_words (r_buffer r) ws (hmem s)) (set_hctl d4 (set_do_hd None s))) in
  serving s1 x (progressed r 1) /\ hd_interrupt fuel s = (if r_nr_sectors r =? 1 then on_blk (end_request MAJOR_NR 1);; do_hd_request fuel else SET_INTR (Some read_intr_ptr)) s1.
Proof using.
  intros Hs Hdo H1 H2 H3 Hw H4 Hn Hsec s1. unfold hd_interrupt. rewrite (run_bind _ _ _ _ _ (on_ctl_run _ _ _ _ H1)). set (sa := set_hctl d1 s). rewrite (run_bind _ _ _ sa sa) by done.
  rewrite (run_bind _ _ _ tt (set_do_hd None sa)) by done. rewrite (run_bind _ _ _ tt (set_hctl d2 (set_do_hd None sa))) by (by rewrite (on_ctl_run _ _ tt d2)). change (do_hd sa) with (do_hd s). rewrite Hdo. unfold read_intr.
  set (sb := set_hctl d3 (set_do_hd None s)). rewrite (run_bind win_result _ _ false sb).
  2: { unfold win_result. rewrite (run_bind _ _ _ st sb) by (by rewrite (on_ctl_run _ _ st d3)). by rewrite Hw. }
  assert (Hsb : serving sb x r) by done. rewrite (run_bind _ _ _ _ _ (current_req_run sb x r Hsb)). set (sc := set_hmem (put_words (r_buffer r) ws (hmem s)) (set_hctl d4 (set_do_hd None s))).
  rewrite (run_bind _ _ _ tt sc). 2: { unfold port_read. by rewrite (run_bind _ _ _ ws (set_hctl d4 sb)) by (by rewrite (on_ctl_run _ _ ws d4)). }
  assert (Hsc : serving sc x r) by done. assert (E : (fun r0 => set_r_progress 0 (u32 (r_sector r0 + 1)) (u32 (r_nr_sectors r0 - 1)) (r_buffer r0 + 512) r0) r = progressed r 1).
  { cbv beta. unfold progressed. rewrite !u32_small by (unfold in_u32; lia). do 2 f_equal. }
  destruct (current_upd_run sc x r (fun r0 => set_r_progress 0 (u32 (r_sector r0 + 1)) (u32 (r_nr_sectors r0 - 1)) (r_buffer r0 + 512) r0) Hsc) as [R Hs1]. rewrite E in R, Hs1. split; [done|].
  rewrite (run_bind _ _ _ _ _ R). rewrite (run_bind _ _ _ _ _ (current_req_run _ _ _ Hs1)). cbn [r_nr_sectors progressed set_r_progress]. unfold truth.
  destruct (Z.eqb_spec (r_nr_sectors r - 1) 0), (Z.eqb_spec (r_nr_sectors r) 1); try lia; done.
Qed.

(** The state when all sectors are there. *)
Definition all_read (x : Z) (r : request) (l : list (list Z)) (d : D) (e : Z) (s : hst D) : hst D :=
  set_hblk (after_end 3 x 1 (progressed r (Z.of_nat (length l))) (set_requests (<[Z.to_nat x := progressed r (Z.of_nat (length l))]> (requests (hblk s))) (hblk s)))
    (set_hmem (put_words (r_buffer r) (concat l) (hmem s)) (set_hctl d (set_hd_timer e true (set_do_hd None s)))).

Lemma progressed_twice r a b : progressed (progressed r a) b = progressed r (a + b).
Proof using. unfold progressed, set_r_progress. cbn. f_equal; lia. Qed.

Lemma read_sectors_run fuel x : forall l s r d', serving s x r -> do_hd s = Some read_intr_ptr -> hd_active s = true -> hd_expires s = u32 (hd_jiffies s + TIMEOUT_VALUE) -> delivers (hctl s) l d' -> (0 < length l)%nat -> r_nr_sectors r = Z.of_nat (length l) -> r_nr_sectors r < 2 ^ 32 ->
  0 <= r_sector r -> r_sector r + r_nr_sectors r < 2 ^ 32 -> (forall b, r_bh r = Some b -> valid (hblk s) b) -> 3 < Z.of_nat (length (current_request (hblk s))) ->
  interrupts (length l) fuel s = do_hd_request fuel (all_read x r l d' (hd_expires s) s).
Proof using.
  induction l as [|ws l IH]; intros s r d' Hs Hdo Hact Hexp Hd Hl Hn Hn32 Hsec Hsec32 Hv Hcr; [cbn in Hl; lia|]. destruct Hd as (d1 & d2 & d3 & d4 & st & A1 & A2 & A3 & A4 & A5 & A6 & A7). cbn [length] in *.
  destruct (read_sector_run fuel s x r ws d1 d2 d3 d4 st Hs Hdo A1 A2 A3 A4 A5 ltac:(lia) ltac:(lia)) as [Hs1 R]. set (s1 := put_req _ _ _) in *. cbn [interrupts].
  destruct l as [|ws2 l].
  - change (interrupts (length []) fuel) with (mret (M := M (hst D)) tt). rewrite bind_tt, R. cbn [length] in Hn. rewrite Hn. change (Z.of_nat 1 =? 1) with true. cbn iota. cbn [delivers] in A7. subst d'.
    set (r1 := progressed r 1) in *. assert (Hend : end_request MAJOR_NR 1 (hblk s1) = Ok tt (after_end 3 x 1 r1 (hblk s1))).
    { apply end_request_run; [unfold MAJOR_NR; cbn; lia|apply Hs1|apply Hs1|exact Hv|done]. }
    rewrite (run_bind _ _ _ _ _ (on_blk_run _ _ _ _ Hend)). f_equal. unfold all_read. cbn [length concat]. rewrite app_nil_r. change (Z.of_nat 1) with 1. fold r1. unfold s1, put_req. destruct s; cbn in *. by subst.
  - assert (R' : hd_interrupt fuel s = Ok tt (set_hd_timer (u32 (hd_jiffies s1 + TIMEOUT_VALUE)) true (set_do_hd (Some read_intr_ptr) s1))) by (rewrite R; destruct (Z.eqb_spec (r_nr_sectors r) 1); [cbn [length] in Hn; lia|done]).
    rewrite (run_bind _ _ _ _ _ R'). set (s2 := set_hd_timer _ _ _). rewrite (IH s2 (progressed r 1) d'); try done.
    + f_equal. unfold all_read. change (concat (ws :: ws2 :: l)) with (ws ++ concat (ws2 :: l)). rewrite (put_words_app ws), A6. set (cc := concat (ws2 :: l)). cbn [length]. replace (Z.of_nat (S (S (length l)))) with (1 + Z.of_nat (S (length l))) by lia. rewrite progressed_twice. unfold s2, s1, put_req. destruct s; cbn in *. subst.
      rewrite list_insert_insert_eq. done.
    + cbn. lia.
    + cbn in Hn |- *. lia.
    + cbn in Hn |- *. lia.
    + cbn. lia.
    + cbn. lia.
Qed.

(** ** Starting a request *)

Lemma ready_loop_run n s st d : inb HD_STATUS (hctl s) = Ok st d -> Z.land st 0x80 = 0 -> ready_loop (S n) s = Ok (Z.of_nat (S n)) (set_hctl d s).
Proof using. intros H Hst. cbn [ready_loop]. rewrite (run_bind _ _ _ _ _ (on_ctl_run _ _ _ _ H)). by rewrite Hst. Qed.

Lemma hd_out_run drive nsect sect head cyl cmd intr s st d0 d1 hi : 0 <= drive <= 1 -> 0 <= head <= 15 -> inb HD_STATUS (hctl s) = Ok st d0 -> Z.land st 0x80 = 0 -> aget (hd_info s) drive = Some hi ->
  hd_regs hi drive nsect sect head cyl cmd d0 = Ok tt d1 ->
  hd_out drive nsect sect head cyl cmd intr s = Ok tt (set_hctl d1 (set_hd_timer (u32 (hd_jiffies s + TIMEOUT_VALUE)) true (set_do_hd (Some intr) s))).
Proof using.
  intros Hd Hh H1 H2 H3 H4. unfold hd_out. rewrite !u32_small by (unfold in_u32; lia). destruct (Z.ltb_spec 1 drive); [lia|]. destruct (Z.ltb_spec 15 head); [lia|]. cbn [orb].
  unfold controller_ready. change (Z.to_nat 99999) with (S (Z.to_nat 99998)). rewrite (run_bind _ _ _ _ _ (ready_loop_run _ s st d0 H1 H2)). destruct (Z.eqb_spec (Z.of_nat (S (Z.to_nat 99998))) 0); [lia|].
  set (s1 := set_hd_timer (u32 (hd_jiffies s + TIMEOUT_VALUE)) true (set_do_hd (Some intr) (set_hctl d0 s))). rewrite (run_bind _ _ _ tt s1) by done. rewrite (run_bind _ _ _ s1 s1) by done. change (hd_info s1) with (hd_info s). rewrite H3, (run_bind _ _ _ hi s1) by done.
  by rewrite (on_ctl_run _ _ tt d1).
Qed.

(** A request in order: on a partition of a drive that is there, within it, its
    buffer locked. *)
Record good_request (s : hst D) (x : Z) (r : request) (p : hd_struct) (hi : hd_i_struct) : Prop := {
  gq_serving : serving s x r;
  gq_major : MAJOR (r_dev r) = MAJOR_NR;
  gq_lock : forall b, r_bh r = Some b -> exists h, aget (bufs (hblk s)) b = Some h /\ truth (b_lock h) = true;
  gq_drive : hd_minor (r_dev r) < 5 * NR_HD s;
  gq_part : aget (hd s) (hd_minor (r_dev r)) = Some p;
  gq_end : 0 <= r_sector r /\ r_sector r + 2 <= nr_sects p < 2 ^ 32;
  gq_start : 0 <= start_sect p /\ r_sector r + start_sect p < 2 ^ 32;
  gq_info : aget (hd_info s) (hd_minor (r_dev r) / 5) = Some hi;
  gq_two : hd_minor (r_dev r) / 5 <= 1;
  gq_geometry : 0 < hi_sect hi < 2 ^ 32 /\ 0 < hi_head hi <= 16
}.

Lemma minor_range a : 0 <= hd_minor a < 256.
Proof using. unfold hd_minor. change 0xff with (Z.ones 8). rewrite Z.land_ones by lia. apply Z.mod_pos_bound. lia. Qed.

Lemma check_request_run s x r p hi : good_request s x r p hi -> check_request r s = Ok tt s.
Proof using.
  intros [G1 G2 G3 _ _ _ _ _ _ _]. unfold check_request. rewrite G2, Z.eqb_refl. cbn [negb]. destruct (r_bh r) as [b|]; [|done]. destruct (G3 b eq_refl) as (h & Hb & Hl).
  rewrite (run_bind _ _ _ h s) by (apply on_blk_look; by apply bh_at_run). by rewrite Hl.
Qed.

(** What [do_hd_request] does with it, when no reset is pending. *)
Lemma do_hd_request_run n s x r p hi : good_request s x r p hi -> reset s = 0 -> recalibrate s = 0 ->
  let '(cyl, head, sec) := chs hi (r_sector r + start_sect p) in
  do_hd_request (S n) s = start_command (do_hd_request n) r (hd_minor (r_dev r) / 5) sec head cyl s.
Proof using.
  intros G Hr Hc. pose proof (check_request_run s x r p hi G) as Hck. destruct G as [G1 G2 G3 G4 G5 G6 G7 G8 G9 G10]. unfold chs. cbn [do_hd_request]. rewrite (run_bind _ _ _ _ _ (CURRENT_run s x r G1)), (run_bind _ _ _ _ _ (current_req_run s x r G1)), (run_bind _ _ _ _ _ Hck).
  set (mi := hd_minor (r_dev r)) in *. rewrite (run_bind _ _ _ false s).
  2: { unfold out_of_range. rewrite (run_bind _ _ _ s s) by done. destruct (Z.leb_spec (5 * NR_HD s) mi); [lia|]. rewrite G5, (run_bind _ _ _ p s) by done. rewrite !u32_small by (unfold in_u32; lia). by destruct (Z.ltb_spec (nr_sects p) (r_sector r + 2)); [lia|]. }
  rewrite (run_bind _ _ _ s s) by done. rewrite G5, (run_bind _ _ _ p s) by done. rewrite G8, (run_bind _ _ _ hi s) by done. set (lba := r_sector r + start_sect p) in *.
  assert (Hq : 0 <= lba / hi_sect hi < 2 ^ 32) by (split; [apply Z.div_pos; lia|apply Z.div_lt_upper_bound; nia]).
  rewrite (run_bind _ _ _ (lba / hi_sect hi, lba mod hi_sect hi) s) by (unfold divl; rewrite !u32_small by (unfold in_u32; lia); by destruct (Z.eqb_spec (hi_sect hi) 0); [lia|]).
  rewrite (run_bind _ _ _ (lba / hi_sect hi / hi_head hi, (lba / hi_sect hi) mod hi_head hi) s) by (unfold divl; rewrite !u32_small by (unfold in_u32; lia); by destruct (Z.eqb_spec (hi_head hi) 0); [lia|]).
  by rewrite Hr, Hc.
Qed.

(** C4: Reading a disk.  For a read request in order, with the controller ready,
    [do_hd_request] writes the registers for cylinder [cyl], head [head] and sector
    [sec], which are those of the requested sector of the partition.  When the
    controller then answers with an interrupt for each sector and reports no error,
    the handlers put the sectors into the buffer one behind the other, the request is
    taken off the queue with its buffer up to date and unlocked, and the next one is
    started: [all_read] says what the state is then. *)
Theorem hd_read fuel n s x r p hi l d0 d1 d' st cyl head sec : good_request s x r p hi -> r_cmd r = READ -> reset s = 0 -> recalibrate s = 0 -> chs hi (r_sector r + start_sect p) = (cyl, head, sec) ->
  inb HD_STATUS (hctl s) = Ok st d0 -> Z.land st 0x80 = 0 -> hd_regs hi (hd_minor (r_dev r) / 5) (r_nr_sectors r) sec head cyl WIN_READ d0 = Ok tt d1 -> delivers d1 l d' ->
  (0 < length l)%nat -> r_nr_sectors r = Z.of_nat (length l) -> r_sector r + r_nr_sectors r < 2 ^ 32 -> length (current_request (hblk s)) = Z.to_nat NR_BLK_DEV ->
  (cyl * hi_head hi + head) * hi_sect hi + (sec - 1) = r_sector r + start_sect p /\ 1 <= sec <= hi_sect hi /\ 0 <= head < hi_head hi /\
  (do_hd_request (S n);; interrupts (length l) fuel) s = do_hd_request fuel (all_read x r l d' (u32 (hd_jiffies s + TIMEOUT_VALUE)) s).
Proof using.
  intros G Hcmd Hr Hc Hchs H1 H2 H3 Hd Hl Hn Hsec Hlen. pose proof G as [G1 G2 G3 G4 G5 G6 G7 G8 G9 G10]. pose proof (minor_range (r_dev r)) as Hmi.
  destruct (chs_inverse hi (r_sector r + start_sect p) cyl head sec ltac:(lia) ltac:(lia) ltac:(lia) Hchs) as (I1 & I2 & I3 & I4). split; [done|]. split; [done|]. split; [done|].
  pose proof (do_hd_request_run n s x r p hi G Hr Hc) as R. rewrite Hchs in R. unfold start_command in R. rewrite Hcmd in R. change (READ =? WRITE) with false in R. change (READ =? READ) with true in R. cbn iota in R.
  rewrite (hd_out_run _ _ _ _ _ _ _ s st d0 d1 hi) in R; try done; [|split; [apply Z.div_pos; lia|done]|lia]. rewrite (run_bind _ _ _ _ _ R).
  set (s1 := set_hctl d1 _). rewrite (read_sectors_run fuel x l s1 r d'); try done; try lia.
  - intros b Hb. destruct (G3 b Hb) as (h & Hh & _). unfold valid. by eapply aget_Some_range.
  - cbn. rewrite Hlen. unfold NR_BLK_DEV. lia.
Qed.

(** Minor numbers beyond five per drive are refused.  The partition tables are kept
    with 64 minor numbers per drive, but [do_hd_request] counts five: a request for a
    minor number from [5 * NR_HD] on, a logical partition of the first of two drives or
    any partition of the second one, fails with an I/O error, whatever [check_partition]
    found there. *)
Theorem hd_refuses n s x r b h : serving s x r -> MAJOR (r_dev r) = MAJOR_NR -> r_bh r = Some b -> aget (bufs (hblk s)) b = Some h -> truth (b_lock h) = true -> length (current_request (hblk s)) = Z.to_nat NR_BLK_DEV ->
  5 * NR_HD s <= hd_minor (r_dev r) ->
  do_hd_request (S n) s = do_hd_request n (set_hblk (after_end 3 x 0 r (hblk s)) s) /\
  aget (bufs (after_end 3 x 0 r (hblk s))) b = Some (set_b_lock 0 (set_b_uptodate 0 h)) /\ aget (current_request (after_end 3 x 0 r (hblk s))) 3 = Some (r_next r).
Proof using.
  intros Hs Hm Hb Hh Hl Hlen Hd. pose proof (aget_Some_range _ _ _ Hh) as Hr. split; [|split].
  - cbn [do_hd_request]. rewrite (run_bind _ _ _ _ _ (CURRENT_run s x r Hs)), (run_bind _ _ _ _ _ (current_req_run s x r Hs)).
    rewrite (run_bind _ _ _ tt s) by (unfold check_request; rewrite Hm, Z.eqb_refl, Hb; cbn [negb]; rewrite (run_bind _ _ _ h s) by (apply on_blk_look; by apply bh_at_run); by rewrite Hl).
    rewrite (run_bind _ _ _ true s) by (unfold out_of_range; rewrite (run_bind _ _ _ s s) by done; by destruct (Z.leb_spec (5 * NR_HD s) (hd_minor (r_dev r))); [|lia]).
    rewrite (run_bind _ _ _ tt (set_hblk (after_end 3 x 0 r (hblk s)) s)); [done|]. apply on_blk_run. apply end_request_run; [rewrite Hlen; unfold MAJOR_NR, NR_BLK_DEV; lia|apply Hs|apply Hs|intros b' Hb'; rewrite Hb in Hb'; by injection Hb' as <-|by rewrite Hb].
  - unfold after_end. rewrite Hb. cbn. unfold finish, upd_buf. cbn. unfold aget in *. destruct (b <? 0); [done|]. rewrite !list_lookup_alter. rewrite !decide_True by done. by rewrite Hh.
  - unfold after_end. rewrite Hb. change (aget (<[Z.to_nat 3 := r_next r]> (current_request (hblk s))) 3 = Some (r_next r)). apply aget_insert_eq. rewrite Hlen. unfold NR_BLK_DEV. lia.
Qed.

(** The last error of the last request.  [bad_rw_intr] counts an error; the seventh
    one ends the request and then looks at the errors of the request after it.  When
    there is none, it reads through a null pointer. *)
Theorem bad_rw_intr_last s x r b : serving s x r -> r_bh r = Some b -> valid (hblk s) b -> length (current_request (hblk s)) = Z.to_nat NR_BLK_DEV ->
  let r1 := set_r_progress (r_errors r + 1) (r_sector r) (r_nr_sectors r) (r_buffer r) r in
  (r_errors r + 1 < MAX_ERRORS -> bad_rw_intr s = Ok tt (if 3 <? r_errors r + 1 then set_reset 1 (put_req x r1 s) else put_req x r1 s)) /\
  (MAX_ERRORS <= r_errors r + 1 -> r_next r = None -> exists s', bad_rw_intr s = Halt Fault s').
Proof using.
  intros Hs Hb Hv Hlen r1. destruct (current_upd_run s x r (fun r => set_r_progress (r_errors r + 1) (r_sector r) (r_nr_sectors r) (r_buffer r) r) Hs) as [R1 Hs1]. cbv beta in R1, Hs1. fold r1 in R1, Hs1. unfold bad_rw_intr.
  rewrite (run_bind _ _ _ _ _ R1), (run_bind _ _ _ _ _ (current_req_run _ _ _ Hs1)). change (r_errors r1) with (r_errors r + 1). split.
  - intros He. destruct (Z.leb_spec MAX_ERRORS (r_errors r + 1)); [lia|]. rewrite bind_ret, (run_bind _ _ _ _ _ (current_req_run _ _ _ Hs1)). change (r_errors r1) with (r_errors r + 1). change (MAX_ERRORS / 2) with 3. by destruct (3 <? r_errors r + 1).
  - intros He Hnx. destruct (Z.leb_spec MAX_ERRORS (r_errors r + 1)); [|lia]. set (s1 := put_req x r1 s) in *.
    assert (Hend : end_request MAJOR_NR 0 (hblk s1) = Ok tt (after_end 3 x 0 r1 (hblk s1))) by (apply end_request_run; [change (0 <= 3 < Z.of_nat (length (current_request (hblk s)))); rewrite Hlen; unfold NR_BLK_DEV; lia|apply Hs1|apply Hs1|intros b' Hb'; cbn in Hb'; rewrite Hb in Hb'; by injection Hb' as <-|cbn; by rewrite Hb]).
    rewrite (run_bind _ _ _ _ _ (on_blk_run _ _ _ _ Hend)). set (s2 := set_hblk _ s1). assert (Hc : CURRENT s2 = Ok None s2).
    { apply on_blk_look. unfold get_current, getS, mbind, M_bind. change (hblk s2) with (after_end 3 x 0 r1 (hblk s1)). unfold after_end. change (r_bh r1) with (r_bh r). rewrite Hb. cbn [current_request set_current]. change (r_next r1) with (r_next r). rewrite Hnx.
      rewrite aget_insert_eq; [done|]. change (0 <= 3 < Z.of_nat (length (current_request (hblk s)))). rewrite Hlen. unfold NR_BLK_DEV. lia. }
    exists s2. unfold current_req. rewrite bind_assoc. by rewrite (run_bind _ _ _ _ _ Hc).
Qed.

End HdOk.

(** ** A controller that has one sector after another *)

(** It counts the sectors it has given. *)
#[local] Instance demo_ports : HdPorts Z := {| inb := fun port => mret (if port =? HD_STATUS then 0x50 else 0); outb := fun _ _ => mret tt; insw := fun n => k ← getS; modify (fun k => k + 1);; mret (replicate n k); outsw := fun _ => mret tt |}.

Definition demo_hd_bst (r : request) : bst := Bst [Buf 0x1000 5 0x301 0 0 1 1 None None None None] 1 [] None ∅ ∅ [r] [None; None; None; Some 0; None; None; None].
Definition demo_hd (minor : Z) : hst Z := Hst (demo_hd_bst (Req (0x300 + minor) READ 0 10 2 0x1000 false (Some 0) None)) 7 ∅ [HdI 16 63 1000 0 0 8] 1 [HdS 0 1008000; HdS 63 100000] 0 0 None 0 0 false 100 true [].

Lemma hd_read_witness : let s := demo_hd 1 in let r := Req 0x301 READ 0 10 2 0x1000 false (Some 0) None in
  (0 * 16 + 1) * 63 + (11 - 1) = 10 + 63 /\ 1 <= 11 <= 63 /\ 0 <= 1 < 16 /\
  (do_hd_request 5;; interrupts 2 3) s = do_hd_request 3 (all_read 0 r [replicate 256 7; replicate 256 8] 9 700 s).
Proof.
  apply (hd_read 3 4 (demo_hd 1) 0 (Req 0x301 READ 0 10 2 0x1000 false (Some 0) None) (HdS 63 100000) (HdI 16 63 1000 0 0 8) [replicate 256 7; replicate 256 8] 7 7 9 0x50 0 1 11); try reflexivity; try (cbn; lia).
  - split; [split; reflexivity|reflexivity|intros b [= <-]; by eexists|..]; first [reflexivity | vm_compute; repeat split; (reflexivity || discriminate)].
  - exists 7, 7, 7, 8, 0x50. do 6 (split; [reflexivity|]). exists 8, 8, 8, 9, 0x50. do 6 (split; [reflexivity|]). reflexivity.
Defined.

Lemma hd_refuses_witness : let s := demo_hd 6 in let r := Req 0x306 READ 0 10 2 0x1000 false (Some 0) None in
  do_hd_request 5 s = do_hd_request 4 (set_hblk (after_end 3 0 0 r (hblk s)) s) /\
  aget (bufs (after_end 3 0 0 r (hblk s))) 0 = Some (Buf 0x1000 5 0x301 0 0 1 0 None None None None) /\ aget (current_request (after_end 3 0 0 r (hblk s))) 3 = Some None.
Proof. apply (hd_refuses 4 (demo_hd 6) 0 (Req 0x306 READ 0 10 2 0x1000 false (Some 0) None) 0 (Buf 0x1000 5 0x301 0 0 1 1 None None None None)); [split; reflexivity|reflexivity..|vm_compute; discriminate]. Defined.

Definition demo_hd_failed : hst Z := put_req 0 (Req 0x301 READ 6 10 2 0x1000 false (Some 0) None) (demo_hd 1).
Lemma bad_rw_intr_last_witness : (7 < MAX_ERRORS -> False) /\ exists s', bad_rw_intr demo_hd_failed = Halt Fault s'.
Proof.
  split; [unfold MAX_ERRORS; lia|]. apply (bad_rw_intr_last demo_hd_failed 0 (Req 0x301 READ 6 10 2 0x1000 false (Some 0) None) 0); [split; reflexivity|reflexivity|vm_compute; split; [discriminate|reflexivity]|reflexivity|cbn; unfold MAX_ERRORS; lia|reflexivity].
Defined.
