(* ===== verification/Partition.v ===== *)
(** * Partition tables and the set-up of the disks: the rest of [kernel/blk_drv/hd.c]

    [sys_setup] takes the geometry of the drives from the BIOS and reads their
    partition tables through the buffer cache: four primary partitions, the chain of
    logical partitions inside an extended one, and those of the Disk Manager.

    The geometry the BIOS left is a list of bytes; the cache is the interface
    [BufferCache]; [rd_load] and [mount_root] are arguments. *)

From S2P Require Import Prelude TaskStruct Fs Inode Hd.

Definition EXTENDED_PARTITION : Z := 5.

Record pst (C : Type) := Pst {
  pcache : C;
  p_hd : list hd_struct;               (* hd[MAX_HD << 6] *)
  p_info : list hd_i_struct;           (* hd_info[] *)
  p_nr_hd : Z;                         (* NR_HD *)
  current_minor : Z;
  callable : Z;                        (* of sys_setup *)
  hd_sizes : list Z;
  p_blk_size : bool;                   (* blk_size[MAJOR_NR] = hd_sizes *)
  p_log : list string
}.
Arguments Pst {_}. Arguments pcache {_}. Arguments p_hd {_}. Arguments p_info {_}. Arguments p_nr_hd {_}. Arguments current_minor {_}. Arguments callable {_}. Arguments hd_sizes {_}. Arguments p_blk_size {_}. Arguments p_log {_}.

Section Partition.
Context {C : Type} `{BufferCache C}.

Definition set_pcache (v : C) (s : pst C) : pst C := Pst v (p_hd s) (p_info s) (p_nr_hd s) (current_minor s) (callable s) (hd_sizes s) (p_blk_size s) (p_log s).
Definition set_p_hd v (s : pst C) := Pst (pcache s) v (p_info s) (p_nr_hd s) (current_minor s) (callable s) (hd_sizes s) (p_blk_size s) (p_log s).
Definition set_p_info v (s : pst C) := Pst (pcache s) (p_hd s) v (p_nr_hd s) (current_minor s) (callable s) (hd_sizes s) (p_blk_size s) (p_log s).
Definition set_p_nr_hd v (s : pst C) := Pst (pcache s) (p_hd s) (p_info s) v (current_minor s) (callable s) (hd_sizes s) (p_blk_size s) (p_log s).
Definition set_current_minor v (s : pst C) := Pst (pcache s) (p_hd s) (p_info s) (p_nr_hd s) v (callable s) (hd_sizes s) (p_blk_size s) (p_log s).
Definition set_callable v (s : pst C) := Pst (pcache s) (p_hd s) (p_info s) (p_nr_hd s) (current_minor s) v (hd_sizes s) (p_blk_size s) (p_log s).
Definition set_hd_sizes v (s : pst C) := Pst (pcache s) (p_hd s) (p_info s) (p_nr_hd s) (current_minor s) (callable s) v true (p_log s).
Definition add_p_log m (s : pst C) := Pst (pcache s) (p_hd s) (p_info s) (p_nr_hd s) (current_minor s) (callable s) (hd_sizes s) (p_blk_size s) (p_log s ++ [m]).

Definition with_cache {A} (m : M C A) : M (pst C) A :=
  fun s => match m (pcache s) with Ok a c => Ok a (set_pcache c s) | Halt h c => Halt h (set_pcache c s) end.
Definition p_printk (m : string) : M (pst C) unit := modify (add_p_log m).

(** [hd[i]] and assignments to its fields. *)
Definition hd_at (i : Z) : M (pst C) hd_struct := s ← getS; ofOpt (aget (p_hd s) i).
Definition hd_upd (i : Z) (f : hd_struct -> hd_struct) : M (pst C) unit :=
  s ← getS; e ← ofOpt (aget (p_hd s) i); l ← ofOpt (aset (p_hd s) i (f e)); modify (set_p_hd l).
Definition put_start (i v : Z) : M (pst C) unit := hd_upd i (fun e => HdS (s32 v) (nr_sects e)).
Definition put_nr (i v : Z) : M (pst C) unit := hd_upd i (fun e => HdS (start_sect e) (s32 v)).

(** Numbers in a buffer: [*(unsigned short * )(bh->b_data + o)], and of 32 bits. *)
Definition data_byte (x o : Z) : M (pst C) Z := with_cache (bh_byte x o).
Definition data_short (x o : Z) : M (pst C) Z := a ← data_byte x o; b ← data_byte x (o + 1); mret (a + 256 * b).
Definition data_long (x o : Z) : M (pst C) Z := a ← data_short x o; b ← data_short x (o + 2); mret (a + 65536 * b).

(** The fields of the [struct partition] at offset [p] that are used. *)
Definition sys_ind (x p : Z) : M (pst C) Z := data_byte x (p + 4).
Definition part_start (x p : Z) : M (pst C) Z := data_long x (p + 8).
Definition part_nr (x p : Z) : M (pst C) Z := data_long x (p + 12).

(** A round of [extended_partition]: [inl] goes on with the next table, with [dev] and
    [this_sector]. *)
Definition extended_step (first_sector : Z) (st : Z * Z) : M (pst C) ((Z * Z) + unit) :=
  let '(dev, this_sector) := st in
  s ← getS;
  if 60 <=? Z.land (current_minor s) 0x3f then mret (inr tt)
  else
    bh ← with_cache (bread dev 0);
    match bh with
    | None => p_printk "Unable to read partition table of device %04x\n";; mret (inr tt)
    | Some x =>
        with_cache (set_bh_dirt x 0);;
        with_cache (set_bh_uptodate x 0);;
        magic ← data_short x 510;
        let done : M (pst C) ((Z * Z) + unit) := with_cache (brelse (Some x));; mret (inr tt) in
        if magic =? 0xAA55 then
          let p := 0x1BE in
          i ← sys_ind x p;
          if i =? EXTENDED_PARTITION then done
          else
            n ← part_nr x p;
            put_nr (current_minor s) n;;
            if n =? 0 then done
            else
              b ← part_start x p;
              put_start (current_minor s) (this_sector + b);;
              modify (fun s => set_current_minor (u32 (current_minor s + 1)) s);;
              let p := p + 16 in
              i ← sys_ind x p;
              if negb (i =? EXTENDED_PARTITION) then done
              else
                s ← getS;
                n ← part_nr x p;
                put_nr (current_minor s) n;;
                if n =? 0 then done
                else
                  b ← part_start x p;
                  put_start (current_minor s) (first_sector + b);;
                  with_cache (brelse (Some x));;
                  mret (inl (Z.lor 0x0300 (current_minor s), u32 (first_sector + b)))
        else done
    end.

(** [static void extended_partition(unsigned int dev)]; every round that goes on takes
    a minor number. *)
Definition extended_partition (dev : Z) : M (pst C) unit :=
  e ← hd_at (MINOR dev);
  let first_sector := u32 (start_sect e) in
  iter 64 (extended_step first_sector) (dev, first_sector).

(** The loop of [check_partition] over the four primary partitions. *)
Definition primary (x first_sector minor i : Z) : M (pst C) unit :=
  let p := 0x1BE + 16 * i in
  let minor := minor + i in
  n ← part_nr x p;
  put_nr minor n;;
  if n =? 0 then mret tt
  else
    b ← part_start x p;
    put_start minor (first_sector + b);;
    s ← getS;
    if 60 <=? Z.land (current_minor s) 0x3f then mret tt
    else
      t ← sys_ind x p;
      if t =? EXTENDED_PARTITION then extended_partition (Z.lor 0x0300 minor) else mret tt.

(** The loop over the twelve partitions of the Disk Manager; [true] is the [break]. *)
Fixpoint disk_manager (x : Z) (k : nat) (p : Z) : M (pst C) unit :=
  match k with
  | O => mret tt
  | S k' =>
      let p := p - 16 in
      s ← getS;
      let m := current_minor s in
      if 60 <=? Z.land m 0x3f then mret tt
      else
        b ← part_start x p; n ← part_nr x p;
        (if truth b && truth n then put_start m b;; put_nr m n;; p_printk " DM part %d start %d size %d end %d\n\r" else mret tt);;
        modify (fun s => set_current_minor (u32 (current_minor s + 1)) s);;
        disk_manager x k' p
  end.

(** [static void check_partition(unsigned int dev)] *)
Definition check_partition (dev : Z) : M (pst C) unit :=
  s ← getS;
  let minor := s32 (current_minor s) in
  e ← hd_at (MINOR dev);
  let first_sector := u32 (start_sect e) in
  bh ← with_cache (bread dev 0);
  match bh with
  | None => p_printk "Unable to read partition table of device %04x\n"
  | Some x =>
      p_printk "Drive %d:\n\r";;
      modify (fun s => set_current_minor (u32 (current_minor s + 4)) s);;
      magic ← data_short x 510;
      (if magic =? 0xAA55 then
         for_each (range 0 4) (primary x first_sector minor);;
         dm ← data_short x 0xfc;
         if dm =? 0x55AA then disk_manager x 12 0x1BE else mret tt
       else p_printk "Bad partition table on dev %04x\n");;
      with_cache (brelse (Some x))
  end.

(** The geometry of a drive, from the sixteen bytes of the BIOS at [o]. *)
Definition bios_info (bios : list Z) (o : Z) : option hd_i_struct :=
  let b i := aget bios (o + i) in
  let w i := match b i, b (i + 1) with Some x, Some y => Some (x + 256 * y) | _, _ => None end in
  match w 0, b 2, w 5, b 8, w 12, b 14 with
  | Some cyl, Some head, Some wpcom, Some ctl, Some lzone, Some sect => Some (HdI head sect cyl wpcom lzone ctl)
  | _, _, _, _, _, _ => None
  end.

(** [int sys_setup(void * BIOS)]; [cmos_disks] is what the clock chip answers. *)
Definition sys_setup (bios : list Z) (cmos_disks : Z) (rd_load mount_root : M (pst C) unit) : M (pst C) Z :=
  s ← getS;
  if negb (truth (callable s)) then mret (-1)
  else
    modify (set_callable 0);;
    i0 ← ofOpt (bios_info bios 0); i1 ← ofOpt (bios_info bios 16);
    modify (set_p_info [i0; i1]);;
    let nr := if truth (Z.land cmos_disks 0xf0) then (if truth (Z.land cmos_disks 0x0f) then 2 else 1) else 0 in
    modify (set_p_nr_hd nr);;
    modify (set_p_hd (replicate (Z.to_nat (Z.shiftl MAX_HD 6)) (HdS 0 0)));;
    for_each (range 0 (Z.to_nat nr)) (fun i =>
      s ← getS; hi ← ofOpt (aget (p_info s) i); put_nr (Z.shiftl i 6) (hi_head hi * hi_sect hi * hi_cyl hi));;
    for_each (range 0 (Z.to_nat nr)) (fun drive =>
      modify (set_current_minor (1 + Z.shiftl drive 6));; check_partition (0x0300 + Z.shiftl drive 6));;
    modify (fun s => set_hd_sizes ((fun e => Z.shiftr (nr_sects e) 1) <$> p_hd s) s);;
    (if truth nr then p_printk "Partition table%s ok.\n\r" else mret tt);;
    rd_load;;
    mount_root;;
    mret 0.

End Partition.
