(* ===== verification/PartOk.v ===== *)
(** * Theorems about partition tables

    Whatever a disk holds, following its chain of logical partitions ends, and writes
    only entries of the table that belong to the drive. *)

From S2P Require Import Prelude TaskStruct Fs Store MinixOk Inode Hd Partition.

Section PartOk.
Context {C : Type} {HB : BufferCache C} {HV : CacheView C} {HL : BufferCacheOk C}.

(** A buffer that was taken, changed and given back. *)
Lemma taken_and_given c0 c1 w b x c2 w2 : cwf c0 -> becomes c0 c1 b w -> bv_id w = x -> bv_count w = refs c0 b + 1 -> becomes c1 c2 b w2 -> bv_id w2 = bv_id w -> bv_count w2 = bv_count w -> cwf c2 -> settled c2 b w2 ->
  exists c3, brelse (Some x) c2 = Ok tt c3 /\ cwf c3 /\ (forall a, refs c3 a = refs c0 a) /\ size (held c3) = size (held c0) /\ capacity c3 = capacity c0.
Proof using HL.
  intros Hc0 Hb1 Hx Hn Hb2 Hid Hcnt Hc2 Hset. pose proof (becomes_buffer _ _ _ _ Hb2) as Hbuf. rewrite Hid, Hx in Hbuf.
  destruct (brelse_law x b w2 c2 Hc2 Hbuf Hset) as (c3 & R & Hc3 & Hh & Hcap & _). exists c3. split; [done|]. split; [done|].
  assert (E2 : held c2 = <[b := w2]> (held c0)) by (rewrite (proj1 Hb2), (proj1 Hb1); apply insert_insert_eq). rewrite Hcnt, Hn, E2 in Hh.
  assert (Hh' : match held c0 !! b with Some w0 => held c3 = <[b := set_bv_count (bv_count w0) w2]> (held c0) | None => held c3 = held c0 end).
  { unfold refs in Hh. destruct (held c0 !! b) as [w0|] eqn:E0.
    - pose proof (cwf_count _ Hc0 _ _ E0). destruct (Z.eqb_spec (bv_count w0 + 1) 1); [lia|]. rewrite Hh, insert_insert_eq. do 2 f_equal. lia.
    - change (0 + 1 =? 1) with true in Hh. cbn iota in Hh. by rewrite Hh, delete_insert_id. }
  split; [|split; [|by rewrite Hcap, (proj2 (proj2 Hb2)), (proj2 (proj2 Hb1))]].
  - intros a. unfold refs. destruct (held c0 !! b) as [w0|] eqn:E0; [|by rewrite Hh']. rewrite Hh'. destruct (decide (a = b)) as [->|]; [by rewrite lookup_insert_eq, E0|by rewrite lookup_insert_ne].
  - destruct (held c0 !! b) as [w0|] eqn:E0; [|by rewrite Hh']. rewrite Hh', <-!size_dom. f_equal. apply dom_insert_lookup_L. by rewrite E0.
Qed.

(** The cache is in order, and there is a buffer to be had. *)
Definition quiet_cache (c : C) : Prop := cwf c /\ (forall a, refs c a < 255) /\ room 1 c.

(** Entries from [lo] to [hi] may have changed. *)
Definition table_step (lo hi : Z) (l l' : list hd_struct) : Prop := length l' = length l /\ forall i, ~ lo <= i <= hi -> aget l' i = aget l i.

Lemma table_step_refl lo hi l : table_step lo hi l l.
Proof using. by split. Qed.
Lemma table_step_trans lo hi l1 l2 l3 : table_step lo hi l1 l2 -> table_step lo hi l2 l3 -> table_step lo hi l1 l3.
Proof using.
  intros [A1 A2] [B1 B2]. split; [congruence|]. intros i Hi. by rewrite B2, A2.
Qed.
Lemma table_step_mono lo lo' hi hi' l l' : table_step lo hi l l' -> lo' <= lo -> hi <= hi' -> table_step lo' hi' l l'.
Proof using. intros [A B] H1 H2. split; [done|]. intros i Hi. apply B. lia. Qed.

Lemma hd_upd_run i f (s : pst C) : 0 <= i < Z.of_nat (length (p_hd s)) -> exists l, hd_upd i f s = Ok tt (set_p_hd l s) /\ table_step i i (p_hd s) l.
Proof using.
  intros Hi. destruct (aget_in_range (p_hd s) i Hi) as [e He]. exists (<[Z.to_nat i := f e]> (p_hd s)). split.
  - unfold hd_upd. rewrite (run_bind _ _ _ s s) by done. rewrite He, (run_bind _ _ _ e s) by done. rewrite aset_in_range by done. by rewrite (run_bind _ _ _ (<[Z.to_nat i := f e]> (p_hd s)) s) by done.
  - split; [apply length_insert|]. intros j Hj. destruct (Z.lt_ge_cases j 0); [unfold aget; by destruct (Z.ltb_spec j 0); [|lia]|]. apply aget_insert_ne; lia.
Qed.

(** Reading from a buffer that is held. *)
Lemma with_cache_look {A} (m : M C A) (s : pst C) a : m (pcache s) = Ok a (pcache s) -> with_cache m s = Ok a s.
Proof using. intros H. unfold with_cache. rewrite H. by destruct s. Qed.
Lemma with_cache_run {A} (m : M C A) (s : pst C) a c : m (pcache s) = Ok a c -> with_cache m s = Ok a (set_pcache c s).
Proof using. intros H. unfold with_cache. by rewrite H. Qed.

Definition holding (s : pst C) (x : Z) : Prop := exists b w, cwf (pcache s) /\ buffer (pcache s) x b w.
Lemma data_byte_run s x o : holding s x -> 0 <= o < 1024 -> exists v, data_byte x o s = Ok v s.
Proof using HL. intros (b & w & Hc & Hb) Ho. eexists. apply with_cache_look. by apply (bh_byte_run _ x b w o Hc Hb). Qed.
Lemma data_short_run s x o : holding s x -> 0 <= o < 1023 -> exists v, data_short x o s = Ok v s.
Proof using HL.
  intros Hx Ho. destruct (data_byte_run s x o Hx ltac:(lia)) as [a Ha]. destruct (data_byte_run s x (o + 1) Hx ltac:(lia)) as [b Hb]. exists (a + 256 * b). unfold data_short. by rewrite (run_bind _ _ _ _ _ Ha), (run_bind _ _ _ _ _ Hb).
Qed.
Lemma data_long_run s x o : holding s x -> 0 <= o < 1021 -> exists v, data_long x o s = Ok v s.
Proof using HL.
  intros Hx Ho. destruct (data_short_run s x o Hx ltac:(lia)) as [a Ha]. destruct (data_short_run s x (o + 2) Hx ltac:(lia)) as [b Hb]. exists (a + 65536 * b). unfold data_long. by rewrite (run_bind _ _ _ _ _ Ha), (run_bind _ _ _ _ _ Hb).
Qed.

Lemma wp_run {S A} (m : M S A) s a s' (Q : A -> S -> Prop) E : m s = Ok a s' -> Q a s' -> wp m s Q E.
Proof using. unfold wp. intros ->. done. Qed.

Lemma wp_long x o s Q E : holding s x -> 0 <= o < 1021 -> (forall v, Q v s) -> wp (data_long x o) s Q E.
Proof using HL. intros Hx Ho HQ. destruct (data_long_run s x o Hx Ho) as [v R]. by eapply wp_run. Qed.
Lemma wp_byte x o s Q E : holding s x -> 0 <= o < 1024 -> (forall v, Q v s) -> wp (data_byte x o) s Q E.
Proof using HL. intros Hx Ho HQ. destruct (data_byte_run s x o Hx Ho) as [v R]. by eapply wp_run. Qed.
Lemma wp_short x o s Q E : holding s x -> 0 <= o < 1023 -> (forall v, Q v s) -> wp (data_short x o) s Q E.
Proof using HL. intros Hx Ho HQ. destruct (data_short_run s x o Hx Ho) as [v R]. by eapply wp_run. Qed.
Lemma wp_hd i f (s : pst C) Q E : 0 <= i < Z.of_nat (length (p_hd s)) -> (forall l, table_step i i (p_hd s) l -> Q tt (set_p_hd l s)) -> wp (hd_upd i f) s Q E.
Proof using. intros Hi HQ. destruct (hd_upd_run i f s Hi) as (l & R & Hl). eapply wp_run; [exact R|by apply HQ]. Qed.

(** One table of the chain. *)
Lemma extended_step_ok first_sector dev this (s0 s : pst C) : quiet_cache (pcache s) -> dev <> 0 -> 0 <= current_minor s -> Z.land (current_minor s) 0x3f < 60 -> current_minor s + 1 < Z.of_nat (length (p_hd s)) -> current_minor s < 2 ^ 31 -> current_minor s0 <= current_minor s ->
  table_step (current_minor s0) (current_minor s) (p_hd s0) (p_hd s) ->
  wp (extended_step first_sector (dev, this)) s (fun r s' => quiet_cache (pcache s') /\ table_step (current_minor s0) (current_minor s + 1) (p_hd s0) (p_hd s') /\
    match r with inl (dev', _) => current_minor s' = current_minor s + 1 /\ dev' <> 0 | inr _ => current_minor s <= current_minor s' <= current_minor s + 1 end) no_halt.
Proof using HL.
  intros (Hc & Hrf & Hrm) Hdev Hm0 Hm60 Hlen H31 Hlo Ht0. assert (Ht : table_step (current_minor s0) (current_minor s + 1) (p_hd s0) (p_hd s)) by (eapply table_step_mono; [exact Ht0|lia|lia]).
  unfold extended_step. destruct Ht0 as [Hl0 Ht0].
  wp_run. destruct (Z.leb_spec 60 (Z.land (current_minor s) 0x3f)); [lia|]. apply wp_bind. destruct (bread_law dev 0 (pcache s) Hc Hdev (Hrf _) Hrm) as (r & c1 & R & Hc1 & Hres). eapply wp_run; [by apply with_cache_run|].
  destruct r as [x|].
  2: { destruct Hres as [(E1 & E2 & E3) _]. unfold p_printk. wp_run. split; [|split; [done|cbn; lia]]. split; [done|]. cbn. unfold refs, room. rewrite E1, E3. done. }
  destruct Hres as (w & Hb & Hid & Hn & _). pose proof (becomes_buffer _ _ _ _ Hb) as Hbuf. rewrite Hid in Hbuf.
  destruct (set_bh_dirt_law x _ w 0 c1 Hc1 Hbuf) as (c2 & R2 & Hc2 & Hb2). apply wp_bind. eapply wp_run; [by apply with_cache_run|]. pose proof (becomes_buffer _ _ _ _ Hb2) as Hbuf2. change (bv_id (set_bv_dirt (truth 0) w)) with (bv_id w) in Hbuf2. rewrite Hid in Hbuf2.
  destruct (set_bh_uptodate_law x _ _ 0 c2 Hc2 Hbuf2) as (c3 & R3 & Hc3 & Hb3). apply wp_bind. eapply wp_run; [by apply with_cache_run|]. set (w3 := set_bv_up (truth 0) _) in Hb3.
  assert (Hb13 : becomes c1 c3 (dev, 0) w3) by (by eapply becomes_trans). pose proof (becomes_buffer _ _ _ _ Hb13) as Hbuf3. change (bv_id w3) with (bv_id w) in Hbuf3. rewrite Hid in Hbuf3.
  destruct (taken_and_given (pcache s) c1 w (dev, 0) x c3 w3 Hc Hb Hid Hn Hb13 eq_refl eq_refl Hc3) as (c4 & R4 & Hc4 & Hrf4 & Hsz4 & Hcap4); [by intros ?|].
  assert (Hq4 : quiet_cache c4) by (split; [done|]; split; [intros a; by rewrite Hrf4|unfold room in *; lia]).
  change (set_pcache c3 (set_pcache c2 (set_pcache c1 s))) with (set_pcache c3 s).
  assert (Hhold : forall s2, pcache s2 = c3 -> holding s2 x) by (intros s2 E; exists (dev, 0), w3; rewrite E; done).
  assert (Hdone : forall s2, pcache s2 = c3 -> table_step (current_minor s0) (current_minor s + 1) (p_hd s0) (p_hd s2) -> current_minor s <= current_minor s2 <= current_minor s + 1 ->
    wp (with_cache (brelse (Some x));; mret (inr tt) : M (pst C) ((Z * Z) + unit)) s2 (fun r s' => quiet_cache (pcache s') /\ table_step (current_minor s0) (current_minor s + 1) (p_hd s0) (p_hd s') /\
      match r with inl (dev', _) => current_minor s' = current_minor s + 1 /\ dev' <> 0 | inr _ => current_minor s <= current_minor s' <= current_minor s + 1 end) no_halt).
  { intros s2 E Ht2 Hm2. apply wp_bind. eapply wp_run; [apply with_cache_run; by rewrite E|]. wp_run. done. }
  apply wp_bind, wp_short; [by apply Hhold|lia|]. intros magic. destruct (magic =? 0xAA55); [|by apply Hdone; [..|cbn; lia]].
  apply wp_bind. unfold sys_ind at 1. apply wp_byte; [by apply Hhold|lia|]. intros i. destruct (i =? EXTENDED_PARTITION); [by apply Hdone; [..|cbn; lia]|].
  apply wp_bind. unfold part_nr at 1. apply wp_long; [by apply Hhold|lia|]. intros n. apply wp_bind. apply wp_hd; [cbn; lia|]. intros l1 Hl1. cbn in Hl1.
  assert (Ht1 : table_step (current_minor s0) (current_minor s + 1) (p_hd s0) l1) by (eapply table_step_trans; [exact Ht|eapply table_step_mono; [exact Hl1|lia|lia]]).
  assert (Hn1 : Z.of_nat (length l1) = Z.of_nat (length (p_hd s))) by (f_equal; apply Hl1). destruct (n =? 0); [by apply Hdone; [..|cbn; lia]|].
  apply wp_bind. unfold part_start at 1. apply wp_long; [by apply Hhold|lia|]. intros b. apply wp_bind. apply wp_hd; [cbn; lia|]. intros l2 Hl2. cbn in Hl2.
  assert (Ht2 : table_step (current_minor s0) (current_minor s + 1) (p_hd s0) l2) by (eapply table_step_trans; [exact Ht1|eapply table_step_mono; [exact Hl2|lia|lia]]).
  assert (Hn2 : Z.of_nat (length l2) = Z.of_nat (length (p_hd s))) by (rewrite (proj1 Hl2); lia).
  apply wp_bind, wp_modify. rewrite u32_small by (unfold in_u32; cbn; lia). set (s2 := set_current_minor _ _). assert (Hm2 : current_minor s2 = current_minor s + 1) by done.
  apply wp_bind. unfold sys_ind at 1. apply wp_byte; [by apply Hhold|lia|]. intros i2. destruct (i2 =? EXTENDED_PARTITION); cbn [negb]; [|apply Hdone; [done|done|lia]].
  apply wp_bind. unfold wp, getS. fold (wp (A := (Z * Z) + unit) (S := pst C)). change (current_minor s2) with (current_minor s + 1).
  apply wp_bind. unfold part_nr at 1. apply wp_long; [by apply Hhold|lia|]. intros n2. apply wp_bind. apply wp_hd; [cbn; lia|]. intros l3 Hl3. cbn in Hl3.
  assert (Ht3 : table_step (current_minor s0) (current_minor s + 1) (p_hd s0) l3) by (eapply table_step_trans; [exact Ht2|eapply table_step_mono; [exact Hl3|lia|lia]]).
  assert (Hn3 : Z.of_nat (length l3) = Z.of_nat (length (p_hd s))) by (rewrite (proj1 Hl3); lia). destruct (n2 =? 0); [apply Hdone; [done|done|cbn; lia]|].
  apply wp_bind. unfold part_start at 1. apply wp_long; [by apply Hhold|lia|]. intros b2. apply wp_bind. apply wp_hd; [cbn; lia|]. intros l4 Hl4. cbn in Hl4.
  assert (Ht4 : table_step (current_minor s0) (current_minor s + 1) (p_hd s0) l4) by (eapply table_step_trans; [exact Ht3|eapply table_step_mono; [exact Hl4|lia|lia]]).
  apply wp_bind. eapply wp_run; [apply with_cache_run; exact R4|]. wp_run. split; [done|]. split; [done|]. split; [done|]. intros E. apply Z.lor_eq_0_iff in E as [E _]. done.
Qed.

Lemma land_3f m : 0 <= m -> Z.land m 0x3f = m mod 64.
Proof using. intros Hm. change 0x3f with (Z.ones 6). by rewrite Z.land_ones by lia. Qed.

(** Following the chain of logical partitions ends, whatever the disk holds.
    [extended_partition] returns after at most 60 tables, without an access outside
    [hd]; it writes only entries from [current_minor] on that belong to the same drive,
    leaves [current_minor] among its minor numbers, and gives back every buffer. *)
Theorem extended_partition_ends dev (s : pst C) : quiet_cache (pcache s) -> dev <> 0 -> length (p_hd s) = Z.to_nat (Z.shiftl MAX_HD 6) -> MINOR dev < Z.shiftl MAX_HD 6 -> 0 <= current_minor s < Z.shiftl MAX_HD 6 -> current_minor s mod 64 <= 60 ->
  exists s', extended_partition dev s = Ok tt s' /\ table_step (current_minor s) (64 * (current_minor s / 64) + 60) (p_hd s) (p_hd s') /\
    current_minor s <= current_minor s' <= 64 * (current_minor s / 64) + 60 /\ quiet_cache (pcache s').
Proof using HL.
  intros Hq Hdev Hlen Hmi Hcm H60. change (Z.shiftl MAX_HD 6) with 128 in *. pose proof (Z.div_mod (current_minor s) 64 ltac:(lia)) as Hdm. pose proof (Z.mod_pos_bound (current_minor s) 64 ltac:(lia)) as Hmb. set (q := current_minor s / 64) in *.
  assert (W : wp (extended_partition dev) s (fun _ s' => table_step (current_minor s) (64 * q + 60) (p_hd s) (p_hd s') /\ current_minor s <= current_minor s' <= 64 * q + 60 /\ quiet_cache (pcache s')) no_halt).
  { unfold extended_partition. assert (Hmr : 0 <= MINOR dev) by (unfold MINOR; apply Z.land_nonneg; right; lia).
    destruct (aget_in_range (p_hd s) (MINOR dev)) as [e He]; [rewrite Hlen; lia|]. apply wp_bind. eapply wp_run; [unfold hd_at; rewrite (run_bind _ _ _ s s) by done; by rewrite He|].
    apply (wp_iter _ (fun st s1 => quiet_cache (pcache s1) /\ fst st <> 0 /\ current_minor s <= current_minor s1 <= 64 * q + 60 /\ table_step (current_minor s) (current_minor s1) (p_hd s) (p_hd s1))
      (fun _ s1 => Z.to_nat (64 * q + 60 - current_minor s1))); [|split; [done|split; [done|split; [lia|apply table_step_refl]]]|lia].
    intros [dev1 this] s1 (Hq1 & Hd1 & Hm1 & Ht1). cbn [fst] in Hd1. assert (Hmod : Z.land (current_minor s1) 0x3f = current_minor s1 - 64 * q) by (rewrite land_3f by lia; symmetry; apply Z.mod_unique with q; lia).
    destruct (Z.le_gt_cases 60 (Z.land (current_minor s1) 0x3f)) as [Hge|Hlt].
    - unfold extended_step. wp_run. destruct (Z.leb_spec 60 (Z.land (current_minor s1) 0x3f)); [|lia]. wp_run. split; [eapply table_step_mono; [exact Ht1|lia|lia]|]. split; [lia|done].
    - eapply wp_mono; [apply (extended_step_ok _ dev1 this s s1); try done; [lia|rewrite (proj1 Ht1), Hlen; lia|lia|lia]| |done].
      intros [[dev2 this2]|[]] s2 (Hq2 & Ht2 & Hr); cbn [fst].
      + destruct Hr as [Hr1 Hr2]. rewrite Hr1. split; [|lia]. split; [done|]. split; [done|]. split; [lia|done].
      + split; [eapply table_step_mono; [exact Ht2|lia|lia]|]. split; [lia|done]. }
  destruct (wp_total _ _ _ W) as ([] & s' & R & H1). by exists s'.
Qed.

End PartOk.

(** ** A disk with one logical partition *)

Definition demo_table : list Z := <[511%nat := 0xAA]> (<[510%nat := 0x55]> (<[450%nat := 0x83]> (<[454%nat := 63]> (<[458%nat := 100]> zero_block)))).
Definition demo_parts : pst ideal := Pst (Ideal ∅ {[ (0x301, 0) := demo_table ]}) (<[1%nat := HdS 5000 900]> (replicate 128 (HdS 0 0))) [] 1 5 0 [] false [].

Lemma demo_table_block : block_data demo_table.
Proof. split; [vm_compute; reflexivity|]. apply (bool_decide_unpack _). vm_compute. exact I. Qed.

Lemma demo_parts_quiet : quiet_cache (pcache demo_parts).
Proof.
  split; [|split; [intros a; unfold refs; cbn; rewrite lookup_empty; lia|vm_compute; discriminate]]. split; try (intros b w Hw; cbn in Hw; by rewrite lookup_empty in Hw).
  - intros b. cbn. unfold ideal_block. cbn. destruct (decide (b = (0x301, 0))) as [->|Hne]; [rewrite lookup_singleton_eq; apply demo_table_block|]. rewrite lookup_singleton_ne by congruence. split; [vm_compute; reflexivity|]. apply (bool_decide_unpack _). vm_compute. exact I.
  - intros b b' w w' Hw. cbn in Hw. by rewrite lookup_empty in Hw.
Qed.

Lemma extended_partition_ends_witness :
  exists s', extended_partition 0x301 demo_parts = Ok tt s' /\ table_step 5 60 (p_hd demo_parts) (p_hd s') /\ 5 <= current_minor s' <= 60 /\ quiet_cache (pcache s').
Proof. apply (extended_partition_ends 0x301 demo_parts); [apply demo_parts_quiet|lia|reflexivity|reflexivity|vm_compute; split; [discriminate|reflexivity]|vm_compute; discriminate]. Defined.
