(* ===== verification/Exec.v ===== *)
(** * Running programs: [fs/exec.c]

    [do_execve] checks the file and its header, copies the arguments and the
    environment to pages of their own, from the end of 32 pages downwards, gives up
    the old address space, puts the pages at the end of the new one and builds the
    tables of pointers to the strings below them.

    [page] is the array of addresses of these pages; what is in them is in [fpages].
    The calling task's memory is [fs]; [get_fs_byte] of [create_tables] reads the new
    address space, through the descriptor and the page tables ([new_seg]).  [a_magic] is read as the low half of [a_info].  The system
    call returns with [eip[0]], [eip[3]] and the name of the program, which the state
    does not have. *)

From S2P Require Import Prelude TaskStruct Sched Exit Fork Signal Sys Memory Fs Minix Inode Dir Namei Pipe Files.

Definition MAX_ARG_PAGES : Z := 32.
Definition ZMAGIC : Z := 0x10b.
Definition SEGMENT_SIZE : Z := 1024.
Definition S_ISUID : Z := 0x800.
Definition S_ISGID : Z := 0x400.
Definition ENOEXEC : Z := 8.

(** [struct exec] *)
Record exec := Exec { a_info : Z; a_text : Z; a_data : Z; a_bss : Z; a_syms : Z; a_entry : Z; a_trsize : Z; a_drsize : Z }.
Definition N_MAGIC (ex : exec) : Z := Z.land (a_info ex) 0xffff.
Definition N_TXTOFF (ex : exec) : Z := if N_MAGIC ex =? ZMAGIC then (SEGMENT_SIZE - 32) + 32 else 32.

(** [set_limit(ldt, limit)] *)
Definition set_limit (d : Z * Z) (limit : Z) : Z * Z :=
  let l := Z.shiftr (u32 (limit - 1)) 12 in
  (Z.lor (Z.land d.1 0xffff0000) (Z.land l 0xffff),
   Z.lor (Z.land d.2 0xff00ffff) (Z.shiftl (Z.lor (Z.land (Z.shiftr l 16) 0xff) (Z.land (Z.shiftr d.2 16) 0xf0)) 16)).

(** The memory manager, as programs are run with it. *)
Class UserPages (C : Type) := {
  put_dirty_page : Z -> Z -> M (fss C) Z;
  user_page : C -> Z -> option Z        (* the page a linear address is mapped to *)
}.

Section Exec.
Context {C : Type} `{BufferCache C, FsEnv C, PageAlloc C, UserPages C}.
Context (patience : nat).

(** Descriptor [n] of the running task. *)
Definition cur_ldt (n : Z) : M (fss C) (Z * Z) := l ← on_task (cur ldt); ofOpt (aget l n).
Definition set_cur_ldt (n : Z) (f : Z * Z -> Z * Z) : M (fss C) unit :=
  l ← on_task (cur ldt); d ← ofOpt (aget l n); on_task (upd_cur (set_ldt (<[Z.to_nat n := f d]> l))).

(** [int sys_uselib(const char *library)] *)
Definition sys_uselib (fs : umem) (lib : Z) : M (fss C) Z :=
  d ← cur_ldt 2;
  if negb (get_limit d =? TASK_SIZE) then mret (- EINVAL)
  else
    o ← (if truth lib then n ← namei patience (user_seg fs) lib; mret (match n with None => None | Some n => Some (Some n) end) else mret (Some None));
    match o with
    | None => mret (- ENOENT)
    | Some inode =>
        l ← on_task (cur library);
        iput patience (ptr_entry <$> l);;
        on_task (upd_cur (set_library None));;
        d ← cur_ldt 2;
        on_task (modify (add_event (EFreePageTables (u32 (get_base d + LIBRARY_OFFSET)) LIBRARY_SIZE)));;
        on_task (upd_cur (set_library (entry_ptr <$> inode)));;
        mret 0
    end.

(** ** Arguments *)

(** [while (get_fs_byte(p++));]: the address behind the string. *)
Definition skip_string (seg : segment C) (fuel : nat) (p : Z) : M (fss C) Z :=
  iter fuel (fun p => c ← seg p; mret (if truth c then inl (u32 (p + 1)) else inr (u32 (p + 1)))) p.

(** The loops of [create_tables]: the next pointer and the next string. *)
Fixpoint put_pointers (seg : segment C) (fuel : nat) (k : nat) (a p : Z) : M (fss C) (Z * Z) :=
  match k with
  | O => mret (a, p)
  | S k' => on_task (put_fs_long p a);; p' ← skip_string seg fuel p; put_pointers seg fuel k' (a + 4) p'
  end.

(** [static unsigned long * create_tables(char * p, int argc, int envc)] *)
Definition create_tables (seg : segment C) (fuel : nat) (p argc envc : Z) : M (fss C) Z :=
  let sp := Z.land 0xfffffffc p in
  let sp := sp - 4 * (envc + 1) in
  let envp := sp in
  let sp := sp - 4 * (argc + 1) in
  let argv := sp in
  on_task (put_fs_long envp (sp - 4));;
  on_task (put_fs_long argv (sp - 8));;
  on_task (put_fs_long argc (sp - 12));;
  '(a, p) ← put_pointers seg fuel (Z.to_nat argc) argv p;
  on_task (put_fs_long 0 a);;
  '(e, _) ← put_pointers seg fuel (Z.to_nat envc) envp p;
  on_task (put_fs_long 0 e);;
  mret (u32 (sp - 12)).

(** [static int count(char **argv)] *)
Definition count (fs : umem) (fuel : nat) (argv : Z) : M (fss C) Z :=
  if truth argv then iter fuel (fun i => mret (if truth (get_fs_long fs (argv + 4 * i)) then inl (i + 1) else inr i)) 0 else mret 0.

(** The length of a string with its zero. *)
Definition string_length (fs : umem) (fuel : nat) (tmp : Z) : M (fss C) Z :=
  iter fuel (fun len => mret (if truth (get_fs_byte fs (tmp + len)) then inl (len + 1) else inr (len + 1))) 0.

(** The page an address of the area is in; [None] when there is no memory. *)
Definition arg_page (page : list Z) (p : Z) : M (fss C) (option (Z * list Z)) :=
  pag ← ofOpt (aget page (p / PAGE_SIZE));
  if truth pag then mret (Some (pag, page))
  else
    pag ← get_free_page;
    if pag =? 0 then mret None else l ← ofOpt (aset page (p / PAGE_SIZE) pag); mret (Some (pag, l)).

(** [*(pag + offset) = c] *)
Definition put_arg (pag offset c : Z) : M (fss C) unit := d ← pipe_page pag; l ← ofOpt (aset d offset c); set_pipe_page pag l.

(** The copying of one string from its end: [tmp] is behind its zero, [len] bytes are
    left.  The state of the loop is the array of pages, [p], the page and the offset
    in it; [inl] is the array when there was no memory for a page. *)
Fixpoint copy_string (fs : umem) (len : nat) (tmp : Z) (st : list Z * Z * Z * Z) : M (fss C) (list Z + (list Z * Z * Z * Z)) :=
  match len with
  | O => mret (inr st)
  | S len' =>
      let '(page, p, pag, offset) := st in
      let p := u32 (p - 1) in
      let tmp := tmp - 1 in
      let offset := offset - 1 in
      o ← (if offset <? 0 then
             o ← arg_page page p;
             mret (match o with None => None | Some (pag, page) => Some (page, pag, p mod PAGE_SIZE) end)
           else mret (Some (page, pag, offset)));
      match o with
      | None => mret (inl page)
      | Some (page, pag, offset) => put_arg pag offset (get_fs_byte fs tmp);; copy_string fs len' tmp (page, p, pag, offset)
      end
  end.

(** The loop over the arguments, from the last one.  [p - len < 0] compares unsigned
    numbers and is never so. *)
Fixpoint copy_args (ps ss : umem) (fuel : nat) (argc : nat) (argv : Z) (st : list Z * Z * Z * Z) : M (fss C) (list Z + (list Z * Z * Z * Z)) :=
  match argc with
  | O => mret (inr st)
  | S k =>
      let tmp := get_fs_long ps (argv + 4 * Z.of_nat k) in
      if tmp =? 0 then halts (Panic "argc is wrong")
      else
        len ← string_length ss fuel tmp;
        o ← copy_string ss (Z.to_nat len) (tmp + len) st;
        match o with inl page => mret (inl page) | inr st => copy_args ps ss fuel k argv st end
  end.

(** [static unsigned long copy_strings(int argc, char ** argv, unsigned long *page,
    unsigned long p, int from_kmem)]; [ks] is the kernel's memory. *)
Definition copy_strings (fs ks : umem) (fuel : nat) (argc argv : Z) (page : list Z) (p from_kmem : Z) : M (fss C) (Z * list Z) :=
  if p =? 0 then mret (0, page)
  else
    o ← copy_args (if from_kmem =? 0 then fs else ks) (if from_kmem =? 2 then ks else fs) fuel (Z.to_nat argc) argv (page, p, 0, 0);
    mret (match o with inl page => (0, page) | inr (page, p, _, _) => (p, page) end).

(** ** The new address space *)

(** The loop of [change_ldt]: page [i] and the address below which it goes. *)
Fixpoint put_pages (page : list Z) (k : nat) (data_base : Z) : M (fss C) unit :=
  match k with
  | O => mret tt
  | S i =>
      let data_base := u32 (data_base - PAGE_SIZE) in
      a ← ofOpt (aget page (Z.of_nat i));
      (if truth a then put_dirty_page a data_base;; mret tt else mret tt);;
      put_pages page i data_base
  end.

(** [static unsigned long change_ldt(unsigned long text_size, unsigned long * page)] *)
Definition change_ldt (page : list Z) : M (fss C) Z :=
  d ← cur_ldt 1;
  let base := get_base d in
  set_cur_ldt 1 (fun d => set_limit (set_base d base) TASK_SIZE);;
  set_cur_ldt 2 (fun d => set_limit (set_base d base) TASK_SIZE);;
  put_pages page (Z.to_nat MAX_ARG_PAGES) (u32 (base + TASK_SIZE - LIBRARY_SIZE));;
  mret TASK_SIZE.

(** [get_fs_byte(a)] when [fs] holds the selector of the running task's data segment; an
    address without a page would have to be brought in and is a fault here. *)
Definition new_seg : segment C := fun a =>
  d ← cur_ldt 2;
  let l := u32 (get_base d + a) in
  s ← getS;
  pag ← ofOpt (user_page (fcache s) l);
  b ← pipe_page pag;
  ofOpt (aget b (l mod PAGE_SIZE)).

(** The lines of [do_execve] that put the pages into place and build the tables. *)
Definition place_args (fuel : nat) (page : list Z) (p argc envc : Z) : M (fss C) Z :=
  limit ← change_ldt page;
  let p := u32 (p + limit) in
  let p := u32 (p - (LIBRARY_SIZE + MAX_ARG_PAGES * PAGE_SIZE)) in
  create_tables new_seg fuel p argc envc.

(** ** [do_execve] *)

(** The header in the first block. *)
Definition read_exec (x : Z) : M (fss C) exec :=
  let long i := lo ← on_cache (bh_word x (2 * i)); hi ← on_cache (bh_word x (2 * i + 1)); mret (lo + 65536 * hi) in
  i ← long 0; t ← long 1; d ← long 2; b ← long 3; y ← long 4; e ← long 5; tr ← long 6; dr ← long 7;
  mret (Exec i t d b y e tr dr).

(** The header is not one this kernel can run. *)
Definition bad_exec (ex : exec) (size : Z) : bool :=
  negb (N_MAGIC ex =? ZMAGIC) || truth (a_trsize ex) || truth (a_drsize ex) ||
  (0x3000000 <? u32 (a_text ex + a_data ex + a_bss ex)) || (u32 size <? u32 (a_text ex + a_data ex + a_syms ex + N_TXTOFF ex)).

(** The user and the group the program runs as. *)
Definition exec_ids (t : task_struct) (v : inode) : Z * Z :=
  if truth (Z.land (tflags t) PF_PTRACED) then (euid t, egid t)
  else (if truth (Z.land (i_mode v) S_ISUID) then i_uid v else euid t, if truth (Z.land (i_mode v) S_ISGID) then i_gid v else egid t).

(** The name of the program: the last part of the path, eight characters at most. *)
Definition comm_step (fs : umem) (st : Z * list Z * Z) : M (fss C) ((Z * list Z * Z) + (list Z * Z)) :=
  let '(a, comm, i) := st in
  let ch := get_fs_byte fs a in
  if ch =? 0 then mret (inr (comm, i))
  else if ch =? 0x2f then mret (inl (a + 1, comm, 0))
  else if i <? 8 then mret (inl (a + 1, <[Z.to_nat i := ch]> comm, i + 1))
  else mret (inl (a + 1, comm, i)).
Definition exec_comm (fs : umem) (fuel : nat) (filename : Z) (comm : list Z) : M (fss C) (list Z) :=
  '(comm, i) ← iter fuel (comm_step fs) (filename, comm, 0);
  mret (if i <? 8 then <[Z.to_nat i := 0]> comm else comm).

(** Signals and files a new program does not inherit. *)
Definition reset_action (a : sigaction) : sigaction := SigAction (if sa_handler a =? SIG_IGN then SIG_IGN else 0) 0 0 (sa_restorer a).
Definition close_marked : M (fss C) unit :=
  for_each (range 0 (Z.to_nat NR_OPEN)) (fun i =>
    c ← on_task (cur close_on_exec);
    if truth (Z.land (Z.shiftr c i) 1) then sys_close patience i;; mret tt else mret tt).

(** [exec_error2] *)
Definition exec_error (n : Z) (page : list Z) (retval : Z) : M (fss C) (Z * option (Z * Z * list Z)) :=
  iput patience (Some n);; for_each page free_page;; mret (retval, None).

(** Whether the running task may execute the file. *)
Definition may_exec (v : inode) : M (fss C) bool :=
  e ← on_task (cur euid);
  i ← (if e =? i_uid v then mret (Z.shiftr (i_mode v) 6)
       else g ← on_task (in_group_p (i_gid v)); mret (if truth g then Z.shiftr (i_mode v) 3 else i_mode v));
  if truth (Z.land i 1) then mret true
  else if truth (Z.land (i_mode v) 0x49) then on_task suser else mret false.

(** From the point of no return. *)
Definition start_program (fs : umem) (fuel : nat) (n : Z) (ex : exec) (ids : Z * Z) (page : list Z) (p argc envc filename : Z) (comm : list Z) : M (fss C) (Z * option (Z * Z * list Z)) :=
  comm ← exec_comm fs fuel filename comm;
  x ← on_task (cur executable);
  (if bool_decide (is_Some x) then iput patience (ptr_entry <$> x) else mret tt);;
  on_task (upd_cur (fun t => set_sigactions (reset_action <$> sigactions t) (set_signal 0 (set_executable (Some (entry_ptr n)) t))));;
  close_marked;;
  on_task (upd_cur (set_close_on_exec 0));;
  on_task (free_segment 1);;
  on_task (free_segment 2);;
  on_task (modify (fun k => if bool_decide (last_task_used_math (sysd k) = Some (current k)) then set_sysd (set_last_math None (sysd k)) k else k));;
  on_task (upd_cur (set_used_math 0));;
  p ← place_args fuel page p argc envc;
  let end_code := a_text ex in
  let end_data := u32 (a_data ex + end_code) in
  on_task (upd_cur (fun t => set_rss (u32 (LIBRARY_OFFSET - p + PAGE_SIZE - 1) / PAGE_SIZE) (set_start_stack p (set_brk (u32 (a_bss ex + end_data)) (set_end_data end_data (set_end_code end_code t))))));;
  on_task (upd_cur (fun t => set_sgid (snd ids) (set_egid (snd ids) (set_suid (fst ids) (set_euid (fst ids) t)))));;
  t ← on_task (cur id);
  (if truth (Z.land (tflags t) PF_PTRACED) then k ← on_task (gets current); on_task (send_sig SIGTRAP (Some k) false);; mret tt else mret tt);;
  mret (0, Some (a_entry ex, p, comm)).

(** [int do_execve(unsigned long * eip, long tmp, char * filename, char ** argv,
    char ** envp)]; [cs] is [eip[1]], [comm] the old name of the program. *)
Definition do_execve (fs ks : umem) (fuel : nat) (cs filename argv envp : Z) (comm : list Z) : M (fss C) (Z * option (Z * Z * list Z)) :=
  if negb (Z.land 0xffff cs =? 0xf) then halts (Panic "execve called from supervisor mode")
  else
    let page := replicate (Z.to_nat MAX_ARG_PAGES) 0 in
    o ← namei patience (user_seg fs) filename;
    match o with
    | None => mret (- ENOENT, None)
    | Some n =>
        argc ← count fs fuel argv;
        envc ← count fs fuel envp;
        v ← inode_at n;
        if negb (S_ISREG (i_mode v)) then exec_error n page (- EACCES)
        else
          t ← on_task (cur id);
          let ids := exec_ids t v in
          ok ← may_exec v;
          if negb (ok : bool) then exec_error n page (- EACCES)
          else
            z ← ofOpt (aget (i_data v) 0);
            bh ← on_cache (bread (i_dev v) z);
            match bh with
            | None => exec_error n page (- EACCES)
            | Some x =>
                ex ← read_exec x;
                c0 ← on_cache (bh_byte x 0); c1 ← on_cache (bh_byte x 1);
                if (c0 =? 0x23) && (c1 =? 0x21) then halts (Panic "it is script file")
                else
                  on_cache (brelse bh);;
                  v ← inode_at n;
                  if bad_exec ex (i_size v) then exec_error n page (- ENOEXEC)
                  else if negb (N_TXTOFF ex =? BLOCK_SIZE) then on_task (printk "%s: N_TXTOFF != BLOCK_SIZE. See a.out.h.");; exec_error n page (- ENOEXEC)
                  else
                    '(p, page) ← copy_strings fs ks fuel envc envp page (PAGE_SIZE * MAX_ARG_PAGES - 4) 0;
                    '(p, page) ← copy_strings fs ks fuel argc argv page p 0;
                    if p =? 0 then exec_error n page (- ENOMEM)
                    else start_program fs fuel n ex ids page p argc envc filename comm
            end
    end.

End Exec.
