(* ===== verification/ExecOk.v ===== *)
(** * Theorems about running programs

    The arguments and the environment of a new program: [copy_strings] puts the strings
    one behind the other at the end of the 32 pages, across their borders, [change_ldt]
    puts the pages into the address space, and [create_tables] builds the pointers the
    program finds on its stack.  What this needs of the memory manager is the class
    [ArgPages]; the definitions of [Memory] are an instance. *)

From S2P Require Import Prelude TaskStruct Sched Exit Fork Signal Sys Memory Paging Fs Minix Inode Dir Namei Pipe Files Exec.

(** What the memory manager promises here.  [mem_ok c D]: its tables are in order and the
    pages [D] are in use; [room c] pages are free; [placeable c n]: there is a page table
    for the 4 MB [n], or a page for one. *)
Class ArgPages (C : Type) `{PageAlloc C, UserPages C} := {
  mem_ok : C -> gset Z -> Prop;
  room : C -> nat;
  placeable : C -> Z -> Prop;
  page_fresh : forall s : fss C, mem_ok (fcache s) (dom (fpages s)) -> (0 < room (fcache s))%nat -> exists q c d,
    get_free_page s = Ok q (set_fpages (<[q := d]> (fpages s)) (set_fcache c s)) /\ 0 < q < 2 ^ 32 /\ fpages s !! q = None /\ length d = 4096%nat /\
    mem_ok c ({[q]} ∪ dom (fpages s)) /\ (room (fcache s) <= S (room c))%nat;
  page_placed : forall (s : fss C) q a, mem_ok (fcache s) (dom (fpages s)) -> is_Some (fpages s !! q) -> in_u32 q -> TASK_SIZE <= a < 2 ^ 32 -> a mod 4096 = 0 -> placeable (fcache s) (a / 4194304) -> exists c,
    put_dirty_page q a s = Ok q (set_fcache c s) /\ mem_ok c (dom (fpages s)) /\ placeable c (a / 4194304) /\
    forall b, TASK_SIZE <= b < 2 ^ 32 -> b / 4194304 = a / 4194304 -> user_page c b = if b / 4096 =? a / 4096 then Some q else user_page (fcache s) b
}.

(** Strings with their zeros, one behind the other. *)
Definition flat (l : list (list Z)) : list Z := mjoin ((fun x => x ++ [0]) <$> l).

Lemma flat_app l1 l2 : flat (l1 ++ l2) = flat l1 ++ flat l2.
Proof. unfold flat. by rewrite fmap_app, join_app. Qed.

(** [l] is at [p], as [g] reads memory. *)
Definition laid (g : Z -> option Z) (p : Z) (l : list Z) : Prop := forall i, 0 <= i < Z.of_nat (length l) -> g (p + i) = aget l i.

Lemma aget_app_l {A} (l1 l2 : list A) i : i < Z.of_nat (length l1) -> aget (l1 ++ l2) i = aget l1 i.
Proof. intros Hi. unfold aget. destruct (Z.ltb_spec i 0); [done|]. apply lookup_app_l. lia. Qed.
Lemma aget_app_r {A} (l1 l2 : list A) i : Z.of_nat (length l1) <= i -> aget (l1 ++ l2) i = aget l2 (i - Z.of_nat (length l1)).
Proof.
  intros Hi. unfold aget. destruct (Z.ltb_spec i 0); [lia|]. destruct (Z.ltb_spec (i - Z.of_nat (length l1)) 0); [lia|]. rewrite lookup_app_r by lia. f_equal. lia.
Qed.

Lemma laid_app g p l1 l2 : laid g p (l1 ++ l2) <-> laid g p l1 /\ laid g (p + Z.of_nat (length l1)) l2.
Proof.
  unfold laid. rewrite length_app. split.
  - intros Hl. split; intros i Hi; [rewrite Hl by lia; apply aget_app_l; lia|]. rewrite <-Z.add_assoc, Hl by lia. rewrite aget_app_r by lia. f_equal. lia.
  - intros [H1 H2] i Hi. destruct (Z.lt_ge_cases i (Z.of_nat (length l1))); [rewrite H1 by lia; symmetry; apply aget_app_l; lia|]. rewrite aget_app_r by lia. rewrite <-H2 by lia. f_equal. lia.
Qed.

(** The free entries of the array of pages. *)
Definition empty_slots (page : list Z) : nat := length (filter (fun q => q = 0) page).

Lemma empty_slots_insert page i q : aget page i = Some 0 -> q <> 0 -> S (empty_slots (<[Z.to_nat i := q]> page)) = empty_slots page.
Proof.
  unfold aget. destruct (i <? 0); [done|]. generalize (Z.to_nat i) as j. unfold empty_slots. induction page as [|x page IH]; intros j Hj Hq; [done|].
  destruct j as [|j]; cbn in Hj.
  - injection Hj as ->. change (<[0%nat := q]> (0 :: page)) with (q :: page). rewrite !filter_cons. by rewrite decide_False, decide_True by done.
  - change (<[S j := q]> (x :: page)) with (x :: <[j := q]> page). rewrite !filter_cons. specialize (IH j Hj Hq). destruct (decide (x = 0)); cbn [length]; congruence.
Qed.

Section ExecOk.
Context {C : Type} {HB : BufferCache C} {HE : FsEnv C} {HP : PageAlloc C} {HU : UserPages C} {HA : ArgPages C}.

(** The byte at [a] of the area that [page] describes. *)
Definition arg_byte (page : list Z) (s : fss C) (a : Z) : option Z :=
  match aget page (a / PAGE_SIZE) with
  | Some q => if truth q then match fpages s !! q with Some d => aget d (a mod PAGE_SIZE) | None => None end else None
  | None => None
  end.

Record area (page : list Z) (s : fss C) : Prop := {
  ar_len : length page = 32%nat;
  ar_page : forall i q, aget page i = Some q -> q <> 0 -> in_u32 q /\ exists d, fpages s !! q = Some d /\ length d = 4096%nat;
  ar_apart : forall i j q, aget page i = Some q -> aget page j = Some q -> q <> 0 -> i = j;
  ar_room : (empty_slots page <= room (fcache s))%nat;
  ar_mem : mem_ok (fcache s) (dom (fpages s))
}.

(** Nothing that was there has changed. *)
Definition keeps_from (p : Z) (page : list Z) (s : fss C) (page' : list Z) (s' : fss C) : Prop :=
  forall b v, p <= b -> arg_byte page s b = Some v -> arg_byte page' s' b = Some v.

Lemma truth_true q : q <> 0 -> truth q = true.
Proof using. intros Hq. unfold truth. by destruct (Z.eqb_spec q 0). Qed.

(** The page of an address, old or new. *)
Lemma arg_page_ok page s a : area page s -> 0 <= a < 131072 -> exists q page' s', arg_page page a s = Ok (Some (q, page')) s' /\ area page' s' /\
  aget page' (a / PAGE_SIZE) = Some q /\ q <> 0 /\ keeps_from 0 page s page' s'.
Proof using.
  intros Ha Hr. unfold PAGE_SIZE. assert (Hi : 0 <= a / 4096 < 32) by (split; [apply Z.div_pos|apply Z.div_lt_upper_bound]; lia).
  destruct (aget_in_range page (a / 4096)) as [q Hq]; [rewrite (ar_len _ _ Ha); lia|]. unfold arg_page, PAGE_SIZE. rewrite (run_bind _ _ _ q s) by (by rewrite Hq).
  destruct (Z.eq_dec q 0) as [->|Hne]; [|rewrite truth_true by done; exists q, page, s; split; [done|split; [done|split; [done|split; [done|by intros b v]]]]].
  cbn [truth Z.eqb negb]. pose proof (ar_room _ _ Ha) as Hroom. rewrite <-(empty_slots_insert page (a / 4096) 1 Hq) in Hroom by lia.
  destruct (page_fresh s (ar_mem _ _ Ha) ltac:(lia)) as (q & c & d & Hg & Hq0 & Hnew & Hd & Hmem & Hless). set (s' := set_fpages (<[q := d]> (fpages s)) (set_fcache c s)) in *. assert (Hf : fpages s' = <[q := d]> (fpages s)) by done. rewrite (run_bind _ _ _ _ _ Hg). destruct (Z.eqb_spec q 0); [lia|].
  assert (Hap : forall j q', aget (<[Z.to_nat (a / 4096) := q]> page) j = Some q' -> q' <> 0 -> (j = a / 4096 /\ q' = q) \/ (j <> a / 4096 /\ aget page j = Some q' /\ q' <> q)).
  { intros j q' Hj Hn'. destruct (Z.eq_dec j (a / 4096)) as [->|Hjn]; [rewrite aget_insert_eq in Hj by (rewrite (ar_len _ _ Ha); lia); left; split; [done|congruence]|]. rewrite aget_insert_ne in Hj by lia. right. split; [done|]. split; [done|]. intros ->. destruct (ar_page _ _ Ha j q Hj Hn') as (_ & d' & Hd' & _). congruence. }
  exists q, (<[Z.to_nat (a / 4096) := q]> page), s'. rewrite (run_bind _ _ _ (<[Z.to_nat (a / 4096) := q]> page) s') by (rewrite aset_in_range by (rewrite (ar_len _ _ Ha); lia); done).
  split; [done|]. split; [|split; [apply aget_insert_eq; rewrite (ar_len _ _ Ha); lia|split; [done|]]].
  - split.
    + rewrite length_insert. apply (ar_len _ _ Ha).
    + intros j q' Hj Hn'. rewrite Hf. destruct (Hap j q' Hj Hn') as [[-> ->]|(_ & Hj' & Hne)]; [split; [unfold in_u32; lia|exists d; by rewrite lookup_insert_eq]|]. rewrite lookup_insert_ne by done. by apply (ar_page _ _ Ha j).
    + intros j k q' Hj Hk Hn'. destruct (Hap j q' Hj Hn') as [[-> E]|(_ & Hj' & Hne)], (Hap k q' Hk Hn') as [[-> E']|(_ & Hk' & Hne')]; try done. by apply (ar_apart _ _ Ha j k q').
    + pose proof (empty_slots_insert page (a / 4096) q Hq ltac:(lia)). pose proof (ar_room _ _ Ha). change (fcache s') with c. lia.
    + rewrite Hf, dom_insert_L. exact Hmem.
  - intros b v _ Hb. unfold arg_byte, PAGE_SIZE in *. destruct (aget page (b / 4096)) as [q'|] eqn:Eb; [|done]. destruct (truth q') eqn:Et; [|done]. assert (Hn' : q' <> 0) by (intros ->; done).
    destruct (Z.eq_dec (b / 4096) (a / 4096)) as [E|E]; [rewrite E in Eb; congruence|]. rewrite aget_insert_ne, Eb, Et, Hf by lia. rewrite lookup_insert_ne; [done|]. intros ->. destruct (ar_page _ _ Ha _ _ Eb Hn') as (_ & d' & Hd' & _). congruence.
Qed.

(** Writing a byte of a page of the area. *)
Lemma put_arg_ok page s a q c : area page s -> 0 <= a -> aget page (a / PAGE_SIZE) = Some q -> q <> 0 -> exists s', put_arg q (a mod PAGE_SIZE) c s = Ok tt s' /\ area page s' /\
  arg_byte page s' a = Some c /\ forall b, b <> a -> 0 <= b -> arg_byte page s' b = arg_byte page s b.
Proof using.
  intros Ha H0 Hq Hn. unfold PAGE_SIZE in *. destruct (ar_page _ _ Ha _ _ Hq Hn) as (Hu & d & Hd & Hl). pose proof (Z.mod_pos_bound a 4096 ltac:(lia)) as Hm.
  set (d' := <[Z.to_nat (a mod 4096) := c]> d). set (s' := set_fpages (<[q := d']> (fpages s)) s). exists s'.
  assert (Hl' : length d' = 4096%nat) by (unfold d'; by rewrite length_insert).
  split; [unfold put_arg, pipe_page, set_pipe_page; rewrite u32_small by done; rewrite (run_bind _ _ _ d s) by (erewrite run_bind by reflexivity; by rewrite Hd); by rewrite (run_bind _ _ _ d' s) by (rewrite aset_in_range by lia; done)|].
  assert (Hlook : forall q', q' <> q -> fpages s' !! q' = fpages s !! q') by (intros; unfold s'; cbn [fpages set_fpages]; by rewrite lookup_insert_ne). assert (Hlq : fpages s' !! q = Some d') by (unfold s'; cbn [fpages set_fpages]; apply lookup_insert_eq).
  split; [split|split].
  - apply (ar_len _ _ Ha).
  - intros i q' Hi Hn'. destruct (Z.eq_dec q' q) as [->|Hne]; [split; [done|by exists d']|]. rewrite Hlook by done. by apply (ar_page _ _ Ha i).
  - apply (ar_apart _ _ Ha).
  - apply (ar_room _ _ Ha).
  - unfold s'. cbn [fpages fcache set_fpages]. rewrite (dom_insert_lookup_L (fpages s) q d') by (by eexists). apply (ar_mem _ _ Ha).
  - unfold arg_byte, PAGE_SIZE. rewrite Hq, truth_true, Hlq by done. apply aget_insert_eq. lia.
  - intros b Hb H0b. unfold arg_byte, PAGE_SIZE. destruct (aget page (b / 4096)) as [q'|] eqn:Eb; [|done]. destruct (truth q') eqn:Et; [|done]. destruct (Z.eq_dec q' q) as [->|Hne]; [|by rewrite Hlook]. pose proof (ar_apart _ _ Ha _ _ _ Hq Eb Hn) as E.
    rewrite Hlq, Hd. apply aget_insert_ne; [lia|]. pose proof (Z.div_mod a 4096 ltac:(lia)). pose proof (Z.div_mod b 4096 ltac:(lia)). lia.
Qed.

(** Where the copying stands: the page and the offset fit [p], or the next byte looks
    for its page. *)
Definition at_place (page : list Z) (p pag offset : Z) : Prop := offset = 0 \/ (offset = p mod PAGE_SIZE /\ aget page (p / PAGE_SIZE) = Some pag /\ pag <> 0).

Lemma copy_byte_place page s p pag offset : area page s -> 0 < p <= 131072 -> at_place page p pag offset ->
  exists page' q s', (if offset - 1 <? 0 then o ← arg_page page (p - 1); mret (match o with None => None | Some (pag, page) => Some (page, pag, (p - 1) mod PAGE_SIZE) end) else mret (Some (page, pag, offset - 1))) s = Ok (Some (page', q, (p - 1) mod PAGE_SIZE)) s' /\
    area page' s' /\ aget page' ((p - 1) / PAGE_SIZE) = Some q /\ q <> 0 /\ keeps_from 0 page s page' s'.
Proof using.
  intros Ha Hp Hat. destruct (Z.ltb_spec (offset - 1) 0) as [Hlt|Hge].
  - destruct (arg_page_ok page s (p - 1) Ha ltac:(lia)) as (q & page' & s' & Hr & Ha' & Hq & Hn & Hk). exists page', q, s'. by rewrite (run_bind _ _ _ _ _ Hr).
  - destruct Hat as [->|(Ho & Hq & Hn)]; [lia|]. unfold PAGE_SIZE in *. pose proof (Z.div_mod p 4096 ltac:(lia)) as Hd. pose proof (Z.mod_pos_bound p 4096 ltac:(lia)).
    assert (E1 : (p - 1) / 4096 = p / 4096) by (symmetry; apply Z.div_unique with (p mod 4096 - 1); lia). assert (E2 : (p - 1) mod 4096 = offset - 1) by (symmetry; apply Z.mod_unique with (p / 4096); lia).
    exists page, pag, s. rewrite E1, E2. split; [done|]. split; [done|]. split; [done|]. split; [done|by intros b v].
Qed.

Lemma copy_string_ok fs l : forall tmp page p pag offset s, (forall i, 0 <= i < Z.of_nat (length l) -> Some (get_fs_byte fs (tmp - Z.of_nat (length l) + i)) = aget l i) ->
  area page s -> Z.of_nat (length l) <= p <= 131072 -> at_place page p pag offset ->
  exists page' pag' offset' s', copy_string fs (length l) tmp (page, p, pag, offset) s = Ok (inr (page', p - Z.of_nat (length l), pag', offset')) s' /\
    area page' s' /\ at_place page' (p - Z.of_nat (length l)) pag' offset' /\ laid (arg_byte page' s') (p - Z.of_nat (length l)) l /\ keeps_from p page s page' s'.
Proof using.
  induction l as [|c l IH] using rev_ind; intros tmp page p pag offset s Hl Ha Hp Hat.
  - exists page, pag, offset, s. cbn [length]. rewrite Z.sub_0_r. split; [done|]. split; [done|]. split; [done|]. split; [intros i Hi; cbn in Hi; lia|by intros b v].
  - rewrite length_app in *. cbn [length] in *. rewrite Nat.add_1_r in *. set (k := Z.of_nat (length l)) in *.
    destruct (copy_byte_place page s p pag offset Ha ltac:(lia) Hat) as (page1 & q & s1 & Hr & Ha1 & Hq & Hn & Hk1).
    destruct (put_arg_ok page1 s1 (p - 1) q (get_fs_byte fs (tmp - 1)) Ha1 ltac:(lia) Hq Hn) as (s2 & Hput & Ha2 & Hc & Hsame).
    destruct (IH (tmp - 1) page1 (p - 1) q ((p - 1) mod PAGE_SIZE) s2) as (page3 & q3 & o3 & s3 & Hrun & Ha3 & Hat3 & Hlaid & Hk3); [|done|lia|by right|].
    { intros i Hi. replace (tmp - 1 - k + i) with (tmp - Z.of_nat (S (length l)) + i) by lia. rewrite Hl by lia. apply aget_app_l. lia. }
    exists page3, q3, o3, s3. replace (p - Z.of_nat (S (length l))) with (p - 1 - k) by lia. split; [|split; [done|split; [done|split]]].
    + cbn [copy_string]. rewrite u32_small by (unfold in_u32; lia). rewrite (run_bind _ _ _ _ _ Hr). cbn beta iota. by rewrite (run_bind _ _ _ _ _ Hput).
    + apply laid_app. fold k. split; [done|]. intros i Hi. cbn in Hi. replace i with 0 by lia. rewrite Z.sub_add, Z.add_0_r. cbn. apply Hk3; [lia|]. rewrite Hc.
      replace (tmp - 1) with (tmp - Z.of_nat (S (length l)) + k) by lia. rewrite Hl by lia. rewrite aget_app_r by lia. fold k. by rewrite Z.sub_diag.
    + intros b v Hb Hbv. apply Hk3; [lia|]. rewrite Hsame by lia. apply Hk1; [lia|done].
Qed.

(** A string in a program's memory, and an array of pointers to strings. *)
Definition cstring (fs : umem) (a : Z) (l : list Z) : Prop :=
  (forall i, 0 <= i < Z.of_nat (length l) -> Some (get_fs_byte fs (a + i)) = aget l i) /\ Forall (fun c => c <> 0) l /\ get_fs_byte fs (a + Z.of_nat (length l)) = 0.
Definition strings_at (fs : umem) (argv : Z) (args : list (list Z)) : Prop :=
  forall (k : nat) l, args !! k = Some l -> get_fs_long fs (argv + 4 * Z.of_nat k) <> 0 /\ cstring fs (get_fs_long fs (argv + 4 * Z.of_nat k)) l.

Lemma string_length_run fs fuel a l (s : fss C) : cstring fs a l -> (length l < fuel)%nat -> string_length fs fuel a s = Ok (Z.of_nat (length l) + 1) s.
Proof using.
  intros (Hl & Hnz & H0) Hf. unfold string_length. enough (E : forall k n, (k <= length l)%nat -> (length l - k < n)%nat -> iter n (fun len => mret (if truth (get_fs_byte fs (a + len)) then inl (len + 1) else inr (len + 1))) (Z.of_nat k) s = Ok (Z.of_nat (length l) + 1) s) by (apply (E 0%nat fuel); lia).
  intros k n. revert k. induction n as [|n IH]; intros k Hk Hn; [lia|]. cbn [iter]. destruct (decide (k = length l)) as [->|Hne].
  - rewrite H0. done.
  - rewrite truth_true; [erewrite run_bind by reflexivity; replace (Z.of_nat k + 1) with (Z.of_nat (S k)) by lia; apply IH; lia|].
    intros E. specialize (Hl (Z.of_nat k) ltac:(lia)). rewrite E in Hl. unfold aget in Hl. destruct (Z.ltb_spec (Z.of_nat k) 0); [lia|]. rewrite Nat2Z.id in Hl. symmetry in Hl. by apply (Forall_lookup_1 _ _ _ _ Hnz) in Hl.
Qed.

Lemma flat_length_snoc args l : length (flat (args ++ [l])) = (length (flat args) + S (length l))%nat.
Proof using. rewrite flat_app, length_app. f_equal. unfold flat. cbn. rewrite app_nil_r, length_app. cbn. lia. Qed.

Lemma copy_args_ok fs fuel argv args : forall page p pag offset s, strings_at fs argv args -> Forall (fun l => (length l < fuel)%nat) args ->
  area page s -> Z.of_nat (length (flat args)) <= p <= 131072 -> at_place page p pag offset ->
  exists page' pag' offset' s', copy_args fs fs fuel (length args) argv (page, p, pag, offset) s = Ok (inr (page', p - Z.of_nat (length (flat args)), pag', offset')) s' /\
    area page' s' /\ laid (arg_byte page' s') (p - Z.of_nat (length (flat args))) (flat args) /\ keeps_from p page s page' s'.
Proof using.
  induction args as [|l args IH] using rev_ind; intros page p pag offset s Hs Hf Ha Hp Hat.
  - exists page, pag, offset, s. cbn. rewrite Z.sub_0_r. split; [done|]. split; [done|]. split; [intros i Hi; cbn in Hi; lia|by intros b v].
  - rewrite flat_length_snoc in *. apply Forall_app in Hf as [Hf Hfl]. apply Forall_cons in Hfl as [Hfl _]. destruct (Hs (length args) l) as [Hnz Hc]; [by rewrite lookup_app_r, Nat.sub_diag by lia|].
    set (a := get_fs_long fs (argv + 4 * Z.of_nat (length args))) in *.
    assert (Hz : Z.to_nat (Z.of_nat (length l) + 1) = length (l ++ [0])) by (rewrite length_app; cbn; lia).
    destruct (copy_string_ok fs (l ++ [0]) (a + (Z.of_nat (length l) + 1)) page p pag offset s) as (page1 & q1 & o1 & s1 & Hr & Ha1 & Hat1 & Hl1 & Hk1); [|done|rewrite length_app; cbn; lia|done|].
    { rewrite length_app. cbn [length]. intros i Hi. replace (_ - _ + i) with (a + i) by lia. destruct Hc as (Hc1 & _ & Hc0). destruct (Z.eq_dec i (Z.of_nat (length l))) as [->|]; [rewrite Hc0, aget_app_r, Z.sub_diag by lia; done|]. rewrite Hc1 by lia. symmetry. apply aget_app_l. lia. }
    rewrite length_app in Hr, Hl1, Hat1. cbn [length] in Hr, Hl1, Hat1. set (k := Z.of_nat (length l + 1)) in *.
    destruct (IH page1 (p - k) q1 o1 s1) as (page2 & q2 & o2 & s2 & Hr2 & Ha2 & Hl2 & Hk2); [|done|done|lia|done|].
    { intros j l' Hj. apply Hs. by apply lookup_app_l_Some. }
    replace (p - Z.of_nat (length (flat args) + S (length l))) with (p - k - Z.of_nat (length (flat args))) by lia. exists page2, q2, o2, s2. split; [|split; [done|split]].
    + rewrite length_app, Nat.add_1_r. cbn [copy_args]. fold a. destruct (Z.eqb_spec a 0); [done|]. rewrite (run_bind _ _ _ _ _ (string_length_run fs fuel a l s Hc Hfl)). rewrite Hz, length_app. cbn [length]. by rewrite (run_bind _ _ _ _ _ Hr).
    + rewrite flat_app. apply laid_app. split; [done|]. rewrite Z.sub_add. unfold flat. cbn. rewrite app_nil_r. intros i Hi. specialize (Hl1 i Hi). destruct (aget_in_range (l ++ [0]) i Hi) as [v Hv]. rewrite Hv in *. apply Hk2; [lia|done].
    + intros b v Hb Hbv. apply Hk2; [lia|]. by apply Hk1.
Qed.

(** ** The pages in their place *)

(** The byte at [a] of the running task's data segment. *)
Definition user_byte (s : fss C) (a : Z) : option Z :=
  t ← heap (fkern s) !! current (fkern s);
  d ← aget (ldt t) 2;
  q ← user_page (fcache s) (u32 (get_base d + a));
  b ← fpages s !! u32 q;
  aget b (u32 (get_base d + a) mod 4096).

Lemma new_seg_run s a v : user_byte s a = Some v -> new_seg a s = Ok v s.
Proof using.
  unfold user_byte. destruct (heap (fkern s) !! current (fkern s)) as [t|] eqn:Et; [|done]. cbn [mbind option_bind]. destruct (aget (ldt t) 2) as [d|] eqn:Ed; [|done]. cbn [mbind option_bind].
  destruct (user_page (fcache s) (u32 (get_base d + a))) as [q|] eqn:Eq; [|done]. cbn [mbind option_bind]. destruct (fpages s !! u32 q) as [b|] eqn:Eb; [|done]. cbn [mbind option_bind]. intros Hv. unfold new_seg.
  rewrite (run_bind _ _ _ d s). 2: { unfold cur_ldt. rewrite (run_bind _ _ _ (ldt t) s); [by rewrite Ed|]. unfold on_task, cur. rewrite (run_bind _ _ _ _ _ (eq_refl : gets current (fkern s) = Ok _ _)). rewrite (run_bind _ _ _ t (fkern s)) by (unfold deref; by rewrite Et). by destruct s. }
  cbv zeta. rewrite (run_bind getS _ _ s s) by done. rewrite (run_bind _ _ _ q s) by (by rewrite Eq). rewrite (run_bind _ _ _ b s) by (unfold pipe_page; rewrite (run_bind getS _ _ s s) by done; by rewrite Eb). unfold PAGE_SIZE. by rewrite Hv.
Qed.

Lemma user_byte_events s ev a : user_byte (set_fkern (add_events ev (fkern s)) s) a = user_byte s a.
Proof using. done. Qed.

(** The loop of [change_ldt]: the page of every entry is where it belongs, from [B] on. *)
Lemma put_pages_run page B : length page = 32%nat -> TASK_SIZE <= B -> B mod 4096 = 0 -> B + 131072 <= 2 ^ 32 -> (forall x, B <= x < B + 131072 -> x / 4194304 = B / 4194304) ->
  forall k s, (k <= 32)%nat -> mem_ok (fcache s) (dom (fpages s)) -> (forall i q, aget page i = Some q -> q <> 0 -> in_u32 q /\ is_Some (fpages s !! q)) -> placeable (fcache s) (B / 4194304) ->
  exists c, put_pages page k (u32 (B + 4096 * Z.of_nat k)) s = Ok tt (set_fcache c s) /\ mem_ok c (dom (fpages s)) /\
    (forall i q x, aget page i = Some q -> q <> 0 -> i < Z.of_nat k -> B + 4096 * i <= x < B + 4096 * i + 4096 -> user_page c x = Some q) /\
    (forall x, B + 4096 * Z.of_nat k <= x < B + 131072 -> user_page c x = user_page (fcache s) x).
Proof using.
  intros Hlen HB0 Hal Htop Hsame. assert (HBpos : 0 <= B) by (unfold TASK_SIZE in HB0; lia). induction k as [|k IH]; intros s Hk Hm Hpg Hpl.
  { exists (fcache s). split; [by destruct s|]. split; [done|]. split; [intros i q x Hi%aget_Some_range; lia|done]. }
  cbn [put_pages]. replace (u32 (u32 (B + 4096 * Z.of_nat (S k)) - PAGE_SIZE)) with (B + 4096 * Z.of_nat k) by (unfold u32, PAGE_SIZE; rewrite Zminus_mod_idemp_l; rewrite Z.mod_small by lia; lia).
  destruct (aget_in_range page (Z.of_nat k)) as [q Hq]; [lia|]. rewrite (run_bind _ _ _ q s) by (by rewrite Hq). set (a := B + 4096 * Z.of_nat k) in *.
  assert (Hu : u32 a = a) by (apply u32_small; unfold in_u32; lia).
  assert (Hdiv : forall x, B <= x < B + 131072 -> (x / 4096 =? a / 4096) = bool_decide (a <= x < a + 4096)).
  { intros x Hx. assert (Ha0 : a mod 4096 = 0) by (unfold a; rewrite Z.mul_comm, Z.mod_add; done). pose proof (Z.div_mod a 4096 ltac:(lia)). pose proof (Z.div_mod x 4096 ltac:(lia)). pose proof (Z.mod_pos_bound x 4096 ltac:(lia)). case_bool_decide as E; [apply Z.eqb_eq|apply Z.eqb_neq]; nia. }
  destruct (Z.eq_dec q 0) as [->|Hn].
  - cbn [truth Z.eqb negb]. erewrite run_bind by reflexivity. destruct (IH s) as (c & Hr & Hm' & Hin & Hout); [lia|done..|]. fold a in Hr. rewrite Hu in Hr. exists c. split; [done|]. split; [done|]. split; [|intros x Hx; apply Hout; lia].
    intros i q x Hi Hq0 Hik Hx. destruct (Z.eq_dec i (Z.of_nat k)) as [->|]; [congruence|]. apply (Hin i q x); [done|done|lia|done].
  - rewrite truth_true by done. destruct (Hpg _ _ Hq Hn) as [Hqu Hqs]. destruct (page_placed s q a Hm Hqs Hqu) as (c1 & Hput & Hm1 & Hpl1 & Hb1); [lia|unfold a; by rewrite Z.mul_comm, Z.mod_add|by rewrite Hsame by lia|].
    rewrite (run_bind _ _ _ tt (set_fcache c1 s)) by (by rewrite (run_bind _ _ _ _ _ Hput)). rewrite Hsame in Hpl1 by lia.
    destruct (IH (set_fcache c1 s) ltac:(lia) Hm1 Hpg Hpl1) as (c & Hr & Hm' & Hin & Hout). fold a in Hr. rewrite Hu in Hr. exists c. split; [done|]. split; [done|]. cbn [fcache set_fcache] in Hout. split.
    + intros i q' x Hi Hq0 Hik Hx. destruct (Z.eq_dec i (Z.of_nat k)) as [->|]; [|apply (Hin i q' x); [done|done|lia|done]].
      rewrite Hout by lia. rewrite Hb1 by (lia || (rewrite (Hsame x), (Hsame a) by lia; done)). rewrite Hdiv by lia. rewrite bool_decide_eq_true_2 by lia. congruence.
    + intros x Hx. rewrite Hout by lia. rewrite Hb1 by (lia || (rewrite (Hsame x), (Hsame a) by lia; done)). rewrite Hdiv by lia. by rewrite bool_decide_eq_false_2 by lia.
Qed.

(** A descriptor that was given a base and then a limit has both, if its limit is counted
    in pages. *)
Lemma get_base_set_limit d base l : in_u32 base -> get_base (set_limit (set_base d base) l) = base.
Proof using.
  intros Hb. apply Z.bits_inj'. intros i Hi. unfold get_base, set_limit, set_base. cbn [fst snd].
  change 0xffff0000 with (Z.shiftl (Z.ones 16) 16). change 0xff00ffff with (Z.lor (Z.shiftl (Z.ones 8) 24) (Z.ones 16)). change 0x00ffff00 with (Z.shiftl (Z.ones 16) 8). change 0xffff with (Z.ones 16). change 0xff with (Z.ones 8). change 0xf0 with (Z.shiftl (Z.ones 4) 4).
  assert (Hhi : forall i, 32 <= i -> Z.testbit base i = false) by (intros; apply testbit_above with 32; [exact Hb|lia|done]).
  destruct (Z_lt_le_dec i 16); [bit_simpl; f_equal; lia|]. destruct (Z_lt_le_dec i 24); [bit_simpl; f_equal; lia|]. destruct (Z_lt_le_dec i 32); [bit_simpl; f_equal; lia|].
  rewrite Hhi by lia. bit_simpl. done.
Qed.
Lemma get_limit_set_limit d base : Z.testbit d.2 23 = true -> get_limit (set_limit (set_base d base) TASK_SIZE) = TASK_SIZE.
Proof using.
  intros Hg. unfold get_limit, set_limit, set_base. cbn [fst snd]. change (Z.shiftr (u32 (TASK_SIZE - 1)) 12) with 0x3fff. change (Z.land 0x3fff 0xffff) with 0x3fff. change (Z.land (Z.shiftr 0x3fff 16) 0xff) with 0.
  change 0xff00ffff with (Z.lor (Z.shiftl (Z.ones 8) 24) (Z.ones 16)). change 0x00ffff00 with (Z.shiftl (Z.ones 16) 8). change 0xff with (Z.ones 8). change 0xf0 with (Z.shiftl (Z.ones 4) 4). rewrite Z.lor_0_l.
  set (w := Z.lor (Z.land d.2 _) _). set (w' := Z.lor (Z.land w _) _).
  assert (E1 : Z.testbit w' 23 = true) by (unfold w', w; bit_simpl; done).
  assert (E2 : Z.land w' 0xf0000 = 0).
  { change 0xf0000 with (Z.shiftl (Z.ones 4) 16). apply Z.bits_inj'. intros i Hi. rewrite Z.bits_0. unfold w'. destruct (Z_lt_le_dec i 16); [bit_simpl; done|]. destruct (Z_lt_le_dec i 20); [bit_simpl; done|]. bit_simpl. done. }
  assert (E3 : Z.land (Z.lor (Z.land (Z.lor (Z.land d.1 0xffff) (Z.shiftl (Z.land base 0xffff) 16)) 0xffff0000) 0x3fff) 0xffff = 0x3fff).
  { rewrite Z.land_lor_distr_l. rewrite <-Z.land_assoc. change (Z.land 0xffff0000 0xffff) with 0. by rewrite Z.land_0_r. }
  rewrite E1, E2, E3. done.
Qed.

(** ** The tables *)

Section Tables.
Context (P : Z) (HP0 : 0 <= P) (HP1 : P + 131072 < 2 ^ 31).

Lemma skip_string_run s l : forall fuel a, 0 <= a -> a + Z.of_nat (length l) < 131072 -> Forall (fun c => c <> 0) l -> (length l < fuel)%nat -> laid (user_byte s) (P + a) (l ++ [0]) ->
  skip_string new_seg fuel (P + a) s = Ok (P + a + Z.of_nat (length l) + 1) s.
Proof using HP0 HP1.
  unfold skip_string. induction l as [|c l IH]; intros fuel a H0 Hr Hnz Hf Hl; (destruct fuel as [|fuel]; [cbn in Hf; lia|]); cbn [iter length] in *.
  - specialize (Hl 0 ltac:(cbn; lia)). rewrite Z.add_0_r in Hl. rewrite (run_bind _ _ _ (inr (P + a + 1)) s); [by rewrite Z.add_0_r|]. rewrite (run_bind _ _ _ _ _ (new_seg_run s (P + a) 0 Hl)). cbn. rewrite u32_small by (unfold in_u32; lia). done.
  - apply Forall_cons in Hnz as [Hc Hnz]. change ((c :: l) ++ [0]) with ([c] ++ (l ++ [0])) in Hl. apply laid_app in Hl as [H1 H2]. specialize (H1 0 ltac:(cbn; lia)). rewrite Z.add_0_r in H1. cbn [length] in H2.
    rewrite (run_bind _ _ _ (inl (P + (a + 1))) s); [rewrite IH by (done || lia || by rewrite Z.add_assoc); f_equal; lia|]. rewrite (run_bind _ _ _ _ _ (new_seg_run s (P + a) c H1)). rewrite truth_true by done. rewrite u32_small by (unfold in_u32; lia). by rewrite <-Z.add_assoc.
Qed.

(** The pointers to the strings that begin at [p], from [a] on. *)
Fixpoint pointers (a p : Z) (l : list (list Z)) : list event :=
  match l with [] => [] | x :: l' => EPut a p :: pointers (a + 4) (p + Z.of_nat (length x) + 1) l' end.

Lemma put_pointers_run fuel l : forall a b s, 0 <= a -> a + 4 * Z.of_nat (length l) < 2 ^ 31 -> 0 <= b -> b + Z.of_nat (length (flat l)) <= 131072 -> Forall (fun x => (length x < fuel)%nat /\ Forall (fun c => c <> 0) x) l -> laid (user_byte s) (P + b) (flat l) ->
  put_pointers new_seg fuel (length l) a (P + b) s = Ok (a + 4 * Z.of_nat (length l), P + b + Z.of_nat (length (flat l))) (set_fkern (add_events (pointers a (P + b) l) (fkern s)) s).
Proof using HP0 HP1.
  induction l as [|x l IH]; intros a b s H0 Har Hb0 Hbr Hx Hl; cbn [put_pointers length pointers].
  - rewrite !Z.add_0_r, add_events_nil. by destruct s.
  - cbn [length] in Har. apply Forall_cons in Hx as [[Hxf Hxn] Hx]. assert (Hlen : length (flat (x :: l)) = (length x + 1 + length (flat l))%nat) by (change (flat (x :: l)) with ((x ++ [0]) ++ flat l); by rewrite !length_app). rewrite Hlen in Hbr. change (x :: l) with ([x] ++ l) in Hl. rewrite flat_app in Hl. apply laid_app in Hl as [Hlx Hll].
    assert (E1 : flat [x] = x ++ [0]) by (unfold flat; cbn; apply app_nil_r). rewrite E1 in Hlx, Hll. rewrite length_app in Hll. cbn [length] in Hll.
    set (s1 := set_fkern (add_event (EPut a (P + b)) (fkern s)) s). rewrite (run_bind _ _ _ tt s1) by (unfold on_task, put_fs_long; rewrite !u32_small by (unfold in_u32; lia); done).
    rewrite (run_bind _ _ _ (P + (b + Z.of_nat (length x) + 1)) s1) by (rewrite (skip_string_run s1 x) by (done || lia); f_equal; lia).
    rewrite (IH (a + 4) (b + Z.of_nat (length x) + 1) s1); [|lia|lia|lia|lia|done|by replace (P + (b + Z.of_nat (length x) + 1)) with (P + b + Z.of_nat (length x + 1)) by lia].
    f_equal; [f_equal; rewrite ?Hlen; lia|]. unfold s1. cbn [fkern set_fkern]. rewrite add_events_cons. rewrite !Z.add_assoc. by destruct s.
Qed.

(** What a program finds below its strings, which begin at [p]: its number of arguments,
    the two tables, and in them the places of the strings. *)
Definition stack_tables (p : Z) (args envs : list (list Z)) : Z * list event :=
  let envp := Z.land 0xfffffffc p - 4 * (Z.of_nat (length envs) + 1) in
  let argv := envp - 4 * (Z.of_nat (length args) + 1) in
  (argv - 12,
   [EPut (argv - 4) envp; EPut (argv - 8) argv; EPut (argv - 12) (Z.of_nat (length args))] ++
   pointers argv p args ++ [EPut (argv + 4 * Z.of_nat (length args)) 0] ++
   pointers envp (p + Z.of_nat (length (flat args))) envs ++ [EPut (envp + 4 * Z.of_nat (length envs)) 0]).

Lemma land_4 p : in_u32 p -> Z.land 0xfffffffc p = 4 * (p / 4).
Proof using.
  intros Hp. rewrite Z.land_comm. change 4 with (2 ^ 2) at 1 2. rewrite <-(ldiff_ones p 2) by lia. change 0xfffffffc with (Z.ldiff (Z.ones 32) (Z.ones 2)).
  apply Z.bits_inj'. intros i Hi. rewrite Z.land_spec, !Z.ldiff_spec, !Z.testbit_ones_nonneg by lia. destruct (Z.ltb_spec i 32); [done|]. by rewrite (testbit_above p 32 i Hp) by lia.
Qed.

Lemma task_put_long a v (s : fss C) : in_u32 a -> in_u32 v -> on_task (put_fs_long v a) s = Ok tt (set_fkern (add_events [EPut a v] (fkern s)) s).
Proof using. intros Ha Hv. unfold put_fs_long. rewrite !u32_small by done. done. Qed.

Lemma flat_length_ge l : (length l <= length (flat l))%nat.
Proof using. induction l as [|x l IH]; [done|]. change (flat (x :: l)) with ((x ++ [0]) ++ flat l). rewrite !length_app. cbn [length]. lia. Qed.

Lemma add_puts e1 e2 (s : fss C) : set_fkern (add_events e2 (fkern (set_fkern (add_events e1 (fkern s)) s))) (set_fkern (add_events e1 (fkern s)) s) = set_fkern (add_events (e1 ++ e2) (fkern s)) s.
Proof using. unfold add_events. destruct s; cbn. by rewrite app_assoc. Qed.

Lemma create_tables_run fuel b args envs s : 1048576 <= P -> 0 <= b -> b + Z.of_nat (length (flat args ++ flat envs)) <= 131072 -> Forall (fun x => (length x < fuel)%nat /\ Forall (fun c => c <> 0) x) (args ++ envs) -> laid (user_byte s) (P + b) (flat args ++ flat envs) ->
  create_tables new_seg fuel (P + b) (Z.of_nat (length args)) (Z.of_nat (length envs)) s =
    Ok (fst (stack_tables (P + b) args envs)) (set_fkern (add_events (snd (stack_tables (P + b) args envs)) (fkern s)) s).
Proof using HP0 HP1.
  intros HP2 Hb Hr Hx Hl. rewrite length_app in Hr. apply Forall_app in Hx as [Hx1 Hx2]. apply laid_app in Hl as [Hl1 Hl2]. pose proof (flat_length_ge args). pose proof (flat_length_ge envs).
  unfold create_tables, stack_tables. cbv zeta. rewrite land_4 by (unfold in_u32; lia). assert (Htop : P + b - 3 <= 4 * ((P + b) / 4) <= P + b) by (pose proof (Z.div_mod (P + b) 4 ltac:(lia)); pose proof (Z.mod_pos_bound (P + b) 4 ltac:(lia)); lia). set (top := 4 * ((P + b) / 4)) in *. clearbody top. set (envp := top - 4 * (Z.of_nat (length envs) + 1)). set (argv := envp - 4 * (Z.of_nat (length args) + 1)). assert (Hargv : 0 <= argv - 12 /\ argv <= envp /\ envp <= top) by lia. assert (Ea : argv + 4 * Z.of_nat (length args) = envp - 4) by lia. assert (Ee : envp + 4 * Z.of_nat (length envs) = top - 4) by lia. clearbody argv envp.
  do 3 (erewrite run_bind by (apply task_put_long; unfold in_u32; lia); rewrite ?add_puts). rewrite !Nat2Z.id.
  erewrite run_bind by (apply put_pointers_run; [lia|lia|done|lia|done|done]). rewrite add_puts. cbn beta iota. erewrite run_bind by (apply task_put_long; unfold in_u32; lia); rewrite add_puts.
  rewrite <-Z.add_assoc. erewrite run_bind by (apply put_pointers_run; [lia|lia|lia|lia|done|by rewrite Z.add_assoc]). rewrite add_puts. cbn beta iota. erewrite run_bind by (apply task_put_long; unfold in_u32; lia); rewrite add_puts.
  rewrite u32_small by (unfold in_u32; lia). cbn [fst snd]. unfold mret, M_ret. do 3 f_equal. by rewrite <-!app_assoc, ?Z.add_assoc.
Qed.
End Tables.

(** The task after [change_ldt]. *)
Definition placed_ldt (t : task_struct) (d1 d2 : Z * Z) : task_struct :=
  set_ldt (<[2%nat := set_limit (set_base d2 (get_base d1)) TASK_SIZE]> (<[1%nat := set_limit (set_base d1 (get_base d1)) TASK_SIZE]> (ldt t))) t.

Lemma placed_ldt_2 t d1 d2 : aget (ldt t) 2 = Some d2 -> aget (ldt (placed_ldt t d1 d2)) 2 = Some (set_limit (set_base d2 (get_base d1)) TASK_SIZE).
Proof using.
  intros Hd2. assert (E : ldt (placed_ldt t d1 d2) = <[Z.to_nat 2 := set_limit (set_base d2 (get_base d1)) TASK_SIZE]> (<[1%nat := set_limit (set_base d1 (get_base d1)) TASK_SIZE]> (ldt t))) by (by destruct t).
  rewrite E. apply aget_insert_eq. rewrite length_insert. by apply aget_Some_range in Hd2.
Qed.

Lemma set_cur_ldt_run n f (s : fss C) t d : heap (fkern s) !! current (fkern s) = Some t -> aget (ldt t) n = Some d ->
  set_cur_ldt n f s = Ok tt (set_fkern (set_heap (<[current (fkern s) := set_ldt (<[Z.to_nat n := f d]> (ldt t)) t]> (heap (fkern s))) (fkern s)) s).
Proof using.
  intros Ht Hd. unfold set_cur_ldt. rewrite (run_bind _ _ _ (ldt t) s) by (unfold on_task, cur; rewrite (run_bind _ _ _ _ _ (eq_refl : gets current (fkern s) = Ok _ _)); rewrite (run_bind _ _ _ t (fkern s)) by (unfold deref; by rewrite Ht); by destruct s).
  rewrite (run_bind _ _ _ d s) by (by rewrite Hd). unfold on_task, upd_cur. rewrite (run_bind _ _ _ _ _ (eq_refl : gets current (fkern s) = Ok _ _)). unfold upd. by rewrite Ht.
Qed.

Lemma change_ldt_run page (s : fss C) t d1 d2 : length page = 32%nat -> heap (fkern s) !! current (fkern s) = Some t -> aget (ldt t) 1 = Some d1 -> aget (ldt t) 2 = Some d2 ->
  TASK_SIZE <= get_base d1 -> get_base d1 < 2 ^ 32 -> get_base d1 mod TASK_SIZE = 0 -> mem_ok (fcache s) (dom (fpages s)) -> (forall i q, aget page i = Some q -> q <> 0 -> in_u32 q /\ is_Some (fpages s !! q)) -> placeable (fcache s) ((get_base d1 + LIBRARY_OFFSET) / 4194304 - 1) ->
  exists c, change_ldt page s = Ok TASK_SIZE (set_fcache c (set_fkern (set_heap (<[current (fkern s) := placed_ldt t d1 d2]> (heap (fkern s))) (fkern s)) s)) /\ 
    forall i q x, aget page i = Some q -> q <> 0 -> LIBRARY_OFFSET - 131072 + 4096 * i <= x < LIBRARY_OFFSET - 131072 + 4096 * i + 4096 -> user_page c (get_base d1 + x) = Some q.
Proof using.
  intros Hlen Ht Hd1 Hd2 Hb1 Hb2 Hb3 Hm Hpg Hpl. set (base := get_base d1) in *. change LIBRARY_OFFSET with 0x3c00000 in *. change TASK_SIZE with 0x4000000 in Hb1, Hb3.
  pose proof (Z.div_mod base 0x4000000 ltac:(lia)) as Hdm. rewrite Hb3 in Hdm. set (k := base / 0x4000000) in *. set (B := base + 0x3be0000).
  assert (HS : forall x, B <= x < B + 131072 -> x / 4194304 = 16 * k + 14) by (intros x Hx; symmetry; apply Z.div_unique with (x - 4194304 * (16 * k + 14)); lia).
  assert (Hbu : in_u32 base) by (unfold in_u32; lia).
  set (s1 := set_fkern (set_heap (<[current (fkern s) := set_ldt (<[1%nat := set_limit (set_base d1 base) TASK_SIZE]> (ldt t)) t]> (heap (fkern s))) (fkern s)) s).
  set (s2 := set_fkern (set_heap (<[current (fkern s) := placed_ldt t d1 d2]> (heap (fkern s))) (fkern s)) s).
  assert (Hr1 : set_cur_ldt 1 (fun d => set_limit (set_base d base) TASK_SIZE) s = Ok tt s1) by (by rewrite (set_cur_ldt_run 1 _ s t d1 Ht Hd1)).
  assert (Hr2 : set_cur_ldt 2 (fun d => set_limit (set_base d base) TASK_SIZE) s1 = Ok tt s2).
  { rewrite (set_cur_ldt_run 2 _ s1 (set_ldt (<[1%nat := set_limit (set_base d1 base) TASK_SIZE]> (ldt t)) t) d2); [|apply lookup_insert_eq|destruct t; exact (eq_trans (aget_insert_ne _ 1 2 _ ltac:(lia) ltac:(lia)) Hd2)].
    unfold s2, s1. cbn [fkern set_fkern heap set_heap current]. rewrite insert_insert_eq. destruct s, t; done. }
  destruct (put_pages_run page B Hlen) with (k := 32%nat) (s := s2) as (c & Hp & _ & Hin & _); [change TASK_SIZE with 0x4000000; lia| |lia| |lia|done|done| |].
  - unfold B. rewrite Hdm. replace (0x4000000 * k + 0 + 0x3be0000) with ((16384 * k + 15328) * 4096) by lia. apply Z.mod_mul. lia.
  - intros x Hx. rewrite !HS by lia. done.
  - rewrite HS by lia. replace (16 * k + 14) with ((base + 0x3c00000) / 4194304 - 1); [done|]. replace (base + 0x3c00000) with ((16 * k + 15) * 4194304) by lia. rewrite Z.div_mul; lia.
  - exists c. split.
    + unfold change_ldt. rewrite (run_bind _ _ _ d1 s) by (unfold cur_ldt; rewrite (run_bind _ _ _ (ldt t) s); [by rewrite Hd1|]; unfold on_task, cur; rewrite (run_bind _ _ _ _ _ (eq_refl : gets current (fkern s) = Ok _ _)); rewrite (run_bind _ _ _ t (fkern s)) by (unfold deref; by rewrite Ht); by destruct s).
      cbv zeta. fold base. rewrite (run_bind _ _ _ _ _ Hr1), (run_bind _ _ _ _ _ Hr2). change (Z.to_nat MAX_ARG_PAGES) with 32%nat. replace (base + TASK_SIZE - LIBRARY_SIZE) with (B + 4096 * Z.of_nat 32) by (unfold B; change TASK_SIZE with 0x4000000; change LIBRARY_SIZE with 0x400000; lia).
      by rewrite (run_bind _ _ _ _ _ Hp).
    + intros i q x Hi Hq Hx. apply (Hin i q); [done|done|apply aget_Some_range in Hi; lia|unfold B; lia].
Qed.

(** The two calls of [copy_strings] in [do_execve]. *)
Definition copy_all (fs ks : umem) (fuel : nat) (argc argv envc envp : Z) : M (fss C) (Z * list Z) :=
  '(p, page) ← copy_strings fs ks fuel envc envp (replicate (Z.to_nat MAX_ARG_PAGES) 0) (PAGE_SIZE * MAX_ARG_PAGES - 4) 0;
  copy_strings fs ks fuel argc argv page p 0.

Lemma copy_strings_ok fs ks fuel argv args page p s : strings_at fs argv args -> Forall (fun l => (length l < fuel)%nat) args -> area page s -> 0 < p -> Z.of_nat (length (flat args)) <= p <= 131072 ->
  exists page' s', copy_strings fs ks fuel (Z.of_nat (length args)) argv page p 0 s = Ok (p - Z.of_nat (length (flat args)), page') s' /\ area page' s' /\ laid (arg_byte page' s') (p - Z.of_nat (length (flat args))) (flat args) /\ keeps_from p page s page' s'.
Proof using.
  intros Hs Hf Ha Hp Hr. destruct (copy_args_ok fs fuel argv args page p 0 0 s Hs Hf Ha Hr (or_introl eq_refl)) as (page' & q & o & s' & Hrun & Ha' & Hl & Hk). exists page', s'. split; [|done].
  unfold copy_strings. destruct (Z.eqb_spec p 0); [lia|]. change (0 =? 0) with true. change (0 =? 2) with false. cbv iota. rewrite Nat2Z.id. by rewrite (run_bind _ _ _ _ _ Hrun).
Qed.

(** What was copied is what the program finds, where [change_ldt] has put it. *)
Lemma placed_byte page (s1 s1' s2 : fss C) c t d1 d2 b v : heap (fkern s2) !! current (fkern s2) = Some (placed_ldt t d1 d2) -> aget (ldt t) 2 = Some d2 -> fpages s2 = fpages s1' -> fcache s2 = c ->
  0 <= get_base d1 -> get_base d1 + TASK_SIZE <= 2 ^ 32 -> get_base d1 mod 4096 = 0 -> (forall q, q ∈ page -> q <> 0 -> in_u32 q /\ fpages s1' !! q = fpages s1 !! q) ->
  (forall i q x, aget page i = Some q -> q <> 0 -> LIBRARY_OFFSET - 131072 + 4096 * i <= x < LIBRARY_OFFSET - 131072 + 4096 * i + 4096 -> user_page c (get_base d1 + x) = Some q) ->
  0 <= b < 131072 -> arg_byte page s1 b = Some v -> user_byte s2 (LIBRARY_OFFSET - 131072 + b) = Some v.
Proof using.
  intros Ht Hd2 Hf Hc Hb0 Hb1 Hb2 Hq Hu Hb Hv. change LIBRARY_OFFSET with 0x3c00000 in *. change TASK_SIZE with 0x4000000 in Hb1. unfold arg_byte, PAGE_SIZE in Hv. destruct (aget page (b / 4096)) as [q|] eqn:Eq; [|done]. destruct (truth q) eqn:Et; [|done]. destruct (fpages s1 !! q) as [d|] eqn:Ed; [|done].
  assert (Hq0 : q <> 0) by (by intros ->). assert (Hin : q ∈ page) by (unfold aget in Eq; destruct (_ <? 0); [done|]; by eapply list_elem_of_lookup_2). destruct (Hq q Hin Hq0) as [Hqu Hqf].
  pose proof (Z.div_mod b 4096 ltac:(lia)). pose proof (Z.mod_pos_bound b 4096 ltac:(lia)).
  unfold user_byte. rewrite Ht. cbn [mbind option_bind].
  pose proof (placed_ldt_2 t d1 d2 Hd2) as Hl2.
  rewrite Hl2. cbn [mbind option_bind]. rewrite get_base_set_limit by (unfold in_u32; lia). rewrite u32_small by (unfold in_u32; lia). rewrite Hc, (Hu (b / 4096) q) by (done || lia). cbn [mbind option_bind]. rewrite u32_small by done. rewrite Hf, Hqf, Ed. cbn [mbind option_bind]. rewrite <-Hv. f_equal.
  assert (E : get_base d1 + (62914560 - 131072 + b) = b + (get_base d1 / 4096 + 15328) * 4096) by (pose proof (Z.div_mod (get_base d1) 4096 ltac:(lia)); lia). rewrite E. by rewrite Z.mod_add.
Qed.

(** C5: A program gets the arguments and the environment it was run with.  However long
    the strings are, if they fit into the 32 pages and there is memory, [copy_strings]
    puts them one behind the other, whole and in order, into pages of their own.  When
    the old program has been given up, whatever that changed but these pages and the
    memory manager's order, [change_ldt] sets the limit and puts the pages into the new
    address space, where the program reads the strings, ending four bytes below the
    library; below them [create_tables] writes the number of arguments, the two tables and
    in the tables the address of each string, ended by a zero. *)
Theorem arguments_passed (fs ks : umem) (fuel : nat) (argv envp : Z) (args envs : list (list Z)) (s : fss C) :
  strings_at fs argv args -> strings_at fs envp envs -> Forall (fun x => (length x < fuel)%nat /\ Forall (fun c => c <> 0) x) (args ++ envs) ->
  mem_ok (fcache s) (dom (fpages s)) -> (32 <= room (fcache s))%nat -> Z.of_nat (length (flat args ++ flat envs)) < 131068 ->
  exists page s1, let len := Z.of_nat (length (flat args ++ flat envs)) in
    copy_all fs ks fuel (Z.of_nat (length args)) argv (Z.of_nat (length envs)) envp s = Ok (131068 - len, page) s1 /\ mem_ok (fcache s1) (dom (fpages s1)) /\
    forall s1' t d1 d2, (forall q, q ∈ page -> q <> 0 -> fpages s1' !! q = fpages s1 !! q) -> mem_ok (fcache s1') (dom (fpages s1')) ->
      heap (fkern s1') !! current (fkern s1') = Some t -> aget (ldt t) 1 = Some d1 -> aget (ldt t) 2 = Some d2 -> Z.testbit d2.2 23 = true ->
      TASK_SIZE <= get_base d1 < 2 ^ 32 -> get_base d1 mod TASK_SIZE = 0 -> placeable (fcache s1') ((get_base d1 + LIBRARY_OFFSET) / 4194304 - 1) ->
      exists s2 t' d', let a := LIBRARY_OFFSET - 4 - len in
        place_args fuel page (131068 - len) (Z.of_nat (length args)) (Z.of_nat (length envs)) s1' = Ok (fst (stack_tables a args envs)) s2 /\
        laid (user_byte s2) a (flat args ++ flat envs) /\
        heap (fkern s2) !! current (fkern s2) = Some t' /\ aget (ldt t') 2 = Some d' /\ get_base d' = get_base d1 /\ get_limit d' = TASK_SIZE /\
        fpages s2 = fpages s1' /\ trace (fkern s2) = trace (fkern s1') ++ snd (stack_tables a args envs).
Proof using.
  intros Hargs Henvs Hx Hmem Hroom Hlen. rewrite length_app in *. pose proof Hx as Hx0. apply Forall_app in Hx as [Hx1 Hx2].
  assert (Ha : area (replicate 32 0) s). { split; [done| | |exact Hroom|done]; intros i; [intros q Hi Hq|intros j q Hi _ Hq]; exfalso; apply Hq; unfold aget in Hi; destruct (i <? 0); try done; by apply lookup_replicate in Hi as [-> _]. }
  destruct (copy_strings_ok fs ks fuel envp envs (replicate 32 0) 131068 s Henvs) as (page1 & s1 & H1 & Ha1 & Hl1 & _); [by eapply Forall_impl; [exact Hx2|intros x [? _]]|done|lia|lia|].
  set (p1 := 131068 - Z.of_nat (length (flat envs))) in *. destruct (copy_strings_ok fs ks fuel argv args page1 p1 s1 Hargs) as (page2 & s2 & H2 & Ha2 & Hl2 & Hk2); [by eapply Forall_impl; [exact Hx1|intros x [? _]]|done|lia|lia|].
  assert (Ep : 131068 - Z.of_nat (length (flat args) + length (flat envs)) = p1 - Z.of_nat (length (flat args))) by lia.
  assert (Hl : laid (arg_byte page2 s2) (p1 - Z.of_nat (length (flat args))) (flat args ++ flat envs)).
  { apply laid_app. split; [done|]. rewrite Z.sub_add. intros i Hi. destruct (aget_in_range (flat envs) i Hi) as [v Hv]. rewrite Hv. apply Hk2; [lia|]. rewrite Hl1 by lia. done. }
  exists page2, s2. cbv zeta. split; [rewrite Ep; unfold copy_all; change (replicate (Z.to_nat MAX_ARG_PAGES) 0) with (replicate 32 0); change (PAGE_SIZE * MAX_ARG_PAGES - 4) with 131068; by rewrite (run_bind _ _ _ _ _ H1)|]. split; [apply (ar_mem _ _ Ha2)|].
  intros s1' t d1 d2 Hkeep Hmem' Ht Hd1 Hd2 Hg Hbase Hmod Hpl. clear H1 H2 Hk2 Hl1 Hl2 Ha1 Ha.
  assert (Hpg : forall i q, aget page2 i = Some q -> q <> 0 -> in_u32 q /\ q ∈ page2 /\ is_Some (fpages s2 !! q)) by (intros i q Hi Hq; destruct (ar_page _ _ Ha2 i q Hi Hq) as (Hu & d & Hd & _); split; [done|]; split; [unfold aget in Hi; destruct (i <? 0); [done|]; by eapply list_elem_of_lookup_2|by exists d]).
  destruct (change_ldt_run page2 s1' t d1 d2 (ar_len _ _ Ha2) Ht Hd1 Hd2) as (c & Hchange & Hplaced); [lia|lia|done|done| |done|].
  { intros i q Hi Hq. destruct (Hpg i q Hi Hq) as (Hu & Hin & Hs). split; [done|]. by rewrite Hkeep. }
  set (s3 := set_fcache c _) in Hchange. set (len := Z.of_nat (length (flat args) + length (flat envs))) in *.
  assert (Hbase64 : get_base d1 + TASK_SIZE <= 2 ^ 32 /\ get_base d1 mod 4096 = 0).
  { change TASK_SIZE with 0x4000000 in *. pose proof (Z.div_mod (get_base d1) 0x4000000 ltac:(lia)) as E. rewrite Hmod in E. split; [lia|]. rewrite E. replace (0x4000000 * (get_base d1 / 0x4000000) + 0) with (16384 * (get_base d1 / 0x4000000) * 4096) by lia. apply Z.mod_mul. lia. }
  assert (Hbytes : laid (user_byte s3) (LIBRARY_OFFSET - 4 - len) (flat args ++ flat envs)).
  { intros i Hi. destruct (aget_in_range _ i Hi) as [v Hv]. rewrite Hv. rewrite length_app in Hi. replace (LIBRARY_OFFSET - 4 - len + i) with (LIBRARY_OFFSET - 131072 + (131068 - len + i)) by lia.
    apply (placed_byte page2 s2 s1' s3 c t d1 d2); [apply lookup_insert_eq|done|done|done|change TASK_SIZE with 0x4000000 in *; lia|lia|lia| |done|lia|rewrite Ep, Hl by (rewrite length_app; lia); done].
    intros q Hq Hq0. apply list_elem_of_lookup in Hq as [j Hj]. destruct (Hpg (Z.of_nat j) q) as (Hu & Hin & _); [unfold aget; destruct (Z.ltb_spec (Z.of_nat j) 0); [lia|]; by rewrite Nat2Z.id|done|]. split; [done|by apply Hkeep]. }
  pose proof (placed_ldt_2 t d1 d2 Hd2) as Hl2.
  eexists _, (placed_ldt t d1 d2), _. split; [|split; [|split; [|split; [exact Hl2|split; [apply get_base_set_limit; unfold in_u32, TASK_SIZE in *; lia|split; [by apply get_limit_set_limit|split]]]]]].
  - unfold place_args. rewrite (run_bind _ _ _ _ _ Hchange). cbv zeta. replace (u32 (u32 (131068 - len + TASK_SIZE) - (LIBRARY_SIZE + MAX_ARG_PAGES * PAGE_SIZE))) with (LIBRARY_OFFSET - 131072 + (131068 - len)) by (change TASK_SIZE with 0x4000000; change LIBRARY_SIZE with 0x400000; change (MAX_ARG_PAGES * PAGE_SIZE) with 131072; change LIBRARY_OFFSET with 0x3c00000; rewrite !u32_small; unfold in_u32; rewrite ?u32_small; unfold in_u32; lia).
    rewrite (create_tables_run (LIBRARY_OFFSET - 131072)); [|done|done|done|lia|rewrite length_app; lia|done|by replace (LIBRARY_OFFSET - 131072 + (131068 - len)) with (LIBRARY_OFFSET - 4 - len) by lia].
    by replace (LIBRARY_OFFSET - 131072 + (131068 - len)) with (LIBRARY_OFFSET - 4 - len) by lia.
  - exact Hbytes.
  - apply lookup_insert_eq.
  - done.
  - done.
Qed.
End ExecOk.

(** ** The memory manager keeps these promises

    [Memory] with its page tables, the bytes of the pages beside it. *)

Section MemPages.
Context (env : swap_env) (tries : nat).

#[local] Instance mem_alloc : PageAlloc mst := {|
  get_free_page := q ← on_cache (Memory.get_free_page env tries); (if q =? 0 then mret tt else modify (fun s => set_fpages (<[q := replicate 4096 0]> (fpages s)) s));; mret q;
  free_page a := on_cache (Memory.free_page a)
|}.
#[local] Instance mem_user : UserPages mst := {|
  put_dirty_page q a := on_cache (Memory.put_dirty_page env tries q a);
  user_page m a := if mapped (phys m) a then Some (frame_of (phys m) a) else None
|}.

(** The page tables of programs and the pages [D] are in use. *)
Record tables_ok (m : mst) (D : gset Z) : Prop := {
  to_map : map_ok m;
  to_table : forall a, user a -> has_table (phys m) a = true -> in_use m (table_of (phys m) a) /\ table_of (phys m) a <> 0;
  to_page : forall q, q ∈ D -> exists i c, q = frame_addr i /\ aget (mem_map m) i = Some c /\ 0 < c
}.
Definition free_pages (m : mst) : nat := empty_slots (mem_map m).

Lemma free_next m : (0 < free_pages m)%nat -> exists i, next_free m i.
Proof using.
  intros Hf. pose proof (last_zero_next_free m) as H. destruct (last_zero (mem_map m) 0 None) as [i|]; [by exists i|]. exfalso. unfold free_pages, empty_slots in Hf.
  destruct (filter (fun q => q = 0) (mem_map m)) as [|x l] eqn:E; [cbn in Hf; lia|]. assert (Hx : x ∈ filter (fun q => q = 0) (mem_map m)) by (rewrite E; left). apply list_elem_of_filter in Hx as [-> [j Hj]%list_elem_of_lookup].
  apply (H (Z.of_nat j)). unfold aget. destruct (Z.ltb_spec (Z.of_nat j) 0); [lia|]. by rewrite Nat2Z.id.
Qed.

(** Taking a page. *)
Lemma taken_ok m D i : tables_ok m D -> next_free m i -> tables_ok (taken i m) ({[frame_addr i]} ∪ D) /\ (forall a, user a -> word (phys (taken i m)) (dir_of a) = word (phys m) (dir_of a)) /\ S (free_pages (taken i m)) = free_pages m.
Proof using.
  intros [Hm Ht Hp] Hnf. pose proof Hnf as [Hi _]. pose proof (aget_Some_range _ _ _ Hi) as Hr.
  assert (Hdir : forall a, user a -> word (phys (taken i m)) (dir_of a) = word (phys m) (dir_of a)).
  { intros a Ha. apply taken_word. apply (page_disjoint 0); [done|apply frame_page|unfold frame_addr, LOW_MEM; lia|by apply dir_of_page, user_nonneg]. }
  split; [split|split; [done|apply empty_slots_insert; [done|lia]]].
  - split; [cbn [mem_map taken set_phys set_mem_map]; rewrite length_insert; apply (mo_len m Hm)| |].
    + intros j Hj. rewrite (taken_map i j m 0 Hi) in Hj. case_decide; [done|]. by apply (mo_high m Hm).
    + cbn [mem_map taken set_phys set_mem_map]. apply Forall_insert; [apply (mo_byte m Hm)|unfold in_u8; lia].
  - intros a Ha Hh. unfold has_table, table_of in *. rewrite Hdir in * by done. destruct (Ht a Ha Hh) as [Hu Hn]. split; [|done]. destruct Hu as [Hl|(c & Hc & Hc0)]; [by left|]. right. rewrite (taken_map i _ m 0 Hi). case_decide; [by exists 1|by exists c].
  - intros q [Hq%elem_of_singleton|Hq]%elem_of_union; [exists i, 1; split; [done|]; split; [by rewrite (taken_map i i m 0 Hi), decide_True|done]|].
    destruct (Hp q Hq) as (j & c & -> & Hc & Hc0). destruct (decide (j = i)) as [->|]; [rewrite Hi in Hc; injection Hc as <-; lia|by exists j, c; rewrite (taken_map i j m 0 Hi), decide_False].
Qed.

Lemma entry_off_div a : 0 <= a -> entry_off a = 4 * ((a / 4096) mod 1024).
Proof using.
  intros Ha. unfold entry_off. rewrite land_ffc, Z.shiftr_shiftr by lia. rewrite Z.shiftr_div_pow2 by lia. change (2 ^ (10 + 2)) with 4096. change 0x3ff with (Z.ones 10). by rewrite Z.land_ones by lia.
Qed.

Lemma same_entry a b : 0 <= a -> 0 <= b -> b / 4194304 = a / 4194304 -> entry_off b = entry_off a -> b / 4096 = a / 4096.
Proof using.
  intros Ha Hb H Eo. rewrite !entry_off_div in Eo by done. change 4194304 with (4096 * 1024) in H. rewrite <-!Z.div_div in H by lia.
  pose proof (Z.div_mod (a / 4096) 1024 ltac:(lia)). pose proof (Z.div_mod (b / 4096) 1024 ltac:(lia)). lia.
Qed.

(** Writing an entry of a table that is there. *)
Lemma entry_written m D q a : tables_ok m D -> user a -> has_table (phys m) a = true -> in_u32 q -> page_addr q ->
  let m' := set_phys (<[pte_addr (phys m) a := Z.lor q 0x47]> (phys m)) m in
  tables_ok m' D /\ has_table (phys m') a = true /\
  forall b, user b -> b / 4194304 = a / 4194304 -> user_page m' b = if b / 4096 =? a / 4096 then Some q else user_page m b.
Proof using.
  intros [Hm Ht Hp] Ha Hh Hq Hpq m'. destruct (Ht a Ha Hh) as [_ Hn].
  assert (Hdir : forall b, user b -> word (phys m') (dir_of b) = word (phys m) (dir_of b)).
  { intros b Hb. cbn [phys m' set_phys]. rewrite word_insert. case_decide as E; [|done]. exfalso. apply (page_disjoint 0 (table_of (phys m) a) (dir_of b)); [done|apply mask_page|done|by apply dir_of_page, user_nonneg|]. rewrite <-E. by apply pte_addr_page, user_nonneg. }
  split; [|split].
  - split; [by destruct Hm; split| |exact Hp]. intros b Hb. unfold has_table, table_of. rewrite Hdir by done. apply (Ht b Hb).
  - unfold has_table. by rewrite Hdir.
  - intros b Hb Eb. destruct (dir_of_div a Ha) as [Da _], (dir_of_div b Hb) as [Db _]. rewrite Eb in Db.
    assert (Et : table_of (phys m) b = table_of (phys m) a) by (unfold table_of; congruence). assert (Hhb : has_table (phys m) b = true) by (unfold has_table in *; congruence).
    cbn [user_page mem_user]. unfold mapped, frame_of, pte, pte_addr. assert (Eh : has_table (phys m') b = has_table (phys m) b) by (unfold has_table; by rewrite Hdir). assert (Et' : table_of (phys m') b = table_of (phys m) b) by (unfold table_of; by rewrite Hdir).
    rewrite Eh, Et', Hhb. cbn [phys m' set_phys andb]. rewrite word_insert. unfold pte_addr. rewrite Et. destruct (Z.eqb_spec (b / 4096) (a / 4096)) as [E|E].
    + rewrite decide_True by (rewrite !entry_off_div by (by apply user_nonneg); congruence). rewrite truth_land_1, Z.lor_spec. rewrite orb_true_r. f_equal. rewrite mask_flags by done. by apply page_mask.
    + rewrite decide_False; [done|]. intros E'. apply E. apply same_entry; [by apply user_nonneg..|done|lia].
Qed.

(** A new table. *)
Lemma table_made m D i a : tables_ok m D -> next_free m i -> user a -> has_table (phys m) a = false ->
  let m' := set_phys (<[dir_of a := Z.lor (frame_addr i) 7]> (phys (taken i m))) (taken i m) in
  tables_ok m' D /\ has_table (phys m') a = true /\ table_of (phys m') a = frame_addr i /\
  forall b, user b -> b / 4194304 = a / 4194304 -> user_page m' b = user_page m b.
Proof using.
  intros Hok Hnf Ha Hh m'. pose proof (to_map _ _ Hok) as Hmap. destruct (taken_ok m D i Hok Hnf) as ([Hm Ht Hp] & Hdir & _). pose proof (new_entry_frame m i Hmap Hnf) as Hfr. pose proof Hnf as [Hi _]. pose proof (aget_Some_range _ _ _ Hi) as Hr.
  assert (Hw : forall b, user b -> word (phys m') (dir_of b) = if decide (dir_of a = dir_of b) then Z.lor (frame_addr i) 7 else word (phys m) (dir_of b)).
  { intros b Hb. cbn [phys m' set_phys]. rewrite word_insert. case_decide; [done|by apply Hdir]. }
  assert (Hha : has_table (phys m') a = true) by (unfold has_table; rewrite Hw, decide_True by done; rewrite Z.land_comm, truth_land_1, Z.lor_spec; apply orb_true_r).
  assert (Hta : table_of (phys m') a = frame_addr i) by (unfold table_of; rewrite Hw, decide_True by done; apply Hfr).
  split; [|split; [done|split; [done|]]].
  - split; [exact (Build_map_ok m' (mo_len _ Hm) (mo_high _ Hm) (mo_byte _ Hm))| |intros q Hq; exact (Hp q (elem_of_union_r _ _ _ Hq))]. intros b Hb Hhb. unfold has_table, table_of in *. rewrite Hw in * by done. case_decide.
    + rewrite Hfr. split; [|unfold frame_addr, LOW_MEM; lia]. right. exists 1. rewrite MAP_NR_frame. cbn [mem_map m' set_phys]. rewrite (taken_map i i m 0 Hi), decide_True by done. done.
    + rewrite <-(Hdir b Hb) in Hhb. rewrite <-(Hdir b Hb). exact (Ht b Hb Hhb).
  - intros b Hb Eb. destruct (dir_of_div a Ha) as [Da _], (dir_of_div b Hb) as [Db _]. rewrite Eb in Db. cbn [user_page mem_user]. unfold mapped.
    assert (E1 : has_table (phys m) b = false) by (unfold has_table in *; congruence). rewrite E1. cbn [andb]. assert (E2 : pte (phys m') b = 0); [|rewrite E2; by rewrite andb_false_r].
    assert (Etb : table_of (phys m') b = frame_addr i) by (rewrite <-Hta; unfold table_of; congruence). unfold pte, pte_addr. rewrite Etb. cbn [phys m' set_phys]. rewrite word_insert. rewrite decide_False.
    + rewrite entry_off_div by (by apply user_nonneg). cbn [phys taken set_phys]. apply word_store_in; [apply Z.mod_pos_bound; lia|]. unfold zeros. apply lookup_replicate. split; [done|]. pose proof (Z.mod_pos_bound (b / 4096) 1024 ltac:(lia)). lia.
    + intros E. apply (page_disjoint 0 (frame_addr i) (dir_of a)); [done|apply frame_page|unfold frame_addr, LOW_MEM; lia|by apply dir_of_page, user_nonneg|]. rewrite E, <-Etb. by apply pte_addr_page, user_nonneg.
Qed.

Lemma tables_ok_ext m m' D : phys m' = phys m -> mem_map m' = mem_map m -> HIGH_MEMORY m' = HIGH_MEMORY m -> tables_ok m D -> tables_ok m' D.
Proof using.
  intros E1 E2 E3 [[H1 H2 H3] Ht Hp]. split; [split; rewrite ?E2, ?E3; done| |by rewrite E2]. intros a Ha. unfold in_use. rewrite E1, E2. exact (Ht a Ha).
Qed.

(** [put_dirty_page] up to its messages. *)
Lemma put_dirty_page_run m q a c : aget (mem_map m) (MAP_NR q) = Some c -> exists m0, phys m0 = phys m /\ mem_map m0 = mem_map m /\ HIGH_MEMORY m0 = HIGH_MEMORY m /\
  Memory.put_dirty_page env tries q a m =
    (o ← (if has_table (phys m) a then mret (Some (table_of (phys m) a))
          else tmp ← Memory.get_free_page env tries; if tmp =? 0 then mret None else wr (dir_of a) (Z.lor tmp 7);; mret (Some tmp));
     match o with None => mret 0 | Some table => wr (table + entry_off a) (Z.lor q 0x47);; mret q end) m0.
Proof using.
  intros Hc. exists ((fun m => if c =? 1 then m else add_message "mem_map disagrees" m) (if (q <? LOW_MEM) || (HIGH_MEMORY m <=? q) then add_message "Trying to put page" m else m)).
  assert (Eo : entry_off a = 4 * Z.land (Z.shiftr a 12) 0x3ff) by (unfold entry_off; by rewrite land_ffc, Z.shiftr_shiftr by lia).
  unfold Memory.put_dirty_page, put_page_flags. rewrite (run_bind _ _ _ (HIGH_MEMORY m) m) by done. change (Z.shiftr (q - LOW_MEM) 12) with (MAP_NR q).
  unfold has_table, table_of. rewrite (Z.land_comm (word (phys m) (dir_of a)) 0xfffff000). rewrite Eo.
  destruct ((q <? LOW_MEM) || (HIGH_MEMORY m <=? q)); erewrite run_bind by reflexivity; (rewrite (run_bind _ _ _ c _) by (unfold get_map; erewrite run_bind by reflexivity; cbn [mem_map add_message]; by rewrite Hc)); destruct (c =? 1); cbn [negb]; do 2 (erewrite run_bind by reflexivity); done.
Qed.

Lemma page_put m D q a : (0 < tries)%nat -> tables_ok m D -> q ∈ D -> in_u32 q -> user a -> (has_table (phys m) (4194304 * (a / 4194304)) = true \/ (0 < free_pages m)%nat) ->
  exists m', Memory.put_dirty_page env tries q a m = Ok q m' /\ tables_ok m' D /\ has_table (phys m') (4194304 * (a / 4194304)) = true /\
    forall b, user b -> b / 4194304 = a / 4194304 -> user_page m' b = if b / 4096 =? a / 4096 then Some q else user_page m b.
Proof using.
  intros Htries Hok Hq Hqu Ha Hpl. destruct (to_page _ _ Hok q Hq) as (j & c & -> & Hc & _). pose proof (frame_page j) as Hpq.
  assert (Hn : user (4194304 * (a / 4194304))) by (unfold user, TASK_SIZE in *; pose proof (Z.div_mod a 4194304 ltac:(lia)); pose proof (Z.mod_pos_bound a 4194304 ltac:(lia)); assert (16 <= a / 4194304) by (apply Z.div_le_lower_bound; lia); lia).
  assert (Esame : forall p, has_table p (4194304 * (a / 4194304)) = has_table p a) by (intros p; unfold has_table; destruct (dir_of_div a Ha) as [-> _], (dir_of_div _ Hn) as [-> _]; by rewrite (Z.mul_comm 4194304), Z.div_mul).
  rewrite Esame in *. destruct (put_dirty_page_run m (frame_addr j) a c) as (m0 & E1 & E2 & E3 & Hrun); [by rewrite MAP_NR_frame|]. assert (Hok0 : tables_ok m0 D) by (by eapply tables_ok_ext).
  assert (Hup : forall b, user_page m0 b = user_page m b) by (intros b; cbn [user_page mem_user]; by rewrite E1).
  destruct (has_table (phys m) a) eqn:Hh.
  - destruct (entry_written m0 D (frame_addr j) a Hok0 Ha) as (Hok' & Hh' & Hb); [by rewrite E1|done|done|]. eexists. split; [|split; [exact Hok'|split; [rewrite Esame; exact Hh'|intros b Hub Eb; rewrite <-Hup; by apply Hb]]].
    rewrite Hrun. rewrite (run_bind _ _ _ (Some (table_of (phys m0) a)) m0) by (by rewrite E1). done.
  - destruct Hpl as [?|Hfree]; [done|]. destruct (free_next m0) as [i Hnf]; [unfold free_pages in *; by rewrite E2|].
    destruct (table_made m0 D i a Hok0 Hnf Ha) as (Hok1 & Hh1 & Ht1 & Hb1); [by rewrite E1|]. set (m1 := set_phys _ _) in Hok1, Hh1, Ht1, Hb1.
    destruct (entry_written m1 D (frame_addr j) a Hok1 Ha Hh1 Hqu Hpq) as (Hok' & Hh' & Hb). eexists. split; [|split; [exact Hok'|split; [rewrite Esame; exact Hh'|intros b Hub Eb; rewrite Hb, Hb1 by done; by rewrite Hup]]].
    rewrite Hrun. pose proof (to_map _ _ Hok0) as Hmap0. assert (Hnz : (frame_addr i =? 0) = false) by (destruct Hnf as [Hi%aget_Some_range _]; apply Z.eqb_neq; unfold frame_addr, LOW_MEM; lia).
    rewrite (run_bind _ _ _ (Some (frame_addr i)) m1); [unfold pte_addr; by rewrite Ht1|]. rewrite (run_bind _ _ _ _ _ (get_free_page_run env tries m0 i Htries Hmap0 Hnf)). rewrite Hnz. done.
Qed.

Definition mem_arg_pages (Htries : (0 < tries)%nat) : ArgPages mst.
Proof using.
  refine {| mem_ok := tables_ok; room := free_pages; placeable m n := has_table (phys m) (4194304 * n) = true \/ (0 < free_pages m)%nat |}.
  - intros s Hok Hfree. destruct (free_next _ Hfree) as [i Hnf]. pose proof Hnf as [Hi _]. pose proof (aget_Some_range _ _ _ Hi) as Hr. destruct (taken_ok _ _ i Hok Hnf) as (Hok' & _ & Hroom).
    assert (Hnz : (frame_addr i =? 0) = false) by (apply Z.eqb_neq; unfold frame_addr, LOW_MEM; lia). pose proof (frame_addr_u32 _ i (to_map _ _ Hok) ltac:(lia)) as Hu.
    exists (frame_addr i), (taken i (fcache s)), (replicate 4096 0). split; [|split; [unfold in_u32, frame_addr, LOW_MEM in *; lia|split; [|split; [apply length_replicate|split; [exact Hok'|rewrite <-Hroom; lia]]]]].
    + cbn [get_free_page mem_alloc]. rewrite (run_bind _ _ _ (frame_addr i) (set_fcache (taken i (fcache s)) s)) by (unfold on_cache; by rewrite (get_free_page_run env tries _ i Htries (to_map _ _ Hok) Hnf)). rewrite Hnz. done.
    + apply not_elem_of_dom. intros Hq. destruct (to_page _ _ Hok _ Hq) as (j & c & E & Hc & Hc0). assert (j = i) as -> by (unfold frame_addr in E; lia). rewrite Hi in Hc. injection Hc as <-. lia.
  - intros s q a Hok Hq Hqu Ha Hal Hpl. destruct (page_put (fcache s) (dom (fpages s)) q a Htries Hok) as (m' & Hrun & Hok' & Hh & Hb); [by apply elem_of_dom|done|done|done|].
    exists m'. split; [cbn [put_dirty_page mem_user]; unfold on_cache; by rewrite Hrun|]. split; [done|]. split; [by left|]. intros b Hub. by apply Hb.
Defined.
End MemPages.

(** [ls -l] with [H=/]: two pointers at 1000, one at 1100, the strings from 2000 on. *)
Definition bytes_at (l : list (Z * list Z)) : umem := fun a => foldr (fun x r => match aget (snd x) (a - fst x) with Some v => v | None => r end) 0 l.
Definition program_memory : umem := bytes_at [(1000, [0xd0; 7; 0; 0; 0xd3; 7; 0; 0]); (1100, [0x34; 8; 0; 0]); (2000, [108; 115; 0; 45; 108; 0]); (2100, [72; 61; 47; 0])].
(** Task 1 on the machine that [mem_init] has set up. *)
Definition task1_kern : kst := set_heap {[1%positive := set_ldt [(0, 0); (0x9f, 0x4c0fa00); (0x9f, 0x4c0f200)] (INIT_TASK 1)]} (boot_state [] 0).
Definition task1_files : fss mst := Fss task1_kern task1_mem [] [] 0 [] ∅ 0.

Lemma task1_room : (32 <=? free_pages task1_mem)%nat = true.
Proof. vm_cast_no_check (eq_refl true). Qed.
Lemma task1_copied_room : match copy_all (HP := mem_alloc demo_env 1) program_memory program_memory 10 (Z.of_nat 2) 1000 (Z.of_nat 1) 1100 task1_files with Ok _ s => (0 <? free_pages (fcache s))%nat | Halt _ _ => false end = true.
Proof. vm_cast_no_check (eq_refl true). Qed.
Lemma task1_copied_free r s1 : copy_all (HP := mem_alloc demo_env 1) program_memory program_memory 10 (Z.of_nat 2) 1000 (Z.of_nat 1) 1100 task1_files = Ok r s1 -> (0 < free_pages (fcache s1))%nat.
Proof. intros E. pose proof task1_copied_room as H. rewrite E in H. by apply Nat.ltb_lt. Qed.
Lemma task1_tables : tables_ok task1_mem ∅.
Proof. destruct (task1_paging_ok task1_mem task1_words task1_counts task1_facts) as [H1 H2 _ _]. split; [exact H1|exact H2|intros q Hq; by apply elem_of_empty in Hq]. Qed.

Lemma arguments_passed_witness : exists page s1 s2, let len := Z.of_nat (length (flat [[108; 115]; [45; 108]] ++ flat [[72; 61; 47]])) in let a := LIBRARY_OFFSET - 4 - len in
    copy_all (HP := mem_alloc demo_env 1) program_memory program_memory 10 (Z.of_nat 2) 1000 (Z.of_nat 1) 1100 task1_files = Ok (131068 - len, page) s1 /\
    place_args (H2 := mem_user demo_env 1) 10 page (131068 - len) (Z.of_nat 2) (Z.of_nat 1) (set_fkern task1_kern s1) = Ok (fst (stack_tables a [[108; 115]; [45; 108]] [[72; 61; 47]])) s2 /\
    laid (user_byte (HU := mem_user demo_env 1) s2) a (flat [[108; 115]; [45; 108]] ++ flat [[72; 61; 47]]).
Proof.
  destruct (arguments_passed (HA := mem_arg_pages demo_env 1 (le_n 1)) program_memory program_memory 10 1000 1100 [[108; 115]; [45; 108]] [[72; 61; 47]] task1_files) as (page & s1 & Hcopy & Hmem & Hplace).
  - intros [|[|k]] l [= <-]; (split; [done|split; [|split; [repeat constructor; done|done]]]; cbn [length]; intros i Hi; assert (i = 0 \/ i = 1) as [-> | ->] by lia; done).
  - intros [|k] l [= <-]; (split; [done|split; [|split; [repeat constructor; done|done]]]; cbn [length]; intros i Hi; assert (i = 0 \/ i = 1 \/ i = 2) as [-> |[-> | ->]] by lia; done).
  - repeat constructor; cbn; lia || done.
  - exact task1_tables.
  - exact (proj1 (Nat.leb_le _ _) task1_room).
  - cbn. lia.
  - exists page, s1.
    destruct (Hplace (set_fkern task1_kern s1) (set_ldt [(0, 0); (0x9f, 0x4c0fa00); (0x9f, 0x4c0f200)] (INIT_TASK 1)) (0x9f, 0x4c0fa00) (0x9f, 0x4c0f200)) as (s2 & t' & d' & Hrun & Hlaid & _); [done|exact Hmem|reflexivity..|split; [discriminate|reflexivity]|reflexivity|right; exact (task1_copied_free _ s1 Hcopy)|].
    exists s2. split; [exact Hcopy|]. split; [exact Hrun|exact Hlaid].
Defined.
