(* ===== verification/Select.v ===== *)
(** * Waiting for several files: [fs/select.c]

    [do_select] asks each descriptor whether it is ready; for one that is not, the
    running task is put at the head of its wait queue and the old head is kept in a
    table, so that the queue can be put back.  It sleeps until something is ready, a
    signal comes or the time is over.

    What terminals answer is the interface [SelectDevices].  [i_zone[0]] is read as
    [i_data[0]]. *)

From S2P Require Import Prelude TaskStruct Sched Fork Signal Sys Fs Minix Inode Dir Namei Pipe Files.

Definition S_ISFIFO (m : Z) : bool := Z.land m S_IFMT =? 0x1000.
Definition PIPE_EMPTY (v : inode) : bool := PIPE_HEAD v =? PIPE_TAIL v.
Definition PIPE_FULL (v : inode) : bool := PIPE_SIZE v =? PAGE_SIZE - 1.

(** Terminal [minor]: whether it has characters, whether it takes some, and the wait
    queues of its two queues. *)
Class SelectDevices (C : Type) := {
  tty_has_input : Z -> fss C -> bool;
  tty_has_room : Z -> fss C -> bool;
  secondary_wait : Z -> Z;
  write_q_wait : Z -> Z
}.

(** [wait_entry]: a queue, and the task that was at its head. *)
Record wait_entry := WaitEntry { old_task : option tptr; wait_address : Z }.
(** [select_table]; [nr] is the length of the list. *)
Definition select_table := list wait_entry.

Section Select.
Context {C : Type} `{BufferCache C, FsEnv C, PageAlloc C, SelectDevices C}.
Context (patience : nat).

(** The head of a wait queue. *)
Definition wait_head (a : Z) : M (fss C) (option tptr) := on_task (gets (fun k => wq k !! a)).
Definition set_wait_head (a : Z) (p : option tptr) : M (fss C) unit :=
  on_task (modify (fun k => set_wq (match p with Some q => <[a := q]> (wq k) | None => delete a (wq k) end) k)).

(** [static void add_wait(struct task_struct ** wait_address, select_table * p)]; the
    queues it is called with are there. *)
Definition add_wait (a : Z) (p : select_table) : M (fss C) select_table :=
  if existsb (fun e => wait_address e =? a) p then mret p
  else
    if Z.of_nat (length p) <? NR_OPEN * 3 then
      h ← wait_head a;
      c ← on_task (gets current);
      set_wait_head a (Some c);;
      mret (p ++ [WaitEntry h a])
    else halts Fault.

(** The wait of [free_wait] for the running task to be at the head again. *)
Definition free_wait_step (a : Z) (_ : unit) : M (fss C) (unit + unit) :=
  h ← wait_head a;
  c ← on_task (gets current);
  match h with
  | Some q =>
      if bool_decide (q = c) then mret (inr tt)
      else
        on_task (upd (Some q) (set_state TASK_RUNNING));;
        on_task (upd_cur (set_state TASK_UNINTERRUPTIBLE));;
        fs_yield;;
        mret (inl tt)
  | None => mret (inr tt)
  end.
Definition free_one (e : wait_entry) : M (fss C) unit :=
  iter patience (free_wait_step (wait_address e)) tt;;
  h ← wait_head (wait_address e);
  (if bool_decide (h = None) then on_task (printk "free_wait: NULL") else mret tt);;
  set_wait_head (wait_address e) (old_task e);;
  match old_task e with Some q => on_task (upd (Some q) (set_state TASK_RUNNING)) | None => mret tt end.

(** [static void free_wait(select_table * p)] *)
Definition free_wait (p : select_table) : M (fss C) unit := for_each p free_one.

(** [static struct tty_struct * get_tty(struct m_inode * inode)] *)
Definition get_tty (v : inode) : M (fss C) (option Z) :=
  if negb (S_ISCHR (i_mode v)) then mret None
  else
    z ← ofOpt (aget (i_data v) 0);
    let major := MAJOR z in
    if negb (major =? 5) && negb (major =? 4) then mret None
    else
      minor ← (if major =? 5 then on_task (cur tty) else mret (MINOR z));
      mret (if minor <? 0 then None else Some minor).

(** [static int check_in(select_table * wait, struct m_inode * inode)] *)
Definition check_in (wait : select_table) (n : Z) : M (fss C) (bool * select_table) :=
  v ← inode_at n; t ← get_tty v;
  match t with
  | Some m => s ← getS; if tty_has_input m s then mret (true, wait) else w ← add_wait (secondary_wait m) wait; mret (false, w)
  | None =>
      if truth (i_pipe v) then
        if negb (PIPE_EMPTY v) then mret (true, wait) else w ← add_wait (i_wait n) wait; mret (false, w)
      else mret (false, wait)
  end.

(** [static int check_out(select_table * wait, struct m_inode * inode)] *)
Definition check_out (wait : select_table) (n : Z) : M (fss C) (bool * select_table) :=
  v ← inode_at n; t ← get_tty v;
  match t with
  | Some m => s ← getS; if tty_has_room m s then mret (true, wait) else w ← add_wait (write_q_wait m) wait; mret (false, w)
  | None =>
      if truth (i_pipe v) then
        if negb (PIPE_FULL v) then mret (true, wait) else w ← add_wait (i_wait n) wait; mret (false, w)
      else mret (false, wait)
  end.

(** [static int check_ex(select_table * wait, struct m_inode * inode)] *)
Definition check_ex (wait : select_table) (n : Z) : M (fss C) (bool * select_table) :=
  v ← inode_at n; t ← get_tty v;
  match t with
  | Some _ => mret (false, wait)
  | None =>
      if truth (i_pipe v) then
        if i_count v <? 2 then mret (true, wait) else w ← add_wait (i_wait n) wait; mret (false, w)
      else mret (false, wait)
  end.

(** The inode of descriptor [i]. *)
Definition fd_inode (i : Z) : M (fss C) Z := o ← filp_at i; f ← ofOpt o; v ← file_at f; ofOpt (f_inode v).

(** The first loop of [do_select]: whether a descriptor can be waited for. *)
Definition can_wait (i : Z) : M (fss C) bool :=
  o ← filp_at i;
  match o with
  | None => mret false
  | Some f =>
      fv ← file_at f;
      match f_inode fv with
      | None => mret false
      | Some n => v ← inode_at n; mret (truth (i_pipe v) || S_ISCHR (i_mode v) || S_ISFIFO (i_mode v))
      end
  end.
Fixpoint can_wait_all (mask : Z) (k : nat) (i : Z) : M (fss C) bool :=
  match k with
  | O => mret true
  | S k' => if Z.testbit mask i then ok ← can_wait i; if (ok : bool) then can_wait_all mask k' (i + 1) else mret false else can_wait_all mask k' (i + 1)
  end.

(** What the scan of the descriptors has found: how many, the three sets, the table. *)
Record found := Found { f_nr : Z; f_in : Z; f_out : Z; f_ex : Z; f_wait : select_table }.

(** One of the three tests: descriptor [i], if its bit is in [mask]. *)
Definition test_fd (mask i : Z) (check : select_table -> Z -> M (fss C) (bool * select_table)) (put : found -> found) (r : found) : M (fss C) found :=
  if Z.testbit mask i then
    n ← fd_inode i;
    '(ok, w) ← check (f_wait r) n;
    let r := Found (f_nr r) (f_in r) (f_out r) (f_ex r) w in
    mret (if (ok : bool) then put r else r)
  else mret r.
Definition put_in (i : Z) (r : found) : found := Found (f_nr r + 1) (Z.setbit (f_in r) i) (f_out r) (f_ex r) (f_wait r).
Definition put_out (i : Z) (r : found) : found := Found (f_nr r + 1) (f_in r) (Z.setbit (f_out r) i) (f_ex r) (f_wait r).
Definition put_ex (i : Z) (r : found) : found := Found (f_nr r + 1) (f_in r) (f_out r) (Z.setbit (f_ex r) i) (f_wait r).

Fixpoint scan_fds (mask_in mask_out mask_ex : Z) (k : nat) (i : Z) (r : found) : M (fss C) found :=
  match k with
  | O => mret r
  | S k' =>
      r ← test_fd mask_in i check_in (put_in i) r;
      r ← test_fd mask_out i check_out (put_out i) r;
      r ← test_fd mask_ex i check_ex (put_ex i) r;
      scan_fds mask_in mask_out mask_ex k' (i + 1) r
  end.

(** A round of [do_select]. *)
Definition select_step (mask_in mask_out mask_ex : Z) (_ : unit) : M (fss C) (unit + (Z * Z * Z * Z)) :=
  r ← scan_fds mask_in mask_out mask_ex (Z.to_nat NR_OPEN) 0 (Found 0 0 0 0 []);
  sig ← signalled;
  t ← on_task (cur timeout);
  if negb sig && (negb (Nat.eqb (length (f_wait r)) 0) || truth t) && (f_nr r =? 0) then
    on_task (upd_cur (set_state TASK_INTERRUPTIBLE));;
    fs_yield;;
    free_wait (f_wait r);;
    mret (inl tt)
  else free_wait (f_wait r);; mret (inr (f_nr r, f_in r, f_out r, f_ex r)).

(** [int do_select(fd_set in, fd_set out, fd_set ex, fd_set *inp, fd_set *outp,
    fd_set *exp)] *)
Definition do_select (mask_in mask_out mask_ex : Z) : M (fss C) (Z * Z * Z * Z) :=
  ok ← can_wait_all (Z.lor mask_in (Z.lor mask_out mask_ex)) (Z.to_nat NR_OPEN) 0;
  if negb ok then mret (- EBADF, 0, 0, 0)
  else iter patience (select_step mask_in mask_out mask_ex) tt.

(** [int sys_select( unsigned long *buffer )] *)
Definition sys_select (fs : umem) (buffer : Z) : M (fss C) Z :=
  let n := get_fs_long fs buffer in
  let mask := if 32 <=? n then 0xffffffff else Z.ones n in
  let inp := get_fs_long fs (buffer + 4) in
  let outp := get_fs_long fs (buffer + 8) in
  let exp := get_fs_long fs (buffer + 12) in
  let tvp := get_fs_long fs (buffer + 16) in
  let set p := if truth p then Z.land mask (get_fs_long fs p) else 0 in
  jif ← on_task (gets jiffies);
  let timeout0 := if truth tvp then u32 (get_fs_long fs (tvp + 4) / (1000000 / HZ) + get_fs_long fs tvp * HZ + jif) else 0xffffffff in
  on_task (upd_cur (set_timeout timeout0));;
  '(i, res_in, res_out, res_ex) ← do_select (set inp) (set outp) (set exp);
  t ← on_task (cur timeout); jif ← on_task (gets jiffies);
  let left := if jif <? t then t - jif else 0 in
  on_task (upd_cur (set_timeout 0));;
  if i <? 0 then mret i
  else
    let give p v := if truth p then on_task (verify_area p 4);; on_task (put_fs_long v p) else mret tt in
    give inp res_in;; give outp res_out;; give exp res_ex;;
    (if truth tvp then
       on_task (verify_area tvp 8);;
       on_task (put_fs_long (left / HZ) tvp);;
       on_task (put_fs_long (left mod HZ * (1000000 / HZ)) (tvp + 4))
     else mret tt);;
    sig ← signalled;
    mret (if (i =? 0) && (sig : bool) then - EINTR else i).

End Select.
