(* ===== verification/SelectOk.v ===== *)
(** * Theorems about waiting for several files

    When something is ready, [do_select] says what, and the wait queues it has put the
    task into are as they were. *)

From S2P Require Import Prelude TaskStruct Sched Fork Signal Sys Fs Minix Inode Dir Namei Pipe Files Select.

(** What a terminal answers does not depend on who waits. *)
Class SelectStable (C : Type) `{SelectDevices C} := {
  input_stable : forall m W (s : fss C), tty_has_input m (set_fkern (set_wq W (fkern s)) s) = tty_has_input m s;
  room_stable : forall m W (s : fss C), tty_has_room m (set_fkern (set_wq W (fkern s)) s) = tty_has_room m s
}.

(** The descriptors [i] to [i + k - 1] noted: how many tests hold, and for which. *)
Definition noted (mask : Z) (rdy : Z -> bool) (i : Z) : bool := Z.testbit mask i && rdy i.
Fixpoint tally (k : nat) (i : Z) (r1 r2 r3 : Z -> bool) : Z :=
  match k with O => 0 | S k' => b2z (r1 i) + b2z (r2 i) + b2z (r3 i) + tally k' (i + 1) r1 r2 r3 end.
Definition bits_added (z z' : Z) (k : nat) (i : Z) (r : Z -> bool) : Prop :=
  forall j, 0 <= j -> Z.testbit z' j = Z.testbit z j || (bool_decide (i <= j < i + Z.of_nat k) && r j).

Lemma bits_added_0 z i r : bits_added z z 0 i r.
Proof. intros j Hj. rewrite bool_decide_eq_false_2 by lia. by rewrite orb_false_r. Qed.
Lemma bits_added_S (z1 z2 : Z) (k : nat) (i : Z) (r : Z -> bool) : 0 <= i -> bits_added (if r i then Z.setbit z1 i else z1) z2 k (i + 1) r -> bits_added z1 z2 (S k) i r.
Proof.
  intros Hi H j Hj. rewrite H by done. destruct (Z.eq_dec j i) as [->|Hne].
  - rewrite (bool_decide_eq_false_2 (i + 1 <= i < i + 1 + Z.of_nat k)), (bool_decide_eq_true_2 (i <= i < i + Z.of_nat (S k))) by lia. rewrite orb_false_r. cbn [andb]. destruct (r i); [by rewrite Z.setbit_eq, orb_true_r by done|by rewrite orb_false_r].
  - assert (E : bool_decide (i + 1 <= j < i + 1 + Z.of_nat k) = bool_decide (i <= j < i + Z.of_nat (S k))) by (apply bool_decide_ext; lia). rewrite E. f_equal. destruct (r i); [by rewrite Z.setbit_neq by lia|done].
Qed.

Section SelectOk.
Context {C : Type} {HB : BufferCache C} {HE : FsEnv C} {HP : PageAlloc C} {HS : SelectDevices C} {HL : SelectStable C}.
Context (s0 : fss C) (t : task_struct) (Hcur : heap (fkern s0) !! current (fkern s0) = Some t).

Notation c0 := (current (fkern s0)).
Notation wq0 := (wq (fkern s0)).
Definition st (W : gmap Z tptr) : fss C := set_fkern (set_wq W (fkern s0)) s0.

(** ** What is ready *)

(** The inode of a descriptor. *)
Definition node (i : Z) : option (Z * inode) :=
  match aget (filp t) i with
  | Some (Some f) =>
      match aget (file_table s0) (ptr_entry f) with
      | Some fv => match f_inode fv with Some n => match aget (inode_table s0) n with Some v => Some (n, v) | None => None end | None => None end
      | None => None
      end
  | _ => None
  end.

(** A descriptor that can be waited for. *)
Definition waitable (i : Z) : Prop :=
  exists n v, node i = Some (n, v) /\ truth (i_pipe v) || S_ISCHR (i_mode v) || S_ISFIFO (i_mode v) = true /\ (S_ISCHR (i_mode v) = true -> is_Some (aget (i_data v) 0)).

Definition tty_num (v : inode) : option Z :=
  if S_ISCHR (i_mode v) then
    let z := default 0 (aget (i_data v) 0) in
    let minor := if MAJOR z =? 5 then tty t else MINOR z in
    if (MAJOR z =? 5) || (MAJOR z =? 4) then if minor <? 0 then None else Some minor else None
  else None.

Definition ready_in (v : inode) : bool := match tty_num v with Some m => tty_has_input m s0 | None => truth (i_pipe v) && negb (PIPE_EMPTY v) end.
Definition ready_out (v : inode) : bool := match tty_num v with Some m => tty_has_room m s0 | None => truth (i_pipe v) && negb (PIPE_FULL v) end.
Definition ready_ex (v : inode) : bool := match tty_num v with Some _ => false | None => truth (i_pipe v) && (i_count v <? 2) end.
Definition fd_is (p : inode -> bool) (i : Z) : bool := match node i with Some (_, v) => p v | None => false end.

(** ** Entering the queues *)

Record waits (p : select_table) (W : gmap Z tptr) : Prop := {
  wt_nodup : NoDup (wait_address <$> p);
  wt_old : Forall (fun e => old_task e = wq0 !! wait_address e) p;
  wt_heads : forall a, W !! a = if decide (a ∈ wait_address <$> p) then Some c0 else wq0 !! a
}.

Lemma waits_nil : waits [] wq0.
Proof using Hcur HL. split; [constructor|constructor|]. intros a. by rewrite decide_False by (apply not_elem_of_nil). Qed.

Lemma on_st {A} (m : M kst A) W a W' : m (set_wq W (fkern s0)) = Ok a (set_wq W' (fkern s0)) -> on_task m (st W) = Ok a (st W').
Proof using Hcur HL. intros E. unfold on_task, st. cbn [fkern set_fkern]. by rewrite E. Qed.

Lemma cur_wq {A} (f : task_struct -> A) W : cur f (set_wq W (fkern s0)) = Ok (f t) (set_wq W (fkern s0)).
Proof using Hcur HL. unfold cur. erewrite run_bind by reflexivity. rewrite (run_bind _ _ _ t (set_wq W (fkern s0))); [done|]. unfold deref. cbn [heap set_wq current]. by rewrite Hcur. Qed.
Lemma cur_st {A} (f : task_struct -> A) W : on_task (cur f) (st W) = Ok (f t) (st W).
Proof using Hcur HL. apply on_st, cur_wq. Qed.
Lemma signalled_st W : signalled (st W) = Ok (truth (Z.ldiff (signal t) (blocked t))) (st W).
Proof using Hcur HL. unfold signalled. apply on_st. by rewrite (run_bind _ _ _ _ _ (cur_wq (fun t => t) W)). Qed.

Lemma has_wait p a : existsb (fun e => wait_address e =? a) p = true <-> a ∈ wait_address <$> p.
Proof using Hcur HL.
  rewrite existsb_exists, list_elem_of_fmap. split; intros (e & H1 & H2); exists e; rewrite ?Z.eqb_eq in *; [split; [done|by apply list_elem_of_In]|split; [by apply list_elem_of_In|done]].
Qed.

Lemma add_wait_run a p W : waits p W -> (length p < 60)%nat -> exists p' W', add_wait a p (st W) = Ok p' (st W') /\ waits p' W' /\ (length p' <= S (length p))%nat.
Proof using Hcur HL.
  intros Hw Hl. unfold add_wait. destruct (existsb _ p) eqn:E; [exists p, W; split; [done|split; [done|lia]]|]. assert (Hn : a ∉ wait_address <$> p) by (intros H%has_wait; congruence).
  change (NR_OPEN * 3) with 60. destruct (Z.ltb_spec (Z.of_nat (length p)) 60); [|lia]. exists (p ++ [WaitEntry (W !! a) a]), (<[a := c0]> W). split; [|split; [split|rewrite length_app; cbn; lia]].
  - unfold wait_head. rewrite (run_bind _ _ _ (W !! a) (st W)) by (by apply on_st). rewrite (run_bind _ _ _ c0 (st W)) by (by apply on_st). by rewrite (run_bind _ _ _ tt (st (<[a := c0]> W))) by (by apply on_st).
  - rewrite fmap_app. apply NoDup_app. split; [apply (wt_nodup _ _ Hw)|]. split; [|apply NoDup_singleton]. intros x Hx Hx2%list_elem_of_singleton. cbn in Hx2. congruence.
  - apply Forall_app. split; [apply (wt_old _ _ Hw)|]. apply Forall_singleton. cbn. rewrite (wt_heads _ _ Hw). by rewrite decide_False.
  - intros b. rewrite fmap_app. cbn. destruct (decide (b = a)) as [->|Hne]; [rewrite lookup_insert_eq, decide_True by set_solver; done|]. rewrite lookup_insert_ne by done. rewrite (wt_heads _ _ Hw). destruct (decide (b ∈ wait_address <$> p)); [by rewrite decide_True by set_solver|]. rewrite decide_False by set_solver. done.
Qed.

Lemma get_tty_run v W : (S_ISCHR (i_mode v) = true -> is_Some (aget (i_data v) 0)) -> get_tty v (st W) = Ok (tty_num v) (st W).
Proof using Hcur HL.
  intros Hd. unfold get_tty, tty_num. destruct (S_ISCHR (i_mode v)); [|done]. destruct (Hd eq_refl) as [z Hz]. rewrite Hz. cbn [negb default id]. rewrite (run_bind _ _ _ z (st W)) by done. cbv zeta. destruct (MAJOR z =? 5) eqn:E5; cbn [negb andb orb].
  - rewrite (run_bind _ _ _ _ _ (cur_st tty W)). done.
  - destruct (MAJOR z =? 4); done.
Qed.

(** A test: its answer, and at most one queue more. *)
Definition tests (check : select_table -> Z -> M (fss C) (bool * select_table)) (rdy : inode -> bool) : Prop :=
  forall p W n v, waits p W -> (length p < 60)%nat -> aget (inode_table s0) n = Some v -> (S_ISCHR (i_mode v) = true -> is_Some (aget (i_data v) 0)) ->
  exists p' W', check p n (st W) = Ok (rdy v, p') (st W') /\ waits p' W' /\ (length p' <= S (length p))%nat.

Lemma answer_wait (b : bool) a p W : waits p W -> (length p < 60)%nat ->
  exists p' W', (if b then mret (true, p) else w ← add_wait a p; mret (false, w)) (st W) = Ok (b, p') (st W') /\ waits p' W' /\ (length p' <= S (length p))%nat.
Proof using Hcur HL.
  intros Hw Hl. destruct b; [exists p, W; split; [done|split; [done|lia]]|]. destruct (add_wait_run a p W Hw Hl) as (p' & W' & Hr & Hw' & Hl'). exists p', W'. by rewrite (run_bind _ _ _ _ _ Hr).
Qed.

Lemma inode_st n v W : aget (inode_table s0) n = Some v -> inode_at n (st W) = Ok v (st W).
Proof using Hcur HL. intros Hv. unfold inode_at. erewrite run_bind by reflexivity. change (inode_table (st W)) with (inode_table s0). by rewrite Hv. Qed.

Lemma check_in_tests : tests check_in ready_in.
Proof using Hcur HL.
  intros p W n v Hw Hl Hv Hd. unfold check_in, ready_in. rewrite (run_bind _ _ _ _ _ (inode_st n v W Hv)), (run_bind _ _ _ _ _ (get_tty_run v W Hd)). destruct (tty_num v) as [m|].
  - erewrite run_bind by reflexivity. unfold st at 1. rewrite input_stable. by apply answer_wait.
  - destruct (truth (i_pipe v)); cbn [andb]; [by apply answer_wait|exists p, W; split; [done|split; [done|lia]]].
Qed.

Lemma check_out_tests : tests check_out ready_out.
Proof using Hcur HL.
  intros p W n v Hw Hl Hv Hd. unfold check_out, ready_out. rewrite (run_bind _ _ _ _ _ (inode_st n v W Hv)), (run_bind _ _ _ _ _ (get_tty_run v W Hd)). destruct (tty_num v) as [m|].
  - erewrite run_bind by reflexivity. unfold st at 1. rewrite room_stable. by apply answer_wait.
  - destruct (truth (i_pipe v)); cbn [andb]; [by apply answer_wait|exists p, W; split; [done|split; [done|lia]]].
Qed.

Lemma check_ex_tests : tests check_ex ready_ex.
Proof using Hcur HL.
  intros p W n v Hw Hl Hv Hd. unfold check_ex, ready_ex. rewrite (run_bind _ _ _ _ _ (inode_st n v W Hv)), (run_bind _ _ _ _ _ (get_tty_run v W Hd)). destruct (tty_num v) as [m|]; [exists p, W; split; [done|split; [done|lia]]|].
  destruct (truth (i_pipe v)); cbn [andb]; [by apply answer_wait|exists p, W; split; [done|split; [done|lia]]].
Qed.


(** ** The scan *)

Definition with_wait (p : select_table) (r : found) : found := Found (f_nr r) (f_in r) (f_out r) (f_ex r) p.

Lemma fd_inode_run i n v W : node i = Some (n, v) -> fd_inode i (st W) = Ok n (st W) /\ aget (inode_table s0) n = Some v.
Proof using Hcur HL.
  unfold node. destruct (aget (filp t) i) as [[f|]|] eqn:Ef; [|done|done]. destruct (aget (file_table s0) (ptr_entry f)) as [fv|] eqn:Ev; [|done]. destruct (f_inode fv) as [n'|] eqn:En; [|done]. destruct (aget (inode_table s0) n') as [v'|] eqn:Ei; [|done]. intros [= <- <-]. split; [|done].
  unfold fd_inode, filp_at. rewrite (run_bind _ _ _ (Some (ptr_entry f)) (st W)) by (rewrite (run_bind _ _ _ _ _ (cur_st filp W)); by rewrite Ef). rewrite (run_bind _ _ _ (ptr_entry f) (st W)) by done. rewrite (run_bind _ _ _ fv (st W)); [by rewrite En|]. unfold file_at. erewrite run_bind by reflexivity. change (file_table (st W)) with (file_table s0). by rewrite Ev.
Qed.

Lemma test_fd_run mask i check rdy put r W : tests check rdy -> waits (f_wait r) W -> (length (f_wait r) < 60)%nat -> (Z.testbit mask i = true -> waitable i) ->
  exists p' W', test_fd mask i check put r (st W) = Ok (if noted mask (fd_is rdy) i then put (with_wait p' r) else with_wait p' r) (st W') /\ waits p' W' /\ (length p' <= S (length (f_wait r)))%nat.
Proof using Hcur HL.
  intros Ht Hw Hl Hm. unfold test_fd, noted. destruct (Z.testbit mask i); [|exists (f_wait r), W; split; [by destruct r|split; [done|lia]]].
  destruct (Hm eq_refl) as (n & v & Hn & _ & Hd). destruct (fd_inode_run i n v W Hn) as [Hi Hv]. rewrite (run_bind _ _ _ _ _ Hi). destruct (Ht (f_wait r) W n v Hw Hl Hv Hd) as (p' & W' & Hr & Hw' & Hl'). rewrite (run_bind _ _ _ _ _ Hr). exists p', W'. unfold fd_is. by rewrite Hn.
Qed.

Lemma scan_run mi mo me k : forall i r W, 0 <= i -> waits (f_wait r) W -> (length (f_wait r) + 3 * k <= 60)%nat -> (forall j, i <= j < i + Z.of_nat k -> Z.testbit mi j || Z.testbit mo j || Z.testbit me j = true -> waitable j) ->
  exists r' W', scan_fds mi mo me k i r (st W) = Ok r' (st W') /\ waits (f_wait r') W' /\
    f_nr r' = f_nr r + tally k i (noted mi (fd_is ready_in)) (noted mo (fd_is ready_out)) (noted me (fd_is ready_ex)) /\
    bits_added (f_in r) (f_in r') k i (noted mi (fd_is ready_in)) /\ bits_added (f_out r) (f_out r') k i (noted mo (fd_is ready_out)) /\ bits_added (f_ex r) (f_ex r') k i (noted me (fd_is ready_ex)).
Proof using Hcur HL.
  induction k as [|k IH]; intros i r W Hi Hw Hl Hm; cbn [scan_fds tally].
  - exists r, W. split; [done|]. split; [done|]. split; [lia|]. split; [apply bits_added_0|split; apply bits_added_0].
  - assert (Hmi : Z.testbit mi i || Z.testbit mo i || Z.testbit me i = true -> waitable i) by (apply Hm; lia).
    destruct (test_fd_run mi i check_in ready_in (put_in i) r W check_in_tests Hw ltac:(lia)) as (p1 & W1 & H1 & Hw1 & Hl1); [intros E; apply Hmi; by rewrite E|]. rewrite (run_bind _ _ _ _ _ H1).
    set (r1 := if noted mi (fd_is ready_in) i then _ else _). assert (E1 : f_wait r1 = p1) by (unfold r1; by destruct (noted mi (fd_is ready_in) i)).
    destruct (test_fd_run mo i check_out ready_out (put_out i) r1 W1 check_out_tests ltac:(by rewrite E1) ltac:(rewrite E1; lia)) as (p2 & W2 & H2 & Hw2 & Hl2); [intros E; apply Hmi; by rewrite E, orb_true_r|]. rewrite (run_bind _ _ _ _ _ H2).
    rewrite E1 in Hl2. set (r2 := if noted mo (fd_is ready_out) i then _ else _). assert (E2 : f_wait r2 = p2) by (unfold r2; by destruct (noted mo (fd_is ready_out) i)).
    destruct (test_fd_run me i check_ex ready_ex (put_ex i) r2 W2 check_ex_tests ltac:(by rewrite E2) ltac:(rewrite E2; lia)) as (p3 & W3 & H3 & Hw3 & Hl3); [intros E; apply Hmi; by rewrite E, orb_true_r|]. rewrite (run_bind _ _ _ _ _ H3).
    rewrite E2 in Hl3. set (r3 := if noted me (fd_is ready_ex) i then _ else _). assert (E3 : f_wait r3 = p3) by (unfold r3; by destruct (noted me (fd_is ready_ex) i)).
    destruct (IH (i + 1) r3 W3 ltac:(lia) ltac:(by rewrite E3) ltac:(rewrite E3; lia)) as (r' & W' & Hr & Hw' & Hn & Hb1 & Hb2 & Hb3); [intros j Hj; apply Hm; lia|].
    exists r', W'. split; [done|]. split; [done|]. split; [rewrite Hn; unfold r3, r2, r1; destruct (noted mi (fd_is ready_in) i), (noted mo (fd_is ready_out) i), (noted me (fd_is ready_ex) i); cbn; lia|].
    split; [|split]; (apply bits_added_S; [done|]); [revert Hb1|revert Hb2|revert Hb3]; unfold r3, r2, r1; by destruct (noted mi (fd_is ready_in) i), (noted mo (fd_is ready_out) i), (noted me (fd_is ready_ex) i).
Qed.

(** ** Leaving the queues *)

(** Tasks have been made ready, and nothing else. *)
Definition readied (h h' : gmap tptr task_struct) : Prop :=
  forall q, h' !! q = h !! q \/ exists x, h !! q = Some x /\ h' !! q = Some (set_state TASK_RUNNING x).
Definition st2 (h : gmap tptr task_struct) (W : gmap Z tptr) : fss C := set_fkern (set_heap h (set_wq W (fkern s0))) s0.

Lemma readied_set h h' q x : readied h h' -> h !! q = Some x -> exists x', h' !! q = Some x' /\ readied h (<[q := set_state TASK_RUNNING x']> h').
Proof using Hcur HL.
  intros Hr Hq. assert (Hx : exists x', h' !! q = Some x' /\ set_state TASK_RUNNING x' = set_state TASK_RUNNING x) by (destruct (Hr q) as [E|(y & E1 & E2)]; [exists x; by rewrite E|exists (set_state TASK_RUNNING y); rewrite Hq in E1; injection E1 as <-; split; [done|by destruct x]]).
  destruct Hx as (x' & Hx' & Es). exists x'. split; [done|]. intros p. destruct (decide (p = q)) as [->|Hne]; [right; exists x; rewrite lookup_insert_eq, Es; done|]. rewrite lookup_insert_ne by done. apply Hr.
Qed.

Lemma free_wait_run patience p : forall h W, patience <> 0%nat -> waits p W -> readied (heap (fkern s0)) h -> (forall a q, wq0 !! a = Some q -> is_Some (heap (fkern s0) !! q)) ->
  exists h', free_wait patience p (st2 h W) = Ok tt (st2 h' wq0) /\ readied (heap (fkern s0)) h'.
Proof using Hcur HL.
  induction p as [|e p IH]; intros h W Hp Hw Hr Hq.
  - exists h. split; [|done]. assert (W = wq0) as ->; [|done]. apply map_eq. intros a. rewrite (wt_heads _ _ Hw). by rewrite decide_False by (apply not_elem_of_nil).
  - pose proof (wt_nodup _ _ Hw) as Hnd. rewrite fmap_cons in Hnd. apply NoDup_cons in Hnd as [Hn Hnd]. pose proof (wt_old _ _ Hw) as Hold. apply Forall_cons in Hold as [He Hold]. set (a := wait_address e) in *.
    assert (Hh : W !! a = Some c0) by (rewrite (wt_heads _ _ Hw); by rewrite decide_True by (rewrite fmap_cons; left)).
    set (W' := match old_task e with Some q => <[a := q]> W | None => delete a W end). assert (Hw' : waits p W').
    { split; [done|done|]. intros b. destruct (decide (b = a)) as [->|Hne].
      - rewrite decide_False by done. rewrite <-He. unfold W'. destruct (old_task e); [apply lookup_insert_eq|apply lookup_delete_eq].
      - assert (E : W' !! b = W !! b) by (unfold W'; destruct (old_task e); [by apply lookup_insert_ne|by apply lookup_delete_ne]). rewrite E, (wt_heads _ _ Hw), fmap_cons. destruct (decide (b ∈ wait_address <$> p)); [by rewrite decide_True by (by right)|]. rewrite decide_False; [done|]. by intros [?|?]%elem_of_cons. }
    assert (Hone : exists h1, free_one patience e (st2 h W) = Ok tt (st2 h1 W') /\ readied (heap (fkern s0)) h1).
    { unfold free_one. fold a. rewrite (run_bind _ _ _ tt (st2 h W)).
      - rewrite (run_bind _ _ _ (Some c0) (st2 h W)) by (unfold wait_head, on_task; cbn; by rewrite Hh). rewrite bool_decide_eq_false_2 by done. erewrite run_bind by reflexivity. rewrite (run_bind _ _ _ tt (st2 h W')) by done.
        destruct (old_task e) as [q|] eqn:Eo; [|by exists h]. destruct (Hq a q (eq_sym He)) as [x Hx]. destruct (readied_set _ h q x Hr Hx) as (x' & Hx' & Hr'). exists (<[q := set_state TASK_RUNNING x']> h). split; [|done]. unfold on_task, upd. cbn. by rewrite Hx'.
      - destruct patience as [|n]; [done|]. cbn [iter]. rewrite (run_bind _ _ _ (inr tt) (st2 h W)); [done|]. unfold free_wait_step. rewrite (run_bind _ _ _ (Some c0) (st2 h W)) by (unfold wait_head, on_task; cbn; by rewrite Hh). rewrite (run_bind _ _ _ c0 (st2 h W)) by done. by rewrite bool_decide_eq_true_2. }
    destruct Hone as (h1 & H1 & Hr1). destruct (IH h1 W' Hp Hw' Hr1 Hq) as (h2 & H2 & Hr2). exists h2. split; [|done]. unfold free_wait in *. cbn [for_each]. by rewrite (run_bind _ _ _ _ _ H1).
Qed.

(** ** The call *)

Lemma can_wait_run mask k : forall i, (forall j, i <= j < i + Z.of_nat k -> Z.testbit mask j = true -> waitable j) -> can_wait_all mask k i (st wq0) = Ok true (st wq0).
Proof using Hcur HL.
  induction k as [|k IH]; intros i Hm; cbn [can_wait_all]; [done|]. destruct (Z.testbit mask i) eqn:Em; [|apply IH; intros j Hj; apply Hm; lia]. destruct (Hm i ltac:(lia) Em) as (n & v & Hn & Hk & _).
  rewrite (run_bind _ _ _ true (st wq0)); [apply IH; intros j Hj; apply Hm; lia|]. unfold node in Hn. destruct (aget (filp t) i) as [[f|]|] eqn:Ef; [|done|done]. destruct (aget (file_table s0) (ptr_entry f)) as [fv|] eqn:Ev; [|done]. destruct (f_inode fv) as [n'|] eqn:En; [|done]. destruct (aget (inode_table s0) n') as [v'|] eqn:Ei; [|done]. injection Hn as <- <-.
  unfold can_wait, filp_at. rewrite (run_bind _ _ _ (Some (ptr_entry f)) (st wq0)) by (rewrite (run_bind _ _ _ _ _ (cur_st filp wq0)); by rewrite Ef). rewrite (run_bind _ _ _ fv (st wq0)) by (unfold file_at; erewrite run_bind by reflexivity; change (file_table (st wq0)) with (file_table s0); by rewrite Ev). rewrite En. rewrite (run_bind _ _ _ _ _ (inode_st n' v' wq0 Ei)). by rewrite Hk.
Qed.

Lemma tally_nonneg k r1 r2 r3 : forall i, 0 <= tally k i r1 r2 r3.
Proof using Hcur HL. induction k as [|k IH]; intros i; cbn [tally]; [lia|]. specialize (IH (i + 1)). destruct (r1 i), (r2 i), (r3 i); cbn; lia. Qed.

(** C31: When a descriptor is ready, [do_select] does not sleep: it returns exactly the
    descriptors that are ready for reading, for writing and with an exception, and how
    many.  Every wait queue it has put the task into is as it was; tasks it found there
    have at most been made ready. *)
Theorem select_ready (patience : nat) (mi mo me : Z) : patience <> 0%nat ->
  (forall a q, wq0 !! a = Some q -> is_Some (heap (fkern s0) !! q)) ->
  (forall j, 0 <= j < 20 -> Z.testbit (Z.lor mi (Z.lor mo me)) j = true -> waitable j) ->
  0 < tally 20 0 (noted mi (fd_is ready_in)) (noted mo (fd_is ready_out)) (noted me (fd_is ready_ex)) ->
  exists ri ro re h', do_select patience mi mo me s0 = Ok (tally 20 0 (noted mi (fd_is ready_in)) (noted mo (fd_is ready_out)) (noted me (fd_is ready_ex)), ri, ro, re) (st2 h' wq0) /\
    readied (heap (fkern s0)) h' /\
    bits_added 0 ri 20 0 (noted mi (fd_is ready_in)) /\ bits_added 0 ro 20 0 (noted mo (fd_is ready_out)) /\ bits_added 0 re 20 0 (noted me (fd_is ready_ex)).
Proof using Hcur HL.
  intros Hp Hq Hm Hc. assert (Es : s0 = st wq0) by (unfold st; clear; destruct s0 as [k]; by destruct k). assert (E0 : do_select patience mi mo me s0 = do_select patience mi mo me (st wq0)) by (by rewrite <-Es). rewrite E0. unfold do_select. rewrite (run_bind _ _ _ _ _ (can_wait_run (Z.lor mi (Z.lor mo me)) (Z.to_nat NR_OPEN) 0 Hm)). cbn [negb]. destruct patience as [|n]; [done|]. cbn [iter].
  destruct (scan_run mi mo me 20 0 (Found 0 0 0 0 []) wq0 ltac:(lia) waits_nil ltac:(cbn; lia)) as (r & W & Hs & Hw & Hn & H1 & H2 & H3); [intros j Hj Hb; apply Hm; [lia|]; by rewrite !Z.lor_spec, orb_assoc|]. cbn [f_nr] in Hn. rewrite Z.add_0_l in Hn.
  destruct (free_wait_run (S n) (f_wait r) (heap (fkern s0)) W ltac:(done) Hw ltac:(by left) Hq) as (h' & Hf & Hr). exists (f_in r), (f_out r), (f_ex r), h'. split; [|done]. assert (E2 : st2 (heap (fkern s0)) W = st W) by (unfold st2, st; clear; destruct s0 as [k]; by destruct k). rewrite E2 in Hf.
  rewrite (run_bind _ _ _ (inr (f_nr r, f_in r, f_out r, f_ex r)) (st2 h' wq0)); [by rewrite Hn|]. unfold select_step. rewrite (run_bind _ _ _ _ _ Hs). rewrite (run_bind _ _ _ _ _ (signalled_st W)).
  rewrite (run_bind _ _ _ _ _ (cur_st timeout W)). destruct (Z.eqb_spec (f_nr r) 0); [lia|]. rewrite andb_false_r. by rewrite (run_bind _ _ _ _ _ Hf).
Qed.
End SelectOk.

(** ** Two pipes: one has data, another task waits for the other *)

#[local] Instance never_sleep : FsEnv unit := {| fs_sleep := fun _ => mret tt; fs_yield := mret tt |}.
#[local] Instance no_ttys : SelectDevices unit := {| tty_has_input := fun _ _ => false; tty_has_room := fun _ _ => false; secondary_wait := fun m => m; write_q_wait := fun m => m |}.
#[local] Instance no_ttys_stable : SelectStable unit.
Proof. by split. Defined.

Definition pipe_inode (head : Z) : inode := set_i_pipe 1 (set_i_data (head :: replicate 15 0) zero_inode).
Definition pipes_task : task_struct := set_filp ([Some 1%positive; None; Some 2%positive] ++ replicate 17 None) (INIT_TASK 1).
Definition pipes_kern : kst :=
  Kst {[1%positive := pipes_task; 2%positive := set_state TASK_INTERRUPTIBLE (INIT_TASK 1)]} [Some 1%positive; Some 2%positive] 1 0 0 0 {[i_wait 1 := 2%positive]} (Tst [] None 0 []) (SysData [] 0 0 0 0 None 0 []) [].
Definition pipes_state : fss unit := Fss pipes_kern tt [pipe_inode 5; pipe_inode 0] [] 0 [File 1 0 1 (Some 0) false 0; File 1 0 1 (Some 1) false 0] ∅ 0.

Lemma select_ready_witness : exists ri ro re h', do_select 1 5 0 0 pipes_state = Ok (1, ri, ro, re) (st2 pipes_state h' (wq pipes_kern)) /\ readied (heap pipes_kern) h' /\
  bits_added 0 ri 20 0 (noted 5 (fd_is pipes_state pipes_task (ready_in pipes_state pipes_task))) /\ bits_added 0 ro 20 0 (noted 0 (fd_is pipes_state pipes_task (ready_out pipes_state pipes_task))) /\ bits_added 0 re 20 0 (noted 0 (fd_is pipes_state pipes_task (ready_ex pipes_task))).
Proof.
  apply (select_ready pipes_state pipes_task eq_refl 1 5 0 0); [done| | |reflexivity].
  - intros a q Hq. cbn [fkern pipes_state wq pipes_kern] in Hq. apply lookup_singleton_Some in Hq as [_ <-]. by eexists.
  - intros j Hj Hb. change (Z.lor 5 (Z.lor 0 0)) with 5 in Hb. assert (Hall : Forall (fun j => Z.testbit 5 j = true -> j = 0 \/ j = 2) (range 0 20)) by (apply (bool_decide_unpack _); vm_compute; exact I).
    rewrite Forall_forall in Hall. destruct (Hall j ltac:(apply elem_of_range; lia) Hb) as [-> | ->]; [exists 0, (pipe_inode 5)|exists 1, (pipe_inode 0)]; by split.
Defined.
