(* ===== verification/Ptrace.v ===== *)
(** * Tracing: [kernel/ptrace.c]

    A task reads and writes the memory and the saved registers of a child that it
    traces and that is stopped.  The memory is that of [Memory]: words of physical
    memory behind the page tables of the child.  The registers a child saved when it
    entered the kernel are the 17 words below [tss.esp0].

    [do_no_page] and [write_verify] are those of [Memory] with the arguments that
    stand for the file system; [put_stack_long], which the source calls and nobody
    defines, is an argument. *)

From S2P Require Import Prelude TaskStruct Sched Signal Memory.

Definition FLAG_MASK : Z := 0x00000dd9.
Definition TRAP_FLAG : Z := 0x100.
Definition MAGICNUMBER : Z := 68.
Definition ORIG_EAX : Z := 11.
Definition EFL : Z := 14.
Definition NSIG : Z := 32.
Definition PAGE_RW : Z := 2.

Record pts := Pts {
  ptk : kst;
  ptm : mst;
  kstack : gmap tptr (list Z)          (* the 17 words below esp0 of a task *)
}.
Definition set_ptk v s := Pts v (ptm s) (kstack s).
Definition set_ptm v s := Pts (ptk s) v (kstack s).

Definition on_tasks {A} (m : M kst A) : M pts A := fun s => match m (ptk s) with Ok a k => Ok a (set_ptk k s) | Halt h k => Halt h (set_ptk k s) end.
Definition on_mem {A} (m : M mst A) : M pts A := fun s => match m (ptm s) with Ok a k => Ok a (set_ptm k s) | Halt h k => Halt h (set_ptm k s) end.

(** [static inline int get_task(int pid)] *)
Fixpoint get_task_from (p : Z) (k : nat) (i : Z) : M kst Z :=
  match k with
  | O => mret (-1)
  | S k' =>
      o ← task_at i;
      match o with
      | Some _ => t ← deref o; if pid t =? p then mret i else get_task_from p k' (i + 1)
      | None => get_task_from p k' (i + 1)
      end
  end.
Definition get_task (p : Z) : M kst Z := get_task_from p (Z.to_nat NR_TASKS) 0.

(** [static inline int get_stack_long(struct task_struct *task, int offset)] *)
Definition get_stack_long (c : tptr) (offset : Z) : M pts Z :=
  s ← getS; l ← ofOpt (kstack s !! c);
  if Z.land offset 3 =? 0 then ofOpt (aget l ((offset + MAGICNUMBER) / 4)) else halts Fault.

(** A word of physical memory at any address: [*(unsigned long * ) a]. *)
Definition rd_long (a : Z) : M mst Z :=
  let o := 8 * (a mod 4) in
  lo ← rd (a - a mod 4);
  if o =? 0 then mret lo else hi ← rd (a - a mod 4 + 4); mret (Z.lor (Z.shiftr lo o) (u32 (Z.shiftl hi (32 - o)))).
Definition wr_long (a v : Z) : M mst unit :=
  let o := 8 * (a mod 4) in
  let b := a - a mod 4 in
  if o =? 0 then wr b (u32 v)
  else
    lo ← rd b; hi ← rd (b + 4);
    wr b (Z.lor (Z.land lo (Z.ones o)) (u32 (Z.shiftl v o)));;
    wr (b + 4) (Z.lor (Z.ldiff hi (Z.ones o)) (Z.shiftr (u32 v) (32 - o))).

Section Ptrace.
Context (no_page : Z -> Z -> M mst unit) (verify : Z -> M mst unit).
Context (put_stack_long : tptr -> Z -> Z -> M pts Z).
Context (patience : nat).

(** The page table entry of a linear address, 0 or without [PAGE_PRESENT] if there is
    none. *)
Definition pte_of (cr3 addr : Z) : M mst Z :=
  page ← rd (cr3 + Z.land (Z.shiftr addr 20) 0xffc);
  if truth (Z.land page PAGE_PRESENT) then rd (Z.land page 0xfffff000 + Z.land (Z.shiftr addr 10) 0xffc) else mret page.

(** [static unsigned long get_long(struct task_struct *tsk, unsigned long addr)]; the
    task is given by its number, [start_code] and [cr3]. *)
Definition get_long (nr start cr3 addr : Z) : M mst Z :=
  let addr := u32 (addr + start) in
  iter patience (fun _ =>
    page ← pte_of cr3 addr;
    if negb (truth (Z.land page PAGE_PRESENT)) then no_page addr nr;; mret (inl tt)
    else v ← rd_long (Z.land page 0xfffff000 + Z.land addr 0xfff); mret (inr v)) tt.

(** [static void put_long(struct task_struct *tsk, unsigned long addr, unsigned long data)] *)
Definition put_long (nr start cr3 addr data : Z) : M mst unit :=
  let addr := u32 (addr + start) in
  iter patience (fun _ =>
    page ← pte_of cr3 addr;
    if negb (truth (Z.land page PAGE_PRESENT)) then no_page addr nr;; mret (inl tt)
    else if negb (truth (Z.land page PAGE_RW)) then verify addr;; mret (inl tt)
    else wr_long (Z.land page 0xfffff000 + Z.land addr 0xfff) data;; mret (inr tt)) tt.

(** [static int read_long(struct task_struct *tsk, unsigned long addr, unsigned long *result)];
    [hgih] is read as [high]. *)
Definition read_long (nr start cr3 addr : Z) : M mst (Z + Z) :=
  if TASK_SIZE - 4 <? addr then mret (inl (- EIO))
  else if 4096 - 4 <? Z.land addr 0xfff then
    low ← get_long nr start cr3 (Z.land addr 0xfffffffc);
    high ← get_long nr start cr3 (Z.land (addr + 4) 0xfffffffc);
    mret (inr (match Z.land addr 3 with
               | 1 => Z.lor (Z.shiftr low 8) (u32 (Z.shiftl high 24))
               | 2 => Z.lor (Z.shiftr low 16) (u32 (Z.shiftl high 16))
               | 3 => Z.lor (Z.shiftr low 24) (u32 (Z.shiftl high 8))
               | _ => low
               end))
  else v ← get_long nr start cr3 addr; mret (inr v).

(** [static int write_long(struct task_struct *tsk, unsigned long addr, unsigned long data)] *)
Definition write_long (nr start cr3 addr data : Z) : M mst Z :=
  if TASK_SIZE - 4 <? addr then mret (- EIO)
  else if 4096 - 4 <? Z.land addr 0xfff then
    low ← get_long nr start cr3 (Z.land addr 0xfffffffc);
    high ← get_long nr start cr3 (Z.land (addr + 4) 0xfffffffc);
    let '(low, high) :=
      match Z.land addr 3 with
      | 0 => (data, high)
      | 1 => (Z.lor (Z.land low 0x000000ff) (u32 (Z.shiftl data 8)), Z.lor (Z.land high 0xffffff00) (Z.shiftr data 24))
      | 2 => (Z.lor (Z.land low 0x0000ffff) (u32 (Z.shiftl data 16)), Z.lor (Z.land high 0xffff0000) (Z.shiftr data 16))
      | 3 => (Z.lor (Z.land low 0x00ffffff) (u32 (Z.shiftl data 24)), Z.lor (Z.land high 0xff000000) (Z.shiftr data 8))
      | _ => (low, high)
      end in
    put_long nr start cr3 (Z.land addr 0xfffffffc) low;;
    put_long nr start cr3 (Z.land (addr + 4) 0xfffffffc) high;;
    mret 0
  else put_long nr start cr3 addr data;; mret 0.

(** The child goes on, with the signal [data] if it is one; the trap flag is set or
    cleared. *)
Definition resume (c : tptr) (sig : Z) (trap : bool) : M pts Z :=
  on_tasks (upd (Some c) (fun t => set_state TASK_RUNNING (set_signal sig t)));;
  tmp ← get_stack_long c (4 * EFL - MAGICNUMBER);
  put_stack_long c (4 * EFL - MAGICNUMBER) (if trap then Z.lor tmp TRAP_FLAG else Z.ldiff tmp TRAP_FLAG);;
  mret 0.

(** [int sys_ptrace(unsigned long *buffer)]; in case 9 the flag is set before the child
    goes on, which nobody can see. *)
Definition sys_ptrace (fs : umem) (buffer : Z) : M pts Z :=
  let request := s32 (get_fs_long fs buffer) in
  let p := s32 (get_fs_long fs (buffer + 4)) in
  let addr := get_fs_long fs (buffer + 8) in
  let data := get_fs_long fs (buffer + 12) in
  if request =? 0 then on_tasks (upd_cur (fun t => set_tflags (Z.lor (tflags t) PF_PTRACED) t));; mret 0
  else
    childno ← on_tasks (get_task p);
    if childno <? 0 then mret (- ESRCH)
    else
      o ← on_tasks (task_at childno); t ← on_tasks (deref o); c ← ofOpt o;
      me ← on_tasks (gets current);
      if negb (bool_decide (p_pptr t = Some me)) || negb (truth (Z.land (tflags t) PF_PTRACED)) || negb (state t =? TASK_STOPPED) then mret (- ESRCH)
      else if (request =? 1) || (request =? 2) then
        r ← on_mem (read_long childno (start_code t) (cr3 (tss t)) addr);
        match r with
        | inl e => mret e
        | inr v => on_tasks (call_verify_area data 4);; on_tasks (put_fs_long v data);; mret 0
        end
      else if request =? 3 then
        let a := Z.shiftr (s32 addr) 2 in
        if (a <? 0) || (17 <=? a) then mret (- EIO)
        else
          on_tasks (call_verify_area data 4);;
          tmp ← get_stack_long c (4 * a - MAGICNUMBER);
          on_tasks (put_fs_long tmp data);;
          mret 0
      else if (request =? 4) || (request =? 5) then on_mem (write_long childno (start_code t) (cr3 (tss t)) addr data)
      else if request =? 6 then
        let a := Z.shiftr (s32 addr) 2 in
        if (a <? 0) || (17 <=? a) then mret (- EIO)
        else if a =? ORIG_EAX then mret (- EIO)
        else
          data ← (if a =? EFL then v ← get_stack_long c (EFL * 4); mret (Z.lor (Z.land data FLAG_MASK) v) else mret data);
          r ← put_stack_long c (4 * a - MAGICNUMBER) data;
          mret (if truth r then - EIO else 0)
      else if request =? 7 then resume c (if (0 <? s32 data) && (s32 data <=? NSIG) then word_bit (data - 1) else 0) false
      else if request =? 8 then resume c (word_bit (SIGKILL - 1)) false
      else if request =? 9 then resume c (if (0 <? s32 data) && (s32 data <? NSIG) then word_bit (data - 1) else 0) true
      else mret (- EIO).

End Ptrace.
