(* ===== verification/PtraceOk.v ===== *)
(** * Theorems about tracing

    A word a tracer writes into the memory of its child is the word it reads there,
    at any address, across two pages too. *)

From S2P Require Import Prelude TaskStruct Sched Signal Memory Ptrace.

(** ** Words in two pieces *)

Lemma u32_bit z i : 0 <= i -> Z.testbit (u32 z) i = if i <? 32 then Z.testbit z i else false.
Proof. intros Hi. unfold u32. destruct (Z.ltb_spec i 32); [by rewrite Z.mod_pow2_bits_low by lia|by rewrite Z.mod_pow2_bits_high by lia]. Qed.

Lemma in_u32_bit z i : in_u32 z -> 32 <= i -> Z.testbit z i = false.
Proof. intros Hz Hi. rewrite <-(u32_small z Hz), u32_bit by lia. by destruct (Z.ltb_spec i 32); [lia|]. Qed.

(** The low [32 - n] bits of a word in the upper bits of one, its others in the lower
    bits of the next. *)
Lemma join_split n low x v : 0 < n < 32 -> in_u32 v -> (forall i, 0 <= i < n -> Z.testbit x i = false) ->
  Z.lor (Z.shiftr (Z.lor (Z.land low (Z.ones n)) (u32 (Z.shiftl v n))) n) (u32 (Z.shiftl (Z.lor x (Z.shiftr v (32 - n))) (32 - n))) = v.
Proof.
  intros Hn Hv Hx. apply Z.bits_inj'. intros i Hi. rewrite Z.lor_spec, Z.shiftr_spec, Z.lor_spec, Z.land_spec by lia. rewrite !u32_bit by lia. rewrite Z.shiftl_spec by lia. rewrite Z.shiftl_spec by lia. replace (i + n - n) with i by lia.
  rewrite Z.ones_spec_high by lia. rewrite andb_false_r. cbn [orb]. destruct (Z.ltb_spec i 32) as [Hi32|Hi32].
  - destruct (Z.ltb_spec (i + n) 32) as [Hl|Hl].
    + rewrite (Z.testbit_neg_r _ (i - (32 - n))) by lia. apply orb_false_r.
    + cbn [orb]. rewrite Z.lor_spec, Hx by lia. cbn [orb]. rewrite Z.shiftr_spec by lia. f_equal. lia.
  - destruct (Z.ltb_spec (i + n) 32); [lia|]. rewrite (in_u32_bit v i Hv Hi32). done.
Qed.

(** The same when the two words are cut to 32 bits. *)
Lemma join_split_u32 n low x v : 0 < n < 32 -> in_u32 v -> (forall i, 0 <= i < n -> Z.testbit x i = false) ->
  Z.lor (Z.shiftr (u32 (Z.lor (Z.land low (Z.ones n)) (u32 (Z.shiftl v n)))) n) (u32 (Z.shiftl (u32 (Z.lor x (Z.shiftr v (32 - n)))) (32 - n))) = v.
Proof.
  intros Hn Hv Hx. rewrite <-(join_split n low x v Hn Hv Hx) at 3. f_equal; apply Z.bits_inj'; intros i Hi.
  - rewrite !Z.shiftr_spec by lia. rewrite u32_bit by lia. destruct (Z.ltb_spec (i + n) 32); [done|]. rewrite Z.lor_spec, Z.land_spec, Z.ones_spec_high, andb_false_r by lia. rewrite u32_bit by lia. by destruct (Z.ltb_spec (i + n) 32); [lia|].
  - rewrite !u32_bit by lia. destruct (Z.ltb_spec i 32); [|done]. rewrite !Z.shiftl_spec by lia. destruct (Z.lt_ge_cases i (32 - n)); [by rewrite !Z.testbit_neg_r by lia|]. rewrite u32_bit by lia. by destruct (Z.ltb_spec (i - (32 - n)) 32); [|lia].
Qed.

Lemma ldiff_low hi n i : 0 <= i < n -> Z.testbit (Z.ldiff hi (Z.ones n)) i = false.
Proof. intros Hi. rewrite Z.ldiff_spec, Z.ones_spec_low by lia. apply andb_false_r. Qed.
Lemma land_low hi m n i : (forall i, 0 <= i < n -> Z.testbit m i = false) -> 0 <= i < n -> Z.testbit (Z.land hi m) i = false.
Proof. intros Hm Hi. rewrite Z.land_spec, Hm by lia. apply andb_false_r. Qed.

(** ** Physical memory *)

(** The words [wr_long] changes. *)
Definition long_words (a : Z) : list Z := if a mod 4 =? 0 then [a] else [a - a mod 4; a - a mod 4 + 4].

Definition with_long (p : gmap Z Z) (a v : Z) : gmap Z Z :=
  let o := 8 * (a mod 4) in let b := a - a mod 4 in
  if a mod 4 =? 0 then <[a := u32 v]> p
  else <[b + 4 := Z.lor (Z.ldiff (word p (b + 4)) (Z.ones o)) (Z.shiftr (u32 v) (32 - o))]> (<[b := Z.lor (Z.land (word p b) (Z.ones o)) (u32 (Z.shiftl v o))]> p).
Definition long_at (p : gmap Z Z) (a : Z) : Z :=
  let o := 8 * (a mod 4) in let b := a - a mod 4 in
  if a mod 4 =? 0 then word p a else Z.lor (Z.shiftr (word p b) o) (u32 (Z.shiftl (word p (b + 4)) (32 - o))).

Lemma rd_long_run a m : rd_long a m = Ok (long_at (phys m) a) m.
Proof.
  unfold rd_long, long_at. rewrite (run_bind _ _ _ _ _ (eq_refl : rd (a - a mod 4) m = Ok (word (phys m) (a - a mod 4)) m)).
  destruct (Z.eqb_spec (a mod 4) 0) as [E|E]; [rewrite E; cbn; by rewrite Z.sub_0_r|]. by destruct (Z.eqb_spec (8 * (a mod 4)) 0); [lia|].
Qed.
Lemma wr_long_run a v m : wr_long a v m = Ok tt (set_phys (with_long (phys m) a v) m).
Proof.
  unfold wr_long, with_long. destruct (Z.eqb_spec (a mod 4) 0) as [E|E]; [rewrite E; cbn; by rewrite Z.sub_0_r|]. by destruct (Z.eqb_spec (8 * (a mod 4)) 0); [lia|].
Qed.

Lemma word_insert_eq p a v : word (<[a := v]> p) a = v.
Proof. unfold word. by rewrite lookup_insert_eq. Qed.
Lemma word_insert_ne p a b v : a <> b -> word (<[a := v]> p) b = word p b.
Proof. intros H. unfold word. by rewrite lookup_insert_ne. Qed.

Lemma long_with_long p a v : in_u32 v -> long_at (with_long p a v) a = v.
Proof.
  intros Hv. unfold long_at, with_long. pose proof (Z.mod_pos_bound a 4 ltac:(lia)). destruct (Z.eqb_spec (a mod 4) 0); [rewrite word_insert_eq; by apply u32_small|].
  rewrite word_insert_eq, (word_insert_ne _ (a - a mod 4 + 4)), word_insert_eq by lia. rewrite (u32_small v Hv). apply join_split; [lia|done|]. intros i Hi. by apply ldiff_low.
Qed.
Lemma with_long_other p a v b : b ∉ long_words a -> word (with_long p a v) b = word p b.
Proof.
  unfold with_long, long_words. destruct (a mod 4 =? 0); intros Hb; rewrite !word_insert_ne; try done; set_solver.
Qed.

(** Bit [x] of memory, and that a change kept all bits but those of the bytes [l]. *)
Definition mem_bit (p : gmap Z Z) (x : Z) : bool := Z.testbit (word p (4 * (x / 32))) (x mod 32).
Definition only_bytes (l : list Z) (p p' : gmap Z Z) : Prop := forall x, x / 8 ∉ l -> mem_bit p' x = mem_bit p x.

Lemma mem_place x : x / 8 = 4 * (x / 32) + (x mod 32) / 8 /\ 0 <= x mod 32 < 32.
Proof.
  pose proof (Z.mod_pos_bound x 32 ltac:(lia)). split; [|done]. rewrite (Z.div_mod x 32) at 1 by lia. replace (32 * (x / 32) + x mod 32) with (x mod 32 + (4 * (x / 32)) * 8) by lia. rewrite Z.div_add by lia. lia.
Qed.

Lemma with_long_bits p a v : only_bytes [a; a + 1; a + 2; a + 3] p (with_long p a v).
Proof.
  intros x Hx. destruct (mem_place x) as [Eb Hi]. unfold mem_bit. set (i := x mod 32) in *. set (q := 4 * (x / 32)) in *. assert (Hq4 : q mod 4 = 0) by (unfold q; rewrite Z.mul_comm; apply Z.mod_mul; lia). clearbody q i.
  assert (Hi8 : 0 <= i / 8 < 4) by (split; [apply Z.div_pos; lia|apply Z.div_lt_upper_bound; lia]). pose proof (Z.div_mod i 8 ltac:(lia)) as Hd8. pose proof (Z.mod_pos_bound i 8 ltac:(lia)).
  assert (Hn : ~ a <= q + i / 8 < a + 4) by (intros Hr; apply Hx; rewrite Eb; assert (q + i / 8 = a \/ q + i / 8 = a + 1 \/ q + i / 8 = a + 2 \/ q + i / 8 = a + 3) as [->|[->|[->| ->]]] by lia; set_solver).
  pose proof (Z.div_mod a 4 ltac:(lia)) as Hda. pose proof (Z.mod_pos_bound a 4 ltac:(lia)). pose proof (Z.div_mod q 4 ltac:(lia)) as Hdq. unfold with_long.
  destruct (Z.eqb_spec (a mod 4) 0) as [E|E]; [rewrite word_insert_ne; [done|]; intros ->; lia|].
  destruct (Z.eq_dec q (a - a mod 4 + 4)) as [->|Hq2].
  - rewrite word_insert_eq, Z.lor_spec, Z.ldiff_spec, Z.ones_spec_high by lia. cbn [negb]. rewrite andb_true_r. rewrite Z.shiftr_spec, u32_bit by lia. destruct (Z.ltb_spec (i + (32 - 8 * (a mod 4))) 32); [lia|]. apply orb_false_r.
  - rewrite word_insert_ne by lia. destruct (Z.eq_dec q (a - a mod 4)) as [->|Hq1]; [|by rewrite word_insert_ne by lia].
    rewrite word_insert_eq, Z.lor_spec, Z.land_spec, Z.ones_spec_low by lia. rewrite andb_true_r, u32_bit by lia. destruct (i <? 32); [|apply orb_false_r]. rewrite Z.shiftl_spec_low by lia. apply orb_false_r.
Qed.

Section PtraceOk.
(** The tables behind [cr3] map the page of [lin], writable, to [frame]; [slots] are
    the words of the directory and of the table that say so. *)
Definition pde_slot (cr3 lin : Z) : Z := cr3 + Z.land (Z.shiftr lin 20) 0xffc.
Definition pte_slot (p : gmap Z Z) (cr3 lin : Z) : Z := Z.land (word p (pde_slot cr3 lin)) 0xfffff000 + Z.land (Z.shiftr lin 10) 0xffc.
Record maps (p : gmap Z Z) (cr3 lin frame : Z) : Prop := {
  mp_dir : truth (Z.land (word p (pde_slot cr3 lin)) PAGE_PRESENT) = true;
  mp_present : truth (Z.land (word p (pte_slot p cr3 lin)) PAGE_PRESENT) = true;
  mp_rw : truth (Z.land (word p (pte_slot p cr3 lin)) PAGE_RW) = true;
  mp_frame : frame = Z.land (word p (pte_slot p cr3 lin)) 0xfffff000
}.

Lemma slots_page cr3 p lin lin' : lin / 4096 = lin' / 4096 -> pde_slot cr3 lin = pde_slot cr3 lin' /\ pte_slot p cr3 lin = pte_slot p cr3 lin'.
Proof using.
  intros E. assert (Hs : forall a, Z.shiftr a 12 = a / 4096) by (intros a; by rewrite Z.shiftr_div_pow2 by lia).
  assert (Hd : forall a, Z.shiftr a 20 = Z.shiftr (a / 4096) 8) by (intros a; rewrite <-Hs, Z.shiftr_shiftr by lia; done).
  assert (Ht : forall a, Z.land (Z.shiftr a 10) 0xffc = Z.land (Z.shiftl (a / 4096) 2) 0xffc).
  { intros a. rewrite <-Hs. apply Z.bits_inj'. intros i Hi. rewrite !Z.land_spec. destruct (Z.lt_ge_cases i 2) as [Hlt|Hge]; [assert (i = 0 \/ i = 1) as [-> | ->] by lia; by rewrite !andb_false_r|].
    rewrite Z.shiftr_spec, Z.shiftl_spec, Z.shiftr_spec by lia. do 2 f_equal. lia. }
  assert (E1 : pde_slot cr3 lin = pde_slot cr3 lin') by (unfold pde_slot; by rewrite !Hd, E). split; [done|]. unfold pte_slot. by rewrite E1, !Ht, E.
Qed.

Lemma maps_page p cr3 lin lin' f : lin / 4096 = lin' / 4096 -> maps p cr3 lin f -> maps p cr3 lin' f.
Proof using. intros E [A B D F]. destruct (slots_page cr3 p lin lin' E) as [E1 E2]. split; rewrite <-?E2, <-?E1; done. Qed.

Lemma maps_aligned p cr3 lin f : maps p cr3 lin f -> f mod 4096 = 0.
Proof using.
  intros [_ _ _ ->]. change 4096 with (2 ^ 12). rewrite <-Z.land_ones by lia. apply Z.bits_inj'. intros i Hi. rewrite !Z.land_spec, Z.bits_0. destruct (Z.lt_ge_cases i 12); [|by rewrite Z.ones_spec_high, andb_false_r by lia].
  assert (Z.testbit 0xfffff000 i = false) as ->; [|by rewrite andb_false_r]. change 0xfffff000 with (Z.shiftl 0xfffff 12). by apply Z.shiftl_spec_low.
Qed.

(** The page [f] is not one of the tables that map [lin]. *)
Definition tables_apart (p : gmap Z Z) (cr3 lin f : Z) : Prop := ~ f <= pde_slot cr3 lin < f + 4096 /\ ~ f <= pte_slot p cr3 lin < f + 4096.

Lemma maps_same p p' cr3 lin frame : maps p cr3 lin frame -> word p' (pde_slot cr3 lin) = word p (pde_slot cr3 lin) -> word p' (pte_slot p cr3 lin) = word p (pte_slot p cr3 lin) -> maps p' cr3 lin frame.
Proof using. intros [A B D E] H1 H2. assert (Hs : pte_slot p' cr3 lin = pte_slot p cr3 lin) by (unfold pte_slot; by rewrite H1). split; rewrite ?Hs, ?H1, ?H2; done. Qed.

Lemma pte_of_run m cr3 lin frame : maps (phys m) cr3 lin frame -> pte_of cr3 lin m = Ok (word (phys m) (pte_slot (phys m) cr3 lin)) m.
Proof using. intros [A B D E]. unfold pte_of. rewrite (run_bind _ _ _ _ _ (eq_refl : rd (cr3 + Z.land (Z.shiftr lin 20) 0xffc) m = Ok (word (phys m) (pde_slot cr3 lin)) m)). by rewrite A. Qed.

(** Writing to one page keeps the tables. *)
Lemma maps_written p a v cr3 lin f g : maps p cr3 lin f -> tables_apart p cr3 lin g -> g <= a -> a + 4 <= g + 4096 -> g mod 4096 = 0 -> maps (with_long p a v) cr3 lin f.
Proof using.
  intros Hm [H1 H2] Ha Hb Hg. assert (Hw : forall x, x ∈ long_words a -> g <= x < g + 4096).
  { intros x. unfold long_words. pose proof (Z.mod_pos_bound a 4 ltac:(lia)). pose proof (Z.div_mod a 4 ltac:(lia)). pose proof (Z.div_mod g 4096 ltac:(lia)). destruct (Z.eqb_spec (a mod 4) 0); intros Hx; [apply list_elem_of_singleton in Hx; lia|].
    apply elem_of_cons in Hx as [->|Hx%list_elem_of_singleton]; [nia|]. subst x. nia. }
  apply (maps_same p); [done|apply with_long_other; intros Hx%Hw; done|apply with_long_other; intros Hx%Hw; done].
Qed.

Lemma land_off x : 0 <= x -> Z.land x 0xfff = x mod 4096.
Proof using. intros Hx. change 0xfff with (Z.ones 12). by rewrite Z.land_ones by lia. Qed.

(** The physical address of byte [j] behind offset [off] of the first page. *)
Definition phys_byte (f1 f2 off j : Z) : Z := if off + j <? 4096 then f1 + off + j else f2 + (off + j - 4096).

(** What [write_long] makes of the two words. *)
Definition low_word (k low data : Z) : Z := Z.lor (Z.land low (Z.ones (8 * k))) (u32 (Z.shiftl data (8 * k))).
Definition high_word (k high data : Z) : Z := Z.lor (Z.land high (Z.ldiff (Z.ones 32) (Z.ones (8 * k)))) (Z.shiftr data (32 - 8 * k)).

Lemma low_word_bit k low data i : 0 < k < 4 -> 0 <= i < 8 * k -> Z.testbit (u32 (low_word k low data)) i = Z.testbit low i.
Proof using. intros Hk Hi. rewrite u32_bit by lia. destruct (Z.ltb_spec i 32); [|lia]. unfold low_word. rewrite Z.lor_spec, Z.land_spec, Z.ones_spec_low, andb_true_r, u32_bit by lia. destruct (i <? 32); [|apply orb_false_r]. rewrite Z.shiftl_spec_low by lia. apply orb_false_r. Qed.
Lemma high_word_bit k high data i : 0 < k < 4 -> in_u32 data -> 8 * k <= i < 32 -> Z.testbit (u32 (high_word k high data)) i = Z.testbit high i.
Proof using.
  intros Hk Hd Hi. rewrite u32_bit by lia. destruct (Z.ltb_spec i 32); [|lia]. unfold high_word. rewrite Z.lor_spec, Z.land_spec, Z.ldiff_spec, (Z.ones_spec_low 32), (Z.ones_spec_high (8 * k)) by lia. cbn [andb negb]. rewrite andb_true_r, Z.shiftr_spec, (in_u32_bit data) by (done || lia). apply orb_false_r.
Qed.
Lemma words_join k low high data : 0 < k < 4 -> in_u32 data -> Z.lor (Z.shiftr (u32 (low_word k low data)) (8 * k)) (u32 (Z.shiftl (u32 (high_word k high data)) (32 - 8 * k))) = data.
Proof using.
  intros Hk Hd. apply join_split_u32; [lia|done|]. intros i Hi. apply (land_low _ _ (8 * k)); [|done]. intros j Hj. rewrite Z.ldiff_spec, (Z.ones_spec_low (8 * k)) by lia. apply andb_false_r.
Qed.

Lemma with_long_aligned p a v : a mod 4 = 0 -> with_long p a v = <[a := u32 v]> p.
Proof using. intros E. unfold with_long. by rewrite E. Qed.
Lemma long_at_aligned p a : a mod 4 = 0 -> long_at p a = word p a.
Proof using. intros E. unfold long_at. by rewrite E. Qed.

(** The bytes of a word across two pages. *)
Lemma cross_bytes p f1 f2 k low high data : 0 < k < 4 -> in_u32 data -> f1 mod 4096 = 0 -> f2 mod 4096 = 0 -> f1 <> f2 -> low = word p (f1 + 4092) -> high = word p f2 ->
  only_bytes (phys_byte f1 f2 (4092 + k) <$> [0; 1; 2; 3]) p (<[f2 := u32 (high_word k high data)]> (<[f1 + 4092 := u32 (low_word k low data)]> p)).
Proof using.
  intros Hk Hd H1 H2 Hne -> -> x Hx. destruct (mem_place x) as [Eb Hi]. unfold mem_bit. set (i := x mod 32) in *. set (q := 4 * (x / 32)) in *. clearbody q i. pose proof (Z.div_mod i 8 ltac:(lia)) as Hd8. pose proof (Z.mod_pos_bound i 8 ltac:(lia)).
  assert (Hnb : forall j, 0 <= j < 4 -> q + i / 8 <> phys_byte f1 f2 (4092 + k) j).
  { intros j Hj E. apply Hx. rewrite Eb, E. apply list_elem_of_fmap. exists j. split; [done|]. assert (j = 0 \/ j = 1 \/ j = 2 \/ j = 3) as [->|[->|[->| ->]]] by lia; set_solver. }
  pose proof (Z.div_mod f1 4096 ltac:(lia)). pose proof (Z.div_mod f2 4096 ltac:(lia)).
  destruct (Z.eq_dec q f2) as [->|Hq2].
  - rewrite word_insert_eq. destruct (Z.lt_ge_cases i (8 * k)) as [Hlt|Hge]; [|apply high_word_bit; done || lia]. exfalso. apply (Hnb (4 - k + i / 8)); [lia|]. unfold phys_byte. destruct (Z.ltb_spec (4092 + k + (4 - k + i / 8)) 4096); lia.
  - rewrite word_insert_ne by lia. destruct (Z.eq_dec q (f1 + 4092)) as [->|Hq1]; [|by rewrite word_insert_ne by lia].
    rewrite word_insert_eq. destruct (Z.lt_ge_cases i (8 * k)) as [Hlt|Hge]; [apply low_word_bit; lia|]. exfalso. apply (Hnb (i / 8 - k)); [lia|]. unfold phys_byte. destruct (Z.ltb_spec (4092 + k + (i / 8 - k)) 4096); lia.
Qed.

(** The two words around an address whose word crosses a page: where they are. *)
Record crossing (start addr k : Z) : Prop := {
  cr_k : 0 < k < 4;
  cr_off : addr mod 4096 = 4092 + k;
  cr_low : Z.land addr 3 = k;
  cr_first : Z.land addr 0xfffffffc = addr - k;
  cr_second : Z.land (addr + 4) 0xfffffffc = addr + 4 - k;
  cr_lin1 : u32 (addr - k + start) = start + addr - k;
  cr_lin2 : u32 (addr + 4 - k + start) = start + addr + 4 - k;
  cr_page1 : (start + addr) / 4096 = (start + addr - k) / 4096;
  cr_page2 : (start + addr + 3) / 4096 = (start + addr + 4 - k) / 4096;
  cr_off1 : Z.land (start + addr - k) 0xfff = 4092;
  cr_off2 : Z.land (start + addr + 4 - k) 0xfff = 0
}.

Lemma mask_word a : in_u32 a -> Z.land a 0xfffffffc = a - a mod 4.
Proof using.
  intros Har. transitivity (Z.ldiff a (Z.ones 2)).
  - apply Z.bits_inj'. intros i Hi. rewrite Z.land_spec, Z.ldiff_spec. destruct (Z.lt_ge_cases i 32); [|by rewrite (in_u32_bit a i) by done]. f_equal. change 0xfffffffc with (Z.ldiff (Z.ones 32) (Z.ones 2)). by rewrite Z.ldiff_spec, Z.ones_spec_low by lia.
  - rewrite Z.ldiff_ones_r, Z.shiftl_mul_pow2, Z.shiftr_div_pow2 by lia. change (2 ^ 2) with 4. pose proof (Z.div_mod a 4 ltac:(lia)). lia.
Qed.

Lemma crossing_at start addr : 0 <= addr <= TASK_SIZE - 4 -> 0 <= start -> start mod 4096 = 0 -> start + TASK_SIZE <= 2 ^ 32 -> 4092 < addr mod 4096 -> crossing start addr (addr mod 4096 - 4092).
Proof using.
  unfold TASK_SIZE. intros Ha Hs Hsm Hs32 Hoff. pose proof (Z.div_mod addr 4096 ltac:(lia)) as Hdm. pose proof (Z.mod_pos_bound addr 4096 ltac:(lia)) as Hor. pose proof (Z.div_mod start 4096 ltac:(lia)) as Hds. set (k := addr mod 4096 - 4092) in *.
  assert (Hm4 : addr mod 4 = k) by (symmetry; apply Z.mod_unique with (1024 * (addr / 4096) + 1023); lia). assert (Hm44 : (addr + 4) mod 4 = k) by (symmetry; apply Z.mod_unique with (1024 * (addr / 4096) + 1024); lia).
  split; try lia.
  - change 3 with (Z.ones 2). by rewrite Z.land_ones by lia.
  - rewrite mask_word by (unfold in_u32; lia). lia.
  - rewrite mask_word by (unfold in_u32; lia). lia.
  - rewrite u32_small by (unfold in_u32; lia). lia.
  - rewrite u32_small by (unfold in_u32; lia). lia.
  - transitivity (start / 4096 + addr / 4096); [symmetry; apply Z.div_unique with (4092 + k); lia|apply Z.div_unique with 4092; lia].
  - transitivity (start / 4096 + addr / 4096 + 1); [symmetry; apply Z.div_unique with (k - 1); lia|apply Z.div_unique with 0; lia].
  - rewrite land_off by lia. symmetry. apply Z.mod_unique with (start / 4096 + addr / 4096); lia.
  - rewrite land_off by lia. symmetry. apply Z.mod_unique with (start / 4096 + addr / 4096 + 1); lia.
Qed.

Lemma first_aligned f : f mod 4096 = 0 -> (f + 4092) mod 4 = 0.
Proof using. intros A. pose proof (Z.div_mod f 4096 ltac:(lia)). symmetry. apply Z.mod_unique with (1024 * (f / 4096) + 1023); lia. Qed.
Lemma second_aligned f : f mod 4096 = 0 -> f mod 4 = 0.
Proof using. intros A. pose proof (Z.div_mod f 4096 ltac:(lia)). symmetry. apply Z.mod_unique with (1024 * (f / 4096)); lia. Qed.

(** The tables after a word of a page that holds none of them was written. *)
Lemma insert_maps p cr3 lin f g o v : maps p cr3 lin f -> tables_apart p cr3 lin g -> 0 <= o < 4096 -> maps (<[g + o := v]> p) cr3 lin f.
Proof using. intros Hm [H1 H2] Ho. apply (maps_same p); [done|apply word_insert_ne; lia|apply word_insert_ne; lia]. Qed.
Lemma insert_apart p cr3 lin f g o v : tables_apart p cr3 lin f -> tables_apart p cr3 lin g -> 0 <= o < 4096 -> tables_apart (<[g + o := v]> p) cr3 lin f.
Proof using. intros Hf [H1 H2] Ho. unfold tables_apart, pte_slot in *. by rewrite word_insert_ne by lia. Qed.

Context (no_page : Z -> Z -> M mst unit) (verify : Z -> M mst unit) (patience : nat) (Hpt : (0 < patience)%nat).

Lemma get_long_run m nr start cr3 addr frame : maps (phys m) cr3 (u32 (addr + start)) frame ->
  get_long no_page patience nr start cr3 addr m = Ok (long_at (phys m) (frame + Z.land (u32 (addr + start)) 0xfff)) m.
Proof using Hpt.
  intros Hm. unfold get_long. destruct patience as [|n]; [lia|]. cbn [iter]. rewrite (run_bind _ _ _ (inr (long_at (phys m) (frame + Z.land (u32 (addr + start)) 0xfff))) m); [done|].
  rewrite (run_bind _ _ _ _ _ (pte_of_run m cr3 _ frame Hm)). rewrite (mp_present _ _ _ _ Hm). cbn [negb]. rewrite <-(mp_frame _ _ _ _ Hm). by rewrite (run_bind _ _ _ _ _ (rd_long_run _ m)).
Qed.

Lemma put_long_run m nr start cr3 addr data frame : maps (phys m) cr3 (u32 (addr + start)) frame ->
  put_long no_page verify patience nr start cr3 addr data m = Ok tt (set_phys (with_long (phys m) (frame + Z.land (u32 (addr + start)) 0xfff) data) m).
Proof using Hpt.
  intros Hm. unfold put_long. destruct patience as [|n]; [lia|]. cbn [iter]. set (m' := set_phys _ m). rewrite (run_bind _ _ _ (inr tt) m'); [done|].
  rewrite (run_bind _ _ _ _ _ (pte_of_run m cr3 _ frame Hm)). rewrite (mp_present _ _ _ _ Hm), (mp_rw _ _ _ _ Hm). cbn [negb]. rewrite <-(mp_frame _ _ _ _ Hm). by rewrite (run_bind _ _ _ _ _ (wr_long_run _ _ m)).
Qed.

(** Inside a page. *)
Lemma poke_inside m nr start cr3 addr data f : in_u32 data -> 0 <= addr <= TASK_SIZE - 4 -> 0 <= start -> start mod 4096 = 0 -> start + TASK_SIZE <= 2 ^ 32 -> addr mod 4096 <= 4092 ->
  maps (phys m) cr3 (start + addr) f -> tables_apart (phys m) cr3 (start + addr) f ->
  exists m', write_long no_page verify patience nr start cr3 addr data m = Ok 0 m' /\ read_long no_page patience nr start cr3 addr m' = Ok (inr data) m' /\
    only_bytes [f + addr mod 4096; f + addr mod 4096 + 1; f + addr mod 4096 + 2; f + addr mod 4096 + 3] (phys m) (phys m').
Proof using Hpt.
  intros Hd Ha Hs Hsm Hs32 Hoff Hm Hap. pose proof (maps_aligned _ _ _ _ Hm) as Hf. unfold TASK_SIZE in *. assert (Hl : u32 (addr + start) = start + addr) by (rewrite u32_small by (unfold in_u32; lia); lia).
  assert (Ho : Z.land (start + addr) 0xfff = addr mod 4096) by (rewrite land_off by lia; rewrite Z.add_mod, Hsm, Z.add_0_l, Z.mod_mod by lia; done). set (off := addr mod 4096) in *. pose proof (Z.mod_pos_bound addr 4096 ltac:(lia)) as Hor. fold off in Hor.
  assert (Hb : (TASK_SIZE - 4 <? addr) = false /\ (4096 - 4 <? Z.land addr 0xfff) = false) by (rewrite land_off by lia; fold off; unfold TASK_SIZE; lia). destruct Hb as [Hb1 Hb2].
  exists (set_phys (with_long (phys m) (f + off) data) m). split; [|split; [|apply with_long_bits]].
  - unfold write_long. rewrite Hb1, Hb2. rewrite (run_bind _ _ _ _ _ (put_long_run m nr start cr3 addr data f ltac:(by rewrite Hl))). by rewrite Hl, Ho.
  - unfold read_long. rewrite Hb1, Hb2. set (m' := set_phys _ m). assert (Hm' : maps (phys m') cr3 (u32 (addr + start)) f) by (rewrite Hl; apply (maps_written _ _ _ _ _ f f); [done|done|lia|lia|done]).
    rewrite (run_bind _ _ _ _ _ (get_long_run m' nr start cr3 addr f Hm')). rewrite Hl, Ho. cbn [phys m' set_phys]. by rewrite long_with_long.
Qed.

(** Across two pages: the two words. *)
Section Across.
Context (nr start cr3 addr k f1 f2 : Z) (Hc : crossing start addr k) (A1 : f1 mod 4096 = 0) (A2 : f2 mod 4096 = 0).

Lemma get_first m : maps (phys m) cr3 (start + addr - k) f1 -> get_long no_page patience nr start cr3 (Z.land addr 0xfffffffc) m = Ok (word (phys m) (f1 + 4092)) m.
Proof using Hc A1 Hpt. intros Hm. rewrite (cr_first _ _ _ Hc), (get_long_run m nr start cr3 (addr - k) f1) by (by rewrite (cr_lin1 _ _ _ Hc)). by rewrite (cr_lin1 _ _ _ Hc), (cr_off1 _ _ _ Hc), (long_at_aligned _ _ (first_aligned f1 A1)). Qed.
Lemma get_second m : maps (phys m) cr3 (start + addr + 4 - k) f2 -> get_long no_page patience nr start cr3 (Z.land (addr + 4) 0xfffffffc) m = Ok (word (phys m) f2) m.
Proof using Hc A2 Hpt. intros Hm. rewrite (cr_second _ _ _ Hc), (get_long_run m nr start cr3 (addr + 4 - k) f2) by (by rewrite (cr_lin2 _ _ _ Hc)). by rewrite (cr_lin2 _ _ _ Hc), (cr_off2 _ _ _ Hc), Z.add_0_r, (long_at_aligned _ _ (second_aligned f2 A2)). Qed.
Lemma put_first m v : maps (phys m) cr3 (start + addr - k) f1 -> put_long no_page verify patience nr start cr3 (Z.land addr 0xfffffffc) v m = Ok tt (set_phys (<[f1 + 4092 := u32 v]> (phys m)) m).
Proof using Hc A1 Hpt. intros Hm. rewrite (cr_first _ _ _ Hc), (put_long_run m nr start cr3 (addr - k) v f1) by (by rewrite (cr_lin1 _ _ _ Hc)). by rewrite (cr_lin1 _ _ _ Hc), (cr_off1 _ _ _ Hc), (with_long_aligned _ _ _ (first_aligned f1 A1)). Qed.
Lemma put_second m v : maps (phys m) cr3 (start + addr + 4 - k) f2 -> put_long no_page verify patience nr start cr3 (Z.land (addr + 4) 0xfffffffc) v m = Ok tt (set_phys (<[f2 := u32 v]> (phys m)) m).
Proof using Hc A2 Hpt. intros Hm. rewrite (cr_second _ _ _ Hc), (put_long_run m nr start cr3 (addr + 4 - k) v f2) by (by rewrite (cr_lin2 _ _ _ Hc)). by rewrite (cr_lin2 _ _ _ Hc), (cr_off2 _ _ _ Hc), Z.add_0_r, (with_long_aligned _ _ _ (second_aligned f2 A2)). Qed.

Lemma write_across m data : Z.land addr 0xfff = 4092 + k -> addr <= TASK_SIZE - 4 ->
  maps (phys m) cr3 (start + addr - k) f1 -> maps (phys m) cr3 (start + addr + 4 - k) f2 -> tables_apart (phys m) cr3 (start + addr + 4 - k) f1 ->
  write_long no_page verify patience nr start cr3 addr data m =
    Ok 0 (set_phys (<[f2 := u32 (high_word k (word (phys m) f2) data)]> (<[f1 + 4092 := u32 (low_word k (word (phys m) (f1 + 4092)) data)]> (phys m))) m).
Proof using Hc A1 A2 Hpt.
  intros Hl Ha H1 H2 Ht. pose proof (cr_k _ _ _ Hc) as Hk. unfold write_long. destruct (Z.ltb_spec (TASK_SIZE - 4) addr); [lia|]. rewrite Hl. destruct (Z.ltb_spec (4096 - 4) (4092 + k)); [|lia].
  rewrite (run_bind _ _ _ _ _ (get_first m H1)), (run_bind _ _ _ _ _ (get_second m H2)), (cr_low _ _ _ Hc). set (m1 := set_phys (<[f1 + 4092 := u32 (low_word k (word (phys m) (f1 + 4092)) data)]> (phys m)) m).
  assert (H2' : maps (phys m1) cr3 (start + addr + 4 - k) f2) by (apply insert_maps; [done|done|lia]).
  match goal with |- (let '(_, _) := ?pr in _) _ = _ => assert (pr = (low_word k (word (phys m) (f1 + 4092)) data, high_word k (word (phys m) f2) data)) as -> by (assert (k = 1 \/ k = 2 \/ k = 3) as [E|[E|E]] by lia; by rewrite E) end.
  rewrite (run_bind _ _ _ _ _ (put_first m _ H1)). fold m1. by rewrite (run_bind _ _ _ _ _ (put_second m1 _ H2')).
Qed.

Lemma read_across m : Z.land addr 0xfff = 4092 + k -> addr <= TASK_SIZE - 4 ->
  maps (phys m) cr3 (start + addr - k) f1 -> maps (phys m) cr3 (start + addr + 4 - k) f2 ->
  read_long no_page patience nr start cr3 addr m = Ok (inr (Z.lor (Z.shiftr (word (phys m) (f1 + 4092)) (8 * k)) (u32 (Z.shiftl (word (phys m) f2) (32 - 8 * k))))) m.
Proof using Hc A1 A2 Hpt.
  intros Hl Ha H1 H2. pose proof (cr_k _ _ _ Hc) as Hk. unfold read_long. destruct (Z.ltb_spec (TASK_SIZE - 4) addr); [lia|]. rewrite Hl. destruct (Z.ltb_spec (4096 - 4) (4092 + k)); [|lia].
  rewrite (run_bind _ _ _ _ _ (get_first m H1)), (run_bind _ _ _ _ _ (get_second m H2)), (cr_low _ _ _ Hc).
  assert (k = 1 \/ k = 2 \/ k = 3) as [E|[E|E]] by lia; by rewrite E.
Qed.
End Across.

(** The pages that hold the word at [addr], mapped to [f1] and [f2] (the same page when
    the word does not cross into the next), and that neither holds the tables. *)
Record traced (p : gmap Z Z) (start cr3 addr f1 f2 : Z) : Prop := {
  tc_addr : 0 <= addr <= TASK_SIZE - 4;
  tc_start : 0 <= start /\ start mod 4096 = 0 /\ start + TASK_SIZE <= 2 ^ 32;
  tc_first : maps p cr3 (start + addr) f1;
  tc_second : maps p cr3 (start + addr + 3) f2;
  tc_two : 4092 < addr mod 4096 -> f1 <> f2;
  tc_apart : forall lin f, lin = start + addr \/ lin = start + addr + 3 -> f = f1 \/ f = f2 -> tables_apart p cr3 lin f
}.

Lemma traced_second p start cr3 addr f1 f2 k lin f : crossing start addr k -> traced p start cr3 addr f1 f2 -> lin = start + addr - k \/ lin = start + addr + 4 - k -> f = f1 \/ f = f2 -> tables_apart p cr3 lin f.
Proof using.
  intros Hc Ht Hlin Hf. pose proof (cr_page1 _ _ _ Hc) as Hp1. pose proof (cr_page2 _ _ _ Hc) as Hp2. destruct Hlin as [-> | ->]; [destruct (slots_page cr3 p _ _ Hp1) as [E1 E2]|destruct (slots_page cr3 p _ _ Hp2) as [E1 E2]];
    unfold tables_apart; rewrite <-E1, <-E2; apply (tc_apart _ _ _ _ _ _ Ht); auto.
Qed.

Lemma poke_across m nr start cr3 addr data f1 f2 : in_u32 data -> traced (phys m) start cr3 addr f1 f2 -> 4092 < addr mod 4096 ->
  exists m', write_long no_page verify patience nr start cr3 addr data m = Ok 0 m' /\ read_long no_page patience nr start cr3 addr m' = Ok (inr data) m' /\
    only_bytes (phys_byte f1 f2 (addr mod 4096) <$> [0; 1; 2; 3]) (phys m) (phys m').
Proof using Hpt.
  intros Hd Ht Hoff. pose proof (tc_addr _ _ _ _ _ _ Ht) as Ha. destruct (tc_start _ _ _ _ _ _ Ht) as (Hs & Hsm & Hs32). pose proof (crossing_at start addr Ha Hs Hsm Hs32 Hoff) as Hc. set (k := addr mod 4096 - 4092) in *.
  pose proof (maps_aligned _ _ _ _ (tc_first _ _ _ _ _ _ Ht)) as A1. pose proof (maps_aligned _ _ _ _ (tc_second _ _ _ _ _ _ Ht)) as A2. pose proof (tc_two _ _ _ _ _ _ Ht Hoff) as Hne.
  pose proof (maps_page _ _ _ _ _ (cr_page1 _ _ _ Hc) (tc_first _ _ _ _ _ _ Ht)) as H1. pose proof (maps_page _ _ _ _ _ (cr_page2 _ _ _ Hc) (tc_second _ _ _ _ _ _ Ht)) as H2.
  assert (Hl : Z.land addr 0xfff = 4092 + k) by (rewrite land_off by lia; apply (cr_off _ _ _ Hc)).
  assert (Hap : forall lin f, lin = start + addr - k \/ lin = start + addr + 4 - k -> f = f1 \/ f = f2 -> tables_apart (phys m) cr3 lin f) by (intros lin f; by apply (traced_second _ _ _ _ _ _ k)).
  assert (Hw : forall lin f v w, lin = start + addr - k \/ lin = start + addr + 4 - k -> maps (phys m) cr3 lin f -> maps (<[f2 := v]> (<[f1 + 4092 := w]> (phys m))) cr3 lin f).
  { intros lin f v w Hlin Hm. rewrite <-(Z.add_0_r f2). apply insert_maps; [apply insert_maps; [done|auto|lia]|apply insert_apart; [auto|auto|lia]|lia]. }
  eexists. split; [apply (write_across nr start cr3 addr k f1 f2 Hc A1 A2); [done|lia|done|done|auto]|]. split; [|rewrite (cr_off _ _ _ Hc); by apply cross_bytes; try apply (cr_k _ _ _ Hc)].
  rewrite (read_across nr start cr3 addr k f1 f2 Hc A1 A2); [|done|lia|apply Hw; auto|apply Hw; auto]. cbn [phys set_phys].
  assert (f1 + 4092 <> f2) by (pose proof (Z.div_mod f1 4096 ltac:(lia)); pose proof (Z.div_mod f2 4096 ltac:(lia)); lia).
  rewrite word_insert_eq, word_insert_ne, word_insert_eq by done. by rewrite (words_join k) by (apply (cr_k _ _ _ Hc) || done).
Qed.

(** C28: A word the tracer writes with [write_long] into the memory of its child is the
    word [read_long] finds there, at every address up to [TASK_SIZE - 4], aligned or
    not, in one page or across two, and no other byte of physical memory changes.
    [f1] and [f2] are the pages that hold its first and its last byte; the child may
    write to both, and neither holds the page tables. *)
Theorem poke_then_peek m nr start cr3 addr data f1 f2 : in_u32 data -> traced (phys m) start cr3 addr f1 f2 ->
  exists m', write_long no_page verify patience nr start cr3 addr data m = Ok 0 m' /\ read_long no_page patience nr start cr3 addr m' = Ok (inr data) m' /\
    only_bytes (phys_byte f1 f2 (addr mod 4096) <$> [0; 1; 2; 3]) (phys m) (phys m').
Proof using Hpt.
  intros Hd Ht. destruct (Z.lt_ge_cases 4092 (addr mod 4096)) as [Hoff|Hoff]; [by apply poke_across|]. destruct (tc_start _ _ _ _ _ _ Ht) as (Hs & Hsm & Hs32).
  destruct (poke_inside m nr start cr3 addr data f1) as (m' & Hw & Hr & Hb); [done|apply (tc_addr _ _ _ _ _ _ Ht)|done..|apply (tc_first _ _ _ _ _ _ Ht)|apply (tc_apart _ _ _ _ _ _ Ht); auto|].
  exists m'. do 2 (split; [done|]). cbn [fmap list_fmap]. unfold phys_byte. repeat match goal with |- context [?a <? 4096] => destruct (Z.ltb_spec a 4096); [|lia] end. by rewrite Z.add_0_r.
Qed.
End PtraceOk.

(** A child whose two pages 0x1000000 and 0x1001000 behind the directory at 0x2000 are
    at 0x9000 and 0x5000; the table is at 0x3000. *)
Definition demo_traced : mst := Mst 0x800000 [] {[ 0x2010 := 0x3007; 0x3000 := 0x9007; 0x3004 := 0x5007; 0x9ffc := 0x11223344; 0x5000 := 0x55667788 ]} None 0 None ∅ ∅ 0 0 [] 0 [] 0 [].

Lemma poke_then_peek_witness : exists m', write_long (fun _ _ => mret tt) (fun _ => mret tt) 1 2 0x1000000 0x2000 0xffe 0xdeadbeef demo_traced = Ok 0 m' /\ read_long (fun _ _ => mret tt) 1 2 0x1000000 0x2000 0xffe m' = Ok (inr 0xdeadbeef) m' /\
  only_bytes (phys_byte 0x9000 0x5000 (0xffe mod 4096) <$> [0; 1; 2; 3]) (phys demo_traced) (phys m').
Proof.
  apply (poke_then_peek (fun _ _ => mret tt) (fun _ => mret tt) 1 ltac:(lia) demo_traced 2 0x1000000 0x2000 0xffe 0xdeadbeef 0x9000 0x5000); [unfold in_u32; lia|].
  assert (Hmap : maps (phys demo_traced) 0x2000 (0x1000000 + 0xffe) 0x9000 /\ maps (phys demo_traced) 0x2000 (0x1000000 + 0xffe + 3) 0x5000) by (split; split; vm_compute; reflexivity). destruct Hmap.
  split; [vm_compute; split; discriminate|vm_compute; repeat split; discriminate|done|done|done|].
  assert (Hs : forall lin, lin = 0x1000000 + 0xffe \/ lin = 0x1000000 + 0xffe + 3 -> pde_slot 0x2000 lin = 0x2010 /\ 0x3000 <= pte_slot (phys demo_traced) 0x2000 lin < 0x4000) by (intros lin [-> | ->]; vm_compute; repeat split; discriminate).
  intros lin f Hlin Hf. destruct (Hs lin Hlin) as [E1 E2]. unfold tables_apart. rewrite E1. destruct Hf as [-> | ->]; lia.
Defined.
