(* ===== verification/Str.v ===== *)
(** * Strings: [include/string.h]

    The string functions are inline assembly over the string instructions of the
    processor.  The model has these instructions, on registers that are values, and the
    functions as the loops the assembly jumps through.

    Memory is a map from addresses to bytes; to read or write a byte that is not in it
    is a fault, so a theorem that a function returns also says that it stays inside the
    bytes it was given.  Registers are 32 bits wide and wrap around.  The flags are
    modelled where an instruction leaves them as they were: a string instruction with a
    repeat prefix and a count of 0 does nothing, and the jump behind it sees the flags of
    an earlier instruction. *)

From S2P Require Import Prelude.

Definition smem := gmap Z Z.

Definition ld (a : Z) : M smem Z := m ← getS; ofOpt (m !! a).
Definition st (a v : Z) : M smem unit := m ← getS; _ ← ofOpt (m !! a); modify (<[a := u8 v]>).

(** ** Instructions *)

Definition inc (r : Z) : Z := u32 (r + 1).
Definition dec (r : Z) : Z := u32 (r - 1).
Definition notl (r : Z) : Z := Z.lxor r 0xffffffff.
(** The sign flag of a result. *)
Definition js (r : Z) : bool := Z.testbit r 31.
(** [jl] after a comparison of two bytes: signed. *)
Definition s8 (b : Z) : Z := if b <? 128 then b else b - 256.
Definition jl (a b : Z) : bool := s8 a <? s8 b.

(** [lodsb]: the byte and the new [esi]. *)
Definition lodsb (esi : Z) : M smem (Z * Z) := al ← ld esi; mret (al, inc esi).
(** [stosb]: the new [edi]. *)
Definition stosb (al edi : Z) : M smem Z := st edi al;; mret (inc edi).

Section Str.
Context (patience : nat).

(** [repne scasb]: [edi], [ecx] and the zero flag behind it. *)
Definition scasb_step (al : Z) (r : Z * Z * bool) : M smem ((Z * Z * bool) + (Z * Z * bool)) :=
  let '(edi, ecx, zf) := r in
  if ecx =? 0 then mret (inr (edi, ecx, zf))
  else
    b ← ld edi;
    if al =? b then mret (inr (inc edi, dec ecx, true)) else mret (inl (inc edi, dec ecx, false)).
Definition repne_scasb (al edi ecx : Z) (zf : bool) : M smem (Z * Z * bool) := iter patience (scasb_step al) (edi, ecx, zf).

(** [repe cmpsb]: the new [ecx], the zero flag and what [jl] sees. *)
Definition cmpsb_step (r : Z * Z * Z * bool * bool) : M smem ((Z * Z * Z * bool * bool) + (Z * Z * Z * bool * bool)) :=
  let '(esi, edi, ecx, zf, lt) := r in
  if ecx =? 0 then mret (inr r)
  else
    a ← ld esi; b ← ld edi;
    let r' := (inc esi, inc edi, dec ecx, a =? b, jl a b) in
    if a =? b then mret (inl r') else mret (inr r').
Definition repe_cmpsb (esi edi ecx : Z) (zf lt : bool) : M smem (Z * Z * Z * bool * bool) := iter patience cmpsb_step (esi, edi, ecx, zf, lt).

(** [rep stosb] *)
Definition rep_stosb (al edi ecx : Z) : M smem unit :=
  iter patience (fun '(edi, ecx) => if ecx =? 0 then mret (inr tt) else e ← stosb al edi; mret (inl (e, dec ecx))) (edi, ecx).

(** [rep movsb], upwards after [cld] and downwards after [std]. *)
Definition movsb_step (step : Z -> Z) (r : Z * Z * Z) : M smem ((Z * Z * Z) + unit) :=
  let '(esi, edi, ecx) := r in
  if ecx =? 0 then mret (inr tt)
  else b ← ld esi; st edi b;; mret (inl (step esi, step edi, dec ecx)).
Definition rep_movsb (step : Z -> Z) (esi edi ecx : Z) : M smem unit := iter patience (movsb_step step) (esi, edi, ecx).

(** ** Copying *)

(** The loop [1: lodsb; stosb; testb %al,%al; jne 1b]; the new [edi]. *)
Definition copy_loop (esi edi : Z) : M smem Z :=
  iter patience (fun '(esi, edi) =>
    '(al, esi) ← lodsb esi; edi ← stosb al edi;
    mret (if al =? 0 then inr edi else inl (esi, edi))) (esi, edi).

(** [static inline char * strcpy(char * dest,const char *src)] *)
Definition strcpy (dest src : Z) : M smem Z := _ ← copy_loop src dest; mret dest.

(** The same loop with a count, in [ecx]: where it ends and whether by a zero byte. *)
Definition copy_n_step (r : Z * Z * Z) : M smem ((Z * Z * Z) + (Z * Z * bool)) :=
  let '(esi, edi, ecx) := r in
  let ecx := dec ecx in
  if js ecx then mret (inr (edi, ecx, false))
  else
    '(al, esi) ← lodsb esi; edi ← stosb al edi;
    mret (if al =? 0 then inr (edi, ecx, true) else inl (esi, edi, ecx)).
Definition copy_n_loop (esi edi ecx : Z) : M smem (Z * Z * bool) := iter patience copy_n_step (esi, edi, ecx).

(** [static inline char * strncpy(char * dest,const char *src,int count)] *)
Definition strncpy (dest src count : Z) : M smem Z :=
  '(edi, ecx, ended) ← copy_n_loop src dest (u32 count);
  (if (ended : bool) then rep_stosb 0 edi ecx else mret tt);;
  mret dest.

(** [static inline char * strcat(char * dest,const char * src)] *)
Definition strcat (dest src : Z) : M smem Z :=
  '(edi, _, _) ← repne_scasb 0 dest 0xffffffff false;
  _ ← copy_loop src (dec edi);
  mret dest.

(** [static inline char * strncat(char * dest,const char * src,int count)] *)
Definition strncat (dest src count : Z) : M smem Z :=
  '(edi, _, _) ← repne_scasb 0 dest 0xffffffff false;
  '(edi, _, _) ← copy_n_loop src (dec edi) (u32 count);
  _ ← stosb 0 edi;
  mret dest.

(** [static inline void * memcpy(void * dest,const void * src, int n)] *)
Definition memcpy (dest src n : Z) : M smem Z := rep_movsb inc src dest (u32 n);; mret dest.

(** [static inline void * memmove(void * dest,const void * src, int n)] *)
Definition memmove (dest src n : Z) : M smem Z :=
  (if dest <? src then rep_movsb inc src dest (u32 n) else rep_movsb dec (u32 (src + n - 1)) (u32 (dest + n - 1)) (u32 n));;
  mret dest.

(** [static inline void * memset(void * s,char c,int count)] *)
Definition memset (s c count : Z) : M smem Z := rep_stosb c s (u32 count);; mret s.

(** ** Comparing *)

(** [static inline int strcmp(const char * cs,const char * ct)]; [esi] is [ct] and [edi]
    is [cs]. *)
Definition strcmp_step (r : Z * Z) : M smem ((Z * Z) + Z) :=
  let '(esi, edi) := r in
  '(al, esi) ← lodsb esi; b ← ld edi;
  mret (if negb (al =? b) then inr (if jl al b then 1 else -1)
        else if al =? 0 then inr 0 else inl (esi, inc edi)).
Definition strcmp (cs ct : Z) : M smem Z := iter patience strcmp_step (ct, cs).

(** [static inline int strncmp(const char * cs,const char * ct,int count)] *)
Definition strncmp (cs ct count : Z) : M smem Z :=
  iter patience (fun '(esi, edi, ecx) =>
    let ecx := dec ecx in
    if js ecx then mret (inr 0)
    else
      '(al, esi) ← lodsb esi; b ← ld edi;
      mret (if negb (al =? b) then inr (if jl al b then 1 else -1)
            else if al =? 0 then inr 0 else inl (esi, inc edi, ecx))) (ct, cs, u32 count).

(** [static inline int memcmp(const void * cs,const void * ct,int count)]; [zf] and [lt]
    are the flags before the call.  [cmpsb] compares the byte at [esi], which is [ct],
    with that at [edi]. *)
Definition memcmp (zf lt : bool) (cs ct count : Z) : M smem Z :=
  '(_, _, _, zf, lt) ← repe_cmpsb ct cs (u32 count) zf lt;
  mret (if (zf : bool) then 0 else if (lt : bool) then 1 else -1).

(** ** Searching *)

(** [static inline int strlen(const char * s)] *)
Definition strlen (s : Z) : M smem Z :=
  '(_, ecx, _) ← repne_scasb 0 s 0xffffffff false;
  mret (s32 (dec (notl ecx))).

(** [static inline char * strchr(const char * s,char c)] *)
Definition strchr (s c : Z) : M smem Z :=
  iter patience (fun esi =>
    '(al, esi) ← lodsb esi;
    mret (if al =? u8 c then inr (dec esi) else if al =? 0 then inr (dec 1) else inl esi)) s.

(** [static inline char * strrchr(const char * s,char c)] *)
Definition strrchr (s c : Z) : M smem Z :=
  iter patience (fun '(esi, edx) =>
    '(al, esi) ← lodsb esi;
    let edx := if al =? u8 c then dec esi else edx in
    mret (if al =? 0 then inr edx else inl (esi, edx))) (s, 0).

(** The length of [ct] as the functions below take it. *)
Definition set_length (ct : Z) : M smem Z :=
  '(_, ecx, _) ← repne_scasb 0 ct 0xffffffff false;
  mret (dec (notl ecx)).

(** The loop of [strspn], [strcspn], [strpbrk] and [strtok]: load a byte, end at a zero
    byte, look for it in [ct], go on while the answer is [again]; [esi] behind it and
    whether it ended at the zero byte.  [testb %al,%al] has cleared the zero flag before
    the scan. *)
Definition span_step (again : bool) (ct edx esi : Z) : M smem (Z + (Z * bool)) :=
  '(al, esi) ← lodsb esi;
  if al =? 0 then mret (inr (esi, true))
  else
    '(_, _, zf) ← repne_scasb al ct edx false;
    mret (if Bool.eqb zf again then inl esi else inr (esi, false)).
Definition span_loop (again : bool) (ct edx esi : Z) : M smem (Z * bool) := iter patience (span_step again ct edx) esi.

(** [static inline int strspn(const char * cs, const char * ct)] *)
Definition strspn (cs ct : Z) : M smem Z :=
  edx ← set_length ct; '(esi, _) ← span_loop true ct edx cs; mret (s32 (dec esi - cs)).

(** [static inline int strcspn(const char * cs, const char * ct)] *)
Definition strcspn (cs ct : Z) : M smem Z :=
  edx ← set_length ct; '(esi, _) ← span_loop false ct edx cs; mret (s32 (dec esi - cs)).

(** [static inline char * strpbrk(const char * cs,const char * ct)] *)
Definition strpbrk (cs ct : Z) : M smem Z :=
  edx ← set_length ct; '(esi, ended) ← span_loop false ct edx cs; mret (if (ended : bool) then 0 else dec esi).

(** [static inline char * strstr(const char * cs,const char * ct)]; [decl %ecx] has set
    the zero flag if [ct] is empty, and in later rounds the count is not 0.  The search
    ends when the last byte compared was the zero byte of [cs]. *)
Definition strstr_step (ct edx : Z) (r : Z * bool) : M smem ((Z * bool) + Z) :=
  let '(esi, zf) := r in
  '(eax, _, _, zf, _) ← repe_cmpsb esi ct edx zf false;
  if (zf : bool) then mret (inr esi)
  else b ← ld (dec eax); mret (if b =? 0 then inr 0 else inl (inc esi, zf)).
Definition strstr (cs ct : Z) : M smem Z := edx ← set_length ct; iter patience (strstr_step ct edx) (cs, edx =? 0).

(** [static inline void * memchr(const void * cs,char c,int count)] *)
Definition memchr (cs c count : Z) : M smem Z :=
  if u32 count =? 0 then mret 0
  else
    '(edi, _, zf) ← repne_scasb (u8 c) cs (u32 count) false;
    mret (if (zf : bool) then dec edi else dec 1).

(** [static inline char * strtok(char * s,const char * ct)], from label 3: the end of
    the token that starts at [ebx]; the result and [___strtok]. *)
Definition token_end (ct edx ebx esi : Z) : M smem (Z * Z) :=
  '(esi, ended) ← span_loop false ct edx esi;
  esi ← (if (ended : bool) then mret 0
         else
           let esi := dec esi in
           b ← ld esi;
           if b =? 0 then mret 0 else st esi 0;; mret (inc esi));
  b ← ld ebx;
  mret (if b =? 0 then (0, 0) else (ebx, esi)).

(** [static inline char * strtok(char * s,const char * ct)]; [saved] is [___strtok], and
    the result has its new value. *)
Definition strtok (saved s ct : Z) : M smem (Z * Z) :=
  if (s =? 0) && (saved =? 0) then mret (0, 0)
  else
    let esi := if s =? 0 then saved else s in
    edx ← set_length ct;
    if edx =? 0 then mret (0, 0)
    else
      '(esi, ended) ← span_loop true ct edx esi;
      if (ended : bool) then mret (0, 0)
      else
        let esi := dec esi in
        b ← ld esi;
        if b =? 0 then mret (0, 0) else token_end ct edx esi esi.

End Str.
