(* ===== verification/StrOk.v ===== *)
(** * Theorems about the string functions *)

From S2P Require Import Prelude Str.

(** ** Bytes in memory *)

(** The bytes [l] are at [a], and the address behind them is one. *)
Record bytes_at (m : smem) (a : Z) (l : list Z) : Prop := {
  ba_low : 0 <= a;
  ba_high : a + Z.of_nat (length l) < 2 ^ 32;
  ba_byte : forall i b, l !! i = Some b -> m !! (a + Z.of_nat i) = Some b
}.
(** The string [l] is at [a]: its bytes are not 0, and a zero byte follows. *)
Definition str_at (m : smem) (a : Z) (l : list Z) : Prop := bytes_at m a (l ++ [0]) /\ 0 ∉ l.

Lemma bytes_cons m a b l : bytes_at m a (b :: l) -> m !! a = Some b /\ bytes_at m (a + 1) l.
Proof.
  intros [Hl Hh Hb]. cbn [length] in Hh. split; [rewrite <-(Hb 0%nat b eq_refl); f_equal; lia|]. split; [lia|lia|]. intros i c Hi. rewrite <-(Hb (S i) c Hi). f_equal. lia.
Qed.
Lemma bytes_app m a l1 l2 : bytes_at m a (l1 ++ l2) -> bytes_at m a l1 /\ bytes_at m (a + Z.of_nat (length l1)) l2.
Proof.
  intros [Hl Hh Hb]. rewrite length_app in Hh. split; (split; [lia|lia|]); intros i c Hi.
  - apply Hb. by apply lookup_app_l_Some.
  - rewrite <-(Hb (length l1 + i)%nat c); [f_equal; lia|]. by rewrite lookup_app_r, Nat.add_comm, Nat.add_sub by lia.
Qed.
Lemma bytes_join m a l1 l2 : bytes_at m a l1 -> bytes_at m (a + Z.of_nat (length l1)) l2 -> bytes_at m a (l1 ++ l2).
Proof.
  intros [Hl Hh Hb] [Hl2 Hh2 Hb2]. split; [lia|rewrite length_app; lia|]. intros i c Hi. apply lookup_app_Some in Hi as [Hi|[Hi1 Hi2]]; [by apply Hb|]. rewrite <-(Hb2 _ _ Hi2). f_equal. lia.
Qed.
Lemma bytes_same m m' a l : bytes_at m a l -> (forall x, a <= x < a + Z.of_nat (length l) -> m' !! x = m !! x) -> bytes_at m' a l.
Proof. intros [Hl Hh Hb] Hs. split; [done|done|]. intros i b Hi. rewrite Hs; [by apply Hb|]. apply lookup_lt_Some in Hi. lia. Qed.

Lemma put_other (m : smem) a v x b : x <> a -> m !! x = b -> <[a := v]> m !! x = b.
Proof. intros Hx <-. by apply lookup_insert_ne. Qed.
Lemma str_put m a l e v : str_at m a l -> ~ a <= e <= a + Z.of_nat (length l) -> str_at (<[e := v]> m) a l.
Proof. intros [Hb H0] He. split; [|done]. apply (bytes_same m); [done|]. intros x Hx. rewrite length_app in Hx. cbn [length] in Hx. apply put_other; [lia|done]. Qed.
Lemma str_tail m a l c r : str_at m a (l ++ c :: r) -> str_at m (a + Z.of_nat (length l) + 1) r.
Proof. intros [Hb H0]. split; [|rewrite not_elem_of_app, not_elem_of_cons in H0; tauto]. rewrite <-app_assoc in Hb. apply bytes_app in Hb as [_ Hb]. cbn [app] in Hb. by apply bytes_cons in Hb as [_ Hb]. Qed.
Lemma str_head m a l c r : str_at m a (l ++ c :: r) -> str_at (<[a + Z.of_nat (length l) := 0]> m) a l.
Proof.
  intros [Hb H0]. split; [|rewrite not_elem_of_app in H0; tauto]. pose proof (ba_high _ _ _ Hb) as Hh. rewrite !length_app in Hh. rewrite <-app_assoc in Hb. apply bytes_app in Hb as [Hb Hb2]. cbn [app] in *. apply bytes_join.
  - apply (bytes_same m); [done|]. intros x Hx. apply put_other; [lia|done].
  - pose proof (ba_low _ _ _ Hb). cbn [length] in Hh. split; [lia|cbn [length]; lia|]. intros [|i] b; [|done]. cbn. intros [= <-]. rewrite Z.add_0_r. apply lookup_insert_eq.
Qed.
Lemma str_same m m' a l : str_at m a l -> (forall x, a <= x <= a + Z.of_nat (length l) -> m' !! x = m !! x) -> str_at m' a l.
Proof. intros [Hb H0] Hs. split; [|done]. apply (bytes_same m); [done|]. intros x Hx. rewrite length_app in Hx. cbn [length] in Hx. apply Hs. lia. Qed.
Lemma str_drop m a l1 l2 : str_at m a (l1 ++ l2) -> str_at m (a + Z.of_nat (length l1)) l2.
Proof. intros [Hb H0]. split; [|rewrite not_elem_of_app in H0; tauto]. rewrite <-app_assoc in Hb. by apply bytes_app in Hb as [_ Hb]. Qed.

Lemma inc_small a : 0 <= a -> a + 1 < 2 ^ 32 -> inc a = a + 1.
Proof. intros. unfold inc. apply u32_small. unfold in_u32. lia. Qed.
Lemma dec_small a : 0 < a -> a <= 2 ^ 32 -> dec a = a - 1.
Proof. intros. unfold dec. apply u32_small. unfold in_u32. lia. Qed.
Lemma notl_sub x : in_u32 x -> notl x = 0xffffffff - x.
Proof.
  intros Hx. unfold notl. change 0xffffffff with (Z.ones 32). assert (Hb : forall i, 32 <= i -> Z.testbit x i = false) by (intros i Hi; rewrite <-(u32_small x Hx); unfold u32; by apply Z.mod_pow2_bits_high).
  rewrite Z.sub_nocarry_ldiff.
  - apply Z.bits_inj'. intros i Hi. rewrite Z.lxor_spec, Z.ldiff_spec. destruct (Z.lt_ge_cases i 32); [rewrite Z.ones_spec_low by lia; by destruct (Z.testbit x i)|]. by rewrite Z.ones_spec_high, Hb by lia.
  - apply Z.bits_inj'. intros i Hi. rewrite Z.ldiff_spec, Z.bits_0. destruct (Z.lt_ge_cases i 32); [rewrite Z.ones_spec_low by lia; apply andb_false_r|]. by rewrite Hb.
Qed.

Lemma ld_run m a b : m !! a = Some b -> ld a m = Ok b m.
Proof. intros H. unfold ld. rewrite (run_bind _ _ _ _ _ (eq_refl : getS m = Ok m m)). by rewrite H. Qed.
Lemma st_run m a v : is_Some (m !! a) -> st a v m = Ok tt (<[a := u8 v]> m).
Proof. intros [b H]. unfold st. rewrite (run_bind _ _ _ _ _ (eq_refl : getS m = Ok m m)), H. done. Qed.
Lemma lodsb_run m a b : 0 <= a -> a + 1 < 2 ^ 32 -> m !! a = Some b -> lodsb a m = Ok (b, a + 1) m.
Proof. intros Ha Hh H. unfold lodsb. rewrite (run_bind _ _ _ _ _ (ld_run m a b H)). by rewrite inc_small. Qed.
Lemma stosb_run m a v : 0 <= a -> a + 1 < 2 ^ 32 -> is_Some (m !! a) -> stosb v a m = Ok (a + 1) (<[a := u8 v]> m).
Proof. intros Ha Hh H. unfold stosb. rewrite (run_bind _ _ _ _ _ (st_run m a v H)). by rewrite inc_small. Qed.

(** One round of a loop that goes on, and one that ends. *)
Lemma iter_on {S A B} n (body : A -> M S (A + B)) x y s s' : body x s = Ok (inl y) s' -> iter (Datatypes.S n) body x s = iter n body y s'.
Proof. intros E. cbn [iter]. by rewrite (run_bind _ _ _ _ _ E). Qed.
Lemma iter_end {S A B} n (body : A -> M S (A + B)) x (y : B) s s' : body x s = Ok (inr y) s' -> iter (Datatypes.S n) body x s = Ok y s'.
Proof. intros E. cbn [iter]. by rewrite (run_bind _ _ _ _ _ E). Qed.

(** ** Scanning *)

Lemma scan_found c l r m : forall n a ecx zf, bytes_at m a (l ++ c :: r) -> c ∉ l -> Z.of_nat (length l) < ecx < 2 ^ 32 -> (length l < n)%nat ->
  iter n (scasb_step c) (a, ecx, zf) m = Ok (a + Z.of_nat (length l) + 1, ecx - Z.of_nat (length l) - 1, true) m.
Proof.
  induction l as [|b l IH]; intros n a ecx zf Hb Hc He Hn; (destruct n as [|n]; [cbn [length] in *; lia|]); cbn [length app] in *; destruct (bytes_cons _ _ _ _ Hb) as [H0 Hb']; pose proof (ba_low _ _ _ Hb); pose proof (ba_high _ _ _ Hb') as Hh; rewrite ?length_app in Hh.
  - apply iter_end. unfold scasb_step. destruct (Z.eqb_spec ecx 0); [lia|]. rewrite (run_bind _ _ _ _ _ (ld_run _ _ _ H0)), Z.eqb_refl. rewrite inc_small, dec_small by lia. by rewrite Z.add_0_r, Z.sub_0_r.
  - apply not_elem_of_cons in Hc as [Hcb Hc]. rewrite (iter_on _ _ _ (a + 1, ecx - 1, false) _ m); [rewrite IH by (done || lia); by replace (a + 1 + Z.of_nat (length l) + 1) with (a + Z.of_nat (S (length l)) + 1) by lia; replace (ecx - 1 - Z.of_nat (length l) - 1) with (ecx - Z.of_nat (S (length l)) - 1) by lia|].
    unfold scasb_step. destruct (Z.eqb_spec ecx 0); [lia|]. rewrite (run_bind _ _ _ _ _ (ld_run _ _ _ H0)). destruct (Z.eqb_spec c b); [done|]. by rewrite inc_small, dec_small by lia.
Qed.

Lemma scan_none c l m : forall n a zf, bytes_at m a l -> c ∉ l -> (length l < n)%nat ->
  exists edi, iter n (scasb_step c) (a, Z.of_nat (length l), zf) m = Ok (edi, 0, match l with [] => zf | _ => false end) m.
Proof.
  induction l as [|b l IH]; intros n a zf Hb Hc Hn; (destruct n as [|n]; [cbn [length] in *; lia|]); cbn [length] in *; [eexists; by apply iter_end|].
  destruct (bytes_cons _ _ _ _ Hb) as [H0 Hb']. pose proof (ba_low _ _ _ Hb). pose proof (ba_high _ _ _ Hb'). apply not_elem_of_cons in Hc as [Hcb Hc]. destruct (IH n (a + 1) false) as [edi E]; [done|done|lia|]. exists edi.
  rewrite (iter_on _ _ _ (a + 1, Z.of_nat (length l), false) _ m); [rewrite E; by destruct l|]. unfold scasb_step. destruct (Z.eqb_spec (Z.of_nat (S (length l))) 0); [lia|]. rewrite (run_bind _ _ _ _ _ (ld_run _ _ _ H0)). destruct (Z.eqb_spec c b); [done|]. rewrite inc_small, dec_small by lia. by replace (Z.of_nat (S (length l)) - 1) with (Z.of_nat (length l)) by lia.
Qed.

(** A byte is looked for in a set: only whether it is there matters. *)
Lemma scan_set c l m n a : bytes_at m a l -> (length l < n)%nat -> exists edi ecx, repne_scasb n c a (Z.of_nat (length l)) false m = Ok (edi, ecx, bool_decide (c ∈ l)) m.
Proof.
  intros Hb Hn. unfold repne_scasb. destruct (decide (c ∈ l)) as [Hc|Hc].
  - rewrite (bool_decide_eq_true_2 _ Hc). apply list_elem_of_split_l in Hc as (l1 & l2 & -> & H1). pose proof (ba_high _ _ _ Hb). pose proof (ba_low _ _ _ Hb). rewrite length_app in *. cbn [length] in *. eexists _, _. apply (scan_found c l1 l2); [done|done|lia|lia].
  - rewrite (bool_decide_eq_false_2 _ Hc). destruct (scan_none c l m n a false Hb Hc Hn) as [edi E]. exists edi, 0. rewrite E. by destruct l.
Qed.

Lemma scan_zero m a l n : str_at m a l -> (length l < n)%nat -> repne_scasb n 0 a 0xffffffff false m = Ok (a + Z.of_nat (length l) + 1, 0xffffffff - Z.of_nat (length l) - 1, true) m.
Proof. intros [Hb H0] Hn. pose proof (ba_high _ _ _ Hb) as Hh. pose proof (ba_low _ _ _ Hb). rewrite length_app in Hh. cbn [length] in Hh. unfold repne_scasb. apply (scan_found 0 l []); [done|done|lia|done]. Qed.

Lemma set_length_run m a l n : str_at m a l -> (length l < n)%nat -> set_length n a m = Ok (Z.of_nat (length l)) m.
Proof.
  intros Hs Hn. unfold set_length. rewrite (run_bind _ _ _ _ _ (scan_zero m a l n Hs Hn)). cbn beta iota. destruct Hs as [Hb _]. pose proof (ba_high _ _ _ Hb) as Hh. pose proof (ba_low _ _ _ Hb). rewrite length_app in Hh. cbn [length] in Hh.
  rewrite notl_sub by (unfold in_u32; lia). rewrite dec_small by lia. unfold mret, M_ret. f_equal. lia.
Qed.

(** ** Spans *)

Section Span.
Context (m : smem) (ct : Z) (d : list Z) (patience : nat) (Hd : bytes_at m ct d) (Hp : (length d < patience)%nat).

(** Whether the span goes on at [b]. *)
Definition goes_on (again : bool) (b : Z) : Prop := Bool.eqb (bool_decide (b ∈ d)) again = true.

Lemma span_on again a b : 0 <= a -> a + 1 < 2 ^ 32 -> m !! a = Some b -> b <> 0 -> span_step patience again ct (Z.of_nat (length d)) a m = Ok (if Bool.eqb (bool_decide (b ∈ d)) again then inl (a + 1) else inr (a + 1, false)) m.
Proof using Hd Hp.
  intros Ha Hh Hm Hb. unfold span_step. rewrite (run_bind _ _ _ _ _ (lodsb_run m a b Ha Hh Hm)). cbn beta iota. destruct (Z.eqb_spec b 0); [done|]. destruct (scan_set b d m patience ct Hd Hp) as (edi & ecx & E). by rewrite (run_bind _ _ _ _ _ E).
Qed.

(** The bytes of the span are passed. *)
Lemma span_pass again l r : forall n a, bytes_at m a (l ++ r) -> 0 ∉ l -> Forall (goes_on again) l -> (length l < n)%nat ->
  exists k, (k >= n - length l)%nat /\ iter n (span_step patience again ct (Z.of_nat (length d))) a m = iter k (span_step patience again ct (Z.of_nat (length d))) (a + Z.of_nat (length l)) m.
Proof using Hd Hp.
  induction l as [|b l IH]; intros n a Hb H0 Hg Hn; cbn [length app] in *; [exists n; split; [lia|by rewrite Z.add_0_r]|].
  destruct n as [|n]; [lia|]. destruct (bytes_cons _ _ _ _ Hb) as [Hm Hb']. pose proof (ba_low _ _ _ Hb). pose proof (ba_high _ _ _ Hb'). apply not_elem_of_cons in H0 as [Hb0 H0]. apply Forall_cons in Hg as [Hg1 Hg].
  rewrite (iter_on _ _ _ (a + 1) _ m); [|rewrite (span_on again a b) by (done || lia || congruence); by rewrite Hg1]. destruct (IH n (a + 1) Hb' H0 Hg) as (k & Hk & E); [lia|]. exists k. split; [lia|]. rewrite E. by replace (a + 1 + Z.of_nat (length l)) with (a + Z.of_nat (S (length l))) by lia.
Qed.

(** The span ends at a byte [b]. *)
Lemma span_stop again l b r a : bytes_at m a (l ++ b :: r) -> 0 ∉ l -> Forall (goes_on again) l -> b <> 0 -> ~ goes_on again b -> (length l < patience)%nat ->
  span_loop patience again ct (Z.of_nat (length d)) a m = Ok (a + Z.of_nat (length l) + 1, false) m.
Proof using Hd Hp.
  intros Hb H0 Hg Hb0 Hn Hl. unfold span_loop. destruct (span_pass again l (b :: r) patience a Hb H0 Hg Hl) as (k & Hk & ->). destruct k as [|k]; [lia|]. apply bytes_app in Hb as [_ Hb]. destruct (bytes_cons _ _ _ _ Hb) as [Hm Hb']. pose proof (ba_low _ _ _ Hb). pose proof (ba_high _ _ _ Hb').
  apply iter_end. rewrite (span_on again _ b) by (done || lia). unfold goes_on in Hn. by destruct (Bool.eqb (bool_decide (b ∈ d)) again).
Qed.

(** The span goes to the end of the string. *)
Lemma span_end again l a : str_at m a l -> Forall (goes_on again) l -> (length l < patience)%nat ->
  span_loop patience again ct (Z.of_nat (length d)) a m = Ok (a + Z.of_nat (length l) + 1, true) m.
Proof using Hd Hp.
  intros [Hb H0] Hg Hl. unfold span_loop. destruct (span_pass again l [0] patience a Hb H0 Hg Hl) as (k & Hk & ->). destruct k as [|k]; [lia|]. apply bytes_app in Hb as [_ Hb]. destruct (bytes_cons _ _ _ _ Hb) as [Hm Hb']. pose proof (ba_low _ _ _ Hb). pose proof (ba_high _ _ _ Hb') as Hh. cbn [length] in Hh.
  apply iter_end. unfold span_step. by rewrite (run_bind _ _ _ _ _ (lodsb_run m (a + Z.of_nat (length l)) 0 ltac:(lia) ltac:(lia) Hm)).
Qed.
End Span.

(** A list is a span and the rest behind it. *)
Lemma span_split (P : Z -> Prop) `{forall b, Decision (P b)} (l : list Z) : exists l1 l2, l = l1 ++ l2 /\ Forall P l1 /\ (forall b r, l2 = b :: r -> ~ P b).
Proof.
  induction l as [|b l (l1 & l2 & -> & H1 & H2)]; [by exists [], []|]. destruct (decide (P b)); [by exists (b :: l1), l2; repeat split; [constructor|]|exists [], (b :: l1 ++ l2)]. do 2 (split; [done|]). by intros c r [= <- <-].
Qed.

(** ** Tokens *)

(** The words of [l] between bytes of [d]; [acc] is the word that has begun. *)
Fixpoint tokens (d acc l : list Z) : list (list Z) :=
  match l with
  | [] => match acc with [] => [] | _ => [acc] end
  | b :: l' =>
      if bool_decide (b ∈ d) then match acc with [] => tokens d [] l' | _ => acc :: tokens d [] l' end
      else tokens d (acc ++ [b]) l'
  end.

Lemma tokens_skip d pre l : Forall (.∈ d) pre -> tokens d [] (pre ++ l) = tokens d [] l.
Proof. induction 1 as [|b pre Hb _ IH]; [done|]. cbn [app tokens]. by rewrite bool_decide_eq_true_2. Qed.
Lemma tokens_word d t l : Forall (.∉ d) t -> forall acc, tokens d acc (t ++ l) = tokens d (acc ++ t) l.
Proof. induction 1 as [|b t Hb _ IH]; intros acc; [by rewrite app_nil_r|]. cbn [app tokens]. rewrite bool_decide_eq_false_2 by done. by rewrite IH, <-app_assoc. Qed.

Section Strtok.
Context (patience : nat).

(** [for (q = strtok(s, ct); q; q = strtok(NULL, ct))]: the pointers [q]. *)
Fixpoint all_tokens (n : nat) (saved s ct : Z) : M smem (list Z) :=
  match n with
  | O => halts Hang
  | S n' =>
      '(q, saved) ← strtok patience saved s ct;
      if q =? 0 then mret [] else qs ← all_tokens n' saved 0 ct; mret (q :: qs)
  end.

(** What follows once the start has been chosen. *)
Definition strtok_at (ct esi : Z) : M smem (Z * Z) :=
  edx ← set_length patience ct;
  if edx =? 0 then mret (0, 0)
  else
    '(esi, ended) ← span_loop patience true ct edx esi;
    if (ended : bool) then mret (0, 0)
    else let esi := dec esi in b ← ld esi; if b =? 0 then mret (0, 0) else token_end patience ct edx esi esi.

Lemma strtok_start saved s ct m : s <> 0 \/ saved <> 0 -> strtok patience saved s ct m = strtok_at ct (if s =? 0 then saved else s) m.
Proof using. intros Hs. unfold strtok. destruct (Z.eqb_spec s 0), (Z.eqb_spec saved 0); (lia || done). Qed.

Context (d : list Z) (ct : Z) (Hd : d <> []) (Hdp : (length d < patience)%nat).

Lemma goes_in b : goes_on d true b <-> b ∈ d.
Proof using. unfold goes_on. by case_bool_decide. Qed.
Lemma goes_out b : goes_on d false b <-> b ∉ d.
Proof using. unfold goes_on. by case_bool_decide. Qed.
Lemma all_in l : Forall (.∈ d) l -> Forall (goes_on d true) l.
Proof using. intros Hl. apply (Forall_impl _ _ _ Hl). intros b. apply goes_in. Qed.
Lemma all_out l : Forall (.∉ d) l -> Forall (goes_on d false) l.
Proof using. intros Hl. apply (Forall_impl _ _ _ Hl). intros b. apply goes_out. Qed.

Lemma strtok_none m p l : str_at m ct d -> str_at m p l -> Forall (.∈ d) l -> (length l < patience)%nat -> strtok_at ct p m = Ok (0, 0) m.
Proof using Hd Hdp.
  intros Hct Hs Hl Hn. unfold strtok_at. rewrite (run_bind _ _ _ _ _ (set_length_run m ct d patience Hct Hdp)). destruct (Z.eqb_spec (Z.of_nat (length d)) 0); [done|]. destruct Hct as [Hct _]. apply bytes_app in Hct as [Hct _].
  by rewrite (run_bind _ _ _ _ _ (span_end m ct d patience Hct Hdp true l p Hs (all_in l Hl) Hn)).
Qed.

Lemma strtok_reach m p pre b r : str_at m ct d -> str_at m p (pre ++ b :: r) -> Forall (.∈ d) pre -> b ∉ d -> (length (pre ++ b :: r) < patience)%nat ->
  strtok_at ct p m = token_end patience ct (Z.of_nat (length d)) (p + Z.of_nat (length pre)) (p + Z.of_nat (length pre)) m.
Proof using Hd Hdp.
  intros Hct [Hs H0] Hp Hb Hn. unfold strtok_at. rewrite (run_bind _ _ _ _ _ (set_length_run m ct d patience Hct Hdp)). destruct (Z.eqb_spec (Z.of_nat (length d)) 0); [destruct d; [done|cbn [length] in *; lia]|]. destruct Hct as [Hct _]. apply bytes_app in Hct as [Hct _].
  rewrite <-app_assoc in Hs. cbn [app] in Hs. rewrite not_elem_of_app, not_elem_of_cons in H0. destruct H0 as (H0 & Hb0 & H0r). rewrite length_app in Hn.
  rewrite (run_bind _ _ _ _ _ (span_stop m ct d patience Hct Hdp true pre b (r ++ [0]) p Hs H0 (all_in pre Hp) (not_eq_sym Hb0) ltac:(by rewrite goes_in) ltac:(lia))). cbn beta iota zeta.
  pose proof (ba_low _ _ _ Hs) as Hl. pose proof (ba_high _ _ _ Hs) as Hh. rewrite length_app in Hh. apply bytes_app in Hs as [_ Hs]. apply bytes_cons in Hs as [Hm _].
  rewrite dec_small by lia. rewrite Z.add_simpl_r. rewrite (run_bind _ _ _ _ _ (ld_run _ _ _ Hm)). by destruct (Z.eqb_spec b 0).
Qed.

(** The end of a word that is the last. *)
Lemma token_last m q b t : str_at m ct d -> str_at m q (b :: t) -> Forall (.∉ d) (b :: t) -> (length (b :: t) < patience)%nat -> token_end patience ct (Z.of_nat (length d)) q q m = Ok (q, 0) m.
Proof using Hdp.
  intros [Hct _] Hs Ht Hn. apply bytes_app in Hct as [Hct _]. unfold token_end. rewrite (run_bind _ _ _ _ _ (span_end m ct d patience Hct Hdp false (b :: t) q Hs (all_out _ Ht) Hn)). destruct Hs as [Hs H0]. cbn [app] in Hs. apply bytes_cons in Hs as [Hm _]. apply not_elem_of_cons in H0 as [Hb0 _].
  rewrite (run_bind _ _ _ 0 m eq_refl), (run_bind _ _ _ _ _ (ld_run _ _ _ Hm)). by destruct (Z.eqb_spec b 0); [congruence|].
Qed.

(** The end of a word with a separator behind it. *)
Lemma token_more m q b t c r : str_at m ct d -> str_at m q (b :: t ++ c :: r) -> Forall (.∉ d) (b :: t) -> c ∈ d -> (length (b :: t) < patience)%nat ->
  token_end patience ct (Z.of_nat (length d)) q q m = Ok (q, q + Z.of_nat (length (b :: t)) + 1) (<[q + Z.of_nat (length (b :: t)) := 0]> m).
Proof using Hdp.
  intros [Hct _] [Hs H0] Ht Hc Hn. apply bytes_app in Hct as [Hct _]. set (w := b :: t) in *. replace ((b :: t ++ c :: r) ++ [0]) with (w ++ c :: (r ++ [0])) in Hs by (unfold w; cbn [app]; by rewrite <-app_assoc). change (b :: t ++ c :: r) with (w ++ c :: r) in H0. rewrite not_elem_of_app, not_elem_of_cons in H0. destruct H0 as (H0 & Hc0 & _).
  unfold token_end. rewrite (run_bind _ _ _ _ _ (span_stop m ct d patience Hct Hdp false w c (r ++ [0]) q Hs H0 (all_out _ Ht) (not_eq_sym Hc0) ltac:(rewrite goes_out; tauto) Hn)). cbn beta iota zeta.
  pose proof (ba_low _ _ _ Hs) as Hl. pose proof (ba_high _ _ _ Hs) as Hh. rewrite length_app in Hh. cbn [length] in Hh. rewrite length_app in Hh. assert (Hm : m !! q = Some b) by (by apply bytes_cons in Hs as [? _]). apply bytes_app in Hs as [_ Hs]. apply bytes_cons in Hs as [Hmc _].
  rewrite dec_small by lia. rewrite Z.add_simpl_r. set (e := q + Z.of_nat (length w)) in *. assert (Hqe : q <> e) by (unfold e, w; cbn [length]; lia).
  rewrite (run_bind _ _ _ (e + 1) (<[e := 0]> m)); [|rewrite (run_bind _ _ _ _ _ (ld_run _ _ _ Hmc)); destruct (Z.eqb_spec c 0); [congruence|]; rewrite (run_bind _ _ _ _ _ (st_run m e 0 (ltac:(by eexists)))); by rewrite inc_small by lia].
  rewrite (run_bind _ _ _ b (<[e := 0]> m)); [|apply ld_run; by apply put_other]. apply not_elem_of_cons in H0 as [Hb0 _]. by destruct (Z.eqb_spec b 0); [congruence|].
Qed.

(** The strings at [p] and [ct] do not overlap. *)
Definition apart (p : Z) (l : list Z) : Prop := p + Z.of_nat (length l) < ct \/ ct + Z.of_nat (length d) < p.

Lemma all_tokens_run k : forall l m n saved s p, (length l <= k)%nat -> p = (if s =? 0 then saved else s) -> 0 < p -> str_at m ct d -> str_at m p l -> apart p l -> (length l < patience)%nat -> (length l < n)%nat ->
  exists qs m', all_tokens n saved s ct m = Ok qs m' /\ Forall2 (str_at m') qs (tokens d [] l) /\ (forall x, ~ p <= x < p + Z.of_nat (length l) -> m' !! x = m !! x).
Proof using Hd Hdp.
  induction k as [k IH] using lt_wf_ind. intros l m n saved s p Hk Hps Hp Hct Hs Hap Hl Hn. destruct n as [|n]; [lia|]. assert (Hst : s <> 0 \/ saved <> 0) by (destruct (Z.eqb_spec s 0); lia). cbn [all_tokens].
  destruct (span_split (.∈ d) l) as (pre & rest & -> & Hpre & Hrest). rewrite length_app in Hk, Hl, Hn. unfold apart in Hap. rewrite length_app in Hap. rewrite tokens_skip by done. destruct rest as [|b rest].
  { exists [], m. rewrite app_nil_r in Hs. rewrite (run_bind _ _ _ (0, 0) m); [done|]. rewrite strtok_start, <-Hps by done. apply (strtok_none m p pre); [done|done|done|lia]. }
  specialize (Hrest b rest eq_refl). pose proof (str_drop _ _ _ _ Hs) as Hw. set (q := p + Z.of_nat (length pre)) in *. pose proof (ba_high _ _ _ (proj1 Hs)) as Hh. rewrite !length_app in Hh.
  assert (Hgo : strtok patience saved s ct m = token_end patience ct (Z.of_nat (length d)) q q m) by (rewrite strtok_start, <-Hps by done; apply (strtok_reach m p pre b rest); [done..|rewrite length_app; lia]).
  destruct (span_split (.∉ d) rest) as (t & r & -> & Ht & Hr). assert (Hbt : Forall (.∉ d) (b :: t)) by (by constructor). change (b :: t ++ r) with ((b :: t) ++ r). rewrite tokens_word by done. cbn [app]. destruct r as [|c r].
  - rewrite app_nil_r in *. exists [q], m. rewrite (run_bind _ _ _ (q, 0) m); [|rewrite Hgo; apply (token_last m q b t); [done|done|done|cbn [length] in *; lia]]. cbn beta iota. destruct (Z.eqb_spec q 0); [lia|]. cbn [length] in *. destruct n as [|n]; [lia|]. split; [done|]. split; [constructor; [done|constructor]|done].
  - assert (Hc : c ∈ d) by (destruct (decide (c ∈ d)); [done|by destruct (Hr c r eq_refl)]). change (b :: t ++ c :: r) with ((b :: t) ++ c :: r) in *. rewrite length_app in *. set (w := b :: t) in *. set (e := q + Z.of_nat (length w)). set (m1 := <[e := 0]> m). cbn [length] in *.
    destruct (IH (length r) ltac:(lia) r m1 n (e + 1) 0 (e + 1)) as (qs & m' & Hrun & Hf & Hsame); [done|done|lia|apply str_put; [done|lia]|apply str_put; [by apply (str_tail m q w c r)|lia]|unfold apart; lia|lia|lia|].
    exists (q :: qs), m'. rewrite (run_bind _ _ _ (q, e + 1) m1); [|rewrite Hgo; apply (token_more m q b t c r); [done|done|done|done|unfold w in *; lia]]. cbn beta iota. destruct (Z.eqb_spec q 0); [lia|]. rewrite (run_bind _ _ _ _ _ Hrun). split; [done|]. split.
    + replace (tokens d w (c :: r)) with (w :: tokens d [] r) by (cbn [tokens]; by rewrite bool_decide_eq_true_2). constructor; [|done]. apply (str_same m1); [by apply (str_head m q w c r)|]. intros x Hx. apply Hsame. lia.
    + intros x Hx. rewrite !length_app in Hx. cbn [length] in Hx. rewrite Hsame by lia. apply put_other; [lia|done].
Qed.
End Strtok.

(** C17: Calling [strtok] on a string until it returns [NULL] gives exactly the words
    between separators, in order, each in its place and ended by a zero byte; the calls
    end, read and write no byte outside the two strings, and change bytes of the first
    only. *)
Theorem strtok_tokens patience n m s l ct d saved : str_at m s l -> str_at m ct d -> d <> [] -> 0 < s -> apart d ct s l -> (length l < patience)%nat -> (length d < patience)%nat -> (length l < n)%nat ->
  exists qs m', all_tokens patience n saved s ct m = Ok qs m' /\ Forall2 (str_at m') qs (tokens d [] l) /\ (forall x, ~ s <= x < s + Z.of_nat (length l) -> m' !! x = m !! x).
Proof.
  intros Hs Hct Hd H0 Hap Hl Hdp Hn. apply (all_tokens_run patience d ct Hd Hdp (length l) l m n saved s s); try done. by destruct (Z.eqb_spec s 0); [lia|].
Qed.

(** The map of a list of bytes at [a]. *)
Fixpoint bytes_map (a : Z) (l : list Z) : smem := match l with [] => ∅ | b :: l' => <[a := b]> (bytes_map (a + 1) l') end.
Definition text (s : string) : list Z := (fun c => Z.of_nat (Ascii.nat_of_ascii c)) <$> String.list_ascii_of_string s.
Lemma bytes_map_u8 l : Forall in_u8 l -> forall a x b, bytes_map a l !! x = Some b -> in_u8 b.
Proof.
  induction 1 as [|c l Hc _ IH]; intros a x b Hx; [done|]. cbn [bytes_map] in Hx. destruct (Z.eq_dec x a) as [->|Hne]; [rewrite (lookup_insert_eq (bytes_map (a + 1) l) a c) in Hx; congruence|].
  rewrite (put_other (bytes_map (a + 1) l) a c x _ Hne eq_refl) in Hx. by apply IH in Hx.
Qed.
Definition demo_text : smem := bytes_map 100 (text "a, b" ++ [0]) ∪ bytes_map 200 (text " ," ++ [0]).

Ltac bytes_at_closed := split; [lia|cbn; lia|]; intros i b Hi; repeat (destruct i as [|i]; [cbn in Hi; injection Hi as <-; vm_compute; reflexivity|]); cbn in Hi; discriminate.
Ltac str_at_closed := split; [bytes_at_closed|apply (bool_decide_unpack _); vm_compute; exact I].

Lemma strtok_tokens_witness : exists qs m', all_tokens 10 10 0 100 200 demo_text = Ok qs m' /\ Forall2 (str_at m') qs (tokens (text " ,") [] (text "a, b")) /\ (forall x, ~ 100 <= x < 100 + Z.of_nat (length (text "a, b")) -> m' !! x = demo_text !! x).
Proof.
  apply (strtok_tokens 10 10 demo_text 100 (text "a, b") 200 (text " ,") 0); [str_at_closed|str_at_closed|discriminate|lia|left; vm_compute; reflexivity|vm_compute; lia|vm_compute; lia|vm_compute; lia].
Defined.

(** ** Moving bytes *)

(** One byte is moved: what [movsb] reads was not yet written. *)
Lemma movsb_run step m' i j ecx b : 0 < ecx < 2 ^ 32 -> m' !! i = Some b -> is_Some (m' !! j) -> in_u8 b -> movsb_step step (i, j, ecx) m' = Ok (inl (step i, step j, ecx - 1)) (<[j := b]> m').
Proof.
  intros He Hi Hj Hb. unfold movsb_step. destruct (Z.eqb_spec ecx 0); [lia|]. rewrite (run_bind _ _ _ _ _ (ld_run _ _ _ Hi)), (run_bind _ _ _ _ _ (st_run _ _ _ Hj)). by rewrite u8_small, dec_small by (done || lia).
Qed.

Section Memmove.
Context (m : smem) (dest src : Z) (n : nat).
Context (Hsrc : forall i, (i < n)%nat -> is_Some (m !! (src + Z.of_nat i))) (Hdest : forall i, (i < n)%nat -> is_Some (m !! (dest + Z.of_nat i))).
Context (H0 : 0 <= dest /\ dest + Z.of_nat n < 2 ^ 32) (H1 : 0 <= src /\ src + Z.of_nat n < 2 ^ 32) (Hbyte : forall a b, m !! a = Some b -> in_u8 b).

(** The first [k] bytes have been moved, from the front or from the back. *)
Definition front (k : Z) (m' : smem) : Prop := forall a, m' !! a = if (dest <=? a) && (a <? dest + k) then m !! (src + (a - dest)) else m !! a.
Definition back (k : Z) (m' : smem) : Prop := forall a, m' !! a = if (dest + Z.of_nat n - k <=? a) && (a <? dest + Z.of_nat n) then m !! (src + (a - dest)) else m !! a.

Ltac cases := repeat match goal with |- context [?a <=? ?b] => destruct (Z.leb_spec a b) | |- context [?a <? ?b] => destruct (Z.ltb_spec a b) end; cbn [andb].

Lemma move_up k p : dest <= src -> forall m', (k <= n)%nat -> (k < p)%nat -> front (Z.of_nat (n - k)) m' ->
  exists m2, iter p (movsb_step inc) (src + Z.of_nat (n - k), dest + Z.of_nat (n - k), Z.of_nat k) m' = Ok tt m2 /\ front (Z.of_nat n) m2.
Proof using Hsrc Hdest H0 H1 Hbyte.
  intros Hle. revert p. induction k as [|k IH]; intros p m' Hk Hp Hf; (destruct p as [|p]; [lia|]); [exists m'; split; [by apply iter_end|by rewrite Nat.sub_0_r in Hf]|].
  set (j := (n - S k)%nat) in *. assert (Hj : (j < n)%nat) by lia. destruct (Hsrc j Hj) as [b Hb].
  assert (Hbs : m' !! (src + Z.of_nat j) = Some b) by (rewrite (Hf (src + Z.of_nat j)); cases; try done; lia).
  assert (Hbd : is_Some (m' !! (dest + Z.of_nat j))) by (rewrite (Hf (dest + Z.of_nat j)); cases; try apply (Hdest j Hj); lia).
  rewrite (iter_on _ _ _ (src + Z.of_nat (n - k), dest + Z.of_nat (n - k), Z.of_nat k) _ (<[dest + Z.of_nat j := b]> m')).
  - apply IH; [lia|lia|]. intros a. destruct (Z.eq_dec a (dest + Z.of_nat j)) as [->|Ha].
    + rewrite (lookup_insert_eq m' (dest + Z.of_nat j) b). cases; try lia. rewrite <-Hb. f_equal. lia.
    + rewrite (put_other m' _ b a (m' !! a) Ha eq_refl), (Hf a). cases; try done; lia.
  - rewrite (movsb_run inc m' _ _ _ b) by (done || lia || by apply (Hbyte (src + Z.of_nat j))). rewrite !inc_small by lia. replace (src + Z.of_nat j + 1) with (src + Z.of_nat (n - k)) by lia. replace (dest + Z.of_nat j + 1) with (dest + Z.of_nat (n - k)) by lia. by replace (Z.of_nat (S k) - 1) with (Z.of_nat k) by lia.
Qed.

Lemma move_down k p : src <= dest -> forall m' s d, (k <= n)%nat -> (k < p)%nat -> s = u32 (src + Z.of_nat k - 1) -> d = u32 (dest + Z.of_nat k - 1) -> back (Z.of_nat (n - k)) m' ->
  exists m2, iter p (movsb_step dec) (s, d, Z.of_nat k) m' = Ok tt m2 /\ back (Z.of_nat n) m2.
Proof using Hsrc Hdest H0 H1 Hbyte.
  intros Hle. revert p. induction k as [|k IH]; intros p m' s d Hk Hp Hs Hd Hf; (destruct p as [|p]; [lia|]); [exists m'; split; [by apply iter_end|by rewrite Nat.sub_0_r in Hf]|].
  rewrite u32_small in Hs, Hd by (unfold in_u32; lia). replace (src + Z.of_nat (S k) - 1) with (src + Z.of_nat k) in Hs by lia. replace (dest + Z.of_nat (S k) - 1) with (dest + Z.of_nat k) in Hd by lia. subst s d. destruct (Hsrc k Hk) as [b Hb].
  assert (Hbs : m' !! (src + Z.of_nat k) = Some b) by (rewrite (Hf (src + Z.of_nat k)); cases; try done; lia).
  assert (Hbd : is_Some (m' !! (dest + Z.of_nat k))) by (rewrite (Hf (dest + Z.of_nat k)); cases; try apply (Hdest k Hk); lia).
  rewrite (iter_on _ _ _ (dec (src + Z.of_nat k), dec (dest + Z.of_nat k), Z.of_nat k) _ (<[dest + Z.of_nat k := b]> m')).
  - apply IH; [lia|lia|done|done|]. intros a. destruct (Z.eq_dec a (dest + Z.of_nat k)) as [->|Ha].
    + rewrite (lookup_insert_eq m' (dest + Z.of_nat k) b). cases; try lia. rewrite <-Hb. f_equal. lia.
    + rewrite (put_other m' _ b a (m' !! a) Ha eq_refl), (Hf a). cases; try done; lia.
  - rewrite (movsb_run dec m' _ _ _ b) by (done || lia || by apply (Hbyte (src + Z.of_nat k))). by replace (Z.of_nat (S k) - 1) with (Z.of_nat k) by lia.
Qed.
End Memmove.

(** [memmove] returns [dest] and leaves there the bytes that were at [src] before the
    call, however the two areas overlap; it changes no other byte and touches none
    outside them. *)
Theorem memmove_correct patience m dest src l : bytes_at m src l -> Forall in_u8 l -> (forall a b, m !! a = Some b -> in_u8 b) ->
  0 <= dest -> dest + Z.of_nat (length l) < 2 ^ 32 -> (forall i, (i < length l)%nat -> is_Some (m !! (dest + Z.of_nat i))) -> (length l < patience)%nat ->
  exists m', memmove patience dest src (Z.of_nat (length l)) m = Ok dest m' /\ bytes_at m' dest l /\ (forall a, ~ dest <= a < dest + Z.of_nat (length l) -> m' !! a = m !! a).
Proof.
  intros [Hl Hh Hb] Hin Hbyte Hd Hdh Hdest Hp. set (n := length l) in *. assert (Hsrc : forall i, (i < n)%nat -> is_Some (m !! (src + Z.of_nat i))) by (intros i Hi; destruct (lookup_lt_is_Some_2 l i Hi) as [b E]; rewrite (Hb i b E); by eexists).
  assert (H : exists m', memmove patience dest src (Z.of_nat n) m = Ok dest m' /\ front m dest src (Z.of_nat n) m').
  { unfold memmove. rewrite (u32_small (Z.of_nat n)) by (unfold in_u32; lia). destruct (Z.ltb_spec dest src) as [Hlt|Hge].
    - destruct (move_up m dest src n Hsrc Hdest (conj Hd Hdh) (conj Hl Hh) Hbyte n patience ltac:(lia) m) as (m' & Hrun & Hf); [done|done|rewrite Nat.sub_diag; intros a; cbn; rewrite Z.add_0_r; by destruct (Z.leb_spec dest a), (Z.ltb_spec a dest); try lia|].
      exists m'. rewrite Nat.sub_diag, !Z.add_0_r in Hrun. unfold rep_movsb. by rewrite (run_bind _ _ _ _ _ Hrun).
    - destruct (move_down m dest src n Hsrc Hdest (conj Hd Hdh) (conj Hl Hh) Hbyte n patience ltac:(lia) m (u32 (src + Z.of_nat n - 1)) (u32 (dest + Z.of_nat n - 1))) as (m' & Hrun & Hf); [done|done|done|done|rewrite Nat.sub_diag; intros a; cbn; rewrite Z.sub_0_r; by destruct (Z.leb_spec (dest + Z.of_nat n) a), (Z.ltb_spec a (dest + Z.of_nat n)); try lia|].
      exists m'. unfold rep_movsb. rewrite (run_bind _ _ _ _ _ Hrun). split; [done|]. intros a. rewrite (Hf a). by replace (dest + Z.of_nat n - Z.of_nat n) with dest by lia. }
  destruct H as (m' & Hrun & Hf). exists m'. split; [done|]. split.
  - split; [done|done|]. intros i b Hi. rewrite (Hf (dest + Z.of_nat i)). pose proof (lookup_lt_Some _ _ _ Hi). destruct (Z.leb_spec dest (dest + Z.of_nat i)), (Z.ltb_spec (dest + Z.of_nat i) (dest + Z.of_nat n)); try lia. cbn [andb]. rewrite <-(Hb i b Hi). f_equal. lia.
  - intros a Ha. rewrite (Hf a). by destruct (Z.leb_spec dest a), (Z.ltb_spec a (dest + Z.of_nat n)); try lia.
Qed.

Definition demo_bytes : smem := bytes_map 100 (text "abcdefgh").

Lemma memmove_correct_witness : exists m', memmove 9 102 100 5 demo_bytes = Ok 102 m' /\ bytes_at m' 102 (text "abcde") /\ (forall a, ~ 102 <= a < 102 + 5 -> m' !! a = demo_bytes !! a).
Proof.
  apply (memmove_correct 9 demo_bytes 102 100 (text "abcde")); [bytes_at_closed|apply (bool_decide_unpack _); vm_compute; exact I| |lia|vm_compute; reflexivity| |vm_compute; lia].
  - intros a b. apply bytes_map_u8. apply (bool_decide_unpack _). vm_compute. exact I.
  - intros i Hi. cbn in Hi. repeat (destruct i as [|i]; [vm_compute; by eexists|]). lia.
Defined.

(** ** Comparing and searching *)

(** Two lists, one not a prefix of the other, differ at a byte or the other is shorter. *)
Lemma first_difference (d x : list Z) : ~ d `prefix_of` x -> (exists p u v d' x', d = p ++ v :: d' /\ x = p ++ u :: x' /\ u <> v) \/ (exists e, d = x ++ e).
Proof.
  revert x. induction d as [|v d IH]; intros x Hn; [destruct Hn; apply prefix_nil|]. destruct x as [|u x]; [right; by exists (v :: d)|]. destruct (Z.eq_dec u v) as [->|Hne]; [|left; by exists [], u, v, d, x].
  destruct (IH x) as [(p & u & v' & d' & x' & -> & -> & Hne)|[e ->]]; [intros Hp; apply Hn; by apply prefix_cons|left; by exists (v :: p), u, v', d', x'|right; by exists e].
Qed.

Section Compare.
Context (m : smem).

Lemma cmps_run a c ecx zf lt u v x d : bytes_at m a (u :: x) -> bytes_at m c (v :: d) -> 0 < ecx < 2 ^ 32 ->
  cmpsb_step (a, c, ecx, zf, lt) m = Ok ((if u =? v then inl else inr) (a + 1, c + 1, ecx - 1, u =? v, jl u v)) m.
Proof using.
  intros Hx Hd He. destruct (bytes_cons _ _ _ _ Hx) as [Hu Hx']. destruct (bytes_cons _ _ _ _ Hd) as [Hv Hd']. pose proof (ba_low _ _ _ Hx). pose proof (ba_high _ _ _ Hx'). pose proof (ba_low _ _ _ Hd). pose proof (ba_high _ _ _ Hd').
  unfold cmpsb_step. destruct (Z.eqb_spec ecx 0); [lia|]. rewrite (run_bind _ _ _ _ _ (ld_run _ _ _ Hu)), (run_bind _ _ _ _ _ (ld_run _ _ _ Hv)), !inc_small, dec_small by lia. by destruct (u =? v).
Qed.

Lemma compare_differs p u v d x : u <> v -> forall n a c zf lt, bytes_at m a (p ++ u :: x) -> bytes_at m c (p ++ v :: d) -> (length (p ++ v :: d) < n)%nat ->
  exists edi ecx, iter n cmpsb_step (a, c, Z.of_nat (length (p ++ v :: d)), zf, lt) m = Ok (a + Z.of_nat (length p) + 1, edi, ecx, false, jl u v) m.
Proof using.
  intros Hne. induction p as [|w p IH]; intros n a c zf lt Hx Hd Hn; cbn [app length] in *; (destruct n as [|n]; [lia|]); pose proof (ba_high _ _ _ Hd) as Hh; pose proof (ba_low _ _ _ Hd); cbn [length] in Hh; pose proof (fun ecx => cmps_run a c ecx zf lt _ _ _ _ Hx Hd) as E.
  - exists (c + 1), (Z.of_nat (length d)). rewrite (iter_end _ _ _ (a + 1, c + 1, Z.of_nat (length d), false, jl u v) _ m); [by rewrite Z.add_0_r|]. rewrite E by lia. destruct (Z.eqb_spec u v); [done|]. by replace (Z.of_nat (S (length d)) - 1) with (Z.of_nat (length d)) by lia.
  - apply bytes_cons in Hx as [_ Hx]. apply bytes_cons in Hd as [_ Hd]. destruct (IH n (a + 1) (c + 1) true (jl w w) Hx Hd) as (edi & ecx & E'); [lia|]. exists edi, ecx.
    rewrite (iter_on _ _ _ (a + 1, c + 1, Z.of_nat (length (p ++ v :: d)), true, jl w w) _ m); [rewrite E'; by replace (a + 1 + Z.of_nat (length p) + 1) with (a + Z.of_nat (S (length p)) + 1) by lia|].
    rewrite E by lia. rewrite Z.eqb_refl. by replace (Z.of_nat (S (length (p ++ v :: d))) - 1) with (Z.of_nat (length (p ++ v :: d))) by lia.
Qed.

Lemma compare_equal d x : forall n a c zf lt, bytes_at m a (d ++ x) -> bytes_at m c d -> (length d < n)%nat ->
  exists esi edi lt', iter n cmpsb_step (a, c, Z.of_nat (length d), zf, lt) m = Ok (esi, edi, 0, match d with [] => zf | _ => true end, lt') m.
Proof using.
  induction d as [|w d IH]; intros n a c zf lt Hx Hd Hn; cbn [app length] in *; (destruct n as [|n]; [lia|]); [by eexists a, c, lt; apply iter_end|].
  pose proof (ba_high _ _ _ Hd) as Hh. pose proof (ba_low _ _ _ Hd). cbn [length] in Hh. pose proof (cmps_run a c (Z.of_nat (S (length d))) zf lt _ _ _ _ Hx Hd ltac:(lia)) as E. apply bytes_cons in Hx as [_ Hx]. apply bytes_cons in Hd as [_ Hd]. destruct (IH n (a + 1) (c + 1) true (jl w w) Hx Hd) as (esi & edi & lt' & E'); [lia|]. exists esi, edi, lt'.
  rewrite (iter_on _ _ _ (a + 1, c + 1, Z.of_nat (length d), true, jl w w) _ m); [rewrite E'; by destruct d|]. rewrite E, Z.eqb_refl. by replace (Z.of_nat (S (length d)) - 1) with (Z.of_nat (length d)) by lia.
Qed.

(** One place of [strstr]: found, not found but there is more, or the end was seen. *)
Lemma strstr_place patience ct d a l zf : str_at m ct d -> str_at m a l -> (length d < patience)%nat -> (d = [] -> zf = true) ->
  (d `prefix_of` l /\ strstr_step patience ct (Z.of_nat (length d)) (a, zf) m = Ok (inr a) m) \/
  (~ d `prefix_of` l /\ strstr_step patience ct (Z.of_nat (length d)) (a, zf) m = Ok (inl (a + 1, false)) m /\ l <> []) \/
  ((length l < length d)%nat /\ strstr_step patience ct (Z.of_nat (length d)) (a, zf) m = Ok (inr 0) m).
Proof using.
  intros [Hct Hd0] [Hl Hl0] Hp Hzf. apply bytes_app in Hct as [Hct _]. unfold strstr_step, repe_cmpsb. destruct (decide (d `prefix_of` l)) as [[x ->]|Hn].
  - left. split; [by exists x|]. rewrite <-app_assoc in Hl. destruct (compare_equal d (x ++ [0]) patience a ct zf false Hl Hct Hp) as (esi & edi & lt' & E). rewrite (run_bind _ _ _ _ _ E). by destruct d; [rewrite Hzf|].
  - right. assert (Hn' : ~ d `prefix_of` l ++ [0]).
    { intros [e E]. apply Hn. destruct e as [|z e _] using rev_ind; [rewrite app_nil_r in E; subst d; destruct Hd0; set_solver|]. rewrite app_assoc in E. apply app_inj_tail in E as [-> _]. by apply prefix_app_r. }
    destruct (first_difference d (l ++ [0]) Hn') as [(p & u & v & d' & x' & -> & Ex & Hne)|[e ->]]; [|destruct Hd0; set_solver]. rewrite Ex in Hl. destruct (compare_differs p u v d' x' Hne patience a ct zf false Hl Hct Hp) as (edi & ecx & E). rewrite (run_bind _ _ _ _ _ E). cbn beta iota.
    pose proof (ba_low _ _ _ Hl) as Hlo. pose proof (ba_high _ _ _ Hl) as Hhi. rewrite length_app in Hhi. cbn [length] in Hhi. apply bytes_app in Hl as [_ Hl]. apply bytes_cons in Hl as [Hu _]. rewrite dec_small by lia. rewrite Z.add_simpl_r, (run_bind _ _ _ _ _ (ld_run _ _ _ Hu)). destruct (Z.eqb_spec u 0) as [->|Hu0].
    + right. split; [|done]. assert (Hpl : (length l <= length p)%nat); [|rewrite length_app; cbn [length]; lia]. destruct (decide (length l <= length p)%nat) as [|Hgt]; [done|]. exfalso. apply Hl0. apply list_elem_of_lookup. exists (length p). rewrite <-(lookup_app_l l [0]) by lia. rewrite Ex. by apply list_lookup_middle.
    + left. split; [done|]. rewrite inc_small by lia. split; [done|]. intros ->. destruct p as [|z p]; cbn in Ex; [congruence|]. by destruct p.
Qed.

Lemma strstr_loop patience ct d l : str_at m ct d -> (length d < patience)%nat -> forall n a zf, str_at m a l -> (d = [] -> zf = true) -> (length l < n)%nat ->
  exists r, iter n (strstr_step patience ct (Z.of_nat (length d))) (a, zf) m = Ok r m /\
    ((exists i, r = a + Z.of_nat i /\ d `prefix_of` drop i l /\ forall j, (j < i)%nat -> ~ d `prefix_of` drop j l) \/ (r = 0 /\ forall j, ~ d `prefix_of` drop j l)).
Proof using.
  intros Hct Hp. induction l as [|b l IH]; intros n a zf Hl Hzf Hn; (destruct n as [|n]; [lia|]); destruct (strstr_place patience ct d a _ zf Hct Hl Hp Hzf) as [[Hpre E]|[(Hno & E & Hne)|[Hsh E]]].
  - exists a. split; [by apply iter_end|]. left. exists 0%nat. split; [lia|]. split; [done|]. intros j Hj. lia.
  - done.
  - exists 0. split; [by apply iter_end|]. right. split; [done|]. intros j Hj%prefix_length. rewrite length_drop in Hj. lia.
  - exists a. split; [by apply iter_end|]. left. exists 0%nat. split; [lia|]. split; [done|]. intros j Hj. lia.
  - assert (Hd : d <> []) by (intros ->; apply Hno, prefix_nil). destruct (IH n (a + 1) false) as (r & Er & Hr); [by apply (str_drop _ _ [b]) in Hl|done|cbn [length] in Hn; lia|]. exists r. split; [by rewrite (iter_on _ _ _ _ _ _ E)|]. destruct Hr as [(i & -> & Hi & Hj)|[-> Hj]].
    + left. exists (S i). split; [lia|]. split; [done|]. intros [|j] Hji; [done|]. apply Hj. lia.
    + right. split; [done|]. intros [|j]; [done|]. apply Hj.
  - exists 0. split; [by apply iter_end|]. right. split; [done|]. intros j Hj%prefix_length. rewrite length_drop in Hj. lia.
Qed.
End Compare.

(** [strstr] returns the first place in [cs] where the string [ct] begins, and [NULL]
    if there is none; an empty [ct] is found at once.  It stops at the zero byte of
    [cs] that it has seen and reads nothing behind it. *)
Theorem strstr_first patience m cs l ct d : str_at m cs l -> str_at m ct d -> (length l < patience)%nat -> (length d < patience)%nat ->
  exists r, strstr patience cs ct m = Ok r m /\
    ((exists i, r = cs + Z.of_nat i /\ d `prefix_of` drop i l /\ forall j, (j < i)%nat -> ~ d `prefix_of` drop j l) \/ (r = 0 /\ forall j, ~ d `prefix_of` drop j l)).
Proof.
  intros Hl Hct Hn Hp. unfold strstr. rewrite (run_bind _ _ _ _ _ (set_length_run m ct d patience Hct Hp)). apply strstr_loop; [done..| |done]. by intros ->.
Qed.

Definition demo_search : smem := bytes_map 100 (text "ababc" ++ [0]) ∪ bytes_map 200 (text "abc" ++ [0]).
Lemma strstr_first_witness : exists r, strstr 10 100 200 demo_search = Ok r demo_search /\
    ((exists i, r = 100 + Z.of_nat i /\ text "abc" `prefix_of` drop i (text "ababc") /\ forall j, (j < i)%nat -> ~ text "abc" `prefix_of` drop j (text "ababc")) \/ (r = 0 /\ forall j, ~ text "abc" `prefix_of` drop j (text "ababc"))).
Proof. apply (strstr_first 10 demo_search 100 (text "ababc") 200 (text "abc")); [str_at_closed|str_at_closed|vm_compute; lia|vm_compute; lia]. Defined.

(** ** Appending *)

Lemma js_small z : 0 <= z < 2 ^ 31 -> js z = false.
Proof. intros Hz. unfold js. rewrite Z.testbit_false by lia. rewrite Z.div_small by lia. done. Qed.

Lemma str_byte m a b l : str_at m a (b :: l) -> m !! a = Some b /\ str_at m (a + 1) l /\ b <> 0.
Proof. intros [Hb H0]. cbn [app] in Hb. apply bytes_cons in Hb as [Hm Hb]. apply not_elem_of_cons in H0 as [Hb0 H0]. split; [done|]. split; [by split|congruence]. Qed.

(** One round of the counted copy. *)
Lemma copy_n_run m a e cnt b : 0 < cnt < 2 ^ 31 -> 0 <= a -> a + 1 < 2 ^ 32 -> 0 <= e -> e + 1 < 2 ^ 32 -> m !! a = Some b -> in_u8 b -> is_Some (m !! e) ->
  copy_n_step (a, e, cnt) m = Ok (if b =? 0 then inr (e + 1, cnt - 1, true) else inl (a + 1, e + 1, cnt - 1)) (<[e := b]> m).
Proof.
  intros Hc Ha Ha' He He' Hm Hb Hd. unfold copy_n_step. rewrite dec_small, js_small by lia. rewrite (run_bind _ _ _ _ _ (lodsb_run m a b Ha Ha' Hm)). cbn beta iota. rewrite (run_bind _ _ _ _ _ (stosb_run m e b He He' Hd)). by rewrite u8_small.
Qed.

(** A whole string is copied when the count allows. *)
Lemma copy_n_all d : Forall in_u8 d -> forall n m a e cnt, str_at m a d -> (forall i, (i <= length d)%nat -> is_Some (m !! (e + Z.of_nat i))) -> a + Z.of_nat (length d) < e \/ e + Z.of_nat (length d) < a -> 0 <= e -> e + Z.of_nat (length d) + 1 < 2 ^ 32 ->
  Z.of_nat (length d) < cnt < 2 ^ 31 -> (length d < n)%nat ->
  exists m', iter n copy_n_step (a, e, cnt) m = Ok (e + Z.of_nat (length d) + 1, cnt - Z.of_nat (length d) - 1, true) m' /\ bytes_at m' e (d ++ [0]) /\ (forall x, ~ e <= x <= e + Z.of_nat (length d) -> m' !! x = m !! x).
Proof.
  induction 1 as [|b d Hb _ IH]; intros n m a e cnt Hs Hd Hap He Heh Hc Hn; cbn [length] in *; (destruct n as [|n]; [lia|]); pose proof (ba_low _ _ _ (proj1 Hs)) as Hlo; pose proof (ba_high _ _ _ (proj1 Hs)) as Hhi; rewrite length_app in Hhi; cbn [length app] in *.
  - destruct Hs as [Hs _]. apply bytes_cons in Hs as [Hm _]. exists (<[e := 0]> m). split; [|split].
    + apply iter_end. rewrite (copy_n_run m a e cnt 0); [by rewrite Z.add_0_r, Z.sub_0_r|lia|lia|lia|lia|lia|done|unfold in_u8; lia|]. rewrite <-(Z.add_0_r e). by apply (Hd 0%nat).
    + split; [done|cbn [length]; lia|]. intros [|i] b; [|done]. cbn. intros [= <-]. rewrite Z.add_0_r. apply lookup_insert_eq.
    + intros x Hx. apply put_other; [lia|done].
  - destruct (str_byte _ _ _ _ Hs) as (Hm & Hs' & Hb0). set (m1 := <[e := b]> m).
    destruct (IH n m1 (a + 1) (e + 1) (cnt - 1)) as (m' & Hrun & Hby & Hsame); [apply str_put; [done|lia]| |lia|lia|lia|lia|lia|].
    { intros i Hi. unfold m1. rewrite (put_other m e b (e + 1 + Z.of_nat i) _ ltac:(lia) eq_refl). replace (e + 1 + Z.of_nat i) with (e + Z.of_nat (S i)) by lia. apply Hd. lia. }
    exists m'. split; [|split].
    + rewrite (iter_on _ _ _ (a + 1, e + 1, cnt - 1) _ m1); [|rewrite (copy_n_run m a e cnt b); [by destruct (Z.eqb_spec b 0)|lia|lia|lia|lia|lia|done|done|rewrite <-(Z.add_0_r e); apply (Hd 0%nat); lia]].
      rewrite Hrun. replace (e + 1 + Z.of_nat (length d) + 1) with (e + Z.of_nat (S (length d)) + 1) by lia. by replace (cnt - 1 - Z.of_nat (length d) - 1) with (cnt - Z.of_nat (S (length d)) - 1) by lia.
    + apply (bytes_join _ _ [b]); [|done]. split; [done|cbn [length]; lia|]. intros [|i] c; [|done]. cbn. intros [= <-]. rewrite Z.add_0_r, Hsame by lia. apply lookup_insert_eq.
    + intros x Hx. rewrite Hsame by lia. apply put_other; [lia|done].
Qed.

(** [strncat] with a count larger than the string appends all of it with its zero
    byte, and then writes a second zero byte behind the end, over whatever is there. *)
Theorem strncat_overruns patience m dest l src d count : str_at m dest l -> str_at m src d -> Forall in_u8 d -> Z.of_nat (length d) < count < 2 ^ 31 ->
  (forall i, (i <= length d + 1)%nat -> is_Some (m !! (dest + Z.of_nat (length l) + Z.of_nat i))) -> dest + Z.of_nat (length l) + Z.of_nat (length d) + 2 < 2 ^ 32 ->
  src + Z.of_nat (length d) < dest \/ dest + Z.of_nat (length l) + Z.of_nat (length d) + 1 < src -> (length l < patience)%nat -> (length d < patience)%nat ->
  exists m', strncat patience dest src count m = Ok dest m' /\ str_at m' dest (l ++ d) /\ m' !! (dest + Z.of_nat (length l) + Z.of_nat (length d) + 1) = Some 0 /\
    (forall x, ~ dest + Z.of_nat (length l) <= x <= dest + Z.of_nat (length l) + Z.of_nat (length d) + 1 -> m' !! x = m !! x).
Proof.
  intros Hl Hs Hd Hc Hmap Hh Hap Hp1 Hp2. pose proof (ba_low _ _ _ (proj1 Hl)) as Hlo. set (e := dest + Z.of_nat (length l)) in *.
  destruct (copy_n_all d Hd patience m src e count Hs) as (m' & Hrun & Hby & Hsame); [intros i Hi; apply Hmap; lia|lia|lia|lia|done|done|]. set (z := e + Z.of_nat (length d) + 1) in *.
  assert (Hz : is_Some (m' !! z)) by (rewrite Hsame by lia; unfold z; replace (e + Z.of_nat (length d) + 1) with (e + Z.of_nat (length d + 1)) by lia; apply Hmap; lia).
  exists (<[z := 0]> m'). split; [|split; [|split]].
  - unfold strncat. rewrite (run_bind _ _ _ _ _ (scan_zero m dest l patience Hl Hp1)). cbn beta iota. fold e. rewrite dec_small, Z.add_simpl_r, u32_small by (unfold in_u32; lia). unfold copy_n_loop. rewrite (run_bind _ _ _ _ _ Hrun). cbn beta iota. by rewrite (run_bind _ _ _ _ _ (stosb_run m' z 0 ltac:(lia) ltac:(lia) Hz)).
  - destruct Hl as [Hl Hl0], Hs as [_ Hd0]. apply bytes_app in Hl as [Hl _]. split; [|rewrite not_elem_of_app; tauto]. rewrite <-app_assoc. apply (bytes_same m').
    + apply bytes_join; [|done]. apply (bytes_same m); [done|]. intros x Hx. apply Hsame. lia.
    + intros x Hx. rewrite !length_app in Hx. cbn [length] in Hx. apply put_other; [lia|done].
  - apply lookup_insert_eq.
  - intros x Hx. rewrite (put_other m' z 0 x _ ltac:(lia) eq_refl). apply Hsame. lia.
Qed.

Definition demo_append : smem := bytes_map 100 (text "ab" ++ [0; 7; 7; 7]) ∪ bytes_map 200 (text "cd" ++ [0]).
Lemma strncat_overruns_witness : exists m', strncat 10 100 200 5 demo_append = Ok 100 m' /\ str_at m' 100 (text "ab" ++ text "cd") /\ m' !! (100 + 2 + 2 + 1) = Some 0 /\
    (forall x, ~ 100 + 2 <= x <= 100 + 2 + 2 + 1 -> m' !! x = demo_append !! x).
Proof.
  apply (strncat_overruns 10 demo_append 100 (text "ab") 200 (text "cd") 5); [str_at_closed|str_at_closed|apply (bool_decide_unpack _); vm_compute; exact I|vm_compute; split; reflexivity| |vm_compute; reflexivity|right; vm_compute; reflexivity|vm_compute; lia|vm_compute; lia].
  intros i Hi. cbn in Hi. repeat (destruct i as [|i]; [vm_compute; by eexists|]). lia.
Defined.

(** ** The rest *)

Lemma strlen_run m s l patience : str_at m s l -> Z.of_nat (length l) < 2 ^ 31 -> (length l < patience)%nat -> strlen patience s m = Ok (Z.of_nat (length l)) m.
Proof.
  intros Hs Hl Hp. pose proof (set_length_run m s l patience Hs Hp) as E. unfold set_length in E. unfold strlen. rewrite (run_bind _ _ _ _ _ (scan_zero m s l patience Hs Hp)) in E. rewrite (run_bind _ _ _ _ _ (scan_zero m s l patience Hs Hp)). cbn beta iota in *. injection E as ->. by rewrite s32_small by (unfold in_s32; lia).
Qed.

(** [strspn] counts the bytes in the set, [strcspn] those before the first in it. *)
Lemma strspn_run m cs l1 l2 ct d patience : str_at m cs (l1 ++ l2) -> str_at m ct d -> Forall (.∈ d) l1 -> (forall b r, l2 = b :: r -> b ∉ d) -> (length (l1 ++ l2) < patience)%nat -> (length d < patience)%nat -> Z.of_nat (length l1) < 2 ^ 31 ->
  strspn patience cs ct m = Ok (Z.of_nat (length l1)) m.
Proof.
  intros Hs Hct Hl Hr Hp Hdp H31. unfold strspn. rewrite (run_bind _ _ _ _ _ (set_length_run m ct d patience Hct Hdp)). destruct Hct as [Hct _]. apply bytes_app in Hct as [Hct _]. pose proof (ba_low _ _ _ (proj1 Hs)). pose proof (ba_high _ _ _ (proj1 Hs)) as Hh. rewrite !length_app in *. cbn [length] in Hh.
  assert (E : exists z, span_loop patience true ct (Z.of_nat (length d)) cs m = Ok (cs + Z.of_nat (length l1) + 1, z) m).
  { destruct l2 as [|b r]; [exists true; rewrite app_nil_r in Hs; apply (span_end m ct d); [done|done|done|by apply all_in|lia]|exists false]. destruct Hs as [Hs H0]. rewrite <-app_assoc in Hs. rewrite not_elem_of_app, not_elem_of_cons in H0. destruct H0 as (H0 & Hb & _). apply (span_stop m ct d patience Hct Hdp true l1 b (r ++ [0]) cs); [done|done|by apply all_in|congruence|rewrite goes_in; by apply (Hr b r)|lia]. }
  destruct E as [z E]. rewrite (run_bind _ _ _ _ _ E). cbn beta iota. rewrite dec_small by lia. unfold mret, M_ret. f_equal. rewrite s32_small; unfold in_s32; lia.
Qed.

(** [strcmp] is 0 for equal strings, and otherwise tells which has the larger byte, read
    as a signed number, where they first differ. *)
Lemma strcmp_differs m p u v x d : u <> v -> forall n cs ct, bytes_at m cs (p ++ u :: x) -> bytes_at m ct (p ++ v :: d) -> 0 ∉ p -> (length p < n)%nat ->
  iter n strcmp_step (ct, cs) m = Ok (if s8 v <? s8 u then 1 else -1) m.
Proof.
  intros Hne. induction p as [|w p IH]; intros n cs ct Hx Hd H0 Hn; cbn [app length] in *; (destruct n as [|n]; [lia|]); pose proof (ba_low _ _ _ Hx); pose proof (ba_low _ _ _ Hd); destruct (bytes_cons _ _ _ _ Hx) as [Hu Hx']; destruct (bytes_cons _ _ _ _ Hd) as [Hv Hd']; pose proof (ba_high _ _ _ Hx'); pose proof (ba_high _ _ _ Hd').
  - apply iter_end. unfold strcmp_step. rewrite (run_bind _ _ _ _ _ (lodsb_run m ct v ltac:(lia) ltac:(lia) Hv)). cbn beta iota. rewrite (run_bind _ _ _ _ _ (ld_run _ _ _ Hu)). by destruct (Z.eqb_spec v u); [congruence|].
  - apply not_elem_of_cons in H0 as [Hw0 H0]. rewrite (iter_on _ _ _ (ct + 1, cs + 1) _ m); [apply IH; [done|done|done|lia]|].
    unfold strcmp_step. rewrite (run_bind _ _ _ _ _ (lodsb_run m ct w ltac:(lia) ltac:(lia) Hv)). cbn beta iota. rewrite (run_bind _ _ _ _ _ (ld_run _ _ _ Hu)), Z.eqb_refl. cbn [negb]. destruct (Z.eqb_spec w 0); [congruence|]. by rewrite inc_small by lia.
Qed.
Lemma strcmp_equal m l : forall n cs ct, str_at m cs l -> str_at m ct l -> (length l < n)%nat -> iter n strcmp_step (ct, cs) m = Ok 0 m.
Proof.
  induction l as [|w l IH]; intros n cs ct Hx Hd Hn; cbn [length] in *; (destruct n as [|n]; [lia|]); pose proof (ba_low _ _ _ (proj1 Hx)); pose proof (ba_low _ _ _ (proj1 Hd)); pose proof (ba_high _ _ _ (proj1 Hx)) as Hhx; pose proof (ba_high _ _ _ (proj1 Hd)) as Hhd; rewrite length_app in Hhx, Hhd; cbn [length] in Hhx, Hhd.
  - destruct Hx as [Hx _], Hd as [Hd _]. apply bytes_cons in Hx as [Hu _]. apply bytes_cons in Hd as [Hv _]. apply iter_end. unfold strcmp_step. rewrite (run_bind _ _ _ _ _ (lodsb_run m ct 0 ltac:(lia) ltac:(lia) Hv)). cbn beta iota. by rewrite (run_bind _ _ _ _ _ (ld_run _ _ _ Hu)).
  - destruct (str_byte _ _ _ _ Hx) as (Hu & Hx' & Hw0). destruct (str_byte _ _ _ _ Hd) as (Hv & Hd' & _). rewrite (iter_on _ _ _ (ct + 1, cs + 1) _ m); [apply IH; [done|done|lia]|].
    unfold strcmp_step. rewrite (run_bind _ _ _ _ _ (lodsb_run m ct w ltac:(lia) ltac:(lia) Hv)). cbn beta iota. rewrite (run_bind _ _ _ _ _ (ld_run _ _ _ Hu)), Z.eqb_refl. cbn [negb]. destruct (Z.eqb_spec w 0); [congruence|]. by rewrite inc_small by lia.
Qed.

(** [memcmp] of no bytes returns what the flags of an earlier instruction say. *)
Lemma memcmp_nothing m zf lt cs ct patience : (0 < patience)%nat -> memcmp patience zf lt cs ct 0 m = Ok (if zf then 0 else if lt then 1 else -1) m.
Proof. intros Hp. destruct patience as [|n]; [lia|]. done. Qed.
