(* ===== verification/Entry.v ===== *)
(** * Entering and leaving the kernel: [kernel/sys_call.S], [kernel/asm.S],
      [include/unistd.h], [include/linux/sys.h]

    A program calls the kernel with the number of a system call in [eax] and
    [int $0x80].  The processor pushes where it was; [system_call] pushes the registers,
    calls the function of the table, and [ret_from_sys_call] delivers a signal, pops the
    registers and returns.  The timer interrupt pushes a frame of its own and leaves
    through [ret_from_sys_call] too; exceptions come in through [error_code].

    The kernel stack is a list of words, the top first; a word is read as the offset
    from [%esp] says, whatever was pushed, and to read below the bottom is a fault.  A
    selector that is loaded into a segment register is checked against the descriptor
    tables: the two segments of the kernel in [gdt] of [boot/head.S] and the two of the
    task in its [ldt]; another one raises a general protection exception, whose handler
    ends the task with [do_exit(11)].  The functions of the table are an argument;
    [schedule], [do_timer] and [do_signal] are those of the other files. *)

From S2P Require Import Prelude TaskStruct Sched Exit Signal.
Local Open Scope string_scope.
Local Open Scope Z_scope.

(** ** Numbers and functions *)

(** The constants [__NR_*]. *)
Definition nr_table : list (string * Z) :=
  [
    ("setup", 0); ("exit", 1); ("fork", 2); ("read", 3); ("write", 4); ("open", 5);
    ("close", 6); ("waitpid", 7); ("creat", 8); ("link", 9); ("unlink", 10); ("execve", 11);
    ("chdir", 12); ("time", 13); ("mknod", 14); ("chmod", 15); ("chown", 16); ("break", 17);
    ("stat", 18); ("lseek", 19); ("getpid", 20); ("mount", 21); ("umount", 22);
    ("setuid", 23); ("getuid", 24); ("stime", 25); ("ptrace", 26); ("alarm", 27);
    ("fstat", 28); ("pause", 29); ("utime", 30); ("stty", 31); ("gtty", 32); ("access", 33);
    ("nice", 34); ("ftime", 35); ("sync", 36); ("kill", 37); ("rename", 38); ("mkdir", 39);
    ("rmdir", 40); ("dup", 41); ("pipe", 42); ("times", 43); ("prof", 44); ("brk", 45);
    ("setgid", 46); ("getgid", 47); ("signal", 48); ("geteuid", 49); ("getegid", 50);
    ("acct", 51); ("phys", 52); ("lock", 53); ("ioctl", 54); ("fcntl", 55); ("mpx", 56);
    ("setpgid", 57); ("ulimit", 58); ("uname", 59); ("umask", 60); ("chroot", 61);
    ("ustat", 62); ("dup2", 63); ("getppid", 64); ("getpgrp", 65); ("setsid", 66);
    ("sigaction", 67); ("sgetmask", 68); ("ssetmask", 69); ("setreuid", 70);
    ("setregid", 71); ("sigsuspend", 72); ("sigpending", 73); ("sethostname", 74);
    ("setrlimit", 75); ("getrlimit", 76); ("getrusage", 77); ("gettimeofday", 78);
    ("settimeofday", 79); ("getgroups", 80); ("setgroups", 81); ("select", 82);
    ("symlink", 83); ("lstat", 84); ("readlink", 85); ("uselib", 86); ("swapon", 87);
    ("reboot", 88); ("readdir", 89)
  ].

(** [fn_ptr sys_call_table[]] and [NR_syscalls] *)
Definition sys_call_table : list string :=
  [
    "sys_setup"; "sys_exit"; "sys_fork"; "sys_read"; "sys_write"; "sys_open"; "sys_close";
    "sys_waitpid"; "sys_creat"; "sys_link"; "sys_unlink"; "sys_execve"; "sys_chdir";
    "sys_time"; "sys_mknod"; "sys_chmod"; "sys_chown"; "sys_break"; "sys_stat"; "sys_lseek";
    "sys_getpid"; "sys_mount"; "sys_umount"; "sys_setuid"; "sys_getuid"; "sys_stime";
    "sys_ptrace"; "sys_alarm"; "sys_fstat"; "sys_pause"; "sys_utime"; "sys_stty";
    "sys_gtty"; "sys_access"; "sys_nice"; "sys_ftime"; "sys_sync"; "sys_kill"; "sys_rename";
    "sys_mkdir"; "sys_rmdir"; "sys_dup"; "sys_pipe"; "sys_times"; "sys_prof"; "sys_brk";
    "sys_setgid"; "sys_getgid"; "sys_signal"; "sys_geteuid"; "sys_getegid"; "sys_acct";
    "sys_phys"; "sys_lock"; "sys_ioctl"; "sys_fcntl"; "sys_mpx"; "sys_setpgid";
    "sys_ulimit"; "sys_uname"; "sys_umask"; "sys_chroot"; "sys_ustat"; "sys_dup2";
    "sys_getppid"; "sys_getpgrp"; "sys_setsid"; "sys_sigaction"; "sys_sgetmask";
    "sys_ssetmask"; "sys_setreuid"; "sys_setregid"; "sys_sigsuspend"; "sys_sigpending";
    "sys_sethostname"; "sys_setrlimit"; "sys_getrlimit"; "sys_getrusage";
    "sys_gettimeofday"; "sys_settimeofday"; "sys_getgroups"; "sys_setgroups"; "sys_select";
    "sys_symlink"; "sys_lstat"; "sys_readlink"; "sys_uselib"; "sys_swapon"; "sys_reboot";
    "sys_readdir"
  ].
Definition NR_syscalls : Z := Z.of_nat (length sys_call_table).

(** What a program gets from [_syscall0] and the others: the result and [errno]. *)
Definition syscall_result (res errno : Z) : Z * Z := if 0 <=? res then (res, errno) else (-1, - res).

(** ** The machine *)

(** The registers [system_call] saves, and the words the processor pushes. *)
Record regs := Regs {
  r_ebx : Z; r_ecx : Z; r_edx : Z; r_esi : Z; r_edi : Z; r_ebp : Z; r_eax : Z;
  r_ds : Z; r_es : Z; r_fs : Z; r_gs : Z
}.
Record iframe := IFrame { i_eip : Z; i_cs : Z; i_eflags : Z; i_esp : Z; i_ss : Z }.

Definition CS : nat := 13.
Definition OLDSS : nat := 16.

Record ent := Ent { en_k : kst; stk : list Z }.

Definition on_k {A} (m : M kst A) : M ent A := fun s => match m (en_k s) with Ok a k => Ok a (Ent k (stk s)) | Halt h k => Halt h (Ent k (stk s)) end.
Definition push (v : Z) : M ent unit := modify (fun s => Ent (en_k s) (v :: stk s)).
Definition pop : M ent Z := fun s => match stk s with v :: l => Ok v (Ent (en_k s) l) | [] => Halt Fault s end.
Definition at_esp (i : nat) : M ent Z := s ← getS; ofOpt (stk s !! i).
Definition put_esp (i : nat) (v : Z) : M ent unit := modify (fun s => Ent (en_k s) (<[i := v]> (stk s))).

(** The selectors a data segment register takes in the kernel: null, 0x08 and 0x10 of the
    kernel, 0x0c and 0x14 of the task, whose privilege allows any requested one. *)
Definition data_sel (v : Z) : bool :=
  let s := u16 v in (s <? 4) || (s =? 0x08) || (s =? 0x10) || ((0x0c <=? s) && (s <? 0x10)) || ((0x14 <=? s) && (s <? 0x18)).

Section Entry.
Context (call : string -> M ent Z) (rounds patience : nat).

(** Exception 13: [general_protection], [do_general_protection], [die], [do_exit(11)]. *)
Definition gp_fault {A} : M ent A := halts (Exit 11).

(** [pop] of a segment register, in the kernel. *)
Definition pop_seg : M ent Z := v ← pop; if data_sel v then mret v else gp_fault.

(** [iret]: [esp] and [ss] are popped when the privilege changes. *)
Definition iret : M ent iframe :=
  eip ← pop; cs ← pop; eflags ← pop;
  if Z.land cs 3 =? 0 then (if u16 cs =? 0x08 then mret (IFrame eip cs eflags 0 0) else gp_fault)
  else
    esp ← pop; ss ← pop;
    if (u16 cs =? 0x0f) && (u16 ss =? 0x17) then mret (IFrame eip cs eflags esp ss) else gp_fault.

(** What [iret] leaves in a data segment register: a segment of the kernel is taken away
    from a program. *)
Definition outer_sel (f : iframe) (v : Z) : Z :=
  if negb (Z.land (i_cs f) 3 =? 0) && ((u16 v =? 0x08) || (u16 v =? 0x10)) then 0 else v.

(** Label 3: all registers are popped. *)
Definition restore_all : M ent (regs * iframe) :=
  ebx ← pop; ecx ← pop; edx ← pop; esi ← pop; edi ← pop; ebp ← pop; eax ← pop;
  ds ← pop_seg; es ← pop_seg; fs ← pop_seg; gs ← pop_seg;
  _ ← pop;
  f ← iret;
  mret (Regs ebx ecx edx esi edi ebp eax (outer_sel f ds) (outer_sel f es) (outer_sel f fs) (outer_sel f gs), f).

(** The call of [do_signal]: its parameters are the words on the stack in the order of
    its declaration, and what it assigns to them stays there. *)
Definition call_do_signal (signr : Z) : M ent Z :=
  eax ← at_esp 0; ecx ← at_esp 2; edx ← at_esp 3; orig_eax ← at_esp 4; eip ← at_esp 8; eflags ← at_esp 10; esp ← at_esp 11;
  '(r, f) ← on_k (do_signal rounds signr (Frame (s32 eax) (s32 ecx) (s32 edx) (s32 orig_eax) (s32 eip) (s32 eflags) (u32 esp)));
  put_esp 0 (f_eax f);; put_esp 8 (f_eip f);; put_esp 11 (f_esp f);;
  mret r.

(** The lowest bit that is set: [bsfl]. *)
Fixpoint bsf (n : nat) (i z : Z) : Z :=
  match n with O => i | S n' => if Z.testbit z i then i else bsf n' (i + 1) z end.

(** From label 2 ([true]) or from [ret_from_sys_call] ([false]) to label 3 or back to 2. *)
Definition ret_step (at2 : bool) : M ent (bool + (regs * iframe)) :=
  (if at2 then
     st ← on_k (cur state); c ← on_k (cur counter);
     if truth st || (c =? 0) then on_k (schedule rounds) else mret tt
   else mret tt);;
  me ← on_k (gets current); t0 ← on_k (task_at 0);
  let leave := r ← restore_all; mret (inr r) in
  if bool_decide (t0 = Some me) then leave
  else
    cs ← at_esp CS;
    if negb (u16 cs =? 0x0f) then leave
    else
      ss ← at_esp OLDSS;
      if negb (u16 ss =? 0x17) then leave
      else
        sig ← on_k (cur signal); b ← on_k (cur blocked);
        let pending := Z.ldiff sig b in
        if pending =? 0 then leave
        else
          let n := bsf 31 0 pending in
          on_k (upd_cur (set_signal (Z.clearbit sig n)));;
          r ← call_do_signal (n + 1);
          if truth r then mret (inl true) else leave.
Definition ret_from_sys_call (at2 : bool) : M ent (regs * iframe) := iter patience ret_step at2.

(** [system_call], with the registers of the program; the processor has pushed its
    words. *)
Definition save_all (r : regs) : M ent unit :=
  push (r_eax r);; push (r_gs r);; push (r_fs r);; push (r_es r);; push (r_ds r);; push (r_eax r);; push (r_ebp r);; push (r_edi r);; push (r_esi r);;
  push (r_edx r);; push (r_ecx r);; push (r_ebx r).
Definition system_call (r : regs) : M ent (regs * iframe) :=
  save_all r;;
  if NR_syscalls <=? u32 (r_eax r) then push (- ENOSYS);; ret_from_sys_call false
  else
    f ← ofOpt (aget sys_call_table (u32 (r_eax r)));
    v ← call f;
    put_esp 6 v;;
    ret_from_sys_call true.

(** [timer_interrupt] *)
Definition timer_interrupt (r : regs) : M ent (regs * iframe) :=
  push (r_ds r);; push (r_es r);; push (r_fs r);; push (-1);; push (r_edx r);; push (r_ecx r);; push (r_ebx r);; push (r_eax r);;
  on_k (modify (fun k => Kst (heap k) (task k) (current k) (u32 (jiffies k + 1)) (startup_time k) (jiffies_offset k) (wq k) (timers k) (sysd k) (trace k)));;
  cs ← at_esp CS;
  on_k (do_timer rounds (Z.land cs 3));;
  ret_from_sys_call false.

(** [error_code]: the entry of an exception has pushed the address of its handler, and
    before it an error code unless the processor has; the handler gets the code and the
    place of [eip] on the stack. *)
Definition error_code (handler : Z -> Z -> M ent unit) (r : regs) : M ent (regs * iframe) :=
  push (r_fs r);; push (r_es r);; push (r_ds r);; push (r_eax r);; push (r_ebp r);; push (r_edi r);; push (r_esi r);; push (r_edx r);; push (r_ecx r);; push (r_ebx r);;
  code ← at_esp 11; put_esp 11 (-1);;
  fn ← at_esp 10; put_esp 10 (r_gs r);;
  push code;; push 13;;
  handler fn code;;
  _ ← pop; _ ← pop;
  restore_all.

(** [divide_error] pushes no code, [int3] and its like push 0, and for
    [general_protection] and its like the processor has pushed one. *)
Definition divide_error (handler : Z -> Z -> M ent unit) (fn : Z) (r : regs) : M ent (regs * iframe) := push fn;; error_code handler r.
Definition int3 (handler : Z -> Z -> M ent unit) (fn : Z) (r : regs) : M ent (regs * iframe) := push 0;; push fn;; error_code handler r.
Definition general_protection (handler : Z -> Z -> M ent unit) (fn : Z) (r : regs) : M ent (regs * iframe) := push fn;; error_code handler r.

(** [sys_execve]: the address of the saved [eip] is the first argument of [do_execve],
    which the call in between has moved by a word. *)
Definition sys_execve (do_execve : nat -> M ent Z) : M ent Z := do_execve 12%nat.

(** [sys_unimpl]: [unimpl] of [exit.c] panics. *)
Definition sys_unimpl : M ent Z := halts (Panic "unimpl syscall %d").

End Entry.

(** What the processor has pushed when a program was interrupted. *)
Definition pushed (f : iframe) : list Z := [i_eip f; i_cs f; i_eflags f; i_esp f; i_ss f].
Definition set_eax (v : Z) (r : regs) : regs := Regs (r_ebx r) (r_ecx r) (r_edx r) (r_esi r) (r_edi r) (r_ebp r) v (r_ds r) (r_es r) (r_fs r) (r_gs r).
