(* ===== verification/EntryOk.v ===== *)
(** * Theorems about entering and leaving the kernel

    A system call runs the function its number stands for and gives the program back
    every register but [eax].  A number that is too large and the timer
    interrupt end the program, and the delivery of a signal misses its handler: they do not fit the frame that [ret_from_sys_call] pops. *)

From S2P Require Import Prelude TaskStruct Sched Exit Signal Entry.

(** The words [save_all] leaves on the stack. *)
Definition saved (r : regs) : list Z := [r_ebx r; r_ecx r; r_edx r; r_esi r; r_edi r; r_ebp r; r_eax r; r_ds r; r_es r; r_fs r; r_gs r; r_eax r].

Lemma on_k_run {A} (m : M kst A) k k' l a : m k = Ok a k' -> on_k m (Ent k l) = Ok a (Ent k' l).
Proof. intros E. unfold on_k. cbn. by rewrite E. Qed.
Lemma save_all_run r k l : save_all r (Ent k l) = Ok tt (Ent k (saved r ++ l)).
Proof. done. Qed.
Lemma cur_run {A} (f : task_struct -> A) k t : heap k !! current k = Some t -> cur f k = Ok (f t) k.
Proof. intros E. unfold cur. rewrite (run_bind _ _ _ _ _ (eq_refl : gets current k = Ok (current k) k)). rewrite (run_bind _ _ _ t k); [done|]. unfold deref. by rewrite E. Qed.

Lemma pop_run k v l : pop (Ent k (v :: l)) = Ok v (Ent k l).
Proof. done. Qed.

(** The selectors of a program: null ones and those of its own table. *)
Definition user_sel (v : Z) : bool := data_sel v && negb (u16 v =? 0x08) && negb (u16 v =? 0x10).
Definition user_segs (r : regs) : Prop := user_sel (r_ds r) = true /\ user_sel (r_es r) = true /\ user_sel (r_fs r) = true /\ user_sel (r_gs r) = true.
(** The processor has interrupted a program. *)
Definition user_frame (f : iframe) : Prop := u16 (i_cs f) = 0x0f /\ u16 (i_ss f) = 0x17.

Lemma pop_seg_run k v l : data_sel v = true -> pop_seg (Ent k (v :: l)) = Ok v (Ent k l).
Proof. intros Hv. unfold pop_seg. rewrite (run_bind _ _ _ _ _ (pop_run k v l)). by rewrite Hv. Qed.
Lemma pop_seg_gp {B} (g : Z -> M ent B) k v l : data_sel v = false -> exists s', (pop_seg ≫= g) (Ent k (v :: l)) = Halt (Exit 11) s'.
Proof. intros Hv. unfold pop_seg. eexists. unfold mbind, M_bind. rewrite pop_run. by rewrite Hv. Qed.

Lemma user_frame_rpl f : user_frame f -> Z.land (i_cs f) 3 = 3.
Proof.
  intros [H _]. change 3 with (Z.ones 2) at 1. rewrite Z.land_ones by lia. unfold u16 in H.
  assert (E : (i_cs f mod 2 ^ 16) mod 2 ^ 2 = i_cs f mod 2 ^ 2) by (rewrite <-Znumtheory.Zmod_div_mod; [done|lia|lia|by exists (2 ^ 14)]). rewrite <-E, H. done.
Qed.
Lemma outer_user f v : user_sel v = true -> outer_sel f v = v.
Proof. unfold user_sel, outer_sel. intros [[_ H1]%andb_true_iff H2]%andb_true_iff. destruct (u16 v =? 8), (u16 v =? 16); try done. by rewrite andb_false_r. Qed.

(** The pops of label 3, on any twelve words with the frame of a program behind them. *)
Lemma restore_run k r w f l : user_segs r -> user_frame f ->
  restore_all (Ent k ([r_ebx r; r_ecx r; r_edx r; r_esi r; r_edi r; r_ebp r; r_eax r; r_ds r; r_es r; r_fs r; r_gs r; w] ++ pushed f ++ l)) = Ok (r, f) (Ent k l).
Proof.
  intros (H1 & H2 & H3 & H4) Hf. pose proof (user_frame_rpl f Hf) as Hc. destruct Hf as [Hcs Hss]. destruct f as [eip cs eflags esp ss]. cbn [i_cs i_ss] in *. unfold restore_all, pushed. cbn [i_eip i_cs i_eflags i_esp i_ss app].
  assert (Hd : forall v, user_sel v = true -> data_sel v = true) by (intros v; unfold user_sel; by intros [[? _]%andb_true_iff _]%andb_true_iff).
  do 7 (rewrite (run_bind _ _ _ _ _ (pop_run k _ _))). rewrite (run_bind _ _ _ _ _ (pop_seg_run k _ _ (Hd _ H1))), (run_bind _ _ _ _ _ (pop_seg_run k _ _ (Hd _ H2))), (run_bind _ _ _ _ _ (pop_seg_run k _ _ (Hd _ H3))), (run_bind _ _ _ _ _ (pop_seg_run k _ _ (Hd _ H4))). rewrite (run_bind _ _ _ _ _ (pop_run k _ _)).
  rewrite (run_bind iret _ _ (IFrame eip cs eflags esp ss) (Ent k l)); [by rewrite !outer_user by done; destruct r|]. unfold iret. do 3 (rewrite (run_bind _ _ _ _ _ (pop_run k _ _))). rewrite Hc. cbn [Z.eqb Pos.eqb].
  do 2 (rewrite (run_bind _ _ _ _ _ (pop_run k _ _))). by rewrite Hcs, Hss.
Qed.

(** The running task may go on: it is ready, has time left and no signal to take. *)
Record goes_back (k : kst) (t : task_struct) : Prop := {
  gb_task : heap k !! current k = Some t;
  gb_state : state t = 0;
  gb_counter : counter t <> 0;
  gb_quiet : Z.ldiff (signal t) (blocked t) = 0;
  gb_zero : is_Some (aget (task k) 0)
}.

Lemma ret_quiet rounds k t at2 l : goes_back k t -> (forall i, (i <= 16)%nat -> is_Some (l !! i)) -> ret_step rounds at2 (Ent k l) = (r ← restore_all; mret (M := M ent) (inr (A := bool) r)) (Ent k l).
Proof.
  intros [Ht Hs Hc Hq [o Ho]] Hl. unfold ret_step. rewrite (run_bind _ _ _ tt (Ent k l)).
  - rewrite (run_bind _ _ _ _ _ (on_k_run _ k k l _ (eq_refl : gets current k = Ok (current k) k))). rewrite (run_bind _ _ _ o (Ent k l)); [|apply on_k_run; unfold task_at; rewrite (run_bind _ _ _ _ _ (eq_refl : getS k = Ok k k)); by rewrite Ho]. cbv zeta.
    destruct (bool_decide (o = Some (current k))); [done|]. destruct (Hl CS) as [cs Hcs]; [unfold CS; lia|]. rewrite (run_bind _ _ _ cs (Ent k l)); [|unfold at_esp; rewrite (run_bind _ _ _ _ _ (eq_refl : getS (Ent k l) = Ok (Ent k l) (Ent k l))); cbn [stk]; by rewrite Hcs]. destruct (negb (u16 cs =? 15)); [done|].
    destruct (Hl OLDSS) as [ss Hss]; [unfold OLDSS; lia|]. rewrite (run_bind _ _ _ ss (Ent k l)); [|unfold at_esp; rewrite (run_bind _ _ _ _ _ (eq_refl : getS (Ent k l) = Ok (Ent k l) (Ent k l))); cbn [stk]; by rewrite Hss]. destruct (negb (u16 ss =? 23)); [done|].
    rewrite (run_bind _ _ _ _ _ (on_k_run _ k k l _ (cur_run signal k t Ht))), (run_bind _ _ _ _ _ (on_k_run _ k k l _ (cur_run blocked k t Ht))). by rewrite Hq.
  - destruct at2; [|done]. rewrite (run_bind _ _ _ _ _ (on_k_run _ k k l _ (cur_run state k t Ht))), (run_bind _ _ _ _ _ (on_k_run _ k k l _ (cur_run counter k t Ht))). rewrite Hs. by destruct (Z.eqb_spec (counter t) 0).
Qed.

Lemma nr_function name n : (name, n) ∈ nr_table -> aget sys_call_table n = Some (String.append "sys_" name) /\ 0 <= n < NR_syscalls.
Proof. intros H. assert (Hall : Forall (fun x => aget sys_call_table x.2 = Some (String.append "sys_" x.1) /\ 0 <= x.2 < NR_syscalls) nr_table) by (repeat constructor; vm_compute; congruence). by rewrite Forall_forall in Hall; apply (Hall (name, n)). Qed.

(** C15: A program that puts the number [__NR_name] into [eax] and executes [int $0x80]
    gets [sys_name] called with its registers on the stack; when the task goes on, the
    program (with selectors a program can have) continues where it was with the result in
    [eax] and every other register, the flags and the stack as they were, and nothing is
    left on the kernel stack. *)
Theorem system_call_restores (call : string -> M ent Z) rounds patience name r f k k' t v l : (name, r_eax r) ∈ nr_table -> user_segs r -> user_frame f ->
  call (String.append "sys_" name) (Ent k (saved r ++ pushed f ++ l)) = Ok v (Ent k' (saved r ++ pushed f ++ l)) -> goes_back k' t -> (0 < patience)%nat ->
  system_call call rounds patience r (Ent k (pushed f ++ l)) = Ok (set_eax v r, f) (Ent k' l).
Proof.
  intros Hn Hsegs Hcs Hcall Ht Hp. destruct (nr_function _ _ Hn) as [Ef Hr]. assert (Hu : u32 (r_eax r) = r_eax r) by (apply u32_small; change NR_syscalls with 90 in Hr; unfold in_u32; lia).
  unfold system_call. rewrite (run_bind _ _ _ _ _ (save_all_run r k _)), Hu. destruct (Z.leb_spec NR_syscalls (r_eax r)); [lia|]. rewrite (run_bind _ _ _ (String.append "sys_" name) (Ent k (saved r ++ pushed f ++ l))) by (by rewrite Ef). rewrite (run_bind _ _ _ _ _ Hcall).
  rewrite (run_bind _ _ _ _ _ (eq_refl : put_esp 6 v (Ent k' (saved r ++ pushed f ++ l)) = Ok tt (Ent k' (<[6%nat := v]> (saved r ++ pushed f ++ l)%list)))). destruct patience as [|n]; [lia|]. unfold ret_from_sys_call. cbn [iter].
  rewrite (run_bind _ _ _ (inr (set_eax v r, f)) (Ent k' l)); [done|]. rewrite (ret_quiet rounds k' t); [|done|intros i Hi; do 17 (destruct i as [|i]; [by eexists|]); lia].
  by rewrite (run_bind _ _ _ _ _ (restore_run k' (set_eax v r) (r_eax r) f l Hsegs Hcs)).
Qed.

(** The way out ends in a general protection exception if the popping does. *)
Lemma ret_halts rounds patience k t at2 l h s' : goes_back k t -> (forall i, (i <= 16)%nat -> is_Some (l !! i)) -> (0 < patience)%nat ->
  restore_all (Ent k l) = Halt h s' -> ret_from_sys_call rounds patience at2 (Ent k l) = Halt h s'.
Proof.
  intros Ht Hl Hp Hr. destruct patience as [|n]; [lia|]. unfold ret_from_sys_call. cbn [iter]. unfold mbind at 1, M_bind at 1. rewrite (ret_quiet rounds k t) by done.
  unfold mbind at 1, M_bind at 1. by rewrite Hr.
Qed.

(** C29: A number without a function (up to 65535) does not return [-ENOSYS]:
    [bad_sys_call] pushes a word more than label 3 pops, so every register is given the
    word of another; [ds] would get the number of the call, which is no selector, and
    the general protection exception ends the program. *)
Theorem bad_sys_call_kills (call : string -> M ent Z) rounds patience r f k t l : NR_syscalls <= r_eax r < 65536 -> goes_back k t -> (0 < patience)%nat ->
  exists s', system_call call rounds patience r (Ent k (pushed f ++ l)) = Halt (Exit 11) s'.
Proof.
  intros Hn Ht Hp. assert (Hu : u32 (r_eax r) = r_eax r) by (apply u32_small; change NR_syscalls with 90 in Hn; unfold in_u32; lia).
  assert (Hsel : data_sel (r_eax r) = false) by (unfold data_sel; rewrite u16_small by (change NR_syscalls with 90 in Hn; unfold in_u16; lia); change NR_syscalls with 90 in Hn; lia).
  unfold system_call. rewrite (run_bind _ _ _ _ _ (save_all_run r k _)), Hu. destruct (Z.leb_spec NR_syscalls (r_eax r)); [|lia].
  rewrite (run_bind _ _ _ _ _ (eq_refl : push (- ENOSYS) (Ent k (saved r ++ pushed f ++ l)) = Ok tt (Ent k (- ENOSYS :: saved r ++ pushed f ++ l)))).
  assert (Hr : exists s', restore_all (Ent k (- ENOSYS :: saved r ++ pushed f ++ l)) = Halt (Exit 11) s') by (unfold restore_all, saved; cbn [app]; do 7 (rewrite (run_bind _ _ _ _ _ (pop_run k _ _))); by apply pop_seg_gp).
  destruct Hr as [s' Hr]. exists s'. apply (ret_halts rounds patience k t); [done| |done|exact Hr]. intros i Hi. do 17 (destruct i as [|i]; [by eexists|]). lia.
Qed.

(** The timer interrupt does not return to the program it interrupted: its frame has
    eight words where label 3 pops twelve.  The privilege for [do_timer] is read above
    the frame, where [w0] happens to be, and [es] would get the program's [eip]; unless
    its low half is a selector, the exception ends the program. *)
Theorem timer_interrupt_kills rounds patience r f k k' t w0 w1 w2 w3 l :
  do_timer rounds (Z.land w0 3) (Kst (heap k) (task k) (current k) (u32 (jiffies k + 1)) (startup_time k) (jiffies_offset k) (wq k) (timers k) (sysd k) (trace k)) = Ok tt k' -> goes_back k' t -> (0 < patience)%nat ->
  data_sel (r_ds r) = true -> data_sel (i_eip f) = false ->
  exists s', timer_interrupt rounds patience r (Ent k (pushed f ++ [w0; w1; w2; w3] ++ l)) = Halt (Exit 11) s'.
Proof.
  intros Ht Hb Hp Hds Heip. destruct f as [eip cs eflags esp ss]. cbn [i_eip pushed i_cs i_eflags i_esp i_ss app] in *. set (st := [r_eax r; r_ebx r; r_ecx r; r_edx r; -1; r_fs r; r_es r; r_ds r; eip; cs; eflags; esp; ss; w0; w1; w2; w3] ++ l).
  assert (Hr : exists s', restore_all (Ent k' st) = Halt (Exit 11) s') by (unfold restore_all, st; cbn [app]; do 7 (rewrite (run_bind _ _ _ _ _ (pop_run k' _ _))); rewrite (run_bind _ _ _ _ _ (pop_seg_run k' _ _ Hds)); by apply pop_seg_gp).
  destruct Hr as [s' Hr]. exists s'. unfold timer_interrupt. do 9 (erewrite run_bind; [|reflexivity]). erewrite run_bind; [|reflexivity]. cbn [stk en_k]. erewrite run_bind; [|apply on_k_run, Ht].
  apply (ret_halts rounds patience k' t); [done| |done|exact Hr]. intros i Hi. do 17 (destruct i as [|i]; [by eexists|]). lia.
Qed.

(** The parameters of [do_signal] are declared in the order of the timer's frame, not in
    that of [system_call]: in a signal taken on the way out of a system call its [eax]
    is the saved [ebx], its [eip] the saved [es] and its [esp] the number of the call;
    the [eip] and [esp] the program goes on with are left as they were, so a handler is
    never entered. *)
Theorem signal_misses_frame rounds signr r f k k' res f' l :
  do_signal rounds signr (Frame (s32 (r_ebx r)) (s32 (r_edx r)) (s32 (r_esi r)) (s32 (r_edi r)) (s32 (r_es r)) (s32 (r_gs r)) (u32 (r_eax r))) k = Ok (res, f') k' ->
  call_do_signal rounds signr (Ent k (saved r ++ pushed f ++ l)) =
    Ok res (Ent k' ([f_eax f'; r_ecx r; r_edx r; r_esi r; r_edi r; r_ebp r; r_eax r; r_ds r; f_eip f'; r_fs r; r_gs r; f_esp f'] ++ pushed f ++ l)).
Proof. intros E. unfold call_do_signal. do 7 (erewrite run_bind; [|reflexivity]). erewrite run_bind; [|apply on_k_run, E]. done. Qed.

(** An exception whose handler comes back leaves the program as it was: [do_int3] does. *)
Theorem int3_resumes handler fn r f k k' l : user_segs r -> user_frame f ->
  (forall st, handler fn 0 (Ent k st) = Ok tt (Ent k' st)) -> int3 handler fn r (Ent k (pushed f ++ l)) = Ok (r, f) (Ent k' l).
Proof.
  intros Hsegs Hc Hh. unfold int3, error_code. do 12 (erewrite run_bind; [|reflexivity]). do 6 (erewrite run_bind; [|reflexivity]). erewrite run_bind; [|apply Hh]. do 2 (erewrite run_bind; [|reflexivity]). by apply (restore_run k' r (-1) f l).
Qed.

(** [divide_error] pushes no error code, and the processor pushes none either: its
    handler is given the program's [eip] as the code. *)
Theorem divide_error_code handler fn r f k h l : (forall st, handler fn (i_eip f) (Ent k st) = Halt h (Ent k st)) ->
  exists s, divide_error handler fn r (Ent k (pushed f ++ l)) = Halt h s.
Proof. intros Hh. unfold divide_error, error_code. do 11 (erewrite run_bind; [|reflexivity]). do 6 (erewrite run_bind; [|reflexivity]). cbn [pushed app] in *. eexists. unfold mbind, M_bind at 1. cbn. by rewrite Hh. Qed.

(** ** Witnesses *)

Lemma demo_goes_back : goes_back demo_kill (set_euid 5 (INIT_TASK 1)).
Proof. by split; [reflexivity|reflexivity|vm_compute; discriminate|reflexivity|eexists; reflexivity]. Qed.
Definition demo_regs : regs := Regs 1 2 3 4 5 6 20 23 23 23 23.
Definition demo_iframe : iframe := IFrame 1000 15 512 8000 23.

Lemma system_call_restores_witness : system_call (fun _ => mret 1) 0 1 demo_regs (Ent demo_kill (pushed demo_iframe ++ [])) = Ok (set_eax 1 demo_regs, demo_iframe) (Ent demo_kill []).
Proof. apply (system_call_restores (fun _ => mret 1) 0 1 "getpid" demo_regs demo_iframe demo_kill demo_kill (set_euid 5 (INIT_TASK 1)) 1 []); [apply (bool_decide_unpack _); vm_compute; exact I|repeat split; reflexivity|split; reflexivity|reflexivity|apply demo_goes_back|lia]. Defined.

Lemma bad_sys_call_kills_witness : exists s', system_call (fun _ => mret 1) 0 1 (set_eax 90 demo_regs) (Ent demo_kill (pushed demo_iframe ++ [])) = Halt (Exit 11) s'.
Proof. apply (bad_sys_call_kills (fun _ => mret 1) 0 1 (set_eax 90 demo_regs) demo_iframe demo_kill (set_euid 5 (INIT_TASK 1)) []); [vm_compute; split; [discriminate|reflexivity]|apply demo_goes_back|lia]. Defined.
