(* ===== verification/Gates.v ===== *)
(** * Interrupt gates and exceptions: [kernel/traps.c], [include/asm/system.h]

    [setup_idt] of [boot/head.S] fills the interrupt table with gates to [ignore_int];
    [trap_init] and the other set-up routines replace them.  A gate is two words with the address of the entry, the code segment of the kernel, a
    type and the privilege that [int] needs to use it.

    The addresses of the entries are an argument; what [die] prints is modelled by its
    formats. *)

From S2P Require Import Prelude TaskStruct Sched Exit.

(** ** The table *)

(** [struct desc_struct] *)
Record desc_struct := Desc { d_a : Z; d_b : Z }.
Definition idt_t := gmap Z desc_struct.

Section Gates.
Context (addr : string -> Z).

(** [_set_gate(gate_addr, type, dpl, addr)] *)
Definition gate_desc (type dpl a : Z) : desc_struct :=
  let flags := u16 (0x8000 + Z.shiftl dpl 13 + Z.shiftl type 8) in
  Desc (Z.lor (Z.land 0x00080000 0xffff0000) (Z.land a 0xffff)) (Z.lor (Z.land a 0xffff0000) flags).
Definition _set_gate (n type dpl : Z) (entry : string) : M idt_t unit :=
  if (0 <=? n) && (n <? 256) then modify (<[n := gate_desc type dpl (addr entry)]>) else halts Fault.
Definition set_intr_gate (n : Z) (entry : string) : M idt_t unit := _set_gate n 14 0 entry.
Definition set_trap_gate (n : Z) (entry : string) : M idt_t unit := _set_gate n 15 0 entry.
Definition set_system_gate (n : Z) (entry : string) : M idt_t unit := _set_gate n 15 3 entry.

(** [setup_idt] of [boot/head.S] *)
Definition setup_idt : M idt_t unit :=
  let edx := addr "ignore_int" in
  let eax := Z.lor 0x00080000 (Z.land edx 0xffff) in
  let edx := Z.lor (Z.land edx 0xffff0000) 0x8E00 in
  for_each (range 0 256) (fun n => modify (<[n := Desc eax edx]>)).

(** [void trap_init(void)] *)
Definition trap_init : M idt_t unit :=
  set_trap_gate 0 "divide_error";;
  set_trap_gate 1 "debug";;
  set_trap_gate 2 "nmi";;
  set_system_gate 3 "int3";;
  set_system_gate 4 "overflow";;
  set_system_gate 5 "bounds";;
  set_trap_gate 6 "invalid_op";;
  set_trap_gate 8 "double_fault";;
  set_trap_gate 9 "coprocessor_segment_overrun";;
  set_trap_gate 10 "invalid_TSS";;
  set_trap_gate 11 "segment_not_present";;
  set_trap_gate 12 "stack_segment";;
  set_trap_gate 13 "general_protection";;
  set_trap_gate 14 "page_fault";;
  set_trap_gate 15 "reserved";;
  set_trap_gate 17 "alignment_check";;
  for_each (range 18 30) (fun i => set_trap_gate i "reserved").

(** The gates of [con_init], [rs_init], [sched_init] and [hd_init], in the order
    [start_kernel] calls them. *)
Definition boot_gates : M idt_t unit :=
  trap_init;;
  set_trap_gate 0x21 "keyboard_interrupt";;
  set_intr_gate 0x24 "rs1_interrupt";; set_intr_gate 0x23 "rs2_interrupt";;
  set_intr_gate 0x20 "timer_interrupt";; set_system_gate 0x80 "system_call";;
  set_intr_gate 0x2E "hd_interrupt".

(** The whole start: [startup_32] calls [setup_idt], then [start_kernel]. *)
Definition boot_idt : M idt_t unit := setup_idt;; boot_gates.

End Gates.

(** What the processor reads from a gate. *)
Definition gate_offset (d : desc_struct) : Z := Z.lor (Z.land (d_b d) 0xffff0000) (Z.land (d_a d) 0xffff).
Definition gate_selector (d : desc_struct) : Z := Z.shiftr (d_a d) 16.
Definition gate_present (d : desc_struct) : bool := Z.testbit (d_b d) 15.
Definition gate_dpl (d : desc_struct) : Z := Z.land (Z.shiftr (d_b d) 13) 3.
Definition gate_type (d : desc_struct) : Z := Z.land (Z.shiftr (d_b d) 8) 31.

(** [set_tss_desc] and [set_ldt_desc]: eight bytes with the length 104, the address and
    the type. *)
Definition _set_tssldt_desc (type a : Z) : desc_struct :=
  Desc (Z.lor 104 (Z.shiftl (Z.land a 0xffff) 16)) (Z.lor (Z.lor (Z.land (Z.shiftr a 16) 0xff) (Z.shiftl type 8)) (Z.land a 0xff000000)).
Definition set_tss_desc (a : Z) : desc_struct := _set_tssldt_desc 0x89 a.
Definition set_ldt_desc (a : Z) : desc_struct := _set_tssldt_desc 0x82 a.

(** ** Exceptions *)

(** [static void die(char * str, long esp_ptr, long nr)]; [esp] are the words at
    [esp_ptr]. *)
Definition die (rounds : nat) (msg : string) (esp : list Z) (nr : Z) : M kst unit :=
  printk msg;; printk ": %04x";;
  _ ← ofOpt (aget esp 1); ss ← ofOpt (aget esp 4);
  printk "EIP:    %04x:%p EFLAGS:    %p ESP:    %04x:%p";;
  printk "fs: %04x";;
  _ ← cur ldt; printk "base: %p, limit: %p";;
  (if ss =? 0x17 then printk "Stack: ";; for_each (range 0 4) (fun _ => printk "%p ") else mret tt);;
  _ ← cur pid; printk "Pid: %d, process nr: %d";;
  for_each (range 0 10) (fun _ => printk "%02x ");;
  do_exit rounds 11.

(** The functions [do_*]: the entry, and what its handler says when it dies. *)
Definition trap_messages : list (string * string) :=
  [ ("double_fault", "double fault"); ("general_protection", "general protection"); ("alignment_check", "alignment check");
    ("divide_error", "divide error"); ("nmi", "nmi"); ("debug", "debug"); ("overflow", "overflow"); ("bounds", "bounds");
    ("invalid_op", "invalid operand"); ("device_not_available", "device not available");
    ("coprocessor_segment_overrun", "coprocessor segment overrun"); ("invalid_TSS", "invalid TSS");
    ("segment_not_present", "segment not present"); ("stack_segment", "stack segment"); ("coprocessor_error", "coprocessor error");
    ("reserved", "reserved (15,17-47) error") ].

(** [do_int3] and the other handlers. *)
Definition do_int3 : M kst unit := mret tt.
Definition do_trap (rounds : nat) (name : string) (esp : list Z) (code : Z) : M kst unit :=
  match list_find (fun x => x.1 = name) trap_messages with
  | Some (_, (_, msg)) => die rounds msg esp code
  | None => halts Fault
  end.
