(* ===== verification/GatesOk.v ===== *)
(** * Theorems about the interrupt gates

    What the processor reads from the gates that [setup_idt], [trap_init] and the drivers
    have written: for all 256 vectors, where it leads and who may use it. *)

From S2P Require Import Prelude TaskStruct Sched Exit Gates.

(** ** What a gate says *)

Lemma bit_u32_high a i : in_u32 a -> 32 <= i -> Z.testbit a i = false.
Proof. intros Ha Hi. rewrite <-(u32_small a Ha). unfold u32. by apply Z.mod_pow2_bits_high. Qed.

Lemma land_low16 a i : 0 <= i -> Z.testbit (Z.land a 0xffff) i = (Z.testbit a i && (i <? 16)).
Proof. intros Hi. rewrite Z.land_spec. f_equal. change 0xffff with (Z.ones 16). destruct (Z.ltb_spec i 16); [by apply Z.ones_spec_low|by apply Z.ones_spec_high]. Qed.
Lemma land_high16 a i : 0 <= i -> Z.testbit (Z.land a 0xffff0000) i = (Z.testbit a i && (16 <=? i) && (i <? 32)).
Proof.
  intros Hi. rewrite Z.land_spec, <-andb_assoc. f_equal. change 0xffff0000 with (Z.shiftl (Z.ones 16) 16). rewrite Z.shiftl_spec by done. destruct (Z.leb_spec 16 i); [|by rewrite Z.testbit_neg_r by lia]. destruct (Z.ltb_spec i 32); [by apply Z.ones_spec_low; lia|by apply Z.ones_spec_high; lia].
Qed.

Lemma gate_flags type dpl : 0 <= dpl < 4 -> 0 <= type < 32 -> exists fl, u16 (0x8000 + Z.shiftl dpl 13 + Z.shiftl type 8) = fl /\ 0 <= fl < 65536 /\ Z.testbit fl 15 = true /\ Z.land (Z.shiftr fl 13) 3 = dpl /\ Z.land (Z.shiftr fl 8) 31 = type.
Proof.
  intros Hd Ht. eexists. split; [reflexivity|]. split; [apply u16_range|]. rewrite !Z.shiftl_mul_pow2 by lia.
  assert (Hin : dpl ∈ range 0 4 /\ type ∈ range 0 32) by (rewrite !elem_of_range; lia). destruct Hin as [H1 H2].
  assert (Hall : Forall (fun d => Forall (fun t => Z.testbit (u16 (0x8000 + d * 2 ^ 13 + t * 2 ^ 8)) 15 = true /\ Z.land (Z.shiftr (u16 (0x8000 + d * 2 ^ 13 + t * 2 ^ 8)) 13) 3 = d /\ Z.land (Z.shiftr (u16 (0x8000 + d * 2 ^ 13 + t * 2 ^ 8)) 8) 31 = t) (range 0 32)) (range 0 4)) by (apply (bool_decide_unpack _); vm_compute; exact I).
  rewrite Forall_forall in Hall. specialize (Hall dpl H1). rewrite Forall_forall in Hall. apply (Hall type H2).
Qed.

(** A gate made by [_set_gate] is read back by the processor. *)
Lemma gate_fields type dpl a : 0 <= dpl < 4 -> 0 <= type < 32 -> in_u32 a ->
  gate_offset (gate_desc type dpl a) = a /\ gate_selector (gate_desc type dpl a) = 8 /\ gate_present (gate_desc type dpl a) = true /\ gate_dpl (gate_desc type dpl a) = dpl /\ gate_type (gate_desc type dpl a) = type.
Proof.
  intros Hd Ht Ha. destruct (gate_flags type dpl Hd Ht) as (fl & E & Hr & H15 & H13 & H8). unfold gate_desc. cbv zeta. rewrite E. clear E.
  assert (Hfl : forall i, 16 <= i -> Z.testbit fl i = false) by (intros i Hi; apply (testbit_above fl 16); lia).
  assert (Hlow : forall i, 0 <= i < 16 -> Z.testbit (Z.lor (Z.land a 0xffff0000) fl) i = Z.testbit fl i) by (intros i Hi; rewrite Z.lor_spec, land_high16 by lia; by destruct (Z.leb_spec 16 i); [lia|]; rewrite andb_false_r).
  unfold gate_offset, gate_selector, gate_present, gate_dpl, gate_type. cbn [d_a d_b]. split; [|split; [|split; [|split]]].
  - apply Z.bits_inj'. intros i Hi. rewrite Z.lor_spec, land_high16, land_low16 by lia. rewrite !Z.lor_spec, land_high16, land_low16 by lia. change (Z.land 0x80000 0xffff0000) with 0x80000.
    destruct (Z.leb_spec 16 i).
    + destruct (Z.ltb_spec i 16); [lia|]. rewrite !andb_false_r. rewrite (Hfl i) by lia. destruct (Z.ltb_spec i 32); [by rewrite !andb_true_r, !orb_false_r|]. rewrite !andb_false_r. by rewrite (bit_u32_high a i).
    + destruct (Z.ltb_spec i 16); [|lia]. rewrite !andb_true_r, andb_false_r, andb_false_l. cbn [orb]. assert (Z.testbit 0x80000 i = false) as ->; [|done]. change 0x80000 with (Z.shiftl 1 19). apply Z.shiftl_spec_low. lia.
  - apply Z.bits_inj'. intros i Hi. rewrite Z.shiftr_spec, Z.lor_spec, land_low16 by lia. destruct (Z.ltb_spec (i + 16) 16); [lia|]. rewrite andb_false_r, orb_false_r. change (Z.land 0x80000 0xffff0000) with (Z.shiftl 8 16). rewrite Z.shiftl_spec by lia. f_equal. lia.
  - by rewrite Hlow by lia.
  - rewrite <-H13. change 3 with (Z.ones 2). apply Z.bits_inj'. intros i Hi. rewrite !Z.land_spec, !Z.shiftr_spec by lia. destruct (Z.lt_ge_cases i 2); [by rewrite Hlow by lia|]. by rewrite Z.ones_spec_high, !andb_false_r by lia.
  - rewrite <-H8. change 31 with (Z.ones 5). apply Z.bits_inj'. intros i Hi. rewrite !Z.land_spec, !Z.shiftr_spec by lia. destruct (Z.lt_ge_cases i 5); [by rewrite Hlow by lia|]. by rewrite Z.ones_spec_high, !andb_false_r by lia.
Qed.

(** ** The table after the start *)

(** The gates as they should be: type, privilege, entry. *)
Definition gate_spec : Type := Z * Z * string.
Definition trap_specs : list (Z * gate_spec) :=
  [ (0, (15, 0, "divide_error")); (1, (15, 0, "debug")); (2, (15, 0, "nmi")); (3, (15, 3, "int3")); (4, (15, 3, "overflow"));
    (5, (15, 3, "bounds")); (6, (15, 0, "invalid_op")); (8, (15, 0, "double_fault")); (9, (15, 0, "coprocessor_segment_overrun"));
    (10, (15, 0, "invalid_TSS")); (11, (15, 0, "segment_not_present")); (12, (15, 0, "stack_segment")); (13, (15, 0, "general_protection"));
    (14, (15, 0, "page_fault")); (15, (15, 0, "reserved")); (17, (15, 0, "alignment_check")) ]
  ++ ((fun i => (i, (15, 0, "reserved"))) <$> range 18 30)
  ++ [ (0x21, (15, 0, "keyboard_interrupt")); (0x24, (14, 0, "rs1_interrupt")); (0x23, (14, 0, "rs2_interrupt")); (0x20, (14, 0, "timer_interrupt"));
       (0x80, (15, 3, "system_call")); (0x2E, (14, 0, "hd_interrupt")) ].
Definition spec_map : gmap Z gate_spec := list_to_map (reverse trap_specs).
(** The other vectors keep the gate of [setup_idt]. *)
Definition ignored : gate_spec := (14, 0, "ignore_int").
Definition vector_spec (n : Z) : gate_spec := default ignored (spec_map !! n).
Definition all_specs : list (Z * gate_spec) := ((fun n => (n, ignored)) <$> range 0 256) ++ trap_specs.
Definition full_map : gmap Z gate_spec := foldl (fun m x => <[x.1 := x.2]> m) ∅ all_specs.

Section GatesOk.
Context (addr : string -> Z).

Definition put_spec (x : Z * gate_spec) : M idt_t unit := _set_gate addr x.1 x.2.1.1 x.2.1.2 x.2.2.
Definition encode (x : gate_spec) : desc_struct := gate_desc x.1.1 x.1.2 (addr x.2).

Lemma put_specs_run l m : Forall (fun x => 0 <= x.1 < 256) l -> for_each l put_spec (encode <$> m) = Ok tt (encode <$> (foldl (fun m x => <[x.1 := x.2]> m) m l)).
Proof using.
  revert m. induction l as [|x l IH]; intros m Hl; [done|]. apply Forall_cons in Hl as [Hx Hl]. cbn [for_each foldl]. rewrite (run_bind _ _ _ tt (encode <$> <[x.1 := x.2]> m)); [by apply IH|].
  unfold put_spec, _set_gate. destruct (Z.leb_spec 0 x.1); [|lia]. destruct (Z.ltb_spec x.1 256); [|lia]. cbn [andb]. unfold modify. by rewrite fmap_insert.
Qed.

Lemma boot_idt_run : boot_idt addr ∅ = for_each all_specs put_spec ∅.
Proof using. reflexivity. Qed.
End GatesOk.

(** A property of all the vectors, checked one by one. *)
Lemma full_map_all (f : Z -> gate_spec -> bool) n x : forallb (fun y => f y.1 y.2) (map_to_list full_map) = true -> full_map !! n = Some x -> f n x = true.
Proof. intros Hall Hn. rewrite forallb_forall in Hall. apply (Hall (n, x)). by apply list_elem_of_In, elem_of_map_to_list. Qed.

Lemma full_map_dom n : is_Some (full_map !! n) <-> 0 <= n < 256.
Proof.
  rewrite <-elem_of_dom. assert (E : dom full_map = list_to_set (range 0 256)) by (apply (bool_decide_unpack _); vm_compute; exact I).
  rewrite E, elem_of_list_to_set, elem_of_range. lia.
Qed.

Lemma full_map_spec n x : full_map !! n = Some x -> x = vector_spec n /\ 0 <= x.1.2 < 4 /\ 0 <= x.1.1 < 32 /\
  (x.1.2 = 3 <-> n ∈ [3; 4; 5; 0x80]) /\ (x.1.1 = 14 <-> n ∈ [0x20; 0x23; 0x24; 0x2E] \/ spec_map !! n = None).
Proof.
  intros Hn. pose proof (full_map_all (fun n x => bool_decide (x = vector_spec n /\ 0 <= x.1.2 < 4 /\ 0 <= x.1.1 < 32 /\
    (x.1.2 = 3 <-> n ∈ [3; 4; 5; 0x80]) /\ (x.1.1 = 14 <-> n ∈ [0x20; 0x23; 0x24; 0x2E] \/ spec_map !! n = None))) n x) as H.
  apply (bool_decide_eq_true_1 _), H; [vm_compute; reflexivity|done].
Qed.

(** C25: After the start every one of the 256 vectors has a gate that is present and leads
    into the code segment of the kernel, to the entry meant for its number, or to
    [ignore_int] for the vectors that only [setup_idt] has set.  A program can use
    exactly the gates 3, 4, 5 and 0x80 with [int] (the others need the privilege of the
    kernel).  Of the vectors that have a handler, the clock, the serial lines and the
    disk, and only these, disable interrupts; the others that do go to [ignore_int]. *)
Theorem boot_gates_ok (addr : string -> Z) : (forall s, in_u32 (addr s)) ->
  exists m, boot_idt addr ∅ = Ok tt m /\ (forall n, is_Some (m !! n) <-> 0 <= n < 256) /\
    forall n d, m !! n = Some d ->
      gate_present d = true /\ gate_selector d = 8 /\ gate_offset d = addr (vector_spec n).2 /\
      (gate_dpl d = 3 <-> n ∈ [3; 4; 5; 0x80]) /\ (gate_type d = 14 <-> n ∈ [0x20; 0x23; 0x24; 0x2E] \/ spec_map !! n = None).
Proof.
  intros Ha. exists (encode addr <$> full_map). rewrite boot_idt_run. split; [|split].
  - assert (E0 : (∅ : idt_t) = encode addr <$> (∅ : gmap Z gate_spec)) by (symmetry; apply (fmap_empty (M := gmap Z) (encode addr))). rewrite E0, put_specs_run by (apply (bool_decide_unpack _); vm_compute; exact I). reflexivity.
  - intros n. rewrite <-full_map_dom. split.
    + intros [d Hd]. apply (lookup_fmap_Some (M := gmap Z)) in Hd. destruct Hd as (x & _ & Hx). by exists x.
    + intros [x Hx]. exists (encode addr x). apply (lookup_fmap_Some (M := gmap Z)). by exists x.
  - intros n d Hd. apply (lookup_fmap_Some (M := gmap Z)) in Hd. destruct Hd as ([[t p] s] & <- & Hn). unfold encode. cbn [fst snd].
    destruct (full_map_spec n _ Hn) as (E & Hp & Ht & H3 & H14). cbn [fst snd] in *. destruct (gate_fields t p (addr s) Hp Ht (Ha s)) as (Eo & Es & Epr & Ed & Et).
    rewrite Epr, Es, Ed, Et, Eo, <-E. by do 4 (split; [done|]).
Qed.

Lemma boot_gates_ok_witness : exists m, boot_idt (fun _ => 0x12345678) ∅ = Ok tt m /\ (forall n, is_Some (m !! n) <-> 0 <= n < 256) /\
    forall n d, m !! n = Some d ->
      gate_present d = true /\ gate_selector d = 8 /\ gate_offset d = 0x12345678 /\
      (gate_dpl d = 3 <-> n ∈ [3; 4; 5; 0x80]) /\ (gate_type d = 14 <-> n ∈ [0x20; 0x23; 0x24; 0x2E] \/ spec_map !! n = None).
Proof. apply (boot_gates_ok (fun _ => 0x12345678)). intros s. unfold in_u32. lia. Defined.
