(* ===== verification/Init.v ===== *)
(** * Starting the system: [init/main.c]

    [start_kernel] divides memory between the buffer cache and pages, reads the clock
    and starts the first program; [init] runs a shell on the first terminal, again and
    again.

    What the clock shows at each read is an argument.  The system calls [init] makes are
    the interface [Syscalls]: what it relies on is how descriptors are given out. *)

From S2P Require Import Prelude Mktime Memory.

(** ** Memory *)

(** The three addresses [start_kernel] computes from [EXT_MEM_K], an unsigned short. *)
Record layout := Layout { memory_end : Z; buffer_memory_end : Z; main_memory_start : Z }.
Definition memory_layout (EXT_MEM_K : Z) : layout :=
  let m := s32 (Z.shiftl 1 20 + Z.shiftl EXT_MEM_K 10) in
  let m := Z.land m 0xfffff000 in
  let m := if 16 * 1024 * 1024 <? m then 16 * 1024 * 1024 else m in
  let b :=
    if 12 * 1024 * 1024 <=? m then 4 * 1024 * 1024
    else if 6 * 1024 * 1024 <=? m then 2 * 1024 * 1024
    else if 4 * 1024 * 1024 <=? m then 3 * 512 * 1024
    else 1 * 1024 * 1024 in
  Layout m b b.
(** The call of [mem_init]. *)
Definition start_memory (EXT_MEM_K : Z) : M mst unit := mem_init (main_memory_start (memory_layout EXT_MEM_K)) (memory_end (memory_layout EXT_MEM_K)).

(** ** The clock *)

Definition BCD_TO_BIN (v : Z) : Z := Z.land v 15 + Z.shiftr v 4 * 10.

Section Clock.
(** The byte in register [r] of the clock at the [k]th read. *)
Context (cmos : nat -> Z -> Z).

Definition CMOS_READ (r : Z) : M nat Z := k ← getS; modify S;; mret (u8 (cmos k r)).

(** The loop of [time_init]: six fields, and the seconds once more. *)
Definition read_clock (_ : unit) : M nat (unit + tm) :=
  sec ← CMOS_READ 0; min ← CMOS_READ 2; hour ← CMOS_READ 4; mday ← CMOS_READ 7; mon ← CMOS_READ 8; year ← CMOS_READ 9;
  again ← CMOS_READ 0;
  mret (if sec =? again then inr (Tm sec min hour mday mon year) else inl tt).

(** [static void time_init(void)]: the value for [startup_time]. *)
Definition time_init (patience : nat) : M nat Z :=
  t ← iter patience read_clock tt;
  let t := Tm (BCD_TO_BIN (tm_sec t)) (BCD_TO_BIN (tm_min t)) (BCD_TO_BIN (tm_hour t)) (BCD_TO_BIN (tm_mday t)) (BCD_TO_BIN (tm_mon t) - 1) (BCD_TO_BIN (tm_year t)) in
  r ← ofOpt (kernel_mktime t);
  mret r.1.
End Clock.

(** ** The first program *)

(** The system calls of [init], for a process whose open files are [fds]: a descriptor
    is the lowest that is free, and [execve] comes back only if it fails. *)
Class Syscalls (P : Type) := {
  fds : P -> gmap Z string;
  c_setup : M P Z;
  c_open : string -> M P Z;
  c_dup : Z -> M P Z;
  c_close : Z -> M P Z;
  c_fork : M P Z;
  c_wait : M P (Z * Z);
  c_execve : string -> M P Z;
  c_setsid : M P Z;
  c_sync : M P Z;
  c_printf : string -> M P unit;
  open_lowest : forall path p r p', c_open path p = Ok r p' -> 0 <= r -> (forall i, 0 <= i < r -> is_Some (fds p !! i)) /\ fds p !! r = None /\ fds p' = <[r := path]> (fds p);
  dup_lowest : forall i path p r p', fds p !! i = Some path -> c_dup i p = Ok r p' -> 0 <= r -> (forall j, 0 <= j < r -> is_Some (fds p !! j)) /\ fds p !! r = None /\ fds p' = <[r := path]> (fds p);
  close_frees : forall i p r p', c_close i p = Ok r p' -> fds p' = delete i (fds p);
  setsid_keeps : forall p r p', c_setsid p = Ok r p' -> fds p' = fds p
}.

Section Init.
Context {P : Type} `{Syscalls P} (patience : nat).

Definition _exit {A} (code : Z) : M P A := halts (Exit code).

(** [wait] until the process [pid] has died: its code. *)
Definition wait_for (pid : Z) : M P Z :=
  iter patience (fun _ : unit => '(p, i) ← c_wait; mret (if pid =? p then inr i else inl tt)) tt.

(** The process that runs [/etc/rc]. *)
Definition rc_child : M P unit :=
  _ ← c_close 0;
  fd ← c_open "/etc/rc";
  (if truth fd then _exit 1 else mret tt);;
  _ ← c_execve "/bin/sh";
  _exit 2.

(** The three descriptors of a shell, before it runs. *)
Definition open_terminal : M P unit := _ ← c_open "/dev/tty1"; _ ← c_dup 0; _ ← c_dup 0; mret tt.
Definition shell_files : M P unit :=
  _ ← c_close 0; _ ← c_close 1; _ ← c_close 2;
  _ ← c_setsid;
  open_terminal.
Definition shell_child : M P unit :=
  shell_files;;
  r ← c_execve "/bin/sh";
  _exit r.

(** A round of the endless loop. *)
Definition init_round : M P unit :=
  pid ← c_fork;
  if pid <? 0 then c_printf "Fork failed in init"
  else
    (if pid =? 0 then shell_child else mret tt);;
    i ← wait_for pid;
    c_printf "child %d died with code %04x";;
    _ ← c_sync;
    mret tt.

(** [void init(void)], [n] rounds of it. *)
Definition init (n : nat) : M P unit :=
  _ ← c_setup;
  open_terminal;;
  pid ← c_fork;
  (if pid =? 0 then rc_child else mret tt);;
  (if 0 <? pid then _ ← wait_for pid; mret tt else mret tt);;
  for_each (range 0 n) (fun _ => init_round).

End Init.
