(* ===== verification/InitOk.v ===== *)
(** * Theorems about the start *)

From S2P Require Import Prelude Mktime Memory Paging Init.

(** ** Memory *)

Lemma put_maps_run l m : Forall (fun i => 0 <= i < Z.of_nat (length (mem_map m))) l ->
  exists m', for_each l (fun i => put_map i 0) m = Ok tt m' /\ HIGH_MEMORY m' = HIGH_MEMORY m /\ length (mem_map m') = length (mem_map m) /\
    forall j, aget (mem_map m') j = if bool_decide (j ∈ l) then Some 0 else aget (mem_map m) j.
Proof.
  revert m. induction l as [|i l IH]; intros m Hl; [exists m; do 3 (split; [done|]); intros j; by rewrite bool_decide_eq_false_2 by apply not_elem_of_nil|]. apply Forall_cons in Hl as [Hi Hl]. destruct (aget_in_range (mem_map m) i Hi) as [c Hc]. set (m1 := set_mem_map (<[Z.to_nat i := 0]> (mem_map m)) m).
  assert (Hlen : length (mem_map m1) = length (mem_map m)) by apply length_insert. destruct (IH m1) as (m' & Hrun & Hh & Hl' & Hg); [by rewrite Hlen|]. exists m'. split; [|split; [done|split; [by rewrite Hl'|]]].
  - cbn [for_each]. by rewrite (run_bind _ _ _ _ _ (put_map_run i 0 m c Hc ltac:(unfold in_u8; lia))).
  - intros j. rewrite Hg. destruct (decide (j ∈ l)) as [Hj|Hj]; [by rewrite !bool_decide_eq_true_2 by set_solver|]. rewrite (bool_decide_eq_false_2 (j ∈ l)) by done. unfold m1. cbn [mem_map set_mem_map]. destruct (Z.eq_dec j i) as [->|Hne].
    + rewrite bool_decide_eq_true_2 by apply list_elem_of_here. by apply aget_insert_eq.
    + rewrite bool_decide_eq_false_2 by (rewrite not_elem_of_cons; done). apply aget_insert_ne; lia.
Qed.

Lemma layout_bounds k : in_u16 k -> let l := memory_layout k in
  main_memory_start l = buffer_memory_end l /\ LOW_MEM <= buffer_memory_end l <= memory_end l /\ memory_end l <= 0x1000000 /\
  memory_end l mod 4096 = 0 /\ buffer_memory_end l mod 4096 = 0.
Proof.
  intros Hk l. unfold in_u16 in Hk. subst l. unfold memory_layout. cbv zeta. set (m := s32 (Z.shiftl 1 20 + Z.shiftl k 10)). assert (Em : m = 0x100000 + 1024 * k) by (unfold m; rewrite !Z.shiftl_mul_pow2 by lia; rewrite s32_small; unfold in_s32; lia).
  rewrite land_page_mask by (unfold in_u32; lia). set (q := m / 4096). assert (Hq : 256 <= q < 0x5000) by (unfold q; rewrite Em; split; [apply Z.div_le_lower_bound; lia|apply Z.div_lt_upper_bound; lia]). clearbody q. unfold LOW_MEM. clear Em. clearbody m. cbn [memory_end buffer_memory_end main_memory_start].
  split; [done|]. assert (Hmod : forall z, (4096 * z) mod 4096 = 0) by (intros z; rewrite Z.mul_comm; by apply Z.mod_mul).
  destruct (Z.ltb_spec (16 * 1024 * 1024) (4096 * q)); repeat match goal with |- context [?a <=? ?b] => destruct (Z.leb_spec a b) end; rewrite ?Hmod; repeat split; try lia; done.
Qed.

(** C27: However much memory the machine reports, [start_kernel] gives the pages between
    the end of the buffers and the end of memory, and no others, to the page allocator:
    the limits are page boundaries between 1 and 16 MB, in order, and [mem_init] stays
    inside [mem_map]. *)
Theorem start_memory_ok (k : Z) (m : mst) : in_u16 k -> let l := memory_layout k in
  LOW_MEM <= buffer_memory_end l <= memory_end l /\ memory_end l <= 0x1000000 /\
  exists m', start_memory k m = Ok tt m' /\ HIGH_MEMORY m' = memory_end l /\
    forall i, 0 <= i < PAGING_PAGES -> aget (mem_map m') i = Some (if bool_decide (buffer_memory_end l <= frame_addr i < memory_end l) then 0 else USED).
Proof.
  intros Hk l. destruct (layout_bounds k Hk) as (Es & Hb & He & Hme & Hmb). fold l in Es, Hb, He, Hme, Hmb. split; [done|]. split; [done|]. unfold start_memory, mem_init. fold l. rewrite Es. set (bs := buffer_memory_end l) in *. set (me := memory_end l) in *. clearbody bs me. unfold LOW_MEM in *.
  pose proof (Z.div_mod bs 4096 ltac:(lia)). pose proof (Z.div_mod me 4096 ltac:(lia)).
  assert (En : MAP_NR bs = bs / 4096 - 256) by (unfold MAP_NR, LOW_MEM; rewrite Z.shiftr_div_pow2 by lia; symmetry; apply Z.div_unique with 0; lia). assert (Ec : Z.shiftr (me - bs) 12 = me / 4096 - bs / 4096) by (rewrite Z.shiftr_div_pow2 by lia; symmetry; apply Z.div_unique with 0; lia). rewrite En, Ec.
  set (m1 := set_mem_map (replicate (Z.to_nat PAGING_PAGES) USED) (set_high me (set_swap_dev 0 None m))). assert (Hp : PAGING_PAGES = 3840) by reflexivity.
  destruct (put_maps_run (range (bs / 4096 - 256) (Z.to_nat (me / 4096 - bs / 4096))) m1) as (m' & Hrun & Hh & _ & Hg); [rewrite Forall_forall; intros i Hi%elem_of_range; unfold m1; cbn [mem_map set_mem_map]; rewrite length_replicate, Hp; lia|].
  exists m'. do 3 (erewrite run_bind; [|reflexivity]). split; [done|]. split; [done|]. intros i Hi. rewrite Hg. unfold frame_addr, LOW_MEM. destruct (decide (bs <= 0x100000 + 4096 * i < me)) as [Hin|Hout].
  - rewrite (bool_decide_eq_true_2 (bs <= _ < me)) by done. by rewrite bool_decide_eq_true_2 by (apply elem_of_range; lia).
  - rewrite (bool_decide_eq_false_2 (bs <= _ < me)) by done. rewrite bool_decide_eq_false_2 by (rewrite elem_of_range; lia). unfold m1. cbn [mem_map set_mem_map]. unfold aget. destruct (Z.ltb_spec i 0); [lia|]. apply lookup_replicate_2. lia.
Qed.

Lemma start_memory_ok_witness : let l := memory_layout 0x3c00 in
  LOW_MEM <= buffer_memory_end l <= memory_end l /\ memory_end l <= 0x1000000 /\
  exists m', start_memory 0x3c00 (Mst 0 [] ∅ None 0 None ∅ ∅ 0 0 [] 0 [] 0 []) = Ok tt m' /\ HIGH_MEMORY m' = memory_end l /\
    forall i, 0 <= i < PAGING_PAGES -> aget (mem_map m') i = Some (if bool_decide (buffer_memory_end l <= frame_addr i < memory_end l) then 0 else USED).
Proof. apply (start_memory_ok 0x3c00). unfold in_u16. lia. Defined.

(** ** The clock *)

(** A number below 100 as the clock shows it. *)
Definition bcd (n : Z) : Z := 16 * (n / 10) + n mod 10.
Definition shows (t : tm) (r : Z) : Z :=
  if r =? 0 then bcd (tm_sec t) else if r =? 2 then bcd (tm_min t) else if r =? 4 then bcd (tm_hour t)
  else if r =? 7 then bcd (tm_mday t) else if r =? 8 then bcd (tm_mon t + 1) else bcd (tm_year t).

Lemma bcd_back n : 0 <= n < 100 -> BCD_TO_BIN (bcd n) = n /\ u8 (bcd n) = bcd n.
Proof.
  intros Hn. assert (Hall : Forall (fun n => BCD_TO_BIN (bcd n) = n /\ u8 (bcd n) = bcd n) (range 0 100)) by (apply (bool_decide_unpack _); vm_compute; exact I). rewrite Forall_forall in Hall. apply Hall. apply elem_of_range. lia.
Qed.

Section Clock.
(** What the clock shows at each read: valid dates with two-digit years. *)
Context (date : nat -> tm) (Hvalid : forall k, valid_tm (date k) /\ tm_year (date k) < 100).

Lemma field_range k : let t := date k in 0 <= tm_sec t < 100 /\ 0 <= tm_min t < 100 /\ 0 <= tm_hour t < 100 /\ 0 <= tm_mday t < 100 /\ 0 <= tm_mon t + 1 < 100 /\ 0 <= tm_year t < 100.
Proof using Hvalid.
  destruct (Hvalid k) as [(Hy & Hfy & Hm & Hd & Hh & Hmi & Hs) Hy2]. intros t. fold t in Hy, Hfy, Hm, Hd, Hh, Hmi, Hs, Hy2. assert (days_in_month (full_year t) (tm_mon t) <= 31); [|lia]. unfold days_in_month. destruct (leap (full_year t)); repeat case_match; lia.
Qed.

(** One round of the loop, from read [k]. *)
Lemma read_clock_run k : read_clock (fun k => shows (date k)) tt k =
  Ok (if tm_sec (date k) =? tm_sec (date (k + 6)) then inr (Tm (bcd (tm_sec (date k))) (bcd (tm_min (date (k + 1)))) (bcd (tm_hour (date (k + 2)))) (bcd (tm_mday (date (k + 3)))) (bcd (tm_mon (date (k + 4)) + 1)) (bcd (tm_year (date (k + 5))))) else inl tt) (k + 7)%nat.
Proof using Hvalid.
  unfold read_clock. assert (R : forall j r v, 0 <= v < 100 -> shows (date j) r = bcd v -> CMOS_READ (fun k => shows (date k)) r j = Ok (bcd v) (S j)) by (intros j r v Hv E; unfold CMOS_READ; do 2 (erewrite run_bind; [|reflexivity]); rewrite E; unfold mret, M_ret; f_equal; by apply bcd_back).
  destruct (field_range k) as (H0 & _), (field_range (k + 1)) as (_ & H1 & _), (field_range (k + 2)) as (_ & _ & H2 & _), (field_range (k + 3)) as (_ & _ & _ & H3 & _), (field_range (k + 4)) as (_ & _ & _ & _ & H4 & _), (field_range (k + 5)) as (_ & _ & _ & _ & _ & H5), (field_range (k + 6)) as (H6 & _).
  rewrite (run_bind _ _ _ _ _ (R k 0 _ H0 eq_refl)). replace (S k) with (k + 1)%nat by lia. rewrite (run_bind _ _ _ _ _ (R _ 2 _ H1 eq_refl)). replace (S (k + 1)) with (k + 2)%nat by lia. rewrite (run_bind _ _ _ _ _ (R _ 4 _ H2 eq_refl)). replace (S (k + 2)) with (k + 3)%nat by lia.
  rewrite (run_bind _ _ _ _ _ (R _ 7 _ H3 eq_refl)). replace (S (k + 3)) with (k + 4)%nat by lia. rewrite (run_bind _ _ _ _ _ (R _ 8 _ H4 eq_refl)). replace (S (k + 4)) with (k + 5)%nat by lia. rewrite (run_bind _ _ _ _ _ (R _ 9 _ H5 eq_refl)). replace (S (k + 5)) with (k + 6)%nat by lia. rewrite (run_bind _ _ _ _ _ (R _ 0 _ H6 eq_refl)). replace (S (k + 6)) with (k + 7)%nat by lia.
  unfold mret, M_ret. f_equal. destruct (Z.eqb_spec (tm_sec (date k)) (tm_sec (date (k + 6)))) as [->|Hne]; [by rewrite Z.eqb_refl|]. destruct (Z.eqb_spec (bcd (tm_sec (date k))) (bcd (tm_sec (date (k + 6))))) as [E|]; [|done]. destruct Hne. rewrite <-(proj1 (bcd_back _ H0)), E. apply (bcd_back _ H6).
Qed.

(** A round in which the seconds did not change saw one date. *)
Context (Htick : forall k, tm_sec (date k) = tm_sec (date (k + 6)) -> forall i, (i <= 6)%nat -> date (k + i) = date k).

Lemma clock_loop j : forall p k, (j < p)%nat -> tm_sec (date (k + 7 * j)) = tm_sec (date (k + 7 * j + 6)) ->
  exists i, (i <= j)%nat /\ iter p (read_clock (fun k => shows (date k))) tt k =
    (let t := date (k + 7 * i) in Ok (Tm (bcd (tm_sec t)) (bcd (tm_min t)) (bcd (tm_hour t)) (bcd (tm_mday t)) (bcd (tm_mon t + 1)) (bcd (tm_year t))) (k + 7 * (i + 1))%nat).
Proof using Hvalid Htick.
  induction j as [|j IH]; intros p k Hp Hs; (destruct p as [|p]; [lia|]); cbn [iter]; rewrite (run_bind _ _ _ _ _ (read_clock_run k)); destruct (Z.eqb_spec (tm_sec (date k)) (tm_sec (date (k + 6)))) as [E|E].
  - exists 0%nat. split; [lia|]. cbv zeta. by rewrite !(Htick k E) by lia.
  - rewrite Nat.mul_0_r, Nat.add_0_r in Hs. done.
  - exists 0%nat. split; [lia|]. cbv zeta. by rewrite !(Htick k E) by lia.
  - destruct (IH p (k + 7)%nat) as (i & Hi & Er); [lia|by replace (k + 7 + 7 * j)%nat with (k + 7 * S j)%nat by lia|]. exists (S i). split; [lia|]. rewrite Er. cbv zeta. replace (k + 7 + 7 * i)%nat with (k + 7 * S i)%nat by lia. by replace (k + 7 + 7 * (i + 1))%nat with (k + 7 * (S i + 1))%nat by lia.
Qed.

(** C26: [time_init] ends as soon as the clock stands still for the seven reads of a
    round, and gives the seconds since 1970 of the date that the clock showed during one
    round: fields of two dates are never mixed. *)
Theorem time_init_clock (patience j : nat) : (j < patience)%nat -> tm_sec (date (7 * j)) = tm_sec (date (7 * j + 6)) ->
  exists i, (i <= j)%nat /\ time_init (fun k => shows (date k)) patience 0%nat = Ok (epoch_seconds (date (7 * i))) (7 * (i + 1))%nat.
Proof using Hvalid Htick.
  intros Hp Hs. destruct (clock_loop j patience 0%nat Hp Hs) as (i & Hi & Er). exists i. split; [done|]. unfold time_init. rewrite (run_bind _ _ _ _ _ Er). rewrite Nat.add_0_l. cbn [tm_sec tm_min tm_hour tm_mday tm_mon tm_year]. destruct (field_range (7 * i)) as (H0 & H1 & H2 & H3 & H4 & H5).
  rewrite (proj1 (bcd_back _ H0)), (proj1 (bcd_back _ H1)), (proj1 (bcd_back _ H2)), (proj1 (bcd_back _ H3)), (proj1 (bcd_back _ H4)), (proj1 (bcd_back _ H5)), Z.add_simpl_r. destruct (kernel_mktime_run (date (7 * i)) (proj1 (Hvalid _))) as (t' & E & _). destruct (date (7 * i)) as [a b c d e f]. cbn [tm_sec tm_min tm_hour tm_mday tm_mon tm_year]. by rewrite E.
Qed.
End Clock.

(** A clock that ticks once, during the first round. *)
Definition demo_date (k : nat) : tm := Tm (if Nat.ltb k 3 then 29 else 30) 45 12 29 1 4.
Lemma time_init_clock_witness : exists i, (i <= 1)%nat /\ time_init (fun k => shows (demo_date k)) 2 0%nat = Ok (epoch_seconds (demo_date (7 * i))) (7 * (i + 1))%nat.
Proof.
  apply (time_init_clock demo_date); [intros k; unfold demo_date; destruct (Nat.ltb k 3); closed_arith| |lia|reflexivity].
  intros k E i Hi. unfold demo_date in *. destruct (Nat.ltb_spec k 3), (Nat.ltb_spec (k + 6) 3), (Nat.ltb_spec (k + i) 3); cbn in E; (lia || done).
Defined.

(** ** The first program *)

Section Shell.
Context {P : Type} `{Syscalls P}.

(** The lowest free descriptor is [n] if all below it are in use. *)
Lemma lowest_is (f : gmap Z string) r n : 0 <= r -> 0 <= n -> (forall i, 0 <= i < r -> is_Some (f !! i)) -> f !! r = None -> (forall i, 0 <= i < n -> is_Some (f !! i)) -> f !! n = None -> r = n.
Proof using.
  intros Hr Hn Hri Hr0 Hni Hn0. destruct (Z.lt_trichotomy r n) as [Hlt|[?|Hgt]]; [destruct (Hni r) as [? E]; [lia|congruence]|done|destruct (Hri n) as [? E]; [lia|congruence]].
Qed.

(** The shell that [init] starts has the terminal as its standard input, output and
    error: when the calls succeed, the descriptors 0, 1 and 2, whatever they were, are
    [/dev/tty1], and no other descriptor has changed. *)
Theorem shell_has_terminal (p : P) : (forall i p, exists r p', c_close i p = Ok r p') -> (forall p, exists r p', c_setsid p = Ok r p') ->
  (forall p, fds p !! 0 = None -> exists r p', c_open "/dev/tty1" p = Ok r p' /\ 0 <= r) -> (forall p, is_Some (fds p !! 0) -> fds p !! 2 = None -> exists r p', c_dup 0 p = Ok r p' /\ 0 <= r) ->
  exists p', shell_files p = Ok tt p' /\ forall i, fds p' !! i = if bool_decide (0 <= i <= 2) then Some "/dev/tty1" else fds p !! i.
Proof using.
  intros Hclose Hsetsid Hopen Hdup. destruct (Hclose 0 p) as (r0 & p0 & E0), (Hclose 1 p0) as (r1 & p1 & E1), (Hclose 2 p1) as (r2 & p2 & E2), (Hsetsid p2) as (r3 & p3 & E3).
  assert (F3 : fds p3 = delete 2 (delete 1 (delete 0 (fds p)))) by (by rewrite (setsid_keeps _ _ _ E3), (close_frees _ _ _ _ E2), (close_frees _ _ _ _ E1), (close_frees _ _ _ _ E0)). set (f := fds p3) in *. assert (N0 : f !! 0 = None /\ f !! 1 = None /\ f !! 2 = None) by (by rewrite F3, !lookup_delete). destruct N0 as (N0 & N1 & N2).
  destruct (Hopen p3 N0) as (r4 & p4 & E4 & H4). destruct (open_lowest _ _ _ _ E4 H4) as (L4 & M4 & F4). fold f in L4, M4, F4. assert (r4 = 0) as -> by (apply (lowest_is f); try done; intros i Hi; lia).
  destruct (Hdup p4) as (r5 & p5 & E5 & H5); [rewrite F4, lookup_insert_eq; by eexists|by rewrite F4, lookup_insert_ne|]. assert (G0 : fds p4 !! 0 = Some "/dev/tty1") by (by rewrite F4, lookup_insert_eq). destruct (dup_lowest _ _ _ _ _ G0 E5 H5) as (L5 & M5 & F5).
  assert (r5 = 1) as -> by (apply (lowest_is (fds p4)); try done; [intros i Hi; assert (i = 0) as -> by lia; rewrite G0; by eexists|by rewrite F4, lookup_insert_ne]).
  assert (G5 : fds p5 !! 0 = Some "/dev/tty1") by (by rewrite F5, lookup_insert_ne). destruct (Hdup p5) as (r6 & p6 & E6 & H6); [rewrite G5; by eexists|by rewrite F5, F4, !lookup_insert_ne|]. destruct (dup_lowest _ _ _ _ _ G5 E6 H6) as (L6 & M6 & F6).
  assert (r6 = 2) as -> by (apply (lowest_is (fds p5)); try done; [intros i Hi; assert (i = 0 \/ i = 1) as [-> | ->] by lia; [rewrite G5; by eexists|rewrite F5, lookup_insert_eq; by eexists]|by rewrite F5, F4, !lookup_insert_ne]).
  exists p6. split; [unfold shell_files, open_terminal; by rewrite (run_bind _ _ _ _ _ E0), (run_bind _ _ _ _ _ E1), (run_bind _ _ _ _ _ E2), (run_bind _ _ _ _ _ E3), (run_bind _ _ _ _ _ E4), (run_bind _ _ _ _ _ E5), (run_bind _ _ _ _ _ E6)|].
  intros i. rewrite F6, F5, F4, F3. case_bool_decide as Hi; [assert (i = 0 \/ i = 1 \/ i = 2) as [->|[-> | ->]] by lia; by simplify_map_eq|]. by rewrite !lookup_insert_ne, !lookup_delete_ne by lia.
Qed.
End Shell.

(** A process that is its table of twenty descriptors. *)
Fixpoint free_from (f : gmap Z string) (n : nat) (i : Z) : option Z :=
  match n with O => None | S n' => match f !! i with None => Some i | Some _ => free_from f n' (i + 1) end end.
Definition free_slot (f : gmap Z string) : option Z := free_from f 20 0.
Definition put_file (path : string) : M (gmap Z string) Z := fun f => match free_slot f with Some i => Ok i (<[i := path]> f) | None => Ok (-24) f end.

Definition dup_file (i : Z) : M (gmap Z string) Z := fun f => match f !! i with Some path => put_file path f | None => Ok (-9) f end.

Lemma free_from_lowest f n i r : free_from f n i = Some r -> i <= r /\ (forall j, i <= j < r -> is_Some (f !! j)) /\ f !! r = None.
Proof.
  revert i. induction n as [|n IH]; intros i E; [done|]. cbn in E. destruct (f !! i) as [s|] eqn:Ei; [|injection E as <-; split; [lia|split; [lia|done]]]. destruct (IH _ E) as (Hl & Hj & Hn). split; [lia|]. split; [|done]. intros j Hij. destruct (Z.eq_dec j i) as [->|]; [by rewrite Ei; eexists|apply Hj; lia].
Qed.
Lemma free_from_some f n i j : i <= j < i + Z.of_nat n -> f !! j = None -> is_Some (free_from f n i).
Proof. revert i. induction n as [|n IH]; intros i Hj E; [lia|]. cbn. destruct (f !! i) as [s|] eqn:Ei; [|by eexists]. apply IH; [|done]. destruct (Z.eq_dec j i) as [->|]; [congruence|lia]. Qed.
Lemma free_slot_lowest f r : free_slot f = Some r -> 0 <= r /\ (forall i, 0 <= i < r -> is_Some (f !! i)) /\ f !! r = None.
Proof. apply free_from_lowest. Qed.
Lemma free_slot_some f i : 0 <= i < 20 -> f !! i = None -> is_Some (free_slot f).
Proof. intros Hi. apply free_from_some. lia. Qed.

#[global] Program Instance table_process : Syscalls (gmap Z string) := {|
  fds := fun f => f;
  c_setup := mret 0;
  c_open := put_file;
  c_dup := dup_file;
  c_close := fun i f => Ok 0 (delete i f);
  c_fork := mret 0;
  c_wait := mret (0, 0);
  c_execve := fun _ => mret 0;
  c_setsid := mret 0;
  c_sync := mret 0;
  c_printf := fun _ => mret tt
|}.
Next Obligation. intros path f r f' E Hr. unfold put_file in E. destruct (free_slot f) as [i|] eqn:Es; injection E as <- <-; [|lia]. destruct (free_slot_lowest f i Es) as (_ & Hl & Hn). done. Qed.
Next Obligation. intros j path f r f' Hj E Hr. cbv beta in Hj. unfold dup_file in E. rewrite Hj in E. unfold put_file in E. destruct (free_slot f) as [i|] eqn:Es; injection E as <- <-; [|lia]. destruct (free_slot_lowest f i Es) as (_ & Hl & Hn). done. Qed.
Next Obligation. intros i f r f' E. by injection E as _ <-. Qed.
Next Obligation. intros f r f' E. by injection E as _ <-. Qed.

Lemma shell_has_terminal_witness : exists p', shell_files (P := gmap Z string) {[ 1 := "log"; 7 := "x" ]} = Ok tt p' /\ forall i, fds p' !! i = if bool_decide (0 <= i <= 2) then Some "/dev/tty1" else fds ({[ 1 := "log"; 7 := "x" ]} : gmap Z string) !! i.
Proof.
  apply (shell_has_terminal (P := gmap Z string) {[ 1 := "log"; 7 := "x" ]}); [by intros i f; eexists _, _|by intros f; eexists _, _| |].
  - intros f E. destruct (free_slot_some f 0 ltac:(lia) E) as [r Er]. exists r. eexists. unfold c_open, table_process, put_file. rewrite Er. split; [done|]. by destruct (free_slot_lowest f r Er).
  - intros f [path E0] E. destruct (free_slot_some f 2 ltac:(lia) E) as [r Er]. exists r. eexists. unfold c_dup, table_process, dup_file. unfold fds, table_process in E0. rewrite E0. unfold put_file. rewrite Er. split; [done|]. by destruct (free_slot_lowest f r Er).
Defined.
