(* ===== verification/Serial.v ===== *)
(** * Serial lines: [kernel/chr_drv/serial.c], [kernel/chr_drv/rs_io.S]

    A line sends the characters of its write queue, one per interrupt of the chip, and
    puts those it receives into its read queue.  The driver turns the transmit interrupt
    on when there is something to send; the interrupt turns it off when the queue is
    empty.

    The chip is the interface [SerialPorts]: what a port reads and what writing it does.
    The queues and the terminals are those of [Tty]; the functions of the timers are
    numbers. *)

From S2P Require Import Prelude TaskStruct Sched Queue Console Tty.

Class SerialPorts (D : Type) := {
  s_inb : Z -> D -> Z * D;
  s_outb : Z -> Z -> D -> D
}.

Record srs (D : Type) := Srs { s_tty : tts; s_dev : D }.
Arguments Srs {D}. Arguments s_tty {D}. Arguments s_dev {D}.

Definition startup : Z := 256.

Section Serial.
Context {D : Type} `{SerialPorts D} (do_tty_interrupt : Z -> M tts unit) (patience : nat).

Definition on_tts {A} (m : M tts A) : M (srs D) A := fun s => match m (s_tty s) with Ok a t => Ok a (Srs t (s_dev s)) | Halt h t => Halt h (Srs t (s_dev s)) end.
Definition inb (port : Z) : M (srs D) Z := fun s => let '(v, d) := s_inb port (s_dev s) in Ok v (Srs (s_tty s) d).
Definition outb (v port : Z) : M (srs D) unit := fun s => Ok tt (Srs (s_tty s) (s_outb port (u8 v) (s_dev s))).

(** ** [serial.c] *)

(** [void rs_write(struct tty_struct * tty)] *)
Definition rs_write (i : Z) : M (srs D) unit :=
  t ← on_tts (tty_at i); q ← on_tts (queue_at (write_q t));
  if negb (EMPTY q) then v ← inb (q_data q + 1); outb (Z.lor v 0x02) (q_data q + 1) else mret tt.

(** [static void init(int port)] *)
Definition init (port : Z) : M (srs D) unit :=
  outb 0x80 (port + 3);; outb 0x30 port;; outb 0x00 (port + 1);; outb 0x03 (port + 3);; outb 0x0b (port + 4);; outb 0x0d (port + 1);;
  _ ← inb port; mret tt.

(** The port of terminal [i], from its read queue. *)
Definition line_port (i : Z) : M (srs D) Z := t ← on_tts (tty_at i); q ← on_tts (queue_at (read_q t)); mret (q_data q).

(** [void serial_open(unsigned int line)]; [port2] is what its variable, never set,
    happens to hold. *)
Definition serial_open (port2 line : Z) : M (srs D) unit :=
  if 3 <? line then mret tt
  else
    port ← line_port (64 + line);
    if negb (truth (u16 port)) then mret tt
    else
      port ← line_port (64 + Z.lxor line 2);
      let port := u16 port in
      (if truth (u16 port2) then outb 0x00 (u16 port2 + 4) else mret tt);;
      outb 0x03 (port + 3);; outb 0x0f (port + 4);; outb 0x0d (port + 1);;
      _ ← inb (port + 5); _ ← inb port; _ ← inb (port + 6); _ ← inb (port + 2);
      mret tt.

(** The functions of the eight timers, from [SER1_TIMER] and [SER1_TIMEOUT] on. *)
Definition com_timer : list Z := [1; 2; 3; 4].
Definition com_timeout : list Z := [5; 6; 7; 8].
Definition set_timer_fn (n fn : Z) : M (srs D) unit :=
  on_tts (on_kern (k ← getS; l ← ofOpt (aset (timer_table (timers k)) n (0, fn));
                   modify (fun k => set_timers (Tst (timer_list (timers k)) (next_timer (timers k)) (timer_active (timers k)) l) k))).

(** [void rs_init(void)]; its two gates are in [Gates]. *)
Definition rs_init : M (srs D) unit :=
  for_each (zip (range 2 4) com_timer) (fun '(n, fn) => set_timer_fn n fn);;
  for_each (zip (range 8 4) com_timeout) (fun '(n, fn) => set_timer_fn n fn);;
  for_each (range 64 4) (fun i => p ← line_port i; init p);;
  v ← inb 0x21; outb (Z.land v 0xE7) 0x21.

(** ** [rs_io.S] *)

(** The queues of line [n] (1 or 2) in [table_list], as indices of [tty_queues]. *)
Definition rs_read_q (n : Z) : Z := 3 * MAX_CONSOLES + 3 * (n - 1).
Definition rs_write_q (n : Z) : Z := rs_read_q n + 1.

(** A task that waits for the queue is made ready. *)
Definition wake_waiting (i : Z) : M (srs D) unit :=
  on_tts (on_kern (k ← getS; match wq k !! proc_list i with Some p => upd (Some p) (set_state 0) | None => mret tt end)).

(** [write_buffer_empty] *)
Definition write_buffer_empty (n port : Z) : M (srs D) unit :=
  wake_waiting (rs_write_q n);;
  v ← inb (port + 1);
  outb (Z.land v 0xd) (port + 1).

(** [write_char] *)
Definition write_char (n port : Z) : M (srs D) unit :=
  q ← on_tts (queue_at (Some (rs_write_q n)));
  let nr := CHARS q in
  if nr =? 0 then write_buffer_empty n port
  else
    (if nr <=? startup then wake_waiting (rs_write_q n) else mret tt);;
    '(c, q') ← ofOpt (GETCH q);
    outb c port;;
    on_tts (queue_put (Some (rs_write_q n)) q');;
    if q_tail q' =? q_head q' then write_buffer_empty n port else mret tt.

(** [read_char]: the byte is stored even if there is no room; then the head stays. *)
Definition read_char (n port : Z) : M (srs D) unit :=
  c ← inb port;
  q ← on_tts (queue_at (Some (rs_read_q n)));
  b ← ofOpt (aset (q_buf q) (q_head q) c);
  let h := INC (q_head q) in
  on_tts (queue_put (Some (rs_read_q n)) (if h =? q_tail q then set_q_buf b q else set_q_head h (set_q_buf b q)));;
  on_tts (do_tty_interrupt (n + 63)).

(** [rs_int], entered for line [n]. *)
Definition rs_int_step (n port : Z) (_ : unit) : M (srs D) (unit + unit) :=
  al ← inb (port + 2);
  if Z.testbit al 0 || (6 <? al) then mret (inr tt)
  else
    (if al =? 0 then _ ← inb (port + 6); mret tt
     else if al =? 2 then write_char n port
     else if al =? 4 then read_char n port
     else _ ← inb (port + 5); mret tt);;
    mret (inl tt).
Definition rs_int (n : Z) : M (srs D) unit :=
  q ← on_tts (queue_at (Some (rs_read_q n)));
  iter patience (rs_int_step n (q_data q)) tt;;
  outb 0x20 0x20.

End Serial.
