(* ===== verification/SerialOk.v ===== *)
(** * Theorems about serial lines

    What a program writes to a line is sent, character by character, in order. *)

From S2P Require Import Prelude TaskStruct Sched Queue Console Screen Tty TtyOk Serial.

(** The chip of a line at [port], while nothing is received: the bytes it has [sent], its
    interrupt [enabled] register, whether it can take a byte ([ready]) and whether it
    asks for one ([pending]); [tick] is the time it needs to send the byte it has.  A
    byte written to a chip that is not ready is lost. *)
Class Uart (D : Type) `{SerialPorts D} (port : Z) := {
  sent : D -> list Z;
  enabled : D -> Z;
  ready : D -> bool;
  pending : D -> bool;
  tick : D -> D;
  uart_ident : forall d, exists d', s_inb (port + 2) d = (if Z.testbit (enabled d) 1 && pending d then 2 else 1, d') /\ sent d' = sent d /\ enabled d' = enabled d /\ ready d' = ready d /\ pending d' = false;
  uart_enabled : forall d, s_inb (port + 1) d = (enabled d, d);
  uart_enable : forall v d, enabled (s_outb (port + 1) v d) = v /\ sent (s_outb (port + 1) v d) = sent d;
  uart_send : forall v d, ready d = true -> sent (s_outb port v d) = sent d ++ [v] /\ enabled (s_outb port v d) = enabled d /\ pending (s_outb port v d) = false;
  uart_tick : forall d, ready (tick d) = true /\ pending (tick d) = true /\ sent (tick d) = sent d /\ enabled (tick d) = enabled d;
  uart_eoi : forall d, sent (s_outb 0x20 0x20 d) = sent d /\ enabled (s_outb 0x20 0x20 d) = enabled d
}.

Section SerialOk.
Context {D : Type} `{SerialPorts D} (port : Z) `{!Uart D port} (do_tty_interrupt : Z -> M tts unit) (n : Z).

(** Line [n] has [l] to send; a task that waits for its queue exists. *)
Record line (t : tts) (l : list Z) : Prop := {
  ln_read : exists q, aget (tty_queues t) (rs_read_q n) = Some q /\ q_data q = port;
  ln_write : exists q, aget (tty_queues t) (rs_write_q n) = Some q /\ queue_ok q /\ content q = l /\ q_data q = port;
  ln_wait : forall p, wq (kern t) !! proc_list (rs_write_q n) = Some p -> is_Some (heap (kern t) !! p)
}.

Lemma on_tts_run {A} (m : M tts A) (t t' : tts) (d : D) (a : A) : m t = Ok a t' -> on_tts (D := D) m (Srs t d) = Ok a (Srs t' d).
Proof using. intros E. unfold on_tts. cbn [s_tty]. by rewrite E. Qed.

Lemma wake_line (t : tts) (l : list Z) (d : D) : line t l -> exists t', wake_waiting (D := D) (rs_write_q n) (Srs t d) = Ok tt (Srs t' d) /\ line t' l /\ tty_queues t' = tty_queues t.
Proof using.
  intros Hl. pose proof Hl as [Hr Hw Hp]. unfold wake_waiting. destruct (wq (kern t) !! proc_list (rs_write_q n)) as [p|] eqn:E.
  - destruct (Hp p eq_refl) as [tk Hk]. set (k' := set_heap (<[p := set_state 0 tk]> (heap (kern t))) (kern t)). exists (set_kern k' t). split; [|split; [|done]].
    + apply on_tts_run. unfold on_kern. erewrite run_bind; [|reflexivity]. rewrite E. unfold upd. by rewrite Hk.
    + split; [done|done|]. cbn [kern set_kern wq heap k' set_heap]. intros p'. rewrite E. intros [= <-]. rewrite lookup_insert_eq. by eexists.
  - exists t. split; [|done]. apply on_tts_run. unfold on_kern. erewrite run_bind; [|reflexivity]. rewrite E. by destruct t.
Qed.

Lemma put_queue_line t q q' l l' : line t l -> aget (tty_queues t) (rs_write_q n) = Some q -> queue_ok q' -> content q' = l' -> q_data q' = port ->
  exists t', queue_put (Some (rs_write_q n)) q' t = Ok tt t' /\ line t' l'.
Proof using.
  intros [[rq [Hr Hrd]] Hw Hp] Hq Hok Hc Hd. pose proof (aget_Some_range _ _ _ Hq) as Hrange. exists (set_tty_queues (<[Z.to_nat (rs_write_q n) := q']> (tty_queues t)) t). split.
  - unfold queue_put. do 2 (erewrite run_bind; [|reflexivity]). rewrite aset_in_range by done. by destruct t.
  - split; cbn [tty_queues set_tty_queues kern]; [|exists q'; split; [by apply aget_insert_eq|done]|done]. exists rq. split; [|done]. rewrite aget_insert_ne; [done|lia|unfold rs_write_q; lia].
Qed.

(** The end of the queue: the transmit interrupt is turned off. *)
Lemma buffer_empty_run (t : tts) (d : D) : line t [] -> exists t' d', write_buffer_empty n port (Srs t d) = Ok tt (Srs t' d') /\ line t' [] /\ sent d' = sent d /\ Z.testbit (enabled d') 1 = false.
Proof using.
  intros Hl. destruct (wake_line t [] d Hl) as (t' & Hw & Hl' & _). exists t', (s_outb (port + 1) (u8 (Z.land (enabled d) 0xd)) d). destruct (uart_enable (u8 (Z.land (enabled d) 0xd)) d) as [He Hs]. split; [|split; [done|split; [done|]]].
  - unfold write_buffer_empty. rewrite (run_bind _ _ _ _ _ Hw). rewrite (run_bind _ _ _ (enabled d) (Srs t' d)); [done|]. unfold inb. cbn [s_dev s_tty]. by rewrite uart_enabled.
  - rewrite He. unfold u8. rewrite Z.mod_pow2_bits_low by lia. rewrite Z.land_spec. apply andb_false_r.
Qed.

(** One transmit interrupt sends one character. *)
Lemma write_char_run (t : tts) (d : D) (c : Z) (l : list Z) : line t (c :: l) -> ready d = true -> exists t' d', write_char n port (Srs t d) = Ok tt (Srs t' d') /\ line t' l /\ sent d' = sent d ++ [c] /\
  (l = [] -> Z.testbit (enabled d') 1 = false) /\ (l <> [] -> enabled d' = enabled d /\ pending d' = false).
Proof using.
  intros Hl Hrd. destruct (ln_write _ _ Hl) as (q & Hq & Hok & Hc & Hd). pose proof (length_content q) as Hn. rewrite Hc in Hn. cbn [length] in Hn.
  unfold write_char. rewrite (run_bind _ _ _ q (Srs t d)); [|apply on_tts_run; unfold queue_at; do 2 (erewrite run_bind; [|reflexivity]); by rewrite Hq]. cbv zeta. rewrite CHARS_count. destruct (Z.eqb_spec (q_count q) 0); [lia|].
  assert (Hwake : exists t1, (if q_count q <=? startup then wake_waiting (D := D) (rs_write_q n) else mret tt) (Srs t d) = Ok tt (Srs t1 d) /\ line t1 (c :: l) /\ tty_queues t1 = tty_queues t) by (destruct (q_count q <=? startup); [by apply wake_line|by exists t]).
  destruct Hwake as (t1 & Hw & Hl1 & Ht1). rewrite (run_bind _ _ _ _ _ Hw). destruct (GETCH_content q c l Hok Hc) as (q' & Hg & Hok' & Hc' & Hd'). rewrite (run_bind _ _ _ (c, q') (Srs t1 d)) by (by rewrite Hg). cbn beta iota.
  assert (Hu : u8 c = c). { apply u8_small. unfold GETCH in Hg. destruct (aget (q_buf q) (q_tail q)) as [b|] eqn:Eb; [|done]. cbn in Hg. injection Hg as <- _. pose proof (qo_bytes q Hok) as Hb. rewrite Forall_forall in Hb. apply Hb. unfold aget in Eb. destruct (q_tail q <? 0); [done|]. by apply list_elem_of_lookup_2 in Eb. }
  set (d1 := s_outb port c d). destruct (uart_send c d Hrd) as (Hs & He & Hp). fold d1 in Hs, He, Hp. rewrite (run_bind _ _ _ tt (Srs t1 d1)) by (unfold outb, d1; by rewrite Hu). rewrite <-Ht1 in Hq. destruct (put_queue_line t1 q q' (c :: l) l Hl1 Hq Hok' Hc' ltac:(congruence)) as (t2 & Hput & Hl2). rewrite (run_bind _ _ _ _ _ (on_tts_run _ _ _ d1 _ Hput)).
  assert (Hem : (q_tail q' =? q_head q') = bool_decide (l = [])) by (rewrite Z.eqb_sym; change (q_head q' =? q_tail q') with (EMPTY q'); pose proof (EMPTY_content q' Hok') as Hx; rewrite Hc' in Hx; destruct (EMPTY q'); [symmetry; apply bool_decide_eq_true_2; by apply Hx|symmetry; apply bool_decide_eq_false_2; intros E%Hx; done]). rewrite Hem.
  case_bool_decide as El; [|exists t2, d1; split; [done|split; [done|split; [done|split; [done|by intros]]]]].
  rewrite El in Hl2. destruct (buffer_empty_run t2 d1 Hl2) as (t3 & d3 & Hrun & Hl3 & Hs3 & He3). exists t3, d3. rewrite El. split; [done|]. split; [done|]. split; [congruence|]. done.
Qed.

(** A whole interrupt: one character, and then the chip asks for nothing. *)
Lemma rs_int_run (patience : nat) (t : tts) (d : D) (c : Z) (l : list Z) : (2 <= patience)%nat -> line t (c :: l) -> ready d = true -> pending d = true -> Z.testbit (enabled d) 1 = true ->
  exists t' d', rs_int do_tty_interrupt patience n (Srs t d) = Ok tt (Srs t' d') /\ line t' l /\ sent d' = sent d ++ [c] /\ Z.testbit (enabled d') 1 = negb (bool_decide (l = [])).
Proof using.
  intros Hpt Hl Hr Hp He. destruct (ln_read _ _ Hl) as (rq & Hrq & Hrd). unfold rs_int. rewrite (run_bind _ _ _ rq (Srs t d)); [|apply on_tts_run; unfold queue_at; do 2 (erewrite run_bind; [|reflexivity]); by rewrite Hrq]. rewrite Hrd.
  destruct (uart_ident d) as (d1 & E1 & Hs1 & He1 & Hr1 & _). rewrite He, Hp in E1. cbn [andb] in E1. destruct (write_char_run t d1 c l Hl ltac:(congruence)) as (t2 & d2 & Hw & Hl2 & Hs2 & Hlast & Hmore). destruct (uart_ident d2) as (d3 & E3 & Hs3 & He3 & _ & _).
  assert (Hq3 : Z.testbit (enabled d2) 1 && pending d2 = false) by (destruct (decide (l = [])) as [El|El]; [by rewrite (Hlast El)|destruct (Hmore El) as [_ ->]; apply andb_false_r]). rewrite Hq3 in E3.
  assert (Hen : Z.testbit (enabled d3) 1 = negb (bool_decide (l = []))) by (rewrite He3; case_bool_decide as El; [by rewrite (Hlast El)|destruct (Hmore El) as [-> _]; by rewrite He1, He]).
  destruct patience as [|[|p]]; [lia|lia|]. exists t2, (s_outb 0x20 (u8 0x20) d3). destruct (uart_eoi d3) as [Hse Hee]. change (u8 0x20) with 0x20. rewrite Hse, Hee. split; [|split; [done|split; [congruence|done]]].
  rewrite (run_bind _ _ _ tt (Srs t2 d3)); [done|]. cbn [iter]. rewrite (run_bind _ _ _ (inl tt) (Srs t2 d2)).
  - rewrite (run_bind _ _ _ (inr tt) (Srs t2 d3)); [done|]. unfold rs_int_step. rewrite (run_bind _ _ _ 1 (Srs t2 d3)); [done|]. unfold inb. cbn [s_dev s_tty]. by rewrite E3.
  - unfold rs_int_step. rewrite (run_bind _ _ _ 2 (Srs t d1)) by (unfold inb; cbn [s_dev s_tty]; by rewrite E1). change (Z.testbit 2 0 || (6 <? 2)) with false. change (2 =? 0) with false. change (2 =? 2) with true. cbv iota.
    by rewrite (run_bind _ _ _ _ _ Hw).
Qed.

(** The chip sends a byte and interrupts. *)
Definition chip_interrupt (patience : nat) : M (srs D) unit := modify (fun s => Srs (s_tty s) (tick (s_dev s)));; rs_int do_tty_interrupt patience n.

Lemma interrupts_send patience l : (2 <= patience)%nat -> forall (t : tts) (d : D), line t l -> (l <> [] -> Z.testbit (enabled d) 1 = true) ->
  exists t' d', for_each l (fun _ => chip_interrupt patience) (Srs t d) = Ok tt (Srs t' d') /\ line t' [] /\ sent d' = sent d ++ l /\ (l <> [] -> Z.testbit (enabled d') 1 = false).
Proof using.
  intros Hpt. induction l as [|c l IH]; intros t d Hl He; [by exists t, d; rewrite app_nil_r|]. destruct (uart_tick d) as (Hr & Hp & Hs & Hee).
  destruct (rs_int_run patience t (tick d) c l Hpt Hl Hr Hp ltac:(rewrite Hee; by apply He)) as (t1 & d1 & Hrun & Hl1 & Hs1 & He1). destruct (IH t1 d1 Hl1) as (t2 & d2 & Hrun2 & Hl2 & Hs2 & He2); [intros El; rewrite He1; by rewrite bool_decide_eq_false_2|].
  exists t2, d2. split; [|split; [done|split]].
  - cbn [for_each]. rewrite (run_bind _ _ _ tt (Srs t1 d1)); [done|]. unfold chip_interrupt. by erewrite run_bind; [|reflexivity].
  - rewrite Hs2, Hs1, Hs, <-app_assoc. done.
  - intros _. destruct l as [|b l']; [|by apply He2]. cbn in Hrun2. injection Hrun2 as _ <-. by rewrite He1.
Qed.

(** C16: After [rs_write], every character in the write queue of a line is sent, in order
    and none twice, one for each interrupt of the chip; each is given to the chip only
    when it is ready to take it.  Then the queue is empty and the transmit interrupt is
    off again. *)
Theorem serial_sends (patience : nat) (t : tts) (d : D) (tt0 : tty_struct) (l : list Z) : (2 <= patience)%nat -> line t l -> aget (tty_table t) (n + 63) = Some tt0 -> write_q tt0 = Some (rs_write_q n) -> l <> [] ->
  exists t' d', (rs_write (n + 63);; for_each l (fun _ => chip_interrupt patience)) (Srs t d) = Ok tt (Srs t' d') /\ line t' [] /\ sent d' = sent d ++ l /\ Z.testbit (enabled d') 1 = false.
Proof using.
  intros Hpt Hl Ht Hwq Hne. destruct (ln_write _ _ Hl) as (q & Hq & Hok & Hc & Hd). set (d1 := s_outb (port + 1) (u8 (Z.lor (enabled d) 2)) d). destruct (uart_enable (u8 (Z.lor (enabled d) 2)) d) as [He Hs]. fold d1 in He, Hs.
  destruct (interrupts_send patience l Hpt t d1 Hl) as (t' & d' & Hrun & Hl' & Hs' & He'); [intros _; rewrite He; unfold u8; rewrite Z.mod_pow2_bits_low, Z.lor_spec by lia; apply orb_true_r|].
  exists t', d'. split; [|split; [done|split; [congruence|by apply He']]]. rewrite (run_bind _ _ _ tt (Srs t d1)); [done|]. unfold rs_write. rewrite (run_bind _ _ _ tt0 (Srs t d)); [|apply on_tts_run; unfold tty_at; erewrite run_bind; [|reflexivity]; by rewrite Ht]. rewrite Hwq.
  rewrite (run_bind _ _ _ q (Srs t d)); [|apply on_tts_run; unfold queue_at; do 2 (erewrite run_bind; [|reflexivity]); by rewrite Hq]. assert (EMPTY q = false) as -> by (destruct (EMPTY q) eqn:E; [apply (EMPTY_content q Hok) in E; congruence|done]). cbn [negb]. rewrite Hd. rewrite (run_bind _ _ _ (enabled d) (Srs t d)); [done|]. unfold inb. cbn [s_dev s_tty]. by rewrite uart_enabled.
Qed.
End SerialOk.

(** ** A chip that keeps what it sends *)

Record chip := Chip { c_sent : list Z; c_enabled : Z; c_ready : bool; c_pending : bool }.
Definition COM1 : Z := 0x3f8.
#[local] Instance chip_ports : SerialPorts chip := {|
  s_inb p d :=
    if p =? COM1 + 2 then (if Z.testbit (c_enabled d) 1 && c_pending d then 2 else 1, Chip (c_sent d) (c_enabled d) (c_ready d) false)
    else if p =? COM1 + 1 then (c_enabled d, d)
    else (0, d);
  s_outb p v d :=
    if p =? COM1 then (if c_ready d then Chip (c_sent d ++ [v]) (c_enabled d) false false else d)
    else if p =? COM1 + 1 then Chip (c_sent d) v (c_ready d) (c_ready d)
    else d
|}.

#[local] Instance chip_uart : Uart chip COM1.
Proof.
  refine {| sent := c_sent; enabled := c_enabled; ready := c_ready; pending := c_pending; tick d := Chip (c_sent d) (c_enabled d) true true |}; try done.
  - intros d. exists (Chip (c_sent d) (c_enabled d) (c_ready d) false). done.
  - intros v d Hr. unfold s_outb. cbn. by rewrite Hr.
Defined.

Definition line_queues (l : list Z) : list tty_queue :=
  replicate 24 empty_queue ++ [set_q_data COM1 empty_queue; set_q_data COM1 (queue_of l); empty_queue].
Definition line_tty : tty_struct := TtyS (t_termios (demo_tty Wrs)) 0 0 (Winsize 25 80 0 0) (Some Wrs) (Some 24) (Some 25) (Some 26).
Definition line_state (l : list Z) : tts := Tts calm_kernel (line_queues l) (replicate 64 (demo_tty Wcon) ++ [line_tty]) [] small_video 0.

Lemma line_state_ok l : Forall in_u8 l -> (length l <= 1023)%nat -> line COM1 1 (line_state l) l.
Proof.
  intros Hb Hl. destruct (queue_of_ok l Hb Hl) as (Q1 & Q2 & _). split.
  - by exists (set_q_data COM1 empty_queue).
  - exists (set_q_data COM1 (queue_of l)). split; [done|]. split; [|split; [|done]].
    + destruct Q1 as [A1 A2 A3 A4]. by split.
    + rewrite <-Q2 at 2. done.
  - intros p Hp. done.
Qed.

Lemma serial_sends_witness : exists t' d',
  (rs_write (D := chip) (1 + 63);; for_each [111; 107; 10] (fun _ => chip_interrupt COM1 (fun _ => mret tt) 1 2)) (Srs (line_state [111; 107; 10]) (Chip [] 0x0d true false)) = Ok tt (Srs t' d') /\
  line COM1 1 t' [] /\ sent d' = sent (Chip [] 0x0d true false) ++ [111; 107; 10] /\ Z.testbit (enabled d') 1 = false.
Proof.
  apply (serial_sends COM1 (fun _ => mret tt) 1 2 (line_state [111; 107; 10]) (Chip [] 0x0d true false) line_tty [111; 107; 10]);
    [lia|apply line_state_ok; [unfold in_u8; repeat constructor; lia|cbn; lia]|reflexivity|reflexivity|discriminate].
Defined.
