(* ===== verification/Keyboard.v ===== *)
(** * The keyboard: [kernel/chr_drv/keyboard.S]

    An interrupt reads a scan code; a table says which routine it calls.  Most put the
    character of a key map into the read queue of the console, others change the mode
    (shift, ctrl, alt, caps) or send the sequences of cursor and function keys.

    The state is that of the terminals with the variables of the file and the bytes sent
    to the keyboard.  The key maps are arguments (which one is compiled depends on a
    macro), and so are [show_mem], [show_state], [change_console], [ctrl_alt_del] and
    what is done with the queue, [do_keyboard_interrupt]. *)

From S2P Require Import Prelude TaskStruct Sched Queue Console Screen Tty TtyOk.

(** [size] of this file, which is to be [TTY_BUF_SIZE]. *)
Definition kb_size : Z := 2048.

Record kbs := Kbs { k_tty : tts; kapplic : Z; kmode : Z; kleds : Z; old_leds : Z; e0 : Z; k_sent : list Z }.
Definition set_k_tty v k := Kbs v (kapplic k) (kmode k) (kleds k) (old_leds k) (e0 k) (k_sent k).
Definition set_kmode v k := Kbs (k_tty k) (kapplic k) v (kleds k) (old_leds k) (e0 k) (k_sent k).
Definition set_kleds v k := Kbs (k_tty k) (kapplic k) (kmode k) v (old_leds k) (e0 k) (k_sent k).
Definition set_e0 v k := Kbs (k_tty k) (kapplic k) (kmode k) (kleds k) (old_leds k) v (k_sent k).

Definition on_kb {A} (m : M tts A) : M kbs A := fun s => match m (k_tty s) with Ok a t => Ok a (set_k_tty t s) | Halt h t => Halt h (set_k_tty t s) end.

(** ** [put_queue] *)

(** A round of the loop: the byte in [al] goes to the queue, then the next one is
    shifted into it.  [inr] is the queue and its new head, [None] when it is full. *)
Definition put_step (st : tty_queue * Z * Z * Z) : M kbs ((tty_queue * Z * Z * Z) + (tty_queue * option Z)) :=
  let '(q, ecx, eax, ebx) := st in
  b ← ofOpt (aset (q_buf q) ecx (u8 eax));
  let q := set_q_buf b q in
  let ecx := Z.land (ecx + 1) (kb_size - 1) in
  if ecx =? q_tail q then mret (inr (q, None))
  else
    let eax := Z.lor (Z.shiftr eax 8) (Z.shiftl (u8 ebx) 24) in
    if eax =? 0 then mret (inr (q, Some ecx)) else mret (inl (q, ecx, eax, Z.shiftr ebx 8)).

(** [put_queue]: up to eight bytes from [eax] and [ebx] to the first queue of
    [table_list]. *)
Definition put_queue (eax ebx : Z) : M kbs unit :=
  q ← on_kb (queue_at (Some 0));
  '(q, h) ← iter 8 put_step (q, q_head q, eax, ebx);
  match h with
  | None => on_kb (queue_put (Some 0) q)
  | Some h =>
      on_kb (queue_put (Some 0) (set_q_head h q));;
      on_kb (on_kern (k ← getS; match wq k !! proc_list 0 with Some p => upd (Some p) (set_state 0) | None => mret tt end))
  end.

(** ** The mode *)

(** [ctrl] and [alt], left or right; [unctrl] and [unalt]. *)
Definition side (bit : Z) (k : kbs) : Z := if e0 k =? 0 then bit else 2 * bit.
Definition press (bit : Z) : M kbs unit := modify (fun k => set_kmode (Z.lor (kmode k) (side bit k)) k).
Definition release (bit : Z) : M kbs unit := modify (fun k => set_kmode (Z.land (kmode k) (Z.lxor (side bit k) 0xff)) k).
(** [lshift] and [rshift], [unlshift] and [unrshift]. *)
Definition shift (bit : Z) : M kbs unit := modify (fun k => set_kmode (Z.lor (kmode k) bit) k).
Definition unshift (bit : Z) : M kbs unit := modify (fun k => set_kmode (Z.land (kmode k) (0xff - bit)) k).

(** [set_leds] *)
Definition set_leds : M kbs unit :=
  modify (fun k => if kleds k =? old_leds k then k else Kbs (k_tty k) (kapplic k) (kmode k) (kleds k) (kleds k) (e0 k) (k_sent k ++ [0xed; kleds k])).

(** [caps] *)
Definition caps : M kbs unit :=
  k ← getS;
  if has (kmode k) 0x80 then mret tt
  else modify (fun k => set_kmode (Z.lor (Z.lxor (kmode k) 0x40) 0x80) (set_kleds (Z.lxor (kleds k) 4) k));; set_leds.
Definition uncaps : M kbs unit := modify (fun k => set_kmode (Z.land (kmode k) 0x7f) k).

(** ** Keys *)

Section Keys.
Context (key_map shift_map alt_map : list Z).
Context (show_mem show_state ctrl_alt_del : M kbs unit) (change_console : Z -> M kbs unit) (do_keyboard_interrupt : M kbs unit).

(** A byte of a string. *)
Definition byte_of (s : string) (i : Z) : Z := match String.get (Z.to_nat i) s with Some c => Z.of_nat (Ascii.nat_of_ascii c) | None => 0 end.
Definition num_table : string := "789-456+1230,".
Definition cur_table : string := "HA5-DGC+YB623".
Definition appl_table : string := "wxyStuvlqrspn".
Definition func_table : list Z :=
  [0x415b5b1b; 0x425b5b1b; 0x435b5b1b; 0x445b5b1b; 0x455b5b1b; 0x465b5b1b; 0x475b5b1b; 0x485b5b1b; 0x495b5b1b; 0x4a5b5b1b; 0x4b5b5b1b; 0x4c5b5b1b].

(** [scroll], [applkey], [num] *)
Definition scroll : M kbs unit :=
  k ← getS;
  (if has (kmode k) 0x03 then show_mem else show_state);;
  modify (fun k => set_kleds (Z.lxor (kleds k) 1) k);; set_leds.
Definition applkey (c : Z) : M kbs unit := put_queue (Z.lor (Z.shiftl c 16) 0x4f1b) 0.
Definition num : M kbs unit :=
  k ← getS;
  if kapplic k =? 1 then applkey 0x50 else modify (fun k => set_kleds (Z.lxor (kleds k) 2) k);; set_leds.

(** [cur]: escape, a bracket, the letter, and a tilde behind a digit. *)
Definition cur_key (i : Z) : M kbs unit :=
  k ← getS;
  let c := byte_of cur_table i in
  let hi := if 0x39 <? c then 0 else 0x7e00 in
  put_queue (Z.lor (Z.shiftl (Z.lor c hi) 16) (if kapplic k =? 1 then 0x4f1b else 0x5b1b)) 0.

(** [cursor] *)
Definition cursor (al : Z) : M kbs unit :=
  let i := al - 0x47 in
  if (i <? 0) || (12 <? i) then mret tt
  else
    k ← getS;
    if (i =? 12) && has (kmode k) 0x0c && has (kmode k) 0x30 then ctrl_alt_del
    else if (e0 k =? 1) || has (kmode k) 0x03 then cur_key i
    else if kapplic k =? 1 then applkey (byte_of appl_table i)
    else if has (kleds k) 0x02 then put_queue (byte_of num_table i) 0
    else cur_key i.

(** [func]; [ecx] is what the register happens to hold. *)
Definition func (ecx al : Z) : M kbs unit :=
  let i := al - 0x3b in
  let o := if i <? 0 then None else if i <=? 9 then Some i else if (i - 18 <? 10) || (11 <? i - 18) then None else Some (i - 18) in
  match o with
  | None => mret tt
  | Some i =>
      k ← getS;
      if has (kmode k) 0x10 then change_console i
      else if ecx <? 4 then mret tt
      else v ← ofOpt (aget func_table i); put_queue v 0
  end.

(** [do_self] *)
Definition self_char (m c : Z) : Z :=
  let c := if has m 0x4c && (0x61 <=? c) && (c <=? 0x7d) then c - 32 else c in
  let c := if has m 0x0c then Z.land c 0x1f else c in
  if has m 0x10 then Z.lor c 0x80 else c.
Definition do_self (al : Z) : M kbs unit :=
  k ← getS;
  c ← ofOpt (aget (if has (kmode k) 0x20 then alt_map else if has (kmode k) 0x0f then shift_map else key_map) al);
  if c =? 0 then mret tt else put_queue (self_char (kmode k) c) 0.

(** [slash], [star], [enter], [minus] and [plus] *)
Definition slash (al : Z) : M kbs unit :=
  k ← getS;
  if negb (e0 k =? 1) then do_self al else if kapplic k =? 1 then applkey 0x51 else put_queue 0x2f 0.
Definition appl_or_self (c al : Z) : M kbs unit := k ← getS; if kapplic k =? 1 then applkey c else do_self al.
Definition enter (al : Z) : M kbs unit := k ← getS; if (e0 k =? 1) && (kapplic k =? 1) then applkey 0x4d else do_self al.

(** [key_table] *)
Definition key_routine (ecx al : Z) : M kbs unit :=
  if al =? 0 then mret tt
  else if al =? 0x1c then enter al
  else if al =? 0x1d then press 0x04
  else if al =? 0x2a then shift 0x01
  else if al =? 0x35 then slash al
  else if al =? 0x36 then shift 0x02
  else if al =? 0x37 then appl_or_self 0x52 al
  else if al =? 0x38 then press 0x10
  else if al =? 0x3a then caps
  else if (0x3b <=? al) && (al <=? 0x44) then func ecx al
  else if al =? 0x45 then num
  else if al =? 0x46 then scroll
  else if al =? 0x4a then appl_or_self 0x53 al
  else if al =? 0x4e then appl_or_self 0x6c al
  else if (0x47 <=? al) && (al <=? 0x53) then cursor al
  else if (al =? 0x57) || (al =? 0x58) then func ecx al
  else if (al <=? 0x39) || (al =? 0x56) then do_self al
  else if al =? 0x9d then release 0x04
  else if al =? 0xaa then unshift 0x01
  else if al =? 0xb6 then unshift 0x02
  else if al =? 0xb8 then release 0x10
  else if al =? 0xba then uncaps
  else mret tt.

(** [keyboard_interrupt], with the scan code it reads. *)
Definition keyboard_interrupt (ecx al : Z) : M kbs unit :=
  if al =? 0xe0 then modify (set_e0 1)
  else if al =? 0xe1 then modify (set_e0 2)
  else key_routine ecx al;; do_keyboard_interrupt;; modify (set_e0 0).
End Keys.

(** ** The size of the queue *)

(** Queue 0 is [q]; a task that waits for it exists. *)
Record key_queue (s : kbs) (q : tty_queue) : Prop := {
  kq_at : aget (tty_queues (k_tty s)) 0 = Some q;
  kq_wait : forall p, wq (kern (k_tty s)) !! proc_list 0 = Some p -> is_Some (heap (kern (k_tty s)) !! p)
}.

Lemma on_kb_run {A} (m : M tts A) s t a : m (k_tty s) = Ok a t -> on_kb m s = Ok a (set_k_tty t s).
Proof. intros E. unfold on_kb. by rewrite E. Qed.

Lemma read_queue s q : aget (tty_queues (k_tty s)) 0 = Some q -> on_kb (queue_at (Some 0)) s = Ok q s.
Proof. intros Hq. rewrite (on_kb_run _ s (k_tty s) q); [by destruct s|]. unfold queue_at. do 2 (erewrite run_bind by reflexivity). by rewrite Hq. Qed.

Lemma wake_reader t : (forall p, wq (kern t) !! proc_list 0 = Some p -> is_Some (heap (kern t) !! p)) ->
  exists t', on_kern (k ← getS; match wq k !! proc_list 0 with Some p => upd (Some p) (set_state 0) | None => mret tt end) t = Ok tt t' /\ tty_queues t' = tty_queues t /\
    forall p, wq (kern t') !! proc_list 0 = Some p -> is_Some (heap (kern t') !! p).
Proof.
  intros Hp. unfold on_kern. destruct (wq (kern t) !! proc_list 0) as [p|] eqn:E.
  - destruct (Hp p eq_refl) as [x Hx]. exists (set_kern (set_heap (<[p := set_state 0 x]> (heap (kern t))) (kern t)) t). split; [|split; [done|]].
    + erewrite run_bind by reflexivity. rewrite E. unfold upd. by rewrite Hx.
    + intros p'. cbn [kern set_kern wq set_heap heap]. rewrite E. intros [= <-]. rewrite lookup_insert_eq. by eexists.
  - exists t. split; [|split; [done|]]; [erewrite run_bind by reflexivity; rewrite E; by destruct t|]. by rewrite E.
Qed.

(** A key of one byte, as long as the array is not at its end: the head goes one further
    and does not wrap around. *)
Lemma put_queue_one s q c : key_queue s q -> Z.of_nat (length (q_buf q)) = 1024 -> 0 <= q_tail q <= q_head q -> q_head q < 1024 -> 0 < c < 256 ->
  exists s', put_queue c 0 s = Ok tt s' /\ key_queue s' (set_q_head (q_head q + 1) (set_q_buf (<[Z.to_nat (q_head q) := c]> (q_buf q)) q)).
Proof.
  intros [Hq Hw] Hl Ht Hh Hc. set (b := <[Z.to_nat (q_head q) := c]> (q_buf q)). set (q' := set_q_head (q_head q + 1) (set_q_buf b q)). pose proof (aget_Some_range _ _ _ Hq) as Hr.
  set (t1 := set_tty_queues (<[0%nat := q']> (tty_queues (k_tty s))) (k_tty s)). destruct (wake_reader t1) as (t2 & Hwk & Hqs & Hw2); [exact Hw|]. exists (set_k_tty t2 s). split.
  - unfold put_queue. rewrite (run_bind _ _ _ _ _ (read_queue s q Hq)).
    rewrite (run_bind _ _ _ (set_q_buf b q, Some (q_head q + 1)) s).
    + rewrite (run_bind _ _ _ tt (set_k_tty t1 s)); [|apply on_kb_run; unfold queue_put; do 2 (erewrite run_bind by reflexivity); rewrite aset_in_range by done; done]. rewrite (on_kb_run _ _ t2 tt); [by destruct s|exact Hwk].
    + cbn [iter]. rewrite (run_bind _ _ _ (inr (set_q_buf b q, Some (q_head q + 1))) s); [done|]. unfold put_step. rewrite (u8_small c) by (unfold in_u8; lia). rewrite (run_bind _ _ _ b s) by (rewrite aset_in_range by lia; done). cbv zeta.
      assert (Eh : Z.land (q_head q + 1) (kb_size - 1) = q_head q + 1) by (change (kb_size - 1) with (Z.ones 11); apply land_ones_small; lia). rewrite Eh. cbn [q_tail set_q_buf]. destruct (Z.eqb_spec (q_head q + 1) (q_tail q)); [lia|].
      assert (Es : Z.shiftr c 8 = 0) by (rewrite Z.shiftr_div_pow2 by lia; apply Z.div_small; lia). rewrite Es. done.
  - split; [|exact Hw2]. change (aget (tty_queues t2) 0 = Some q'). rewrite Hqs. apply (aget_insert_eq _ 0). done.
Qed.

(** C30: [put_queue] takes the queue for twice as long as it is ([size] is 2048,
    [TTY_BUF_SIZE] 1024): from any state of the queue in which the head is not below the
    tail, the keys that are typed move the head up to the end of the array and not back to
    its start, and the next key is written behind the array. *)
Theorem keyboard_overruns (cs : list Z) (c : Z) (s : kbs) (q : tty_queue) : key_queue s q -> queue_ok q -> q_tail q <= q_head q ->
  Forall (fun c => 0 < c < 256) cs -> Z.of_nat (length cs) = 1024 - q_head q ->
  exists s', for_each cs (fun c => put_queue c 0) s = Ok tt s' /\ put_queue c 0 s' = Halt Fault s'.
Proof.
  intros Hk Hok Htail Hcs Hlen. pose proof Hok as [Hhead Ht Hbuf _]. unfold TTY_BUF_SIZE in *. assert (Hh : q_head q <= 1024) by lia. clear Hhead Hok.
  revert s q Hk Htail Hlen Ht Hbuf Hh. induction Hcs as [|x cs Hx Hcs IH]; intros s q Hk Htail Hlen Ht Hbuf Hh; cbn [length] in Hlen.
  - exists s. split; [done|]. unfold put_queue. rewrite (run_bind _ _ _ _ _ (read_queue s q (kq_at _ _ Hk))).
    unfold mbind, M_bind. cbn [iter]. unfold mbind, M_bind, put_step, mbind, M_bind. unfold aset. destruct (Z.leb_spec (Z.of_nat (length (q_buf q))) (q_head q)); [|lia]. rewrite orb_true_r. done.
  - destruct (put_queue_one s q x Hk Hbuf ltac:(lia) ltac:(lia) Hx) as (s1 & H1 & Hk1). destruct (IH s1 _ Hk1) as (s2 & H2 & H3); [cbn; lia|cbn; lia|cbn; lia|cbn [q_buf set_q_head set_q_buf]; by rewrite length_insert|cbn; lia|].
    exists s2. split; [cbn [for_each]; by rewrite (run_bind _ _ _ _ _ H1)|done].
Qed.

(** Two keys before the end. *)
Definition late_queue : tty_queue := Tq 0 1022 1000 (replicate 1024 0).
Definition late_keys : kbs := Kbs (Tts calm_kernel [late_queue] [] [] small_video 0) 0 0 2 2 0 [].
Lemma keyboard_overruns_witness : exists s', for_each [97; 98] (fun c => put_queue c 0) late_keys = Ok tt s' /\ put_queue 99 0 s' = Halt Fault s'.
Proof.
  apply (keyboard_overruns [97; 98] 99 late_keys late_queue).
  - split; [reflexivity|]. intros p Hp. discriminate.
  - split; [unfold late_queue, TTY_BUF_SIZE; cbn [q_head]; lia|unfold late_queue, TTY_BUF_SIZE; cbn [q_tail]; lia|reflexivity|apply Forall_replicate; unfold in_u8; lia].
  - unfold late_queue. cbn [q_tail q_head]. lia.
  - repeat constructor; lia.
  - reflexivity.
Defined.
