(* ===== verification/Segment.v ===== *)
(** * Copying between segments: [memcpy_tofs] and [memcpy_fromfs] of [include/asm/segment.h]

    The copies move a byte, then a word, then longs, as the bits of the length say.  The
    state is the pair of the memory that is read and the memory that is written, of the
    kernel and of the program or the other way round; what is not in it cannot be
    accessed.  In the source [memcpy_fromfs] has a bracket too many, which the model
    leaves out. *)

From S2P Require Import Prelude.

Definition seg : Type := gmap Z Z.

(** The bytes from [a] on; [l] put to [a]. *)
Fixpoint get_bytes (n : nat) (a : Z) (m : seg) : option (list Z) :=
  match n with O => Some [] | S n' => v ← m !! a; l ← get_bytes n' (a + 1) m; Some (v :: l) end.
Fixpoint set_bytes (a : Z) (l : list Z) (m : seg) : option seg :=
  match l with [] => Some m | v :: l' => _ ← m !! a; set_bytes (a + 1) l' (<[a := v]> m) end.

(** [movsb], [movsw], [movsl]: [w] bytes at once; the new [esi] and [edi]. *)
Definition movs (w : nat) (r : Z * Z) : M (seg * seg) (Z * Z) :=
  s ← getS;
  l ← ofOpt (get_bytes w r.1 s.1);
  d ← ofOpt (set_bytes r.2 l s.2);
  modify (fun s => (s.1, d));;
  mret (u32 (r.1 + Z.of_nat w), u32 (r.2 + Z.of_nat w)).

(** [rep movsl] *)
Fixpoint rep_movsl (ecx : nat) (r : Z * Z) : M (seg * seg) (Z * Z) :=
  match ecx with O => mret r | S n => r ← movs 4 r; rep_movsl n r end.

(** [memcpy_tofs(to, from, n)] *)
Definition memcpy_tofs (to from n : Z) : M (seg * seg) unit :=
  r ← (if Z.testbit n 0 then movs 1 (from, to) else mret (from, to));
  r ← (if Z.testbit n 1 then movs 2 r else mret r);
  _ ← rep_movsl (Z.to_nat (Z.shiftr n 2)) r;
  mret tt.

(** [memcpy_fromfs(to, from, n)] *)
Definition memcpy_fromfs (to from n : Z) : M (seg * seg) unit :=
  r ← (if Z.testbit n 0 then movs 1 (from, to) else mret (from, to));
  r ← (if Z.testbit n 1 then movs 2 r else mret r);
  _ ← rep_movsl (Z.to_nat (Z.shiftr n 2)) r;
  mret tt.

(** ** All the bytes *)

(** The memory [dst] with [l] at [a]. *)
Fixpoint put_seg (a : Z) (l : list Z) (dst : seg) : seg := match l with [] => dst | v :: l' => put_seg (a + 1) l' (<[a := v]> dst) end.

Lemma put_seg_app a l1 l2 d : put_seg a (l1 ++ l2) d = put_seg (a + Z.of_nat (length l1)) l2 (put_seg a l1 d).
Proof. revert a d. induction l1 as [|v l1 IH]; intros a d; cbn [put_seg app length]; [by rewrite Z.add_0_r|]. rewrite IH. f_equal. lia. Qed.

Lemma put_seg_lookup l : forall a d x, put_seg a l d !! x = if bool_decide (a <= x < a + Z.of_nat (length l)) then l !! Z.to_nat (x - a) else d !! x.
Proof.
  induction l as [|v l IH]; intros a d x; cbn [put_seg length]; [by rewrite bool_decide_eq_false_2 by lia|]. rewrite IH. destruct (Z.eq_dec x a) as [->|Hne].
  - rewrite bool_decide_eq_false_2, bool_decide_eq_true_2 by lia. rewrite Z.sub_diag. apply (lookup_insert_eq (M := gmap Z)).
  - case_bool_decide as H1; case_bool_decide as H2; try lia; [by replace (Z.to_nat (x - a)) with (S (Z.to_nat (x - (a + 1)))) by lia|]. by apply (lookup_insert_ne (M := gmap Z)).
Qed.

Definition holds (m : seg) (a n : Z) : Prop := forall i, 0 <= i < n -> is_Some (m !! (a + i)).

Lemma holds_with a l d b n : holds d b n -> holds (put_seg a l d) b n.
Proof. intros Hd i Hi. rewrite put_seg_lookup. case_bool_decide; [apply lookup_lt_is_Some_2; lia|by apply Hd]. Qed.

Lemma get_bytes_run n : forall a m, holds m a (Z.of_nat n) -> exists l, get_bytes n a m = Some l /\ length l = n /\ forall i, (i < n)%nat -> l !! i = m !! (a + Z.of_nat i).
Proof.
  induction n as [|n IH]; intros a m Hm; cbn [get_bytes]; [exists []; split; [done|split; [done|lia]]|]. destruct (Hm 0 ltac:(lia)) as [v Hv]. rewrite Z.add_0_r in Hv. rewrite Hv. cbn.
  destruct (IH (a + 1) m) as (l & -> & Hl & Hi); [intros i Hi; rewrite <-Z.add_assoc; apply Hm; lia|]. exists (v :: l). split; [done|]. split; [cbn; by rewrite Hl|]. intros [|i] Hlt; cbn; [by rewrite Z.add_0_r|]. rewrite Hi by lia. f_equal. lia.
Qed.

Lemma set_bytes_run l : forall a m, holds m a (Z.of_nat (length l)) -> set_bytes a l m = Some (put_seg a l m).
Proof.
  induction l as [|v l IH]; intros a m Hm; cbn [set_bytes put_seg]; [done|]. destruct (Hm 0 ltac:(cbn; lia)) as [w Hw]. rewrite Z.add_0_r in Hw. rewrite Hw. cbn. apply IH. intros i Hi. replace (a + 1 + i) with (a + (i + 1)) by lia. apply (holds_with a [v] m a _ Hm). cbn [length]. lia.
Qed.

(** [src] has [l] at [from], and [n] bytes from [to] on are there to be written. *)
Lemma movs_moves w src dst from to : holds src from (Z.of_nat w) -> holds dst to (Z.of_nat w) -> 0 <= from -> from + Z.of_nat w < 2 ^ 32 -> 0 <= to -> to + Z.of_nat w < 2 ^ 32 ->
  exists l, length l = w /\ (forall i, (i < w)%nat -> l !! i = src !! (from + Z.of_nat i)) /\ movs w (from, to) (src, dst) = Ok (from + Z.of_nat w, to + Z.of_nat w) (src, put_seg to l dst).
Proof.
  intros Hs Hd Hf0 Hf Ht0 Ht. destruct (get_bytes_run w from src Hs) as (l & Hl & Hlen & Hi). exists l. split; [done|]. split; [done|]. unfold movs. cbn [fst snd]. erewrite run_bind by reflexivity. cbn [fst snd]. rewrite Hl. erewrite run_bind by reflexivity. rewrite set_bytes_run by (by rewrite Hlen). do 2 erewrite run_bind by reflexivity. rewrite !u32_small by (unfold in_u32; lia). done.
Qed.

(** [n] bytes have been copied. *)
Definition copied (src : seg) (from to n : Z) (dst dst' : seg) : Prop :=
  forall x, dst' !! x = if bool_decide (to <= x < to + n) then src !! (from + (x - to)) else dst !! x.

Lemma copied_with src from to l dst : (forall i, (i < length l)%nat -> l !! i = src !! (from + Z.of_nat i)) -> copied src from to (Z.of_nat (length l)) dst (put_seg to l dst).
Proof. intros Hl x. rewrite put_seg_lookup. case_bool_decide; [|done]. rewrite Hl by lia. f_equal. lia. Qed.

Lemma copied_trans src from to n1 n2 d d1 d2 : 0 <= n1 -> 0 <= n2 -> copied src from to n1 d d1 -> copied src (from + n1) (to + n1) n2 d1 d2 -> copied src from to (n1 + n2) d d2.
Proof.
  intros H1 H2 C1 C2 x. rewrite C2. case_bool_decide; [rewrite bool_decide_eq_true_2 by lia; f_equal; lia|]. rewrite C1. case_bool_decide; [by rewrite bool_decide_eq_true_2 by lia|by rewrite bool_decide_eq_false_2 by lia].
Qed.

Lemma copied_holds src from to n d d' b k : 0 <= n -> holds src from n -> copied src from to n d d' -> holds d b k -> holds d' b k.
Proof. intros Hn Hs Hc Hd i Hi. rewrite Hc. case_bool_decide; [apply Hs; lia|by apply Hd]. Qed.

(** A part of the copy that goes on at [from + k], [to + k]. *)
Definition copies (m : Z * Z -> M (seg * seg) (Z * Z)) (n : Z) : Prop := forall src dst from to, holds src from n -> holds dst to n -> 0 <= from -> from + n < 2 ^ 32 -> 0 <= to -> to + n < 2 ^ 32 ->
  exists dst', m (from, to) (src, dst) = Ok (from + n, to + n) (src, dst') /\ copied src from to n dst dst'.

Lemma movs_copies w : copies (movs w) (Z.of_nat w).
Proof.
  intros src dst from to Hs Hd Hf0 Hf Ht0 Ht. destruct (movs_moves w src dst from to Hs Hd Hf0 Hf Ht0 Ht) as (l & Hl & Hi & Hr). exists (put_seg to l dst). split; [done|]. rewrite <-Hl. apply copied_with. by rewrite Hl.
Qed.

Lemma none_copies : copies mret 0.
Proof. intros src dst from to _ _ _ _ _ _. exists dst. rewrite !Z.add_0_r. split; [done|]. intros x. by rewrite bool_decide_eq_false_2 by lia. Qed.

Lemma copies_then m1 m2 n1 n2 : 0 <= n1 -> 0 <= n2 -> copies m1 n1 -> copies m2 n2 -> copies (fun r => r ← m1 r; m2 r) (n1 + n2).
Proof.
  intros H1 H2 C1 C2 src dst from to Hs Hd Hf0 Hf Ht0 Ht.
  assert (Hs1 : holds src from n1) by (intros i Hi; apply Hs; lia). assert (Hd1 : holds dst to n1) by (intros i Hi; apply Hd; lia).
  destruct (C1 src dst from to Hs1 Hd1 ltac:(lia) ltac:(lia) ltac:(lia) ltac:(lia)) as (d1 & Hr1 & Hc1).
  destruct (C2 src d1 (from + n1) (to + n1)) as (d2 & Hr2 & Hc2); [intros i Hi; rewrite <-Z.add_assoc; apply Hs; lia| |lia|lia|lia|lia|].
  - intros i Hi. rewrite <-Z.add_assoc. apply (copied_holds src from to n1 dst d1 to (n1 + n2) H1 Hs1 Hc1 Hd). lia.
  - exists d2. rewrite (run_bind _ _ _ _ _ Hr1), Hr2, !Z.add_assoc. split; [done|]. by eapply copied_trans.
Qed.

Lemma rep_copies n : copies (rep_movsl n) (4 * Z.of_nat n).
Proof.
  induction n as [|n IH]; [exact none_copies|]. replace (4 * Z.of_nat (S n)) with (Z.of_nat 4 + 4 * Z.of_nat n) by lia. apply (copies_then (movs 4) (rep_movsl n)); [lia|lia|apply movs_copies|exact IH].
Qed.

Lemma if_copies (b : bool) w : copies (fun r => if b then movs w r else mret r) (if b then Z.of_nat w else 0).
Proof. destruct b; [apply movs_copies|apply none_copies]. Qed.

(** The length, from its bits. *)
Lemma length_bits n : 0 <= n -> (if Z.testbit n 0 then 1 else 0) + ((if Z.testbit n 1 then 2 else 0) + 4 * Z.shiftr n 2) = n.
Proof.
  intros Hn. assert (H0 : Z.b2z (Z.testbit n 0) = n mod 2) by (rewrite Z.testbit_spec' by lia; by rewrite Z.div_1_r). assert (H1 : Z.b2z (Z.testbit n 1) = (n / 2) mod 2) by (by rewrite Z.testbit_spec' by lia).
  rewrite Z.shiftr_div_pow2 by lia. change (2 ^ 2) with (2 * 2). rewrite <-Z.div_div by lia. pose proof (Z.div_mod n 2 ltac:(lia)). pose proof (Z.div_mod (n / 2) 2 ltac:(lia)). destruct (Z.testbit n 0), (Z.testbit n 1); cbn [Z.b2z] in *; lia.
Qed.

(** C19: [memcpy_tofs] and [memcpy_fromfs] copy exactly the [n] bytes they are asked to:
    a byte if bit 0 of the length is set, a word if bit 1 is, and the rest in longs.  No
    byte outside the target changes, and none outside the source is read. *)
Theorem segment_copy (src dst : seg) (to from n : Z) : 0 <= n -> holds src from n -> holds dst to n -> 0 <= from -> from + n < 2 ^ 32 -> 0 <= to -> to + n < 2 ^ 32 ->
  exists dst', memcpy_tofs to from n (src, dst) = Ok tt (src, dst') /\ memcpy_fromfs to from n (src, dst) = Ok tt (src, dst') /\ copied src from to n dst dst'.
Proof.
  intros Hn Hs Hd Hf0 Hf Ht0 Ht. assert (H2 : 0 <= Z.shiftr n 2) by (by apply Z.shiftr_nonneg).
  set (k := Z.to_nat (Z.shiftr n 2)). assert (C : copies (fun r => r ← (if Z.testbit n 0 then movs 1 r else mret r); r ← (if Z.testbit n 1 then movs 2 r else mret r); rep_movsl k r) ((if Z.testbit n 0 then Z.of_nat 1 else 0) + ((if Z.testbit n 1 then Z.of_nat 2 else 0) + 4 * Z.of_nat k))).
  { apply (copies_then (fun r => if Z.testbit n 0 then movs 1 r else mret r) (fun r => r ← (if Z.testbit n 1 then movs 2 r else mret r); rep_movsl k r)); [destruct (Z.testbit n 0); lia|destruct (Z.testbit n 1); lia|apply if_copies|].
    apply (copies_then (fun r => if Z.testbit n 1 then movs 2 r else mret r) (rep_movsl k)); [destruct (Z.testbit n 1); lia|lia|apply if_copies|apply rep_copies]. }
  unfold k in C. rewrite Z2Nat.id in C by done.
  change (Z.of_nat 1) with 1 in C. change (Z.of_nat 2) with 2 in C. rewrite (length_bits n Hn) in C. destruct (C src dst from to Hs Hd Hf0 Hf Ht0 Ht) as (dst' & Hr & Hc). exists dst'.
  assert (E : memcpy_tofs to from n (src, dst) = Ok tt (src, dst')). { unfold memcpy_tofs. unfold mbind, M_bind in *. destruct ((if Z.testbit n 0 then movs 1 (from, to) else mret (from, to)) (src, dst)) as [r s1|]; [|done]. destruct ((if Z.testbit n 1 then movs 2 r else mret r) s1) as [r2 s2|]; [|done]. by rewrite Hr. }
  done.
Qed.

(** Seven bytes, over the border of a long. *)
Definition small_seg (a : Z) : seg := list_to_map (zip (range a 12) (range 65 12)).
Lemma segment_copy_witness : exists dst', memcpy_tofs 103 1001 7 (small_seg 1000, small_seg 100) = Ok tt (small_seg 1000, dst') /\ memcpy_fromfs 103 1001 7 (small_seg 1000, small_seg 100) = Ok tt (small_seg 1000, dst') /\ copied (small_seg 1000) 1001 103 7 (small_seg 100) dst'.
Proof.
  apply (segment_copy (small_seg 1000) (small_seg 100) 103 1001 7); try lia.
  - intros i Hi. assert (i = 0 \/ i = 1 \/ i = 2 \/ i = 3 \/ i = 4 \/ i = 5 \/ i = 6) as [->|[->|[->|[->|[->|[->| ->]]]]]] by lia; eexists; reflexivity.
  - intros i Hi. assert (i = 0 \/ i = 1 \/ i = 2 \/ i = 3 \/ i = 4 \/ i = 5 \/ i = 6) as [->|[->|[->|[->|[->|[->| ->]]]]]] by lia; eexists; reflexivity.
Defined.
