(* ===== verification/Report.v ===== *)
(** * What the kernel tells about itself: [show_mem], [show_state], and [sched_init]

    [show_mem] of [mm/memory.c] counts the pages of the machine and of each program;
    [show_task] and [show_state] of [kernel/sched.c] list the tasks.  What they print is
    a list of lines, each a format and its numbers.

    [sched_init] puts the descriptors of the first task into the descriptor table and
    clears those of the others, and programs the clock; what it writes to ports is a list
    of port and value. *)

From S2P Require Import Prelude TaskStruct Sched Exit Fork Signal Memory Gates.

Local Open Scope string_scope.
Local Open Scope list_scope.
Local Open Scope Z_scope.

Definition line : Type := string * list Z.

(** ** [show_mem] *)

(** The loop over [mem_map]: free pages, all pages, shared ones. *)
Definition count_page (st : Z * Z * Z) (c : Z) : Z * Z * Z :=
  let '(free, total, shared) := st in
  if c =? USED then st
  else if c =? 0 then (free + 1, total + 1, shared) else (free, total + 1, shared + (c - 1)).

(** The loop over a page table: the pages, and what is said about those that cannot be. *)
Definition table_pages (h : Z) (p : gmap Z Z) (i pg_tbl : Z) : Z * list line :=
  foldl (fun '(n, out) j =>
    let e := word p (pg_tbl + 4 * j) in
    if Z.testbit e 0 && (LOW_MEM <? e) then if h <? e then (n, out ++ [("page_dir[%d][%d]: %08X", [i; j; e])]) else (n + 1, out)
    else (n, out)) (0, []) (range 0 1024).

(** A round of the loop over the page directory.  An entry that points above the memory
    is reported, and [continue] does not count [i] on. *)
Definition show_step (h : Z) (p : gmap Z Z) (st : Z * Z * Z * list line) : (Z * Z * Z * list line) + (Z * Z * Z * list line) :=
  let '(i, k, free, out) := st in
  if i <? 1024 then
    let e := word p (4 * i) in
    let next k free out :=
      let i := i + 1 in
      if (Z.land i 15 =? 0) && truth k then (i, 0, free + 1, out ++ [("Process %d: %d pages", [Z.shiftr i 4 - 1; k + 1])]) else (i, k, free, out) in
    if Z.testbit e 0 then
      if h <? e then inl (i, k, free, out ++ [("page directory[%d]: %08X", [i; e])])
      else
        let n := if LOW_MEM <? e then 1 else 0 in
        let '(c, l) := table_pages h p i (Z.land 0xfffff000 e) in
        inl (next (k + n + c) (free + n + c) (out ++ l))
    else inl (next k free out)
  else inr st.

(** [void show_mem(void)] *)
Definition show_mem (fuel : nat) : M mst (list line) :=
  m ← getS;
  let '(free, total, shared) := foldl count_page (0, 0, 0) (take (Z.to_nat PAGING_PAGES) (mem_map m)) in
  r ← iter fuel (fun st => mret (show_step (HIGH_MEMORY m) (phys m) st)) (4, 0, free, []);
  let '(_, _, found, out) := r in
  mret ([("Mem-info:", []); ("%d free pages of %d", [free; total]); ("%d pages shared", [shared])] ++ out ++ [("Memory found: %d (%d)", [found - shared; total])]).

(** ** [show_state] *)

Definition pid_or (p : option tptr) : M kst Z := match p with Some _ => t ← deref p; mret (pid t) | None => mret (-1) end.

Section State.
(** The bytes of a task's page behind its structure, and the word where its program
    counter is. *)
Context (kstack : tptr -> list Z) (saved_pc : tptr -> Z).

(** The bytes of the stack that were never used. *)
Fixpoint unused (l : list Z) : Z := match l with c :: l' => if c =? 0 then 1 + unused l' else 0 | [] => 0 end.

(** [void show_task(int nr, struct task_struct * p)] *)
Definition show_task (nr : Z) (p : tptr) : M kst (list line) :=
  t ← deref (Some p);
  f ← deref (p_pptr t);
  c ← pid_or (p_cptr t);
  let stack := kstack p in
  last ← (if bool_decide (is_Some (p_ysptr t)) || bool_decide (is_Some (p_osptr t)) then
            y ← pid_or (p_ysptr t); o ← pid_or (p_osptr t); mret ("   Younger sib=%d, older sib=%d", [y; o])
          else mret ("", []));
  mret [("%d: pid=%d, state=%d, father=%d, child=%d, ", [nr; pid t; state t; pid f; c]);
        ("%d/%d chars free in kstack", [unused stack; Z.of_nat (length stack)]); ("   PC=%08X.", [saved_pc p]); last].

(** The loop of [show_state]. *)
Fixpoint show_tasks (l : list Z) : M kst (list line) :=
  match l with
  | [] => mret []
  | i :: l' =>
      p ← task_at i;
      a ← match p with Some p => show_task i p | None => mret [] end;
      b ← show_tasks l';
      mret (a ++ b)
  end.

(** [void show_state(void)]; [lock] is set while another call is at it. *)
Definition show_state (lock : bool) : M kst (list line) :=
  if lock then mret [] else l ← show_tasks (range 0 64); mret (("Task-info:", []) :: l).
End State.

(** ** [do_get_ps_info] of [kernel/chr_drv/tty_ioctl.c] *)

Section PsInfo.
(** A task structure as bytes, all of the same length [size]. *)
Context (image : task_struct -> list Z) (size : Z).

Fixpoint put_image (l : list Z) (d : Z) : M kst unit :=
  match l with [] => mret tt | c :: l' => put_fs_byte c d;; put_image l' (d + 1) end.

(** [static int do_get_ps_info(int arg)]: a flag, 64 words that say which tasks there
    are, and their structures. *)
Definition do_get_ps_info (arg : Z) : M kst Z :=
  call_verify_area arg (4 + 4 * 64 + size * 64);;
  for_each (range 0 64) (fun n =>
    p ← task_at n;
    match p with
    | Some _ => t ← deref p; put_image (image t) (arg + 4 + 4 * 64 + size * n);; put_fs_long 1 (arg + 4 + 4 * n)
    | None => put_fs_long 0 (arg + 4 + 4 * n)
    end);;
  mret 0.
End PsInfo.

(** ** [sched_init] *)

Definition FIRST_TSS_ENTRY : Z := 4.
Definition FIRST_LDT_ENTRY : Z := FIRST_TSS_ENTRY + 1.
Definition _TSS (n : Z) : Z := Z.shiftl n 4 + Z.shiftl FIRST_TSS_ENTRY 3.
Definition _LDT (n : Z) : Z := Z.shiftl n 4 + Z.shiftl FIRST_LDT_ENTRY 3.
Definition LATCH : Z := 1193180 / 100.

(** The tables of the processor, its task and local descriptor registers, and what has
    been written to ports. *)
Record cpu := Cpu { c_gdt : gmap Z desc_struct; c_idt : idt_t; c_tr : Z; c_ldtr : Z; c_ports : list (Z * Z) }.
Definition put_gdt (n : Z) (d : desc_struct) : M cpu unit := modify (fun c => Cpu (<[n := d]> (c_gdt c)) (c_idt c) (c_tr c) (c_ldtr c) (c_ports c)).
Definition put_port (v port : Z) : M cpu unit := modify (fun c => Cpu (c_gdt c) (c_idt c) (c_tr c) (c_ldtr c) (c_ports c ++ [(port, v)])).
Definition on_idt (m : M idt_t unit) : M cpu unit := fun c => match m (c_idt c) with Ok a i => Ok a (Cpu (c_gdt c) i (c_tr c) (c_ldtr c) (c_ports c)) | Halt h i => Halt h (Cpu (c_gdt c) i (c_tr c) (c_ldtr c) (c_ports c)) end.

(** [void sched_init(void)], with the addresses of the first task's [tss] and [ldt] and
    the mask of the interrupt controller.  [sched_init_tasks] is the loop's work on
    [task]. *)
Definition sched_init (addr : string -> Z) (tss ldt mask : Z) : M cpu unit :=
  put_gdt FIRST_TSS_ENTRY (set_tss_desc tss);;
  put_gdt FIRST_LDT_ENTRY (set_ldt_desc ldt);;
  for_each (range 1 63) (fun i => put_gdt (FIRST_TSS_ENTRY + 2 * i) (Desc 0 0);; put_gdt (FIRST_TSS_ENTRY + 2 * i + 1) (Desc 0 0));;
  modify (fun c => Cpu (c_gdt c) (c_idt c) (_TSS 0) (_LDT 0) (c_ports c));;
  put_port 0x36 0x43;;
  put_port (Z.land LATCH 0xff) 0x40;;
  put_port (Z.shiftr LATCH 8) 0x40;;
  on_idt (set_intr_gate addr 0x20 "timer_interrupt");;
  put_port (Z.land mask 0xfe) 0x21;;
  on_idt (set_system_gate addr 0x80 "system_call").

(** ** Whether [show_mem] ends *)

(** The entry [i] of the page directory points above the memory. *)
Definition wild (m : mst) (i : Z) : Prop := Z.testbit (word (phys m) (4 * i)) 0 = true /\ HIGH_MEMORY m < word (phys m) (4 * i).

Lemma show_step_next h p i k free out : i < 1024 -> (Z.testbit (word p (4 * i)) 0 = true -> word p (4 * i) <= h) -> exists k' free' out', show_step h p (i, k, free, out) = inl (i + 1, k', free', out').
Proof.
  intros Hi Hw. unfold show_step. destruct (Z.ltb_spec i 1024); [|lia]. cbv zeta. destruct (Z.testbit (word p (4 * i)) 0).
  - destruct (Z.ltb_spec h (word p (4 * i))); [specialize (Hw eq_refl); lia|]. destruct (table_pages _ _ _ _) as [c l]. destruct ((Z.land (i + 1) 15 =? 0) && _); by do 3 eexists.
  - destruct ((Z.land (i + 1) 15 =? 0) && truth k); by do 3 eexists.
Qed.

Lemma show_step_stays h p i k free out : i < 1024 -> Z.testbit (word p (4 * i)) 0 = true -> h < word p (4 * i) -> exists out', show_step h p (i, k, free, out) = inl (i, k, free, out').
Proof.
  intros Hi Hb Hw. unfold show_step. destruct (Z.ltb_spec i 1024); [|lia]. cbv zeta. rewrite Hb. destruct (Z.ltb_spec h (word p (4 * i))); [|lia]. by eexists.
Qed.

Lemma show_loop_ends m n : forall i k free out, i + Z.of_nat n = 1024 -> 4 <= i -> (forall j, 4 <= j < 1024 -> ~ wild m j) ->
  exists r, iter (S n) (fun st => mret (show_step (HIGH_MEMORY m) (phys m) st)) (i, k, free, out) m = Ok r m.
Proof.
  induction n as [|n IH]; intros i k free out Hi H4 Hw; cbn [iter].
  - exists (i, k, free, out). rewrite (run_bind _ _ _ (inr (i, k, free, out)) m); [done|]. unfold show_step. destruct (Z.ltb_spec i 1024); [lia|done].
  - destruct (show_step_next (HIGH_MEMORY m) (phys m) i k free out) as (k' & f' & o' & E); [lia|intros Hb; apply Z.nlt_ge; intros Hh; by apply (Hw i ltac:(lia))|]. rewrite (run_bind _ _ _ (inl (i + 1, k', f', o')) m) by (by rewrite E). apply IH; [lia|lia|done].
Qed.

Lemma show_loop_hangs m j n : wild m j -> j < 1024 -> forall i k free out, i <= j -> iter n (fun st => mret (show_step (HIGH_MEMORY m) (phys m) st)) (i, k, free, out) m = Halt Hang m.
Proof.
  intros [Hjb Hjh] Hj. induction n as [|n IH]; intros i k free out Hi; [done|]. cbn [iter].
  destruct (decide (Z.testbit (word (phys m) (4 * i)) 0 = true /\ HIGH_MEMORY m < word (phys m) (4 * i))) as [[Hb Hh]|Hn].
  - destruct (show_step_stays (HIGH_MEMORY m) (phys m) i k free out ltac:(lia) Hb Hh) as (o' & E). rewrite (run_bind _ _ _ (inl (i, k, free, o')) m) by (by rewrite E). by apply IH.
  - destruct (decide (i = j)) as [->|Hne]; [by exfalso; apply Hn|]. destruct (show_step_next (HIGH_MEMORY m) (phys m) i k free out) as (k' & f' & o' & E); [lia|intros Hb; apply Z.nlt_ge; intros Hh; by apply Hn|].
    rewrite (run_bind _ _ _ (inl (i + 1, k', f', o')) m) by (by rewrite E). apply IH. lia.
Qed.

(** [show_mem] ends exactly if no entry of the page directory points above the
    memory: then 1021 rounds are enough, and it changes nothing.  At the first entry that
    does, it prints the same line for ever. *)
Theorem show_mem_ends (m : mst) : (exists out, show_mem 1021 m = Ok out m) <-> forall i, 4 <= i < 1024 -> ~ wild m i.
Proof.
  unfold show_mem. split.
  - intros [out Hr] j Hj Hw. erewrite run_bind in Hr by reflexivity. destruct (foldl count_page _ _) as [[free total] shared]. unfold mbind, M_bind in Hr. rewrite (show_loop_hangs m j 1021 Hw ltac:(lia) 4 0 free []) in Hr by lia. done.
  - intros Hw. erewrite run_bind by reflexivity. destruct (foldl count_page _ _) as [[free total] shared]. destruct (show_loop_ends m 1020 4 0 free [] ltac:(lia) ltac:(lia) Hw) as [[[[i k] f] o] Hr]. rewrite (run_bind _ _ _ _ _ Hr). by eexists.
Qed.

(** However long it is given. *)
Theorem show_mem_hangs (m : mst) (i : Z) (fuel : nat) : 4 <= i < 1024 -> wild m i -> show_mem fuel m = Halt Hang m.
Proof.
  intros Hi Hw. unfold show_mem. erewrite run_bind by reflexivity. destruct (foldl count_page _ _) as [[free total] shared]. unfold mbind, M_bind. by rewrite (show_loop_hangs m i fuel Hw) by lia.
Qed.
